(* ===== verification/_CoqProject ===== *)
-Q . S2P
Prelude.v
Calendar.v
Texts.v
Models.v
Session.v
Ledger.v
Invoices.v
Lifecycle.v
Outbox.v
Orchestrator.v
Funding.v
Vault.v
Mail.v
Delivery.v
Webhooks.v
Refunds.v
Recurring.v
Dunning.v
Attempts.v
Retail.v
Deploy.v
Permissions.v
Checkout.v
Vmid.v
Placement.v
Jobs.v
Backups.v
Pipeline.v
Deadline.v
Ipam.v
GuestIp.v
Scripts.v
Installs.v
Plans.v
Provision.v
Racks.v
Orders.v
Ethereum.v
Usdt.v
Redis.v
Auth.v
TwoFactor.v
Accounts.v
Portal.v
Footprints.v
Sessions.v
Guesses.v
Downloads.v
