(* ===== verification/Prelude.v ===== *)
(** Verification of the billing, allocation and sign-in core of Rackflow DCIM.

    Rackflow sells servers, virtual machines and proxies to resellers and to
    private customers.  This development models the part of it that moves
    money, decides when services run, and hands out what there is only once:
    the services under src/app/services/ that keep the credit ledger, the
    invoices, the payments, the recurring charges, the orders and the
    blockchain deposits, the allocators of addresses and guest identifiers,
    and the permissions of clients, with the tables of src/app/models/ they
    work on; and proves what makes them correct.

    * How the parts interact

    Every change of a reseller's credit is a ledger entry (Ledger).  Money owed
    is an invoice (Invoices); the payment orchestrator (Orchestrator) settles
    an invoice from the reseller's credit and from stored payment methods
    (Vault), in the order the reseller prefers, through a gateway.  Gateways
    confirm, fail, reverse and dispute payments later by webhook (Webhooks),
    and administrators refund them (Refunds).  A worker opens one cycle and one
    invoice per service and month, has the orchestrator charge it, and when
    that fails retries on a schedule, grants grace, suspends the service
    (Lifecycle) and restores it when the debt is paid (Recurring).  Private
    customers order from a storefront: a checkout quotes a plan with options,
    coupon and tax, opens an invoice for the order, and an administrator has
    the order fulfilled by provisioning (Checkout); fulfilled items become
    rows of the recurring worker (Retail), and so do the services a reseller
    deploys, which are priced, checked against quotas and charged before they
    are provisioned (Deploy).  What a client may do with a service is resolved
    from layers of presets, and a reseller can withhold some of it, which the
    deploy stores on the service (Permissions).  Services take guest
    identifiers from their cluster (Vmid) and addresses from subnets (Ipam);
    virtual machines are placed on a node (Placement) and deployed step by step
    by durable jobs that workers take turns to advance (Jobs); their guests
    have addresses of a pool (GuestIp).  Every order, of a billing platform, a
    reseller or a checkout, becomes one request (Orders), which the catalogue
    completes (Plans) and which creates a virtual machine or a proxy
    (Provision) or takes a server of a rack (Racks), whose installation is
    queued (Scripts, Installs) and fetches its files with tokens (Downloads).
    Resellers top up by USDT: a deposit has an address of its own on Ethereum;
    a watcher reads the chain through a node (Ethereum), settles the payment
    through the orchestrator once enough has arrived, undoes it by the gateway
    webhook's reversal when the chain reorganises, and a sweeper moves the
    tokens to the treasury (Usdt).  What customers are told goes through
    durable queues (Outbox, Mail), which workers empty (Delivery).

    Clients, resellers and staff sign in with a password and, when they have
    one, a second factor (TwoFactor); a session is a token whose digest names a
    hash in Redis (Redis, Auth).  Sessions are opened by the login, by staff
    who impersonate a client and by tickets of billing platforms, and ended by
    changes of the password (Accounts, Portal).

    * Files

    - Prelude: the record-update notation, the state-and-exception monad the
      methods are written in ([bind] is the sequencing of statements,
      [try_catch] is try/except, [for_each] and [fold_each] are for loops), its
      weakest preconditions [wp] and two-outcome invariants [keeps] with their
      tactics, tables (lists of rows under integer keys), sorting by a key, and
      Python strings.
    - Calendar: instants as microseconds since 1 January of year 1, and the
      proleptic Gregorian calendar of [datetime], with its laws.
    - Texts: the texts of instants and of lists of strings that are written to
      Redis, which are read back, and file name patterns.
    - Models: src/app/models/reseller.py, usdt.py, ipam.py,
      vmid_reservation.py and the columns of other tables that the components
      read or write; the unique, check and integer-width constraints.
    - Session: the SQLAlchemy session, exceptions, [flush], [commit],
      [rollback] and [begin_nested], and the logs of charges sent to gateways
      and of calls sent to an Ethereum node.
    - Ledger: services/credit_ledger_service.py.
    - Invoices: services/invoice_service.py.
    - Lifecycle: services/service_lifecycle.py, services/service_resource.py.
    - Outbox: services/notification_service.py.
    - Orchestrator, Funding, Vault: services/payments/orchestrator.py, base.py
      and registry.py; Funding proves what funding an invoice promises, Vault
      holds the vaulting of Stripe and PayPal methods.
    - Mail: enqueueing of services/email_message_service.py and
      services/commerce_webhook_service.py.
    - Delivery: services/email_sender.py, workers/notification_outbox.py, the
      retry of services/email_message_service.py and api/commerce_admin.py,
      and the deliveries of services/commerce_webhook_service.py.
    - Webhooks: services/payments/webhooks.py and the transaction wrapper of
      the endpoints of api/reseller_panel.py.
    - Refunds: services/payments/refunds.py.
    - Recurring: services/recurring_billing_service.py,
      workers/recurring_billing.py, the settings of core/config.py and the
      administrator's retry of api/reseller_admin.py; Dunning and Attempts
      prove its properties.
    - Retail: services/commerce_recurring_service.py and the cancellation of
      services/commerce_lifecycle_service.py.
    - Deploy: dao/reseller_dao.py, the deploys of
      services/reseller_billing_service.py, the effective configuration of
      dao/vm_config_dao.py and [_create_service] of api/reseller.py.
    - Permissions: core/client_permissions.py,
      services/client_permission_resolver.py, dao/permission_set_dao.py,
      api/permission_sets_admin.py, core/seed_permission_sets.py, and the
      permission ceilings and policies of services/reseller_billing_service.py.
    - Checkout: services/checkout_service.py, dao/order_dao.py,
      dao/sequence_dao.py, the checkout of api/commerce_client.py and the order
      endpoints of api/commerce_admin.py.
    - Vmid: services/vmid_allocator.py, dao/vmid_reservation_dao.py.
    - Placement: the auto-placement of services/proxmox_placement.py.
    - Jobs: services/deployment/runner.py, worker.py, step.py, strategy.py,
      strategies.py and registry.py, dao/vm_deployment_job_dao.py and
      services/vm_strategy_executor.py.
    - Backups: the settings and the enqueueing of restores of
      services/vm_backup_service.py; with it, all requests that make jobs
      ([serve_jobs]).  Pipeline proves that jobs refine pipelines, Deadline
      that they end.
    - Ipam: dao/ipam_dao.py, services/ip_allocation.py.
    - GuestIp: dao/vm_ip_allocation_dao.py, api/vm_ip_allocations.py,
      services/vm_ip_reassign.py and the status of api/services_admin.py.
    - Scripts: utils/shell_escape.py, the parameters of
      services/os_template_service.py and the rendering of installation scripts
      in api/billing.py.
    - Installs: dao/boot_task_dao.py, dao/installation_task_dao.py,
      api/installation_tasks.py, the queueing of api/billing.py and the
      authorization of network boots in api/server_interaction.py.
    - Plans: services/service_product_snapshot.py, vm_install_type_strategy.py,
      vm_provisioning_service.py and vm_os_strategy.py.
    - Provision: services/provisioning/request.py, errors.py, vm.py and
      http_proxy.py, services/proxy_provisioning.py and dao/service_dao.py.
    - Racks: services/provisioning/bare_metal.py.
    - Orders: services/provisioning/service.py and adapters.py, and the requests
      and the cleanup of api/billing.py, api/reseller.py and
      services/checkout_service.py.
    - Downloads: services/download_token_service.py and the files served by
      api/server_interaction.py.
    - Ethereum: the amounts of services/payments/usdt_crypto.py and the client
      of services/payments/usdt_rpc.py.
    - Usdt: the deposits of services/payments/usdt_crypto.py,
      services/payments/usdt_watcher.py and usdt_sweeper.py,
      workers/usdt_watcher.py, the settings of core/config.py and the
      administrator's actions of api/reseller_admin.py.
    - Redis: the commands the application sends through core/redis.py, and the
      state of a web request.
    - Auth: models/user.py, dao/user_dao.py, core/rate_limit.py,
      services/user_session_service.py, core/auth.py, core/billing_auth.py,
      core/reseller_auth.py and core/commerce_auth.py.
    - TwoFactor: services/totp_service.py and core/service_instance_crypto.py.
    - Accounts: services/password_reset_service.py and api/user.py.
    - Portal: api/admin_users.py, services/client_portal_service.py,
      api/commerce_auth_public.py, the redemption of api/client.py and the
      client accounts of dao/commerce_dao.py; and the requests of all of these,
      served one after the other ([serve], [served_all]).
    - Footprints: the steps each of those requests may take on Redis.  Sessions
      proves who is signed in and for how long, Guesses how often a second
      factor can be guessed.

    Definitions keep the source's names, without the leading underscore of
    private methods.  Where the code passes an object of the session, the
    definition takes the primary key of its row, and attribute access reads the
    row's current columns.  The helper definitions next to a method (queries,
    the record a statement inserts, the assignments of one block) translate
    parts of its body.

    * What the theorems show

    - Money is conserved: cached balances are the sums of the ledger, in every
      reachable session and through every sequence of payments, gateway events,
      refunds and USDT requests; debits do not overdraw; entries are posted
      once per idempotency key and reversed at most once; invoices are never
      over-allocated and are paid exactly when fully allocated; a refund or a
      webhook takes effect at most once and never in part.
    - Dunning is bounded and recorded: one cycle per due date, the claim and
      the invoice are committed before any gateway is called, retries are
      ordered and end within the grace period, an exhausted cycle is never
      charged, not after an administrator's retry either: it waits for the end
      of its grace and is suspended then; a paid cycle advances the due date by exactly one month and
      short months do not move the later ones; one worker holds the lease.
    - Deploys are paid for: a reseller is sold only what it may sell, at its
      group's price; a deploy fits every quota that covers it, is paid to the
      cent before anything is provisioned, charged once per idempotency key,
      and given back from the wallet debits when it fails; a blocked account
      deploys nothing.
    - Orders follow their state machine: the committed history of every order
      is a run of an abstract machine, a quote adds up, coupons stay within
      their limits, a checkout nonce buys once, a fulfilment that returns was
      of an order waiting for payment or acceptance and left it active with
      every item delivered or in error with one of them failed.
    - Permissions come from the most specific layer that sets them; what a
      deploy stores of a reseller's denials stays denied whatever is changed of
      presets and policies and however often the seeding runs (it clears the
      denials of one permission, vm.change_password), and never grants; presets
      stay within the catalogue's keys.
    - Nothing is given out twice: the guest identifier allocator refines a
      partial map that only grows and finds a free identifier whenever there is
      one; the address pool's states match its assignments, and no address is
      assigned beyond its resale limit or twice to one customer; a guest's
      address is the same in the pool, on its service and in its configuration,
      and moves as a whole; orders that run next to each other never share a
      server, as long as those that may get the same one lock the same row.
    - Orders end cleanly: an order for a virtual machine leaves a service with
      its address or nothing of it; no two services have the same name,
      whatever is ordered one after the other; what is planned for a machine can
      be deployed.
    - Installations: a value that a script has as ${NAME} between double quotes
      reads back as itself, whatever surrounds it, as long as it spells no
      variable; a network boot is authorized once per nonce; cancelling the open
      tasks of a server ends, and answers how many boots it closed; and download
      tokens behave like a table of grants.
    - Deployments run in order and end: while requests and the runs of workers
      are served one after the other, and however workers crash, each job is a
      run of an abstract pipeline and a service has one job at a time; once its retry budget is spent a job ends within a
      number of passes that the timeouts of its steps give, and a machine is
      placed on the node with the most free memory that can take it.
    - USDT deposits: amounts and transfers survive printing and parsing, the
      scanned chunks tile the block range, a deposit address belongs to one
      deposit for ever, a top-up is credited only on transfers found canonical
      before and after the settlement, and the watcher's loop sends no more
      sweeping transactions than the attempts it recorded, of which a deposit
      gets the configured number, and the batches that were rolled back,
      whatever the nodes answer.
    - Sessions are earned: whoever a request is taken for, an earlier request
      gave that account's password, and a valid code if it has a second factor,
      or was an administrator's impersonation or a billing platform's ticket; a
      change of the password ends the account's sessions; a second step allows
      five guesses; a time step or recovery code is accepted once.
    - Ownership and delivery: methods are chargeable only for their owner, a
      setup token is spent once, notifications are queued once per key, claimed
      by one worker at a time and settled by every delivery step; however
      workers crash and run side by side, a mail is handed over again only when
      the last time failed, and at most five times; a service is
      marked suspended only when its machine is off; cancellation stops
      billing.
    - Where the code does not do what it means to, theorems and lemmas say so: a
      retail row stops the recurring batch, disputes fail inside the event
      loop, retail reversals and refunds find no reseller, a top-up paid again
      is not credited, a late completion undoes a refund, a late payment
      undoes a cancellation, an event can be acknowledged without having been
      processed, a failed deploy keeps what a card paid for it, deploys
      that overlap exceed a quota together, a restart erases the denials of
      password changes, accepting an order fails unless it is unpaid, overlapping tax rates stop
      the checkout, a deposit paid in time but seen late is parked, the last
      sweep is never confirmed, the attempts of a batch that is rolled back are
      forgotten, a deployment step that outlasts its lease is executed by two
      workers and another one is skipped, two requests at once make two jobs, an impersonation shields the client's sessions
      from a change of the password, a deleted administrator stays signed in,
      a sign-out can miss the session of the cookie, a ticket can be
      redeemed twice, a product whose name a service has cannot be sold again,
      orders that lock different rows share a server, orders at the same
      moment share a name, the cleanup of a refused order takes the addresses
      of a service of that name, and a customer's password can run commands
      where an installation script gives a default.

    The client of a component is proved against its interface: recurring
    billing takes the payment orchestrator as [fund] and is proved for any
    instance of the class [FundingGateway] (Dunning); the orchestrator is an
    instance, and takes gateways as records of what they answer.  The frame
    lemmas of funding are proved once, for any invariant that is
    [funding_stable] (Orchestrator); those of the watcher, of the
    sweeper and of all USDT requests once for the classes [WatcherStable],
    [SweeperStable] and [RequestStable] (Usdt).

    * Modelling decisions

    - A session is the rows the transaction sees, the rows last committed, the
      clock, the logs and the dialect.  Sessions are created with
      [autoflush=False]; a query here sees pending assignments, which the
      methods modelled either do not query or flush first, with two exceptions
      written out: [refund] refreshes an object and drops them, and the
      watcher's expiry query reads the rows last flushed (the argument [sql]
      of Usdt).
    - [flush] checks the whole database against the declared constraints;
      foreign keys, string lengths and column types other than [BigInteger] are
      not checked, and identifiers are the largest one plus one.
    - Row locks ([FOR UPDATE]) leave no trace: a method runs without
      interference between its commits.  Interleaving of workers is modelled
      by the lease and claim theorems, whose later steps start from any state
      that still carries the claim.
    - A request commits at its end; one that fails closes its session, which
      rolls it back.  Audit rows are left out.
    - The clock does not advance during a call.  NULLs sort first, as in
      SQLite and MySQL.  Strings are ASCII (the dash of an invoice line is one
      character of its own).  Datetimes are in UTC, so the helper [_utc] is the
      identity.  Rendered subjects and bodies, created_at and updated_at
      columns that nothing reads and log lines are left out; sets are iterated
      in the order of insertion, and what is proved does not depend on it.
    - Loops are over lists already read, with two exceptions.  The chunks of a
      block range ([chunks_from] of Ethereum) are a well-founded recursion on
      the blocks left; the batches of addresses ([batches_from] of Usdt) use
      the length of the list as fuel, which is enough because every batch
      takes an element.  The search for a guest identifier counts down the
      length of its range.
    - Code outside the repository enters as parameters: gateways answer what
      their record says or raise, plugins, the mail transport and SHA-256 are
      functions, what a deployment step checks and does at its machine is a pair of actions
      that leave the jobs alone (the class [WellBehaved] of Jobs), the
      Ethereum libraries are the class [EthLib] with the laws
      [AddressLaws], the node's answer is a function of the calls made before,
      and the enumeration of a subnet's hosts is an argument.  Charges sent to
      a gateway and calls sent to a node are logged and are not undone by a
      rollback.  [asyncio.run] refuses to run inside a running loop, as its
      documentation says ([event_loop_running] in Webhooks).
    - Requests that make deployment jobs and the runs of their workers are
      served one after the other ([serve_jobs] of Backups), since a step that
      outlasts its lease runs next to another worker; examples of Pipeline and
      Deadline show what overlapping ones do.  A crash is an exception that
      leaves the pass with its lease.
    - The loop of the USDT watcher ([run_usdt_watcher] of Usdt) is a run over
      the cycles it is given, each with its client and its time.
    - Mail workers and requests interleave at their commits ([mail_system] of
      Delivery): each step runs in a session of its own that starts from the
      committed rows.  A worker can be killed between its steps and while a
      message is handed over, where it leaves with [SystemExit], which no
      [except Exception] catches.
    - Account endpoints run on a state of their own ([web] of Redis): the
      database session of the request, which starts from the committed rows
      and ends with them, the Redis store, whether Redis can be reached during
      the request, and how many random values have been drawn.  A command acts
      at the request's reading of the clock; a key is alive up to and including
      the instant it expires.  The theorems on sessions are about requests
      served one after the other; lemmas on interleavings name the commands.
      Hashing, encryption, random values, TOTP and the parsing of the
      authorization header are the class [AuthLib]; what is relied on
      ([AuthLaws]: random values do not repeat, digests do not collide, bcrypt
      tells passwords apart) is instantiated by [sample_auth_lib] of Portal.
      The theorems start from an empty Redis and any committed database.
      Usernames and addresses are compared exactly; an [HTTPException] carries
      its status only, and cookie attributes are left out.  The search for a
      free username or address looks at one candidate more than there are
      accounts, which is enough ([unique_username_free], [unique_email_free]).
    - The table of locks ([order_world] of Racks) holds what an order has
      locked until its service is committed; whatever else is committed in the
      meantime may only free servers ([frees]).  [ServiceDAO.delete] is written
      with what the foreign keys do: references become NULL, assignments go
      with the service, and a reservation, a job or a billing refuses it.
    - Updates with a condition ([UPDATE ... WHERE]) act on the committed row,
      not on the object read before.  A dictionary of a JSON column that is
      changed in place and assigned again is not written, since the column does
      not track it (Installs).  The replacement texts of [re.sub] are templates,
      read as the library reads them, and [render] substitutes the variables one
      after the other, in as many passes as its list has (Scripts); what a shell makes of a double-quoted text is a
      definition of its own, which the round trip is stated with.
    - Download tokens are stated against a table ([spec_op] of Downloads): the
      requests run one after the other, each at one reading of the clock, and
      anything may happen to the rest of the store in between.  Of the texts
      that [fromisoformat] and [json.loads] accept, those are read that the
      code writes.
    - The catalogue a deploy or a checkout reads (products, prices, options,
      tax rates, access rules, quotas) is an argument, since nothing modelled
      writes it; provisioning, its cleanup and the checks that create the
      client's user are arbitrary actions, and the theorems hold for all of
      them.  Provisioning may commit; where a theorem on orders needs it,
      that it leaves orders and their items alone is its hypothesis.

    * Not modelled

    The HTTP routers but for the endpoints named above; cookies, MCP keys and
    Discord identities, lists and profiles of accounts; the Stripe and PayPal
    clients and their event normalisation; the signature of outbound webhooks;
    marking invoices paid or void by hand, upgrade quotes and the administration
    of the catalogue, of server groups and of templates; the rack inventory;
    console tickets; the rows of activity logs and audits; support tickets.
    What deployment steps do, the hypervisor, the management controllers, the
    switches, DHCP, TFTP and virtual media drive external devices, and the
    texts of their protocols are not modelled, nor are backups but for the
    enqueueing of restores; neither are the Go and JavaScript
    parts.  What is left of the core is endpoint code around the operations
    modelled here: the changes of an administrator to invoices and services, and
    the clients of resellers. *)
(** Shared vocabulary of the development: Python exceptions and the
    state-and-exception monad that the translated methods live in, weakest
    preconditions for that monad, record update, database tables as lists of
    keyed rows, and the string helpers of [str] that the code calls. *)
From Stdlib Require Import ZArith Lia Ascii Permutation Sorted.
From stdpp Require Import base numbers list strings pretty.

Declare Scope py_scope.
Delimit Scope py_scope with py.
Open Scope Z_scope.

Create HintDb dcim.

#[global] Arguments Z.max : simpl never.
#[global] Arguments Z.min : simpl never.

(** * Record update: [r <| field := v |>] *)

(** [eta] rebuilds a record from its projections; one instance per record
    is enough for every field to be updatable. *)
Class Eta (R : Type) := eta : R -> R.
Class Update {R T : Type} (proj : R -> T) := update : (T -> T) -> R -> R.
Arguments update {R T} proj {_} f r /.

Ltac derive_update :=
  match goal with
  | |- @Update ?R ?T ?proj =>
      let f := fresh "f" in
      let r := fresh "r" in
      intros f r;
      let t := eval cbv beta delta [eta] in (eta r) in
      let t := eval hnf in t in
      let t := eval pattern (proj r) in t in
      match t with
      | ?g _ => let b := eval cbv beta in (g (f (proj r))) in exact b
      end
  end.

#[export] Hint Extern 1 (Update _) => derive_update : typeclass_instances.

Notation "r <| p := v |>" := (update p (fun _ => v) r)
  (at level 1, left associativity, p at level 0, v at level 200).

(** * Outcomes and the session monad *)

(** What a Python call gives its caller: a value or an exception. *)
Inductive outcome (E A : Type) : Type :=
| Ok (a : A)
| Raise (e : E).
Arguments Ok {E A} a.
Arguments Raise {E A} e.

(** A method that reads and writes a state [S] and may raise [E].  State
    changes made before an exception persist: undoing them is what
    [rollback] is for. *)
Definition M (S E A : Type) : Type := S -> outcome E A * S.

Section Monad.
Context {S E : Type}.

Definition ret {A} (a : A) : M S E A := fun s => (Ok a, s).
Definition raise {A} (e : E) : M S E A := fun s => (Raise e, s).
Definition bind {A B} (m : M S E A) (k : A -> M S E B) : M S E B :=
  fun s => match m s with
           | (Ok a, s') => k a s'
           | (Raise e, s') => (Raise e, s')
           end.
Definition get : M S E S := fun s => (Ok s, s).
Definition gets {A} (f : S -> A) : M S E A := fun s => (Ok (f s), s).
Definition modify (f : S -> S) : M S E unit := fun s => (Ok tt, f s).

(** [try: m except e: h(e)], where [h] re-raises what it does not catch. *)
Definition try_catch {A} (m : M S E A) (h : E -> M S E A) : M S E A :=
  fun s => match m s with
           | (Ok a, s') => (Ok a, s')
           | (Raise e, s') => h e s'
           end.

(** [for x in l: f(x)] *)
Fixpoint for_each {A} (l : list A) (f : A -> M S E unit) : M S E unit :=
  match l with
  | [] => ret tt
  | x :: l' => bind (f x) (fun _ => for_each l' f)
  end.

(** A loop over [l] that threads local variables [acc]. *)
Fixpoint fold_each {A B} (l : list A) (acc : B) (f : B -> A -> M S E B)
  : M S E B :=
  match l with
  | [] => ret acc
  | x :: l' => bind (f acc x) (fun acc' => fold_each l' acc' f)
  end.

(** [if b: raise e] *)
Definition throw_if (b : bool) (e : E) : M S E unit :=
  if b then raise e else ret tt.

(** [None] raises [e]. *)
Definition unwrap {A} (o : option A) (e : E) : M S E A :=
  match o with Some a => ret a | None => raise e end.
End Monad.

Notation "x <- m ;; k" := (bind m (fun x => k))
  (at level 100, m at next level, k at level 200, right associativity)
  : py_scope.
Notation "m ;;; k" := (bind m (fun _ => k))
  (at level 100, k at level 200, right associativity) : py_scope.

(** * Weakest preconditions *)

Section Wp.
Context {S E : Type}.

(** [m], started in [s], returns with [Q] or raises with [R]. *)
Definition wp {A} (m : M S E A) (Q : A -> S -> Prop) (R : E -> S -> Prop)
    (s : S) : Prop :=
  match m s with
  | (Ok a, s') => Q a s'
  | (Raise e, s') => R e s'
  end.

Lemma wp_ret {A} (a : A) Q R s : Q a s -> wp (ret a) Q R s.
Proof. done. Qed.

Lemma wp_raise {A} (e : E) (Q : A -> S -> Prop) (R : E -> S -> Prop) s :
  R e s -> wp (raise e) Q R s.
Proof. done. Qed.

Lemma wp_bind {A B} (m : M S E A) (k : A -> M S E B) Q R s :
  wp m (fun a => wp (k a) Q R) R s -> wp (bind m k) Q R s.
Proof. unfold wp, bind. destruct (m s) as [[a|e] s']; done. Qed.

Lemma wp_gets {A} (f : S -> A) Q R s : Q (f s) s -> wp (gets f) Q R s.
Proof. done. Qed.

Lemma wp_get Q R s : Q s s -> wp get Q R s.
Proof. done. Qed.

Lemma wp_modify (f : S -> S) Q R s : Q tt (f s) -> wp (modify f) Q R s.
Proof. done. Qed.

Lemma wp_throw_if b (e : E) (Q : unit -> S -> Prop) (R : E -> S -> Prop) s :
  (b = true -> R e s) -> (b = false -> Q tt s) -> wp (throw_if b e) Q R s.
Proof. destruct b; cbn; auto. Qed.

Lemma wp_unwrap {A} (o : option A) (e : E) Q (R : E -> S -> Prop) s :
  (o = None -> R e s) -> (forall a, o = Some a -> Q a s) ->
  wp (unwrap o e) Q R s.
Proof. destruct o; cbn; auto. Qed.

Lemma wp_try_catch {A} (m : M S E A) h Q R s :
  wp m Q (fun e => wp (h e) Q R) s -> wp (try_catch m h) Q R s.
Proof. unfold wp, try_catch. destruct (m s) as [[a|e] s']; done. Qed.

Lemma wp_conseq {A} (m : M S E A) (Q Q' : A -> S -> Prop)
    (R R' : E -> S -> Prop) s :
  wp m Q R s -> (forall a s', Q a s' -> Q' a s') ->
  (forall e s', R e s' -> R' e s') -> wp m Q' R' s.
Proof. unfold wp. destruct (m s) as [[a|e] s']; auto. Qed.

Lemma wp_and {A} (m : M S E A) (Q Q' : A -> S -> Prop)
    (R R' : E -> S -> Prop) s :
  wp m Q R s -> wp m Q' R' s ->
  wp m (fun a s' => Q a s' /\ Q' a s') (fun e s' => R e s' /\ R' e s') s.
Proof. unfold wp. destruct (m s) as [[a|e] s']; auto. Qed.

(** A sequence returned: so did both of its parts. *)
Lemma bind_Ok {A B} (m : M S E A) (k : A -> M S E B) s b s' :
  bind m k s = (Ok b, s') -> exists a s1, m s = (Ok a, s1) /\ k a s1 = (Ok b, s').
Proof. unfold bind. destruct (m s) as [[a|e] s1]; [eauto|done]. Qed.

Lemma ok_inv {A} (a b : A) (s s' : S) :
  (@Ok E A a, s) = (Ok b, s') -> a = b /\ s = s'.
Proof. by intros [= -> ->]. Qed.

(** Running a sequence whose first part returns. *)
Lemma bind_run {A B} (m : M S E A) (k : A -> M S E B) s a s' :
  m s = (Ok a, s') -> bind m k s = k a s'.
Proof. unfold bind. by intros ->. Qed.

(** What a weakest precondition says of a run that returns. *)
Lemma wp_result {A} (m : M S E A) (Q : A -> S -> Prop) (R : E -> S -> Prop) s a s' :
  m s = (Ok a, s') -> wp m Q R s -> Q a s'.
Proof. unfold wp. by intros ->. Qed.

(** Running [m] exactly, by its weakest precondition. *)
Lemma wp_exact {A} (m : M S E A) (a : A) s s' :
  wp m (fun x t => x = a /\ t = s') (fun _ _ => False) s -> m s = (Ok a, s').
Proof. unfold wp. destruct (m s) as [[x|e] t]; [|done]. by intros [-> ->]. Qed.

(** Loops keep an invariant that every iteration keeps. *)
Lemma wp_for_each {A} (I : S -> Prop) (R : E -> S -> Prop) (l : list A) f s :
  I s ->
  (forall x s', x ∈ l -> I s' -> wp (f x) (fun _ => I) R s') ->
  wp (for_each l f) (fun _ => I) R s.
Proof.
  revert s. induction l as [|x l IH]; intros s Hs Hf; [done|].
  cbn. apply wp_bind. eapply wp_conseq;
    [apply Hf; [by left | done]| | done].
  intros a s' Hs'. apply IH; [done|]. intros y s2 Hy. apply Hf. by right.
Qed.

Lemma wp_fold_each {A B} (I : B -> S -> Prop) (R : E -> S -> Prop)
    (l : list A) acc f s :
  I acc s ->
  (forall x acc' s', x ∈ l -> I acc' s' -> wp (f acc' x) I R s') ->
  wp (fold_each l acc f) I R s.
Proof.
  revert s acc. induction l as [|x l IH]; intros s acc Hs Hf; [done|].
  cbn. apply wp_bind. eapply wp_conseq;
    [apply Hf; [by left | done]| | done].
  intros acc' s' Hs'. apply IH; [done|]. intros y a s2 Hy. apply Hf.
  by right.
Qed.

(** [m] keeps [I] whether it returns or raises. *)
Definition keeps {A} (I : S -> Prop) (m : M S E A) : Prop :=
  forall s, I s -> wp m (fun _ => I) (fun _ => I) s.

Lemma wp_keeps {A} (I : S -> Prop) (m : M S E A) (Q : A -> S -> Prop)
    (R : E -> S -> Prop) s :
  keeps I m -> I s -> (forall a s', I s' -> Q a s') ->
  (forall e s', I s' -> R e s') -> wp m Q R s.
Proof. intros Hm Hs HQ HR. eapply wp_conseq; [by apply Hm|auto|auto]. Qed.

Lemma keeps_ret {A} (I : S -> Prop) (a : A) : keeps I (ret a).
Proof. by intros s. Qed.
Lemma keeps_raise {A} (I : S -> Prop) e : keeps I (@raise S E A e).
Proof. by intros s. Qed.
Lemma keeps_gets {A} (I : S -> Prop) (f : S -> A) : keeps I (gets f).
Proof. by intros s. Qed.
Lemma keeps_throw_if (I : S -> Prop) b e : keeps I (throw_if b e).
Proof. intros s. by destruct b. Qed.
Lemma keeps_unwrap {A} (I : S -> Prop) (o : option A) e :
  keeps I (unwrap o e).
Proof. intros s. by destruct o. Qed.
Lemma keeps_bind {A B} (I : S -> Prop) (m : M S E A) (k : A -> M S E B) :
  keeps I m -> (forall a, keeps I (k a)) -> keeps I (bind m k).
Proof.
  intros Hm Hk s Hs. apply wp_bind.
  eapply wp_conseq; [by apply Hm | | done]. intros a s'. apply Hk.
Qed.
Lemma keeps_modify (I : S -> Prop) (f : S -> S) :
  (forall s, I s -> I (f s)) -> keeps I (modify f).
Proof. intros Hf s Hs. apply wp_modify, Hf, Hs. Qed.
Lemma keeps_try {A} (I : S -> Prop) (m : M S E A) h :
  keeps I m -> (forall e, keeps I (h e)) -> keeps I (try_catch m h).
Proof.
  intros Hm Hh s Hs. apply wp_try_catch.
  eapply wp_conseq; [by apply Hm | done |]. intros e s'. apply Hh.
Qed.
Lemma keeps_for_each {A} (I : S -> Prop) (l : list A) f :
  (forall x, keeps I (f x)) -> keeps I (for_each l f).
Proof. intros Hf s Hs. apply wp_for_each; [done|]. intros. by apply Hf. Qed.
Lemma keeps_fold_each {A B} (I : S -> Prop) (l : list A) (acc : B) f :
  (forall x acc, keeps I (f acc x)) -> keeps I (fold_each l acc f).
Proof.
  intros Hf s Hs. apply (wp_fold_each (fun _ => I)); [done|].
  intros. by apply Hf.
Qed.
End Wp.

#[export] Hint Resolve keeps_ret keeps_raise keeps_gets keeps_throw_if
  keeps_unwrap keeps_bind keeps_try keeps_for_each keeps_fold_each : dcim.

(** Decompose a [keeps] goal along the method's text; the leaves are hints. *)
Ltac keeps_step :=
  lazymatch goal with
  | |- keeps _ (bind _ _) => apply keeps_bind; [|intros ?]
  | |- keeps _ (try_catch _ _) => apply keeps_try; [|intros ?]
  | |- keeps _ (for_each _ _) => apply keeps_for_each; intros ?
  | |- keeps _ (fold_each _ _ _) => apply keeps_fold_each; intros ? ?
  | |- keeps _ (match _ with _ => _ end) => case_match
  | |- keeps _ _ => solve [auto with dcim]
  end; cbv beta.
Ltac keeps_tac := repeat keeps_step.

(** One structural step of a weakest-precondition goal. *)
Ltac wp_step :=
  match goal with
  | |- wp (bind _ _) _ _ _ => apply wp_bind
  | |- wp (ret _) _ _ _ => apply wp_ret
  | |- wp (raise _) _ _ _ => apply wp_raise
  | |- wp (gets _) _ _ _ => apply wp_gets
  | |- wp get _ _ _ => apply wp_get
  | |- wp (modify _) _ _ _ => apply wp_modify
  | |- wp (throw_if _ _) _ _ _ =>
      apply wp_throw_if; let H := fresh "Hguard" in intros H
  | |- wp (unwrap _ _) _ _ _ =>
      apply wp_unwrap;
      [ let H := fresh "Hnone" in intros H
      | let a := fresh "a" in let H := fresh "Hsome" in intros a H ]
  | |- wp (try_catch _ _) _ _ _ => apply wp_try_catch
  | |- wp (if ?b then _ else _) _ _ _ =>
      let H := fresh "Hif" in destruct b eqn:H
  | |- wp (match ?o with Some _ => _ | None => _ end) _ _ _ =>
      let a := fresh "a" in let H := fresh "Hopt" in destruct o as [a|] eqn:H
  end; cbv beta.
Ltac wp_steps := repeat wp_step.

(** Name the state a goal starts in. *)
Ltac name_state s := match goal with |- wp _ _ _ ?x => set (s := x) end.

(** * Tables *)

(** A database table is the list of its rows in insertion order, keyed by an
    integer primary key.  Queries are [List.filter]s of it, so rows come back
    in primary-key order, which is the order the code asks for. *)
Class Keyed (R : Type) := row_key : R -> Z.

Section Table.
Context {R : Type} `{Keyed R}.

(** [db.get(Model, k)] *)
Definition tbl_get (k : Z) (t : list R) : option R :=
  List.find (fun r => row_key r =? k) t.

(** Assignment to attributes of the row with key [k]. *)
Definition tbl_update (k : Z) (f : R -> R) (t : list R) : list R :=
  map (fun r => if row_key r =? k then f r else r) t.

(** The primary key the database assigns to a new row. *)
Definition tbl_fresh (t : list R) : Z :=
  1 + List.fold_right (fun r m => Z.max (row_key r) m) 0 t.

Definition tbl_delete (k : Z) (t : list R) : list R :=
  List.filter (fun r => negb (row_key r =? k)) t.

(** [SELECT SUM(f(row)) WHERE p(row)] *)
Definition tbl_sum (p : R -> bool) (f : R -> Z) (t : list R) : Z :=
  List.fold_right (fun r acc => (if p r then f r else 0) + acc) 0 t.

Lemma tbl_get_key k t r : tbl_get k t = Some r -> row_key r = k.
Proof. intros Hr. apply List.find_some in Hr as [_ Hr]. lia. Qed.

Lemma tbl_get_In k t r : tbl_get k t = Some r -> In r t.
Proof. intros Hr. by apply List.find_some in Hr as [Hr _]. Qed.

Lemma tbl_fresh_gt t r : In r t -> row_key r < tbl_fresh t.
Proof.
  unfold tbl_fresh. induction t as [|x t IH]; [done|].
  cbn. intros [->|Hr]; [lia|]. apply IH in Hr. lia.
Qed.

Lemma tbl_fresh_pos t : 0 < tbl_fresh t.
Proof. unfold tbl_fresh. induction t; cbn; lia. Qed.

Lemma tbl_get_fresh t : tbl_get (tbl_fresh t) t = None.
Proof.
  destruct (tbl_get _ t) as [r|] eqn:Hr; [|done].
  pose proof (tbl_get_key _ _ _ Hr). apply tbl_get_In, tbl_fresh_gt in Hr.
  lia.
Qed.

Lemma tbl_get_app k t u :
  tbl_get k (t ++ u) =
  match tbl_get k t with Some r => Some r | None => tbl_get k u end.
Proof.
  unfold tbl_get. induction t as [|x t IH]; [done|].
  cbn. by destruct (row_key x =? k).
Qed.

(** Updates that leave the key alone behave like assignment. *)
Lemma tbl_get_update_eq k f t r :
  (forall x, row_key (f x) = row_key x) ->
  tbl_get k t = Some r -> tbl_get k (tbl_update k f t) = Some (f r).
Proof.
  intros Hk. unfold tbl_get, tbl_update. induction t as [|x t IH]; [done|].
  cbn. destruct (row_key x =? k) eqn:E.
  - rewrite Hk, E. congruence.
  - rewrite E. apply IH.
Qed.

Lemma tbl_get_update_ne k k' f t :
  (forall x, row_key (f x) = row_key x) ->
  k <> k' -> tbl_get k' (tbl_update k f t) = tbl_get k' t.
Proof.
  intros Hk Hne. unfold tbl_get, tbl_update.
  induction t as [|x t IH]; [done|]. cbn.
  destruct (row_key x =? k) eqn:E.
  - rewrite Hk. assert ((row_key x =? k') = false) as -> by lia. apply IH.
  - destruct (row_key x =? k'); [done|apply IH].
Qed.

Lemma tbl_get_update k k' f t :
  (forall x, row_key (f x) = row_key x) ->
  tbl_get k' (tbl_update k f t) = if k' =? k then option_map f (tbl_get k' t) else tbl_get k' t.
Proof.
  intros Hk. unfold tbl_get, tbl_update. induction t as [|x t IH]; cbn; [by destruct (_ =? _)|].
  destruct (Z.eqb_spec (row_key x) k) as [Ex|Ex]; rewrite ?Hk.
  - destruct (Z.eqb_spec (row_key x) k') as [Ek|Ek]; [|exact IH]. by rewrite <- Ek, Ex, Z.eqb_refl.
  - destruct (Z.eqb_spec (row_key x) k') as [Ek|Ek]; [|exact IH].
    destruct (Z.eqb_spec k' k) as [E|E]; [|done]. congruence.
Qed.
Lemma tbl_get_update_none k f t :
  (forall x, row_key (f x) = row_key x) -> tbl_get k t = None -> tbl_get k (tbl_update k f t) = None.
Proof. intros Hf Ht. by rewrite tbl_get_update, Z.eqb_refl, Ht by done. Qed.

Lemma tbl_update_In k f t r :
  In r (tbl_update k f t) ->
  exists r0, In r0 t /\
    ((row_key r0 <> k /\ r = r0) \/ (row_key r0 = k /\ r = f r0)).
Proof.
  unfold tbl_update. rewrite in_map_iff. intros (r0 & Hr & Hin).
  exists r0. split; [done|]. destruct (Z.eqb_spec (row_key r0) k); auto.
Qed.

Lemma tbl_keys_update k f t :
  (forall x, row_key (f x) = row_key x) ->
  map row_key (tbl_update k f t) = map row_key t.
Proof.
  intros Hk. unfold tbl_update. rewrite map_map. apply map_ext.
  intros x. by destruct (row_key x =? k).
Qed.

Lemma tbl_sum_app p f t u :
  tbl_sum p f (t ++ u) = tbl_sum p f t + tbl_sum p f u.
Proof. unfold tbl_sum. induction t as [|x t IH]; cbn; [lia|]. rewrite IH. lia. Qed.

Lemma tbl_sum_one p f r : tbl_sum p f [r] = if p r then f r else 0.
Proof. unfold tbl_sum. cbn. lia. Qed.

Lemma tbl_sum_ext (p p' : R -> bool) (f f' : R -> Z) (t : list R) :
  (forall r, In r t -> (if p r then f r else 0) = (if p' r then f' r else 0)) ->
  tbl_sum p f t = tbl_sum p' f' t.
Proof.
  unfold tbl_sum. induction t as [|x t IH]; [done|]. intros Hx. cbn.
  rewrite (Hx x (or_introl eq_refl)), IH; [done|].
  intros r Hr. apply Hx. by right.
Qed.

Lemma tbl_sum_nonneg (p : R -> bool) (f : R -> Z) (t : list R) :
  (forall r, In r t -> p r = true -> 0 <= f r) -> 0 <= tbl_sum p f t.
Proof.
  unfold tbl_sum. induction t as [|x t IH]; [done|]. intros Hx. cbn.
  assert (0 <= List.fold_right
            (fun r acc => (if p r then f r else 0) + acc) 0 t).
  { apply IH. intros r Hr. apply Hx. by right. }
  destruct (p x) eqn:E; [|lia].
  specialize (Hx x (or_introl eq_refl) E). lia.
Qed.

(** The same idempotent assignment to several rows, one after the other. *)
Lemma tbl_update_many ids f t :
  (forall x, row_key (f x) = row_key x) -> (forall x, f (f x) = f x) ->
  fold_left (fun acc k => tbl_update k f acc) ids t
  = map (fun r => if existsb (Z.eqb (row_key r)) ids then f r else r) t.
Proof.
  intros Hk Hf. revert t. induction ids as [|k ids IH]; intros t.
  - cbn. by rewrite map_id.
  - cbn [fold_left]. rewrite IH. unfold tbl_update. rewrite map_map.
    apply map_ext. intros x. cbn [existsb]. destruct (row_key x =? k); [|done].
    rewrite Hk. cbn [orb]. by destruct (existsb _ ids).
Qed.

(** Keys are pairwise distinct; every insertion keeps it. *)
Definition tbl_wf (t : list R) : Prop := List.NoDup (map row_key t).

Lemma tbl_wf_snoc t r :
  tbl_wf t -> row_key r = tbl_fresh t -> tbl_wf (t ++ [r]).
Proof.
  unfold tbl_wf. intros Ht Hr. rewrite map_app.
  apply List.NoDup_app; [done | repeat constructor; cbn; tauto |].
  intros k Hk [<-|[]]. rewrite in_map_iff in Hk.
  destruct Hk as (x & Hx & Hin). apply tbl_fresh_gt in Hin. lia.
Qed.

Lemma tbl_wf_update k f t :
  (forall x, row_key (f x) = row_key x) ->
  tbl_wf t -> tbl_wf (tbl_update k f t).
Proof. intros Hk. unfold tbl_wf. by rewrite tbl_keys_update. Qed.

Lemma tbl_get_wf t r : tbl_wf t -> In r t -> tbl_get (row_key r) t = Some r.
Proof.
  unfold tbl_wf, tbl_get. induction t as [|x t IH]; [done|].
  cbn. intros Hnd Hr. apply List.NoDup_cons_iff in Hnd as [Hx Hnd].
  destruct Hr as [->|Hr]; [by rewrite Z.eqb_refl|].
  destruct (row_key x =? row_key r) eqn:E; [|by apply IH].
  exfalso. apply Hx. apply Z.eqb_eq in E. rewrite E. by apply in_map.
Qed.

Lemma tbl_update_absent k g t :
  (forall y, In y t -> row_key y <> k) ->
  map (fun r => if row_key r =? k then g r else r) t = t.
Proof.
  intros Hk. rewrite <- (map_id t) at 2. apply map_ext_in.
  intros y Hy. specialize (Hk y Hy). by destruct (Z.eqb_spec (row_key y) k).
Qed.

(** The sum after one row was replaced. *)
Lemma tbl_sum_update p f k g t r :
  (forall x, row_key (g x) = row_key x) ->
  tbl_wf t -> tbl_get k t = Some r ->
  tbl_sum p f (tbl_update k g t) =
  tbl_sum p f t - (if p r then f r else 0) + (if p (g r) then f (g r) else 0).
Proof.
  intros Hg. unfold tbl_wf, tbl_get, tbl_sum, tbl_update.
  induction t as [|x t IH]; [done|]. cbn. intros Hnd Hr.
  apply List.NoDup_cons_iff in Hnd as [Hx Hnd].
  destruct (row_key x =? k) eqn:E.
  - injection Hr as ->. rewrite tbl_update_absent; [cbn; lia|].
    intros y Hy Hk. apply Hx. apply in_map_iff. exists y. split; [lia|done].
  - rewrite IH by done. lia.
Qed.

(** The same change to every row. *)
Lemma tbl_get_map k f t :
  (forall x, row_key (f x) = row_key x) ->
  tbl_get k (map f t) = option_map f (tbl_get k t).
Proof.
  intros Hf. unfold tbl_get. induction t as [|x t IH]; [done|]. cbn. rewrite Hf.
  by destruct (row_key x =? k).
Qed.

(** Deletion. *)
Lemma tbl_delete_In k t r : In r (tbl_delete k t) <-> In r t /\ row_key r <> k.
Proof.
  unfold tbl_delete. rewrite List.filter_In, negb_true_iff. split; intros [? ?]; split;
    (done || lia).
Qed.
Lemma tbl_get_delete_eq k t : tbl_get k (tbl_delete k t) = None.
Proof.
  destruct (tbl_get k _) as [r|] eqn:Hr; [|done]. pose proof (tbl_get_key _ _ _ Hr).
  by apply tbl_get_In, tbl_delete_In in Hr as [_ ?].
Qed.
Lemma tbl_get_delete_ne k k' t : k <> k' -> tbl_get k' (tbl_delete k t) = tbl_get k' t.
Proof.
  intros Hne. unfold tbl_get, tbl_delete. induction t as [|x t IH]; [done|]. cbn.
  destruct (Z.eqb_spec (row_key x) k) as [->|]; cbn; rewrite IH; [|done].
  by assert ((k =? k') = false) as -> by lia.
Qed.
Lemma tbl_wf_delete k t : tbl_wf t -> tbl_wf (tbl_delete k t).
Proof.
  unfold tbl_wf, tbl_delete. induction t as [|x t IH]; [done|]. cbn.
  intros [Hx Ht]%List.NoDup_cons_iff. destruct (row_key x =? k); cbn; [auto|].
  apply List.NoDup_cons_iff. split; [|auto]. rewrite in_map_iff.
  intros (y & Hy & [Hin _]%List.filter_In). apply Hx. rewrite <- Hy. by apply in_map.
Qed.
End Table.

Arguments tbl_get : simpl never.
Arguments tbl_update : simpl never.
Arguments tbl_fresh : simpl never.
Arguments tbl_sum : simpl never.
Arguments tbl_delete : simpl never.

(** [Result.scalar_one_or_none()]: no row, one row, or
    [MultipleResultsFound]. *)
Definition scalar_one_or_none {S E R} (too_many : E) (rows : list R)
  : M S E (option R) :=
  match rows with
  | [] => ret None
  | [r] => ret (Some r)
  | _ => raise too_many
  end.

Lemma keeps_scalar_one_or_none {S E R} (I : S -> Prop) (e : E) (rows : list R) :
  keeps I (scalar_one_or_none e rows).
Proof. intros s. by destruct rows as [|r [|r' l]]. Qed.
#[export] Hint Resolve keeps_scalar_one_or_none : dcim.

Lemma filter_nil_iff {A} (p : A -> bool) l :
  List.filter p l = [] <-> forall x, In x l -> p x = false.
Proof.
  split.
  - intros Hl x Hx. destruct (p x) eqn:E; [|done].
    assert (In x (List.filter p l)) as Hin by (by apply filter_In).
    by rewrite Hl in Hin.
  - induction l as [|a l IH]; [done|]. intros Hl. cbn.
    rewrite (Hl a (or_introl eq_refl)). apply IH. intros x Hx. apply Hl.
    by right.
Qed.

(** Updating rows and then selecting them by columns the update keeps. *)
Lemma filter_tbl_update {R} `{Keyed R} (p : R -> bool) k f t :
  (forall x, p (f x) = p x) ->
  List.filter p (tbl_update k f t) = tbl_update k f (List.filter p t).
Proof.
  intros Hf. unfold tbl_update. induction t as [|x t IH]; [done|]. cbn.
  destruct (row_key x =? k) eqn:E; rewrite ?Hf; destruct (p x); cbn; rewrite ?E, IH;
    done.
Qed.

(** Replacing the row under a key, once or again. *)
Lemma tbl_update_same {R} `{Keyed R} (t : list R) k r :
  tbl_wf t -> tbl_get k t = Some r -> tbl_update k (fun _ => r) t = t.
Proof.
  intros Hwf Hr. unfold tbl_update. rewrite <- (map_id t) at 2. apply map_ext_in.
  intros x Hx. destruct (Z.eqb_spec (row_key x) k) as [Hk|]; [|done].
  pose proof (tbl_get_wf t x Hwf Hx) as Hg. rewrite Hk in Hg. congruence.
Qed.
Lemma tbl_update_again {R} `{Keyed R} (t : list R) k (g : R -> R) r :
  row_key r = k -> tbl_update k g (tbl_update k (fun _ => r) t) = tbl_update k (fun _ => g r) t.
Proof.
  intros Hr. unfold tbl_update. rewrite map_map. apply map_ext. intros x.
  destruct (row_key x =? k) eqn:E; [by rewrite Hr, Z.eqb_refl|by rewrite E].
Qed.
Lemma tbl_get_replaced {R} `{Keyed R} (t : list R) k x r :
  tbl_get k t = Some x -> row_key r = k -> tbl_get k (tbl_update k (fun _ => r) t) = Some r.
Proof.
  intros Hx Hr. unfold tbl_get, tbl_update in *. induction t as [|y t IH]; [done|]. cbn in *.
  destruct (row_key y =? k) eqn:E; [by rewrite Hr, Z.eqb_refl|]. rewrite E. auto.
Qed.

Lemma tbl_wf_filter {R} `{Keyed R} (p : R -> bool) t : tbl_wf t -> tbl_wf (List.filter p t).
Proof.
  unfold tbl_wf. induction t as [|x t IH]; [done|]. cbn. intros [Hx Ht]%List.NoDup_cons_iff.
  destruct (p x); [|by apply IH]. cbn. constructor; [|by apply IH].
  intros (z & Hz & [Hin _]%filter_In)%in_map_iff. apply Hx, in_map_iff. by exists z.
Qed.
Lemma filter_update_at {R} `{Keyed R} (p : R -> bool) k f t :
  (forall x, In x t -> row_key x = k -> p (f x) = p x) ->
  List.filter p (tbl_update k f t) = tbl_update k f (List.filter p t).
Proof.
  unfold tbl_update. induction t as [|x t IH]; [done|]. intros Hf. cbn.
  rewrite IH by (intros z Hz; apply Hf; by right).
  destruct (Z.eqb_spec (row_key x) k) as [E|E]; [rewrite Hf by (done || by left)|];
    destruct (p x); cbn; rewrite ?E, ?Z.eqb_refl; try done.
  by rewrite (proj2 (Z.eqb_neq _ _) E).
Qed.
Lemma tbl_update_mid {R} `{Keyed R} (a b : list R) r f :
  tbl_wf (a ++ r :: b) -> tbl_update (row_key r) f (a ++ r :: b) = a ++ f r :: b.
Proof.
  unfold tbl_wf, tbl_update. rewrite map_app. cbn. intros Hnd.
  pose proof (List.NoDup_remove_2 _ _ _ Hnd) as Hr. rewrite in_app_iff in Hr.
  rewrite map_app. cbn. rewrite Z.eqb_refl.
  f_equal; [|f_equal]; apply tbl_update_absent; intros z Hz E; apply Hr; rewrite <- E;
    [left|right]; by apply in_map.
Qed.

Lemma tbl_wf_replaced {R} `{Keyed R} (t : list R) k r :
  row_key r = k -> tbl_wf t -> tbl_wf (tbl_update k (fun _ => r) t).
Proof.
  intros Hr. unfold tbl_wf, tbl_update. rewrite map_map. intros Hwf. erewrite map_ext; [exact Hwf|].
  intros x. cbn. destruct (Z.eqb_spec (row_key x) k) as [->|]; done.
Qed.
Lemma tbl_replaced_In {R} `{Keyed R} (t : list R) k r x :
  In x (tbl_update k (fun _ => r) t) -> x = r \/ (In x t /\ row_key x <> k).
Proof. intros (x0 & Hx0 & [[Hne ->]|[_ ->]])%tbl_update_In; [by right|by left]. Qed.
Lemma tbl_In_replaced {R} `{Keyed R} (t : list R) k r x :
  In x t -> row_key x <> k -> In x (tbl_update k (fun _ => r) t).
Proof.
  intros Hx Hne. apply in_map_iff. exists x. by rewrite (proj2 (Z.eqb_neq (row_key x) k) Hne).
Qed.

Lemma take_In {A} n (l : list A) x : In x (take n l) -> In x l.
Proof.
  revert l. induction n as [|n IH]; intros [|y l]; cbn; [done..|].
  intros [->|Hx]; [by left|right; by apply IH].
Qed.

(** * [sorted] *)

Section Sorting.
Context {A : Type} (leb : A -> A -> bool).

(** [sorted(l)] by a total preorder: insertion keeps equal elements in their
    order. *)
Fixpoint insert_sorted (x : A) (l : list A) : list A :=
  match l with
  | [] => [x]
  | y :: l' => if leb x y then x :: l else y :: insert_sorted x l'
  end.
Definition sort_by (l : list A) : list A := fold_right insert_sorted [] l.

Lemma insert_sorted_perm x l : Permutation (insert_sorted x l) (x :: l).
Proof.
  induction l as [|y l IH]; [done|]. cbn. destruct (leb x y); [done|].
  rewrite IH. constructor.
Qed.
Lemma sort_by_perm l : Permutation (sort_by l) l.
Proof. induction l as [|x l IH]; [done|]. cbn. rewrite insert_sorted_perm. by constructor. Qed.
Lemma sort_by_In x l : In x (sort_by l) <-> In x l.
Proof.
  split; apply Permutation_in; [apply sort_by_perm|symmetry; apply sort_by_perm].
Qed.

(** The first element of a sorted list that has a property is a least one. *)
Hypothesis leb_total : forall x y, leb x y = true \/ leb y x = true.
Hypothesis leb_trans : forall x y z, leb x y = true -> leb y z = true -> leb x z = true.
Lemma insert_sorted_sorted x l :
  StronglySorted (fun a b => leb a b = true) l -> StronglySorted (fun a b => leb a b = true) (insert_sorted x l).
Proof.
  induction 1 as [|y l Hl IH Hy]; cbn; [by repeat constructor|]. destruct (leb x y) eqn:E.
  - constructor; [by constructor|]. constructor; [done|]. eapply List.Forall_impl; [|exact Hy].
    intros z. by apply leb_trans.
  - constructor; [done|]. apply List.Forall_forall. intros z Hz.
    apply (Permutation_in _ (insert_sorted_perm x l)) in Hz as [<-|Hz]; [by destruct (leb_total x y); congruence|].
    by apply (proj1 (List.Forall_forall _ _) Hy).
Qed.
Lemma sort_by_sorted l : StronglySorted (fun a b => leb a b = true) (sort_by l).
Proof. induction l as [|x l IH]; [constructor|]. by apply insert_sorted_sorted. Qed.
Lemma find_least p l a : List.find p (sort_by l) = Some a ->
  In a l /\ p a = true /\ forall b, In b l -> p b = true -> leb a b = true.
Proof.
  intros Hf. apply List.find_some in Hf as Hin. destruct Hin as [Hin Hp].
  split; [by apply sort_by_In|]. split; [done|]. intros b Hb%sort_by_In Hpb. pose proof (sort_by_sorted l) as Hs.
  revert Hs Hf Hb. clear Hin. induction (sort_by l) as [|x m IH]; [done|]. intros Hs. cbn.
  inversion Hs as [|? ? Hs' Hx]; subst. destruct (p x) eqn:E.
  - intros [= ->] [->|Hb]; [by destruct (leb_total b b)|]. by apply (proj1 (List.Forall_forall _ _) Hx).
  - intros Hf [->|Hb]; [congruence|]. by apply IH.
Qed.
End Sorting.

(** * Python strings (ASCII) *)

Definition is_space (c : ascii) : bool :=
  let n := Ascii.nat_of_ascii c in
  (Nat.leb 9 n && Nat.leb n 13) || (Nat.leb 28 n && Nat.leb n 32).

Definition is_upper_ascii (c : ascii) : bool :=
  let n := Ascii.nat_of_ascii c in Nat.leb 65 n && Nat.leb n 90.
Definition is_lower_ascii (c : ascii) : bool :=
  let n := Ascii.nat_of_ascii c in Nat.leb 97 n && Nat.leb n 122.
Definition is_alpha (c : ascii) : bool := is_upper_ascii c || is_lower_ascii c.
Definition is_digit (c : ascii) : bool :=
  let n := Ascii.nat_of_ascii c in Nat.leb 48 n && Nat.leb n 57.

Definition upper_ascii (c : ascii) : ascii :=
  if is_lower_ascii c
  then Ascii.ascii_of_nat (Ascii.nat_of_ascii c - 32) else c.
Definition lower_ascii (c : ascii) : ascii :=
  if is_upper_ascii c
  then Ascii.ascii_of_nat (Ascii.nat_of_ascii c + 32) else c.

Fixpoint map_string (f : ascii -> ascii) (s : string) : string :=
  match s with
  | EmptyString => EmptyString
  | String c s' => String (f c) (map_string f s')
  end.
(** [str.upper] and [str.lower] *)
Definition str_upper : string -> string := map_string upper_ascii.
Definition str_lower : string -> string := map_string lower_ascii.

(** [all(p(c) for c in s)] *)
Fixpoint str_all (p : ascii -> bool) (s : string) : bool :=
  match s with
  | EmptyString => true
  | String c s' => p c && str_all p s'
  end.
Definition str_empty (s : string) : bool :=
  match s with EmptyString => true | _ => false end.
(** [str.isalpha] is false on the empty string. *)
Definition str_isalpha (s : string) : bool :=
  negb (str_empty s) && str_all is_alpha s.

Fixpoint str_lstrip (s : string) : string :=
  match s with
  | String c s' => if is_space c then str_lstrip s' else s
  | EmptyString => s
  end.
Fixpoint str_rstrip (s : string) : string :=
  match s with
  | EmptyString => EmptyString
  | String c s' =>
      match str_rstrip s' with
      | EmptyString => if is_space c then EmptyString else String c EmptyString
      | t => String c t
      end
  end.
(** [str.strip] *)
Definition str_strip (s : string) : string := str_rstrip (str_lstrip s).

(** [s[:n]] *)
Fixpoint str_take (n : nat) (s : string) : string :=
  match n, s with
  | O, _ | _, EmptyString => EmptyString
  | S n', String c s' => String c (str_take n' s')
  end.

#[global] Arguments str_take : simpl never.

(** [s[-n:]] *)
Fixpoint str_drop (n : nat) (s : string) : string :=
  match n, s with
  | O, _ => s
  | _, EmptyString => EmptyString
  | S n', String _ s' => str_drop n' s'
  end.
Definition str_last (n : nat) (s : string) : string :=
  str_drop (String.length s - n) s.

(** [x or default] on an optional string: [None] and the empty string are
    both false. *)
Definition str_or (o : option string) (d : string) : string :=
  match o with
  | Some s => if str_empty s then d else s
  | None => d
  end.
(** [bool(x)] of an optional string. *)
Definition str_true (o : option string) : bool :=
  match o with Some s => negb (str_empty s) | None => false end.

(** [int(s)] of a decimal string, with surrounding space, a sign, and single
    underscores between digits. *)
Definition digit_value (c : ascii) : Z := Z.of_nat (Ascii.nat_of_ascii c) - 48.
Fixpoint digits_value (acc : Z) (s : string) : option Z :=
  match s with
  | EmptyString => Some acc
  | String c s' =>
      if is_digit c then digits_value (10 * acc + digit_value c) s'
      else if Ascii.eqb c "_"%char then
        match s' with
        | String d s2 =>
            if is_digit d then digits_value (10 * acc + digit_value d) s2 else None
        | EmptyString => None
        end
      else None
  end.
Definition unsigned_int (s : string) : option Z :=
  match s with
  | String c _ => if is_digit c then digits_value 0 s else None
  | EmptyString => None
  end.
Definition py_int (s : string) : option Z :=
  match str_strip s with
  | EmptyString => None
  | String c t' =>
      if Ascii.eqb c "-"%char then option_map Z.opp (unsigned_int t')
      else if Ascii.eqb c "+"%char then unsigned_int t'
      else unsigned_int (String c t')
  end.

(** [x == y] and [x != y]. *)
Definition py_eq {A} `{EqDecision A} (x y : A) : bool := bool_decide (x = y).
Notation "x == y" := (py_eq x y) (at level 70) : py_scope.
Notation "x != y" := (negb (py_eq x y)) (at level 70) : py_scope.
Lemma py_eq_true {A} `{EqDecision A} (x y : A) : py_eq x y = true <-> x = y.
Proof. unfold py_eq. apply bool_decide_eq_true. Qed.
Lemma py_eq_false {A} `{EqDecision A} (x y : A) : py_eq x y = false <-> x <> y.
Proof. unfold py_eq. apply bool_decide_eq_false. Qed.
Lemma py_eq_refl {A} `{EqDecision A} (x : A) : py_eq x x = true.
Proof. by apply py_eq_true. Qed.
Lemma py_eq_spec {A} `{EqDecision A} (x y : A) :
  Bool.reflect (x = y) (py_eq x y).
Proof.
  destruct (py_eq x y) eqn:E; constructor;
    [by apply py_eq_true | by apply py_eq_false].
Qed.

(** ** [int(str(n))] *)

(** Case analysis on one of finitely many numbers. *)
Ltac each_digit n hi :=
  let H := fresh in
  assert (n ∈ seqZ 0 hi) as H by (apply elem_of_seqZ; lia);
  rewrite list_elem_of_In in H; cbn in H; repeat (destruct H as [<-|H]; [by vm_compute|]); done.

Lemma pretty_digit x : (x < 10)%N ->
  is_digit (pretty_N_char x) = true /\ digit_value (pretty_N_char x) = Z.of_N x.
Proof.
  intros Hx. rewrite <- (N2Z.id x). set (n := Z.of_N x). assert (0 <= n < 10) by lia.
  clearbody n. clear Hx x. rewrite Z2N.id by lia. each_digit n 10.
Qed.
Lemma digits_value_pretty x s :
  digits_value 0 (pretty_N_go x s) = digits_value (Z.of_N x) s.
Proof.
  revert s. induction (N.lt_wf_0 x) as [x _ IH]; intros s.
  destruct (decide (x = 0)%N) as [->|Hx]; [by rewrite pretty_N_go_0|].
  rewrite pretty_N_go_step by lia. rewrite IH by (apply N.div_lt; lia).
  destruct (pretty_digit (x mod 10)%N) as [H1 H2]; [by apply N.mod_lt|].
  cbn [digits_value]. rewrite H1, H2. f_equal. pose proof (N.div_mod x 10). lia.
Qed.
Lemma pretty_go_all p x s :
  (forall m, p (pretty_N_char m) = true) -> str_all p s = true -> str_all p (pretty_N_go x s) = true.
Proof.
  intros Hp. revert s. induction (N.lt_wf_0 x) as [x _ IH]; intros s Hs.
  destruct (decide (x = 0)%N) as [->|Hx]; [by rewrite pretty_N_go_0|].
  rewrite pretty_N_go_step by lia. apply IH; [apply N.div_lt; lia|]. cbn. by rewrite Hp, Hs.
Qed.
Lemma pretty_char_digit m : is_digit (pretty_N_char m) = true.
Proof. unfold pretty_N_char. by repeat case_match. Qed.
Lemma strip_nospace s : str_all (fun c => negb (is_space c)) s = true -> str_strip s = s.
Proof.
  intros Hs. unfold str_strip.
  assert (str_rstrip s = s) as Hr.
  { induction s as [|c s IH]; [done|]. cbn in *. apply andb_true_iff in Hs as [Hc Hs].
    rewrite (IH Hs). destruct s; [|done]. by destruct (is_space c). }
  destruct s as [|c s]; [done|]. cbn in Hs. apply andb_true_iff in Hs as [Hc Hs].
  cbn [str_lstrip]. by destruct (is_space c).
Qed.
Lemma pretty_N_nospace (n : N) : str_all (fun c => negb (is_space c)) (pretty n) = true.
Proof.
  unfold pretty, pretty_N. destruct (decide (n = 0)%N); [done|]. apply pretty_go_all; [|done].
  intros k. unfold pretty_N_char. by repeat case_match.
Qed.
Lemma pretty_N_unsigned (n : N) : unsigned_int (pretty n) = Some (Z.of_N n).
Proof.
  unfold pretty, pretty_N. destruct (decide (n = 0)%N) as [->|Hn]; [done|].
  unfold unsigned_int. pose proof (digits_value_pretty n "") as Hv.
  pose proof (pretty_go_all is_digit n "" pretty_char_digit eq_refl) as Hd.
  destruct (pretty_N_go n "") as [|c s] eqn:E.
  - cbn in Hv. injection Hv as Hv. lia.
  - cbn in Hd. apply andb_true_iff in Hd as [-> _]. by rewrite Hv.
Qed.
Lemma py_int_pretty_N (n : N) : py_int (pretty n) = Some (Z.of_N n).
Proof.
  unfold py_int. rewrite strip_nospace by apply pretty_N_nospace.
  pose proof (pretty_N_unsigned n) as Hu. destruct (pretty n) as [|c s]; [done|].
  destruct (Ascii.eqb_spec c "-"%char) as [->|]; [done|].
  by destruct (Ascii.eqb_spec c "+"%char) as [->|].
Qed.
Lemma py_int_pretty (n : Z) : py_int (pretty n) = Some n.
Proof.
  destruct n as [|p|p]; [done|apply (py_int_pretty_N (N.pos p))|].
  unfold py_int. change (pretty (Z.neg p)) with (String "-" (pretty (N.pos p))).
  rewrite strip_nospace; [|apply (pretty_N_nospace (N.pos p))].
  cbn [Ascii.eqb Bool.eqb]. by rewrite pretty_N_unsigned.
Qed.

(** ** Prefixes and pieces *)

(** [s.startswith(p)] *)
Fixpoint str_startswith (p s : string) : bool :=
  match p, s with
  | EmptyString, _ => true
  | String a p', String b s' => Ascii.eqb a b && str_startswith p' s'
  | _, EmptyString => false
  end.
(** [s.split(c)[0]] *)
Fixpoint str_first_piece (c : ascii) (s : string) : string :=
  match s with
  | EmptyString => EmptyString
  | String a s' => if Ascii.eqb a c then EmptyString else String a (str_first_piece c s')
  end.
(** [s.replace(c, empty)] for a character, and for a class of them. *)
Fixpoint str_remove (p : ascii -> bool) (s : string) : string :=
  match s with
  | EmptyString => EmptyString
  | String a s' => if p a then str_remove p s' else String a (str_remove p s')
  end.
(** [s.rstrip(c)] *)
Fixpoint str_rstrip_char (c : ascii) (s : string) : string :=
  match s with
  | EmptyString => EmptyString
  | String a s' =>
      match str_rstrip_char c s' with
      | EmptyString => if Ascii.eqb a c then EmptyString else String a EmptyString
      | t => String a t
      end
  end.

(** ** Concatenation *)

Lemma str_cons_app c a b : String c a +:+ b = String c (a +:+ b).
Proof. done. Qed.
Lemma str_nil_app b : "" +:+ b = b.
Proof. done. Qed.
Lemma str_app_assoc a b c : (a +:+ b) +:+ c = a +:+ (b +:+ c).
Proof. induction a as [|x a IH]; [done|]. by rewrite !str_cons_app, IH. Qed.
Lemma str_app_nil a : a +:+ "" = a.
Proof. induction a as [|x a IH]; [done|]. by rewrite str_cons_app, IH. Qed.
Lemma string_length_app a b : String.length (a +:+ b) = (String.length a + String.length b)%nat.
Proof. induction a as [|c a IH]; [done|]. rewrite str_cons_app. cbn. by rewrite IH. Qed.
Lemma str_all_app p a b : str_all p (a +:+ b) = str_all p a && str_all p b.
Proof. induction a as [|c a IH]; [done|]. rewrite str_cons_app. cbn [str_all]. by rewrite IH, andb_assoc. Qed.
Lemma str_all_impl (p q : ascii -> bool) s :
  (forall c, p c = true -> q c = true) -> str_all p s = true -> str_all q s = true.
Proof.
  intros Hpq. induction s as [|c s IH]; [done|]. cbn. rewrite !andb_true_iff.
  intros [Hc Hs]. auto.
Qed.
Lemma startswith_refl a b : str_startswith a (a +:+ b) = true.
Proof. induction a as [|c a IH]; [done|]. rewrite str_cons_app. cbn [str_startswith]. by rewrite Ascii.eqb_refl. Qed.
