(* ===== verification/Calendar.v ===== *)
(** UTC instants and the proleptic Gregorian calendar of Python's [datetime],
    as far as the billing code uses it.  An instant is a number of
    microseconds since 0001-01-01T00:00Z, so comparison and [timedelta]
    arithmetic are integer arithmetic; [date_of] recovers the civil date. *)

From Stdlib Require Import ZArith Lia.
From stdpp Require Import base numbers list strings pretty.
From S2P Require Import Prelude.
#[local] Open Scope Z_scope.

Definition day_us : Z := 86400 * 1000000.
Definition days (n : Z) : Z := n * day_us.
Definition seconds (n : Z) : Z := n * 1000000.

Definition is_leap (y : Z) : bool :=
  (y mod 4 =? 0) && (negb (y mod 100 =? 0) || (y mod 400 =? 0)).

(** Days of a month and days before it, in a leap or common year. *)
Definition month_len (leap : bool) (m : Z) : Z :=
  match m with
  | 2 => if leap then 29 else 28
  | 4 | 6 | 9 | 11 => 30
  | _ => 31
  end.
Definition days_before_month (leap : bool) (m : Z) : Z :=
  let b := match m with
           | 1 => 0 | 2 => 31 | 3 => 59 | 4 => 90 | 5 => 120 | 6 => 151
           | 7 => 181 | 8 => 212 | 9 => 243 | 10 => 273 | 11 => 304
           | _ => 334
           end in
  if leap && (2 <? m) then b + 1 else b.
Definition days_before_year (y : Z) : Z :=
  (y - 1) * 365 + (y - 1) / 4 - (y - 1) / 100 + (y - 1) / 400.

(** [calendar.monthrange(y, m)[1]] *)
Definition days_in_month (y m : Z) : Z := month_len (is_leap y) m.

(** [date.toordinal] *)
Definition ymd2ord (y m d : Z) : Z :=
  days_before_year y + days_before_month (is_leap y) m + d.

(** Month and day of the zero-based day [n] of a year. *)
Definition month_day (leap : bool) (n : Z) : Z * Z :=
  let m := Z.shiftr (n + 50) 5 in
  let p := days_before_month leap m in
  if n <? p then (m - 1, n - days_before_month leap (m - 1) + 1)
  else (m, n - p + 1).

(** [date.fromordinal] *)
Definition ord2ymd (ord : Z) : Z * Z * Z :=
  let n := ord - 1 in
  let n400 := n / 146097 in
  let n := n mod 146097 in
  let n100 := n / 36524 in
  let n := n mod 36524 in
  let n4 := n / 1461 in
  let n := n mod 1461 in
  let n1 := n / 365 in
  let n := n mod 365 in
  let y := n400 * 400 + 1 + n100 * 100 + n4 * 4 + n1 in
  if (n1 =? 4) || (n100 =? 4) then (y - 1, 12, 31)
  else
    let leap := (n1 =? 3) && (negb (n4 =? 24) || (n100 =? 3)) in
    let (m, d) := month_day leap n in (y, m, d).

Definition valid_date (y m d : Z) : bool :=
  (1 <=? y) && (y <=? 9999) && (1 <=? m) && (m <=? 12)
  && (1 <=? d) && (d <=? days_in_month y m).

(** Civil date and time of day of an instant. *)
Definition date_of (t : Z) : Z * Z * Z := ord2ymd (t / day_us + 1).
Definition time_of_day (t : Z) : Z := t mod day_us.

(** [datetime(y, m, d)] at time of day [tod]; [None] is [ValueError]. *)
Definition datetime_of (y m d tod : Z) : option Z :=
  if valid_date y m d then Some (days (ymd2ord y m d - 1) + tod) else None.

(** [value.replace(year=y, month=m, day=d)] *)
Definition replace_date (t y m d : Z) : option Z :=
  datetime_of y m d (time_of_day t).

(** * The calendar's laws *)

Definition all_days_ok (leap : bool) (len : nat) : bool :=
  forallb (fun k =>
    let n := Z.of_nat k in
    let (m, d) := month_day leap n in
    (1 <=? m) && (m <=? 12) && (1 <=? d) && (d <=? month_len leap m)
    && (days_before_month leap m + d - 1 =? n)) (List.seq 0 len).

Lemma month_day_spec (leap : bool) (n : Z) :
  0 <= n < (if leap then 366 else 365) ->
  let (m, d) := month_day leap n in
  1 <= m <= 12 /\ 1 <= d <= month_len leap m /\
  days_before_month leap m + d - 1 = n.
Proof.
  intros Hn.
  assert (all_days_ok leap (if leap then 366 else 365) = true) as Hall
    by (destruct leap; vm_compute; reflexivity).
  unfold all_days_ok in Hall. rewrite forallb_forall in Hall.
  specialize (Hall (Z.to_nat n)).
  assert (In (Z.to_nat n) (List.seq 0 (if leap then 366 else 365)%nat)) as Hin.
  { apply in_seq. destruct leap; lia. }
  specialize (Hall Hin). rewrite Z2Nat.id in Hall by (destruct leap; lia).
  destruct (month_day leap n) as [m d].
  rewrite !andb_true_iff, !Z.leb_le, Z.eqb_eq in Hall. lia.
Qed.

Lemma is_leap_decomp a b c e :
  0 <= b <= 3 -> 0 <= c <= 24 -> 0 <= e <= 3 ->
  is_leap (400 * a + 100 * b + 4 * c + e + 1)
  = (e =? 3) && (negb (c =? 24) || (b =? 3)).
Proof.
  intros Hb Hc He. unfold is_leap.
  apply Bool.eq_iff_eq_true.
  rewrite !andb_true_iff, !orb_true_iff, !negb_true_iff, !Z.eqb_eq, !Z.eqb_neq.
  Z.div_mod_to_equations. lia.
Qed.

Lemma days_before_year_decomp a b c e :
  0 <= b <= 3 -> 0 <= c <= 24 -> 0 <= e <= 3 ->
  days_before_year (400 * a + 100 * b + 4 * c + e + 1)
  = 146097 * a + 36524 * b + 1461 * c + 365 * e.
Proof.
  intros Hb Hc He. unfold days_before_year.
  Z.div_mod_to_equations. lia.
Qed.

(** Every ordinal is the ordinal of a valid month and day of its year. *)
Lemma ord2ymd_spec n y m d :
  ord2ymd n = (y, m, d) ->
  1 <= m <= 12 /\ 1 <= d <= days_in_month y m /\ ymd2ord y m d = n.
Proof.
  unfold ord2ymd, days_in_month, ymd2ord.
  set (n0 := n - 1). set (a := n0 / 146097). set (r := n0 mod 146097).
  set (b := r / 36524). set (s := r mod 36524). set (c := s / 1461).
  set (u := s mod 1461). set (e := u / 365). set (k := u mod 365).
  assert (n0 = 146097 * a + r /\ 0 <= r < 146097) as [Hn Hr]
    by (subst a r; Z.div_mod_to_equations; lia).
  assert (r = 36524 * b + s /\ 0 <= s < 36524) as [Hr' Hs]
    by (subst b s; Z.div_mod_to_equations; lia).
  assert (s = 1461 * c + u /\ 0 <= u < 1461) as [Hs' Hu]
    by (subst c u; Z.div_mod_to_equations; lia).
  assert (u = 365 * e + k /\ 0 <= k < 365) as [Hu' Hk]
    by (subst e k; Z.div_mod_to_equations; lia).
  clearbody a r b s c u e k.
  destruct ((e =? 4) || (b =? 4)) eqn:Hlast.
  - intros [= <- <- <-]. apply orb_true_iff in Hlast.
    assert (exists b' c', 0 <= b' <= 3 /\ 0 <= c' <= 24 /\
      a * 400 + 1 + b * 100 + c * 4 + e - 1 = 400 * a + 100 * b' + 4 * c' + 3 + 1
      /\ n - 1 = 146097 * a + 36524 * b' + 1461 * c' + 365 * 3 + 365
      /\ (c' <> 24 \/ b' = 3)) as (b' & c' & Hb' & Hc' & -> & Hn' & Hx).
    { rewrite !Z.eqb_eq in Hlast. destruct Hlast as [-> | ->].
      - exists b, c. lia.
      - exists 3, 24. lia. }
    rewrite is_leap_decomp, days_before_year_decomp by lia.
    assert ((3 =? 3) && (negb (c' =? 24) || (b' =? 3)) = true) as -> by lia.
    cbn [month_len days_before_month andb]. cbn. lia.
  - apply orb_false_iff in Hlast. rewrite !Z.eqb_neq in Hlast.
    pose proof (month_day_spec ((e =? 3) && (negb (c =? 24) || (b =? 3))) k) as Hmd.
    destruct (month_day _ k) as [m' d']. intros [= <- <- <-].
    replace (a * 400 + 1 + b * 100 + c * 4 + e)
      with (400 * a + 100 * b + 4 * c + e + 1) by lia.
    rewrite is_leap_decomp, days_before_year_decomp by lia.
    destruct ((e =? 3) && _); lia.
Qed.

Lemma days_before_month_step y m :
  1 <= m < 12 ->
  days_before_month (is_leap y) (m + 1)
  = days_before_month (is_leap y) m + days_in_month y m.
Proof.
  intros Hm. unfold days_in_month.
  assert (m = 1 \/ m = 2 \/ m = 3 \/ m = 4 \/ m = 5 \/ m = 6 \/ m = 7 \/ m = 8
          \/ m = 9 \/ m = 10 \/ m = 11) as Hc by lia.
  destruct (is_leap y); repeat destruct Hc as [->|Hc]; subst; reflexivity.
Qed.

Lemma days_before_year_step y :
  days_before_year (y + 1)
  = days_before_year y + days_before_month (is_leap y) 12 + 31.
Proof.
  unfold days_before_year, days_before_month, is_leap.
  destruct ((y mod 4 =? 0) && (negb (y mod 100 =? 0) || (y mod 400 =? 0))) eqn:E.
  - rewrite andb_true_iff, orb_true_iff, negb_true_iff, !Z.eqb_eq, Z.eqb_neq in E.
    cbn [andb Z.ltb]. cbn. Z.div_mod_to_equations. lia.
  - rewrite andb_false_iff, orb_false_iff, negb_false_iff, !Z.eqb_eq, !Z.eqb_neq in E.
    cbn. Z.div_mod_to_equations. lia.
Qed.

(** Month [k] of the era, counted from January of year 0. *)
Definition month_index (y m : Z) : Z := 12 * y + (m - 1).

(** Dates are ordered by month first. *)
Lemma ymd2ord_next_month y m d d' :
  1 <= m <= 12 -> d <= days_in_month y m -> 1 <= d' ->
  let y' := if m =? 12 then y + 1 else y in
  let m' := if m =? 12 then 1 else m + 1 in
  ymd2ord y m d < ymd2ord y' m' d'.
Proof.
  intros Hm Hd Hd'. unfold ymd2ord. destruct (m =? 12) eqn:E.
  - assert (m = 12) by lia. subst m. cbv zeta.
    rewrite days_before_year_step. unfold days_in_month in Hd. cbn in Hd.
    assert (days_before_month (is_leap (y + 1)) 1 = 0) as ->
      by (unfold days_before_month; by destruct (is_leap (y + 1))).
    lia.
  - cbv zeta. rewrite days_before_month_step by lia. lia.
Qed.

Lemma days_in_month_bounds y m : 28 <= days_in_month y m <= 31.
Proof.
  unfold days_in_month, month_len.
  repeat case_match; lia.
Qed.

Lemma date_of_spec t y m d :
  date_of t = (y, m, d) ->
  1 <= m <= 12 /\ 1 <= d <= days_in_month y m /\
  t = days (ymd2ord y m d - 1) + time_of_day t.
Proof.
  unfold date_of. intros H. apply ord2ymd_spec in H as (Hm & Hd & Ho).
  repeat split; try lia. rewrite Ho. unfold days, time_of_day.
  replace (t / day_us + 1 - 1) with (t / day_us) by lia.
  pose proof (Z.div_mod t day_us). unfold day_us in *. lia.
Qed.

Lemma time_of_day_bounds t : 0 <= time_of_day t < day_us.
Proof. apply Z.mod_pos_bound. reflexivity. Qed.

Lemma days_before_month_mono leap m m' :
  1 <= m -> m < m' <= 12 ->
  days_before_month leap m + month_len leap m <= days_before_month leap m'.
Proof.
  intros Hm Hm'.
  assert (m = 1 \/ m = 2 \/ m = 3 \/ m = 4 \/ m = 5 \/ m = 6 \/ m = 7 \/ m = 8
          \/ m = 9 \/ m = 10 \/ m = 11) as Hc by lia.
  assert (m' = 2 \/ m' = 3 \/ m' = 4 \/ m' = 5 \/ m' = 6 \/ m' = 7 \/ m' = 8
          \/ m' = 9 \/ m' = 10 \/ m' = 11 \/ m' = 12) as Hc' by lia.
  destruct leap; repeat destruct Hc as [->|Hc]; subst;
    repeat destruct Hc' as [->|Hc']; subst; cbn; lia.
Qed.

Lemma days_before_year_mono y y' :
  y < y' ->
  days_before_year y + days_before_month (is_leap y) 12 + 31
  <= days_before_year y'.
Proof.
  intros Hy. rewrite <- days_before_year_step.
  unfold days_before_year. Z.div_mod_to_equations. lia.
Qed.

Lemma days_before_month_12 leap m d :
  1 <= m <= 12 -> d <= month_len leap m ->
  0 <= days_before_month leap m /\
  days_before_month leap m + d <= days_before_month leap 12 + 31.
Proof.
  intros Hm Hd.
  assert (m = 1 \/ m = 2 \/ m = 3 \/ m = 4 \/ m = 5 \/ m = 6 \/ m = 7 \/ m = 8
          \/ m = 9 \/ m = 10 \/ m = 11 \/ m = 12) as Hc by lia.
  destruct leap; repeat destruct Hc as [->|Hc]; subst; cbn in *; lia.
Qed.

(** A day of a later month is a later day. *)
Lemma ymd2ord_later_month y m d y' m' d' :
  1 <= m <= 12 -> 1 <= m' <= 12 -> d <= days_in_month y m -> 1 <= d' ->
  month_index y m < month_index y' m' -> ymd2ord y m d < ymd2ord y' m' d'.
Proof.
  unfold ymd2ord, month_index, days_in_month. intros Hm Hm' Hd Hd' Hlt.
  pose proof (days_before_month_12 (is_leap y) m d Hm Hd) as [_ H1].
  pose proof (days_before_month_12 (is_leap y') m' 1 Hm'
    ltac:(unfold month_len; repeat case_match; lia)) as [H2 _].
  destruct (Z.lt_trichotomy y y') as [H|[<-|H]]; [|..|lia].
  - apply days_before_year_mono in H. lia.
  - pose proof (days_before_month_mono (is_leap y) m m' ltac:(lia) ltac:(lia)). lia.
Qed.

(** Civil dates and ordinals are in bijection. *)
Lemma ymd2ord_inj y m d y' m' d' :
  1 <= m <= 12 -> 1 <= d <= days_in_month y m ->
  1 <= m' <= 12 -> 1 <= d' <= days_in_month y' m' ->
  ymd2ord y m d = ymd2ord y' m' d' -> (y, m, d) = (y', m', d').
Proof.
  unfold ymd2ord, days_in_month. intros Hm Hd Hm' Hd' Heq.
  pose proof (days_before_month_12 (is_leap y) m d) as H1.
  pose proof (days_before_month_12 (is_leap y') m' d') as H2.
  assert (y = y') as <-.
  { destruct (Z.lt_trichotomy y y') as [H|[H|H]]; [|done|];
      apply days_before_year_mono in H; lia. }
  assert (m = m') as <-.
  { destruct (Z.lt_trichotomy m m') as [H|[H|H]]; [|done|].
    - pose proof (days_before_month_mono (is_leap y) m m'). lia.
    - pose proof (days_before_month_mono (is_leap y) m' m). lia. }
  assert (d = d') by lia. congruence.
Qed.

Lemma ord2ymd_ymd2ord y m d :
  1 <= m <= 12 -> 1 <= d <= days_in_month y m ->
  ord2ymd (ymd2ord y m d) = (y, m, d).
Proof.
  intros Hm Hd. destruct (ord2ymd _) as [[y' m'] d'] eqn:E.
  apply ord2ymd_spec in E as (Hm' & Hd' & Ho). by apply ymd2ord_inj.
Qed.

Lemma date_of_datetime y m d tod t :
  0 <= tod < day_us -> datetime_of y m d tod = Some t ->
  date_of t = (y, m, d) /\ time_of_day t = tod.
Proof.
  unfold datetime_of. intros Htod. destruct (valid_date y m d) eqn:Hv; [|done].
  intros [= <-]. unfold date_of, time_of_day, days.
  unfold valid_date in Hv. rewrite !andb_true_iff, !Z.leb_le in Hv.
  rewrite Z.div_add_l, Z.div_small, (Z.add_comm (_ * _)), Z.mod_add, Z.mod_small
    by (unfold day_us in *; lia).
  split; [|done].
  replace (ymd2ord y m d - 1 + 0 + 1) with (ymd2ord y m d) by lia.
  apply ord2ymd_ymd2ord; lia.
Qed.

(** * Rendering *)

(** [value.isoformat()] of an aware UTC datetime. *)
Definition pad (width : nat) (n : Z) : string :=
  let s := pretty n in
  String.concat "" (repeat "0" (width - String.length s)) +:+ s.
Definition isoformat (t : Z) : string :=
  let '(y, m, d) := date_of t in
  let us := time_of_day t in
  let sec := us / 1000000 in
  let micro := us mod 1000000 in
  pad 4 y +:+ "-" +:+ pad 2 m +:+ "-" +:+ pad 2 d +:+ "T"
  +:+ pad 2 (sec / 3600) +:+ ":" +:+ pad 2 (sec / 60 mod 60) +:+ ":"
  +:+ pad 2 (sec mod 60)
  +:+ (if micro =? 0 then "" else "." +:+ pad 6 micro) +:+ "+00:00".
