(* ===== verification/Texts.v ===== *)
(** Text formats of the Python standard library that are written to Redis and
    read back: instants ([isoformat] and [datetime.fromisoformat]) and lists of
    strings ([json.dumps] and [json.loads]); and [fnmatch.fnmatch]. *)
From Stdlib Require Import ZArith Lia Ascii.
From stdpp Require Import base numbers list strings pretty.
From S2P Require Import Prelude Calendar.
#[local] Open Scope Z_scope.
#[local] Open Scope py_scope.

(** * Instants *)

(** Exactly [w] digits, and what follows them. *)
Fixpoint read_digits (w : nat) (acc : Z) (s : string) : option (Z * string) :=
  match w, s with
  | O, _ => Some (acc, s)
  | S w, String c s => if is_digit c then read_digits w (10 * acc + digit_value c) s else None
  | S _, EmptyString => None
  end.
Definition read_char (c : ascii) (s : string) : option string :=
  match s with String a s => if Ascii.eqb a c then Some s else None | EmptyString => None end.
Definition read_field (w : nat) (c : ascii) (s : string) : option (Z * string) :=
  match read_digits w 0 s with
  | Some (n, s) => match read_char c s with Some s => Some (n, s) | None => None end
  | None => None
  end.
(** The fraction of a second, and the offset, which is the end of the text. *)
Definition read_micro (s : string) : option (Z * string) :=
  match read_char "."%char s with
  | Some s => read_digits 6 0 s
  | None => Some (0, s)
  end.
(** [datetime.fromisoformat(s)] of a text that [isoformat] may have written:
    other formats it accepts are not written to Redis. [None] is [ValueError]. *)
Definition fromisoformat (s : string) : option Z :=
  match read_field 4 "-"%char s with
  | None => None
  | Some (y, s) =>
  match read_field 2 "-"%char s with
  | None => None
  | Some (m, s) =>
  match read_field 2 "T"%char s with
  | None => None
  | Some (d, s) =>
  match read_field 2 ":"%char s with
  | None => None
  | Some (h, s) =>
  match read_field 2 ":"%char s with
  | None => None
  | Some (mi, s) =>
  match read_digits 2 0 s with
  | None => None
  | Some (sec, s) =>
  match read_micro s with
  | None => None
  | Some (us, s) =>
      if String.eqb s "+00:00" && (h <? 24) && (mi <? 60) && (sec <? 60)
      then datetime_of y m d (((h * 60 + mi) * 60 + sec) * 1000000 + us)
      else None
  end end end end end end end.

(** Instants that a [datetime] holds. *)
Definition representable (t : Z) : Prop := 0 <= t < days (ymd2ord 9999 12 31).

(** ** Numbers of a given width *)

Definition digit_char (n : Z) : ascii := pretty_N_char (Z.to_N n).
Lemma digit_char_digit n : 0 <= n < 10 -> is_digit (digit_char n) = true /\ digit_value (digit_char n) = n.
Proof. intros H. each_digit n 10. Qed.
Lemma pretty_N_go_app x s : pretty_N_go x s = pretty_N_go x "" +:+ s.
Proof.
  revert s. induction (N.lt_wf_0 x) as [x _ IH]; intros s.
  destruct (decide (x = 0)%N) as [->|Hx]; [by rewrite !pretty_N_go_0|].
  assert (x / 10 < x)%N as Hlt by (apply N.div_lt; lia).
  rewrite (pretty_N_go_step x s), (pretty_N_go_step x "") by lia.
  rewrite (IH _ Hlt (String _ s)), (IH _ Hlt (String _ "")). by rewrite str_app_assoc.
Qed.
(** A number ends in its last digit. *)
Lemma pretty_snoc n : 10 <= n -> pretty n = pretty (n / 10) +:+ String (digit_char (n mod 10)) "".
Proof.
  intros Hn. assert (exists x : N, n = Z.of_N x /\ (10 <= x)%N) as (x & -> & Hx) by (exists (Z.to_N n); lia).
  replace (Z.of_N x / 10) with (Z.of_N (x / 10)) by (by rewrite N2Z.inj_div).
  replace (Z.of_N x mod 10) with (Z.of_N (x mod 10)) by (by rewrite N2Z.inj_mod). unfold digit_char. rewrite N2Z.id.
  assert (forall y : N, (y <> 0)%N -> pretty (Z.of_N y) = pretty_N_go y "") as Hp.
  { intros [|p] Hy; [done|]. change (pretty (Z.of_N (N.pos p))) with (pretty (N.pos p)). unfold pretty, pretty_N.
    by rewrite decide_False. }
  assert (x / 10 <> 0)%N as Hq by (intros H; apply N.div_small_iff in H; lia).
  rewrite !Hp by (done || lia). rewrite pretty_N_go_step by lia. by rewrite pretty_N_go_app.
Qed.
Lemma pretty_one_digit n : 0 <= n < 10 -> pretty n = String (digit_char n) "".
Proof. intros H. each_digit n 10. Qed.

Lemma zeros_S k : String.concat "" (repeat "0" (S k)) = "0" +:+ String.concat "" (repeat "0" k).
Proof. by destruct k. Qed.
Lemma zeros_snoc k : String.concat "" (repeat "0" k) +:+ "0" = String.concat "" (repeat "0" (S k)).
Proof. induction k as [|k IH]; [done|]. by rewrite zeros_S, str_app_assoc, IH. Qed.
Lemma pad_S w n : (0 < w)%nat -> 0 <= n -> pad (S w) n = pad w (n / 10) +:+ String (digit_char (n mod 10)) "".
Proof.
  intros Hw Hn. unfold pad. destruct (Z.lt_ge_cases n 10) as [H|H].
  - rewrite (Z.div_small n 10), (Z.mod_small n 10) by lia. rewrite (pretty_one_digit n) by lia.
    change (pretty 0) with "0". cbn [String.length]. destruct w as [|w]; [lia|].
    rewrite !Nat.sub_succ, !Nat.sub_0_r, zeros_snoc. done.
  - rewrite (pretty_snoc n H), string_length_app. cbn [String.length]. rewrite Nat.add_1_r, Nat.sub_succ. by rewrite str_app_assoc.
Qed.
Lemma read_digits_snoc w acc s :
  read_digits (S w) acc s = match read_digits w acc s with Some (a, s) => read_digits 1 a s | None => None end.
Proof.
  revert acc s. induction w as [|w IH]; intros acc s; [done|].
  change (read_digits (S (S w)) acc s) with
    (match s with String c s => if is_digit c then read_digits (S w) (10 * acc + digit_value c) s else None | "" => None end).
  destruct s as [|c s]; [done|]. rewrite IH. change (read_digits (S w) acc (String c s)) with
    (if is_digit c then read_digits w (10 * acc + digit_value c) s else None). by destruct (is_digit c).
Qed.
Lemma read_digits_one n acc s : 0 <= n < 10 -> read_digits 1 acc (String (digit_char n) s) = Some (10 * acc + n, s).
Proof. intros H. destruct (digit_char_digit n H) as [H1 H2]. cbn [read_digits]. by rewrite H1, H2. Qed.
(** What is padded to a width is read back. *)
Lemma read_digits_pad w n s acc : (0 < w)%nat -> 0 <= n < 10 ^ Z.of_nat w ->
  read_digits w acc (pad w n +:+ s) = Some (acc * 10 ^ Z.of_nat w + n, s).
Proof.
  intros Hw. revert n s acc. induction w as [|w IH]; intros n s acc Hn; [lia|]. destruct w as [|w].
  - unfold pad. rewrite (pretty_one_digit n) by (cbn in Hn; lia). cbn [String.length repeat Nat.sub String.concat]. rewrite str_nil_app, str_cons_app, str_nil_app.
    rewrite read_digits_one by (cbn in Hn; lia). do 2 f_equal. cbn. lia.
  - rewrite pad_S by lia. rewrite str_app_assoc, read_digits_snoc. rewrite (Nat2Z.inj_succ (S w)), Z.pow_succ_r in Hn by lia.
    rewrite IH; [|lia|split; [apply Z.div_pos; lia|apply Z.div_lt_upper_bound; lia]].
    rewrite str_cons_app, str_nil_app, read_digits_one by (apply Z.mod_pos_bound; lia).
    rewrite (Nat2Z.inj_succ (S w)), Z.pow_succ_r by lia. do 2 f_equal. pose proof (Z.div_mod n 10). lia.
Qed.
Lemma read_field_pad w c n s : (0 < w)%nat -> 0 <= n < 10 ^ Z.of_nat w ->
  read_field w c (pad w n +:+ String c s) = Some (n, s).
Proof. intros Hw Hn. unfold read_field. rewrite read_digits_pad by done. cbn [read_char]. by rewrite Ascii.eqb_refl. Qed.

(** ** Reading instants back *)

Lemma representable_date t y m d : representable t -> date_of t = (y, m, d) -> valid_date y m d = true.
Proof.
  intros [Ht0 Ht] Hd. apply date_of_spec in Hd as (Hm & Hday & Hord). pose proof (time_of_day_bounds t) as Htod.
  assert (1 <= ymd2ord y m d <= ymd2ord 9999 12 31) as Ho by (unfold days, day_us in *; lia).
  pose proof (days_before_month_12 (is_leap y) m d Hm ltac:(unfold days_in_month in Hday; lia)) as [H1 H2].
  unfold ymd2ord in Ho. unfold valid_date.
  assert (1 <= y).
  { destruct (Z.lt_ge_cases y 1) as [Hy|]; [|done]. apply days_before_year_mono in Hy. change (days_before_year 1) with 0 in Hy. lia. }
  assert (y <= 9999).
  { destruct (Z.lt_ge_cases 9999 y) as [Hy|]; [|done]. apply days_before_year_mono in Hy.
    change (is_leap 9999) with false in *. lia. }
  rewrite !andb_true_iff, !Z.leb_le. lia.
Qed.
Lemma read_micro_fraction us : 0 <= us < 1000000 ->
  read_micro ((if us =? 0 then "" else "." +:+ pad 6 us) +:+ "+00:00") = Some (us, "+00:00").
Proof.
  intros H. destruct (Z.eqb_spec us 0) as [->|Hu]; [done|]. rewrite str_app_assoc. unfold read_micro.
  change ("." +:+ (pad 6 us +:+ "+00:00")) with (String "."%char (pad 6 us +:+ "+00:00")). cbn [read_char Ascii.eqb Bool.eqb].
  by rewrite read_digits_pad by lia.
Qed.
(** What [isoformat] writes is read back. *)
Lemma fromisoformat_isoformat t : representable t -> fromisoformat (isoformat t) = Some t.
Proof.
  intros Hr. unfold isoformat. destruct (date_of t) as [[y m] d] eqn:Hd.
  pose proof (representable_date _ _ _ _ Hr Hd) as Hv. apply date_of_spec in Hd as (Hm & Hday & Hord).
  pose proof (time_of_day_bounds t) as Htod. set (us := time_of_day t) in *.
  pose proof Hv as Hy. unfold valid_date in Hy. rewrite !andb_true_iff, !Z.leb_le in Hy.
  pose proof (days_in_month_bounds y m) as Hdm. unfold day_us in Htod.
  set (sec := us / 1000000) in *. assert (0 <= sec < 86400) as Hsec by (subst sec; Z.div_mod_to_equations; lia).
  assert (us = sec * 1000000 + us mod 1000000) as Hus by (pose proof (Z.div_mod us 1000000); subst sec; lia).
  pose proof (Z.mod_pos_bound us 1000000 eq_refl) as Hmicro.
  assert (0 <= sec / 3600 < 24 /\ 0 <= sec / 60 mod 60 < 60 /\ 0 <= sec mod 60 < 60
          /\ (sec / 3600 * 60 + sec / 60 mod 60) * 60 + sec mod 60 = sec) as (Hh & Hmi & Hs & Hall) by (Z.div_mod_to_equations; lia).
  unfold fromisoformat.
  repeat match goal with |- context [pad ?w ?n +:+ (String ?c "" +:+ ?s)] =>
    change (pad w n +:+ (String c "" +:+ s)) with (pad w n +:+ String c s) end.
  rewrite (read_field_pad 4), !(read_field_pad 2) by (cbn; lia).
  rewrite (read_digits_pad 2) by (cbn; lia). rewrite (read_micro_fraction _ Hmicro).
  rewrite !(proj2 (Z.ltb_lt _ _)) by lia. cbn [String.eqb Ascii.eqb Bool.eqb andb].
  unfold datetime_of. rewrite Hv. f_equal. rewrite Z.mul_0_l, Z.add_0_l, Hall, <- Hus. by rewrite Hord.
Qed.

(** * Lists of strings *)

(** A text is Latin-1: a character is its code point. *)
Definition QUOTE : ascii := "034"%char.
Definition BACKSLASH : ascii := "092"%char.
Definition hex_char (n : Z) : ascii := ascii_of_nat (Z.to_nat (if n <? 10 then 48 + n else 87 + n)).
Definition code (c : ascii) : Z := Z.of_nat (nat_of_ascii c).
(** The letter that stands for a character after a backslash. *)
Definition short_escapes : list (ascii * ascii) :=
  [(QUOTE, QUOTE); (BACKSLASH, BACKSLASH); ("008"%char, "b"%char); ("009"%char, "t"%char);
   ("010"%char, "n"%char); ("012"%char, "f"%char); ("013"%char, "r"%char)].
Definition json_char (c : ascii) : string :=
  match List.find (fun x => Ascii.eqb x.1 c) short_escapes with
  | Some (_, e) => String BACKSLASH (String e "")
  | None =>
      if (32 <=? code c) && (code c <? 127) then String c ""
      else String BACKSLASH (String "u"%char (String "0"%char (String "0"%char
             (String (hex_char (code c / 16)) (String (hex_char (code c mod 16)) "")))))
  end.
Fixpoint json_body (s : string) : string :=
  match s with EmptyString => "" | String c s => json_char c +:+ json_body s end.
Definition json_string (s : string) : string := String QUOTE (json_body s +:+ String QUOTE "").
Fixpoint json_items (l : list string) : string :=
  match l with
  | [] => "]"
  | s :: l => ", " +:+ json_string s +:+ json_items l
  end.
(** [json.dumps(l)] *)
Definition json_dumps (l : list string) : string :=
  match l with
  | [] => "[]"
  | s :: l => "[" +:+ json_string s +:+ json_items l
  end.

Definition hex_value (c : ascii) : option Z :=
  let n := code c in
  if (48 <=? n) && (n <=? 57) then Some (n - 48)
  else if (97 <=? n) && (n <=? 102) then Some (n - 87)
  else if (65 <=? n) && (n <=? 70) then Some (n - 55)
  else None.
Definition unescape (e : ascii) : option ascii :=
  if Ascii.eqb e "/"%char then Some e
  else option_map fst (List.find (fun x => Ascii.eqb x.2 e) short_escapes).
(** A string up to its closing quote, and what follows it; code points beyond
    Latin-1 are not read. *)
Fixpoint read_string (s : string) : option (string * string) :=
  match s with
  | EmptyString => None
  | String c s =>
      if Ascii.eqb c QUOTE then Some ("", s)
      else if Ascii.eqb c BACKSLASH then
        match s with
        | String e s =>
            if Ascii.eqb e "u"%char then
              match s with
              | String z1 (String z2 (String h1 (String h2 s))) =>
                  match hex_value z1, hex_value z2, hex_value h1, hex_value h2, read_string s with
                  | Some 0, Some 0, Some a, Some b, Some (t, rest) =>
                      Some (String (ascii_of_nat (Z.to_nat (16 * a + b))) t, rest)
                  | _, _, _, _, _ => None
                  end
              | _ => None
              end
            else match unescape e, read_string s with
                 | Some x, Some (t, rest) => Some (String x t, rest)
                 | _, _ => None
                 end
        | EmptyString => None
        end
      else if code c <? 32 then None
      else match read_string s with Some (t, rest) => Some (String c t, rest) | None => None end
  end.
Definition json_space (c : ascii) : bool :=
  existsb (Ascii.eqb c) [" "%char; "009"%char; "010"%char; "013"%char].
Fixpoint skip_space (s : string) : string :=
  match s with String c s' => if json_space c then skip_space s' else s | EmptyString => "" end.
Definition read_token (c : ascii) (s : string) : option string := read_char c (skip_space s).
(** What follows an item of a list; the text's length bounds the items. *)
Fixpoint read_items (fuel : nat) (s : string) : option (list string) :=
  match fuel with
  | O => None
  | S fuel =>
      match read_token "]"%char s with
      | Some s => if str_empty (skip_space s) then Some [] else None
      | None =>
          match read_token ","%char s with
          | None => None
          | Some s =>
              match read_token QUOTE s with
              | None => None
              | Some s =>
                  match read_string s with
                  | Some (x, s) => option_map (cons x) (read_items fuel s)
                  | None => None
                  end
              end
          end
      end
  end.
(** [json.loads(s)] of a list of strings; other values are not written to
    Redis, and are [None] like a text that is not JSON. *)
Definition json_loads (s : string) : option (list string) :=
  match read_token "["%char s with
  | None => None
  | Some s =>
      match read_token QUOTE s with
      | Some s' =>
          match read_string s' with
          | Some (x, s') => option_map (cons x) (read_items (S (String.length s')) s')
          | None => None
          end
      | None =>
          match read_token "]"%char s with
          | Some s => if str_empty (skip_space s) then Some [] else None
          | None => None
          end
      end
  end.

(** ** Reading lists back *)

Lemma read_json_char c s :
  read_string (json_char c +:+ s) = match read_string s with Some (t, rest) => Some (String c t, rest) | None => None end.
Proof. destruct c as [[] [] [] [] [] [] [] []]; reflexivity. Qed.
Lemma read_json_string s rest : read_string (json_body s +:+ String QUOTE rest) = Some (s, rest).
Proof.
  induction s as [|c s IH]; [done|]. cbn [json_body]. rewrite str_app_assoc, read_json_char. by rewrite IH.
Qed.
Lemma json_string_app s rest : json_string s +:+ rest = String QUOTE (json_body s +:+ String QUOTE rest).
Proof. unfold json_string. by rewrite str_cons_app, str_app_assoc. Qed.
Lemma read_next_item s rest fuel :
  read_items (S fuel) (", " +:+ json_string s +:+ rest) = option_map (cons s) (read_items fuel rest).
Proof.
  rewrite json_string_app. set (text := json_body s +:+ String QUOTE rest). cbn [read_items].
  assert (read_token "]"%char (", " +:+ String QUOTE text) = None) as -> by reflexivity.
  assert (read_token ","%char (", " +:+ String QUOTE text) = Some (String " "%char (String QUOTE text))) as -> by reflexivity.
  assert (read_token QUOTE (String " "%char (String QUOTE text)) = Some text) as -> by reflexivity.
  subst text. by rewrite read_json_string.
Qed.
Lemma read_items_items l fuel : (length l < fuel)%nat -> read_items fuel (json_items l) = Some l.
Proof.
  revert fuel. induction l as [|s l IH]; intros [|fuel] Hf; try (cbn in Hf; lia); [done|]. cbn [length] in Hf.
  cbn [json_items]. by rewrite read_next_item, IH by lia.
Qed.
Lemma json_items_length l : (length l <= String.length (json_items l))%nat.
Proof.
  induction l as [|s l IH]; [cbn; lia|]. cbn [json_items length]. rewrite json_string_app, string_length_app. cbn [String.length].
  rewrite string_length_app. cbn [String.length]. lia.
Qed.
(** What [json.dumps] writes is read back. *)
Lemma json_loads_dumps l : json_loads (json_dumps l) = Some l.
Proof.
  destruct l as [|s l]; [done|]. cbn [json_dumps]. rewrite json_string_app. set (text := json_body s +:+ String QUOTE (json_items l)).
  unfold json_loads. assert (read_token "["%char ("[" +:+ String QUOTE text) = Some (String QUOTE text)) as -> by reflexivity.
  assert (read_token QUOTE (String QUOTE text) = Some text) as -> by reflexivity.
  subst text. rewrite read_json_string. rewrite read_items_items; [done|]. pose proof (json_items_length l). lia.
Qed.

(** * Patterns *)

(** A pattern is any text, one character, a set of characters (whether
    it is the complement, and its ranges), or a character. *)
Inductive glob : Type :=
| GlobAny
| GlobOne
| GlobSet (complement : bool) (ranges : list (ascii * ascii))
| GlobChar (c : ascii).
(** The inside of a set up to its closing bracket; a bracket that comes first
    is one of its characters. *)
Fixpoint set_text (s : string) : option (string * string) :=
  match s with
  | EmptyString => None
  | String c s =>
      if Ascii.eqb c "]"%char then Some ("", s)
      else option_map (fun x => (String c x.1, x.2)) (set_text s)
  end.
Fixpoint set_ranges (s : string) : list (ascii * ascii) :=
  match s with
  | EmptyString => []
  | String a (String dash (String b s) as t) =>
      if Ascii.eqb dash "-"%char then (a, b) :: set_ranges s else (a, a) :: set_ranges t
  | String a t => (a, a) :: set_ranges t
  end.
Definition read_set (s : string) : option (glob * string) :=
  let '(complement, s) := match s with
                          | String c t => if Ascii.eqb c "!"%char then (true, t) else (false, s)
                          | _ => (false, s)
                          end in
  match s with
  | String c t =>
      option_map (fun x => (GlobSet complement (set_ranges (String c x.1)), x.2)) (set_text t)
  | EmptyString => None
  end.
Fixpoint read_glob (fuel : nat) (p : string) : list glob :=
  match fuel, p with
  | S fuel, String c p =>
      if Ascii.eqb c "*"%char then GlobAny :: read_glob fuel p
      else if Ascii.eqb c "?"%char then GlobOne :: read_glob fuel p
      else if Ascii.eqb c "["%char then
        match read_set p with
        | Some (g, p) => g :: read_glob fuel p
        | None => GlobChar c :: read_glob fuel p
        end
      else GlobChar c :: read_glob fuel p
  | _, _ => []
  end.
Definition glob_one (g : glob) (c : ascii) : bool :=
  match g with
  | GlobAny | GlobOne => true
  | GlobSet complement ranges =>
      xorb complement (existsb (fun r => (code r.1 <=? code c) && (code c <=? code r.2)) ranges)
  | GlobChar a => Ascii.eqb a c
  end.
Fixpoint glob_match (l : list glob) (s : string) : bool :=
  match l with
  | [] => str_empty s
  | GlobAny :: l =>
      (fix after s := glob_match l s || match s with String _ s => after s | EmptyString => false end) s
  | g :: l => match s with String c s => glob_one g c && glob_match l s | EmptyString => false end
  end.
(** [fnmatch.fnmatch(name, pattern)] on a system with one case of file names. *)
Definition fnmatch (name pattern : string) : bool :=
  glob_match (read_glob (String.length pattern) pattern) name.
Definition plain_char (c : ascii) : bool :=
  negb (existsb (Ascii.eqb c) ["*"%char; "?"%char; "["%char]).
Lemma glob_any_matches s : glob_match [GlobAny] s = true.
Proof.
  cbn. induction s as [|c s IH]; [done|]. by destruct s.
Qed.
(** A pattern that ends in a star matches what starts with the text before it. *)
Lemma fnmatch_prefix p name : str_all plain_char p = true -> fnmatch name (p +:+ "*") = str_startswith p name.
Proof.
  intros Hp. unfold fnmatch.
  assert (forall fuel, (String.length p < fuel)%nat -> read_glob fuel (p +:+ "*") = map GlobChar (String.list_ascii_of_string p) ++ [GlobAny]) as ->;
    [| |rewrite string_length_app; cbn; lia].
  - induction p as [|c p IH]; intros [|fuel] Hf; try (cbn in Hf; lia); [by destruct fuel|].
    cbn [str_all] in Hp. apply andb_true_iff in Hp as [Hc Hp]. rewrite str_cons_app. cbn [read_glob String.list_ascii_of_string map app].
    unfold plain_char in Hc. cbn [existsb] in Hc. rewrite !negb_orb, !andb_true_iff, !negb_true_iff in Hc. destruct Hc as (-> & -> & -> & _).
    f_equal. apply IH; [done|cbn in Hf; lia].
  - clear Hp. revert name. induction p as [|c p IH]; intros name; [apply glob_any_matches|].
    cbn [String.list_ascii_of_string map app glob_match str_startswith]. destruct name as [|a name]; [done|]. cbn [glob_one]. by rewrite IH.
Qed.

(** [p in s] *)
Fixpoint str_in (p s : string) : bool :=
  str_startswith p s || match s with String _ s => str_in p s | EmptyString => false end.
