(* ===== verification/Models.v ===== *)
(** The billing data model: enumerations, rows and the database they form.

    [src/app/models/reseller.py] declares the tables; a row is a record with
    the source's columns (the [created_at]/[updated_at] audit columns and the
    ORM relationship attributes excepted: a relationship is followed through
    its foreign key).  [constraints] collects the unique, check and
    integer-width constraints the tables declare, and [flush] is where the
    database enforces them. *)
From Stdlib Require Import ZArith Lia.
From stdpp Require Import base numbers list strings pretty.
From S2P Require Import Prelude.
#[local] Open Scope Z_scope.
#[local] Open Scope py_scope.

Set Warnings "-register-all".

(** * JSON values and dicts *)

Inductive json : Type :=
| JNull
| JBool (b : bool)
| JInt (n : Z)
| JStr (s : string)
| JList (l : list json)
| JObj (kv : list (string * json)).

(** A Python dict: insertion-ordered, one binding per key. *)
Abbreviation dict := (list (string * json)).

Fixpoint dict_get (k : string) (d : dict) : option json :=
  match d with
  | [] => None
  | (k', v) :: d' => if py_eq k k' then Some v else dict_get k d'
  end.
Fixpoint dict_set (k : string) (v : json) (d : dict) : dict :=
  match d with
  | [] => [(k, v)]
  | (k', v') :: d' =>
      if py_eq k k' then (k', v) :: d' else (k', v') :: dict_set k v d'
  end.
(** [key in d] and [d.pop(key, None)] *)
Definition dict_has (k : string) (d : dict) : bool :=
  match dict_get k d with Some _ => true | None => false end.
Definition dict_del (k : string) (d : dict) : dict :=
  List.filter (fun x => negb (py_eq x.1 k)) d.
(** [{**d, **e}] *)
Definition dict_merge (d e : dict) : dict :=
  fold_left (fun acc kv => dict_set kv.1 kv.2 acc) e d.

Definition jopt_str (o : option string) : json :=
  match o with Some s => JStr s | None => JNull end.
Definition jopt_int (o : option Z) : json :=
  match o with Some n => JInt n | None => JNull end.

(** * Enumerations *)

Inductive charge_preference : Type :=
| CP_CREDIT_FIRST
| CP_PAYMENT_FIRST.
#[export] Instance charge_preference_eq_dec : EqDecision charge_preference.
Proof. solve_decision. Defined.
Definition charge_preference_value (x : charge_preference) : string :=
  match x with
  | CP_CREDIT_FIRST => "credit_first"
  | CP_PAYMENT_FIRST => "payment_first"
  end.

Inductive reseller_status : Type :=
| RS_ACTIVE
| RS_SUSPENDED
| RS_DISABLED.
#[export] Instance reseller_status_eq_dec : EqDecision reseller_status.
Proof. solve_decision. Defined.
Definition reseller_status_value (x : reseller_status) : string :=
  match x with
  | RS_ACTIVE => "active"
  | RS_SUSPENDED => "suspended"
  | RS_DISABLED => "disabled"
  end.

Inductive nonpayment_policy : Type :=
| NP_BLOCK_NEW
| NP_SUSPEND_ALL.
#[export] Instance nonpayment_policy_eq_dec : EqDecision nonpayment_policy.
Proof. solve_decision. Defined.
Definition nonpayment_policy_value (x : nonpayment_policy) : string :=
  match x with
  | NP_BLOCK_NEW => "block_new"
  | NP_SUSPEND_ALL => "suspend_all"
  end.

Inductive invoice_purpose : Type :=
| IP_CREDIT_TOPUP
| IP_DEPLOY_CHARGE
| IP_CYCLE_CHARGE
| IP_ADJUSTMENT
| IP_ORDER_CHARGE
| IP_ADDON
| IP_UPGRADE
| IP_CREDIT_NOTE
| IP_RENEWAL.
#[export] Instance invoice_purpose_eq_dec : EqDecision invoice_purpose.
Proof. solve_decision. Defined.
Definition invoice_purpose_value (x : invoice_purpose) : string :=
  match x with
  | IP_CREDIT_TOPUP => "credit_topup"
  | IP_DEPLOY_CHARGE => "deploy_charge"
  | IP_CYCLE_CHARGE => "cycle_charge"
  | IP_ADJUSTMENT => "adjustment"
  | IP_ORDER_CHARGE => "order_charge"
  | IP_ADDON => "addon"
  | IP_UPGRADE => "upgrade"
  | IP_CREDIT_NOTE => "credit_note"
  | IP_RENEWAL => "renewal"
  end.

Inductive invoice_status : Type :=
| IS_DRAFT
| IS_OPEN
| IS_PAID
| IS_VOID
| IS_FAILED
| IS_PENDING_ACTION
| IS_OVERDUE.
#[export] Instance invoice_status_eq_dec : EqDecision invoice_status.
Proof. solve_decision. Defined.
Definition invoice_status_value (x : invoice_status) : string :=
  match x with
  | IS_DRAFT => "draft"
  | IS_OPEN => "open"
  | IS_PAID => "paid"
  | IS_VOID => "void"
  | IS_FAILED => "failed"
  | IS_PENDING_ACTION => "pending_action"
  | IS_OVERDUE => "overdue"
  end.

Inductive payment_status : Type :=
| PS_PENDING
| PS_SUCCEEDED
| PS_FAILED
| PS_REFUNDED.
#[export] Instance payment_status_eq_dec : EqDecision payment_status.
Proof. solve_decision. Defined.
Definition payment_status_value (x : payment_status) : string :=
  match x with
  | PS_PENDING => "pending"
  | PS_SUCCEEDED => "succeeded"
  | PS_FAILED => "failed"
  | PS_REFUNDED => "refunded"
  end.

Inductive entry_type : Type :=
| ET_TOPUP
| ET_CHARGE
| ET_REFUND
| ET_ADJUSTMENT
| ET_REVERSAL.
#[export] Instance entry_type_eq_dec : EqDecision entry_type.
Proof. solve_decision. Defined.
Definition entry_type_value (x : entry_type) : string :=
  match x with
  | ET_TOPUP => "topup"
  | ET_CHARGE => "charge"
  | ET_REFUND => "refund"
  | ET_ADJUSTMENT => "adjustment"
  | ET_REVERSAL => "reversal"
  end.

Inductive billing_status : Type :=
| BS_ACTIVE
| BS_PAST_DUE
| BS_GRACE
| BS_SUSPENDED_NONPAYMENT
| BS_CANCELLED
| BS_MANUAL_REVIEW
| BS_ERROR.
#[export] Instance billing_status_eq_dec : EqDecision billing_status.
Proof. solve_decision. Defined.
Definition billing_status_value (x : billing_status) : string :=
  match x with
  | BS_ACTIVE => "active"
  | BS_PAST_DUE => "past_due"
  | BS_GRACE => "grace"
  | BS_SUSPENDED_NONPAYMENT => "suspended_nonpayment"
  | BS_CANCELLED => "cancelled"
  | BS_MANUAL_REVIEW => "manual_review"
  | BS_ERROR => "error"
  end.

Inductive cycle_state : Type :=
| CS_DUE
| CS_PROCESSING
| CS_PAST_DUE
| CS_GRACE
| CS_PENDING_ACTION
| CS_PAID
| CS_SUSPENDED
| CS_CANCELLED
| CS_MANUAL_REVIEW
| CS_ERROR.
#[export] Instance cycle_state_eq_dec : EqDecision cycle_state.
Proof. solve_decision. Defined.
Definition cycle_state_value (x : cycle_state) : string :=
  match x with
  | CS_DUE => "due"
  | CS_PROCESSING => "processing"
  | CS_PAST_DUE => "past_due"
  | CS_GRACE => "grace"
  | CS_PENDING_ACTION => "pending_action"
  | CS_PAID => "paid"
  | CS_SUSPENDED => "suspended"
  | CS_CANCELLED => "cancelled"
  | CS_MANUAL_REVIEW => "manual_review"
  | CS_ERROR => "error"
  end.

Inductive outbox_status : Type :=
| OS_QUEUED
| OS_SENDING
| OS_SENT
| OS_SKIPPED
| OS_FAILED.
#[export] Instance outbox_status_eq_dec : EqDecision outbox_status.
Proof. solve_decision. Defined.
Definition outbox_status_value (x : outbox_status) : string :=
  match x with
  | OS_QUEUED => "queued"
  | OS_SENDING => "sending"
  | OS_SENT => "sent"
  | OS_SKIPPED => "skipped"
  | OS_FAILED => "failed"
  end.

Inductive email_status : Type :=
| EM_QUEUED
| EM_SENDING
| EM_SENT
| EM_SKIPPED
| EM_FAILED.
#[export] Instance email_status_eq_dec : EqDecision email_status.
Proof. solve_decision. Defined.
Definition email_status_value (x : email_status) : string :=
  match x with
  | EM_QUEUED => "queued"
  | EM_SENDING => "sending"
  | EM_SENT => "sent"
  | EM_SKIPPED => "skipped"
  | EM_FAILED => "failed"
  end.

Inductive delivery_status : Type :=
| WD_PENDING
| WD_DELIVERED
| WD_FAILED.
#[export] Instance delivery_status_eq_dec : EqDecision delivery_status.
Proof. solve_decision. Defined.
Definition delivery_status_value (x : delivery_status) : string :=
  match x with
  | WD_PENDING => "pending"
  | WD_DELIVERED => "delivered"
  | WD_FAILED => "failed"
  end.

Inductive quota_scope : Type :=
| QS_PRODUCT
| QS_SERVER_GROUP
| QS_PROXMOX_CLUSTER.
#[export] Instance quota_scope_eq_dec : EqDecision quota_scope.
Proof. solve_decision. Defined.
Definition quota_scope_value (x : quota_scope) : string :=
  match x with
  | QS_PRODUCT => "product"
  | QS_SERVER_GROUP => "server_group"
  | QS_PROXMOX_CLUSTER => "proxmox_cluster"
  end.

Inductive request_status : Type :=
| RQ_PROCESSING
| RQ_INSUFFICIENT_CREDIT
| RQ_SUCCEEDED
| RQ_FAILED.
#[export] Instance request_status_eq_dec : EqDecision request_status.
Proof. solve_decision. Defined.
Definition request_status_value (x : request_status) : string :=
  match x with
  | RQ_PROCESSING => "processing"
  | RQ_INSUFFICIENT_CREDIT => "insufficient_credit"
  | RQ_SUCCEEDED => "succeeded"
  | RQ_FAILED => "failed"
  end.

Inductive service_status : Type :=
| SS_ACTIVE
| SS_SUSPENDED
| SS_TERMINATED
| SS_PENDING.
#[export] Instance service_status_eq_dec : EqDecision service_status.
Proof. solve_decision. Defined.
Definition service_status_value (x : service_status) : string :=
  match x with
  | SS_ACTIVE => "active"
  | SS_SUSPENDED => "suspended"
  | SS_TERMINATED => "terminated"
  | SS_PENDING => "pending"
  end.

Inductive service_type : Type :=
| ST_BARE_METAL
| ST_VM
| ST_HTTP_PROXY.
#[export] Instance service_type_eq_dec : EqDecision service_type.
Proof. solve_decision. Defined.
Definition service_type_value (x : service_type) : string :=
  match x with
  | ST_BARE_METAL => "bare_metal"
  | ST_VM => "vm"
  | ST_HTTP_PROXY => "http_proxy"
  end.

Inductive provisioning_source : Type :=
| PV_BILLING
| PV_INTERNAL.
#[export] Instance provisioning_source_eq_dec : EqDecision provisioning_source.
Proof. solve_decision. Defined.
Definition provisioning_source_value (x : provisioning_source) : string :=
  match x with
  | PV_BILLING => "billing"
  | PV_INTERNAL => "internal"
  end.

Inductive guest_state : Type :=
| GS_UNPROVISIONED
| GS_PROVISIONING
| GS_RUNNING
| GS_STOPPED
| GS_DESTROYED
| GS_ERROR.
#[export] Instance guest_state_eq_dec : EqDecision guest_state.
Proof. solve_decision. Defined.
Definition guest_state_value (x : guest_state) : string :=
  match x with
  | GS_UNPROVISIONED => "unprovisioned"
  | GS_PROVISIONING => "provisioning"
  | GS_RUNNING => "running"
  | GS_STOPPED => "stopped"
  | GS_DESTROYED => "destroyed"
  | GS_ERROR => "error"
  end.

Inductive install_status : Type :=
| IN_PENDING
| IN_IN_PROGRESS
| IN_COMPLETED
| IN_FAILED
| IN_CANCELLED.
#[export] Instance install_status_eq_dec : EqDecision install_status.
Proof. solve_decision. Defined.
Definition install_status_value (x : install_status) : string :=
  match x with
  | IN_PENDING => "pending"
  | IN_IN_PROGRESS => "in_progress"
  | IN_COMPLETED => "completed"
  | IN_FAILED => "failed"
  | IN_CANCELLED => "cancelled"
  end.

Inductive boot_status : Type :=
| BK_PENDING
| BK_IN_PROGRESS
| BK_COMPLETED
| BK_FAILED
| BK_CANCELLED.
#[export] Instance boot_status_eq_dec : EqDecision boot_status.
Proof. solve_decision. Defined.
Definition boot_status_value (x : boot_status) : string :=
  match x with
  | BK_PENDING => "pending"
  | BK_IN_PROGRESS => "in_progress"
  | BK_COMPLETED => "completed"
  | BK_FAILED => "failed"
  | BK_CANCELLED => "cancelled"
  end.

Inductive boot_type : Type :=
| BT_LOCAL
| BT_LINUX_SCRIPT
| BT_ISO
| BT_TEMP_OS
| BT_ALPINE.
#[export] Instance boot_type_eq_dec : EqDecision boot_type.
Proof. solve_decision. Defined.
Definition boot_type_value (x : boot_type) : string :=
  match x with
  | BT_LOCAL => "local"
  | BT_LINUX_SCRIPT => "linux_script"
  | BT_ISO => "iso"
  | BT_TEMP_OS => "temp_os"
  | BT_ALPINE => "alpine"
  end.

Inductive job_status : Type :=
| JS_QUEUED
| JS_RUNNING
| JS_WAITING
| JS_SUCCEEDED
| JS_FAILED
| JS_CANCELLED.
#[export] Instance job_status_eq_dec : EqDecision job_status.
Proof. solve_decision. Defined.
Definition job_status_value (x : job_status) : string :=
  match x with
  | JS_QUEUED => "queued"
  | JS_RUNNING => "running"
  | JS_WAITING => "waiting"
  | JS_SUCCEEDED => "succeeded"
  | JS_FAILED => "failed"
  | JS_CANCELLED => "cancelled"
  end.

Inductive step_status : Type :=
| TS_PENDING
| TS_WAITING
| TS_RUNNING
| TS_SUCCEEDED
| TS_SKIPPED
| TS_FAILED.
#[export] Instance step_status_eq_dec : EqDecision step_status.
Proof. solve_decision. Defined.
Definition step_status_value (x : step_status) : string :=
  match x with
  | TS_PENDING => "pending"
  | TS_WAITING => "waiting"
  | TS_RUNNING => "running"
  | TS_SUCCEEDED => "succeeded"
  | TS_SKIPPED => "skipped"
  | TS_FAILED => "failed"
  end.

Inductive order_status : Type :=
| OD_DRAFT_CART
| OD_PENDING_PAYMENT
| OD_PENDING_ACCEPTANCE
| OD_PAID_PENDING_FULFILLMENT
| OD_FULFILLING
| OD_ACTIVE
| OD_CANCELLED
| OD_FRAUD
| OD_PROVISION_ERROR.
#[export] Instance order_status_eq_dec : EqDecision order_status.
Proof. solve_decision. Defined.
Definition order_status_value (x : order_status) : string :=
  match x with
  | OD_DRAFT_CART => "draft_cart"
  | OD_PENDING_PAYMENT => "pending_payment"
  | OD_PENDING_ACCEPTANCE => "pending_acceptance"
  | OD_PAID_PENDING_FULFILLMENT => "paid_pending_fulfillment"
  | OD_FULFILLING => "fulfilling"
  | OD_ACTIVE => "active"
  | OD_CANCELLED => "cancelled"
  | OD_FRAUD => "fraud"
  | OD_PROVISION_ERROR => "provision_error"
  end.

Inductive fulfill_status : Type :=
| FS_PENDING
| FS_FULFILLING
| FS_FULFILLED
| FS_FAILED
| FS_CANCELLED.
#[export] Instance fulfill_status_eq_dec : EqDecision fulfill_status.
Proof. solve_decision. Defined.
Definition fulfill_status_value (x : fulfill_status) : string :=
  match x with
  | FS_PENDING => "pending"
  | FS_FULFILLING => "fulfilling"
  | FS_FULFILLED => "fulfilled"
  | FS_FAILED => "failed"
  | FS_CANCELLED => "cancelled"
  end.

Inductive coupon_scope : Type :=
| CA_ALL
| CA_PRODUCT
| CA_CATEGORY.
#[export] Instance coupon_scope_eq_dec : EqDecision coupon_scope.
Proof. solve_decision. Defined.
Definition coupon_scope_value (x : coupon_scope) : string :=
  match x with
  | CA_ALL => "all"
  | CA_PRODUCT => "product"
  | CA_CATEGORY => "category"
  end.

Inductive account_type : Type :=
| AC_CLIENT
| AC_RESELLER.
#[export] Instance account_type_eq_dec : EqDecision account_type.
Proof. solve_decision. Defined.
Definition account_type_value (x : account_type) : string :=
  match x with
  | AC_CLIENT => "client"
  | AC_RESELLER => "reseller"
  end.

Inductive usdt_status : Type :=
| UD_AWAITING
| UD_PENDING_CONFIRMATIONS
| UD_CONFIRMED
| UD_UNDERPAID
| UD_OVERPAID
| UD_EXPIRED
| UD_SWEEP_PENDING
| UD_SWEEPING
| UD_SWEPT
| UD_REORGED
| UD_MANUAL_REVIEW.
#[export] Instance usdt_status_eq_dec : EqDecision usdt_status.
Proof. solve_decision. Defined.
Definition usdt_status_value (x : usdt_status) : string :=
  match x with
  | UD_AWAITING => "awaiting"
  | UD_PENDING_CONFIRMATIONS => "pending_confirmations"
  | UD_CONFIRMED => "confirmed"
  | UD_UNDERPAID => "underpaid"
  | UD_OVERPAID => "overpaid"
  | UD_EXPIRED => "expired"
  | UD_SWEEP_PENDING => "sweep_pending"
  | UD_SWEEPING => "sweeping"
  | UD_SWEPT => "swept"
  | UD_REORGED => "reorged"
  | UD_MANUAL_REVIEW => "manual_review"
  end.

(** * Rows *)

(** Accounts: src/app/models/user.py; [password] is the stored bcrypt hash. *)
Record user : Type := mk_user {
  us_id : Z;
  us_username : string;
  us_email : string;
  us_password : option string;
  us_is_admin : bool;
  us_is_reseller : bool;
  us_require_2fa : bool;
  us_reseller_id : option Z;
  us_permission_set_id : option Z;
  us_billing_integration_id : option Z;
  us_external_user_id : option string;
  us_external_username : option string;
  us_external_email : option string
}.
#[export] Instance eta_user : Eta user := fun r =>
  mk_user (r.(us_id)) (r.(us_username)) (r.(us_email)) (r.(us_password)) (r.(us_is_admin)) (r.(us_is_reseller)) (r.(us_require_2fa)) (r.(us_reseller_id)) (r.(us_permission_set_id)) (r.(us_billing_integration_id)) (r.(us_external_user_id)) (r.(us_external_username)) (r.(us_external_email)).
#[export] Instance keyed_user : Keyed user := us_id.

(** [UserTotpSecret], under the key [user_id]. *)
Record totp_secret : Type := mk_totp_secret {
  ts_user_id : Z;
  ts_secret_encrypted : string;
  ts_enabled : bool;
  ts_recovery_codes_hash : list string;
  ts_last_used_step : option Z;
  ts_confirmed_at : option Z
}.
#[export] Instance eta_totp_secret : Eta totp_secret := fun r =>
  mk_totp_secret (r.(ts_user_id)) (r.(ts_secret_encrypted)) (r.(ts_enabled)) (r.(ts_recovery_codes_hash)) (r.(ts_last_used_step)) (r.(ts_confirmed_at)).

#[export] Instance keyed_totp_secret : Keyed totp_secret := ts_user_id.
(** [PasswordResetToken] and [EmailVerificationToken] *)
Record reset_token : Type := mk_reset_token {
  rt_id : Z;
  rt_user_id : Z;
  rt_token_hash : string;
  rt_expires_at : Z;
  rt_consumed_at : option Z
}.
#[export] Instance eta_reset_token : Eta reset_token := fun r =>
  mk_reset_token (r.(rt_id)) (r.(rt_user_id)) (r.(rt_token_hash)) (r.(rt_expires_at)) (r.(rt_consumed_at)).
#[export] Instance keyed_reset_token : Keyed reset_token := rt_id.

Record verify_token : Type := mk_verify_token {
  vt_id : Z;
  vt_user_id : Z;
  vt_token_hash : string;
  vt_expires_at : Z;
  vt_consumed_at : option Z
}.
#[export] Instance eta_verify_token : Eta verify_token := fun r =>
  mk_verify_token (r.(vt_id)) (r.(vt_user_id)) (r.(vt_token_hash)) (r.(vt_expires_at)) (r.(vt_consumed_at)).
#[export] Instance keyed_verify_token : Keyed verify_token := vt_id.

(** [BillingIntegration]; its configuration and description are never read. *)
Record integration : Type := mk_integration {
  bi_id : Z;
  bi_name : string;
  bi_integration_type : string;
  bi_api_key : string;
  bi_enabled : bool;
  bi_last_used_at : option Z;
  bi_last_used_ip : option string
}.
#[export] Instance eta_integration : Eta integration := fun r =>
  mk_integration (r.(bi_id)) (r.(bi_name)) (r.(bi_integration_type)) (r.(bi_api_key)) (r.(bi_enabled)) (r.(bi_last_used_at)) (r.(bi_last_used_ip)).
#[export] Instance keyed_integration : Keyed integration := bi_id.

Record reseller : Type := mk_reseller {
  rs_id : Z;
  rs_user_id : Z;
  rs_group_id : option Z;
  rs_api_key_hash : option string;
  rs_api_key_prefix : option string;
  rs_stripe_customer_ref : option string;
  rs_cached_balance_cents : Z;
  rs_charge_preference : charge_preference;
  rs_status : reseller_status;
  rs_nonpayment_policy : nonpayment_policy;
  rs_billing_hold : bool;
  rs_billing_hold_at : option Z;
  rs_billing_hold_cleared_at : option Z;
  rs_billing_hold_reason : option string
}.
#[export] Instance eta_reseller : Eta reseller := fun r =>
  mk_reseller (r.(rs_id)) (r.(rs_user_id)) (r.(rs_group_id)) (r.(rs_api_key_hash)) (r.(rs_api_key_prefix)) (r.(rs_stripe_customer_ref)) (r.(rs_cached_balance_cents)) (r.(rs_charge_preference)) (r.(rs_status)) (r.(rs_nonpayment_policy)) (r.(rs_billing_hold)) (r.(rs_billing_hold_at)) (r.(rs_billing_hold_cleared_at)) (r.(rs_billing_hold_reason)).
#[export] Instance keyed_reseller : Keyed reseller := rs_id.

Record invoice : Type := mk_invoice {
  in_id : Z;
  in_invoice_number : Z;
  in_reseller_id : option Z;
  in_service_id : option Z;
  in_billing_account_id : option Z;
  in_order_id : option Z;
  in_purpose : invoice_purpose;
  in_status : invoice_status;
  in_amount_cents : Z;
  in_currency : string;
  in_description : option string;
  in_due_at : option Z;
  in_paid_at : option Z
}.
#[export] Instance eta_invoice : Eta invoice := fun r =>
  mk_invoice (r.(in_id)) (r.(in_invoice_number)) (r.(in_reseller_id)) (r.(in_service_id)) (r.(in_billing_account_id)) (r.(in_order_id)) (r.(in_purpose)) (r.(in_status)) (r.(in_amount_cents)) (r.(in_currency)) (r.(in_description)) (r.(in_due_at)) (r.(in_paid_at)).
#[export] Instance keyed_invoice : Keyed invoice := in_id.

Record payment : Type := mk_payment {
  pm_id : Z;
  pm_invoice_id : Z;
  pm_gateway : string;
  pm_status : payment_status;
  pm_amount_cents : Z;
  pm_currency : string;
  pm_external_ref : option string;
  pm_failure_code : option string;
  pm_failure_message : option string;
  pm_metadata : dict;
  pm_processed_at : option Z;
  pm_refunded_at : option Z
}.
#[export] Instance eta_payment : Eta payment := fun r =>
  mk_payment (r.(pm_id)) (r.(pm_invoice_id)) (r.(pm_gateway)) (r.(pm_status)) (r.(pm_amount_cents)) (r.(pm_currency)) (r.(pm_external_ref)) (r.(pm_failure_code)) (r.(pm_failure_message)) (r.(pm_metadata)) (r.(pm_processed_at)) (r.(pm_refunded_at)).
#[export] Instance keyed_payment : Keyed payment := pm_id.

Record pay_method : Type := mk_pay_method {
  mt_id : Z;
  mt_reseller_id : Z;
  mt_provider : string;
  mt_method_type : string;
  mt_provider_customer_ref : option string;
  mt_provider_method_ref : string;
  mt_label : option string;
  mt_brand : option string;
  mt_last4 : option string;
  mt_tier : Z;
  mt_enabled : bool
}.
#[export] Instance eta_pay_method : Eta pay_method := fun r =>
  mk_pay_method (r.(mt_id)) (r.(mt_reseller_id)) (r.(mt_provider)) (r.(mt_method_type)) (r.(mt_provider_customer_ref)) (r.(mt_provider_method_ref)) (r.(mt_label)) (r.(mt_brand)) (r.(mt_last4)) (r.(mt_tier)) (r.(mt_enabled)).
#[export] Instance keyed_pay_method : Keyed pay_method := mt_id.

Record paypal_setup : Type := mk_paypal_setup {
  pp_id : Z;
  pp_reseller_id : Z;
  pp_setup_token_ref : string;
  pp_provider_customer_ref : option string;
  pp_payment_method_id : option Z;
  pp_expires_at : Z;
  pp_consumed_at : option Z
}.
#[export] Instance eta_paypal_setup : Eta paypal_setup := fun r =>
  mk_paypal_setup (r.(pp_id)) (r.(pp_reseller_id)) (r.(pp_setup_token_ref)) (r.(pp_provider_customer_ref)) (r.(pp_payment_method_id)) (r.(pp_expires_at)) (r.(pp_consumed_at)).
#[export] Instance keyed_paypal_setup : Keyed paypal_setup := pp_id.

Record webhook_event : Type := mk_webhook_event {
  we_id : Z;
  we_gateway : string;
  we_event_id : string;
  we_event_type : string;
  we_payload_hash : string;
  we_processed_at : option Z
}.
#[export] Instance eta_webhook_event : Eta webhook_event := fun r =>
  mk_webhook_event (r.(we_id)) (r.(we_gateway)) (r.(we_event_id)) (r.(we_event_type)) (r.(we_payload_hash)) (r.(we_processed_at)).
#[export] Instance keyed_webhook_event : Keyed webhook_event := we_id.

Record ledger_entry : Type := mk_ledger_entry {
  le_id : Z;
  le_reseller_id : Z;
  le_entry_type : entry_type;
  le_amount_cents : Z;
  le_balance_after_cents : Z;
  le_description : option string;
  le_invoice_id : option Z;
  le_payment_id : option Z;
  le_service_id : option Z;
  le_reversal_of_id : option Z;
  le_reference_type : option string;
  le_reference_id : option string;
  le_idempotency_key : option string;
  le_metadata : dict;
  le_created_by_user_id : option Z
}.
#[export] Instance eta_ledger_entry : Eta ledger_entry := fun r =>
  mk_ledger_entry (r.(le_id)) (r.(le_reseller_id)) (r.(le_entry_type)) (r.(le_amount_cents)) (r.(le_balance_after_cents)) (r.(le_description)) (r.(le_invoice_id)) (r.(le_payment_id)) (r.(le_service_id)) (r.(le_reversal_of_id)) (r.(le_reference_type)) (r.(le_reference_id)) (r.(le_idempotency_key)) (r.(le_metadata)) (r.(le_created_by_user_id)).
#[export] Instance keyed_ledger_entry : Keyed ledger_entry := le_id.

Record service_billing : Type := mk_service_billing {
  sb_id : Z;
  sb_service_id : Z;
  sb_reseller_id : option Z;
  sb_billing_account_id : option Z;
  sb_product_id : option Z;
  sb_setup_price_cents : Z;
  sb_monthly_price_cents : Z;
  sb_currency : string;
  sb_next_charge_at : option Z;
  sb_billing_anchor_day : option Z;
  sb_status : billing_status;
  sb_failed_attempts : Z;
  sb_last_failure_code : option string;
  sb_last_failure_message : option string;
  sb_grace_until : option Z;
  sb_next_retry_at : option Z;
  sb_last_charged_at : option Z
}.
#[export] Instance eta_service_billing : Eta service_billing := fun r =>
  mk_service_billing (r.(sb_id)) (r.(sb_service_id)) (r.(sb_reseller_id)) (r.(sb_billing_account_id)) (r.(sb_product_id)) (r.(sb_setup_price_cents)) (r.(sb_monthly_price_cents)) (r.(sb_currency)) (r.(sb_next_charge_at)) (r.(sb_billing_anchor_day)) (r.(sb_status)) (r.(sb_failed_attempts)) (r.(sb_last_failure_code)) (r.(sb_last_failure_message)) (r.(sb_grace_until)) (r.(sb_next_retry_at)) (r.(sb_last_charged_at)).
#[export] Instance keyed_service_billing : Keyed service_billing := sb_id.

Record billing_cycle : Type := mk_billing_cycle {
  bc_id : Z;
  bc_service_billing_id : Z;
  bc_invoice_id : option Z;
  bc_due_at : Z;
  bc_amount_cents : Z;
  bc_currency : string;
  bc_state : cycle_state;
  bc_attempts : Z;
  bc_last_attempt_at : option Z;
  bc_next_retry_at : option Z;
  bc_grace_until : option Z;
  bc_failure_code : option string;
  bc_failure_message : option string;
  bc_claim_token : option string;
  bc_claim_expires_at : option Z;
  bc_paid_at : option Z;
  bc_completed_at : option Z
}.
#[export] Instance eta_billing_cycle : Eta billing_cycle := fun r =>
  mk_billing_cycle (r.(bc_id)) (r.(bc_service_billing_id)) (r.(bc_invoice_id)) (r.(bc_due_at)) (r.(bc_amount_cents)) (r.(bc_currency)) (r.(bc_state)) (r.(bc_attempts)) (r.(bc_last_attempt_at)) (r.(bc_next_retry_at)) (r.(bc_grace_until)) (r.(bc_failure_code)) (r.(bc_failure_message)) (r.(bc_claim_token)) (r.(bc_claim_expires_at)) (r.(bc_paid_at)) (r.(bc_completed_at)).
#[export] Instance keyed_billing_cycle : Keyed billing_cycle := bc_id.

(** [RecurringBillingLease]: the row named [recurring-billing]. *)
Record lease : Type := mk_lease {
  ls_owner : option string;
  ls_expires_at : option Z
}.
#[export] Instance eta_lease : Eta lease := fun r =>
  mk_lease (r.(ls_owner)) (r.(ls_expires_at)).

(** [NotificationOutbox] *)
Record outbox_row : Type := mk_outbox_row {
  nb_id : Z;
  nb_idempotency_key : string;
  nb_reseller_id : option Z;
  nb_recipient : string;
  nb_event : string;
  nb_data : dict;
  nb_status : outbox_status;
  nb_attempts : Z;
  nb_next_attempt_at : option Z;
  nb_error : option string;
  nb_claim_token : option string;
  nb_claim_expires_at : option Z;
  nb_sent_at : option Z
}.
#[export] Instance eta_outbox_row : Eta outbox_row := fun r =>
  mk_outbox_row (r.(nb_id)) (r.(nb_idempotency_key)) (r.(nb_reseller_id)) (r.(nb_recipient)) (r.(nb_event)) (r.(nb_data)) (r.(nb_status)) (r.(nb_attempts)) (r.(nb_next_attempt_at)) (r.(nb_error)) (r.(nb_claim_token)) (r.(nb_claim_expires_at)) (r.(nb_sent_at)).
#[export] Instance keyed_outbox_row : Keyed outbox_row := nb_id.

(** The columns of [services] and of its [service_vm] / [service_bare_metal]
    extension rows that placement and lifecycle read. *)
Record vm_ext : Type := mk_vm_ext {
  vx_proxmox_cluster_id : option Z;
  vx_proxmox_node_name : option string;
  vx_proxmox_vmid : option Z;
  vx_vm_template_id : option Z;
  vx_vm_ip_allocation_id : option Z;
  vx_guest_state : guest_state;
  vx_guest_last_error : option string
}.
#[export] Instance eta_vm_ext : Eta vm_ext := fun r =>
  mk_vm_ext (r.(vx_proxmox_cluster_id)) (r.(vx_proxmox_node_name)) (r.(vx_proxmox_vmid)) (r.(vx_vm_template_id)) (r.(vx_vm_ip_allocation_id)) (r.(vx_guest_state)) (r.(vx_guest_last_error)).

Record service : Type := mk_service {
  sv_id : Z;
  sv_name : string;
  sv_owner_user_id : option Z;
  sv_service_type : service_type;
  sv_status : service_status;
  sv_vm : option vm_ext;
  sv_bare_metal_server : option Z;
  sv_terminated_at : option Z;
  sv_config : dict;
  sv_product_snapshot : dict;
  sv_external_service_id : option string;
  sv_description : option string;
  sv_product_code : option string;
  sv_os_code : option string;
  sv_permission_set_id : option Z;
  sv_provisioning_source : provisioning_source
}.
#[export] Instance eta_service : Eta service := fun r =>
  mk_service (r.(sv_id)) (r.(sv_name)) (r.(sv_owner_user_id)) (r.(sv_service_type)) (r.(sv_status)) (r.(sv_vm)) (r.(sv_bare_metal_server)) (r.(sv_terminated_at)) (r.(sv_config)) (r.(sv_product_snapshot)) (r.(sv_external_service_id)) (r.(sv_description)) (r.(sv_product_code)) (r.(sv_os_code)) (r.(sv_permission_set_id)) (r.(sv_provisioning_source)).
#[export] Instance keyed_service : Keyed service := sv_id.

(** VM deployment jobs: src/app/models/vm_deployment_job.py *)
Record deploy_job : Type := mk_deploy_job {
  dj_id : Z;
  dj_service_id : Z;
  dj_strategy_name : string;
  dj_status : job_status;
  dj_current_step_index : Z;
  dj_attempt : Z;
  dj_max_attempts : Z;
  dj_error_message : option string;
  dj_next_run_at : option Z;
  dj_locked_by : option string;
  dj_locked_at : option Z;
  dj_started_at : option Z;
  dj_finished_at : option Z;
  dj_created_at : Z
}.
#[export] Instance eta_deploy_job : Eta deploy_job := fun r =>
  mk_deploy_job (r.(dj_id)) (r.(dj_service_id)) (r.(dj_strategy_name)) (r.(dj_status)) (r.(dj_current_step_index)) (r.(dj_attempt)) (r.(dj_max_attempts)) (r.(dj_error_message)) (r.(dj_next_run_at)) (r.(dj_locked_by)) (r.(dj_locked_at)) (r.(dj_started_at)) (r.(dj_finished_at)) (r.(dj_created_at)).
#[export] Instance keyed_deploy_job : Keyed deploy_job := dj_id.

Record job_step : Type := mk_job_step {
  jp_id : Z;
  jp_job_id : Z;
  jp_position : Z;
  jp_name : string;
  jp_status : step_status;
  jp_attempt_count : Z;
  jp_message : option string;
  jp_detail : option dict;
  jp_started_at : option Z;
  jp_finished_at : option Z
}.
#[export] Instance eta_job_step : Eta job_step := fun r =>
  mk_job_step (r.(jp_id)) (r.(jp_job_id)) (r.(jp_position)) (r.(jp_name)) (r.(jp_status)) (r.(jp_attempt_count)) (r.(jp_message)) (r.(jp_detail)) (r.(jp_started_at)) (r.(jp_finished_at)).
#[export] Instance keyed_job_step : Keyed job_step := jp_id.

(** [VMIPAllocation], with the clusters it is linked to. *)
Record vm_ip : Type := mk_vm_ip {
  va_id : Z;
  va_ip_address : string;
  va_subnet_mask : string;
  va_gateway : string;
  va_bridge_name : option string;
  va_batch_tag : option string;
  va_clusters : list Z;
  va_enabled : bool;
  va_assigned_service_id : option Z
}.
#[export] Instance eta_vm_ip : Eta vm_ip := fun r =>
  mk_vm_ip (r.(va_id)) (r.(va_ip_address)) (r.(va_subnet_mask)) (r.(va_gateway)) (r.(va_bridge_name)) (r.(va_batch_tag)) (r.(va_clusters)) (r.(va_enabled)) (r.(va_assigned_service_id)).
#[export] Instance keyed_vm_ip : Keyed vm_ip := va_id.

(** Servers and the installation of operating systems on them:
    src/app/models/server.py, installation_task.py and boot_task.py, without
    progress, logs and boot files. *)
Record server : Type := mk_server {
  sr_id : Z;
  sr_name : string;
  sr_server_ip : option string;
  sr_os_boot_mode : option string;
  sr_enabled : bool;
  sr_credentials : option dict
}.
#[export] Instance eta_server : Eta server := fun r =>
  mk_server (r.(sr_id)) (r.(sr_name)) (r.(sr_server_ip)) (r.(sr_os_boot_mode)) (r.(sr_enabled)) (r.(sr_credentials)).
#[export] Instance keyed_server : Keyed server := sr_id.

Record install_task : Type := mk_install_task {
  it_id : Z;
  it_server_id : Z;
  it_boot_task_id : Z;
  it_template_id : option string;
  it_template_parameters : option dict;
  it_status : install_status;
  it_error_message : option string;
  it_created_at : Z;
  it_started_at : option Z;
  it_completed_at : option Z
}.
#[export] Instance eta_install_task : Eta install_task := fun r =>
  mk_install_task (r.(it_id)) (r.(it_server_id)) (r.(it_boot_task_id)) (r.(it_template_id)) (r.(it_template_parameters)) (r.(it_status)) (r.(it_error_message)) (r.(it_created_at)) (r.(it_started_at)) (r.(it_completed_at)).
#[export] Instance keyed_install_task : Keyed install_task := it_id.

Record boot_task : Type := mk_boot_task {
  bt_id : Z;
  bt_server_id : Z;
  bt_boot_type : boot_type;
  bt_script_content : option string;
  bt_iso_url : option string;
  bt_temp_os_id : option string;
  bt_boot_method : string;
  bt_description : option string;
  bt_status : boot_status;
  bt_error_message : option string;
  bt_pxe_nonce : option string;
  bt_pxe_nonce_used_at : option Z;
  bt_created_at : Z;
  bt_started_at : option Z;
  bt_completed_at : option Z
}.
#[export] Instance eta_boot_task : Eta boot_task := fun r =>
  mk_boot_task (r.(bt_id)) (r.(bt_server_id)) (r.(bt_boot_type)) (r.(bt_script_content)) (r.(bt_iso_url)) (r.(bt_temp_os_id)) (r.(bt_boot_method)) (r.(bt_description)) (r.(bt_status)) (r.(bt_error_message)) (r.(bt_pxe_nonce)) (r.(bt_pxe_nonce_used_at)) (r.(bt_created_at)) (r.(bt_started_at)) (r.(bt_completed_at)).
#[export] Instance keyed_boot_task : Keyed boot_task := bt_id.

(** [ResellerProvisioningRequest] *)
Record provisioning_request : Type := mk_provisioning_request {
  rq_id : Z;
  rq_reseller_id : Z;
  rq_idempotency_key : string;
  rq_request_hash : string;
  rq_invoice_id : option Z;
  rq_service_id : option Z;
  rq_status : request_status;
  rq_error_message : option string
}.
#[export] Instance eta_provisioning_request : Eta provisioning_request := fun r =>
  mk_provisioning_request (r.(rq_id)) (r.(rq_reseller_id)) (r.(rq_idempotency_key)) (r.(rq_request_hash)) (r.(rq_invoice_id)) (r.(rq_service_id)) (r.(rq_status)) (r.(rq_error_message)).
#[export] Instance keyed_provisioning_request : Keyed provisioning_request := rq_id.

(** [Order]; the customer's notes and the fraud score are never read. *)
Record order : Type := mk_order {
  or_id : Z;
  or_order_number : Z;
  or_billing_account_id : Z;
  or_user_id : Z;
  or_status : order_status;
  or_currency : string;
  or_setup_cents : Z;
  or_recurring_cents : Z;
  or_tax_cents : Z;
  or_discount_cents : Z;
  or_total_cents : Z;
  or_coupon_code : option string;
  or_terms_version : option string;
  or_terms_accepted_at : option Z;
  or_checkout_nonce : option string;
  or_admin_notes : option string;
  or_accepted_at : option Z;
  or_accepted_by_user_id : option Z;
  or_client_ip : option string;
  or_invoice_id : option Z
}.
#[export] Instance eta_order : Eta order := fun r =>
  mk_order (r.(or_id)) (r.(or_order_number)) (r.(or_billing_account_id)) (r.(or_user_id)) (r.(or_status)) (r.(or_currency)) (r.(or_setup_cents)) (r.(or_recurring_cents)) (r.(or_tax_cents)) (r.(or_discount_cents)) (r.(or_total_cents)) (r.(or_coupon_code)) (r.(or_terms_version)) (r.(or_terms_accepted_at)) (r.(or_checkout_nonce)) (r.(or_admin_notes)) (r.(or_accepted_at)) (r.(or_accepted_by_user_id)) (r.(or_client_ip)) (r.(or_invoice_id)).
#[export] Instance keyed_order : Keyed order := or_id.

Record order_item : Type := mk_order_item {
  oi_id : Z;
  oi_order_id : Z;
  oi_service_id : option Z;
  oi_frontend_product_id : Z;
  oi_price_plan_id : Z;
  oi_cycle_interval : option string;
  oi_quantity : Z;
  oi_setup_cents : Z;
  oi_recurring_cents : Z;
  oi_currency : string;
  oi_config : dict;
  oi_name_snapshot : string;
  oi_fulfill_status : fulfill_status;
  oi_error_message : option string
}.
#[export] Instance eta_order_item : Eta order_item := fun r =>
  mk_order_item (r.(oi_id)) (r.(oi_order_id)) (r.(oi_service_id)) (r.(oi_frontend_product_id)) (r.(oi_price_plan_id)) (r.(oi_cycle_interval)) (r.(oi_quantity)) (r.(oi_setup_cents)) (r.(oi_recurring_cents)) (r.(oi_currency)) (r.(oi_config)) (r.(oi_name_snapshot)) (r.(oi_fulfill_status)) (r.(oi_error_message)).
#[export] Instance keyed_order_item : Keyed order_item := oi_id.

Record order_history : Type := mk_order_history {
  oh_id : Z;
  oh_order_id : Z;
  oh_from_status : option order_status;
  oh_to_status : order_status;
  oh_actor_user_id : option Z;
  oh_note : option string
}.
#[export] Instance eta_order_history : Eta order_history := fun r =>
  mk_order_history (r.(oh_id)) (r.(oh_order_id)) (r.(oh_from_status)) (r.(oh_to_status)) (r.(oh_actor_user_id)) (r.(oh_note)).
#[export] Instance keyed_order_history : Keyed order_history := oh_id.

(** [Coupon]; its currency, duration and limit per account are columns no
    service reads. *)
Record coupon : Type := mk_coupon {
  co_id : Z;
  co_code : string;
  co_percent_off : option Z;
  co_amount_off_cents : option Z;
  co_applies_to : coupon_scope;
  co_frontend_product_id : option Z;
  co_category_id : option Z;
  co_max_uses : option Z;
  co_used_count : Z;
  co_starts_at : option Z;
  co_expires_at : option Z;
  co_enabled : bool
}.
#[export] Instance eta_coupon : Eta coupon := fun r =>
  mk_coupon (r.(co_id)) (r.(co_code)) (r.(co_percent_off)) (r.(co_amount_off_cents)) (r.(co_applies_to)) (r.(co_frontend_product_id)) (r.(co_category_id)) (r.(co_max_uses)) (r.(co_used_count)) (r.(co_starts_at)) (r.(co_expires_at)) (r.(co_enabled)).
#[export] Instance keyed_coupon : Keyed coupon := co_id.

Record redemption : Type := mk_redemption {
  rd_id : Z;
  rd_coupon_id : Z;
  rd_billing_account_id : Z;
  rd_order_id : option Z
}.
#[export] Instance eta_redemption : Eta redemption := fun r =>
  mk_redemption (r.(rd_id)) (r.(rd_coupon_id)) (r.(rd_billing_account_id)) (r.(rd_order_id)).
#[export] Instance keyed_redemption : Keyed redemption := rd_id.

Record invoice_line : Type := mk_invoice_line {
  il_id : Z;
  il_invoice_id : Z;
  il_description : string;
  il_quantity : Z;
  il_unit_cents : Z;
  il_total_cents : Z;
  il_tax_cents : Z;
  il_sort_order : Z;
  il_order_item_id : option Z
}.
#[export] Instance eta_invoice_line : Eta invoice_line := fun r =>
  mk_invoice_line (r.(il_id)) (r.(il_invoice_id)) (r.(il_description)) (r.(il_quantity)) (r.(il_unit_cents)) (r.(il_total_cents)) (r.(il_tax_cents)) (r.(il_sort_order)) (r.(il_order_item_id)).
#[export] Instance keyed_invoice_line : Keyed invoice_line := il_id.

(** The columns of [billing_accounts] and [billing_profiles] that checkout
    reads. *)
Record billing_account : Type := mk_billing_account {
  ba_id : Z;
  ba_user_id : option Z;
  ba_reseller_id : option Z;
  ba_account_type : account_type;
  ba_currency : string;
  ba_tax_exempt : bool
}.
#[export] Instance eta_billing_account : Eta billing_account := fun r =>
  mk_billing_account (r.(ba_id)) (r.(ba_user_id)) (r.(ba_reseller_id)) (r.(ba_account_type)) (r.(ba_currency)) (r.(ba_tax_exempt)).
#[export] Instance keyed_billing_account : Keyed billing_account := ba_id.

Record billing_profile : Type := mk_billing_profile {
  bp_id : Z;
  bp_billing_account_id : Z;
  bp_country : option string;
  bp_region : option string
}.
#[export] Instance eta_billing_profile : Eta billing_profile := fun r =>
  mk_billing_profile (r.(bp_id)) (r.(bp_billing_account_id)) (r.(bp_country)) (r.(bp_region)).
#[export] Instance keyed_billing_profile : Keyed billing_profile := bp_id.

(** [VMIDReservation] *)
Record vmid_reservation : Type := mk_vmid_reservation {
  vr_id : Z;
  vr_cluster_id : Z;
  vr_service_id : Z;
  vr_vmid : Z
}.
#[export] Instance eta_vmid_reservation : Eta vmid_reservation := fun r =>
  mk_vmid_reservation (r.(vr_id)) (r.(vr_cluster_id)) (r.(vr_service_id)) (r.(vr_vmid)).
#[export] Instance keyed_vmid_reservation : Keyed vmid_reservation := vr_id.

(** IP address management: src/app/models/ipam.py *)
Record ip_subnet : Type := mk_ip_subnet {
  sn_id : Z;
  sn_name : string;
  sn_cidr : string;
  sn_location_id : option Z;
  sn_range_start : option string;
  sn_range_end : option string;
  sn_tags : list json;
  sn_allocation_strategy : string;
  sn_enabled : bool;
  sn_max_resale_count : Z
}.
#[export] Instance eta_ip_subnet : Eta ip_subnet := fun r =>
  mk_ip_subnet (r.(sn_id)) (r.(sn_name)) (r.(sn_cidr)) (r.(sn_location_id)) (r.(sn_range_start)) (r.(sn_range_end)) (r.(sn_tags)) (r.(sn_allocation_strategy)) (r.(sn_enabled)) (r.(sn_max_resale_count)).
#[export] Instance keyed_ip_subnet : Keyed ip_subnet := sn_id.

Record ip_address : Type := mk_ip_address {
  ip_id : Z;
  ip_subnet_id : Z;
  ip_ip_address : string;
  ip_state : string;
  ip_updated_at : Z
}.
#[export] Instance eta_ip_address : Eta ip_address := fun r =>
  mk_ip_address (r.(ip_id)) (r.(ip_subnet_id)) (r.(ip_ip_address)) (r.(ip_state)) (r.(ip_updated_at)).
#[export] Instance keyed_ip_address : Keyed ip_address := ip_id.

Record ip_assignment : Type := mk_ip_assignment {
  as_id : Z;
  as_service_id : Z;
  as_ip_id : Z;
  as_username : option string;
  as_password : option string;
  as_assigned_by : option string
}.
#[export] Instance eta_ip_assignment : Eta ip_assignment := fun r =>
  mk_ip_assignment (r.(as_id)) (r.(as_service_id)) (r.(as_ip_id)) (r.(as_username)) (r.(as_password)) (r.(as_assigned_by)).
#[export] Instance keyed_ip_assignment : Keyed ip_assignment := as_id.

Record ip_history : Type := mk_ip_history {
  ih_id : Z;
  ih_service_id : option Z;
  ih_ip_address : string;
  ih_subnet_cidr : option string;
  ih_action : string;
  ih_username : option string;
  ih_assigned_by : option string;
  ih_details : dict;
  ih_created_at : Z
}.
#[export] Instance eta_ip_history : Eta ip_history := fun r =>
  mk_ip_history (r.(ih_id)) (r.(ih_service_id)) (r.(ih_ip_address)) (r.(ih_subnet_cidr)) (r.(ih_action)) (r.(ih_username)) (r.(ih_assigned_by)) (r.(ih_details)) (r.(ih_created_at)).
#[export] Instance keyed_ip_history : Keyed ip_history := ih_id.

(** USDT deposits: src/app/models/usdt.py *)
Record usdt_deposit : Type := mk_usdt_deposit {
  ud_id : Z;
  ud_invoice_id : Z;
  ud_reseller_id : Z;
  ud_derivation_index : Z;
  ud_chain_id : Z;
  ud_contract_address : string;
  ud_deposit_address : string;
  ud_expected_token_units : Z;
  ud_received_token_units : Z;
  ud_status : usdt_status;
  ud_first_block : option Z;
  ud_confirmed_block : option Z;
  ud_block_hash : option string;
  ud_credited_at : option Z;
  ud_expires_at : Z;
  ud_gas_funding_tx_hash : option string;
  ud_gas_funded_at : option Z;
  ud_sweep_tx_hash : option string;
  ud_sweep_error : option string;
  ud_sweep_attempts : Z
}.
#[export] Instance eta_usdt_deposit : Eta usdt_deposit := fun r =>
  mk_usdt_deposit (r.(ud_id)) (r.(ud_invoice_id)) (r.(ud_reseller_id)) (r.(ud_derivation_index)) (r.(ud_chain_id)) (r.(ud_contract_address)) (r.(ud_deposit_address)) (r.(ud_expected_token_units)) (r.(ud_received_token_units)) (r.(ud_status)) (r.(ud_first_block)) (r.(ud_confirmed_block)) (r.(ud_block_hash)) (r.(ud_credited_at)) (r.(ud_expires_at)) (r.(ud_gas_funding_tx_hash)) (r.(ud_gas_funded_at)) (r.(ud_sweep_tx_hash)) (r.(ud_sweep_error)) (r.(ud_sweep_attempts)).
#[export] Instance keyed_usdt_deposit : Keyed usdt_deposit := ud_id.

Record usdt_event : Type := mk_usdt_event {
  ue_id : Z;
  ue_deposit_id : Z;
  ue_chain_id : Z;
  ue_tx_hash : string;
  ue_log_index : Z;
  ue_block_number : Z;
  ue_block_hash : string;
  ue_block_timestamp : option Z;
  ue_from_address : string;
  ue_to_address : string;
  ue_token_units : Z;
  ue_observed_at : Z;
  ue_confirmed_at : option Z;
  ue_reversed_at : option Z
}.
#[export] Instance eta_usdt_event : Eta usdt_event := fun r =>
  mk_usdt_event (r.(ue_id)) (r.(ue_deposit_id)) (r.(ue_chain_id)) (r.(ue_tx_hash)) (r.(ue_log_index)) (r.(ue_block_number)) (r.(ue_block_hash)) (r.(ue_block_timestamp)) (r.(ue_from_address)) (r.(ue_to_address)) (r.(ue_token_units)) (r.(ue_observed_at)) (r.(ue_confirmed_at)) (r.(ue_reversed_at)).
#[export] Instance keyed_usdt_event : Keyed usdt_event := ue_id.

Record usdt_cursor : Type := mk_usdt_cursor {
  uc_id : Z;
  uc_chain_id : Z;
  uc_contract_address : string;
  uc_next_block : Z;
  uc_last_safe_block : option Z;
  uc_last_safe_block_hash : option string;
  uc_lease_owner : option string;
  uc_lease_expires_at : option Z
}.
#[export] Instance eta_usdt_cursor : Eta usdt_cursor := fun r =>
  mk_usdt_cursor (r.(uc_id)) (r.(uc_chain_id)) (r.(uc_contract_address)) (r.(uc_next_block)) (r.(uc_last_safe_block)) (r.(uc_last_safe_block_hash)) (r.(uc_lease_owner)) (r.(uc_lease_expires_at)).
#[export] Instance keyed_usdt_cursor : Keyed usdt_cursor := uc_id.

(** [EmailMessage], without the subject and bodies rendered from its data. *)
Record email_message : Type := mk_email_message {
  em_id : Z;
  em_billing_account_id : option Z;
  em_user_id : option Z;
  em_to_address : string;
  em_event : string;
  em_data : dict;
  em_status : email_status;
  em_attempts : Z;
  em_error : option string;
  em_related_type : option string;
  em_related_id : option string;
  em_idempotency_key : string;
  em_sent_at : option Z
}.
#[export] Instance eta_email_message : Eta email_message := fun r =>
  mk_email_message (r.(em_id)) (r.(em_billing_account_id)) (r.(em_user_id)) (r.(em_to_address)) (r.(em_event)) (r.(em_data)) (r.(em_status)) (r.(em_attempts)) (r.(em_error)) (r.(em_related_type)) (r.(em_related_id)) (r.(em_idempotency_key)) (r.(em_sent_at)).
#[export] Instance keyed_email_message : Keyed email_message := em_id.

Record webhook_endpoint : Type := mk_webhook_endpoint {
  ep_id : Z;
  ep_url : string;
  ep_secret_hash : string;
  ep_events : list string;
  ep_enabled : bool
}.
#[export] Instance eta_webhook_endpoint : Eta webhook_endpoint := fun r =>
  mk_webhook_endpoint (r.(ep_id)) (r.(ep_url)) (r.(ep_secret_hash)) (r.(ep_events)) (r.(ep_enabled)).
#[export] Instance keyed_webhook_endpoint : Keyed webhook_endpoint := ep_id.

Record webhook_delivery : Type := mk_webhook_delivery {
  wd_id : Z;
  wd_endpoint_id : Z;
  wd_event : string;
  wd_payload : dict;
  wd_status : delivery_status;
  wd_attempts : Z;
  wd_last_error : option string
}.
#[export] Instance eta_webhook_delivery : Eta webhook_delivery := fun r =>
  mk_webhook_delivery (r.(wd_id)) (r.(wd_endpoint_id)) (r.(wd_event)) (r.(wd_payload)) (r.(wd_status)) (r.(wd_attempts)) (r.(wd_last_error)).
#[export] Instance keyed_webhook_delivery : Keyed webhook_delivery := wd_id.

(** * The database *)

Record db : Type := mk_db {
  db_users : list user;
  db_resellers : list reseller;
  db_invoices : list invoice;
  db_payments : list payment;
  db_methods : list pay_method;
  db_paypal_setups : list paypal_setup;
  db_webhook_events : list webhook_event;
  db_ledger : list ledger_entry;
  db_billings : list service_billing;
  db_cycles : list billing_cycle;
  db_services : list service;
  db_outbox : list outbox_row;
  db_order_items : list order_item;
  db_accounts : list billing_account;
  db_emails : list email_message;
  db_endpoints : list webhook_endpoint;
  db_deliveries : list webhook_delivery;
  db_requests : list provisioning_request;
  db_orders : list order;
  db_order_history : list order_history;
  db_coupons : list coupon;
  db_redemptions : list redemption;
  db_invoice_lines : list invoice_line;
  db_profiles : list billing_profile;
  db_reservations : list vmid_reservation;
  db_subnets : list ip_subnet;
  db_ips : list ip_address;
  db_assignments : list ip_assignment;
  db_ip_history : list ip_history;
  db_deposits : list usdt_deposit;
  db_transfers : list usdt_event;
  db_cursors : list usdt_cursor;
  db_jobs : list deploy_job;
  db_job_steps : list job_step;
  db_vm_ips : list vm_ip;
  db_totp : list totp_secret;
  db_reset_tokens : list reset_token;
  db_verify_tokens : list verify_token;
  db_integrations : list integration;
  db_servers : list server;
  db_install_tasks : list install_task;
  db_boot_tasks : list boot_task;
  db_order_sequence : option Z;
  db_usdt_sequence : option Z;
  db_invoice_sequence : option Z;
  db_lease : option lease
}.
#[export] Instance eta_db : Eta db := fun r =>
  mk_db (r.(db_users)) (r.(db_resellers)) (r.(db_invoices)) (r.(db_payments)) (r.(db_methods)) (r.(db_paypal_setups)) (r.(db_webhook_events)) (r.(db_ledger)) (r.(db_billings)) (r.(db_cycles)) (r.(db_services)) (r.(db_outbox)) (r.(db_order_items)) (r.(db_accounts)) (r.(db_emails)) (r.(db_endpoints)) (r.(db_deliveries)) (r.(db_requests)) (r.(db_orders)) (r.(db_order_history)) (r.(db_coupons)) (r.(db_redemptions)) (r.(db_invoice_lines)) (r.(db_profiles)) (r.(db_reservations)) (r.(db_subnets)) (r.(db_ips)) (r.(db_assignments)) (r.(db_ip_history)) (r.(db_deposits)) (r.(db_transfers)) (r.(db_cursors)) (r.(db_jobs)) (r.(db_job_steps)) (r.(db_vm_ips)) (r.(db_totp)) (r.(db_reset_tokens)) (r.(db_verify_tokens)) (r.(db_integrations)) (r.(db_servers)) (r.(db_install_tasks)) (r.(db_boot_tasks)) (r.(db_order_sequence)) (r.(db_usdt_sequence)) (r.(db_invoice_sequence)) (r.(db_lease)).

Definition empty_db : db :=
  mk_db [] [] [] [] [] [] [] [] [] [] [] [] [] [] [] [] [] [] [] [] [] [] [] [] [] [] [] [] [] [] [] [] [] [] [] [] [] [] [] [] [] [] None None None None.

(** ** Declared constraints *)

(** No two rows agree on a key column; NULLs never clash. *)
Definition unique_by {R K} `{EqDecision K} (key : R -> option K) (t : list R)
  : bool := bool_decide (NoDup (omap key t)).

(** [BigInteger] *)
Definition fits_bigint (n : Z) : bool :=
  (- 2 ^ 63 <=? n) && (n <? 2 ^ 63).

Definition widths (d : db) : bool :=
  forallb (fun e => fits_bigint e.(le_amount_cents)
                    && fits_bigint e.(le_balance_after_cents)) d.(db_ledger)
  && forallb (fun r => fits_bigint r.(rs_cached_balance_cents)) d.(db_resellers)
  && forallb (fun i => fits_bigint i.(in_amount_cents)
                       && fits_bigint i.(in_invoice_number)) d.(db_invoices)
  && (forallb (fun p => fits_bigint p.(pm_amount_cents)) d.(db_payments)
      && forallb (fun o => fits_bigint o.(or_order_number)
                           && fits_bigint o.(or_total_cents)) d.(db_orders)
      && forallb (fun l => fits_bigint l.(il_total_cents)) d.(db_invoice_lines)
      && forallb (fun u => fits_bigint u.(ud_expected_token_units)
                           && fits_bigint u.(ud_received_token_units)) d.(db_deposits)
      && forallb (fun e => fits_bigint e.(ue_token_units)) d.(db_transfers)).

Definition ledger_constraints (t : list ledger_entry) : bool :=
  forallb (fun e => negb (e.(le_amount_cents) =? 0)) t
  && unique_by le_reversal_of_id t
  && unique_by le_idempotency_key t.
Definition invoice_constraints (t : list invoice) : bool :=
  forallb (fun i => 0 <? i.(in_amount_cents)) t
  && unique_by (fun i => Some i.(in_invoice_number)) t.
Definition payment_constraints (t : list payment) : bool :=
  forallb (fun p => 0 <? p.(pm_amount_cents)) t
  && unique_by pm_external_ref t.
Definition method_constraints (t : list pay_method) : bool :=
  forallb (fun m => 0 <=? m.(mt_tier)) t
  && unique_by (fun m => Some (m.(mt_provider), m.(mt_provider_method_ref))) t.
Definition billing_constraints (t : list service_billing) : bool :=
  forallb (fun b =>
    (0 <=? b.(sb_setup_price_cents)) && (0 <=? b.(sb_monthly_price_cents))
    && (0 <=? b.(sb_failed_attempts))
    && match b.(sb_billing_anchor_day) with
       | Some a => (1 <=? a) && (a <=? 31)
       | None => true
       end) t
  && unique_by (fun b => Some b.(sb_service_id)) t.
Definition cycle_constraints (t : list billing_cycle) : bool :=
  forallb (fun c => (0 <=? c.(bc_amount_cents)) && (0 <=? c.(bc_attempts))) t
  && unique_by (fun c => Some (c.(bc_service_billing_id), c.(bc_due_at))) t
  && unique_by bc_invoice_id t.

Definition account_constraints (t : list billing_account) : bool :=
  forallb (fun a => match a.(ba_account_type), a.(ba_user_id), a.(ba_reseller_id) with
                    | AC_CLIENT, Some _, _ | AC_RESELLER, _, Some _ => true
                    | _, _, _ => false
                    end) t
  && unique_by ba_reseller_id t.
Definition order_constraints (d : db) : bool :=
  unique_by (fun o => Some o.(or_order_number)) d.(db_orders)
  && unique_by or_checkout_nonce d.(db_orders)
  && unique_by (fun c => Some c.(co_code)) d.(db_coupons)
  && unique_by (fun r => match r.(rd_order_id) with
                         | Some o => Some (r.(rd_coupon_id), o) | None => None
                         end) d.(db_redemptions)
  && unique_by (fun p => Some p.(bp_billing_account_id)) d.(db_profiles).
(** [uq_service_vm_cluster_vmid] *)
Definition vm_location (s : service) : option (Z * Z) :=
  match s.(sv_vm) with
  | Some v => match v.(vx_proxmox_cluster_id), v.(vx_proxmox_vmid) with
              | Some c, Some n => Some (c, n)
              | _, _ => None
              end
  | None => None
  end.
Definition inventory_constraints (d : db) : bool :=
  unique_by (fun r => Some (r.(vr_cluster_id), r.(vr_vmid))) d.(db_reservations)
  && unique_by (fun n => Some n.(sn_cidr)) d.(db_subnets)
  && unique_by (fun a => Some a.(ip_ip_address)) d.(db_ips)
  && unique_by (fun a => Some a.(va_ip_address)) d.(db_vm_ips)
  && unique_by vm_location d.(db_services).
Definition usdt_constraints (d : db) : bool :=
  forallb (fun u => (0 <? u.(ud_expected_token_units))
                    && (0 <=? u.(ud_received_token_units))) d.(db_deposits)
  && unique_by (fun u => Some u.(ud_invoice_id)) d.(db_deposits)
  && unique_by (fun u => Some u.(ud_derivation_index)) d.(db_deposits)
  && unique_by (fun u => Some u.(ud_deposit_address)) d.(db_deposits)
  && unique_by ud_gas_funding_tx_hash d.(db_deposits)
  && unique_by ud_sweep_tx_hash d.(db_deposits)
  && forallb (fun e => 0 <? e.(ue_token_units)) d.(db_transfers)
  && unique_by (fun e => Some (e.(ue_chain_id), e.(ue_tx_hash), e.(ue_log_index)))
       d.(db_transfers)
  && unique_by (fun c => Some (c.(uc_chain_id), c.(uc_contract_address))) d.(db_cursors).

Definition account_security_constraints (d : db) : bool :=
  unique_by (fun u => Some u.(us_username)) d.(db_users)
  && unique_by (fun u => Some u.(us_email)) d.(db_users)
  && unique_by (fun u => match u.(us_billing_integration_id), u.(us_external_user_id) with
                         | Some i, Some x => Some (i, x) | _, _ => None
                         end) d.(db_users)
  && unique_by (fun u => match u.(us_reseller_id), u.(us_external_user_id) with
                         | Some i, Some x => Some (i, x) | _, _ => None
                         end) d.(db_users)
  && unique_by (fun t => Some t.(ts_user_id)) d.(db_totp)
  && unique_by (fun t => Some t.(rt_token_hash)) d.(db_reset_tokens)
  && unique_by (fun t => Some t.(vt_token_hash)) d.(db_verify_tokens)
  && unique_by (fun b => Some b.(bi_api_key)) d.(db_integrations).

Definition constraints (d : db) : bool :=
  ledger_constraints d.(db_ledger)
  && invoice_constraints d.(db_invoices)
  && payment_constraints d.(db_payments)
  && method_constraints d.(db_methods)
  && unique_by (fun p => Some p.(pp_setup_token_ref)) d.(db_paypal_setups)
  && unique_by (fun e => Some (e.(we_gateway), e.(we_event_id)))
       d.(db_webhook_events)
  && billing_constraints d.(db_billings)
  && cycle_constraints d.(db_cycles)
  && unique_by (fun n => Some n.(nb_idempotency_key)) d.(db_outbox)
  && (forallb (fun n => 0 <=? n.(nb_attempts)) d.(db_outbox)
      && unique_by (fun m => Some m.(em_idempotency_key)) d.(db_emails)
      && unique_by (fun q => Some (q.(rq_reseller_id), q.(rq_idempotency_key)))
           d.(db_requests)
      && (account_constraints d.(db_accounts) && order_constraints d
          && inventory_constraints d
          && (usdt_constraints d && account_security_constraints d))).

Lemma unique_by_snoc {R K} `{EqDecision K} (key : R -> option K) t r :
  unique_by key t = true ->
  (forall x k, In x t -> key r = Some k -> key x <> Some k) ->
  unique_by key (t ++ [r]) = true.
Proof.
  unfold unique_by. rewrite !bool_decide_eq_true, omap_app. intros Ht Hr.
  apply NoDup_app. split; [done|]. cbn. destruct (key r) as [k|] eqn:E.
  - split; [|apply NoDup_singleton]. intros k' Hk' ->%list_elem_of_singleton.
    apply list_elem_of_omap in Hk' as (x & Hx & Hk).
    apply list_elem_of_In in Hx. by apply (Hr x k).
  - split; [|apply NoDup_nil_2]. intros k' _ H%elem_of_nil. done.
Qed.

Lemma unique_by_cons {R K} `{EqDecision K} (key : R -> option K) r t k :
  unique_by key (r :: t) = true -> key r = Some k ->
  forall x, In x t -> key x <> Some k.
Proof.
  unfold unique_by. rewrite bool_decide_eq_true. cbn [omap list_omap].
  intros Hnd Hr x Hx Hk. rewrite Hr in Hnd. apply NoDup_cons in Hnd as [Hnd _].
  apply Hnd, list_elem_of_omap. exists x. by rewrite list_elem_of_In.
Qed.

Lemma unique_by_tail {R K} `{EqDecision K} (key : R -> option K) r t :
  unique_by key (r :: t) = true -> unique_by key t = true.
Proof.
  unfold unique_by. rewrite !bool_decide_eq_true. cbn [omap list_omap].
  destruct (key r); [|done]. by intros [_ ?]%NoDup_cons.
Qed.

(** Looking a row up by a unique key finds that row and no other. *)
Lemma unique_by_filter {R K} `{EqDecision K} (key : R -> option K) p k x t :
  unique_by key t = true -> (forall y, p y = true -> key y = Some k) ->
  In x t -> p x = true -> List.filter p t = [x].
Proof.
  intros Hu Hp. induction t as [|y t IH]; [done|]. cbn [List.filter].
  intros [->|Hin] Hx.
  - rewrite Hx. f_equal. apply filter_nil_iff. intros z Hz.
    destruct (p z) eqn:Hpz; [|done]. exfalso.
    by apply (unique_by_cons key x t k Hu (Hp _ Hx) z Hz), Hp.
  - destruct (p y) eqn:Hpy; [|apply IH; [by eapply unique_by_tail|done..]].
    exfalso. by apply (unique_by_cons key y t k Hu (Hp _ Hpy) x Hin), Hp.
Qed.
