(* ===== verification/Session.v ===== *)
(** The database session every service method receives, and the exceptions
    the services raise.

    SQLAlchemy's session (built with [autoflush=False] in
    src/app/core/database.py) is modelled by the rows as the running
    transaction sees them, the rows of the last commit, and the parts of the
    outside world that a rollback cannot undo: the clock and the requests
    already sent to payment gateways and to the Ethereum node.  An object reference held by a method is
    the primary key of its row; reading an attribute reads the current row. *)
From Stdlib Require Import ZArith Lia.
From stdpp Require Import base numbers list strings.
From S2P Require Import Prelude Models.
#[local] Open Scope Z_scope.
#[local] Open Scope py_scope.

(** * Exceptions *)

Inductive exn : Type :=
| CreditLedgerError (msg : string)
| ResellerNotFoundError (reseller_id : Z)
| InsufficientCreditError (reseller_id available_cents requested_cents : Z)
| LedgerEntryAlreadyReversedError (entry_id : Z)
| InvoiceError (msg : string)
| PaymentGatewayError (msg : string)
| GatewayNotConfiguredError (msg : string)
| PaymentMethodOwnershipError (msg : string)
| PaymentRefundError (msg code : string)
| ServiceLifecycleError (msg : string) (status_code : Z)
| CommerceLifecycleError (msg : string)
| ResellerBillingError (msg : string)
| ProductNotAvailableError (msg : string)
| QuotaNotAllocatedError (msg : string)
| QuotaExceededError (msg : string)
| IdempotencyConflictError (msg : string)
| DeployCreditRequiredError (required_cents available_cents invoice_id : Z)
    (pending_action : bool) (client_secret : option string) (payment_id : option Z)
| SequenceError (msg : string)
| CheckoutError (msg : string)
| ProvisioningError (code msg : string) (status_code : Z)
| DeploymentError (msg : string)
| UsdtDepositError (msg : string)
| UsdtConfigurationError (msg : string)
| EthereumRpcError (msg : string)
| VmIpReassignError (msg : string) (status_code : Z)
| StrategyActionError (msg : string)
| HTTPException (status_code : Z)
| ValueError (msg : string)
| AttributeError
| IntegrityError
| DataError
| MultipleResultsFound
| NoResultFound
| OtherError (type_name : string).
#[export] Instance exn_eq_dec : EqDecision exn.
Proof. solve_decision. Defined.

(** [type(exc).__name__] *)
Definition exn_name (e : exn) : string :=
  match e with
  | CreditLedgerError _ => "CreditLedgerError"
  | ResellerNotFoundError _ => "ResellerNotFoundError"
  | InsufficientCreditError _ _ _ => "InsufficientCreditError"
  | LedgerEntryAlreadyReversedError _ => "LedgerEntryAlreadyReversedError"
  | InvoiceError _ => "InvoiceError"
  | PaymentGatewayError _ => "PaymentGatewayError"
  | GatewayNotConfiguredError _ => "GatewayNotConfiguredError"
  | PaymentMethodOwnershipError _ => "PaymentMethodOwnershipError"
  | PaymentRefundError _ _ => "PaymentRefundError"
  | ServiceLifecycleError _ _ => "ServiceLifecycleError"
  | CommerceLifecycleError _ => "CommerceLifecycleError"
  | ResellerBillingError _ => "ResellerBillingError"
  | ProductNotAvailableError _ => "ProductNotAvailableError"
  | QuotaNotAllocatedError _ => "QuotaNotAllocatedError"
  | QuotaExceededError _ => "QuotaExceededError"
  | IdempotencyConflictError _ => "IdempotencyConflictError"
  | DeployCreditRequiredError _ _ _ _ _ _ => "DeployCreditRequiredError"
  | SequenceError _ => "SequenceError"
  | CheckoutError _ => "CheckoutError"
  | ProvisioningError _ _ _ => "ProvisioningError"
  | DeploymentError _ => "DeploymentError"
  | UsdtDepositError _ => "UsdtDepositError"
  | UsdtConfigurationError _ => "UsdtConfigurationError"
  | EthereumRpcError _ => "EthereumRpcError"
  | VmIpReassignError _ _ => "VmIpReassignError"
  | StrategyActionError _ => "StrategyActionError"
  | HTTPException _ => "HTTPException"
  | ValueError _ => "ValueError"
  | AttributeError => "AttributeError"
  | IntegrityError => "IntegrityError"
  | DataError => "DataError"
  | MultipleResultsFound => "MultipleResultsFound"
  | NoResultFound => "NoResultFound"
  | OtherError n => n
  end.

(** [except ValueError]: the class and its subclasses. *)
Definition is_value_error (e : exn) : bool :=
  match e with
  | CreditLedgerError _ | ResellerNotFoundError _
  | InsufficientCreditError _ _ _ | LedgerEntryAlreadyReversedError _
  | InvoiceError _ | PaymentRefundError _ _ | CommerceLifecycleError _
  | ResellerBillingError _ | ProductNotAvailableError _ | QuotaNotAllocatedError _
  | QuotaExceededError _ | IdempotencyConflictError _
  | DeployCreditRequiredError _ _ _ _ _ _ | SequenceError _ | CheckoutError _
  | UsdtDepositError _ | ValueError _ => true
  | _ => false
  end.

(** [except PaymentGatewayError] *)
Definition is_gateway_error (e : exn) : bool :=
  match e with
  | PaymentGatewayError _ | GatewayNotConfiguredError _
  | PaymentMethodOwnershipError _ => true
  | _ => false
  end.

(** [str(exc)] of a gateway error. *)
Definition gateway_error_message (e : exn) : string :=
  match e with
  | PaymentGatewayError m | GatewayNotConfiguredError m
  | PaymentMethodOwnershipError m => m
  | _ => ""
  end.

(** [except RuntimeError] *)
Definition is_runtime_error (e : exn) : bool :=
  match e with
  | ServiceLifecycleError _ _ | UsdtConfigurationError _ | EthereumRpcError _ => true
  | OtherError n => (n == "RuntimeError") || (n == "NotImplementedError")
                    || (n == "ProxmoxPlacementError")
  | _ => is_gateway_error e
  end.

(** [int(x)] of a stored JSON value. *)
Definition json_int (j : json) : outcome exn Z :=
  match j with
  | JInt n => Ok n
  | JBool b => Ok (if b then 1 else 0)
  | JStr t => match py_int t with
              | Some n => Ok n
              | None => Raise (ValueError "invalid literal for int()")
              end
  | _ => Raise (OtherError "TypeError")
  end.

(** * The session *)

(** Arguments of one [charge_off_session] call. *)
Record charge_request : Type := mk_charge_request {
  cr_gateway : string;
  cr_customer_ref : option string;
  cr_method_ref : string;
  cr_amount_cents : Z;
  cr_currency : string;
  cr_idempotency_key : string
}.

(** One JSON-RPC request to the Ethereum node; a retry repeats its id. *)
Record rpc_call : Type := mk_rpc_call {
  rc_id : Z;
  rc_method : string;
  rc_params : list json
}.

Record session : Type := mk_session {
  s_db : db;
  s_committed : db;
  s_now : Z;
  s_charges : list charge_request;
  s_calls : list rpc_call;
  s_sqlite : bool
}.
#[export] Instance eta_session : Eta session := fun s =>
  mk_session s.(s_db) s.(s_committed) s.(s_now) s.(s_charges) s.(s_calls)
    s.(s_sqlite).

(** A service method. *)
Abbreviation Meth A := (M session exn A).

(** [datetime.now(timezone.utc)] *)
Definition utcnow : Meth Z := gets s_now.

(** [db.flush()]: the database checks what it is sent. *)
Definition flush : Meth unit := fun s =>
  if negb (widths s.(s_db)) then (Raise DataError, s)
  else if constraints s.(s_db) then (Ok tt, s)
  else (Raise IntegrityError, s).

(** [db.commit()] flushes, then makes the rows durable. *)
Definition commit : Meth unit :=
  flush ;;; modify (fun s => s <|s_committed := s.(s_db)|>).

(** [db.rollback()] *)
Definition rollback : Meth unit :=
  modify (fun s => s <|s_db := s.(s_committed)|>).

(** [with db.begin_nested(): body] flushes, and undoes the body's writes when
    it raises. *)
Definition begin_nested {A} (body : Meth A) : Meth A :=
  flush ;;;
  fun s =>
    match (x <- body ;; flush ;;; ret x) s with
    | (Ok a, s') => (Ok a, s')
    | (Raise e, s') => (Raise e, s' <|s_db := s.(s_db)|>)
    end.

Definition read {A} (f : db -> A) : Meth A := gets (fun s => f s.(s_db)).
Definition write (f : db -> db) : Meth unit :=
  modify (fun s => s <|s_db := f s.(s_db)|>).

(** ** Rows *)

Definition upd_reseller (k : Z) (f : reseller -> reseller) : Meth unit :=
  write (fun d => d <|db_resellers := tbl_update k f d.(db_resellers)|>).
Definition upd_invoice (k : Z) (f : invoice -> invoice) : Meth unit :=
  write (fun d => d <|db_invoices := tbl_update k f d.(db_invoices)|>).
Definition upd_payment (k : Z) (f : payment -> payment) : Meth unit :=
  write (fun d => d <|db_payments := tbl_update k f d.(db_payments)|>).
Definition upd_method (k : Z) (f : pay_method -> pay_method) : Meth unit :=
  write (fun d => d <|db_methods := tbl_update k f d.(db_methods)|>).
Definition upd_paypal_setup (k : Z) (f : paypal_setup -> paypal_setup)
  : Meth unit :=
  write (fun d => d <|db_paypal_setups := tbl_update k f d.(db_paypal_setups)|>).
Definition upd_billing (k : Z) (f : service_billing -> service_billing)
  : Meth unit :=
  write (fun d => d <|db_billings := tbl_update k f d.(db_billings)|>).
Definition upd_cycle (k : Z) (f : billing_cycle -> billing_cycle) : Meth unit :=
  write (fun d => d <|db_cycles := tbl_update k f d.(db_cycles)|>).
Definition upd_service (k : Z) (f : service -> service) : Meth unit :=
  write (fun d => d <|db_services := tbl_update k f d.(db_services)|>).
Definition upd_outbox (k : Z) (f : outbox_row -> outbox_row) : Meth unit :=
  write (fun d => d <|db_outbox := tbl_update k f d.(db_outbox)|>).

(** Dereferencing an object whose row the method already holds; an absent row
    is attribute access on [None]. *)
Definition the_reseller (k : Z) : Meth reseller :=
  o <- read (fun d => tbl_get k d.(db_resellers)) ;; unwrap o AttributeError.
Definition the_invoice (k : Z) : Meth invoice :=
  o <- read (fun d => tbl_get k d.(db_invoices)) ;; unwrap o AttributeError.
Definition the_payment (k : Z) : Meth payment :=
  o <- read (fun d => tbl_get k d.(db_payments)) ;; unwrap o AttributeError.
Definition the_billing (k : Z) : Meth service_billing :=
  o <- read (fun d => tbl_get k d.(db_billings)) ;; unwrap o AttributeError.
Definition the_cycle (k : Z) : Meth billing_cycle :=
  o <- read (fun d => tbl_get k d.(db_cycles)) ;; unwrap o AttributeError.
Definition the_service (k : Z) : Meth service :=
  o <- read (fun d => tbl_get k d.(db_services)) ;; unwrap o AttributeError.

(** [x.attribute] where [x] is an optional foreign key. *)
Definition deref (o : option Z) : Meth Z := unwrap o AttributeError.

(** * Laws *)

Lemma wp_flush (Q : unit -> session -> Prop) (R : exn -> session -> Prop) s :
  (constraints s.(s_db) = true -> widths s.(s_db) = true -> Q tt s) ->
  (forall e, e = DataError \/ e = IntegrityError -> R e s) ->
  wp flush Q R s.
Proof.
  unfold wp, flush. intros HQ HR.
  destruct (widths _) eqn:Hw; cbn; [|auto].
  destruct (constraints _) eqn:Hc; auto.
Qed.

Lemma wp_read {A} (f : db -> A) (Q : A -> session -> Prop) R s :
  Q (f s.(s_db)) s -> wp (read f) Q R s.
Proof. done. Qed.

Lemma wp_write f (Q : unit -> session -> Prop) R s :
  Q tt (s <|s_db := f s.(s_db)|>) -> wp (write f) Q R s.
Proof. done. Qed.

(** Dereferencing: the row is there, or the method raises. *)
Lemma wp_the {A} (f : db -> option A) e (Q : A -> session -> Prop)
    (R : exn -> session -> Prop) s :
  (f s.(s_db) = None -> R e s) -> (forall a, f s.(s_db) = Some a -> Q a s) ->
  wp (bind (read f) (fun o => unwrap o e)) Q R s.
Proof. intros HR HQ. apply wp_bind, wp_read, wp_unwrap; auto. Qed.

(** [commit] makes the rows durable, or fails at the flush. *)
Lemma wp_commit (Q : unit -> session -> Prop) (R : exn -> session -> Prop) s :
  (forall e, e = DataError \/ e = IntegrityError -> R e s) ->
  Q tt (s <|s_committed := s.(s_db)|>) -> wp commit Q R s.
Proof. intros HR HQ. apply wp_bind, wp_flush; [|done]. intros _ _. by apply wp_modify. Qed.

Lemma flush_ok s :
  widths s.(s_db) = true -> constraints s.(s_db) = true ->
  flush s = (Ok tt, s).
Proof. intros Hw Hc. unfold flush. by rewrite Hw, Hc. Qed.

Lemma flush_cases s :
  flush s = (Ok tt, s) \/ flush s = (Raise DataError, s)
  \/ flush s = (Raise IntegrityError, s).
Proof.
  unfold flush. destruct (negb _); [auto|]. destruct (constraints _); auto.
Qed.

Lemma flush_inv s r s' : flush s = (r, s') -> s' = s.
Proof.
  unfold flush. destruct (negb _); [congruence|].
  destruct (constraints _); congruence.
Qed.

(** A savepoint that fails leaves the rows as they were. *)
Lemma begin_nested_raise {A} (body : Meth A) s e s' :
  begin_nested body s = (Raise e, s') -> s'.(s_db) = s.(s_db).
Proof.
  unfold begin_nested, bind at 1. destruct (flush s) as [[u|e1] s1] eqn:Hf.
  - assert (s1 = s) as ->.
    { unfold flush in Hf. destruct (negb _); [done|].
      destruct (constraints _); congruence. }
    destruct (bind body _ s) as [[a|e2] s2]; [done|]. by intros [= <- <-].
  - intros [= <- <-]. unfold flush in Hf. destruct (negb _); [congruence|].
    destruct (constraints _); congruence.
Qed.

(** A savepoint runs its body and a flush, and restores the rows when they
    raise. *)
Lemma wp_nested {A} (m : Meth A) (Q : A -> session -> Prop) (R : exn -> session -> Prop) s :
  (forall e, R e s) ->
  wp (x <- m ;; flush ;;; ret x) Q (fun e s' => R e (s' <|s_db := s.(s_db)|>)) s ->
  wp (begin_nested m) Q R s.
Proof.
  intros Hs Hm. unfold begin_nested. wp_step. apply wp_flush; [intros _ _|auto].
  unfold wp in *. by destruct (bind m _ s) as [[a|e] s'].
Qed.

(** Invariants of the rows alone. *)
Abbreviation keeps_db I m := (keeps (fun s => I s.(s_db)) m).

Lemma keeps_read {A} (I : session -> Prop) (f : db -> A) : keeps I (read f).
Proof. apply keeps_gets. Qed.

Lemma keeps_flush (I : session -> Prop) : keeps I flush.
Proof. intros s Hs. apply wp_flush; auto. Qed.

Lemma keeps_deref (I : session -> Prop) o : keeps I (deref o).
Proof. apply keeps_unwrap. Qed.

Lemma keeps_db_write (I : db -> Prop) f :
  (forall d, I d -> I (f d)) -> keeps_db I (write f).
Proof. intros Hf s Hs. apply wp_write, Hf, Hs. Qed.

(** A savepoint keeps what restoring the rows keeps. *)
Lemma keeps_nested {A} (I : session -> Prop) (m : Meth A) :
  (forall s s', I s -> I s' -> I (s' <|s_db := s.(s_db)|>)) ->
  keeps I m -> keeps I (begin_nested m).
Proof.
  intros Hback Hm s Hs. unfold begin_nested. wp_step. apply wp_flush; [|auto].
  intros _ _. unfold wp.
  assert (keeps I (x <- m ;; flush ;;; ret x)) as Hb.
  { apply keeps_bind; [done|]. intros a. apply keeps_bind;
      [apply keeps_flush|]. intros _. apply keeps_ret. }
  specialize (Hb s Hs). unfold wp in Hb.
  destruct (bind m _ s) as [[a|e] s']; [done|]. by apply Hback.
Qed.
Lemma keeps_db_nested {A} (I : db -> Prop) (m : Meth A) :
  keeps_db I m -> keeps_db I (begin_nested m).
Proof. by apply keeps_nested. Qed.

#[export] Hint Resolve keeps_read keeps_flush keeps_deref keeps_db_nested : dcim.

Lemma keeps_utcnow (I : session -> Prop) : keeps I utcnow.
Proof. apply keeps_gets. Qed.
Lemma keeps_the {A} (I : session -> Prop) (f : db -> option A) e :
  keeps I (bind (read f) (fun o => unwrap o e)).
Proof. apply keeps_bind; [apply keeps_read|]. intros o. apply keeps_unwrap. Qed.
#[export] Hint Resolve keeps_utcnow : dcim.
#[export] Hint Extern 1 (keeps _ (the_reseller _)) => apply keeps_the : dcim.
#[export] Hint Extern 1 (keeps _ (the_invoice _)) => apply keeps_the : dcim.
#[export] Hint Extern 1 (keeps _ (the_payment _)) => apply keeps_the : dcim.
#[export] Hint Extern 1 (keeps _ (the_billing _)) => apply keeps_the : dcim.
#[export] Hint Extern 1 (keeps _ (the_cycle _)) => apply keeps_the : dcim.
#[export] Hint Extern 1 (keeps _ (the_service _)) => apply keeps_the : dcim.

(** A write that leaves alone the tables the invariant speaks of. *)
Ltac frame_write := apply keeps_db_write; intros ? Hframe; exact Hframe.
#[export] Hint Extern 2 (keeps _ (write _)) => frame_write : dcim.
#[export] Hint Extern 2 (keeps _ (upd_reseller _ _)) => frame_write : dcim.
#[export] Hint Extern 2 (keeps _ (upd_invoice _ _)) => frame_write : dcim.
#[export] Hint Extern 2 (keeps _ (upd_payment _ _)) => frame_write : dcim.
#[export] Hint Extern 2 (keeps _ (upd_method _ _)) => frame_write : dcim.
#[export] Hint Extern 2 (keeps _ (upd_paypal_setup _ _)) => frame_write : dcim.
#[export] Hint Extern 2 (keeps _ (upd_billing _ _)) => frame_write : dcim.
#[export] Hint Extern 2 (keeps _ (upd_cycle _ _)) => frame_write : dcim.
#[export] Hint Extern 2 (keeps _ (upd_service _ _)) => frame_write : dcim.
#[export] Hint Extern 2 (keeps _ (upd_outbox _ _)) => frame_write : dcim.

Ltac sess_step :=
  match goal with
  | |- wp flush _ _ _ => apply wp_flush
  | |- wp (read _) _ _ _ => apply wp_read
  | |- wp (write _) _ _ _ => apply wp_write
  | |- wp utcnow _ _ _ => apply wp_gets
  | |- wp (the_reseller _) _ _ _ => unfold the_reseller
  | |- wp (the_invoice _) _ _ _ => unfold the_invoice
  | |- wp (the_payment _) _ _ _ => unfold the_payment
  | |- wp (the_billing _) _ _ _ => unfold the_billing
  | |- wp (the_cycle _) _ _ _ => unfold the_cycle
  | |- wp (the_service _) _ _ _ => unfold the_service
  | |- wp (deref _) _ _ _ => unfold deref
  | _ => wp_step
  end; cbv beta.

(** The committed rows change only by [commit]. *)
Definition committed_is (d : db) (s : session) : Prop := s.(s_committed) = d.

Lemma keeps_committed_write d f : keeps (committed_is d) (write f).
Proof. by intros s Hs. Qed.
Lemma keeps_committed_nested {A} d (m : Meth A) :
  keeps (committed_is d) m -> keeps (committed_is d) (begin_nested m).
Proof. by apply keeps_nested. Qed.
#[export] Hint Resolve keeps_committed_write keeps_committed_nested : dcim.
#[export] Hint Extern 1 (keeps (committed_is _) (upd_reseller _ _)) => apply keeps_committed_write : dcim.
#[export] Hint Extern 1 (keeps (committed_is _) (upd_invoice _ _)) => apply keeps_committed_write : dcim.
#[export] Hint Extern 1 (keeps (committed_is _) (upd_payment _ _)) => apply keeps_committed_write : dcim.

(** Only the gateways' own calls are logged. *)
Definition charges_are (c : list charge_request) (s : session) : Prop :=
  s.(s_charges) = c.

Lemma keeps_charges_write c f : keeps (charges_are c) (write f).
Proof. by intros s Hs. Qed.
Lemma keeps_charges_modify c f :
  (forall s, (f s).(s_charges) = s.(s_charges)) ->
  keeps (charges_are c) (modify f : Meth unit).
Proof. intros Hf s Hs. unfold wp, modify, charges_are in *. by rewrite Hf. Qed.
Lemma keeps_charges_nested {A} c (m : Meth A) :
  keeps (charges_are c) m -> keeps (charges_are c) (begin_nested m).
Proof. by apply keeps_nested. Qed.
#[export] Hint Resolve keeps_charges_write keeps_charges_nested : dcim.
#[export] Hint Extern 1 (keeps (charges_are _) (modify _)) =>
  apply keeps_charges_modify; reflexivity : dcim.
#[export] Hint Extern 1 (keeps (charges_are _) (upd_reseller _ _)) => apply keeps_charges_write : dcim.
#[export] Hint Extern 1 (keeps (charges_are _) (upd_invoice _ _)) => apply keeps_charges_write : dcim.
#[export] Hint Extern 1 (keeps (charges_are _) (upd_payment _ _)) => apply keeps_charges_write : dcim.
#[export] Hint Extern 1 (keeps (charges_are _) (upd_method _ _)) => apply keeps_charges_write : dcim.
#[export] Hint Extern 1 (keeps (charges_are _) (upd_paypal_setup _ _)) => apply keeps_charges_write : dcim.
#[export] Hint Extern 1 (keeps (charges_are _) (upd_billing _ _)) => apply keeps_charges_write : dcim.
#[export] Hint Extern 1 (keeps (charges_are _) (upd_cycle _ _)) => apply keeps_charges_write : dcim.
#[export] Hint Extern 1 (keeps (charges_are _) (upd_service _ _)) => apply keeps_charges_write : dcim.
#[export] Hint Extern 1 (keeps (charges_are _) (upd_outbox _ _)) => apply keeps_charges_write : dcim.

Lemma commit_cases s r s' :
  commit s = (r, s') ->
  s'.(s_db) = s.(s_db) /\
  (s'.(s_committed) = s.(s_db) \/ s'.(s_committed) = s.(s_committed)).
Proof.
  unfold commit, bind, flush. destruct (negb _); [intros [= <- <-]; auto|].
  destruct (constraints _); intros [= <- <-]; cbn; auto.
Qed.

Lemma keeps_run {A} (I : session -> Prop) (m : Meth A) s r s' :
  keeps I m -> m s = (r, s') -> I s -> I s'.
Proof.
  intros Hm Heq Hs. specialize (Hm s Hs). unfold wp in Hm.
  rewrite Heq in Hm. by destruct r.
Qed.

(** An invariant of the rows, in the session and in what is committed. *)
Definition both (I : db -> Prop) (s : session) : Prop := I s.(s_db) /\ I s.(s_committed).
Lemma both_commit (I : db -> Prop) : keeps (both I) commit.
Proof.
  intros s [Hs Hc]. unfold wp. destruct (commit s) as [r s'] eqn:Hr.
  destruct (commit_cases _ _ _ Hr) as [Hd Hcm]. unfold both.
  destruct r; rewrite Hd; destruct Hcm as [->| ->]; done.
Qed.
Lemma both_rollback (I : db -> Prop) : keeps (both I) rollback.
Proof. by intros s [_ Hc]. Qed.
Lemma both_write (I : db -> Prop) f : (forall d, I d -> I (f d)) -> keeps (both I) (write f).
Proof. intros Hf s [Hs Hc]. apply wp_write. split; [by apply Hf|done]. Qed.

(** * Concrete rows for evaluating the methods *)

Definition sample_reseller (id balance : Z) (pref : charge_preference)
    (policy : nonpayment_policy) : reseller :=
  mk_reseller id (100 + id) None None None (Some "cus_1") balance pref RS_ACTIVE
    policy false None None None.
Definition sample_user (id : Z) (username email : string) : user :=
  mk_user id username email None false true false None None None None None None.
Definition sample_db : db :=
  empty_db
    <|db_users := [sample_user 101 "ops" "ops@example.com";
                   sample_user 102 "two" "two@example.com"]|>
    <|db_resellers := [sample_reseller 1 0 CP_CREDIT_FIRST NP_BLOCK_NEW;
                       sample_reseller 2 0 CP_PAYMENT_FIRST NP_SUSPEND_ALL]|>.
Definition session_of (d : db) (now : Z) : session := mk_session d d now [] [] false.
