(* ===== verification/Ledger.v ===== *)
(** The reseller credit ledger: src/app/services/credit_ledger_service.py.

    Every method takes the row lock of one reseller, appends at most one entry
    and moves the cached balance by the same amount; commit and rollback belong
    to the caller.  Python's [type(amount_cents) is int] guard is the type of
    the argument here. *)
From Stdlib Require Import ZArith Lia.
From stdpp Require Import base numbers list strings pretty relations.
From S2P Require Import Prelude Models Session.
#[local] Open Scope Z_scope.
#[local] Open Scope py_scope.

(** * The service *)

(** [_LedgerEntryContext] *)
Record entry_context : Type := mk_entry_context {
  ctx_description : option string;
  ctx_invoice_id : option Z;
  ctx_payment_id : option Z;
  ctx_service_id : option Z;
  ctx_reversal_of_id : option Z;
  ctx_reference_type : option string;
  ctx_reference_id : option string;
  ctx_idempotency_key : option string;
  ctx_metadata : dict;
  ctx_created_by_user_id : option Z
}.
#[export] Instance eta_entry_context : Eta entry_context := fun c =>
  mk_entry_context c.(ctx_description) c.(ctx_invoice_id) c.(ctx_payment_id)
    c.(ctx_service_id) c.(ctx_reversal_of_id) c.(ctx_reference_type)
    c.(ctx_reference_id) c.(ctx_idempotency_key) c.(ctx_metadata)
    c.(ctx_created_by_user_id).
Definition no_context : entry_context :=
  mk_entry_context None None None None None None None None [] None.

Definition require_integer_cents (amount_cents : Z) (positive : bool)
  : Meth unit :=
  throw_if (positive && (amount_cents <=? 0))
    (CreditLedgerError "amount_cents must be greater than zero") ;;;
  throw_if (negb positive && (amount_cents =? 0))
    (CreditLedgerError "amount_cents must not be zero").

(** [ResellerDAO.get_for_update]; the lock itself serialises transactions and
    leaves no trace in the rows. *)
Definition lock_reseller (reseller_id : Z) : Meth reseller :=
  o <- read (fun d => tbl_get reseller_id d.(db_resellers)) ;;
  unwrap o (ResellerNotFoundError reseller_id).

Definition entries_with_key (key : string) (d : db) : list ledger_entry :=
  List.filter (fun e => e.(le_idempotency_key) == Some key) d.(db_ledger).

(** The stored entry differs from the requested operation. *)
Definition entry_mismatch (e : ledger_entry) (reseller_id : Z) (et : entry_type)
    (amount : Z) (reversal_of : option Z) : bool :=
  (e.(le_reseller_id) != reseller_id)
  || (e.(le_entry_type) != et)
  || (e.(le_amount_cents) != amount)
  || (e.(le_reversal_of_id) != reversal_of).

Definition new_entry (id : Z) (r : reseller) (et : entry_type) (amount : Z)
    (c : entry_context) : ledger_entry :=
  mk_ledger_entry id r.(rs_id) et amount (r.(rs_cached_balance_cents) + amount)
    c.(ctx_description) c.(ctx_invoice_id) c.(ctx_payment_id)
    c.(ctx_service_id) c.(ctx_reversal_of_id) c.(ctx_reference_type)
    c.(ctx_reference_id) c.(ctx_idempotency_key) c.(ctx_metadata)
    c.(ctx_created_by_user_id).

(** The balance assignment and the inserted row. *)
Definition post_entry (r : reseller) (et : entry_type) (amount : Z)
    (c : entry_context) (d : db) : db :=
  d <|db_resellers := tbl_update r.(rs_id)
        (fun x => x <|rs_cached_balance_cents :=
                       r.(rs_cached_balance_cents) + amount|>)
        d.(db_resellers)|>
    <|db_ledger := d.(db_ledger)
        ++ [new_entry (tbl_fresh d.(db_ledger)) r et amount c]|>.

Definition append_locked (r : reseller) (et : entry_type) (amount : Z)
    (c : entry_context) (allow_negative_balance : bool) : Meth ledger_entry :=
  existing <-
    match c.(ctx_idempotency_key) with
    | Some key =>
        rows <- read (entries_with_key key) ;;
        scalar_one_or_none MultipleResultsFound rows
    | None => ret None
    end ;;
  match existing with
  | Some e =>
      throw_if (entry_mismatch e r.(rs_id) et amount c.(ctx_reversal_of_id))
        (CreditLedgerError
           "idempotency_key is already used by a different ledger operation")
      ;;; ret e
  | None =>
      throw_if ((r.(rs_cached_balance_cents) + amount <? 0)
                && negb allow_negative_balance)
        (InsufficientCreditError r.(rs_id) r.(rs_cached_balance_cents) (- amount))
      ;;;
      t <- read db_ledger ;;
      write (post_entry r et amount c) ;;;
      flush ;;;
      ret (new_entry (tbl_fresh t) r et amount c)
  end.

Definition credit (reseller_id amount_cents : Z) (args : entry_context)
  : Meth ledger_entry :=
  require_integer_cents amount_cents true ;;;
  r <- lock_reseller reseller_id ;;
  append_locked r ET_TOPUP amount_cents
    (args <|ctx_reversal_of_id := None|>) false.

Definition debit (reseller_id amount_cents : Z) (args : entry_context)
    (allow_negative_balance : bool) : Meth ledger_entry :=
  require_integer_cents amount_cents true ;;;
  r <- lock_reseller reseller_id ;;
  append_locked r ET_CHARGE (- amount_cents)
    (args <|ctx_reversal_of_id := None|>) allow_negative_balance.

Definition adjust (reseller_id amount_cents : Z) (args : entry_context)
  : Meth ledger_entry :=
  require_integer_cents amount_cents false ;;;
  r <- lock_reseller reseller_id ;;
  append_locked r ET_ADJUSTMENT amount_cents
    (args <|ctx_reversal_of_id := None|> <|ctx_invoice_id := None|>
          <|ctx_payment_id := None|> <|ctx_service_id := None|>) false.

Definition reversals_of (entry_id : Z) (d : db) : list ledger_entry :=
  List.filter (fun e => e.(le_reversal_of_id) == Some entry_id) d.(db_ledger).

Definition reversal_context (original : ledger_entry)
    (description idempotency_key : option string) (metadata : dict)
    (created_by : option Z) : entry_context :=
  mk_entry_context
    (Some (str_or description
             ("Reversal of ledger entry " +:+ pretty original.(le_id))))
    original.(le_invoice_id) original.(le_payment_id) original.(le_service_id)
    (Some original.(le_id)) original.(le_reference_type)
    original.(le_reference_id) idempotency_key metadata created_by.

Definition reverse (reseller_id entry_id : Z)
    (description idempotency_key : option string) (metadata : dict)
    (created_by : option Z) : Meth ledger_entry :=
  r <- lock_reseller reseller_id ;;
  original <- read (fun d =>
    match tbl_get entry_id d.(db_ledger) with
    | Some e => if e.(le_reseller_id) == reseller_id then Some e else None
    | None => None
    end) ;;
  match original with
  | None => raise (CreditLedgerError "Ledger entry was not found for reseller")
  | Some o =>
      throw_if (o.(le_entry_type) == ET_REVERSAL)
        (CreditLedgerError "A reversal entry cannot itself be reversed") ;;;
      rows <- read (reversals_of o.(le_id)) ;;
      existing <- scalar_one_or_none MultipleResultsFound rows ;;
      match existing with
      | Some x =>
          if match idempotency_key with
             | Some _ => x.(le_idempotency_key) == idempotency_key
             | None => false
             end
          then ret x
          else raise (LedgerEntryAlreadyReversedError entry_id)
      | None =>
          append_locked r ET_REVERSAL (- o.(le_amount_cents))
            (reversal_context o description idempotency_key metadata created_by)
            true
      end
  end.

(** The four public operations, as values. *)
Inductive ledger_op : Type :=
| OpCredit (reseller_id amount_cents : Z) (args : entry_context)
| OpDebit (reseller_id amount_cents : Z) (args : entry_context)
    (allow_negative_balance : bool)
| OpAdjust (reseller_id amount_cents : Z) (args : entry_context)
| OpReverse (reseller_id entry_id : Z)
    (description idempotency_key : option string) (metadata : dict)
    (created_by : option Z).

Definition run_op (o : ledger_op) : Meth ledger_entry :=
  match o with
  | OpCredit r n a => credit r n a
  | OpDebit r n a neg => debit r n a neg
  | OpAdjust r n a => adjust r n a
  | OpReverse r e d k m u => reverse r e d k m u
  end.

(** What callers do with a session: ledger operations, successful or not, in
    any order, between commits and rollbacks. *)
Inductive ledger_step : session -> session -> Prop :=
| LS_op o r s s' : run_op o s = (r, s') -> ledger_step s s'
| LS_commit r s s' : commit s = (r, s') -> ledger_step s s'
| LS_rollback r s s' : rollback s = (r, s') -> ledger_step s s'.

(** * What the ledger promises *)

Definition balance_of (reseller_id : Z) (t : list ledger_entry) : Z :=
  tbl_sum (fun e => e.(le_reseller_id) =? reseller_id) le_amount_cents t.
Arguments balance_of : simpl never.

(** Each entry records the running balance of its reseller. *)
Definition running_balances (t : list ledger_entry) : Prop :=
  forall before e after, t = before ++ e :: after ->
  e.(le_balance_after_cents) = balance_of e.(le_reseller_id) (before ++ [e]).

(** A reversal names an earlier entry of the same reseller, is its exact
    opposite, and is not the reversal of a reversal. *)
Definition reversals_match (t : list ledger_entry) : Prop :=
  forall x, In x t ->
  match x.(le_reversal_of_id) with
  | None => x.(le_entry_type) <> ET_REVERSAL
  | Some k =>
      x.(le_entry_type) = ET_REVERSAL /\
      exists o, In o t /\ o.(le_id) = k /\
        o.(le_reseller_id) = x.(le_reseller_id) /\
        o.(le_entry_type) <> ET_REVERSAL /\
        x.(le_amount_cents) = - o.(le_amount_cents)
  end.

Record ledger_ok (owners : list reseller) (t : list ledger_entry) : Prop :=
  mk_ledger_ok {
    li_resellers : tbl_wf owners;
    li_entries : tbl_wf t;
    li_balance : forall r, In r owners ->
      r.(rs_cached_balance_cents) = balance_of r.(rs_id) t;
    li_running : running_balances t;
    li_reversals : reversals_match t
  }.
Definition ledger_inv (d : db) : Prop := ledger_ok d.(db_resellers) d.(db_ledger).

(** ** How [append_locked] behaves on each branch *)

Lemma append_locked_eq r et amount c neg s :
  append_locked r et amount c neg s =
  match match c.(ctx_idempotency_key) with
        | Some key => entries_with_key key s.(s_db)
        | None => []
        end with
  | [] =>
      if (r.(rs_cached_balance_cents) + amount <? 0) && negb neg
      then (Raise (InsufficientCreditError r.(rs_id)
                     r.(rs_cached_balance_cents) (- amount)), s)
      else
        let s' := s <|s_db := post_entry r et amount c s.(s_db)|> in
        match flush s' with
        | (Ok _, _) =>
            (Ok (new_entry (tbl_fresh s.(s_db).(db_ledger)) r et amount c), s')
        | (Raise e, _) => (Raise e, s')
        end
  | [e] =>
      if entry_mismatch e r.(rs_id) et amount c.(ctx_reversal_of_id)
      then (Raise (CreditLedgerError
             "idempotency_key is already used by a different ledger operation"), s)
      else (Ok e, s)
  | _ => (Raise MultipleResultsFound, s)
  end.
Proof.
  assert (forall (s0 : session) (x : ledger_entry),
    (flush ;;; ret x) s0
    = match flush s0 with
      | (Ok _, _) => (Ok x, s0)
      | (Raise e, _) => (Raise e, s0)
      end) as Hflush.
  { intros s0 x. unfold bind, flush.
    destruct (negb _); [done|]. by destruct (constraints _). }
  unfold append_locked.
  destruct (ctx_idempotency_key c) as [key|]; unfold bind at 1, bind at 1.
  - unfold read at 1, gets at 1.
    destruct (entries_with_key key (s_db s)) as [|e [|e' l]]; cbn -[flush].
    + unfold throw_if. destruct (_ && negb neg); [done|].
      unfold bind, ret, read, gets, write, modify. cbn -[flush].
      apply Hflush.
    + unfold throw_if, bind. by destruct (entry_mismatch _ _ _ _ _).
    + done.
  - cbn -[flush]. unfold throw_if. destruct (_ && negb neg); [done|].
    unfold bind, ret, read, gets, write, modify. cbn -[flush]. apply Hflush.
Qed.

(** ** Posting an entry keeps the invariant *)

(** What the context says about reversals is consistent with the rows. *)
Definition reversal_ok (r : reseller) (et : entry_type) (amount : Z)
    (c : entry_context) (t : list ledger_entry) : Prop :=
  match c.(ctx_reversal_of_id) with
  | None => et <> ET_REVERSAL
  | Some k =>
      et = ET_REVERSAL /\
      exists o, In o t /\ o.(le_id) = k /\ o.(le_reseller_id) = r.(rs_id) /\
        o.(le_entry_type) <> ET_REVERSAL /\ amount = - o.(le_amount_cents)
  end.

Lemma balance_of_snoc k t e :
  balance_of k (t ++ [e])
  = balance_of k t + (if e.(le_reseller_id) =? k then e.(le_amount_cents) else 0).
Proof. unfold balance_of. by rewrite tbl_sum_app, tbl_sum_one. Qed.

Lemma running_balances_snoc t e :
  running_balances t ->
  e.(le_balance_after_cents) = balance_of e.(le_reseller_id) (t ++ [e]) ->
  running_balances (t ++ [e]).
Proof.
  intros Ht He before x after Heq.
  destruct (decide (after = [])) as [->|Hne].
  - apply app_inj_tail in Heq as [-> ->]. done.
  - destruct (exists_last Hne) as (after' & y & ->).
    rewrite app_comm_cons, app_assoc in Heq.
    apply app_inj_tail in Heq as [-> ->]. by eapply Ht.
Qed.

Lemma reversals_match_snoc t e :
  reversals_match t ->
  match e.(le_reversal_of_id) with
  | None => e.(le_entry_type) <> ET_REVERSAL
  | Some k => e.(le_entry_type) = ET_REVERSAL /\
      exists o, In o t /\ o.(le_id) = k /\
        o.(le_reseller_id) = e.(le_reseller_id) /\
        o.(le_entry_type) <> ET_REVERSAL /\
        e.(le_amount_cents) = - o.(le_amount_cents)
  end ->
  reversals_match (t ++ [e]).
Proof.
  intros Ht He x Hx. apply in_app_or in Hx as [Hx|[<-|[]]].
  - specialize (Ht x Hx). destruct (le_reversal_of_id x); [|done].
    destruct Ht as (? & o & ? & ?). split; [done|]. exists o.
    split; [apply in_or_app; by left|done].
  - destruct (le_reversal_of_id e); [|done].
    destruct He as (? & o & ? & ?). split; [done|]. exists o.
    split; [apply in_or_app; by left|done].
Qed.

Lemma post_entry_inv r et amount c d :
  ledger_inv d -> tbl_get r.(rs_id) d.(db_resellers) = Some r ->
  reversal_ok r et amount c d.(db_ledger) ->
  ledger_inv (post_entry r et amount c d).
Proof.
  intros [Hr He Hb Hrun Hrev] Hget Hok.
  assert (In r d.(db_resellers)) as Hin by (by eapply tbl_get_In).
  constructor; cbn.
  - by apply (tbl_wf_update (R := reseller)).
  - by apply (tbl_wf_snoc (R := ledger_entry)).
  - intros x Hx. apply tbl_update_In in Hx as (x0 & Hx0 & Hx).
    rewrite balance_of_snoc. cbn.
    change (row_key x0) with (rs_id x0) in Hx.
    destruct Hx as [[Hk ->]|[Hk ->]].
    + rewrite (Hb x0 Hx0). destruct (Z.eqb_spec (rs_id r) (rs_id x0)); lia.
    + cbn. rewrite Hk, Z.eqb_refl, (Hb r Hin). lia.
  - apply running_balances_snoc; [done|]. cbn.
    rewrite balance_of_snoc. cbn. rewrite Z.eqb_refl, (Hb r Hin). lia.
  - by apply reversals_match_snoc.
Qed.

(** ** The operations keep it *)

Lemma append_locked_inv r et amount c neg s :
  ledger_inv s.(s_db) -> tbl_get r.(rs_id) s.(s_db).(db_resellers) = Some r ->
  reversal_ok r et amount c s.(s_db).(db_ledger) ->
  wp (append_locked r et amount c neg)
    (fun _ s' => ledger_inv s'.(s_db)) (fun _ s' => ledger_inv s'.(s_db)) s.
Proof.
  intros Hinv Hr Hok. unfold wp. rewrite append_locked_eq.
  destruct (match ctx_idempotency_key c with Some _ => _ | None => _ end)
    as [|e [|e' l]].
  - destruct (_ && negb neg); [done|]. cbv zeta.
    destruct (flush _) as [[u|x] ?]; by apply post_entry_inv.
  - by destruct (entry_mismatch _ _ _ _ _).
  - done.
Qed.

Lemma lock_reseller_wp k Q R s :
  (tbl_get k s.(s_db).(db_resellers) = None -> R (ResellerNotFoundError k) s) ->
  (forall r, tbl_get k s.(s_db).(db_resellers) = Some r ->
     tbl_get r.(rs_id) s.(s_db).(db_resellers) = Some r -> Q r s) ->
  wp (lock_reseller k) Q R s.
Proof.
  intros HR HQ. unfold lock_reseller. repeat sess_step; [by apply HR|].
  apply HQ; [done|]. by rewrite <- (tbl_get_key _ _ _ Hsome) in Hsome.
Qed.

Lemma require_integer_cents_wp n b (Q : unit -> session -> Prop) R s :
  (forall e, R (CreditLedgerError e) s) -> Q tt s ->
  wp (require_integer_cents n b) Q R s.
Proof. intros HR HQ. unfold require_integer_cents. repeat wp_step; auto. Qed.

Lemma credit_inv k n a : keeps_db ledger_inv (credit k n a).
Proof.
  intros s Hs. unfold credit. wp_step. apply require_integer_cents_wp; [done|].
  wp_step. apply lock_reseller_wp; [done|]. intros r _ Hr.
  by apply append_locked_inv.
Qed.

Lemma debit_inv k n a neg : keeps_db ledger_inv (debit k n a neg).
Proof.
  intros s Hs. unfold debit. wp_step. apply require_integer_cents_wp; [done|].
  wp_step. apply lock_reseller_wp; [done|]. intros r _ Hr.
  by apply append_locked_inv.
Qed.

Lemma adjust_inv k n a : keeps_db ledger_inv (adjust k n a).
Proof.
  intros s Hs. unfold adjust. wp_step. apply require_integer_cents_wp; [done|].
  wp_step. apply lock_reseller_wp; [done|]. intros r _ Hr.
  by apply append_locked_inv.
Qed.

Lemma reverse_inv k e dsc key m u : keeps_db ledger_inv (reverse k e dsc key m u).
Proof.
  intros s Hs. unfold reverse. wp_step. apply lock_reseller_wp; [done|].
  intros r Hk Hr. wp_step. apply wp_read.
  destruct (tbl_get e _) as [o|] eqn:Ho; [|by apply wp_raise].
  destruct (py_eq_spec (le_reseller_id o) k) as [Hres|]; [|by apply wp_raise].
  wp_step. wp_step; [done|]. wp_step. apply wp_read. wp_step.
  destruct (reversals_of _ _) as [|x [|y l]]; cbn [scalar_one_or_none];
    [ | | by apply wp_raise]; apply wp_ret.
  - apply append_locked_inv; [done..|]. cbn. split; [done|]. exists o.
    apply py_eq_false in Hguard.
    split; [by eapply tbl_get_In|]. repeat split; [|done].
    rewrite Hres. symmetry. apply (tbl_get_key _ _ _ Hk).
  - destruct (match key with Some _ => _ | None => _ end);
      [by apply wp_ret | by apply wp_raise].
Qed.

#[export] Hint Resolve credit_inv debit_inv adjust_inv reverse_inv : dcim.

Lemma run_op_inv o : keeps_db ledger_inv (run_op o).
Proof. destruct o; cbn; auto with dcim. Qed.

(** The invariant of a session: on the running transaction and on what a
    rollback would return to. *)
Definition session_inv (s : session) : Prop :=
  ledger_inv s.(s_db) /\ ledger_inv s.(s_committed).

Lemma run_op_committed d o : keeps (committed_is d) (run_op o).
Proof.
  destruct o; cbn; unfold credit, debit, adjust, reverse, append_locked,
    require_integer_cents, lock_reseller; keeps_tac.
Qed.

Lemma ledger_step_inv s s' : ledger_step s s' -> session_inv s -> session_inv s'.
Proof.
  intros Hstep [Hd Hc]. destruct Hstep as [o r s s' Ho|r s s' H|r s s' H].
  - split; [by eapply (keeps_run _ _ _ _ _ (run_op_inv o))|].
    rewrite (keeps_run _ _ _ _ _ (run_op_committed s.(s_committed) o) Ho eq_refl).
    done.
  - apply commit_cases in H as [Hdb Hcm]. unfold session_inv.
    rewrite Hdb. by destruct Hcm as [-> | ->].
  - injection H as <- <-. by split.
Qed.

(** * Properties *)

(** C1. In every session reachable by ledger operations (successful or
    rejected), commits and rollbacks, each reseller's cached balance is the sum
    of its ledger entries, each entry records the running balance at its
    insertion, and each reversal is the exact opposite of one earlier entry of
    the same reseller that is not itself a reversal. *)
Theorem ledger_sound_when_reachable s s' :
  rtc ledger_step s s' -> ledger_inv s.(s_db) -> ledger_inv s.(s_committed) ->
  ledger_inv s'.(s_db) /\ ledger_inv s'.(s_committed).
Proof.
  intros Hsteps Hd Hc. assert (session_inv s) as Hs by done. clear Hd Hc.
  induction Hsteps as [s|s t u Hst _ IH]; [done|].
  apply IH. by eapply ledger_step_inv.
Qed.

Lemma ledger_inv_no_entries d :
  d.(db_ledger) = [] -> tbl_wf d.(db_resellers) ->
  (forall r, In r d.(db_resellers) -> r.(rs_cached_balance_cents) = 0) ->
  ledger_inv d.
Proof.
  intros Hl Hr Hb. constructor; rewrite ?Hl; [done|constructor| |..].
  - intros r Hin. by rewrite (Hb r Hin).
  - intros before e after Heq. by destruct before.
  - by intros x [].
Qed.

Lemma sample_db_inv : ledger_inv sample_db.
Proof.
  apply ledger_inv_no_entries; [done| |].
  - repeat constructor; cbn; intuition lia.
  - intros r [<-|[<-|[]]]; done.
Qed.

Definition witness_args (key : string) : entry_context :=
  no_context <|ctx_idempotency_key := Some key|>.
Definition witness_session : session := session_of sample_db 0.

Lemma ledger_sound_when_reachable_witness :
  let s1 := (run_op (OpCredit 1 500 (witness_args "a")) witness_session).2 in
  let s2 := (run_op (OpReverse 1 1 None None [] None) s1).2 in
  let s3 := (commit s2).2 in
  ledger_inv s3.(s_db) /\ ledger_inv s3.(s_committed)
  /\ map le_amount_cents s3.(s_committed).(db_ledger) = [500; -500].
Proof.
  intros s1 s2 s3.
  pose proof (ledger_sound_when_reachable witness_session s3) as H.
  destruct H as [H1 H2]; [|apply sample_db_inv|apply sample_db_inv|].
  - eapply rtc_l; [eapply LS_op; apply surjective_pairing|].
    eapply rtc_l; [eapply LS_op; apply surjective_pairing|].
    eapply rtc_l; [eapply LS_commit; apply surjective_pairing|]. apply rtc_refl.
  - split; [exact H1|split; [exact H2|reflexivity]].
Defined.

Lemma entries_with_key_snoc key d r et amount c :
  entries_with_key key (post_entry r et amount c d)
  = entries_with_key key d
    ++ (if c.(ctx_idempotency_key) == Some key
        then [new_entry (tbl_fresh d.(db_ledger)) r et amount c] else []).
Proof.
  unfold entries_with_key. cbn. rewrite List.filter_app. cbn.
  by destruct (_ == _).
Qed.

Definition fresh_key (c : entry_context) (s : session) : Prop :=
  match c.(ctx_idempotency_key) with
  | Some key => entries_with_key key s.(s_db) = []
  | None => True
  end.

Lemma append_locked_fresh r et amount c neg s :
  fresh_key c s ->
  append_locked r et amount c neg s =
  if (r.(rs_cached_balance_cents) + amount <? 0) && negb neg
  then (Raise (InsufficientCreditError r.(rs_id)
                 r.(rs_cached_balance_cents) (- amount)), s)
  else
    let s' := s <|s_db := post_entry r et amount c s.(s_db)|> in
    match flush s' with
    | (Ok _, _) =>
        (Ok (new_entry (tbl_fresh s.(s_db).(db_ledger)) r et amount c), s')
    | (Raise e, _) => (Raise e, s')
    end.
Proof.
  intros Hf. rewrite append_locked_eq. unfold fresh_key in Hf.
  destruct (ctx_idempotency_key c); [by rewrite Hf|done].
Qed.

Lemma lock_reseller_eq k s r :
  tbl_get k s.(s_db).(db_resellers) = Some r -> lock_reseller k s = (Ok r, s).
Proof. intros H. unfold lock_reseller, bind, read, gets. by rewrite H. Qed.

Lemma require_positive_eq n s :
  0 < n -> require_integer_cents n true s = (Ok tt, s).
Proof.
  intros H. unfold require_integer_cents. cbn [andb negb].
  assert ((n <=? 0) = false) as -> by lia. done.
Qed.

(** The two outcomes of an append that is neither a replay nor rejected. *)
Definition post_result (r : reseller) (et : entry_type) (amount : Z)
    (c : entry_context) (s : session) : outcome exn ledger_entry * session :=
  let s' := s <|s_db := post_entry r et amount c s.(s_db)|> in
  match flush s' with
  | (Ok _, _) =>
      (Ok (new_entry (tbl_fresh s.(s_db).(db_ledger)) r et amount c), s')
  | (Raise e, _) => (Raise e, s')
  end.

Lemma debit_eq k n args neg s r :
  tbl_get k s.(s_db).(db_resellers) = Some r -> 0 < n -> fresh_key args s ->
  debit k n args neg s =
  if (r.(rs_cached_balance_cents) - n <? 0) && negb neg
  then (Raise (InsufficientCreditError k r.(rs_cached_balance_cents) n), s)
  else post_result r ET_CHARGE (- n) (args <|ctx_reversal_of_id := None|>) s.
Proof.
  intros Hr Hn Hf. unfold debit, bind.
  rewrite require_positive_eq, (lock_reseller_eq k s r) by done.
  rewrite append_locked_fresh by done.
  assert (rs_id r = k) as -> by (by apply tbl_get_key in Hr).
  rewrite Z.opp_involutive, Z.add_opp_r. done.
Qed.

(** A debit that is not allowed to overdraw either finds too little credit,
    raises [InsufficientCreditError] with the exact figures and leaves the
    session untouched, or there is enough: the balance falls by exactly the
    amount, stays non-negative, one charge entry is appended, no other reseller
    changes, and the caller gets that entry unless the database refuses it. *)
Theorem debit_never_overdraws k n args s r :
  tbl_get k s.(s_db).(db_resellers) = Some r -> 0 < n -> fresh_key args s ->
  let b := r.(rs_cached_balance_cents) in
  let (res, s') := debit k n args false s in
  (b < n /\ res = Raise (InsufficientCreditError k b n) /\ s' = s) \/
  (0 <= b - n /\
   tbl_get k s'.(s_db).(db_resellers)
     = Some (r <|rs_cached_balance_cents := b - n|>) /\
   (forall k', k' <> k -> tbl_get k' s'.(s_db).(db_resellers)
                          = tbl_get k' s.(s_db).(db_resellers)) /\
   exists e, s'.(s_db).(db_ledger) = s.(s_db).(db_ledger) ++ [e] /\
     e.(le_reseller_id) = k /\ e.(le_entry_type) = ET_CHARGE /\
     e.(le_amount_cents) = - n /\ e.(le_balance_after_cents) = b - n /\
     (res = Ok e \/ res = Raise DataError \/ res = Raise IntegrityError)).
Proof.
  intros Hr Hn Hf b. rewrite (debit_eq k n args false s r) by done. fold b.
  assert (rs_id r = k) as <- by (by apply tbl_get_key in Hr).
  destruct (b - n <? 0) eqn:E; cbn [andb negb].
  { cbv iota beta. left. repeat split. lia. }
  unfold post_result. set (s1 := s <|s_db := _|>).
  set (e := new_entry _ _ _ _ _).
  assert (forall res, res = Ok e \/ res = Raise DataError
                      \/ res = Raise IntegrityError ->
    0 <= b - n /\
    tbl_get (rs_id r) s1.(s_db).(db_resellers)
      = Some (r <|rs_cached_balance_cents := b - n|>) /\
    (forall k', k' <> rs_id r -> tbl_get k' s1.(s_db).(db_resellers)
                           = tbl_get k' s.(s_db).(db_resellers)) /\
    exists x, s1.(s_db).(db_ledger) = s.(s_db).(db_ledger) ++ [x] /\
      x.(le_reseller_id) = rs_id r /\ x.(le_entry_type) = ET_CHARGE /\
      x.(le_amount_cents) = - n /\ x.(le_balance_after_cents) = b - n /\
      (res = Ok x \/ res = Raise DataError \/ res = Raise IntegrityError))
    as Hpost.
  { intros res Hres. split; [lia|]. split.
    { subst s1; cbn. by rewrite (tbl_get_update_eq _ _ _ r). }
    split.
    { intros k' Hne. by apply tbl_get_update_ne. }
    exists e. by repeat split. }
  destruct (flush_cases s1) as [->|[->| ->]]; cbv iota beta; right;
    apply Hpost; auto.
Qed.

Lemma debit_never_overdraws_witness :
  let s := (credit 1 500 (witness_args "top-up") witness_session).2 in
  (debit 1 700 (witness_args "a") false s).1
    = Raise (InsufficientCreditError 1 500 700)
  /\ tbl_get 1 (debit 1 300 (witness_args "b") false s).2.(s_db).(db_resellers)
    = Some (sample_reseller 1 200 CP_CREDIT_FIRST NP_BLOCK_NEW).
Proof.
  intros s.
  pose proof (debit_never_overdraws 1 300 (witness_args "b") s
    (sample_reseller 1 500 CP_CREDIT_FIRST NP_BLOCK_NEW)
    eq_refl eq_refl eq_refl) as H.
  cbv zeta in H.
  destruct (debit 1 300 (witness_args "b") false s) as [res s'] eqn:E.
  destruct H as [[H _]|(_ & H & _)]; [exfalso; vm_compute in H; discriminate|].
  split; [vm_compute; reflexivity|exact H].
Defined.

(** The key under which an operation is deduplicated. *)
Definition op_key (o : ledger_op) : option string :=
  match o with
  | OpCredit _ _ a | OpDebit _ _ a _ | OpAdjust _ _ a => a.(ctx_idempotency_key)
  | OpReverse _ _ _ key _ _ => key
  end.

(** After a successful append under a key, the same append finds its entry. *)
Lemma append_locked_replay r r' et amount c neg key s e s' :
  c.(ctx_idempotency_key) = Some key ->
  append_locked r et amount c neg s = (Ok e, s') ->
  rs_id r' = rs_id r ->
  append_locked r' et amount c neg s' = (Ok e, s').
Proof.
  intros Hkey Hrun Hid. rewrite append_locked_eq in Hrun |- *.
  rewrite Hkey in Hrun |- *.
  destruct (entries_with_key key (s_db s)) as [|x [|y l]] eqn:Hent; [| |done].
  - destruct (_ && negb neg); [done|]. cbv zeta in Hrun.
    destruct (flush _) as [[[]|err] sf]; [|done]. injection Hrun as <- <-.
    cbn [s_db]. rewrite entries_with_key_snoc, Hent, Hkey, py_eq_refl.
    cbn [app]. unfold entry_mismatch. cbn. by rewrite Hid, !py_eq_refl.
  - destruct (entry_mismatch x _ _ _ _) eqn:Hm; [done|].
    injection Hrun as <- <-. by rewrite Hent, Hid, Hm.
Qed.

Lemma append_locked_reseller r et amount c neg s res s' k x :
  append_locked r et amount c neg s = (res, s') ->
  tbl_get k s.(s_db).(db_resellers) = Some x ->
  exists x', tbl_get k s'.(s_db).(db_resellers) = Some x' /\ rs_id x' = rs_id x.
Proof.
  rewrite append_locked_eq. intros Hrun Hx.
  assert (s' = s \/ s' = s <|s_db := post_entry r et amount c s.(s_db)|>) as Hs'.
  { destruct (match ctx_idempotency_key c with Some _ => _ | None => _ end)
      as [|e [|e' l]].
    - destruct (_ && negb neg); [injection Hrun; auto|]. cbv zeta in Hrun.
      destruct (flush _) as [[[]|err] sf]; injection Hrun; auto.
    - destruct (entry_mismatch _ _ _ _ _); injection Hrun; auto.
    - injection Hrun; auto. }
  destruct Hs' as [->| ->]; [by exists x|]. cbn.
  destruct (decide (rs_id r = k)) as [<-|Hne].
  - eexists. split; [by apply tbl_get_update_eq|done].
  - exists x. by rewrite tbl_get_update_ne.
Qed.

Lemma require_integer_cents_eq n b s s' :
  require_integer_cents n b s = (Ok tt, s) ->
  require_integer_cents n b s' = (Ok tt, s').
Proof.
  unfold require_integer_cents, bind, throw_if.
  destruct (b && _); [done|]. by destruct (negb b && _).
Qed.

Lemma require_integer_cents_cases n b s :
  require_integer_cents n b s = (Ok tt, s) \/
  exists e, require_integer_cents n b s = (Raise e, s).
Proof.
  unfold require_integer_cents, bind, throw_if.
  destruct (b && _); [eauto|]. destruct (negb b && _); cbn; eauto.
Qed.

Lemma lock_reseller_inv k s r s' :
  lock_reseller k s = (Ok r, s') ->
  s' = s /\ tbl_get k s.(s_db).(db_resellers) = Some r.
Proof.
  unfold lock_reseller, bind, read, gets.
  destruct (tbl_get k _); cbn; [|done]. by intros [= <- <-].
Qed.

(** A guarded append, the shape of [credit], [debit] and [adjust]. *)
Lemma guarded_append_replay k n b et amount c neg key s e s' :
  c.(ctx_idempotency_key) = Some key ->
  (require_integer_cents n b ;;;
   r <- lock_reseller k ;; append_locked r et amount c neg) s = (Ok e, s') ->
  (require_integer_cents n b ;;;
   r <- lock_reseller k ;; append_locked r et amount c neg) s' = (Ok e, s').
Proof.
  intros Hkey. unfold bind at 1 3.
  destruct (require_integer_cents_cases n b s) as [Hg|[x Hg]]; rewrite Hg; [|done].
  rewrite (require_integer_cents_eq _ _ _ s' Hg). unfold bind.
  destruct (lock_reseller k s) as [[r|x] s1] eqn:Hl; [|done].
  apply lock_reseller_inv in Hl as [-> Hr]. intros Hrun.
  destruct (append_locked_reseller _ _ _ _ _ _ _ _ _ _ Hrun Hr) as (r' & Hr' & Hid).
  rewrite (lock_reseller_eq _ _ _ Hr').
  by eapply append_locked_replay.
Qed.

(** [reverse] once its guards are passed. *)
Definition reverse_body (r : reseller) (o : ledger_entry) (entry_id : Z)
    (dsc key : option string) (m : dict) (u : option Z) : Meth ledger_entry :=
  rows <- read (reversals_of o.(le_id)) ;;
  existing <- scalar_one_or_none MultipleResultsFound rows ;;
  match existing with
  | Some x =>
      if match key with
         | Some _ => x.(le_idempotency_key) == key
         | None => false
         end
      then ret x
      else raise (LedgerEntryAlreadyReversedError entry_id)
  | None =>
      append_locked r ET_REVERSAL (- o.(le_amount_cents))
        (reversal_context o dsc key m u) true
  end.

Definition reversible (k eid : Z) (s : session) (r : reseller)
    (o : ledger_entry) : Prop :=
  tbl_get k s.(s_db).(db_resellers) = Some r /\
  tbl_get eid s.(s_db).(db_ledger) = Some o /\
  o.(le_reseller_id) = k /\ o.(le_entry_type) <> ET_REVERSAL.

Lemma reverse_eq k eid dsc key m u s r o :
  reversible k eid s r o ->
  reverse k eid dsc key m u s = reverse_body r o eid dsc key m u s.
Proof.
  intros (Hr & Ho & Hk & Ht). unfold reverse, bind at 1.
  rewrite (lock_reseller_eq _ _ _ Hr). unfold bind at 1, read at 1, gets at 1.
  rewrite Ho. assert ((le_reseller_id o == k) = true) as -> by (by apply py_eq_true).
  assert ((le_entry_type o == ET_REVERSAL) = false) as -> by (by apply py_eq_false).
  done.
Qed.

Lemma reverse_ok_inv k eid dsc key m u s x s' :
  reverse k eid dsc key m u s = (Ok x, s') ->
  exists r o, reversible k eid s r o.
Proof.
  unfold reverse, bind at 1.
  destruct (lock_reseller k s) as [[r|y] s1] eqn:Hl; [|done].
  apply lock_reseller_inv in Hl as [-> Hr]. unfold bind at 1, read at 1, gets at 1.
  destruct (tbl_get eid _) as [o|] eqn:Ho; [|done].
  destruct (py_eq_spec (le_reseller_id o) k) as [Hk|]; [|done].
  unfold bind at 1, throw_if.
  destruct (py_eq_spec (le_entry_type o) ET_REVERSAL); [done|].
  intros _. exists r, o. done.
Qed.

Lemma reversals_of_post k r et amount c d :
  reversals_of k (post_entry r et amount c d)
  = reversals_of k d
    ++ (if c.(ctx_reversal_of_id) == Some k
        then [new_entry (tbl_fresh d.(db_ledger)) r et amount c] else []).
Proof.
  unfold reversals_of. cbn. rewrite List.filter_app. cbn. by destruct (_ == _).
Qed.

(** What a successful reversal leaves behind. *)
Lemma reverse_body_ok r o k eid dsc key m u s x s' :
  reversible k eid s r o ->
  reverse_body r o eid dsc key m u s = (Ok x, s') ->
  reversals_of eid s'.(s_db) = [x] /\ (exists r', reversible k eid s' r' o) /\
  ((s' = s /\ key <> None /\ x.(le_idempotency_key) = key) \/
   (x = new_entry (tbl_fresh s.(s_db).(db_ledger)) r ET_REVERSAL
          (- o.(le_amount_cents)) (reversal_context o dsc key m u) /\
    s' = s <|s_db := post_entry r ET_REVERSAL (- o.(le_amount_cents))
                       (reversal_context o dsc key m u) s.(s_db)|>)).
Proof.
  intros Hrev Hrun. destruct Hrev as (Hr & Ho & Hk & Ht).
  assert (le_id o = eid) as Hid by (by apply tbl_get_key in Ho).
  unfold reverse_body, bind, read, gets in Hrun. rewrite Hid in Hrun.
  destruct (reversals_of eid (s_db s)) as [|y [|z l]] eqn:Hrows; cbn in Hrun; [| |done].
  - rewrite append_locked_eq in Hrun. cbn [ctx_idempotency_key reversal_context] in Hrun.
    destruct (match key with Some _ => _ | None => _ end) as [|y [|z l]] eqn:Hent.
    + rewrite andb_false_r in Hrun. cbv zeta in Hrun.
      destruct (flush _) as [[[]|err] sf]; [|done]. injection Hrun as <- <-.
      cbn [s_db]. rewrite reversals_of_post, Hrows. cbn [app reversal_context
        ctx_reversal_of_id]. rewrite Hid, py_eq_refl. split; [done|]. split.
      * destruct (decide (rs_id r = k)) as [<-|Hne];
          [|by apply tbl_get_key in Hr].
        eexists. split; [by apply tbl_get_update_eq|]. split.
        { cbn [s_db post_entry db_ledger update]. by rewrite tbl_get_app, Ho. }
        done.
      * by right.
    + destruct (entry_mismatch y _ _ _ _) eqn:Hm; [done|].
      exfalso. unfold entry_mismatch in Hm. cbn in Hm.
      rewrite !orb_false_iff, !negb_false_iff, !py_eq_true in Hm.
      destruct key as [key|]; [|done].
      assert (In y (reversals_of eid (s_db s))) as Hin.
      { apply filter_In. split; [|apply py_eq_true; rewrite <- Hid; apply Hm].
        assert (In y (entries_with_key key (s_db s))) as Hy by (rewrite Hent; by left).
        by apply filter_In in Hy as [Hy _]. }
      by rewrite Hrows in Hin.
    + done.
  - destruct key as [key|]; [|done].
    destruct (py_eq_spec (le_idempotency_key y) (Some key)) as [Hkey|]; [|done].
    injection Hrun as <- <-. split; [done|]. split; [by exists r|]. by left.
Qed.

(** Idempotency: when an operation under a key has succeeded, issuing the
    identical operation again returns the same entry and changes nothing, for
    each of the four public operations. *)
Theorem replay_returns_same_entry o key s e s' :
  op_key o = Some key -> run_op o s = (Ok e, s') -> run_op o s' = (Ok e, s').
Proof.
  destruct o as [k n a|k n a neg|k n a|k eid dsc key' m u]; cbn [op_key run_op];
    intros Hkey Hrun.
  - by apply (guarded_append_replay k n true ET_TOPUP n _ false key s).
  - by apply (guarded_append_replay k n true ET_CHARGE (- n) _ neg key s).
  - by apply (guarded_append_replay k n false ET_ADJUSTMENT n _ false key s).
  - destruct (reverse_ok_inv _ _ _ _ _ _ _ _ _ Hrun) as (r & o & Hrev).
    rewrite (reverse_eq _ _ _ _ _ _ _ _ _ Hrev) in Hrun.
    destruct (reverse_body_ok _ _ _ _ _ _ _ _ _ _ _ Hrev Hrun)
      as (Hrows & [r' Hrev'] & Hcase).
    rewrite (reverse_eq _ _ _ _ _ _ _ _ _ Hrev').
    assert (le_id o = eid) as Hid
      by (destruct Hrev as (_ & Ho & _); by apply tbl_get_key in Ho).
    unfold reverse_body, bind, read, gets. rewrite Hid, Hrows. cbn.
    assert (le_idempotency_key e = key') as ->
      by (by destruct Hcase as [(_ & _ & ?)|[-> _]]).
    rewrite Hkey, py_eq_refl. done.
Qed.

Lemma replay_returns_same_entry_witness :
  exists e s', run_op (OpCredit 1 500 (witness_args "k")) witness_session = (Ok e, s')
    /\ run_op (OpCredit 1 500 (witness_args "k")) s' = (Ok e, s')
    /\ balance_of 1 s'.(s_db).(db_ledger) = 500.
Proof.
  eexists _, _. split; [vm_compute; reflexivity|]. split.
  - apply (replay_returns_same_entry _ "k" witness_session);
      vm_compute; reflexivity.
  - vm_compute. reflexivity.
Defined.

(** A ledger entry is reversed at most once, and the reversal is exact: a
    successful [reverse] appends the opposite amount (or finds the reversal it
    appended earlier under the same key), the reseller's ledger total moves by
    exactly that amount, and every later attempt on the entry is rejected with
    [LedgerEntryAlreadyReversedError] unless it repeats the stored key. *)
Theorem reverse_exactly_once k eid dsc key m u s x s' :
  reverse k eid dsc key m u s = (Ok x, s') ->
  (exists o, tbl_get eid s.(s_db).(db_ledger) = Some o /\
     o.(le_reseller_id) = k /\ o.(le_entry_type) <> ET_REVERSAL /\
     (s' = s \/
      (x.(le_amount_cents) = - o.(le_amount_cents) /\
       s'.(s_db).(db_ledger) = s.(s_db).(db_ledger) ++ [x] /\
       balance_of k s'.(s_db).(db_ledger)
         = balance_of k s.(s_db).(db_ledger) - o.(le_amount_cents)))) /\
  (forall dsc' key' m' u',
     reverse k eid dsc' key' m' u' s'
     = if match key' with
          | Some _ => x.(le_idempotency_key) == key'
          | None => false
          end
       then (Ok x, s')
       else (Raise (LedgerEntryAlreadyReversedError eid), s')).
Proof.
  intros Hrun. destruct (reverse_ok_inv _ _ _ _ _ _ _ _ _ Hrun) as (r & o & Hrev).
  rewrite (reverse_eq _ _ _ _ _ _ _ _ _ Hrev) in Hrun.
  destruct (reverse_body_ok _ _ _ _ _ _ _ _ _ _ _ Hrev Hrun)
    as (Hrows & [r' Hrev'] & Hcase).
  assert (le_id o = eid) as Hid
    by (destruct Hrev as (_ & Ho & _); by apply tbl_get_key in Ho).
  split.
  - exists o. pose proof Hrev as (Hr & Ho & Hk & Ht). do 3 (split; [done|]).
    destruct Hcase as [[-> _]|[-> ->]]; [by left|right].
    split; [done|]. split; [done|]. cbn [s_db post_entry db_ledger update].
    assert (rs_id r = k) as Hrk by (by apply tbl_get_key in Hr).
    rewrite balance_of_snoc. cbn. rewrite Hrk, Z.eqb_refl. lia.
  - intros. rewrite (reverse_eq _ _ _ _ _ _ _ _ _ Hrev').
    unfold reverse_body, bind, read, gets. rewrite Hid, Hrows. cbn.
    by destruct (match key' with Some _ => _ | None => _ end).
Qed.

Lemma reverse_exactly_once_witness :
  let s := (credit 1 500 (witness_args "top-up") witness_session).2 in
  let s' := (reverse 1 1 None None [] None s).2 in
  balance_of 1 s'.(s_db).(db_ledger) = 0 /\
  reverse 1 1 None None [] None s' = (Raise (LedgerEntryAlreadyReversedError 1), s').
Proof.
  intros s s'. split; [vm_compute; reflexivity|]. subst s'.
  destruct (reverse 1 1 None None [] None s) as [[x|e] s2] eqn:E;
    [|exfalso; vm_compute in E; discriminate].
  destruct (reverse_exactly_once _ _ _ _ _ _ _ _ _ E) as [_ H].
  exact (H None None [] None).
Defined.
