(* ===== verification/Invoices.v ===== *)
(** Invoice numbering, issuance and allocation accounting:
    src/app/services/invoice_service.py. *)
From Stdlib Require Import ZArith Lia.
From stdpp Require Import base numbers list strings pretty.
From S2P Require Import Prelude Models Session.
#[local] Open Scope Z_scope.
#[local] Open Scope py_scope.

(** * The service *)

Definition FIRST_NUMBER : Z := 100001.

Definition require_positive_cents (amount_cents : Z) : Meth unit :=
  throw_if (amount_cents <=? 0)
    (InvoiceError "amount_cents must be a positive integer number of cents").

(** [SELECT MAX(invoice_number)] *)
Definition max_invoice_number (t : list invoice) : option Z :=
  fold_right (fun i acc =>
    Some (match acc with
          | Some m => Z.max i.(in_invoice_number) m
          | None => i.(in_invoice_number)
          end)) None t.

(** [largest or 0] *)
Definition largest_number (d : db) : Z :=
  match max_invoice_number d.(db_invoices) with Some m => m | None => 0 end.

Definition initial_next_value : Meth Z :=
  read (fun d => Z.max FIRST_NUMBER (largest_number d + 1)).

Definition set_sequence (v : Z) : Meth unit :=
  write (fun d => d <|db_invoice_sequence := Some v|>).

(** SQLite: upsert, then [UPDATE ... RETURNING next_value - 1].  MySQL: row
    lock, insert on first use, increment, flush. *)
Definition allocate_number : Meth Z :=
  sqlite <- gets s_sqlite ;;
  if sqlite : bool then
    first <- initial_next_value ;;
    seq <- read db_invoice_sequence ;;
    match seq with None => set_sequence first | Some _ => ret tt end ;;;
    seq <- read db_invoice_sequence ;;
    match seq with
    | Some n => set_sequence (n + 1) ;;; ret n
    | None => raise (InvoiceError "Could not allocate an invoice number")
    end
  else
    seq <- read db_invoice_sequence ;;
    allocated <-
      match seq with
      | Some n => ret n
      | None =>
          first <- initial_next_value ;;
          set_sequence first ;;; flush ;;; ret first
      end ;;
    set_sequence (allocated + 1) ;;; flush ;;; ret allocated.

Record invoice_args : Type := mk_invoice_args {
  ia_reseller_id : option Z;
  ia_purpose : invoice_purpose;
  ia_amount_cents : Z;
  ia_description : option string;
  ia_service_id : option Z;
  ia_due_at : option Z;
  ia_currency : string;
  ia_billing_account_id : option Z;
  ia_order_id : option Z
}.

Definition valid_currency (c : string) : bool :=
  Nat.eqb (String.length c) 3 && str_isalpha c.

(** Returns the primary key of the invoice object. *)
Definition create (a : invoice_args) : Meth Z :=
  require_positive_cents a.(ia_amount_cents) ;;;
  let currency := str_upper (str_strip a.(ia_currency)) in
  throw_if (negb (valid_currency currency))
    (InvoiceError "currency must be a three-letter code") ;;;
  throw_if (match a.(ia_reseller_id), a.(ia_billing_account_id) with
            | None, None => true | _, _ => false end)
    (InvoiceError "reseller_id or billing_account_id is required") ;;;
  number <- allocate_number ;;
  t <- read db_invoices ;;
  let id := tbl_fresh t in
  write (fun d => d <|db_invoices := d.(db_invoices) ++
    [mk_invoice id number a.(ia_reseller_id) a.(ia_service_id)
       a.(ia_billing_account_id) a.(ia_order_id) a.(ia_purpose) IS_OPEN
       a.(ia_amount_cents) currency a.(ia_description) a.(ia_due_at) None]|>) ;;;
  flush ;;;
  ret id.

Definition create_topup (reseller_id amount_cents : Z) : Meth Z :=
  now <- utcnow ;;
  create (mk_invoice_args (Some reseller_id) IP_CREDIT_TOPUP amount_cents
    (Some "Reseller account credit top-up") None (Some now) "USD" None None).

Definition create_deploy (reseller_id amount_cents : Z) (description : string)
    (service_id : option Z) (currency : string) : Meth Z :=
  now <- utcnow ;;
  create (mk_invoice_args (Some reseller_id) IP_DEPLOY_CHARGE amount_cents
    (Some description) service_id (Some now) currency None None).

(** [reseller_id] is what the caller passes, which may be [None]. *)
Definition create_cycle (reseller_id : option Z) (service_id amount_cents : Z)
    (description : string) (due_at : option Z) (currency : string) : Meth Z :=
  now <- utcnow ;;
  create (mk_invoice_args reseller_id IP_CYCLE_CHARGE amount_cents
    (Some description) (Some service_id)
    (match due_at with Some t => Some t | None => Some now end)
    currency None None).

Definition invoice_get_for_update (invoice_id : Z) : Meth (option invoice) :=
  read (fun d => tbl_get invoice_id d.(db_invoices)).

(** [SUM(amount_cents)] over the invoice's succeeded payments. *)
Definition allocated_in (invoice_id : Z) (d : db) : Z :=
  tbl_sum (fun p => (p.(pm_invoice_id) =? invoice_id)
                    && (p.(pm_status) == PS_SUCCEEDED))
    pm_amount_cents d.(db_payments).

Definition allocated_cents (invoice_id : Z) : Meth Z :=
  read (allocated_in invoice_id).

Definition mark_paid_if_fully_allocated (invoice_id : Z) : Meth unit :=
  o <- invoice_get_for_update invoice_id ;;
  inv <- unwrap o (InvoiceError "Invoice not found") ;;
  allocated <- allocated_cents inv.(in_id) ;;
  throw_if (inv.(in_amount_cents) <? allocated)
    (InvoiceError "Invoice payment allocations exceed its total") ;;;
  now <- utcnow ;;
  (if allocated =? inv.(in_amount_cents) then
     upd_invoice inv.(in_id) (fun i =>
       i <|in_status := IS_PAID|>
         <|in_paid_at := match i.(in_paid_at) with
                         | Some t => Some t | None => Some now end|>)
   else if inv.(in_status) == IS_PAID then
     upd_invoice inv.(in_id) (fun i =>
       i <|in_status := IS_OPEN|> <|in_paid_at := None|>)
   else ret tt) ;;;
  flush.

(** ** Serialization *)

Definition serialize_payment (p : payment) : dict :=
  [("id", JInt p.(pm_id)); ("gateway", JStr p.(pm_gateway));
   ("status", JStr (payment_status_value p.(pm_status)));
   ("amount_cents", JInt p.(pm_amount_cents));
   ("currency", JStr p.(pm_currency));
   ("external_ref", jopt_str p.(pm_external_ref));
   ("failure_code", jopt_str p.(pm_failure_code));
   ("failure_message", jopt_str p.(pm_failure_message));
   ("processed_at", jopt_int p.(pm_processed_at));
   ("refunded_at", jopt_int p.(pm_refunded_at))].

Definition serialize (inv : invoice) (payments : bool) : Meth dict :=
  allocated <- allocated_cents inv.(in_id) ;;
  rows <- read (fun d => List.filter
    (fun p => p.(pm_invoice_id) =? inv.(in_id)) d.(db_payments)) ;;
  ret ([("id", JInt inv.(in_id));
        ("invoice_number", JInt inv.(in_invoice_number));
        ("reseller_id", jopt_int inv.(in_reseller_id));
        ("service_id", jopt_int inv.(in_service_id));
        ("purpose", JStr (invoice_purpose_value inv.(in_purpose)));
        ("status", JStr (invoice_status_value inv.(in_status)));
        ("amount_cents", JInt inv.(in_amount_cents));
        ("allocated_cents", JInt allocated);
        ("remaining_cents", JInt (Z.max 0 (inv.(in_amount_cents) - allocated)));
        ("currency", JStr inv.(in_currency));
        ("description", jopt_str inv.(in_description));
        ("due_at", jopt_int inv.(in_due_at));
        ("paid_at", jopt_int inv.(in_paid_at))]
       ++ (if payments
           then [("payments", JList (map (fun p => JObj (serialize_payment p)) rows))]
           else [])).

(** * Laws *)

(** The counter is ahead of every number handed out. *)
Definition numbering_inv (d : db) : Prop :=
  match d.(db_invoice_sequence) with
  | Some n => FIRST_NUMBER <= n /\
              (forall i, In i d.(db_invoices) -> i.(in_invoice_number) < n)
  | None => True
  end.

Lemma largest_number_ge d i :
  In i d.(db_invoices) -> i.(in_invoice_number) <= largest_number d.
Proof.
  unfold largest_number. generalize (db_invoices d). intros t.
  induction t as [|x t IH]; [done|]. cbn. fold (max_invoice_number t).
  destruct (max_invoice_number t) as [m|] eqn:E.
  - intros [->|Hin]; [lia|]. specialize (IH Hin). lia.
  - intros [->|Hin]; [lia|]. destruct t; [done|]. cbn in E. done.
Qed.

(** Where the next number comes from. *)
Definition next_number (d : db) : Z :=
  match d.(db_invoice_sequence) with
  | Some n => n
  | None => Z.max FIRST_NUMBER (largest_number d + 1)
  end.

Definition after_allocation (s : session) : session :=
  s <|s_db := s.(s_db) <|db_invoice_sequence := Some (next_number s.(s_db) + 1)|>|>.

(** The sequence table carries no constraint the flush could trip on. *)
Lemma flush_set_sequence s v :
  flush s = (Ok tt, s) ->
  flush (s <|s_db := s.(s_db) <|db_invoice_sequence := v|>|>)
  = (Ok tt, s <|s_db := s.(s_db) <|db_invoice_sequence := v|>|>).
Proof.
  unfold flush.
  change (widths (s_db (s <|s_db := s.(s_db) <|db_invoice_sequence := v|>|>)))
    with (widths s.(s_db)).
  change (constraints (s_db (s <|s_db := s.(s_db) <|db_invoice_sequence := v|>|>)))
    with (constraints s.(s_db)).
  destruct (negb _); [done|]. by destruct (constraints _).
Qed.

Lemma set_sequence_flush {A} v (k : Meth A) s :
  flush s = (Ok tt, s) ->
  (set_sequence v ;;; flush ;;; k) s
  = k (s <|s_db := s.(s_db) <|db_invoice_sequence := Some v|>|>).
Proof.
  intros Hf. unfold bind, set_sequence, write, modify.
  by rewrite (flush_set_sequence _ (Some v) Hf).
Qed.

Lemma allocate_number_ok s :
  flush s = (Ok tt, s) ->
  allocate_number s = (Ok (next_number s.(s_db)), after_allocation s).
Proof.
  intros Hf. unfold allocate_number, after_allocation, next_number.
  unfold bind at 1, gets at 1. destruct (s_sqlite s).
  - unfold initial_next_value, bind, read, gets. cbn.
    destruct (db_invoice_sequence (s_db s)) as [m|] eqn:E; cbn; rewrite ?E; done.
  - unfold bind at 1, read at 1, gets at 1.
    destruct (db_invoice_sequence (s_db s)) as [m|] eqn:E.
    + unfold bind at 1, ret at 1. by rewrite set_sequence_flush.
    + unfold bind at 1, initial_next_value, bind at 1, read, gets.
      set (v := Z.max FIRST_NUMBER (largest_number (s_db s) + 1)).
      rewrite set_sequence_flush by done. unfold ret at 1.
      by rewrite set_sequence_flush by by apply flush_set_sequence.
Qed.

Lemma next_number_fresh d i :
  numbering_inv d -> In i d.(db_invoices) ->
  i.(in_invoice_number) < next_number d.
Proof.
  unfold numbering_inv, next_number.
  destruct (db_invoice_sequence d); [intros [_ H]; apply H|].
  intros _ Hi. apply largest_number_ge in Hi. lia.
Qed.

Lemma next_number_first d : numbering_inv d -> FIRST_NUMBER <= next_number d.
Proof.
  unfold numbering_inv, next_number.
  destruct (db_invoice_sequence d); [tauto|]. lia.
Qed.

(** ** [create] *)

Definition created_invoice (a : invoice_args) (d : db) : invoice :=
  mk_invoice (tbl_fresh d.(db_invoices)) (next_number d) a.(ia_reseller_id)
    a.(ia_service_id) a.(ia_billing_account_id) a.(ia_order_id) a.(ia_purpose)
    IS_OPEN a.(ia_amount_cents) (str_upper (str_strip a.(ia_currency)))
    a.(ia_description) a.(ia_due_at) None.

Definition valid_args (a : invoice_args) : bool :=
  (0 <? a.(ia_amount_cents))
  && valid_currency (str_upper (str_strip a.(ia_currency)))
  && match a.(ia_reseller_id), a.(ia_billing_account_id) with
     | None, None => false | _, _ => true end.

Definition after_create (a : invoice_args) (s : session) : session :=
  s <|s_db := s.(s_db)
        <|db_invoice_sequence := Some (next_number s.(s_db) + 1)|>
        <|db_invoices := s.(s_db).(db_invoices) ++ [created_invoice a s.(s_db)]|>|>.

Lemma create_eq a s :
  flush s = (Ok tt, s) ->
  valid_args a = true ->
  create a s = match flush (after_create a s) with
               | (Ok _, _) => (Ok (tbl_fresh s.(s_db).(db_invoices)), after_create a s)
               | (Raise e, _) => (Raise e, after_create a s)
               end.
Proof.
  intros Hf Hv. unfold valid_args in Hv. rewrite !andb_true_iff in Hv.
  destruct Hv as [[Hamt Hcur] Hpayer]. unfold create, require_positive_cents.
  assert ((ia_amount_cents a <=? 0) = false) as -> by lia.
  rewrite Hcur. unfold bind at 1, throw_if, ret at 1. cbn [negb].
  unfold bind at 1, ret at 1. unfold bind at 1.
  assert (match ia_reseller_id a, ia_billing_account_id a with
          | None, None => true | _, _ => false end = false) as ->
    by (destruct (ia_reseller_id a), (ia_billing_account_id a); done).
  unfold ret at 1. unfold bind at 1. rewrite (allocate_number_ok _ Hf).
  unfold bind at 1, read, gets. unfold bind at 1, write, modify.
  change (s_db (after_allocation s)).(db_invoices) with s.(s_db).(db_invoices).
  unfold bind at 1, flush. fold (after_create a s).
  change (_ <|s_db := _|>) with (after_create a s).
  destruct (negb _); [done|]. by destruct (constraints _).
Qed.

(** Rejected arguments leave no trace. *)
Lemma create_invalid a s :
  valid_args a = false ->
  exists msg, create a s = (Raise (InvoiceError msg), s).
Proof.
  intros Hv. unfold valid_args in Hv. unfold create, require_positive_cents.
  unfold bind at 1, throw_if at 1.
  destruct (Z.leb_spec (ia_amount_cents a) 0); [by eexists|].
  unfold bind at 1, ret at 1, throw_if at 1.
  destruct (valid_currency _) eqn:Hc; cbn [negb]; [|by eexists].
  unfold bind at 1, ret at 1, throw_if at 1.
  destruct (ia_reseller_id a), (ia_billing_account_id a);
    cbn in Hv; rewrite ?andb_true_r, ?andb_false_r in Hv; try lia.
  by eexists.
Qed.

Lemma after_create_constraints a s :
  numbering_inv s.(s_db) -> valid_args a = true ->
  constraints s.(s_db) = true -> constraints (s_db (after_create a s)) = true.
Proof.
  intros Hn Hv Hc. unfold constraints in *. cbn -[invoice_constraints account_constraints order_constraints
    inventory_constraints usdt_constraints account_security_constraints].
  change (order_constraints (s_db _)) with (order_constraints (s_db s)).
  change (inventory_constraints (s_db _)) with (inventory_constraints (s_db s)).
  change (usdt_constraints (s_db _)) with (usdt_constraints (s_db s)).
  change (account_security_constraints (s_db _)) with (account_security_constraints (s_db s)).
  rewrite !andb_true_iff in *.
  destruct Hc as
    [[[[[[[[[H1 H2] H3] H4] H5] H6] H7] H8] H9] [[[H10 H11] H12] [[[H13 H14] H15] [H16 H17]]]].
  repeat split; try done. clear - H2 Hn Hv.
  unfold invoice_constraints in *. rewrite andb_true_iff in *.
  destruct H2 as [Hpos Hu]. split.
  - rewrite forallb_app, Hpos. cbn. unfold valid_args in Hv. lia.
  - apply unique_by_snoc; [done|]. cbn. intros x k Hx [= <-] [= Hk].
    apply (next_number_fresh _ _ Hn) in Hx. lia.
Qed.

(** Issuing an invoice either rejects the arguments and changes nothing, or
    appends one open invoice whose number is at least 100001 and larger than
    every number already issued, so that numbers never repeat; the database can
    then only refuse it for integer width, and the numbering invariant holds
    again for the next call. *)
Theorem create_numbers_increase a s :
  numbering_inv s.(s_db) -> flush s = (Ok tt, s) ->
  let (res, s') := create a s in
  if valid_args a then
    exists i, s'.(s_db).(db_invoices) = s.(s_db).(db_invoices) ++ [i] /\
      i.(in_status) = IS_OPEN /\ i.(in_amount_cents) = a.(ia_amount_cents) /\
      0 < i.(in_amount_cents) /\ i.(in_purpose) = a.(ia_purpose) /\
      FIRST_NUMBER <= i.(in_invoice_number) /\
      (forall j, In j s.(s_db).(db_invoices) ->
         j.(in_invoice_number) < i.(in_invoice_number)) /\
      numbering_inv s'.(s_db) /\
      (res = Ok i.(in_id) \/ res = Raise DataError)
  else s' = s /\ exists msg, res = Raise (InvoiceError msg).
Proof.
  intros Hn Hf. destruct (valid_args a) eqn:Hv.
  - rewrite (create_eq a s Hf Hv).
    assert (constraints (s_db s) = true) as Hc.
    { unfold flush in Hf. destruct (negb _); [done|]. by destruct (constraints _). }
    pose proof (after_create_constraints a s Hn Hv Hc) as Hc'.
    assert (forall res, res = Ok (tbl_fresh s.(s_db).(db_invoices))
                        \/ res = Raise DataError ->
      exists i, (s_db (after_create a s)).(db_invoices) = s.(s_db).(db_invoices) ++ [i] /\
      i.(in_status) = IS_OPEN /\ i.(in_amount_cents) = a.(ia_amount_cents) /\
      0 < i.(in_amount_cents) /\ i.(in_purpose) = a.(ia_purpose) /\
      FIRST_NUMBER <= i.(in_invoice_number) /\
      (forall j, In j s.(s_db).(db_invoices) ->
         j.(in_invoice_number) < i.(in_invoice_number)) /\
      numbering_inv (s_db (after_create a s)) /\
      (res = Ok i.(in_id) \/ res = Raise DataError)) as Hgoal.
    { intros res Hres. exists (created_invoice a s.(s_db)).
      pose proof (next_number_first _ Hn) as Hfst.
      split; [done|]. split; [done|]. split; [done|]. split.
      { unfold valid_args in Hv. cbn. lia. }
      split; [done|]. split; [done|]. split.
      { intros j Hj. by apply next_number_fresh. }
      split; [|done]. cbn. split; [lia|]. intros j Hj.
      apply in_app_or in Hj as [Hj|[<-|[]]]; [|cbn; lia].
      apply (next_number_fresh _ _ Hn) in Hj. lia. }
    unfold flush. rewrite Hc'. destruct (negb _); apply Hgoal; auto.
  - destruct (create_invalid a s Hv) as [msg ->]. eauto.
Qed.

Lemma create_numbers_increase_witness :
  let s := session_of sample_db 7 in
  let a := mk_invoice_args (Some 1) IP_CREDIT_TOPUP 500 None None None " usd " None None in
  let s1 := (create a s).2 in
  map in_invoice_number (create a s1).2.(s_db).(db_invoices) = [100001; 100002]
  /\ numbering_inv (create a s1).2.(s_db).
Proof.
  intros s a s1. split; [vm_compute; reflexivity|].
  pose proof (create_numbers_increase a s I ltac:(vm_compute; reflexivity)) as H.
  change (valid_args a) with true in H. subst s1.
  destruct (create a s) as [res s1] eqn:E. cbv iota in H.
  destruct H as (i & _ & _ & _ & _ & _ & _ & _ & Hn & _).
  assert (flush s1 = (Ok tt, s1)) as Hf.
  { assert (s1 = (create a s).2) as -> by (by rewrite E). vm_compute. reflexivity. }
  pose proof (create_numbers_increase a s1 Hn Hf) as H.
  change (valid_args a) with true in H. cbn [snd]. clear Hf E.
  destruct (create a s1) as [res' s2]. cbv iota in H.
  destruct H as (j & _ & _ & _ & _ & _ & _ & _ & H & _). exact H.
Defined.

(** ** [allocate_number] *)

Fixpoint allocate_many (n : nat) : Meth (list Z) :=
  match n with
  | O => ret []
  | S n' => x <- allocate_number ;; l <- allocate_many n' ;; ret (x :: l)
  end.

Lemma allocate_many_ok n s :
  flush s = (Ok tt, s) ->
  exists s', allocate_many n s = (Ok (seqZ (next_number s.(s_db)) (Z.of_nat n)), s') /\
    s'.(s_db).(db_invoices) = s.(s_db).(db_invoices) /\
    next_number s'.(s_db) = next_number s.(s_db) + Z.of_nat n.
Proof.
  revert s. induction n as [|n IH]; intros s Hf.
  - exists s. split; [done|]. split; [done|]. lia.
  - assert (flush (after_allocation s) = (Ok tt, after_allocation s)) as Hf'
      by (by apply flush_set_sequence).
    destruct (IH _ Hf') as (s' & Hrun & Hinv & Hnext). exists s'.
    cbn [allocate_many]. unfold bind at 1. rewrite allocate_number_ok by done.
    unfold bind. rewrite Hrun. change (next_number (s_db (after_allocation s)))
      with (next_number s.(s_db) + 1) in *. split.
    + unfold ret. do 2 f_equal. rewrite (seqZ_cons _ (Z.of_nat (S n))) by lia.
      f_equal. f_equal; lia.
    + split; [done|]. rewrite Hnext. lia.
Qed.

(** Numbers are handed out consecutively and without gaps from the stored
    counter (or, the first time, from 100001 or the largest existing number plus
    one), and the SQLite and MySQL code paths hand out the same ones. *)
Theorem allocation_consecutive_on_both_dialects n s :
  flush s = (Ok tt, s) ->
  (allocate_many n (s <|s_sqlite := true|>)).1 = Ok (seqZ (next_number s.(s_db)) (Z.of_nat n)) /\
  (allocate_many n (s <|s_sqlite := false|>)).1 = Ok (seqZ (next_number s.(s_db)) (Z.of_nat n)).
Proof.
  intros Hf.
  assert (forall b, flush (s <|s_sqlite := b|>) = (Ok tt, s <|s_sqlite := b|>)) as Hb.
  { intros b. unfold flush in *. cbn [s_db update] in *.
    change (s_db (s <|s_sqlite := b|>)) with (s_db s).
    destruct (negb _); [done|]. by destruct (constraints _). }
  split.
  - by destruct (allocate_many_ok n _ (Hb true)) as (s' & -> & _).
  - by destruct (allocate_many_ok n _ (Hb false)) as (s' & -> & _).
Qed.

Lemma allocation_consecutive_on_both_dialects_witness :
  (allocate_many 3 (session_of sample_db 7)).1 = Ok [100001; 100002; 100003].
Proof.
  destruct (allocation_consecutive_on_both_dialects 3 (session_of sample_db 7))
    as [_ H]; [vm_compute; reflexivity|]. exact H.
Defined.

(** ** [mark_paid_if_fully_allocated] *)

Definition mark_paid_row (now : Z) (i : invoice) : invoice :=
  i <|in_status := IS_PAID|>
    <|in_paid_at := match i.(in_paid_at) with
                    | Some t => Some t | None => Some now end|>.
Definition reopen_row (i : invoice) : invoice :=
  i <|in_status := IS_OPEN|> <|in_paid_at := None|>.

(** The invoice table after [mark_paid_if_fully_allocated]. *)
Definition marked (i : invoice) (now : Z) (d : db) : db :=
  let a := allocated_in i.(in_id) d in
  if a =? i.(in_amount_cents)
  then d <|db_invoices := tbl_update i.(in_id) (mark_paid_row now) d.(db_invoices)|>
  else if i.(in_status) == IS_PAID
  then d <|db_invoices := tbl_update i.(in_id) reopen_row d.(db_invoices)|>
  else d.

Lemma session_same_db s : s <|s_db := s.(s_db)|> = s.
Proof. by destruct s. Qed.

Lemma mark_paid_eq k s i :
  tbl_get k s.(s_db).(db_invoices) = Some i ->
  mark_paid_if_fully_allocated k s =
  if i.(in_amount_cents) <? allocated_in k s.(s_db)
  then (Raise (InvoiceError "Invoice payment allocations exceed its total"), s)
  else flush (s <|s_db := marked i s.(s_now) s.(s_db)|>).
Proof.
  intros Hi. assert (in_id i = k) as Hk by (by apply tbl_get_key in Hi).
  unfold mark_paid_if_fully_allocated, invoice_get_for_update, allocated_cents.
  unfold bind at 1, read at 1, gets at 1. rewrite Hi.
  unfold bind at 1, unwrap, ret at 1. unfold bind at 1, read, gets. rewrite Hk.
  unfold bind at 1, throw_if. destruct (_ <? _) eqn:E; [done|].
  unfold ret at 1. unfold bind at 1, utcnow, gets. unfold marked. rewrite Hk.
  destruct (_ =? _); [done|]. destruct (_ == _); [done|].
  unfold bind, ret. by rewrite session_same_db.
Qed.

Lemma marked_frame i now d :
  allocated_in i.(in_id) (marked i now d) = allocated_in i.(in_id) d /\
  (marked i now d).(db_payments) = d.(db_payments) /\
  (marked i now d).(db_ledger) = d.(db_ledger) /\
  (marked i now d).(db_resellers) = d.(db_resellers) /\
  (forall k, k <> i.(in_id) ->
     tbl_get k (marked i now d).(db_invoices) = tbl_get k d.(db_invoices)).
Proof.
  unfold marked. cbv zeta. destruct (_ =? _); [|destruct (_ == _)];
    repeat split; intros k Hk; by apply tbl_get_update_ne.
Qed.

Lemma marked_get i now d :
  tbl_get i.(in_id) d.(db_invoices) = Some i ->
  tbl_get i.(in_id) (marked i now d).(db_invoices)
  = Some (if allocated_in i.(in_id) d =? i.(in_amount_cents)
          then mark_paid_row now i
          else if i.(in_status) == IS_PAID then reopen_row i else i).
Proof.
  intros Hi. unfold marked. cbv zeta. destruct (_ =? _); [|destruct (_ == _)];
    cbn [db_invoices update]; [| |done]; by apply tbl_get_update_eq.
Qed.

(** Settlement: over-allocation is rejected without any change; otherwise
    the invoice ends up [PAID] exactly when the succeeded payments add up to its
    total (with a payment time, kept from an earlier settlement when there was
    one), a [PAID] invoice that lost a payment is reopened, any other status is
    left alone, and neither payments, ledger, balances nor other invoices move. *)
Theorem paid_iff_fully_allocated k s i :
  tbl_get k s.(s_db).(db_invoices) = Some i ->
  let a := allocated_in k s.(s_db) in
  let (res, s') := mark_paid_if_fully_allocated k s in
  if i.(in_amount_cents) <? a
  then res = Raise (InvoiceError "Invoice payment allocations exceed its total")
       /\ s' = s
  else
    (exists i', tbl_get k s'.(s_db).(db_invoices) = Some i' /\
       (i'.(in_status) = IS_PAID <-> a = i.(in_amount_cents)) /\
       (i'.(in_status) = IS_PAID -> i'.(in_paid_at) <> None /\
          (i.(in_paid_at) <> None -> i'.(in_paid_at) = i.(in_paid_at))) /\
       (i.(in_status) = IS_PAID -> a <> i.(in_amount_cents) ->
          i'.(in_status) = IS_OPEN /\ i'.(in_paid_at) = None) /\
       (i.(in_status) <> IS_PAID -> a <> i.(in_amount_cents) -> i' = i)) /\
    s'.(s_db).(db_payments) = s.(s_db).(db_payments) /\
    s'.(s_db).(db_ledger) = s.(s_db).(db_ledger) /\
    s'.(s_db).(db_resellers) = s.(s_db).(db_resellers) /\
    (forall k', k' <> k -> tbl_get k' s'.(s_db).(db_invoices)
                           = tbl_get k' s.(s_db).(db_invoices)).
Proof.
  intros Hi a. rewrite (mark_paid_eq k s i Hi). fold a.
  assert (in_id i = k) as Hk by (by apply tbl_get_key in Hi).
  destruct (in_amount_cents i <? a); [by split|].
  destruct (flush _) as [res s'] eqn:Hf. apply flush_inv in Hf as ->.
  cbn [s_db update].
  destruct (marked_frame i (s_now s) (s_db s)) as (_ & Hp & Hl & Hr & Ho).
  rewrite Hk in Ho. split; [|done].
  pose proof (marked_get i (s_now s) (s_db s)) as Hget. rewrite Hk in Hget.
  rewrite (Hget Hi). eexists. split; [reflexivity|]. fold a. clear.
  destruct (Z.eqb_spec a (in_amount_cents i)) as [He|Hne].
  - cbn. repeat split; try done; by destruct (in_paid_at i).
  - destruct (py_eq_spec (in_status i) IS_PAID) as [Hs|Hs]; cbn; repeat split;
      intros; try done; congruence.
Qed.

Lemma paid_iff_fully_allocated_witness :
  let s := (create_topup 1 500 (session_of sample_db 7)).2 in
  let p := mk_payment 1 1 "stripe" PS_SUCCEEDED 500 "USD" (Some "pi_1") None None []
             None None in
  let s1 := s <|s_db := s.(s_db) <|db_payments := [p]|>|> in
  exists i', tbl_get 1 (mark_paid_if_fully_allocated 1 s1).2.(s_db).(db_invoices)
             = Some i' /\ i'.(in_status) = IS_PAID.
Proof.
  intros s p s1.
  destruct (tbl_get 1 (db_invoices (s_db s1))) as [i|] eqn:Hi;
    [|exfalso; vm_compute in Hi; discriminate].
  pose proof (paid_iff_fully_allocated 1 s1 i Hi) as H. cbv zeta in H.
  vm_compute in Hi. injection Hi as <-.
  destruct (mark_paid_if_fully_allocated 1 s1) as [res s2].
  change (allocated_in 1 (s_db s1)) with 500 in H.
  cbn [in_amount_cents] in H. change (500 <? 500) with false in H. cbv iota in H.
  destruct H as ((i' & Hi' & [_ H] & _) & _). exists i'. split; [exact Hi'|].
  by apply H.
Defined.
