(* ===== verification/Lifecycle.v ===== *)
(** Suspending and unsuspending services: src/app/services/service_lifecycle.py
    and the placement helpers of src/app/services/service_resource.py.

    Power control happens in hypervisor and BMC plugins, which the code reaches
    through an injected resolver; they are parameters here, as the answers the
    plugin methods give. *)
From Stdlib Require Import ZArith Lia.
From stdpp Require Import base numbers list strings.
From S2P Require Import Prelude Models Session.
#[local] Open Scope Z_scope.
#[local] Open Scope py_scope.

Inductive power_state : Type := PW_ON | PW_OFF | PW_UNKNOWN.
#[export] Instance power_state_eq_dec : EqDecision power_state.
Proof. solve_decision. Defined.

(** What a server plugin answers: [get_power_state()] and
    [power_off(force=True)]. *)
Record plugin : Type := mk_plugin {
  get_power_state : outcome exn power_state;
  power_off_force : outcome exn bool
}.

(** How a plugin is found: the injected resolver when there is one, else the
    Proxmox placement of a VM or the registry entry of the linked server. *)
Record lifecycle_env : Type := mk_lifecycle_env {
  plugin_resolver : option (service -> outcome exn plugin);
  proxmox_resolver : service -> outcome exn plugin;
  server_by_id : Z -> option Z;
  registry_plugin : Z -> outcome exn plugin
}.

(** [ProxmoxPlacementError] as the resolver raises it. *)
Definition placement_error (e : exn) : option exn :=
  match e with
  | OtherError n =>
      if n == "ProxmoxPlacementError"
      then Some (ServiceLifecycleError "ProxmoxPlacementError" 500) else None
  | _ => None
  end.

(** ** Placement *)

Definition service_linked_server (env : lifecycle_env) (s : service) : option Z :=
  if s.(sv_service_type) == ST_VM then None
  else match s.(sv_bare_metal_server) with
       | Some sid => env.(server_by_id) sid
       | None => None
       end.

Definition vm_placement (s : service) : option Z * option string * option Z :=
  if s.(sv_service_type) != ST_VM then (None, None, None)
  else match s.(sv_vm) with
       | Some v => (v.(vx_proxmox_cluster_id), v.(vx_proxmox_node_name),
                    v.(vx_proxmox_vmid))
       | None => (None, None, None)
       end.

(** ** The service *)

Definition lift_outcome {A} (o : outcome exn A) : Meth A :=
  match o with Ok a => ret a | Raise e => raise e end.

Definition find_plugin (env : lifecycle_env) (s : service) : Meth plugin :=
  match env.(plugin_resolver) with
  | Some resolve => lift_outcome (resolve s)
  | None =>
      if s.(sv_service_type) == ST_VM then
        try_catch (lift_outcome (env.(proxmox_resolver) s))
          (fun e => match placement_error e with
                    | Some e' => raise e'
                    | None => raise e
                    end)
      else
        match service_linked_server env s with
        | None => raise (ServiceLifecycleError "Service has no linked server" 500)
        | Some sid => lift_outcome (env.(registry_plugin) sid)
        end
  end.

Definition ensure_powered_off (env : lifecycle_env) (s : service) : Meth unit :=
  if s.(sv_service_type) == ST_HTTP_PROXY then ret tt
  else if (s.(sv_service_type) == ST_VM)
          && match vm_placement s with
             | (None, _, _) | (_, _, None) => true
             | _ => false
             end
  then ret tt
  else
    p <- find_plugin env s ;;
    let power := match p.(get_power_state) with
                 | Ok st => st
                 | Raise _ => PW_UNKNOWN
                 end in
    if power == PW_OFF then ret tt
    else match p.(power_off_force) with
         | Ok true => ret tt
         | Ok false =>
             raise (ServiceLifecycleError "Failed to power off before suspend" 500)
         | Raise e =>
             if exn_name e == "NotImplementedError"
             then raise (ServiceLifecycleError
                           "Server plugin does not support power control" 400)
             else raise (ServiceLifecycleError
                           "Failed to power off before suspend" 500)
         end.

Definition suspend (env : lifecycle_env) (service_id : Z) : Meth bool :=
  s <- the_service service_id ;;
  if (s.(sv_status) == SS_SUSPENDED) || (s.(sv_status) == SS_TERMINATED)
  then ret false
  else
    ensure_powered_off env s ;;;
    upd_service service_id (fun x => x <|sv_status := SS_SUSPENDED|>) ;;;
    flush ;;; ret true.

Definition unsuspend (service_id : Z) : Meth bool :=
  s <- the_service service_id ;;
  if s.(sv_status) != SS_SUSPENDED then ret false
  else
    upd_service service_id (fun x => x <|sv_status := SS_ACTIVE|>) ;;;
    flush ;;; ret true.

(** * Laws *)

(** A machine that is known to be off, or that has nothing to switch off. *)
Definition powered_off (env : lifecycle_env) (s : service) : Prop :=
  s.(sv_service_type) = ST_HTTP_PROXY \/
  (s.(sv_service_type) = ST_VM /\
   ((vm_placement s).1.1 = None \/ (vm_placement s).2 = None)) \/
  exists p, (exists ss, find_plugin env s ss = (Ok p, ss)) /\
    (p.(get_power_state) = Ok PW_OFF \/ p.(power_off_force) = Ok true).

Lemma find_plugin_pure env s st r st' :
  find_plugin env s st = (r, st') -> st' = st.
Proof.
  unfold find_plugin, lift_outcome, try_catch.
  repeat case_match; cbn; try congruence;
    unfold raise, ret in *; repeat case_match; congruence.
Qed.

Lemma ensure_powered_off_spec env s st :
  (exists e, ensure_powered_off env s st = (Raise e, st)) \/
  (ensure_powered_off env s st = (Ok tt, st) /\ powered_off env s).
Proof.
  unfold ensure_powered_off, powered_off.
  destruct (py_eq_spec (sv_service_type s) ST_HTTP_PROXY); [right; auto|].
  destruct ((sv_service_type s == ST_VM) && _) eqn:Hvm.
  { right. apply andb_true_iff in Hvm as [Hty Hpl]. rewrite py_eq_true in Hty.
    split; [done|]. right. left. split; [done|].
    destruct (vm_placement s) as [[[c|] node] [v|]]; cbn in *; auto; done. }
  unfold bind. destruct (find_plugin env s st) as [[p|e] st'] eqn:Hp;
    pose proof (find_plugin_pure _ _ _ _ _ Hp) as ->; [|left; eauto].
  destruct (get_power_state p) as [[| |]|x] eqn:Hg; cbn [py_eq bool_decide];
    try (right; split; [reflexivity|]; right; right; exists p; eauto; fail);
    destruct (power_off_force p) as [[|]|y] eqn:Hf; cbn;
    try (right; split; [reflexivity|]; right; right; exists p; eauto; fail);
    left; eauto; destruct (exn_name y == _); eauto.
Qed.

Lemma suspend_eq env k s st :
  tbl_get k st.(s_db).(db_services) = Some s ->
  suspend env k st =
  if (s.(sv_status) == SS_SUSPENDED) || (s.(sv_status) == SS_TERMINATED)
  then (Ok false, st)
  else match ensure_powered_off env s st with
       | (Ok _, _) =>
           let st' := st <|s_db := st.(s_db) <|db_services :=
             tbl_update k (fun x => x <|sv_status := SS_SUSPENDED|>)
               st.(s_db).(db_services)|>|> in
           match flush st' with
           | (Ok _, _) => (Ok true, st')
           | (Raise e, _) => (Raise e, st')
           end
       | (Raise e, _) => (Raise e, st)
       end.
Proof.
  intros Hs. unfold suspend, the_service. unfold bind at 1 2, read, gets.
  rewrite Hs. unfold unwrap, ret at 1.
  destruct ((sv_status s == SS_SUSPENDED) || _); [done|].
  unfold bind at 1.
  destruct (ensure_powered_off_spec env s st) as [[e ->]|[-> _]]; [done|].
  unfold upd_service, write, modify, bind. cbv beta zeta.
  match goal with |- context [flush ?x] => set (st' := x) end.
  by destruct (flush_cases st') as [->|[->| ->]].
Qed.

(** A service is marked suspended only when its machine is off or was
    switched off by this call: when [suspend] reports a change, the service was
    neither suspended nor terminated, [powered_off] holds of it, and its status
    is now suspended; when it reports no change nothing was written; and when
    powering off fails the service keeps its status. *)
Theorem suspend_only_when_powered_off env k s st :
  tbl_get k st.(s_db).(db_services) = Some s ->
  match suspend env k st with
  | (Ok true, st') =>
      s.(sv_status) <> SS_SUSPENDED /\ s.(sv_status) <> SS_TERMINATED /\
      powered_off env s /\
      tbl_get k st'.(s_db).(db_services) = Some (s <|sv_status := SS_SUSPENDED|>)
  | (Ok false, st') =>
      st' = st /\ (s.(sv_status) = SS_SUSPENDED \/ s.(sv_status) = SS_TERMINATED)
  | (Raise e, st') => st' = st \/ e = DataError \/ e = IntegrityError
  end.
Proof.
  intros Hs. rewrite (suspend_eq env k s st Hs).
  destruct (py_eq_spec (sv_status s) SS_SUSPENDED) as [|Hn1]; [cbn; auto|].
  destruct (py_eq_spec (sv_status s) SS_TERMINATED) as [|Hn2]; [cbn; auto|].
  cbn [orb].
  destruct (ensure_powered_off_spec env s st) as [[e ->]|[-> Hoff]]; [auto|].
  cbv zeta. match goal with |- context [flush ?x] => set (st' := x) end.
  destruct (flush_cases st') as [->|[->| ->]].
  - do 3 (split; [done|]). subst st'. cbn.
    by rewrite (tbl_get_update_eq _ _ _ s).
  - auto.
  - auto.
Qed.

Definition witness_env : lifecycle_env :=
  mk_lifecycle_env (Some (fun _ => Ok (mk_plugin (Ok PW_ON) (Ok true))))
    (fun _ => Raise (OtherError "ProxmoxPlacementError")) (fun k => Some k)
    (fun _ => Raise (OtherError "KeyError")).
Definition sample_service (id : Z) (ty : service_type) : service :=
  mk_service id "svc" (Some 1) ty SS_ACTIVE None (Some 5) None [] [] None None None None None PV_BILLING.

Lemma suspend_only_when_powered_off_witness :
  let st := session_of (sample_db <|db_services := [sample_service 9 ST_BARE_METAL]|>) 0 in
  powered_off witness_env (sample_service 9 ST_BARE_METAL) /\
  tbl_get 9 (suspend witness_env 9 st).2.(s_db).(db_services)
  = Some ((sample_service 9 ST_BARE_METAL) <|sv_status := SS_SUSPENDED|>).
Proof.
  intros st.
  pose proof (suspend_only_when_powered_off witness_env 9
    (sample_service 9 ST_BARE_METAL) st eq_refl) as H.
  destruct (suspend witness_env 9 st) as [[[|]|e] st'] eqn:E.
  - destruct H as (_ & _ & Hoff & H). split; [exact Hoff|exact H].
  - exfalso. vm_compute in E. discriminate.
  - exfalso. vm_compute in E. discriminate.
Defined.
