(* ===== verification/Outbox.v ===== *)
(** The durable notification outbox: enqueueing, claiming and delivery in
    src/app/services/notification_service.py.  The SMTP transport is a
    parameter: what [transport.send(row)] answers. *)
From Stdlib Require Import ZArith Lia Ascii.
From stdpp Require Import base numbers list strings.
From S2P Require Import Prelude Calendar Models Session.
#[local] Open Scope Z_scope.
#[local] Open Scope py_scope.

(** * Enqueueing *)

Fixpoint str_contains (c : ascii) (s : string) : bool :=
  match s with
  | EmptyString => false
  | String x s' => Ascii.eqb x c || str_contains c s'
  end.

(** [(recipient or (reseller.user.email if reseller.user else "")).strip()] *)
Definition recipient_email (recipient : option string) (reseller_id : Z) (d : db)
  : string :=
  str_strip (str_or recipient
    (match tbl_get reseller_id d.(db_resellers) with
     | Some r => match tbl_get r.(rs_user_id) d.(db_users) with
                 | Some u => u.(us_email)
                 | None => ""
                 end
     | None => ""
     end)).

Definition rows_with_key (key : string) (d : db) : list outbox_row :=
  List.filter (fun n => n.(nb_idempotency_key) == key) d.(db_outbox).

Definition new_row (id reseller_id : Z) (email event key : string) (data : dict)
  : outbox_row :=
  mk_outbox_row id (str_take 255 key) (Some reseller_id) (str_take 320 email)
    (str_take 64 event) data OS_QUEUED 0 None None None None None.

Definition insert_row (reseller_id : Z) (email event key : string) (data : dict)
    (d : db) : db :=
  d <|db_outbox := d.(db_outbox)
        ++ [new_row (tbl_fresh d.(db_outbox)) reseller_id email event key data]|>.

(** [Result.scalar_one()] *)
Definition scalar_one {R} (rows : list R) : Meth R :=
  o <- scalar_one_or_none MultipleResultsFound rows ;; unwrap o NoResultFound.

(** Returns the primary key of the row for this idempotency key. *)
Definition enqueue (reseller_id : Z) (event key : string) (data : dict)
    (recipient : option string) : Meth Z :=
  email <- read (recipient_email recipient reseller_id) ;;
  throw_if (str_empty email || negb (str_contains "@"%char email))
    (ValueError "Notification recipient is unavailable") ;;;
  rows <- read (rows_with_key key) ;;
  existing <- scalar_one_or_none MultipleResultsFound rows ;;
  match existing with
  | Some row => ret row.(nb_id)
  | None =>
      id <- read (fun d => tbl_fresh d.(db_outbox)) ;;
      try_catch
        (begin_nested
           (write (insert_row reseller_id email event key data) ;;; flush) ;;;
         ret id)
        (fun e => match e with
                  | IntegrityError =>
                      rows <- read (rows_with_key (str_take 255 key)) ;;
                      row <- scalar_one rows ;;
                      ret row.(nb_id)
                  | _ => raise e
                  end)
  end.

(** * Delivery *)

Record sender_env : Type := mk_sender_env {
  smtp_enabled : bool;
  notification_worker_lease_seconds : Z;
  notification_worker_batch_size : Z;
  transport_send : outbox_row -> outcome exn unit
}.

Definition due_row (now : Z) (n : outbox_row) : bool :=
  match n.(nb_next_attempt_at) with
  | None => true
  | Some t => t <=? now
  end.

(** A NULL expiry is not [<= now] in SQL. *)
Definition available (now : Z) (n : outbox_row) : bool :=
  (((n.(nb_status) == OS_QUEUED) || (n.(nb_status) == OS_FAILED))
   && due_row now n)
  || ((n.(nb_status) == OS_SENDING)
      && match n.(nb_claim_expires_at) with
         | Some t => t <=? now
         | None => false
         end).

(** [batch_size or default] *)
Definition batch_limit (batch_size : option Z) (default : Z) : Z :=
  match batch_size with
  | Some n => if n =? 0 then default else n
  | None => default
  end.

Definition claim_row (owner : string) (expires : Z) (n : outbox_row) : outbox_row :=
  n <|nb_status := OS_SENDING|> <|nb_claim_token := Some owner|>
    <|nb_claim_expires_at := Some expires|>.

Definition claim (env : sender_env) (owner : string) (batch_size : option Z)
  : Meth (list Z) :=
  now <- utcnow ;;
  rows <- read (fun d =>
    take (Z.to_nat (batch_limit batch_size
                      env.(notification_worker_batch_size)))
      (List.filter (available now) d.(db_outbox))) ;;
  let expires := now + seconds env.(notification_worker_lease_seconds) in
  for_each (map nb_id rows) (fun k => upd_outbox k (claim_row owner expires)) ;;;
  commit ;;;
  ret (map nb_id rows).

(** [min(3600, 60 * 2 ** min(attempts - 1, 6))], after the increment. *)
Definition backoff_seconds (attempts : Z) : Z :=
  Z.min 3600 (60 * 2 ^ Z.min (attempts - 1) 6).

Definition skip_row (n : outbox_row) : outbox_row :=
  n <|nb_status := OS_SKIPPED|> <|nb_error := Some "SMTP delivery is disabled"|>
    <|nb_claim_token := None|> <|nb_claim_expires_at := None|>.
Definition failed_row (now : Z) (e : exn) (n : outbox_row) : outbox_row :=
  let attempts := n.(nb_attempts) + 1 in
  n <|nb_attempts := attempts|> <|nb_status := OS_FAILED|>
    <|nb_error := Some ("SMTP delivery failed (" +:+ exn_name e +:+ ")")|>
    <|nb_next_attempt_at := Some (now + seconds (backoff_seconds attempts))|>
    <|nb_claim_token := None|> <|nb_claim_expires_at := None|>.
Definition sent_row (now : Z) (n : outbox_row) : outbox_row :=
  n <|nb_attempts := n.(nb_attempts) + 1|> <|nb_status := OS_SENT|>
    <|nb_sent_at := Some now|> <|nb_error := None|>
    <|nb_next_attempt_at := None|>
    <|nb_claim_token := None|> <|nb_claim_expires_at := None|>.

Definition deliver_one (env : sender_env) (owner : string) (sent : Z) (k : Z)
  : Meth Z :=
  row <- read (fun d => tbl_get k d.(db_outbox)) ;;
  match row with
  | None => ret sent
  | Some n =>
      if n.(nb_claim_token) != Some owner then ret sent
      else if negb env.(smtp_enabled) then
        upd_outbox k skip_row ;;; commit ;;; ret sent
      else
        now <- utcnow ;;
        match env.(transport_send) n with
        | Raise e => upd_outbox k (failed_row now e) ;;; commit ;;; ret sent
        | Ok _ => upd_outbox k (sent_row now) ;;; commit ;;; ret (sent + 1)
        end
  end.

Definition send_batch (env : sender_env) (owner : string) (batch_size : option Z)
  : Meth Z :=
  ids <- claim env owner batch_size ;;
  fold_each ids 0 (deliver_one env owner).

(** * Properties *)

Lemma rows_with_key_insert key r email event data d :
  str_take 255 key = key ->
  rows_with_key key (insert_row r email event key data d)
  = rows_with_key key d
    ++ [new_row (tbl_fresh d.(db_outbox)) r email event key data].
Proof.
  intros Hk. unfold rows_with_key. cbn. rewrite List.filter_app. cbn.
  by rewrite Hk, py_eq_refl.
Qed.

Lemma recipient_email_insert rc r r' email event key data d :
  recipient_email rc r (insert_row r' email event key data d)
  = recipient_email rc r d.
Proof. done. Qed.

Lemma begin_nested_ok {A} (m : Meth A) s a s' :
  begin_nested m s = (Ok a, s') -> m s = (Ok a, s').
Proof.
  unfold begin_nested, bind at 1. destruct (flush s) as [[u|e] s1] eqn:Hf; [|done].
  apply flush_inv in Hf as ->. unfold bind. destruct (m s) as [[b|e] s2]; [|done].
  destruct (flush s2) as [[v|e] s3] eqn:Hf2; [|done].
  apply flush_inv in Hf2 as ->. by intros [= -> ->].
Qed.

(** Notifications are deduplicated by their idempotency key: once [enqueue]
    has returned a row for a key (of at most 255 characters), exactly one row
    carries that key, and every later [enqueue] under it that has a usable
    recipient returns the same row and writes nothing. *)
Theorem enqueue_deduplicates r event key data rc s id s' :
  str_take 255 key = key ->
  enqueue r event key data rc s = (Ok id, s') ->
  (exists row, rows_with_key key s'.(s_db) = [row] /\ row.(nb_id) = id) /\
  (forall event' data' rc',
     let email := recipient_email rc' r s'.(s_db) in
     str_empty email || negb (str_contains "@"%char email) = false ->
     enqueue r event' key data' rc' s' = (Ok id, s')).
Proof.
  intros Hkey Hrun.
  assert (exists row, rows_with_key key s'.(s_db) = [row] /\ row.(nb_id) = id)
    as (row & Hrow & Hid).
  { unfold enqueue in Hrun. unfold bind at 1, read at 1, gets at 1 in Hrun.
    unfold bind at 1, throw_if at 1 in Hrun.
    destruct (str_empty _ || _); [done|]. unfold ret at 1 in Hrun.
    unfold bind at 1, read at 1, gets at 1 in Hrun.
    destruct (rows_with_key key (s_db s)) as [|row [|row' l]] eqn:Hrows;
      cbn [scalar_one_or_none] in Hrun; [| |done].
    - unfold bind at 1, ret at 1 in Hrun. unfold bind at 1, read at 1, gets at 1 in Hrun.
      unfold try_catch, bind at 1 in Hrun.
      destruct (begin_nested _ s) as [[u|e] s1] eqn:Hn.
      + apply begin_nested_ok in Hn. unfold bind, write, modify in Hn.
        apply flush_inv in Hn as ->. cbn in Hrun. injection Hrun as <- <-.
        cbn [s_db update]. rewrite rows_with_key_insert, Hrows by done.
        by eexists.
      + destruct e; try done. unfold scalar_one, bind, read, gets in Hrun.
        rewrite Hkey in Hrun.
        destruct (rows_with_key key (s_db s1)) as [|row [|]] eqn:Hr1; try done.
        cbn in Hrun. injection Hrun as <- <-. rewrite Hr1. by eexists.
    - unfold bind, ret in Hrun. injection Hrun as <- <-. rewrite Hrows. by eexists. }
  split; [by exists row|]. intros event' data' rc' email Hemail.
  unfold enqueue. unfold bind at 1, read at 1, gets at 1. fold email.
  unfold bind at 1, throw_if. rewrite Hemail. unfold ret at 1.
  unfold bind at 1, read at 1, gets at 1. rewrite Hrow. cbn. unfold bind, ret.
  by rewrite Hid.
Qed.

Lemma enqueue_deduplicates_witness :
  let s := session_of sample_db 0 in
  exists s', enqueue 1 "topup_received" "topup-received:7" [] None s = (Ok 1, s')
  /\ enqueue 1 "grace_warning" "topup-received:7" [] None s' = (Ok 1, s').
Proof.
  intros s. eexists. split; [vm_compute; reflexivity|].
  apply (enqueue_deduplicates 1 "topup_received" "topup-received:7" [] None s 1);
    vm_compute; reflexivity.
Defined.

(** ** Claims are exclusive *)

Definition claim_rows (ids : list Z) (f : outbox_row -> outbox_row)
    (t : list outbox_row) : list outbox_row :=
  fold_left (fun acc k => tbl_update k f acc) ids t.

Lemma for_each_upd_outbox ids f s :
  for_each ids (fun k => upd_outbox k f) s
  = (Ok tt, s <|s_db := s.(s_db) <|db_outbox := claim_rows ids f s.(s_db).(db_outbox)|>|>).
Proof.
  revert s. induction ids as [|k ids IH]; intros s.
  - by destruct s as [[] ? ? ? ?].
  - cbn [for_each]. unfold bind, upd_outbox, write, modify. rewrite IH. done.
Qed.

Lemma claim_ok env owner b s ids s' :
  claim env owner b s = (Ok ids, s') ->
  ids = map nb_id (take (Z.to_nat (batch_limit b env.(notification_worker_batch_size)))
          (List.filter (available s.(s_now)) s.(s_db).(db_outbox))) /\
  s'.(s_db).(db_outbox) =
    map (fun n => if existsb (Z.eqb n.(nb_id)) ids
                  then claim_row owner
                         (s.(s_now) + seconds env.(notification_worker_lease_seconds)) n
                  else n) s.(s_db).(db_outbox) /\
  s'.(s_now) = s.(s_now).
Proof.
  unfold claim. unfold bind at 1, utcnow, gets. unfold bind at 1, read, gets.
  set (rows := take _ _). unfold bind at 1. rewrite for_each_upd_outbox.
  unfold bind. destruct (commit _) as [[u|e] s1] eqn:Hc; [|done].
  intros [= <- <-]. split; [done|].
  pose proof (commit_cases _ _ _ Hc) as [Hdb _]. rewrite Hdb.
  cbn [s_db update]. split; [by apply tbl_update_many|].
  unfold commit, bind in Hc. destruct (flush _) as [[v|e] s2] eqn:Hf; [|done].
  apply flush_inv in Hf as ->. by injection Hc as _ <-.
Qed.

Lemma available_claimed now o e n :
  available now (claim_row o e n) = (e <=? now).
Proof. reflexivity. Qed.

(** Two workers never hold the same notification: if one worker claims a
    batch and another claims at a time before that lease runs out, whatever the
    batch limits, the two batches are disjoint and the first worker's claim
    token is still on every row of its batch. *)
Theorem claims_are_disjoint env o1 o2 b1 b2 s ids1 s1 now2 ids2 s2 :
  claim env o1 b1 s = (Ok ids1, s1) ->
  now2 < s.(s_now) + seconds env.(notification_worker_lease_seconds) ->
  claim env o2 b2 (s1 <|s_now := now2|>) = (Ok ids2, s2) ->
  (forall k, In k ids1 -> In k ids2 -> False) /\
  (forall n, In n s2.(s_db).(db_outbox) -> In n.(nb_id) ids1 ->
     n.(nb_claim_token) = Some o1).
Proof.
  intros H1 Hnow H2. apply claim_ok in H1 as (_ & Hrows1 & _).
  apply claim_ok in H2 as (Hids2 & Hrows2 & _). cbn [s_db s_now update] in *.
  assert (forall n, In n s1.(s_db).(db_outbox) -> In n.(nb_id) ids1 ->
    exists x, n = claim_row o1
      (s.(s_now) + seconds env.(notification_worker_lease_seconds)) x) as Hclaimed.
  { intros n Hn Hid. rewrite Hrows1 in Hn. apply in_map_iff in Hn as (x & <- & _).
    destruct (existsb _ ids1) eqn:E; [by exists x|]. exfalso.
    apply (proj2 (not_true_iff_false _)) in E. apply E, existsb_exists.
    exists (nb_id x). split; [done|lia]. }
  assert (forall k, In k ids1 -> In k ids2 -> False) as Hdisj.
  { intros k Hk1 Hk2. rewrite Hids2 in Hk2.
    apply in_map_iff in Hk2 as (n & <- & Hn). apply take_In in Hn.
    apply filter_In in Hn as [Hn Hav].
    destruct (Hclaimed n Hn Hk1) as [x ->]. rewrite available_claimed in Hav. lia. }
  split; [done|]. intros n Hn Hid. rewrite Hrows2 in Hn.
  apply in_map_iff in Hn as (x & <- & Hx).
  assert (In (nb_id x) ids1) as Hid1 by (by destruct (existsb _ ids2)).
  destruct (existsb _ ids2) eqn:E.
  - apply existsb_exists in E as (k & Hk & Hxk). exfalso.
    apply (Hdisj (nb_id x)); [done|]. assert (nb_id x = k) as -> by lia. done.
  - by destruct (Hclaimed x Hx Hid1) as [y ->].
Qed.

Definition witness_sender : sender_env := mk_sender_env true 120 100 (fun _ => Ok tt).
Definition outbox_of_two : session :=
  let s := (enqueue 1 "e" "k1" [] None (session_of sample_db 0)).2 in
  (enqueue 2 "e" "k2" [] None s).2.

Lemma claims_are_disjoint_witness :
  let s1 := (claim witness_sender "w1" (Some 1) outbox_of_two).2 in
  let s2 := (claim witness_sender "w2" None (s1 <|s_now := 60000000|>)).2 in
  List.Forall (fun n => In n.(nb_id) [1] -> n.(nb_claim_token) = Some "w1")
    s2.(s_db).(db_outbox).
Proof.
  intros s1 s2.
  assert (claim witness_sender "w1" (Some 1) outbox_of_two = (Ok [1], s1)) as H1
    by (vm_compute; reflexivity).
  assert (claim witness_sender "w2" None (s1 <|s_now := 60000000|>) = (Ok [2], s2))
    as H2 by (vm_compute; reflexivity).
  apply List.Forall_forall.
  exact (proj2 (claims_are_disjoint witness_sender "w1" "w2" (Some 1) None
    outbox_of_two [1] s1 60000000 [2] s2 H1 eq_refl H2)).
Defined.

(** ** Delivery *)

(** One delivery step settles the row it was given: a row claimed by this
    worker ends up skipped, sent or failed with its claim released; a failure
    counts one attempt and schedules the next one between one minute and one
    hour later; rows it does not hold are left alone. *)
Theorem delivery_settles_row env owner sent k s n s' r :
  tbl_get k s.(s_db).(db_outbox) = Some n -> 0 <= n.(nb_attempts) ->
  deliver_one env owner sent k s = (Ok r, s') ->
  if n.(nb_claim_token) == Some owner then
    exists n', tbl_get k s'.(s_db).(db_outbox) = Some n' /\
      n'.(nb_claim_token) = None /\ n'.(nb_claim_expires_at) = None /\
      match n'.(nb_status) with
      | OS_SKIPPED => env.(smtp_enabled) = false /\ r = sent
      | OS_SENT => r = sent + 1 /\ n'.(nb_attempts) = n.(nb_attempts) + 1
      | OS_FAILED => r = sent /\ n'.(nb_attempts) = n.(nb_attempts) + 1 /\
          exists d, n'.(nb_next_attempt_at) = Some (s.(s_now) + seconds d)
                    /\ 60 <= d <= 3600
      | _ => False
      end
  else r = sent /\ s' = s.
Proof.
  intros Hn Hatt. unfold deliver_one. unfold bind at 1, read at 1, gets at 1.
  rewrite Hn. destruct (nb_claim_token n == Some owner) eqn:Hc; cbn [negb];
    [|by intros [= <- <-]].
  assert (forall f v, (forall x, nb_id (f x) = nb_id x) ->
    (upd_outbox k f ;;; commit ;;; ret v) s = (Ok r, s') ->
    r = v /\ tbl_get k s'.(s_db).(db_outbox) = Some (f n)) as Hupd.
  { intros f v Hf. unfold bind at 1, upd_outbox, write, modify. unfold bind.
    destruct (commit _) as [[u|e] s1] eqn:Hcm; [|done]. intros [= <- <-].
    apply commit_cases in Hcm as [-> _]. split; [done|]. cbn.
    by apply tbl_get_update_eq. }
  destruct (smtp_enabled env) eqn:He; cbn [negb].
  - unfold bind at 1, utcnow, gets. destruct (transport_send env n) as [u|e];
      intros H; apply Hupd in H as [-> Hget]; try done;
      eexists; (split; [exact Hget|]); cbn; do 2 (split; [done|]).
    + done.
    + split; [done|]. split; [done|]. eexists. split; [reflexivity|].
      unfold backoff_seconds.
      assert (0 <= Z.min (nb_attempts n + 1 - 1) 6 <= 6) as Hm by lia.
      generalize dependent (Z.min (nb_attempts n + 1 - 1) 6). intros m Hm.
      assert (m = 0 \/ m = 1 \/ m = 2 \/ m = 3 \/ m = 4 \/ m = 5 \/ m = 6) as Hc'
        by lia.
      repeat destruct Hc' as [->|Hc']; subst; cbn; lia.
  - intros H. apply Hupd in H as [-> Hget]; [|done]. eexists.
    split; [exact Hget|]. done.
Qed.

Lemma delivery_settles_row_witness :
  let s := (claim witness_sender "w1" (Some 1) outbox_of_two).2 in
  let env := mk_sender_env true 120 100 (fun _ => Raise (OtherError "SMTPException")) in
  exists n', tbl_get 1 (deliver_one env "w1" 0 1 s).2.(s_db).(db_outbox) = Some n'
    /\ n'.(nb_claim_token) = None.
Proof.
  intros s env.
  destruct (tbl_get 1 (db_outbox (s_db s))) as [n|] eqn:Hn;
    [|exfalso; vm_compute in Hn; discriminate].
  destruct (deliver_one env "w1" 0 1 s) as [[r|e] s'] eqn:E;
    [|exfalso; vm_compute in E; discriminate].
  pose proof (delivery_settles_row env "w1" 0 1 s n s' r Hn) as H.
  vm_compute in Hn. injection Hn as <-.
  specialize (H ltac:(vm_compute; discriminate) E). cbn [nb_claim_token] in H.
  change (Some "w1" == Some "w1") with true in H. cbv iota in H.
  destruct H as (n' & H1 & H2 & _). exists n'. split; [exact H1|exact H2].
Defined.
