(* ===== verification/Orchestrator.v ===== *)
(** Invoice funding across wallet credit and saved payment methods, and the
    vaulting of those methods: src/app/services/payments/orchestrator.py, with
    the gateway contract of src/app/services/payments/base.py and the registry
    of src/app/services/payments/registry.py.

    A gateway adapter talks to a payment provider; here it is a record of the
    answers its methods give, the charge answer depending on every charge sent
    before.  Charges sent are logged in the session and survive rollbacks. *)
From Stdlib Require Import ZArith Lia.
From stdpp Require Import base numbers list strings pretty.
From S2P Require Import Prelude Calendar Models Session Ledger Invoices Outbox.
#[local] Open Scope Z_scope.
#[local] Open Scope py_scope.

(** * The gateway contract *)

Inductive gateway_status : Type :=
| GR_SUCCEEDED | GR_REQUIRES_ACTION | GR_DECLINED | GR_TRANSIENT_ERROR.
#[export] Instance gateway_status_eq_dec : EqDecision gateway_status.
Proof. solve_decision. Defined.

(** [GatewayChargeResult] *)
Record charge_result : Type := mk_charge_result {
  gc_status : gateway_status;
  gc_external_ref : option string;
  gc_client_secret : option string;
  gc_failure_code : option string;
  gc_failure_message : option string
}.

(** [GatewayRefundResult] *)
Record refund_result : Type := mk_refund_result {
  gf_status : gateway_status;
  gf_external_ref : option string;
  gf_failure_code : option string;
  gf_failure_message : option string
}.

(** [GatewayPaymentMethod] *)
Record gateway_method : Type := mk_gateway_method {
  gm_external_ref : string;
  gm_customer_ref : option string;
  gm_method_type : string;
  gm_label : option string;
  gm_brand : option string;
  gm_last4 : option string;
  gm_metadata : list (string * string)
}.

(** [GatewayVaultSetup] *)
Record vault_setup : Type := mk_vault_setup {
  gv_external_ref : string;
  gv_approval_url : string;
  gv_customer_ref : option string
}.

(** Arguments of one [refund_payment] call. *)
Record refund_request : Type := mk_refund_request {
  rr_external_ref : string;
  rr_amount_cents : Z;
  rr_currency : string;
  rr_idempotency_key : string;
  rr_reason : option string
}.

(** [PaymentGateway]; the vault methods are looked up with [getattr] and may
    be missing. *)
Record gateway : Type := mk_gateway {
  charge_off_session : list charge_request -> charge_request ->
    outcome exn charge_result;
  refund_payment : refund_request -> outcome exn refund_result;
  create_customer : Z -> option string -> outcome exn string;
  create_setup_intent : string -> outcome exn string;
  get_payment_method : string -> outcome exn gateway_method;
  detach_payment_method : string -> outcome exn unit;
  create_vault_setup : option (Z -> option string -> outcome exn vault_setup);
  complete_vault_setup : option (string -> outcome exn string)
}.

(** [PaymentGatewayRegistry._gateways], keyed by lower-case name. *)
Abbreviation registry := (list (string * gateway)).

Definition maybe_get (reg : registry) (name : string) : option gateway :=
  match List.find (fun g => g.1 == str_lower name) reg with
  | Some (_, g) => Some g
  | None => None
  end.
Definition registry_get (reg : registry) (name : string) : Meth gateway :=
  unwrap (maybe_get reg name)
    (GatewayNotConfiguredError ("Payment gateway '" +:+ name +:+ "' is not configured")).
(** [register] and [unregister] *)
Definition unregister (reg : registry) (name : string) : registry :=
  List.filter (fun g => g.1 != str_lower name) reg.
Definition register (reg : registry) (name : string) (g : gateway) : registry :=
  unregister reg name ++ [(str_lower name, g)].

Definition answer {A} (o : outcome exn A) : Meth A :=
  match o with Ok a => ret a | Raise e => raise e end.

(** * Funding *)

(** [InvoiceFundingResult] *)
Record funding_result : Type := mk_funding_result {
  fr_funded : bool;
  fr_allocated_cents : Z;
  fr_remaining_cents : Z;
  fr_pending_action : bool;
  fr_client_secret : option string;
  fr_payment_id : option Z
}.

Definition funding_result_of (invoice_id : Z) (pending_action : bool)
    (client_secret : option string) (payment_id : option Z)
  : Meth funding_result :=
  inv <- the_invoice invoice_id ;;
  allocated <- allocated_cents invoice_id ;;
  ret (mk_funding_result (allocated =? inv.(in_amount_cents)) allocated
         (Z.max 0 (inv.(in_amount_cents) - allocated)) pending_action
         client_secret payment_id).
Definition plain_result (invoice_id : Z) : Meth funding_result :=
  funding_result_of invoice_id false None None.

Definition payment_status_of (g : gateway_status) : payment_status :=
  match g with
  | GR_SUCCEEDED => PS_SUCCEEDED
  | GR_REQUIRES_ACTION => PS_PENDING
  | _ => PS_FAILED
  end.

Definition opt_ref (o : option Z) : option string :=
  match o with Some n => Some (pretty n) | None => None end.

(** [CreditLedgerService.credit] with the invoice's nullable reseller. *)
Definition credit_invoice_owner (reseller_id : option Z) (amount : Z)
    (args : entry_context) : Meth ledger_entry :=
  match reseller_id with
  | Some k => credit k amount args
  | None => require_integer_cents amount true ;;; raise (ResellerNotFoundError 0)
  end.

Definition topup_args (i : invoice) (payment_id : Z) : entry_context :=
  no_context
    <|ctx_description := Some ("Paid top-up invoice " +:+ pretty i.(in_invoice_number))|>
    <|ctx_invoice_id := Some i.(in_id)|>
    <|ctx_payment_id := Some payment_id|>
    <|ctx_reference_type := Some "topup_invoice"|>
    <|ctx_reference_id := Some (pretty i.(in_id))|>
    <|ctx_idempotency_key := Some ("topup-invoice:" +:+ pretty i.(in_id))|>.

(** [try: NotificationService.enqueue(...) except ValueError: pass] *)
Definition notify_quietly (reseller_id : option Z) (event key : string)
    (data : dict) : Meth unit :=
  try_catch
    (k <- deref reseller_id ;; enqueue k event key data None ;;; ret tt)
    (fun e => if is_value_error e then ret tt else raise e).

Definition finalize_success (payment_id : Z) : Meth unit :=
  now <- utcnow ;;
  upd_payment payment_id (fun p =>
    p <|pm_status := PS_SUCCEEDED|>
      <|pm_processed_at := match p.(pm_processed_at) with
                           | Some t => Some t | None => Some now end|>
      <|pm_failure_code := None|> <|pm_failure_message := None|>) ;;;
  flush ;;;
  p <- the_payment payment_id ;;
  mark_paid_if_fully_allocated p.(pm_invoice_id) ;;;
  i <- the_invoice p.(pm_invoice_id) ;;
  (if (i.(in_status) == IS_PAID) && (i.(in_purpose) == IP_CREDIT_TOPUP) then
     credit_invoice_owner i.(in_reseller_id) i.(in_amount_cents)
       (topup_args i payment_id) ;;;
     notify_quietly i.(in_reseller_id) "topup_received"
       ("topup-received:" +:+ pretty i.(in_id))
       [("invoice_id", JInt i.(in_id));
        ("invoice_number", JInt i.(in_invoice_number));
        ("amount_cents", JInt i.(in_amount_cents));
        ("currency", JStr i.(in_currency))]
   else ret tt) ;;;
  flush.

Definition charge_key (i : invoice) (m : pay_method) (amount : Z) : string :=
  "invoice-" +:+ pretty i.(in_id) +:+ "-" +:+ m.(mt_provider) +:+ "-"
  +:+ pretty m.(mt_id) +:+ "-" +:+ pretty amount +:+ "-"
  +:+ invoice_purpose_value i.(in_purpose).

(** The call leaves the process: it is logged whether it answers or raises. *)
Definition send_charge (g : gateway) (req : charge_request) : Meth charge_result :=
  before <- gets s_charges ;;
  modify (fun s => s <|s_charges := s.(s_charges) ++ [req]|>) ;;;
  answer (g.(charge_off_session) before req).

Definition insert_payment (p : Z -> payment) : Meth Z :=
  t <- read db_payments ;;
  write (fun d => d <|db_payments := d.(db_payments) ++ [p (tbl_fresh d.(db_payments))]|>) ;;;
  flush ;;;
  ret (tbl_fresh t).

(** A Stripe method must belong to the reseller's Stripe customer. *)
Definition foreign_stripe_method (r : reseller) (m : pay_method) : bool :=
  (m.(mt_provider) == "stripe")
  && match m.(mt_provider_customer_ref) with
     | None => true
     | Some c => Some c != r.(rs_stripe_customer_ref)
     end.

Definition charge_method (reg : registry) (reseller_id invoice_id : Z)
    (m : pay_method) (amount_cents : Z) : Meth funding_result :=
  r <- the_reseller reseller_id ;;
  if foreign_stripe_method r m then plain_result invoice_id
  else match maybe_get reg m.(mt_provider) with
  | None => plain_result invoice_id
  | Some g =>
      i <- the_invoice invoice_id ;;
      let key := charge_key i m amount_cents in
      outcome <- send_charge g (mk_charge_request m.(mt_provider)
        m.(mt_provider_customer_ref) m.(mt_provider_method_ref) amount_cents
        i.(in_currency) key) ;;
      now <- utcnow ;;
      let status := payment_status_of outcome.(gc_status) in
      pid <- insert_payment (fun id =>
        mk_payment id invoice_id m.(mt_provider) status amount_cents
          i.(in_currency) outcome.(gc_external_ref) outcome.(gc_failure_code)
          outcome.(gc_failure_message)
          [("saved_method_id", JInt m.(mt_id));
           ("provider_method_ref", JStr m.(mt_provider_method_ref));
           ("idempotency_key", JStr key)]
          (if status == PS_PENDING then None else Some now) None) ;;
      match status with
      | PS_SUCCEEDED =>
          finalize_success pid ;;;
          funding_result_of invoice_id false None (Some pid)
      | PS_PENDING =>
          upd_invoice invoice_id (fun x => x <|in_status := IS_PENDING_ACTION|>) ;;;
          flush ;;;
          funding_result_of invoice_id true outcome.(gc_client_secret) (Some pid)
      | _ => funding_result_of invoice_id false None (Some pid)
      end
  end.

Fixpoint charge_each (reg : registry) (reseller_id invoice_id : Z)
    (methods : list pay_method) (amount_cents : Z) : Meth funding_result :=
  match methods with
  | [] => plain_result invoice_id
  | m :: methods' =>
      res <- charge_method reg reseller_id invoice_id m amount_cents ;;
      if res.(fr_funded) || res.(fr_pending_action) then ret res
      else charge_each reg reseller_id invoice_id methods' amount_cents
  end.

Definition charge_methods (reg : registry) (reseller_id invoice_id : Z)
    (methods : list pay_method) (amount_cents : Z) : Meth funding_result :=
  if amount_cents <=? 0 then
    mark_paid_if_fully_allocated invoice_id ;;; plain_result invoice_id
  else charge_each reg reseller_id invoice_id methods amount_cents.

Definition credit_ordinal (invoice_id : Z) (d : db) : Z :=
  Z.of_nat (length (List.filter (fun p =>
    (p.(pm_invoice_id) =? invoice_id) && (p.(pm_gateway) == "credit"))
    d.(db_payments))).

Definition credit_debit_args (i : invoice) (r : reseller) (payment_id : Z)
  : entry_context :=
  no_context
    <|ctx_description :=
        Some ("Credit allocation to invoice " +:+ pretty i.(in_invoice_number))|>
    <|ctx_invoice_id := Some i.(in_id)|>
    <|ctx_payment_id := Some payment_id|>
    <|ctx_service_id := i.(in_service_id)|>
    <|ctx_reference_type := Some "invoice_credit"|>
    <|ctx_reference_id := Some (pretty i.(in_id))|>
    <|ctx_idempotency_key :=
        Some ("invoice-credit:" +:+ pretty i.(in_id) +:+ ":" +:+ pretty payment_id)|>
    <|ctx_created_by_user_id := Some r.(rs_user_id)|>.

Definition apply_credit (reseller_id invoice_id requested_cents : Z) : Meth unit :=
  r <- the_reseller reseller_id ;;
  let available := Z.max 0 r.(rs_cached_balance_cents) in
  let amount := Z.min available requested_cents in
  if amount <=? 0 then ret tt
  else
    i <- the_invoice invoice_id ;;
    ordinal <- read (credit_ordinal invoice_id) ;;
    now <- utcnow ;;
    pid <- insert_payment (fun id =>
      mk_payment id invoice_id "credit" PS_SUCCEEDED amount i.(in_currency)
        (Some ("credit:" +:+ pretty invoice_id +:+ ":" +:+ pretty (ordinal + 1)))
        None None [("source", JStr "reseller_credit")] (Some now) None) ;;
    e <- debit reseller_id amount (credit_debit_args i r pid) false ;;
    upd_payment pid (fun p =>
      p <|pm_metadata := [("source", JStr "reseller_credit");
                          ("ledger_entry_id", JInt e.(le_id))]|>) ;;;
    mark_paid_if_fully_allocated invoice_id.

Definition fund_by_preference (reg : registry) (reseller_id invoice_id : Z)
    (methods : list pay_method) (remaining_cents : Z) : Meth funding_result :=
  r <- the_reseller reseller_id ;;
  early <-
    (if r.(rs_charge_preference) == CP_PAYMENT_FIRST then
       first <- charge_methods reg reseller_id invoice_id methods remaining_cents ;;
       if first.(fr_funded) || first.(fr_pending_action) then ret (Some first)
       else
         apply_credit reseller_id invoice_id first.(fr_remaining_cents) ;;;
         ret None
     else apply_credit reseller_id invoice_id remaining_cents ;;; ret None) ;;
  match early with
  | Some first => ret first
  | None =>
      after_credit <- plain_result invoice_id ;;
      if after_credit.(fr_funded) then
        mark_paid_if_fully_allocated invoice_id ;;; ret after_credit
      else
        charge_methods reg reseller_id invoice_id methods
          after_credit.(fr_remaining_cents)
  end.

Definition lock_funding_rows (reseller_id invoice_id : Z) : Meth invoice :=
  ro <- read (fun d => tbl_get reseller_id d.(db_resellers)) ;;
  r <- unwrap ro (InvoiceError "Reseller not found") ;;
  io <- invoice_get_for_update invoice_id ;;
  i <- unwrap io (InvoiceError "Invoice not found") ;;
  throw_if (i.(in_reseller_id) != Some r.(rs_id)) (InvoiceError "Invoice not found") ;;;
  throw_if (i.(in_status) == IS_VOID)
    (InvoiceError "Invoice cannot be paid in its current state") ;;;
  ret i.

(** The newest pending payment, if the invoice waits for one. *)
Definition pending_payment (invoice_id : Z) (d : db) : option payment :=
  last (List.filter (fun p =>
    (p.(pm_invoice_id) =? invoice_id) && (p.(pm_status) == PS_PENDING))
    d.(db_payments)).

Definition pending_funding_result (i : invoice) : Meth (option funding_result) :=
  if i.(in_status) != IS_PENDING_ACTION then ret None
  else
    p <- read (pending_payment i.(in_id)) ;;
    match p with
    | None => ret None
    | Some p =>
        res <- funding_result_of i.(in_id) true None (Some p.(pm_id)) ;;
        ret (Some res)
    end.

(** [ResellerDAO.list_payment_methods(enabled_only=True)]: by tier, then id. *)
Fixpoint insert_by_tier (m : pay_method) (l : list pay_method) : list pay_method :=
  match l with
  | [] => [m]
  | x :: l' => if m.(mt_tier) <? x.(mt_tier) then m :: l else x :: insert_by_tier m l'
  end.
Definition list_payment_methods (reseller_id : Z) (d : db) : list pay_method :=
  fold_left (fun acc m => insert_by_tier m acc)
    (List.filter (fun m => (m.(mt_reseller_id) =? reseller_id) && m.(mt_enabled))
       d.(db_methods)) [].

Definition methods_for (reseller_id : Z) (selected : option Z)
  : Meth (list pay_method) :=
  methods <- read (list_payment_methods reseller_id) ;;
  match selected with
  | None => ret methods
  | Some k =>
      let chosen := List.filter (fun m => m.(mt_id) =? k) methods in
      throw_if (match chosen with [] => true | _ => false end)
        (PaymentMethodOwnershipError "Payment method not found") ;;;
      ret chosen
  end.

Definition fund_invoice (reg : registry) (reseller_id invoice_id : Z)
    (payment_method_id : option Z) : Meth funding_result :=
  i <- lock_funding_rows reseller_id invoice_id ;;
  initial <- plain_result invoice_id ;;
  if initial.(fr_funded) then
    mark_paid_if_fully_allocated invoice_id ;;; ret initial
  else
    pending <- pending_funding_result i ;;
    match pending with
    | Some res => ret res
    | None =>
        methods <- methods_for reseller_id payment_method_id ;;
        if match payment_method_id with Some _ => true | None => false end
           || (i.(in_purpose) == IP_CREDIT_TOPUP)
        then charge_methods reg reseller_id invoice_id methods
               initial.(fr_remaining_cents)
        else fund_by_preference reg reseller_id invoice_id methods
               initial.(fr_remaining_cents)
    end.

(** * Frames: what the callees leave alone *)

(** The rows settlement reads. *)
Definition same_money (i0 : list invoice) (p0 : list payment) (d : db) : Prop :=
  d.(db_invoices) = i0 /\ d.(db_payments) = p0.

Lemma append_locked_same_money i0 p0 r et n c neg :
  keeps_db (same_money i0 p0) (append_locked r et n c neg).
Proof. unfold append_locked. keeps_tac. Qed.
#[export] Hint Resolve append_locked_same_money : dcim.

Lemma debit_same_money i0 p0 k n a neg : keeps_db (same_money i0 p0) (debit k n a neg).
Proof. unfold debit, require_integer_cents, lock_reseller. keeps_tac. Qed.
Lemma credit_same_money i0 p0 k n a : keeps_db (same_money i0 p0) (credit k n a).
Proof. unfold credit, require_integer_cents, lock_reseller. keeps_tac. Qed.
#[export] Hint Resolve debit_same_money credit_same_money : dcim.

Lemma credit_owner_same_money i0 p0 k n a :
  keeps_db (same_money i0 p0) (credit_invoice_owner k n a).
Proof. unfold credit_invoice_owner, require_integer_cents. keeps_tac. Qed.

Lemma enqueue_same_money i0 p0 r e k d rc :
  keeps_db (same_money i0 p0) (enqueue r e k d rc).
Proof.
  unfold enqueue, scalar_one. keeps_tac.
Qed.
#[export] Hint Resolve credit_owner_same_money enqueue_same_money : dcim.

Lemma notify_same_money i0 p0 r e k d :
  keeps_db (same_money i0 p0) (notify_quietly r e k d).
Proof. unfold notify_quietly. keeps_tac. Qed.
#[export] Hint Resolve notify_same_money : dcim.

(** ** What funding an invoice writes *)

(** An invariant that does not speak of the rows funding writes (invoices,
    payments, queued notifications, the log of charges sent), survives the undoing
    of a savepoint, and is kept by the ledger's own operations. *)
Record funding_stable (I : session -> Prop) : Prop := mk_funding_stable {
  st_invoices : forall s t, I s -> I (s <|s_db := s.(s_db) <|db_invoices := t|>|>);
  st_payments : forall s t, I s -> I (s <|s_db := s.(s_db) <|db_payments := t|>|>);
  st_outbox : forall s t, I s -> I (s <|s_db := s.(s_db) <|db_outbox := t|>|>);
  st_charges : forall s t, I s -> I (s <|s_charges := t|>);
  st_savepoint : forall s s', I s -> I s' -> I (s' <|s_db := s.(s_db)|>);
  st_credit : forall k n a, keeps I (credit k n a);
  st_debit : forall k n a neg, keeps I (debit k n a neg)
}.

Section FundingFrame.
Context (I : session -> Prop) (Hst : funding_stable I) (reg : registry).

Lemma frame_upd_invoice k f : keeps I (upd_invoice k f).
Proof. intros s Hs. apply wp_write. by apply st_invoices. Qed.
Lemma frame_upd_payment k f : keeps I (upd_payment k f).
Proof. intros s Hs. apply wp_write. by apply st_payments. Qed.
Lemma frame_insert_payment p : keeps I (insert_payment p).
Proof.
  unfold insert_payment. keeps_tac. intros s Hs. apply wp_write. by apply st_payments.
Qed.
Lemma frame_nested {A} (m : Meth A) : keeps I m -> keeps I (begin_nested m).
Proof.
  intros Hm s Hs. unfold begin_nested. wp_step. apply wp_flush; [|auto].
  intros _ _. unfold wp.
  assert (keeps I (x <- m ;; flush ;;; ret x)) as Hb by keeps_tac.
  specialize (Hb s Hs). unfold wp in Hb.
  destruct (bind m _ s) as [[a|e] s']; [done|]. by apply st_savepoint.
Qed.
#[local] Hint Resolve frame_upd_invoice frame_upd_payment frame_insert_payment
  st_credit st_debit : dcim.

Lemma frame_enqueue r e k d rc : keeps I (enqueue r e k d rc).
Proof.
  unfold enqueue, scalar_one. keeps_tac. apply frame_nested. keeps_tac.
  intros s Hs. apply wp_write. exact (st_outbox I Hst s _ Hs).
Qed.
#[local] Hint Resolve frame_enqueue : dcim.
Lemma frame_notify r e k d : keeps I (notify_quietly r e k d).
Proof. unfold notify_quietly. keeps_tac. Qed.
Lemma frame_mark_paid k : keeps I (mark_paid_if_fully_allocated k).
Proof.
  unfold mark_paid_if_fully_allocated, invoice_get_for_update, allocated_cents. keeps_tac.
Qed.
Lemma frame_result k pa cs pid : keeps I (funding_result_of k pa cs pid).
Proof. unfold funding_result_of, allocated_cents. keeps_tac. Qed.
#[local] Hint Resolve frame_notify frame_mark_paid frame_result : dcim.

Lemma frame_finalize pid : keeps I (finalize_success pid).
Proof. unfold finalize_success, credit_invoice_owner, require_integer_cents. keeps_tac. Qed.
Lemma frame_send g req : keeps I (send_charge g req).
Proof. unfold send_charge, answer. keeps_tac. apply keeps_modify. intros s Hs. by apply st_charges. Qed.
#[local] Hint Resolve frame_finalize frame_send : dcim.
Lemma frame_charge_method r k m n : keeps I (charge_method reg r k m n).
Proof. unfold charge_method, plain_result. keeps_tac. Qed.
#[local] Hint Resolve frame_charge_method : dcim.
Lemma frame_charge_each r k ms n : keeps I (charge_each reg r k ms n).
Proof. induction ms; cbn; unfold plain_result; keeps_tac. Qed.
#[local] Hint Resolve frame_charge_each : dcim.
Lemma frame_apply_credit r k n : keeps I (apply_credit r k n).
Proof. unfold apply_credit. keeps_tac. Qed.
#[local] Hint Resolve frame_apply_credit : dcim.

(** Funding an invoice keeps every such invariant. *)
Lemma frame_fund_invoice r k sel : keeps I (fund_invoice reg r k sel).
Proof.
  unfold fund_invoice, lock_funding_rows, invoice_get_for_update,
    pending_funding_result, methods_for, fund_by_preference, charge_methods, plain_result.
  keeps_tac.
Qed.
End FundingFrame.

(** * A gateway to evaluate the methods with *)

(** Accepts every charge and refund; references count the charges sent. *)
Definition accepting_gateway : gateway :=
  mk_gateway
    (fun log _ => Ok (mk_charge_result GR_SUCCEEDED
       (Some ("pi_" +:+ pretty (Z.of_nat (length log)))) None None None))
    (fun _ => Ok (mk_refund_result GR_SUCCEEDED (Some "re_1") None None))
    (fun k _ => Ok ("cus_" +:+ pretty k))
    (fun cus => Ok ("seti_" +:+ cus))
    (fun ref => Ok (mk_gateway_method ref (Some "cus_1") "card" None None None []))
    (fun _ => Ok tt) None None.
Definition sample_registry : registry := [("stripe", accepting_gateway)].
Definition sample_method : pay_method :=
  mk_pay_method 1 1 "stripe" "card" (Some "cus_1") "pm_1" None None None 1 true.
(** Reseller 1 holds a Stripe card; [inv] is the only invoice. *)
Definition sample_invoice (purpose : invoice_purpose) (amount : Z) : invoice :=
  mk_invoice 1 100001 (Some 1) None None None purpose IS_OPEN amount "USD" None
    None None.
Definition billed_session (inv : invoice) : session :=
  session_of (sample_db <|db_methods := [sample_method]|>
                        <|db_invoices := [inv]|>) 1000.
