(* ===== verification/Funding.v ===== *)
(** What funding an invoice guarantees: the orchestrator of Orchestrator.v
    never over-allocates an invoice, reports the exact figures, keeps the credit
    ledger sound, and spares the saved payment methods when wallet credit is
    preferred and covers the invoice. *)
From Stdlib Require Import ZArith Lia.
From stdpp Require Import base numbers list strings pretty.
From S2P Require Import Prelude Calendar Models Session Ledger Invoices Outbox.
From S2P Require Import Orchestrator.
#[local] Open Scope Z_scope.
#[local] Open Scope py_scope.

(** * The state of one invoice while it is being funded *)

(** Invoice [k] is for [a] cents, [x] of which succeeded payments cover. *)
Definition funding (k a x : Z) (s : session) : Prop :=
  tbl_wf s.(s_db).(db_payments) /\
  (exists i, tbl_get k s.(s_db).(db_invoices) = Some i /\ i.(in_amount_cents) = a) /\
  allocated_in k s.(s_db) = x.

Definition is_paid (k : Z) (s : session) : Prop :=
  exists i, tbl_get k s.(s_db).(db_invoices) = Some i /\ i.(in_status) = IS_PAID.

(** The figures of a result are the ones of the state it comes with. *)
Definition exact_figures (a x : Z) (res : funding_result) : Prop :=
  res.(fr_allocated_cents) = x /\ res.(fr_remaining_cents) = Z.max 0 (a - x) /\
  res.(fr_funded) = (x =? a).

(** At least [x] and never more than the total [a]. *)
Definition bounded (k a x : Z) (s : session) : Prop :=
  exists y, funding k a y s /\ x <= y <= a.

Definition settles (k a x : Z) (res : funding_result) (s : session) : Prop :=
  exists y, funding k a y s /\ x <= y <= a /\ exact_figures a y res /\
    (res.(fr_funded) = true -> is_paid k s).

Lemma funding_same k a x s s' :
  same_money s.(s_db).(db_invoices) s.(s_db).(db_payments) s'.(s_db) ->
  funding k a x s -> funding k a x s'.
Proof. intros [Hi Hp]. unfold funding, allocated_in. by rewrite Hi, Hp. Qed.

Lemma is_paid_same k s s' :
  same_money s.(s_db).(db_invoices) s.(s_db).(db_payments) s'.(s_db) ->
  is_paid k s -> is_paid k s'.
Proof. intros [Hi Hp]. unfold is_paid. by rewrite Hi. Qed.

Lemma wp_same_money {A} (m : Meth A) (Q : A -> session -> Prop)
    (R : exn -> session -> Prop) s :
  (forall i0 p0, keeps_db (same_money i0 p0) m) ->
  (forall r s', same_money s.(s_db).(db_invoices) s.(s_db).(db_payments) s'.(s_db) ->
     match r with Ok a => Q a s' | Raise e => R e s' end) ->
  wp m Q R s.
Proof.
  intros Hm HQ. eapply wp_keeps; [apply Hm|done| |].
  - intros a s' H. by apply (HQ (Ok a) s').
  - intros e s' H. by apply (HQ (Raise e) s').
Qed.

Lemma plain_result_spec k a x pa cs pid s :
  funding k a x s ->
  wp (funding_result_of k pa cs pid)
     (fun res s' => s' = s /\ exact_figures a x res /\ res.(fr_pending_action) = pa)
     (fun _ s' => s' = s) s.
Proof.
  intros (_ & (i & Hi & Ha) & Hx).
  unfold funding_result_of, allocated_cents. repeat sess_step.
  - by rewrite Hi in Hnone.
  - rewrite Hi in Hsome. injection Hsome as <-. rewrite Hx, Ha. done.
Qed.

(** Settling keeps the figures and marks the invoice when it is covered. *)
Lemma mark_paid_spec k a x s :
  funding k a x s -> x <= a ->
  wp (mark_paid_if_fully_allocated k)
     (fun _ s' => funding k a x s' /\ (x = a -> is_paid k s'))
     (fun _ s' => funding k a x s') s.
Proof.
  intros (Hwf & (i & Hi & Ha) & Hx) Hle. unfold wp.
  rewrite (mark_paid_eq k s i Hi), Ha, Hx.
  assert ((a <? x) = false) as -> by lia.
  assert (in_id i = k) as Hk by (by apply tbl_get_key in Hi).
  set (s1 := s <|s_db := _|>).
  pose proof (marked_frame i s.(s_now) s.(s_db)) as (Hal & Hp & _).
  pose proof (marked_get i s.(s_now) s.(s_db)) as Hget. rewrite Hk in Hget, Hal.
  specialize (Hget Hi). rewrite Hx in Hget, Hal.
  assert (funding k a x s1) as Hf.
  { split; [subst s1; cbn; by rewrite Hp|]. split; [|done]. eexists.
    split; [exact Hget|]. destruct (_ =? _); [done|]. by destruct (_ == _). }
  destruct (flush_cases s1) as [-> | [-> | ->]]; [|done..].
  split; [done|]. intros ->. eexists. split; [exact Hget|].
  rewrite Ha, Z.eqb_refl. done.
Qed.

(** Inserting a payment row for invoice [k]. *)
Lemma insert_payment_spec k a x (p : Z -> payment) s :
  funding k a x s ->
  (forall id, (p id).(pm_id) = id) ->
  (forall id, (p id).(pm_invoice_id) = k) ->
  let y := if (p 0).(pm_status) == PS_SUCCEEDED then x + (p 0).(pm_amount_cents) else x in
  (forall id, (p id).(pm_status) = (p 0).(pm_status)
              /\ (p id).(pm_amount_cents) = (p 0).(pm_amount_cents)) ->
  wp (insert_payment p)
     (fun pid s' => funding k a y s' /\
        tbl_get pid s'.(s_db).(db_payments) = Some (p pid))
     (fun _ s' => funding k a y s') s.
Proof.
  intros (Hwf & Hi & Hx) Hid Hinv y Hst. unfold insert_payment.
  set (s1 := s <|s_db := s.(s_db) <|db_payments :=
    s.(s_db).(db_payments) ++ [p (tbl_fresh s.(s_db).(db_payments))]|>|>).
  assert (funding k a y s1) as Hf.
  { split; [by apply tbl_wf_snoc|]. split; [done|]. unfold allocated_in in *.
    subst s1. cbn [db_payments s_db update]. rewrite tbl_sum_app, tbl_sum_one, Hx.
    destruct (Hst (tbl_fresh (db_payments (s_db s)))) as [-> ->].
    rewrite Hinv, Z.eqb_refl. cbn [andb]. subst y. destruct (_ == _); lia. }
  repeat sess_step; [|intros; exact Hf]. intros _ _. wp_step. split; [exact Hf|].
  subst s1. cbn [db_payments s_db update]. rewrite tbl_get_app, tbl_get_fresh.
  unfold tbl_get, row_key, keyed_payment. cbn. by rewrite Hid, Z.eqb_refl.
Qed.

(** An update that keeps invoice, status and amount keeps the figures. *)
Lemma upd_payment_funding k a x pid f s :
  funding k a x s ->
  (forall p, (f p).(pm_id) = p.(pm_id)) ->
  (forall p, tbl_get pid s.(s_db).(db_payments) = Some p ->
     (f p).(pm_invoice_id) = p.(pm_invoice_id) /\
     (f p).(pm_status) = p.(pm_status) /\
     (f p).(pm_amount_cents) = p.(pm_amount_cents)) ->
  funding k a x (s <|s_db := s.(s_db) <|db_payments :=
    tbl_update pid f s.(s_db).(db_payments)|>|>).
Proof.
  intros (Hwf & Hi & Hx) Hid Hf. split; [by apply tbl_wf_update|].
  split; [done|]. unfold allocated_in in *. cbn [db_payments s_db update].
  destruct (tbl_get pid (db_payments (s_db s))) as [p|] eqn:Hp.
  - rewrite (tbl_sum_update _ _ _ _ _ p) by done.
    destruct (Hf p eq_refl) as (-> & -> & ->). rewrite Hx. lia.
  - rewrite <- Hx. f_equal. apply tbl_update_absent. intros y Hy Hk.
    apply (tbl_get_wf _ _ Hwf) in Hy. rewrite Hk in Hy. by rewrite Hp in Hy.
Qed.

(** * Each step of the orchestrator *)

Definition succeeded_row (now : Z) (p : payment) : payment :=
  p <|pm_status := PS_SUCCEEDED|>
    <|pm_processed_at := match p.(pm_processed_at) with
                         | Some t => Some t | None => Some now end|>
    <|pm_failure_code := None|> <|pm_failure_message := None|>.

(** Recording that payment [pid] succeeded. *)
Lemma succeed_funding k a x pid p now s :
  funding k a x s ->
  tbl_get pid s.(s_db).(db_payments) = Some p -> p.(pm_invoice_id) = k ->
  let y := if p.(pm_status) == PS_SUCCEEDED then x else x + p.(pm_amount_cents) in
  funding k a y (s <|s_db := s.(s_db) <|db_payments :=
    tbl_update pid (succeeded_row now) s.(s_db).(db_payments)|>|>).
Proof.
  intros (Hwf & Hi & Hx) Hp Hk y. split; [by apply tbl_wf_update|].
  split; [done|]. unfold allocated_in in *. cbn [db_payments s_db update].
  rewrite (tbl_sum_update _ _ _ _ _ p) by done. rewrite Hx.
  cbn [succeeded_row pm_invoice_id pm_status pm_amount_cents update].
  rewrite Hk, Z.eqb_refl, py_eq_refl. cbn [andb]. subst y. destruct (_ == _); lia.
Qed.

(** What follows the settlement touches neither invoices nor payments. *)
Lemma announce_same_money i0 p0 i pid :
  keeps_db (same_money i0 p0)
    (if (i.(in_status) == IS_PAID) && (i.(in_purpose) == IP_CREDIT_TOPUP)
     then
       credit_invoice_owner i.(in_reseller_id) i.(in_amount_cents) (topup_args i pid) ;;;
       notify_quietly i.(in_reseller_id) "topup_received"
         ("topup-received:" +:+ pretty i.(in_id))
         [("invoice_id", JInt i.(in_id));
          ("invoice_number", JInt i.(in_invoice_number));
          ("amount_cents", JInt i.(in_amount_cents));
          ("currency", JStr i.(in_currency))]
     else ret tt).
Proof. keeps_tac. Qed.

Lemma finalize_success_spec k a x pid p s :
  funding k a x s ->
  tbl_get pid s.(s_db).(db_payments) = Some p -> p.(pm_invoice_id) = k ->
  let y := if p.(pm_status) == PS_SUCCEEDED then x else x + p.(pm_amount_cents) in
  y <= a ->
  wp (finalize_success pid)
     (fun _ s' => funding k a y s' /\ (y = a -> is_paid k s'))
     (fun _ s' => funding k a y s') s.
Proof.
  intros Hf Hp Hk y Hle. unfold finalize_success. wp_step. apply wp_gets.
  wp_step. apply wp_write. fold (succeeded_row s.(s_now)).
  pose proof (succeed_funding k a x pid p s.(s_now) s Hf Hp Hk) as Hf1.
  cbv zeta in Hf1. fold y in Hf1. set (s1 := s <|s_db := _|>) in *.
  assert (tbl_get pid s1.(s_db).(db_payments) = Some (succeeded_row s.(s_now) p))
    as Hp1 by (by apply tbl_get_update_eq).
  wp_step. apply wp_flush; [intros _ _|intros; exact Hf1].
  repeat sess_step; [exact Hf1|]. rewrite Hp1 in Hsome. injection Hsome as <-.
  change (pm_invoice_id (succeeded_row (s_now s) p)) with (pm_invoice_id p).
  rewrite Hk. eapply wp_conseq; [by apply mark_paid_spec| |auto].
  intros _ s2 [Hf2 Hpaid]. wp_step. apply wp_the; [done|]. intros i Hi. wp_step.
  apply wp_same_money; [intros; apply announce_same_money|].
  intros [u|e] s3 Hsame; [|by eapply funding_same].
  pose proof (funding_same _ _ _ _ _ Hsame Hf2) as Hf3.
  apply wp_flush; [|intros; exact Hf3]. intros _ _. split; [done|].
  intros Hy. eapply is_paid_same; eauto.
Qed.

(** An over-allocated invoice cannot be settled. *)
Lemma mark_paid_over k a x s :
  funding k a x s -> a < x ->
  mark_paid_if_fully_allocated k s
  = (Raise (InvoiceError "Invoice payment allocations exceed its total"), s).
Proof.
  intros (_ & (i & Hi & Ha) & Hx) Hlt. rewrite (mark_paid_eq k s i Hi), Ha, Hx.
  by assert ((a <? x) = true) as -> by lia.
Qed.

(** So recording a success that would over-allocate raises. *)
Lemma finalize_success_guard k a x pid p s :
  funding k a x s ->
  tbl_get pid s.(s_db).(db_payments) = Some p -> p.(pm_invoice_id) = k ->
  let y := if p.(pm_status) == PS_SUCCEEDED then x else x + p.(pm_amount_cents) in
  wp (finalize_success pid)
     (fun _ s' => y <= a /\ funding k a y s' /\ (y = a -> is_paid k s'))
     (fun _ _ => True) s.
Proof.
  intros Hf Hp Hk y. destruct (Z.le_gt_cases y a) as [Hle|Hgt].
  { eapply wp_conseq; [by eapply (finalize_success_spec k a x pid p)|auto|done]. }
  unfold finalize_success. wp_step. apply wp_gets. wp_step. apply wp_write.
  fold (succeeded_row s.(s_now)).
  pose proof (succeed_funding k a x pid p s.(s_now) s Hf Hp Hk) as Hf1.
  cbv zeta in Hf1. fold y in Hf1. set (s1 := s <|s_db := _|>) in *.
  wp_step. apply wp_flush; [intros _ _|done]. wp_step. apply wp_the; [done|].
  intros p1 Hp1. assert (p1 = succeeded_row s.(s_now) p) as ->.
  { subst s1. cbn [s_db db_payments update] in Hp1.
    rewrite (tbl_get_update_eq pid (succeeded_row s.(s_now)) _ p) in Hp1 by done.
    by injection Hp1 as <-. }
  wp_step. change (pm_invoice_id (succeeded_row (s_now s) p)) with (pm_invoice_id p).
  rewrite Hk. unfold wp. by rewrite (mark_paid_over k a y s1 Hf1) by lia.
Qed.

Definition same_payments (t : list payment) (d : db) : Prop := d.(db_payments) = t.

Lemma finalize_success_payments pid s :
  wp (finalize_success pid)
     (fun _ s' => s'.(s_db).(db_payments)
        = tbl_update pid (succeeded_row s.(s_now)) s.(s_db).(db_payments))
     (fun _ _ => True) s.
Proof.
  unfold finalize_success. wp_step. apply wp_gets. wp_step. apply wp_write.
  fold (succeeded_row s.(s_now)). set (s1 := s <|s_db := _|>).
  eapply (wp_keeps (fun s' => same_payments s1.(s_db).(db_payments) s'.(s_db)));
    [|reflexivity| |done].
  - unfold mark_paid_if_fully_allocated, credit_invoice_owner, notify_quietly, enqueue,
      credit, invoice_get_for_update, allocated_cents, require_integer_cents, scalar_one,
      lock_reseller, append_locked.
    keeps_tac.
  - by intros _ s' ->.
Qed.

(** One off-session charge of exactly the missing amount. *)
Lemma charge_method_spec reg r k a x m amount s :
  funding k a x s -> 0 < amount -> x + amount = a ->
  wp (charge_method reg r k m amount)
     (fun res s' =>
        (funding k a x s' /\ exact_figures a x res) \/
        (funding k a a s' /\ exact_figures a a res /\ is_paid k s'))
     (fun _ s' => bounded k a x s') s.
Proof.
  intros Hf Hpos Hsum.
  assert (forall y s', funding k a y s' -> y = x \/ y = a -> bounded k a x s') as Hb.
  { intros y s' Hy Hor. exists y. split; [done|]. lia. }
  assert (forall s' pa cs pid, funding k a x s' ->
    wp (funding_result_of k pa cs pid)
     (fun res s' =>
        (funding k a x s' /\ exact_figures a x res) \/
        (funding k a a s' /\ exact_figures a a res /\ is_paid k s'))
     (fun _ s' => bounded k a x s') s') as Hplain.
  { intros s' pa cs pid Hs'. eapply wp_conseq; [by apply plain_result_spec| |].
    - intros res s2 (-> & He & _). auto.
    - intros e s2 ->. eauto. }
  unfold charge_method. wp_step. apply wp_the; [eauto|]. intros rr _.
  destruct (foreign_stripe_method _ _); [by apply Hplain|].
  destruct (maybe_get reg (mt_provider m)) as [g|]; [|by apply Hplain].
  wp_step. apply wp_the; [eauto|]. intros i Hi. unfold send_charge.
  do 2 wp_step. apply wp_gets. wp_step. apply wp_modify.
  set (s1 := s <|s_charges := _|>).
  assert (funding k a x s1) as Hf1 by exact Hf. unfold answer.
  destruct (charge_off_session g _ _) as [out|e]; [|apply wp_raise; eauto].
  apply wp_ret. wp_step. apply wp_gets. wp_step. set (p := fun id : Z => mk_payment id _ _ _ _ _ _ _ _ _ _ _).
  eapply wp_conseq; [apply (insert_payment_spec k a x p s1); done| |].
  2:{ intros e s2 H. apply (Hb _ _ H). subst p. cbn [pm_status pm_amount_cents].
      destruct (_ == _); lia. }
  intros pid s2 [Hf2 Hp]. subst p. cbn [pm_status pm_amount_cents] in *.
  destruct (payment_status_of (gc_status out)) eqn:Hst.
  - change (py_eq PS_PENDING PS_SUCCEEDED) with false in Hf2. cbv iota in Hf2.
    wp_step. apply wp_write. set (s3 := s2 <|s_db := _|>).
    assert (funding k a x s3) as Hf3.
    { destruct Hf2 as (? & (j & Hj & Ha) & ?). split; [done|]. split; [|done].
      eexists. split; [by apply tbl_get_update_eq|done]. }
    wp_step. apply wp_flush; eauto.
  - rewrite py_eq_refl in Hf2. rewrite Hsum in Hf2. wp_step.
    eapply wp_conseq; [eapply (finalize_success_spec k a a pid); [done..|]| |].
    + cbn [pm_status]. rewrite py_eq_refl. lia.
    + cbn [pm_status]. rewrite py_eq_refl. intros _ s3 [Hf3 Hpaid].
      eapply wp_conseq; [by apply plain_result_spec| |].
      * intros res s4 (-> & He & _). auto.
      * intros e s4 ->. eauto.
    + cbn [pm_status]. rewrite py_eq_refl. eauto.
  - change (py_eq PS_FAILED PS_SUCCEEDED) with false in Hf2. cbv iota in Hf2. by apply Hplain.
  - change (py_eq PS_REFUNDED PS_SUCCEEDED) with false in Hf2. cbv iota in Hf2. by apply Hplain.
Qed.

Lemma bounded_self k a x s : funding k a x s -> x <= a -> bounded k a x s.
Proof. intros Hf Hle. exists x. split; [done|]. lia. Qed.

Lemma bounded_trans k a x y s : bounded k a y s -> x <= y -> bounded k a x s.
Proof. intros (z & Hz & Hle) Hxy. exists z. split; [done|]. lia. Qed.

Lemma settles_trans k a x y res s : settles k a y res s -> x <= y -> settles k a x res s.
Proof. intros (z & Hz & Hle & ?) Hxy. exists z. split; [done|]. split; [lia|done]. Qed.

(** An unfunded invoice reports itself unfunded. *)
Lemma settles_unfunded k a x res s :
  funding k a x s -> x < a -> exact_figures a x res -> settles k a x res s.
Proof.
  intros Hf Hlt He. exists x. split; [done|]. split; [lia|]. split; [done|].
  destruct He as (_ & _ & ->). intros Hx. exfalso. lia.
Qed.

Lemma charge_each_spec reg r k a x methods amount s :
  funding k a x s -> 0 < amount -> x + amount = a ->
  wp (charge_each reg r k methods amount) (settles k a x) (fun _ => bounded k a x) s.
Proof.
  revert s. induction methods as [|m methods IH]; intros s Hf Hpos Hsum; cbn.
  - eapply wp_conseq; [by apply (plain_result_spec k a x)| |].
    + intros res s' (-> & He & _). apply settles_unfunded; [done|lia|done].
    + intros e s' ->. apply bounded_self; [done|lia].
  - wp_step. eapply wp_conseq; [by apply charge_method_spec| |auto].
    intros res s' [(Hf' & He)|(Hf' & He & Hp)].
    + wp_step; [|by apply IH]. apply wp_ret. apply settles_unfunded; [done|lia|done].
    + destruct He as (H1 & H2 & H3). rewrite H3, Z.eqb_refl. cbn [orb].
      apply wp_ret. exists a. split; [done|]. split; [lia|]. done.
Qed.

Lemma charge_methods_spec reg r k a x methods s :
  funding k a x s -> x <= a ->
  wp (charge_methods reg r k methods (Z.max 0 (a - x))) (settles k a x)
     (fun _ => bounded k a x) s.
Proof.
  intros Hf Hle. unfold charge_methods.
  destruct (Z.leb_spec (Z.max 0 (a - x)) 0).
  - wp_step. assert (x = a) as -> by lia.
    eapply wp_conseq; [by apply (mark_paid_spec k a a)| |].
    + intros _ s1 [Hf1 Hp]. eapply wp_conseq; [by apply (plain_result_spec k a a)| |].
      * intros res s2 (-> & He & _). exists a.
        split; [done|]. split; [lia|]. split; [done|auto].
      * intros e s2 ->. by apply bounded_self.
    + intros e s1 Hf1. by apply bounded_self.
  - apply charge_each_spec; [done|lia..].
Qed.

(** Wallet credit pays what the balance covers of what is asked for. *)
Definition credit_part (rr : reseller) (requested : Z) : Z :=
  Z.max 0 (Z.min (Z.max 0 rr.(rs_cached_balance_cents)) requested).

Lemma apply_credit_exact r k a x s :
  funding k a x s -> x <= a ->
  wp (apply_credit r k (Z.max 0 (a - x)))
     (fun _ s' => exists rr, tbl_get r s.(s_db).(db_resellers) = Some rr /\
        funding k a (x + credit_part rr (a - x)) s')
     (fun _ => bounded k a x) s.
Proof.
  intros Hf Hle. unfold apply_credit.
  assert (bounded k a x s) as Hself by (by apply bounded_self).
  wp_step. apply wp_the; [done|]. intros rr Hrr. unfold credit_part.
  assert (Z.max 0 (Z.min (Z.max 0 (rs_cached_balance_cents rr)) (a - x))
          = Z.min (Z.max 0 (rs_cached_balance_cents rr)) (Z.max 0 (a - x))) as Heq
    by lia.
  set (amount := Z.min _ _). destruct (Z.leb_spec amount 0).
  { apply wp_ret. exists rr. split; [done|]. rewrite Heq. fold amount.
    assert (x + amount = x) as -> by lia. done. }
  wp_step. apply wp_the; [done|]. intros i _. wp_step. apply wp_read.
  wp_step. apply wp_gets. wp_step.
  set (p := fun id : Z => mk_payment id _ _ _ _ _ _ _ _ _ _ _).
  assert (forall s', funding k a (x + amount) s' -> bounded k a x s') as Hb.
  { intros s' Hs'. exists (x + amount). split; [done|]. lia. }
  eapply wp_conseq; [apply (insert_payment_spec k a x p s); done| |].
  2:{ subst p. cbn [pm_status pm_amount_cents]. rewrite py_eq_refl. auto. }
  intros pid s1. subst p. cbn [pm_status pm_amount_cents]. rewrite py_eq_refl.
  intros [Hf1 Hp]. wp_step. apply wp_same_money; [intros; apply debit_same_money|].
  intros [e|e] s2 Hsame; [|by eauto using funding_same].
  pose proof (funding_same _ _ _ _ _ Hsame Hf1) as Hf2.
  wp_step. apply wp_write.
  eapply wp_conseq; [apply (mark_paid_spec k a (x + amount)); [|lia]| |].
  - by apply (upd_payment_funding k a (x + amount) pid _ s2).
  - intros _ s3 [Hf3 _]. exists rr. by rewrite Heq.
  - auto.
Qed.

Lemma apply_credit_spec r k a x s :
  funding k a x s -> x <= a ->
  wp (apply_credit r k (Z.max 0 (a - x))) (fun _ => bounded k a x)
     (fun _ => bounded k a x) s.
Proof.
  intros Hf Hle. eapply wp_conseq; [by apply apply_credit_exact| |auto].
  intros _ s' (rr & _ & Hf'). eexists. split; [exact Hf'|]. unfold credit_part. lia.
Qed.

Lemma after_credit_spec reg r k a x methods s :
  bounded k a x s ->
  wp (after_credit <- plain_result k ;;
      if after_credit.(fr_funded) then
        mark_paid_if_fully_allocated k ;;; ret after_credit
      else charge_methods reg r k methods after_credit.(fr_remaining_cents))
     (settles k a x) (fun _ => bounded k a x) s.
Proof.
  intros (y & Hf & Hle). wp_step.
  eapply wp_conseq; [by apply (plain_result_spec k a y)| |].
  2:{ intros e s' ->. exists y. auto. }
  intros res s' (-> & (H1 & H2 & H3) & _). destruct (fr_funded res) eqn:E.
  - wp_step. assert (y = a) as -> by lia.
    eapply wp_conseq; [by apply (mark_paid_spec k a a)| |].
    + intros _ s1 [Hf1 Hp]. apply wp_ret. exists a.
      split; [done|]. split; [lia|]. split; [|auto].
      unfold exact_figures. by rewrite E.
    + intros e s1 Hf1. exists a. split; [done|lia].
  - rewrite H2. eapply wp_conseq; [apply (charge_methods_spec reg r k a y); [done|lia]| |].
    + intros r0 s1 Hs1. eapply settles_trans; [exact Hs1|lia].
    + intros e s1 Hs1. eapply bounded_trans; [exact Hs1|lia].
Qed.

Lemma fund_by_preference_spec reg r k a x methods s :
  funding k a x s -> x <= a ->
  wp (fund_by_preference reg r k methods (Z.max 0 (a - x))) (settles k a x)
     (fun _ => bounded k a x) s.
Proof.
  intros Hf Hle. unfold fund_by_preference. wp_step.
  apply wp_the; [intros _; by apply bounded_self|]. intros rr _.
  do 2 wp_step.
  - wp_step. eapply wp_conseq; [by apply (charge_methods_spec reg r k a x)| |auto].
    intros res s1 Hs1. wp_step; [by do 2 apply wp_ret|].
    destruct Hs1 as (y & Hf1 & Hy & He & _). destruct He as (_ & -> & _).
    wp_step. eapply wp_conseq; [apply (apply_credit_spec r k a y); [done|lia]| |].
    + intros u s2 Hs2. apply wp_ret. apply after_credit_spec.
      eapply bounded_trans; [exact Hs2|lia].
    + intros e s2 Hs2. eapply bounded_trans; [exact Hs2|lia].
  - wp_step. eapply wp_conseq; [by apply (apply_credit_spec r k a x)| |auto].
    intros u s2 Hs2. apply wp_ret. by apply after_credit_spec.
Qed.

(** * Funding an invoice *)

Lemma wp_iff {A} (m : Meth A) Q R s :
  wp m Q R s <-> match m s with (Ok a, s') => Q a s' | (Raise e, s') => R e s' end.
Proof. done. Qed.

Lemma fund_invoice_spec reg r k sel a x s :
  funding k a x s -> x <= a ->
  wp (fund_invoice reg r k sel) (settles k a x) (fun _ => bounded k a x) s.
Proof.
  intros Hf Hle. assert (bounded k a x s) as Hself by (by apply bounded_self).
  unfold fund_invoice, lock_funding_rows, invoice_get_for_update.
  do 2 wp_step. apply wp_read. wp_step. wp_step; [done|]. wp_step. apply wp_read.
  wp_step. wp_step; [done|]. do 2 wp_step; [done|]. do 2 wp_step; [done|]. wp_step.
  wp_step. eapply wp_conseq; [by apply (plain_result_spec k a x)| |].
  2:{ intros e s' ->. done. }
  intros res s' (-> & He & _). destruct (fr_funded res) eqn:E.
  { destruct He as (H1 & H2 & H3). rewrite E in H3.
    assert (x = a) as -> by (apply Z.eqb_eq; done). wp_step.
    eapply wp_conseq; [by apply (mark_paid_spec k a a)| |].
    - intros _ s1 [Hf1 Hp]. apply wp_ret. exists a. split; [done|].
      split; [lia|]. split; [|auto]. unfold exact_figures. by rewrite E.
    - intros e s1 Hf1. by apply bounded_self. }
  assert (x < a) as Hlt.
  { destruct He as (_ & _ & H3). rewrite E in H3. symmetry in H3.
    apply Z.eqb_neq in H3. lia. }
  assert (in_id a1 = k) as Hk by (by apply tbl_get_key in Hsome0). wp_step.
  eapply (wp_conseq _ (fun o s' => s' = s /\ forall y, o = Some y -> exact_figures a x y)
           _ (fun _ s' => s' = s)).
  - unfold pending_funding_result. wp_step; [by wp_step|]. wp_step. apply wp_read.
    wp_step; [|by wp_step]. wp_step. rewrite Hk.
    eapply wp_conseq; [by apply (plain_result_spec k a x)| |].
    + intros y s1 (-> & Hy & _). apply wp_ret. split; [done|]. by intros z [= <-].
    + by intros e s1 ->.
  - intros [y|] s1 [-> Hy].
    { apply wp_ret. apply settles_unfunded; auto. }
    wp_step. unfold methods_for. wp_step. apply wp_read.
    destruct He as (_ & -> & _).
    assert (forall methods, wp
      (if (match sel with Some _ => true | None => false end)
          || (in_purpose a1 == IP_CREDIT_TOPUP)
       then charge_methods reg r k methods (Z.max 0 (a - x))
       else fund_by_preference reg r k methods (Z.max 0 (a - x)))
      (settles k a x) (fun _ => bounded k a x) s) as Hgo.
    { intros methods. wp_step;
        [by apply charge_methods_spec|by apply fund_by_preference_spec]. }
    destruct sel as [mid|]; [|apply wp_ret, Hgo].
    do 2 wp_step; [done|]. apply wp_ret, Hgo.
  - intros e s1 ->. done.
Qed.

(** C16. Funding an invoice never over-allocates it: whatever the gateways answer
    and whichever exception escapes, the succeeded payments never shrink and
    never exceed the invoice total, the total itself does not move, and a
    returned result carries the exact allocated and remaining amounts, says
    [funded] exactly when the invoice is fully allocated, and then the invoice is
    [PAID]. *)
Theorem fund_invoice_never_overallocates reg r k sel s i :
  tbl_wf s.(s_db).(db_payments) ->
  tbl_get k s.(s_db).(db_invoices) = Some i ->
  let a := i.(in_amount_cents) in
  let x := allocated_in k s.(s_db) in
  x <= a ->
  let (out, s') := fund_invoice reg r k sel s in
  let y := allocated_in k s'.(s_db) in
  x <= y <= a /\
  exists i', tbl_get k s'.(s_db).(db_invoices) = Some i' /\
    i'.(in_amount_cents) = a /\
    match out with
    | Ok res =>
        res.(fr_allocated_cents) = y /\ res.(fr_remaining_cents) = a - y /\
        (res.(fr_funded) = true <-> y = a) /\
        (res.(fr_funded) = true -> i'.(in_status) = IS_PAID)
    | Raise _ => True
    end.
Proof.
  intros Hwf Hi a x Hle.
  assert (funding k a x s) as Hf by (split; [done|]; split; [by exists i|done]).
  pose proof (fund_invoice_spec reg r k sel a x s Hf Hle) as H.
  rewrite wp_iff in H. destruct (fund_invoice reg r k sel s) as [[res|e] s'].
  - destruct H as (y & (_ & (i' & Hi' & Ha) & <-) & Hy & (H1 & H2 & H3) & Hp).
    split; [done|]. exists i'. split; [done|]. split; [done|].
    split; [done|]. split; [lia|]. split; [rewrite H3; apply Z.eqb_eq|].
    intros Hfd. destruct (Hp Hfd) as (i2 & Hi2 & Hst). congruence.
  - destruct H as (y & (_ & (i' & Hi' & Ha) & <-) & Hy).
    split; [done|]. exists i'. done.
Qed.

Lemma fund_invoice_never_overallocates_witness :
  let s := billed_session (sample_invoice IP_DEPLOY_CHARGE 500) in
  let s' := (fund_invoice sample_registry 1 1 None s).2 in
  allocated_in 1 s'.(s_db) = 500 /\ 0 <= allocated_in 1 s'.(s_db) <= 500.
Proof.
  intros s s'. split; [vm_compute; reflexivity|].
  assert (tbl_wf (db_payments (s_db s))) as Hwf by constructor.
  assert (tbl_get 1 (db_invoices (s_db s))
          = Some (sample_invoice IP_DEPLOY_CHARGE 500)) as Hi by reflexivity.
  assert (allocated_in 1 (s_db s) <= 500) as Hle by (vm_compute; discriminate).
  pose proof (fund_invoice_never_overallocates sample_registry 1 1 None s _ Hwf Hi Hle) as H.
  subst s'. destruct (fund_invoice sample_registry 1 1 None s) as [out s'].
  destruct H as [H _]. exact H.
Defined.

(** ** The ledger *)

Lemma ledger_inv_stable : funding_stable (fun s => ledger_inv s.(s_db)).
Proof. split; auto using credit_inv, debit_inv. Qed.

Lemma finalize_success_inv pid : keeps_db ledger_inv (finalize_success pid).
Proof. apply frame_finalize, ledger_inv_stable. Qed.
Lemma fund_invoice_inv reg r k sel : keeps_db ledger_inv (fund_invoice reg r k sel).
Proof. apply frame_fund_invoice, ledger_inv_stable. Qed.
#[export] Hint Resolve finalize_success_inv fund_invoice_inv : dcim.

(** ** Preferring wallet credit *)

#[local] Ltac open_settlement :=
  unfold mark_paid_if_fully_allocated, invoice_get_for_update, allocated_cents,
    insert_payment.

(** Wallet balances and ledger. *)
Definition same_wallet (r0 : list reseller) (l0 : list ledger_entry) (d : db) : Prop :=
  d.(db_resellers) = r0 /\ d.(db_ledger) = l0.

Lemma mark_paid_wallet r0 l0 k :
  keeps_db (same_wallet r0 l0) (mark_paid_if_fully_allocated k).
Proof. open_settlement. keeps_tac. Qed.
Lemma insert_payment_wallet r0 l0 p : keeps_db (same_wallet r0 l0) (insert_payment p).
Proof. open_settlement. keeps_tac. Qed.
Lemma upd_payment_wallet r0 l0 k f : keeps_db (same_wallet r0 l0) (upd_payment k f).
Proof. by intros s Hs. Qed.
#[export] Hint Resolve mark_paid_wallet insert_payment_wallet upd_payment_wallet : dcim.

Lemma append_locked_charges c r et n a neg :
  keeps (charges_are c) (append_locked r et n a neg).
Proof. unfold append_locked. keeps_tac. Qed.
#[export] Hint Resolve append_locked_charges : dcim.
Lemma mark_paid_charges c k : keeps (charges_are c) (mark_paid_if_fully_allocated k).
Proof. open_settlement. keeps_tac. Qed.
#[export] Hint Resolve mark_paid_charges : dcim.
Lemma apply_credit_charges c r k n : keeps (charges_are c) (apply_credit r k n).
Proof.
  unfold apply_credit, insert_payment, debit, lock_reseller, require_integer_cents.
  keeps_tac.
Qed.

(** The key under which the next credit payment of invoice [k] is debited. *)
Definition next_credit_key (k : Z) (d : db) : string :=
  "invoice-credit:" +:+ pretty k +:+ ":" +:+ pretty (tbl_fresh d.(db_payments)).

Lemma apply_credit_balance r rr k n s :
  tbl_get r s.(s_db).(db_resellers) = Some rr ->
  entries_with_key (next_credit_key k s.(s_db)) s.(s_db) = [] ->
  0 < n <= rr.(rs_cached_balance_cents) ->
  wp (apply_credit r k n)
     (fun _ s' => tbl_get r s'.(s_db).(db_resellers)
        = Some (rr <|rs_cached_balance_cents := rr.(rs_cached_balance_cents) - n|>))
     (fun _ _ => True) s.
Proof.
  intros Hr Hkey Hn. unfold apply_credit.
  wp_step. apply wp_the; [done|]. intros x. rewrite Hr. intros [= <-].
  assert (Z.min (Z.max 0 (rs_cached_balance_cents rr)) n = n) as -> by lia.
  assert ((n <=? 0) = false) as -> by lia.
  wp_step. apply wp_the; [done|]. intros i Hi. wp_step. apply wp_read.
  wp_step. apply wp_gets. wp_step.
  assert (in_id i = k) as Hk by (by apply tbl_get_key in Hi).
  unfold insert_payment. wp_step. apply wp_read. wp_step. apply wp_write. wp_step.
  apply wp_flush; [intros _ _|done]. apply wp_ret. wp_step.
  set (s1 := s <|s_db := _|>). unfold wp.
  rewrite (debit_eq r n _ false s1 rr); [|exact Hr|lia|].
  2:{ unfold fresh_key, credit_debit_args. cbn [ctx_idempotency_key update]. rewrite Hk. exact Hkey. }
  assert ((rs_cached_balance_cents rr - n <? 0) = false) as -> by lia.
  cbn [andb]. cbv iota. unfold post_result. cbv zeta.
  set (s2 := s1 <|s_db := post_entry _ _ _ _ _|>).
  destruct (flush s2) as [[u|e] s2'] eqn:Hfl; [|done].
  assert (rs_id rr = r) as Hrr by (by apply tbl_get_key in Hr).
  assert (tbl_get r s2.(s_db).(db_resellers)
        = Some (rr <|rs_cached_balance_cents := rr.(rs_cached_balance_cents) - n|>)) as Hs2.
  { subst s2. unfold post_entry. cbn [s_db db_resellers update]. rewrite Hrr.
    erewrite tbl_get_update_eq; [|done|exact Hr]. do 3 f_equal. lia. }
  eapply (wp_keeps (fun s' => same_wallet s2.(s_db).(db_resellers)
    s2.(s_db).(db_ledger) s'.(s_db)) _ _ (fun _ _ => True));
    [keeps_tac|done| |done].
  intros _ s' [-> _]. exact Hs2.
Qed.

(** Wallet credit comes first: for a reseller who prefers credit and whose
    balance covers what an ordinary invoice still misses, funding it sends no
    charge to any gateway, whatever happens; and when it returns, the invoice is
    funded and exactly the missing amount left the balance. *)
Theorem credit_first_spares_cards reg r k s rr i :
  tbl_wf s.(s_db).(db_payments) ->
  tbl_get r s.(s_db).(db_resellers) = Some rr ->
  tbl_get k s.(s_db).(db_invoices) = Some i ->
  rr.(rs_charge_preference) = CP_CREDIT_FIRST ->
  i.(in_purpose) <> IP_CREDIT_TOPUP -> i.(in_status) <> IS_PENDING_ACTION ->
  let missing := i.(in_amount_cents) - allocated_in k s.(s_db) in
  0 < missing <= rr.(rs_cached_balance_cents) ->
  entries_with_key (next_credit_key k s.(s_db)) s.(s_db) = [] ->
  let (out, s') := fund_invoice reg r k None s in
  s'.(s_charges) = s.(s_charges) /\
  match out with
  | Ok res => res.(fr_funded) = true /\
      tbl_get r s'.(s_db).(db_resellers)
      = Some (rr <|rs_cached_balance_cents := rr.(rs_cached_balance_cents) - missing|>)
  | Raise _ => True
  end.
Proof.
  intros Hwf Hr Hi Hpref Hpurp Hst missing Hm Hkey.
  set (a := i.(in_amount_cents)) in *. set (x := allocated_in k s.(s_db)) in *.
  assert (funding k a x s) as Hf by (split; [done|]; split; [by exists i|done]).
  enough (wp (fund_invoice reg r k None)
    (fun res s' => s'.(s_charges) = s.(s_charges) /\ res.(fr_funded) = true /\
      tbl_get r s'.(s_db).(db_resellers)
      = Some (rr <|rs_cached_balance_cents := rr.(rs_cached_balance_cents) - missing|>))
    (fun _ s' => s'.(s_charges) = s.(s_charges) /\ True) s) as H.
  { rewrite wp_iff in H. by destruct (fund_invoice reg r k None s) as [[res|e] s']. }
  unfold fund_invoice, lock_funding_rows, invoice_get_for_update.
  do 2 wp_step. apply wp_read. wp_step. wp_step; [done|]. wp_step. apply wp_read.
  wp_step. wp_step; [done|]. do 2 wp_step; [done|]. do 2 wp_step; [done|]. wp_step.
  rewrite Hr in Hsome. injection Hsome as <-.
  rewrite Hi in Hsome0. injection Hsome0 as <-.
  wp_step. eapply wp_conseq; [by apply (plain_result_spec k a x)| |].
  2:{ by intros e s' ->. }
  intros res s' (-> & (H1 & H2 & H3) & _).
  assert ((x =? a) = false) as Hxa by lia. rewrite H3, Hxa. cbv iota.
  wp_step. unfold pending_funding_result.
  assert (py_eq (in_status i) IS_PENDING_ACTION = false) as -> by (by apply py_eq_false).
  cbn [negb]. apply wp_ret. wp_step. unfold methods_for. wp_step. apply wp_read.
  apply wp_ret. assert (py_eq (in_purpose i) IP_CREDIT_TOPUP = false) as ->
    by (by apply py_eq_false). cbn [orb]. rewrite H2. unfold fund_by_preference.
  wp_step. apply wp_the; [done|]. intros rr' Hrr'. rewrite Hr in Hrr'.
  injection Hrr' as <-. rewrite Hpref.
  change (CP_CREDIT_FIRST == CP_PAYMENT_FIRST) with false. cbv iota.
  do 2 wp_step. assert (x <= a) as Hle by lia.
  eapply wp_conseq; [apply wp_and; [by apply (apply_credit_exact r k a x)|apply wp_and]| |].
  - apply (apply_credit_charges s.(s_charges)). done.
  - apply (apply_credit_balance r rr k (Z.max 0 (a - x))); [done..|lia].
  - intros _ s1 ((rr' & Hrr' & Hf1) & Hc & Hbal). rewrite Hr in Hrr'.
    injection Hrr' as <-. apply wp_ret. unfold credit_part in Hf1.
    assert (x + Z.max 0 (Z.min (Z.max 0 (rs_cached_balance_cents rr)) (a - x)) = a)
      as Ha by lia. rewrite Ha in Hf1.
    assert (Z.max 0 (a - x) = missing) as Hmx by lia. rewrite Hmx in Hbal. wp_step.
    eapply wp_conseq; [by apply (plain_result_spec k a a)| |].
    2:{ intros e s2 ->. by split. }
    intros res1 s2 (-> & (_ & _ & H6) & _). rewrite H6, Z.eqb_refl. wp_step.
    eapply wp_conseq; [apply wp_and; [apply (mark_paid_charges (s_charges s)), Hc
      |apply (mark_paid_wallet (db_resellers (s_db s1)) (db_ledger (s_db s1))); done]| |].
    + intros _ s2 [Hc2 [Hw _]]. apply wp_ret. split; [done|]. rewrite Hw. split; [|done].
      by rewrite H6, Z.eqb_refl.
    + intros e s2 [Hc2 _]. by split.
  - intros e s1 (_ & Hc & _). by split.
Qed.

Definition wallet_session : session :=
  (credit 1 700 no_context (billed_session (sample_invoice IP_DEPLOY_CHARGE 500))).2.

Lemma credit_first_spares_cards_witness :
  let s' := (fund_invoice sample_registry 1 1 None wallet_session).2 in
  s'.(s_charges) = [] /\ map rs_cached_balance_cents s'.(s_db).(db_resellers) = [200; 0].
Proof.
  intros s'. split; [|vm_compute; reflexivity].
  assert (tbl_wf (db_payments (s_db wallet_session))) as Hwf by constructor.
  set (rr := sample_reseller 1 700 CP_CREDIT_FIRST NP_BLOCK_NEW).
  assert (tbl_get 1 (db_resellers (s_db wallet_session)) = Some rr) as Hr by reflexivity.
  assert (tbl_get 1 (db_invoices (s_db wallet_session))
          = Some (sample_invoice IP_DEPLOY_CHARGE 500)) as Hi by reflexivity.
  pose proof (credit_first_spares_cards sample_registry 1 1 wallet_session rr
    (sample_invoice IP_DEPLOY_CHARGE 500) Hwf Hr Hi eq_refl
    ltac:(discriminate) ltac:(discriminate)
    ltac:(vm_compute; split; [reflexivity|discriminate])
    ltac:(vm_compute; reflexivity)) as H.
  subst s'. destruct (fund_invoice sample_registry 1 1 None wallet_session) as [out s'].
  destruct H as [H _]. exact H.
Defined.
