(* ===== verification/Vault.v ===== *)
(** Saving a reseller's payment methods with the gateways: the vault methods of
    src/app/services/payments/orchestrator.py. *)
From Stdlib Require Import ZArith Lia.
From stdpp Require Import base numbers list strings pretty.
From S2P Require Import Prelude Calendar Models Session Orchestrator.
#[local] Open Scope Z_scope.
#[local] Open Scope py_scope.

(** * Stripe *)

Definition ensure_stripe_customer (reg : registry) (reseller_id : Z) : Meth string :=
  o <- read (fun d => tbl_get reseller_id d.(db_resellers)) ;;
  locked <- unwrap o (InvoiceError "Reseller not found") ;;
  if str_true locked.(rs_stripe_customer_ref)
  then ret (str_or locked.(rs_stripe_customer_ref) "")
  else
    g <- registry_get reg "stripe" ;;
    owner <- read (fun d => tbl_get locked.(rs_user_id) d.(db_users)) ;;
    customer <- answer (g.(create_customer) locked.(rs_id)
      match owner with Some u => Some u.(us_email) | None => None end) ;;
    upd_reseller reseller_id (fun r => r <|rs_stripe_customer_ref := Some customer|>) ;;;
    flush ;;;
    ret customer.

Definition create_stripe_setup_intent (reg : registry) (reseller_id : Z)
  : Meth string :=
  customer_ref <- ensure_stripe_customer reg reseller_id ;;
  g <- registry_get reg "stripe" ;;
  answer (g.(Orchestrator.create_setup_intent) customer_ref).

Definition methods_with_ref (provider ref : string) (d : db) : list pay_method :=
  List.filter (fun m => (m.(mt_provider) == provider)
                        && (m.(mt_provider_method_ref) == ref)) d.(db_methods).

(** What a vaulted method is saved with. *)
Record method_details : Type := mk_method_details {
  md_customer_ref : option string;
  md_method_type : string;
  md_label : option string;
  md_brand : option string;
  md_last4 : option string;
  md_tier : Z
}.

Definition save_details (v : method_details) (m : pay_method) : pay_method :=
  m <|mt_provider_customer_ref := v.(md_customer_ref)|>
    <|mt_method_type := v.(md_method_type)|> <|mt_label := v.(md_label)|>
    <|mt_brand := v.(md_brand)|> <|mt_last4 := v.(md_last4)|>
    <|mt_tier := v.(md_tier)|> <|mt_enabled := true|>.

Definition store_method (saved : option pay_method) (reseller_id : Z)
    (provider ref : string) (v : method_details) : Meth Z :=
  match saved with
  | Some m => upd_method m.(mt_id) (save_details v) ;;; flush ;;; ret m.(mt_id)
  | None =>
      t <- read db_methods ;;
      let id := tbl_fresh t in
      write (fun d => d <|db_methods := d.(db_methods) ++
        [save_details v (mk_pay_method id reseller_id provider "" None ref
           None None None 1 true)]|>) ;;;
      flush ;;; ret id
  end.

Definition register_stripe_method (reg : registry) (reseller_id : Z)
    (method_ref : string) (tier : Z) (label : option string) : Meth Z :=
  throw_if (tier <? 0) (ValueError "tier must be a non-negative integer") ;;;
  customer_ref <- ensure_stripe_customer reg reseller_id ;;
  g <- registry_get reg "stripe" ;;
  m <- answer (g.(get_payment_method) method_ref) ;;
  throw_if (m.(gm_customer_ref) != Some customer_ref)
    (PaymentMethodOwnershipError "Payment method does not belong to this reseller") ;;;
  rows <- read (methods_with_ref "stripe" m.(gm_external_ref)) ;;
  saved <- scalar_one_or_none MultipleResultsFound rows ;;
  throw_if (match saved with
            | Some x => negb (x.(mt_reseller_id) =? reseller_id)
            | None => false end)
    (PaymentMethodOwnershipError "Payment method belongs to another reseller") ;;;
  store_method saved reseller_id "stripe" m.(gm_external_ref)
    (mk_method_details (Some customer_ref) m.(gm_method_type)
       (Some (str_take 255 (str_or label (str_or m.(gm_label) "Stripe payment method"))))
       (if str_true m.(gm_brand) then Some (str_take 64 (str_or m.(gm_brand) "")) else None)
       (if str_true m.(gm_last4) then Some (str_last 4 (str_or m.(gm_last4) "")) else None)
       tier).

(** * PayPal *)

Definition create_paypal_vault_setup (reg : registry) (reseller_id : Z)
  : Meth vault_setup :=
  g <- registry_get reg "paypal" ;;
  create_setup <- unwrap g.(create_vault_setup)
    (PaymentGatewayError "PayPal vault setup is not supported by this gateway") ;;
  customer_ref <- read (fun d =>
    match List.filter (fun m => (m.(mt_reseller_id) =? reseller_id)
              && (m.(mt_provider) == "paypal")
              && match m.(mt_provider_customer_ref) with
                 | Some _ => true | None => false end) d.(db_methods) with
    | m :: _ => m.(mt_provider_customer_ref)
    | [] => None
    end) ;;
  setup <- answer (create_setup reseller_id customer_ref) ;;
  now <- utcnow ;;
  write (fun d => d <|db_paypal_setups := d.(db_paypal_setups) ++
    [mk_paypal_setup (tbl_fresh d.(db_paypal_setups)) reseller_id
       setup.(gv_external_ref) setup.(gv_customer_ref) None (now + days 3) None]|>) ;;;
  flush ;;;
  ret setup.

Definition paypal_pending_for_update (reseller_id : Z) (setup_token_ref : string)
  : Meth paypal_setup :=
  rows <- read (fun d => List.filter
    (fun p => p.(pp_setup_token_ref) == setup_token_ref) d.(db_paypal_setups)) ;;
  o <- scalar_one_or_none MultipleResultsFound rows ;;
  pending <- unwrap o (PaymentMethodOwnershipError "PayPal setup token not found") ;;
  throw_if (negb (pending.(pp_reseller_id) =? reseller_id))
    (PaymentMethodOwnershipError "PayPal setup token not found") ;;;
  ret pending.

Definition completed_paypal_setup_method (reseller_id : Z) (pending : paypal_setup)
  : Meth (option Z) :=
  match pending.(pp_consumed_at) with
  | None => ret None
  | Some _ =>
      saved <- read (fun d => match pending.(pp_payment_method_id) with
                              | Some k => tbl_get k d.(db_methods)
                              | None => None end) ;;
      m <- unwrap saved
        (PaymentGatewayError "Completed PayPal setup has no saved payment method") ;;
      throw_if (negb (m.(mt_reseller_id) =? reseller_id))
        (PaymentGatewayError "Completed PayPal setup has no saved payment method") ;;;
      ret (Some m.(mt_id))
  end.

Definition validate_paypal_setup_expiry (pending : paypal_setup) : Meth unit :=
  now <- utcnow ;;
  throw_if (pending.(pp_expires_at) <=? now)
    (PaymentGatewayError "PayPal setup token has expired").

Fixpoint assoc (k : string) (l : list (string * string)) : option string :=
  match l with
  | [] => None
  | (k', v) :: l' => if k == k' then Some v else assoc k l'
  end.

Definition validate_paypal_method (reseller_id : Z) (pending : paypal_setup)
    (exchanged_method_ref : string) (m : gateway_method) : Meth unit :=
  throw_if (m.(gm_external_ref) != exchanged_method_ref)
    (PaymentGatewayError "PayPal returned an unexpected payment token") ;;;
  throw_if (match assoc "merchant_customer_id" m.(gm_metadata) with
            | Some c => c != "rackflow-reseller-" +:+ pretty reseller_id
            | None => false end)
    (PaymentMethodOwnershipError "PayPal payment token belongs to another reseller") ;;;
  throw_if (str_true pending.(pp_provider_customer_ref) && str_true m.(gm_customer_ref)
            && (pending.(pp_provider_customer_ref) != m.(gm_customer_ref)))
    (PaymentMethodOwnershipError "PayPal payment token customer does not match setup").

Definition save_paypal_method (reseller_id : Z) (m : gateway_method) (tier : Z)
    (label : option string) : Meth Z :=
  rows <- read (methods_with_ref "paypal" m.(gm_external_ref)) ;;
  saved <- scalar_one_or_none MultipleResultsFound rows ;;
  throw_if (match saved with
            | Some x => negb (x.(mt_reseller_id) =? reseller_id)
            | None => false end)
    (PaymentMethodOwnershipError "PayPal payment token belongs to another reseller") ;;;
  store_method saved reseller_id "paypal" m.(gm_external_ref)
    (mk_method_details m.(gm_customer_ref) m.(gm_method_type)
       (Some (str_take 255 (str_or label (str_or m.(gm_label) "PayPal"))))
       (Some (if str_true m.(gm_brand) then str_take 64 (str_or m.(gm_brand) "")
              else "paypal"))
       None tier).

Definition complete_paypal_vault_setup (reg : registry) (reseller_id : Z)
    (setup_token_ref : string) (tier : Z) (label : option string) : Meth Z :=
  throw_if (tier <? 0) (ValueError "tier must be a non-negative integer") ;;;
  pending <- paypal_pending_for_update reseller_id setup_token_ref ;;
  completed <- completed_paypal_setup_method reseller_id pending ;;
  match completed with
  | Some k => ret k
  | None =>
      validate_paypal_setup_expiry pending ;;;
      g <- registry_get reg "paypal" ;;
      complete_setup <- unwrap g.(complete_vault_setup)
        (PaymentGatewayError "PayPal vault completion is not supported by this gateway") ;;
      exchanged <- answer (complete_setup setup_token_ref) ;;
      m <- answer (g.(get_payment_method) exchanged) ;;
      validate_paypal_method reseller_id pending exchanged m ;;;
      saved <- save_paypal_method reseller_id m tier label ;;
      now <- utcnow ;;
      upd_paypal_setup pending.(pp_id) (fun p =>
        p <|pp_payment_method_id := Some saved|> <|pp_consumed_at := Some now|>) ;;;
      flush ;;;
      ret saved
  end.

(** * Detaching *)

Definition detach_method (reg : registry) (reseller_id method_id : Z) : Meth unit :=
  o <- read (fun d => tbl_get method_id d.(db_methods)) ;;
  m <- unwrap o (PaymentMethodOwnershipError "Payment method not found") ;;
  throw_if (negb (m.(mt_reseller_id) =? reseller_id))
    (PaymentMethodOwnershipError "Payment method not found") ;;;
  g <- registry_get reg m.(mt_provider) ;;
  answer (g.(detach_payment_method) m.(mt_provider_method_ref)) ;;;
  write (fun d => d <|db_methods := tbl_delete method_id d.(db_methods)|>) ;;;
  flush.

(** * Laws *)

Definition same_identity (m m' : pay_method) : Prop :=
  m'.(mt_reseller_id) = m.(mt_reseller_id) /\ m'.(mt_provider) = m.(mt_provider) /\
  m'.(mt_provider_method_ref) = m.(mt_provider_method_ref).

(** Every saved method keeps its owner, provider and provider reference. *)
Definition owners_kept (t t' : list pay_method) : Prop :=
  forall k m, tbl_get k t = Some m ->
  exists m', tbl_get k t' = Some m' /\ same_identity m m'.

Lemma owners_kept_refl t : owners_kept t t.
Proof. intros k m Hm. by exists m. Qed.

Lemma owners_kept_update t k v : owners_kept t (tbl_update k (save_details v) t).
Proof.
  intros j m Hm. destruct (Z.eq_dec k j) as [->|Hne].
  - exists (save_details v m). by rewrite (tbl_get_update_eq j (save_details v) t m).
  - exists m. by rewrite tbl_get_update_ne.
Qed.

Lemma owners_kept_snoc t m : owners_kept t (t ++ [m]).
Proof. intros k x Hx. exists x. by rewrite tbl_get_app, Hx. Qed.

(** What saving promises to both providers. *)
Definition stored (k : Z) (provider : string) (v : method_details)
    (t : list pay_method) (id : Z) (s : session) : Prop :=
  owners_kept t s.(s_db).(db_methods) /\
  exists m, tbl_get id s.(s_db).(db_methods) = Some m /\
    m.(mt_reseller_id) = k /\ m.(mt_provider) = provider /\
    m.(mt_provider_customer_ref) = v.(md_customer_ref) /\ m.(mt_enabled) = true /\
    constraints s.(s_db) = true.

Lemma store_method_spec saved k provider ref v s :
  tbl_wf s.(s_db).(db_methods) ->
  (forall m, saved = Some m -> In m s.(s_db).(db_methods) /\
     m.(mt_reseller_id) = k /\ m.(mt_provider) = provider) ->
  wp (store_method saved k provider ref v)
    (stored k provider v s.(s_db).(db_methods))
    (fun _ s' => owners_kept s.(s_db).(db_methods) s'.(s_db).(db_methods)) s.
Proof.
  intros Hwf Hsaved. unfold store_method. destruct saved as [m|].
  - destruct (Hsaved m eq_refl) as (Hin & Hk & Hp).
    apply (tbl_get_wf _ _ Hwf) in Hin. unfold row_key, keyed_pay_method in Hin.
    wp_step. apply wp_write. wp_step. apply wp_flush.
    + intros Hc _. apply wp_ret. split; [apply owners_kept_update|].
      exists (save_details v m).
      split; [by apply tbl_get_update_eq|]. done.
    + intros e _. apply owners_kept_update.
  - wp_step. apply wp_read. wp_step. apply wp_write. wp_step. apply wp_flush.
    + intros Hc _. apply wp_ret. split; [apply owners_kept_snoc|]. eexists.
      split.
      { cbn [s_db db_methods update]. rewrite tbl_get_app, tbl_get_fresh.
        unfold tbl_get. cbn. by rewrite Z.eqb_refl. }
      done.
    + intros e _. apply owners_kept_snoc.
Qed.

(** The method rows are untouched until the saving itself. *)
Definition same_methods (t : list pay_method) (d : db) : Prop := d.(db_methods) = t.

(** The row found under a provider reference, checked to be the caller's own. *)
Lemma saved_lookup_spec provider ref k e1 (Q : option pay_method -> Meth Z) P R s :
  R (MultipleResultsFound) s -> R e1 s ->
  (forall saved,
     (forall m, saved = Some m -> In m s.(s_db).(db_methods) /\
        m.(mt_reseller_id) = k /\ m.(mt_provider) = provider) ->
     wp (Q saved) P R s) ->
  wp (rows <- read (methods_with_ref provider ref) ;;
      saved <- scalar_one_or_none MultipleResultsFound rows ;;
      throw_if (match saved with
                | Some x => negb (x.(mt_reseller_id) =? k)
                | None => false end) e1 ;;;
      Q saved) P R s.
Proof.
  intros HR1 HR2 HQ. wp_step. apply wp_read. wp_step.
  destruct (methods_with_ref provider ref _) as [|m [|m' l]] eqn:Hrows; [| |done].
  - apply wp_ret. wp_step. apply wp_throw_if; [done|]. intros _. by apply HQ.
  - apply wp_ret. do 2 wp_step; [done|]. apply HQ. intros x [= <-].
    assert (In m (methods_with_ref provider ref (s_db s))) as Hin by (rewrite Hrows; by left).
    apply filter_In in Hin as [Hin Hp]. rewrite andb_true_iff, !py_eq_true in Hp.
    split; [done|]. split; [lia|tauto].
Qed.

(** The reseller's customer reference, created on first use. *)
Lemma ensure_customer_spec reg k s :
  wp (ensure_stripe_customer reg k)
    (fun c s' => s'.(s_db).(db_methods) = s.(s_db).(db_methods) /\
       exists r, tbl_get k s'.(s_db).(db_resellers) = Some r /\
                 r.(rs_stripe_customer_ref) = Some c)
    (fun _ s' => s'.(s_db).(db_methods) = s.(s_db).(db_methods)) s.
Proof.
  unfold ensure_stripe_customer. wp_step. apply wp_read. wp_step.
  apply wp_unwrap; [done|]. intros r Hr.
  destruct (str_true (rs_stripe_customer_ref r)) eqn:Ht.
  - apply wp_ret. split; [done|]. exists r. split; [done|].
    destruct (rs_stripe_customer_ref r) as [c|]; [|done]. cbn in *.
    by destruct (str_empty c).
  - unfold registry_get. wp_step. apply wp_unwrap; [done|]. intros g Hg.
    wp_step. apply wp_read. wp_step. unfold answer.
    destruct (create_customer g _ _) as [c|e]; [|done].
    apply wp_ret. wp_step. apply wp_write. wp_step. apply wp_flush; [|done].
    intros _ _. apply wp_ret. split; [done|]. eexists.
    split; [by apply tbl_get_update_eq|done].
Qed.

(** ** Registering a Stripe method *)

Definition same_resellers (r0 : list reseller) (d : db) : Prop := d.(db_resellers) = r0.
Lemma store_method_resellers saved k provider ref v r0 :
  keeps_db (same_resellers r0) (store_method saved k provider ref v).
Proof. unfold store_method. keeps_tac. Qed.

Lemma register_stripe_spec reg k ref tier label s :
  tbl_wf s.(s_db).(db_methods) ->
  wp (register_stripe_method reg k ref tier label)
    (fun id s' => owners_kept s.(s_db).(db_methods) s'.(s_db).(db_methods) /\
       exists m r, tbl_get id s'.(s_db).(db_methods) = Some m /\
         tbl_get k s'.(s_db).(db_resellers) = Some r /\
         m.(mt_reseller_id) = k /\ m.(mt_enabled) = true /\
         m.(mt_provider) = "stripe" /\ foreign_stripe_method r m = false)
    (fun _ s' => owners_kept s.(s_db).(db_methods) s'.(s_db).(db_methods)) s.
Proof.
  intros Hwf. pose proof (owners_kept_refl s.(s_db).(db_methods)) as Hself.
  unfold register_stripe_method. do 2 wp_step; [done|]. wp_step.
  eapply wp_conseq; [apply ensure_customer_spec| |by intros e s' ->].
  intros c s1 (Hm1 & r & Hr & Hc). rewrite <- Hm1 in Hwf |- *.
  clear Hm1 s Hself Hguard.
  pose proof (owners_kept_refl s1.(s_db).(db_methods)) as Hself.
  unfold registry_get. wp_step. apply wp_unwrap; [done|]. intros g Hg.
  wp_step. unfold answer. destruct (get_payment_method g ref) as [m|e]; [|done].
  apply wp_ret. do 2 wp_step; [done|].
  apply saved_lookup_spec; [done|done|]. intros saved Hsaved.
  eapply wp_conseq; [apply wp_and; [by apply (store_method_spec saved k)|]| |].
  - apply (store_method_resellers saved k "stripe" _ _ s1.(s_db).(db_resellers)).
    reflexivity.
  - intros id s2 [(Hk & m' & Hm' & Hres & Hp & Hcus & Hen & _) Hrs].
    split; [done|]. exists m', r. rewrite Hrs. repeat (split; [done|]).
    unfold foreign_stripe_method. rewrite Hcus, Hc. cbn [md_customer_ref].
    by rewrite py_eq_refl, andb_false_r.
  - by intros e s2 [H _].
Qed.

(** A Stripe method is registered for its own customer only: existing methods
    keep their owner, provider and reference on every outcome, and a registered
    one belongs to the caller, is enabled, carries the caller's Stripe customer,
    and so is one the funding code agrees to charge. *)
Theorem registered_stripe_method_is_chargeable reg k ref tier label s :
  tbl_wf s.(s_db).(db_methods) ->
  let (out, s') := register_stripe_method reg k ref tier label s in
  owners_kept s.(s_db).(db_methods) s'.(s_db).(db_methods) /\
  match out with
  | Ok id => exists m r, tbl_get id s'.(s_db).(db_methods) = Some m /\
      tbl_get k s'.(s_db).(db_resellers) = Some r /\
      m.(mt_reseller_id) = k /\ m.(mt_enabled) = true /\
      m.(mt_provider) = "stripe" /\ foreign_stripe_method r m = false
  | Raise _ => True
  end.
Proof.
  intros Hwf. pose proof (register_stripe_spec reg k ref tier label s Hwf) as H.
  unfold wp in H. by destruct (register_stripe_method _ _ _ _ _ s) as [[id|e] s'].
Qed.

(** ** Completing a PayPal setup *)

Definition setups_with_token (token : string) (d : db) : list paypal_setup :=
  List.filter (fun p => p.(pp_setup_token_ref) == token) d.(db_paypal_setups).

(** The setup behind [token] is spent on method [id] of reseller [k]. *)
Definition consumed (k : Z) (token : string) (id : Z) (s : session) : Prop :=
  exists p m t, setups_with_token token s.(s_db) = [p] /\
    p.(pp_reseller_id) = k /\ p.(pp_consumed_at) = Some t /\
    p.(pp_payment_method_id) = Some id /\
    tbl_get id s.(s_db).(db_methods) = Some m /\ m.(mt_reseller_id) = k.

(** Once consumed, a setup answers with its method and does nothing else. *)
Lemma consumed_replays reg k token tier label id s :
  consumed k token id s -> 0 <= tier ->
  complete_paypal_vault_setup reg k token tier label s = (Ok id, s).
Proof.
  intros (p & m & t & Hrows & Hk & Ht & Hid & Hm & Hmk) Htier.
  apply wp_exact. unfold complete_paypal_vault_setup, paypal_pending_for_update.
  wp_step. apply wp_throw_if; [lia|intros _]. do 2 wp_step. apply wp_read. wp_step.
  change (List.filter _ _) with (setups_with_token token (s_db s)). rewrite Hrows.
  apply wp_ret. wp_step. apply wp_ret. wp_step. apply wp_throw_if; [lia|intros _].
  apply wp_ret. wp_step. unfold completed_paypal_setup_method. rewrite Ht, Hid.
  wp_step. apply wp_read. rewrite Hm. wp_step. apply wp_ret. wp_step.
  apply wp_throw_if; [lia|intros _]. do 2 apply wp_ret. split; [|done].
  by apply tbl_get_key in Hm.
Qed.

Definition same_setups (t : list paypal_setup) (d : db) : Prop :=
  d.(db_paypal_setups) = t.
Lemma store_method_setups saved k provider ref v t :
  keeps_db (same_setups t) (store_method saved k provider ref v).
Proof. unfold store_method. keeps_tac. Qed.

Lemma complete_paypal_spec reg k token tier label s :
  tbl_wf s.(s_db).(db_methods) ->
  wp (complete_paypal_vault_setup reg k token tier label)
    (fun id s' => consumed k token id s' /\
       owners_kept s.(s_db).(db_methods) s'.(s_db).(db_methods))
    (fun _ s' => owners_kept s.(s_db).(db_methods) s'.(s_db).(db_methods)) s.
Proof.
  intros Hwf. pose proof (owners_kept_refl s.(s_db).(db_methods)) as Hself.
  unfold complete_paypal_vault_setup, paypal_pending_for_update.
  do 2 wp_step; [done|]. do 2 wp_step. apply wp_read. wp_step.
  change (List.filter _ _) with (setups_with_token token (s_db s)).
  destruct (setups_with_token token (s_db s)) as [|p [|p' l]] eqn:Hrows;
    [by apply wp_ret, wp_bind, wp_raise| |by apply wp_raise].
  apply wp_ret, wp_bind, wp_ret. do 2 wp_step; [done|]. apply wp_ret. wp_step. unfold completed_paypal_setup_method.
  assert (pp_reseller_id p = k) as Hk by lia.
  destruct (pp_consumed_at p) as [t|] eqn:Ht.
  { wp_step. apply wp_read. wp_step. apply wp_unwrap; [done|]. intros m Hm.
    do 2 wp_step; [done|]. do 2 wp_step. split; [|done].
    destruct (pp_payment_method_id p) as [j|] eqn:Hj; [|done].
    exists p, m, t. rewrite (tbl_get_key _ _ _ Hm : mt_id m = j).
    repeat (split; [done|]). lia. }
  apply wp_ret. unfold validate_paypal_setup_expiry. do 2 wp_step. apply wp_gets.
  wp_step; [done|]. unfold registry_get. wp_step. apply wp_unwrap; [done|].
  intros g _. wp_step. apply wp_unwrap; [done|]. intros complete _. wp_step.
  unfold answer. destruct (complete token) as [ex|e]; [|done]. apply wp_ret. wp_step.
  destruct (get_payment_method g ex) as [m|e]; [|done]. apply wp_ret.
  unfold validate_paypal_method. do 3 wp_step; [done|]. do 2 wp_step; [done|].
  wp_step; [done|]. unfold save_paypal_method.
  wp_step. apply saved_lookup_spec; [done|done|]. intros saved Hsaved.
  eapply wp_conseq; [apply wp_and; [by apply (store_method_spec saved k)|
    apply (store_method_setups saved k "paypal" _ _ s.(s_db).(db_paypal_setups));
    reflexivity]| |by intros e s1 [H _]].
  intros id s1 [(Hown & m' & Hm' & Hmk & _) Hset]. wp_step. apply wp_gets.
  wp_step. apply wp_write. wp_step. apply wp_flush; [|done].
  intros _ _. apply wp_ret. split; [|done].
  eexists _, m', s1.(s_now). split; [|split; [|split; [|split; [|done]]]].
  - unfold setups_with_token in *. cbn [s_db db_paypal_setups update].
    unfold same_setups in Hset. rewrite Hset, filter_tbl_update by done.
    rewrite Hrows. unfold tbl_update. cbn [map].
    change (row_key p) with (pp_id p). rewrite Z.eqb_refl. reflexivity.
  - done.
  - done.
  - done.
Qed.

(** A PayPal setup token is spent once: when completing it succeeds, the
    method belongs to the caller, no other saved method changed hands, and
    completing the same token again, whatever the gateway, tier or label, returns
    the same method without changing anything. *)
Theorem paypal_setup_completes_once reg reg' k token tier tier' label label' s id s' :
  tbl_wf s.(s_db).(db_methods) -> 0 <= tier' ->
  complete_paypal_vault_setup reg k token tier label s = (Ok id, s') ->
  owners_kept s.(s_db).(db_methods) s'.(s_db).(db_methods) /\
  (exists m, tbl_get id s'.(s_db).(db_methods) = Some m /\ m.(mt_reseller_id) = k) /\
  complete_paypal_vault_setup reg' k token tier' label' s' = (Ok id, s').
Proof.
  intros Hwf Htier Hrun. pose proof (complete_paypal_spec reg k token tier label s Hwf) as H.
  unfold wp in H. rewrite Hrun in H. destruct H as [Hc Hown].
  split; [done|]. split; [|by apply consumed_replays].
  destruct Hc as (p & m & t & _ & _ & _ & _ & Hm & Hmk). by exists m.
Qed.

Definition vault_gateway : gateway :=
  mk_gateway (fun _ _ => Raise AttributeError) (fun _ => Raise AttributeError)
    (fun k _ => Ok ("cus_" +:+ pretty k)) (fun c => Ok c)
    (fun ref => Ok (mk_gateway_method ref (Some "cus_1") "card" None (Some "visa")
       (Some "4242") []))
    (fun _ => Ok tt)
    (Some (fun k _ => Ok (mk_vault_setup "setup-1" "https://pay" (Some "cus_1"))))
    (Some (fun token => Ok ("vault-" +:+ token))).
Definition vault_registry : registry :=
  [("stripe", vault_gateway); ("paypal", vault_gateway)].
Definition vault_session : session := session_of sample_db 1000.

Lemma registered_stripe_method_is_chargeable_witness :
  let s := vault_session in
  exists m, tbl_get 1 (register_stripe_method vault_registry 1 "pm_9" 1 None s).2
              .(s_db).(db_methods) = Some m /\ m.(mt_reseller_id) = 1.
Proof.
  intros s. assert (tbl_wf (db_methods (s_db s))) as Hwf by constructor.
  pose proof (registered_stripe_method_is_chargeable vault_registry 1 "pm_9" 1 None s Hwf) as H.
  assert (fst (register_stripe_method vault_registry 1 "pm_9" 1 None s) = Ok 1) as He
    by (vm_compute; reflexivity).
  destruct (register_stripe_method vault_registry 1 "pm_9" 1 None s) as [out s'].
  cbn [fst snd] in *. subst out. destruct H as (_ & m & r & Hm & _ & Hk & _).
  by exists m.
Defined.

Lemma paypal_setup_completes_once_witness :
  let s := (create_paypal_vault_setup vault_registry 2 vault_session).2 in
  let s' := (complete_paypal_vault_setup vault_registry 2 "setup-1" 3 None s).2 in
  complete_paypal_vault_setup [] 2 "setup-1" 7 (Some "again") s' = (Ok 1, s').
Proof.
  intros s s'. assert (tbl_wf (db_methods (s_db s))) as Hwf by constructor.
  assert (fst (complete_paypal_vault_setup vault_registry 2 "setup-1" 3 None s) = Ok 1)
    as He by (vm_compute; reflexivity).
  assert (complete_paypal_vault_setup vault_registry 2 "setup-1" 3 None s = (Ok 1, s'))
    as Hrun.
  { rewrite <- He. subst s'.
    by destruct (complete_paypal_vault_setup vault_registry 2 "setup-1" 3 None s). }
  destruct (paypal_setup_completes_once vault_registry [] 2 "setup-1" 3 7 None
    (Some "again") s 1 s' Hwf ltac:(lia) Hrun) as (_ & _ & H). exact H.
Defined.
