(* ===== verification/Mail.v ===== *)
(** Queued mail and outbound retail webhooks:
    src/app/services/email_message_service.py and
    src/app/services/commerce_webhook_service.py. *)
From Stdlib Require Import ZArith Lia Ascii.
From stdpp Require Import base numbers list strings pretty.
From S2P Require Import Prelude Models Session Outbox.
#[local] Open Scope Z_scope.
#[local] Open Scope py_scope.

(** * [EmailMessageService.enqueue] *)

Record mail_args : Type := mk_mail_args {
  ml_to_address : string;
  ml_event : string;
  ml_idempotency_key : string;
  ml_data : dict;
  ml_billing_account_id : option Z;
  ml_user_id : option Z;
  ml_related_type : option string;
  ml_related_id : option string
}.

Definition mails_with_key (key : string) (d : db) : list email_message :=
  List.filter (fun m => m.(em_idempotency_key) == key) d.(db_emails).

Definition new_mail (id : Z) (a : mail_args) : email_message :=
  mk_email_message id a.(ml_billing_account_id) a.(ml_user_id)
    (str_take 320 (str_strip a.(ml_to_address))) (str_take 64 a.(ml_event)) a.(ml_data)
    EM_QUEUED 0 None
    (if str_true a.(ml_related_type)
     then Some (str_take 64 (str_or a.(ml_related_type) "")) else None)
    (match a.(ml_related_id) with Some r => Some (str_take 255 r) | None => None end)
    (str_take 255 a.(ml_idempotency_key)) None.

Definition enqueue_mail (a : mail_args) : Meth Z :=
  let email := str_strip a.(ml_to_address) in
  throw_if (str_empty email || negb (str_contains "@"%char email))
    (ValueError "Email recipient is unavailable") ;;;
  rows <- read (mails_with_key (str_take 255 a.(ml_idempotency_key))) ;;
  existing <- scalar_one_or_none MultipleResultsFound rows ;;
  match existing with
  | Some m => ret m.(em_id)
  | None =>
      id <- read (fun d => tbl_fresh d.(db_emails)) ;;
      try_catch
        (begin_nested
           (write (fun d => d <|db_emails := d.(db_emails) ++ [new_mail id a]|>) ;;;
            flush) ;;;
         ret id)
        (fun e => match e with
                  | IntegrityError =>
                      rows <- read (mails_with_key (str_take 255 a.(ml_idempotency_key))) ;;
                      m <- scalar_one rows ;;
                      ret m.(em_id)
                  | _ => raise e
                  end)
  end.

(** * [CommerceWebhookService.enqueue] *)

Definition COMMERCE_WEBHOOK_EVENTS : list string :=
  ["order.paid"; "invoice.paid"; "ticket.created"].

Definition endpoint_wants (e : webhook_endpoint) (event : string) : bool :=
  match e.(ep_events) with
  | [] => true
  | subscribed => existsb (fun x => event == x) subscribed
  end.

Definition enqueue_commerce_event (event : string) (payload : dict) : Meth (list Z) :=
  if negb (existsb (fun x => event == x) COMMERCE_WEBHOOK_EVENTS) then ret []
  else
    endpoints <- read (fun d => List.filter ep_enabled d.(db_endpoints)) ;;
    deliveries <- fold_each endpoints [] (fun acc e =>
      if negb (endpoint_wants e event) then ret acc
      else
        id <- read (fun d => tbl_fresh d.(db_deliveries)) ;;
        write (fun d => d <|db_deliveries := d.(db_deliveries) ++
          [mk_webhook_delivery id e.(ep_id) event payload WD_PENDING 0 None]|>) ;;;
        ret (acc ++ [id])) ;;
    match deliveries with
    | [] => ret []
    | _ => flush ;;; ret deliveries
    end.
