(* ===== verification/Delivery.v ===== *)
(** The delivery of queued mail and of outbound webhooks:
    src/app/services/email_sender.py, src/app/workers/notification_outbox.py,
    the retry and the deliveries of src/app/services/email_message_service.py
    and src/app/services/commerce_webhook_service.py, and the administrator's
    retry of src/app/api/commerce_admin.py. *)
From Stdlib Require Import ZArith Lia.
From stdpp Require Import base numbers list strings pretty.
From S2P Require Import Prelude Calendar Models Session Outbox Mail.
#[local] Open Scope Z_scope.
#[local] Open Scope py_scope.

Definition upd_email (k : Z) (f : email_message -> email_message) : Meth unit :=
  write (fun d => d <|db_emails := tbl_update k f d.(db_emails)|>).

(** * Mail *)

Definition MAX_ATTEMPTS : Z := 5.
Definition DEFAULT_BATCH_SIZE : Z := 50.

(** What comes of handing a message to the mail server: it takes it, sending
    fails with a message, or the process is killed before it learns. *)
Inductive smtp_answer : Type :=
| Accepted
| Refused (error : string)
| Killed.
#[export] Instance smtp_answer_eq : EqDecision smtp_answer.
Proof. solve_decision. Defined.

(** The session of a worker, and the messages handed over so far, the last one
    first. *)
Record post : Type := mk_post {
  po_sess : session;
  po_log : list (Z * smtp_answer)
}.
#[export] Instance eta_post : Eta post := fun p => mk_post p.(po_sess) p.(po_log).
Abbreviation Post A := (M post exn A).

Definition in_post {A} (m : Meth A) : Post A := fun p =>
  (fst (m p.(po_sess)), p <|po_sess := snd (m p.(po_sess))|>).

Section Mail.
(** [settings.smtp_enabled] and the mail server. *)
Variable smtp_enabled : bool.
Variable smtp : email_message -> list (Z * smtp_answer) -> smtp_answer.

(** [deliver]: [Some] is the text of an exception. *)
Definition deliver (row : email_message) : Post (option string) := fun p =>
  let answer := smtp row p.(po_log) in
  (match answer with
   | Accepted => Ok None
   | Refused e => Ok (Some e)
   | Killed => Raise (OtherError "SystemExit")
   end, p <|po_log := (row.(em_id), answer) :: p.(po_log)|>).

Definition queued_mails (batch_size : Z) (d : db) : list email_message :=
  take (Z.to_nat batch_size) (List.filter (fun m => m.(em_status) == EM_QUEUED) d.(db_emails)).
Definition claimed_mail (m : email_message) : email_message :=
  m <|em_status := EM_SENDING|> <|em_attempts := m.(em_attempts) + 1|>.
Definition claim_rows (ids : list Z) (d : db) : db :=
  d <|db_emails := map (fun m => if existsb (Z.eqb m.(em_id)) ids then claimed_mail m else m)
                     d.(db_emails)|>.
(** The rows a batch claims, committed before anything is sent. *)
Definition claim_mails (batch_size : Z) : Meth (list Z) :=
  rows <- read (queued_mails batch_size) ;;
  match rows with
  | [] => ret []
  | _ => write (claim_rows (map em_id rows)) ;;; commit ;;; ret (map em_id rows)
  end.

Definition refused_mail (error : string) (m : email_message) : email_message :=
  m <|em_error := Some (str_take 2000 error)|>
    <|em_status := if MAX_ATTEMPTS <=? m.(em_attempts) then EM_FAILED else EM_QUEUED|>.
Definition sent_mail (now : Z) (m : email_message) : email_message :=
  m <|em_status := EM_SENT|> <|em_sent_at := Some now|> <|em_error := None|>.
Definition send_one (sent k : Z) : Post Z :=
  o <- in_post (read (fun d => tbl_get k d.(db_emails))) ;;
  row <- unwrap o (OtherError "ObjectDeletedError") ;;
  failure <- deliver row ;;
  match failure with
  | Some e => in_post (upd_email k (refused_mail e) ;;; commit) ;;; ret sent
  | None =>
      now <- in_post utcnow ;;
      in_post (upd_email k (sent_mail now) ;;; commit) ;;;
      ret (sent + 1)
  end.
Definition send_queued_batch (batch_size : Z) : Post Z :=
  if negb smtp_enabled then ret 0
  else
    ids <- in_post (claim_mails batch_size) ;;
    fold_each ids 0 send_one.

(** [run_email_iteration]: one round of the notification worker. *)
Definition run_email_iteration : Post Z := send_queued_batch DEFAULT_BATCH_SIZE.

(** [EmailMessageService.retry] and the endpoint that commits it. *)
Definition retry (message_id : Z) : Meth (option Z) :=
  o <- read (fun d => tbl_get message_id d.(db_emails)) ;;
  match o with
  | None => ret None
  | Some row =>
      if negb ((row.(em_status) == EM_FAILED) || (row.(em_status) == EM_SKIPPED))
      then ret (Some row.(em_id))
      else
        upd_email message_id (fun m => m <|em_status := EM_QUEUED|> <|em_error := None|>) ;;;
        flush ;;;
        ret (Some row.(em_id))
  end.
Definition retry_email_message (message_id : Z) : Meth Z :=
  o <- retry message_id ;;
  row <- unwrap o (HTTPException 404) ;;
  commit ;;;
  ret row.

(** ** Workers side by side *)

(** The committed rows, what was handed over, and for each worker the claimed
    messages it has yet to send. *)
Record mail_system : Type := mk_mail_system {
  ms_db : db;
  ms_log : list (Z * smtp_answer);
  ms_workers : list (list Z)
}.
#[export] Instance eta_mail_system : Eta mail_system := fun y =>
  mk_mail_system y.(ms_db) y.(ms_log) y.(ms_workers).

(** A session of its own, which is closed at the end. *)
Definition transact {A} (now : Z) (m : Post A) (y : mail_system) : outcome exn A * mail_system :=
  let '(r, p) := m (mk_post (session_of y.(ms_db) now) y.(ms_log)) in
  (r, y <|ms_db := p.(po_sess).(s_committed)|> <|ms_log := p.(po_log)|>).

Inductive mail_event : Type :=
| Enqueue (a : mail_args)
| ClaimBatch (batch_size : Z)
| SendNext (worker : nat)
| Crash (worker : nat)
| Retry (message_id : Z).

(** One step of some worker or request; a worker that meets an exception is
    left with nothing to send. *)
Definition mail_do (x : Z * mail_event) (y : mail_system) : mail_system :=
  let '(now, e) := x in
  match e with
  | Enqueue a => snd (transact now (in_post (enqueue_mail a ;;; commit)) y)
  | ClaimBatch n =>
      if negb smtp_enabled then y
      else match transact now (in_post (claim_mails n)) y with
           | (Ok ids, y') => y' <|ms_workers := y'.(ms_workers) ++ [ids]|>
           | (Raise _, y') => y'
           end
  | SendNext i =>
      match y.(ms_workers) !! i with
      | Some (k :: rest) =>
          match transact now (send_one 0 k) y with
          | (Ok _, y') => y' <|ms_workers := <[i := rest]> y'.(ms_workers)|>
          | (Raise _, y') => y' <|ms_workers := <[i := []]> y'.(ms_workers)|>
          end
      | _ => y
      end
  | Crash i => y <|ms_workers := <[i := []]> y.(ms_workers)|>
  | Retry k => snd (transact now (in_post (retry_email_message k)) y)
  end.
Definition mail_run (l : list (Z * mail_event)) (y : mail_system) : mail_system :=
  fold_left (fun y x => mail_do x y) l y.
(** What came of handing a message over, the last time first. *)
Definition answers (k : Z) (log : list (Z * smtp_answer)) : list smtp_answer :=
  map snd (List.filter (fun x => fst x =? k) log).
Definition retries (k : Z) (l : list (Z * mail_event)) : nat :=
  length (List.filter (fun x => match snd x with Retry j => j =? k | _ => false end) l).

(** ** What a message's rows and answers say *)

Definition refused (a : smtp_answer) : Prop := exists e, a = Refused e.

(** [pending] tells whether a worker is about to send the message, [b] how
    often a retry was asked for. *)
Definition mail_ok (pending : Prop) (ans : list smtp_answer) (b : nat) (o : option email_message)
  : Prop :=
  match o with
  | None => ans = [] /\ ~ pending
  | Some m =>
      Z.of_nat (length ans) <= m.(em_attempts) /\
      match m.(em_status) with
      | EM_QUEUED => Forall refused ans /\ m.(em_attempts) < MAX_ATTEMPTS + Z.of_nat b /\ ~ pending
      | EM_SENDING =>
          m.(em_attempts) <= MAX_ATTEMPTS + Z.of_nat b /\ Forall refused (tail ans) /\
          (pending -> Forall refused ans /\ Z.of_nat (length ans) < m.(em_attempts))
      | EM_SENT =>
          m.(em_attempts) <= MAX_ATTEMPTS + Z.of_nat b /\
          (exists rest, ans = Accepted :: rest /\ Forall refused rest) /\ ~ pending
      | EM_SKIPPED | EM_FAILED =>
          m.(em_attempts) <= MAX_ATTEMPTS + Z.of_nat b /\ Forall refused ans /\ ~ pending
      end
  end.
Definition mails_ok (b : Z -> nat) (y : mail_system) : Prop :=
  tbl_wf y.(ms_db).(db_emails) /\ List.NoDup (concat y.(ms_workers)) /\
  forall k, mail_ok (In k (concat y.(ms_workers))) (answers k y.(ms_log)) (b k)
              (tbl_get k y.(ms_db).(db_emails)).

Lemma mail_ok_weaken (p p' : Prop) ans b b' o :
  (p' -> p) -> (b <= b')%nat -> mail_ok p ans b o -> mail_ok p' ans b' o.
Proof.
  intros Hp Hb. destruct o as [m|]; cbn; [|tauto].
  intros [Hl H]. split; [done|]. destruct (em_status m).
  - destruct H as (? & ? & ?). split; [done|]. split; [lia|tauto].
  - destruct H as (? & ? & H). split; [lia|]. split; [done|tauto].
  - destruct H as (? & ? & ?). split; [lia|]. split; [done|tauto].
  - destruct H as (? & ? & ?). split; [lia|]. split; [done|tauto].
  - destruct H as (? & ? & ?). split; [lia|]. split; [done|tauto].
Qed.
Lemma mails_ok_weaken b b' y : (forall k, (b k <= b' k)%nat) -> mails_ok b y -> mails_ok b' y.
Proof.
  intros Hb (Hw & Hn & Hk). do 2 (split; [done|]). intros k. by apply mail_ok_weaken with (In k (concat y.(ms_workers))) (b k).
Qed.

(** Taking pending messages off a worker's list. *)
Lemma In_concat_insert (ws : list (list Z)) i l l' k :
  ws !! i = Some l -> (forall x, In x l' -> In x l) -> In k (concat (<[i := l']> ws)) -> In k (concat ws).
Proof.
  intros Hi Hl. rewrite !in_concat. intros (x & Hx & Hk).
  apply list_elem_of_In, list_elem_of_lookup in Hx as [j Hj].
  destruct (decide (i = j)) as [<-|Hne].
  - rewrite list_lookup_insert_eq in Hj by by eapply lookup_lt_Some. injection Hj as <-.
    exists l. split; [by eapply list_elem_of_In, list_elem_of_lookup_2|by apply Hl].
  - rewrite list_lookup_insert_ne in Hj by done. exists x. split; [|done].
    by eapply list_elem_of_In, list_elem_of_lookup_2.
Qed.
Lemma concat_split (ws : list (list Z)) i l :
  ws !! i = Some l -> exists a c, concat ws = a ++ l ++ c /\ forall l', concat (<[i := l']> ws) = a ++ l' ++ c.
Proof.
  intros Hi. apply take_drop_middle in Hi as Hs.
  exists (concat (take i ws)), (concat (drop (S i) ws)). split.
  - rewrite <- Hs at 1. rewrite !concat_app. by rewrite concat_cons.
  - intros l'. rewrite insert_take_drop by by eapply lookup_lt_Some.
    by rewrite concat_app, concat_cons.
Qed.

(** ** Every step keeps them *)

(** A step on message [k] alone. *)
Lemma mails_ok_at b y k (f : email_message -> email_message) log ws :
  mails_ok b y -> (forall x, row_key (f x) = row_key x) ->
  (forall j, j <> k -> answers j log = answers j y.(ms_log)) -> List.NoDup (concat ws) ->
  (forall j, j <> k -> In j (concat ws) -> In j (concat y.(ms_workers))) ->
  (forall m, tbl_get k y.(ms_db).(db_emails) = Some m ->
     mail_ok (In k (concat ws)) (answers k log) (b k) (Some (f m))) ->
  (tbl_get k y.(ms_db).(db_emails) = None -> mail_ok (In k (concat ws)) (answers k log) (b k) None) ->
  forall d, d.(db_emails) = tbl_update k f y.(ms_db).(db_emails) ->
  mails_ok b (mk_mail_system d log ws).
Proof.
  intros (Hw & Hn & Hk) Hf Hlog Hnd Hin Hsome Hnone d Hd. unfold mails_ok. cbn [ms_db ms_log ms_workers]. rewrite Hd.
  split; [by apply tbl_wf_update|]. split; [done|]. intros j.
  destruct (decide (j = k)) as [->|Hne].
  - destruct (tbl_get k _) as [m|] eqn:E; [by rewrite (tbl_get_update_eq k f _ m); auto|].
    rewrite tbl_get_update_none by done. by apply Hnone.
  - rewrite tbl_get_update_ne, Hlog by done. eapply mail_ok_weaken; [by apply Hin|done|apply Hk].
Qed.

Lemma wp_in_post {A} (m : Meth A) (Q : A -> post -> Prop) (R : exn -> post -> Prop) p :
  wp m (fun a s => Q a (p <|po_sess := s|>)) (fun e s => R e (p <|po_sess := s|>)) p.(po_sess) ->
  wp (in_post m) Q R p.
Proof. unfold wp, in_post. by destruct (m _) as [[a|e] s]. Qed.
Lemma transact_wp {A} now (m : Post A) y (P : outcome exn A -> mail_system -> Prop) :
  wp m (fun a p => P (Ok a) (y <|ms_db := p.(po_sess).(s_committed)|> <|ms_log := p.(po_log)|>))
    (fun e p => P (Raise e) (y <|ms_db := p.(po_sess).(s_committed)|> <|ms_log := p.(po_log)|>))
    (mk_post (session_of y.(ms_db) now) y.(ms_log)) ->
  P (fst (transact now m y)) (snd (transact now m y)).
Proof. unfold wp, transact. by destruct (m _) as [[a|e] p]. Qed.

Lemma queued_In n d m : In m (queued_mails n d) -> In m d.(db_emails) /\ m.(em_status) = EM_QUEUED.
Proof. intros H%take_In. apply filter_In in H as [? Hq]. split; [done|]. by apply (proj1 (py_eq_true _ _)). Qed.
Lemma queued_nodup n d : tbl_wf d.(db_emails) -> List.NoDup (map em_id (queued_mails n d)).
Proof.
  intros Hw. apply (tbl_wf_filter (fun m => m.(em_status) == EM_QUEUED)) in Hw. unfold queued_mails.
  unfold tbl_wf in Hw. rewrite <- (take_drop (Z.to_nat n) (List.filter _ _)), map_app in Hw.
  by apply List.NoDup_app_remove_r in Hw.
Qed.
(** Claiming rows that are queued. *)
Lemma claimed_ok b y ids d :
  mails_ok b y -> List.NoDup ids ->
  (forall k, In k ids -> exists m, tbl_get k y.(ms_db).(db_emails) = Some m /\ m.(em_status) = EM_QUEUED) ->
  d.(db_emails) = (claim_rows ids y.(ms_db)).(db_emails) ->
  mails_ok b (mk_mail_system d y.(ms_log) (y.(ms_workers) ++ [ids])).
Proof.
  intros (Hw & Hn & Hk) Hnd Hq Hd. unfold mails_ok. cbn [ms_db ms_log ms_workers]. rewrite Hd.
  rewrite concat_app. cbn [concat]. rewrite app_nil_r.
  assert (forall x, row_key (if existsb (Z.eqb (em_id x)) ids then claimed_mail x else x) = row_key x) as Hf.
  { intros x. by destruct (existsb _ _). }
  split.
  { unfold tbl_wf, claim_rows. cbn [db_emails update]. rewrite map_map.
    erewrite map_ext; [exact Hw|]. exact Hf. }
  split.
  { apply List.NoDup_app; [done..|]. intros k Hin Hin'. destruct (Hq k Hin') as (m & Hm & Hst).
    specialize (Hk k). rewrite Hm in Hk. cbn in Hk. rewrite Hst in Hk. tauto. }
  intros k. unfold claim_rows. cbn [db_emails update]. rewrite tbl_get_map by exact Hf.
  specialize (Hk k). destruct (tbl_get k _) as [m|] eqn:E; cbn [option_map].
  - destruct (existsb (Z.eqb (em_id m)) ids) eqn:Hex.
    + apply existsb_exists in Hex as (j & Hj & Hmj%Z.eqb_eq).
      apply tbl_get_key in E as Hkey. change (em_id m = k) in Hkey.
      replace j with k in Hj by congruence. destruct (Hq _ Hj) as (m' & Hm' & Hst). rewrite E in Hm'. injection Hm' as <-.
      cbn in Hk |- *. rewrite Hst in Hk. destruct Hk as (? & ? & ? & ?).
      split; [lia|]. split; [lia|]. split; [by apply Forall_tail|]. intros _. split; [done|lia].
    + eapply mail_ok_weaken; [|done|exact Hk]. rewrite in_app_iff. intros [?|Hin]; [done|].
      apply tbl_get_key in E. change (em_id m = k) in E.
      assert (existsb (Z.eqb (em_id m)) ids = true) by (apply existsb_exists; exists k; split; [done|lia]).
      congruence.
  - cbn in Hk |- *. rewrite in_app_iff. split; [tauto|]. intros [?|Hin]; [tauto|].
    destruct (Hq k Hin) as (m & Hm & _). congruence.
Qed.
(** What a step's session does, then what becomes of the system. *)
Ltac run_transact H :=
  match type of H with
  | ?W -> _ => let HW := fresh "HW" in assert W as HW; [clear H|specialize (H HW); clear HW]
  end.

Lemma claim_keeps b now n y :
  mails_ok b y -> mails_ok b (mail_do (now, ClaimBatch n) y).
Proof.
  intros Hy. cbn [mail_do]. destruct smtp_enabled; [|done]. cbn [negb].
  pose proof (transact_wp now (in_post (claim_mails n)) y (fun r y' =>
    match r with
    | Ok ids => mails_ok b (y' <|ms_workers := y'.(ms_workers) ++ [ids]|>)
    | Raise _ => mails_ok b y'
    end)) as H.
  run_transact H; [|by destruct (transact now _ y) as [[ids|e] y']].
  destruct y as [d log ws]. apply wp_in_post. unfold claim_mails. apply wp_bind, wp_read.
  destruct (queued_mails n _) as [|m l] eqn:Hq.
  - apply wp_ret. destruct Hy as (Hw & Hn & Hk). unfold mails_ok. cbn in *.
    rewrite concat_app. cbn. by rewrite !app_nil_r.
  - rewrite <- Hq. apply wp_bind, wp_write, wp_bind, wp_commit; [done|]. apply wp_ret.
    apply (claimed_ok b (mk_mail_system d log ws)); [done|by apply queued_nodup; destruct Hy| |done].
    intros k (m' & <- & Hm')%in_map_iff. apply queued_In in Hm' as [Hin Hst]. exists m'.
    split; [|done]. apply tbl_get_wf; [by destruct Hy|done].
Qed.

Lemma answers_cons k j a log :
  answers k ((j, a) :: log) = if j =? k then a :: answers k log else answers k log.
Proof. unfold answers. cbn. by destruct (j =? k). Qed.

Lemma NoDup_drop_mid {A} (p l q : list A) : List.NoDup (p ++ l ++ q) -> List.NoDup (p ++ q).
Proof.
  rewrite <- !NoDup_ListNoDup, !NoDup_app. intros (Hp & Hd & _ & _ & Hq). split; [done|]. split; [|done].
  intros x Hx Hin. apply (Hd x Hx). apply elem_of_app. by right.
Qed.
Lemma answers_other j k a log : j <> k -> answers j ((k, a) :: log) = answers j log.
Proof. intros Hne. rewrite answers_cons. by destruct (Z.eqb_spec k j). Qed.

(** A worker hands the first of its messages over, and goes on or stops. *)
Lemma handed_over b d log ws i k rest rest' m a (f : email_message -> email_message) d' :
  mails_ok b (mk_mail_system d log ws) -> ws !! i = Some (k :: rest) -> rest' = rest \/ rest' = [] ->
  tbl_get k d.(db_emails) = Some m -> (forall x, row_key (f x) = row_key x) ->
  mail_ok False (a :: answers k log) (b k) (Some (f m)) ->
  d'.(db_emails) = tbl_update k f d.(db_emails) ->
  mails_ok b (mk_mail_system d' ((k, a) :: log) (<[i := rest']> ws)).
Proof.
  intros Hy Hi Hrest Hm Hf Hok Hd'. destruct (concat_split _ _ _ Hi) as (p & q & Hc & Hins).
  assert (List.NoDup (p ++ (k :: rest) ++ q)) as Hnd by (rewrite <- Hc; apply Hy).
  cbn in Hnd. apply NoDup_remove in Hnd as [Hnd Hk].
  assert (forall j, In j (p ++ rest' ++ q) -> In j (p ++ rest ++ q)) as Hsub.
  { intros j. rewrite !in_app_iff. destruct Hrest as [-> | ->]; cbn; tauto. }
  refine (mails_ok_at b (mk_mail_system d log ws) k f _ _ Hy Hf _ _ _ _ _ d' Hd'); cbn [ms_db ms_log ms_workers].
  - intros j Hj. by apply answers_other.
  - rewrite Hins. destruct Hrest as [-> | ->]; [done|]. by eapply NoDup_drop_mid.
  - intros j _ Hj. rewrite Hins in Hj. apply Hsub in Hj. rewrite Hc. cbn.
    rewrite in_app_iff in *. cbn. rewrite in_app_iff in *. tauto.
  - intros m' Hm'. replace m' with m by congruence. rewrite answers_cons, Z.eqb_refl.
    eapply mail_ok_weaken; [|done|exact Hok]. rewrite Hins. intros Hin. by apply Hk, Hsub.
  - congruence.
Qed.
Lemma wp_deliver row (Q : option string -> post -> Prop) (R : exn -> post -> Prop) p :
  (forall a, let p' := p <|po_log := (row.(em_id), a) :: p.(po_log)|> in
     match a with
     | Accepted => Q None p'
     | Refused e => Q (Some e) p'
     | Killed => R (OtherError "SystemExit") p'
     end) -> wp (deliver row) Q R p.
Proof. intros H. unfold wp, deliver. specialize (H (smtp row p.(po_log))). by destruct (smtp _ _). Qed.
Lemma send_keeps b now i y :
  mails_ok b y -> mails_ok b (mail_do (now, SendNext i) y).
Proof.
  intros Hy. cbn [mail_do]. destruct (ms_workers y !! i) as [[|k rest]|] eqn:Hi; [done| |done].
  pose proof (transact_wp now (send_one 0 k) y (fun r y' =>
    mails_ok b (y' <|ms_workers := <[i := match r with Ok _ => rest | Raise _ => [] end]> y'.(ms_workers)|>))) as H.
  run_transact H; [|by destruct (transact now _ y) as [[ids|e] y']].
  destruct y as [d log ws]. cbn [ms_workers] in Hi.
  assert (In k (concat ws)) as Hin.
  { apply in_concat. exists (k :: rest). split; [|by left]. by eapply list_elem_of_In, list_elem_of_lookup_2. }
  assert (Hk := Hy). destruct Hk as (Hw & Hn & Hk). specialize (Hk k) as Hkk. cbn [ms_workers ms_log ms_db] in Hkk.
  destruct (tbl_get k (db_emails d)) as [m|] eqn:Hm; [|by destruct Hkk].
  assert (em_status m = EM_SENDING /\ Z.of_nat (length (answers k log)) < em_attempts m
    /\ Forall refused (answers k log) /\ em_attempts m <= MAX_ATTEMPTS + Z.of_nat (b k)) as (Hst & Hlen & Href & Hatt).
  { destruct Hkk as [_ Hkk]. destruct (em_status m); tauto. }
  unfold send_one. apply wp_bind, wp_in_post, wp_read. cbn [po_sess s_db session_of ms_db].
  apply wp_bind. rewrite Hm. apply wp_ret, wp_bind, wp_deliver.
  apply tbl_get_key in Hm as Hid. change (em_id m = k) in Hid. rewrite Hid.
  (* what is left of the row when nothing was recorded *)
  assert (forall a, mail_ok False (a :: answers k log) (b k) (Some m)) as Hleft.
  { intros a. cbn. rewrite Hst. split; [lia|]. split; [done|]. split; [done|tauto]. }
  assert (forall a rest', rest' = rest \/ rest' = [] -> mails_ok b (mk_mail_system d ((k, a) :: log) (<[i:=rest']> ws))) as Hno.
  { intros a rest' Hr. eapply (handed_over b d log ws i k rest rest' m a id); try done.
    cbn. unfold tbl_update. symmetry. erewrite map_ext; [apply map_id|]. intros x. by destruct (_ =? _). }
  intros [|e|]; cbn zeta; [..|by apply (Hno Killed []); right].
  - apply wp_bind, wp_in_post, wp_gets, wp_bind, wp_in_post, wp_bind, wp_write, wp_commit;
      [intros; by apply (Hno Accepted []); right|].
    apply wp_ret. eapply (handed_over b d log ws i k rest rest m Accepted (sent_mail now)); try done; [by left|].
    cbn. split; [lia|]. split; [done|]. split; [by exists (answers k log)|tauto].
  - apply wp_bind, wp_in_post, wp_bind, wp_write, wp_commit; [intros; by apply (Hno (Refused e) []); right|].
    apply wp_ret. eapply (handed_over b d log ws i k rest rest m (Refused e) (refused_mail e)); try done; [by left|].
    cbn. split; [lia|]. destruct (Z.leb_spec MAX_ATTEMPTS (em_attempts m)).
    + split; [done|]. split; [|tauto]. constructor; [by exists e|done].
    + split; [|split; [lia|tauto]]. constructor; [by exists e|done].
Qed.

Definition added (t t' : list email_message) : Prop :=
  t' = t \/ exists a, t' = t ++ [new_mail (tbl_fresh t) a].
Lemma enqueue_adds a d now :
  wp (enqueue_mail a ;;; commit) (fun _ s => added d.(db_emails) s.(s_committed).(db_emails))
    (fun _ s => added d.(db_emails) s.(s_committed).(db_emails)) (session_of d now).
Proof.
  assert (added d.(db_emails) d.(db_emails)) as Hno by by left.
  apply wp_bind. unfold enqueue_mail. apply wp_bind, wp_throw_if; [done|]. intros _.
  apply wp_bind, wp_read. destruct (mails_with_key _ _) as [|m [|m' l]].
  - apply wp_bind, wp_ret, wp_bind, wp_read, wp_try_catch.
    eapply wp_conseq with (R := fun _ s => s.(s_db) = d /\ s.(s_committed) = d); [|intros ? ? H; exact H|].
    + apply wp_bind, wp_nested; [done|].
      apply wp_bind, wp_bind, wp_write, wp_flush; [|done]. intros _ _.
      apply wp_bind, wp_flush; [|done]. intros _ _.
      apply wp_ret, wp_ret, wp_commit; [done|]. right. by exists a.
    + intros e s [Hd Hc]. destruct e; try (apply wp_raise; by rewrite Hc).
      apply wp_bind, wp_read, wp_bind. unfold scalar_one. rewrite Hd.
      destruct (mails_with_key _ d) as [|m [|]]; try (apply wp_raise; by rewrite Hc).
      apply wp_ret, wp_ret, wp_commit; cbn; by rewrite ?Hc, ?Hd.
  - apply wp_bind, wp_ret, wp_ret, wp_commit; done.
  - done.
Qed.
Lemma added_ok b d d' log ws :
  mails_ok b (mk_mail_system d log ws) -> added d.(db_emails) d'.(db_emails) ->
  mails_ok b (mk_mail_system d' log ws).
Proof.
  intros (Hw & Hn & Hk) [Hd|[a Hd]]; unfold mails_ok in *; cbn [ms_db ms_log ms_workers] in *; rewrite Hd;
    [done|].
  split; [by apply tbl_wf_snoc|]. split; [done|]. intros k. specialize (Hk k). rewrite tbl_get_app.
  destruct (tbl_get k (db_emails d)) as [m|] eqn:E; [done|]. destruct Hk as [Hans Hp].
  unfold tbl_get. cbn [List.find]. destruct (row_key _ =? k); [|done].
  cbn. rewrite Hans. cbn. unfold MAX_ATTEMPTS. split; [lia|]. split; [by constructor|]. split; [lia|done].
Qed.
Lemma enqueue_keeps b now a y :
  mails_ok b y -> mails_ok b (mail_do (now, Enqueue a) y).
Proof.
  intros Hy. cbn [mail_do].
  apply (transact_wp now (in_post (enqueue_mail a ;;; commit)) y (fun _ y' => mails_ok b y')).
  apply wp_in_post. destruct y as [d log ws]. eapply wp_conseq; [apply enqueue_adds|..];
    intros ? s Hs; by eapply added_ok.
Qed.

Definition counting (k : Z) (b : Z -> nat) : Z -> nat := fun j => ((if (j =? k)%Z then 1 else 0) + b j)%nat.
Lemma retry_keeps b now k y :
  mails_ok b y -> mails_ok (counting k b) (mail_do (now, Retry k) y).
Proof.
  intros Hy. cbn [mail_do].
  assert (mails_ok (counting k b) y) as Hsame.
  { eapply mails_ok_weaken; [|exact Hy]. unfold counting. intros j. lia. }
  apply (transact_wp now (in_post (retry_email_message k)) y (fun _ y' => mails_ok (counting k b) y')).
  apply wp_in_post. destruct y as [d log ws].
  unfold retry_email_message, retry. apply wp_bind, wp_bind, wp_read. cbn [po_sess s_db session_of ms_db].
  destruct (tbl_get k (db_emails d)) as [m|] eqn:Hm; [|done].
  destruct ((em_status m == EM_FAILED) || (em_status m == EM_SKIPPED)) eqn:Hst; cbn [negb].
  - apply wp_bind, wp_write, wp_bind, wp_flush; [|done]. intros _ _.
    apply wp_ret, wp_bind, wp_ret, wp_bind, wp_commit; [done|]. apply wp_ret.
    apply (mails_ok_at _ (mk_mail_system d log ws) k
      (fun m => m <|em_status := EM_QUEUED|> <|em_error := None|>) log ws Hsame);
      cbn [ms_db ms_log ms_workers]; try done; [by destruct Hsame as (_ & ? & _)| |congruence].
    intros m' Hm'. replace m' with m in * by congruence. destruct Hy as (_ & _ & Hk).
    specialize (Hk k). cbn [ms_db ms_log ms_workers] in Hk. rewrite Hm in Hk. cbn in Hk |- *.
    unfold counting. rewrite Z.eqb_refl. destruct Hk as [Hl Hk]. split; [done|].
    apply orb_true_iff in Hst as [Hst|Hst]; apply (proj1 (py_eq_true _ _)) in Hst; rewrite Hst in Hk;
      (split; [tauto|]; split; [lia|tauto]).
  - apply wp_ret, wp_bind, wp_ret, wp_bind, wp_commit; done.
Qed.
Lemma crash_keeps b now i y :
  mails_ok b y -> mails_ok b (mail_do (now, Crash i) y).
Proof.
  intros (Hw & Hn & Hk). cbn [mail_do]. destruct (ms_workers y !! i) as [l|] eqn:Hi.
  - destruct (concat_split _ _ _ Hi) as (p & q & Hc & Hins). unfold mails_ok.
    cbn [ms_workers ms_log ms_db update]. rewrite Hins. cbn [app]. rewrite Hc in Hn.
    split; [done|]. split; [by eapply NoDup_drop_mid|]. intros k.
    eapply mail_ok_weaken; [|done|exact (Hk k)]. rewrite Hc, !in_app_iff. tauto.
  - unfold mails_ok. cbn [ms_workers ms_log ms_db update]. by rewrite list_insert_ge by by apply lookup_ge_None_1.
Qed.

Definition after (x : Z * mail_event) (b : Z -> nat) : Z -> nat :=
  match snd x with Retry k => counting k b | _ => b end.
Lemma mail_do_ok b x y : mails_ok b y -> mails_ok (after x b) (mail_do x y).
Proof.
  destruct x as [now []]; unfold after; cbn [snd].
  - apply enqueue_keeps.
  - apply claim_keeps.
  - apply send_keeps.
  - apply crash_keeps.
  - apply retry_keeps.
Qed.
Lemma mail_run_ok l b y :
  mails_ok b y -> mails_ok (fun k => (retries k l + b k)%nat) (mail_run l y).
Proof.
  revert b y. induction l as [|x l IH]; intros b y Hy; [done|]. cbn [mail_run fold_left].
  apply (mail_do_ok b x) in Hy. eapply mails_ok_weaken; [|by apply IH]. intros k.
  unfold retries. cbn [List.filter]. unfold after, counting. destruct x as [now []]; cbn [snd]; try lia.
  rewrite (Z.eqb_sym message_id k). destruct (k =? message_id); cbn; lia.
Qed.

(** ** A batch is a claim and its sends *)

Lemma send_one_count sent k p :
  send_one sent k p = match send_one 0 k p with
                      | (Ok n, p') => (Ok (sent + n), p')
                      | (Raise e, p') => (Raise e, p')
                      end.
Proof.
  unfold send_one, bind. destruct (in_post _ p) as [[o|e] p1]; [|done].
  destruct (unwrap o _ p1) as [[row|e] p2]; [|done].
  destruct (deliver row p2) as [[[e|]|e] p3]; [| |done].
  - destruct (in_post _ p3) as [[[]|e'] p4]; [|done]. cbn. by rewrite Z.add_0_r.
  - destruct (in_post utcnow p3) as [[now|e'] p4]; [|done].
    by destruct (in_post _ p4) as [[[]|e'] p5].
Qed.
Lemma send_one_closed now k d log :
  wp (send_one 0 k) (fun _ p => exists d', p.(po_sess) = session_of d' now) (fun _ _ => True)
    (mk_post (session_of d now) log).
Proof.
  unfold send_one. apply wp_bind, wp_in_post, wp_read, wp_bind, wp_unwrap; [done|]. intros row _.
  apply wp_bind, wp_deliver. intros [|e|]; cbn zeta; [..|done].
  - apply wp_bind, wp_in_post, wp_gets, wp_bind, wp_in_post, wp_bind, wp_write, wp_commit; [done|].
    apply wp_ret. by eexists.
  - apply wp_bind, wp_in_post, wp_bind, wp_write, wp_commit; [done|]. apply wp_ret. by eexists.
Qed.
(** [send_queued_batch] of one worker does what the steps of the system do. *)
Definition same_mail (p : post) (y : mail_system) : Prop :=
  p.(po_sess).(s_committed) = y.(ms_db) /\ p.(po_log) = y.(ms_log).
Lemma sends_are_steps now ids acc d log ws i :
  ws !! i = Some ids ->
  exists n, same_mail (snd (fold_each ids acc send_one (mk_post (session_of d now) log)))
              (mail_run (repeat (now, SendNext i) n) (mk_mail_system d log ws)).
Proof.
  revert acc d log ws. induction ids as [|k ids IH]; intros acc d log ws Hi; [by exists O|].
  cbn [fold_each]. unfold bind. rewrite send_one_count.
  pose proof (send_one_closed now k d log) as Hclosed. unfold wp in Hclosed.
  assert (mail_do (now, SendNext i) (mk_mail_system d log ws) =
    let '(r, p) := send_one 0 k (mk_post (session_of d now) log) in
    mk_mail_system p.(po_sess).(s_committed) p.(po_log)
      (<[i := match r with Ok _ => ids | Raise _ => [] end]> ws)) as Hdo.
  { cbn [mail_do ms_workers]. rewrite Hi. unfold transact. cbn [ms_db ms_log].
    by destruct (send_one 0 k _) as [[n|e] p]. }
  destruct (send_one 0 k _) as [[n|e] p] eqn:Hs.
  - destruct Hclosed as [d' Hp]. destruct p as [s log']. cbn [po_sess po_log] in Hp, Hdo. subst s.
    destruct (IH (acc + n) d' log' (<[i := ids]> ws)) as [j Hj].
    { apply list_lookup_insert_eq. by eapply lookup_lt_Some. }
    exists (S j). cbn [repeat mail_run fold_left]. by rewrite Hdo.
  - exists 1%nat. cbn [repeat mail_run fold_left]. by rewrite Hdo.
Qed.
Lemma batch_is_steps now n d log ws :
  smtp_enabled = true ->
  exists j, same_mail (snd (send_queued_batch n (mk_post (session_of d now) log)))
    (mail_run ((now, ClaimBatch n) :: repeat (now, SendNext (length ws)) j) (mk_mail_system d log ws)).
Proof.
  intros Hen. unfold send_queued_batch. rewrite Hen. cbn [negb]. unfold bind.
  cbn [mail_run fold_left mail_do]. rewrite Hen. cbn [negb]. unfold transact. cbn [ms_db ms_log].
  assert (wp (claim_mails n) (fun _ s => exists d', s = session_of d' now) (fun _ _ => True)
    (session_of d now)) as Hclosed.
  { unfold claim_mails. apply wp_bind, wp_read. destruct (queued_mails _ _); [by exists d|].
    apply wp_bind, wp_write, wp_bind, wp_commit; [done|]. by eexists. }
  unfold wp in Hclosed. unfold in_post. cbn [po_sess].
  destruct (claim_mails n (session_of d now)) as [[ids|e] s]; cbn [fst snd update po_sess po_log].
  - destruct Hclosed as [d' ->]. cbn [s_committed session_of].
    destruct (sends_are_steps now ids 0 d' log (ws ++ [ids]) (length ws)) as [j Hj].
    { by rewrite lookup_app_r, Nat.sub_diag by done. }
    by exists j.
  - by exists O.
Qed.

(** C14. Mail is sent once.  However workers claim, send, crash and run side by
    side, whatever the mail server answers, and whatever is enqueued and
    retried: a message is handed over again only when the last time was
    reported to have failed, a message marked as sent was taken, and it is
    handed over at most five times and once more for every retry. *)
Theorem mail_is_sent_once l d k :
  d.(db_emails) = [] ->
  let y := mail_run l (mk_mail_system d [] []) in
  Forall refused (tail (answers k y.(ms_log)))
  /\ Z.of_nat (length (answers k y.(ms_log))) <= MAX_ATTEMPTS + Z.of_nat (retries k l)
  /\ forall m, tbl_get k y.(ms_db).(db_emails) = Some m ->
       em_status m = EM_SENT -> hd_error (answers k y.(ms_log)) = Some Accepted.
Proof.
  intros Hd y. assert (mails_ok (fun _ => O) (mk_mail_system d [] [])) as H0.
  { unfold mails_ok. cbn. rewrite Hd. split; [by constructor|]. split; [by constructor|]. intros j. by split; [|intros []]. }
  apply (mail_run_ok l) in H0 as (_ & _ & Hk). fold y in Hk. specialize (Hk k). cbn beta in Hk.
  rewrite Nat.add_0_r in Hk. destruct (tbl_get k _) as [m|].
  - destruct Hk as [Hl Hk]. destruct (em_status m) eqn:Hst.
    + destruct Hk as (? & ? & _). split; [by apply Forall_tail|]. split; [lia|]. by intros m' [= <-]; rewrite Hst.
    + destruct Hk as (? & ? & _). split; [done|]. split; [lia|]. by intros m' [= <-]; rewrite Hst.
    + destruct Hk as (? & (rest & Hans & ?) & _). rewrite Hans in *. split; [done|]. split; [lia|done].
    + destruct Hk as (? & ? & _). split; [by apply Forall_tail|]. split; [lia|]. by intros m' [= <-]; rewrite Hst.
    + destruct Hk as (? & ? & _). split; [by apply Forall_tail|]. split; [lia|]. by intros m' [= <-]; rewrite Hst.
  - destruct Hk as [Hans _]. rewrite Hans. cbn. split; [by constructor|]. split; [unfold MAX_ATTEMPTS; lia|done].
Qed.
End Mail.

(** ** At a concrete server *)

(** The first time a message is handed over fails, the second time it is
    taken. *)
Definition flaky_server (m : email_message) (log : list (Z * smtp_answer)) : smtp_answer :=
  match answers m.(em_id) log with [] => Refused "timed out" | _ => Accepted end.
Definition welcome_mail (name : string) : mail_args :=
  mk_mail_args (name +:+ "@example.com") "welcome" ("welcome:" +:+ name) [] None None None None.
(** Two workers and a crash: the second message is left behind. *)
Definition busy_morning : list (Z * mail_event) :=
  [(1, Enqueue (welcome_mail "ann")); (2, Enqueue (welcome_mail "bob")); (3, ClaimBatch 1);
   (4, ClaimBatch 50); (5, SendNext 0); (6, Crash 1); (7, ClaimBatch 50); (8, SendNext 2);
   (9, Retry 2); (10, ClaimBatch 50)].
Lemma mail_is_sent_once_witness :
  let y := mail_run true flaky_server busy_morning (mk_mail_system empty_db [] []) in
  answers 1 y.(ms_log) = [Accepted; Refused "timed out"]
  /\ Forall refused (tail (answers 1 y.(ms_log))).
Proof.
  split; [vm_compute; reflexivity|].
  apply (mail_is_sent_once true flaky_server busy_morning empty_db 1). reflexivity.
Defined.
(** A message whose worker died stays in sending: no batch takes it and the
    administrator's retry refuses it. *)
Lemma crash_strands_mail :
  let y := mail_run true flaky_server busy_morning (mk_mail_system empty_db [] []) in
  concat y.(ms_workers) = [] /\ answers 2 y.(ms_log) = []
  /\ option_map em_status (tbl_get 2 y.(ms_db).(db_emails)) = Some EM_SENDING.
Proof. vm_compute. repeat split. Qed.

(** * Outbound webhooks *)

(** What an endpoint answers to the signed body of a delivery. *)
Inductive post_answer : Type :=
| Responded (status_code : Z) (text : string)
| PostFailed (error : string).

Section Webhooks.
(** [httpx.post] of the JSON body signed with the endpoint's secret. *)
Variable post_webhook : webhook_endpoint -> webhook_delivery -> post_answer.
(** [hashlib.sha256(_).hexdigest()] *)
Variable sha256_hex : string -> string.

Definition upd_delivery (k : Z) (f : webhook_delivery -> webhook_delivery) : Meth unit :=
  write (fun d => d <|db_deliveries := tbl_update k f d.(db_deliveries)|>).

Definition pending_deliveries (limit : Z) (d : db) : list webhook_delivery :=
  take (Z.to_nat limit) (List.filter (fun w => w.(wd_status) == WD_PENDING) d.(db_deliveries)).
Definition unreachable (w : webhook_delivery) : webhook_delivery :=
  w <|wd_status := WD_FAILED|> <|wd_last_error := Some "Endpoint disabled or missing"|>.
Definition attempted (a : post_answer) (w : webhook_delivery) : webhook_delivery :=
  let w := w <|wd_attempts := w.(wd_attempts) + 1|> in
  match a with
  | Responded code text =>
      if (200 <=? code) && (code <? 300)
      then w <|wd_status := WD_DELIVERED|> <|wd_last_error := None|>
      else w <|wd_status := WD_FAILED|>
             <|wd_last_error := Some ("HTTP " +:+ pretty code +:+ ": " +:+ str_take 500 text)|>
  | PostFailed e => w <|wd_status := WD_FAILED|> <|wd_last_error := Some (str_take 500 e)|>
  end.
Definition success (a : post_answer) : bool :=
  match a with Responded code _ => (200 <=? code) && (code <? 300) | PostFailed _ => false end.

Definition deliver_pending (limit : Z) : Meth Z :=
  rows <- read (pending_deliveries limit) ;;
  sent <- fold_each rows 0 (fun sent delivery =>
    endpoint <- read (fun d => tbl_get delivery.(wd_endpoint_id) d.(db_endpoints)) ;;
    match endpoint with
    | Some e =>
        if negb e.(ep_enabled) then
          upd_delivery delivery.(wd_id) unreachable ;;; ret sent
        else
          let a := post_webhook e delivery in
          upd_delivery delivery.(wd_id) (attempted a) ;;;
          ret (if success a then sent + 1 else sent)
    | None => upd_delivery delivery.(wd_id) unreachable ;;; ret sent
    end) ;;
  match rows with
  | [] => ret sent
  | _ => flush ;;; ret sent
  end.
Definition create_endpoint (url secret : string) (events : list string) (enabled : bool) : Meth Z :=
  id <- read (fun d => tbl_fresh d.(db_endpoints)) ;;
  write (fun d => d <|db_endpoints := d.(db_endpoints) ++
    [mk_webhook_endpoint id (str_strip url) (sha256_hex secret) events enabled]|>) ;;;
  flush ;;;
  ret id.

(** What becomes of a delivery. *)
Definition outcome_of (d : db) (w : webhook_delivery) : webhook_delivery :=
  match tbl_get w.(wd_endpoint_id) d.(db_endpoints) with
  | Some e => if e.(ep_enabled) then attempted (post_webhook e w) w else unreachable w
  | None => unreachable w
  end.
Definition settle (d : db) (ids : list Z) (w : webhook_delivery) : webhook_delivery :=
  if existsb (Z.eqb w.(wd_id)) ids then outcome_of d w else w.
Definition delivered (d : db) (w : webhook_delivery) : bool :=
  (outcome_of d w).(wd_status) == WD_DELIVERED.

(** The assignments made to the row of [w]. *)
Definition change (d : db) (w : webhook_delivery) : webhook_delivery -> webhook_delivery :=
  match tbl_get w.(wd_endpoint_id) d.(db_endpoints) with
  | Some e => if e.(ep_enabled) then attempted (post_webhook e w) else unreachable
  | None => unreachable
  end.
Lemma change_key d w x : wd_id (change d w x) = wd_id x.
Proof. unfold change, attempted, unreachable. by repeat case_match. Qed.
Lemma change_status d w x : wd_status (change d w x) = wd_status (outcome_of d w).
Proof. unfold change, outcome_of, attempted, unreachable. by repeat case_match. Qed.
Definition change_all (d : db) (rows : list webhook_delivery) (x : webhook_delivery) : webhook_delivery :=
  match List.find (fun w => wd_id w =? wd_id x) rows with Some w => change d w x | None => x end.
Lemma change_step d w rows t :
  ~ In (wd_id w) (map wd_id rows) ->
  map (change_all d rows) (tbl_update (wd_id w) (change d w) t) = map (change_all d (w :: rows)) t.
Proof.
  intros Hw. unfold tbl_update. rewrite map_map. apply map_ext. intros x. unfold change_all. cbn [List.find].
  change (row_key x) with (wd_id x). rewrite (Z.eqb_sym (wd_id x)).
  destruct (Z.eqb_spec (wd_id w) (wd_id x)) as [Heq|]; [|done]. rewrite change_key, <- Heq.
  destruct (List.find _ rows) as [w'|] eqn:E; [|done]. exfalso. apply List.find_some in E as [Hin Hid].
  apply Hw. apply Z.eqb_eq in Hid. rewrite <- Hid. by apply in_map.
Qed.
Definition deliver_step (sent : Z) (delivery : webhook_delivery) : Meth Z :=
  endpoint <- read (fun d => tbl_get delivery.(wd_endpoint_id) d.(db_endpoints)) ;;
  match endpoint with
  | Some e =>
      if negb e.(ep_enabled) then upd_delivery delivery.(wd_id) unreachable ;;; ret sent
      else
        let a := post_webhook e delivery in
        upd_delivery delivery.(wd_id) (attempted a) ;;;
        ret (if success a then sent + 1 else sent)
  | None => upd_delivery delivery.(wd_id) unreachable ;;; ret sent
  end.
Lemma deliver_step_run w sent s :
  deliver_step sent w s =
  (Ok (sent + if delivered s.(s_db) w then 1 else 0),
   s <|s_db := s.(s_db) <|db_deliveries := tbl_update (wd_id w) (change s.(s_db) w) s.(s_db).(db_deliveries)|>|>).
Proof.
  unfold deliver_step, bind, read, gets, delivered, outcome_of, change.
  destruct (tbl_get _ (db_endpoints _)) as [e|]; [destruct (ep_enabled e)|]; cbn [negb];
    unfold upd_delivery, write, modify, ret; try (cbn; by rewrite Z.add_0_r).
  unfold attempted. destruct (post_webhook e w) as [code text|err]; cbn [success].
  - destruct ((200 <=? code) && (code <? 300)); [done|]. cbn. by rewrite Z.add_0_r.
  - cbn. by rewrite Z.add_0_r.
Qed.
Lemma deliver_rows rows sent s :
  List.NoDup (map wd_id rows) ->
  fold_each rows sent deliver_step s =
  (Ok (sent + Z.of_nat (length (List.filter (delivered s.(s_db)) rows))),
   s <|s_db := s.(s_db) <|db_deliveries := map (change_all s.(s_db) rows) s.(s_db).(db_deliveries)|>|>).
Proof.
  revert sent s. induction rows as [|w rows IH]; intros sent s Hnd.
  - cbn. rewrite Z.add_0_r, map_id. by destruct s as [[]].
  - inversion Hnd as [|? ? Hw Hnd']; subst. cbn [fold_each]. unfold bind. rewrite deliver_step_run.
    rewrite IH by done. set (t := tbl_update (wd_id w) _ _). set (d := (s_db s) <|db_deliveries := t|>).
    change (s_db (s <|s_db := d|>)) with d. change (delivered d) with (delivered (s_db s)).
    change (change_all d rows) with (change_all (s_db s) rows). change (db_deliveries d) with t.
    unfold t. rewrite change_step by done. f_equal. cbn [List.filter].
    destruct (delivered (s_db s) w); cbn [length]; f_equal; lia.
Qed.

(** Deliveries are settled.  The oldest pending deliveries, up to the limit,
    are each tried once and end delivered or failed, the others are left
    alone, and the answer counts the delivered ones. *)
Theorem deliveries_are_settled limit s r s' :
  tbl_wf s.(s_db).(db_deliveries) -> deliver_pending limit s = (r, s') ->
  let rows := pending_deliveries limit s.(s_db) in
  s'.(s_db).(db_deliveries) = map (settle s.(s_db) (map wd_id rows)) s.(s_db).(db_deliveries)
  /\ (forall w, In w rows -> wd_status (settle s.(s_db) (map wd_id rows) w) <> WD_PENDING)
  /\ forall n, r = Ok n -> n = Z.of_nat (length (List.filter (delivered s.(s_db)) rows)).
Proof.
  intros Hw Hrun rows.
  assert (List.NoDup (map wd_id rows)) as Hnd.
  { apply (tbl_wf_filter (fun w => w.(wd_status) == WD_PENDING)) in Hw. unfold rows, pending_deliveries.
    unfold tbl_wf in Hw. rewrite <- (take_drop (Z.to_nat limit) (List.filter _ _)), map_app in Hw.
    by apply List.NoDup_app_remove_r in Hw. }
  assert (forall x, In x s.(s_db).(db_deliveries) ->
    change_all s.(s_db) rows x = settle s.(s_db) (map wd_id rows) x) as Hsame.
  { intros x Hx. unfold change_all, settle. destruct (List.find _ rows) as [w|] eqn:E.
    - apply List.find_some in E as [Hin Hid%Z.eqb_eq].
      assert (w = x) as ->.
      { apply take_In, filter_In in Hin as [Hin _]. apply (tbl_get_wf _ _ Hw) in Hin, Hx.
        change (row_key w) with (wd_id w) in Hin. change (row_key x) with (wd_id x) in Hx. congruence. }
      assert (existsb (Z.eqb (wd_id x)) (map wd_id rows) = true) as ->.
      { apply existsb_exists. exists (wd_id x). split; [by apply in_map|apply Z.eqb_refl]. }
      unfold change, outcome_of. by repeat case_match.
    - destruct (existsb _ _) eqn:Hex; [|done]. apply existsb_exists in Hex as (k & Hk & Hxk%Z.eqb_eq).
      apply in_map_iff in Hk as (w & <- & Hw'). eapply List.find_none in E; [|exact Hw'].
      cbn in E. lia. }
  unfold deliver_pending, bind in Hrun. cbn [read gets] in Hrun. fold rows in Hrun.
  change (fold_each rows 0 _) with (fold_each rows 0 deliver_step) in Hrun.
  rewrite (deliver_rows rows 0 s Hnd), Z.add_0_l in Hrun.
  split; [|split].
  - rewrite <- (map_ext_in _ _ _ Hsame). destruct rows; [by injection Hrun as _ <-|].
    destruct (flush _) as [[]s1] eqn:Hf; apply flush_inv in Hf as ->; by injection Hrun as _ <-.
  - intros w Hin. unfold settle.
    assert (existsb (Z.eqb (wd_id w)) (map wd_id rows) = true) as ->.
    { apply existsb_exists. exists (wd_id w). split; [by apply in_map|apply Z.eqb_refl]. }
    unfold outcome_of, attempted, unreachable. by repeat case_match.
  - intros n ->. destruct rows; [by injection Hrun as <- _|].
    destruct (flush _) as [[]s1]; [|done]. by injection Hrun as <- _.
Qed.
End Webhooks.

(** An endpoint that answers, one that is switched off, and a limit of two. *)
Definition sample_deliveries : db :=
  empty_db
    <|db_endpoints := [mk_webhook_endpoint 1 "https://a.example" "s" [] true;
                       mk_webhook_endpoint 2 "https://b.example" "s" [] false]|>
    <|db_deliveries := map (fun x => mk_webhook_delivery (fst x) (snd x) "order.paid" [] WD_PENDING 0 None)
                         [(1, 1); (2, 2); (3, 1)]|>.
Lemma deliveries_are_settled_witness :
  let '(r, s') := deliver_pending (fun _ _ => Responded 204 "") 2 (session_of sample_deliveries 0) in
  r = Ok 1 /\ map wd_status s'.(s_db).(db_deliveries) = [WD_DELIVERED; WD_FAILED; WD_PENDING]
  /\ 1 = Z.of_nat (length (List.filter (delivered (fun _ _ => Responded 204 "") sample_deliveries)
           (pending_deliveries 2 sample_deliveries))).
Proof.
  destruct (deliver_pending _ 2 _) as [r s'] eqn:E.
  assert (r = Ok 1) as -> by (apply (f_equal fst) in E; vm_compute in E; by symmetry).
  split; [done|]. split; [apply (f_equal (fun x => map wd_status (db_deliveries (s_db (snd x))))) in E; vm_compute in E; by symmetry|].
  eapply (deliveries_are_settled (fun _ _ => Responded 204 "") 2 (session_of sample_deliveries 0) (Ok 1) s');
    [|exact E|reflexivity].
  repeat constructor; cbn; lia.
Defined.
