(* ===== verification/Webhooks.v ===== *)
(** Payment gateway webhooks: src/app/services/payments/webhooks.py, and the
    endpoint wrapper of src/app/api/reseller_panel.py.

    Signature checks happen in the gateway adapters, before [process]; the
    events here are the adapters' normalised ones. *)
From Stdlib Require Import ZArith Lia.
From stdpp Require Import base numbers list strings pretty.
From S2P Require Import Prelude Calendar Models Session Ledger Invoices.
From S2P Require Import Lifecycle Outbox Mail Orchestrator Funding.
#[local] Open Scope Z_scope.
#[local] Open Scope py_scope.

(** * Events *)

Inductive webhook_action : Type :=
| PAYMENT_COMPLETED | PAYMENT_FAILED | PAYMENT_REVERSED | PAYMENT_DISPUTED | IGNORED.
#[export] Instance webhook_action_eq_dec : EqDecision webhook_action.
Proof. solve_decision. Defined.

(** [NormalizedGatewayWebhookEvent] *)
Record gateway_event : Type := mk_gateway_event {
  ev_event_id : string;
  ev_event_type : string;
  ev_action : webhook_action;
  ev_external_ref : option string;
  ev_related_external_ref : option string;
  ev_amount_cents : option Z;
  ev_currency : option string;
  ev_failure_code : option string
}.

(** [sha256_hex] is [hashlib.sha256(_).hexdigest()]; its value is only stored.
    [event_loop_running] says whether the calling thread is already running an
    asyncio event loop. *)
Record webhook_env : Type := mk_webhook_env {
  wh_lifecycle : lifecycle_env;
  event_loop_running : bool;
  sha256_hex : string -> string
}.

(** * Finding the payment *)

Fixpoint first_payment (gateway : string) (refs : list string)
  : Meth (option payment) :=
  match refs with
  | [] => ret None
  | ref :: refs' =>
      if str_empty ref then first_payment gateway refs'
      else
        rows <- read (fun d => List.filter
          (fun p => (p.(pm_gateway) == gateway) && (p.(pm_external_ref) == Some ref))
          d.(db_payments)) ;;
        o <- scalar_one_or_none MultipleResultsFound rows ;;
        match o with
        | Some p => ret (Some p)
        | None => first_payment gateway refs'
        end
  end.

Definition payment_for_update (gateway external_ref : string)
    (related_external_ref : option string) : Meth (option payment) :=
  first_payment gateway
    (external_ref ::
     (if str_true related_external_ref
         && (related_external_ref != Some external_ref)
      then [str_or related_external_ref ""] else [])).

(** * Success and failure *)

Definition payment_succeeded (gateway : string) (ev : gateway_event) : Meth unit :=
  throw_if (negb (str_true ev.(ev_external_ref)))
    (PaymentGatewayError "Gateway payment reference is missing") ;;;
  let ref := str_or ev.(ev_external_ref) "" in
  o <- payment_for_update gateway ref ev.(ev_related_external_ref) ;;
  match o with
  | None => ret tt
  | Some p =>
      let event_currency := str_upper (str_or ev.(ev_currency) "") in
      amount <- unwrap ev.(ev_amount_cents)
        (PaymentGatewayError "Gateway payment amount is missing") ;;
      throw_if (str_empty event_currency)
        (PaymentGatewayError "Gateway payment currency is missing") ;;;
      throw_if (negb (amount =? p.(pm_amount_cents)))
        (PaymentGatewayError "Gateway payment amount does not match") ;;;
      throw_if (event_currency != str_upper p.(pm_currency))
        (PaymentGatewayError "Gateway payment currency does not match") ;;;
      upd_payment p.(pm_id) (fun x => x <|pm_external_ref := ev.(ev_external_ref)|>) ;;;
      finalize_success p.(pm_id) ;;;
      invoice <- read (fun d => tbl_get p.(pm_invoice_id) d.(db_invoices)) ;;
      match invoice with
      | Some i =>
          match i.(in_billing_account_id) with
          | Some account =>
              try_catch
                (enqueue_commerce_event "invoice.paid"
                   [("invoice_id", JInt i.(in_id));
                    ("invoice_number", JInt i.(in_invoice_number));
                    ("billing_account_id", JInt account);
                    ("order_id", jopt_int i.(in_order_id))] ;;; ret tt)
                (fun _ => ret tt)
          | None => ret tt
          end
      | None => ret tt
      end
  end.

Definition payment_failed (gateway : string) (ev : gateway_event) : Meth unit :=
  o <- payment_for_update gateway (str_or ev.(ev_external_ref) "")
         ev.(ev_related_external_ref) ;;
  match o with
  | None => ret tt
  | Some p =>
      if p.(pm_status) == PS_SUCCEEDED then ret tt
      else
        now <- utcnow ;;
        upd_payment p.(pm_id) (fun x =>
          (if str_true ev.(ev_external_ref)
           then x <|pm_external_ref := ev.(ev_external_ref)|> else x)
            <|pm_status := PS_FAILED|>
            <|pm_failure_code := Some (str_or ev.(ev_failure_code) "payment_failed")|>
            <|pm_failure_message := Some "The payment could not be completed"|>
            <|pm_processed_at := Some now|>) ;;;
        i <- the_invoice p.(pm_invoice_id) ;;
        if i.(in_status) == IS_PENDING_ACTION
        then upd_invoice i.(in_id) (fun x => x <|in_status := IS_OPEN|>)
        else ret tt
  end.

(** * Reversals *)

Definition event_key (gateway reason event_id : string) : string :=
  gateway +:+ "-" +:+ reason +:+ ":" +:+ event_id.

(** [invoice.reseller_id] may be [None]: the ledger then finds no reseller. *)
Definition invoice_owner (i : invoice) : Meth Z :=
  unwrap i.(in_reseller_id) (ResellerNotFoundError 0).

Definition topup_entries (payment_id : Z) (d : db) : list ledger_entry :=
  List.filter (fun e => (e.(le_payment_id) == Some payment_id)
                        && (e.(le_entry_type) == ET_TOPUP)) d.(db_ledger).

Definition reversal_debit_args (i : invoice) (payment_id : Z)
    (gateway reason event_id : string) : entry_context :=
  no_context
    <|ctx_description := Some ("Gateway " +:+ reason +:+ " for invoice "
                               +:+ pretty i.(in_invoice_number))|>
    <|ctx_invoice_id := Some i.(in_id)|>
    <|ctx_payment_id := Some payment_id|>
    <|ctx_service_id := i.(in_service_id)|>
    <|ctx_reference_type := Some ("gateway_" +:+ reason)|>
    <|ctx_reference_id := Some event_id|>
    <|ctx_idempotency_key := Some (event_key gateway reason event_id)|>
    <|ctx_metadata := [("gateway_event_id", JStr event_id)]|>.

Definition reverse_payment (gateway external_ref event_id reason : string)
  : Meth unit :=
  o <- payment_for_update gateway external_ref None ;;
  match o with
  | None => ret tt
  | Some p =>
      if p.(pm_status) == PS_REFUNDED then ret tt
      else
        i <- the_invoice p.(pm_invoice_id) ;;
        (if i.(in_purpose) == IP_CREDIT_TOPUP then
           rows <- read (topup_entries p.(pm_id)) ;;
           topup <- scalar_one_or_none MultipleResultsFound rows ;;
           match topup with
           | Some t =>
               owner <- invoice_owner i ;;
               reverse owner t.(le_id)
                 (Some ("Gateway " +:+ reason +:+ " for top-up invoice "
                        +:+ pretty i.(in_invoice_number)))
                 (Some (event_key gateway reason event_id))
                 [("gateway_event_id", JStr event_id); ("reason", JStr reason)]
                 None ;;; ret tt
           | None => ret tt
           end
         else
           require_integer_cents p.(pm_amount_cents) true ;;;
           owner <- invoice_owner i ;;
           debit owner p.(pm_amount_cents)
             (reversal_debit_args i p.(pm_id) gateway reason event_id) true ;;;
           ret tt) ;;;
        now <- utcnow ;;
        upd_payment p.(pm_id) (fun x =>
          x <|pm_status := PS_REFUNDED|> <|pm_refunded_at := Some now|>
            <|pm_metadata := dict_merge x.(pm_metadata)
                [("reversal_type", JStr reason); ("gateway_event_id", JStr event_id)]|>) ;;;
        upd_invoice i.(in_id) (fun x =>
          x <|in_status := IS_FAILED|> <|in_paid_at := None|>)
  end.

(** * Disputes *)

Fixpoint dedup (seen : list Z) (l : list Z) : list Z :=
  match l with
  | [] => []
  | x :: l' => if existsb (Z.eqb x) seen then dedup seen l'
               else x :: dedup (x :: seen) l'
  end.

Definition linked_service_ids (i : invoice) (d : db) : list Z :=
  let direct := match i.(in_service_id) with Some k => [k] | None => [] end in
  let ordered :=
    match i.(in_order_id) with
    | Some o => omap oi_service_id
                  (List.filter (fun x => x.(oi_order_id) =? o) d.(db_order_items))
    | None => []
    end in
  dedup [] (direct ++ ordered).

Definition suspend_services_for_dispute (env : webhook_env) (ids : list Z)
  : Meth unit :=
  for_each ids (fun k =>
    s <- read (fun d => tbl_get k d.(db_services)) ;;
    match s with
    | None => ret tt
    | Some _ =>
        try_catch (suspend env.(wh_lifecycle) k ;;; ret tt)
          (fun e => match e with
                    | ServiceLifecycleError _ _ => ret tt
                    | _ => raise e
                    end)
    end).

(** [asyncio.run(coro)] and [loop.run_until_complete(coro)] refuse to start
    while the thread runs another event loop. *)
Definition run_async {A} (env : webhook_env) (coro : Meth A) : Meth A :=
  if env.(event_loop_running) then raise (OtherError "RuntimeError") else coro.

Definition run_suspend_services_for_dispute (env : webhook_env) (ids : list Z)
  : Meth unit :=
  try_catch (run_async env (suspend_services_for_dispute env ids))
    (fun e => if is_runtime_error e
              then run_async env (suspend_services_for_dispute env ids)
              else raise e).

Definition enqueue_dispute_suspend_email (i : invoice) (reason : string)
  : Meth unit :=
  match i.(in_billing_account_id) with
  | None => ret tt
  | Some account_id =>
      try_catch
        (account <- read (fun d => tbl_get account_id d.(db_accounts)) ;;
         recipient <- read (fun d =>
           match account with
           | Some a =>
               match a.(ba_user_id) with
               | Some u => match tbl_get u d.(db_users) with
                           | Some x => x.(us_email)
                           | None => ""
                           end
               | None => ""
               end
           | None => ""
           end) ;;
         if str_empty recipient then ret tt
         else
           enqueue_mail (mk_mail_args recipient "service_suspended"
             ("dispute:suspend:invoice:" +:+ pretty i.(in_id))
             [("invoice_id", JInt i.(in_id));
              ("invoice_number", JInt i.(in_invoice_number));
              ("reason", JStr reason)]
             (Some account_id)
             (match account with Some a => a.(ba_user_id) | None => None end)
             (Some "invoice") (Some (pretty i.(in_id)))) ;;; ret tt)
        (fun _ => ret tt)
  end.

Definition suspend_linked_services (env : webhook_env) (i : invoice)
    (reason : string) : Meth unit :=
  ids <- read (linked_service_ids i) ;;
  match ids with
  | [] => ret tt
  | _ =>
      run_suspend_services_for_dispute env ids ;;;
      enqueue_dispute_suspend_email i reason
  end.

Definition handle_payment_disputed (env : webhook_env) (gateway : string)
    (ev : gateway_event) (event_id : string) : Meth unit :=
  let ref := str_or ev.(ev_external_ref) "" in
  reverse_payment gateway ref event_id "dispute" ;;;
  o <- payment_for_update gateway ref None ;;
  match o with
  | None => ret tt
  | Some p =>
      invoice <- read (fun d => tbl_get p.(pm_invoice_id) d.(db_invoices)) ;;
      match invoice with
      | Some i => suspend_linked_services env i "dispute"
      | None => ret tt
      end
  end.

(** * Processing *)

Definition events_with_id (gateway event_id : string) (d : db) : list webhook_event :=
  List.filter (fun e => (e.(we_gateway) == gateway) && (e.(we_event_id) == event_id))
    d.(db_webhook_events).

Definition dispatch (env : webhook_env) (gateway : string) (ev : gateway_event)
  : Meth unit :=
  match ev.(ev_action) with
  | PAYMENT_COMPLETED => payment_succeeded gateway ev
  | PAYMENT_FAILED => payment_failed gateway ev
  | PAYMENT_REVERSED =>
      reverse_payment gateway (str_or ev.(ev_external_ref) "") ev.(ev_event_id) "refund"
  | PAYMENT_DISPUTED => handle_payment_disputed env gateway ev ev.(ev_event_id)
  | IGNORED => ret tt
  end.

Definition claim_event (gateway : string) (ev : gateway_event)
    (payload_hash : string) (now : Z) : Meth unit :=
  write (fun d => d <|db_webhook_events := d.(db_webhook_events) ++
    [mk_webhook_event (tbl_fresh d.(db_webhook_events)) gateway ev.(ev_event_id)
       ev.(ev_event_type) payload_hash (Some now)]|>) ;;;
  flush.

Definition process (env : webhook_env) (gateway : string) (ev : gateway_event)
    (raw_payload : string) : Meth bool :=
  throw_if (str_empty ev.(ev_event_id) || str_empty ev.(ev_event_type))
    (PaymentGatewayError "Gateway event is missing id or type") ;;;
  rows <- read (events_with_id gateway ev.(ev_event_id)) ;;
  existing <- scalar_one_or_none MultipleResultsFound rows ;;
  match existing with
  | Some _ => ret false
  | None =>
      now <- utcnow ;;
      try_catch
        (begin_nested
           (claim_event gateway ev (env.(sha256_hex) raw_payload) now ;;;
            dispatch env gateway ev ;;;
            flush) ;;;
         ret true)
        (fun e => match e with IntegrityError => ret false | _ => raise e end)
  end.

(** The endpoints answer [{"received": true, "duplicate": ...}]. *)
Definition webhook_endpoint_call (env : webhook_env) (gateway : string)
    (ev : gateway_event) (raw_payload : string) : Meth bool :=
  try_catch
    (processed <- process env gateway ev raw_payload ;;
     commit ;;;
     ret (negb processed))
    (fun e =>
       rollback ;;;
       if is_gateway_error e then raise (HTTPException 400) else raise e).

(** * Laws *)

(** ** The event table is written by the claim alone *)

Definition same_events (t : list webhook_event) (d : db) : Prop :=
  d.(db_webhook_events) = t.

#[local] Ltac open_all :=
  unfold finalize_success, mark_paid_if_fully_allocated, credit_invoice_owner,
    notify_quietly, enqueue, enqueue_mail, enqueue_commerce_event, credit, debit,
    reverse, suspend;
  unfold invoice_get_for_update, allocated_cents, require_integer_cents, scalar_one,
    append_locked, lock_reseller, invoice_owner, ensure_powered_off;
  unfold find_plugin;
  unfold lift_outcome.

Lemma commerce_event_events t e p :
  keeps_db (same_events t) (enqueue_commerce_event e p).
Proof. open_all. keeps_tac. Qed.
Lemma mail_events t a : keeps_db (same_events t) (enqueue_mail a).
Proof. open_all. keeps_tac. Qed.
Lemma debit_events t k n a neg : keeps_db (same_events t) (debit k n a neg).
Proof. open_all. keeps_tac. Qed.
Lemma reverse_events t k e dsc key m u :
  keeps_db (same_events t) (reverse k e dsc key m u).
Proof. open_all. keeps_tac. Qed.
Lemma suspend_events t env k : keeps_db (same_events t) (suspend env k).
Proof. open_all. keeps_tac. Qed.
Lemma credit_events t k n a : keeps_db (same_events t) (credit k n a).
Proof. open_all. keeps_tac. Qed.
Lemma finalize_events t pid : keeps_db (same_events t) (finalize_success pid).
Proof. apply frame_finalize. split; auto using credit_events, debit_events. Qed.
Lemma first_payment_keeps I gateway refs : keeps I (first_payment gateway refs).
Proof. induction refs as [|r refs IH]; cbn; keeps_tac. Qed.
#[export] Hint Resolve finalize_events commerce_event_events mail_events debit_events
  reverse_events suspend_events first_payment_keeps : dcim.

Lemma reverse_payment_events t g r e y :
  keeps_db (same_events t) (reverse_payment g r e y).
Proof.
  unfold reverse_payment, payment_for_update, invoice_owner, require_integer_cents.
  keeps_tac.
Qed.
#[export] Hint Resolve reverse_payment_events : dcim.

Lemma dispatch_events t env g ev : keeps_db (same_events t) (dispatch env g ev).
Proof.
  unfold dispatch, payment_succeeded, payment_failed, handle_payment_disputed,
    payment_for_update, suspend_linked_services, run_suspend_services_for_dispute,
    run_async, suspend_services_for_dispute, enqueue_dispute_suspend_email.
  keeps_tac.
Qed.

(** ** Claim before apply *)

(** The row [process] claims the event with. *)
Definition claimed_event (env : webhook_env) (gateway : string) (ev : gateway_event)
    (raw : string) (s : session) : webhook_event :=
  mk_webhook_event (tbl_fresh s.(s_db).(db_webhook_events)) gateway
    ev.(ev_event_id) ev.(ev_event_type) (env.(sha256_hex) raw) (Some s.(s_now)).

Lemma begin_nested_inv {A} (body : Meth A) s r s' :
  begin_nested body s = (r, s') ->
  match r with
  | Ok a => body s = (Ok a, s') /\ flush s' = (Ok tt, s')
  | Raise _ => s'.(s_db) = s.(s_db)
  end.
Proof.
  destruct r as [a|e]; [|apply begin_nested_raise].
  unfold begin_nested, bind at 1. destruct (flush s) as [[u|e] s1] eqn:Hf; [|done].
  apply flush_inv in Hf as ->. unfold bind. destruct (body s) as [[b|e] s2]; [|done].
  destruct (flush s2) as [[[]|e] s3] eqn:Hf2; [|done].
  pose proof Hf2 as Hf3. apply flush_inv in Hf2 as ->. by intros [= -> ->].
Qed.

(** The three ways [process] ends. *)
Lemma process_inv env g ev raw s r s' :
  process env g ev raw s = (r, s') ->
  match r with
  | Ok true =>
      s'.(s_db).(db_webhook_events)
      = s.(s_db).(db_webhook_events) ++ [claimed_event env g ev raw s] /\
      events_with_id g ev.(ev_event_id) s.(s_db) = [] /\
      flush s' = (Ok tt, s') /\
      exists s1, claim_event g ev (env.(sha256_hex) raw) s.(s_now) s = (Ok tt, s1) /\
        dispatch env g ev s1 = (Ok tt, s')
  | _ => s'.(s_db) = s.(s_db)
  end.
Proof.
  unfold process. unfold bind at 1, throw_if.
  destruct (_ || _); [by intros [= <- <-]|]. unfold ret at 1.
  unfold bind at 1, read at 1, gets at 1. unfold bind at 1.
  destruct (events_with_id g (ev_event_id ev) (s_db s)) as [|x [|y l]];
    cbn [scalar_one_or_none]; [| |by intros [= <- <-]]; unfold ret at 1;
    [|by intros [= <- <-]].
  unfold bind at 1, utcnow, gets. unfold try_catch, bind at 1.
  destruct (begin_nested _ s) as [[[]|e] s1] eqn:Hn; apply begin_nested_inv in Hn.
  - destruct Hn as [Hrun Hfl]. unfold ret at 1. intros [= <- <-].
    unfold bind at 1 in Hrun.
    destruct (claim_event _ _ _ _ s) as [[[]|e] s2] eqn:Hc; [|done].
    assert (s2.(s_db).(db_webhook_events)
            = s.(s_db).(db_webhook_events) ++ [claimed_event env g ev raw s]) as Hev.
    { unfold claim_event, bind, write, modify in Hc. apply flush_inv in Hc as ->. done. }
    unfold bind at 1 in Hrun.
    destruct (dispatch env g ev s2) as [[[]|e] s3] eqn:Hd; [|done].
    pose proof (flush_inv _ _ _ Hrun) as ->. split.
    + rewrite <- Hev. pose proof (dispatch_events s2.(s_db).(db_webhook_events) env g ev) as Hk.
      eapply (keeps_run _ _ _ _ _ Hk Hd). reflexivity.
    + split; [done|]. split; [done|]. by exists s2.
  - destruct e; intros [= <- <-]; done.
Qed.

(** C5. A gateway event takes effect at most once and never in part.  [process]
    answers [true] only for an event that was not recorded before; it then leaves
    exactly one record of it, and wherever that record is still present, whatever
    happened since, the same event id is answered [false] without touching
    anything.  In every other case, exceptions included, the rows are exactly as
    they were, so a failed delivery does not block a later one. *)
Theorem webhook_takes_effect_at_most_once env g ev raw s :
  let (out, s') := process env g ev raw s in
  match out with
  | Ok true =>
      events_with_id g ev.(ev_event_id) s.(s_db) = [] /\
      events_with_id g ev.(ev_event_id) s'.(s_db) = [claimed_event env g ev raw s] /\
      (forall env' ev' raw' s2,
         ev'.(ev_event_id) = ev.(ev_event_id) -> ev'.(ev_event_type) <> "" ->
         incl s'.(s_db).(db_webhook_events) s2.(s_db).(db_webhook_events) ->
         constraints s2.(s_db) = true ->
         process env' g ev' raw' s2 = (Ok false, s2))
  | _ => s'.(s_db) = s.(s_db)
  end.
Proof.
  destruct (process env g ev raw s) as [out s'] eqn:Hrun.
  pose proof (process_inv _ _ _ _ _ _ _ Hrun) as H.
  destruct out as [[]|e]; [|done|done]. destruct H as (Hev & Hnone & Hfl & _).
  split; [done|]. split.
  - unfold events_with_id in *. rewrite Hev, List.filter_app, Hnone. cbn.
    by rewrite !py_eq_refl.
  - intros env' ev' raw' s2 Hid Hty Hincl Hc.
    assert (events_with_id g (ev_event_id ev') (s_db s2)
            = [claimed_event env g ev raw s]) as Hfound.
    { apply (unique_by_filter (fun e => Some (e.(we_gateway), e.(we_event_id))) _
        (g, ev_event_id ev')).
      - unfold constraints in Hc. rewrite !andb_true_iff in Hc. tauto.
      - intros y. rewrite andb_true_iff, !py_eq_true. by intros [-> ->].
      - apply Hincl. rewrite Hev. apply in_or_app. right. by left.
      - cbn. by rewrite Hid, !py_eq_refl. }
    apply wp_exact. unfold process. wp_step. apply wp_throw_if.
    + rewrite orb_true_iff. rewrite Hid. intros [Hb|Hb]; exfalso.
      * unfold process, bind at 1, throw_if in Hrun. by rewrite Hb in Hrun.
      * by destruct (ev_event_type ev').
    + intros _. wp_step. apply wp_read. rewrite Hfound. wp_step. apply wp_ret.
      by apply wp_ret.
Qed.

(** A session in which reseller 1 paid top-up invoice 1 by card. *)
Definition quiet_env (running : bool) : webhook_env :=
  mk_webhook_env (mk_lifecycle_env None (fun _ => Raise AttributeError)
    (fun k => Some k) (fun _ => Raise AttributeError)) running (fun s => s).
Definition paid_topup : session :=
  (fund_invoice sample_registry 1 1 None
     (billed_session (sample_invoice IP_CREDIT_TOPUP 500))).2.
Definition refund_event : gateway_event :=
  mk_gateway_event "evt_1" "charge.refunded" PAYMENT_REVERSED (Some "pi_0") None None
    None None.

Lemma webhook_takes_effect_at_most_once_witness :
  let s1 := (process (quiet_env true) "stripe" refund_event "body" paid_topup).2 in
  map pm_status s1.(s_db).(db_payments) = [PS_REFUNDED] /\
  map rs_cached_balance_cents s1.(s_db).(db_resellers) = [0; 0] /\
  process (quiet_env false) "stripe" refund_event "again" s1 = (Ok false, s1).
Proof.
  intros s1. split; [vm_compute; reflexivity|]. split; [vm_compute; reflexivity|].
  pose proof (webhook_takes_effect_at_most_once (quiet_env true) "stripe" refund_event
    "body" paid_topup) as H.
  assert (fst (process (quiet_env true) "stripe" refund_event "body" paid_topup) = Ok true)
    as He by (vm_compute; reflexivity).
  assert (constraints s1.(s_db) = true) as Hc by (vm_compute; reflexivity).
  subst s1. destruct (process (quiet_env true) "stripe" refund_event "body" paid_topup)
    as [out s1]. cbn [fst snd] in *. subst out. destruct H as (_ & _ & H).
  apply H; [reflexivity|discriminate|apply incl_refl|exact Hc].
Defined.

(** ** Completed payments *)

(** [first_payment] only reads the payment rows. *)
Fixpoint find_payment (gateway : string) (refs : list string) (t : list payment)
  : outcome exn (option payment) :=
  match refs with
  | [] => Ok None
  | ref :: refs' =>
      if str_empty ref then find_payment gateway refs' t
      else match List.filter
             (fun p => (p.(pm_gateway) == gateway) && (p.(pm_external_ref) == Some ref)) t with
           | [] => find_payment gateway refs' t
           | [p] => Ok (Some p)
           | _ => Raise MultipleResultsFound
           end
  end.

Lemma first_payment_eq gateway refs s :
  first_payment gateway refs s = (find_payment gateway refs s.(s_db).(db_payments), s).
Proof.
  induction refs as [|r refs IH]; [done|]. cbn. destruct (str_empty r); [done|].
  unfold bind at 1, read, gets. unfold bind.
  by destruct (List.filter _ _) as [|p [|p' l]].
Qed.

Lemma find_payment_In gateway refs t p :
  find_payment gateway refs t = Ok (Some p) ->
  In p t /\ p.(pm_gateway) = gateway /\
  exists ref, In ref refs /\ p.(pm_external_ref) = Some ref.
Proof.
  induction refs as [|r refs IH]; [done|]. cbn. destruct (str_empty r).
  - intros H. destruct (IH H) as (? & ? & x & ? & ?).
      repeat (split; [done|]). exists x. split; [by right|done].
  - destruct (List.filter _ t) as [|q [|q' l]] eqn:Hq; [| |done].
    + intros H. destruct (IH H) as (? & ? & x & ? & ?).
      repeat (split; [done|]). exists x. split; [by right|done].
    + intros [= ->].
      assert (In p (List.filter (fun p => (p.(pm_gateway) == gateway)
        && (p.(pm_external_ref) == Some r)) t)) as Hin by (rewrite Hq; by left).
      apply filter_In in Hin as [Hin Hp]. rewrite andb_true_iff, !py_eq_true in Hp.
      destruct Hp. repeat (split; [done|]). exists r. split; [by left|done].
Qed.

(** The references an event is looked up by, in order. *)
Definition event_refs (ev : gateway_event) : list string :=
  let ref := str_or ev.(ev_external_ref) "" in
  ref :: (if str_true ev.(ev_related_external_ref)
             && (ev.(ev_related_external_ref) != Some ref)
          then [str_or ev.(ev_related_external_ref) ""] else []).

Definition completes (ev : gateway_event) (p : payment) : Prop :=
  ev.(ev_amount_cents) = Some p.(pm_amount_cents) /\
  str_upper (str_or ev.(ev_currency) "") = str_upper p.(pm_currency).

Lemma payment_succeeded_spec g ev p i s :
  tbl_wf s.(s_db).(db_payments) ->
  find_payment g (event_refs ev) s.(s_db).(db_payments) = Ok (Some p) ->
  tbl_get p.(pm_invoice_id) s.(s_db).(db_invoices) = Some i ->
  let k := p.(pm_invoice_id) in
  let x := allocated_in k s.(s_db) in
  let y := if p.(pm_status) == PS_SUCCEEDED then x else x + p.(pm_amount_cents) in
  wp (payment_succeeded g ev)
    (fun _ s' => completes ev p /\ y <= i.(in_amount_cents) /\
       funding k i.(in_amount_cents) y s' /\
       (y = i.(in_amount_cents) -> is_paid k s') /\
       exists p', tbl_get p.(pm_id) s'.(s_db).(db_payments) = Some p' /\
         p'.(pm_status) = PS_SUCCEEDED /\ p'.(pm_external_ref) = ev.(ev_external_ref))
    (fun _ _ => True) s.
Proof.
  intros Hwf Hfind Hi k x y. unfold payment_succeeded, payment_for_update.
  fold (event_refs ev).
  destruct (find_payment_In _ _ _ _ Hfind) as (Hin & _ & _).
  pose proof (tbl_get_wf _ _ Hwf Hin) as Hp. unfold row_key, keyed_payment in Hp.
  do 2 wp_step; [done|]. wp_step. unfold wp at 1. rewrite first_payment_eq, Hfind.
  wp_step. apply wp_unwrap; [done|]. intros amount Hamt.
  do 2 wp_step; [done|]. do 2 wp_step; [done|]. do 2 wp_step; [done|].
  wp_step. apply wp_write. set (s1 := s <|s_db := _|>).
  assert (funding k i.(in_amount_cents) x s) as Hf.
  { split; [done|]. split; [by exists i|done]. }
  assert (funding k i.(in_amount_cents) x s1) as Hf1
    by (by apply (upd_payment_funding k _ x p.(pm_id) _ s)).
  set (p1 := p <|pm_external_ref := ev.(ev_external_ref)|>).
  assert (tbl_get p.(pm_id) s1.(s_db).(db_payments) = Some p1) as Hp1
    by (by apply tbl_get_update_eq).
  wp_step. eapply wp_conseq; [apply wp_and;
    [by apply (finalize_success_guard k i.(in_amount_cents) x p.(pm_id) p1)
    |apply finalize_success_payments]| |done].
  intros _ s2 [(Hle & Hf2 & Hpaid) Hpays]. 
  assert (completes ev p) as Hcomp.
  { split; [by assert (amount = p.(pm_amount_cents)) as <- by lia|].
    apply Bool.negb_false_iff in Hguard2. by apply py_eq_true. }
  assert (exists p', tbl_get p.(pm_id) s2.(s_db).(db_payments) = Some p' /\
         p'.(pm_status) = PS_SUCCEEDED /\ p'.(pm_external_ref) = ev.(ev_external_ref))
    as Hp2.
  { rewrite Hpays. eexists. split; [by apply tbl_get_update_eq|done]. }
  eapply (wp_keeps (fun s' => same_money s2.(s_db).(db_invoices) s2.(s_db).(db_payments)
    s'.(s_db))); [unfold enqueue_commerce_event; keeps_tac|done| |done].
  intros _ s3 Hsame. split; [done|]. split; [done|].
  split; [by eapply funding_same|]. split; [intros Hy; eapply is_paid_same; eauto|].
  destruct Hsame as [_ ->]. done.
Qed.

(** A completion event only ever confirms the payment it describes: when
    [process] accepts it and the event's reference (or related reference) names a
    payment, then amount and currency are the payment's own, the payment is
    recorded as succeeded under the event's reference, the invoice is not
    over-allocated, and it is paid if that completes it. *)
Theorem completion_confirms_exact_payment env g ev raw s s' p i :
  ev.(ev_action) = PAYMENT_COMPLETED ->
  tbl_wf s.(s_db).(db_payments) ->
  find_payment g (event_refs ev) s.(s_db).(db_payments) = Ok (Some p) ->
  tbl_get p.(pm_invoice_id) s.(s_db).(db_invoices) = Some i ->
  process env g ev raw s = (Ok true, s') ->
  let k := p.(pm_invoice_id) in
  let x := allocated_in k s.(s_db) in
  let y := if p.(pm_status) == PS_SUCCEEDED then x else x + p.(pm_amount_cents) in
  completes ev p /\ y <= i.(in_amount_cents) /\ allocated_in k s'.(s_db) = y /\
  (y = i.(in_amount_cents) -> is_paid k s') /\
  exists p', tbl_get p.(pm_id) s'.(s_db).(db_payments) = Some p' /\
    p'.(pm_status) = PS_SUCCEEDED /\ p'.(pm_external_ref) = ev.(ev_external_ref).
Proof.
  intros Hact Hwf Hfind Hi Hrun k x y.
  destruct (process_inv _ _ _ _ _ _ _ Hrun) as (_ & _ & _ & s1 & Hc & Hd).
  unfold dispatch in Hd. rewrite Hact in Hd.
  assert (s1.(s_db).(db_payments) = s.(s_db).(db_payments) /\
          s1.(s_db).(db_invoices) = s.(s_db).(db_invoices)) as [Hp1 Hi1].
  { unfold claim_event, bind, write, modify in Hc. by apply flush_inv in Hc as ->. }
  pose proof (payment_succeeded_spec g ev p i s1) as H.
  unfold allocated_in in H. rewrite Hp1, Hi1 in H. specialize (H Hwf Hfind Hi).
  unfold wp in H. rewrite Hd in H. destruct H as (H1 & H2 & (_ & _ & H3) & H4 & H5).
  repeat (split; [done|]). done.
Qed.

(** Reseller 1's card payment for invoice 1 waits for the customer. *)
Definition action_gateway : gateway :=
  mk_gateway (fun _ _ => Ok (mk_charge_result GR_REQUIRES_ACTION (Some "pi_a")
                (Some "secret") None None))
    (fun _ => Raise AttributeError) (fun _ _ => Raise AttributeError)
    (fun _ => Raise AttributeError) (fun _ => Raise AttributeError)
    (fun _ => Raise AttributeError) None None.
Definition waiting_session : session :=
  (fund_invoice [("stripe", action_gateway)] 1 1 None
     (billed_session (sample_invoice IP_DEPLOY_CHARGE 500))).2.
Definition completion_event (amount : Z) : gateway_event :=
  mk_gateway_event "evt_9" "payment_intent.succeeded" PAYMENT_COMPLETED (Some "pi_a")
    None (Some amount) (Some "usd") None.

Lemma completion_confirms_exact_payment_witness :
  let s' := (process (quiet_env true) "stripe" (completion_event 500) "" waiting_session).2 in
  (process (quiet_env true) "stripe" (completion_event 499) "" waiting_session).1
  = Raise (PaymentGatewayError "Gateway payment amount does not match") /\
  allocated_in 1 s'.(s_db) = 500 /\ is_paid 1 s'.
Proof.
  intros s'. split; [vm_compute; reflexivity|].
  assert (process (quiet_env true) "stripe" (completion_event 500) "" waiting_session
          = (Ok true, s')) as Hrun.
  { assert (fst (process (quiet_env true) "stripe" (completion_event 500) "" waiting_session)
            = Ok true) as <- by (vm_compute; reflexivity).
    subst s'. by destruct (process _ _ _ _ _). }
  destruct (find_payment "stripe" (event_refs (completion_event 500))
              (db_payments (s_db waiting_session))) as [[p|]|e] eqn:Hp;
    [|exfalso; vm_compute in Hp; discriminate..].
  pose proof Hp as Hp0. vm_compute in Hp0. injection Hp0 as <-.
  destruct (completion_confirms_exact_payment (quiet_env true) "stripe"
    (completion_event 500) "" waiting_session s' _ ((sample_invoice IP_DEPLOY_CHARGE 500)
       <|in_status := IS_PENDING_ACTION|>) eq_refl
    ltac:(repeat constructor; cbn; tauto) Hp ltac:(vm_compute; reflexivity) Hrun)
    as (_ & _ & Hy & Hpaid & _).
  split; [exact Hy|]. apply Hpaid. vm_compute. reflexivity.
Defined.

(** ** Reversals in practice *)

(** The reversal a gateway sends for an invoice billed to a retail account
    (which has no reseller) is never accepted: the ledger finds no reseller, so
    the event is answered with an error on every delivery and the refunded
    payment stays recorded as it was. *)
Theorem retail_reversal_never_accepted env g ev raw s p i :
  ev.(ev_action) = PAYMENT_REVERSED ->
  find_payment g [str_or ev.(ev_external_ref) ""] s.(s_db).(db_payments) = Ok (Some p) ->
  tbl_get p.(pm_invoice_id) s.(s_db).(db_invoices) = Some i ->
  i.(in_reseller_id) = None -> i.(in_purpose) <> IP_CREDIT_TOPUP ->
  p.(pm_status) <> PS_REFUNDED ->
  let (out, s') := process env g ev raw s in
  out <> Ok true /\ s'.(s_db) = s.(s_db).
Proof.
  intros Hact Hfind Hi Hres Hpurp Hst.
  destruct (process env g ev raw s) as [out s'] eqn:Hrun.
  pose proof (process_inv _ _ _ _ _ _ _ Hrun) as H.
  destruct out as [[]|e]; [|by split|by split]. exfalso.
  destruct H as (_ & _ & _ & s1 & Hc & Hd). unfold dispatch in Hd. rewrite Hact in Hd.
  assert (s1.(s_db).(db_payments) = s.(s_db).(db_payments) /\
          s1.(s_db).(db_invoices) = s.(s_db).(db_invoices)) as [Hp1 Hi1].
  { unfold claim_event, bind, write, modify in Hc. by apply flush_inv in Hc as ->. }
  enough (wp (reverse_payment g (str_or ev.(ev_external_ref) "") ev.(ev_event_id) "refund")
    (fun _ _ => False) (fun _ _ => True) s1) as Hwp by (unfold wp in Hwp; by rewrite Hd in Hwp).
  unfold reverse_payment, payment_for_update. wp_step. unfold wp at 1.
  rewrite first_payment_eq, Hp1. cbn [str_true andb]. rewrite Hfind.
  apply py_eq_false in Hst. rewrite Hst. wp_step. apply wp_the; [done|].
  rewrite Hi1, Hi. intros j [= <-]. wp_step.
  apply py_eq_false in Hpurp. rewrite Hpurp. wp_step.
  apply require_integer_cents_wp; [done|]. unfold invoice_owner. rewrite Hres.
  wp_step. by apply wp_raise.
Qed.

Definition retail_session : session :=
  session_of (sample_db
    <|db_invoices := [(sample_invoice IP_ORDER_CHARGE 500) <|in_reseller_id := None|>
                        <|in_billing_account_id := Some 1|>]|>
    <|db_payments := [mk_payment 1 1 "stripe" PS_SUCCEEDED 500 "USD" (Some "pi_0")
                        None None [] (Some 0) None]|>) 1000.
Lemma retail_reversal_never_accepted_witness :
  (process (quiet_env true) "stripe" refund_event "" retail_session).1 <> Ok true.
Proof.
  pose proof (retail_reversal_never_accepted (quiet_env true) "stripe" refund_event ""
    retail_session
    (mk_payment 1 1 "stripe" PS_SUCCEEDED 500 "USD" (Some "pi_0") None None []
       (Some 0) None)
    ((sample_invoice IP_ORDER_CHARGE 500) <|in_reseller_id := None|>
       <|in_billing_account_id := Some 1|>) eq_refl ltac:(vm_compute; reflexivity)
    ltac:(vm_compute; reflexivity) eq_refl ltac:(discriminate) ltac:(discriminate)) as H.
  destruct (process _ _ _ _ _) as [out s']. by destruct H.
Defined.

(** A top-up paid again after its first payment was refunded charges the card
    a second time and marks the invoice paid, but credits nothing: the credit is
    keyed by the invoice, and that key already belongs to the reversed entry. *)
Theorem repaid_topup_is_not_credited :
  let s1 := (process (quiet_env true) "stripe" refund_event "" paid_topup).2 in
  let (out, s2) := fund_invoice sample_registry 1 1 None s1 in
  map rs_cached_balance_cents paid_topup.(s_db).(db_resellers) = [500; 0] /\
  map cr_amount_cents s2.(s_charges) = [500; 500] /\
  (exists res, out = Ok res /\ res.(fr_funded) = true) /\
  map in_status s2.(s_db).(db_invoices) = [IS_PAID] /\
  map rs_cached_balance_cents s2.(s_db).(db_resellers) = [0; 0].
Proof. vm_compute. repeat split. by eexists. Qed.

(** A completion event that arrives after the refund of its payment (gateways
    do not order their deliveries) undoes the refund's record: the payment counts
    as succeeded again and the invoice as paid, while the reseller's credit stays
    debited. *)
Theorem late_completion_undoes_refund :
  let s0 := (process (quiet_env true) "stripe" (completion_event 500) "" waiting_session).2 in
  let refund := mk_gateway_event "evt_1" "charge.refunded" PAYMENT_REVERSED
                  (Some "pi_a") None None None None in
  let late := mk_gateway_event "evt_late" "payment_intent.succeeded" PAYMENT_COMPLETED
                (Some "pi_a") None (Some 500) (Some "usd") None in
  let s1 := (process (quiet_env true) "stripe" refund "" s0).2 in
  let (out, s2) := process (quiet_env true) "stripe" late "" s1 in
  map pm_status s1.(s_db).(db_payments) = [PS_REFUNDED] /\
  map in_status s1.(s_db).(db_invoices) = [IS_FAILED] /\
  out = Ok true /\
  map pm_status s2.(s_db).(db_payments) = [PS_SUCCEEDED] /\
  map in_status s2.(s_db).(db_invoices) = [IS_PAID] /\
  map rs_cached_balance_cents s2.(s_db).(db_resellers) = [-500; 0].
Proof. vm_compute. repeat split. Qed.

(** ** Disputes *)

(** Payment [p]'s reference still finds a payment of invoice [k], whose linked
    service is still [sid]. *)
Definition disputable (g ref : string) (k sid : Z) (d : db) : Prop :=
  (exists p, find_payment g [ref] d.(db_payments) = Ok (Some p) /\
             p.(pm_invoice_id) = k) /\
  (exists i, tbl_get k d.(db_invoices) = Some i /\ i.(in_service_id) = Some sid).

Lemma disputable_update_payment g ref k sid pid f d :
  (forall p, (f p).(pm_gateway) = p.(pm_gateway) /\
             (f p).(pm_external_ref) = p.(pm_external_ref) /\
             (f p).(pm_invoice_id) = p.(pm_invoice_id)) ->
  disputable g ref k sid d ->
  disputable g ref k sid (d <|db_payments := tbl_update pid f d.(db_payments)|>).
Proof.
  intros Hf ((p & Hp & Hk) & Hi). split; [|done]. cbn [db_payments update].
  cbn [find_payment] in *. destruct (str_empty ref); [done|].
  rewrite filter_tbl_update by (intros x; by destruct (Hf x) as (-> & -> & _)).
  destruct (List.filter _ (db_payments d)) as [|q [|q' l]]; [done| |done].
  injection Hp as ->. unfold tbl_update. cbn [map].
  eexists. split; [reflexivity|]. destruct (_ =? _); [|done].
  by destruct (Hf p) as (_ & _ & ->).
Qed.

Lemma disputable_update_invoice g ref k sid j f d :
  (forall i, (f i).(in_id) = i.(in_id) /\ (f i).(in_service_id) = i.(in_service_id)) ->
  disputable g ref k sid d ->
  disputable g ref k sid (d <|db_invoices := tbl_update j f d.(db_invoices)|>).
Proof.
  intros Hf (Hp & i & Hi & Hs). split; [done|]. cbn [db_invoices update].
  destruct (Z.eq_dec j k) as [->|Hne].
  - exists (f i). split; [apply tbl_get_update_eq; [apply Hf|done]|].
    by destruct (Hf i) as [_ ->].
  - exists i. rewrite tbl_get_update_ne; [done| |done]. intros x. apply Hf.
Qed.

Lemma reverse_payment_disputable g ref k sid r e y :
  keeps_db (disputable g ref k sid) (reverse_payment g r e y).
Proof.
  unfold reverse_payment, payment_for_update, invoice_owner, require_integer_cents,
    reverse, debit, lock_reseller, append_locked, require_integer_cents.
  keeps_tac.
  - apply keeps_db_write. intros d Hd. by apply disputable_update_payment.
  - apply keeps_db_write. intros d Hd. by apply disputable_update_invoice.
Qed.

(** The two webhook endpoints are coroutines, so they call [process] while
    their event loop runs; suspending services starts a second loop, which Python
    refuses.  A dispute about an invoice with a linked service is therefore never
    accepted from them: it fails on every delivery and nothing is recorded. *)
Theorem dispute_never_accepted_inside_event_loop env g ev raw s p i sid :
  ev.(ev_action) = PAYMENT_DISPUTED -> env.(event_loop_running) = true ->
  find_payment g [str_or ev.(ev_external_ref) ""] s.(s_db).(db_payments) = Ok (Some p) ->
  tbl_get p.(pm_invoice_id) s.(s_db).(db_invoices) = Some i ->
  i.(in_service_id) = Some sid ->
  let (out, s') := process env g ev raw s in
  out <> Ok true /\ s'.(s_db) = s.(s_db).
Proof.
  intros Hact Hloop Hfind Hi Hsid.
  destruct (process env g ev raw s) as [out s'] eqn:Hrun.
  pose proof (process_inv _ _ _ _ _ _ _ Hrun) as H.
  destruct out as [[]|e]; [|by split|by split]. exfalso.
  destruct H as (_ & _ & _ & s1 & Hc & Hd). unfold dispatch in Hd. rewrite Hact in Hd.
  set (ref := str_or ev.(ev_external_ref) "") in *.
  assert (disputable g ref p.(pm_invoice_id) sid s1.(s_db)) as Hd1.
  { unfold claim_event, bind, write, modify in Hc. apply flush_inv in Hc as ->.
    split; [by exists p|by exists i]. }
  enough (wp (handle_payment_disputed env g ev ev.(ev_event_id))
    (fun _ _ => False) (fun _ _ => True) s1) as Hwp by (unfold wp in Hwp; by rewrite Hd in Hwp).
  unfold handle_payment_disputed. fold ref. wp_step.
  eapply wp_keeps; [apply reverse_payment_disputable|exact Hd1| |done].
  intros _ s2 ((p2 & Hp2 & Hk) & i2 & Hi2 & Hs2). wp_step.
  unfold payment_for_update. cbn [str_true andb]. unfold wp at 1.
  rewrite first_payment_eq, Hp2. wp_step. apply wp_read. rewrite Hk, Hi2.
  unfold suspend_linked_services. wp_step. apply wp_read.
  destruct (linked_service_ids i2 _) as [|x l] eqn:Hids.
  { unfold linked_service_ids in Hids. rewrite Hs2 in Hids. done. }
  wp_step. unfold run_suspend_services_for_dispute, run_async. rewrite Hloop.
  apply wp_try_catch, wp_raise. cbn [is_runtime_error]. by apply wp_raise.
Qed.

Lemma dispute_never_accepted_inside_event_loop_witness :
  let i := (sample_invoice IP_DEPLOY_CHARGE 500) <|in_service_id := Some 7|> in
  let s := (fund_invoice sample_registry 1 1 None (billed_session i)).2 in
  let ev := mk_gateway_event "evt_d" "charge.dispute.created" PAYMENT_DISPUTED
              (Some "pi_0") None None None None in
  (process (quiet_env true) "stripe" ev "" s).1 <> Ok true /\
  (process (quiet_env false) "stripe" ev "" s).1 = Ok true.
Proof.
  intros i s ev. split; [|vm_compute; reflexivity].
  destruct (find_payment "stripe" ["pi_0"] (db_payments (s_db s))) as [[p|]|e] eqn:Hp;
    [|exfalso; vm_compute in Hp; discriminate..].
  pose proof Hp as Hp0. vm_compute in Hp0. injection Hp0 as <-.
  destruct (tbl_get 1 (db_invoices (s_db s))) as [j|] eqn:Hj;
    [|exfalso; vm_compute in Hj; discriminate].
  pose proof Hj as Hj0. vm_compute in Hj0. injection Hj0 as <-.
  pose proof (dispute_never_accepted_inside_event_loop (quiet_env true) "stripe" ev "" s
    _ _ 7 eq_refl eq_refl Hp Hj eq_refl) as H.
  destruct (process (quiet_env true) "stripe" ev "" s) as [out s']. by destruct H.
Defined.

(** [false] does not always mean "already processed": a completion whose new
    reference another payment already carries violates the unique constraint
    inside the savepoint, and the event is then acknowledged as a duplicate
    although it was never recorded and the payment stays pending. *)
Theorem acknowledged_without_processing :
  let pay k gw st ref := mk_payment k 1 gw st 250 "USD" (Some ref) None None [] None None in
  let s := session_of (sample_db
    <|db_invoices := [sample_invoice IP_DEPLOY_CHARGE 500]|>
    <|db_payments := [pay 1 "stripe" PS_SUCCEEDED "ref-7"; pay 2 "paypal" PS_PENDING "order-1"]|>)
    1000 in
  let ev := mk_gateway_event "evt_7" "PAYMENT.CAPTURE.COMPLETED" PAYMENT_COMPLETED
              (Some "ref-7") (Some "order-1") (Some 250) (Some "USD") None in
  let (out, s') := process (quiet_env true) "paypal" ev "" s in
  out = Ok false /\ s'.(s_db).(db_webhook_events) = [] /\
  map pm_status s'.(s_db).(db_payments) = [PS_SUCCEEDED; PS_PENDING].
Proof. vm_compute. repeat split. Qed.

(** ** The ledger stays sound *)

Lemma ledger_inv_frame_events t d :
  ledger_inv d -> ledger_inv (d <|db_webhook_events := t|>).
Proof. done. Qed.

Lemma enqueue_mail_inv a : keeps_db ledger_inv (enqueue_mail a).
Proof. unfold enqueue_mail, scalar_one. keeps_tac. Qed.
Lemma enqueue_commerce_event_inv e p : keeps_db ledger_inv (enqueue_commerce_event e p).
Proof. unfold enqueue_commerce_event. keeps_tac. Qed.
Lemma suspend_inv env k : keeps_db ledger_inv (suspend env k).
Proof. unfold suspend, ensure_powered_off, find_plugin, lift_outcome. keeps_tac. Qed.
Lemma reverse_payment_inv g r e y : keeps_db ledger_inv (reverse_payment g r e y).
Proof.
  unfold reverse_payment, payment_for_update, invoice_owner, require_integer_cents.
  keeps_tac.
Qed.
#[export] Hint Resolve enqueue_mail_inv enqueue_commerce_event_inv suspend_inv
  reverse_payment_inv : dcim.

Lemma dispatch_inv env g ev : keeps_db ledger_inv (dispatch env g ev).
Proof.
  unfold dispatch, payment_succeeded, payment_failed, handle_payment_disputed,
    payment_for_update, suspend_linked_services, run_suspend_services_for_dispute,
    run_async, suspend_services_for_dispute, enqueue_dispute_suspend_email.
  keeps_tac.
Qed.
#[export] Hint Resolve dispatch_inv : dcim.

Lemma process_keeps_ledger env g ev raw : keeps_db ledger_inv (process env g ev raw).
Proof.
  unfold process. keeps_tac. apply keeps_db_nested. unfold claim_event. keeps_tac.
Qed.
