(* ===== verification/Refunds.v ===== *)
(** Admin-initiated refunds: src/app/services/payments/refunds.py. *)
From Stdlib Require Import ZArith Lia Ascii.
From stdpp Require Import base numbers list strings pretty.
From S2P Require Import Prelude Calendar Models Session Ledger Invoices.
From S2P Require Import Orchestrator Funding Webhooks.
#[local] Open Scope Z_scope.
#[local] Open Scope py_scope.

Definition GATEWAY_REFUNDABLE : list string := ["stripe"; "paypal"].
Definition CREDIT_GATEWAY : string := "credit".

(** * Which payments can be refunded *)

Definition refundability (p : payment) : bool * option string :=
  if p.(pm_status) == PS_REFUNDED then (false, Some "Payment is already refunded")
  else if p.(pm_status) != PS_SUCCEEDED
  then (false, Some "Only succeeded payments can be refunded")
  else
    let gateway := str_lower p.(pm_gateway) in
    if gateway == CREDIT_GATEWAY then (true, None)
    else if existsb (fun g => g == gateway) GATEWAY_REFUNDABLE then
      if str_empty (str_strip (str_or p.(pm_external_ref) ""))
      then (false, Some "Payment has no gateway reference to refund")
      else (true, None)
    else if gateway == "usdt"
    then (false, Some "USDT deposits cannot be refunded through the gateway")
    else (false, Some ("Gateway '" +:+ p.(pm_gateway) +:+ "' does not support admin refunds")).

(** * Refunding wallet credit *)

Definition charge_entries (payment_id : Z) (d : db) : list ledger_entry :=
  List.filter (fun e => (e.(le_payment_id) == Some payment_id)
                        && (e.(le_entry_type) == ET_CHARGE)) d.(db_ledger).

Definition admin_refund_note (event_id : string) (reason : option string)
    (admin_user_id : option Z) : dict :=
  [("event_id", JStr event_id); ("reason", jopt_str reason);
   ("admin_user_id", jopt_int admin_user_id)].

Definition refund_credit_payment (p : payment) (event_id : string)
    (reason : option string) (admin_user_id : option Z) : Meth unit :=
  i <- the_invoice p.(pm_invoice_id) ;;
  recorded <-
    match dict_get "ledger_entry_id" p.(pm_metadata) with
    | None | Some JNull => ret None
    | Some j =>
        n <- answer (json_int j) ;;
        read (fun d => tbl_get n d.(db_ledger))
    end ;;
  found <-
    match recorded with
    | Some e => ret (Some e)
    | None =>
        rows <- read (charge_entries p.(pm_id)) ;;
        scalar_one_or_none MultipleResultsFound rows
    end ;;
  debit <- unwrap found
    (PaymentRefundError "Credit payment has no ledger debit to reverse"
       "missing_ledger_entry") ;;
  owner <- invoice_owner i ;;
  reverse owner debit.(le_id)
    (Some (str_or reason ("Admin refund of credit payment on invoice "
                          +:+ pretty i.(in_invoice_number))))
    (Some event_id)
    [("reason", JStr "admin_refund"); ("admin_user_id", jopt_int admin_user_id)]
    admin_user_id ;;;
  now <- utcnow ;;
  upd_payment p.(pm_id) (fun x =>
    x <|pm_status := PS_REFUNDED|> <|pm_refunded_at := Some now|>
      <|pm_metadata := dict_merge x.(pm_metadata)
          [("admin_refund", JObj (admin_refund_note event_id reason admin_user_id));
           ("reversal_type", JStr "admin_refund")]|>) ;;;
  upd_invoice i.(in_id) (fun x =>
    x <|in_status := IS_FAILED|> <|in_paid_at := None|>) ;;;
  flush.

(** * Refunding *)

(** [db.refresh(payment)]: sessions do not autoflush, so the assignments the
    reversal made to the payment are still pending, and reloading the row drops
    them in favour of the row as it was loaded. *)
Definition refresh_payment (loaded : payment) : Meth unit :=
  upd_payment loaded.(pm_id) (fun x => loaded <|pm_id := x.(pm_id)|>).

(** [nonce] is [uuid4().hex]. *)
Definition refund (reg : registry) (payment_id : Z) (reason : option string)
    (admin_user_id : option Z) (nonce : string) : Meth Z :=
  o <- read (fun d => tbl_get payment_id d.(db_payments)) ;;
  p <- unwrap o (PaymentRefundError "Payment not found" "not_found") ;;
  let (ok, detail) := refundability p in
  throw_if (negb ok)
    (PaymentRefundError (str_or detail "Payment is not refundable") "not_refundable") ;;;
  let gateway := str_lower p.(pm_gateway) in
  let note := let r := str_strip (str_or reason "") in
              if str_empty r then None else Some r in
  let event_id := "admin-refund:" +:+ pretty p.(pm_id) +:+ ":" +:+ nonce in
  if gateway == CREDIT_GATEWAY then
    refund_credit_payment p event_id note admin_user_id ;;; ret p.(pm_id)
  else
    adapter <- try_catch (registry_get reg gateway)
      (fun e => raise (match e with
         | GatewayNotConfiguredError m => PaymentRefundError m "gateway_unavailable"
         | _ => e end)) ;;
    outcome <- try_catch
      (answer (adapter.(Orchestrator.refund_payment)
         (mk_refund_request (str_or p.(pm_external_ref) "") p.(pm_amount_cents)
            p.(pm_currency) ("admin-refund-" +:+ pretty p.(pm_id)) note)))
      (fun e => raise (if is_gateway_error e
                       then PaymentRefundError (gateway_error_message e) "gateway_error"
                       else e)) ;;
    throw_if (negb (bool_decide (outcome.(gf_status) = GR_SUCCEEDED)))
      (PaymentRefundError (str_or outcome.(gf_failure_message) "Gateway refund failed")
         (str_or outcome.(gf_failure_code) "gateway_declined")) ;;;
    reverse_payment gateway (str_or p.(pm_external_ref) "") event_id "admin_refund" ;;;
    refresh_payment p ;;;
    now <- utcnow ;;
    upd_payment p.(pm_id) (fun x =>
      let y := if x.(pm_status) != PS_REFUNDED
               then x <|pm_status := PS_REFUNDED|> <|pm_refunded_at := Some now|> else x in
      y <|pm_metadata := dict_merge y.(pm_metadata)
            [("admin_refund",
              JObj (admin_refund_note event_id note admin_user_id
                    ++ [("gateway_refund_ref", jopt_str outcome.(gf_external_ref))]))]|>) ;;;
    flush ;;;
    ret p.(pm_id).

(** * Laws *)

Lemma refundability_ok p d :
  refundability p = (true, d) -> p.(pm_status) = PS_SUCCEEDED.
Proof.
  unfold refundability. destruct (_ == PS_REFUNDED); [done|].
  destruct (py_eq_spec (pm_status p) PS_SUCCEEDED); done.
Qed.

(** Payment [pid] has a row; every method keeps it. *)
Definition has_payment (pid : Z) (d : db) : Prop :=
  exists p, tbl_get pid d.(db_payments) = Some p.

Lemma has_payment_update pid j f d :
  (forall p, (f p).(pm_id) = p.(pm_id)) ->
  has_payment pid d ->
  has_payment pid (d <|db_payments := tbl_update j f d.(db_payments)|>).
Proof.
  intros Hf [p Hp]. destruct (Z.eq_dec j pid) as [->|Hne].
  - exists (f p). by apply tbl_get_update_eq.
  - exists p. cbn. by rewrite tbl_get_update_ne.
Qed.

#[local] Ltac open_ledger :=
  unfold reverse, debit; unfold require_integer_cents, lock_reseller, append_locked.

Lemma reverse_payment_has pid g r e y :
  keeps_db (has_payment pid) (reverse_payment g r e y).
Proof.
  unfold reverse_payment, payment_for_update, invoice_owner. open_ledger. keeps_tac.
  apply keeps_db_write. intros d. by apply has_payment_update.
Qed.

Lemma reverse_same_payments t k e dsc key m u :
  keeps_db (same_payments t) (reverse k e dsc key m u).
Proof. open_ledger. keeps_tac. Qed.

(** A refunded payment row. *)
Definition refunded (pid : Z) (s : session) : Prop :=
  exists p, tbl_get pid s.(s_db).(db_payments) = Some p /\ p.(pm_status) = PS_REFUNDED.

Lemma refund_credit_refunds p e r a s :
  has_payment p.(pm_id) s.(s_db) ->
  wp (refund_credit_payment p e r a) (fun _ => refunded p.(pm_id)) (fun _ _ => True) s.
Proof.
  intros [p0 Hp0]. unfold refund_credit_payment. wp_step. apply wp_the; [done|].
  intros i _. set (t := s.(s_db).(db_payments)) in *.
  assert (same_payments t s.(s_db)) as Hs by done.
  wp_step. eapply (wp_keeps (fun s' => same_payments t s'.(s_db)));
    [unfold answer; keeps_tac|exact Hs| |done].
  intros o s1 Hs1. wp_step. eapply (wp_keeps (fun s' => same_payments t s'.(s_db)));
    [keeps_tac|exact Hs1| |done].
  intros f s2 Hs2. wp_step. apply wp_unwrap; [done|]. intros d _. wp_step.
  unfold invoice_owner. apply wp_unwrap; [done|]. intros k _. wp_step.
  eapply (wp_keeps (fun s' => same_payments t s'.(s_db)));
    [apply reverse_same_payments|exact Hs2| |done].
  intros x s3 Hs3. wp_step. apply wp_gets. wp_step. apply wp_write. wp_step.
  apply wp_write. apply wp_flush; [|done]. intros _ _. unfold refunded.
  cbn [s_db db_payments update]. unfold same_payments in Hs3. rewrite Hs3.
  eexists. split; [by apply tbl_get_update_eq|done].
Qed.

(** C6. A payment is refunded at most once: [refund] succeeds only on a succeeded
    payment that [refundability] accepts, and leaves it refunded, so that refunding
    it again, by anyone and for any reason, is rejected without any change and
    without a second call to the gateway. *)
Theorem refund_at_most_once reg pid reason admin nonce s id s' :
  refund reg pid reason admin nonce s = (Ok id, s') ->
  (exists p, tbl_get pid s.(s_db).(db_payments) = Some p /\
     p.(pm_status) = PS_SUCCEEDED /\ refundability p = (true, None)) /\
  id = pid /\ refunded pid s' /\
  (forall reg' reason' admin' nonce',
     refund reg' pid reason' admin' nonce' s'
     = (Raise (PaymentRefundError "Payment is already refunded" "not_refundable"), s')).
Proof.
  intros Hrun.
  assert (wp (refund reg pid reason admin nonce)
    (fun id s' => (exists p, tbl_get pid s.(s_db).(db_payments) = Some p /\
       p.(pm_status) = PS_SUCCEEDED /\ refundability p = (true, None)) /\
       id = pid /\ refunded pid s') (fun _ _ => True) s) as H.
  { clear Hrun. unfold refund. wp_step. apply wp_read. wp_step.
    apply wp_unwrap; [done|]. intros p Hp.
    assert (pm_id p = pid) as Hid by (by apply tbl_get_key in Hp).
    destruct (refundability p) as [ok d] eqn:Hok. wp_step.
    apply wp_throw_if; [done|]. destruct ok; [|done]. intros _.
    assert (exists p, tbl_get pid s.(s_db).(db_payments) = Some p /\
       p.(pm_status) = PS_SUCCEEDED /\ refundability p = (true, None)) as Hpre.
    { exists p. split; [done|]. split; [by eapply refundability_ok|].
      rewrite Hok. unfold refundability in Hok. repeat case_match; congruence. }
    assert (has_payment pid s.(s_db)) as Hhas by (by exists p).
    wp_step; wp_step.
    - rewrite <- Hid in Hhas. eapply wp_conseq; [by apply refund_credit_refunds| |done].
      intros u s1 Hs1. rewrite Hid in *. by apply wp_ret.
    - unfold registry_get. apply wp_try_catch, wp_unwrap; [done|]. intros g _.
      wp_step. apply wp_try_catch. unfold answer at 1.
      destruct (Orchestrator.refund_payment g _) as [out|e]; [|done].
      apply wp_ret. wp_step. apply wp_throw_if; [done|]. intros _. wp_step.
      eapply (wp_keeps (fun s' => has_payment pid s'.(s_db)));
        [apply reverse_payment_has|exact Hhas| |done].
      intros _ s1 [p1 Hp1]. unfold refresh_payment. rewrite Hid. wp_step.
      apply wp_write. wp_step. apply wp_gets. wp_step. apply wp_write. wp_step.
      apply wp_flush; [|done]. intros _ _. apply wp_ret. split; [done|].
      split; [done|]. unfold refunded. cbn [s_db db_payments update].
      eexists. split; [apply tbl_get_update_eq;
        [|apply tbl_get_update_eq; [|exact Hp1]]; intros x; try done;
        unfold row_key, keyed_payment; by destruct (_ != _)|].
      cbv beta zeta. cbn [pm_status update].
      destruct (py_eq_spec p.(pm_status) PS_REFUNDED); done. }
  unfold wp in H. rewrite Hrun in H. destruct H as (Hpre & Hid & Hr).
  split; [done|]. split; [done|]. split; [done|]. intros.
  destruct Hr as (p' & Hp' & Hst). unfold refund, bind, read, gets. rewrite Hp'.
  unfold unwrap, ret. unfold refundability. rewrite Hst, py_eq_refl. done.
Qed.

(** A wallet of 700 pays an invoice of 500. *)
Definition credit_paid_session : session :=
  (fund_invoice sample_registry 1 1 None wallet_session).2.

Lemma refund_at_most_once_witness :
  let s' := (refund [] 1 (Some "goodwill") (Some 9) "ab12" credit_paid_session).2 in
  refunded 1 s' /\
  refund sample_registry 1 None None "cd34" s'
  = (Raise (PaymentRefundError "Payment is already refunded" "not_refundable"), s').
Proof.
  intros s'.
  assert (refund [] 1 (Some "goodwill") (Some 9) "ab12" credit_paid_session = (Ok 1, s'))
    as Hrun.
  { assert (fst (refund [] 1 (Some "goodwill") (Some 9) "ab12" credit_paid_session) = Ok 1)
      as <- by (vm_compute; reflexivity).
    subst s'. by destruct (refund _ _ _ _ _ _). }
  destruct (refund_at_most_once [] 1 (Some "goodwill") (Some 9) "ab12"
    credit_paid_session 1 s' Hrun) as (_ & _ & Hr & H).
  split; [exact Hr|]. apply H.
Defined.

(** Refunding a wallet payment gives the reseller exactly the debited credit
    back: the ledger total of the invoice's owner rises by the amount of the debit
    that paid for it, the payment is refunded and the invoice is no longer paid. *)
Theorem credit_refund_returns_the_debit reg pid reason admin nonce s id s' p n e i k :
  tbl_get pid s.(s_db).(db_payments) = Some p ->
  str_lower p.(pm_gateway) = "credit" ->
  dict_get "ledger_entry_id" p.(pm_metadata) = Some (JInt n) ->
  tbl_get n s.(s_db).(db_ledger) = Some e -> reversals_of n s.(s_db) = [] ->
  tbl_get p.(pm_invoice_id) s.(s_db).(db_invoices) = Some i ->
  i.(in_reseller_id) = Some k ->
  refund reg pid reason admin nonce s = (Ok id, s') ->
  balance_of k s'.(s_db).(db_ledger)
    = balance_of k s.(s_db).(db_ledger) - e.(le_amount_cents) /\
  refunded pid s' /\
  exists i', tbl_get p.(pm_invoice_id) s'.(s_db).(db_invoices) = Some i' /\
    i'.(in_status) = IS_FAILED.
Proof.
  intros Hp Hg Hmeta He Hnone Hi Hk Hrun.
  assert (pm_id p = pid) as Hid by (by apply tbl_get_key in Hp).
  unfold refund in Hrun. unfold bind at 1, read at 1, gets at 1 in Hrun.
  rewrite Hp in Hrun. unfold bind at 1, unwrap, ret at 1 in Hrun.
  destruct (refundability p) as [ok d]. unfold bind at 1, throw_if in Hrun.
  destruct ok; [|done]. cbn [negb] in Hrun. unfold ret at 1 in Hrun.
  rewrite Hg in Hrun. change ("credit" == CREDIT_GATEWAY) with true in Hrun.
  cbv iota in Hrun. unfold bind at 1 in Hrun.
  destruct (refund_credit_payment _ _ _ _ s) as [[[]|x] s1] eqn:Hc; [|done].
  injection Hrun as _ <-.
  unfold refund_credit_payment in Hc. unfold bind at 1, the_invoice, bind at 1, read at 1, gets at 1 in Hc.
  rewrite Hi in Hc. unfold unwrap at 1, ret at 1 in Hc. rewrite Hmeta in Hc.
  unfold bind at 1 in Hc. cbn [answer json_int] in Hc.
  unfold bind at 1, ret at 1, read at 1, gets at 1 in Hc. rewrite He in Hc.
  unfold bind at 1, ret at 1 in Hc. unfold bind at 1, unwrap at 1, ret at 1 in Hc.
  unfold bind at 1, invoice_owner at 1 in Hc. rewrite Hk in Hc. unfold unwrap at 1, ret at 1 in Hc.
  assert (le_id e = n) as Hen by (by apply tbl_get_key in He). rewrite Hen in Hc.
  unfold bind at 1 in Hc.
  destruct (reverse k n _ _ _ _ s) as [[y|x] s2] eqn:Hrev; [|done].
  destruct (reverse_ok_inv _ _ _ _ _ _ _ _ _ Hrev) as (r & o & Hro).
  rewrite (reverse_eq _ _ _ _ _ _ _ _ _ Hro) in Hrev.
  destruct (reverse_body_ok _ _ _ _ _ _ _ _ _ _ _ Hro Hrev) as (Hrows & _ & Hcase).
  destruct Hro as (Hr & Ho & Hok & Ht). rewrite He in Ho. injection Ho as <-.
  destruct Hcase as [[-> _]|[-> ->]]; [by rewrite Hnone in Hrows|].
  unfold bind at 1, utcnow, gets in Hc. unfold bind at 1, upd_payment, write, modify in Hc.
  unfold bind at 1, upd_invoice, write, modify in Hc. apply flush_inv in Hc as ->.
  assert (rs_id r = k) as Hrk by (by apply tbl_get_key in Hr).
  assert (in_id i = pm_invoice_id p) as Hii by (by apply tbl_get_key in Hi).
  split; [|split].
  - cbn [s_db post_entry db_ledger update]. rewrite balance_of_snoc. cbn.
    rewrite Hrk, Z.eqb_refl. lia.
  - unfold refunded. cbn [s_db db_payments update post_entry]. rewrite Hid.
    eexists. split; [by apply tbl_get_update_eq|done].
  - cbn [s_db db_invoices update post_entry]. rewrite Hii. eexists.
    split; [by apply tbl_get_update_eq|done].
Qed.

Lemma credit_refund_returns_the_debit_witness :
  let s' := (refund [] 1 None None "ab12" credit_paid_session).2 in
  balance_of 1 credit_paid_session.(s_db).(db_ledger) = 200 /\
  balance_of 1 s'.(s_db).(db_ledger) = 700.
Proof.
  intros s'. split; [vm_compute; reflexivity|].
  assert (refund [] 1 None None "ab12" credit_paid_session = (Ok 1, s')) as Hrun.
  { assert (fst (refund [] 1 None None "ab12" credit_paid_session) = Ok 1) as <-
      by (vm_compute; reflexivity).
    subst s'. by destruct (refund _ _ _ _ _ _). }
  destruct (tbl_get 1 (db_payments (s_db credit_paid_session))) as [p|] eqn:Hp;
    [|exfalso; vm_compute in Hp; discriminate].
  destruct (tbl_get 2 (db_ledger (s_db credit_paid_session))) as [e|] eqn:He;
    [|exfalso; vm_compute in He; discriminate].
  destruct (tbl_get 1 (db_invoices (s_db credit_paid_session))) as [i|] eqn:Hi;
    [|exfalso; vm_compute in Hi; discriminate].
  pose proof Hp as Hp0. vm_compute in Hp0. injection Hp0 as <-.
  pose proof He as He0. vm_compute in He0. injection He0 as <-.
  pose proof Hi as Hi0. vm_compute in Hi0. injection Hi0 as <-.
  destruct (credit_refund_returns_the_debit [] 1 None None "ab12" credit_paid_session 1 s'
    _ 2 _ _ 1 Hp eq_refl eq_refl He ltac:(vm_compute; reflexivity) Hi eq_refl Hrun)
    as (H & _). rewrite H. vm_compute. reflexivity.
Defined.

(** Refunding a card payment of a retail invoice (one without a reseller)
    returns the money at the gateway and then fails: the local reversal finds no
    reseller to debit, so the payment stays recorded as succeeded. *)
Theorem retail_refund_fails_after_the_gateway nonce :
  let (out, s') := refund sample_registry 1 None None nonce retail_session in
  out = Raise (ResellerNotFoundError 0) /\
  map pm_status s'.(s_db).(db_payments) = [PS_SUCCEEDED].
Proof. vm_compute. repeat split. Qed.

(** * Every payment flow keeps the ledger sound *)

Inductive payment_op : Type :=
| OpFund (reg : registry) (reseller_id invoice_id : Z) (method : option Z)
| OpWebhook (env : webhook_env) (gateway : string) (ev : gateway_event) (raw : string)
| OpRefund (reg : registry) (payment_id : Z) (reason : option string)
    (admin : option Z) (nonce : string).
Definition run_payment_op (o : payment_op) : Meth unit :=
  match o with
  | OpFund reg r k m => fund_invoice reg r k m ;;; ret tt
  | OpWebhook env g ev raw => process env g ev raw ;;; ret tt
  | OpRefund reg k r a n => refund reg k r a n ;;; ret tt
  end.

Lemma refund_inv reg k r a n : keeps_db ledger_inv (refund reg k r a n).
Proof.
  unfold refund, refund_credit_payment, refresh_payment, registry_get, answer,
    invoice_owner.
  keeps_tac.
Qed.

(** Whatever payments, gateway events and refunds follow each other, and
    however each of them ends, the cached balance of every reseller remains the
    sum of its ledger entries, with correct running balances and exact
    reversals. *)
Theorem payments_keep_the_ledger_sound ops s :
  ledger_inv s.(s_db) ->
  ledger_inv (fold_left (fun s o => (run_payment_op o s).2) ops s).(s_db).
Proof.
  revert s. induction ops as [|o ops IH]; intros s Hs; [done|]. cbn [fold_left].
  apply IH. destruct (run_payment_op o s) as [out s'] eqn:Hrun.
  assert (keeps_db ledger_inv (run_payment_op o)) as Hk.
  { destruct o; cbn [run_payment_op]; apply keeps_bind; intros;
      auto using fund_invoice_inv, process_keeps_ledger, refund_inv, keeps_ret. }
  exact (keeps_run _ _ _ _ _ Hk Hrun Hs).
Qed.

Lemma payments_keep_the_ledger_sound_witness :
  let s := fold_left (fun s o => (run_payment_op o s).2)
    [OpFund sample_registry 1 1 None;
     OpWebhook (quiet_env true) "stripe" refund_event "";
     OpRefund sample_registry 1 None None "x"]
    (billed_session (sample_invoice IP_CREDIT_TOPUP 500)) in
  map le_amount_cents s.(s_db).(db_ledger) = [500; -500] /\ ledger_inv s.(s_db).
Proof.
  split; [vm_compute; reflexivity|]. apply payments_keep_the_ledger_sound.
  apply ledger_inv_no_entries; [done| |].
  - repeat constructor; cbn; intuition lia.
  - intros r [<-|[<-|[]]]; done.
Defined.
