(* ===== verification/Recurring.v ===== *)
(** Recurring billing: the charge, dunning, grace, suspension and recovery state
    machine of src/app/services/recurring_billing_service.py, and one iteration
    of its worker, src/app/workers/recurring_billing.py.

    The methods take the primary keys of the billing and cycle rows where the
    code holds the objects.  The payment orchestrator and the service lifecycle
    are injected, as in the constructor: [fund] is [gateway.fund_invoice]. *)
From Stdlib Require Import ZArith Lia Ascii.
From stdpp Require Import base numbers list strings pretty.
From S2P Require Import Prelude Calendar Models Session Invoices Lifecycle.
From S2P Require Import Outbox Orchestrator.
#[local] Open Scope Z_scope.
#[local] Open Scope py_scope.

(** * Configuration *)

Record billing_config : Type := mk_billing_config {
  retry_day_offsets : list Z;
  grace_days : Z;
  worker_lease_seconds : Z;
  worker_batch_size : Z
}.
Definition default_config : billing_config := mk_billing_config [1; 3; 5] 7 300 100.

(** What [Settings] accepts: positive, strictly ascending retry days inside the
    grace period, positive limits. *)
Fixpoint ascending (l : list Z) : bool :=
  match l with
  | x :: (y :: _) as l' => (x <? y) && ascending l'
  | _ => true
  end.
Definition valid_config (c : billing_config) : bool :=
  match c.(retry_day_offsets) with
  | [] => false
  | _ =>
      forallb (Z.ltb 0) c.(retry_day_offsets) && ascending c.(retry_day_offsets)
      && (List.last c.(retry_day_offsets) 0 <=? c.(grace_days))
      && (0 <? c.(worker_lease_seconds)) && (0 <? c.(worker_batch_size))
      && (c.(worker_batch_size) <=? 1000)
  end.

Record billing_env : Type := mk_billing_env {
  config : billing_config;
  fund : Z -> Z -> Meth funding_result;
  lifecycle : lifecycle_env
}.

Definition retries (env : billing_env) : Z :=
  Z.of_nat (length env.(config).(retry_day_offsets)).

(** * State sets *)

Definition OVERDUE_STATES : list cycle_state :=
  [CS_PAST_DUE; CS_GRACE; CS_PENDING_ACTION; CS_SUSPENDED].
Definition TERMINAL_STATES : list cycle_state :=
  [CS_PAID; CS_CANCELLED; CS_MANUAL_REVIEW].
Definition state_in (s : cycle_state) (l : list cycle_state) : bool :=
  existsb (fun x => s == x) l.
Definition billing_in (s : billing_status) (l : list billing_status) : bool :=
  existsb (fun x => s == x) l.

(** * The calendar *)

(** [anchor_day or value.day] *)
Definition or_day (anchor_day : option Z) (day : Z) : Z :=
  match anchor_day with
  | Some a => if a =? 0 then day else a
  | None => day
  end.

(** [None] is [value.replace] raising [ValueError]. *)
Definition next_calendar_month (value : Z) (anchor_day : option Z) : option Z :=
  let '(y, m, d) := date_of value in
  let anchor := or_day anchor_day d in
  let year := y + (if m =? 12 then 1 else 0) in
  let month := if m =? 12 then 1 else m + 1 in
  let day := Z.min anchor (days_in_month year month) in
  replace_date value year month day.

Definition day_of (t : Z) : Z := let '(_, _, d) := date_of t in d.

(** * The worker lease *)

Definition lease_free (owner : string) (now : Z) (l : lease) : bool :=
  match l.(ls_owner) with
  | None => true
  | Some o =>
      match l.(ls_expires_at) with
      | None => true
      | Some t => (t <=? now) || (o == owner)
      end
  end.

Definition acquire_lease (env : billing_env) (owner : string) : Meth bool :=
  now <- utcnow ;;
  row <- read db_lease ;;
  match row with
  | Some _ => ret tt
  | None =>
      try_catch
        (begin_nested
           (write (fun d => d <|db_lease := Some (mk_lease None None)|>) ;;; flush))
        (fun e => match e with IntegrityError => ret tt | _ => raise e end)
  end ;;;
  row <- read db_lease ;;
  match row with
  | Some l =>
      if lease_free owner now l then
        write (fun d => d <|db_lease := Some (mk_lease (Some owner)
          (Some (now + seconds env.(config).(worker_lease_seconds))))|>) ;;;
        ret true
      else ret false
  | None => ret false
  end.

Definition release_lease (owner : string) : Meth unit :=
  write (fun d =>
    match d.(db_lease) with
    | Some l => if l.(ls_owner) == Some owner
                then d <|db_lease := Some (mk_lease None None)|> else d
    | None => d
    end).

(** * Notifications *)

Definition invoice_of (c : billing_cycle) (d : db) : option invoice :=
  match c.(bc_invoice_id) with
  | Some k => tbl_get k d.(db_invoices)
  | None => None
  end.

(** [cycle.invoice], dereferenced. *)
Definition cycle_invoice (c : billing_cycle) : Meth invoice :=
  o <- read (invoice_of c) ;; unwrap o AttributeError.

Definition notification_data (b : service_billing) (c : billing_cycle) (d : db)
  : dict :=
  [("invoice_id", jopt_int c.(bc_invoice_id));
   ("invoice_number", match invoice_of c d with
                      | Some i => JInt i.(in_invoice_number)
                      | None => JNull end);
   ("service_id", JInt b.(sb_service_id));
   ("service_name", JStr match tbl_get b.(sb_service_id) d.(db_services) with
                         | Some s => s.(sv_name)
                         | None => "" end);
   ("amount_cents", JInt c.(bc_amount_cents));
   ("currency", JStr c.(bc_currency));
   ("grace_until", match c.(bc_grace_until) with
                   | Some t => JStr (isoformat t)
                   | None => JNull end)].

Definition cycle_key (c : Z) (suffix : string) : string :=
  "billing-cycle:" +:+ pretty c +:+ ":" +:+ suffix.

(** [self._notify(db, billing.reseller, event, key, data)] *)
Definition notify_cycle (billing_id cycle_id : Z) (event key : string) : Meth unit :=
  b <- the_billing billing_id ;;
  c <- the_cycle cycle_id ;;
  data <- read (notification_data b c) ;;
  notify_quietly b.(sb_reseller_id) event key data.

(** * Holds *)

Definition held (now : Z) (r : reseller) : reseller :=
  (if r.(rs_billing_hold) then r else r <|rs_billing_hold_at := Some now|>)
    <|rs_billing_hold := true|> <|rs_billing_hold_reason := Some "nonpayment"|>
    <|rs_billing_hold_cleared_at := None|>.

(** [billing.reseller], dereferenced. *)
Definition billing_reseller (billing_id : Z) : Meth reseller :=
  b <- the_billing billing_id ;;
  k <- deref b.(sb_reseller_id) ;;
  the_reseller k.

Definition apply_hold (billing_id now : Z) : Meth unit :=
  r <- billing_reseller billing_id ;;
  if r.(rs_nonpayment_policy) != NP_BLOCK_NEW then ret tt
  else upd_reseller r.(rs_id) (held now).

Definition set_nonpayment_hold (billing_id now : Z) : Meth unit :=
  r <- billing_reseller billing_id ;;
  upd_reseller r.(rs_id) (held now).

(** * Failures *)

Definition safe_char (c : ascii) : bool :=
  is_alpha c || is_digit c || Ascii.eqb c "_"%char || Ascii.eqb c "."%char
  || Ascii.eqb c "-"%char.
(** [_SAFE_CODE_RE.sub("_", s)]: every run of other characters becomes one
    underscore. *)
Fixpoint scrub (in_run : bool) (s : string) : string :=
  match s with
  | EmptyString => EmptyString
  | String c s' =>
      if safe_char c then String c (scrub false s')
      else if in_run then scrub true s'
      else String "_"%char (scrub true s')
  end.

Definition last_failed_payment (invoice_id : option Z) (d : db) : option payment :=
  last (List.filter (fun p => (Some p.(pm_invoice_id) == invoice_id)
                              && (p.(pm_status) == PS_FAILED)) d.(db_payments)).

Definition last_safe_failure (invoice_id : option Z) (code message : option string)
    (d : db) : string * string :=
  let raw_code := str_or code
    (str_or (match last_failed_payment invoice_id d with
             | Some p => p.(pm_failure_code) | None => None end) "payment_failed") in
  (str_or (Some (str_take 128 (scrub false raw_code))) "payment_failed",
   str_take 500 (str_or message "The recurring payment could not be completed")).

(** When attempt number [attempts] failed, the instant of the next one. *)
Definition retry_at (cfg : billing_config) (due_at attempts : Z) : option Z :=
  if (0 <? attempts) && (attempts <=? Z.of_nat (length cfg.(retry_day_offsets)))
  then Some (due_at + days (List.nth (Z.to_nat (attempts - 1)) cfg.(retry_day_offsets) 0))
  else None.
Definition grace_at (cfg : billing_config) (due_at : Z) : Z :=
  due_at + days cfg.(grace_days).

Definition counted (now : Z) (c : billing_cycle) : billing_cycle :=
  c <|bc_attempts := c.(bc_attempts) + 1|> <|bc_last_attempt_at := Some now|>.

Definition failed_cycle (cfg : billing_config) (code message : string)
    (c : billing_cycle) : billing_cycle :=
  c <|bc_failure_code := Some code|> <|bc_failure_message := Some message|>
    <|bc_claim_token := None|> <|bc_claim_expires_at := None|>
    <|bc_grace_until := Some (grace_at cfg c.(bc_due_at))|>
    <|bc_next_retry_at := retry_at cfg c.(bc_due_at) c.(bc_attempts)|>
    <|bc_state := if c.(bc_attempts) =? 1 then CS_PAST_DUE else CS_GRACE|>.

Definition failed_billing (c : billing_cycle) (code message : string)
    (b : service_billing) : service_billing :=
  b <|sb_status := if c.(bc_attempts) =? 1 then BS_PAST_DUE else BS_GRACE|>
    <|sb_failed_attempts := c.(bc_attempts)|>
    <|sb_last_failure_code := Some code|> <|sb_last_failure_message := Some message|>
    <|sb_grace_until := c.(bc_grace_until)|> <|sb_next_retry_at := c.(bc_next_retry_at)|>.

Definition record_failure (env : billing_env) (billing_id cycle_id now : Z)
    (code message : option string) (increment : bool) : Meth unit :=
  (if increment then upd_cycle cycle_id (counted now) else ret tt) ;;;
  c <- the_cycle cycle_id ;;
  safe <- read (last_safe_failure c.(bc_invoice_id) code message) ;;
  upd_cycle cycle_id (failed_cycle env.(config) safe.1 safe.2) ;;;
  c <- the_cycle cycle_id ;;
  i <- cycle_invoice c ;;
  (if i.(in_status) != IS_PENDING_ACTION
   then upd_invoice i.(in_id) (fun x => x <|in_status := IS_OVERDUE|>)
   else ret tt) ;;;
  upd_billing billing_id (failed_billing c safe.1 safe.2) ;;;
  apply_hold billing_id now ;;;
  notify_cycle billing_id cycle_id "cycle_charge_failed"
    (cycle_key cycle_id ("failed:" +:+ pretty c.(bc_attempts))) ;;;
  if c.(bc_attempts) =? 2
  then notify_cycle billing_id cycle_id "grace_warning" (cycle_key cycle_id "grace-warning")
  else ret tt.

Definition pending_cycle (cfg : billing_config) (c : billing_cycle) : billing_cycle :=
  c <|bc_state := CS_PENDING_ACTION|>
    <|bc_grace_until := Some (grace_at cfg c.(bc_due_at))|>
    <|bc_next_retry_at := None|>.
Definition pending_billing (c : billing_cycle) (b : service_billing) : service_billing :=
  b <|sb_status := if c.(bc_attempts) <=? 1 then BS_PAST_DUE else BS_GRACE|>
    <|sb_failed_attempts := c.(bc_attempts)|>
    <|sb_grace_until := c.(bc_grace_until)|> <|sb_next_retry_at := None|>
    <|sb_last_failure_code := Some "payment_action_required"|>
    <|sb_last_failure_message := Some "Payment action is required"|>.

Definition record_pending_action (env : billing_env) (billing_id cycle_id now : Z)
  : Meth unit :=
  upd_cycle cycle_id (pending_cycle env.(config)) ;;;
  c <- the_cycle cycle_id ;;
  upd_billing billing_id (pending_billing c) ;;;
  apply_hold billing_id now ;;;
  notify_cycle billing_id cycle_id "payment_action_required"
    (cycle_key cycle_id "action-required").

Definition schedule_after_pending_failure (env : billing_env)
    (billing_id cycle_id : Z) : Meth unit :=
  upd_cycle cycle_id (fun c =>
    c <|bc_next_retry_at := retry_at env.(config) c.(bc_due_at) c.(bc_attempts)|>
      <|bc_state := if c.(bc_attempts) <=? 1 then CS_PAST_DUE else CS_GRACE|>) ;;;
  c <- the_cycle cycle_id ;;
  upd_billing billing_id (fun b =>
    b <|sb_status := if c.(bc_attempts) <=? 1 then BS_PAST_DUE else BS_GRACE|>
      <|sb_next_retry_at := c.(bc_next_retry_at)|>).

(** * Suspension *)

Definition should_suspend (env : billing_env) (c : billing_cycle) (now : Z) : bool :=
  ((c.(bc_state) == CS_PENDING_ACTION) || (retries env <? c.(bc_attempts)))
  && match c.(bc_grace_until) with Some g => g <=? now | None => false end.

Definition suspension_rows (billing_id : Z) : Meth (list Z) :=
  r <- billing_reseller billing_id ;;
  if r.(rs_nonpayment_policy) != NP_SUSPEND_ALL then ret [billing_id]
  else
    b <- the_billing billing_id ;;
    read (fun d => map sb_id (List.filter (fun x =>
      (x.(sb_reseller_id) == b.(sb_reseller_id)) && (x.(sb_status) != BS_CANCELLED))
      d.(db_billings))).

(** Returns whether the row is marked, and whether the lifecycle failed. *)
Definition suspend_billing_row (env : billing_env) (row_id cycle_id : Z)
  : Meth (bool * bool) :=
  row <- the_billing row_id ;;
  s <- read (fun d => tbl_get row.(sb_service_id) d.(db_services)) ;;
  match s with
  | None => ret (false, false)
  | Some s =>
      if s.(sv_status) == SS_TERMINATED then ret (false, false)
      else
        changed <- try_catch
          (x <- suspend env.(lifecycle) s.(sv_id) ;; ret (Some x))
          (fun e => match e with ServiceLifecycleError _ _ => ret None | _ => raise e end) ;;
        match changed with
        | None => ret (false, true)
        | Some changed =>
            if negb (changed || (row.(sb_status) == BS_SUSPENDED_NONPAYMENT))
            then ret (false, false)
            else
              upd_billing row_id (fun b =>
                b <|sb_status := BS_SUSPENDED_NONPAYMENT|> <|sb_next_retry_at := None|>) ;;;
              notify_cycle row_id cycle_id "service_suspended"
                (cycle_key cycle_id ("suspended-service:" +:+ pretty row.(sb_service_id))) ;;;
              ret (true, false)
        end
  end.

Definition record_suspension_failure (billing_id cycle_id now : Z) : Meth unit :=
  upd_cycle cycle_id (fun c =>
    c <|bc_state := CS_GRACE|> <|bc_next_retry_at := Some (now + seconds 3600)|>
      <|bc_failure_code := Some "lifecycle_suspend_failed"|>
      <|bc_failure_message := Some "Service suspension could not be completed"|>) ;;;
  upd_billing billing_id (fun b =>
    b <|sb_next_retry_at := Some (now + seconds 3600)|>).

Definition suspend_for_nonpayment (env : billing_env) (billing_id cycle_id now : Z)
  : Meth bool :=
  rows <- suspension_rows billing_id ;;
  flags <- fold_each rows (false, false) (fun acc row =>
    r <- suspend_billing_row env row cycle_id ;;
    let '(marked, failed) := r in
    ret (acc.1 || ((row =? billing_id) && marked), acc.2 || failed)) ;;
  let '(target_suspended, lifecycle_failed) := flags in
  if lifecycle_failed && negb target_suspended then
    record_suspension_failure billing_id cycle_id now ;;; ret false
  else
    (if negb target_suspended then
       upd_billing billing_id (fun b =>
         b <|sb_status := BS_MANUAL_REVIEW|>
           <|sb_last_failure_code := Some "service_already_suspended"|>
           <|sb_last_failure_message :=
               Some "Service was already suspended outside recurring billing"|>) ;;;
       upd_cycle cycle_id (fun c =>
         c <|bc_failure_code := Some "service_already_suspended"|>
           <|bc_failure_message :=
               Some "Service was already suspended outside recurring billing"|>)
     else ret tt) ;;;
    upd_cycle cycle_id (fun c =>
      c <|bc_state := CS_SUSPENDED|> <|bc_completed_at := Some now|>
        <|bc_next_retry_at := None|>) ;;;
    set_nonpayment_hold billing_id now ;;;
    ret target_suspended.

Definition suspension_outcome (env : billing_env) (billing_id cycle_id now : Z)
  : Meth (option bool) :=
  c <- the_cycle cycle_id ;;
  if negb (should_suspend env c now) then ret None
  else
    suspended <- suspend_for_nonpayment env billing_id cycle_id now ;;
    commit ;;; ret (Some suspended).

(** * Completion *)

Definition paid_cycle (paid_at now : Z) (c : billing_cycle) : billing_cycle :=
  c <|bc_state := CS_PAID|> <|bc_paid_at := Some paid_at|>
    <|bc_completed_at := Some now|> <|bc_failure_code := None|>
    <|bc_failure_message := None|> <|bc_next_retry_at := None|>
    <|bc_claim_token := None|> <|bc_claim_expires_at := None|>.

Definition active_billing (paid_at anchor next : Z) (b : service_billing)
  : service_billing :=
  b <|sb_status := BS_ACTIVE|> <|sb_failed_attempts := 0|>
    <|sb_last_failure_code := None|> <|sb_last_failure_message := None|>
    <|sb_grace_until := None|> <|sb_next_retry_at := None|>
    <|sb_last_charged_at := Some paid_at|> <|sb_billing_anchor_day := Some anchor|>
    <|sb_next_charge_at := Some next|>.

Definition has_overdue_cycles (reseller_id excluding : Z) (d : db) : bool :=
  existsb (fun c =>
    state_in c.(bc_state) OVERDUE_STATES && negb (c.(bc_id) =? excluding)
    && match tbl_get c.(bc_service_billing_id) d.(db_billings) with
       | Some b => b.(sb_reseller_id) == Some reseller_id
       | None => false
       end) d.(db_cycles).

Definition restore_cascade (reseller_id : Z) : Meth unit :=
  rows <- read (fun d => List.filter (fun b =>
    (b.(sb_reseller_id) == Some reseller_id)
    && (b.(sb_status) == BS_SUSPENDED_NONPAYMENT)) d.(db_billings)) ;;
  for_each rows (fun row =>
    s <- the_service row.(sb_service_id) ;;
    (if s.(sv_status) == SS_SUSPENDED then unsuspend s.(sv_id) ;;; ret tt else ret tt) ;;;
    upd_billing row.(sb_id) (fun b => b <|sb_status := BS_ACTIVE|>)).

Definition clear_hold (now : Z) (r : reseller) : reseller :=
  (if r.(rs_billing_hold) then r <|rs_billing_hold_cleared_at := Some now|> else r)
    <|rs_billing_hold := false|> <|rs_billing_hold_reason := None|>.

Definition complete_paid_cycle (cycle_id now : Z) : Meth unit :=
  c <- the_cycle cycle_id ;;
  b <- the_billing c.(bc_service_billing_id) ;;
  let recovered_payment :=
    state_in c.(bc_state) OVERDUE_STATES
    || billing_in b.(sb_status) [BS_PAST_DUE; BS_GRACE; BS_SUSPENDED_NONPAYMENT] in
  let was_nonpayment_suspended := b.(sb_status) == BS_SUSPENDED_NONPAYMENT in
  i <- cycle_invoice c ;;
  let paid_at := match i.(in_paid_at) with Some t => t | None => now end in
  upd_cycle cycle_id (paid_cycle paid_at now) ;;;
  let anchor := or_day b.(sb_billing_anchor_day) (day_of c.(bc_due_at)) in
  next <- unwrap (next_calendar_month c.(bc_due_at) (Some anchor))
            (ValueError "date value out of range") ;;
  upd_billing b.(sb_id) (active_billing paid_at anchor next) ;;;
  (if was_nonpayment_suspended
   then s <- the_service b.(sb_service_id) ;; unsuspend s.(sv_id) ;;; ret tt
   else ret tt) ;;;
  r <- billing_reseller b.(sb_id) ;;
  overdue <- read (has_overdue_cycles r.(rs_id) cycle_id) ;;
  (if negb overdue then
     restore_cascade r.(rs_id) ;;;
     r <- the_reseller r.(rs_id) ;;
     if (0 <=? r.(rs_cached_balance_cents))
        && (negb r.(rs_billing_hold) || (r.(rs_billing_hold_reason) == Some "nonpayment"))
     then upd_reseller r.(rs_id) (clear_hold now)
     else ret tt
   else ret tt) ;;;
  if recovered_payment
  then notify_cycle b.(sb_id) cycle_id "payment_recovered"
         (cycle_key cycle_id "payment-recovered")
  else ret tt.

(** * Cancellation and review *)

Definition cancel_billing (billing_id now : Z) : Meth unit :=
  upd_billing billing_id (fun b =>
    b <|sb_status := BS_CANCELLED|> <|sb_next_charge_at := None|>
      <|sb_next_retry_at := None|>) ;;;
  o <- read (fun d => last (List.filter (fun c =>
    (c.(bc_service_billing_id) =? billing_id)
    && negb (state_in c.(bc_state) [CS_PAID; CS_CANCELLED])) d.(db_cycles))) ;;
  match o with
  | None => ret tt
  | Some c =>
      upd_cycle c.(bc_id) (fun x =>
        x <|bc_state := CS_CANCELLED|> <|bc_completed_at := Some now|>
          <|bc_next_retry_at := None|>) ;;;
      i <- read (invoice_of c) ;;
      match i with
      | Some i => if i.(in_status) != IS_PAID
                  then upd_invoice i.(in_id) (fun x => x <|in_status := IS_VOID|>)
                  else ret tt
      | None => ret tt
      end
  end.

Definition mark_manual (billing_id cycle_id : Z) (code message : string) : Meth unit :=
  upd_cycle cycle_id (fun c =>
    c <|bc_state := CS_MANUAL_REVIEW|> <|bc_failure_code := Some code|>
      <|bc_failure_message := Some message|>) ;;;
  upd_billing billing_id (fun b =>
    b <|sb_status := BS_MANUAL_REVIEW|> <|sb_last_failure_code := Some code|>
      <|sb_last_failure_message := Some message|> <|sb_next_retry_at := None|>).

(** * Cycles *)

(** The latest non-terminal cycle, by due date, then by id. *)
Definition later_cycle (x y : billing_cycle) : bool :=
  (y.(bc_due_at) <? x.(bc_due_at))
  || ((y.(bc_due_at) =? x.(bc_due_at)) && (y.(bc_id) <? x.(bc_id))).
Definition latest_cycle (l : list billing_cycle) : option billing_cycle :=
  fold_left (fun acc c => match acc with
                          | None => Some c
                          | Some x => if later_cycle c x then Some c else acc
                          end) l None.
Definition current_cycle (billing_id : Z) (d : db) : option billing_cycle :=
  latest_cycle (List.filter (fun c =>
    (c.(bc_service_billing_id) =? billing_id)
    && negb (state_in c.(bc_state) TERMINAL_STATES)) d.(db_cycles)).

Definition cycles_due_at (billing_id due_at : Z) (d : db) : list billing_cycle :=
  List.filter (fun c => (c.(bc_service_billing_id) =? billing_id)
                        && (c.(bc_due_at) =? due_at)) d.(db_cycles).

Definition new_cycle (id : Z) (b : service_billing) (due_at : Z)
    (currency : string) (valid : bool) : billing_cycle :=
  mk_billing_cycle id b.(sb_id) None due_at (Z.max 0 b.(sb_monthly_price_cents))
    currency (if valid then CS_DUE else CS_MANUAL_REVIEW) 0 None None None None None
    None None None None.

(** The savepoint of [_ensure_cycle]: the cycle, its invoice, the anchor. *)
Definition create_cycle_rows (b : service_billing) (due_at : Z) (currency : string)
    (valid_amount valid_cur : bool) (id : Z) : Meth unit :=
  write (fun d => d <|db_cycles := d.(db_cycles) ++
    [new_cycle id b due_at (if valid_cur then currency else "USD")
       (valid_amount && valid_cur)]|>) ;;;
  flush ;;;
  (if valid_amount && valid_cur then
     s <- the_service b.(sb_service_id) ;;
     invoice <- create_cycle b.(sb_reseller_id) b.(sb_service_id)
       b.(sb_monthly_price_cents)
       ("Recurring service charge for " +:+ s.(sv_name)) (Some due_at) currency ;;
     upd_cycle id (fun c => c <|bc_invoice_id := Some invoice|>)
   else
     upd_cycle id (fun c =>
       c <|bc_failure_code := Some "invalid_billing_snapshot"|>
         <|bc_failure_message :=
             Some "Monthly price or currency requires manual review"|>) ;;;
     upd_billing b.(sb_id) (fun x => x <|sb_status := BS_MANUAL_REVIEW|>)) ;;;
  upd_billing b.(sb_id) (fun x =>
    x <|sb_billing_anchor_day := Some (or_day x.(sb_billing_anchor_day) (day_of due_at))|>) ;;;
  flush.

Definition ensure_cycle (billing_id now : Z) : Meth Z :=
  b <- the_billing billing_id ;;
  let due_at := match b.(sb_next_charge_at) with Some t => t | None => now end in
  rows <- read (cycles_due_at billing_id due_at) ;;
  existing <- scalar_one_or_none MultipleResultsFound rows ;;
  match existing with
  | Some c => ret c.(bc_id)
  | None =>
      let currency := str_upper (str_strip b.(sb_currency)) in
      id <- read (fun d => tbl_fresh d.(db_cycles)) ;;
      try_catch
        (begin_nested (create_cycle_rows b due_at currency
           (0 <? b.(sb_monthly_price_cents)) (valid_currency currency) id) ;;;
         ret id)
        (fun e => match e with
                  | IntegrityError =>
                      rows <- read (cycles_due_at billing_id due_at) ;;
                      c <- scalar_one rows ;;
                      ret c.(bc_id)
                  | _ => raise e
                  end)
  end.

(** * One billing *)

Inductive billing_outcome : Type :=
| BO_PROCESSED | BO_PAID | BO_FAILED | BO_PENDING_ACTION | BO_SUSPENDED
| BO_CANCELLED | BO_MANUAL_REVIEW.

Definition claimed_by_another_worker (c : billing_cycle) (now : Z) (owner : string)
  : bool :=
  (c.(bc_state) == CS_PROCESSING)
  && match c.(bc_claim_expires_at) with Some t => now <? t | None => false end
  && (c.(bc_claim_token) != Some owner).

Definition initial_cycle_outcome (billing_id cycle_id now : Z) (owner : string)
  : Meth (option billing_outcome) :=
  c <- the_cycle cycle_id ;;
  if c.(bc_state) == CS_MANUAL_REVIEW then ret (Some BO_MANUAL_REVIEW)
  else
    o <- read (invoice_of c) ;;
    match o with
    | None =>
        if c.(bc_state) == CS_ERROR then ret (Some BO_MANUAL_REVIEW)
        else
          mark_manual billing_id cycle_id "missing_invoice" "Billing cycle has no invoice" ;;;
          commit ;;; ret (Some BO_MANUAL_REVIEW)
    | Some i =>
        if i.(in_status) == IS_PAID then
          complete_paid_cycle cycle_id now ;;; commit ;;; ret (Some BO_PAID)
        else if claimed_by_another_worker c now owner then
          rollback ;;; ret (Some BO_PROCESSED)
        else ret None
    end.

Definition handle_pending_action (env : billing_env) (billing_id cycle_id : Z)
  : Meth (option billing_outcome) :=
  c <- the_cycle cycle_id ;;
  if c.(bc_state) != CS_PENDING_ACTION then ret None
  else
    i <- cycle_invoice c ;;
    if i.(in_status) != IS_PENDING_ACTION then
      schedule_after_pending_failure env billing_id cycle_id ;;; commit ;;; ret None
    else
      notify_cycle billing_id cycle_id "payment_action_required"
        (cycle_key cycle_id "action-required") ;;;
      commit ;;; ret (Some BO_PENDING_ACTION).

Definition retry_is_not_due (env : billing_env) (c : billing_cycle) (now : Z) : bool :=
  ((retries env <? c.(bc_attempts))
   && match c.(bc_grace_until) with Some g => now <? g | None => false end)
  || (match c.(bc_next_retry_at) with Some t => now <? t | None => false end
      && (c.(bc_state) != CS_DUE)).

Definition claim_cycle (env : billing_env) (owner : string) (now : Z)
    (c : billing_cycle) : billing_cycle :=
  c <|bc_state := CS_PROCESSING|> <|bc_claim_token := Some owner|>
    <|bc_claim_expires_at := Some (now + seconds env.(config).(worker_lease_seconds))|>.

(** [self.gateway.fund_invoice(db, billing.reseller, cycle.invoice)] *)
Definition fund_cycle (env : billing_env) (billing_id cycle_id : Z)
  : Meth funding_result :=
  b <- the_billing billing_id ;;
  c <- the_cycle cycle_id ;;
  r <- deref b.(sb_reseller_id) ;;
  i <- cycle_invoice c ;;
  env.(fund) r i.(in_id).

Definition settle_attempt (env : billing_env) (billing_id cycle_id now : Z)
    (funding : funding_result) : Meth billing_outcome :=
  upd_cycle cycle_id (fun c =>
    counted now c <|bc_claim_token := None|> <|bc_claim_expires_at := None|>) ;;;
  if funding.(fr_funded) then
    c <- the_cycle cycle_id ;;
    k <- deref c.(bc_invoice_id) ;;
    mark_paid_if_fully_allocated k ;;;
    complete_paid_cycle cycle_id now ;;;
    commit ;;; ret BO_PAID
  else if funding.(fr_pending_action) then
    record_pending_action env billing_id cycle_id now ;;;
    commit ;;; ret BO_PENDING_ACTION
  else
    record_failure env billing_id cycle_id now None None false ;;;
    commit ;;; ret BO_FAILED.

Definition attempt_payment (env : billing_env) (billing_id cycle_id now : Z)
    (owner : string) : Meth billing_outcome :=
  upd_cycle cycle_id (claim_cycle env owner now) ;;;
  commit ;;;
  funding <- try_catch (f <- fund_cycle env billing_id cycle_id ;; ret (inl f))
               (fun e => ret (inr e)) ;;
  match funding with
  | inr e =>
      rollback ;;;
      record_failure env billing_id cycle_id now (Some (exn_name e))
        (Some "Payment processing failed") true ;;;
      commit ;;; ret BO_FAILED
  | inl f => settle_attempt env billing_id cycle_id now f
  end.

Definition process_billing (env : billing_env) (billing_id now : Z) (owner : string)
  : Meth billing_outcome :=
  b <- the_billing billing_id ;;
  s <- read (fun d => tbl_get b.(sb_service_id) d.(db_services)) ;;
  if match s with Some s => s.(sv_status) == SS_TERMINATED | None => true end then
    cancel_billing billing_id now ;;; commit ;;; ret BO_CANCELLED
  else
    current <- read (current_cycle billing_id) ;;
    cycle_id <- match current with
                | Some c => ret c.(bc_id)
                | None => id <- ensure_cycle billing_id now ;; commit ;;; ret id
                end ;;
    initial <- initial_cycle_outcome billing_id cycle_id now owner ;;
    match initial with
    | Some o => ret o
    | None =>
        suspension <- suspension_outcome env billing_id cycle_id now ;;
        match suspension with
        | Some suspended => ret (if suspended : bool then BO_SUSPENDED else BO_FAILED)
        | None =>
            pending <- handle_pending_action env billing_id cycle_id ;;
            match pending with
            | Some o => ret o
            | None =>
                c <- the_cycle cycle_id ;;
                if retry_is_not_due env c now then rollback ;;; ret BO_PROCESSED
                else attempt_payment env billing_id cycle_id now owner
            end
        end
    end.

(** * A batch *)

Record batch_result : Type := mk_batch_result {
  br_processed : Z;
  br_paid : Z;
  br_failed : Z;
  br_pending_action : Z;
  br_suspended : Z;
  br_cancelled : Z;
  br_manual_review : Z
}.
#[export] Instance eta_batch_result : Eta batch_result := fun r =>
  mk_batch_result r.(br_processed) r.(br_paid) r.(br_failed) r.(br_pending_action)
    r.(br_suspended) r.(br_cancelled) r.(br_manual_review).
Definition empty_result : batch_result := mk_batch_result 0 0 0 0 0 0 0.

(** [result["processed"] += 1; if outcome in result: result[outcome] += 1] *)
Definition tally (o : billing_outcome) (r : batch_result) : batch_result :=
  let r := r <|br_processed := r.(br_processed) + 1|> in
  match o with
  | BO_PROCESSED => r <|br_processed := r.(br_processed) + 1|>
  | BO_PAID => r <|br_paid := r.(br_paid) + 1|>
  | BO_FAILED => r <|br_failed := r.(br_failed) + 1|>
  | BO_PENDING_ACTION => r <|br_pending_action := r.(br_pending_action) + 1|>
  | BO_SUSPENDED => r <|br_suspended := r.(br_suspended) + 1|>
  | BO_CANCELLED => r <|br_cancelled := r.(br_cancelled) + 1|>
  | BO_MANUAL_REVIEW => r <|br_manual_review := r.(br_manual_review) + 1|>
  end.

(** [ORDER BY next_retry_at, next_charge_at, id], NULLs first. *)
Definition opt_cmp (x y : option Z) : comparison :=
  match x, y with
  | None, None => Eq
  | None, Some _ => Lt
  | Some _, None => Gt
  | Some a, Some b => a ?= b
  end.
Definition due_first (x y : service_billing) : bool :=
  match opt_cmp x.(sb_next_retry_at) y.(sb_next_retry_at) with
  | Lt => true
  | Gt => false
  | Eq => match opt_cmp x.(sb_next_charge_at) y.(sb_next_charge_at) with
          | Lt => true
          | Gt => false
          | Eq => x.(sb_id) <=? y.(sb_id)
          end
  end.
Fixpoint insert_due (x : service_billing) (l : list service_billing)
  : list service_billing :=
  match l with
  | [] => [x]
  | y :: l' => if due_first x y then x :: l else y :: insert_due x l'
  end.
Definition order_due (l : list service_billing) : list service_billing :=
  fold_right insert_due [] l.

Definition opt_le (t : option Z) (now : Z) : bool :=
  match t with Some t => t <=? now | None => false end.

Definition is_due (now : Z) (b : service_billing) : bool :=
  ((b.(sb_status) == BS_ACTIVE) && opt_le b.(sb_next_charge_at) now)
  || (billing_in b.(sb_status) [BS_PAST_DUE; BS_GRACE]
      && (match b.(sb_next_retry_at) with None => true | Some t => t <=? now end
          || opt_le b.(sb_grace_until) now)).

Definition due_billings (now : Z) (limit : Z) (d : db) : list Z :=
  map sb_id (take (Z.to_nat limit) (order_due (List.filter (is_due now) d.(db_billings)))).

Definition recoverable (d : db) (c : billing_cycle) : bool :=
  negb (state_in c.(bc_state) [CS_PAID; CS_CANCELLED])
  && match invoice_of c d with
     | Some i => i.(in_status) == IS_PAID
     | None => false
     end.

Definition recover_paid_cycles (now limit : Z) (r : batch_result)
  : Meth (Z * batch_result) :=
  ids <- read (fun d =>
    map bc_id (take (Z.to_nat limit) (List.filter (recoverable d) d.(db_cycles)))) ;;
  r <- fold_each ids r (fun r id =>
    complete_paid_cycle id now ;;;
    commit ;;;
    ret (tally BO_PAID r)) ;;
  ret (Z.of_nat (length ids), r).

(** [batch_size or self.config.recurring_billing_worker_batch_size] *)
Definition process_batch (env : billing_env) (batch_size : option Z) (owner : string)
  : Meth batch_result :=
  now <- utcnow ;;
  let limit := batch_limit batch_size env.(config).(worker_batch_size) in
  recovered <- recover_paid_cycles now limit empty_result ;;
  let remaining := Z.max 0 (limit - recovered.1) in
  if remaining =? 0 then ret recovered.2
  else
    billings <- read (due_billings now remaining) ;;
    fold_each billings recovered.2 (fun r b =>
      o <- process_billing env b now owner ;;
      ret (tally o r)).

(** [run_recurring_billing_iteration]; [None] is the early answer of a worker
    that did not get the lease. *)
Definition run_iteration (env : billing_env) (owner : string)
  : Meth (option batch_result) :=
  let release : Meth unit :=
    try_catch (release_lease owner ;;; commit) (fun _ => rollback) in
  acquired <- try_catch
    (a <- acquire_lease env owner ;; commit ;;; ret a)
    (fun e => rollback ;;; raise e) ;;
  if negb acquired then ret None
  else
    r <- try_catch (process_batch env None owner)
           (fun e => rollback ;;; release ;;; raise e) ;;
    release ;;; ret (Some r).

(** The admin's [retry] of one cycle. *)
Definition retry_cycle (cycle_id : Z) : Meth unit :=
  o <- read (fun d => tbl_get cycle_id d.(db_cycles)) ;;
  c <- unwrap o (HTTPException 404) ;;
  throw_if (state_in c.(bc_state) TERMINAL_STATES) (HTTPException 409) ;;;
  io <- read (invoice_of c) ;;
  i <- unwrap io (HTTPException 409) ;;
  throw_if (i.(in_status) == IS_PENDING_ACTION) (HTTPException 409) ;;;
  now <- utcnow ;;
  upd_cycle cycle_id (fun c =>
    c <|bc_state := CS_GRACE|> <|bc_next_retry_at := Some now|>
      <|bc_claim_token := None|> <|bc_claim_expires_at := None|>) ;;;
  upd_billing c.(bc_service_billing_id) (fun b =>
    b <|sb_status := BS_GRACE|> <|sb_next_retry_at := Some now|>) ;;;
  commit.

(** The production wiring: the orchestrator of this development. *)
Definition orchestrated (cfg : billing_config) (reg : registry)
    (lc : lifecycle_env) : billing_env :=
  mk_billing_env cfg (fun r k => fund_invoice reg r k None) lc.
