(* ===== verification/Dunning.v ===== *)
(** What recurring billing guarantees: the calendar of due dates, the worker
    lease, the retry schedule, the bound on payment attempts and the suspension
    that follows them, durability of a charge's context, and completion of paid cycles (Recurring.v). *)
From Stdlib Require Import ZArith Lia.
From stdpp Require Import base numbers list strings pretty.
From S2P Require Import Prelude Calendar Models Session Ledger Invoices.
From S2P Require Import Lifecycle Outbox Orchestrator Funding Recurring.
#[local] Open Scope Z_scope.
#[local] Open Scope py_scope.

(** * Due dates *)

(** The civil month after month [n] counted from January of year 0. *)
Definition month_of (n : Z) : Z * Z := (n / 12, n mod 12 + 1).

Lemma month_of_index y m : 1 <= m <= 12 -> month_of (month_index y m) = (y, m).
Proof.
  intros Hm. unfold month_of, month_index.
  f_equal; Z.div_mod_to_equations; lia.
Qed.

Lemma month_index_step y m :
  1 <= m <= 12 ->
  month_index (y + (if m =? 12 then 1 else 0)) (if m =? 12 then 1 else m + 1)
  = month_index y m + 1.
Proof. intros Hm. unfold month_index. destruct (Z.eqb_spec m 12); lia. Qed.

Lemma next_month_spec t a y m d t' :
  date_of t = (y, m, d) -> 1 <= or_day a d ->
  next_calendar_month t a = Some t' ->
  let y' := y + (if m =? 12 then 1 else 0) in
  let m' := if m =? 12 then 1 else m + 1 in
  date_of t' = (y', m', Z.min (or_day a d) (days_in_month y' m')) /\
  time_of_day t' = time_of_day t /\ t < t'.
Proof.
  intros Hd Ha Hn y' m'. unfold next_calendar_month in Hn. rewrite Hd in Hn.
  fold y' m' in Hn. set (day := Z.min _ _) in *. unfold replace_date in Hn.
  pose proof (time_of_day_bounds t) as Htod.
  destruct (date_of_datetime _ _ _ _ _ Htod Hn) as [Hd' Ht'].
  split; [done|]. split; [done|].
  apply date_of_spec in Hd as (Hm & Hday & Ht).
  apply date_of_spec in Hd' as (Hm' & Hday' & Ht'').
  rewrite Ht, Ht'', Ht'. apply Z.add_lt_mono_r. unfold days.
  apply Z.mul_lt_mono_pos_r; [reflexivity|].
  apply Z.sub_lt_mono_r.
  pose proof (ymd2ord_next_month y m d day Hm ltac:(lia) ltac:(lia)) as H.
  cbv zeta in H. subst y' m'. destruct (m =? 12); [done|].
  by rewrite Z.add_0_r.
Qed.

(** [n] successive due dates. *)
Fixpoint due_after (n : nat) (t : Z) (anchor : option Z) : option Z :=
  match n with
  | O => Some t
  | S n' => match next_calendar_month t anchor with
            | Some t' => due_after n' t' anchor
            | None => None
            end
  end.

(** Due dates advance one calendar month at a time and keep their anchor:
    [n] months after a due date with anchor day [a], the charge falls in the
    month [n] months later, on day [a] or the last day of a shorter month, at
    the same time of day, and strictly later than every earlier one; a short
    month never moves the following ones. *)
Theorem due_dates_keep_the_anchor n t a y m d t' :
  date_of t = (y, m, d) -> 1 <= a <= 31 ->
  due_after (S n) t (Some a) = Some t' ->
  let '(y', m') := month_of (month_index y m + Z.of_nat (S n)) in
  date_of t' = (y', m', Z.min a (days_in_month y' m')) /\
  time_of_day t' = time_of_day t /\ t < t'.
Proof.
  intros Hd Ha. assert (forall x, or_day (Some a) x = a) as Hor.
  { intros x. unfold or_day. by assert ((a =? 0) = false) as -> by lia. }
  revert t y m d Hd. induction n as [|n IH]; intros t y m d Hd Hn.
  - cbn in Hn. destruct (next_calendar_month t (Some a)) as [t1|] eqn:Hnext; [|done].
    injection Hn as <-.
    assert (1 <= m <= 12) as Hm by (apply date_of_spec in Hd; tauto).
    pose proof (next_month_spec t (Some a) y m d t1 Hd) as H. rewrite Hor in H.
    specialize (H ltac:(lia) Hnext). cbv zeta in H.
    change (Z.of_nat 1) with 1. rewrite <- (month_index_step y m) by done.
    rewrite month_of_index; [done|]. destruct (Z.eqb_spec m 12); lia.
  - change (due_after (S (S n)) t (Some a)) with
      (match next_calendar_month t (Some a) with
       | Some t' => due_after (S n) t' (Some a) | None => None end) in Hn.
    destruct (next_calendar_month t (Some a)) as [t1|] eqn:Hnext; [|done].
    assert (1 <= m <= 12) as Hm by (apply date_of_spec in Hd; tauto).
    pose proof (next_month_spec t (Some a) y m d t1 Hd) as H. rewrite Hor in H.
    specialize (H ltac:(lia) Hnext). cbv zeta in H. destruct H as (Hd1 & Ht1 & Hlt).
    specialize (IH t1 _ _ _ Hd1 Hn).
    rewrite month_index_step in IH by done.
    replace (month_index y m + 1 + Z.of_nat (S n))
      with (month_index y m + Z.of_nat (S (S n))) in IH by lia.
    destruct (month_of _) as [y2 m2]. destruct IH as (IH1 & IH2 & IH3).
    split; [done|]. split; [congruence|lia].
Qed.

(** 31 January 2025, 12:00. *)
Definition jan31 : Z := days (ymd2ord 2025 1 31 - 1) + seconds 43200.
Lemma due_dates_keep_the_anchor_witness :
  exists t', due_after 2 jan31 (Some 31) = Some t' /\ date_of t' = (2025, 3, 31) /\
  option_map date_of (due_after 1 jan31 (Some 31)) = Some (2025, 2, 28).
Proof.
  destruct (due_after 2 jan31 (Some 31)) as [t'|] eqn:E;
    [|exfalso; vm_compute in E; discriminate].
  exists t'. split; [reflexivity|].
  assert (date_of jan31 = (2025, 1, 31)) as Hd by (vm_compute; reflexivity).
  pose proof (due_dates_keep_the_anchor 1 jan31 31 2025 1 31 t' Hd ltac:(lia) E) as H.
  split; [|vm_compute; reflexivity].
  change (month_of (month_index 2025 1 + Z.of_nat 2)) with (2025, 3) in H.
  destruct H as [H _]. rewrite H. vm_compute. reflexivity.
Defined.

(** * The worker lease *)

Definition lease_held (owner : string) (until : Z) (d : db) : Prop :=
  d.(db_lease) = Some (mk_lease (Some owner) (Some until)).

Lemma acquire_lease_spec env owner s l :
  s.(s_db).(db_lease) = Some l ->
  acquire_lease env owner s =
  if lease_free owner s.(s_now) l
  then (Ok true, s <|s_db := s.(s_db) <|db_lease := Some (mk_lease (Some owner)
          (Some (s.(s_now) + seconds env.(config).(worker_lease_seconds))))|>|>)
  else (Ok false, s).
Proof.
  intros Hl. unfold acquire_lease, bind, utcnow, gets, read, gets. rewrite Hl.
  unfold ret. rewrite Hl. by destruct (lease_free owner (s_now s) l).
Qed.

(** One worker at a time: a worker that acquires the lease holds it for the
    configured time.  Until then, as long as it is not released, every other
    worker's attempt answers [false] and changes nothing, while the holder may
    renew it; from the expiry on, any worker may take it over. *)
Theorem lease_excludes_other_workers env o1 s s1 :
  acquire_lease env o1 s = (Ok true, s1) ->
  let until := s.(s_now) + seconds env.(config).(worker_lease_seconds) in
  lease_held o1 until s1.(s_db) /\
  (forall env' o2 s2, s2.(s_db).(db_lease) = s1.(s_db).(db_lease) ->
     if (until <=? s2.(s_now)) || (o1 == o2)
     then (acquire_lease env' o2 s2).1 = Ok true
     else acquire_lease env' o2 s2 = (Ok false, s2)) /\
  (release_lease o1 s1).2.(s_db).(db_lease) = Some (mk_lease None None) /\
  (forall o2, o2 <> o1 -> (release_lease o2 s1).2.(s_db) = s1.(s_db)).
Proof.
  intros Hrun until.
  assert (lease_held o1 until s1.(s_db)) as Hheld.
  { destruct (db_lease (s_db s)) as [l|] eqn:Hl.
    - rewrite (acquire_lease_spec env o1 s l Hl) in Hrun.
      destruct (lease_free o1 (s_now s) l); [|done]. by injection Hrun as <-.
    - unfold acquire_lease in Hrun. unfold bind at 1, utcnow, gets in Hrun.
      unfold bind at 1, read at 1, gets at 1 in Hrun. rewrite Hl in Hrun.
      unfold bind at 1, try_catch in Hrun.
      destruct (begin_nested _ s) as [[u|e] s2] eqn:Hn.
      + apply begin_nested_ok in Hn. unfold bind, write, modify in Hn.
        apply flush_inv in Hn as ->. cbn in Hrun. by injection Hrun as <-.
      + apply begin_nested_raise in Hn. destruct e; try done.
        unfold ret at 1, bind, read, gets in Hrun. rewrite Hn, Hl in Hrun. done. }
  split; [done|]. split; [|split].
  - intros env' o2 s2 Hs2. unfold lease_held in Hheld. rewrite Hheld in Hs2.
    rewrite (acquire_lease_spec env' o2 s2 _ Hs2). unfold lease_free.
    cbn [ls_owner ls_expires_at]. by destruct (_ || _).
  - unfold release_lease, write, modify. cbn. rewrite Hheld. cbn.
    by rewrite py_eq_refl.
  - intros o2 Hne. unfold release_lease, write, modify. cbn. rewrite Hheld. cbn.
    destruct (py_eq_spec (Some o1) (Some o2)) as [[= ->]|]; [done|by destruct s1 as [[]]].
Qed.

Definition lease_env : billing_env :=
  mk_billing_env default_config (fun _ _ => raise AttributeError)
    (mk_lifecycle_env None (fun _ => Raise AttributeError) (fun k => Some k)
       (fun _ => Raise AttributeError)).
Lemma lease_excludes_other_workers_witness :
  let s := session_of sample_db 0 in
  let s1 := (acquire_lease lease_env "w1" s).2 in
  acquire_lease lease_env "w2" (s1 <|s_now := seconds 299|>)
  = (Ok false, s1 <|s_now := seconds 299|>).
Proof.
  intros s s1. assert (acquire_lease lease_env "w1" s = (Ok true, s1)) as Hrun
    by (vm_compute; reflexivity).
  destruct (lease_excludes_other_workers lease_env "w1" s s1 Hrun) as (_ & H & _).
  match goal with |- acquire_lease _ _ ?s2 = _ =>
    pose proof (H lease_env "w2" s2 eq_refl) as H2 end.
  match type of H2 with (if ?b then _ else _) =>
    assert (b = false) as Hb by (vm_compute; reflexivity); rewrite Hb in H2 end.
  exact H2.
Defined.

(** * The retry schedule *)

Lemma ascending_nth l n :
  ascending l = true -> (S n < length l)%nat -> List.nth n l 0 < List.nth (S n) l 0.
Proof.
  revert n. induction l as [|x [|y l] IH]; intros n Ha Hn; cbn in Hn; [lia|lia|].
  cbn [ascending] in Ha. apply andb_true_iff in Ha as [Hxy Ha].
  destruct n as [|n]; [cbn; lia|]. apply (IH n Ha). cbn. lia.
Qed.

Lemma ascending_le_last l n :
  ascending l = true -> (n < length l)%nat -> List.nth n l 0 <= List.last l 0.
Proof.
  intros Ha. revert n. induction l as [|x [|y l] IH]; intros n Hn; [cbn in Hn; lia| |].
  - destruct n as [|[|n]]; cbn in *; lia.
  - change (List.last (x :: y :: l) 0) with (List.last (y :: l) 0).
    cbn [ascending] in Ha. apply andb_true_iff in Ha as [Hxy Ha].
    destruct n as [|n].
    + specialize (IH Ha 0%nat ltac:(cbn; lia)). cbn [List.nth] in *. lia.
    + apply (IH Ha n). cbn in *. lia.
Qed.

Lemma valid_config_inv cfg :
  valid_config cfg = true ->
  (0 < length cfg.(retry_day_offsets))%nat /\
  (forall n, (n < length cfg.(retry_day_offsets))%nat ->
     0 < List.nth n cfg.(retry_day_offsets) 0 <= cfg.(grace_days)) /\
  ascending cfg.(retry_day_offsets) = true.
Proof.
  unfold valid_config. destruct (retry_day_offsets cfg) as [|x l] eqn:Hl; [done|].
  rewrite <- Hl, !andb_true_iff. intros (((((Hpos & Ha) & Hlast) & _) & _) & _).
  split; [rewrite Hl; cbn; lia|]. split; [|done]. intros n Hn.
  rewrite forallb_forall in Hpos.
  pose proof (Hpos _ (List.nth_In _ 0 Hn)). pose proof (ascending_le_last _ _ Ha Hn). lia.
Qed.

(** With any configuration the settings accept, the retries of a failed cycle
    are strictly ordered instants after the due date and never after the grace
    deadline, and there is none after the last configured one, so that dunning
    always ends. *)
Theorem retries_are_ordered_within_grace cfg due n :
  valid_config cfg = true ->
  let len := Z.of_nat (length cfg.(retry_day_offsets)) in
  if (1 <=? n) && (n <=? len) then
    exists t, retry_at cfg due n = Some t /\ due < t <= grace_at cfg due /\
      match retry_at cfg due (n + 1) with
      | Some t' => n < len /\ t < t'
      | None => n = len
      end
  else retry_at cfg due n = None.
Proof.
  intros Hv len. destruct (valid_config_inv cfg Hv) as (Hne & Hb & Ha).
  unfold retry_at. fold len. destruct (_ && _) eqn:Hn.
  - rewrite andb_true_iff in Hn. assert ((0 <? n) && (n <=? len) = true) as -> by lia.
    eexists. split; [reflexivity|]. unfold grace_at, days.
    assert (Z.to_nat (n - 1) < length (retry_day_offsets cfg))%nat as Hlt by lia.
    pose proof (Hb _ Hlt) as Hbb.
    split; [unfold day_us; nia|].
    destruct ((0 <? n + 1) && (n + 1 <=? len)) eqn:Hn1; [|lia].
    split; [lia|].
    replace (Z.to_nat (n + 1 - 1)) with (S (Z.to_nat (n - 1))) by lia.
    pose proof (ascending_nth _ (Z.to_nat (n - 1)) Ha ltac:(lia)). unfold day_us. nia.
  - assert ((0 <? n) && (n <=? len) = false) as -> by lia. done.
Qed.

Lemma retries_are_ordered_within_grace_witness :
  retry_at default_config 0 3 = Some (days 5) /\ days 5 <= grace_at default_config 0.
Proof.
  assert (valid_config default_config = true) as Hv by (vm_compute; reflexivity).
  pose proof (retries_are_ordered_within_grace default_config 0 3 Hv) as H.
  cbv zeta in H. change (_ && _) with true in H. cbv iota in H.
  destruct H as (t & Ht & [_ Hle] & _). change (retry_at default_config 0 3) with
    (Some (days 5)) in *. injection Ht as <-. split; [reflexivity|exact Hle].
Defined.

(** * What is durable when the gateway is called *)

Definition with_fund (env : billing_env) (f : Z -> Z -> Meth funding_result)
  : billing_env := mk_billing_env env.(config) f env.(lifecycle).

(** Everything written so far is committed, and the committed rows hold the
    invoice being charged and the cycle, claimed by [owner], that it belongs to. *)
Definition durable (owner : string) (k : Z) (s : session) : Prop :=
  s.(s_committed) = s.(s_db) /\
  (exists i, tbl_get k s.(s_committed).(db_invoices) = Some i) /\
  exists cid c, tbl_get cid s.(s_committed).(db_cycles) = Some c /\
    c.(bc_invoice_id) = Some k /\ c.(bc_state) = CS_PROCESSING /\
    c.(bc_claim_token) = Some owner.

Lemma bind_ext {A B} (m : Meth A) (k k' : A -> Meth B) s :
  (forall a s', m s = (Ok a, s') -> k a s' = k' a s') -> bind m k s = bind m k' s.
Proof.
  intros Hk. unfold bind. destruct (m s) as [[a|e] s']; [by apply Hk|done].
Qed.
Lemma bind_ext_l {A B} (m m' : Meth A) (k : A -> Meth B) s :
  m s = m' s -> bind m k s = bind m' k s.
Proof. intros Hm. unfold bind. by rewrite Hm. Qed.
Lemma fold_each_ext {A B} (f f' : B -> A -> Meth B) l acc s :
  (forall acc x s, f acc x s = f' acc x s) -> fold_each l acc f s = fold_each l acc f' s.
Proof.
  intros Hf. revert acc s. induction l as [|x l IH]; intros acc s; [done|].
  cbn. unfold bind. rewrite Hf. destruct (f' acc x s) as [[a|e] s']; [apply IH|done].
Qed.

Lemma commit_inv s u s' :
  commit s = (Ok u, s') -> s' = s <|s_committed := s.(s_db)|>.
Proof.
  unfold commit, bind. destruct (flush s) as [[[]|e] s1] eqn:Hf; [|done].
  apply flush_inv in Hf as ->. unfold modify. by intros [= _ <-].
Qed.

Section Durability.
Variables (cfg : billing_config) (lc : lifecycle_env) (owner : string).
Variables (f f' : Z -> Z -> Meth funding_result).
Hypothesis Hagree : forall r k s, durable owner k s -> f r k s = f' r k s.
#[local] Abbreviation e1 := (mk_billing_env cfg f lc).
#[local] Abbreviation e2 := (mk_billing_env cfg f' lc).

Lemma fund_cycle_ext b c row s :
  s.(s_committed) = s.(s_db) ->
  tbl_get c s.(s_db).(db_cycles) = Some row ->
  row.(bc_state) = CS_PROCESSING -> row.(bc_claim_token) = Some owner ->
  fund_cycle e1 b c s = fund_cycle e2 b c s.
Proof.
  intros Hc Hrow Hst Htok. unfold fund_cycle. apply bind_ext. intros x s1 H1.
  assert (s1 = s) as ->.
  { unfold the_billing, bind, read, gets in H1. by destruct (tbl_get b _); injection H1. }
  apply bind_ext. intros y s1 H2.
  unfold the_cycle, bind, read, gets in H2. rewrite Hrow in H2. injection H2 as <- <-.
  apply bind_ext. intros r s1 H3.
  assert (s1 = s) as -> by (unfold deref in H3; by destruct (sb_reseller_id x); injection H3).
  apply bind_ext. intros i s1 H4.
  unfold cycle_invoice, bind, read, gets, invoice_of in H4.
  destruct (bc_invoice_id row) as [k|] eqn:Hk; [|done].
  destruct (tbl_get k _) as [j|] eqn:Hi; [|done]. injection H4 as <- <-.
  cbn [fund]. apply Hagree.
  assert (in_id j = k) as Hj by (by apply tbl_get_key in Hi).
  split; [done|]. rewrite Hc, Hj. split; [by exists j|]. by exists c, row.
Qed.

Lemma attempt_payment_ext b c now s :
  attempt_payment e1 b c now owner s = attempt_payment e2 b c now owner s.
Proof.
  unfold attempt_payment. apply bind_ext. intros [] s1 H1.
  apply bind_ext. intros [] s2 H2. apply commit_inv in H2 as ->.
  apply bind_ext_l.
  assert (fund_cycle e1 b c (s1 <|s_committed := s1.(s_db)|>)
          = fund_cycle e2 b c (s1 <|s_committed := s1.(s_db)|>)) as Heq;
    [|unfold try_catch, bind; by rewrite Heq].
  destruct (tbl_get c s1.(s_db).(db_cycles)) as [row|] eqn:Hrow.
  - unfold upd_cycle, write, modify in H1. injection H1 as <-.
    cbn [s_db db_cycles update] in Hrow.
    destruct (tbl_get c s.(s_db).(db_cycles)) as [row0|] eqn:Hrow0.
    + assert (tbl_get c (tbl_update c (claim_cycle e1 owner now) s.(s_db).(db_cycles))
              = Some (claim_cycle e1 owner now row0)) as Hrow1
        by (by apply tbl_get_update_eq).
      eapply (fund_cycle_ext b c (claim_cycle e1 owner now row0)); done.
    + exfalso. pose proof (tbl_get_key _ _ _ Hrow) as Hkey.
      apply tbl_get_In in Hrow. apply tbl_update_In in Hrow as (r0 & Hin & Hor).
      apply (find_none _ _ Hrow0) in Hin. destruct Hor as [[Hne ->]|[He ->]]; lia.
  - unfold fund_cycle, bind, the_billing, the_cycle, read, gets.
    change (s_db (s1 <|s_committed := s_db s1|>)) with (s_db s1).
    cbn. destruct (tbl_get b s1.(s_db).(db_billings)); cbn; [|done]. by rewrite Hrow.
Qed.

Lemma process_billing_ext b now s :
  process_billing e1 b now owner s = process_billing e2 b now owner s.
Proof.
  unfold process_billing. do 2 (apply bind_ext; intros ? ? _).
  destruct (match _ with Some _ => _ | None => _ end); [done|].
  do 3 (apply bind_ext; intros ? ? _). case_match; [done|].
  apply bind_ext; intros ? ? _. case_match; [done|].
  apply bind_ext; intros ? ? _. case_match; [done|].
  apply bind_ext; intros ? ? _.
  change (retry_is_not_due e1) with (retry_is_not_due e2).
  destruct (retry_is_not_due _ _ _); [done|]. apply attempt_payment_ext.
Qed.

Lemma process_batch_ext bs s :
  process_batch e1 bs owner s = process_batch e2 bs owner s.
Proof.
  unfold process_batch. do 2 (apply bind_ext; intros ? ? _).
  cbn [config]. destruct (_ =? 0); [done|]. apply bind_ext. intros l s2 _.
  apply fold_each_ext. intros acc x s3. apply bind_ext_l, process_billing_ext.
Qed.
End Durability.

(** C4. Nothing is charged that is not recorded first: a whole batch runs exactly
    the same for two gateways that differ in any other situation than this one -
    everything written so far is committed, and the committed rows hold the
    invoice being charged and its cycle, claimed by this worker.  A crash at the
    gateway call therefore always leaves the invoice and the claim behind. *)
Theorem charges_are_recorded_first env f bs owner s :
  (forall r k s', durable owner k s' -> env.(fund) r k s' = f r k s') ->
  process_batch env bs owner s = process_batch (with_fund env f) bs owner s.
Proof.
  intros Hagree. destruct env as [cfg f0 lc]. apply process_batch_ext. exact Hagree.
Qed.

(** Reseller 1's virtual machine, billed 500 a month, due at instant [due]. *)
Definition sample_service (id : Z) : service :=
  mk_service id ("vm-" +:+ pretty id) None ST_HTTP_PROXY SS_ACTIVE None None None [] [] None None None None None PV_BILLING.
Definition sample_billing (id : Z) (owner : option Z) (due : Z) : service_billing :=
  mk_service_billing id id owner None None 0 500 "USD" (Some due) (Some 31)
    BS_ACTIVE 0 None None None None None.
Definition recurring_session (now : Z) : session :=
  session_of (sample_db <|db_methods := [sample_method]|>
                        <|db_services := [sample_service 1]|>
                        <|db_billings := [sample_billing 1 (Some 1) jan31]|>) now.
Definition idle_lifecycle : lifecycle_env := lease_env.(lifecycle).
Definition sample_env (reg : registry) : billing_env :=
  orchestrated default_config reg idle_lifecycle.

(** A gateway that refuses to charge what is not recorded. *)
Definition cautious (owner : string) (f : Z -> Z -> Meth funding_result) (r k : Z)
  : Meth funding_result := fun s =>
  if existsb (fun c => (c.(bc_invoice_id) == Some k) && (c.(bc_state) == CS_PROCESSING)
                       && (c.(bc_claim_token) == Some owner)) s.(s_committed).(db_cycles)
  then f r k s else (Raise (OtherError "unrecorded"), s).

Lemma charges_are_recorded_first_witness :
  let env := sample_env sample_registry in
  let s := recurring_session jan31 in
  let cautious_env := with_fund env (cautious "w1" env.(fund)) in
  (process_batch cautious_env None "w1" s).1 = Ok (mk_batch_result 1 1 0 0 0 0 0) /\
  process_batch env None "w1" s = process_batch cautious_env None "w1" s.
Proof.
  intros env s cautious_env. split; [vm_compute; reflexivity|].
  apply charges_are_recorded_first. intros r k s' (_ & _ & cid & c & Hc & Hk & Hst & Htok).
  unfold cautious. assert (existsb (fun c => (c.(bc_invoice_id) == Some k)
    && (c.(bc_state) == CS_PROCESSING) && (c.(bc_claim_token) == Some "w1"))
    s'.(s_committed).(db_cycles) = true) as ->; [|reflexivity].
  apply existsb_exists. exists c. split; [exact (tbl_get_In _ _ _ Hc)|].
  rewrite Hk, Hst, Htok, !py_eq_refl. reflexivity.
Defined.

(** * Exhausted cycles *)








(** ** A live service with an unpaid cycle *)




(** ** Suspension *)

Definition dunning_rows (cs : list billing_cycle) (bs : list service_billing) (d : db) : Prop :=
  d.(db_cycles) = cs /\ d.(db_billings) = bs.
Lemma dunning_notify cs bs b c e k : keeps_db (dunning_rows cs bs) (notify_cycle b c e k).
Proof. unfold notify_cycle, notify_quietly, enqueue, scalar_one. keeps_tac. Qed.
Lemma dunning_suspend cs bs lc k : keeps_db (dunning_rows cs bs) (suspend lc k).
Proof.
  unfold suspend, ensure_powered_off, find_plugin, lift_outcome. keeps_tac.
Qed.
#[local] Hint Resolve dunning_notify dunning_suspend : dcim.

Definition marked (x : service_billing) : service_billing :=
  x <|sb_status := BS_SUSPENDED_NONPAYMENT|> <|sb_next_retry_at := None|>.




(** ** The administrator's retry *)




(** * Recording a failure *)

Definition same_cycles (t : list billing_cycle) (d : db) : Prop := d.(db_cycles) = t.
Definition same_rows (cs : list billing_cycle) (bs : list service_billing)
    (ps : list payment) (l : list ledger_entry) (d : db) : Prop :=
  d.(db_cycles) = cs /\ d.(db_billings) = bs /\ d.(db_payments) = ps /\ d.(db_ledger) = l.

Lemma notify_quietly_rows cs bs ps l r e k d :
  keeps_db (same_rows cs bs ps l) (notify_quietly r e k d).
Proof. unfold notify_quietly, enqueue, scalar_one. keeps_tac. Qed.
#[export] Hint Resolve notify_quietly_rows : dcim.
Lemma notify_cycle_rows cs bs ps l b c e k :
  keeps_db (same_rows cs bs ps l) (notify_cycle b c e k).
Proof. unfold notify_cycle. keeps_tac. Qed.
Lemma apply_hold_rows cs bs ps l b now : keeps_db (same_rows cs bs ps l) (apply_hold b now).
Proof. unfold apply_hold, billing_reseller. keeps_tac. Qed.
#[export] Hint Resolve notify_cycle_rows apply_hold_rows : dcim.

(** The cycle and billing after a failed attempt, and nothing else of money. *)
Definition failure_recorded (cfg : billing_config) (b c : Z) (row : billing_cycle)
    (bl : service_billing) (s s' : session) : Prop :=
  exists code msg,
    let row' := failed_cycle cfg code msg row in
    tbl_get c s'.(s_db).(db_cycles) = Some row' /\
    tbl_get b s'.(s_db).(db_billings) = Some (failed_billing row' code msg bl) /\
    s'.(s_db).(db_payments) = s.(s_db).(db_payments) /\
    s'.(s_db).(db_ledger) = s.(s_db).(db_ledger).

Lemma record_failure_spec env b c now code msg increment row bl s :
  tbl_get c s.(s_db).(db_cycles) = Some row ->
  tbl_get b s.(s_db).(db_billings) = Some bl ->
  wp (record_failure env b c now code msg increment)
    (fun _ s' => failure_recorded env.(config) b c
       (if increment : bool then counted now row else row) bl s s')
    (fun _ _ => True) s.
Proof.
  intros Hrow Hbl. unfold record_failure.
  set (row1 := if increment then counted now row else row). wp_step.
  assert (exists s1, (if increment then upd_cycle c (counted now) else ret tt) s = (Ok tt, s1)
    /\ tbl_get c s1.(s_db).(db_cycles) = Some row1
    /\ s1.(s_db).(db_billings) = s.(s_db).(db_billings)
    /\ s1.(s_db).(db_payments) = s.(s_db).(db_payments)
    /\ s1.(s_db).(db_ledger) = s.(s_db).(db_ledger)) as (s1 & H1 & Hrow1 & Hb1 & Hp1 & Hl1).
  { destruct increment; eexists; (split; [reflexivity|]); (split; [|done]); [|done].
    by apply tbl_get_update_eq. }
  unfold wp at 1. rewrite H1. wp_step. apply wp_the; [done|]. rewrite Hrow1.
  intros r1 [= <-]. wp_step. apply wp_read. wp_step. apply wp_write. wp_step.
  set (safe := last_safe_failure _ _ _ _). set (row2 := failed_cycle env.(config) safe.1 safe.2 row1).
  assert (tbl_get c (tbl_update c (failed_cycle env.(config) safe.1 safe.2) s1.(s_db).(db_cycles))
    = Some row2) as Hrow2 by (by apply tbl_get_update_eq).
  apply wp_the; [done|]. cbn [s_db db_cycles update]. rewrite Hrow2. intros r2 [= <-].
  wp_step. unfold cycle_invoice. apply wp_the; [done|]. intros i _.
  name_state s2. wp_step.
  eapply (wp_keeps (fun s' => same_rows s2.(s_db).(db_cycles) s2.(s_db).(db_billings)
    s2.(s_db).(db_payments) s2.(s_db).(db_ledger) s'.(s_db))); [keeps_tac|done| |done].
  intros _ s3 (Hc3 & Hb3 & Hp3 & Hl3). wp_step. apply wp_write.
  set (s4 := s3 <|s_db := s3.(s_db) <|db_billings :=
    tbl_update b (failed_billing row2 safe.1 safe.2) s3.(s_db).(db_billings)|>|>).
  assert (failure_recorded env.(config) b c row1 bl s s4) as Hrec.
  { exists safe.1, safe.2. cbv zeta. fold row2. subst s4. cbn [s_db db_cycles db_billings
      db_payments db_ledger update]. rewrite Hc3, Hb3, Hp3, Hl3. subst s2.
    cbn [s_db db_cycles db_billings db_payments db_ledger update]. rewrite Hb1, Hp1, Hl1.
    split; [done|]. split; [by apply tbl_get_update_eq|done]. }
  eapply (wp_keeps (fun s' => same_rows s4.(s_db).(db_cycles) s4.(s_db).(db_billings)
    s4.(s_db).(db_payments) s4.(s_db).(db_ledger) s'.(s_db))); [keeps_tac|done| |done].
  intros _ s5 (Hc5 & Hb5 & Hp5 & Hl5). destruct Hrec as (cd & m & H2 & H3 & H4 & H5).
  exists cd, m. cbv zeta. by rewrite Hc5, Hb5, Hp5, Hl5.
Qed.

(** * The contract of the payment gateway *)

Definition same_billing (cs : list billing_cycle) (bs : list service_billing)
    (sv : list service) (d : db) : Prop :=
  d.(db_cycles) = cs /\ d.(db_billings) = bs /\ d.(db_services) = sv.

(** What recurring billing relies on in whatever funds its invoices. *)
Class FundingGateway (f : Z -> Z -> Meth funding_result) : Prop := {
  funding_never_commits d r k : keeps (committed_is d) (f r k);
  funding_keeps_billing cs bs sv r k : keeps_db (same_billing cs bs sv) (f r k)
}.

Lemma keeps_committed_append d r et n a neg :
  keeps (committed_is d) (append_locked r et n a neg).
Proof. unfold append_locked. keeps_tac. Qed.
Lemma same_billing_append cs bs sv r et n a neg :
  keeps_db (same_billing cs bs sv) (append_locked r et n a neg).
Proof. unfold append_locked. keeps_tac. Qed.
#[local] Hint Resolve keeps_committed_append same_billing_append : dcim.

(** The orchestrator honours it. *)
#[export] Instance orchestrator_gateway reg :
  FundingGateway (fun r k => fund_invoice reg r k None).
Proof.
  split; intros; apply frame_fund_invoice; split; try done; intros;
    unfold credit, debit, require_integer_cents, lock_reseller; keeps_tac.
Qed.
