(* ===== verification/Attempts.v ===== *)
(** One payment attempt of recurring billing and its two endings: a recorded
    failure, or a completed cycle (Recurring.v).  The gateway is any that honours
    the contract [FundingGateway] of Dunning.v. *)
From Stdlib Require Import ZArith Lia.
From stdpp Require Import base numbers list strings pretty.
From S2P Require Import Prelude Calendar Models Session Ledger Invoices.
From S2P Require Import Lifecycle Outbox Orchestrator Funding Recurring.
From S2P Require Import Dunning.
#[local] Open Scope Z_scope.
#[local] Open Scope py_scope.

(** * Unsuccessful attempts *)

(** The session the gateway is called in. *)
Definition claimed (env : billing_env) (c now : Z) (owner : string) (s : session)
  : session :=
  let d := s.(s_db) <|db_cycles := tbl_update c (claim_cycle env owner now)
                                     s.(s_db).(db_cycles)|> in
  s <|s_db := d|> <|s_committed := d|>.

(** The rest of an attempt, once the gateway answered. *)
Definition after_funding (env : billing_env) (b c now : Z)
    (answer : outcome exn funding_result) : Meth billing_outcome :=
  match answer with
  | Raise e =>
      rollback ;;;
      record_failure env b c now (Some (exn_name e))
        (Some "Payment processing failed") true ;;;
      commit ;;; ret BO_FAILED
  | Ok f => settle_attempt env b c now f
  end.

Lemma attempt_payment_eq env b c now owner s :
  attempt_payment env b c now owner s =
  match flush (s <|s_db := s_db (claimed env c now owner s)|>) with
  | (Ok _, _) =>
      let (answer, sf) := fund_cycle env b c (claimed env c now owner s) in
      after_funding env b c now answer sf
  | (Raise e, _) => (Raise e, s <|s_db := s_db (claimed env c now owner s)|>)
  end.
Proof.
  unfold attempt_payment. unfold bind at 1, upd_cycle, write, modify.
  unfold bind at 1, commit at 1, bind at 1.
  set (s1 := s <|s_db := _|>).
  change (s <|s_db := s_db (claimed env c now owner s)|>) with s1.
  destruct (flush s1) as [[[]|e] s2] eqn:Hf; apply flush_inv in Hf as ->; [|done].
  unfold modify at 1. change (s1 <|s_committed := s1.(s_db)|>) with (claimed env c now owner s).
  unfold bind at 1, try_catch, bind at 1.
  destruct (fund_cycle env b c (claimed env c now owner s)) as [[f|e] sf]; done.
Qed.

Lemma fund_cycle_keeps env b c I :
  (forall r k, keeps I (env.(fund) r k)) -> keeps I (fund_cycle env b c).
Proof. intros Hf. unfold fund_cycle, cycle_invoice. keeps_tac. Qed.

(** What an attempt that collected nothing leaves behind. *)
Definition attempt_failed (cfg : billing_config) (b c now : Z) (row : billing_cycle)
    (bl : service_billing) (before s' : session) : Prop :=
  exists row1, row1.(bc_due_at) = row.(bc_due_at) /\
    row1.(bc_attempts) = row.(bc_attempts) + 1 /\
    failure_recorded cfg b c row1 bl before s' /\
    s'.(s_committed) = s'.(s_db).

Lemma commit_recorded cfg b c row bl s0 s (o : billing_outcome) :
  failure_recorded cfg b c row bl s0 s ->
  wp (commit ;;; ret o)
    (fun o' s' => o' = o /\ failure_recorded cfg b c row bl s0 s' /\
       s'.(s_committed) = s'.(s_db)) (fun _ _ => True) s.
Proof.
  intros H. wp_step. unfold wp at 1. destruct (commit s) as [[u|e] s'] eqn:Hc; [|done].
  apply commit_inv in Hc as ->. by apply wp_ret.
Qed.

(** An attempt that collects nothing always ends in a recorded failure.  When
    the gateway raises, everything it wrote is rolled back - payments and ledger
    are those of before the attempt - and when it merely declines, they are those
    it left.  In both cases the attempt is counted once, the failure, the grace
    deadline and the next retry of the schedule are on the cycle and mirrored on
    the billing, and all of it is committed. *)
Theorem unsuccessful_attempt_is_recorded env b c now owner s row bl answer sf out s' :
  FundingGateway env.(fund) ->
  tbl_get c s.(s_db).(db_cycles) = Some row ->
  tbl_get b s.(s_db).(db_billings) = Some bl ->
  fund_cycle env b c (claimed env c now owner s) = (answer, sf) ->
  match answer with
  | Ok f => f.(fr_funded) = false /\ f.(fr_pending_action) = false
  | Raise _ => True
  end ->
  attempt_payment env b c now owner s = (Ok out, s') ->
  out = BO_FAILED /\
  attempt_failed env.(config) b c now row bl
    (match answer with Ok _ => sf | Raise _ => s end) s'.
Proof.
  intros Hgw Hrow Hbl Hfund Hans Hrun. rewrite attempt_payment_eq in Hrun.
  destruct (flush _) as [[[]|e] s2]; [|done]. rewrite Hfund in Hrun.
  set (s1 := claimed env c now owner s) in *.
  assert (tbl_get c s1.(s_db).(db_cycles) = Some (claim_cycle env owner now row)) as Hrow1
    by (by apply tbl_get_update_eq).
  assert (committed_is s1.(s_db) sf) as Hcom.
  { refine (keeps_run _ _ _ _ _ _ Hfund _); [|done].
    apply fund_cycle_keeps. intros. apply funding_never_commits. }
  assert (same_billing s1.(s_db).(db_cycles) s1.(s_db).(db_billings)
            s1.(s_db).(db_services) sf.(s_db)) as (Hcy & Hbi & _).
  { refine (keeps_run (fun s' => same_billing s1.(s_db).(db_cycles)
      s1.(s_db).(db_billings) s1.(s_db).(db_services) s'.(s_db)) _ _ _ _ _ Hfund _); [|done].
    apply fund_cycle_keeps. intros. apply funding_keeps_billing. }
  destruct answer as [f|e]; cbn [after_funding] in Hrun.
  - destruct Hans as [Hfd Hpa]. unfold settle_attempt in Hrun. rewrite Hfd, Hpa in Hrun.
    set (g := fun c0 : billing_cycle => counted now c0 <|bc_claim_token := None|>
                <|bc_claim_expires_at := None|>) in *.
    set (s3 := sf <|s_db := sf.(s_db) <|db_cycles := tbl_update c g sf.(s_db).(db_cycles)|>|>).
    assert (wp (record_failure env b c now None None false ;;; commit ;;; ret BO_FAILED)
      (fun o s' => o = BO_FAILED /\
         failure_recorded env.(config) b c (g (claim_cycle env owner now row)) bl s3 s' /\
         s'.(s_committed) = s'.(s_db)) (fun _ _ => True) s3) as H.
    { wp_step. eapply wp_conseq; [apply (record_failure_spec env b c now None None false
        (g (claim_cycle env owner now row)) bl)| |done].
      - cbn. rewrite Hcy. by apply tbl_get_update_eq.
      - cbn. by rewrite Hbi.
      - intros u s4 H4. by apply commit_recorded. }
    unfold bind at 1, upd_cycle, write, modify in Hrun. fold s3 in Hrun.
    unfold wp in H. rewrite Hrun in H. destruct H as (-> & Hrec & Hc). split; [done|].
    exists (g (claim_cycle env owner now row)). done.
  - set (s3 := sf <|s_db := s1.(s_db)|>).
    assert (wp (record_failure env b c now (Some (exn_name e))
        (Some "Payment processing failed") true ;;; commit ;;; ret BO_FAILED)
      (fun o s' => o = BO_FAILED /\
         failure_recorded env.(config) b c (counted now (claim_cycle env owner now row)) bl s3 s' /\
         s'.(s_committed) = s'.(s_db)) (fun _ _ => True) s3) as H.
    { wp_step. eapply wp_conseq; [apply (record_failure_spec env b c now (Some (exn_name e))
        (Some "Payment processing failed") true (claim_cycle env owner now row) bl)| |done].
      - exact Hrow1.
      - exact Hbl.
      - intros u s4 H4. by apply commit_recorded. }
    unfold bind at 1, rollback, modify in Hrun. unfold committed_is in Hcom.
    rewrite Hcom in Hrun. fold s3 in Hrun.
    unfold wp in H. rewrite Hrun in H. destruct H as (-> & Hrec & Hc). split; [done|].
    exists (counted now (claim_cycle env owner now row)). done.
Qed.

(** A gateway that declines. *)
Definition declining_gateway : gateway :=
  mk_gateway (fun log _ => Ok (mk_charge_result GR_DECLINED
                (Some ("pi_" +:+ pretty (Z.of_nat (length log)))) None
                (Some "card_declined") (Some "declined")))
    (fun _ => Raise AttributeError) (fun _ _ => Raise AttributeError)
    (fun _ => Raise AttributeError) (fun _ => Raise AttributeError)
    (fun _ => Raise AttributeError) None None.

(** The cycle of [recurring_session] as its first attempt finds it. *)
Definition due_session : session :=
  let s := recurring_session jan31 in
  match (ensure_cycle 1 jan31 ;;; commit) s with (_, s') => s' end.

Lemma unsuccessful_attempt_is_recorded_witness :
  let env := sample_env [("stripe", declining_gateway)] in
  let s' := (attempt_payment env 1 1 jan31 "w" due_session).2 in
  map bc_next_retry_at s'.(s_db).(db_cycles) = [Some (jan31 + days 1)] /\
  map pm_status s'.(s_db).(db_payments) = [PS_FAILED] /\
  s'.(s_committed) = s'.(s_db).
Proof.
  intros env s'. split; [vm_compute; reflexivity|]. split; [vm_compute; reflexivity|].
  destruct (tbl_get 1 due_session.(s_db).(db_cycles)) as [row|] eqn:Hrow;
    [|exfalso; vm_compute in Hrow; discriminate].
  destruct (tbl_get 1 due_session.(s_db).(db_billings)) as [bl|] eqn:Hbl;
    [|exfalso; vm_compute in Hbl; discriminate].
  destruct (fund_cycle env 1 1 (claimed env 1 jan31 "w" due_session)) as [answer sf] eqn:Hf.
  assert (attempt_payment env 1 1 jan31 "w" due_session = (Ok BO_FAILED, s')) as Hrun.
  { assert (fst (attempt_payment env 1 1 jan31 "w" due_session) = Ok BO_FAILED) as <-
      by (vm_compute; reflexivity).
    subst s'. by destruct (attempt_payment _ _ _ _ _ _). }
  assert (match answer with
          | Ok f => f.(fr_funded) = false /\ f.(fr_pending_action) = false
          | Raise _ => True end) as Hans.
  { assert (answer = fst (fund_cycle env 1 1 (claimed env 1 jan31 "w" due_session))) as ->
      by (by rewrite Hf). vm_compute. split; reflexivity. }
  destruct (unsuccessful_attempt_is_recorded env 1 1 jan31 "w" due_session row bl answer sf
    BO_FAILED s' (orchestrator_gateway _) Hrow Hbl Hf Hans Hrun)
    as (_ & row1 & _ & _ & _ & Hc). exact Hc.
Defined.

(** * Completed cycles *)

(** Cycle [c] is row [x]; billing [b] is active with these due and anchor days. *)
Definition completed (c b : Z) (x : billing_cycle) (anchor next : Z) (d : db) : Prop :=
  tbl_get c d.(db_cycles) = Some x /\
  exists bl, tbl_get b d.(db_billings) = Some bl /\ bl.(sb_status) = BS_ACTIVE /\
    bl.(sb_failed_attempts) = 0 /\ bl.(sb_grace_until) = None /\
    bl.(sb_next_retry_at) = None /\ bl.(sb_billing_anchor_day) = Some anchor /\
    bl.(sb_next_charge_at) = Some next.

Lemma completed_activate c b x anchor next k d :
  completed c b x anchor next d ->
  completed c b x anchor next (d <|db_billings :=
    tbl_update k (fun b => b <|sb_status := BS_ACTIVE|>) d.(db_billings)|>).
Proof.
  intros (Hc & bl & Hb & H). split; [done|]. cbn [db_billings update].
  destruct (Z.eq_dec k b) as [->|Hne].
  - eexists. split; [by apply tbl_get_update_eq|]. destruct H as (_ & H). by split.
  - exists bl. by rewrite tbl_get_update_ne.
Qed.

Lemma unsuspend_completed c b x anchor next k :
  keeps_db (completed c b x anchor next) (unsuspend k).
Proof. unfold unsuspend. keeps_tac. Qed.
Lemma restore_completed c b x anchor next k :
  keeps_db (completed c b x anchor next) (restore_cascade k).
Proof.
  unfold restore_cascade. keeps_tac; try apply unsuspend_completed.
  apply keeps_db_write. intros d. apply completed_activate.
Qed.
Lemma notify_completed c b x anchor next r e k :
  keeps_db (completed c b x anchor next) (notify_cycle r c e k).
Proof. unfold notify_cycle, notify_quietly, enqueue, scalar_one. keeps_tac. Qed.
#[local] Hint Resolve unsuspend_completed restore_completed notify_completed : dcim.

(** Completing a paid cycle closes it, whatever state dunning had reached: the
    cycle is paid with no claim, retry or failure left, the billing is active
    again with its counters reset, and the next charge falls exactly one calendar
    month after this due date (on the anchor day, or the last day of a shorter
    month) and strictly later, so a period is never billed twice. *)
Theorem paid_cycle_advances_one_month c now s s' row bl y m d :
  tbl_get c s.(s_db).(db_cycles) = Some row ->
  tbl_get row.(bc_service_billing_id) s.(s_db).(db_billings) = Some bl ->
  1 <= or_day bl.(sb_billing_anchor_day) (day_of row.(bc_due_at)) ->
  date_of row.(bc_due_at) = (y, m, d) ->
  complete_paid_cycle c now s = (Ok tt, s') ->
  exists row' bl' next,
    tbl_get c s'.(s_db).(db_cycles) = Some row' /\
    row'.(bc_state) = CS_PAID /\ row'.(bc_completed_at) = Some now /\
    row'.(bc_claim_token) = None /\ row'.(bc_next_retry_at) = None /\
    row'.(bc_failure_code) = None /\
    tbl_get row.(bc_service_billing_id) s'.(s_db).(db_billings) = Some bl' /\
    bl'.(sb_status) = BS_ACTIVE /\ bl'.(sb_failed_attempts) = 0 /\
    bl'.(sb_next_charge_at) = Some next /\ row.(bc_due_at) < next /\
    (let y' := y + (if m =? 12 then 1 else 0) in
     let m' := if m =? 12 then 1 else m + 1 in
     date_of next = (y', m', Z.min (or_day bl.(sb_billing_anchor_day) d)
                               (days_in_month y' m'))).
Proof.
  intros Hrow Hbl Hanchor Hd Hrun.
  set (b := row.(bc_service_billing_id)) in *.
  set (anchor := or_day bl.(sb_billing_anchor_day) (day_of row.(bc_due_at))) in *.
  assert (wp (complete_paid_cycle c now) (fun _ s' => exists paid_at next,
    next_calendar_month row.(bc_due_at) (Some anchor) = Some next /\
    completed c b (paid_cycle paid_at now row) anchor next s'.(s_db)) (fun _ _ => True) s) as H.
  { unfold complete_paid_cycle. wp_step. apply wp_the; [done|]. rewrite Hrow.
    intros r0 [= <-]. wp_step. apply wp_the; [done|]. fold b. rewrite Hbl.
    intros b0 [= <-]. wp_step. unfold cycle_invoice. apply wp_the; [done|]. intros i _.
    set (paid_at := match in_paid_at i with Some t => t | None => now end).
    wp_step. apply wp_write. wp_step. apply wp_unwrap; [done|]. fold anchor.
    intros next Hnext. wp_step. apply wp_write. name_state s2.
    assert (sb_id bl = b) as Hid by (by apply tbl_get_key in Hbl).
    assert (completed c b (paid_cycle paid_at now row) anchor next s2.(s_db)) as H2.
    { subst s2. split; cbn [s_db db_cycles db_billings update].
      - by apply tbl_get_update_eq.
      - rewrite Hid. eexists. split; [by apply tbl_get_update_eq|done]. }
    eapply (wp_keeps (fun s' => completed c b (paid_cycle paid_at now row) anchor next s'.(s_db)));
      [unfold billing_reseller; keeps_tac|exact H2| |done].
    intros _ s3 H3. by exists paid_at, next. }
  unfold wp in H. rewrite Hrun in H.
  destruct H as (paid_at & next & Hnext & Hc & bl' & Hb' & H1 & H2 & H3 & H4 & H5 & H6).
  pose proof (next_month_spec row.(bc_due_at) (Some anchor) y m d next Hd) as Hn.
  assert (or_day (Some anchor) d = anchor) as Hor.
  { unfold or_day at 1. by assert ((anchor =? 0) = false) as -> by lia. }
  rewrite Hor in Hn. specialize (Hn Hanchor Hnext). cbv zeta in Hn.
  destruct Hn as (Hdate & _ & Hlt).
  exists (paid_cycle paid_at now row), bl', next. repeat (split; [done|]).
  rewrite Hdate. subst anchor. unfold day_of. by rewrite Hd.
Qed.

Lemma paid_cycle_advances_one_month_witness :
  let env := sample_env sample_registry in
  let s := (fund_invoice sample_registry 1 1 None due_session).2 in
  exists next, map sb_next_charge_at (complete_paid_cycle 1 jan31 s).2.(s_db).(db_billings)
               = [Some next] /\ date_of next = (2025, 2, 28).
Proof.
  intros env s.
  destruct (tbl_get 1 s.(s_db).(db_cycles)) as [row|] eqn:Hrow;
    [|exfalso; vm_compute in Hrow; discriminate].
  pose proof Hrow as Hrow0. vm_compute in Hrow0. injection Hrow0 as <-.
  destruct (tbl_get 1 s.(s_db).(db_billings)) as [bl|] eqn:Hbl;
    [|exfalso; vm_compute in Hbl; discriminate].
  pose proof Hbl as Hbl0. vm_compute in Hbl0. injection Hbl0 as <-.
  set (s' := (complete_paid_cycle 1 jan31 s).2).
  assert (complete_paid_cycle 1 jan31 s = (Ok tt, s')) as Hrun.
  { assert (fst (complete_paid_cycle 1 jan31 s) = Ok tt) as <- by (vm_compute; reflexivity).
    subst s'. by destruct (complete_paid_cycle _ _ _). }
  destruct (paid_cycle_advances_one_month 1 jan31 s s' _ _ 2025 1 31 Hrow Hbl
    ltac:(vm_compute; discriminate) ltac:(vm_compute; reflexivity) Hrun)
    as (row' & bl' & next & _ & _ & _ & _ & _ & _ & Hb & _ & _ & Hn & _ & Hdate).
  exists next. split.
  - assert (map sb_next_charge_at (db_billings (s_db s')) = [bl'.(sb_next_charge_at)]) as ->.
    { destruct (db_billings (s_db s')) as [|x [|]] eqn:E;
        [exfalso; vm_compute in E; discriminate| |exfalso; vm_compute in E; discriminate].
      unfold tbl_get in Hb. cbn in Hb. destruct (_ =? _) in Hb; [|discriminate].
      injection Hb as ->. reflexivity. }
    by rewrite Hn.
  - rewrite Hdate. vm_compute. reflexivity.
Defined.

(** * One cycle per due date *)

(** [ensure_cycle] answers with a cycle of this billing and due date. *)
Lemma ensure_cycle_finds b now s id s' bl :
  tbl_get b s.(s_db).(db_billings) = Some bl ->
  ensure_cycle b now s = (Ok id, s') ->
  let due := match bl.(sb_next_charge_at) with Some t => t | None => now end in
  exists c, In c (cycles_due_at b due s'.(s_db)) /\ c.(bc_id) = id.
Proof.
  intros Hbl. unfold ensure_cycle, the_billing, bind at 1, bind at 1, read at 1, gets at 1.
  rewrite Hbl. unfold unwrap at 1, ret at 1. cbv zeta.
  set (due := match sb_next_charge_at bl with Some t => t | None => now end).
  unfold bind at 1, read at 1, gets at 1. unfold bind at 1.
  destruct (cycles_due_at b due (s_db s)) as [|c [|c2 l]] eqn:Hrows;
    cbn [scalar_one_or_none]; [| |done].
  - unfold ret at 1. unfold bind at 1, read at 1, gets at 1. unfold try_catch, bind at 1.
    destruct (begin_nested _ s) as [[u|e] s1] eqn:Hn.
    + intros [= <- <-]. apply begin_nested_ok in Hn.
      assert (sb_id bl = b) as Hid by (by apply tbl_get_key in Hbl).
      unfold create_cycle_rows in Hn. unfold bind at 1, write, modify in Hn.
      unfold bind at 1 in Hn. destruct (flush _) as [[[]|e] s2] eqn:Hf; [|done].
      apply flush_inv in Hf as ->.
      set (id := tbl_fresh (db_cycles (s_db s))) in *.
      set (I := fun d : db => exists c, In c (cycles_due_at b due d) /\ c.(bc_id) = id).
      assert (forall k f d, (forall c, (f c).(bc_id) = c.(bc_id) /\
          (f c).(bc_service_billing_id) = c.(bc_service_billing_id) /\
          (f c).(bc_due_at) = c.(bc_due_at)) -> I d ->
        I (d <|db_cycles := tbl_update k f d.(db_cycles)|>)) as Hupd.
      { intros k f d Hf (c & Hc & Hcid). unfold cycles_due_at in Hc.
        apply filter_In in Hc as [Hin Hp].
        exists (if row_key c =? k then f c else c). destruct (Hf c) as (F1 & F2 & F3).
        split; [|destruct (row_key c =? k); [by rewrite F1|done]].
        apply filter_In. cbn [db_cycles update]. split.
        - unfold tbl_update. by apply (in_map (fun r => if row_key r =? k then f r else r)).
        - destruct (row_key c =? k); [|done]. by rewrite F2, F3. }
      refine (keeps_run (fun s => I s.(s_db)) _ _ _ _ _ Hn _).
      * unfold create_cycle, create, require_positive_cents, allocate_number,
          initial_next_value, set_sequence.
        keeps_tac; try (apply keeps_db_write; intros d; by apply Hupd).
      * eexists. split.
        { apply filter_In. cbn [s_db db_cycles update].
          split; [apply in_or_app; right; left; reflexivity|].
          cbn. by rewrite Hid, !Z.eqb_refl. }
        reflexivity.
    + apply begin_nested_raise in Hn. destruct e; try done.
      unfold bind at 1, read, gets. rewrite Hn, Hrows. done.
  - unfold ret at 1. intros [= <- <-]. exists c. rewrite Hrows. split; [by left|done].
Qed.

(** A billing has one cycle, hence one invoice, per due date: asking for the
    cycle again, as after a crash, finds the same one and writes nothing. *)
Theorem one_cycle_per_due_date b now s id s' bl now' s2 bl2 :
  tbl_get b s.(s_db).(db_billings) = Some bl ->
  ensure_cycle b now s = (Ok id, s') ->
  let due := match bl.(sb_next_charge_at) with Some t => t | None => now end in
  incl s'.(s_db).(db_cycles) s2.(s_db).(db_cycles) ->
  constraints s2.(s_db) = true ->
  tbl_get b s2.(s_db).(db_billings) = Some bl2 ->
  bl2.(sb_next_charge_at) = Some due ->
  ensure_cycle b now' s2 = (Ok id, s2).
Proof.
  intros Hbl Hrun due Hincl Hc Hbl2 Hdue.
  destruct (ensure_cycle_finds _ _ _ _ _ _ Hbl Hrun) as (c & Hin & Hcid). fold due in Hin.
  assert (cycles_due_at b due s2.(s_db) = [c]) as Hrows.
  { unfold cycles_due_at in *. apply filter_In in Hin as [Hin Hp].
    apply (unique_by_filter (fun c => Some (c.(bc_service_billing_id), c.(bc_due_at))) _ (b, due)).
    - unfold constraints, cycle_constraints in Hc. rewrite !andb_true_iff in Hc. tauto.
    - intros y. rewrite andb_true_iff, !Z.eqb_eq. by intros [-> ->].
    - by apply Hincl.
    - done. }
  apply wp_exact. unfold ensure_cycle. wp_step. apply wp_the; [by rewrite Hbl2|].
  rewrite Hbl2. intros x [= <-]. rewrite Hdue. wp_step. apply wp_read. rewrite Hrows.
  wp_step. apply wp_ret. by apply wp_ret.
Qed.

Lemma one_cycle_per_due_date_witness :
  ensure_cycle 1 (jan31 + days 3) due_session = (Ok 1, due_session).
Proof.
  set (s := recurring_session jan31).
  set (s' := (ensure_cycle 1 jan31 s).2).
  assert (ensure_cycle 1 jan31 s = (Ok 1, s')) as Hrun.
  { assert (fst (ensure_cycle 1 jan31 s) = Ok 1) as <- by (vm_compute; reflexivity).
    subst s'. by destruct (ensure_cycle _ _ _). }
  refine (one_cycle_per_due_date 1 jan31 s 1 s' (sample_billing 1 (Some 1) jan31)
    (jan31 + days 3) due_session (sample_billing 1 (Some 1) jan31) _ Hrun _ _ _ _).
  - vm_compute. reflexivity.
  - assert (db_cycles (s_db due_session) = db_cycles (s_db s')) as -> by (vm_compute; reflexivity).
    apply incl_refl.
  - vm_compute. reflexivity.
  - vm_compute. reflexivity.
  - vm_compute. reflexivity.
Defined.
