(* ===== verification/Retail.v ===== *)
(** Retail subscriptions: the billing row of a fulfilled order item
    (src/app/services/commerce_recurring_service.py), its cancellation
    (src/app/services/commerce_lifecycle_service.py), and what the recurring
    billing worker does with such rows. *)
From Stdlib Require Import ZArith Lia.
From stdpp Require Import base numbers list strings pretty.
From S2P Require Import Prelude Calendar Models Session Ledger Invoices.
From S2P Require Import Lifecycle Outbox Orchestrator Recurring Dunning.
From S2P Require Import Attempts.
#[local] Open Scope Z_scope.
#[local] Open Scope py_scope.

(** * Price plans and order items *)

Inductive pricing_model : Type := PM_RECURRING | PM_ONE_TIME | PM_FREE.
#[export] Instance pricing_model_eq_dec : EqDecision pricing_model.
Proof. solve_decision. Defined.

(** What [ensure_for_fulfilled_item] reads of a [PricePlan]; the storefront
    product it belongs to may name a catalog product. *)
Record price_plan : Type := mk_price_plan {
  pl_pricing_model : pricing_model;
  pl_currency : string;
  pl_frontend_product : option (option Z)
}.

(** What it reads of an [OrderItem]. *)
Record item_terms : Type := mk_item_terms {
  it_setup_cents : Z;
  it_recurring_cents : Z;
  it_currency : string;
  it_cycle_interval : option string
}.

(** * [CommerceRecurringService] *)

Definition interval_months (interval : option string) : Z :=
  let normalized := str_lower (str_strip (str_or interval "monthly")) in
  if normalized == "quarterly" then 3
  else if normalized == "semiannually" then 6
  else if normalized == "annually" then 12
  else 1.

(** [None] is [current.replace] or [monthrange] refusing a year after 9999. *)
Definition next_due_at (now : Z) (interval : option string) : option Z :=
  let '(y, m, d) := date_of now in
  let month_index := m - 1 + interval_months interval in
  let year := y + month_index / 12 in
  let month := month_index mod 12 + 1 in
  let day := Z.min d (days_in_month year month) in
  replace_date now year month day.

Definition billings_of_service (service_id : Z) (d : db) : list service_billing :=
  List.filter (fun b => b.(sb_service_id) =? service_id) d.(db_billings).

Definition retail_billing (id service_id : Z) (item : item_terms)
    (account : billing_account) (plan : price_plan) (product_id : option Z)
    (now next_charge : Z) : service_billing :=
  mk_service_billing id service_id account.(ba_reseller_id) (Some account.(ba_id))
    product_id item.(it_setup_cents) item.(it_recurring_cents)
    (str_upper (str_or (Some item.(it_currency)) (str_or (Some plan.(pl_currency)) "USD")))
    (Some next_charge) (Some (day_of next_charge)) BS_ACTIVE 0 None None None None
    (Some now).

Definition ensure_for_fulfilled_item (service_id : Z) (item : item_terms)
    (account : billing_account) (plan : price_plan) (product_id : option Z)
  : Meth (option Z) :=
  if plan.(pl_pricing_model) != PM_RECURRING then ret None
  else if item.(it_recurring_cents) <=? 0 then ret None
  else
    rows <- read (billings_of_service service_id) ;;
    existing <- scalar_one_or_none MultipleResultsFound rows ;;
    match existing with
    | Some b => ret (Some b.(sb_id))
    | None =>
        now <- utcnow ;;
        next_charge <- unwrap (next_due_at now item.(it_cycle_interval))
                         (ValueError "year is out of range") ;;
        let product_id :=
          match product_id, plan.(pl_frontend_product) with
          | None, Some p => p
          | _, _ => product_id
          end in
        id <- read (fun d => tbl_fresh d.(db_billings)) ;;
        write (fun d => d <|db_billings := d.(db_billings) ++
          [retail_billing id service_id item account plan product_id now next_charge]|>) ;;;
        flush ;;;
        ret (Some id)
    end.

(** * [CommerceLifecycleService.request_cancellation] *)

Inductive cancel_when : Type := END_OF_CYCLE | IMMEDIATE.
#[export] Instance cancel_when_eq_dec : EqDecision cancel_when.
Proof. solve_decision. Defined.

Definition get_owned_service (service_id : Z) (account : billing_account)
  : Meth service :=
  o <- read (fun d => tbl_get service_id d.(db_services)) ;;
  s <- unwrap o (CommerceLifecycleError "Service not found") ;;
  throw_if (s.(sv_owner_user_id) != account.(ba_user_id))
    (CommerceLifecycleError "Service does not belong to this account") ;;;
  ret s.

Definition cancelled_billing (when : cancel_when) (note : string)
    (b : service_billing) : service_billing :=
  match when with
  | END_OF_CYCLE =>
      b <|sb_status := BS_CANCELLED|>
        <|sb_last_failure_code := Some "end_of_cycle_cancel"|>
        <|sb_last_failure_message := Some note|>
  | IMMEDIATE =>
      b <|sb_status := BS_CANCELLED|> <|sb_next_charge_at := None|>
        <|sb_next_retry_at := None|>
        <|sb_last_failure_code := Some "immediate_cancel"|>
        <|sb_last_failure_message := Some note|>
  end.

(** Switching the machine off may fail: the service ends all the same. *)
Definition terminate_service (env : lifecycle_env) (service_id now : Z) : Meth unit :=
  try_catch (suspend env service_id ;;; ret tt)
    (fun e => match e with ServiceLifecycleError _ _ => ret tt | _ => raise e end) ;;;
  upd_service service_id (fun s =>
    s <|sv_status := SS_TERMINATED|> <|sv_terminated_at := Some now|>) ;;;
  flush.

(** Answers the statuses of the billing and of the service. *)
Definition request_cancellation (env : lifecycle_env) (service_id : Z)
    (account : billing_account) (when : cancel_when) (reason : option string)
    (force : bool) : Meth (option billing_status * option service_status) :=
  (if negb force then get_owned_service service_id account ;;; ret tt
   else
     o <- read (fun d => tbl_get service_id d.(db_services)) ;;
     unwrap o (CommerceLifecycleError "Service not found") ;;; ret tt) ;;;
  rows <- read (billings_of_service service_id) ;;
  billing <- scalar_one_or_none MultipleResultsFound rows ;;
  let note := str_take 500 (str_or reason "Client requested cancellation") in
  now <- utcnow ;;
  match billing with
  | Some b => upd_billing b.(sb_id) (cancelled_billing when note)
  | None => ret tt
  end ;;;
  s <- the_service service_id ;;
  (if (when == IMMEDIATE)
      && negb ((s.(sv_status) == SS_TERMINATED) || (s.(sv_status) == SS_SUSPENDED))
   then terminate_service env service_id now else ret tt) ;;;
  service_after <- read (fun d => tbl_get service_id d.(db_services)) ;;
  billing_after <- read (fun d =>
    match billing with Some b => tbl_get b.(sb_id) d.(db_billings) | None => None end) ;;
  ret (option_map sb_status billing_after, option_map sv_status service_after).

(** * The first due date *)

(** The first charge of a subscription falls exactly its interval (one,
    three, six or twelve months) after the purchase: in that month, on the day
    of the purchase or the last day of a shorter month, at the same time of
    day, later than the purchase. *)
Theorem retail_first_due_date now interval y m d t :
  date_of now = (y, m, d) ->
  next_due_at now interval = Some t ->
  let '(y', m') := month_of (month_index y m + interval_months interval) in
  date_of t = (y', m', Z.min d (days_in_month y' m')) /\
  time_of_day t = time_of_day now /\ now < t.
Proof.
  intros Hd Hn. unfold next_due_at in Hn. rewrite Hd in Hn.
  set (k := interval_months interval) in *.
  assert (1 <= k) as Hk by (subst k; unfold interval_months; repeat case_match; lia).
  assert (month_of (month_index y m + k) = (y + (m - 1 + k) / 12, (m - 1 + k) mod 12 + 1))
    as ->.
  { unfold month_of, month_index.
    replace (12 * y + (m - 1) + k) with (m - 1 + k + y * 12) by lia.
    rewrite Z.div_add, Z.mod_add by lia. f_equal. lia. }
  set (y' := y + _) in *. set (m' := _ mod 12 + 1) in *. unfold replace_date in Hn.
  pose proof (time_of_day_bounds now) as Htod.
  destruct (date_of_datetime _ _ _ _ _ Htod Hn) as [Hd' Ht'].
  split; [done|]. split; [done|].
  apply date_of_spec in Hd as (Hm & Hday & Ht). apply date_of_spec in Hd' as (Hm' & Hday' & Ht'').
  rewrite Ht, Ht'', Ht'. apply Z.add_lt_mono_r, Z.mul_lt_mono_pos_r; [reflexivity|].
  apply Z.sub_lt_mono_r. apply ymd2ord_later_month; [done|done|lia|lia|].
  unfold month_index. subst y' m'. Z.div_mod_to_equations. lia.
Qed.

Lemma retail_first_due_date_witness :
  exists t, next_due_at jan31 (Some " Quarterly ") = Some t /\
  date_of t = (2025, 4, 30) /\ jan31 < t.
Proof.
  destruct (next_due_at jan31 (Some " Quarterly ")) as [t|] eqn:E;
    [|exfalso; vm_compute in E; discriminate].
  exists t. split; [reflexivity|].
  assert (date_of jan31 = (2025, 1, 31)) as Hd by (vm_compute; reflexivity).
  pose proof (retail_first_due_date jan31 (Some " Quarterly ") 2025 1 31 t Hd E) as H.
  change (month_of (month_index 2025 1 + interval_months (Some " Quarterly ")))
    with (2025, 4) in H.
  destruct H as (H & _ & Hlt). split; [|exact Hlt]. rewrite H. reflexivity.
Defined.

(** * One billing per service *)

(** Fulfilling an item of a recurring plan gives its service one billing
    row: an active one at the item's price, due when [next_due_at] says, unless
    the service had one already, which is then left alone; doing it again, on
    whatever terms, finds that row and writes nothing.  Items without a
    recurring price get none. *)
Theorem subscription_has_one_billing k item account plan product s r s' :
  ensure_for_fulfilled_item k item account plan product s = (Ok r, s') ->
  match r with
  | None =>
      s' = s /\ (plan.(pl_pricing_model) <> PM_RECURRING \/ item.(it_recurring_cents) <= 0)
  | Some id =>
      exists b, billings_of_service k s'.(s_db) = [b] /\ b.(sb_id) = id /\
      (s' = s \/
       (billings_of_service k s.(s_db) = [] /\
        s'.(s_db).(db_billings) = s.(s_db).(db_billings) ++ [b] /\
        b.(sb_status) = BS_ACTIVE /\
        b.(sb_monthly_price_cents) = item.(it_recurring_cents) /\
        b.(sb_next_charge_at) = next_due_at s.(s_now) item.(it_cycle_interval))) /\
      forall item' account' plan' product',
        plan'.(pl_pricing_model) = PM_RECURRING -> 0 < item'.(it_recurring_cents) ->
        ensure_for_fulfilled_item k item' account' plan' product' s' = (Ok (Some id), s')
  end.
Proof.
  assert (forall b st, billings_of_service k st.(s_db) = [b] ->
    forall item' account' plan' product',
      plan'.(pl_pricing_model) = PM_RECURRING -> 0 < item'.(it_recurring_cents) ->
      ensure_for_fulfilled_item k item' account' plan' product' st
      = (Ok (Some b.(sb_id)), st)) as Hagain.
  { intros b st Hb item' account' plan' product' Hp Hr.
    unfold ensure_for_fulfilled_item. rewrite Hp.
    change (PM_RECURRING != PM_RECURRING) with false. cbv iota.
    destruct (Z.leb_spec (it_recurring_cents item') 0); [lia|].
    unfold bind at 1, read at 1, gets at 1. by rewrite Hb. }
  unfold ensure_for_fulfilled_item.
  destruct (py_eq_spec (pl_pricing_model plan) PM_RECURRING) as [Hp|Hp]; cbn [negb];
    [|by intros [= <- <-]; auto].
  destruct (Z.leb_spec (it_recurring_cents item) 0) as [Hr|Hr]; [by intros [= <- <-]; auto|].
  unfold bind at 1, read at 1, gets at 1.
  destruct (billings_of_service k (s_db s)) as [|b [|b2 l]] eqn:Hrows; [| |done].
  2:{ intros [= <- <-]. exists b. do 2 (split; [done|]). split; [by left|].
      by apply Hagain. }
  unfold scalar_one_or_none, bind at 1, ret at 1. unfold bind at 1, utcnow, gets at 1.
  unfold bind at 1. destruct (next_due_at (s_now s) _) as [next|] eqn:Hnext; [|done].
  unfold unwrap, ret at 1. unfold bind at 1, read, gets. cbv zeta.
  unfold bind at 1, write, modify. unfold bind.
  match goal with |- context [flush ?x] => set (s2 := x) end.
  destruct (flush s2) as [[u|e] s3] eqn:Hf; [|done].
  apply flush_inv in Hf as ->. intros [= <- <-].
  match goal with s2 := context [retail_billing ?a ?b ?c ?d ?e ?f ?g ?h] |- _ =>
    set (nb := retail_billing a b c d e f g h) in * end.
  assert (billings_of_service k (s_db s2) = [nb]) as Hnew.
  { unfold billings_of_service in *. cbn [s2 s_db db_billings update].
    rewrite List.filter_app, Hrows. cbn. by rewrite Z.eqb_refl. }
  exists nb. split; [done|]. split; [done|]. split.
  - right. by repeat split.
  - exact (Hagain nb s2 Hnew).
Qed.

(** A private customer's account, and a yearly plan of 12000. *)
Definition retail_account : billing_account := mk_billing_account 1 (Some 101) None AC_CLIENT "USD" false.
Definition yearly_plan : price_plan := mk_price_plan PM_RECURRING "USD" None.
Definition yearly_item : item_terms := mk_item_terms 0 12000 "usd" (Some "annually").
Definition bought_session : session :=
  session_of (sample_db <|db_services := [sample_service 1; sample_service 2]|>
                        <|db_methods := [sample_method]|>) jan31.

Lemma subscription_has_one_billing_witness :
  let s' := (ensure_for_fulfilled_item 2 yearly_item retail_account yearly_plan None
               bought_session).2 in
  exists b, billings_of_service 2 s'.(s_db) = [b] /\ b.(sb_id) = 1 /\
  ensure_for_fulfilled_item 2 yearly_item retail_account yearly_plan None s'
  = (Ok (Some 1), s').
Proof.
  intros s'.
  assert (ensure_for_fulfilled_item 2 yearly_item retail_account yearly_plan None
            bought_session = (Ok (Some 1), s')) as Hrun.
  { assert (fst (ensure_for_fulfilled_item 2 yearly_item retail_account yearly_plan None
      bought_session) = Ok (Some 1)) as <- by (vm_compute; reflexivity).
    subst s'. by destruct (ensure_for_fulfilled_item _ _ _ _ _ _). }
  destruct (subscription_has_one_billing _ _ _ _ _ _ _ _ Hrun) as (b & Hb & Hid & _ & Hagain).
  exists b. split; [exact Hb|]. split; [exact Hid|].
  apply Hagain; [reflexivity|]. cbn. lia.
Defined.

(** * Cancellation *)

(** Switching services off and ending them concerns the services alone. *)
Definition same_billings (t : list service_billing) (d : db) : Prop := d.(db_billings) = t.

Lemma terminate_billings t env k now : keeps_db (same_billings t) (terminate_service env k now).
Proof.
  unfold terminate_service, suspend, ensure_powered_off, find_plugin, lift_outcome.
  keeps_tac.
Qed.

(** After [terminate_service] the service is ended, whatever its plugin did. *)
Definition has_service (k : Z) (d : db) : Prop :=
  exists sv, tbl_get k d.(db_services) = Some sv.

Lemma has_service_update k j f :
  (forall x, (f x).(sv_id) = x.(sv_id)) -> keeps_db (has_service k) (upd_service j f).
Proof.
  intros Hf. apply keeps_db_write. intros d [sv Hsv]. cbn.
  destruct (Z.eq_dec j k) as [->|Hne].
  - exists (f sv). by apply tbl_get_update_eq.
  - exists sv. cbn [db_services update]. by rewrite tbl_get_update_ne.
Qed.
#[local] Hint Extern 1 (keeps _ (upd_service _ _)) =>
  apply has_service_update; reflexivity : dcim.

Lemma suspend_has_service k env j : keeps_db (has_service k) (suspend env j).
Proof. unfold suspend, ensure_powered_off, find_plugin, lift_outcome. keeps_tac. Qed.

Lemma terminate_ends env k now s :
  has_service k s.(s_db) ->
  wp (terminate_service env k now)
    (fun _ s' => exists sv, tbl_get k s'.(s_db).(db_services) = Some sv /\
                            sv.(sv_status) = SS_TERMINATED)
    (fun _ _ => True) s.
Proof.
  intros Hs. unfold terminate_service. apply wp_bind.
  apply (wp_keeps (fun s => has_service k s.(s_db))); [|done| |done].
  { apply keeps_try.
    - apply keeps_bind; [apply suspend_has_service|intros b; apply keeps_ret].
    - intros e. keeps_tac. }
  intros u s1 [sv Hsv]. cbv beta. unfold upd_service. wp_step. apply wp_write, wp_flush; [|done].
  intros _ _. eexists. split; [by apply tbl_get_update_eq|reflexivity].
Qed.

(** The billings of a service, after its one billing was updated. *)
Lemma billings_after_update k id f d b :
  (forall x, (f x).(sb_service_id) = x.(sb_service_id)) ->
  billings_of_service k d = [b] -> id = b.(sb_id) ->
  let d' := d <|db_billings := tbl_update id f d.(db_billings)|> in
  billings_of_service k d' = [f b] /\
  (tbl_wf d.(db_billings) -> forall j, j <> k ->
     billings_of_service j d' = billings_of_service j d).
Proof.
  intros Hf Hb -> d'. unfold billings_of_service, d' in *. cbn [db_billings update].
  split.
  - rewrite filter_tbl_update, Hb by (intros x; by rewrite Hf).
    unfold tbl_update. cbn. by rewrite Z.eqb_refl.
  - intros Hwf j Hj. rewrite filter_tbl_update by (intros x; by rewrite Hf).
    apply tbl_update_absent. intros x [Hin Hx]%filter_In Hk.
    assert (In b (db_billings d) /\ (sb_service_id b =? k) = true) as [Hbin Hbk].
    { rewrite <- (filter_In (fun b => sb_service_id b =? k)), Hb. by left. }
    pose proof (tbl_get_wf _ _ Hwf Hin) as H1. pose proof (tbl_get_wf _ _ Hwf Hbin) as H2.
    change (row_key x = row_key b) in Hk. rewrite Hk, H2 in H1.
    injection H1 as <-. lia.
Qed.

(** A query whose rows decide the rest of the method. *)
Lemma wp_one_or_none {R} (rows : list R) (Q : option R -> session -> Prop) s :
  (rows = [] -> Q None s) -> (forall r, rows = [r] -> Q (Some r) s) ->
  wp (scalar_one_or_none MultipleResultsFound rows) Q (fun _ _ => True) s.
Proof. intros H0 H1. destruct rows as [|r [|r' l]]; [by apply H0|by apply H1|done]. Qed.

(** The billings after a cancellation, given those before. *)
Definition billings_cancelled (k : Z) (when : cancel_when) (note : string)
    (before after : db) : Prop :=
  billings_of_service k after
    = map (cancelled_billing when note) (billings_of_service k before) /\
  (tbl_wf before.(db_billings) -> forall j, j <> k ->
     billings_of_service j after = billings_of_service j before).

Definition service_ended (when : cancel_when) (sv : service) (k : Z) (before after : db)
  : Prop :=
  match when with
  | END_OF_CYCLE => after.(db_services) = before.(db_services)
  | IMMEDIATE =>
      exists sv', tbl_get k after.(db_services) = Some sv' /\
        (sv'.(sv_status) = SS_TERMINATED \/ (sv.(sv_status) = SS_SUSPENDED /\ sv' = sv))
  end.

Lemma billings_cancelled_frame k when note before d d' :
  same_billings d.(db_billings) d' ->
  billings_cancelled k when note before d -> billings_cancelled k when note before d'.
Proof. unfold same_billings, billings_cancelled, billings_of_service. by intros ->. Qed.

Lemma ending_spec env k when note sv before now s :
  billings_cancelled k when note before s.(s_db) ->
  s.(s_db).(db_services) = before.(db_services) ->
  tbl_get k before.(db_services) = Some sv ->
  wp (if (when == IMMEDIATE)
         && negb ((sv.(sv_status) == SS_TERMINATED) || (sv.(sv_status) == SS_SUSPENDED))
      then terminate_service env k now else ret tt)
    (fun _ s' => billings_cancelled k when note before s'.(s_db) /\
                 service_ended when sv k before s'.(s_db))
    (fun _ _ => True) s.
Proof.
  intros Hb Hsv Hget. unfold service_ended.
  destruct when; cbn [py_eq bool_decide]; [by apply wp_ret|].
  destruct (negb _) eqn:Hst; cbn [andb].
  - eapply wp_conseq; [apply wp_and|..].
    + apply (terminate_billings s.(s_db).(db_billings) env k now s eq_refl).
    + apply (terminate_ends env k now s). exists sv. by rewrite Hsv.
    + intros u s' [H1 (sv' & H2 & H3)]. cbv beta in H1. split; [|by eauto].
      by apply (billings_cancelled_frame _ _ _ _ s.(s_db)).
    + done.
  - apply wp_ret. split; [done|]. exists sv. rewrite Hsv. split; [done|].
    apply negb_false_iff, orb_true_iff in Hst. rewrite !py_eq_true in Hst. tauto.
Qed.

Lemma cancelled_never_due k when note before after b now :
  billings_cancelled k when note before after ->
  In b (billings_of_service k after) -> is_due now b = false.
Proof. intros [-> _] (x & <- & _)%in_map_iff. by destruct when. Qed.

Lemma cancellation_checks k account (force : bool) (Q : unit -> session -> Prop) s :
  (forall sv, tbl_get k s.(s_db).(db_services) = Some sv ->
     (force = true \/ sv.(sv_owner_user_id) = account.(ba_user_id)) -> Q tt s) ->
  wp (if negb force then get_owned_service k account ;;; ret tt
      else o <- read (fun d => tbl_get k d.(db_services)) ;;
           unwrap o (CommerceLifecycleError "Service not found") ;;; ret tt)
    Q (fun _ _ => True) s.
Proof.
  intros HQ. destruct force; cbn [negb]; unfold get_owned_service.
  - wp_step. apply wp_read. repeat wp_step; [done|]. eapply HQ; eauto.
  - wp_step. wp_step. apply wp_read. repeat wp_step; [done|done|]. eapply HQ; eauto. right.
    apply negb_false_iff in Hguard. by rewrite py_eq_true in Hguard.
Qed.

(** A cancellation that succeeds was asked by the service's owner (or
    forced), cancels the service's billing so that no later batch finds it due
    at any time, touches no other service's billing, and, when immediate,
    leaves the service terminated or, if it was suspended, suspended; a
    cancellation at the end of the cycle leaves every service as it was. *)
Theorem cancellation_stops_billing env k account when reason force s r s' :
  request_cancellation env k account when reason force s = (Ok r, s') ->
  exists sv,
    tbl_get k s.(s_db).(db_services) = Some sv /\
    (force = true \/ sv.(sv_owner_user_id) = account.(ba_user_id)) /\
    billings_cancelled k when
      (str_take 500 (str_or reason "Client requested cancellation")) s.(s_db) s'.(s_db) /\
    (forall b now, In b (billings_of_service k s'.(s_db)) -> is_due now b = false) /\
    service_ended when sv k s.(s_db) s'.(s_db).
Proof.
  set (note := str_take 500 _). intros Hrun. pattern s'.
  match goal with |- ?P _ =>
    apply (wp_result _ (fun _ => P) (fun _ _ => True) _ _ _ Hrun) end.
  unfold request_cancellation. fold note. clear Hrun r s'. wp_step.
  apply cancellation_checks. intros sv Hsv Howner.
  (* the billing *)
  wp_step. apply wp_read. wp_step.
  assert (forall s1 (answer : Z -> Meth (option billing_status * option service_status)),
    billings_cancelled k when note s.(s_db) s1.(s_db) ->
    s1.(s_db).(db_services) = s.(s_db).(db_services) ->
    (forall n s2, exists x, answer n s2 = (Ok x, s2)) ->
    forall now, wp (sv <- the_service k ;;
        (if (when == IMMEDIATE)
            && negb ((sv.(sv_status) == SS_TERMINATED) || (sv.(sv_status) == SS_SUSPENDED))
         then terminate_service env k now else ret tt) ;;;
        answer now) (fun _ s' => billings_cancelled k when note s.(s_db) s'.(s_db) /\
                               service_ended when sv k s.(s_db) s'.(s_db))
       (fun _ _ => True) s1) as Hrest.
  { intros s1 answer Hb Hs1 Hanswer now. unfold the_service. wp_step. apply wp_the; [done|].
    rewrite Hs1, Hsv. intros x [= <-]. wp_step.
    eapply wp_conseq; [by apply (ending_spec env k when note sv s.(s_db))| |done].
    intros u s2 H2. cbv beta. unfold wp. by destruct (Hanswer now s2) as [x ->]. }
  assert (forall s', billings_cancelled k when note s.(s_db) s'.(s_db) /\
                     service_ended when sv k s.(s_db) s'.(s_db) ->
    exists sv, tbl_get k s.(s_db).(db_services) = Some sv /\
      (force = true \/ sv.(sv_owner_user_id) = account.(ba_user_id)) /\
      billings_cancelled k when note s.(s_db) s'.(s_db) /\
      (forall b now, In b (billings_of_service k s'.(s_db)) -> is_due now b = false) /\
      service_ended when sv k s.(s_db) s'.(s_db)) as Hpost.
  { intros s' [H1 H2]. exists sv. do 3 (split; [done|]). split; [|done].
    intros b now Hin. by apply (cancelled_never_due k when note s.(s_db) s'.(s_db)). }
  apply wp_one_or_none; [intros Hrows|intros b Hrows];
    (eapply (wp_conseq _ _ _ (fun _ _ => True)); [|intros a s'; apply Hpost|done]).
  - wp_step. apply wp_gets. wp_step. apply wp_ret. apply (Hrest _ (fun _ => service_after <- read (fun d => tbl_get k d.(db_services)) ;;
      billing_after <- read (fun d => None) ;;
      ret (option_map sb_status billing_after, option_map sv_status service_after))); [|done|].
    + split; [by rewrite Hrows|done].
    + intros n s2. eexists. reflexivity.
  - wp_step. apply wp_gets. wp_step. apply wp_write. apply (Hrest _ (fun _ => service_after <- read (fun d => tbl_get k d.(db_services)) ;;
      billing_after <- read (fun d => tbl_get b.(sb_id) d.(db_billings)) ;;
      ret (option_map sb_status billing_after, option_map sv_status service_after))); [|done|].
    + destruct (billings_after_update k b.(sb_id) (cancelled_billing when note) s.(s_db) b)
        as [H1 H2]; [by destruct when|done..|]. split; [|exact H2]. rewrite Hrows. exact H1.
    + intros n s2. eexists. reflexivity.
Qed.

Definition subscribed_session : session :=
  (ensure_for_fulfilled_item 2 yearly_item retail_account yearly_plan None
     bought_session).2.

Lemma cancellation_stops_billing_witness :
  let s' := (request_cancellation witness_env 2 retail_account IMMEDIATE None true
               subscribed_session).2 in
  service_ended IMMEDIATE (sample_service 2) 2 subscribed_session.(s_db) s'.(s_db) /\
  map sb_status (billings_of_service 2 s'.(s_db)) = [BS_CANCELLED].
Proof.
  intros s'.
  assert (request_cancellation witness_env 2 retail_account IMMEDIATE None true
            subscribed_session = (Ok (Some BS_CANCELLED, Some SS_TERMINATED), s')) as Hrun.
  { assert (fst (request_cancellation witness_env 2 retail_account IMMEDIATE None true
      subscribed_session) = Ok (Some BS_CANCELLED, Some SS_TERMINATED)) as <-
      by (vm_compute; reflexivity).
    subst s'. by destruct (request_cancellation _ _ _ _ _ _ _). }
  destruct (cancellation_stops_billing _ _ _ _ _ _ _ _ _ Hrun)
    as (sv & Hsv & _ & [Hb _] & _ & Hend).
  vm_compute in Hsv. injection Hsv as <-. split; [exact Hend|]. rewrite Hb.
  vm_compute. reflexivity.
Defined.

(** * Retail rows in the recurring batch *)

(** What an aborted call leaves: nothing charged, nothing committed. *)
Definition untouched (s0 s : session) : Prop :=
  s.(s_charges) = s0.(s_charges) /\ s.(s_committed) = s0.(s_committed).

(** The invoice of a billing without a reseller is refused, so the savepoint
    that would create its cycle never succeeds. *)
Lemma retail_cycle_refused bl due currency id s :
  bl.(sb_reseller_id) = None ->
  wp (create_cycle_rows bl due currency true true id) (fun _ _ => False)
    (fun _ s' => untouched s s') s.
Proof.
  intros Hr. unfold create_cycle_rows. cbn [andb]. wp_step. apply wp_write. wp_step.
  apply wp_flush; [intros _ _|done]. wp_step. wp_step. unfold the_service.
  apply wp_the; [done|]. intros sv _. wp_step. unfold create_cycle. wp_step.
  apply wp_gets. unfold create, require_positive_cents. rewrite Hr.
  cbn [ia_reseller_id ia_billing_account_id].
  repeat wp_step; try done.
Qed.

Lemma wp_nested_refused {A} (body : Meth A) s :
  wp body (fun _ _ => False) (fun _ s' => untouched s s') s ->
  wp (begin_nested body) (fun _ _ => False)
    (fun _ s' => s'.(s_db) = s.(s_db) /\ untouched s s') s.
Proof.
  intros Hb. unfold begin_nested. apply wp_bind. apply wp_flush; [intros _ _|done].
  unfold wp in *. unfold bind. by destruct (body s) as [[a|e] s'].
Qed.

(** A live service sold to a private customer, not billed before. *)
Definition fresh_retail_billing (b now : Z) (d : db) : Prop :=
  exists bl sv, tbl_get b d.(db_billings) = Some bl /\ bl.(sb_reseller_id) = None /\
    tbl_get bl.(sb_service_id) d.(db_services) = Some sv /\
    sv.(sv_status) <> SS_TERMINATED /\
    current_cycle b d = None /\
    cycles_due_at b (match bl.(sb_next_charge_at) with Some t => t | None => now end) d = [] /\
    0 < bl.(sb_monthly_price_cents) /\
    valid_currency (str_upper (str_strip bl.(sb_currency))) = true.

Lemma retail_billing_refused env b now owner s :
  fresh_retail_billing b now s.(s_db) ->
  wp (process_billing env b now owner) (fun _ _ => False) (fun _ s' => untouched s s') s.
Proof.
  intros (bl & sv & Hbl & Hr & Hsv & Hlive & Hcur & Hdue & Hprice & Hcy).
  unfold process_billing. wp_step. unfold the_billing. apply wp_the; [done|].
  rewrite Hbl. intros x [= <-]. wp_step. apply wp_read. rewrite Hsv.
  destruct (py_eq_spec (sv_status sv) SS_TERMINATED); [done|].
  wp_step. apply wp_read. rewrite Hcur. wp_step. wp_step. unfold ensure_cycle.
  wp_step. unfold the_billing. apply wp_the; [done|]. rewrite Hbl. intros x [= <-].
  cbv zeta. wp_step. apply wp_read. rewrite Hdue. wp_step. apply wp_ret.
  wp_step. apply wp_read. rewrite Hcy. wp_step. wp_step.
  assert ((0 <? sb_monthly_price_cents bl) = true) as -> by lia.
  eapply wp_conseq; [by apply wp_nested_refused, retail_cycle_refused|done|].
  intros e s' [Hdb Hs']. destruct e; try (by apply wp_raise).
  wp_step. apply wp_read. rewrite Hdb, Hdue. done.
Qed.

(** One retail subscription stops the whole recurring batch: its billing
    has no reseller to invoice, the refusal is not an [IntegrityError], and
    nothing in the batch loop catches it.  When such a row comes first, the
    batch raises having charged and committed nothing, so the same row comes
    first again on every later run and no other customer is billed. *)
Theorem retail_billing_blocks_the_batch env bs owner s b rest :
  List.filter (recoverable s.(s_db)) s.(s_db).(db_cycles) = [] ->
  due_billings s.(s_now) (batch_limit bs env.(config).(worker_batch_size)) s.(s_db)
    = b :: rest ->
  fresh_retail_billing b s.(s_now) s.(s_db) ->
  exists e s', process_batch env bs owner s = (Raise e, s') /\
    s'.(s_charges) = s.(s_charges) /\ s'.(s_committed) = s.(s_committed).
Proof.
  intros Hrec Hdue Hretail. set (limit := batch_limit _ _) in *.
  assert (0 < limit) as Hlimit.
  { destruct (Z.ltb_spec 0 limit); [done|]. unfold due_billings in Hdue.
    by rewrite Z2Nat.nonpos, take_0 in Hdue. }
  assert (wp (process_batch env bs owner) (fun _ _ => False) (fun _ s' => untouched s s') s)
    as H.
  { unfold process_batch. wp_step. apply wp_gets. fold limit. wp_step.
    unfold recover_paid_cycles. wp_step. apply wp_read. rewrite Hrec, take_nil. cbn [map].
    wp_step. cbn [fold_each]. apply wp_ret, wp_ret. cbn [length fst snd].
    rewrite Z.sub_0_r, Z.max_r by lia.
    destruct (Z.eqb_spec limit 0); [lia|]. wp_step. apply wp_read. rewrite Hdue.
    cbn [fold_each]. wp_step. wp_step.
    eapply wp_conseq; [by apply retail_billing_refused|done|done]. }
  unfold wp in H. destruct (process_batch env bs owner s) as [[r|e] s']; [done|].
  exists e, s'. by destruct H.
Qed.

(** A year later: the private customer's renewal, then reseller 1's billing. *)
Definition jan31_2026 : Z := days (ymd2ord 2026 1 31 - 1) + seconds 43200.
Definition blocked_session : session :=
  session_of (subscribed_session.(s_db)
    <|db_billings := subscribed_session.(s_db).(db_billings)
        ++ [(sample_billing 1 (Some 1) (jan31_2026 + 1)) <|sb_id := 2|>]|>)
    (jan31_2026 + days 1).

Lemma retail_billing_blocks_the_batch_witness :
  let env := sample_env sample_registry in
  (exists e s', process_batch env None "w" blocked_session = (Raise e, s') /\
     s'.(s_charges) = [] /\ s'.(s_committed) = blocked_session.(s_db)) /\
  let alone := blocked_session <|s_db := blocked_session.(s_db)
    <|db_billings := drop 1 blocked_session.(s_db).(db_billings)|>|> in
  (process_batch env None "w" alone).1 = Ok (mk_batch_result 1 1 0 0 0 0 0).
Proof.
  intros env. split; [|vm_compute; reflexivity].
  destruct (tbl_get 1 blocked_session.(s_db).(db_billings)) as [bl|] eqn:Hbl;
    [|exfalso; vm_compute in Hbl; discriminate].
  pose proof Hbl as Hbl0. vm_compute in Hbl0. injection Hbl0 as <-.
  refine (retail_billing_blocks_the_batch env None "w" blocked_session 1 [2] _ _ _).
  - vm_compute. reflexivity.
  - vm_compute. reflexivity.
  - eexists _, (sample_service 2). split; [exact Hbl|].
    split; [reflexivity|]. split; [vm_compute; reflexivity|]. split; [discriminate|].
    split; [vm_compute; reflexivity|]. split; [vm_compute; reflexivity|].
    split; [reflexivity|vm_compute; reflexivity].
Defined.

(** * Where subscriptions and recurring billing disagree *)

(** Run [m] at instant [t]. *)
Definition at_time {A} (t : Z) (m : Meth A) (s : session) : session :=
  (m (s <|s_now := t|>)).2.

(** A reseller buying for itself, which the batch can charge. *)
Definition reseller_account : billing_account := mk_billing_account 2 (Some 101) (Some 1) AC_RESELLER "USD" false.
Definition yearly_session : session :=
  (ensure_for_fulfilled_item 1 yearly_item reseller_account yearly_plan None
     bought_session).2.

(** A customer who cancels at the end of the cycle and then pays the open
    invoice is subscribed again: completing the paid cycle makes the billing
    active and due a month later, and the worker charges that month.  The run:
    a declined renewal, the cancellation, the payment of the open invoice, the
    worker's next batch, and the batch four weeks later. *)
Theorem late_payment_undoes_cancellation :
  let pays := sample_env sample_registry in
  let account := mk_billing_account 2 None (Some 1) AC_RESELLER "USD" false in
  let declined := at_time jan31
    (process_batch (sample_env [("stripe", declining_gateway)]) None "w")
    (recurring_session jan31) in
  let cancelled := at_time (jan31 + days 1)
    (request_cancellation idle_lifecycle 1 account END_OF_CYCLE None false ;;; commit)
    declined in
  let paid := at_time (jan31 + days 2)
    (fund_invoice sample_registry 1 1 None ;;; commit) cancelled in
  let recovered := at_time (jan31 + days 2) (process_batch pays None "w") paid in
  let renewed := at_time (jan31 + days 28) (process_batch pays None "w") recovered in
  map sb_status cancelled.(s_db).(db_billings) = [BS_CANCELLED] /\
  map in_status paid.(s_db).(db_invoices) = [IS_PAID] /\
  map sb_status recovered.(s_db).(db_billings) = [BS_ACTIVE] /\
  map cr_amount_cents recovered.(s_charges) = [500; 500] /\
  map cr_amount_cents renewed.(s_charges) = [500; 500; 500] /\
  map sv_status renewed.(s_db).(db_services) = [SS_ACTIVE].
Proof. vm_compute. repeat split. Qed.

(** A yearly plan is charged its yearly price at the first renewal and again one
    month later, because recurring billing knows only months. *)
Lemma yearly_plan_is_charged_monthly :
  let pays := sample_env sample_registry in
  let first := at_time jan31_2026 (process_batch pays None "w") yearly_session in
  let second := at_time (jan31_2026 + days 28) (process_batch pays None "w") first in
  map cr_amount_cents first.(s_charges) = [12000] /\
  map cr_amount_cents second.(s_charges) = [12000; 12000].
Proof. vm_compute. repeat split. Qed.

(** The anchor of a subscription is the day of its first due date, so one
    bought on 31 January is due on the last day of February and on that same
    day number in March, where a billing anchored on the 31st is due on the
    31st. *)
Lemma retail_anchor_day_is_lost y now t t2 id k item account plan product :
  date_of now = (y, 1, 31) -> next_due_at now (Some "monthly") = Some t ->
  let b := retail_billing id k item account plan product now t in
  next_calendar_month t b.(sb_billing_anchor_day) = Some t2 ->
  date_of t = (y, 2, days_in_month y 2) /\ date_of t2 = (y, 3, days_in_month y 2).
Proof.
  intros Hd Hn b Hn2.
  pose proof (days_in_month_bounds y 2) as Hb2.
  assert (date_of t = (y, 2, Z.min 31 (days_in_month y 2))) as Ht.
  { unfold next_due_at in Hn. rewrite Hd in Hn.
    change (interval_months (Some "monthly")) with 1 in Hn.
    change ((1 - 1 + 1) / 12) with 0 in Hn. change ((1 - 1 + 1) mod 12 + 1) with 2 in Hn.
    rewrite Z.add_0_r in Hn. unfold replace_date in Hn.
    apply (date_of_datetime _ _ _ _ _ (time_of_day_bounds now) Hn). }
  rewrite Z.min_r in Ht by lia. split; [done|].
  assert (day_of t = days_in_month y 2) as Hday by (unfold day_of; by rewrite Ht).
  cbn [b retail_billing sb_billing_anchor_day] in Hn2. rewrite Hday in Hn2.
  pose proof (next_month_spec t (Some (days_in_month y 2)) _ _ _ t2 Ht) as H.
  assert (or_day (Some (days_in_month y 2)) (days_in_month y 2) = days_in_month y 2) as Hor.
  { unfold or_day. by destruct (days_in_month y 2 =? 0). }
  rewrite Hor in H. destruct (H ltac:(lia) Hn2) as [H1 _]. cbv zeta in H1.
  change (2 =? 12) with false in H1. cbv iota in H1. rewrite Z.add_0_r in H1. rewrite H1.
  change (2 + 1) with 3. f_equal. apply Z.min_l. unfold days_in_month at 2. cbn.
  unfold days_in_month in *. cbn in *. destruct (is_leap y); cbn in *; lia.
Qed.

(** A billing that another worker holds counts twice as processed. *)
Lemma skipped_billing_is_counted_twice :
  let held := at_time jan31
    (upd_cycle 1 (claim_cycle (sample_env sample_registry) "w2" jan31) ;;; commit)
    due_session in
  (process_batch (sample_env sample_registry) None "w" held).1
  = Ok (mk_batch_result 2 0 0 0 0 0 0).
Proof. vm_compute. reflexivity. Qed.
