(* ===== verification/Deploy.v ===== *)
(** Selling to resellers: prices, product access and stock quotas
    (src/app/dao/reseller_dao.py), and the billing of a deploy
    (src/app/services/reseller_billing_service.py): charge first, provision,
    then finalise or compensate. *)
From Stdlib Require Import ZArith Lia.
From stdpp Require Import base numbers list strings pretty.
From S2P Require Import Prelude Calendar Models Session Ledger Invoices.
From S2P Require Import Lifecycle Outbox Orchestrator Funding Recurring Dunning.
#[local] Open Scope Z_scope.
#[local] Open Scope py_scope.

(** * The catalogue

    Administrators maintain these tables; deploys only read them. *)

(** [ProductFamily], with the configuration of its [FamilyVMConfig] row. *)
Record product_family : Type := mk_product_family {
  fm_enabled : bool;
  fm_service_type : string;
  fm_defaults : dict;
  fm_vm_config : option dict
}.

(** [Product], with its family and its [ProductVMConfig] row
    ([extends_family], [config]). *)
Record product : Type := mk_product {
  pd_id : Z;
  pd_code : string;
  pd_enabled : bool;
  pd_family : option product_family;
  pd_overrides : dict;
  pd_vm_config : option (bool * dict)
}.

Record product_price : Type := mk_product_price {
  pc_product_id : Z;
  pc_setup_cents : Z;
  pc_monthly_cents : Z;
  pc_currency : string
}.

Record group_price : Type := mk_group_price {
  gp_group_id : Z;
  gp_product_id : Z;
  gp_setup_cents : option Z;
  gp_monthly_cents : option Z
}.

Record product_access : Type := mk_product_access {
  pa_reseller_id : option Z;
  pa_group_id : option Z;
  pa_product_id : Z;
  pa_allowed : bool
}.

Record stock_quota : Type := mk_stock_quota {
  sq_reseller_id : option Z;
  sq_group_id : option Z;
  sq_scope_type : quota_scope;
  sq_scope_id : Z;
  sq_max_services : option Z;
  sq_max_cpu_cores : option Z;
  sq_max_ram_mb : option Z;
  sq_max_disk_gb : option Z;
  sq_enabled : bool
}.

Record catalog : Type := mk_catalog {
  ct_products : list product;
  ct_prices : list product_price;
  ct_group_prices : list group_price;
  ct_access : list product_access;
  ct_quotas : list stock_quota
}.

(** [Result.scalar_one_or_none()] of a select over one of them. *)
Definition one_or_none {R} (p : R -> bool) (t : list R) : Meth (option R) :=
  scalar_one_or_none MultipleResultsFound (List.filter p t).

Definition find_reseller (reseller_id : Z) : Meth (option reseller) :=
  read (fun d => tbl_get reseller_id d.(db_resellers)).

(** * Prices and access *)

Record effective_price : Type := mk_effective_price {
  ef_product_id : Z;
  ef_setup_cents : Z;
  ef_monthly_cents : Z;
  ef_currency : string;
  ef_setup_source : string;
  ef_monthly_source : string
}.

Definition override_of (r : reseller) (product_id : Z) (c : catalog)
  : Meth (option group_price) :=
  match r.(rs_group_id) with
  | Some g => one_or_none (fun x => (x.(gp_group_id) =? g)
                                    && (x.(gp_product_id) =? product_id)) c.(ct_group_prices)
  | None => ret None
  end.

Definition overridden (product_id : Z) (base : product_price)
    (override : option group_price) : effective_price :=
  let setup := match override with Some o => o.(gp_setup_cents) | None => None end in
  let monthly := match override with Some o => o.(gp_monthly_cents) | None => None end in
  let source (o : option Z) := match o with Some _ => "group" | None => "base" end in
  mk_effective_price product_id
    (match setup with Some c => c | None => base.(pc_setup_cents) end)
    (match monthly with Some c => c | None => base.(pc_monthly_cents) end)
    base.(pc_currency) (source setup) (source monthly).

Definition get_effective_price (c : catalog) (reseller_id product_id : Z)
  : Meth (option effective_price) :=
  o <- find_reseller reseller_id ;;
  match o with
  | None => ret None
  | Some r =>
      base <- one_or_none (fun x => x.(pc_product_id) =? product_id) c.(ct_prices) ;;
      match base with
      | None => ret None
      | Some base =>
          override <- override_of r product_id c ;;
          ret (Some (overridden product_id base override))
      end
  end.

Definition product_is_allowed (c : catalog) (reseller_id product_id : Z) : Meth bool :=
  o <- find_reseller reseller_id ;;
  match o with
  | None => ret false
  | Some r =>
      own <- one_or_none (fun x => (x.(pa_reseller_id) == Some reseller_id)
                                   && (x.(pa_product_id) =? product_id)) c.(ct_access) ;;
      match own with
      | Some rule => ret rule.(pa_allowed)
      | None =>
          match r.(rs_group_id) with
          | None => ret false
          | Some g =>
              group <- one_or_none (fun x => (x.(pa_group_id) == Some g)
                                             && (x.(pa_product_id) =? product_id))
                         c.(ct_access) ;;
              match group with
              | Some rule => ret rule.(pa_allowed)
              | None => ret false
              end
          end
      end
  end.

Definition family_is_enabled (p : product) : bool :=
  match p.(pd_family) with Some f => f.(fm_enabled) | None => false end.

Definition resolve_sellable_product (c : catalog) (reseller_id : Z) (code : string)
  : Meth (product * effective_price) :=
  p <- unwrap (List.find (fun x => x.(pd_code) == code) c.(ct_products))
         (ProductNotAvailableError "Product not found") ;;
  throw_if (negb p.(pd_enabled) || negb (family_is_enabled p))
    (ProductNotAvailableError "Product not found") ;;;
  allowed <- product_is_allowed c reseller_id p.(pd_id) ;;
  throw_if (negb allowed) (ProductNotAvailableError "Product not found") ;;;
  price <- get_effective_price c reseller_id p.(pd_id) ;;
  price <- unwrap price (ProductNotAvailableError "Product has no effective price") ;;
  ret (p, price).

(** * Specifications *)

(** [_deep_merge(base, override)]: [merge_value v old] is the value a key gets. *)
Fixpoint merge_value (v : json) (old : option json) : json :=
  match v, old with
  | JObj over, Some (JObj base) =>
      JObj ((fix merge (over : dict) (result : dict) : dict :=
               match over with
               | [] => result
               | (k, x) :: over' =>
                   merge over' (dict_set k (merge_value x (dict_get k result)) result)
               end) over base)
  | _, _ => v
  end.
Definition deep_merge (base override : dict) : dict :=
  match merge_value (JObj override) (Some (JObj base)) with
  | JObj d => d
  | _ => base
  end.

Definition resolve_effective_config (p : product) : dict :=
  let family_data :=
    match p.(pd_family) with
    | Some f => match f.(fm_vm_config) with Some c => c | None => [] end
    | None => []
    end in
  match p.(pd_vm_config) with
  | None => family_data
  | Some (extends_family, config) =>
      if extends_family : bool then deep_merge family_data config else config
  end.

Definition effective_specs (p : product) : dict :=
  match resolve_effective_config p with
  | [] => dict_merge (match p.(pd_family) with Some f => f.(fm_defaults) | None => [] end)
            p.(pd_overrides)
  | specs => specs
  end.

(** The first of the keys that holds a value decides. *)
Fixpoint int_value (specs : dict) (keys : list string) : Z :=
  match keys with
  | [] => 0
  | k :: keys' =>
      match dict_get k specs with
      | None | Some JNull | Some (JStr EmptyString) => int_value specs keys'
      | Some v => match json_int v with Ok n => Z.max 0 n | Raise _ => 0 end
      end
  end.

Record resources : Type := mk_resources {
  res_cpu : Z;
  res_ram : Z;
  res_disk : Z
}.

Definition resource_values (specs : dict) : resources :=
  let ram := int_value specs ["ram_mb"; "memory_mb"] in
  mk_resources (int_value specs ["cpu_cores"; "cpu_count"; "cores"])
    (if ram =? 0 then int_value specs ["ram_gb"; "memory_gb"] * 1024 else ram)
    (int_value specs ["disk_gb"; "storage_gb"; "disk_size_gb"]).

(** * Quotas *)

Definition billing_matches_scope (d : db) (scope : quota_scope) (scope_id : Z)
    (b : service_billing) : bool :=
  match scope with
  | QS_PRODUCT => b.(sb_product_id) == Some scope_id
  | QS_SERVER_GROUP =>
      match tbl_get b.(sb_service_id) d.(db_services) with
      | None => false
      | Some s =>
          match dict_get "server_group_id" s.(sv_config) with
          | None => false
          | Some v => match json_int v with Ok n => n =? scope_id | Raise _ => false end
          end
      end
  | QS_PROXMOX_CLUSTER =>
      match tbl_get b.(sb_service_id) d.(db_services) with
      | None => false
      | Some s => match s.(sv_vm) with
                  | Some v => v.(vx_proxmox_cluster_id) == Some scope_id
                  | None => false
                  end
      end
  end.

Definition quota_scopes (product_id : Z) (server_group_id proxmox_cluster_id : option Z)
  : list (quota_scope * Z) :=
  (QS_PRODUCT, product_id)
    :: match server_group_id with Some g => [(QS_SERVER_GROUP, g)] | None => [] end
    ++ match proxmox_cluster_id with Some k => [(QS_PROXMOX_CLUSTER, k)] | None => [] end.

Definition same_scope (scope : quota_scope * Z) (q : stock_quota) : bool :=
  (q.(sq_scope_type) == scope.1) && (q.(sq_scope_id) =? scope.2) && q.(sq_enabled).

Definition get_effective_stock_quota (c : catalog) (reseller_id : Z)
    (scope : quota_scope * Z) : Meth (option stock_quota) :=
  o <- find_reseller reseller_id ;;
  match o with
  | None => ret None
  | Some r =>
      direct <- one_or_none (fun q => (q.(sq_reseller_id) == Some reseller_id)
                                      && same_scope scope q) c.(ct_quotas) ;;
      match direct with
      | Some q => ret (Some q)
      | None =>
          match r.(rs_group_id) with
          | None => ret None
          | Some g => one_or_none (fun q => (q.(sq_group_id) == Some g)
                                            && same_scope scope q) c.(ct_quotas)
          end
      end
  end.

Definition locked_quotas (c : catalog) (reseller_id : Z)
    (scopes : list (quota_scope * Z)) : Meth (list stock_quota) :=
  quotas <- fold_each scopes [] (fun acc scope =>
    q <- get_effective_stock_quota c reseller_id scope ;;
    ret (acc ++ match q with Some q => [q] | None => [] end)) ;;
  throw_if (match quotas with [] => true | _ => false end)
    (QuotaNotAllocatedError "No product or matching resource quota is allocated") ;;;
  ret quotas.

(** [(service.product_snapshot or {}).get("effective_specs", {})]; [None] is a
    snapshot that holds something else than an object there. *)
Definition snapshot_specs (s : option service) : option dict :=
  match s with
  | None => Some []
  | Some s => match dict_get "effective_specs" s.(sv_product_snapshot) with
              | None => Some []
              | Some (JObj specs) => Some specs
              | Some _ => None
              end
  end.

Fixpoint used_resources (d : db) (billings : list service_billing) : option resources :=
  match billings with
  | [] => Some (mk_resources 0 0 0)
  | b :: rest =>
      match snapshot_specs (tbl_get b.(sb_service_id) d.(db_services)),
            used_resources d rest with
      | Some specs, Some t =>
          let v := resource_values specs in
          Some (mk_resources (v.(res_cpu) + t.(res_cpu)) (v.(res_ram) + t.(res_ram))
                  (v.(res_disk) + t.(res_disk)))
      | _, _ => None
      end
  end.

Definition exceeds (limit : option Z) (n : Z) : bool :=
  match limit with Some m => m <? n | None => false end.

Definition quota_label (q : stock_quota) : string :=
  quota_scope_value q.(sq_scope_type) +:+ ":" +:+ pretty q.(sq_scope_id).

Definition enforce_quota (q : stock_quota) (matching : list service_billing)
    (requested : resources) : Meth unit :=
  throw_if (exceeds q.(sq_max_services) (Z.of_nat (length matching) + 1))
    (QuotaExceededError ("Service-count quota exceeded for " +:+ quota_label q)) ;;;
  used <- read (fun d => used_resources d matching) ;;
  used <- unwrap used AttributeError ;;
  throw_if (exceeds q.(sq_max_cpu_cores) (used.(res_cpu) + requested.(res_cpu)))
    (QuotaExceededError ("CPU quota exceeded for " +:+ quota_label q)) ;;;
  throw_if (exceeds q.(sq_max_ram_mb) (used.(res_ram) + requested.(res_ram)))
    (QuotaExceededError ("RAM quota exceeded for " +:+ quota_label q)) ;;;
  throw_if (exceeds q.(sq_max_disk_gb) (used.(res_disk) + requested.(res_disk)))
    (QuotaExceededError ("disk quota exceeded for " +:+ quota_label q)).

(** The statuses that occupy stock. *)
Definition STOCK_STATUSES : list billing_status :=
  [BS_ACTIVE; BS_PAST_DUE; BS_GRACE; BS_SUSPENDED_NONPAYMENT].

Definition list_service_billings (reseller_id : Z) (statuses : list billing_status)
    (d : db) : list service_billing :=
  List.filter (fun b => (b.(sb_reseller_id) == Some reseller_id)
                        && billing_in b.(sb_status) statuses) d.(db_billings).

Definition matching_billings (reseller_id : Z) (q : stock_quota) (d : db)
  : list service_billing :=
  List.filter (billing_matches_scope d q.(sq_scope_type) q.(sq_scope_id))
    (list_service_billings reseller_id STOCK_STATUSES d).

Definition enforce_quotas (c : catalog) (reseller_id : Z) (p : product)
    (server_group_id proxmox_cluster_id : option Z) : Meth unit :=
  o <- find_reseller reseller_id ;;
  unwrap o (ResellerBillingError "Reseller not found") ;;;
  quotas <- locked_quotas c reseller_id
              (quota_scopes p.(pd_id) server_group_id proxmox_cluster_id) ;;
  for_each quotas (fun q =>
    matching <- read (matching_billings reseller_id q) ;;
    enforce_quota q matching (resource_values (effective_specs p))).

(** * Deploy idempotency *)

Record deploy_charge : Type := mk_deploy_charge {
  ch_product : product;
  ch_price : effective_price;
  ch_invoice : Z;
  ch_ledger_entries : list Z;
  ch_request : option Z
}.

Definition upd_request (k : Z) (f : provisioning_request -> provisioning_request)
  : Meth unit :=
  write (fun d => d <|db_requests := tbl_update k f d.(db_requests)|>).

Definition requests_with_key (reseller_id : Z) (key : string) (d : db)
  : list provisioning_request :=
  List.filter (fun q => (q.(rq_reseller_id) =? reseller_id)
                        && (q.(rq_idempotency_key) == key)) d.(db_requests).

Definition get_provisioning_request (reseller_id : Z) (key : string)
  : Meth (option provisioning_request) :=
  rows <- read (requests_with_key reseller_id key) ;;
  scalar_one_or_none MultipleResultsFound rows.

Definition request_invoice (q : provisioning_request) (d : db) : option invoice :=
  match q.(rq_invoice_id) with Some k => tbl_get k d.(db_invoices) | None => None end.
Definition request_service (q : provisioning_request) (d : db) : option service :=
  match q.(rq_service_id) with Some k => tbl_get k d.(db_services) | None => None end.

Definition conflict_status (q : provisioning_request) : exn :=
  IdempotencyConflictError
    ("Idempotent request is " +:+ request_status_value q.(rq_status)).
Definition conflict_hash : exn :=
  IdempotencyConflictError "Idempotency-Key was already used with a different request".

(** Answers the service and invoice of an earlier, finished request. *)
Definition lookup_idempotent_result (reseller_id : Z) (key : option string)
    (request_hash : string) : Meth (option (Z * Z)) :=
  match key with
  | None | Some EmptyString => ret None
  | Some key =>
      o <- get_provisioning_request reseller_id key ;;
      match o with
      | None => ret None
      | Some q =>
          throw_if (q.(rq_request_hash) != request_hash) conflict_hash ;;;
          invoice <- read (request_invoice q) ;;
          service <- read (request_service q) ;;
          match q.(rq_status), service, invoice with
          | RQ_SUCCEEDED, Some s, Some i => ret (Some (s.(sv_id), i.(in_id)))
          | RQ_INSUFFICIENT_CREDIT, _, Some i =>
              if i.(in_status) == IS_PAID then ret None
              else
                r <- the_reseller reseller_id ;;
                raise (DeployCreditRequiredError i.(in_amount_cents)
                         r.(rs_cached_balance_cents) i.(in_id) false None None)
          | _, _, _ => raise (conflict_status q)
          end
      end
  end.

Definition invoice_debits (invoice_id : Z) (d : db) : list Z :=
  map le_id (List.filter (fun e => (e.(le_invoice_id) == Some invoice_id)
                                   && (e.(le_amount_cents) <? 0)) d.(db_ledger)).

Definition resumable (q : provisioning_request) (d : db) : option invoice :=
  match q.(rq_status), request_invoice q d with
  | RQ_INSUFFICIENT_CREDIT, Some i => if i.(in_status) == IS_PAID then Some i else None
  | _, _ => None
  end.

Definition prepare_deploy_idempotency (reseller_id : Z) (p : product)
    (price : effective_price) (key : option string) (request_hash : string)
  : Meth (option Z * option deploy_charge) :=
  match key with
  | None | Some EmptyString => ret (None, None)
  | Some key =>
      o <- get_provisioning_request reseller_id key ;;
      match o with
      | None =>
          id <- read (fun d => tbl_fresh d.(db_requests)) ;;
          write (fun d => d <|db_requests := d.(db_requests) ++
            [mk_provisioning_request id reseller_id key request_hash None None
               RQ_PROCESSING None]|>) ;;;
          flush ;;;
          ret (Some id, None)
      | Some q =>
          throw_if (q.(rq_request_hash) != request_hash) conflict_hash ;;;
          paid <- read (resumable q) ;;
          match paid with
          | None => raise (conflict_status q)
          | Some i =>
              upd_request q.(rq_id) (fun x => x <|rq_status := RQ_PROCESSING|>) ;;;
              entries <- read (invoice_debits i.(in_id)) ;;
              ret (Some q.(rq_id),
                   Some (mk_deploy_charge p price i.(in_id) entries (Some q.(rq_id))))
          end
      end
  end.

(** Assignment to attributes of the request, when there is one. *)
Definition note_request (request : option Z)
    (f : provisioning_request -> provisioning_request) : Meth unit :=
  match request with Some k => upd_request k f | None => ret tt end.

(** * Charging *)

Definition deploy_description (p : product) (price : effective_price) : string :=
  "Deploy " +:+ p.(pd_code) +:+ ": setup " +:+ pretty price.(ef_setup_cents)
  +:+ " + first month " +:+ pretty price.(ef_monthly_cents).

(** [fund] is [payment_fallback.fund_invoice]. *)
Definition prepare_deploy_charge (fund : Z -> Z -> Meth funding_result)
    (reseller_id : Z) (p : product) (price : effective_price) (key : option string)
    (request_hash : string) : Meth deploy_charge :=
  let total_cents := price.(ef_setup_cents) + price.(ef_monthly_cents) in
  throw_if (total_cents <=? 0)
    (ResellerBillingError "Deploy charge must be a positive integer number of cents") ;;;
  prepared <- prepare_deploy_idempotency reseller_id p price key request_hash ;;
  let '(request, resumed) := prepared in
  match resumed with
  | Some charge => ret charge
  | None =>
      k <- create_deploy reseller_id total_cents (deploy_description p price) None
             price.(ef_currency) ;;
      note_request request (fun q => q <|rq_invoice_id := Some k|>) ;;;
      r <- the_reseller reseller_id ;;
      let available_before := Z.max 0 r.(rs_cached_balance_cents) in
      funding <- fund reseller_id k ;;
      if negb funding.(fr_funded) then
        note_request request (fun q => q <|rq_status := RQ_INSUFFICIENT_CREDIT|>) ;;;
        commit ;;;
        raise (DeployCreditRequiredError total_cents available_before k
                 funding.(fr_pending_action) funding.(fr_client_secret)
                 funding.(fr_payment_id))
      else
        mark_paid_if_fully_allocated k ;;;
        entries <- read (invoice_debits k) ;;
        commit ;;;
        ret (mk_deploy_charge p price k entries request)
  end.

(** * Completion and compensation *)

Definition finalize_deploy (reseller_id service_id : Z) (charge : deploy_charge)
  : Meth Z :=
  now <- utcnow ;;
  next <- unwrap (next_calendar_month now None) (ValueError "year is out of range") ;;
  id <- read (fun d => tbl_fresh d.(db_billings)) ;;
  write (fun d => d <|db_billings := d.(db_billings) ++
    [mk_service_billing id service_id (Some reseller_id) None
       (Some charge.(ch_product).(pd_id)) charge.(ch_price).(ef_setup_cents)
       charge.(ch_price).(ef_monthly_cents) charge.(ch_price).(ef_currency)
       (Some next) None BS_ACTIVE 0 None None None None (Some now)]|>) ;;;
  upd_invoice charge.(ch_invoice) (fun i => i <|in_service_id := Some service_id|>) ;;;
  for_each charge.(ch_ledger_entries) (fun e =>
    write (fun d => d <|db_ledger :=
      tbl_update e (fun x => x <|le_service_id := Some service_id|>) d.(db_ledger)|>)) ;;;
  note_request charge.(ch_request) (fun q =>
    q <|rq_service_id := Some service_id|> <|rq_status := RQ_SUCCEEDED|>) ;;;
  commit ;;;
  ret id.

Definition refund_key (invoice_id entry_id : Z) : string :=
  "reseller-deploy-refund:" +:+ pretty invoice_id +:+ ":" +:+ pretty entry_id.

(** [error] is [str(error)]. *)
Definition compensate_failed_deploy (reseller_id : Z) (charge : deploy_charge)
    (error : string) : Meth unit :=
  for_each charge.(ch_ledger_entries) (fun e =>
    r <- the_reseller reseller_id ;;
    reverse reseller_id e
      (Some ("Failed deploy refund for invoice " +:+ pretty charge.(ch_invoice)))
      (Some (refund_key charge.(ch_invoice) e))
      [("reason", JStr (str_take 500 error))] (Some r.(rs_user_id)) ;;; ret tt) ;;;
  upd_invoice charge.(ch_invoice) (fun i => i <|in_status := IS_VOID|>) ;;;
  note_request charge.(ch_request) (fun q =>
    q <|rq_status := RQ_FAILED|> <|rq_error_message := Some (str_take 2000 error)|>) ;;;
  commit.

(** * The deploy saga

    [_provision_charged_service] of src/app/api/reseller.py, after the charge:
    [provision] creates the service or raises, [cleanup] releases what it left
    behind, [describe] is [str(exc)] and [translate] the exception the endpoint
    answers with. *)
Definition provision_charged_service (provision : Meth Z) (cleanup : Meth unit)
    (describe : exn -> string) (translate : exn -> exn) (reseller_id : Z)
    (charge : deploy_charge) : Meth Z :=
  try_catch
    (service_id <- provision ;;
     finalize_deploy reseller_id service_id charge ;;;
     ret service_id)
    (fun e =>
       compensate_failed_deploy reseller_id charge (describe e) ;;;
       cleanup ;;;
       raise (translate e)).

(** * The endpoint

    [_create_service] of src/app/api/reseller.py. [checks] stands for the
    visibility, product type and duplicate checks and for [ensure_client_user];
    it comes before anything is charged. *)

(** [ResellerBillingError] and its subclasses. *)
Definition is_billing_error (e : exn) : bool :=
  match e with
  | ResellerBillingError _ | ProductNotAvailableError _ | QuotaNotAllocatedError _
  | QuotaExceededError _ | IdempotencyConflictError _
  | DeployCreditRequiredError _ _ _ _ _ _ => true
  | _ => false
  end.

(** [except ... as exc: raise HTTPException(status_code=...) from exc], for the
    exceptions [code] has a status for. *)
Definition as_http {A} (code : exn -> option Z) (m : Meth A) : Meth A :=
  try_catch m (fun e => match code e with
                        | Some n => raise (HTTPException n)
                        | None => raise e
                        end).

Definition replay_status (e : exn) : option Z :=
  match e with
  | DeployCreditRequiredError _ _ _ _ _ _ => Some 402
  | IdempotencyConflictError _ => Some 409
  | _ => None
  end.
Definition resolve_status (e : exn) : option Z :=
  match e with ProductNotAvailableError _ => Some 404 | _ => None end.
Definition quota_status (e : exn) : option Z :=
  match e with
  | QuotaNotAllocatedError _ => Some 403
  | _ => if is_billing_error e then Some 409 else None
  end.
Definition charge_status (e : exn) : option Z :=
  match e with
  | DeployCreditRequiredError _ _ _ _ _ _ => Some 402
  | _ => if is_billing_error e then Some 400 else None
  end.

Definition create_request_context (product_code key : option string)
  : Meth (string * option string) :=
  let code := str_strip (default "" product_code) in
  throw_if (str_empty code) (HTTPException 400) ;;;
  let key := str_strip (default "" key) in
  let key := if str_empty key then None else Some key in
  throw_if (match key with Some key => 255 <? Z.of_nat (String.length key) | None => false end)
    (HTTPException 400) ;;;
  ret (code, key).

(** The account is current: no hold, and nothing owed. *)
Definition may_deploy (r : reseller) : bool :=
  negb r.(rs_billing_hold) && (0 <=? r.(rs_cached_balance_cents)).

Definition enforce_deploy_billing_state (reseller_id : Z) : Meth unit :=
  r <- the_reseller reseller_id ;;
  throw_if (negb (may_deploy r)) (HTTPException 402).

(** Answers the service, its invoice and whether the answer is a replay. *)
Definition create_service (c : catalog) (fund : Z -> Z -> Meth funding_result)
    (checks : product -> Meth unit) (provision : product -> Meth Z)
    (cleanup : Meth unit) (describe : exn -> string) (translate : exn -> exn)
    (reseller_id : Z) (product_code key : option string) (request_hash : string)
    (server_group_id proxmox_cluster_id : option Z) : Meth (Z * Z * bool) :=
  context <- create_request_context product_code key ;;
  let '(code, key) := context in
  replay <- as_http replay_status (lookup_idempotent_result reseller_id key request_hash) ;;
  match replay with
  | Some (service, invoice) => ret (service, invoice, true)
  | None =>
      enforce_deploy_billing_state reseller_id ;;;
      sold <- as_http resolve_status (resolve_sellable_product c reseller_id code) ;;
      let '(p, price) := sold in
      checks p ;;;
      as_http quota_status
        (enforce_quotas c reseller_id p server_group_id proxmox_cluster_id) ;;;
      charge <- as_http charge_status
                  (prepare_deploy_charge fund reseller_id p price key request_hash) ;;
      service <- provision_charged_service (provision p) cleanup describe translate
                   reseller_id charge ;;
      ret (service, charge.(ch_invoice), false)
  end.

(** * Laws of prices and quotas *)

Definition pure_query {A} (m : Meth A) : Prop := forall s r s', m s = (r, s') -> s' = s.

Lemma pure_ret {A} (a : A) : pure_query (ret a).
Proof. by intros s r s' [= <- <-]. Qed.
Lemma pure_raise {A} e : pure_query (raise e : Meth A).
Proof. by intros s r s' [= <- <-]. Qed.
Lemma pure_read {A} (f : db -> A) : pure_query (read f).
Proof. by intros s r s' [= <- <-]. Qed.
Lemma pure_bind {A B} (m : Meth A) (f : A -> Meth B) :
  pure_query m -> (forall a, pure_query (f a)) -> pure_query (bind m f).
Proof.
  intros Hm Hf s r s'. unfold bind. destruct (m s) as [[a|e] s1] eqn:E;
    apply Hm in E as ->; [apply Hf|by intros [= <- <-]].
Qed.
Lemma pure_throw b e : pure_query (throw_if b e).
Proof. destruct b; [apply pure_raise|apply pure_ret]. Qed.
Lemma pure_unwrap {A} (o : option A) e : pure_query (unwrap o e).
Proof. destruct o; [apply pure_ret|apply pure_raise]. Qed.
Lemma pure_one {R} (p : R -> bool) t : pure_query (one_or_none p t).
Proof.
  unfold one_or_none, scalar_one_or_none.
  repeat case_match; auto using pure_ret, pure_raise.
Qed.
Lemma pure_fold {A B} (l : list A) (acc : B) f :
  (forall acc x, pure_query (f acc x)) -> pure_query (fold_each l acc f).
Proof.
  intros Hf. revert acc. induction l as [|x l IH]; intros acc; [apply pure_ret|].
  apply pure_bind; [apply Hf|apply IH].
Qed.
Lemma pure_each {A} (l : list A) f :
  (forall x, pure_query (f x)) -> pure_query (for_each l f).
Proof.
  intros Hf. induction l as [|x l IH]; [apply pure_ret|].
  apply pure_bind; [apply Hf|by intros _].
Qed.
#[local] Hint Resolve pure_ret pure_raise pure_read pure_throw pure_unwrap pure_one : dcim.
Ltac pure_tac :=
  repeat lazymatch goal with
  | |- pure_query (bind _ _) => apply pure_bind; [|intros ?]
  | |- pure_query (for_each _ _) => apply pure_each; intros ?
  | |- pure_query (fold_each _ _ _) => apply pure_fold; intros ? ?
  | |- pure_query (match _ with _ => _ end) => case_match
  | |- pure_query _ => solve [auto with dcim]
  end.

Lemma locked_quotas_pure c k scopes : pure_query (locked_quotas c k scopes).
Proof. unfold locked_quotas, get_effective_stock_quota, find_reseller. pure_tac. Qed.
#[local] Hint Resolve locked_quotas_pure : dcim.

Lemma enforce_quotas_pure c k p g x : pure_query (enforce_quotas c k p g x).
Proof.
  unfold enforce_quotas, enforce_quota, find_reseller. pure_tac.
Qed.

Lemma allowed_pure c k pid : pure_query (product_is_allowed c k pid).
Proof. unfold product_is_allowed, find_reseller. pure_tac. Qed.
#[local] Hint Resolve allowed_pure : dcim.

Lemma resolve_pure c k code : pure_query (resolve_sellable_product c k code).
Proof.
  unfold resolve_sellable_product, get_effective_price, override_of, find_reseller.
  pure_tac.
Qed.

(** What a quota admits. *)
Definition within (limit : option Z) (n : Z) : Prop :=
  match limit with Some m => n <= m | None => True end.
Definition quota_admits (q : stock_quota) (services : Z) (t : resources) : Prop :=
  within q.(sq_max_services) services /\ within q.(sq_max_cpu_cores) t.(res_cpu) /\
  within q.(sq_max_ram_mb) t.(res_ram) /\ within q.(sq_max_disk_gb) t.(res_disk).
Definition add_resources (x y : resources) : resources :=
  mk_resources (x.(res_cpu) + y.(res_cpu)) (x.(res_ram) + y.(res_ram))
    (x.(res_disk) + y.(res_disk)).

Lemma exceeds_within limit n : exceeds limit n = false <-> within limit n.
Proof. destruct limit; cbn; [|done]. rewrite Z.ltb_ge. done. Qed.

Lemma enforce_quota_spec q matching req s :
  wp (enforce_quota q matching req)
    (fun _ s' => s' = s /\ exists used, used_resources s.(s_db) matching = Some used /\
       quota_admits q (Z.of_nat (length matching) + 1) (add_resources used req))
    (fun e s' => s' = s /\ (e = AttributeError \/ exists m, e = QuotaExceededError m)) s.
Proof.
  assert (forall m, QuotaExceededError m = AttributeError \/
    exists m', QuotaExceededError m = QuotaExceededError m') as Hex by eauto.
  unfold enforce_quota. wp_step. apply wp_throw_if; [auto|intros H1]. wp_step.
  apply wp_read. wp_step. apply wp_unwrap; [auto|intros used Hused].
  wp_step. apply wp_throw_if; [auto|intros H2]. wp_step. apply wp_throw_if; [auto|intros H3].
  apply wp_throw_if; [auto|intros H4]. split; [done|]. exists used. split; [done|].
  rewrite exceeds_within in *. done.
Qed.

(** The quotas that apply to a deploy: for each of its scopes the reseller's own
    quota, or else its group's. *)
Lemma locked_quotas_ok c k scopes s quotas s' :
  locked_quotas c k scopes s = (Ok quotas, s') -> quotas <> [].
Proof.
  unfold locked_quotas, bind. destruct (fold_each _ _ _ s) as [[l|e] s1]; [|done].
  destruct l as [|q l]; [done|]. cbn. by intros [= <- _].
Qed.

(** C38. A deploy passes the quota check only within its quotas: at least one
    quota covers it, and for each quota found for its product, server group or
    cluster, the services already counted plus this one, and their processors,
    memory and disk plus this one's, stay within every limit it sets.
    Otherwise the check raises; it never writes anything. *)
Theorem quotas_bound_deploys c k p group cluster s out s' :
  enforce_quotas c k p group cluster s = (out, s') ->
  s' = s /\
  match out with
  | Ok _ => exists quotas, quotas <> [] /\
      locked_quotas c k (quota_scopes p.(pd_id) group cluster) s = (Ok quotas, s) /\
      forall q, In q quotas ->
        let counted := matching_billings k q s.(s_db) in
        exists used, used_resources s.(s_db) counted = Some used /\
          quota_admits q (Z.of_nat (length counted) + 1)
            (add_resources used (resource_values (effective_specs p)))
  | Raise _ => True
  end.
Proof.
  intros Hrun. split; [by apply enforce_quotas_pure in Hrun|].
  destruct out as [u|]; [|done]. unfold enforce_quotas in Hrun.
  apply bind_Ok in Hrun as (o & s1 & H1 & Hrun). injection H1 as <- <-.
  apply bind_Ok in Hrun as (r & s1 & H1 & Hrun).
  apply pure_unwrap in H1 as ->.
  apply bind_Ok in Hrun as (quotas & s1 & Hq & Hrun).
  assert (s1 = s) as -> by (by apply locked_quotas_pure in Hq).
  exists quotas. split; [by eapply locked_quotas_ok|]. split; [done|].
  clear Hq. induction quotas as [|q quotas IH]; [done|]. intros q' Hin. cbn in Hrun.
  apply bind_Ok in Hrun as ([] & s1 & H1 & Hrun). unfold bind at 1, read, gets in H1.
  pose proof (enforce_quota_spec q (matching_billings k q (s_db s))
    (resource_values (effective_specs p)) s) as Hw.
  apply (wp_result _ _ _ _ _ _ H1) in Hw as [-> Hq].
  destruct Hin as [<-|Hin]; [exact Hq|by apply IH].
Qed.

(** A virtual server of 1000 a month and 500 for the setup, of which reseller 1
    may run one. *)
Definition sample_product : product :=
  mk_product 7 "vps-2" true (Some (mk_product_family true "vm" [("cpu_cores", JInt 1)] None))
    [("cpu_cores", JStr " 2 "); ("ram_gb", JInt 4); ("disk_gb", JInt 40)] None.
Definition sample_price : effective_price :=
  mk_effective_price 7 500 1000 "USD" "base" "base".
Definition sample_catalog : catalog :=
  mk_catalog [sample_product] [mk_product_price 7 500 1000 "USD"] []
    [mk_product_access (Some 1) None 7 true]
    [mk_stock_quota (Some 1) None QS_PRODUCT 7 (Some 1) (Some 8) (Some 4096) None true].
Definition deploy_session : session :=
  session_of (sample_db <|db_methods := [sample_method]|>) 0.

Lemma quotas_bound_deploys_witness :
  quota_admits (mk_stock_quota (Some 1) None QS_PRODUCT 7 (Some 1) (Some 8) (Some 4096) None
                  true) 1 (mk_resources 2 4096 40).
Proof.
  assert (enforce_quotas sample_catalog 1 sample_product None None deploy_session
          = (Ok tt, deploy_session)) as Hrun by (vm_compute; reflexivity).
  destruct (quotas_bound_deploys _ _ _ _ _ _ _ _ Hrun) as (_ & quotas & _ & Hq & Hall).
  assert (In (mk_stock_quota (Some 1) None QS_PRODUCT 7 (Some 1) (Some 8) (Some 4096) None
            true) quotas) as Hin.
  { vm_compute in Hq. injection Hq as <-. by left. }
  destruct (Hall _ Hin) as (used & Hused & H). vm_compute in Hused. injection Hused as <-.
  exact H.
Defined.

(** * What can be sold *)

(** What a select that returns at most one row says of its table. *)
Lemma one_or_none_ok {R} (p : R -> bool) t s o s' :
  one_or_none p t s = (Ok o, s') ->
  s' = s /\ match o with
            | Some x => In x t /\ p x = true
            | None => forall x, In x t -> p x = false
            end.
Proof.
  unfold one_or_none, scalar_one_or_none.
  destruct (List.filter p t) as [|x [|y l]] eqn:Hf; [| |done]; intros [= <- <-].
  - split; [done|]. by apply filter_nil_iff.
  - split; [done|]. apply filter_In. rewrite Hf. by left.
Qed.

(** The access rule that decides. *)
Definition deciding_rule (c : catalog) (r : reseller) (product_id : Z)
    (rule : product_access) : Prop :=
  In rule c.(ct_access) /\ rule.(pa_product_id) = product_id /\
  (rule.(pa_reseller_id) = Some r.(rs_id) \/
   rule.(pa_group_id) = r.(rs_group_id) /\ r.(rs_group_id) <> None /\
   forall own, In own c.(ct_access) -> own.(pa_product_id) = product_id ->
               own.(pa_reseller_id) <> Some r.(rs_id)).

Lemma allowed_by_rule c k pid s s' :
  product_is_allowed c k pid s = (Ok true, s') ->
  exists r, tbl_get k s.(s_db).(db_resellers) = Some r /\
    exists rule, deciding_rule c r pid rule /\ rule.(pa_allowed) = true.
Proof.
  unfold product_is_allowed. intros (o & s1 & H1 & Hrun)%bind_Ok. injection H1 as <- <-.
  destruct (tbl_get k _) as [r|] eqn:Hr; [|done].
  assert (r.(rs_id) = k) as Hk by (by apply tbl_get_key in Hr).
  exists r. split; [done|].
  apply bind_Ok in Hrun as (own & s1 & H1 & Hrun). apply one_or_none_ok in H1 as [-> Hown].
  destruct own as [rule|].
  { injection Hrun as Hal _. destruct Hown as [Hin Hp]. rewrite andb_true_iff, py_eq_true in Hp.
    destruct Hp as [Hp1 Hp2]. exists rule. split; [|done]. split; [done|]. split; [lia|].
    left. by rewrite Hk. }
  destruct (rs_group_id r) as [g|] eqn:Hg; [|done].
  apply bind_Ok in Hrun as (group & s1 & H1 & Hrun). apply one_or_none_ok in H1 as [-> Hgr].
  destruct group as [rule|]; [|done]. injection Hrun as Hal _.
  destruct Hgr as [Hin Hp]. rewrite andb_true_iff, py_eq_true in Hp.
  destruct Hp as [Hp1 Hp2]. exists rule. split; [|done]. split; [done|]. split; [lia|].
  right. rewrite Hg, Hp1. split; [done|]. split; [done|]. intros x Hx Hpid Hxk.
  specialize (Hown x Hx). rewrite Hxk, Hpid, Hk, Z.eqb_refl, andb_true_r in Hown.
  by rewrite py_eq_refl in Hown.
Qed.

(** The price of a reseller: its group's override of the base price. *)
Definition priced (c : catalog) (r : reseller) (product_id : Z)
    (price : effective_price) : Prop :=
  exists base, In base c.(ct_prices) /\ base.(pc_product_id) = product_id /\
    price.(ef_currency) = base.(pc_currency) /\
    exists override,
      match override with
      | Some o => In o c.(ct_group_prices) /\ r.(rs_group_id) = Some o.(gp_group_id) /\
                  o.(gp_product_id) = product_id
      | None => forall o, In o c.(ct_group_prices) -> o.(gp_product_id) = product_id ->
                          r.(rs_group_id) <> Some o.(gp_group_id)
      end /\
      price.(ef_setup_cents)
        = default base.(pc_setup_cents) (override ≫= gp_setup_cents) /\
      price.(ef_monthly_cents)
        = default base.(pc_monthly_cents) (override ≫= gp_monthly_cents).

Lemma effective_price_priced c k pid s price s' r :
  tbl_get k s.(s_db).(db_resellers) = Some r ->
  get_effective_price c k pid s = (Ok (Some price), s') -> priced c r pid price.
Proof.
  intros Hr. unfold get_effective_price. intros (o & s1 & H1 & Hrun)%bind_Ok.
  injection H1 as <- <-. rewrite Hr in Hrun.
  apply bind_Ok in Hrun as (base & s1 & H1 & Hrun). apply one_or_none_ok in H1 as [-> Hbase].
  destruct base as [base|]; [|done]. destruct Hbase as [Hin Hpid].
  apply bind_Ok in Hrun as (override & s1 & Ho & Hrun). injection Hrun as <- _.
  exists base. split; [done|]. split; [lia|]. split; [done|]. exists override.
  split; [|split; by destruct override as [[? ? [|] [|]]|]].
  unfold override_of in Ho. destruct (rs_group_id r) as [g|]; [|by injection Ho as <- _].
  apply one_or_none_ok in Ho as [_ Ho]. destruct override as [o|].
  - destruct Ho as [Hin' Hp]. split; [done|]. split; [f_equal|]; lia.
  - intros o Hoin Hopid [= Heq]. specialize (Ho o Hoin). lia.
Qed.

(** A reseller is sold only what it may sell, at its own price: the product
    and its family are enabled, the reseller's own access rule allows it or, in
    the absence of one, its group's rule does (no rule means no), a base price
    exists, and each part of the price is the group's override where there is
    one and the base price otherwise, in the base currency. *)
Theorem sold_products_are_allowed_and_priced c k code s p price s' :
  resolve_sellable_product c k code s = (Ok (p, price), s') ->
  s' = s /\ In p c.(ct_products) /\ p.(pd_code) = code /\ p.(pd_enabled) = true /\
  family_is_enabled p = true /\
  exists r, tbl_get k s.(s_db).(db_resellers) = Some r /\
    (exists rule, deciding_rule c r p.(pd_id) rule /\ rule.(pa_allowed) = true) /\
    priced c r p.(pd_id) price.
Proof.
  intros Hrun. split; [by apply resolve_pure in Hrun|].
  unfold resolve_sellable_product in Hrun.
  apply bind_Ok in Hrun as (x & s1 & H1 & Hrun).
  destruct (List.find _ _) as [y|] eqn:Hfind; [|done]. injection H1 as -> <-.
  apply List.find_some in Hfind as [Hin Hcode]. rewrite py_eq_true in Hcode.
  apply bind_Ok in Hrun as ([] & s1 & H1 & Hrun).
  destruct (pd_enabled x) eqn:Hen; [|done]. destruct (family_is_enabled x) eqn:Hfam; [|done].
  injection H1 as <-. apply bind_Ok in Hrun as (allowed & s1 & Hal & Hrun).
  apply bind_Ok in Hrun as ([] & s2 & H1 & Hrun). destruct allowed; [|done].
  injection H1 as <-. pose proof (allowed_by_rule _ _ _ _ _ Hal) as (r & Hr & Hrule).
  assert (s1 = s) as -> by (by apply allowed_pure in Hal).
  apply bind_Ok in Hrun as (o & s2 & Hp & Hrun).
  apply bind_Ok in Hrun as (pr & s3 & H1 & Hrun). destruct o as [o|]; [|done].
  injection H1 as <- <-. injection Hrun as <- <- _.
  do 4 (split; [done|]). exists r. split; [done|]. split; [done|].
  by apply (effective_price_priced _ _ _ _ _ _ _ Hr Hp).
Qed.

Lemma sold_products_are_allowed_and_priced_witness :
  exists r, priced sample_catalog r 7 sample_price /\ r.(rs_id) = 1 /\
  (resolve_sellable_product sample_catalog 2 "vps-2" deploy_session).1
  = Raise (ProductNotAvailableError "Product not found").
Proof.
  assert (resolve_sellable_product sample_catalog 1 "vps-2" deploy_session
          = (Ok (sample_product, sample_price), deploy_session)) as Hrun
    by (vm_compute; reflexivity).
  destruct (sold_products_are_allowed_and_priced _ _ _ _ _ _ _ Hrun)
    as (_ & _ & _ & _ & _ & r & Hr & _ & Hp).
  exists r. split; [exact Hp|]. split; [by apply tbl_get_key in Hr|].
  vm_compute. reflexivity.
Defined.

(** * Compensation *)

Definition debit_amount (d : db) (e : Z) : Z :=
  match tbl_get e d.(db_ledger) with Some x => - x.(le_amount_cents) | None => 0 end.
Definition debits_total (d : db) (es : list Z) : Z :=
  fold_right (fun e n => debit_amount d e + n) 0 es.

(** [e] has one reversal, of exactly the opposite amount. *)
Definition given_back (d : db) (e : Z) : Prop :=
  exists o x, tbl_get e d.(db_ledger) = Some o /\ reversals_of e d = [x] /\
    x.(le_amount_cents) = - o.(le_amount_cents).

(** What one reversal of an unreversed entry does. *)
Lemma reverse_fresh k e dsc key m u s x s' r :
  tbl_get k s.(s_db).(db_resellers) = Some r ->
  reversals_of e s.(s_db) = [] ->
  reverse k e dsc key m u s = (Ok x, s') ->
  exists o c, tbl_get e s.(s_db).(db_ledger) = Some o /\
    c.(ctx_reversal_of_id) = Some e /\
    s' = s <|s_db := post_entry r ET_REVERSAL (- o.(le_amount_cents)) c s.(s_db)|>.
Proof.
  intros Hr Hnone Hrun. destruct (reverse_ok_inv _ _ _ _ _ _ _ _ _ Hrun) as (r' & o & Hrev).
  rewrite (reverse_eq _ _ _ _ _ _ _ _ _ Hrev) in Hrun.
  destruct (reverse_body_ok _ _ _ _ _ _ _ _ _ _ _ Hrev Hrun) as (Hrows & _ & Hcase).
  destruct Hrev as (Hr' & Ho & _). rewrite Hr in Hr'. injection Hr' as <-.
  destruct Hcase as [(-> & _)|(_ & ->)]; [by rewrite Hnone in Hrows|].
  exists o, (reversal_context o dsc key m u). split; [done|]. split; [|done].
  cbn. f_equal. by apply tbl_get_key in Ho.
Qed.

(** The rows an append-only posting keeps. *)
Lemma post_entry_get r et n c d e o :
  tbl_get e d.(db_ledger) = Some o -> tbl_get e (post_entry r et n c d).(db_ledger) = Some o.
Proof. intros Ho. cbn. by rewrite tbl_get_app, Ho. Qed.

(** Posting a reversal of another entry. *)
Lemma debits_total_post es r n c d :
  (forall e, In e es -> exists o, tbl_get e d.(db_ledger) = Some o) ->
  debits_total (post_entry r ET_REVERSAL n c d) es = debits_total d es.
Proof.
  intros Hex. induction es as [|e es IH]; [done|]. cbn [debits_total fold_right].
  fold (debits_total d es) (debits_total (post_entry r ET_REVERSAL n c d) es).
  rewrite IH by (intros x Hx; apply Hex; by right). f_equal.
  destruct (Hex e (or_introl eq_refl)) as [o Ho]. unfold debit_amount.
  by rewrite (post_entry_get _ _ _ _ _ _ _ Ho), Ho.
Qed.

(** The ledger and the balances are all a reversal writes. *)
Definition posted (s s' : session) : Prop :=
  exists rs l, s' = s <|s_db := s.(s_db) <|db_resellers := rs|> <|db_ledger := l|>|>.
Lemma posted_refl s : posted s s.
Proof.
  exists s.(s_db).(db_resellers), s.(s_db).(db_ledger).
  destruct s as [d c n ch sq]. by destruct d.
Qed.

Lemma refund_loop k inv m es s s' r :
  List.NoDup es -> tbl_get k s.(s_db).(db_resellers) = Some r ->
  (forall e, In e es -> (exists o, tbl_get e s.(s_db).(db_ledger) = Some o) /\
                        reversals_of e s.(s_db) = []) ->
  for_each es (fun e =>
    r <- the_reseller k ;;
    reverse k e (Some ("Failed deploy refund for invoice " +:+ pretty inv))
      (Some (refund_key inv e)) m (Some r.(rs_user_id)) ;;; ret tt) s = (Ok tt, s') ->
  tbl_get k s'.(s_db).(db_resellers) =
    Some (r <|rs_cached_balance_cents :=
               r.(rs_cached_balance_cents) + debits_total s.(s_db) es|>) /\
  (forall e, In e es -> given_back s'.(s_db) e) /\
  (forall e, ~ In e es -> reversals_of e s'.(s_db) = reversals_of e s.(s_db)) /\
  (forall e o, tbl_get e s.(s_db).(db_ledger) = Some o ->
     tbl_get e s'.(s_db).(db_ledger) = Some o) /\ posted s s'.
Proof.
  revert s r. induction es as [|e es IH]; intros s r Hnd Hr Hnone Hrun.
  { injection Hrun as <-. cbn. rewrite Z.add_0_r. split; [by destruct r|].
    do 3 (split; [done|]). apply posted_refl. }
  cbn [for_each] in Hrun. apply bind_Ok in Hrun as (u & s1 & Hone & Hrun).
  apply bind_Ok in Hone as (r0 & s0 & Hget & Hone).
  assert (r0 = r /\ s0 = s) as [-> ->].
  { revert Hget. unfold the_reseller, bind, read, gets. rewrite Hr. cbn.
    by intros [= <- <-]. }
  apply bind_Ok in Hone as (x & s0 & Hrev & Hone). injection Hone as _ <-.
  apply List.NoDup_cons_iff in Hnd as [Hnotin Hnd].
  destruct (Hnone e (or_introl eq_refl)) as [_ He].
  destruct (reverse_fresh _ _ _ _ _ _ _ _ _ _ Hr He Hrev) as (o & c & Ho & Hc & ->).
  clear Hrev. set (n := - le_amount_cents o) in *.
  assert (k = rs_id r) as -> by (by apply tbl_get_key in Hr).
  edestruct (IH (s <|s_db := post_entry r ET_REVERSAL n c s.(s_db)|>)
    (r <|rs_cached_balance_cents := r.(rs_cached_balance_cents) + n|>))
    as (Hbal & Hgiven & Hrest & Hold & Hpost); [done| |..|exact Hrun|].
  { cbn [s_db post_entry db_resellers update].
    rewrite (tbl_get_update_eq _ _ _ r); [reflexivity|done|exact Hr]. }
  { intros e' Hin. destruct (Hnone e' (or_intror Hin)) as [[o' Ho'] Hno]. split.
    - exists o'. by apply post_entry_get.
    - cbn [s_db update]. rewrite reversals_of_post, Hno, Hc. cbn.
      destruct (py_eq_spec (Some e) (Some e')) as [[= ->]|]; done. }
  split; [|split; [|split; [|split]]].
  - rewrite Hbal. cbn [s_db update]. rewrite debits_total_post
      by (intros e' Hin; apply Hnone; by right).
    assert (debits_total (s_db s) (e :: es) = n + debits_total (s_db s) es) as ->
      by (cbn; unfold debit_amount; by rewrite Ho).
    rewrite Z.add_assoc. by destruct r.
  - intros e' [<-|Hin]; [|by apply Hgiven]. exists o.
    eexists. split; [apply Hold; by apply post_entry_get|].
    rewrite (Hrest e Hnotin). cbn [s_db update]. rewrite reversals_of_post, He, Hc, py_eq_refl.
    split; [reflexivity|]. done.
  - intros e' Hin. rewrite Hrest by (intros H; apply Hin; by right). cbn [s_db update].
    rewrite reversals_of_post, Hc.
    destruct (py_eq_spec (Some e) (Some e')) as [[= ->]|]; [|by rewrite app_nil_r].
    exfalso. apply Hin. by left.
  - intros e' o' Ho'. apply Hold. by apply post_entry_get.
  - destruct Hpost as (rs & l & ->). by eexists _, _.
Qed.

Definition set_request_failed (error : string) (q : provisioning_request)
  : provisioning_request :=
  q <|rq_status := RQ_FAILED|> <|rq_error_message := Some (str_take 2000 error)|>.

(** Compensating a failed deploy gives the reseller exactly the wallet
    money back: the balance rises by the sum of the charge's debits, each of
    which now has one reversal of exactly the opposite amount; the invoice is
    void, the request (if there is one) is failed, and all of it is committed. *)
Theorem failed_deploy_returns_credit k charge error s s' r :
  let es := charge.(ch_ledger_entries) in
  List.NoDup es -> tbl_get k s.(s_db).(db_resellers) = Some r ->
  (forall e, In e es -> (exists o, tbl_get e s.(s_db).(db_ledger) = Some o) /\
                        reversals_of e s.(s_db) = []) ->
  compensate_failed_deploy k charge error s = (Ok tt, s') ->
  tbl_get k s'.(s_db).(db_resellers) =
    Some (r <|rs_cached_balance_cents :=
               r.(rs_cached_balance_cents) + debits_total s.(s_db) es|>) /\
  (forall e, In e es -> given_back s'.(s_db) e) /\
  s'.(s_db).(db_invoices) =
    tbl_update charge.(ch_invoice) (fun i => i <|in_status := IS_VOID|>)
      s.(s_db).(db_invoices) /\
  s'.(s_db).(db_requests) =
    match charge.(ch_request) with
    | Some q => tbl_update q (set_request_failed error) s.(s_db).(db_requests)
    | None => s.(s_db).(db_requests)
    end /\
  s'.(s_committed) = s'.(s_db).
Proof.
  intros es Hnd Hr Hes Hrun. unfold compensate_failed_deploy in Hrun.
  apply bind_Ok in Hrun as ([] & s1 & Hloop & Hrun).
  destruct (refund_loop _ _ _ _ _ _ _ Hnd Hr Hes Hloop)
    as (Hbal & Hgiven & _ & _ & rs & l & ->).
  apply bind_Ok in Hrun as ([] & s2 & Hinv & Hrun). injection Hinv as <-.
  apply bind_Ok in Hrun as ([] & s3 & Hreq & Hrun). apply commit_inv in Hrun as ->.
  unfold note_request in Hreq. destruct charge.(ch_request) as [q|];
    injection Hreq as <-; done.
Qed.

(** Reseller 1 with 2000 of credit, charged for a deploy. *)
Definition credited_session : session :=
  ((credit 1 2000 no_context ;;; commit) deploy_session).2.
#[local] Abbreviation charge_deploy :=
  (prepare_deploy_charge (fun r k => fund_invoice sample_registry r k None) 1
     sample_product sample_price (Some "order-1") "h1").
Definition credit_charge : deploy_charge :=
  mk_deploy_charge sample_product sample_price 1 [2] (Some 1).

Lemma failed_deploy_returns_credit_witness :
  let s := (charge_deploy credited_session).2 in
  let s' := (compensate_failed_deploy 1 credit_charge "no capacity" s).2 in
  (charge_deploy credited_session).1 = Ok credit_charge /\
  option_map rs_cached_balance_cents (tbl_get 1 s.(s_db).(db_resellers)) = Some 500 /\
  option_map rs_cached_balance_cents (tbl_get 1 s'.(s_db).(db_resellers)) = Some 2000 /\
  given_back s'.(s_db) 2.
Proof.
  intros s s'. split; [vm_compute; reflexivity|]. split; [vm_compute; reflexivity|].
  destruct (tbl_get 1 s.(s_db).(db_resellers)) as [r|] eqn:Hr;
    [|exfalso; vm_compute in Hr; discriminate].
  assert (compensate_failed_deploy 1 credit_charge "no capacity" s = (Ok tt, s')) as Hrun.
  { assert (fst (compensate_failed_deploy 1 credit_charge "no capacity" s) = Ok tt) as <-
      by (vm_compute; reflexivity).
    subst s'. by destruct (compensate_failed_deploy _ _ _ _). }
  destruct (failed_deploy_returns_credit 1 credit_charge "no capacity" s s' r) as (Hb & Hg & _).
  - repeat constructor. intros [].
  - exact Hr.
  - intros e [<-|[]]. split; [eexists; vm_compute; reflexivity|vm_compute; reflexivity].
  - exact Hrun.
  - rewrite Hb. split; [|apply Hg; by left]. vm_compute in Hr. injection Hr as <-.
    vm_compute. reflexivity.
Defined.

(** Compensation gives back only wallet credit: when the deploy was charged
    to a card or PayPal, its charge carries no ledger entry, and the failed
    deploy leaves every payment, the ledger and the balances as they were and
    asks no gateway for a refund.  The customer has paid for a void invoice. *)
Theorem failed_card_deploy_keeps_the_money k charge error s s' i :
  charge.(ch_ledger_entries) = [] ->
  tbl_get charge.(ch_invoice) s.(s_db).(db_invoices) = Some i ->
  compensate_failed_deploy k charge error s = (Ok tt, s') ->
  tbl_get charge.(ch_invoice) s'.(s_db).(db_invoices) = Some (i <|in_status := IS_VOID|>) /\
  allocated_in charge.(ch_invoice) s'.(s_db) = allocated_in charge.(ch_invoice) s.(s_db) /\
  s'.(s_db).(db_payments) = s.(s_db).(db_payments) /\
  s'.(s_db).(db_ledger) = s.(s_db).(db_ledger) /\
  s'.(s_db).(db_resellers) = s.(s_db).(db_resellers) /\
  s'.(s_charges) = s.(s_charges).
Proof.
  intros Hes Hi Hrun. unfold compensate_failed_deploy in Hrun. rewrite Hes in Hrun.
  apply bind_Ok in Hrun as ([] & s1 & H1 & Hrun). injection H1 as <-.
  apply bind_Ok in Hrun as ([] & s2 & H2 & Hrun). injection H2 as <-.
  apply bind_Ok in Hrun as ([] & s3 & H3 & Hrun). apply commit_inv in Hrun as ->.
  unfold note_request in H3. destruct charge.(ch_request) as [q|]; injection H3 as <-;
    (split; [cbn [s_db db_invoices update]; by rewrite (tbl_get_update_eq _ _ _ i)|done]).
Qed.

Definition card_charge : deploy_charge :=
  mk_deploy_charge sample_product sample_price 1 [] (Some 1).

Lemma failed_card_deploy_keeps_the_money_witness :
  let s := (charge_deploy deploy_session).2 in
  let s' := (compensate_failed_deploy 1 card_charge "no capacity" s).2 in
  (charge_deploy deploy_session).1 = Ok card_charge /\
  allocated_in 1 s'.(s_db) = 1500 /\ map cr_amount_cents s'.(s_charges) = [1500] /\
  map in_status s'.(s_db).(db_invoices) = [IS_VOID].
Proof.
  intros s s'. split; [vm_compute; reflexivity|].
  destruct (tbl_get 1 s.(s_db).(db_invoices)) as [i|] eqn:Hi;
    [|exfalso; vm_compute in Hi; discriminate].
  assert (compensate_failed_deploy 1 card_charge "no capacity" s = (Ok tt, s')) as Hrun.
  { assert (fst (compensate_failed_deploy 1 card_charge "no capacity" s) = Ok tt) as <-
      by (vm_compute; reflexivity).
    subst s'. by destruct (compensate_failed_deploy _ _ _ _). }
  destruct (failed_card_deploy_keeps_the_money 1 card_charge "no capacity" s s' i eq_refl Hi Hrun)
    as (_ & Hal & _ & _ & _ & Hch).
  cbn [card_charge ch_invoice] in Hal. rewrite Hal, Hch.
  split; [vm_compute; reflexivity|]. split; vm_compute; reflexivity.
Defined.

(** * The charge *)

(** Foreign keys: every payment belongs to an invoice. *)
Definition payments_have_invoices (d : db) : Prop :=
  forall p, In p d.(db_payments) -> exists i, tbl_get p.(pm_invoice_id) d.(db_invoices) = Some i.

Lemma unbilled k d :
  payments_have_invoices d -> tbl_get k d.(db_invoices) = None -> allocated_in k d = 0.
Proof.
  intros Hfk Hk. unfold allocated_in. rewrite (tbl_sum_ext _ (fun _ => false) _ pm_amount_cents).
  - unfold tbl_sum. induction d.(db_payments); [done|]. cbn. lia.
  - intros p Hp. destruct (Hfk p Hp) as [i Hi].
    destruct (Z.eqb_spec (pm_invoice_id p) k) as [<-|]; [by rewrite Hk in Hi|done].
Qed.

Lemma note_request_ok request f s u s' :
  note_request request f s = (Ok u, s') ->
  exists q, s' = s <|s_db := s.(s_db) <|db_requests := q|>|>.
Proof.
  unfold note_request. destruct request as [k|]; intros [= _ <-]; [by eexists|].
  exists s.(s_db).(db_requests). destruct s as [d ? ? ? ?]. by destruct d.
Qed.

Lemma pure_the_reseller k : pure_query (the_reseller k).
Proof. unfold the_reseller. pure_tac. Qed.

(** Whatever was noted before, a deploy without credit raises. *)
Lemma unfunded_raises {A} request f e s (a : A) s' :
  (note_request request f ;;; commit ;;; raise e) s = (Ok a, s') -> False.
Proof. by intros (? & ? & _ & (? & ? & _ & ?)%bind_Ok)%bind_Ok. Qed.

Lemma create_ok a s k s' :
  flush s = (Ok tt, s) -> create a s = (Ok k, s') ->
  k = tbl_fresh s.(s_db).(db_invoices) /\ s' = after_create a s.
Proof.
  intros Hf Hrun. destruct (valid_args a) eqn:Hv.
  - rewrite (create_eq a s Hf Hv) in Hrun.
    destruct (flush (after_create a s)) as [[?|?] ?]; [|done]. by injection Hrun as <- <-.
  - destruct (create_invalid a s Hv) as [msg Hc]. by rewrite Hc in Hrun.
Qed.

(** The invoice as [create_deploy] leaves it, with nothing paid yet. *)
Lemma create_deploy_funding k total dsc cur s inv s' :
  tbl_wf s.(s_db).(db_payments) -> payments_have_invoices s.(s_db) ->
  flush s = (Ok tt, s) ->
  create_deploy k total dsc None cur s = (Ok inv, s') ->
  funding inv total 0 s' /\ 0 <= total /\ tbl_get inv s.(s_db).(db_invoices) = None.
Proof.
  intros Hwf Hfk Hf Hrun. unfold create_deploy, bind at 1, utcnow, gets in Hrun.
  destruct (create_ok _ _ _ _ Hf Hrun) as [-> ->].
  assert (tbl_get (tbl_fresh (db_invoices (s_db s))) (db_invoices (s_db s)) = None) as Hnone
    by apply tbl_get_fresh.
  assert (0 <= total) as Hpos.
  { unfold create, bind at 1, require_positive_cents in Hrun. cbn [ia_amount_cents] in Hrun.
    destruct (Z.leb_spec total 0); [done|lia]. }
  split; [|by split]. unfold after_create. split; [exact Hwf|]. split.
  - eexists. cbn [s_db db_invoices update]. rewrite tbl_get_app, Hnone.
    unfold tbl_get. cbn [List.find].
    change (row_key (created_invoice _ _)) with (tbl_fresh (db_invoices (s_db s))).
    rewrite Z.eqb_refl. split; reflexivity.
  - cbn [s_db update]. apply (unbilled _ _ Hfk Hnone).
Qed.

(** What the idempotency record of a deploy changes before the charge: nothing
    but the table of requests; a request that was charged before is resumed with
    its paid invoice. *)
Lemma prepare_idempotency_ok k p price key hash s request resumed s' :
  flush s = (Ok tt, s) ->
  prepare_deploy_idempotency k p price key hash s = (Ok (request, resumed), s') ->
  (exists q, s' = s <|s_db := s.(s_db) <|db_requests := q|>|>) /\
  match resumed with
  | Some charge => exists i, tbl_get charge.(ch_invoice) s.(s_db).(db_invoices) = Some i /\
                             i.(in_status) = IS_PAID
  | None => flush s' = (Ok tt, s')
  end.
Proof.
  intros Hf Hrun.
  assert (exists q, s = s <|s_db := s.(s_db) <|db_requests := q|>|>) as Hsame
    by (exists s.(s_db).(db_requests); destruct s as [d ? ? ? ?]; by destruct d).
  unfold prepare_deploy_idempotency in Hrun.
  destruct key as [[|c key]|]; [by injection Hrun as <- <- <-| |by injection Hrun as <- <- <-].
  set (the_key := String c key) in *.
  apply bind_Ok in Hrun as (o & s1 & H1 & Hrun).
  apply bind_Ok in H1 as (rows & s2 & H2 & H1). injection H2 as <- <-.
  assert (s1 = s) as ->.
  { unfold scalar_one_or_none in H1.
    destruct (requests_with_key _ _ _) as [|? [|? ?]]; by injection H1. }
  destruct o as [q|].
  - apply bind_Ok in Hrun as (u & s2 & H2 & Hrun). apply pure_throw in H2 as ->.
    apply bind_Ok in Hrun as (paid & s2 & H2 & Hrun). injection H2 as <- <-.
    destruct (resumable q (s_db s)) as [i|] eqn:Hres; [|done].
    apply bind_Ok in Hrun as (u' & s2 & H2 & Hrun). injection H2 as _ <-.
    injection Hrun as <- <- <-. split; [by eexists|]. exists i. cbn [ch_invoice].
    unfold resumable, request_invoice in Hres.
    destruct (rq_status q), (rq_invoice_id q) as [n|]; try done.
    destruct (tbl_get n _) as [i'|] eqn:Hi; [|done].
    destruct (in_status i' == IS_PAID) eqn:Hp; [|done]. injection Hres as <-.
    rewrite py_eq_true in Hp. split; [|done].
    by rewrite (tbl_get_key _ _ _ Hi : in_id i' = n).
  - apply bind_Ok in Hrun as (id & s2 & H2 & Hrun). injection H2 as <- <-.
    apply bind_Ok in Hrun as (u & s2 & H2 & Hrun). injection H2 as _ <-.
    apply bind_Ok in Hrun as ([] & s2 & H2 & Hrun). pose proof (flush_inv _ _ _ H2) as ->.
    injection Hrun as <- <- <-. split; [by eexists|exact H2].
Qed.

(** C26. A deploy is provisioned only once its invoice is paid: when the charge
    succeeds its invoice is PAID, and either the invoice is new, for the setup
    fee plus the first month, covered to the cent by succeeded payments and
    committed, or the invoice was already there and paid (an earlier request
    under the same key that lacked credit, since settled) and is not charged
    again. *)
Theorem deploy_is_paid_before_provisioning reg k p price key hash s charge s' :
  tbl_wf s.(s_db).(db_payments) -> payments_have_invoices s.(s_db) ->
  flush s = (Ok tt, s) ->
  prepare_deploy_charge (fun r i => fund_invoice reg r i None) k p price key hash s
  = (Ok charge, s') ->
  exists i, tbl_get charge.(ch_invoice) s'.(s_db).(db_invoices) = Some i /\
    i.(in_status) = IS_PAID /\
    ((tbl_get charge.(ch_invoice) s.(s_db).(db_invoices) = None /\
      i.(in_amount_cents) = price.(ef_setup_cents) + price.(ef_monthly_cents) /\
      allocated_in charge.(ch_invoice) s'.(s_db) = i.(in_amount_cents) /\
      0 < i.(in_amount_cents) /\ s'.(s_committed) = s'.(s_db)) \/
     (tbl_get charge.(ch_invoice) s.(s_db).(db_invoices) = Some i /\
      s'.(s_db).(db_payments) = s.(s_db).(db_payments) /\
      s'.(s_db).(db_ledger) = s.(s_db).(db_ledger) /\ s'.(s_charges) = s.(s_charges))).
Proof.
  intros Hwf Hfk Hf Hrun. unfold prepare_deploy_charge in Hrun.
  set (total := price.(ef_setup_cents) + price.(ef_monthly_cents)) in *.
  apply bind_Ok in Hrun as ([] & s0 & H1 & Hrun).
  destruct (Z.leb_spec total 0) as [|Hpos]; [done|]. injection H1 as <-.
  apply bind_Ok in Hrun as ([request resumed] & s1 & H1 & Hrun).
  apply prepare_idempotency_ok in H1 as [[q ->] Hres]; [|done].
  destruct resumed as [charge'|].
  { injection Hrun as <- <-. destruct Hres as (i & Hi & Hp).
    exists i. split; [exact Hi|]. split; [done|]. by right. }
  apply bind_Ok in Hrun as (inv & s2 & H1 & Hrun).
  apply create_deploy_funding in H1 as (Hfund & _ & Hnone); [|done..].
  apply bind_Ok in Hrun as (u & s3 & H1 & Hrun).
  apply note_request_ok in H1 as [q3 ->].
  apply bind_Ok in Hrun as (r & s3 & H1 & Hrun). apply pure_the_reseller in H1 as ->.
  apply bind_Ok in Hrun as (res & s4 & H1 & Hrun).
  match type of H1 with
  | _ ?st = _ => pose proof (fund_invoice_spec reg k inv None total 0 st Hfund ltac:(lia)) as Hw
  end.
  apply (wp_result _ _ _ _ _ _ H1) in Hw as (y & Hf4 & Hy & (_ & _ & Hfd) & Hpaid).
  destruct (fr_funded res) eqn:Hfr; cbn [negb] in Hrun.
  2: { by apply unfunded_raises in Hrun. }
  symmetry in Hfd. apply Z.eqb_eq in Hfd as ->.
  apply bind_Ok in Hrun as (u5 & s5 & H5 & Hrun).
  pose proof (mark_paid_spec inv total total s4 Hf4 ltac:(lia)) as Hw.
  apply (wp_result _ _ _ _ _ _ H5) in Hw as [(_ & (i & Hi & Ha) & Hal) Hp5].
  destruct (Hp5 eq_refl) as (i' & Hi' & Hst).
  rewrite Hi in Hi'. injection Hi' as <-.
  apply bind_Ok in Hrun as (es & s6 & H6 & Hrun). injection H6 as <- <-.
  apply bind_Ok in Hrun as (u6 & s6 & H6 & Hrun). apply commit_inv in H6 as ->.
  injection Hrun as <- <-. exists i. cbn [ch_invoice]. split; [exact Hi|].
  split; [done|]. left. rewrite Ha. cbn in *. repeat split; done || lia.
Qed.

Lemma deploy_is_paid_before_provisioning_witness :
  let s' := (charge_deploy credited_session).2 in
  exists i, tbl_get 1 s'.(s_db).(db_invoices) = Some i /\ i.(in_status) = IS_PAID /\
    i.(in_amount_cents) = 1500.
Proof.
  intros s'.
  assert (charge_deploy credited_session = (Ok credit_charge, s')) as Hrun.
  { assert (fst (charge_deploy credited_session) = Ok credit_charge) as <-
      by (vm_compute; reflexivity).
    subst s'. by destruct (charge_deploy _). }
  assert (credited_session.(s_db).(db_payments) = []) as Hp by (vm_compute; reflexivity).
  assert (credited_session.(s_db).(db_invoices) = []) as Hn by (vm_compute; reflexivity).
  destruct (deploy_is_paid_before_provisioning sample_registry 1 sample_product sample_price
    (Some "order-1") "h1" credited_session credit_charge s') as (i & Hi & Hst & Hcase).
  - rewrite Hp. constructor.
  - unfold payments_have_invoices. rewrite Hp. by intros p [].
  - vm_compute. reflexivity.
  - exact Hrun.
  - rewrite Hn in Hcase. exists i. split; [exact Hi|]. split; [exact Hst|].
    destruct Hcase as [(_ & Ha & _)|[H _]]; [exact Ha|discriminate H].
Defined.

(** * Repeating a deploy *)

Lemma link_entries_ok service_id es s u s' :
  for_each es (fun e =>
    write (fun d => d <|db_ledger :=
      tbl_update e (fun x => x <|le_service_id := Some service_id|>) d.(db_ledger)|>)) s
  = (Ok u, s') ->
  exists l, s' = s <|s_db := s.(s_db) <|db_ledger := l|>|>.
Proof.
  revert s. induction es as [|e es IH]; intros s Hrun.
  - injection Hrun as _ <-. exists s.(s_db).(db_ledger).
    destruct s as [d ? ? ? ?]. by destruct d.
  - apply bind_Ok in Hrun as (x & s1 & H1 & Hrun). injection H1 as _ <-.
    apply IH in Hrun as [l ->]. by exists l.
Qed.

(** What a finished deploy leaves: one more billing, active and due one
    calendar month later, the invoice linked to the service and the request
    SUCCEEDED. *)
Lemma finalize_ok k service_id charge s id s' :
  finalize_deploy k service_id charge s = (Ok id, s') ->
  id = tbl_fresh s.(s_db).(db_billings) /\
  (exists next, next_calendar_month s.(s_now) None = Some next /\
     s'.(s_db).(db_billings) = s.(s_db).(db_billings) ++
       [mk_service_billing id service_id (Some k) None
          (Some charge.(ch_product).(pd_id)) charge.(ch_price).(ef_setup_cents)
          charge.(ch_price).(ef_monthly_cents) charge.(ch_price).(ef_currency)
          (Some next) None BS_ACTIVE 0 None None None None (Some s.(s_now))]) /\
  s'.(s_db).(db_invoices)
  = tbl_update charge.(ch_invoice) (fun i => i <|in_service_id := Some service_id|>)
      s.(s_db).(db_invoices) /\
  s'.(s_db).(db_requests)
  = match charge.(ch_request) with
    | Some q => tbl_update q (fun q => q <|rq_service_id := Some service_id|>
                                         <|rq_status := RQ_SUCCEEDED|>) s.(s_db).(db_requests)
    | None => s.(s_db).(db_requests)
    end /\
  s'.(s_db).(db_services) = s.(s_db).(db_services) /\ s'.(s_committed) = s'.(s_db).
Proof.
  unfold finalize_deploy. intros (now & s1 & H1 & Hrun)%bind_Ok. injection H1 as <- <-.
  apply bind_Ok in Hrun as (next & s1 & H1 & Hrun).
  destruct (next_calendar_month _ _) as [n|] eqn:Hn; [|done]. injection H1 as <- <-.
  apply bind_Ok in Hrun as (id' & s1 & H1 & Hrun). injection H1 as <- <-.
  apply bind_Ok in Hrun as (u1 & s1 & H1 & Hrun). injection H1 as _ <-.
  apply bind_Ok in Hrun as (u2 & s1 & H1 & Hrun). injection H1 as _ <-.
  apply bind_Ok in Hrun as (u3 & s1 & H1 & Hrun). apply link_entries_ok in H1 as [l ->].
  apply bind_Ok in Hrun as (u4 & s1 & H1 & Hrun).
  apply bind_Ok in Hrun as (u5 & s2 & H2 & Hrun). apply commit_inv in H2 as ->.
  injection Hrun as <- <-. unfold note_request in H1.
  destruct charge.(ch_request) as [q|]; injection H1 as _ <-;
    (split; [done|]; split; [by exists n|]; done).
Qed.

(** The request of a key, once it has succeeded. *)
Lemma the_request k key q s :
  requests_with_key k key s.(s_db) = [q] ->
  get_provisioning_request k key s = (Ok (Some q), s).
Proof.
  intros Hq. unfold get_provisioning_request, bind, read, gets. by rewrite Hq.
Qed.

Lemma prepare_raises fund k p price key hash s e :
  0 < price.(ef_setup_cents) + price.(ef_monthly_cents) ->
  prepare_deploy_idempotency k p price key hash s = (Raise e, s) ->
  prepare_deploy_charge fund k p price key hash s = (Raise e, s).
Proof.
  intros Hpos Hp. unfold prepare_deploy_charge.
  rewrite (proj2 (Z.leb_gt _ _) Hpos). cbn [throw_if]. unfold bind at 1, ret at 1.
  unfold bind at 1. by rewrite Hp.
Qed.

(** C37. An idempotency key is charged once: after a deploy under key [key] has
    finished, the same request under that key is answered with the service and
    invoice of that deploy, charging it again is refused, and the key with any
    other request is refused as a conflict; nothing is written in any of the
    cases, whatever the product, price and way of funding. *)
Theorem deploy_key_is_charged_once k key hash q service_id charge s id s' i v :
  key <> "" ->
  requests_with_key k key s.(s_db) = [q] -> q.(rq_request_hash) = hash ->
  charge.(ch_request) = Some q.(rq_id) -> q.(rq_invoice_id) = Some charge.(ch_invoice) ->
  tbl_get charge.(ch_invoice) s.(s_db).(db_invoices) = Some i ->
  tbl_get service_id s.(s_db).(db_services) = Some v ->
  finalize_deploy k service_id charge s = (Ok id, s') ->
  lookup_idempotent_result k (Some key) hash s'
  = (Ok (Some (service_id, charge.(ch_invoice))), s') /\
  (forall fund p price, 0 < price.(ef_setup_cents) + price.(ef_monthly_cents) ->
     prepare_deploy_charge fund k p price (Some key) hash s'
     = (Raise (IdempotencyConflictError "Idempotent request is succeeded"), s')) /\
  (forall fund p price hash', hash' <> hash ->
     lookup_idempotent_result k (Some key) hash' s' = (Raise conflict_hash, s') /\
     (0 < price.(ef_setup_cents) + price.(ef_monthly_cents) ->
      prepare_deploy_charge fund k p price (Some key) hash' s' = (Raise conflict_hash, s'))).
Proof.
  intros Hkey Hq <- Hch Hinv Hi Hv Hrun.
  apply finalize_ok in Hrun as (_ & _ & His & Hrs & Hss & _).
  rewrite Hch in Hrs. set (q' := q <|rq_service_id := Some service_id|>
                                   <|rq_status := RQ_SUCCEEDED|>).
  assert (get_provisioning_request k key s' = (Ok (Some q'), s')) as Hget.
  { apply the_request. unfold requests_with_key. rewrite Hrs, filter_tbl_update by done.
    fold (requests_with_key k key s.(s_db)). rewrite Hq.
    unfold tbl_update. cbn [map]. change (row_key q) with q.(rq_id).
    by rewrite Z.eqb_refl. }
  assert (request_invoice q' s'.(s_db) = Some (i <|in_service_id := Some service_id|>)) as Hi'.
  { unfold request_invoice. change (rq_invoice_id q') with q.(rq_invoice_id).
    rewrite Hinv, His. by apply (tbl_get_update_eq _ (fun i => i <|in_service_id := _|>)). }
  assert (request_service q' s'.(s_db) = Some v) as Hv' by (cbn; by rewrite Hss).
  assert (row_key i = charge.(ch_invoice)) as Hik by (by apply tbl_get_key in Hi).
  assert (row_key v = service_id) as Hvk by (by apply tbl_get_key in Hv).
  destruct key as [|c key]; [done|].
  assert (forall h, (rq_request_hash q' != h) = negb (q.(rq_request_hash) == h)) as Hh by done.
  split; [|split].
  - unfold lookup_idempotent_result, bind. rewrite Hget, Hh, py_eq_refl. cbn -[q'].
    unfold read, gets. rewrite Hi', Hv'. cbn. by rewrite <- Hik, <- Hvk.
  - intros fund p price Hpos. apply prepare_raises; [done|].
    unfold prepare_deploy_idempotency, bind. by rewrite Hget, Hh, py_eq_refl.
  - intros fund p price h Hne.
    assert ((rq_request_hash q == h) = false) as Hf by (apply py_eq_false; congruence).
    split.
    + unfold lookup_idempotent_result, bind. by rewrite Hget, Hh, Hf.
    + intros Hpos. apply prepare_raises; [done|].
      unfold prepare_deploy_idempotency, bind. by rewrite Hget, Hh, Hf.
Qed.

(** A reseller with credit and two servers, charged for the first one. *)
Definition stocked_session : session :=
  ((credit 1 5000 no_context ;;;
    write (fun d => d <|db_services := [Dunning.sample_service 1; Dunning.sample_service 2]|>) ;;;
    commit) deploy_session).2.

Lemma deploy_key_is_charged_once_witness :
  let s := (charge_deploy stocked_session).2 in
  let s' := (finalize_deploy 1 1 credit_charge s).2 in
  (charge_deploy stocked_session).1 = Ok credit_charge /\
  lookup_idempotent_result 1 (Some "order-1") "h1" s' = (Ok (Some (1, 1)), s') /\
  lookup_idempotent_result 1 (Some "order-1") "h2" s' = (Raise conflict_hash, s') /\
  charge_deploy s'
  = (Raise (IdempotencyConflictError "Idempotent request is succeeded"), s').
Proof.
  intros s s'. split; [vm_compute; reflexivity|].
  assert (exists id, finalize_deploy 1 1 credit_charge s = (Ok id, s')) as [id Hrun].
  { exists 1. assert (fst (finalize_deploy 1 1 credit_charge s) = Ok 1) as <-
      by (vm_compute; reflexivity).
    subst s'. by destruct (finalize_deploy _ _ _ _). }
  assert (exists i, tbl_get 1 s.(s_db).(db_invoices) = Some i) as [i Hi]
    by (eexists; vm_compute; reflexivity).
  set (q := mk_provisioning_request 1 1 "order-1" "h1" (Some 1) None RQ_PROCESSING None).
  destruct (deploy_key_is_charged_once 1 "order-1" "h1" q 1 credit_charge s id s' i
    (Dunning.sample_service 1)) as (H1 & H2 & H3).
  - discriminate.
  - vm_compute. reflexivity.
  - reflexivity.
  - reflexivity.
  - reflexivity.
  - exact Hi.
  - vm_compute. reflexivity.
  - exact Hrun.
  - split; [exact H1|]. split; [|apply H2; reflexivity].
    destruct (H3 (fun _ _ => raise AttributeError) sample_product sample_price "h2") as [H _];
      [discriminate|exact H].
Defined.

(** * The quota check and concurrent deploys *)

(** The quota is counted in billings, which a deploy adds when it finishes; the
    commit of its charge has then released the locks of its quota check long
    since. Two deploys that overlap so pass a quota of one service together. *)
Lemma overlapping_deploys_exceed_the_quota :
  let quota := mk_stock_quota (Some 1) None QS_PRODUCT 7 (Some 1) (Some 8) (Some 4096) None
                 true in
  let check := enforce_quotas sample_catalog 1 sample_product None None in
  let pay key := prepare_deploy_charge (fun r k => fund_invoice sample_registry r k None) 1
                   sample_product sample_price (Some key) "h" in
  locked_quotas sample_catalog 1 (quota_scopes 7 None None) stocked_session
  = (Ok [quota], stocked_session) /\
  ((check ;;; a <- pay "a" ;; check ;;; b <- pay "b" ;;
    finalize_deploy 1 1 a ;;; finalize_deploy 1 2 b ;;;
    read (fun d => length (matching_billings 1 quota d))) stocked_session).1 = Ok 2%nat.
Proof. split; vm_compute; reflexivity. Qed.

(** * The endpoint *)

Lemma pure_as_http {A} code (m : Meth A) : pure_query m -> pure_query (as_http code m).
Proof.
  intros Hm s r s'. unfold as_http, try_catch. destruct (m s) as [[a|e] s1] eqn:E.
  - intros [= _ <-]. by apply Hm in E.
  - apply Hm in E as ->. destruct (code e); by intros [= _ <-].
Qed.
Lemma as_http_ok {A} code (m : Meth A) s a s' :
  as_http code m s = (Ok a, s') -> m s = (Ok a, s').
Proof.
  unfold as_http, try_catch. destruct (m s) as [[x|e] s1]; [done|]. by destruct (code e).
Qed.

Lemma pure_provisioning_request k key : pure_query (get_provisioning_request k key).
Proof. unfold get_provisioning_request, scalar_one_or_none. pure_tac. Qed.
#[local] Hint Resolve pure_provisioning_request pure_the_reseller pure_as_http : dcim.

Lemma lookup_pure k key h : pure_query (lookup_idempotent_result k key h).
Proof. unfold lookup_idempotent_result. pure_tac. Qed.
Lemma context_pure code key : pure_query (create_request_context code key).
Proof. unfold create_request_context. pure_tac. Qed.

(** A replay names the service and invoice of a finished request. *)
Definition replayed (k : Z) (h : string) (service invoice : Z) (d : db) : Prop :=
  exists q, In q d.(db_requests) /\ q.(rq_reseller_id) = k /\ q.(rq_request_hash) = h /\
    q.(rq_status) = RQ_SUCCEEDED /\ q.(rq_service_id) = Some service /\
    q.(rq_invoice_id) = Some invoice.

Lemma lookup_replays k key h s service invoice s' :
  lookup_idempotent_result k key h s = (Ok (Some (service, invoice)), s') ->
  replayed k h service invoice s.(s_db).
Proof.
  unfold lookup_idempotent_result. destruct key as [[|c key]|]; [done| |done].
  intros (o & s1 & H1 & Hrun)%bind_Ok.
  pose proof (pure_provisioning_request _ _ _ _ _ H1) as ->.
  destruct o as [q|]; [|done]. unfold get_provisioning_request, bind at 1 in H1.
  cbn in H1. unfold scalar_one_or_none in H1.
  destruct (requests_with_key _ _ _) as [|q' [|]] eqn:Hq; [done| |done].
  injection H1 as ->.
  assert (In q (requests_with_key k (String c key) (s_db s))) as Hin by (rewrite Hq; by left).
  apply filter_In in Hin as [Hin Hk].
  apply bind_Ok in Hrun as (u & s1 & H1 & Hrun). pose proof (pure_throw _ _ _ _ _ H1) as ->.
  destruct (rq_request_hash q != h) eqn:Hh; [done|].
  apply bind_Ok in Hrun as (oi & s1 & H2 & Hrun). injection H2 as <- <-.
  apply bind_Ok in Hrun as (os & s1 & H2 & Hrun). injection H2 as <- <-.
  exists q. split; [done|]. split; [lia|].
  split; [apply py_eq_true; by apply negb_false_iff in Hh|].
  unfold request_invoice, request_service in Hrun.
  destruct (rq_status q), (rq_service_id q) as [v|], (rq_invoice_id q) as [n|]; try done;
    repeat (case_match; try done);
    try (apply bind_Ok in Hrun as (? & ? & _ & Hrun); discriminate Hrun).
  split; [done|]. injection Hrun as <- <- _.
  split; f_equal; symmetry; by eapply (tbl_get_key _ _ _).
Qed.

(** A blocked account deploys nothing: while the reseller is on billing hold
    or its balance is negative, a deploy request writes nothing and charges
    nothing whatever it asks for; it is refused, or answered with the service
    and invoice of a finished deploy of the same request. *)
Theorem blocked_account_deploys_nothing c fund checks provision cleanup describe translate
    k code key h group cluster s r out s' :
  tbl_get k s.(s_db).(db_resellers) = Some r -> may_deploy r = false ->
  create_service c fund checks provision cleanup describe translate k code key h group
    cluster s = (out, s') ->
  s' = s /\
  match out with
  | Ok (service, invoice, replay) => replay = true /\ replayed k h service invoice s.(s_db)
  | Raise _ => True
  end.
Proof.
  intros Hr Hm Hrun. unfold create_service in Hrun. unfold bind at 1 in Hrun.
  destruct (create_request_context code key s) as [[[cd ky]|e] s1] eqn:H1;
    pose proof (context_pure _ _ _ _ _ H1) as ->; [|by injection Hrun as <- <-].
  unfold bind at 1 in Hrun. destruct (as_http _ _ s) as [o s1] eqn:H2.
  pose proof (pure_as_http _ _ (lookup_pure _ _ _) _ _ _ H2) as ->.
  destruct o as [[[v i]|]|e]; [| |by injection Hrun as <- <-].
  - injection Hrun as <- <-. split; [done|]. split; [done|].
    apply as_http_ok in H2. by eapply lookup_replays.
  - unfold bind at 1, enforce_deploy_billing_state, the_reseller, bind, read, gets in Hrun.
    rewrite Hr in Hrun. cbn in Hrun. rewrite Hm in Hrun. by injection Hrun as <- <-.
Qed.

(** A reseller that owes money after a finished deploy. *)
Definition owing_session : session :=
  ((charge <- charge_deploy ;; finalize_deploy 1 1 charge ;;;
    debit 1 9000 no_context true ;;; commit) stocked_session).2.
#[local] Abbreviation sample_request key h :=
  (create_service sample_catalog (fun r k => fund_invoice sample_registry r k None)
     (fun _ => ret tt) (fun _ => ret 2) (ret tt) (fun _ => "") (fun e => e) 1 (Some " vps-2 ")
     key h None None).

Lemma blocked_account_deploys_nothing_witness :
  let s := owing_session in
  (sample_request None "h1" s).2 = s /\
  (sample_request None "h1" s).1 = Raise (HTTPException 402) /\
  (sample_request (Some "order-1") "h1" s).1 = Ok (1, 1, true) /\
  replayed 1 "h1" 1 1 s.(s_db).
Proof.
  intros s. destruct (tbl_get 1 s.(s_db).(db_resellers)) as [r|] eqn:Hr;
    [|exfalso; vm_compute in Hr; discriminate].
  assert (may_deploy r = false) as Hm
    by (vm_compute in Hr; injection Hr as <-; reflexivity).
  destruct (sample_request None "h1" s) as [out s1] eqn:H1.
  destruct (sample_request (Some "order-1") "h1" s) as [out2 s2] eqn:H2.
  destruct (blocked_account_deploys_nothing _ _ _ _ _ _ _ _ _ _ _ _ _ _ _ _ _ Hr Hm H1)
    as [Hs _].
  pose proof (blocked_account_deploys_nothing _ _ _ _ _ _ _ _ _ _ _ _ _ _ _ _ _ Hr Hm H2)
    as [_ Hout].
  assert (out = Raise (HTTPException 402)) as ->.
  { change out with (fst (out, s1)). rewrite <- H1. vm_compute. reflexivity. }
  assert (out2 = Ok (1, 1, true)) as ->.
  { change out2 with (fst (out2, s2)). rewrite <- H2. vm_compute. reflexivity. }
  split; [exact Hs|]. split; [reflexivity|]. split; [reflexivity|exact (proj2 Hout)].
Defined.
