(* ===== verification/Permissions.v ===== *)
(** What the owner of a service may do with it: the permission catalogue of
    src/app/core/client_permissions.py, the layers of
    src/app/services/client_permission_resolver.py, the presets of
    src/app/dao/permission_set_dao.py with their administration and their
    seeding at start-up, and the policies resellers set for their clients. *)
From Stdlib Require Import ZArith Lia.
From stdpp Require Import base numbers list strings pretty.
From S2P Require Import Prelude Models Session.
#[local] Open Scope Z_scope.
#[local] Open Scope py_scope.

(** * The catalogue: keys and the service types they are meant for *)

Definition PERMISSION_CATALOG : list (string * list string) :=
  [("service.view", ["bare_metal"; "vm"; "http_proxy"]);
   ("service.portal", ["bare_metal"; "vm"; "http_proxy"]);
   ("bms.power", ["bare_metal"; "http_proxy"]);
   ("bms.ipmi", ["bare_metal"; "http_proxy"]);
   ("bms.kvm", ["bare_metal"; "http_proxy"]);
   ("bms.sol", ["bare_metal"; "http_proxy"]);
   ("bms.virtual_media", ["bare_metal"; "http_proxy"]);
   ("bms.reinstall", ["bare_metal"; "http_proxy"]);
   ("bms.run_script", ["bare_metal"; "http_proxy"]);
   ("vm.power", ["vm"]);
   ("vm.console", ["vm"]);
   ("vm.reinstall", ["vm"]);
   ("vm.backups", ["vm"]);
   ("vm.change_password", ["vm"]);
   ("vm.reset_network", ["vm"]);
   ("vm.manage_ssh_keys", ["vm"]);
   ("proxy.view_credentials", ["http_proxy"]);
   ("proxy.rotate_credentials", ["http_proxy"])].

Definition DEFAULT_PERMISSIONS_BY_SERVICE_TYPE (t : service_type) : dict :=
  match t with
  | ST_BARE_METAL =>
      [("service.view", JBool true); ("service.portal", JBool true);
       ("bms.power", JBool true); ("bms.ipmi", JBool true);
       ("bms.kvm", JBool true); ("bms.sol", JBool true);
       ("bms.virtual_media", JBool true); ("bms.reinstall", JBool false);
       ("bms.run_script", JBool false)]
  | ST_VM =>
      [("service.view", JBool true); ("service.portal", JBool true);
       ("vm.power", JBool true); ("vm.console", JBool true);
       ("vm.reinstall", JBool false); ("vm.backups", JBool true);
       ("vm.change_password", JBool true); ("vm.reset_network", JBool false);
       ("vm.manage_ssh_keys", JBool true)]
  | ST_HTTP_PROXY =>
      [("service.view", JBool true); ("service.portal", JBool true);
       ("bms.power", JBool false); ("bms.ipmi", JBool false);
       ("bms.kvm", JBool false); ("bms.sol", JBool false);
       ("bms.virtual_media", JBool false);
       ("proxy.view_credentials", JBool true);
       ("proxy.rotate_credentials", JBool false)]
  end.

Definition SYSTEM_PRESETS : list (string * dict) :=
  [("Full access",
    [("service.view", JBool true); ("service.portal", JBool true);
     ("bms.power", JBool true); ("bms.ipmi", JBool true);
     ("bms.kvm", JBool true); ("bms.sol", JBool true);
     ("bms.virtual_media", JBool true); ("bms.reinstall", JBool true);
     ("bms.run_script", JBool true); ("vm.power", JBool true);
     ("vm.console", JBool true); ("vm.reinstall", JBool true);
     ("vm.backups", JBool true); ("vm.change_password", JBool true);
     ("vm.reset_network", JBool true); ("vm.manage_ssh_keys", JBool true);
     ("proxy.view_credentials", JBool true);
     ("proxy.rotate_credentials", JBool true)]);
   ("Power + IPMI",
    [("service.view", JBool true); ("service.portal", JBool true);
     ("bms.power", JBool true); ("bms.ipmi", JBool true);
     ("bms.kvm", JBool true); ("bms.sol", JBool true);
     ("bms.virtual_media", JBool true); ("bms.reinstall", JBool false);
     ("bms.run_script", JBool false); ("vm.power", JBool true);
     ("vm.console", JBool true); ("vm.reinstall", JBool false);
     ("vm.backups", JBool true); ("vm.change_password", JBool true);
     ("vm.reset_network", JBool false); ("vm.manage_ssh_keys", JBool true)]);
   ("Read-only",
    [("service.view", JBool true); ("service.portal", JBool true);
     ("bms.power", JBool false); ("bms.ipmi", JBool false);
     ("bms.kvm", JBool false); ("bms.sol", JBool false);
     ("bms.virtual_media", JBool false); ("bms.reinstall", JBool false);
     ("bms.run_script", JBool false); ("vm.power", JBool false);
     ("vm.console", JBool false); ("vm.reinstall", JBool false);
     ("vm.backups", JBool false); ("vm.change_password", JBool false);
     ("vm.reset_network", JBool false); ("vm.manage_ssh_keys", JBool false);
     ("proxy.view_credentials", JBool false);
     ("proxy.rotate_credentials", JBool false)]);
   ("Proxy credentials only",
    [("service.view", JBool true); ("service.portal", JBool true);
     ("bms.power", JBool false); ("bms.ipmi", JBool false);
     ("bms.kvm", JBool false); ("bms.sol", JBool false);
     ("bms.virtual_media", JBool false);
     ("proxy.view_credentials", JBool true);
     ("proxy.rotate_credentials", JBool false)])].

Definition ALL_PERMISSION_KEYS : list string := map fst PERMISSION_CATALOG.
Definition applicable (service_type : string) : list string :=
  map fst (List.filter (fun e => existsb (fun t => service_type == t) e.2)
             PERMISSION_CATALOG).

#[global] Arguments applicable : simpl never.
#[global] Arguments PERMISSION_CATALOG : simpl never.
#[global] Arguments DEFAULT_PERMISSIONS_BY_SERVICE_TYPE : simpl never.
#[global] Arguments SYSTEM_PRESETS : simpl never.

(** * Rows *)

(** [PermissionSet]; an update can leave a JSON null for the permissions. *)
Record permission_set : Type := mk_permission_set {
  ps_id : Z;
  ps_name : string;
  ps_permissions : option dict;
  ps_is_system : bool
}.
#[export] Instance eta_permission_set : Eta permission_set := fun r =>
  mk_permission_set r.(ps_id) r.(ps_name) r.(ps_permissions) r.(ps_is_system).
#[export] Instance keyed_permission_set : Keyed permission_set := ps_id.

(** The columns of [services] the resolver reads, with its owner's preset:
    [sa_owner] is [None] for a service nobody owns. *)
Record service_access : Type := mk_service_access {
  sa_id : Z;
  sa_service_type : service_type;
  sa_product_code : option string;
  sa_owner : option (option Z);
  sa_permission_set_id : option Z;
  sa_permission_overrides : option dict
}.
#[export] Instance eta_service_access : Eta service_access := fun r =>
  mk_service_access r.(sa_id) r.(sa_service_type) r.(sa_product_code) r.(sa_owner)
    r.(sa_permission_set_id) r.(sa_permission_overrides).
#[export] Instance keyed_service_access : Keyed service_access := sa_id.

(** [ResellerClientProductPermission] *)
Record client_policy : Type := mk_client_policy {
  cl_reseller_id : Z;
  cl_product_id : Z;
  cl_visible : bool;
  cl_permissions : dict
}.

(** [Product]: its code, its family's service type, its preset. *)
Record access_product : Type := mk_access_product {
  ap_id : Z;
  ap_code : string;
  ap_family_type : option string;
  ap_permission_set_id : option Z
}.

Record access_db : Type := mk_access_db {
  ad_presets : list permission_set;
  ad_services : list service_access;
  ad_products : list access_product;
  ad_policies : list client_policy
}.
#[export] Instance eta_access_db : Eta access_db := fun d =>
  mk_access_db d.(ad_presets) d.(ad_services) d.(ad_products) d.(ad_policies).
Abbreviation Access A := (M access_db exn A).

(** [bool(x)] of a JSON value. *)
Definition json_true (j : json) : bool :=
  match j with
  | JNull => false
  | JBool b => b
  | JInt n => negb (n =? 0)
  | JStr s => negb (str_empty s)
  | JList l => match l with [] => false | _ => true end
  | JObj l => match l with [] => false | _ => true end
  end.

(** * Resolution *)

Definition merge (base : dict) (overlay : option dict) : dict :=
  match overlay with
  | None | Some [] => base
  | Some over => dict_merge base over
  end.

(** The permissions of the preset a layer names, if there is one. *)
Definition preset_of (d : access_db) (k : option Z) : option dict :=
  match k with
  | Some n => if n =? 0 then None else tbl_get n d.(ad_presets) ≫= ps_permissions
  | None => None
  end.

Definition product_preset (d : access_db) (s : service_access) : option dict :=
  match s.(sa_product_code) with
  | None | Some EmptyString => None
  | Some code =>
      match List.find (fun p => p.(ap_code) == code) d.(ad_products) with
      | Some p => preset_of d p.(ap_permission_set_id)
      | None => None
      end
  end.
Definition owner_preset (d : access_db) (s : service_access) : option dict :=
  match s.(sa_owner) with Some k => preset_of d k | None => None end.

Definition resolve_client_permissions (d : access_db) (s : service_access) : dict :=
  let permissions := DEFAULT_PERMISSIONS_BY_SERVICE_TYPE s.(sa_service_type) in
  let permissions := merge permissions (product_preset d s) in
  let permissions := merge permissions (owner_preset d s) in
  let permissions := merge permissions (preset_of d s.(sa_permission_set_id)) in
  merge permissions s.(sa_permission_overrides).

Definition has_client_permission (d : access_db) (s : service_access) (key : string) : bool :=
  match dict_get key (resolve_client_permissions d s) with
  | Some v => json_true v
  | None => false
  end.

Definition require_client_permission (s : service_access) (key : string) : Access unit :=
  d <- get ;; throw_if (negb (has_client_permission d s key)) (HTTPException 403).

(** * Presets and their administration *)

Definition preset_names_unique (t : list permission_set) : bool :=
  bool_decide (NoDup (map ps_name t)).

(** [db.commit()] of new rows: a duplicate name fails and leaves them out. *)
Definition commit_presets (f : list permission_set -> list permission_set) : Access unit :=
  d <- get ;;
  let t := f d.(ad_presets) in
  throw_if (negb (preset_names_unique t)) IntegrityError ;;;
  modify (fun d => d <|ad_presets := t|>).

Definition find_preset (k : Z) : Access (option permission_set) :=
  gets (fun d => tbl_get k d.(ad_presets)).
Definition get_by_name (name : string) : Access (option permission_set) :=
  gets (fun d => List.find (fun p => p.(ps_name) == name) d.(ad_presets)).

Definition dao_create (name : string) (permissions : option dict) (is_system : bool)
  : Access Z :=
  k <- gets (fun d => tbl_fresh d.(ad_presets)) ;;
  commit_presets (fun t =>
    t ++ [mk_permission_set k name
            (Some (match permissions with Some p => p | None => [] end)) is_system]) ;;;
  ret k.

Definition dao_delete (k : Z) : Access bool :=
  o <- find_preset k ;;
  match o with
  | None => ret false
  | Some _ => commit_presets (tbl_delete k) ;;; ret true
  end.

Definition unknown_keys (permissions : dict) : list string :=
  List.filter (fun k => negb (existsb (fun x => k == x) ALL_PERMISSION_KEYS))
    (map fst permissions).
Definition validate_permission_keys (permissions : dict) : Access unit :=
  throw_if (match unknown_keys permissions with [] => false | _ => true end)
    (HTTPException 400).

(** The request models coerce every value to a bool. *)
Abbreviation flags := (list (string * bool)).
Definition dict_of_flags (l : flags) : dict := map (fun x => (x.1, JBool x.2)) l.

Definition create_permission_set (name : string) (permissions : flags) : Access Z :=
  validate_permission_keys (dict_of_flags permissions) ;;;
  o <- get_by_name name ;;
  throw_if (match o with Some _ => true | None => false end) (HTTPException 409) ;;;
  dao_create name (Some (dict_of_flags permissions)) false.

(** Each field is absent from the request, null or a value. *)
Definition update_permission_set (k : Z) (name : option (option string))
    (permissions : option (option flags)) : Access unit :=
  o <- find_preset k ;;
  row <- unwrap o (HTTPException 404) ;;
  match permissions with
  | Some (Some p) => validate_permission_keys (dict_of_flags p)
  | _ => ret tt
  end ;;;
  match name with
  | Some (Some n) =>
      if negb (str_empty n) && (n != row.(ps_name)) then
        o <- get_by_name n ;;
        throw_if (match o with Some e => negb (e.(ps_id) =? row.(ps_id)) | None => false end)
          (HTTPException 409)
      else ret tt
  | _ => ret tt
  end ;;;
  throw_if (match name with Some None => true | _ => false end) IntegrityError ;;;
  commit_presets (tbl_update k (fun r =>
    r <|ps_name := match name with Some (Some n) => n | _ => r.(ps_name) end|>
      <|ps_permissions := match permissions with
                          | Some (Some p) => Some (dict_of_flags p)
                          | Some None => None
                          | None => r.(ps_permissions)
                          end|>)).

Definition delete_permission_set (k : Z) : Access unit :=
  o <- find_preset k ;;
  row <- unwrap o (HTTPException 404) ;;
  throw_if row.(ps_is_system) (HTTPException 400) ;;;
  dao_delete k ;;; ret tt.

(** * Seeding, at every start of the application *)

(** Copy the value of [from] onto [to] when only [from] is there. *)
Definition copy_key (to from : string) (permissions : dict) : dict :=
  if dict_has to permissions then permissions
  else match dict_get from permissions with
       | Some v => dict_set to (JBool (json_true v)) permissions
       | None => permissions
       end.
Definition backfill_bms_keys (permissions : dict) : dict :=
  copy_key "bms.virtual_media" "bms.kvm"
    (copy_key "bms.sol" "bms.kvm" (copy_key "bms.kvm" "bms.ipmi" permissions)).

Definition ensure_system_presets : Access unit :=
  for_each SYSTEM_PRESETS (fun preset =>
    o <- get_by_name preset.1 ;;
    match o with
    | Some _ => ret tt
    | None => dao_create preset.1 (Some preset.2) true ;;; ret tt
    end).

Definition is_read_only (name : string) : bool :=
  str_lower (str_strip name) == "read-only".
Definition enable_change_password (row : permission_set) : permission_set :=
  if is_read_only row.(ps_name) then row
  else
    let perms := match row.(ps_permissions) with Some p => p | None => [] end in
    match dict_get "vm.change_password" perms with
    | Some (JBool true) => row
    | _ => row <|ps_permissions := Some (dict_set "vm.change_password" (JBool true) perms)|>
    end.
Definition clear_change_password_denial (s : service_access) : service_access :=
  match s.(sa_permission_overrides) with
  | None => s
  | Some overrides =>
      match dict_get "vm.change_password" overrides with
      | Some (JBool false) =>
          s <|sa_permission_overrides :=
                match dict_del "vm.change_password" overrides with
                | [] => None | rest => Some rest
                end|>
      | _ => s
      end
  end.
(** Rows without keys to copy, and rows without permissions, stay as they are. *)
Definition backfill_preset (row : permission_set) : permission_set :=
  row <|ps_permissions := option_map backfill_bms_keys row.(ps_permissions)|>.
Definition backfill_service (s : service_access) : service_access :=
  s <|sa_permission_overrides := option_map backfill_bms_keys s.(sa_permission_overrides)|>.

Definition seed_permission_sets : Access unit :=
  ensure_system_presets ;;;
  modify (fun d => d
    <|ad_presets := map enable_change_password d.(ad_presets)|>) ;;;
  modify (fun d => d
    <|ad_services := map clear_change_password_denial d.(ad_services)|>) ;;;
  modify (fun d => d <|ad_presets := map backfill_preset d.(ad_presets)|>) ;;;
  modify (fun d => d <|ad_services := map backfill_service d.(ad_services)|>).

(** * What resellers leave their clients *)

Definition service_type_of (value : string) : option service_type :=
  List.find (fun t => service_type_value t == value) [ST_BARE_METAL; ST_VM; ST_HTTP_PROXY].

(** [{key: bool(value) for key, value in d.items() if key in applicable}] *)
Definition applicable_flags (keys : list string) (d : dict) : dict :=
  map (fun x => (x.1, JBool (json_true x.2)))
    (List.filter (fun x => existsb (fun k => x.1 == k) keys) d).

(** The set of applicable keys is enumerated in catalogue order. *)
Definition product_permission_ceiling (d : access_db) (p : access_product) : dict :=
  match p.(ap_family_type) ≫= service_type_of with
  | None => []
  | Some t =>
      let keys := applicable (service_type_value t) in
      let ceiling := map (fun k => (k, JBool false)) keys in
      let ceiling :=
        dict_merge ceiling (applicable_flags keys (DEFAULT_PERMISSIONS_BY_SERVICE_TYPE t)) in
      match p.(ap_permission_set_id) ≫= (fun k => tbl_get k d.(ad_presets)) with
      | None => ceiling
      | Some preset =>
          dict_merge ceiling
            (applicable_flags keys
               (match preset.(ps_permissions) with Some q => q | None => [] end))
      end
  end.

Definition policies_for (reseller_id product_id : Z) (d : access_db) : list client_policy :=
  List.filter (fun c => (c.(cl_reseller_id) =? reseller_id)
                        && (c.(cl_product_id) =? product_id)) d.(ad_policies).
Definition get_client_product_policy (reseller_id product_id : Z)
  : Access (option client_policy) :=
  rows <- gets (policies_for reseller_id product_id) ;;
  scalar_one_or_none MultipleResultsFound rows.

Definition client_product_is_visible (reseller_id product_id : Z) : Access bool :=
  policy <- get_client_product_policy reseller_id product_id ;;
  ret (match policy with None => true | Some c => c.(cl_visible) end).

(** [ceiling_value and choices.get(key, ceiling_value)] *)
Definition chosen (choices : dict) (key : string) (ceiling_value : json) : bool :=
  json_true ceiling_value
  && json_true (match dict_get key choices with Some v => v | None => ceiling_value end).
Definition limited (ceiling choices : dict) : dict :=
  map (fun x => (x.1, JBool (chosen choices x.1 x.2))) ceiling.

Definition effective_client_product_permissions (reseller_id : Z) (p : access_product)
  : Access dict :=
  ceiling <- gets (fun d => product_permission_ceiling d p) ;;
  policy <- get_client_product_policy reseller_id p.(ap_id) ;;
  ret (match policy with
       | None => ceiling
       | Some c => limited ceiling c.(cl_permissions)
       end).

(** The endpoint by which a reseller sets its policy for a product it may sell
    ([update_product_client_permissions] of src/app/api/reseller_panel.py). *)
Definition set_policy (c : client_policy) (t : list client_policy) : list client_policy :=
  let same x := (x.(cl_reseller_id) =? c.(cl_reseller_id))
                && (x.(cl_product_id) =? c.(cl_product_id)) in
  if existsb same t then map (fun x => if same x then c else x) t else t ++ [c].
Definition update_product_client_permissions (reseller_id : Z) (p : access_product)
    (visible : bool) (permissions : flags) : Access unit :=
  ceiling <- gets (fun d => product_permission_ceiling d p) ;;
  throw_if (existsb (fun x => negb (dict_has x.1 ceiling)) permissions)
    (HTTPException 422) ;;;
  throw_if (existsb (fun x => x.2 && negb (match dict_get x.1 ceiling with
                                           | Some v => json_true v | None => false
                                           end)) permissions)
    (HTTPException 422) ;;;
  get_client_product_policy reseller_id p.(ap_id) ;;;
  modify (fun d => d <|ad_policies :=
    set_policy (mk_client_policy reseller_id p.(ap_id) visible (dict_of_flags permissions))
      d.(ad_policies)|>).

(** The overrides a deployed service keeps ([_provision_charged_service] of
    src/app/api/reseller.py): the reseller's denials, never its grants. *)
Definition denials (effective : dict) : dict :=
  map (fun x => (x.1, JBool false)) (List.filter (fun x => negb (json_true x.2)) effective).
Definition deny_on_service (reseller_id : Z) (p : access_product) (service_id : Z)
  : Access unit :=
  effective <- effective_client_product_permissions reseller_id p ;;
  modify (fun d => d <|ad_services :=
    tbl_update service_id (fun s => s <|sa_permission_overrides := Some (denials effective)|>)
      d.(ad_services)|>).

(** * Laws of dicts *)

Lemma dict_get_set k k' v d :
  dict_get k (dict_set k' v d) = if k == k' then Some v else dict_get k d.
Proof.
  induction d as [|[k1 v1] d IH]; cbn; [done|].
  destruct (py_eq_spec k' k1) as [->|Hne]; cbn.
  - by destruct (k == k1).
  - rewrite IH. destruct (py_eq_spec k k1) as [->|]; [|done].
    destruct (py_eq_spec k1 k') as [->|]; [congruence|done].
Qed.

(** One binding per key, as in every Python dict. *)
Definition dict_wf (d : dict) : Prop := NoDup (map fst d).

Lemma dict_get_In k v d : dict_get k d = Some v -> In (k, v) d.
Proof.
  induction d as [|[k' v'] d IH]; [done|]. cbn.
  destruct (py_eq_spec k k') as [->|]; [intros [= ->]; by left|]. intros H. right. auto.
Qed.
Lemma dict_get_None k d : dict_get k d = None <-> ~ In k (map fst d).
Proof.
  induction d as [|[k' v'] d IH]; cbn; [split; [intros _ []|done]|].
  destruct (py_eq_spec k k') as [->|Hne]; [|rewrite IH; intuition congruence].
  split; [done|]. intros H. exfalso. apply H. by left.
Qed.

Lemma dict_get_merge k d e :
  dict_wf e ->
  dict_get k (dict_merge d e)
  = match dict_get k e with Some v => Some v | None => dict_get k d end.
Proof.
  unfold dict_merge, dict_wf. revert d. induction e as [|[k' v'] e IH]; intros d He; [done|].
  cbn in He. apply NoDup_cons in He as [Hk He]. cbn. rewrite IH, dict_get_set by done.
  destruct (py_eq_spec k k') as [->|]; [|by destruct (dict_get k e)].
  rewrite (proj2 (dict_get_None k' e)); [done|]. by rewrite <- list_elem_of_In.
Qed.

Lemma dict_set_keys k v d :
  incl (map fst (dict_set k v d)) (k :: map fst d).
Proof.
  induction d as [|[k' v'] d IH]; cbn; [apply incl_refl|].
  destruct (py_eq_spec k k') as [->|]; cbn; [apply incl_tl, incl_refl|].
  intros x [<-|Hx]; [right; by left|]. apply IH in Hx as [<-|Hx]; [by left|].
  right; by right.
Qed.

Lemma dict_set_wf k v d : dict_wf d -> dict_wf (dict_set k v d).
Proof.
  unfold dict_wf. induction d as [|[k' v'] d IH]; cbn; [intros _; apply NoDup_singleton|].
  intros [Hk Hd]%NoDup_cons. destruct (py_eq_spec k k') as [->|Hne]; cbn;
    [by apply NoDup_cons|]. apply NoDup_cons. split; [|auto].
  intros Hin. apply list_elem_of_In, dict_set_keys in Hin. apply Hk, list_elem_of_In.
  destruct Hin as [->|]; done.
Qed.

(** * Resolution: the most specific layer decides *)

(** The layers, the most specific first. *)
Definition layers (d : access_db) (s : service_access) : list (option dict) :=
  [s.(sa_permission_overrides); preset_of d s.(sa_permission_set_id); owner_preset d s;
   product_preset d s; Some (DEFAULT_PERMISSIONS_BY_SERVICE_TYPE s.(sa_service_type))].

(** The value of the first layer that sets the key. *)
Fixpoint first_set (key : string) (ls : list (option dict)) : option json :=
  match ls with
  | [] => None
  | l :: rest => match l ≫= dict_get key with
                 | Some v => Some v
                 | None => first_set key rest
                 end
  end.

Lemma merge_get k d o :
  (forall e, o = Some e -> dict_wf e) ->
  dict_get k (merge d o) = match o ≫= dict_get k with Some v => Some v | None => dict_get k d end.
Proof.
  intros Ho. destruct o as [[|x e]|]; [done| |done]. cbn [merge mbind option_bind].
  by rewrite dict_get_merge by by apply Ho.
Qed.

Lemma most_specific_layer d s key :
  List.Forall (fun l => match l with Some e => dict_wf e | None => True end) (layers d s) ->
  dict_get key (resolve_client_permissions d s) = first_set key (layers d s).
Proof.
  intros Hwf. unfold resolve_client_permissions, layers in *.
  rewrite !List.Forall_cons_iff in Hwf. destruct Hwf as (H1 & H2 & H3 & H4 & _).
  assert (forall o, match o with Some e => dict_wf e | None => True end ->
                    forall e, o = Some e -> dict_wf e) as Ho by (by intros ? ? ? ->).
  rewrite !merge_get by by apply Ho. cbn [first_set mbind option_bind].
  repeat case_match; congruence.
Qed.

(** C39. The permissions of a service are those of its most specific layer: for
    every key, the value that is effective is the one of its overrides, else of
    the service's preset, else of the owner's preset, else of the product's
    preset, else the built-in default of its type; a layer that does not set
    the key leaves it to the next, and a key no layer sets is denied with 403. *)
Theorem most_specific_layer_decides d s key :
  List.Forall (fun l => match l with Some e => dict_wf e | None => True end) (layers d s) ->
  dict_get key (resolve_client_permissions d s) = first_set key (layers d s) /\
  require_client_permission s key d
  = match first_set key (layers d s) with
    | Some v => if json_true v then (Ok tt, d) else (Raise (HTTPException 403), d)
    | None => (Raise (HTTPException 403), d)
    end.
Proof.
  intros Hwf. pose proof (most_specific_layer d s key Hwf) as Heq.
  split; [done|]. unfold require_client_permission, bind, get, has_client_permission.
  rewrite Heq. destruct (first_set _ _) as [v|]; [|done]. by destruct (json_true v).
Qed.

(** A customer with the read-only preset, whose one service has its reboot back. *)
Definition sample_access : access_db :=
  mk_access_db
    [mk_permission_set 1 "Read-only" (Some [("vm.power", JBool false); ("vm.console", JBool false)])
       true]
    [mk_service_access 1 ST_VM (Some "vps-2") (Some (Some 1)) None
       (Some [("vm.power", JBool true)])]
    [mk_access_product 7 "vps-2" (Some "vm") None] [].
Definition sample_access_service : service_access :=
  mk_service_access 1 ST_VM (Some "vps-2") (Some (Some 1)) None (Some [("vm.power", JBool true)]).

Lemma most_specific_layer_decides_witness :
  require_client_permission sample_access_service "vm.power" sample_access
  = (Ok tt, sample_access) /\
  require_client_permission sample_access_service "vm.console" sample_access
  = (Raise (HTTPException 403), sample_access) /\
  require_client_permission sample_access_service "vm.backups" sample_access
  = (Ok tt, sample_access).
Proof.
  assert (List.Forall (fun l => match l with Some e => dict_wf e | None => True end)
            (layers sample_access sample_access_service)) as Hwf.
  { repeat constructor; unfold dict_wf; apply (bool_decide_unpack _); vm_compute; exact I. }
  split; [|split].
  - rewrite (proj2 (most_specific_layer_decides _ _ "vm.power" Hwf)). reflexivity.
  - rewrite (proj2 (most_specific_layer_decides _ _ "vm.console" Hwf)). reflexivity.
  - rewrite (proj2 (most_specific_layer_decides _ _ "vm.backups" Hwf)). reflexivity.
Defined.

(** * Resellers limit, and never extend, what their clients may do *)

Definition granted (key : string) (d : dict) : bool :=
  match dict_get key d with Some v => json_true v | None => false end.

Lemma dict_merge_wf d e : dict_wf d -> dict_wf (dict_merge d e).
Proof.
  unfold dict_merge. revert d. induction e as [|x e IH]; intros d Hd; [done|].
  cbn. by apply IH, dict_set_wf.
Qed.

Lemma applicable_wf t : NoDup (applicable (service_type_value t)).
Proof. apply (bool_decide_unpack _). destruct t; vm_compute; exact I. Qed.

Lemma constant_dict_wf l v : NoDup l -> dict_wf (map (fun k => (k, v)) l).
Proof. unfold dict_wf. rewrite map_map. cbn. by rewrite map_id. Qed.

Lemma ceiling_wf d p : dict_wf (product_permission_ceiling d p).
Proof.
  unfold product_permission_ceiling. destruct (_ ≫= service_type_of) as [t|]; [|apply NoDup_nil_2].
  assert (dict_wf (map (fun k => (k, JBool false)) (applicable (service_type_value t)))) as Hwf
    by (apply constant_dict_wf, applicable_wf).
  destruct (_ ≫= _); by repeat apply dict_merge_wf.
Qed.

Lemma limited_get key ceiling choices :
  dict_get key (limited ceiling choices)
  = option_map (fun v => JBool (chosen choices key v)) (dict_get key ceiling).
Proof.
  unfold limited. induction ceiling as [|[k v] c IH]; [done|]. cbn.
  destruct (py_eq_spec key k) as [->|]; [done|exact IH].
Qed.
Lemma limited_keys ceiling choices : map fst (limited ceiling choices) = map fst ceiling.
Proof. unfold limited. rewrite map_map. by apply map_ext. Qed.

Lemma denials_get key d :
  dict_wf d ->
  dict_get key (denials d)
  = match dict_get key d with
    | Some v => if json_true v then None else Some (JBool false)
    | None => None
    end.
Proof.
  unfold denials, dict_wf. induction d as [|[k v] d IH]; [done|]. cbn [map fst List.filter snd].
  intros [Hk Hd]%NoDup_cons. specialize (IH Hd).
  destruct (json_true v) eqn:Hv; cbn; destruct (py_eq_spec key k) as [->|]; rewrite ?Hv;
    try done.
  rewrite IH. rewrite (proj2 (dict_get_None k d)); [done|]. by rewrite <- list_elem_of_In.
Qed.
Lemma denials_wf d : dict_wf d -> dict_wf (denials d).
Proof.
  unfold dict_wf, denials. rewrite map_map. cbn. induction d as [|[k v] d IH]; [done|].
  cbn. intros [Hk Hd]%NoDup_cons. destruct (json_true v); cbn; [auto|].
  apply NoDup_cons. split; [|auto]. rewrite list_elem_of_In, in_map_iff.
  intros ([k' v'] & <- & [Hin _]%filter_In). apply Hk, list_elem_of_In, in_map_iff.
  by exists (k', v').
Qed.

Lemma effective_ok reseller_id p d effective d' :
  effective_client_product_permissions reseller_id p d = (Ok effective, d') ->
  d' = d /\ dict_wf effective /\
  forall key, granted key effective = true ->
              granted key (product_permission_ceiling d p) = true.
Proof.
  unfold effective_client_product_permissions, get_client_product_policy,
    scalar_one_or_none.
  intros (ceiling & d1 & H1 & Hrun)%bind_Ok. injection H1 as <- <-.
  apply bind_Ok in Hrun as (o & d1 & H1 & Hrun).
  apply bind_Ok in H1 as (rows & d2 & H2 & H1). injection H2 as <- <-.
  assert (d1 = d) as -> by (destruct (policies_for _ _ _) as [|? [|? ?]]; by injection H1).
  injection Hrun as <- <-. split; [done|]. pose proof (ceiling_wf d p) as Hwf.
  destruct o as [c|]; [|done]. split; [unfold dict_wf; by rewrite limited_keys|].
  intros key. unfold granted. rewrite limited_get.
  destruct (dict_get key (product_permission_ceiling d p)) as [v|]; [|done]. cbn.
  unfold chosen. by destruct (json_true v).
Qed.

Lemma first_set_skip key o ls :
  o ≫= dict_get key = None -> first_set key (o :: ls) = first_set key ls.
Proof. intros Ho. cbn. by rewrite Ho. Qed.

(** The layers below a service's overrides do not depend on them. *)
Lemma layers_override d s o :
  layers d (s <|sa_permission_overrides := o|>) = o :: tl (layers d s).
Proof. done. Qed.

(** * Presets stay well typed *)

Definition catalogue_keys (p : dict) : Prop := incl (map fst p) ALL_PERMISSION_KEYS.

Record presets_ok (d : access_db) : Prop := {
  po_ids : tbl_wf d.(ad_presets);
  po_names : NoDup (map ps_name d.(ad_presets));
  po_keys : forall r p, In r d.(ad_presets) -> r.(ps_permissions) = Some p -> catalogue_keys p
}.

Lemma presets_ok_ext d d' : d.(ad_presets) = d'.(ad_presets) -> presets_ok d -> presets_ok d'.
Proof. intros Heq [H1 H2 H3]. by constructor; rewrite <- Heq. Qed.

Lemma wp_commit_presets f (Q : unit -> access_db -> Prop) (R : exn -> access_db -> Prop) d :
  R IntegrityError d ->
  (NoDup (map ps_name (f d.(ad_presets))) -> Q tt (d <|ad_presets := f d.(ad_presets)|>)) ->
  wp (commit_presets f) Q R d.
Proof.
  intros HR HQ. unfold commit_presets. wp_step. wp_step. wp_step. wp_step; [exact HR|].
  apply HQ. unfold preset_names_unique in Hguard. apply negb_false_iff in Hguard.
  by apply bool_decide_eq_true in Hguard.
Qed.

(** Requests of administrators and resellers, and restarts. *)
Inductive access_op : Type :=
| OpCreate (name : string) (permissions : flags)
| OpUpdate (k : Z) (name : option (option string)) (permissions : option (option flags))
| OpDelete (k : Z)
| OpSeed
| OpPolicy (reseller_id : Z) (p : access_product) (visible : bool) (permissions : flags)
| OpDeploy (reseller_id : Z) (p : access_product) (service_id : Z).

Definition run_op (o : access_op) : Access unit :=
  match o with
  | OpCreate name permissions => create_permission_set name permissions ;;; ret tt
  | OpUpdate k name permissions => update_permission_set k name permissions
  | OpDelete k => delete_permission_set k
  | OpSeed => seed_permission_sets
  | OpPolicy r p visible permissions => update_product_client_permissions r p visible permissions
  | OpDeploy r p service_id => deny_on_service r p service_id
  end.

Lemma validated (permissions : dict) (Q : unit -> access_db -> Prop)
    (R : exn -> access_db -> Prop) d :
  R (HTTPException 400) d -> (catalogue_keys permissions -> Q tt d) ->
  wp (validate_permission_keys permissions) Q R d.
Proof.
  intros HR HQ. unfold validate_permission_keys. wp_step; [exact HR|]. apply HQ.
  unfold unknown_keys in Hguard. intros k Hk.
  destruct (List.filter _ _) as [|x l] eqn:Hf; [|done].
  rewrite filter_nil_iff in Hf. apply Hf, negb_false_iff, existsb_exists in Hk.
  destruct Hk as (y & Hy & Heq). by rewrite py_eq_true in Heq; subst.
Qed.

Lemma presets_ok_update k f d :
  (forall r, (f r).(ps_id) = r.(ps_id)) ->
  (forall r p, In r d.(ad_presets) -> (f r).(ps_permissions) = Some p ->
     (r.(ps_permissions) = Some p) \/ catalogue_keys p) ->
  NoDup (map ps_name (tbl_update k f d.(ad_presets))) -> presets_ok d ->
  presets_ok (d <|ad_presets := tbl_update k f d.(ad_presets)|>).
Proof.
  intros Hid Hf Hn [H1 H2 H3]. constructor; cbn [ad_presets update]; [|done|].
  - by apply tbl_wf_update.
  - intros r p Hr Hp. apply tbl_update_In in Hr as (r0 & Hr0 & [[_ ->]|[_ ->]]); [eauto|].
    destruct (Hf r0 p Hr0 Hp); eauto.
Qed.

Lemma presets_ok_snoc d r :
  r.(ps_id) = tbl_fresh d.(ad_presets) ->
  (forall p, r.(ps_permissions) = Some p -> catalogue_keys p) ->
  NoDup (map ps_name (d.(ad_presets) ++ [r])) -> presets_ok d ->
  presets_ok (d <|ad_presets := d.(ad_presets) ++ [r]|>).
Proof.
  intros Hid Hp Hn [H1 H2 H3]. constructor; cbn [ad_presets update]; [|done|].
  - by apply tbl_wf_snoc.
  - intros x p [Hx|[<-|[]]]%in_app_iff; eauto.
Qed.

Lemma dao_create_ok name permissions sys d :
  (forall p, permissions = Some p -> catalogue_keys p) -> presets_ok d ->
  wp (dao_create name permissions sys) (fun _ => presets_ok) (fun _ => presets_ok) d.
Proof.
  intros Hp Hok. unfold dao_create. do 3 wp_step. apply wp_commit_presets; [done|].
  intros Hn. wp_step. apply presets_ok_snoc; [done| |done|done].
  cbn. intros p [= <-]. destruct permissions; [by apply Hp|]. intros k [].
Qed.

(** Seeding maps rows without touching their keys and names. *)
Lemma presets_ok_map f d :
  (forall r, (f r).(ps_id) = r.(ps_id)) -> (forall r, (f r).(ps_name) = r.(ps_name)) ->
  (forall r p, (f r).(ps_permissions) = Some p ->
     (forall q, r.(ps_permissions) = Some q -> catalogue_keys q) -> catalogue_keys p) ->
  presets_ok d -> presets_ok (d <|ad_presets := map f d.(ad_presets)|>).
Proof.
  intros Hid Hname Hp [H1 H2 H3]. constructor; cbn [ad_presets update].
  - unfold tbl_wf in *. rewrite map_map. erewrite map_ext; [exact H1|apply Hid].
  - rewrite map_map. erewrite map_ext; [exact H2|apply Hname].
  - intros r p [x [<- Hx]]%in_map_iff Hfp. apply (Hp _ _ Hfp). intros q. by apply H3.
Qed.

Lemma catalogue_set k v d :
  In k ALL_PERMISSION_KEYS -> catalogue_keys d -> catalogue_keys (dict_set k v d).
Proof.
  intros Hk Hd x Hx. apply dict_set_keys in Hx as [<-|Hx]; [done|by apply Hd].
Qed.
Lemma catalogue_copy k from d :
  In k ALL_PERMISSION_KEYS -> catalogue_keys d -> catalogue_keys (copy_key k from d).
Proof.
  intros Hk Hd. unfold copy_key. destruct (dict_has _ _); [done|].
  destruct (dict_get _ _); [by apply catalogue_set|done].
Qed.
Lemma known_key k : bool_decide (In k ALL_PERMISSION_KEYS) = true -> In k ALL_PERMISSION_KEYS.
Proof. apply bool_decide_eq_true. Qed.
Ltac known := apply known_key; vm_compute; reflexivity.

Lemma catalogue_backfill d : catalogue_keys d -> catalogue_keys (backfill_bms_keys d).
Proof. intros Hd. unfold backfill_bms_keys. repeat (apply catalogue_copy; [known|]). done. Qed.

Lemma system_presets_typed :
  List.Forall (fun x => catalogue_keys x.2 /\ dict_wf x.2) SYSTEM_PRESETS.
Proof.
  assert (forallb (fun x => forallb (fun k => bool_decide (In k ALL_PERMISSION_KEYS))
                              (map fst x.2) && bool_decide (dict_wf x.2)) SYSTEM_PRESETS = true)
    as H by (vm_compute; reflexivity).
  apply List.Forall_forall. intros x Hx. rewrite forallb_forall in H.
  apply H, andb_true_iff in Hx as [Hk Hw]. apply bool_decide_eq_true in Hw. split; [|done].
  intros k Hin. rewrite forallb_forall in Hk. by apply Hk, bool_decide_eq_true in Hin.
Qed.

(** The key is on afterwards, unless the preset is named Read-only. *)
Lemma enable_change_password_cases r :
  enable_change_password r = r \/
  enable_change_password r
  = r <|ps_permissions := Some (dict_set "vm.change_password" (JBool true)
                                  (match r.(ps_permissions) with Some p => p | None => [] end))|>.
Proof.
  unfold enable_change_password. destruct (is_read_only _); [by left|].
  destruct (dict_get _ _) as [[| [|] | | | |]|]; auto.
Qed.

Lemma seed_presets_ok : keeps presets_ok seed_permission_sets.
Proof.
  intros d Hok. unfold seed_permission_sets. wp_step. unfold ensure_system_presets.
  eapply wp_conseq; [apply (wp_for_each presets_ok (fun _ => presets_ok)); [done|]| |done].
  { intros x s Hx Hs. wp_step. unfold get_by_name. do 2 wp_step; [done|]. wp_step.
    eapply wp_conseq; [apply dao_create_ok; [|done]|done|done].
    intros p [= <-]. pose proof system_presets_typed as Ht. rewrite List.Forall_forall in Ht.
    apply list_elem_of_In in Hx. by destruct (Ht _ Hx). }
  clear d Hok. intros [] d Hok. wp_step. wp_step. wp_step. wp_step. wp_step. wp_step. wp_step.
  refine (presets_ok_ext _ _ _ (presets_ok_map backfill_preset
    (d <|ad_presets := map enable_change_password d.(ad_presets)|>) _ _ _ _));
    [done|done|done| |].
  { intros [i n [q|] y] p; cbn; [|done]. intros [= <-] Hq. apply catalogue_backfill, Hq. done. }
  apply presets_ok_map; [..|done].
  - intros r. by destruct (enable_change_password_cases r) as [-> | ->].
  - intros r. by destruct (enable_change_password_cases r) as [-> | ->].
  - intros r p Hp Hq. destruct (enable_change_password_cases r) as [He|He]; rewrite He in Hp;
      [by apply Hq|]. injection Hp as <-. apply catalogue_set; [known|].
    destruct r.(ps_permissions) as [q|]; [by apply Hq|intros k []].
Qed.

(** What every request and restart keeps: typed presets, and each system
    preset. *)
Definition typed_with (k : Z) (d : access_db) : Prop :=
  presets_ok d /\ exists r, In r d.(ad_presets) /\ r.(ps_id) = k /\ r.(ps_is_system) = true.

Lemma create_keeps_typed k name permissions :
  keeps (typed_with k) (create_permission_set name permissions).
Proof.
  intros d [Hok Hsys]. unfold create_permission_set. wp_step.
  apply validated; [by split|]. intros Hkeys. unfold get_by_name. do 2 wp_step. wp_step.
  wp_step; [by split|]. unfold dao_create. do 3 wp_step.
  apply wp_commit_presets; [by split|]. intros Hn. wp_step. split.
  - apply presets_ok_snoc; [done| |done|done]. cbn. by intros p [= <-].
  - destruct Hsys as (r & Hr & Hk). exists r. split; [|done]. cbn. apply in_app_iff. by left.
Qed.

(** Replacing a row by one with the same key and flag keeps a system preset. *)
Lemma system_preset_updated k j f (t : list permission_set) :
  (forall r, (f r).(ps_id) = r.(ps_id)) -> (forall r, (f r).(ps_is_system) = r.(ps_is_system)) ->
  (exists r, In r t /\ r.(ps_id) = k /\ r.(ps_is_system) = true) ->
  exists r, In r (tbl_update j f t) /\ r.(ps_id) = k /\ r.(ps_is_system) = true.
Proof.
  intros Hid Hsys (r & Hr & Hk & Hs). unfold tbl_update.
  exists (if row_key r =? j then f r else r). split; [apply in_map_iff; by exists r|].
  destruct (row_key r =? j); [|done]. by rewrite Hid, Hsys.
Qed.

Lemma update_keeps_typed k j name permissions :
  keeps (typed_with k) (update_permission_set j name permissions).
Proof.
  intros d Hd. pose proof Hd as [Hok Hsys].
  unfold update_permission_set, find_preset. do 2 wp_step. wp_step. wp_step; [exact Hd|].
  wp_step. apply (wp_conseq _
    (fun (_ : unit) d' => d' = d /\ forall p, permissions = Some (Some p) -> catalogue_keys (dict_of_flags p))
    _ (fun _ d' => d' = d)); [| |by intros _ ? ->].
  { destruct permissions as [[p|]|]; [|done..]. apply validated; [done|].
    intros Hkeys. split; [done|]. by intros ? [= <-]. }
  intros _ ? [-> Hkeys]. wp_step.
  apply (wp_conseq _ (fun (_ : unit) d' => d' = d) _ (fun _ d' => d' = d)); [| |by intros _ ? ->].
  { destruct name as [[n|]|]; [|done..]. wp_step; [|done]. unfold get_by_name. do 2 wp_step.
    by wp_step. }
  intros _ ? ->. wp_step. wp_step; [exact Hd|]. apply wp_commit_presets; [exact Hd|]. intros Hn.
  split; [apply presets_ok_update; [done| |done|done]|by apply system_preset_updated].
  cbn. intros r q _. destruct permissions as [[p|]|]; [|done|by left].
  intros [= <-]. right. by apply Hkeys.
Qed.

Lemma delete_keeps_typed k j : keeps (typed_with k) (delete_permission_set j).
Proof.
  intros d Hd. pose proof Hd as [[H1 H2 H3] (r & Hr & Hk & Hs)].
  unfold delete_permission_set, find_preset. do 2 wp_step. wp_step. wp_step; [exact Hd|].
  wp_step. wp_step; [exact Hd|]. wp_step. unfold dao_delete, find_preset. do 2 wp_step.
  rewrite Hsome. wp_step. apply wp_commit_presets; [exact Hd|]. intros Hn. wp_step. wp_step.
  split; [constructor|]; cbn [ad_presets update].
  - by apply tbl_wf_delete.
  - exact Hn.
  - intros x p [Hx _]%tbl_delete_In. by apply H3.
  - exists r. split; [|done]. apply tbl_delete_In. split; [done|]. intros Heq.
    assert (tbl_get j d.(ad_presets) = Some r) as Hget by (rewrite <- Heq; by apply tbl_get_wf).
    congruence.
Qed.

Lemma seed_keeps_system k :
  keeps (fun d => exists r, In r d.(ad_presets) /\ r.(ps_id) = k /\ r.(ps_is_system) = true)
    seed_permission_sets.
Proof.
  intros d Hd. unfold seed_permission_sets. wp_step. unfold ensure_system_presets.
  eapply wp_conseq; [apply (wp_for_each (fun d => exists r, In r d.(ad_presets) /\
    r.(ps_id) = k /\ r.(ps_is_system) = true)
    (fun _ d => exists r, In r d.(ad_presets) /\ r.(ps_id) = k /\ r.(ps_is_system) = true));
    [exact Hd|]| |done].
  { intros x s _ Hs. unfold get_by_name, dao_create. do 2 wp_step. wp_step; [exact Hs|].
    wp_step. do 3 wp_step. apply wp_commit_presets; [exact Hs|]. intros _. wp_step. wp_step.
    destruct Hs as (r & Hr & Hk). exists r. split; [|done]. cbn. apply in_app_iff. by left. }
  clear d Hd. intros [] d (r & Hr & Hk & Hs). do 7 wp_step. cbn [ad_presets update].
  exists (backfill_preset (enable_change_password r)). rewrite map_map. split; [|].
  - apply in_map_iff. by exists r.
  - by destruct (enable_change_password_cases r) as [-> | ->].
Qed.

Lemma get_policy_keeps I r p : keeps I (get_client_product_policy r p).
Proof.
  unfold get_client_product_policy. apply keeps_bind; [apply keeps_gets|].
  intros rows. apply keeps_scalar_one_or_none.
Qed.
Lemma keeps_policies k f :
  (forall d, (f d).(ad_presets) = d.(ad_presets)) ->
  keeps (typed_with k) (modify f : Access unit).
Proof.
  intros Hf d [Hok Hs]. apply wp_modify. split; [|by rewrite Hf].
  apply (presets_ok_ext d); [by rewrite Hf|done].
Qed.

Lemma access_op_keeps_typed k o : keeps (typed_with k) (run_op o).
Proof.
  destruct o as [name p|j name p|j| |r p v q|r p j]; cbn [run_op].
  - apply keeps_bind; [apply create_keeps_typed|]. intros _. apply keeps_ret.
  - apply update_keeps_typed.
  - apply delete_keeps_typed.
  - intros d [Hok Hsys]. eapply wp_conseq;
      [exact (wp_and _ _ _ _ _ _ (seed_presets_ok d Hok) (seed_keeps_system k d Hsys))|done|done].
  - apply keeps_bind; [auto with dcim|]. intros ceiling.
    apply keeps_bind; [auto with dcim|]. intros _. apply keeps_bind; [auto with dcim|].
    intros _. apply keeps_bind; [apply get_policy_keeps|]. intros _. by apply keeps_policies.

  - apply keeps_bind; [|intros e; by apply keeps_policies].
    apply keeps_bind; [auto with dcim|]. intros c.
    apply keeps_bind; [apply get_policy_keeps|]. intros o. apply keeps_ret.
Qed.

(** Each request is answered before the next; a failed one answers an error. *)
Definition serve (ops : list access_op) : Access unit :=
  for_each ops (fun o => try_catch (run_op o) (fun _ => ret tt)).

(** C33. Permission sets stay well typed: through every sequence of requests
    that create, edit and delete presets, set policies, deploy services and
    restart the application, failed requests included, preset names stay unique
    and the permissions of every preset stay within the catalogue's keys; and
    no request deletes a system preset. *)
Theorem presets_stay_well_typed ops d k r :
  presets_ok d -> tbl_get k d.(ad_presets) = Some r -> r.(ps_is_system) = true ->
  exists d', serve ops d = (Ok tt, d') /\ presets_ok d' /\
    exists r', tbl_get k d'.(ad_presets) = Some r' /\ r'.(ps_is_system) = true.
Proof.
  intros Hok Hr Hs.
  assert (wp (serve ops) (fun _ => typed_with k) (fun _ _ => False) d) as Hwp.
  { apply wp_for_each.
    - split; [done|]. exists r. split; [by eapply tbl_get_In|]. split; [|done].
      exact (tbl_get_key _ _ _ Hr).
    - intros o s _ Hsv. wp_step.
      eapply wp_conseq; [exact (access_op_keeps_typed k o s Hsv)|done|done]. }
  unfold wp in Hwp. destruct (serve ops d) as [[[]|e] d']; [|done].
  destruct Hwp as [Hok' (r' & Hr' & Hk & Hs')]. exists d'. split; [done|]. split; [done|].
  exists r'. split; [|done]. rewrite <- Hk. apply (tbl_get_wf (R := permission_set)); [|done].
  by destruct Hok'.
Qed.

(** The catalogue administrators start from, and a session of requests. *)
Definition seeded_access : access_db :=
  (seed_permission_sets (mk_access_db [] [] [] [])).2.
#[global] Arguments seeded_access : simpl never.
Definition sample_requests : list access_op :=
  [OpCreate "Night shift" [("vm.power", true)];
   OpCreate "Night shift" [];
   OpCreate "Root" [("vm.root", true)];
   OpUpdate 5 (Some (Some "Read-only")) None;
   OpUpdate 5 None (Some None);
   OpDelete 3; OpDelete 5; OpSeed].

Lemma seeded_presets_ok : presets_ok seeded_access.
Proof.
  pose proof (seed_presets_ok (mk_access_db [] [] [] [])) as H. unfold wp in H.
  destruct (seed_permission_sets (mk_access_db [] [] [] [])) as [[[]|e] d'] eqn:Heq;
    [|by vm_compute in Heq].
  assert (seeded_access = d') as -> by (unfold seeded_access; by rewrite Heq).
  apply H. constructor; cbn; [constructor|constructor|]. by intros r p [].
Qed.

Lemma presets_stay_well_typed_witness :
  map ps_name seeded_access.(ad_presets)
  = ["Full access"; "Power + IPMI"; "Read-only"; "Proxy credentials only"] /\
  exists d', serve sample_requests seeded_access = (Ok tt, d') /\ presets_ok d' /\
    exists r', tbl_get 3 d'.(ad_presets) = Some r' /\ r'.(ps_is_system) = true.
Proof.
  split; [vm_compute; reflexivity|].
  destruct (tbl_get 3 seeded_access.(ad_presets)) as [r|] eqn:Hr; [|vm_compute in Hr; discriminate].
  apply (presets_stay_well_typed sample_requests seeded_access 3 r seeded_presets_ok Hr).
  vm_compute in Hr. injection Hr as <-. reflexivity.
Defined.

(** * What a restart does to denied password changes *)

Lemma copy_key_wf to from p : dict_wf p -> dict_wf (copy_key to from p).
Proof.
  intros Hp. unfold copy_key. destruct (dict_has _ _); [done|].
  destruct (dict_get _ _); [by apply dict_set_wf|done].
Qed.
Lemma backfill_bms_wf p : dict_wf p -> dict_wf (backfill_bms_keys p).
Proof. intros Hp. unfold backfill_bms_keys. by do 3 apply copy_key_wf. Qed.
Lemma copy_key_other k to from p : k <> to -> dict_get k (copy_key to from p) = dict_get k p.
Proof.
  intros Hk. unfold copy_key. destruct (dict_has _ _); [done|].
  destruct (dict_get from p); [|done]. rewrite dict_get_set.
  by rewrite (proj2 (py_eq_false k to)).
Qed.
Lemma backfill_bms_other k p :
  k <> "bms.kvm" -> k <> "bms.sol" -> k <> "bms.virtual_media" ->
  dict_get k (backfill_bms_keys p) = dict_get k p.
Proof. intros. unfold backfill_bms_keys. by rewrite !copy_key_other. Qed.

Lemma dict_del_get k p : dict_get k (dict_del k p) = None.
Proof.
  unfold dict_del. induction p as [|[k' v] p IH]; [done|]. cbn.
  destruct (py_eq_spec k' k) as [->|Hne]; cbn; [done|].
  by rewrite (proj2 (py_eq_false k k')) by congruence.
Qed.
Lemma dict_del_wf k p : dict_wf p -> dict_wf (dict_del k p).
Proof.
  unfold dict_wf, dict_del. induction p as [|[k' v] p IH]; [done|]. cbn.
  intros [Hk Hp]%NoDup_cons. destruct (_ != _); cbn; [|auto]. apply NoDup_cons. split; [|auto].
  rewrite list_elem_of_In, in_map_iff. intros ([k2 v2] & Hk2 & [Hin _]%filter_In).
  apply Hk, list_elem_of_In, in_map_iff. by exists (k2, v2).
Qed.

Lemma dict_get_del_other k j p : k <> j -> dict_get k (dict_del j p) = dict_get k p.
Proof.
  intros Hne. unfold dict_del. induction p as [|[k' v] p IH]; [done|]. cbn.
  destruct (py_eq_spec k' j) as [->|Hj]; cbn; [by rewrite (proj2 (py_eq_false k j))|].
  by rewrite IH.
Qed.

(** * Denials are final *)

(** Overrides that grant nothing and, when [P] holds, deny [key]. *)
Definition only_denies (P : Prop) (key : string) (o : option dict) : Prop :=
  match o with
  | Some p => dict_wf p /\ List.Forall (fun x => x.2 = JBool false) p
  | None => True
  end /\ (P -> o ≫= dict_get key = Some (JBool false)).

Lemma denying_set k p :
  List.Forall (fun x => x.2 = JBool false) p ->
  List.Forall (fun x => x.2 = JBool false) (dict_set k (JBool false) p).
Proof.
  induction 1 as [|[k' v] p Hv Hp IH]; cbn; [by constructor|].
  destruct (k == k'); by constructor.
Qed.
Lemma denying_get k v p :
  List.Forall (fun x => x.2 = JBool false) p -> dict_get k p = Some v -> v = JBool false.
Proof.
  intros Hp Hk. apply dict_get_In in Hk. rewrite List.Forall_forall in Hp. exact (Hp _ Hk).
Qed.
Lemma denying_copy to from p :
  List.Forall (fun x => x.2 = JBool false) p ->
  List.Forall (fun x => x.2 = JBool false) (copy_key to from p).
Proof.
  intros Hp. unfold copy_key. destruct (dict_has to p); [done|].
  destruct (dict_get from p) as [v|] eqn:Hv; [|done].
  apply (denying_get from v p Hp) in Hv as ->. by apply denying_set.
Qed.
Lemma copy_key_present k v to from p :
  dict_get k p = Some v -> dict_get k (copy_key to from p) = Some v.
Proof.
  intros Hk. destruct (py_eq_spec k to) as [->|Hne]; [|by rewrite copy_key_other].
  unfold copy_key, dict_has. by rewrite Hk.
Qed.

Lemma backfill_denies P key s :
  only_denies P key s.(sa_permission_overrides) ->
  only_denies P key (backfill_service s).(sa_permission_overrides).
Proof.
  unfold backfill_service. cbn [sa_permission_overrides update].
  destruct (sa_permission_overrides s) as [p|]; [|done]. intros [[Hwf Hp] Hk].
  split; [split; [by apply backfill_bms_wf|]|].
  - unfold backfill_bms_keys. by do 3 apply denying_copy.
  - intros HP. cbn [option_map mbind option_bind]. unfold backfill_bms_keys.
    do 3 apply copy_key_present. by apply Hk.
Qed.
Lemma clear_denies (P : Prop) key s :
  (P -> key <> "vm.change_password") ->
  only_denies P key s.(sa_permission_overrides) ->
  only_denies P key (clear_change_password_denial s).(sa_permission_overrides).
Proof.
  intros Hne. unfold clear_change_password_denial.
  destruct (sa_permission_overrides s) as [p|] eqn:Hs; [|by rewrite ?Hs].
  destruct (dict_get "vm.change_password" p) as [[| [|] | | | |]|]; try (by rewrite ?Hs).
  intros [[Hwf Hp] Hk]. cbn [sa_permission_overrides update].
  assert (P -> dict_get key (dict_del "vm.change_password" p) = Some (JBool false)) as Hkeep.
  { intros HP. rewrite dict_get_del_other by by apply Hne. by apply Hk. }
  assert (dict_wf (dict_del "vm.change_password" p)
          /\ List.Forall (fun x => x.2 = JBool false) (dict_del "vm.change_password" p)) as [Hwf' Hp'].
  { split; [by apply dict_del_wf|]. apply incl_Forall with p; [|done].
    intros x [Hx _]%filter_In. exact Hx. }
  destruct (dict_del "vm.change_password" p) as [|x rest]; [by split|done].
Qed.

(** The service [k] has such overrides. *)
Definition denied_on (P : Prop) (key : string) (k : Z) (d : access_db) : Prop :=
  exists s, tbl_get k d.(ad_services) = Some s /\ only_denies P key s.(sa_permission_overrides).

#[local] Hint Extern 5 (keeps (denied_on _ _ _) (modify _)) =>
  (apply keeps_modify; let H := fresh in intros ? H; exact H) : dcim.
#[local] Hint Extern 1 (keeps _ get) => (let H := fresh in intros ? H; exact H) : dcim.
Lemma seed_keeps_denials (P : Prop) key k :
  (P -> key <> "vm.change_password") -> keeps (denied_on P key k) seed_permission_sets.
Proof.
  intros Hne. unfold seed_permission_sets, ensure_system_presets, get_by_name, dao_create,
    commit_presets.
  assert (forall f, (forall s, (f s).(sa_id) = s.(sa_id)) ->
    (forall s, only_denies P key s.(sa_permission_overrides) ->
               only_denies P key (f s).(sa_permission_overrides)) ->
    keeps (denied_on P key k) (modify (fun d => d <|ad_services := map f d.(ad_services)|>) : Access unit)) as Hmap.
  { intros f Hid Hf. apply keeps_modify. intros d (s & Hs & Ho). exists (f s). split; [|by apply Hf].
    cbn [ad_services update]. by rewrite (tbl_get_map (R := service_access)), Hs. }
  keeps_step; [keeps_tac|]. keeps_step; [keeps_tac|]. keeps_step.
  - apply Hmap; [intros s; unfold clear_change_password_denial; by repeat case_match|].
    intros s. by apply clear_denies.
  - keeps_step; [keeps_tac|]. apply Hmap; [done|]. intros s. by apply backfill_denies.
Qed.
Lemma access_op_keeps_denials (P : Prop) key k o :
  (forall r p, o <> OpDeploy r p k) -> (P -> o = OpSeed -> key <> "vm.change_password") ->
  keeps (denied_on P key k) (run_op o).
Proof.
  intros Hother Hseed. destruct o as [name p|j name p|j| |r p v q|r p j]; cbn [run_op].
  4: apply seed_keeps_denials; auto.
  5:{ unfold deny_on_service, effective_client_product_permissions, get_client_product_policy,
        scalar_one_or_none. keeps_step; [keeps_tac|]. apply keeps_modify.
      intros d (s & Hs & Ho). exists s. split; [|done]. cbn [ad_services update].
      rewrite (tbl_get_update_ne (R := service_access)); [done|done|].
      intros ->. by apply (Hother r p). }
  all: unfold create_permission_set, update_permission_set, delete_permission_set, dao_delete,
    update_product_client_permissions, get_client_product_policy, scalar_one_or_none,
    validate_permission_keys, find_preset, get_by_name, dao_create, commit_presets; keeps_tac.
Qed.

(** A deploy stores denials of its service only. *)
Lemma deploy_denies r p k d d1 effective s key :
  tbl_get k d.(ad_services) = Some s ->
  effective_client_product_permissions r p d = (Ok effective, d) ->
  deny_on_service r p k d = (Ok tt, d1) ->
  denied_on (dict_has key effective = true /\ granted key effective = false) key k d1.
Proof.
  intros Hs Heff Hrun. unfold deny_on_service in Hrun. rewrite (bind_run _ _ _ _ _ Heff) in Hrun.
  injection Hrun as <-. pose proof (effective_ok _ _ _ _ _ Heff) as (_ & Hwf & _).
  eexists. split; [cbn [ad_services update]; by apply (tbl_get_update_eq (R := service_access))|].
  cbn [sa_permission_overrides update]. split; [split; [by apply denials_wf|]|].
  - apply List.Forall_forall. unfold denials. by intros x (y & <- & _)%in_map_iff.
  - cbn [mbind option_bind]. rewrite denials_get by done. unfold dict_has, granted.
    destruct (dict_get key effective) as [v|]; [|by intros []]. by intros [_ ->].
Qed.

(** C15. A reseller can take permissions from its clients and never give more
    than the product's policy.  When it deploys a service, what it leaves the
    client is granted by the ceiling of the product; and then, through every
    sequence of requests on presets and policies, deploys of other services and
    restarts, failed ones included: what it denied at the deploy stays denied to
    the client, except that a restart takes back a denied [vm.change_password];
    and whatever the client may do at any time it may do by the presets and
    defaults of that time alone, so what is stored on the service never grants
    anything.  (Deploying the service again, or an administrator who edits its
    overrides, replaces them.) *)
Theorem reseller_denials_are_final r p k d d1 effective s ops key :
  tbl_get k d.(ad_services) = Some s ->
  effective_client_product_permissions r p d = (Ok effective, d) ->
  deny_on_service r p k d = (Ok tt, d1) ->
  (forall r' p', ~ In (OpDeploy r' p' k) ops) ->
  (granted key effective = true -> granted key (product_permission_ceiling d p) = true) /\
  exists d2 s2, serve ops d1 = (Ok tt, d2) /\ tbl_get k d2.(ad_services) = Some s2 /\
  (List.Forall (fun l => match l with Some e => dict_wf e | None => True end) (tl (layers d2 s2)) ->
   (dict_has key effective = true -> granted key effective = false ->
    (In OpSeed ops -> key <> "vm.change_password") ->
    has_client_permission d2 s2 key = false) /\
   (has_client_permission d2 s2 key = true ->
    has_client_permission d2 (s2 <|sa_permission_overrides := None|>) key = true)).
Proof.
  intros Hs Heff Hrun Hops. split; [by apply (effective_ok _ _ _ _ _ Heff)|].
  set (P := (dict_has key effective = true /\ granted key effective = false) /\
            (In OpSeed ops -> key <> "vm.change_password")).
  assert (denied_on P key k d1) as H1.
  { destruct (deploy_denies _ _ _ _ _ _ _ key Hs Heff Hrun) as (s1 & Hs1 & Ho & Hk).
    exists s1. split; [done|]. split; [done|]. intros [HP _]. by apply Hk. }
  assert (wp (serve ops) (fun _ => denied_on P key k) (fun _ _ => False) d1) as Hwp.
  { apply wp_for_each; [done|]. intros o d' Hin Hd'. apply list_elem_of_In in Hin. wp_step.
    eapply wp_conseq; [apply (access_op_keeps_denials P key k o); [| |exact Hd']|done|done].
    - intros r' p' ->. by apply (Hops r' p').
    - intros [_ Hne] ->. by apply Hne. }
  unfold wp in Hwp. destruct (serve ops d1) as [[[]|e] d2]; [|done].
  destruct Hwp as (s2 & Hs2 & Hwf2 & Hk2). exists d2, s2. split; [done|]. split; [done|]. intros Hlow.
  assert (forall o, match o with Some e => dict_wf e | None => True end ->
    dict_get key (resolve_client_permissions d2 (s2 <|sa_permission_overrides := o|>))
    = first_set key (o :: tl (layers d2 s2))) as Hres.
  { intros o Ho. rewrite <- layers_override. apply most_specific_layer.
    rewrite layers_override. by constructor. }
  set (own := s2.(sa_permission_overrides)) in *.
  assert (s2 = s2 <|sa_permission_overrides := own|>) as Hself by (by destruct s2).
  unfold has_client_permission. rewrite (Hres None I). rewrite Hself at 1 2.
  rewrite (Hres own) by (by destruct own as [q|]; [apply Hwf2|]).
  cbn [first_set mbind option_bind]. split.
  - intros Hh Hg Hseed. rewrite Hk2; [done|]. by split.
  - destruct own as [q|]; [|done]. destruct (dict_get key q) as [v|] eqn:Hv; cbn; rewrite Hv; [|done].
    by rewrite (denying_get key v q (proj2 Hwf2) Hv).
Qed.

(** Reseller 1 keeps the console from its clients. *)
Definition console_policy : client_policy := mk_client_policy 1 7 true [("vm.console", JBool false)].
Definition console_product : access_product := mk_access_product 7 "vps-2" (Some "vm") None.
Definition reseller_access : access_db :=
  mk_access_db [] [mk_service_access 2 ST_VM (Some "vps-2") None None None] [console_product]
    [console_policy].
(** Later every preset grants the console, the reseller allows it to new
    services, and the application restarts. *)
Definition generous_requests : list access_op :=
  [OpSeed; OpCreate "Everything" [("vm.console", true); ("vm.change_password", true)];
   OpPolicy 1 console_product true [("vm.console", true)]; OpDeploy 1 console_product 3; OpSeed].

Lemma reseller_denials_are_final_witness :
  exists effective d1 d2 s2,
    deny_on_service 1 console_product 2 reseller_access = (Ok tt, d1) /\
    dict_has "vm.console" effective = true /\
    serve generous_requests d1 = (Ok tt, d2) /\ tbl_get 2 d2.(ad_services) = Some s2 /\
    has_client_permission d2 s2 "vm.console" = false /\
    has_client_permission d2 (s2 <|sa_permission_overrides := None|>) "vm.console" = true.
Proof.
  destruct (effective_client_product_permissions 1 console_product reseller_access)
    as [[effective|e] d'] eqn:H; [|exfalso; vm_compute in H; discriminate].
  assert (d' = reseller_access) as -> by (vm_compute in H; by injection H as <- <-).
  destruct (deny_on_service 1 console_product 2 reseller_access) as [[[]|e] d1] eqn:H1;
    [|exfalso; vm_compute in H1; discriminate].
  destruct (reseller_denials_are_final 1 console_product 2 reseller_access d1 effective _
    generous_requests "vm.console" eq_refl H H1) as (_ & d2 & s2 & H2 & Hs2 & Hlate).
  { intros r p. cbn. intuition discriminate. }
  exists effective, d1, d2, s2. split; [reflexivity|].
  assert (dict_has "vm.console" effective = true /\ granted "vm.console" effective = false) as [Hh Hg].
  { vm_compute in H. injection H as <-. split; reflexivity. }
  assert (d1 = (deny_on_service 1 console_product 2 reseller_access).2) as Hd1 by (by rewrite H1).
  assert (d2 = (serve generous_requests d1).2) as Hd2 by (by rewrite H2).
  rewrite Hd1 in Hd2. vm_compute in Hd2. clear Hd1 H1. subst d2.
  pose proof Hs2 as Hs2'. vm_compute in Hs2'. injection Hs2' as <-.
  split; [exact Hh|]. split; [exact H2|]. split; [exact Hs2|]. split.
  - apply Hlate; [|exact Hh|exact Hg|discriminate].
    repeat constructor; unfold dict_wf; apply (bool_decide_unpack _); vm_compute; exact I.
  - vm_compute. reflexivity.
Defined.

(** Seeding succeeds and only adds presets before it rewrites them. *)
Lemma ensure_appends d :
  NoDup (map ps_name d.(ad_presets)) ->
  exists l, ensure_system_presets d = (Ok tt, d <|ad_presets := d.(ad_presets) ++ l|>).
Proof.
  intros Hn. set (I d' := NoDup (map ps_name d'.(ad_presets)) /\
    exists l, d' = d <|ad_presets := d.(ad_presets) ++ l|>).
  assert (wp ensure_system_presets (fun _ => I) (fun _ _ => False) d) as Hwp.
  { apply wp_for_each.
    - split; [done|]. exists []. rewrite app_nil_r. by destruct d.
    - intros x s _ [Hs [l ->]]. unfold get_by_name, dao_create. do 2 wp_step.
      wp_step; [split; eauto|]. do 4 wp_step. cbn [ad_presets update] in *.
      assert (NoDup (map ps_name ((d.(ad_presets) ++ l) ++
        [mk_permission_set (tbl_fresh (d.(ad_presets) ++ l)) x.1 (Some x.2) true]))) as Hn'.
      { rewrite map_app. apply NoDup_app. split; [done|]. split; [|apply NoDup_singleton].
        intros y Hy ->%list_elem_of_singleton. apply list_elem_of_In, in_map_iff in Hy as (r & Hr & Hin).
        pose proof (List.find_none _ _ Hif _ Hin) as Hf. cbn in Hf.
        rewrite py_eq_false in Hf. done. }
      unfold commit_presets. do 3 wp_step. wp_step.
      + unfold preset_names_unique in Hguard. apply negb_true_iff, bool_decide_eq_false in Hguard.
        by apply Hguard.
      + wp_step. do 2 wp_step. split; [exact Hn'|].
        exists (l ++ [mk_permission_set (tbl_fresh (d.(ad_presets) ++ l)) x.1 (Some x.2) true]).
        by rewrite app_assoc. }
  unfold wp in Hwp. destruct (ensure_system_presets d) as [[[]|e] d']; [|done].
  destruct Hwp as [_ [l ->]]. eauto.
Qed.

Lemma seed_result d :
  NoDup (map ps_name d.(ad_presets)) ->
  exists l, seed_permission_sets d
  = (Ok tt, d <|ad_presets := map backfill_preset
                                (map enable_change_password (d.(ad_presets) ++ l))|>
              <|ad_services := map backfill_service
                                 (map clear_change_password_denial d.(ad_services))|>).
Proof.
  intros Hn. destruct (ensure_appends d Hn) as [l Hl]. exists l.
  unfold seed_permission_sets, bind at 1. by rewrite Hl.
Qed.

Definition change_password : string := "vm.change_password".

(** A preset not named Read-only, after a restart. *)
Lemma seeded_preset_grants r p :
  is_read_only r.(ps_name) = false -> (forall q, r.(ps_permissions) = Some q -> dict_wf q) ->
  (backfill_preset (enable_change_password r)).(ps_permissions) = Some p ->
  dict_wf p /\ dict_get change_password p = Some (JBool true).
Proof.
  intros Hname Hwf. unfold backfill_preset, enable_change_password. rewrite Hname.
  set (perms := match r.(ps_permissions) with Some q => q | None => [] end).
  assert (dict_wf perms) as Hp
    by (unfold perms; destruct r.(ps_permissions); [by apply Hwf|apply NoDup_nil_2]).
  assert (forall q, dict_wf q -> dict_get change_password q = Some (JBool true) ->
    Some (backfill_bms_keys q) = Some p -> dict_wf p /\ dict_get change_password p = Some (JBool true))
    as Hb.
  { intros q Hq Hg [= <-]. split; [by apply backfill_bms_wf|]. by rewrite backfill_bms_other. }
  assert (forall q, dict_wf q -> dict_wf (dict_set "vm.change_password" (JBool true) q) /\
    dict_get change_password (dict_set "vm.change_password" (JBool true) q) = Some (JBool true))
    as Hs by (intros q Hq; split; [by apply dict_set_wf|by rewrite dict_get_set]).
  destruct (dict_get _ perms) as [[| [|] | | | |]|] eqn:Hg; cbn [ps_permissions update];
    try (apply Hb; by apply Hs).
  unfold perms in *. destruct r.(ps_permissions) as [q|]; [|done].
  by apply Hb.
Qed.

(** The layer a preset key names, after a restart. *)
Lemma seeded_layer d l services k :
  (forall n, k = Some n -> n <> 0 ->
     exists r, tbl_get n d.(ad_presets) = Some r /\ is_read_only r.(ps_name) = false /\
               (forall q, r.(ps_permissions) = Some q -> dict_wf q)) ->
  let d' := d <|ad_presets := map backfill_preset
                                (map enable_change_password (d.(ad_presets) ++ l))|>
              <|ad_services := services|> in
  preset_of d' k = None \/
  exists p, preset_of d' k = Some p /\ dict_wf p /\
            dict_get change_password p = Some (JBool true).
Proof.
  intros Hk d'. unfold preset_of. destruct k as [n|]; [|by left].
  destruct (Z.eqb_spec n 0) as [|Hn]; [by left|].
  destruct (Hk n eq_refl Hn) as (r & Hr & Hname & Hwf). cbn [ad_presets update d'].
  rewrite !(tbl_get_map (R := permission_set)), (tbl_get_app (R := permission_set)), Hr; [|..].
  - cbn [option_map mbind option_bind].
    destruct (ps_permissions (backfill_preset (enable_change_password r))) as [p|] eqn:Hp;
      [|by left]. right. exists p. split; [done|]. by apply (seeded_preset_grants r).
  - intros x. by destruct (enable_change_password_cases x) as [-> | ->].
  - done.
Qed.

(** A layer that names no preset, or one that exists and is not read-only. *)
Definition ordinary_preset (d : access_db) (k : option Z) : Prop :=
  forall n, k = Some n -> n <> 0 ->
  exists r, tbl_get n d.(ad_presets) = Some r /\ is_read_only r.(ps_name) = false /\
            (forall q, r.(ps_permissions) = Some q -> dict_wf q).

(** The overrides lose the denial. *)
Lemma seeded_overrides s o :
  s.(sa_permission_overrides) = Some o -> dict_wf o ->
  dict_get change_password o = Some (JBool false) ->
  (backfill_service (clear_change_password_denial s)).(sa_permission_overrides)
    ≫= dict_get change_password = None /\
  forall q, (backfill_service (clear_change_password_denial s)).(sa_permission_overrides) = Some q ->
            dict_wf q.
Proof.
  intros Ho Hwf Hg. unfold clear_change_password_denial, change_password in *. rewrite Ho, Hg.
  pose proof (dict_del_get "vm.change_password" o) as Hd.
  pose proof (dict_del_wf "vm.change_password" o Hwf) as Hdw.
  destruct (dict_del _ o) as [|x rest]; cbn -[backfill_bms_keys dict_get]; [done|].
  split; [by rewrite backfill_bms_other|]. intros q [= <-]. by apply backfill_bms_wf.
Qed.

(** A restart erases what resellers denied: a virtual machine whose
    overrides deny its owner the password change, as the deploy of a reseller
    that withholds it stores them, denies it; the start-up seeding always
    succeeds, and after it the same machine allows the change, unless one of its
    presets is named Read-only. *)
Theorem restart_erases_password_denials d s o :
  NoDup (map ps_name d.(ad_presets)) ->
  s.(sa_service_type) = ST_VM -> s.(sa_permission_overrides) = Some o -> dict_wf o ->
  dict_get change_password o = Some (JBool false) ->
  ordinary_preset d s.(sa_permission_set_id) ->
  (forall k, s.(sa_owner) = Some k -> ordinary_preset d k) ->
  (forall p, In p d.(ad_products) -> ordinary_preset d p.(ap_permission_set_id)) ->
  tbl_get s.(sa_id) d.(ad_services) = Some s ->
  has_client_permission d s change_password = false /\
  exists d' s', seed_permission_sets d = (Ok tt, d') /\
    tbl_get s.(sa_id) d'.(ad_services) = Some s' /\
    has_client_permission d' s' change_password = true.
Proof.
  intros Hn Ht Ho Hwf Hg Hk Hown Hprod Hs. split.
  { unfold has_client_permission, resolve_client_permissions. rewrite Ho.
    rewrite merge_get by congruence. cbn [mbind option_bind]. by rewrite Hg. }
  destruct (seed_result d Hn) as [l Hl]. eexists _, _. split; [exact Hl|]. split.
  { cbn [ad_services update]. rewrite !(tbl_get_map (R := service_access)), Hs; [done| |done].
    intros x. unfold clear_change_password_denial. by repeat case_match. }
  set (d' := update ad_services _ _). set (s' := backfill_service _).
  destruct (seeded_overrides s o Ho Hwf Hg) as [Hog How]. fold s' in Hog, How.
  assert (s'.(sa_permission_set_id) = s.(sa_permission_set_id) /\ s'.(sa_owner) = s.(sa_owner) /\
    s'.(sa_service_type) = s.(sa_service_type)) as (Hid & Ho' & Ht').
  { unfold s', clear_change_password_denial. by repeat case_match. }
  set (good o := o = None \/ exists p, o = Some p /\ dict_wf p /\
    dict_get change_password p = Some (JBool true)).
  assert (forall k, ordinary_preset d k -> good (preset_of d' k)) as Hgood
    by (intros k Hord; by apply seeded_layer).
  assert (good (product_preset d' s')) as Gp.
  { unfold product_preset. destruct (sa_product_code s') as [[|c code]|]; [by left| |by left].
    destruct (List.find _ (ad_products d')) as [p|] eqn:Hf; [|by left].
    apply Hgood, Hprod. by apply List.find_some in Hf as [Hf _]. }
  assert (good (owner_preset d' s')) as Go.
  { unfold owner_preset. rewrite Ho'. destruct s.(sa_owner) as [k|]; [|by left].
    by apply Hgood, Hown. }
  assert (good (preset_of d' s'.(sa_permission_set_id))) as Gs by (rewrite Hid; by apply Hgood).
  unfold has_client_permission. rewrite most_specific_layer.
  - unfold layers. cbn [first_set]. rewrite Hog, Ht', Ht.
    destruct Gs as [-> |(p1 & -> & _ & H1)]; cbn [mbind option_bind]; [|by rewrite H1].
    destruct Go as [-> |(p2 & -> & _ & H2)]; cbn [mbind option_bind]; [|by rewrite H2].
    destruct Gp as [-> |(p3 & -> & _ & H3)]; cbn [mbind option_bind]; [|by rewrite H3].
    by vm_compute.
  - unfold layers. rewrite Ht', Ht. repeat apply List.Forall_cons; [..|apply List.Forall_nil].
    + destruct (sa_permission_overrides s') as [q|]; [by apply How|done].
    + by destruct Gs as [-> |(p1 & -> & ? & _)].
    + by destruct Go as [-> |(p2 & -> & ? & _)].
    + by destruct Gp as [-> |(p3 & -> & ? & _)].
    + apply (bool_decide_unpack _). vm_compute. exact I.
Qed.

(** The service a reseller deployed without the password change. *)
Definition denied_access : access_db :=
  mk_access_db []
    [mk_service_access 4 ST_VM (Some "vps-2") None None
       (Some [("vm.change_password", JBool false); ("vm.backups", JBool false)])]
    [mk_access_product 7 "vps-2" (Some "vm") None] [].
Definition denied_service : service_access :=
  mk_service_access 4 ST_VM (Some "vps-2") None None
    (Some [("vm.change_password", JBool false); ("vm.backups", JBool false)]).

Lemma restart_erases_password_denials_witness :
  has_client_permission denied_access denied_service "vm.change_password" = false /\
  exists d' s', seed_permission_sets denied_access = (Ok tt, d') /\
    tbl_get 4 d'.(ad_services) = Some s' /\
    has_client_permission d' s' "vm.change_password" = true.
Proof.
  apply (restart_erases_password_denials denied_access denied_service
    [("vm.change_password", JBool false); ("vm.backups", JBool false)]);
    [apply NoDup_nil_2|reflexivity|reflexivity| |reflexivity|by intros n|by intros k|
     |reflexivity].
  - unfold dict_wf. apply (bool_decide_unpack _). vm_compute. exact I.
  - intros p [<-|[]] n. discriminate.
Defined.

(** "Power + IPMI" promises the defaults: it keeps them for servers and virtual
    machines, and widens those of proxies. *)
Lemma default_equivalent_preset t :
  match t with
  | ST_HTTP_PROXY => True
  | _ => List.Forall (fun x =>
           dict_get x.1 (default [] (option_map snd (List.find (fun p => p.1 == "Power + IPMI")
                                                       SYSTEM_PRESETS)))
           = Some x.2) (DEFAULT_PERMISSIONS_BY_SERVICE_TYPE t)
  end.
Proof. destruct t; [..|done]; vm_compute; repeat constructor. Qed.
