(* ===== verification/Checkout.v ===== *)
(** Checkout of the retail storefront: quotes, orders, their invoices and
    coupons, and their fulfilment.  src/app/services/checkout_service.py,
    src/app/dao/order_dao.py, src/app/dao/sequence_dao.py, and the order
    endpoints of src/app/api/commerce_admin.py and commerce_client.py. *)
From Stdlib Require Import ZArith Lia Ascii.
From stdpp Require Import base numbers list strings pretty.
From S2P Require Import Prelude Models Session Outbox Invoices Mail Retail.
#[local] Open Scope Z_scope.
#[local] Open Scope py_scope.

(** * The storefront catalogue (src/app/models/storefront.py)

    The catalogue is read with its relationships loaded; nothing here writes
    it. *)

Inductive plan_interval : Type :=
| PI_MONTHLY
| PI_QUARTERLY
| PI_SEMIANNUALLY
| PI_ANNUALLY.
#[export] Instance plan_interval_eq_dec : EqDecision plan_interval.
Proof. solve_decision. Defined.
Definition plan_interval_value (x : plan_interval) : string :=
  match x with
  | PI_MONTHLY => "monthly"
  | PI_QUARTERLY => "quarterly"
  | PI_SEMIANNUALLY => "semiannually"
  | PI_ANNUALLY => "annually"
  end.
(** [PricePlanInterval(value)]; [None] is its [ValueError]. *)
Definition plan_interval_of (value : string) : option plan_interval :=
  List.find (fun i => plan_interval_value i == value)
    [PI_MONTHLY; PI_QUARTERLY; PI_SEMIANNUALLY; PI_ANNUALLY].

Record plan_cycle : Type := mk_plan_cycle {
  cy_interval : plan_interval;
  cy_price_cents : Z;
  cy_enabled : bool
}.

Record storefront_plan : Type := mk_storefront_plan {
  sp_id : Z;
  sp_name : string;
  sp_pricing_model : pricing_model;
  sp_currency : string;
  sp_setup_cents : Z;
  sp_enabled : bool;
  sp_cycles : list plan_cycle
}.

Record option_value : Type := mk_option_value {
  ov_code : string;
  ov_name : string;
  ov_provision_key : option string;
  ov_provision_value : option string;
  ov_price_delta_cents : Z;
  ov_enabled : bool
}.

Inductive option_type : Type := OT_SELECT | OT_TEXT.

Record product_option : Type := mk_product_option {
  po_code : string;
  po_name : string;
  po_required : bool;
  po_option_type : option_type;
  po_values : list option_value
}.

(** [Product] behind a storefront product: its key, its code and the service
    type of its family. *)
Record catalog_product : Type := mk_catalog_product {
  cp_id : Z;
  cp_code : string;
  cp_family_service_type : option string
}.

Record frontend_product : Type := mk_frontend_product {
  fp_id : Z;
  fp_name : string;
  fp_category_id : option Z;
  fp_product : option catalog_product;
  fp_service_type : string;
  fp_enabled : bool;
  fp_permission_set_id : option Z;
  fp_price_plans : list storefront_plan;
  fp_options : list product_option
}.

(** [TaxRate] of src/app/models/commerce_coupon_tax.py *)
Record tax_rate : Type := mk_tax_rate {
  tx_country : string;
  tx_region : option string;
  tx_rate_bps : Z;
  tx_enabled : bool
}.

(** What [ProvisioningService.create] is asked for; the fields checkout leaves
    at their defaults are left out. *)
Record provision_args : Type := mk_provision_args {
  pr_name : string;
  pr_service_type : service_type;
  pr_owner_user_id : Z;
  pr_product_code : option string;
  pr_description : string;
  pr_service_config : dict;
  pr_frontend_product_id : Z;
  pr_price_plan_id : Z;
  pr_cycle_interval : option string;
  pr_permission_set_id : option Z;
  pr_server_group_id : option Z;
  pr_server_id : option Z;
  pr_template_id : option json;
  pr_vm_template_id : option Z;
  pr_proxmox_cluster_id : option Z;
  pr_proxmox_node_name : option json;
  pr_proxmox_vmid : option Z;
  pr_ip_count : option Z;
  pr_subnet_id : option Z;
  pr_subnet_group_id : option Z;
  pr_allocation_strategy : option json
}.

(** The storefront, the setting checkout reads, [str] of exceptions and of
    JSON containers, and the provisioning service. *)
Record checkout_env : Type := mk_checkout_env {
  ce_products : list frontend_product;
  ce_tax_rates : list tax_rate;
  ce_terms_version : string;
  ce_str_exc : exn -> string;
  ce_str_json : json -> string;
  ce_provision : provision_args -> Meth Z
}.

(** * Quotes *)

Record quote_line : Type := mk_quote_line {
  ql_description : string;
  ql_quantity : Z;
  ql_unit_cents : Z;
  ql_total_cents : Z;
  ql_recurring_cents : Z
}.
Record quote_result : Type := mk_quote_result {
  qt_currency : string;
  qt_setup_cents : Z;
  qt_recurring_cents : Z;
  qt_option_delta_cents : Z;
  qt_subtotal_cents : Z;
  qt_discount_cents : Z;
  qt_tax_cents : Z;
  qt_total_cents : Z;
  qt_coupon_code : option string;
  qt_lines : list quote_line
}.

(** The em dash of descriptions, one character as in the source. *)
Definition em_dash : string := String (ascii_of_nat 151) EmptyString.
Definition newline : string := String (ascii_of_nat 10) EmptyString.

Definition load_product_bundle (env : checkout_env) (frontend_product_id : Z)
  : Meth frontend_product :=
  match List.find (fun p => p.(fp_id) =? frontend_product_id) env.(ce_products) with
  | Some p => if p.(fp_enabled) then ret p else raise (CheckoutError "Product is unavailable")
  | None => raise (CheckoutError "Product is unavailable")
  end.

Definition enabled_cycle (p : plan_cycle -> bool) (plan : storefront_plan) : option plan_cycle :=
  List.find (fun c => c.(cy_enabled) && p c) plan.(sp_cycles).

Definition resolve_cycle_price (plan : storefront_plan) (cycle_interval : option string)
  : Meth (Z * Z) :=
  let setup := plan.(sp_setup_cents) in
  match plan.(sp_pricing_model) with
  | PM_FREE => ret (0, 0)
  | PM_ONE_TIME =>
      ret (setup, match enabled_cycle (fun _ => true) plan with
                  | Some c => c.(cy_price_cents)
                  | None => 0
                  end)
  | PM_RECURRING =>
      if negb (str_true cycle_interval)
      then raise (CheckoutError "Billing cycle is required for recurring plans")
      else
        interval <- unwrap (plan_interval_of (str_or cycle_interval ""))
                      (CheckoutError "Invalid billing cycle") ;;
        cycle <- unwrap (enabled_cycle (fun c => c.(cy_interval) == interval) plan)
                   (CheckoutError "Selected billing cycle is unavailable") ;;
        ret (setup, cycle.(cy_price_cents))
  end.

(** [str(raw)] of a JSON value. *)
Definition str_of (env : checkout_env) (raw : json) : string :=
  match raw with
  | JStr s => s
  | JInt n => pretty n
  | JBool true => "True"
  | JBool false => "False"
  | JNull => "None"
  | _ => env.(ce_str_json) raw
  end.
(** [raw is None or raw == ""] *)
Definition not_given (raw : option json) : bool :=
  match raw with
  | None | Some JNull => true
  | Some (JStr s) => str_empty s
  | Some _ => false
  end.

Definition resolve_option_value (env : checkout_env) (o : product_option) (raw : json)
  : Meth option_value :=
  unwrap (List.find (fun v => v.(ov_enabled) && (v.(ov_code) == str_of env raw)) o.(po_values))
    (CheckoutError ("Invalid option value for " +:+ o.(po_name))).

Definition normalized_value (v : option_value) : json :=
  JObj [("value_code", JStr v.(ov_code)); ("name", JStr v.(ov_name));
        ("provision_key", jopt_str v.(ov_provision_key));
        ("provision_value", jopt_str v.(ov_provision_value))].

Definition normalize_options (env : checkout_env) (product : frontend_product)
    (options : option dict) : Meth (dict * Z) :=
  let selected := match options with Some d => d | None => [] end in
  fold_each product.(fp_options) ([], 0) (fun acc o =>
    let raw := dict_get o.(po_code) selected in
    if not_given raw then
      throw_if o.(po_required) (CheckoutError ("Required option missing: " +:+ o.(po_name))) ;;;
      ret acc
    else
      let raw := match raw with Some r => r | None => JNull end in
      match o.(po_option_type) with
      | OT_SELECT =>
          v <- resolve_option_value env o raw ;;
          ret (dict_set o.(po_code) (normalized_value v) acc.1, acc.2 + v.(ov_price_delta_cents))
      | OT_TEXT =>
          ret (dict_set o.(po_code) (JObj [("text", JStr (str_of env raw))]) acc.1, acc.2)
      end).

Definition coupons_with_code (code : string) (d : db) : list coupon :=
  List.filter (fun c => (str_lower c.(co_code) == str_lower (str_strip code))
                        && c.(co_enabled)) d.(db_coupons).

Definition find_coupon (coupon_code : option string) (product : frontend_product)
  : Meth (option coupon) :=
  if negb (str_true coupon_code) then ret None
  else
    rows <- read (coupons_with_code (str_or coupon_code "")) ;;
    o <- scalar_one_or_none MultipleResultsFound rows ;;
    coupon <- unwrap o (CheckoutError "Coupon code is invalid") ;;
    now <- utcnow ;;
    throw_if (match coupon.(co_starts_at) with Some t => now <? t | None => false end)
      (CheckoutError "Coupon is not active yet") ;;;
    throw_if (match coupon.(co_expires_at) with Some t => t <? now | None => false end)
      (CheckoutError "Coupon has expired") ;;;
    throw_if (match coupon.(co_max_uses) with Some m => m <=? coupon.(co_used_count) | None => false end)
      (CheckoutError "Coupon usage limit reached") ;;;
    match coupon.(co_applies_to) with
    | CA_PRODUCT =>
        throw_if (coupon.(co_frontend_product_id) != Some product.(fp_id))
          (CheckoutError "Coupon does not apply to this product")
    | CA_CATEGORY =>
        throw_if (coupon.(co_category_id) != product.(fp_category_id))
          (CheckoutError "Coupon does not apply to this product category")
    | CA_ALL => ret tt
    end ;;;
    ret (Some coupon).

Definition coupon_discount (coupon : option coupon) (subtotal_cents : Z) : Z :=
  match coupon with
  | None => 0
  | Some c =>
      if subtotal_cents <=? 0 then 0
      else match c.(co_amount_off_cents), c.(co_percent_off) with
           | Some amount, _ => Z.min subtotal_cents amount
           | None, Some percent => Z.min subtotal_cents ((subtotal_cents * percent) / 100)
           | None, None => 0
           end
  end.

(** The rates that apply to a billing profile. *)
Definition tax_rates_for (country : string) (region : option string) (t : list tax_rate)
  : list tax_rate :=
  List.filter (fun r =>
    (r.(tx_country) == str_upper country) && r.(tx_enabled)
    && (if str_true region
        then match r.(tx_region) with None => true | Some x => Some x == region end
        else true)) t.

Definition tax_cents (env : checkout_env) (account : billing_account) (taxable_cents : Z)
  : Meth Z :=
  if (taxable_cents <=? 0) || account.(ba_tax_exempt) then ret 0
  else
    rows <- read (fun d => List.filter (fun p => p.(bp_billing_account_id) =? account.(ba_id))
                             d.(db_profiles)) ;;
    profile <- scalar_one_or_none MultipleResultsFound rows ;;
    match profile with
    | None => ret 0
    | Some p =>
        if negb (str_true p.(bp_country)) then ret 0
        else
          rate <- scalar_one_or_none MultipleResultsFound
                    (tax_rates_for (str_or p.(bp_country) "") p.(bp_region) env.(ce_tax_rates)) ;;
          ret (match rate with
               | None => 0
               | Some r => (taxable_cents * r.(tx_rate_bps)) / 10000
               end)
    end.

Definition quote_lines (product : frontend_product) (plan : storefront_plan)
    (setup recurring option_delta discount tax : Z) (coupon : option coupon) : list quote_line :=
  [mk_quote_line (product.(fp_name) +:+ " " +:+ em_dash +:+ " " +:+ plan.(sp_name))
     1 setup setup recurring]
  ++ (if option_delta =? 0 then []
      else [mk_quote_line "Configuration options" 1 option_delta option_delta 0])
  ++ (if discount =? 0 then []
      else [mk_quote_line
              (str_strip ("Coupon " +:+ match coupon with Some c => c.(co_code) | None => "" end))
              1 (- discount) (- discount) 0])
  ++ (if tax =? 0 then [] else [mk_quote_line "Tax" 1 tax tax 0]).

Definition find_plan (product : frontend_product) (price_plan_id : Z) : option storefront_plan :=
  List.find (fun p => p.(sp_id) =? price_plan_id) product.(fp_price_plans).

Definition quote (env : checkout_env) (account : billing_account)
    (frontend_product_id price_plan_id : Z) (cycle_interval : option string)
    (options : option dict) (coupon_code : option string) : Meth quote_result :=
  product <- load_product_bundle env frontend_product_id ;;
  plan <- unwrap (find_plan product price_plan_id) (CheckoutError "Price plan is unavailable") ;;
  throw_if (negb plan.(sp_enabled)) (CheckoutError "Price plan is unavailable") ;;;
  throw_if (str_upper plan.(sp_currency) != str_upper account.(ba_currency))
    (CheckoutError "Price plan currency does not match account currency") ;;;
  normalized <- normalize_options env product options ;;
  let option_delta := normalized.2 in
  price <- resolve_cycle_price plan cycle_interval ;;
  let setup := price.1 + option_delta in
  let recurring := price.2 + option_delta in
  let subtotal := setup + recurring in
  coupon <- find_coupon coupon_code product ;;
  let discount := coupon_discount coupon subtotal in
  let taxable := Z.max 0 (subtotal - discount) in
  tax <- tax_cents env account taxable ;;
  ret (mk_quote_result (str_upper account.(ba_currency)) setup recurring option_delta subtotal
         discount tax (taxable + tax) (option_map co_code coupon)
         (quote_lines product plan setup recurring option_delta discount tax coupon)).

(** * Order numbers (src/app/dao/sequence_dao.py)

    The counter is a row of [invoice_sequences], created on first use. *)

Definition set_order_sequence (v : Z) : Meth unit :=
  write (fun d => d <|db_order_sequence := Some v|>).

Definition ORDER_FIRST_NUMBER : Z := 100001.
(** [SELECT MAX(order_number)] or 0 *)
Definition largest_order_number (d : db) : Z :=
  match List.fold_right (fun o acc =>
          Some (match acc with
                | Some m => Z.max o.(or_order_number) m
                | None => o.(or_order_number)
                end)) None d.(db_orders) with
  | Some m => m
  | None => 0
  end.
Definition sequence_initial_value : Meth Z :=
  read (fun d => Z.max ORDER_FIRST_NUMBER (largest_order_number d + 1)).

Definition allocate_order_number : Meth Z :=
  sqlite <- gets s_sqlite ;;
  if sqlite : bool then
    first <- sequence_initial_value ;;
    seq <- read db_order_sequence ;;
    match seq with None => set_order_sequence first | Some _ => ret tt end ;;;
    seq <- read db_order_sequence ;;
    match seq with
    | Some n => set_order_sequence (n + 1) ;;; ret n
    | None => raise (SequenceError "Could not allocate sequence 'orders'")
    end
  else
    seq <- read db_order_sequence ;;
    allocated <-
      match seq with
      | Some n => ret n
      | None =>
          first <- sequence_initial_value ;;
          set_order_sequence first ;;; flush ;;; ret first
      end ;;
    set_order_sequence (allocated + 1) ;;; flush ;;; ret allocated.

(** * Orders (src/app/dao/order_dao.py) *)

Definition upd_order (k : Z) (f : order -> order) : Meth unit :=
  write (fun d => d <|db_orders := tbl_update k f d.(db_orders)|>).
Definition upd_order_item (k : Z) (f : order_item -> order_item) : Meth unit :=
  write (fun d => d <|db_order_items := tbl_update k f d.(db_order_items)|>).
Definition the_order (k : Z) : Meth order :=
  o <- read (fun d => tbl_get k d.(db_orders)) ;; unwrap o AttributeError.
Definition the_order_item (k : Z) : Meth order_item :=
  o <- read (fun d => tbl_get k d.(db_order_items)) ;; unwrap o AttributeError.

Definition orders_with_nonce (nonce : string) (d : db) : list order :=
  List.filter (fun o => o.(or_checkout_nonce) == Some nonce) d.(db_orders).

Definition order_create (row : Z -> Z -> order) : Meth Z :=
  number <- allocate_order_number ;;
  k <- read (fun d => tbl_fresh d.(db_orders)) ;;
  write (fun d => d <|db_orders := d.(db_orders) ++ [row k number]|>) ;;;
  flush ;;; ret k.

Definition order_item_create (row : Z -> order_item) : Meth Z :=
  k <- read (fun d => tbl_fresh d.(db_order_items)) ;;
  write (fun d => d <|db_order_items := d.(db_order_items) ++ [row k]|>) ;;;
  flush ;;; ret k.

Definition history_append (order_id : Z) (from_status : option order_status)
    (to_status : order_status) (actor_user_id : option Z) (note : option string) : Meth unit :=
  k <- read (fun d => tbl_fresh d.(db_order_history)) ;;
  write (fun d => d <|db_order_history := d.(db_order_history) ++
    [mk_order_history k order_id from_status to_status actor_user_id note]|>) ;;;
  flush.

Definition items_of_order (order_id : Z) (d : db) : list order_item :=
  List.filter (fun i => i.(oi_order_id) =? order_id) d.(db_order_items).

(** * Placing an order *)

Definition order_invoice (k number : Z) (account : billing_account) (o : order)
    (q : quote_result) (now : Z) : invoice :=
  mk_invoice k number
    (if account.(ba_account_type) == AC_RESELLER then account.(ba_reseller_id) else None)
    None (Some account.(ba_id)) (Some o.(or_id)) IP_ORDER_CHARGE IS_OPEN q.(qt_total_cents)
    q.(qt_currency) (Some ("Order #" +:+ pretty o.(or_order_number))) (Some now) None.

(** The lines that are not zero, numbered from [sort]. *)
Fixpoint add_invoice_lines (invoice_id tax order_item_id sort : Z) (lines : list quote_line)
  : Meth unit :=
  match lines with
  | [] => ret tt
  | l :: rest =>
      if l.(ql_total_cents) =? 0 then add_invoice_lines invoice_id tax order_item_id sort rest
      else
        k <- read (fun d => tbl_fresh d.(db_invoice_lines)) ;;
        write (fun d => d <|db_invoice_lines := d.(db_invoice_lines) ++
          [mk_invoice_line k invoice_id (str_take 512 l.(ql_description)) l.(ql_quantity)
             l.(ql_unit_cents) l.(ql_total_cents)
             (if l.(ql_description) == "Tax" then tax else 0) sort
             (if sort =? 0 then Some order_item_id else None)]|>) ;;;
        add_invoice_lines invoice_id tax order_item_id (sort + 1) rest
  end.

Definition create_commerce_invoice (account : billing_account) (order_id : Z)
    (q : quote_result) (order_item_id : Z) : Meth Z :=
  throw_if (q.(qt_total_cents) <=? 0) (CheckoutError "Cannot create invoice for zero total") ;;;
  o <- the_order order_id ;;
  number <- allocate_number ;;
  now <- utcnow ;;
  k <- read (fun d => tbl_fresh d.(db_invoices)) ;;
  write (fun d => d <|db_invoices := d.(db_invoices) ++ [order_invoice k number account o q now]|>) ;;;
  flush ;;;
  add_invoice_lines k q.(qt_tax_cents) order_item_id 0 q.(qt_lines) ;;;
  upd_order order_id (fun o => o <|or_invoice_id := Some k|>) ;;;
  flush ;;;
  ret k.

Definition redeem_coupon_for_order (account : billing_account) (order_id : Z)
    (q : quote_result) (product : frontend_product) : Meth unit :=
  if negb (str_true q.(qt_coupon_code)) then ret tt
  else
    o <- find_coupon q.(qt_coupon_code) product ;;
    match o with
    | None => ret tt
    | Some c =>
        write (fun d => d <|db_coupons :=
          tbl_update c.(co_id) (fun c => c <|co_used_count := c.(co_used_count) + 1|>)
            d.(db_coupons)|>) ;;;
        k <- read (fun d => tbl_fresh d.(db_redemptions)) ;;
        write (fun d => d <|db_redemptions := d.(db_redemptions) ++
          [mk_redemption k c.(co_id) account.(ba_id) (Some order_id)]|>)
    end.

Definition order_mail (event related_type : string) (related_id : Z) (key recipient : string)
    (data : dict) (account : billing_account) (user_id : Z) : mail_args :=
  mk_mail_args recipient event key data (Some account.(ba_id)) (Some user_id)
    (Some related_type) (Some (pretty related_id)).

Definition enqueue_checkout_emails (account : billing_account) (order_id : Z)
    (q : quote_result) (user_id : Z) (invoice_id : option Z) : Meth unit :=
  user <- read (fun d => tbl_get user_id d.(db_users)) ;;
  let recipient := match user with Some u => u.(us_email) | None => "" end in
  if str_empty recipient then ret tt
  else
    o <- the_order order_id ;;
    enqueue_mail (order_mail "order_confirmation" "order" order_id
      ("order:" +:+ pretty order_id +:+ ":confirmation") recipient
      [("order_number", JInt o.(or_order_number)); ("order_id", JInt order_id);
       ("amount_cents", JInt q.(qt_total_cents)); ("currency", JStr q.(qt_currency))]
      account user_id) ;;;
    match invoice_id with
    | None => ret tt
    | Some k =>
        io <- read (fun d => tbl_get k d.(db_invoices)) ;;
        inv <- unwrap io AttributeError ;;
        enqueue_mail (order_mail "invoice_created" "invoice" k
          ("invoice:" +:+ pretty k +:+ ":created") recipient
          [("invoice_number", JInt inv.(in_invoice_number)); ("invoice_id", JInt k);
           ("amount_cents", JInt q.(qt_total_cents)); ("currency", JStr q.(qt_currency))]
          account user_id) ;;;
        ret tt
    end.

Record checkout_request : Type := mk_checkout_request {
  ck_user_id : Z;
  ck_frontend_product_id : Z;
  ck_price_plan_id : Z;
  ck_cycle_interval : option string;
  ck_options : option dict;
  ck_coupon_code : option string;
  ck_checkout_nonce : string;
  ck_terms_version : option string;
  ck_client_ip : option string
}.

Definition placed_order (env : checkout_env) (account : billing_account)
    (c : checkout_request) (q : quote_result) (status : order_status) (now k number : Z) : order :=
  mk_order k number account.(ba_id) c.(ck_user_id) status q.(qt_currency) q.(qt_setup_cents)
    q.(qt_recurring_cents) q.(qt_tax_cents) q.(qt_discount_cents) q.(qt_total_cents)
    q.(qt_coupon_code) (Some (str_or c.(ck_terms_version) env.(ce_terms_version))) (Some now)
    (Some (str_strip c.(ck_checkout_nonce))) None None None c.(ck_client_ip) None.

Definition placed_item (c : checkout_request) (q : quote_result) (config : dict)
    (name : string) (order_id k : Z) : order_item :=
  mk_order_item k order_id None c.(ck_frontend_product_id) c.(ck_price_plan_id)
    c.(ck_cycle_interval) 1 q.(qt_setup_cents) q.(qt_recurring_cents) q.(qt_currency)
    config name FS_PENDING None.

Definition place_new_order (env : checkout_env) (account : billing_account)
    (c : checkout_request) : Meth Z :=
  product <- load_product_bundle env c.(ck_frontend_product_id) ;;
  unwrap (find_plan product c.(ck_price_plan_id)) (CheckoutError "Price plan is unavailable") ;;;
  normalized <- normalize_options env product c.(ck_options) ;;
  q <- quote env account c.(ck_frontend_product_id) c.(ck_price_plan_id)
         c.(ck_cycle_interval) c.(ck_options) c.(ck_coupon_code) ;;
  let status := if q.(qt_total_cents) =? 0 then OD_PENDING_ACCEPTANCE else OD_PENDING_PAYMENT in
  now <- utcnow ;;
  order_id <- order_create (placed_order env account c q status now) ;;
  item_id <- order_item_create (placed_item c q normalized.1 product.(fp_name) order_id) ;;
  history_append order_id None status (Some c.(ck_user_id)) (Some "Order placed") ;;;
  redeem_coupon_for_order account order_id q product ;;;
  invoice_id <-
    (if 0 <? q.(qt_total_cents)
     then k <- create_commerce_invoice account order_id q item_id ;; ret (Some k)
     else ret None) ;;
  flush ;;;
  try_catch (enqueue_checkout_emails account order_id q c.(ck_user_id) invoice_id)
    (fun _ => ret tt) ;;;
  ret order_id.

Definition place_order (env : checkout_env) (account : billing_account) (c : checkout_request)
  : Meth Z :=
  throw_if (str_empty (str_strip c.(ck_checkout_nonce)))
    (CheckoutError "Checkout nonce is required") ;;;
  rows <- read (orders_with_nonce (str_strip c.(ck_checkout_nonce))) ;;
  existing <- scalar_one_or_none MultipleResultsFound rows ;;
  match existing with
  | Some o => ret o.(or_id)
  | None => place_new_order env account c
  end.

(** * Fulfilment *)

Definition ALLOWED_PROVISION_KEYS : list string :=
  ["server_group_id"; "server_id"; "template_id"; "vm_template_id"; "proxmox_cluster_id";
   "proxmox_node_name"; "proxmox_vmid"; "ip_count"; "subnet_id"; "subnet_group_id";
   "allocation_strategy"].

Definition map_service_type (raw : string) : service_type :=
  let normalized := str_lower (str_strip raw) in
  match List.find (fun t => service_type_value t == normalized)
          [ST_BARE_METAL; ST_VM; ST_HTTP_PROXY] with
  | Some t => t
  | None => ST_BARE_METAL
  end.

(** A list or object as a key is not hashable. *)
Definition provision_keys_from_item_config (config : dict) : Meth dict :=
  fold_each config [] (fun out entry =>
    match entry.2 with
    | JObj value =>
        match dict_get "provision_key" value with
        | Some (JStr key) =>
            let raw := dict_get "provision_value" value in
            if existsb (fun k => key == k) ALLOWED_PROVISION_KEYS && negb (not_given raw)
            then ret (dict_set key (match raw with Some r => r | None => JNull end) out)
            else ret out
        | Some (JList _) | Some (JObj _) => raise (OtherError "TypeError")
        | _ => ret out
        end
    | _ => ret out
    end).

Definition provision_int (keys : dict) (name : string) : Meth (option Z) :=
  let raw := dict_get name keys in
  if not_given raw then ret None
  else match json_int (match raw with Some r => r | None => JNull end) with
       | Ok n => ret (Some n)
       | Raise e => raise e
       end.

Definition provision_order_item (env : checkout_env) (order_id item_id : Z) : Meth Z :=
  item <- the_order_item item_id ;;
  o <- the_order order_id ;;
  product <- load_product_bundle env item.(oi_frontend_product_id) ;;
  let catalog_type := product.(fp_product) ≫= cp_family_service_type in
  let service_type := map_service_type (str_or catalog_type product.(fp_service_type)) in
  keys <- provision_keys_from_item_config item.(oi_config) ;;
  server_group_id <- provision_int keys "server_group_id" ;;
  server_id <- provision_int keys "server_id" ;;
  vm_template_id <- provision_int keys "vm_template_id" ;;
  proxmox_cluster_id <- provision_int keys "proxmox_cluster_id" ;;
  proxmox_vmid <- provision_int keys "proxmox_vmid" ;;
  ip_count <- provision_int keys "ip_count" ;;
  subnet_id <- provision_int keys "subnet_id" ;;
  subnet_group_id <- provision_int keys "subnet_group_id" ;;
  let number : string := pretty o.(or_order_number) in
  try_catch
    (env.(ce_provision)
       (mk_provision_args
          (str_or (Some item.(oi_name_snapshot))
             ("order-" +:+ number +:+ "-" +:+ pretty item_id))
          service_type o.(or_user_id) (option_map cp_code product.(fp_product))
          ("Order #" +:+ number) item.(oi_config) product.(fp_id) item.(oi_price_plan_id)
          item.(oi_cycle_interval) product.(fp_permission_set_id) server_group_id server_id
          (dict_get "template_id" keys) vm_template_id proxmox_cluster_id
          (dict_get "proxmox_node_name" keys) proxmox_vmid ip_count subnet_id subnet_group_id
          (dict_get "allocation_strategy" keys)))
    (fun e => match e with
              | ProvisioningError _ m _ => raise (CheckoutError m)
              | _ => raise e
              end).

Definition plan_terms (product : frontend_product) (p : storefront_plan) : price_plan :=
  mk_price_plan p.(sp_pricing_model) p.(sp_currency)
    (Some (option_map cp_id product.(fp_product))).
Definition terms_of_item (i : order_item) : item_terms :=
  mk_item_terms i.(oi_setup_cents) i.(oi_recurring_cents) i.(oi_currency) i.(oi_cycle_interval).

(** What happens to one item inside the [try]. *)
Definition deliver_order_item (env : checkout_env) (order_id item_id : Z) : Meth (option string) :=
  service_id <- provision_order_item env order_id item_id ;;
  upd_order_item item_id (fun i => i <|oi_service_id := Some service_id|>) ;;;
  item <- the_order_item item_id ;;
  product <- load_product_bundle env item.(oi_frontend_product_id) ;;
  o <- the_order order_id ;;
  account <- read (fun d => tbl_get o.(or_billing_account_id) d.(db_accounts)) ;;
  match find_plan product item.(oi_price_plan_id), account with
  | Some plan, Some a =>
      ensure_for_fulfilled_item service_id (terms_of_item item) a (plan_terms product plan)
        (option_map cp_id product.(fp_product)) ;;; ret tt
  | _, _ => ret tt
  end ;;;
  upd_order_item item_id (fun i => i <|oi_fulfill_status := FS_FULFILLED|>) ;;;
  ret None.

Definition fulfill_order_item (env : checkout_env) (order_id item_id : Z)
  : Meth (option string) :=
  upd_order_item item_id (fun i => i <|oi_fulfill_status := FS_FULFILLING|>) ;;;
  flush ;;;
  try_catch (deliver_order_item env order_id item_id)
    (fun e =>
       upd_order_item item_id (fun i => i <|oi_fulfill_status := FS_FAILED|>
         <|oi_error_message := Some (str_take 2000 (env.(ce_str_exc) e))|>) ;;;
       ret (Some ("Item " +:+ pretty item_id +:+ ": " +:+ env.(ce_str_exc) e))).

Definition str_join (sep : string) (l : list string) : string :=
  match l with
  | [] => ""
  | x :: rest => fold_left (fun acc y => acc +:+ sep +:+ y) rest x
  end.
Definition failure_notes (admin_notes : option string) (errors : list string) : string :=
  str_strip (str_or admin_notes "" +:+ newline +:+ "Provision failures:" +:+ newline
             +:+ str_join newline errors
             +:+ newline +:+ "Refund path stub: manual review required.").

Definition announce_paid_order (order_id : Z) : Meth unit :=
  o <- the_order order_id ;;
  enqueue_commerce_event "order.paid"
    [("order_id", JInt order_id); ("order_number", JInt o.(or_order_number));
     ("billing_account_id", JInt o.(or_billing_account_id));
     ("total_cents", JInt o.(or_total_cents)); ("currency", JStr o.(or_currency))] ;;;
  match o.(or_invoice_id) with
  | Some k =>
      enqueue_commerce_event "invoice.paid"
        [("invoice_id", JInt k); ("order_id", JInt order_id);
         ("billing_account_id", JInt o.(or_billing_account_id))] ;;; ret tt
  | None => ret tt
  end.

Definition fulfillable (s : order_status) : bool :=
  (s == OD_PENDING_PAYMENT) || (s == OD_PENDING_ACCEPTANCE).

(** Deliver every item; returns the failures. *)
Definition fulfill_items (env : checkout_env) (order_id : Z) (items : list order_item)
  : Meth (list string) :=
  fold_each items [] (fun errors i =>
    failure <- fulfill_order_item env order_id i.(oi_id) ;;
    flush ;;;
    ret (match failure with
         | Some m => if str_empty m then errors else errors ++ [m]
         | None => errors
         end)).

Definition close_fulfillment (order_id : Z) (errors : list string) : Meth unit :=
  match errors with
  | [] =>
      upd_order order_id (fun o => o <|or_status := OD_ACTIVE|>) ;;;
      history_append order_id (Some OD_FULFILLING) OD_ACTIVE None (Some "Fulfillment complete") ;;;
      try_catch (announce_paid_order order_id) (fun _ => ret tt)
  | _ =>
      upd_order order_id (fun o => o <|or_status := OD_PROVISION_ERROR|>
        <|or_admin_notes := Some (failure_notes o.(or_admin_notes) errors)|>) ;;;
      history_append order_id (Some OD_FULFILLING) OD_PROVISION_ERROR None
        (Some "Provisioning failed")
  end.

Definition mark_paid_and_fulfill (env : checkout_env) (order_id : Z) : Meth unit :=
  o <- read (fun d => tbl_get order_id d.(db_orders)) ;;
  locked <- unwrap o (CheckoutError "Order not found") ;;
  throw_if (negb (fulfillable locked.(or_status)))
    (CheckoutError ("Order cannot be fulfilled from status "
                    +:+ order_status_value locked.(or_status))) ;;;
  upd_order order_id (fun o => o <|or_status := OD_FULFILLING|>) ;;;
  history_append order_id (Some locked.(or_status)) OD_FULFILLING None
    (Some "Payment received; fulfillment started") ;;;
  flush ;;;
  items <- read (items_of_order order_id) ;;
  errors <- fulfill_items env order_id items ;;
  close_fulfillment order_id errors ;;;
  flush.

(** * The endpoints

    A request commits at its end; when it fails, closing the session rolls it
    back.  Audit rows are left out. *)
Definition request {A} (m : Meth A) : Meth A :=
  try_catch (a <- m ;; commit ;;; ret a) (fun e => rollback ;;; raise e).

(** [except CheckoutError as exc: raise HTTPException(400)] *)
Definition bad_request {A} (m : Meth A) : Meth A :=
  try_catch m (fun e => match e with
                        | CheckoutError _ => raise (HTTPException 400)
                        | _ => raise e
                        end).

Definition checkout (env : checkout_env) (account : billing_account) (c : checkout_request)
  : Meth Z := request (bad_request (place_order env account c)).

Definition get_order_or_404 (order_id : Z) : Meth order :=
  o <- read (fun d => tbl_get order_id d.(db_orders)) ;; unwrap o (HTTPException 404).

Definition acceptable (s : order_status) : bool :=
  (s == OD_PENDING_ACCEPTANCE) || (s == OD_PENDING_PAYMENT) || (s == OD_PAID_PENDING_FULFILLMENT).
Definition retryable (s : order_status) : bool :=
  (s == OD_PROVISION_ERROR) || (s == OD_PAID_PENDING_FULFILLMENT) || (s == OD_FULFILLING).

Definition accept_order (env : checkout_env) (order_id : Z) (admin : option Z) : Meth unit :=
  request
    (o <- get_order_or_404 order_id ;;
     throw_if (negb (acceptable o.(or_status))) (HTTPException 400) ;;;
     let prior := o.(or_status) in
     now <- utcnow ;;
     upd_order order_id (fun o => o <|or_accepted_at := Some now|>
                                    <|or_accepted_by_user_id := admin|>) ;;;
     (if prior == OD_PENDING_ACCEPTANCE then
        history_append order_id (Some prior) OD_PAID_PENDING_FULFILLMENT admin
          (Some "Order accepted by admin") ;;;
        upd_order order_id (fun o => o <|or_status := OD_PAID_PENDING_FULFILLMENT|>) ;;;
        flush
      else ret tt) ;;;
     bad_request (mark_paid_and_fulfill env order_id)).

Definition retry_fulfill_order (env : checkout_env) (order_id : Z) : Meth unit :=
  request
    (o <- get_order_or_404 order_id ;;
     throw_if (negb (retryable o.(or_status))) (HTTPException 400) ;;;
     bad_request (mark_paid_and_fulfill env order_id)).

Definition cancel_order (order_id : Z) (admin : option Z) : Meth unit :=
  request
    (o <- get_order_or_404 order_id ;;
     throw_if ((o.(or_status) == OD_ACTIVE) || (o.(or_status) == OD_CANCELLED))
       (HTTPException 400) ;;;
     upd_order order_id (fun o => o <|or_status := OD_CANCELLED|>) ;;;
     history_append order_id (Some o.(or_status)) OD_CANCELLED admin
       (Some "Cancelled by admin")).

(** * Quotes add up *)

(** [m], started in [s], answers from the database without touching it. *)
Definition reads_at {A} (m : Meth A) (Q : A -> Prop) (s : session) : Prop :=
  wp m (fun a s' => s' = s /\ Q a) (fun _ s' => s' = s) s.
Definition reads {A} (m : Meth A) (Q : A -> session -> Prop) : Prop :=
  forall s, reads_at m (fun a => Q a s) s.

Lemma reads_ret {A} (a : A) (Q : A -> Prop) s : Q a -> reads_at (ret a) Q s.
Proof. by split. Qed.
Lemma reads_raise {A} e (Q : A -> Prop) s : reads_at (raise e) Q s.
Proof. done. Qed.
Lemma reads_bind {A B} (m : Meth A) (k : A -> Meth B) P (Q : B -> Prop) s :
  reads m P -> (forall a, P a s -> reads_at (k a) Q s) -> reads_at (bind m k) Q s.
Proof.
  intros Hm Hk. apply wp_bind. eapply wp_conseq; [apply Hm| |].
  - intros a s' [-> Ha]. by apply Hk.
  - by intros e s' ->.
Qed.
Lemma reads_gets {A B} (f : session -> A) (k : A -> Meth B) (Q : B -> Prop) s :
  reads_at (k (f s)) Q s -> reads_at (bind (gets f) k) Q s.
Proof. done. Qed.
Lemma reads_read {A B} (f : db -> A) (k : A -> Meth B) (Q : B -> Prop) s :
  reads_at (k (f s.(s_db))) Q s -> reads_at (bind (read f) k) Q s.
Proof. done. Qed.
Lemma reads_one_or_none {R} (rows : list R) :
  reads (scalar_one_or_none MultipleResultsFound rows) (fun o _ => forall r, o = Some r -> rows = [r]).
Proof. intros s. destruct rows as [|r [|r' l]]; [by split|split; [done|congruence]|done]. Qed.
Lemma reads_unwrap {A} (o : option A) e : reads (unwrap o e) (fun a _ => o = Some a).
Proof. intros s. by destruct o. Qed.
Lemma reads_throw_if b e : reads (throw_if b e) (fun _ _ => b = false).
Proof. intros s. by destruct b. Qed.
Lemma reads_conseq {A} (m : Meth A) (P Q : A -> Prop) s :
  reads_at m P s -> (forall a, P a -> Q a) -> reads_at m Q s.
Proof. intros Hm HPQ. eapply wp_conseq; [exact Hm|intros a s' [-> Ha]; eauto|done]. Qed.

(** What a plan costs per cycle, when the cycle is offered. *)
Definition cycle_price (plan : storefront_plan) (cycle_interval : option string) : option (Z * Z) :=
  match plan.(sp_pricing_model) with
  | PM_FREE => Some (0, 0)
  | PM_ONE_TIME =>
      Some (plan.(sp_setup_cents),
            match enabled_cycle (fun _ => true) plan with
            | Some c => c.(cy_price_cents) | None => 0
            end)
  | PM_RECURRING =>
      if str_true cycle_interval then
        match plan_interval_of (str_or cycle_interval "") with
        | Some i => option_map (fun c => (plan.(sp_setup_cents), c.(cy_price_cents)))
                      (enabled_cycle (fun c => c.(cy_interval) == i) plan)
        | None => None
        end
      else None
  end.

Lemma resolve_cycle_price_reads plan cycle_interval :
  reads (resolve_cycle_price plan cycle_interval)
    (fun p _ => cycle_price plan cycle_interval = Some p).
Proof.
  intros s. unfold resolve_cycle_price, cycle_price. destruct plan.(sp_pricing_model); [|done..].
  destruct (str_true _); cbn [negb]; [|done].
  eapply reads_bind; [apply reads_unwrap|]. intros i ->.
  eapply reads_bind; [apply reads_unwrap|]. by intros c ->.
Qed.

Definition coupon_usable (c : coupon) (now : Z) : Prop :=
  c.(co_enabled) = true /\ (forall m, c.(co_max_uses) = Some m -> c.(co_used_count) < m) /\
  (forall t, c.(co_starts_at) = Some t -> t <= now) /\
  (forall t, c.(co_expires_at) = Some t -> now <= t).

Lemma find_coupon_reads code product :
  reads (find_coupon code product)
    (fun o s => forall c, o = Some c -> In c s.(s_db).(db_coupons) /\ coupon_usable c s.(s_now)).
Proof.
  intros s. unfold find_coupon. destruct (negb _); [by split|].
  apply reads_read. eapply reads_bind; [apply reads_one_or_none|]. intros o Ho.
  eapply reads_bind; [apply reads_unwrap|]. intros c ->. specialize (Ho c eq_refl).
  assert (In c (coupons_with_code (str_or code "") s.(s_db))) as Hin by (rewrite Ho; by left).
  apply filter_In in Hin as [Hin [_ Hen]%andb_true_iff].
  apply reads_gets.
  do 3 (eapply reads_bind; [apply reads_throw_if|]; intros [] ?).
  eapply (reads_bind _ _ (fun _ _ => True)).
  { intros s'. destruct c.(co_applies_to); [by split|..]; unfold throw_if; by destruct (_ != _). }
  intros [] _. apply reads_ret. intros ? [= <-]. split; [done|]. split; [done|].
  split; [|split]; intros t Ht; rewrite Ht in *; cbn in *; lia.
Qed.

(** Amounts of the catalogue and of the coupons are not negative. *)
Record priced (env : checkout_env) (d : db) : Prop := {
  pr_plans : forall p plan, In p env.(ce_products) -> In plan p.(fp_price_plans) ->
    0 <= plan.(sp_setup_cents) /\
    (forall c, In c plan.(sp_cycles) -> 0 <= c.(cy_price_cents));
  pr_options : forall p o v, In p env.(ce_products) -> In o p.(fp_options) ->
    In v o.(po_values) -> 0 <= v.(ov_price_delta_cents);
  pr_coupons : forall c, In c d.(db_coupons) ->
    (forall a, c.(co_amount_off_cents) = Some a -> 0 <= a) /\
    (forall p, c.(co_percent_off) = Some p -> 0 <= p);
  pr_rates : forall r, In r env.(ce_tax_rates) -> 0 <= r.(tx_rate_bps)
}.

Lemma coupon_discount_bounds c subtotal :
  0 <= subtotal ->
  (forall x, c = Some x -> (forall a, x.(co_amount_off_cents) = Some a -> 0 <= a) /\
                           (forall p, x.(co_percent_off) = Some p -> 0 <= p)) ->
  0 <= coupon_discount c subtotal <= subtotal.
Proof.
  intros Hs Hc. unfold coupon_discount. destruct c as [c|]; [|lia].
  destruct (Hc c eq_refl) as [Ha Hp]. destruct (Z.leb_spec subtotal 0); [lia|].
  destruct c.(co_amount_off_cents) as [a|]; [specialize (Ha a eq_refl); lia|].
  destruct c.(co_percent_off) as [p|]; [|lia]. specialize (Hp p eq_refl).
  assert (0 <= subtotal * p / 100) by (apply Z.div_pos; nia). lia.
Qed.

Lemma normalize_options_reads env product options :
  reads (normalize_options env product options)
    (fun r _ => (forall o v, In o product.(fp_options) -> In v o.(po_values) ->
                  0 <= v.(ov_price_delta_cents)) -> 0 <= r.2).
Proof.
  intros s. unfold normalize_options.
  set (good := forall o v, In o product.(fp_options) -> In v o.(po_values) ->
    0 <= v.(ov_price_delta_cents)).
  set (I := fun (acc : dict * Z) (s' : session) => s' = s /\ (good -> 0 <= acc.2)).
  apply (wp_fold_each I); [by split|].
  intros o acc s' Ho [-> Hacc].
  destruct (not_given _).
  { apply wp_bind, wp_throw_if; [done|]. by intros _. }
  destruct o.(po_option_type) eqn:Hot; [|by split].
  unfold resolve_option_value. apply wp_bind, wp_unwrap; [done|]. intros v Hv.
  split; [done|]. intros Hg. cbn [snd]. specialize (Hacc Hg).
  apply List.find_some in Hv as [Hv _]. apply list_elem_of_In in Ho.
  specialize (Hg o v Ho Hv). lia.
Qed.

Lemma tax_cents_reads env account taxable :
  reads (tax_cents env account taxable)
    (fun t _ => (forall r, In r env.(ce_tax_rates) -> 0 <= r.(tx_rate_bps)) -> 0 <= t).
Proof.
  intros s. unfold tax_cents. destruct (_ || _) eqn:Hz; [by split|].
  apply orb_false_iff in Hz as [Hz _].
  apply reads_read. eapply reads_bind; [apply reads_one_or_none|]. intros [p|] _; [|by split].
  destruct (negb _); [by split|]. eapply reads_bind; [apply reads_one_or_none|].
  intros [r|] Hr; apply reads_ret; [|done]. intros Hg. specialize (Hr r eq_refl).
  assert (In r env.(ce_tax_rates)) as Hin.
  { eapply proj1, filter_In. unfold tax_rates_for in Hr. rewrite Hr. by left. }
  specialize (Hg r Hin). apply Z.div_pos; nia.
Qed.

Lemma load_product_reads env k :
  reads (load_product_bundle env k) (fun p _ => In p env.(ce_products)).
Proof.
  intros s. unfold load_product_bundle. destruct (List.find _ _) as [p|] eqn:Hp; [|done].
  destruct p.(fp_enabled); [|done]. split; [done|]. by apply List.find_some in Hp as [Hp _].
Qed.

Definition lines_total (lines : list quote_line) : Z :=
  fold_right (fun l acc => l.(ql_total_cents) + acc) 0 lines.

Lemma quote_lines_total product plan setup recurring delta discount tax c :
  lines_total (quote_lines product plan setup recurring delta discount tax c)
  = setup + delta - discount + tax.
Proof.
  unfold quote_lines, lines_total.
  destruct (Z.eqb_spec delta 0), (Z.eqb_spec discount 0), (Z.eqb_spec tax 0); cbn; lia.
Qed.
#[local] Arguments quote_lines : simpl never.
#[local] Arguments lines_total : simpl never.

(** The parts of a quote. *)
Record quoted (env : checkout_env) (account : billing_account) (product : frontend_product)
    (plan : storefront_plan) (cycle_interval : option string) (coupon : option coupon)
    (q : quote_result) (s : session) : Prop := {
  qd_product : In product env.(ce_products);
  qd_plan : In plan product.(fp_price_plans) /\ plan.(sp_enabled) = true;
  qd_price : exists price, cycle_price plan cycle_interval = Some price /\
    q.(qt_setup_cents) = price.1 + q.(qt_option_delta_cents) /\
    q.(qt_recurring_cents) = price.2 + q.(qt_option_delta_cents) /\
    lines_total q.(qt_lines)
    = price.1 + 2 * q.(qt_option_delta_cents) - q.(qt_discount_cents) + q.(qt_tax_cents);
  qd_coupon : forall c, coupon = Some c ->
    In c s.(s_db).(db_coupons) /\ coupon_usable c s.(s_now);
  qd_code : q.(qt_coupon_code) = option_map co_code coupon;
  qd_subtotal : q.(qt_subtotal_cents) = q.(qt_setup_cents) + q.(qt_recurring_cents);
  qd_discount : q.(qt_discount_cents) = coupon_discount coupon q.(qt_subtotal_cents);
  qd_total : q.(qt_total_cents)
    = Z.max 0 (q.(qt_subtotal_cents) - q.(qt_discount_cents)) + q.(qt_tax_cents);
  qd_currency : q.(qt_currency) = str_upper account.(ba_currency)
    /\ str_upper plan.(sp_currency) = q.(qt_currency);
  qd_priced : priced env s.(s_db) ->
    0 <= q.(qt_option_delta_cents) /\ 0 <= q.(qt_tax_cents)
}.

Lemma quote_reads env account product_id plan_id cycle_interval options code :
  reads (quote env account product_id plan_id cycle_interval options code)
    (fun q s => exists product plan coupon, quoted env account product plan cycle_interval coupon q s).
Proof.
  intros s. unfold quote. eapply reads_bind; [apply load_product_reads|]. intros product Hp.
  eapply reads_bind; [apply reads_unwrap|]. intros plan Hplan.
  apply List.find_some in Hplan as [Hplan _].
  eapply reads_bind; [apply reads_throw_if|]. intros [] Hen. apply negb_false_iff in Hen.
  eapply reads_bind; [apply reads_throw_if|]. intros [] Hcur.
  apply negb_false_iff in Hcur. rewrite py_eq_true in Hcur.
  eapply reads_bind; [apply normalize_options_reads|]. intros normalized Hdelta.
  eapply reads_bind; [apply resolve_cycle_price_reads|]. intros price Hprice.
  eapply reads_bind; [apply find_coupon_reads|]. intros coupon Hcoupon.
  eapply reads_bind; [apply tax_cents_reads|]. intros tax Htax.
  apply reads_ret. exists product, plan, coupon. constructor; cbn; try done.
  - exists price. split; [done|]. split; [done|]. split; [done|].
    rewrite quote_lines_total. lia.
  - intros [Hpl Hopt Hcp Hr]. split; [|by apply Htax]. apply Hdelta. intros o v Ho Hv.
    by apply (Hopt product o v).
Qed.

Lemma cycle_price_nonneg env d product plan cycle_interval price :
  priced env d -> In product env.(ce_products) -> In plan product.(fp_price_plans) ->
  cycle_price plan cycle_interval = Some price -> 0 <= price.1 /\ 0 <= price.2.
Proof.
  intros [Hpl _ _ _] Hp Hin. destruct (Hpl _ _ Hp Hin) as [Hs Hc]. unfold cycle_price.
  assert (forall f c, enabled_cycle f plan = Some c -> 0 <= c.(cy_price_cents)) as He.
  { intros f c Hf. apply List.find_some in Hf as [Hf _]. by apply Hc. }
  destruct plan.(sp_pricing_model).
  - destruct (str_true _); [|done]. destruct (plan_interval_of _) as [i|]; [|done].
    destruct (enabled_cycle _ plan) as [c|] eqn:Hf; [|done]. intros [= <-]. split; [done|].
    by eapply He.
  - intros [= <-]. split; [done|]. cbn. destruct (enabled_cycle _ plan) as [c|] eqn:Hf; [|done].
    by eapply He.
  - by intros [= <-].
Qed.

Lemma quoted_bounds env account product plan cycle_interval coupon q s :
  priced env s.(s_db) -> quoted env account product plan cycle_interval coupon q s ->
  0 <= q.(qt_discount_cents) <= q.(qt_subtotal_cents) /\ 0 <= q.(qt_tax_cents) /\
  0 <= q.(qt_setup_cents) /\ 0 <= q.(qt_recurring_cents) /\ 0 <= q.(qt_total_cents).
Proof.
  intros Hpr [H1 [H2 H2'] (price & Hprice & Hs & Hr & _) Hc _ Hsub Hd Ht _ Hq].
  destruct (Hq Hpr) as [Hdelta Htax].
  destruct (cycle_price_nonneg _ _ _ _ _ _ Hpr H1 H2 Hprice).
  assert (0 <= q.(qt_discount_cents) <= q.(qt_subtotal_cents)).
  { rewrite Hd. apply coupon_discount_bounds; [lia|]. intros x Hx.
    destruct Hpr as [_ _ Hcp _]. apply Hcp. by destruct (Hc x Hx). }
  lia.
Qed.

(** A quote adds up and its lines do not: on a catalogue without negative
    amounts, a quote that is given changes nothing, discounts between nothing and
    the subtotal, and totals the subtotal less the discount plus tax in the
    account's currency; but the lines that become the invoice's fall short of that
    total by exactly the price of the plan's cycle. *)
Theorem quote_adds_up env account product_id plan_id cycle_interval options code s q s' :
  priced env s.(s_db) ->
  quote env account product_id plan_id cycle_interval options code s = (Ok q, s') ->
  s' = s /\ 0 <= q.(qt_discount_cents) <= q.(qt_subtotal_cents) /\ 0 <= q.(qt_tax_cents) /\
  q.(qt_subtotal_cents) = q.(qt_setup_cents) + q.(qt_recurring_cents) /\
  q.(qt_total_cents) = q.(qt_subtotal_cents) - q.(qt_discount_cents) + q.(qt_tax_cents) /\
  q.(qt_currency) = str_upper account.(ba_currency) /\
  exists product plan price,
    In product env.(ce_products) /\ In plan product.(fp_price_plans) /\
    cycle_price plan cycle_interval = Some price /\
    lines_total q.(qt_lines) = q.(qt_total_cents) - price.2.
Proof.
  intros Hpr Hrun. pose proof (quote_reads env account product_id plan_id cycle_interval
    options code s) as Hq. unfold reads_at in Hq. apply (wp_result _ _ _ _ _ _ Hrun) in Hq
    as [-> (product & plan & coupon & Hq)].
  destruct (quoted_bounds _ _ _ _ _ _ _ _ Hpr Hq) as (Hd & Ht & _).
  destruct Hq as [H1 [H2 H2'] (price & Hprice & Hs & Hr & Hl) Hc _ Hsub Hdis Htot [Hcur _] _].
  split; [done|]. split; [done|]. split; [done|]. split; [done|]. split; [lia|]. split; [done|].
  exists product, plan, price. split; [done|]. split; [done|]. split; [done|]. lia.
Qed.

(** * Coupons *)

Definition redemptions_of (k : Z) (d : db) : list redemption :=
  List.filter (fun r => r.(rd_coupon_id) =? k) d.(db_redemptions).

(** The counter of a coupon is the number of its redemptions, and respects its
    limit. *)
Definition coupons_ok (d : db) : Prop :=
  tbl_wf d.(db_coupons) /\
  forall c, In c d.(db_coupons) ->
    c.(co_used_count) = Z.of_nat (List.length (redemptions_of c.(co_id) d)) /\
    (forall m, c.(co_max_uses) = Some m -> c.(co_used_count) <= m).

Lemma redeemed_ok d c account_id order_id k :
  coupons_ok d -> In c d.(db_coupons) ->
  (forall m, c.(co_max_uses) = Some m -> c.(co_used_count) < m) ->
  coupons_ok (d <|db_coupons := tbl_update c.(co_id)
                    (fun c => c <|co_used_count := c.(co_used_count) + 1|>) d.(db_coupons)|>
                <|db_redemptions := d.(db_redemptions)
                    ++ [mk_redemption k c.(co_id) account_id order_id]|>).
Proof.
  intros [Hwf Hok] Hc Hmax. split; [by apply tbl_wf_update|].
  intros x Hx. unfold redemptions_of. cbn [db_coupons db_redemptions update] in *.
  rewrite List.filter_app, List.length_app. cbn [List.filter rd_coupon_id].
  apply tbl_update_In in Hx as (y & Hy & [[Hne ->]|[Heq ->]]).
  - destruct (Hok y Hy) as [Hu Hm]. change (row_key y) with y.(co_id) in Hne.
    rewrite (proj2 (Z.eqb_neq c.(co_id) y.(co_id))) by congruence. cbn. split; [|done].
    unfold redemptions_of in Hu. lia.
  - change (row_key y) with y.(co_id) in Heq. cbn [co_id co_used_count co_max_uses update].
    assert (y = c) as ->.
    { pose proof (tbl_get_wf _ _ Hwf Hy) as H1. pose proof (tbl_get_wf _ _ Hwf Hc) as H2.
      change (row_key y) with y.(co_id) in H1. change (row_key c) with c.(co_id) in H2.
      congruence. }
    rewrite Z.eqb_refl. cbn [List.length].
    destruct (Hok c Hc) as [Hu Hm]. unfold redemptions_of in Hu. split; [lia|].
    intros m Hm'. specialize (Hmax m Hm'). lia.
Qed.

#[local] Hint Extern 2 (keeps _ (set_order_sequence _)) => frame_write : dcim.
#[local] Hint Extern 2 (keeps _ (set_sequence _)) => frame_write : dcim.
#[local] Hint Extern 2 (keeps _ (upd_order _ _)) => frame_write : dcim.
#[local] Hint Extern 2 (keeps _ (upd_order_item _ _)) => frame_write : dcim.
#[local] Hint Extern 1 (keeps _ (the_order _)) => apply keeps_the : dcim.
#[local] Hint Extern 1 (keeps _ (the_order_item _)) => apply keeps_the : dcim.

(** What only reads keeps every invariant. *)
Lemma reads_keeps {A} (I : session -> Prop) (m : Meth A) P : reads m P -> keeps I m.
Proof.
  intros Hm s Hs. eapply wp_conseq; [apply (Hm s)| |]; [by intros a s' [-> _]|by intros e s' ->].
Qed.
Lemma keeps_quote I env account p pl ci opts code : keeps I (quote env account p pl ci opts code).
Proof. eapply reads_keeps, quote_reads. Qed.
Lemma keeps_load I env k : keeps I (load_product_bundle env k).
Proof. eapply reads_keeps, load_product_reads. Qed.
Lemma keeps_normalize I env p o : keeps I (normalize_options env p o).
Proof. eapply reads_keeps, normalize_options_reads. Qed.
#[local] Hint Resolve keeps_quote keeps_load keeps_normalize : dcim.

Lemma add_lines_keeps (I : db -> Prop) k tax item sort lines :
  (forall d t, I d -> I (d <|db_invoice_lines := t|>)) ->
  keeps_db I (add_invoice_lines k tax item sort lines).
Proof.
  intros HI. revert sort. induction lines as [|l rest IH]; intros sort; cbn [add_invoice_lines];
    [auto with dcim|]. destruct (_ =? 0); [apply IH|].
  apply keeps_bind; [auto with dcim|]. intros x. apply keeps_bind; [|intros _; apply IH].
  apply keeps_db_write. intros d. apply HI.
Qed.

Lemma coupons_ok_lines d t : coupons_ok d -> coupons_ok (d <|db_invoice_lines := t|>).
Proof. done. Qed.
#[local] Hint Extern 1 (keeps _ (add_invoice_lines _ _ _ _ _)) =>
  apply add_lines_keeps; intros ? ? Hframe; exact Hframe : dcim.

Lemma redeem_coupons_ok account order_id q product :
  keeps_db coupons_ok (redeem_coupon_for_order account order_id q product).
Proof.
  unfold redeem_coupon_for_order. destruct (negb _); [auto with dcim|].
  intros s Hs. wp_step. eapply wp_conseq; [apply find_coupon_reads| |by intros e s' ->].
  intros o s' [-> Ho]. destruct o as [c|]; [|done]. destruct (Ho c eq_refl) as [Hin (_ & Hm & _)].
  wp_step. apply wp_write. wp_step. apply wp_read. apply wp_write.
  exact (redeemed_ok s.(s_db) c account.(ba_id) (Some order_id) _ Hs Hin Hm).
Qed.
#[local] Hint Resolve redeem_coupons_ok : dcim.

(** C29. A coupon is never used more often than it allows, and every use is on
    record: placing an order, whether it succeeds or fails, keeps the counter of
    every coupon equal to the number of its redemptions and within its limit. *)
Theorem coupons_stay_within_limits env account c s r s' :
  coupons_ok s.(s_db) -> place_order env account c s = (r, s') -> coupons_ok s'.(s_db).
Proof.
  intros Hok Hrun.
  eapply (keeps_run (fun s => coupons_ok s.(s_db)) (place_order env account c));
    [|exact Hrun|exact Hok].
  unfold place_order, place_new_order, order_create, order_item_create, history_append,
    create_commerce_invoice, allocate_number, allocate_order_number, enqueue_checkout_emails,
    enqueue_mail, initial_next_value, sequence_initial_value, scalar_one.
  keeps_tac.
Qed.

(** * What placing an order leaves behind *)

(** The orders, their history and what is committed. *)
Definition orders_are (t : list order) (h : list order_history) (c : db -> Prop)
    (s : session) : Prop :=
  s.(s_db).(db_orders) = t /\ s.(s_db).(db_order_history) = h /\ c s.(s_committed).

Lemma keeps_orders_write t h c f :
  (forall d, (f d).(db_orders) = d.(db_orders)
             /\ (f d).(db_order_history) = d.(db_order_history)) ->
  keeps (orders_are t h c) (write f).
Proof. intros Hf s (H1 & H2 & H3). apply wp_write. destruct (Hf s.(s_db)). split; [|split]; cbn; [by etrans..|done]. Qed.
#[local] Hint Extern 3 (keeps (orders_are _ _ _) (write _)) =>
  apply keeps_orders_write; intros; split; reflexivity : dcim.
#[local] Hint Extern 3 (keeps (orders_are _ _ _) (set_sequence _)) =>
  apply keeps_orders_write; intros; split; reflexivity : dcim.
#[local] Hint Extern 3 (keeps (orders_are _ _ _) (set_order_sequence _)) =>
  apply keeps_orders_write; intros; split; reflexivity : dcim.
#[local] Hint Extern 3 (keeps (orders_are _ _ _) (upd_order_item _ _)) =>
  apply keeps_orders_write; intros; split; reflexivity : dcim.

Lemma keeps_orders_nested {A} t h c (m : Meth A) :
  keeps (orders_are t h c) m -> keeps (orders_are t h c) (begin_nested m).
Proof.
  intros Hm s Hs. unfold begin_nested. wp_step. apply wp_flush; [|auto].
  intros _ _. unfold wp.
  assert (keeps (orders_are t h c) (x <- m ;; flush ;;; ret x)) as Hb by keeps_tac.
  specialize (Hb s Hs). unfold wp in Hb.
  destruct (bind m _ s) as [[a|e] s']; [done|].
  destruct Hb as (_ & _ & Hc), Hs as (Ht & Hh & _). done.
Qed.
#[local] Hint Resolve keeps_orders_nested : dcim.

Lemma allocate_order_number_orders t h c : keeps (orders_are t h c) allocate_order_number.
Proof. unfold allocate_order_number, sequence_initial_value. keeps_tac. Qed.
Lemma allocate_number_orders t h c : keeps (orders_are t h c) allocate_number.
Proof. unfold allocate_number, initial_next_value. keeps_tac. Qed.
Lemma add_lines_orders t h c k tax item sort lines :
  keeps (orders_are t h c) (add_invoice_lines k tax item sort lines).
Proof.
  revert sort. induction lines as [|l rest IH]; intros sort; cbn [add_invoice_lines];
    [auto with dcim|]. destruct (_ =? 0); [apply IH|]. keeps_tac.
Qed.
Lemma enqueue_mail_orders t h c a : keeps (orders_are t h c) (enqueue_mail a).
Proof. unfold enqueue_mail, scalar_one. keeps_tac. Qed.
Lemma find_coupon_keeps (I : session -> Prop) code product : keeps I (find_coupon code product).
Proof. eapply reads_keeps, find_coupon_reads. Qed.
#[local] Hint Resolve allocate_order_number_orders allocate_number_orders add_lines_orders
  enqueue_mail_orders find_coupon_keeps : dcim.

Lemma emails_orders t h c a k q u i : keeps (orders_are t h c) (enqueue_checkout_emails a k q u i).
Proof. unfold enqueue_checkout_emails. keeps_tac. Qed.
Lemma redeem_orders t h c a k q p : keeps (orders_are t h c) (redeem_coupon_for_order a k q p).
Proof. unfold redeem_coupon_for_order. keeps_tac. Qed.
Lemma item_create_orders t h c row : keeps (orders_are t h c) (order_item_create row).
Proof. unfold order_item_create. keeps_tac. Qed.
#[local] Hint Resolve emails_orders redeem_orders item_create_orders : dcim.

(** A step that keeps [orders_are], with what follows it. *)
Lemma wp_orders {A B} t h c (m : Meth A) (k : A -> Meth B) Q (R : exn -> session -> Prop) s :
  keeps (orders_are t h c) m -> orders_are t h c s ->
  (forall a s', orders_are t h c s' -> wp (k a) Q R s') ->
  (forall e s', orders_are t h c s' -> R e s') -> wp (bind m k) Q R s.
Proof. intros Hm Hs HQ HR. apply wp_bind. eapply wp_keeps; eauto. Qed.

(** Adding the row to a table, then assigning to it. *)
Lemma tbl_update_last {R} `{Keyed R} k f (t : list R) r :
  row_key r = k -> (forall x, In x t -> row_key x <> k) ->
  tbl_update k f (t ++ [r]) = t ++ [f r].
Proof.
  intros Hr Ht. unfold tbl_update. rewrite map_app. cbn. rewrite Hr, Z.eqb_refl. f_equal.
  by apply tbl_update_absent.
Qed.

Definition placed_as (c : checkout_request) (account : billing_account) (k : Z) (o : order) : Prop :=
  o.(or_id) = k /\ o.(or_checkout_nonce) = Some (str_strip c.(ck_checkout_nonce)) /\
  o.(or_billing_account_id) = account.(ba_id) /\
  o.(or_status) = (if o.(or_total_cents) =? 0 then OD_PENDING_ACCEPTANCE else OD_PENDING_PAYMENT).

Definition placed_state (c : checkout_request) (account : billing_account) (k : Z)
    (before after : session) : Prop :=
  exists o note actor,
    placed_as c account k o /\ k = tbl_fresh before.(s_db).(db_orders) /\
    orders_are (before.(s_db).(db_orders) ++ [o])
      (before.(s_db).(db_order_history) ++
         [mk_order_history (tbl_fresh before.(s_db).(db_order_history)) k None o.(or_status)
            actor note])
      (eq before.(s_committed)) after.

Lemma wp_history_append k from to actor note t h c Q (R : exn -> session -> Prop) s :
  orders_are t h c s ->
  (forall s', orders_are t (h ++ [mk_order_history (tbl_fresh h) k from to actor note]) c s' ->
              Q tt s') ->
  (forall e s', orders_are t (h ++ [mk_order_history (tbl_fresh h) k from to actor note]) c s' ->
                R e s') ->
  wp (history_append k from to actor note) Q R s.
Proof.
  intros (H1 & H2 & H3) HQ HR. unfold history_append. wp_step. apply wp_read. wp_step.
  apply wp_write. apply wp_flush; intros; [apply HQ|apply HR]; repeat split; cbn;
    by rewrite ?H2.
Qed.

Lemma wp_upd_order k f t h c Q (R : exn -> session -> Prop) s :
  orders_are t h c s ->
  (forall s', orders_are (tbl_update k f t) h c s' -> Q tt s') -> wp (upd_order k f) Q R s.
Proof. intros (H1 & H2 & H3) HQ. apply wp_write, HQ. repeat split; cbn; by rewrite ?H1. Qed.

(** Go past a step that keeps [orders_are]. *)
Ltac orders_step Hs :=
  match type of Hs with
  | orders_are ?t ?h ?c ?s =>
      apply (wp_orders t h c); [auto with dcim|exact Hs| |by intros ? ? (_ & _ & ?)];
      clear s Hs; let a := fresh "a" in intros a s Hs
  end.

Lemma order_create_spec row t h c Q (R : exn -> session -> Prop) s :
  orders_are t h c s ->
  (forall number s', orders_are (t ++ [row (tbl_fresh t) number]) h c s' -> Q (tbl_fresh t) s') ->
  (forall e s', c s'.(s_committed) -> R e s') ->
  wp (order_create row) Q R s.
Proof.
  intros Hs HQ HR. unfold order_create.
  apply (wp_orders t h c); [auto with dcim|exact Hs| |by intros e s' (_ & _ & ?); auto].
  clear s Hs. intros number s (H1 & H2 & H3). wp_step. apply wp_read. wp_step. apply wp_write.
  rewrite H1. wp_step. apply wp_flush; [|auto]. intros _ _. apply wp_ret, (HQ number).
  by repeat split.
Qed.

Lemma create_invoice_spec account q item t o h c Q (R : exn -> session -> Prop) s :
  o.(or_id) = tbl_fresh t -> orders_are (t ++ [o]) h c s ->
  (forall k s', orders_are (t ++ [o <|or_invoice_id := Some k|>]) h c s' -> Q k s') ->
  (forall e s', c s'.(s_committed) -> R e s') ->
  wp (create_commerce_invoice account o.(or_id) q item) Q R s.
Proof.
  intros Ho Hs HQ HR. unfold create_commerce_invoice.
  assert (forall (e : exn) s', orders_are (t ++ [o]) h c s' -> R e s') as HR'
    by (intros e s' (_ & _ & ?); auto).
  do 5 (apply (wp_orders (t ++ [o]) h c);
        [auto with dcim|exact Hs| |exact HR']; clear s Hs; intros ? s Hs).
  do 3 (apply (wp_orders (t ++ [o]) h c);
        [auto with dcim|exact Hs| |exact HR']; clear s Hs; intros ? s Hs).
  wp_step. eapply wp_upd_order; [exact Hs|]. clear s Hs. intros s Hs.
  rewrite tbl_update_last in Hs; [|done|].
  - wp_step. apply wp_flush; [|intros e _; apply HR; by destruct Hs as (_ & _ & ?)].
    intros _ _. by apply wp_ret, HQ.
  - intros x Hx Heq. apply tbl_fresh_gt in Hx. change (row_key o) with o.(or_id) in *. lia.
Qed.

Lemma place_new_order_spec env account c s :
  wp (place_new_order env account c) (fun k s' => placed_state c account k s s')
    (fun _ s' => s.(s_committed) = s'.(s_committed)) s.
Proof.
  unfold placed_state. set (t := s.(s_db).(db_orders)). set (h := s.(s_db).(db_order_history)).
  set (com := eq s.(s_committed)).
  change (fun (_ : exn) s' => s.(s_committed) = s'.(s_committed))
    with (fun (_ : exn) (s' : session) => com s'.(s_committed)).
  assert (orders_are t h com s) as Hs by done. clearbody t h com. unfold place_new_order.
  orders_step Hs. orders_step Hs. orders_step Hs. orders_step Hs. orders_step Hs.
  rename a2 into q, a into product.
  set (status := if q.(qt_total_cents) =? 0 then OD_PENDING_ACCEPTANCE else OD_PENDING_PAYMENT).
  wp_step. eapply order_create_spec; [exact Hs| |done]. clear s Hs. intros number s Hs.
  set (o := placed_order _ _ _ _ _ _ _ _) in Hs.
  orders_step Hs. wp_step. eapply wp_history_append; [exact Hs| |by intros e s' (_ & _ & ?)].
  clear s Hs. intros s Hs. set (h' := h ++ _) in Hs. orders_step Hs.
  assert (forall i s', orders_are (t ++ [o <|or_invoice_id := i|>]) h' com s' ->
    exists o' note actor, placed_as c account (tbl_fresh t) o' /\ tbl_fresh t = tbl_fresh t /\
      orders_are (t ++ [o']) (h ++ [mk_order_history (tbl_fresh h) (tbl_fresh t) None
        o'.(or_status) actor note]) com s') as Hdone.
  { intros i s' Hs'. exists (o <|or_invoice_id := i|>), (Some "Order placed"), (Some c.(ck_user_id)).
    split; [by repeat split|]. split; [done|exact Hs']. }
  assert (forall i s', orders_are (t ++ [o <|or_invoice_id := i|>]) h' com s' ->
    wp (flush ;;; try_catch (enqueue_checkout_emails account (tbl_fresh t) q c.(ck_user_id) i)
          (fun _ => ret tt) ;;; ret (tbl_fresh t))
      (fun k s2 => exists o' note actor, placed_as c account k o' /\ k = tbl_fresh t /\
        orders_are (t ++ [o']) (h ++ [mk_order_history (tbl_fresh h) k None
          o'.(or_status) actor note]) com s2)
      (fun _ s2 => com s2.(s_committed)) s') as Hend.
  { intros i s' Hs'. orders_step Hs'. orders_step Hs'. apply wp_ret. by apply (Hdone i). }
  destruct (0 <? q.(qt_total_cents)).
  - wp_step. wp_step. eapply (create_invoice_spec account q _ t o); [done|exact Hs| |done].
    intros k s' Hs'. wp_step. by apply Hend.
  - wp_step. wp_step. apply (Hend None). exact Hs.
Qed.

(** A checkout nonce buys once: after an order was placed with a nonce,
    placing another one with it changes nothing and answers that order, whatever
    else the request asks for and whichever account sends it. *)
Theorem checkout_nonce_buys_once env account c s k s' account' c' :
  place_order env account c s = (Ok k, s') ->
  str_strip c'.(ck_checkout_nonce) = str_strip c.(ck_checkout_nonce) ->
  place_order env account' c' s' = (Ok k, s').
Proof.
  unfold place_order. intros Hrun Heq. rewrite Heq.
  apply bind_Ok in Hrun as ([] & s0 & Hg & Hrun). unfold throw_if in Hg |- *.
  destruct (str_empty _); [done|]. injection Hg as <-.
  apply bind_Ok in Hrun as (rows & s0 & Hr & Hrun). injection Hr as <- <-.
  apply bind_Ok in Hrun as (o & s0 & Ho & Hrun).
  set (n := str_strip c.(ck_checkout_nonce)) in *.
  assert (exists x, orders_with_nonce n s'.(s_db) = [x] /\ x.(or_id) = k) as (x & Hx & Hk).
  { destruct (orders_with_nonce n s.(s_db)) as [|x [|y l]] eqn:Hrows; cbn in Ho;
      [|injection Ho as <- <-; injection Hrun as <- <-; by exists x|done].
    injection Ho as <- <-.
    pose proof (place_new_order_spec env account c s) as Hspec.
    apply (wp_result _ _ _ _ _ _ Hrun) in Hspec as (x & note & actor & Hx & _ & (Ht & _)).
    destruct Hx as (Hid & Hn & _). exists x. split; [|done]. unfold orders_with_nonce in *.
    rewrite Ht, List.filter_app, Hrows. cbn [List.filter app]. by rewrite Hn, py_eq_refl. }
  unfold bind, ret, read, gets. rewrite Hx. cbn. by rewrite Hk.
Qed.

(** * Orders follow their state machine *)

Inductive order_step : option order_status -> order_status -> Prop :=
| step_to_pay : order_step None OD_PENDING_PAYMENT
| step_free : order_step None OD_PENDING_ACCEPTANCE
| step_fulfil s : fulfillable s = true -> order_step (Some s) OD_FULFILLING
| step_active : order_step (Some OD_FULFILLING) OD_ACTIVE
| step_failed : order_step (Some OD_FULFILLING) OD_PROVISION_ERROR
| step_cancel s :
    s <> OD_ACTIVE -> s <> OD_CANCELLED -> order_step (Some s) OD_CANCELLED.

(** The rows are a run of the machine between two statuses. *)
Fixpoint recorded (from : option order_status) (l : list order_history)
    (to : option order_status) : Prop :=
  match l with
  | [] => from = to
  | r :: rest =>
      r.(oh_from_status) = from /\ order_step from r.(oh_to_status) /\
      recorded (Some r.(oh_to_status)) rest to
  end.

Lemma recorded_snoc from l s r to :
  recorded from l s -> r.(oh_from_status) = s -> order_step s r.(oh_to_status) ->
  to = Some r.(oh_to_status) -> recorded from (l ++ [r]) to.
Proof.
  intros Hl Hr Hs ->. revert from Hl. induction l as [|x l IH]; intros from; cbn.
  - by intros ->.
  - intros (H1 & H2 & H3). by repeat split; [..|apply IH].
Qed.

(** Where the machine can be. *)
Lemma recorded_reachable from l st :
  recorded from l (Some st) -> (forall s, from = Some s -> order_step None s \/
    In s [OD_FULFILLING; OD_ACTIVE; OD_PROVISION_ERROR; OD_CANCELLED]) ->
  In st [OD_PENDING_PAYMENT; OD_PENDING_ACCEPTANCE; OD_FULFILLING; OD_ACTIVE;
         OD_PROVISION_ERROR; OD_CANCELLED].
Proof.
  revert from. induction l as [|r l IH]; intros from; cbn [recorded].
  - intros -> Hf. destruct (Hf st eq_refl) as [Hs|Hs]; [inversion Hs; cbn; auto|].
    cbn in *. tauto.
  - intros (Hr & Hs & Hl) _. apply (IH _ Hl). intros s [= <-].
    inversion Hs; subst; [left; constructor|left; constructor|right; cbn; tauto..].
Qed.

Definition history_of (k : Z) (h : list order_history) : list order_history :=
  List.filter (fun r => r.(oh_order_id) =? k) h.

Record traced (t : list order) (h : list order_history) : Prop := {
  tr_ids : tbl_wf t;
  tr_rows : forall o, In o t -> recorded None (history_of o.(or_id) h) (Some o.(or_status));
  tr_past : forall r, In r h -> r.(oh_order_id) < tbl_fresh t
}.

Lemma tbl_fresh_snoc {R} `{Keyed R} (t : list R) r :
  row_key r = tbl_fresh t -> tbl_fresh (t ++ [r]) = 1 + tbl_fresh t.
Proof.
  intros Hr. unfold tbl_fresh in *. rewrite fold_right_app. cbn. rewrite Hr.
  set (m := fold_right _ 0 t) in *. clear Hr.
  assert (forall b, 0 <= b -> fold_right (fun r m => Z.max (row_key r) m) b t
                              = Z.max b m) as Hb.
  { intros b Hb. unfold m. clear m. induction t as [|x t IH]; cbn; lia. }
  rewrite Hb; assert (0 <= m) by (unfold m; clear; induction t; cbn; lia); lia.
Qed.
Lemma tbl_fresh_update {R} `{Keyed R} k f (t : list R) :
  (forall x, row_key (f x) = row_key x) -> tbl_fresh (tbl_update k f t) = tbl_fresh t.
Proof.
  intros Hf. unfold tbl_fresh, tbl_update. f_equal. induction t as [|x t IH]; [done|]. cbn.
  rewrite IH. by destruct (row_key x =? k); rewrite ?Hf.
Qed.

Lemma history_of_snoc k h r :
  history_of k (h ++ [r]) = history_of k h ++ (if r.(oh_order_id) =? k then [r] else []).
Proof. unfold history_of. by rewrite List.filter_app. Qed.

Lemma traced_place t h o i note actor :
  traced t h -> o.(or_id) = tbl_fresh t -> order_step None o.(or_status) ->
  traced (t ++ [o]) (h ++ [mk_order_history i (tbl_fresh t) None o.(or_status) actor note]).
Proof.
  intros [H1 H2 H3] Ho Hs. constructor.
  - by apply tbl_wf_snoc.
  - intros x [Hx|[<-|[]]]%in_app_iff; rewrite history_of_snoc; cbn [oh_order_id].
    + apply tbl_fresh_gt in Hx as Hlt. change (row_key x) with x.(or_id) in Hlt.
      rewrite (proj2 (Z.eqb_neq _ _)) by lia. rewrite app_nil_r. by apply H2.
    + rewrite Ho, Z.eqb_refl.
      assert (history_of (tbl_fresh t) h = []) as ->.
      { apply filter_nil_iff. intros r Hr. apply H3 in Hr. lia. }
      by repeat split.
  - assert (tbl_fresh (t ++ [o]) = 1 + tbl_fresh t) as Hf by by apply tbl_fresh_snoc.
    intros r [Hr|[<-|[]]]%in_app_iff; rewrite Hf; cbn [oh_order_id];
      [apply H3 in Hr|]; lia.
Qed.

Lemma traced_move t h k f o to i note actor :
  traced t h -> tbl_get k t = Some o -> order_step (Some o.(or_status)) to ->
  (forall x, (f x).(or_id) = x.(or_id)) -> (forall x, (f x).(or_status) = to) ->
  traced (tbl_update k f t)
    (h ++ [mk_order_history i k (Some o.(or_status)) to actor note]).
Proof.
  intros [H1 H2 H3] Ho Hs Hid Hst. constructor.
  - by apply tbl_wf_update.
  - intros x Hx. apply tbl_update_In in Hx as (y & Hy & [[Hne ->]|[Heq ->]]);
      rewrite history_of_snoc; cbn [oh_order_id].
    + rewrite (proj2 (Z.eqb_neq _ _)); [|by apply not_eq_sym]. rewrite app_nil_r. by apply H2.
    + change (row_key y) with y.(or_id) in Heq. rewrite Hid, Heq, Z.eqb_refl, Hst.
      apply (recorded_snoc None _ (Some o.(or_status))); [|done..].
      assert (y = o) as ->.
      { pose proof (tbl_get_wf _ _ H1 Hy) as Hg. change (row_key y) with y.(or_id) in Hg.
        congruence. }
      rewrite <- Heq. apply H2. by eapply tbl_get_In.
  - intros r [Hr|[<-|[]]]%in_app_iff; rewrite tbl_fresh_update by done; cbn [oh_order_id].
    + by apply H3.
    + apply tbl_get_In in Ho as Hin. apply tbl_fresh_gt in Hin.
      by rewrite (tbl_get_key _ _ _ Ho) in Hin.
Qed.

(** Rows committed are either those of the transaction or older ones. *)
Definition committed_as (t : list order) (h : list order_history) (t0 : list order)
    (h0 : list order_history) (d : db) : Prop :=
  (d.(db_orders) = t /\ d.(db_order_history) = h)
  \/ (d.(db_orders) = t0 /\ d.(db_order_history) = h0).

(** Provisioning may commit, and roll back to what it committed, but does not
    write orders. *)
Definition leaves_orders {A} (m : Meth A) : Prop :=
  forall t h t0 h0, keeps (orders_are t h (committed_as t h t0 h0)) m.

Definition traced_db (d : db) : Prop := traced d.(db_orders) d.(db_order_history).
Definition traced_in (s : session) : Prop := traced_db s.(s_db) /\ traced_db s.(s_committed).

Lemma commerce_event_orders t h c event payload :
  keeps (orders_are t h c) (enqueue_commerce_event event payload).
Proof. unfold enqueue_commerce_event. keeps_tac. Qed.
Lemma ensure_orders t h c k item a plan p :
  keeps (orders_are t h c) (ensure_for_fulfilled_item k item a plan p).
Proof. unfold ensure_for_fulfilled_item. keeps_tac. Qed.
#[local] Hint Resolve commerce_event_orders ensure_orders : dcim.

Section Machine.
Context (env : checkout_env) (Hprov : forall a, leaves_orders (env.(ce_provision) a)).

Lemma provision_item_orders t h t0 h0 k i :
  keeps (orders_are t h (committed_as t h t0 h0)) (provision_order_item env k i).
Proof.
  unfold provision_order_item, provision_keys_from_item_config, provision_int.
  keeps_tac. apply Hprov.
Qed.

Lemma fulfill_items_orders t h t0 h0 k items :
  keeps (orders_are t h (committed_as t h t0 h0)) (fulfill_items env k items).
Proof.
  pose proof (provision_item_orders t h t0 h0) as Hp.
  unfold fulfill_items, fulfill_order_item, deliver_order_item. keeps_tac.
Qed.

Lemma traced_committed t h t0 h0 d :
  traced t h -> traced t0 h0 -> committed_as t h t0 h0 d -> traced_db d.
Proof. unfold traced_db. by intros Ht H0 [[-> ->]|[-> ->]]. Qed.

Lemma traced_get_update t k f o :
  tbl_get k t = Some o -> (forall x, (f x).(or_id) = x.(or_id)) ->
  tbl_get k (tbl_update k f t) = Some (f o).
Proof. intros Ho Hf. exact (tbl_get_update_eq k f t o Hf Ho). Qed.

Lemma close_traced k o t h t0 h0 errors s :
  tbl_get k t = Some o -> o.(or_status) = OD_FULFILLING -> traced t h -> traced t0 h0 ->
  orders_are t h (committed_as t h t0 h0) s ->
  wp (close_fulfillment k errors ;;; flush) (fun _ => traced_in)
    (fun _ s' => traced_db s'.(s_committed)) s.
Proof.
  intros Ho Hst Ht H0 Hs.
  assert (forall f to note, (forall x, (f x).(or_id) = x.(or_id)) ->
    (forall x, (f x).(or_status) = to) -> order_step (Some OD_FULFILLING) to ->
    forall (k2 : Meth unit), (forall t h c, keeps (orders_are t h c) k2) ->
    wp ((upd_order k f ;;; history_append k (Some OD_FULFILLING) to None note ;;; k2) ;;; flush)
      (fun _ => traced_in) (fun _ s' => traced_db s'.(s_committed)) s) as Hmove.
  { intros f to note Hid Hto Hstep k2 Hk2. wp_step. wp_step. eapply wp_upd_order; [exact Hs|].
    intros s1 Hs1. wp_step.
    assert (traced (tbl_update k f t) (h ++ [mk_order_history (tbl_fresh h) k
      (Some OD_FULFILLING) to None note])) as Ht'.
    { rewrite <- Hst. apply traced_move; try done. by rewrite Hst. }
    assert (forall t' h' s2, orders_are t' h' (committed_as t h t0 h0) s2 -> traced_db s2.(s_committed))
      as Hcom by (intros t' h' s2 (_ & _ & Hs2); exact (traced_committed _ _ _ _ _ Ht H0 Hs2)).
    eapply wp_history_append; [exact Hs1| |by intros e s2 Hs2; eapply Hcom].
    intros s2 Hs2. eapply wp_keeps; [apply Hk2|exact Hs2| |by intros e s3 Hs3; eapply Hcom].
    intros [] s3 Hs3. apply wp_flush; [|by intros e _; eapply Hcom]. intros _ _.
    split; [|by eapply Hcom]. destruct Hs3 as (H1 & H2 & _). unfold traced_db. by rewrite H1, H2. }
  unfold close_fulfillment. destruct errors as [|e errors].
  - apply (Hmove _ OD_ACTIVE); [done|done|constructor|]. intros. unfold announce_paid_order. keeps_tac.
  - specialize (Hmove (fun o => o <|or_status := OD_PROVISION_ERROR|>
      <|or_admin_notes := Some (failure_notes o.(or_admin_notes) (e :: errors))|>)
      OD_PROVISION_ERROR (Some "Provisioning failed") ltac:(done) ltac:(done)
      step_failed (ret tt) ltac:(intros; apply keeps_ret)).
    unfold wp, bind in *. by destruct (upd_order _ _ s) as [[[]|] s1];
      [destruct (history_append _ _ _ _ _ s1) as [[[]|] s2]|].
Qed.

Lemma mark_paid_traced k s :
  traced_in s ->
  wp (mark_paid_and_fulfill env k) (fun _ => traced_in)
    (fun _ s' => traced_db s'.(s_committed)) s.
Proof.
  intros [Ht Hc]. unfold mark_paid_and_fulfill. wp_step. apply wp_read. wp_step.
  wp_step; [done|]. rename a into o. wp_step. wp_step; [done|].
  apply negb_false_iff in Hguard. unfold traced_db in Ht, Hc.
  set (t := s.(s_db).(db_orders)) in *. set (h := s.(s_db).(db_order_history)) in *.
  set (t0 := s.(s_committed).(db_orders)) in *.
  set (h0 := s.(s_committed).(db_order_history)) in *.
  assert (orders_are t h (fun d => d.(db_orders) = t0 /\ d.(db_order_history) = h0) s) as Hs
    by done.
  clearbody t h t0 h0. wp_step. eapply wp_upd_order; [exact Hs|]. clear s Hs. intros s Hs.
  set (f := fun o => o <|or_status := OD_FULFILLING|>) in *. wp_step.
  assert (forall t' h' (s : session),
    orders_are t' h' (fun d => d.(db_orders) = t0 /\ d.(db_order_history) = h0) s ->
    traced_db s.(s_committed)) as Hcom
    by (intros t' h' s' (_ & _ & H1 & H2); unfold traced_db; by rewrite H1, H2).
  eapply wp_history_append; [exact Hs| |by intros e s' Hs'; eapply Hcom].
  clear s Hs. intros s Hs. set (h1 := h ++ _) in *. set (t1 := tbl_update k f t) in *.
  assert (traced t1 h1) as Ht1.
  { apply traced_move; try done. by constructor. }
  wp_step. apply wp_flush; [|by intros e _; eapply Hcom]. intros _ _.
  wp_step. apply wp_read. wp_step.
  assert (orders_are t1 h1 (committed_as t1 h1 t0 h0) s) as Hs1.
  { destruct Hs as (H1 & H2 & H3). repeat split; [done|done|by right]. }
  eapply wp_keeps; [apply fulfill_items_orders|exact Hs1| |].
  - intros errors s' Hs'. apply (close_traced k (f o) t1 h1 t0 h0); [|done|done|done|exact Hs'].
    by apply traced_get_update.
  - intros e s' (_ & _ & Hs'). exact (traced_committed _ _ _ _ _ Ht1 Hc Hs').
Qed.
End Machine.

(** The requests that reach orders, each answered before the next. *)
Inductive order_request : Type :=
| OrPlace (account : billing_account) (c : checkout_request)
| OrAccept (order_id : Z) (admin : option Z)
| OrRetry (order_id : Z)
| OrCancel (order_id : Z) (admin : option Z).
Definition run_request (env : checkout_env) (r : order_request) : Meth unit :=
  match r with
  | OrPlace account c => checkout env account c ;;; ret tt
  | OrAccept k admin => accept_order env k admin
  | OrRetry k => retry_fulfill_order env k
  | OrCancel k admin => cancel_order k admin
  end.
Definition serve_orders (env : checkout_env) (rs : list order_request) : Meth unit :=
  for_each rs (fun r => try_catch (run_request env r) (fun _ => ret tt)).

(** A request whose body ends well commits it, and one that fails forgets it. *)
Lemma request_traced {A} (m : Meth A) s :
  wp m (fun _ => traced_in) (fun _ s' => traced_db s'.(s_committed)) s ->
  wp (request m) (fun _ => traced_in) (fun _ => traced_in) s.
Proof.
  intros Hm. unfold request. apply wp_try_catch. wp_step. eapply wp_conseq; [exact Hm| |].
  - intros a s' [H1 H2]. wp_step. unfold commit. wp_step. apply wp_flush.
    + intros _ _. wp_step. wp_step. by split.
    + intros e _. wp_step. apply wp_modify, wp_raise. by split.
  - intros e s' Hs'. wp_step. apply wp_modify, wp_raise. by split.
Qed.
Lemma bad_request_traced {A} (m : Meth A) s :
  wp m (fun _ => traced_in) (fun _ s' => traced_db s'.(s_committed)) s ->
  wp (bad_request m) (fun _ => traced_in) (fun _ s' => traced_db s'.(s_committed)) s.
Proof.
  intros Hm. unfold bad_request. apply wp_try_catch. eapply wp_conseq; [exact Hm|done|].
  intros e s' Hs'. by destruct e.
Qed.

Lemma place_order_traced env account c s :
  traced_in s ->
  wp (place_order env account c) (fun _ => traced_in)
    (fun _ s' => traced_db s'.(s_committed)) s.
Proof.
  intros [Ht Hc]. unfold place_order. wp_step. wp_step; [done|]. wp_step. apply wp_read. wp_step.
  destruct (orders_with_nonce _ _) as [|o [|o' l]]; cbn; [|by split|done]. unfold wp; cbn.
  change (wp (place_new_order env account c) (fun _ => traced_in)
    (fun _ s' => traced_db s'.(s_committed)) s).
  eapply wp_conseq; [apply place_new_order_spec| |by intros e s' <-].
  intros k s' (o & note & actor & (Hid & _ & _ & Hst) & Hk & (H1 & H2 & H3)).
  unfold traced_in, traced_db. rewrite H1, H2, <- H3. split; [|exact Hc].
  rewrite Hk. apply traced_place; [exact Ht|congruence|]. rewrite Hst.
  destruct (_ =? 0); constructor.
Qed.

Lemma cancel_order_traced k admin s :
  traced_in s -> wp (cancel_order k admin) (fun _ => traced_in) (fun _ => traced_in) s.
Proof.
  intros [Ht Hc]. apply request_traced. unfold get_order_or_404. wp_step. wp_step. apply wp_read.
  wp_step; [done|]. rename a into o. wp_step. wp_step; [done|]. apply orb_false_iff in Hguard.
  destruct Hguard as [Ha Hx]. rewrite !py_eq_false in *. wp_step.
  eapply (wp_upd_order _ _ _ _ (eq s.(s_committed))); [done|]. intros s1 Hs1.
  eapply (wp_history_append _ _ _ _ _ _ _ (eq s.(s_committed))); [exact Hs1| |];
    [|intros e s2 (_ & _ & H3); by rewrite <- H3].
  intros s2 (H1 & H2 & H3). unfold traced_in, traced_db. rewrite H1, H2, <- H3.
  split; [|exact Hc].
  apply traced_move; try done. by constructor.
Qed.

Lemma retry_traced env k s :
  (forall a, leaves_orders (env.(ce_provision) a)) -> traced_in s ->
  wp (retry_fulfill_order env k) (fun _ => traced_in) (fun _ => traced_in) s.
Proof.
  intros Hprov Hs. pose proof Hs as [Ht Hc]. apply request_traced. unfold get_order_or_404.
  wp_step. wp_step. apply wp_read. wp_step; [done|]. wp_step. wp_step; [done|].
  by apply bad_request_traced, mark_paid_traced.
Qed.

(** Fulfilment refuses every other status. *)
Lemma mark_paid_refuses env k o (Q : unit -> session -> Prop) (R : exn -> session -> Prop) s :
  tbl_get k s.(s_db).(db_orders) = Some o -> fulfillable o.(or_status) = false ->
  (forall m, R (CheckoutError m) s) -> wp (mark_paid_and_fulfill env k) Q R s.
Proof.
  intros Ho Hf HR. unfold mark_paid_and_fulfill. wp_step. apply wp_read. rewrite Ho. wp_step.
  unfold unwrap. wp_step. wp_step. rewrite Hf. wp_step; [|done]. apply HR.
Qed.

Lemma accept_traced env k admin s :
  (forall a, leaves_orders (env.(ce_provision) a)) -> traced_in s ->
  wp (accept_order env k admin) (fun _ => traced_in) (fun _ => traced_in) s.
Proof.
  intros Hprov Hs. pose proof Hs as [Ht Hc]. apply request_traced. unfold get_order_or_404.
  wp_step. wp_step. apply wp_read. wp_step; [done|]. rename a into o. wp_step. wp_step; [done|].
  wp_step. apply wp_gets. wp_step. eapply (wp_upd_order _ _ _ _ (eq s.(s_committed))); [done|]. intros s1 Hs1.
  set (f := fun o => o <|or_accepted_at := _|> <|or_accepted_by_user_id := _|>) in *.
  assert (tbl_get k (tbl_update k f s.(s_db).(db_orders)) = Some (f o)) as Hf
    by by apply traced_get_update.
  wp_step. destruct (o.(or_status) == OD_PENDING_ACCEPTANCE) eqn:Hst.
  - wp_step. eapply (wp_history_append _ _ _ _ _ _ _ (eq s.(s_committed))); [exact Hs1| |];
      [|intros e s2 (_ & _ & H3); by rewrite <- H3].
    intros s2 Hs2. wp_step. eapply wp_upd_order; [exact Hs2|]. intros s3 (H1 & H2 & H3).
    apply wp_flush; [|by intros e _; rewrite <- H3]. intros _ _. apply bad_request_traced.
    eapply mark_paid_refuses; [rewrite H1; by apply traced_get_update|done|].
    intros m. by rewrite <- H3.
  - wp_step. apply bad_request_traced, mark_paid_traced; [done|]. destruct Hs1 as (H1 & H2 & H3).
    unfold traced_in, traced_db. rewrite H1, H2, <- H3. split; [|exact Hc].
    destruct Ht as [W1 W2 W3]. constructor.
    + by apply tbl_wf_update.
    + intros x Hx. apply tbl_update_In in Hx as (y & Hy & [[_ ->]|[_ ->]]); exact (W2 y Hy).
    + rewrite tbl_fresh_update by done. exact W3.
Qed.

(** C3. Orders implement their state machine: through every sequence of
    checkouts, acceptances, retries and cancellations, failed ones included and
    whatever provisioning does to services, the committed history of every order
    is a run of the machine from nothing to the order's current status; so an
    order is only ever waiting for payment or acceptance, fulfilling, active,
    failed or cancelled. *)
Theorem orders_follow_the_state_machine env rs s :
  (forall a, leaves_orders (env.(ce_provision) a)) ->
  traced_db s.(s_db) -> s.(s_committed) = s.(s_db) ->
  exists s', serve_orders env rs s = (Ok tt, s') /\
    forall o, In o s'.(s_committed).(db_orders) ->
      recorded None (history_of o.(or_id) s'.(s_committed).(db_order_history))
        (Some o.(or_status)) /\
      In o.(or_status) [OD_PENDING_PAYMENT; OD_PENDING_ACCEPTANCE; OD_FULFILLING; OD_ACTIVE;
                        OD_PROVISION_ERROR; OD_CANCELLED].
Proof.
  intros Hprov Ht Hc.
  assert (wp (serve_orders env rs) (fun _ => traced_in) (fun _ _ => False) s) as Hwp.
  { apply wp_for_each; [by split; rewrite ?Hc|]. intros r s' _ Hs'. wp_step.
    assert (wp (run_request env r) (fun _ => traced_in) (fun _ => traced_in) s') as Hr.
    { destruct r; cbn [run_request].
      - wp_step. eapply wp_conseq; [apply request_traced, bad_request_traced,
          place_order_traced, Hs'|by intros|by intros].
      - by apply accept_traced.
      - by apply retry_traced.
      - by apply cancel_order_traced. }
    eapply wp_conseq; [exact Hr|done|done]. }
  unfold wp in Hwp. destruct (serve_orders env rs s) as [[[]|e] s']; [|done].
  destruct Hwp as [_ [_ Hrec _]]. exists s'. split; [done|]. intros o Ho.
  specialize (Hrec o Ho). split; [done|].
  eapply recorded_reachable; [exact Hrec|]. done.
Qed.

(** * Acceptance and retries *)

Lemma request_raises {A} (m : Meth A) s e s' :
  m s = (Raise e, s') -> request m s = (Raise e, s' <|s_db := s'.(s_committed)|>).
Proof. intros Hm. unfold request, try_catch, bind at 1. by rewrite Hm. Qed.
Lemma wp_trivial {A} (m : Meth A) s : wp m (fun _ _ => True) (fun _ _ => True) s.
Proof. unfold wp. by destruct (m s) as [[a|e] s']. Qed.

(** An acceptance that succeeds was of an order waiting for payment. *)
Lemma accepted_order_was_unpaid env k admin s s' :
  accept_order env k admin s = (Ok tt, s') ->
  exists o, tbl_get k s.(s_db).(db_orders) = Some o /\ o.(or_status) = OD_PENDING_PAYMENT.
Proof.
  intros Hrun.
  assert (wp (accept_order env k admin)
    (fun _ _ => exists o, tbl_get k s.(s_db).(db_orders) = Some o /\
                          o.(or_status) = OD_PENDING_PAYMENT) (fun _ _ => True) s) as Hwp;
    [|by apply (wp_result _ _ _ _ _ _ Hrun) in Hwp].
  unfold accept_order, request, get_order_or_404. wp_step. do 3 wp_step. apply wp_read.
  wp_step; [done|]. rename a into o. wp_step. wp_step; [done|]. apply negb_false_iff in Hguard.
  wp_step. apply wp_gets. wp_step. apply wp_write. wp_step.
  set (g := fun o => o <|or_accepted_at := _|> <|or_accepted_by_user_id := _|>) in *.
  assert (tbl_get k (tbl_update k g s.(s_db).(db_orders)) = Some (g o)) as Hg
    by by apply traced_get_update.
  destruct (fulfillable o.(or_status)) eqn:Hf.
  + unfold fulfillable in Hf. apply orb_true_iff in Hf as [Hf|Hf]; [|rewrite Hf].
    { rewrite py_eq_true in Hf. rewrite (proj2 (py_eq_false _ OD_PENDING_ACCEPTANCE)) by congruence.
      wp_step. eapply wp_conseq; [apply wp_trivial|intros [] s1 _|done]. wp_step.
      eapply wp_conseq; [apply wp_trivial|intros [] s2 _|done]. wp_step. eauto. }
    unfold history_append. wp_step. wp_step. apply wp_read. wp_step. apply wp_write.
    apply wp_flush; [|done]. intros _ _. wp_step. apply wp_write.
    apply wp_flush; [|done]. intros _ _. unfold bad_request. wp_step.
    eapply mark_paid_refuses; [by apply traced_get_update|done|done].
  + assert ((o.(or_status) == OD_PENDING_ACCEPTANCE) = false) as ->.
    { unfold fulfillable in Hf. by apply orb_false_iff in Hf as [_ ->]. }
    wp_step. unfold bad_request. wp_step. by eapply mark_paid_refuses.
Qed.

(** What a retry may be asked for is not fulfillable. *)
Lemma retry_always_fails env k s :
  exists code, retry_fulfill_order env k s
    = (Raise (HTTPException code), s <|s_db := s.(s_committed)|>).
Proof.
  unfold retry_fulfill_order.
  assert (exists code, (o <- get_order_or_404 k ;;
    throw_if (negb (retryable o.(or_status))) (HTTPException 400) ;;;
    bad_request (mark_paid_and_fulfill env k)) s = (Raise (HTTPException code), s))
    as [code Hcode]; [|exists code; by apply request_raises].
  unfold get_order_or_404, bind, read, gets.
  destruct (tbl_get k s.(s_db).(db_orders)) as [o|] eqn:Ho; [|by exists 404].
  exists 400. unfold unwrap, ret, throw_if. destruct (retryable o.(or_status)) eqn:Hr; [|done].
  assert (fulfillable o.(or_status) = false) as Hf by (by destruct o.(or_status)).
  unfold bad_request, try_catch. cbn [negb]. unfold ret.
  pose proof (mark_paid_refuses env k o (fun _ _ => False)
    (fun e s' => (exists m, e = CheckoutError m) /\ s' = s) s Ho Hf
    (fun m => conj (ex_intro _ m eq_refl) eq_refl)) as Hwp.
  unfold wp in Hwp. destruct (mark_paid_and_fulfill env k s) as [[[]|e] s1]; [done|].
  by destruct Hwp as [[m ->] ->].
Qed.

(** What the endpoints for fulfilling an order come to: an acceptance that
    succeeds was of an order still waiting for payment; one of a free order
    waiting for acceptance never succeeds, and no retry does, since both leave
    the order in, or require, a status that fulfilment refuses. *)
Theorem only_unpaid_orders_are_fulfilled env k admin s :
  (forall s', accept_order env k admin s = (Ok tt, s') ->
     exists o, tbl_get k s.(s_db).(db_orders) = Some o /\ o.(or_status) = OD_PENDING_PAYMENT) /\
  (exists code, retry_fulfill_order env k s
     = (Raise (HTTPException code), s <|s_db := s.(s_committed)|>)).
Proof.
  split; [intros s'; apply accepted_order_was_unpaid|apply retry_always_fails].
Qed.

(** * The outcome of a fulfilment *)

Definition items_are (u : list order_item) (d : db) : Prop := d.(db_order_items) = u.
Definition leaves_items {A} (m : Meth A) : Prop := forall u, keeps_db (items_are u) m.

(** Items other than [j] are untouched, and no item changes key or order. *)
Definition touched (j : Z) (u u' : list order_item) : Prop :=
  map (fun i => (i.(oi_id), i.(oi_order_id))) u' = map (fun i => (i.(oi_id), i.(oi_order_id))) u /\
  forall j', j' <> j -> tbl_get j' u' = tbl_get j' u.
Lemma touched_refl j u : touched j u u.
Proof. done. Qed.
Lemma touched_update j f u u' :
  (forall i, (f i).(oi_id) = i.(oi_id)) -> (forall i, (f i).(oi_order_id) = i.(oi_order_id)) ->
  touched j u u' -> touched j u (tbl_update j f u').
Proof.
  intros Hi Ho [H1 H2]. split.
  - rewrite <- H1. unfold tbl_update. rewrite map_map. apply map_ext. intros i.
    destruct (row_key i =? j); [|done]. by rewrite Hi, Ho.
  - intros j' Hne. rewrite <- (H2 j' Hne). apply tbl_get_update_ne; [done|congruence].
Qed.

Definition delivered (i : order_item) : Prop :=
  i.(oi_fulfill_status) = FS_FULFILLED /\ i.(oi_service_id) <> None.
Definition failed_item (i : order_item) : Prop :=
  i.(oi_fulfill_status) = FS_FAILED /\ i.(oi_error_message) <> None.

Section Outcome.
Context (env : checkout_env) (Hprov : forall a, leaves_items (env.(ce_provision) a)).

Lemma provision_item_items u k j :
  keeps_db (items_are u) (provision_order_item env k j).
Proof.
  unfold provision_order_item, provision_keys_from_item_config, provision_int. keeps_tac.
  apply Hprov.
Qed.

Lemma ensure_items u k item a plan p :
  keeps_db (items_are u) (ensure_for_fulfilled_item k item a plan p).
Proof. unfold ensure_for_fulfilled_item. keeps_tac. Qed.

Lemma deliver_spec k j u i s :
  s.(s_db).(db_order_items) = u -> tbl_get j u = Some i ->
  wp (deliver_order_item env k j)
    (fun r s' => r = None /\ touched j u s'.(s_db).(db_order_items) /\
       exists i', tbl_get j s'.(s_db).(db_order_items) = Some i' /\ delivered i')
    (fun _ s' => touched j u s'.(s_db).(db_order_items)) s.
Proof.
  intros Hs Hi. unfold deliver_order_item. wp_step.
  eapply wp_keeps; [apply (provision_item_items u)|exact Hs| |by intros e s' ->].
  intros service_id s1 Hs1. unfold items_are in Hs1. wp_step. apply wp_write. wp_step.
  set (f := fun i => i <|oi_service_id := Some service_id|>).
  match goal with |- wp _ _ _ ?x => assert (x.(s_db).(db_order_items) = tbl_update j f u) as Hs2
    by (cbn; by rewrite Hs1); revert Hs2; generalize x end.
  clear s s1 Hs Hs1. intros s Hs. set (u1 := tbl_update j f u) in *.
  assert (touched j u u1) as Ht by (apply touched_update; [done|done|apply touched_refl]).
  assert (tbl_get j u1 = Some (f i)) as Hf by by apply tbl_get_update_eq.
  assert (forall (e : exn) s', s'.(s_db).(db_order_items) = u1 ->
    touched j u s'.(s_db).(db_order_items)) as Hfail by (by intros e s' ->).
  unfold the_order_item, the_order. do 1 wp_step. apply wp_read. wp_step; [by apply (Hfail AttributeError)|].
  wp_step. eapply (wp_keeps (fun s => items_are u1 s.(s_db))); [apply keeps_load|exact Hs| |exact Hfail].
  intros product s1 Hs1. wp_step. wp_step. apply wp_read. wp_step; [by apply (Hfail AttributeError)|].
  wp_step. apply wp_read. wp_step.
  eapply (wp_keeps (fun s => items_are u1 s.(s_db))); [|exact Hs1| |exact Hfail].
  { pose proof ensure_items. repeat case_match; [|auto with dcim..].
    apply keeps_bind; [|auto with dcim]. apply ensure_items. }
  intros [] s2 Hs2. unfold items_are in Hs2. wp_step. apply wp_write. wp_step. cbn [s_db db_order_items update].
  rewrite Hs2. split; [done|]. split; [by apply touched_update|].
  eexists. split; [by apply tbl_get_update_eq|]. done.
Qed.

Lemma fulfill_item_spec k j u i s :
  s.(s_db).(db_order_items) = u -> tbl_get j u = Some i ->
  wp (fulfill_order_item env k j)
    (fun r s' => touched j u s'.(s_db).(db_order_items) /\
       exists i', tbl_get j s'.(s_db).(db_order_items) = Some i' /\
         match r with
         | None => delivered i'
         | Some m => str_empty m = false /\ failed_item i'
         end)
    (fun _ _ => True) s.
Proof.
  intros Hs Hi. unfold fulfill_order_item. wp_step. apply wp_write. wp_step.
  apply wp_flush; [|done]. intros _ _.
  set (f := fun i => i <|oi_fulfill_status := FS_FULFILLING|>).
  assert (touched j u (tbl_update j f u)) as Ht
    by (apply touched_update; [done|done|apply touched_refl]).
  wp_step. eapply wp_conseq; [apply (deliver_spec k j (tbl_update j f u) (f i))| |].
  - cbn. by rewrite Hs.
  - by apply tbl_get_update_eq.
  - intros r s' (-> & [H1 H2] & Hd). split; [|done]. split; [by rewrite H1; apply Ht|].
    intros j' Hj. rewrite H2 by done. by apply Ht.
  - intros e s' [H1 H2]. wp_step. apply wp_write. wp_step. cbn [s_db db_order_items update].
    split.
    + apply touched_update; [done|done|]. split; [by rewrite H1; apply Ht|].
      intros j' Hj. rewrite H2 by done. by apply Ht.
    + destruct (tbl_get j s'.(s_db).(db_order_items)) as [x|] eqn:Hx.
      * eexists. split; [by apply tbl_get_update_eq|]. done.
      * exfalso. assert (In j (map oi_id s'.(s_db).(db_order_items))) as Hin.
        { assert (map oi_id s'.(s_db).(db_order_items) = map oi_id u) as ->.
          { assert (forall l l' : list order_item,
              map (fun i => (i.(oi_id), i.(oi_order_id))) l
              = map (fun i => (i.(oi_id), i.(oi_order_id))) l' -> map oi_id l = map oi_id l') as Hm.
            { intros l l' Hl. apply (f_equal (map fst)) in Hl. by rewrite !map_map in Hl. }
            apply Hm. rewrite H1. by apply Ht. }
          rewrite <- (tbl_get_key _ _ _ Hi). apply (in_map oi_id). by eapply tbl_get_In. }
        apply in_map_iff in Hin as (y & Hy & Hin). apply (List.find_none _ _ Hx) in Hin.
        change (row_key y) with y.(oi_id) in Hin. lia.
Qed.
End Outcome.

Definition item_keys (u : list order_item) : list (Z * Z) :=
  map (fun i => (i.(oi_id), i.(oi_order_id))) u.

(** What a run over some items did to the table. *)
Definition worked_through (js : list Z) (u u' : list order_item) (errors0 errors : list string)
  : Prop :=
  item_keys u' = item_keys u /\
  (forall j, ~ In j js -> tbl_get j u' = tbl_get j u) /\
  ((errors = errors0 /\
    forall j, In j js -> exists i, tbl_get j u' = Some i /\ delivered i) \/
   ((List.length errors0 < List.length errors)%nat /\
    exists j i, In j js /\ tbl_get j u' = Some i /\ failed_item i)).

Lemma fulfill_items_spec env k items errors0 u s :
  (forall a, leaves_items (env.(ce_provision) a)) ->
  s.(s_db).(db_order_items) = u -> List.NoDup (map oi_id items) ->
  (forall j, In j (map oi_id items) -> exists i, tbl_get j u = Some i) ->
  wp (fold_each items errors0 (fun errors i =>
        failure <- fulfill_order_item env k i.(oi_id) ;;
        flush ;;;
        ret (match failure with
             | Some m => if str_empty m then errors else errors ++ [m]
             | None => errors
             end)))
    (fun errors s' => worked_through (map oi_id items) u s'.(s_db).(db_order_items) errors0 errors)
    (fun _ _ => True) s.
Proof.
  intros Hprov. revert errors0 u s. induction items as [|x items IH]; intros errors0 u s Hs Hnd Hin.
  - cbn. rewrite Hs. split; [done|]. split; [done|]. left. by split.
  - cbn [fold_each map] in *. apply List.NoDup_cons_iff in Hnd as [Hx Hnd].
    destruct (Hin x.(oi_id) (or_introl eq_refl)) as [i0 Hi0].
    wp_step. wp_step. eapply wp_conseq; [apply (fulfill_item_spec env Hprov k _ u i0 s Hs Hi0)| |done].
    intros failure s1 ([Hkeys Hother] & i1 & Hi1 & Hf). wp_step. apply wp_flush; [|done].
    intros _ _. apply wp_ret. set (u1 := s1.(s_db).(db_order_items)) in *.
    set (errors1 := match failure with Some m => _ | None => _ end).
    eapply wp_conseq; [apply (IH errors1 u1 s1 eq_refl Hnd)| |done].
    { intros j Hj. rewrite Hother; [apply Hin; by right|]. intros ->. done. }
    intros errors s2 (Hk2 & Ho2 & Hcase). set (u2 := s2.(s_db).(db_order_items)) in *.
    split; [by rewrite Hk2|]. split.
    { intros j Hj. rewrite Ho2, Hother; [done| |]; intros Heq; apply Hj; [left|right]; done. }
    assert (tbl_get x.(oi_id) u2 = Some i1) as Hi2 by (rewrite Ho2; done).
    destruct failure as [m|].
    + destruct Hf as [Hm Hf]. subst errors1. rewrite Hm in Hcase. right. split.
      * destruct Hcase as [[-> _]|[Hlt _]]; rewrite ?List.length_app in *; cbn in *; lia.
      * exists x.(oi_id), i1. by split; [left|].
    + subst errors1. destruct Hcase as [[-> Hall]|[Hlt (j & i & Hj & Hget & Hfail)]].
      * left. split; [done|]. intros j [<-|Hj]; [by exists i1|by apply Hall].
      * right. split; [done|]. exists j, i. by split; [right|].
Qed.

Lemma items_of_order_keys k u u' :
  item_keys u' = item_keys u ->
  map oi_id (List.filter (fun i => i.(oi_order_id) =? k) u')
  = map oi_id (List.filter (fun i => i.(oi_order_id) =? k) u).
Proof.
  intros Hk. assert (forall l, map oi_id (List.filter (fun i => i.(oi_order_id) =? k) l)
    = map fst (List.filter (fun x => x.2 =? k) (item_keys l))) as Hf.
  { induction l as [|x l IH]; [done|]. cbn. destruct (_ =? k); cbn; by rewrite IH. }
  by rewrite !Hf, Hk.
Qed.

Lemma filter_ids_nodup (p : order_item -> bool) u :
  tbl_wf u -> List.NoDup (map oi_id (List.filter p u)).
Proof.
  unfold tbl_wf. induction u as [|x u IH]; [constructor|]. cbn.
  intros [Hx Hu]%List.NoDup_cons_iff. destruct (p x); [|auto]. cbn. apply List.NoDup_cons_iff.
  split; [|auto]. intros (y & Hy & [Hin _]%List.filter_In)%in_map_iff. apply Hx.
  change (row_key x) with x.(oi_id). rewrite <- Hy. by apply (in_map row_key).
Qed.

(** An order has a status and the items are these. *)
Definition closed_as (k : Z) (u : list order_item) (st : order_status) (d : db) : Prop :=
  d.(db_order_items) = u /\ exists o, tbl_get k d.(db_orders) = Some o /\ o.(or_status) = st.

Lemma announce_closed k u st j : keeps_db (closed_as k u st) (announce_paid_order j).
Proof. unfold announce_paid_order, enqueue_commerce_event. keeps_tac. Qed.

Lemma close_status env_errors k o s :
  tbl_get k s.(s_db).(db_orders) = Some o ->
  wp (close_fulfillment k env_errors ;;; flush)
    (fun _ s' => closed_as k s.(s_db).(db_order_items)
       (match env_errors with [] => OD_ACTIVE | _ => OD_PROVISION_ERROR end) s'.(s_db))
    (fun _ _ => True) s.
Proof.
  intros Ho. set (u := s.(s_db).(db_order_items)). set (I st s' := closed_as k u st s'.(s_db)).
  assert (forall f st note (k2 : Meth unit), (forall x, (f x).(or_id) = x.(or_id)) ->
    (f o).(or_status) = st -> keeps (I st) k2 ->
    wp ((upd_order k f ;;; history_append k (Some OD_FULFILLING) st None note ;;; k2) ;;; flush)
      (fun _ => I st) (fun _ _ => True) s) as Hmove.
  { intros f st note k2 Hid Hst Hk2. wp_step. wp_step. apply wp_write. wp_step.
    unfold history_append. wp_step. apply wp_read. wp_step. apply wp_write.
    apply wp_flush; [|done]. intros _ _. eapply (wp_keeps (I st)); [exact Hk2| | |done].
    - split; [done|]. exists (f o). split; [|done]. cbn. by apply traced_get_update.
    - intros [] s2 Hs2. by apply wp_flush. }
  unfold close_fulfillment. destruct env_errors as [|e l].
  - apply Hmove; [done|done|]. apply keeps_try; [apply announce_closed|]. intros e. apply keeps_ret.
  - pose proof (Hmove (fun o => o <|or_status := OD_PROVISION_ERROR|>
      <|or_admin_notes := Some (failure_notes o.(or_admin_notes) (e :: l))|>)
      OD_PROVISION_ERROR (Some "Provisioning failed") (ret tt)
      ltac:(done) ltac:(done) ltac:(apply keeps_ret)) as Hm.
    unfold wp, bind in *. by destruct (upd_order _ _ s) as [[[]|] s1];
      [destruct (history_append _ _ _ _ _ s1) as [[[]|] s2]|].
Qed.

(** Keys are kept in order, so what happened to the items of an order can be
    read off the table. *)
Lemma worked_outcome k u u' errors :
  tbl_wf u ->
  worked_through (map oi_id (List.filter (fun i => i.(oi_order_id) =? k) u)) u u' [] errors ->
  let of_order i := In i (List.filter (fun i => i.(oi_order_id) =? k) u') in
  (errors = [] /\ forall i, of_order i -> delivered i) \/
  (errors <> [] /\ exists i, of_order i /\ failed_item i).
Proof.
  intros Hwf (Hk & _ & Hcase). cbv zeta.
  assert (tbl_wf u') as Hwf'.
  { unfold tbl_wf. pose proof (f_equal (map fst) Hk) as H. unfold item_keys in H.
    rewrite !map_map in H. cbn in H. change (List.NoDup (map (fun x => x.(oi_id)) u')).
    rewrite H. exact Hwf. }
  rewrite <- (items_of_order_keys k _ _ Hk) in Hcase.
  destruct Hcase as [[-> Hall]|[Hlt (j & i & Hj & Hget & Hfail)]]; [left|right].
  - split; [done|]. intros i Hi.
    destruct (Hall i.(oi_id) (in_map _ _ _ Hi)) as (i' & Hget & Hd).
    apply List.filter_In in Hi as [Hin _].
    pose proof (tbl_get_wf _ i Hwf' Hin) as Hg. change (row_key i) with i.(oi_id) in Hg. congruence.
  - split; [by intros ->; cbn in Hlt; lia|]. exists i. split; [|done].
    apply in_map_iff in Hj as (y & <- & Hy). pose proof Hy as [Hin _]%List.filter_In.
    pose proof (tbl_get_wf _ y Hwf' Hin) as Hg. change (row_key y) with y.(oi_id) in Hg.
    replace i with y by congruence. exact Hy.
Qed.

(** Working through the items of an order that is being fulfilled. *)
Lemma fulfill_items_of_order env k o s :
  (forall a, leaves_items (env.(ce_provision) a)) ->
  (forall a, leaves_orders (env.(ce_provision) a)) ->
  tbl_wf s.(s_db).(db_order_items) -> tbl_get k s.(s_db).(db_orders) = Some o ->
  let items := items_of_order k s.(s_db) in
  wp (fulfill_items env k items) (fun errors s' =>
    tbl_get k s'.(s_db).(db_orders) = Some o /\
    worked_through (map oi_id items) s.(s_db).(db_order_items) s'.(s_db).(db_order_items)
      [] errors) (fun _ _ => True) s.
Proof.
  intros Hitems Horders Hwf Ho items.
  pose proof (fulfill_items_orders env Horders s.(s_db).(db_orders)
    s.(s_db).(db_order_history) s.(s_committed).(db_orders)
    s.(s_committed).(db_order_history) k items s
    (conj eq_refl (conj eq_refl (or_intror (conj eq_refl eq_refl))))) as Hord.
  assert (wp (fulfill_items env k items) (fun errors s' =>
    worked_through (map oi_id items) s.(s_db).(db_order_items) s'.(s_db).(db_order_items)
      [] errors) (fun _ _ => True) s) as Hspec.
  { apply fulfill_items_spec; [done|done|by apply filter_ids_nodup|].
    intros j (i & <- & [Hin _]%List.filter_In)%in_map_iff. exists i.
    by apply (tbl_get_wf s.(s_db).(db_order_items) i). }
  eapply wp_conseq; [exact (wp_and _ _ _ _ _ _ Hord Hspec)| |done].
  intros errors s' [(-> & _) Hw]. by split.
Qed.

(** C40. A fulfilment that returns was of an order waiting for payment or
    acceptance, and that order tells how it went, whatever provisioning answers
    or raises as long as it leaves orders and their items alone: either the order
    is active and every one of its items is fulfilled with its
    service, or it is in provisioning error and one of its items failed with a
    recorded message; it is never left fulfilling.  The order keeps its items,
    and those of other orders do not change. *)
Theorem fulfillment_outcome env k s s' :
  (forall a, leaves_items (env.(ce_provision) a)) ->
  (forall a, leaves_orders (env.(ce_provision) a)) ->
  tbl_wf s.(s_db).(db_order_items) ->
  mark_paid_and_fulfill env k s = (Ok tt, s') ->
  (exists o, tbl_get k s.(s_db).(db_orders) = Some o /\ fulfillable o.(or_status) = true) /\
  (exists o, tbl_get k s'.(s_db).(db_orders) = Some o /\
    ((o.(or_status) = OD_ACTIVE /\
      forall i, In i (items_of_order k s'.(s_db)) -> delivered i) \/
     (o.(or_status) = OD_PROVISION_ERROR /\
      exists i, In i (items_of_order k s'.(s_db)) /\ failed_item i))) /\
  map oi_id (items_of_order k s'.(s_db)) = map oi_id (items_of_order k s.(s_db)) /\
  (forall j, ~ In j (map oi_id (items_of_order k s.(s_db))) ->
     tbl_get j s'.(s_db).(db_order_items) = tbl_get j s.(s_db).(db_order_items)).
Proof.
  intros Hitems Horders Hwf Hrun. pattern s'.
  match goal with |- ?P _ => apply (wp_result _ (fun _ => P) (fun _ _ => True) _ _ _ Hrun) end.
  clear Hrun s'. unfold mark_paid_and_fulfill. wp_step. apply wp_read. wp_step. wp_step; [done|].
  wp_step. wp_step; [done|]. apply negb_false_iff in Hguard. wp_step. apply wp_write. wp_step.
  unfold history_append. wp_step.
  apply wp_read. wp_step. apply wp_write. apply wp_flush; [|done]. intros _ _. wp_step.
  apply wp_flush; [|done]. intros _ _. wp_step. apply wp_read. wp_step.
  match goal with |- wp _ _ _ ?x => set (s1 := x) end.
  assert (exists o1, tbl_get k s1.(s_db).(db_orders) = Some o1) as [o1 Ho1].
  { eexists. cbn. by apply traced_get_update. }
  eapply wp_conseq; [exact (fulfill_items_of_order env k o1 s1 Hitems Horders Hwf Ho1)| |done].
  intros errors s2 [Ho2 Hwork]. pose proof (worked_outcome k _ _ _ Hwf Hwork) as Hw.
  eapply wp_conseq; [exact (close_status errors k o1 s2 Ho2)| |done].
  intros [] s3 (Hi3 & o3 & Ho3 & Hst3). split; [by eexists|].
  unfold items_of_order. rewrite Hi3. destruct Hwork as (Hkeys & Hother & _).
  split; [|split; [by apply items_of_order_keys|exact Hother]].
  exists o3. split; [done|]. destruct Hw as [[-> Hall]|[Hne Hfail]]; [by left|right].
  by destruct errors.
Qed.

(** * Tax rates that overlap *)

Lemma reads_bind_at {A B} (m : Meth A) (k : A -> Meth B) P (Q : B -> Prop) s :
  reads_at m P s -> (forall a, P a -> reads_at (k a) Q s) -> reads_at (bind m k) Q s.
Proof.
  intros Hm Hk. apply wp_bind. eapply wp_conseq; [exact Hm| |by intros e s' ->].
  intros a s' [-> Ha]. by apply Hk.
Qed.

(** The profile's region has its own rate and its country has another. *)
Definition doubly_taxed (env : checkout_env) (account : billing_account) (d : db) : Prop :=
  account.(ba_tax_exempt) = false /\
  exists p country region r1 r2 : _,
    List.filter (fun p => p.(bp_billing_account_id) =? account.(ba_id)) d.(db_profiles) = [p] /\
    p.(bp_country) = Some country /\ str_empty country = false /\
    p.(bp_region) = Some region /\ str_empty region = false /\
    In r1 env.(ce_tax_rates) /\ In r2 env.(ce_tax_rates) /\
    r1.(tx_country) = str_upper country /\ r2.(tx_country) = str_upper country /\
    r1.(tx_enabled) = true /\ r2.(tx_enabled) = true /\
    r1.(tx_region) = None /\ r2.(tx_region) = Some region.

Lemma doubly_taxed_raises env account taxable s :
  doubly_taxed env account s.(s_db) ->
  reads_at (tax_cents env account taxable) (fun t => taxable <= 0 /\ t = 0) s.
Proof.
  intros (Hex & p & country & region & r1 & r2 & Hp & Hc & Hce & Hr & Hre & H1 & H2 & Hc1 & Hc2 &
    He1 & He2 & Hn1 & Hn2).
  unfold tax_cents. rewrite Hex, orb_false_r. destruct (Z.leb_spec taxable 0).
  - by apply reads_ret.
  - apply reads_read. rewrite Hp. eapply (reads_bind_at _ _ (fun o => o = Some p)); [by split|].
    intros o ->. rewrite Hc. cbn [str_true str_or]. rewrite Hce. cbn [negb].
    set (rows := tax_rates_for _ _ _).
    assert (In r1 rows /\ In r2 rows) as [Hi1 Hi2].
    { unfold rows, tax_rates_for. rewrite !List.filter_In, Hr, Hc1, Hc2, He1, He2, Hn1, Hn2, py_eq_refl.
      cbn. rewrite Hre. by rewrite py_eq_refl. }
    assert (r1 <> r2) as Hne by congruence.
    destruct rows as [|x [|y l]]; [done| |done].
    destruct Hi1 as [->|[]], Hi2 as [->|[]]. done.
Qed.

(** Where a region's tax rate meets its country's, nothing can be bought: for
    an account whose profile names a region that has a rate of its own in a
    country that has one too, a quote is given only for what costs nothing; the
    order the query puts the rates in, the most specific first, is never used. *)
Theorem overlapping_tax_rates_stop_checkout env account p plan_id ci options code s q s' :
  doubly_taxed env account s.(s_db) ->
  quote env account p plan_id ci options code s = (Ok q, s') ->
  s' = s /\ q.(qt_total_cents) = 0.
Proof.
  intros Hd Hrun.
  assert (reads_at (quote env account p plan_id ci options code) (fun q => q.(qt_total_cents) = 0) s)
    as Hwp; [|exact (wp_result _ _ _ _ _ _ Hrun Hwp)].
  unfold quote. eapply reads_bind; [apply load_product_reads|]. intros product _.
  eapply reads_bind; [apply reads_unwrap|]. intros plan _.
  eapply reads_bind; [apply reads_throw_if|]. intros [] _.
  eapply reads_bind; [apply reads_throw_if|]. intros [] _.
  eapply reads_bind; [apply normalize_options_reads|]. intros normalized _.
  eapply reads_bind; [apply resolve_cycle_price_reads|]. intros price _.
  eapply reads_bind; [apply find_coupon_reads|]. intros coupon _.
  eapply reads_bind_at; [by apply doubly_taxed_raises|]. intros tax [Ht ->].
  apply reads_ret. cbn. lia.
Qed.

(** * A small shop *)

Definition sample_plan : storefront_plan :=
  mk_storefront_plan 1 "Monthly" PM_RECURRING "usd" 500 true
    [mk_plan_cycle PI_ANNUALLY 9000 true; mk_plan_cycle PI_MONTHLY 900 true].
Definition sample_free_plan : storefront_plan :=
  mk_storefront_plan 2 "Free" PM_FREE "usd" 0 true [].
Definition sample_product : frontend_product :=
  mk_frontend_product 1 "VPS 2" (Some 3) (Some (mk_catalog_product 7 "vps-2" (Some "vm"))) "vm" true
    None [sample_plan; sample_free_plan]
    [mk_product_option "disk" "Disk" true OT_SELECT
       [mk_option_value "100" "100 GB" (Some "vm_template_id") (Some "12") 100 true]].
Definition provision_service (a : provision_args) : Meth Z :=
  k <- read (fun d => tbl_fresh d.(db_services)) ;;
  write (fun d => d <|db_services := d.(db_services) ++
    [mk_service k a.(pr_name) (Some a.(pr_owner_user_id)) a.(pr_service_type) SS_PENDING None
       None None [] [] None None None None None PV_INTERNAL]|>) ;;;
  ret k.
Definition sample_shop : checkout_env :=
  mk_checkout_env [sample_product]
    [mk_tax_rate "DE" None 1900 true; mk_tax_rate "US" None 0 true; mk_tax_rate "US" (Some "NY") 888 true]
    "1" (fun _ => "error") (fun _ => "") provision_service.
Definition shop_account : billing_account :=
  mk_billing_account 1 (Some 101) None AC_CLIENT "USD" false.
Definition shop_session : session :=
  session_of (sample_db <|db_accounts := [shop_account]|>
    <|db_coupons := [mk_coupon 1 "SPRING" (Some 10) None CA_ALL None None (Some 1) 0 None None true]|>
    <|db_profiles := [mk_billing_profile 1 1 (Some "de") None]|>) 1000.
Definition sample_checkout (plan : Z) (coupon : option string) (nonce : string) : checkout_request :=
  mk_checkout_request 101 1 plan (Some "monthly") (Some [("disk", JInt 100)]) coupon nonce None None.

Lemma sample_shop_priced : priced sample_shop shop_session.(s_db).
Proof.
  constructor.
  - intros p plan [<-|[]] [<-|[<-|[]]]; (split; [done|]).
    + intros c [<-|[<-|[]]]; done.
    + intros c [].
  - intros p o v [<-|[]] [<-|[]] [<-|[]]. done.
  - intros c [<-|[]]. split; [done|]. by intros p [= <-].
  - intros r [<-|[<-|[<-|[]]]]; done.
Qed.

Lemma quote_adds_up_witness :
  exists q, quote sample_shop shop_account 1 1 (Some "monthly") (Some [("disk", JInt 100)])
              (Some " spring") shop_session = (Ok q, shop_session) /\
    q.(qt_total_cents) = 1713 /\ lines_total q.(qt_lines) = 813.
Proof.
  destruct (quote sample_shop shop_account 1 1 (Some "monthly") (Some [("disk", JInt 100)])
              (Some " spring") shop_session) as [[q|e] s'] eqn:Hq; [|vm_compute in Hq; discriminate].
  pose proof (quote_adds_up _ _ _ _ _ _ _ _ _ _ sample_shop_priced Hq) as (-> & _).
  exists q. split; [reflexivity|]. vm_compute in Hq. injection Hq as <-. split; reflexivity.
Defined.

Lemma coupons_stay_within_limits_witness :
  coupons_ok (place_order sample_shop shop_account (sample_checkout 1 (Some "SPRING") "n1")
                shop_session).2.(s_db).
Proof.
  assert (coupons_ok shop_session.(s_db)) as Hok.
  { split; [repeat constructor; intros []|]. intros c [<-|[]]. split; [reflexivity|].
    intros m [= <-]. cbn. lia. }
  destruct (place_order sample_shop shop_account (sample_checkout 1 (Some "SPRING") "n1") shop_session)
    as [r s'] eqn:Hrun.
  exact (coupons_stay_within_limits _ _ _ _ _ _ Hok Hrun).
Defined.

Lemma checkout_nonce_buys_once_witness :
  exists s', place_order sample_shop shop_account (sample_checkout 1 None "n1") shop_session
             = (Ok 1, s') /\
    place_order sample_shop reseller_account (sample_checkout 2 None " n1 ") s' = (Ok 1, s').
Proof.
  destruct (place_order sample_shop shop_account (sample_checkout 1 None "n1") shop_session)
    as [r s'] eqn:Hrun.
  assert (r = Ok 1) as -> by (vm_compute in Hrun; by injection Hrun as <- _).
  exists s'. split; [reflexivity|].
  apply (checkout_nonce_buys_once _ _ _ _ _ _ reseller_account (sample_checkout 2 None " n1 ") Hrun).
  reflexivity.
Defined.

(** The same customer, moved to New York, with a voucher for everything. *)
Definition new_york : session :=
  session_of (shop_session.(s_db)
    <|db_profiles := [mk_billing_profile 1 1 (Some "us") (Some "NY")]|>
    <|db_coupons := [mk_coupon 1 "ALL" (Some 100) None CA_ALL None None None 0 None None true]|>) 1000.
Lemma overlapping_tax_rates_stop_checkout_witness :
  quote sample_shop shop_account 1 1 (Some "monthly") (Some [("disk", JInt 100)]) None new_york
  = (Raise MultipleResultsFound, new_york) /\
  exists q, quote sample_shop shop_account 1 1 (Some "monthly") (Some [("disk", JInt 100)])
              (Some "all") new_york = (Ok q, new_york) /\ q.(qt_total_cents) = 0.
Proof.
  split; [vm_compute; reflexivity|].
  destruct (quote sample_shop shop_account 1 1 (Some "monthly") (Some [("disk", JInt 100)])
              (Some "all") new_york) as [[q|e] s'] eqn:Hq; [|vm_compute in Hq; discriminate].
  assert (doubly_taxed sample_shop shop_account new_york.(s_db)) as Hd.
  { split; [reflexivity|]. exists (mk_billing_profile 1 1 (Some "us") (Some "NY")), "us", "NY",
      (mk_tax_rate "US" None 0 true), (mk_tax_rate "US" (Some "NY") 888 true).
    repeat split; cbn; auto. }
  destruct (overlapping_tax_rates_stop_checkout _ _ _ _ _ _ _ _ _ _ Hd Hq) as [-> Ht].
  exists q. by split.
Defined.

Lemma provision_service_orders a : leaves_orders (provision_service a).
Proof. intros t h t0 h0. unfold provision_service. keeps_tac. Qed.
Lemma provision_service_items a : leaves_items (provision_service a).
Proof. intros u. unfold provision_service. keeps_tac. Qed.

(** Two orders; the first is accepted, and both are retried and cancelled. *)
Definition sample_order_requests : list order_request :=
  [OrPlace shop_account (sample_checkout 1 None "n1");
   OrPlace shop_account (sample_checkout 2 (Some "SPRING") "n2");
   OrAccept 1 (Some 101); OrRetry 1; OrRetry 2; OrCancel 1 None; OrCancel 2 None].

Lemma orders_follow_the_state_machine_witness :
  exists s', serve_orders sample_shop sample_order_requests shop_session = (Ok tt, s') /\
    map or_status s'.(s_committed).(db_orders) = [OD_ACTIVE; OD_CANCELLED] /\
    forall o, In o s'.(s_committed).(db_orders) ->
      recorded None (history_of o.(or_id) s'.(s_committed).(db_order_history))
        (Some o.(or_status)).
Proof.
  destruct (orders_follow_the_state_machine sample_shop sample_order_requests shop_session)
    as (s' & Hrun & Hrec); [exact provision_service_orders|by constructor; [constructor|..]|done|].
  exists s'. split; [exact Hrun|]. split; [|intros o Ho; by destruct (Hrec o Ho)].
  vm_compute in Hrun. injection Hrun as <-. reflexivity.
Defined.

(** An order with an unpaid invoice. *)
#[local] Abbreviation unpaid_session :=
  (checkout sample_shop shop_account (sample_checkout 1 None "n1") shop_session).2.

Lemma fulfillment_outcome_witness :
  exists s', mark_paid_and_fulfill sample_shop 1 unpaid_session = (Ok tt, s') /\
    exists o, tbl_get 1 s'.(s_db).(db_orders) = Some o /\
      ((o.(or_status) = OD_ACTIVE /\ forall i, In i (items_of_order 1 s'.(s_db)) -> delivered i) \/
       (o.(or_status) = OD_PROVISION_ERROR /\
        exists i, In i (items_of_order 1 s'.(s_db)) /\ failed_item i)).
Proof.
  destruct (mark_paid_and_fulfill sample_shop 1 unpaid_session) as [r s'] eqn:Hrun.
  assert (r = Ok tt) as -> by (vm_compute in Hrun; by injection Hrun as <- _).
  exists s'. split; [reflexivity|].
  apply (fulfillment_outcome sample_shop 1 unpaid_session s'); [exact provision_service_items|
    exact provision_service_orders| |exact Hrun].
  vm_compute. repeat constructor. intros [].
Defined.

Lemma only_unpaid_orders_are_fulfilled_witness :
  map in_status unpaid_session.(s_db).(db_invoices) = [IS_OPEN] /\
  (exists s', accept_order sample_shop 1 None unpaid_session = (Ok tt, s') /\
     map in_status s'.(s_committed).(db_invoices) = [IS_OPEN] /\
     map or_status s'.(s_committed).(db_orders) = [OD_ACTIVE]) /\
  (exists o, tbl_get 1 unpaid_session.(s_db).(db_orders) = Some o /\
     o.(or_status) = OD_PENDING_PAYMENT).
Proof.
  split; [vm_compute; reflexivity|].
  destruct (accept_order sample_shop 1 None unpaid_session) as [r s'] eqn:Hrun.
  assert (r = Ok tt) as -> by (vm_compute in Hrun; by injection Hrun as <- _).
  split.
  - exists s'. split; [reflexivity|]. vm_compute in Hrun. injection Hrun as <-. by split.
  - apply (proj1 (only_unpaid_orders_are_fulfilled sample_shop 1 None unpaid_session) s' Hrun).
Defined.
