(* ===== verification/Vmid.v ===== *)
(** Reservation of virtual machine identifiers in a Proxmox cluster:
    src/app/services/vmid_allocator.py and src/app/dao/vmid_reservation_dao.py.
    The allocator is shown to implement a partial map from identifiers to
    services that only grows. *)
From Stdlib Require Import ZArith Lia.
From stdpp Require Import base numbers list strings pretty gmap.
From S2P Require Import Prelude Models Session Lifecycle.
#[local] Open Scope Z_scope.
#[local] Open Scope py_scope.

(** * The code *)

Definition DEFAULT_VMID_MIN : Z := 200000.
Definition DEFAULT_VMID_MAX : Z := 299999.

(** The columns of [ProxmoxCluster] the allocator reads. *)
Record cluster : Type := mk_cluster {
  pc_id : Z;
  pc_vmid_min : option Z;
  pc_vmid_max : option Z
}.
#[export] Instance keyed_cluster : Keyed cluster := pc_id.

Definition resolve_cluster_range (c : cluster) : Meth (Z * Z) :=
  let vmid_min := default DEFAULT_VMID_MIN c.(pc_vmid_min) in
  let vmid_max := default DEFAULT_VMID_MAX c.(pc_vmid_max) in
  throw_if ((vmid_min <=? 0) || (vmid_max <=? 0) || (vmid_max <? vmid_min))
    (ValueError "Invalid cluster VMID range. Ensure vmid_min and vmid_max are positive and vmid_min <= vmid_max.") ;;;
  ret (vmid_min, vmid_max).

(** [ORDER BY id DESC LIMIT 1] *)
Definition newest (rows : list vmid_reservation) : option vmid_reservation :=
  List.fold_left (fun acc r => match acc with
                               | Some x => if x.(vr_id) <? r.(vr_id) then Some r else acc
                               | None => Some r
                               end) rows None.
Definition reservations_of (service_id : Z) (d : db) : list vmid_reservation :=
  List.filter (fun r => r.(vr_service_id) =? service_id) d.(db_reservations).
Definition get_by_service_id (service_id : Z) : Meth (option vmid_reservation) :=
  read (fun d => newest (reservations_of service_id d)).
Definition reserved (cluster_id vmid : Z) (d : db) : option vmid_reservation :=
  List.find (fun r => (r.(vr_cluster_id) =? cluster_id) && (r.(vr_vmid) =? vmid))
    d.(db_reservations).
Definition get_by_cluster_vmid (cluster_id vmid : Z) : Meth (option vmid_reservation) :=
  read (reserved cluster_id vmid).
Definition reservation_create (cluster_id service_id vmid : Z) : Meth unit :=
  write (fun d => d <|db_reservations := d.(db_reservations) ++
    [mk_vmid_reservation (tbl_fresh d.(db_reservations)) cluster_id service_id vmid]|>) ;;;
  commit.

Definition existing_sticky_reservation (existing : option vmid_reservation)
    (cluster_id service_id : Z) (requested_vmid : option Z) : Meth (option Z) :=
  match existing with
  | None => ret None
  | Some e =>
      match requested_vmid with
      | Some r =>
          ret (if (r =? e.(vr_vmid)) && (e.(vr_cluster_id) =? cluster_id)
               then Some e.(vr_vmid) else None)
      | None =>
          if e.(vr_cluster_id) =? cluster_id then ret (Some e.(vr_vmid))
          else raise (ValueError ("Service " +:+ pretty service_id +:+ " already has reserved VMID "
                 +:+ pretty e.(vr_vmid) +:+ " in cluster " +:+ pretty e.(vr_cluster_id)
                 +:+ "; cross-cluster reassignment requires an admin override workflow."))
      end
  end.

Definition reserve_explicit_vmid (cluster_id service_id requested vmid_min vmid_max : Z)
    (allow_outside_range : bool) : Meth Z :=
  throw_if (negb allow_outside_range && ((requested <? vmid_min) || (vmid_max <? requested)))
    (ValueError ("Requested VMID " +:+ pretty requested +:+ " is outside cluster range "
                 +:+ pretty vmid_min +:+ "-" +:+ pretty vmid_max)) ;;;
  throw_if (requested <=? 0) (ValueError "Requested VMID must be positive") ;;;
  taken <- get_by_cluster_vmid cluster_id requested ;;
  throw_if (match taken with Some _ => true | None => false end)
    (ValueError ("VMID " +:+ pretty requested +:+ " is already reserved in cluster "
                 +:+ pretty cluster_id)) ;;;
  reservation_create cluster_id service_id requested ;;;
  ret requested.

(** [for vmid in range(vmid, vmid + n)] *)
Fixpoint reserve_first (cluster_id service_id vmid_min vmid_max : Z) (n : nat) (vmid : Z)
  : Meth Z :=
  match n with
  | O => raise (ValueError ("No free VMID left in cluster " +:+ pretty cluster_id +:+ " range "
                            +:+ pretty vmid_min +:+ "-" +:+ pretty vmid_max))
  | S n' =>
      taken <- get_by_cluster_vmid cluster_id vmid ;;
      match taken with
      | None => reservation_create cluster_id service_id vmid ;;; ret vmid
      | Some _ => reserve_first cluster_id service_id vmid_min vmid_max n' (vmid + 1)
      end
  end.

Definition reserve_next_free_vmid (cluster_id service_id vmid_min vmid_max : Z)
    (suggested_vmid : option Z) : Meth Z :=
  let search := reserve_first cluster_id service_id vmid_min vmid_max (Z.to_nat (vmid_max + 1 - vmid_min)) vmid_min in
  match suggested_vmid with
  | None => search
  | Some suggested =>
      if (vmid_min <=? suggested) && (suggested <=? vmid_max) then
        taken <- get_by_cluster_vmid cluster_id suggested ;;
        match taken with
        | None => reservation_create cluster_id service_id suggested ;;; ret suggested
        | Some _ => search
        end
      else search
  end.

(** The clusters are read, never written here. *)
Definition reserve_vmid_for_service (clusters : list cluster) (cluster_id service_id : Z)
    (requested_vmid suggested_vmid : option Z) (allow_outside_range : bool) : Meth Z :=
  existing <- get_by_service_id service_id ;;
  sticky <- existing_sticky_reservation existing cluster_id service_id requested_vmid ;;
  match sticky with
  | Some v => ret v
  | None =>
      c <- unwrap (tbl_get cluster_id clusters) (ValueError "Proxmox cluster not found") ;;
      range <- resolve_cluster_range c ;;
      match requested_vmid with
      | Some r =>
          reserve_explicit_vmid cluster_id service_id r range.1 range.2 allow_outside_range
      | None =>
          reserve_next_free_vmid cluster_id service_id range.1 range.2 suggested_vmid
      end
  end.

(** What the hypervisor answers through its plugin. *)
Record guest_plugin : Type := mk_guest_plugin {
  gp_available_for_new : Z -> outcome exn bool;
  gp_vm_exists : outcome exn bool;
  gp_next_vmid : outcome exn (option Z)
}.
Definition validate_requested_vmid_on_proxmox (plugin : guest_plugin) (requested_vmid : Z)
    (node_name : string) (adopt_existing : bool) : Meth unit :=
  if negb adopt_existing then
    ok <- lift_outcome (plugin.(gp_available_for_new) requested_vmid) ;;
    throw_if (negb ok)
      (ValueError ("VMID " +:+ pretty requested_vmid +:+ " is not available for new allocation on Proxmox (may already be marked non-reusable)"))
  else
    exists_ <- lift_outcome plugin.(gp_vm_exists) ;;
    throw_if (negb exists_)
      (ValueError ("No Proxmox guest with VMID " +:+ pretty requested_vmid +:+ " on node "
                   +:+ node_name)).

Definition reserve_vmid_aligned_with_proxmox (clusters : list cluster) (plugin : guest_plugin)
    (cluster_id service_id : Z) (node_name : string) (requested_vmid : option Z)
    (adopt_existing : bool) : Meth Z :=
  existing <- get_by_service_id service_id ;;
  let kept := match existing with
              | Some e =>
                  if (e.(vr_cluster_id) =? cluster_id)
                     && match requested_vmid with None => true | Some r => r =? e.(vr_vmid) end
                  then Some e.(vr_vmid) else None
              | None => None
              end in
  match kept with
  | Some v => ret v
  | None =>
      unwrap (tbl_get cluster_id clusters) (ValueError "Proxmox cluster not found") ;;;
      match requested_vmid with
      | Some r =>
          validate_requested_vmid_on_proxmox plugin r node_name adopt_existing ;;;
          reserve_vmid_for_service clusters cluster_id service_id (Some r) None adopt_existing
      | None =>
          suggested <- try_catch (lift_outcome plugin.(gp_next_vmid)) (fun _ => ret None) ;;
          reserve_vmid_for_service clusters cluster_id service_id None suggested false
      end
  end.

(** * The map the allocator implements *)

Definition owners (d : db) : gmap (Z * Z) Z :=
  list_to_map (map (fun r => ((r.(vr_cluster_id), r.(vr_vmid)), r.(vr_service_id)))
                 d.(db_reservations)).

(** Claiming an identifier: it is free, or already the service's. *)
Definition claim (k : Z * Z) (service_id : Z) (m : gmap (Z * Z) Z) : option (gmap (Z * Z) Z) :=
  match m !! k with
  | None => Some (<[k := service_id]> m)
  | Some o => if decide (o = service_id) then Some m else None
  end.

(** A session whose rows satisfy the declared constraints. *)
Definition sound (s : session) : Prop :=
  constraints s.(s_db) = true /\ widths s.(s_db) = true.

Definition vmid_key (r : vmid_reservation) : option (Z * Z) :=
  Some (r.(vr_cluster_id), r.(vr_vmid)).

Lemma constraints_reservations d t :
  constraints d = true -> unique_by vmid_key t = true ->
  constraints (d <|db_reservations := t|>) = true.
Proof.
  unfold constraints, inventory_constraints. cbn. rewrite !andb_true_iff. intros Hd Ht. tauto.
Qed.
Lemma constraints_vmids d : constraints d = true -> unique_by vmid_key d.(db_reservations) = true.
Proof. unfold constraints, inventory_constraints. rewrite !andb_true_iff. tauto. Qed.

Definition row_of (r : vmid_reservation) : (Z * Z) * Z :=
  ((r.(vr_cluster_id), r.(vr_vmid)), r.(vr_service_id)).

Lemma unique_keys t : unique_by vmid_key t = true -> NoDup (map row_of t).*1.
Proof.
  unfold unique_by. rewrite bool_decide_eq_true.
  assert ((map row_of t).*1 = omap vmid_key t) as ->; [|done].
  induction t as [|r t IH]; [done|]. cbn. by f_equal.
Qed.

Lemma reserved_None c v d : reserved c v d = None <-> owners d !! (c, v) = None.
Proof.
  unfold reserved, owners. induction d.(db_reservations) as [|r t IH]; [done|]. cbn.
  destruct (Z.eqb_spec r.(vr_cluster_id) c) as [->|Hc]; cbn;
    [destruct (Z.eqb_spec r.(vr_vmid) v) as [->|Hv]|].
  - by rewrite lookup_insert_eq.
  - rewrite lookup_insert_ne by congruence. exact IH.
  - rewrite lookup_insert_ne by congruence. exact IH.
Qed.

(** Looking up the row itself. *)
Lemma owners_row d r :
  constraints d = true -> In r d.(db_reservations) ->
  owners d !! (r.(vr_cluster_id), r.(vr_vmid)) = Some r.(vr_service_id).
Proof.
  intros Hd Hr. unfold owners. apply elem_of_list_to_map_1;
    [by apply unique_keys, constraints_vmids|].
  apply list_elem_of_In, in_map_iff. by exists r.
Qed.

Definition with_reservation (c service_id v : Z) (d : db) : db :=
  d <|db_reservations := d.(db_reservations)
        ++ [mk_vmid_reservation (tbl_fresh d.(db_reservations)) c service_id v]|>.

Lemma owners_with_reservation c service_id v d :
  reserved c v d = None -> owners (with_reservation c service_id v d)
  = <[(c, v) := service_id]> (owners d).
Proof.
  intros Hr. apply reserved_None in Hr. unfold owners in *. cbn.
  rewrite map_app. cbn. rewrite list_to_map_snoc; [done|].
  by apply not_elem_of_list_to_map_2.
Qed.

Lemma reservation_create_run c service_id v s :
  sound s -> reserved c v s.(s_db) = None ->
  reservation_create c service_id v s
  = (Ok tt, s <|s_db := with_reservation c service_id v s.(s_db)|>
              <|s_committed := with_reservation c service_id v s.(s_db)|>)
  /\ sound (s <|s_db := with_reservation c service_id v s.(s_db)|>).
Proof.
  intros [Hc Hw] Hr.
  assert (constraints (with_reservation c service_id v s.(s_db)) = true) as Hc'.
  { apply constraints_reservations; [done|]. apply unique_by_snoc; [by apply constraints_vmids|].
    intros x k Hx [= <-] [= Hk1 Hk2]. pose proof (List.find_none _ _ Hr x Hx) as Hn.
    cbn in Hn. lia. }
  split; [|by split].
  set (s1 := s <|s_db := with_reservation c service_id v s.(s_db)|>).
  change (reservation_create c service_id v s) with (commit s1).
  unfold commit, bind. by rewrite (flush_ok s1).
Qed.

(** The service's newest reservation is this one. *)
Definition holds (service_id c v : Z) (d : db) : Prop :=
  exists e, newest (reservations_of service_id d) = Some e /\ e.(vr_cluster_id) = c /\
            e.(vr_vmid) = v.

(** What a request that returns did. *)
Definition allocated (c service_id v : Z) (s s' : session) : Prop :=
  (s' = s /\ holds service_id c v s.(s_db)) \/
  (reserved c v s.(s_db) = None /\
   s' = s <|s_db := with_reservation c service_id v s.(s_db)|>
          <|s_committed := with_reservation c service_id v s.(s_db)|>).

Lemma create_allocated c service_id v s :
  sound s -> reserved c v s.(s_db) = None ->
  wp (reservation_create c service_id v ;;; ret v)
    (fun v' s' => v' = v /\ allocated c service_id v s s') (fun _ _ => False) s.
Proof.
  intros Hs Hr. destruct (reservation_create_run c service_id v s Hs Hr) as [Hrun _].
  unfold wp, bind. rewrite Hrun. cbn. split; [done|]. by right.
Qed.

(** The search returns the first free identifier of its range, or finds none. *)
Lemma reserve_first_spec c service_id lo hi n v s :
  sound s ->
  wp (reserve_first c service_id lo hi n v)
    (fun w s' => v <= w < v + Z.of_nat n /\ reserved c w s.(s_db) = None /\
       (forall x, v <= x < w -> reserved c x s.(s_db) <> None) /\ allocated c service_id w s s')
    (fun _ s' => s' = s /\ forall x, v <= x < v + Z.of_nat n -> reserved c x s.(s_db) <> None) s.
Proof.
  intros Hs. revert v. induction n as [|n IH]; intros v; cbn [reserve_first].
  - apply wp_raise. split; [done|]. lia.
  - unfold get_by_cluster_vmid. wp_step. apply wp_read. wp_step.
    + eapply wp_conseq; [apply IH| |].
      * intros w s' (Hw & Hf & Hl & Ha). split; [lia|]. split; [done|]. split; [|done].
        intros x Hx. destruct (decide (x = v)) as [->|]; [congruence|apply Hl; lia].
      * intros e s' [-> Hl]. split; [done|]. intros x Hx.
        destruct (decide (x = v)) as [->|]; [congruence|apply Hl; lia].
    + eapply wp_conseq; [by apply create_allocated| |done].
      intros w s' [-> Ha]. split; [lia|]. split; [done|]. split; [lia|done].
Qed.

Lemma reserve_next_free_spec c service_id lo hi suggested s :
  sound s ->
  wp (reserve_next_free_vmid c service_id lo hi suggested)
    (fun w s' => lo <= w <= hi /\ reserved c w s.(s_db) = None /\ allocated c service_id w s s' /\
       (suggested = Some w \/
        forall x, lo <= x < w -> reserved c x s.(s_db) <> None) /\
       (forall g, suggested = Some g -> lo <= g <= hi -> reserved c g s.(s_db) = None -> w = g))
    (fun _ s' => s' = s /\ forall x, lo <= x <= hi -> reserved c x s.(s_db) <> None) s.
Proof.
  intros Hs. unfold reserve_next_free_vmid.
  assert ((forall g, suggested = Some g -> lo <= g <= hi -> reserved c g s.(s_db) <> None) ->
    wp (reserve_first c service_id lo hi (Z.to_nat (hi + 1 - lo)) lo)
      (fun w s' => lo <= w <= hi /\ reserved c w s.(s_db) = None /\ allocated c service_id w s s' /\
         (suggested = Some w \/ forall x, lo <= x < w -> reserved c x s.(s_db) <> None) /\
         (forall g, suggested = Some g -> lo <= g <= hi -> reserved c g s.(s_db) = None -> w = g))
      (fun _ s' => s' = s /\ forall x, lo <= x <= hi -> reserved c x s.(s_db) <> None) s) as Hsearch.
  { intros Hg. eapply wp_conseq; [by apply reserve_first_spec| |].
    - intros w s' (Hw & Hf & Hl & Ha). split; [lia|]. split; [done|]. split; [done|].
      split; [by right|]. intros g Heq Hr Hn. by destruct (Hg g Heq Hr).
    - intros e s' [-> Hl]. split; [done|]. intros x Hx. apply Hl. lia. }
  destruct suggested as [g|]; [|by apply Hsearch].
  destruct ((lo <=? g) && (g <=? hi)) eqn:Hin.
  - unfold get_by_cluster_vmid. wp_step. apply wp_read. wp_step.
    + apply Hsearch. intros x [= <-] _. congruence.
    + eapply wp_conseq; [by apply create_allocated| |done]. intros w s' [-> Ha].
      split; [lia|]. split; [done|]. split; [done|]. split; [by left|]. by intros x [= <-].
  - apply Hsearch. intros x [= <-]. lia.
Qed.

Lemma sticky_spec e c service_id requested (Q : option Z -> session -> Prop)
    (R : exn -> session -> Prop) s :
  (forall m, R (ValueError m) s) -> Q None s ->
  (forall r, e = Some r -> r.(vr_cluster_id) = c -> Q (Some r.(vr_vmid)) s) ->
  wp (existing_sticky_reservation e c service_id requested) Q R s.
Proof.
  intros HR HN HS. unfold existing_sticky_reservation. destruct e as [e|]; [|done].
  destruct requested as [r|].
  - apply wp_ret. destruct ((_ =? _) && _) eqn:H; [|done]. apply HS; [done|lia].
  - destruct (_ =? _) eqn:H; [apply wp_ret, HS; [done|lia]|apply wp_raise, HR].
Qed.

Lemma reserve_spec clusters c service_id requested suggested outside s :
  sound s ->
  wp (reserve_vmid_for_service clusters c service_id requested suggested outside)
    (fun v s' => allocated c service_id v s s') (fun _ s' => s' = s) s.
Proof.
  intros Hs. unfold reserve_vmid_for_service, get_by_service_id. wp_step. apply wp_read. wp_step.
  apply sticky_spec; [done| |].
  - wp_step. wp_step; [done|]. wp_step. unfold resolve_cluster_range. wp_step. wp_step; [done|].
    wp_step. destruct requested as [r|].
    + unfold reserve_explicit_vmid, get_by_cluster_vmid. wp_step. wp_step; [done|].
      wp_step. wp_step; [done|]. wp_step. apply wp_read. wp_step. wp_step; [done|].
      destruct (reserved c r s.(s_db)) eqn:Hr; [done|].
      eapply wp_conseq; [by apply create_allocated| |done]. by intros v s' [-> Ha].
    + eapply wp_conseq; [by apply reserve_next_free_spec| |]; [|by intros e s' [-> _]].
      by intros v s' (_ & _ & Ha & _).
  - intros r Hr Hc. wp_step. left. split; [done|]. by exists r.
Qed.

Lemma aligned_spec clusters plugin c service_id node requested adopt s :
  sound s ->
  wp (reserve_vmid_aligned_with_proxmox clusters plugin c service_id node requested adopt)
    (fun v s' => allocated c service_id v s s') (fun _ s' => s' = s) s.
Proof.
  intros Hs. unfold reserve_vmid_aligned_with_proxmox, get_by_service_id. wp_step. apply wp_read.
  destruct (newest (reservations_of service_id s.(s_db))) as [e|] eqn:He.
  - destruct ((_ =? _) && _) eqn:Hk.
    + wp_step. left. split; [done|]. exists e. split; [done|]. split; [lia|done].
    + wp_step. wp_step; [done|]. destruct requested as [r|].
      * unfold validate_requested_vmid_on_proxmox, lift_outcome. wp_step.
        eapply (wp_conseq _ (fun (_ : unit) s' => s' = s) _ (fun _ s' => s' = s));
          [| |by intros x s' ->].
        { destruct (negb adopt); wp_step; repeat case_match; try done; by apply wp_throw_if. }
        intros [] s' ->. by apply reserve_spec.
      * wp_step. wp_step. unfold lift_outcome.
        destruct plugin.(gp_next_vmid); apply reserve_spec; done.
  - wp_step. wp_step; [done|]. destruct requested as [r|].
    + unfold validate_requested_vmid_on_proxmox, lift_outcome. wp_step.
      eapply (wp_conseq _ (fun (_ : unit) s' => s' = s) _ (fun _ s' => s' = s));
        [| |by intros x s' ->].
      { destruct (negb adopt); wp_step; repeat case_match; try done; by apply wp_throw_if. }
      intros [] s' ->. by apply reserve_spec.
    + wp_step. wp_step. unfold lift_outcome.
      destruct plugin.(gp_next_vmid); apply reserve_spec; done.
Qed.

Lemma newest_In rows r : newest rows = Some r -> In r rows.
Proof.
  unfold newest.
  assert (forall acc, fold_left (fun acc r => match acc with
    | Some x => if x.(vr_id) <? r.(vr_id) then Some r else acc | None => Some r end) rows acc = Some r ->
    acc = Some r \/ In r rows) as H.
  { induction rows as [|x rows IH]; intros acc; cbn; [by left|]. intros Hf.
    apply IH in Hf as [Hf|Hf]; [|auto]. destruct acc as [y|]; [|injection Hf as <-; auto].
    destruct (_ <? _); [injection Hf as <-|]; auto. }
  intros Hf. by destruct (H _ Hf).
Qed.

(** A row with the highest key is the newest. *)
Lemma newest_snoc rows r :
  (forall x, In x rows -> x.(vr_id) < r.(vr_id)) -> newest (rows ++ [r]) = Some r.
Proof.
  intros Hr. unfold newest. rewrite fold_left_app. cbn.
  destruct (fold_left _ rows None) as [x|] eqn:Hx; [|done].
  apply newest_In, Hr in Hx. by rewrite (proj2 (Z.ltb_lt _ _) Hx).
Qed.

Lemma holds_owner service_id c v d :
  constraints d = true -> holds service_id c v d -> owners d !! (c, v) = Some service_id.
Proof.
  intros Hd (e & He & <- & <-). apply newest_In, List.filter_In in He as [Hin He].
  rewrite <- (proj1 (Z.eqb_eq _ _) He). by apply owners_row.
Qed.

Lemma allocated_holds c service_id v s s' :
  allocated c service_id v s s' -> holds service_id c v s'.(s_db).
Proof.
  intros [[-> Hh]|[Hr ->]]; [done|]. unfold holds, reservations_of.
  cbn [s_db update with_reservation db_reservations].
  rewrite List.filter_app. cbn [List.filter vr_service_id]. rewrite Z.eqb_refl.
  eexists. split; [apply newest_snoc|done].
  intros x [Hx _]%List.filter_In. by apply tbl_fresh_gt in Hx.
Qed.

Lemma allocated_claim c service_id v s s' :
  sound s -> allocated c service_id v s s' ->
  sound s' /\ claim (c, v) service_id (owners s.(s_db)) = Some (owners s'.(s_db)).
Proof.
  intros Hs [[-> Hh]|[Hr ->]].
  - split; [done|]. unfold claim. rewrite (holds_owner service_id c v) by (done || apply Hs).
    by rewrite decide_True.
  - destruct (reservation_create_run c service_id v s Hs Hr) as [_ Hs']. split; [exact Hs'|].
    unfold claim. rewrite (proj1 (reserved_None c v _) Hr).
    cbn [s_db update]. by rewrite owners_with_reservation.
Qed.

Inductive vmid_request : Type :=
| VmReserve (cluster_id service_id : Z) (requested suggested : option Z) (outside : bool)
| VmAligned (plugin : guest_plugin) (cluster_id service_id : Z) (node : string)
    (requested : option Z) (adopt : bool).
Definition request_cluster (r : vmid_request) : Z :=
  match r with VmReserve c _ _ _ _ | VmAligned _ c _ _ _ _ => c end.
Definition request_service (r : vmid_request) : Z :=
  match r with VmReserve _ k _ _ _ | VmAligned _ _ k _ _ _ => k end.
Definition run_vmid (clusters : list cluster) (r : vmid_request) : Meth Z :=
  match r with
  | VmReserve c k requested suggested outside =>
      reserve_vmid_for_service clusters c k requested suggested outside
  | VmAligned plugin c k node requested adopt =>
      reserve_vmid_aligned_with_proxmox clusters plugin c k node requested adopt
  end.
Definition serve_vmids (clusters : list cluster) (rs : list vmid_request) : Meth unit :=
  for_each rs (fun r => try_catch (run_vmid clusters r ;;; ret tt) (fun _ => ret tt)).

Lemma run_vmid_spec clusters r s :
  sound s ->
  wp (run_vmid clusters r)
    (fun v s' => allocated (request_cluster r) (request_service r) v s s') (fun _ s' => s' = s) s.
Proof. intros Hs. destruct r; [by apply reserve_spec|by apply aligned_spec]. Qed.

(** C7. The allocator implements a partial map from identifiers to services that
    only grows: a request that returns an identifier claimed it in its cluster,
    where it was free or already the service's, and one that fails changes nothing;
    through any sequence of requests no identifier ever changes hands or is given
    up. *)
Theorem vmid_allocator_refines_a_map clusters s :
  sound s ->
  (forall r, match run_vmid clusters r s with
             | (Ok v, s') =>
                 claim (request_cluster r, v) (request_service r) (owners s.(s_db))
                 = Some (owners s'.(s_db))
             | (Raise _, s') => s' = s
             end) /\
  (forall rs, exists s', serve_vmids clusters rs s = (Ok tt, s') /\ sound s' /\
                         owners s.(s_db) ⊆ owners s'.(s_db)).
Proof.
  intros Hs. split.
  - intros r. pose proof (run_vmid_spec clusters r s Hs) as Hr. unfold wp in Hr.
    destruct (run_vmid clusters r s) as [[v|e] s']; [|done]. by eapply allocated_claim.
  - intros rs.
    assert (wp (serve_vmids clusters rs) (fun _ s' => sound s' /\ owners s.(s_db) ⊆ owners s'.(s_db))
      (fun _ _ => False) s) as Hwp.
    { apply (wp_for_each (fun s' => sound s' /\ owners s.(s_db) ⊆ owners s'.(s_db))); [done|].
      intros r s1 _ [Hs1 Hsub]. wp_step. wp_step.
      eapply wp_conseq; [by apply run_vmid_spec| |].
      - intros v s2 Ha. wp_step. destruct (allocated_claim _ _ _ _ _ Hs1 Ha) as [Hs2 Hc].
        split; [done|]. etrans; [exact Hsub|]. unfold claim in Hc.
        destruct (owners s1.(s_db) !! _) as [o|] eqn:Ho.
        + destruct (decide _); [|done]. by injection Hc as <-.
        + injection Hc as <-. by apply insert_subseteq.
      - intros e s2 ->. by wp_step. }
    unfold wp in Hwp. destruct (serve_vmids clusters rs s) as [[[]|e] s']; [|done].
    exists s'. by destruct Hwp.
Qed.

(** C32. Automatic allocation always finds an identifier when there is one: for a
    service without a reservation in a cluster with a valid range, it returns the
    hypervisor's suggestion when that is free and in range, otherwise the least free
    identifier of the range, and fails without any change exactly when none is free;
    asking again later returns the same identifier and changes nothing. *)
Theorem free_vmid_is_always_found clusters c service_id cl lo hi suggested s :
  sound s -> tbl_get c clusters = Some cl ->
  default DEFAULT_VMID_MIN cl.(pc_vmid_min) = lo -> default DEFAULT_VMID_MAX cl.(pc_vmid_max) = hi ->
  0 < lo <= hi -> newest (reservations_of service_id s.(s_db)) = None ->
  let free v := lo <= v <= hi /\ reserved c v s.(s_db) = None in
  match reserve_vmid_for_service clusters c service_id None suggested false s with
  | (Ok v, s') =>
      free v /\
      (forall g, suggested = Some g -> free g -> v = g) /\
      (suggested = Some v \/ forall x, free x -> v <= x) /\
      forall again, reserve_vmid_for_service clusters c service_id None again false s' = (Ok v, s')
  | (Raise _, s') => s' = s /\ forall v, ~ free v
  end.
Proof.
  intros Hs Hcl Hlo Hhi Hrange Hnew free.
  assert (wp (reserve_vmid_for_service clusters c service_id None suggested false)
    (fun v s' => free v /\ (forall g, suggested = Some g -> free g -> v = g) /\
      (suggested = Some v \/ forall x, free x -> v <= x) /\ allocated c service_id v s s')
    (fun _ s' => s' = s /\ forall v, ~ free v) s) as Hwp.
  { unfold reserve_vmid_for_service, get_by_service_id. wp_step. apply wp_read. rewrite Hnew.
    wp_step. apply wp_ret. rewrite Hcl. wp_step. apply wp_ret. unfold resolve_cluster_range.
    rewrite Hlo, Hhi. wp_step. wp_step. wp_step; [lia|]. wp_step.
    eapply wp_conseq; [by apply reserve_next_free_spec| |].
    - cbn [fst snd]. intros v s' (Hv & Hf & Ha & Hl & Hg). split; [by split|].
      split; [by intros g Heq [??]; apply Hg|]. split; [|done].
      destruct Hl as [->|Hl]; [by left|]. right. intros x [Hx Hfx].
      destruct (Z_lt_le_dec x v); [|done]. exfalso. apply (Hl x); [lia|done].
    - cbn [fst snd]. intros e s' [-> Hl]. split; [done|]. intros v [Hv Hfv]. by apply (Hl v). }
  unfold wp in Hwp. destruct (reserve_vmid_for_service _ _ _ _ _ _ s) as [[v|e] s']; [|done].
  destruct Hwp as (H1 & H2 & H3 & Ha). split; [done|]. split; [done|]. split; [done|].
  intros again. destruct (allocated_holds _ _ _ _ _ Ha) as (e & He & Hec & Hev).
  unfold reserve_vmid_for_service, get_by_service_id, bind, read, gets. rewrite He.
  cbn [existing_sticky_reservation]. rewrite Hec, Z.eqb_refl. unfold ret. by rewrite Hev.
Qed.

(** * A cluster of three identifiers *)

Definition small_cluster : list cluster := [mk_cluster 4 (Some 100) (Some 102)].
Definition vmid_session : session :=
  session_of (sample_db <|db_reservations :=
    [mk_vmid_reservation 1 4 50 100; mk_vmid_reservation 2 5 51 101]|>) 0.
Lemma vmid_session_sound : sound vmid_session.
Proof. split; vm_compute; reflexivity. Qed.

Lemma vmid_allocator_refines_a_map_witness :
  exists s', serve_vmids small_cluster
    [VmReserve 4 60 None (Some 102) false;
     VmReserve 4 61 (Some 102) None false;
     VmAligned (mk_guest_plugin (fun _ => Ok true) (Ok true) (Raise (OtherError "timeout")))
       4 62 "pve1" None false;
     VmReserve 4 63 None None false; VmReserve 4 63 (Some 7) None true] vmid_session = (Ok tt, s') /\
    owners vmid_session.(s_db) ⊆ owners s'.(s_db) /\
    map vr_vmid s'.(s_db).(db_reservations) = [100; 101; 102; 101; 7].
Proof.
  destruct (proj2 (vmid_allocator_refines_a_map small_cluster vmid_session vmid_session_sound)
    [VmReserve 4 60 None (Some 102) false;
     VmReserve 4 61 (Some 102) None false;
     VmAligned (mk_guest_plugin (fun _ => Ok true) (Ok true) (Raise (OtherError "timeout")))
       4 62 "pve1" None false;
     VmReserve 4 63 None None false; VmReserve 4 63 (Some 7) None true]) as (s' & Hrun & _ & Hsub).
  exists s'. split; [exact Hrun|]. split; [exact Hsub|].
  vm_compute in Hrun. injection Hrun as <-. reflexivity.
Defined.

Lemma free_vmid_is_always_found_witness :
  exists s', reserve_vmid_for_service small_cluster 4 60 None (Some 100) false vmid_session
             = (Ok 101, s') /\
    forall again, reserve_vmid_for_service small_cluster 4 60 None again false s' = (Ok 101, s').
Proof.
  pose proof (free_vmid_is_always_found small_cluster 4 60 (mk_cluster 4 (Some 100) (Some 102))
    100 102 (Some 100) vmid_session vmid_session_sound eq_refl eq_refl eq_refl ltac:(lia) eq_refl) as H.
  destruct (reserve_vmid_for_service small_cluster 4 60 None (Some 100) false vmid_session)
    as [[v|e] s'] eqn:Hrun; [|vm_compute in Hrun; discriminate].
  assert (v = 101) as -> by (vm_compute in Hrun; by injection Hrun as <- _).
  exists s'. split; [reflexivity|]. apply H.
Defined.
