(* ===== verification/Placement.v ===== *)
(** Where a virtual machine is put when its order names no node: the
    auto-placement of src/app/services/proxmox_placement.py over the synced
    inventory of src/app/dao/proxmox_inventory_dao.py. *)
From Stdlib Require Import ZArith Lia.
From stdpp Require Import base numbers list strings pretty.
From S2P Require Import Prelude Models Session Vmid.
#[local] Open Scope Z_scope.
#[local] Open Scope py_scope.

(** * The inventory *)

(** The columns placement reads; byte counts below 2^53 are exact as floats. *)
Record capacity_snapshot : Type := mk_capacity_snapshot {
  cs_created_at : option Z;
  cs_ram_total_bytes : option Z;
  cs_ram_used_bytes : option Z
}.
Record proxmox_node : Type := mk_proxmox_node {
  pn_node_name : string;
  pn_enabled : bool;
  pn_templates : list (option string);
  pn_capacity_snapshots : list capacity_snapshot
}.
Record proxmox_cluster : Type := mk_proxmox_cluster {
  px_id : Z;
  px_enabled : bool;
  px_range : option Z * option Z;
  px_nodes : list proxmox_node
}.
#[export] Instance keyed_proxmox_cluster : Keyed proxmox_cluster := px_id.

(** What the allocator of identifiers sees of a cluster. *)
Definition vmid_cluster (c : proxmox_cluster) : cluster :=
  mk_cluster c.(px_id) c.(px_range).1 c.(px_range).2.

(** * The code *)

(** A score, or minus infinity. *)
Definition score : Type := option Z.
Definition score_ltb (a b : score) : bool :=
  match a, b with
  | _, None => false
  | None, Some _ => true
  | Some x, Some y => x <? y
  end.

(** [max(snaps, key=lambda s: s.created_at or datetime.min)]: the first of the
    latest. *)
Definition latest_snapshot (snaps : list capacity_snapshot) : option capacity_snapshot :=
  fold_left (fun best s =>
    match best with
    | None => Some s
    | Some b => if default 0 b.(cs_created_at) <? default 0 s.(cs_created_at)
                then Some s else Some b
    end) snaps None.

Definition node_free_ram_score (n : proxmox_node) : score :=
  match latest_snapshot n.(pn_capacity_snapshots) with
  | None => None
  | Some s =>
      match s.(cs_ram_total_bytes) with
      | None => None
      | Some total => Some (total - default 0 s.(cs_ram_used_bytes))
      end
  end.

(** The clusters come in the order of their names. *)
Definition candidate_clusters (clusters : list proxmox_cluster) (cluster_id : option Z)
  : Meth (list proxmox_cluster) :=
  match cluster_id with
  | Some k =>
      c <- unwrap (tbl_get k clusters)
             (ValueError ("Proxmox cluster " +:+ pretty k +:+ " not found")) ;;
      ret [c]
  | None =>
      match List.filter px_enabled clusters with
      | [] => raise (ValueError "No enabled Proxmox clusters available for auto-placement")
      | l => ret l
      end
  end.

Definition has_template (template_name : string) (n : proxmox_node) : bool :=
  existsb (fun t => str_or t "" == template_name) n.(pn_templates).
Definition node_has_template (n : proxmox_node) (template_name : string) : bool :=
  n.(pn_enabled) && has_template template_name n.
Definition cluster_has_template (c : proxmox_cluster) (template_name : string) : bool :=
  existsb (has_template template_name) c.(px_nodes).

Definition placement_candidate_nodes (c : proxmox_cluster) (template_name : string)
    (shared_storage : bool) : list proxmox_node :=
  if shared_storage && negb (cluster_has_template c template_name) then []
  else List.filter (fun n =>
         n.(pn_enabled) && (shared_storage || node_has_template n template_name))
       c.(px_nodes).

Definition better (best : option (score * Z * string)) (x : score * Z * string)
  : option (score * Z * string) :=
  match best with
  | None => Some x
  | Some b => if score_ltb b.1.1 x.1.1 then Some x else best
  end.
Definition placements (clusters : list proxmox_cluster) (template_name : string)
    (shared_storage : bool) : list (score * Z * string) :=
  List.flat_map (fun c => map (fun n => (node_free_ram_score n, c.(px_id), n.(pn_node_name)))
                    (placement_candidate_nodes c template_name shared_storage)) clusters.
Definition auto_place_vm (clusters : list proxmox_cluster) (template_name : string)
    (cluster_id : option Z) (shared_storage : bool) : Meth (Z * string) :=
  candidates <- candidate_clusters clusters cluster_id ;;
  match fold_left better (placements candidates template_name shared_storage) None with
  | None =>
      raise (ValueError ("No Proxmox node with synced template '" +:+ template_name
               +:+ "' found for auto-placement. Sync cluster inventory (Admin -> Proxmox) or set placement explicitly."))
  | Some b => ret (b.1.2, b.2)
  end.

(** * The best node *)

Lemma score_ltb_trans a b c :
  score_ltb a b = false -> score_ltb b c = false -> score_ltb a c = false.
Proof. destruct a, b, c; cbn; try done; lia. Qed.

(** The fold keeps a maximal element, the first of the maximal ones. *)
Lemma better_spec l best :
  match fold_left better l best with
  | None => best = None /\ l = []
  | Some b =>
      (best = Some b \/ In b l) /\
      (forall x, best = Some x \/ In x l -> score_ltb b.1.1 x.1.1 = false)
  end.
Proof.
  revert best. induction l as [|y l IH]; intros best; cbn [fold_left].
  - destruct best as [b|]; [|done]. split; [by left|].
    intros x [[= ->]|[]]. destruct x.1.1; cbn; [lia|done].
  - specialize (IH (better best y)). destruct (fold_left better l _) as [b|].
    + destruct IH as [Hin Hmax]. assert (exists b1, better best y = Some b1 /\
        (best = Some b1 \/ b1 = y) /\
        (forall x, best = Some x \/ x = y -> score_ltb b1.1.1 x.1.1 = false))
        as (b1 & Hb1 & Hfrom & Hb1max).
      { unfold better. destruct best as [b0|].
        - destruct (score_ltb b0.1.1 y.1.1) eqn:E; eexists; (split; [reflexivity|]);
            (split; [auto|]); intros x [[= <-]| ->]; try done.
          + destruct b0.1.1, y.1.1; cbn in *; lia || done.
          + destruct y.1.1; cbn; lia || done.
          + destruct b0.1.1; cbn; lia || done.
        - exists y. split; [done|]. split; [by right|]. intros x [[=]| ->].
          destruct y.1.1; cbn; lia || done. }
      split.
      * destruct Hin as [Hin|Hin]; [|by right; right]. rewrite Hb1 in Hin. injection Hin as <-.
        destruct Hfrom as [->| ->]; [by left|by right; left].
      * intros x Hx. destruct Hx as [Hx|[Hx|Hx]]; [| |apply Hmax; by right].
        -- eapply score_ltb_trans; [apply Hmax; left; exact Hb1|apply Hb1max; by left].
        -- eapply score_ltb_trans; [apply Hmax; left; exact Hb1|apply Hb1max; by right].
    + destruct IH as [IH _]. unfold better in IH. by destruct best; [destruct score_ltb|].
Qed.

Lemma placements_In clusters t shared x :
  In x (placements clusters t shared) <->
  exists c n, In c clusters /\ In n (placement_candidate_nodes c t shared) /\
    x = (node_free_ram_score n, c.(px_id), n.(pn_node_name)).
Proof.
  unfold placements. rewrite in_flat_map. split.
  - intros (c & Hc & (n & <- & Hn)%in_map_iff). by exists c, n.
  - intros (c & n & Hc & Hn & ->). exists c. split; [done|]. apply in_map_iff. by exists n.
Qed.

(** The node of a candidate can run the template. *)
Lemma candidate_node c t shared n :
  In n (placement_candidate_nodes c t shared) <->
  In n c.(px_nodes) /\ n.(pn_enabled) = true /\
  (if shared then cluster_has_template c t = true else has_template t n = true).
Proof.
  unfold placement_candidate_nodes, node_has_template.
  destruct shared; cbn [andb orb].
  - destruct (cluster_has_template c t) eqn:E; cbn [negb]; [|split; [done|by intros (_ & _ & ?)]].
    rewrite List.filter_In, andb_true_r. tauto.
  - rewrite List.filter_In. destruct (pn_enabled n); cbn; intuition congruence.
Qed.

(** C36. Auto-placement is optimal: the node it names is enabled, can run the
    template, belongs to the requested cluster or to an enabled one, and no
    other node that qualifies has more free memory by its latest snapshot
    (nodes without a usable one count as having none); it fails exactly when no
    node qualifies. *)
Theorem auto_placement_is_optimal (clusters : list proxmox_cluster) (t : string)
    (cluster_id : option Z) (shared : bool) (s : session) :
  let candidate (c : proxmox_cluster) (n : proxmox_node) :=
    match cluster_id with
    | Some k => tbl_get k clusters = Some c
    | None => In c clusters /\ c.(px_enabled) = true
    end /\ In n c.(px_nodes) /\ n.(pn_enabled) = true /\
    (if shared then cluster_has_template c t = true else has_template t n = true) in
  match auto_place_vm clusters t cluster_id shared s with
  | (Ok (k, name), s') =>
      s' = s /\ exists c n, candidate c n /\ c.(px_id) = k /\ n.(pn_node_name) = name /\
        forall c' n', candidate c' n' ->
          score_ltb (node_free_ram_score n) (node_free_ram_score n') = false
  | (Raise e, s') => s' = s /\ (exists m, e = ValueError m) /\ forall c n, ~ candidate c n
  end.
Proof.
  intros candidate. unfold auto_place_vm.
  assert (exists l, (forall c n, candidate c n <->
      In c l /\ In n (placement_candidate_nodes c t shared)) /\
    (candidate_clusters clusters cluster_id s = (Ok l, s) \/
     l = [] /\ exists m, candidate_clusters clusters cluster_id s = (Raise (ValueError m), s)))
    as (l & Hl & Hrun).
  { unfold candidate, candidate_clusters. destruct cluster_id as [k|].
    - unfold unwrap, bind. destruct (tbl_get k clusters) as [c|].
      + exists [c]. split; [|by left]. intros c' n. rewrite candidate_node. cbn. intuition congruence.
      + exists []. split; [intros c' n; split; [by intros [[=] _]|by intros [[] _]]|].
        right. split; [done|]. by eexists.
    - exists (List.filter px_enabled clusters). split.
      + intros c n. rewrite candidate_node, List.filter_In. tauto.
      + destruct (List.filter px_enabled clusters); [right; split; [done|by eexists]|by left]. }
  destruct Hrun as [Hrun|[-> [m Hrun]]]; unfold bind; rewrite Hrun.
  - pose proof (better_spec (placements l t shared) None) as Hb.
    destruct (fold_left better _ None) as [b|].
    + unfold ret. split; [done|]. destruct Hb as [[[=]|Hin] Hmax].
      apply placements_In in Hin as (c & n & Hc & Hn & ->). exists c, n.
      split; [by apply Hl|]. split; [done|]. split; [done|]. intros c' n' [Hc' Hn']%Hl.
      apply (Hmax (node_free_ram_score n', px_id c', pn_node_name n')). right.
      apply placements_In. by exists c', n'.
    + unfold raise. split; [done|]. split; [by eexists|]. intros c n [Hc Hn]%Hl.
      destruct Hb as [_ Hb]. assert (In (node_free_ram_score n, px_id c, pn_node_name n)
        (placements l t shared)) as Hin by (apply placements_In; by exists c, n).
      by rewrite Hb in Hin.
  - split; [done|]. split; [by exists m|]. by intros c n [[] _]%Hl.
Qed.
