(* ===== verification/Jobs.v ===== *)
(** Virtual machines are deployed by durable jobs: an ordered list of steps, of
    which a worker advances one per pass, under a lease in the database.  This
    file models src/app/services/deployment/runner.py, worker.py, step.py,
    strategy.py, strategies.py and registry.py,
    src/app/dao/vm_deployment_job_dao.py, and the enqueueing of
    src/app/services/vm_strategy_executor.py; Backups.v adds restores and the
    requests that make jobs.

    What a step does to its machine is a parameter: a precheck and an action
    that may read and write the session, wait, fail or raise. *)
From Stdlib Require Import ZArith Lia.
From stdpp Require Import base numbers list strings pretty.
From S2P Require Import Prelude Calendar Models Session Lifecycle Vmid Placement.
#[local] Open Scope Z_scope.
#[local] Open Scope py_scope.

(** * Steps and strategies *)

Inductive step_result : Type := SR_READY | SR_WAIT | SR_SKIP | SR_FAILED.

(** [StepOutcome] *)
Record step_outcome : Type := mk_step_outcome {
  so_result : step_result;
  so_message : option string;
  so_retry_after_seconds : option Z;
  so_detail : option dict
}.
Definition outcome_failed (message : string) : step_outcome :=
  mk_step_outcome SR_FAILED (Some message) None None.

(** The class attributes of a [DeploymentStep]. *)
Record deployment_step : Type := mk_deployment_step {
  dp_name : string;
  dp_timeout_seconds : option Z;
  dp_default_retry_after_seconds : Z
}.

(** [DeploymentStrategy] *)
Record deployment_strategy : Type := mk_deployment_strategy {
  dy_name : string;
  dy_max_attempts : Z;
  dy_mutates_provision_lifecycle : bool;
  dy_steps : list deployment_step
}.
Definition step_names (y : deployment_strategy) : list string := map dp_name y.(dy_steps).

Definition CloneFromTemplateStep := mk_deployment_step "clone_from_template" None 10.
Definition ConfigureSizingStep := mk_deployment_step "configure_sizing" None 10.
Definition ConfigureCloudInitNetworkStep :=
  mk_deployment_step "configure_cloudinit_network" None 10.
Definition PowerOnStep := mk_deployment_step "power_on" None 10.
Definition WaitForGuestAgentStep (timeout_seconds : option Z) :=
  mk_deployment_step "wait_for_guest_agent"
    (match timeout_seconds with Some t => Some t | None => Some 600 end) 10.
Definition ConfigureViaGuestAgentStep :=
  mk_deployment_step "configure_via_guest_agent" (Some 300) 10.
Definition ConfigureMacosGuestStep := mk_deployment_step "configure_macos_guest" (Some 900) 15.
Definition ConfigureWindowsGuestStep := mk_deployment_step "configure_windows_guest" (Some 600) 15.
Definition ApplyGuestPasswordStep := mk_deployment_step "apply_guest_password" (Some 300) 10.
Definition StopGuestForRestoreStep := mk_deployment_step "stop_guest_for_restore" (Some 180) 5.
Definition StartBackupRestoreStep := mk_deployment_step "start_backup_restore" (Some 300) 10.
Definition WaitForBackupRestoreStep := mk_deployment_step "wait_for_backup_restore" (Some 7200) 10.
Definition FinalizeBackupRestoreStep := mk_deployment_step "finalize_backup_restore" (Some 300) 10.
Definition StampVmIdentityStep := mk_deployment_step "stamp_vm_identity" (Some 120) 10.

Definition CloudinitCloneStrategy : deployment_strategy :=
  mk_deployment_strategy "cloudinit_clone" 3 true
    [CloneFromTemplateStep; ConfigureSizingStep; ConfigureCloudInitNetworkStep; PowerOnStep;
     StampVmIdentityStep].
Definition GuestAgentStrategy : deployment_strategy :=
  mk_deployment_strategy "guest_agent" 3 true
    [CloneFromTemplateStep; ConfigureSizingStep; PowerOnStep; WaitForGuestAgentStep None;
     ConfigureViaGuestAgentStep; StampVmIdentityStep].
Definition MacosGuestAgentStrategy : deployment_strategy :=
  mk_deployment_strategy "macos_guest_agent" 3 true
    [CloneFromTemplateStep; ConfigureSizingStep; PowerOnStep; WaitForGuestAgentStep (Some 900);
     ConfigureMacosGuestStep; StampVmIdentityStep].
Definition WindowsGuestAgentStrategy : deployment_strategy :=
  mk_deployment_strategy "windows_guest_agent" 3 true
    [CloneFromTemplateStep; ConfigureSizingStep; PowerOnStep; WaitForGuestAgentStep (Some 900);
     ConfigureWindowsGuestStep; StampVmIdentityStep].
Definition ApplyGuestPasswordStrategy : deployment_strategy :=
  mk_deployment_strategy "apply_guest_password" 3 false
    [PowerOnStep; WaitForGuestAgentStep (Some 900); ApplyGuestPasswordStep].
Definition RestoreBackupStrategy : deployment_strategy :=
  mk_deployment_strategy "restore_backup" 2 false
    [StopGuestForRestoreStep; StartBackupRestoreStep; WaitForBackupRestoreStep;
     FinalizeBackupRestoreStep].

Definition registry_strategies : list deployment_strategy :=
  [CloudinitCloneStrategy; GuestAgentStrategy; MacosGuestAgentStrategy;
   WindowsGuestAgentStrategy; ApplyGuestPasswordStrategy; RestoreBackupStrategy].
Definition resolve_strategy (name : string) : option deployment_strategy :=
  if str_empty name then None
  else List.find (fun y => y.(dy_name) == name) registry_strategies.
Definition strategy_mutates_lifecycle (y : option deployment_strategy) : bool :=
  match y with Some y => y.(dy_mutates_provision_lifecycle) | None => true end.

(** * Rows *)

Definition upd_job (k : Z) (f : deploy_job -> deploy_job) : Meth unit :=
  write (fun d => d <|db_jobs := tbl_update k f d.(db_jobs)|>).
Definition upd_step (k : Z) (f : job_step -> job_step) : Meth unit :=
  write (fun d => d <|db_job_steps := tbl_update k f d.(db_job_steps)|>).
Definition the_job (k : Z) : Meth deploy_job :=
  o <- read (fun d => tbl_get k d.(db_jobs)) ;; unwrap o AttributeError.

Definition is_terminal (s : job_status) : bool :=
  (s == JS_SUCCEEDED) || (s == JS_FAILED) || (s == JS_CANCELLED).

Definition steps_of (job_id : Z) (d : db) : list job_step :=
  List.filter (fun r => r.(jp_job_id) =? job_id) d.(db_job_steps).
(** [.first()] *)
Definition get_step (job_id position : Z) : Meth (option job_step) :=
  read (fun d => hd_error (List.filter (fun r => r.(jp_position) =? position) (steps_of job_id d))).

Fixpoint job_step_rows (job_id first position : Z) (names : list string) : list job_step :=
  match names with
  | [] => []
  | n :: rest =>
      mk_job_step first job_id position n TS_PENDING 0 None None None None
      :: job_step_rows job_id (first + 1) (position + 1) rest
  end.
Definition create_job (service_id : Z) (strategy_name : string) (names : list string)
    (max_attempts : Z) : Meth Z :=
  now <- utcnow ;;
  k <- read (fun d => tbl_fresh d.(db_jobs)) ;;
  write (fun d => d <|db_jobs := d.(db_jobs) ++
    [mk_deploy_job k service_id strategy_name JS_QUEUED 0 0 max_attempts None None None None None
       None now]|>) ;;;
  flush ;;;
  write (fun d => d <|db_job_steps := d.(db_job_steps) ++
    job_step_rows k (tbl_fresh d.(db_job_steps)) 0 names|>) ;;;
  commit ;;;
  ret k.

(** [ORDER BY created_at DESC, id DESC], first. *)
Definition later_job (a b : deploy_job) : deploy_job :=
  if (a.(dj_created_at) <? b.(dj_created_at))
     || ((a.(dj_created_at) =? b.(dj_created_at)) && (a.(dj_id) <? b.(dj_id)))
  then b else a.
Definition active_jobs (service_id : Z) (d : db) : list deploy_job :=
  List.filter (fun j => (j.(dj_service_id) =? service_id) && negb (is_terminal j.(dj_status)))
    d.(db_jobs).
Definition get_active_for_service (service_id : Z) : Meth (option deploy_job) :=
  read (fun d => match active_jobs service_id d with
                 | [] => None
                 | j :: rest => Some (fold_left later_job rest j)
                 end).

(** * Claiming *)

Definition claimable (now cutoff : Z) (j : deploy_job) : bool :=
  ((j.(dj_status) == JS_QUEUED) || (j.(dj_status) == JS_WAITING) || (j.(dj_status) == JS_RUNNING))
  && match j.(dj_next_run_at) with None => true | Some t => t <=? now end
  && match j.(dj_locked_at) with None => true | Some t => t <? cutoff end.
Definition job_leb (a b : deploy_job) : bool :=
  (a.(dj_created_at) <? b.(dj_created_at))
  || ((a.(dj_created_at) =? b.(dj_created_at)) && (a.(dj_id) <=? b.(dj_id))).
Definition claim_candidates (now cutoff : Z) (batch : nat) (d : db) : list deploy_job :=
  take batch (sort_by job_leb (List.filter (claimable now cutoff) d.(db_jobs))).

(** The guard of the [UPDATE]. *)
Definition still_free (cutoff : Z) (j : deploy_job) : bool :=
  match j.(dj_locked_at) with None => true | Some t => t <? cutoff end
  && negb (is_terminal j.(dj_status)).
Definition claimed (worker_id : string) (now : Z) (is_reclaim : bool) (j : deploy_job) : deploy_job :=
  j <|dj_locked_by := Some worker_id|> <|dj_locked_at := Some now|> <|dj_status := JS_RUNNING|>
    <|dj_attempt := if is_reclaim then j.(dj_attempt) + 1 else j.(dj_attempt)|>.
Fixpoint claim_first (worker_id : string) (now cutoff : Z) (candidates : list deploy_job)
  : Meth (option Z) :=
  match candidates with
  | [] => ret None
  | c :: rest =>
      let is_reclaim := (c.(dj_status) == JS_RUNNING)
                        && match c.(dj_locked_at) with Some _ => true | None => false end in
      row <- read (fun d => tbl_get c.(dj_id) d.(db_jobs)) ;;
      let updated := match row with Some j => still_free cutoff j | None => false end in
      (if updated then upd_job c.(dj_id) (claimed worker_id now is_reclaim) else ret tt) ;;;
      commit ;;;
      if updated then
        j <- read (fun d => tbl_get c.(dj_id) d.(db_jobs)) ;;
        match j ≫= dj_started_at with
        | None => upd_job c.(dj_id) (fun j => j <|dj_started_at := Some now|>) ;;; commit
        | Some _ => ret tt
        end ;;;
        ret (Some c.(dj_id))
      else claim_first worker_id now cutoff rest
  end.
Definition claim_next_runnable (worker_id : string) (lease_ttl_seconds : Z) (batch : nat)
  : Meth (option Z) :=
  now <- utcnow ;;
  let cutoff := now - seconds lease_ttl_seconds in
  candidates <- read (claim_candidates now cutoff batch) ;;
  claim_first worker_id now cutoff candidates.

(** * The runner *)

Record deploy_env : Type := mk_deploy_env {
  de_precheck : deployment_step -> Z -> Meth step_outcome;  (* of a step and a job *)
  de_execute : deployment_step -> Z -> Meth unit;
  de_power_state : Z -> Meth power_state;  (* ctx.get_plugin().get_power_state() *)
  de_str_exc : exn -> string;
  de_isoformat : Z -> string
}.

(** [except Exception]: everything but cancellation and interpreter exits. *)
Definition is_exception (e : exn) : bool :=
  match e with
  | OtherError n =>
      negb ((n == "CancelledError") || (n == "KeyboardInterrupt") || (n == "SystemExit"))
  | _ => true
  end.
Definition is_timeout (e : exn) : bool :=
  match e with OtherError n => n == "TimeoutError" | _ => false end.

Definition DEFAULT_STEP_CALL_TIMEOUT_SECONDS : Z := 1800.
Definition JOB_RETRY_BUDGET : Z := seconds (24 * 3600).
Definition JOB_STEP_RETRY_BACKOFF_BASE_SECONDS : Z := 30.
Definition JOB_STEP_RETRY_BACKOFF_MAX_SECONDS : Z := 300.

(** ** The mirrors on the service *)

Definition jopt_time (env : deploy_env) (o : option Z) : json :=
  match o with Some t => JStr (env.(de_isoformat) t) | None => JNull end.
(** [if error:] *)
Definition with_error (error : option string) (summary : dict) : dict :=
  if str_true error then dict_set "error" (jopt_str error) summary else summary.
Definition provision_summary (env : deploy_env) (j : deploy_job) (step_name : option string)
    (status : string) (error : option string) : dict :=
  with_error error
    [("job_id", JInt j.(dj_id)); ("status", JStr status); ("step", jopt_str step_name);
     ("strategy", JStr j.(dj_strategy_name)); ("started_at", jopt_time env j.(dj_started_at));
     ("finished_at", jopt_time env j.(dj_finished_at))].
Definition write_provision_summary (env : deploy_env) (job_id : Z) (step_name : option string)
    (status : string) (error : option string) : Meth unit :=
  j <- the_job job_id ;;
  sv <- the_service j.(dj_service_id) ;;
  upd_service sv.(sv_id) (fun s => s <|sv_config :=
    dict_set "vm_provision" (JObj (provision_summary env j step_name status error)) s.(sv_config)|>).

(** [dict(x or {})] of a JSON value. *)
Definition dict_of (o : option json) : Meth dict :=
  match o with
  | Some (JObj kv) => ret kv
  | None | Some JNull | Some (JList []) => ret []
  | Some (JBool b) => if b then raise (OtherError "TypeError") else ret []
  | Some (JInt n) => if n =? 0 then ret [] else raise (OtherError "TypeError")
  | Some (JStr t) => if str_empty t then ret [] else raise (ValueError "dictionary update sequence")
  | Some (JList _) => raise (OtherError "TypeError")
  end.
Definition password_apply_status (status : string) (error : option string) (summary : dict) : dict :=
  if str_true error then dict_set "error" (jopt_str error) summary
  else if existsb (fun s => status == s) ["applied"; "success"; "pending"; "waiting"; "running"] then
    let summary := dict_del "error" summary in
    if (status == "applied") || (status == "success")
    then dict_set "status" (JStr "applied") summary else summary
  else summary.
Definition write_guest_password_apply (env : deploy_env) (job_id : Z) (status : string)
    (step_name error : option string) : Meth unit :=
  now <- utcnow ;;
  j <- the_job job_id ;;
  sv <- the_service j.(dj_service_id) ;;
  summary <- dict_of (dict_get "guest_password_apply" sv.(sv_config)) ;;
  let summary := dict_merge summary
    [("job_id", JInt job_id); ("status", JStr status); ("step", jopt_str step_name);
     ("updated_at", JStr (env.(de_isoformat) now))] in
  upd_service sv.(sv_id) (fun s => s <|sv_config :=
    dict_set "guest_password_apply" (JObj (password_apply_status status error summary))
      s.(sv_config)|>).

(** [if service.vm: service.vm.guest_state = ...; service.vm.guest_last_error = ...] *)
Definition set_guest (state : guest_state) (error : option string) (s : service) : service :=
  match s.(sv_vm) with
  | Some v => s <|sv_vm := Some (v <|vx_guest_state := state|> <|vx_guest_last_error := error|>)|>
  | None => s
  end.
Definition mark_guest (job_id : Z) (state : guest_state) (error : option string) : Meth unit :=
  j <- the_job job_id ;;
  sv <- the_service j.(dj_service_id) ;;
  upd_service sv.(sv_id) (set_guest state error).

Definition mirror_in_flight (env : deploy_env) (job_id : Z) (step_name status : string)
    (y : option deployment_strategy) : Meth unit :=
  if negb (strategy_mutates_lifecycle y)
  then write_guest_password_apply env job_id status (Some step_name) None
  else
    j <- the_job job_id ;;
    sv <- the_service j.(dj_service_id) ;;
    match sv.(sv_vm) with
    | Some v => if v.(vx_guest_state) != GS_PROVISIONING
                then upd_service sv.(sv_id) (set_guest GS_PROVISIONING None) else ret tt
    | None => ret tt
    end ;;;
    write_provision_summary env job_id (Some step_name) status None.

(** ** Ending and retrying *)

Definition failed_job (now : Z) (message : string) (j : deploy_job) : deploy_job :=
  j <|dj_status := JS_FAILED|> <|dj_error_message := Some message|> <|dj_finished_at := Some now|>
    <|dj_locked_by := None|> <|dj_locked_at := None|> <|dj_next_run_at := None|>.
Definition fail_job (env : deploy_env) (job_id : Z) (message : string)
    (y : option deployment_strategy) : Meth unit :=
  now <- utcnow ;;
  upd_job job_id (failed_job now message) ;;;
  j <- the_job job_id ;;
  the_service j.(dj_service_id) ;;;
  let y := match y with Some _ => y | None => resolve_strategy j.(dj_strategy_name) end in
  (if strategy_mutates_lifecycle y then
     mark_guest job_id GS_ERROR (Some message) ;;;
     write_provision_summary env job_id None "failed" (Some message)
   else write_guest_password_apply env job_id "failed" None (Some message)) ;;;
  commit.

Definition or_detail (detail : option dict) (r : job_step) : job_step :=
  match detail with Some _ => r <|jp_detail := detail|> | None => r end.
Definition failed_step (now : Z) (message : string) (detail : option dict) (r : job_step) : job_step :=
  or_detail detail
    (r <|jp_status := TS_FAILED|> <|jp_finished_at := Some now|> <|jp_message := Some message|>).
Definition fail_step_and_job (env : deploy_env) (job_id step_id : Z) (message : string)
    (detail : option dict) (y : option deployment_strategy) : Meth unit :=
  now <- utcnow ;;
  upd_step step_id (failed_step now message detail) ;;;
  fail_job env job_id message y.

(** [min(300, 30 * 2 ** min(n, 4))] *)
Definition retry_backoff_seconds (attempt_count : Z) : Z :=
  let n := Z.max 0 (attempt_count - 1) in
  Z.min JOB_STEP_RETRY_BACKOFF_MAX_SECONDS
    (JOB_STEP_RETRY_BACKOFF_BASE_SECONDS * 2 ^ Z.min n 4).
Definition job_retry_deadline (j : deploy_job) : Z :=
  default j.(dj_created_at) j.(dj_started_at) + JOB_RETRY_BUDGET.

Definition waiting_step (message : string) (detail : option dict) (r : job_step) : job_step :=
  or_detail detail
    (r <|jp_status := TS_WAITING|> <|jp_message := Some message|> <|jp_finished_at := None|>
       <|jp_started_at := None|>).
Definition retried_job (message : string) (at_ : Z) (j : deploy_job) : deploy_job :=
  j <|dj_status := JS_WAITING|> <|dj_error_message := Some message|> <|dj_finished_at := None|>
    <|dj_next_run_at := Some at_|> <|dj_locked_by := None|> <|dj_locked_at := None|>.
Definition retry_step_or_fail (env : deploy_env) (job_id : Z) (r : job_step) (message : string)
    (detail : option dict) (y : option deployment_strategy) : Meth unit :=
  now <- utcnow ;;
  j <- the_job job_id ;;
  let y := match y with Some _ => y | None => resolve_strategy j.(dj_strategy_name) end in
  if job_retry_deadline j <=? now then
    fail_step_and_job env job_id r.(jp_id) (message +:+ " (gave up after 24h of retries)") detail y
  else
    let backoff := retry_backoff_seconds r.(jp_attempt_count) in
    upd_step r.(jp_id) (waiting_step message detail) ;;;
    upd_job job_id (retried_job message (now + seconds backoff)) ;;;
    the_service j.(dj_service_id) ;;;
    (if strategy_mutates_lifecycle y then
       mark_guest job_id GS_PROVISIONING (Some message) ;;;
       write_provision_summary env job_id (Some r.(jp_name)) "waiting" (Some message)
     else write_guest_password_apply env job_id "waiting" (Some r.(jp_name)) (Some message)) ;;;
    commit.

Definition succeeded_job (now : Z) (j : deploy_job) : deploy_job :=
  j <|dj_status := JS_SUCCEEDED|> <|dj_finished_at := Some now|> <|dj_error_message := None|>
    <|dj_locked_by := None|> <|dj_locked_at := None|> <|dj_next_run_at := None|>.
Definition complete_job (env : deploy_env) (job_id : Z) (y : option deployment_strategy) : Meth unit :=
  now <- utcnow ;;
  upd_job job_id (succeeded_job now) ;;;
  j <- the_job job_id ;;
  sv <- the_service j.(dj_service_id) ;;
  (if strategy_mutates_lifecycle y then
     match sv.(sv_vm) with
     | Some _ =>
         state <- try_catch (p <- env.(de_power_state) job_id ;; ret (Some p))
                    (fun e => if is_exception e then ret None else raise e) ;;
         mark_guest job_id (if state == Some PW_OFF then GS_STOPPED else GS_RUNNING) None
     | None => ret tt
     end ;;;
     upd_service sv.(sv_id) (fun s => s <|sv_status := SS_ACTIVE|>) ;;;
     write_provision_summary env job_id None "success" None
   else write_guest_password_apply env job_id "applied" None None) ;;;
  commit.

Definition released_job (j : deploy_job) : deploy_job :=
  j <|dj_status := JS_RUNNING|> <|dj_next_run_at := None|> <|dj_locked_by := None|>
    <|dj_locked_at := None|>.
Definition advance (env : deploy_env) (job_id : Z) (y : deployment_strategy) : Meth unit :=
  upd_job job_id (fun j => j <|dj_current_step_index := j.(dj_current_step_index) + 1|>) ;;;
  j <- the_job job_id ;;
  match nth_error y.(dy_steps) (Z.to_nat j.(dj_current_step_index)) with
  | None => complete_job env job_id (Some y)
  | Some next =>
      upd_job job_id released_job ;;;
      mirror_in_flight env job_id next.(dp_name) "running" (Some y) ;;;
      commit
  end.

(** ** One transition *)

Definition call_timeout (p : deployment_step) : Z :=
  let t := match p.(dp_timeout_seconds) with
           | Some t => if t =? 0 then DEFAULT_STEP_CALL_TIMEOUT_SECONDS else t
           | None => DEFAULT_STEP_CALL_TIMEOUT_SECONDS
           end in
  if t <? 1 then DEFAULT_STEP_CALL_TIMEOUT_SECONDS else t.

Definition await_step_precheck (env : deploy_env) (p : deployment_step) (job_id : Z)
  : Meth step_outcome :=
  try_catch (env.(de_precheck) p job_id)
    (fun e =>
       if is_timeout e then
         ret (outcome_failed ("Step '" +:+ p.(dp_name) +:+ "' precheck timed out after "
                +:+ pretty (call_timeout p) +:+ "s"))
       else match e with
            | DeploymentError _ => ret (outcome_failed (env.(de_str_exc) e))
            | _ => if is_exception e
                   then ret (outcome_failed ("precheck error: " +:+ env.(de_str_exc) e))
                   else raise e
            end).

(** [outcome.retry_after_seconds or default], at least one second. *)
Definition retry_after (p : deployment_step) (o : step_outcome) : Z :=
  Z.max 1 (match o.(so_retry_after_seconds) with
           | Some n => if n =? 0 then p.(dp_default_retry_after_seconds) else n
           | None => p.(dp_default_retry_after_seconds)
           end).
Definition waiting_job (at_ : Z) (j : deploy_job) : deploy_job :=
  j <|dj_status := JS_WAITING|> <|dj_next_run_at := Some at_|> <|dj_locked_by := None|>
    <|dj_locked_at := None|>.

(** Answers whether the pass is over. *)
Definition handle_precheck_outcome (env : deploy_env) (job_id : Z) (r : job_step)
    (p : deployment_step) (o : step_outcome) (now : Z) (y : deployment_strategy) : Meth bool :=
  match o.(so_result) with
  | SR_WAIT =>
      upd_step r.(jp_id) (fun r => or_detail o.(so_detail)
        (r <|jp_status := TS_WAITING|> <|jp_message := o.(so_message)|>)) ;;;
      upd_job job_id (waiting_job (now + seconds (retry_after p o))) ;;;
      mirror_in_flight env job_id p.(dp_name) "waiting" (Some y) ;;;
      commit ;;; ret true
  | SR_SKIP =>
      upd_step r.(jp_id) (fun r => or_detail o.(so_detail)
        (r <|jp_status := TS_SKIPPED|> <|jp_finished_at := Some now|>
           <|jp_message := o.(so_message)|>)) ;;;
      advance env job_id y ;;; ret true
  | SR_FAILED =>
      retry_step_or_fail env job_id r
        (str_or o.(so_message) ("Step '" +:+ p.(dp_name) +:+ "' failed")) o.(so_detail) (Some y) ;;;
      ret true
  | SR_READY => ret false
  end.

Definition execute_error (env : deploy_env) (p : deployment_step) (e : exn) : option string :=
  if is_timeout e then
    Some ("Step '" +:+ p.(dp_name) +:+ "' execute timed out after " +:+ pretty (call_timeout p) +:+ "s")
  else match e with
       | DeploymentError _ => Some (env.(de_str_exc) e)
       | _ => if is_exception e then Some ("execute error: " +:+ env.(de_str_exc) e) else None
       end.
Definition execute_step_and_advance (env : deploy_env) (job_id : Z) (r : job_step)
    (p : deployment_step) (y : deployment_strategy) : Meth unit :=
  upd_step r.(jp_id) (fun r => r <|jp_status := TS_RUNNING|>) ;;;
  commit ;;;
  failure <- try_catch (env.(de_execute) p job_id ;;; ret None)
    (fun e => match execute_error env p e with Some m => ret (Some m) | None => raise e end) ;;
  match failure with
  | Some m => retry_step_or_fail env job_id r m None (Some y)
  | None =>
      now <- utcnow ;;
      upd_step r.(jp_id) (fun r => r <|jp_status := TS_SUCCEEDED|> <|jp_finished_at := Some now|>
        <|jp_message := None|>) ;;;
      upd_job job_id (fun j => j <|dj_error_message := None|>) ;;;
      advance env job_id y
  end.

Definition step_timed_out (p : deployment_step) (r : job_step) (now : Z) : bool :=
  match p.(dp_timeout_seconds), r.(jp_started_at) with
  | Some t, Some started => negb (t =? 0) && (seconds t <? now - started)
  | _, _ => false
  end.

Definition or_int (n default : Z) : Z := if n =? 0 then default else n.
Definition touched (now : Z) (r : job_step) : job_step :=
  r <|jp_started_at := Some (default now r.(jp_started_at))|>
    <|jp_attempt_count := r.(jp_attempt_count) + 1|>.

(** One transition of a claimed job. *)
Definition run_job_tick (env : deploy_env) (job_id : Z) : Meth unit :=
  j <- the_job job_id ;;
  match resolve_strategy j.(dj_strategy_name) with
  | None =>
      fail_job env job_id ("Unknown deployment strategy '" +:+ j.(dj_strategy_name) +:+ "'") None
  | Some y =>
      if or_int j.(dj_max_attempts) 3 <? j.(dj_attempt) then
        fail_job env job_id ("Exceeded max reclaim attempts (" +:+ pretty j.(dj_max_attempts) +:+ ")")
          (Some y)
      else
        let idx := j.(dj_current_step_index) in
        match nth_error y.(dy_steps) (Z.to_nat idx) with
        | None => complete_job env job_id (Some y)
        | Some p =>
            row <- get_step job_id idx ;;
            match row with
            | None =>
                fail_job env job_id ("Missing step row at position " +:+ pretty idx) (Some y)
            | Some r =>
                now <- utcnow ;;
                if step_timed_out p r now then
                  retry_step_or_fail env job_id r
                    ("Step '" +:+ p.(dp_name) +:+ "' timed out after "
                     +:+ pretty (default 0 p.(dp_timeout_seconds)) +:+ "s") None (Some y)
                else
                  upd_step r.(jp_id) (touched now) ;;;
                  let r := touched now r in
                  outcome <- await_step_precheck env p job_id ;;
                  done_ <- handle_precheck_outcome env job_id r p outcome now y ;;
                  if (done_ : bool) then ret tt
                  else
                    (if str_true outcome.(so_message)
                     then upd_step r.(jp_id) (fun r => r <|jp_message := outcome.(so_message)|>)
                     else ret tt) ;;;
                    execute_step_and_advance env job_id r p y
            end
        end
  end.

(** * The worker *)

Definition MAX_TRANSITIONS_PER_CYCLE : nat := 100.
(** [SessionLocal()] ... [finally: db.close()]: what was not committed is lost. *)
Definition with_session {A} (m : Meth A) : Meth A :=
  try_catch (a <- m ;; rollback ;;; ret a) (fun e => rollback ;;; raise e).
(** Claim one job and advance it; answers whether there was one. *)
Definition worker_pass (env : deploy_env) (worker_id : string) (lease_ttl_seconds : Z) : Meth bool :=
  with_session (
    o <- claim_next_runnable worker_id lease_ttl_seconds 10 ;;
    match o with
    | None => ret false
    | Some k =>
        try_catch (run_job_tick env k)
          (fun e => if is_exception e then rollback else raise e) ;;;
        ret true
    end).
Fixpoint drain (env : deploy_env) (worker_id : string) (lease_ttl_seconds : Z) (n : nat) : Meth Z :=
  match n with
  | O => ret 0
  | S n' =>
      more <- worker_pass env worker_id lease_ttl_seconds ;;
      if (more : bool) then
        count <- drain env worker_id lease_ttl_seconds n' ;; ret (1 + count)
      else ret 0
  end.
Definition drain_once (env : deploy_env) (worker_id : string) (lease_ttl_seconds : Z) : Meth Z :=
  drain env worker_id lease_ttl_seconds MAX_TRANSITIONS_PER_CYCLE.

(** * Enqueueing *)

(** The columns of [VMTemplate] read here. *)
Record vm_template : Type := mk_vm_template {
  vt_id : Z;
  vt_os_type : string;
  vt_proxmox_template_name : string;
  vt_shared_storage : bool
}.
#[export] Instance keyed_vm_template : Keyed vm_template := vt_id.
(** The catalogue and the inventory, which enqueueing only reads. *)
Record deploy_catalog : Type := mk_deploy_catalog {
  dc_templates : list vm_template;
  dc_clusters : list proxmox_cluster
}.

(** [INSTALL_TYPE_STRATEGIES], the strategy of each type. *)
Definition INSTALL_TYPE_STRATEGIES : list (string * string) :=
  [("Linux - Cloudinit", "cloudinit_clone"); ("Linux - Guest agent", "guest_agent");
   ("macOS - Guest agent", "macos_guest_agent"); ("Windows - Guest agent", "windows_guest_agent")].
Definition resolve_vm_template_strategy (os_type : string) : Meth string :=
  match List.find (fun x => x.1 == os_type) INSTALL_TYPE_STRATEGIES with
  | Some x => ret x.2
  | None =>
      raise (ValueError ("Unsupported VM provisioning strategy (os_type) '" +:+ os_type
               +:+ "'. Allowed: Linux - Cloudinit, Linux - Guest agent, Windows - Guest agent, macOS - Guest agent."))
  end.

(** [x.get(key)] of what should be a dict. *)
Definition json_get (key : string) (x : json) : Meth (option json) :=
  match x with JObj kv => ret (dict_get key kv) | _ => raise AttributeError end.
(** [x or {}] *)
Definition or_empty (o : option json) : json :=
  match o with
  | None | Some JNull | Some (JBool false) | Some (JList []) => JObj []
  | Some (JInt n) => if n =? 0 then JObj [] else JInt n
  | Some (JStr t) => if str_empty t then JObj [] else JStr t
  | Some x => x
  end.
(** [str(name) if name else None]; a list or an object prints as something no
    strategy is called. *)
Definition strategy_str (o : option json) : option string :=
  match o with
  | Some (JStr t) => if str_empty t then None else Some t
  | Some (JInt n) => if n =? 0 then None else Some (pretty n)
  | Some (JBool true) => Some "True"
  | Some (JList (_ :: _)) => Some "[...]"
  | Some (JObj (_ :: _)) => Some "{...}"
  | _ => None
  end.
Definition template_id_of (s : service) : option Z :=
  match s.(sv_vm) with
  | Some v => match v.(vx_vm_template_id) with
              | Some k => if k =? 0 then None else Some k
              | None => None
              end
  | None => None
  end.

Definition resolve_vm_strategy_name_for_service (cat : deploy_catalog) (s : service) : Meth string :=
  name <- json_get "strategy_name" (or_empty (dict_get "vm_plan" s.(sv_config))) ;;
  match strategy_str name with
  | Some n => ret n
  | None =>
      match template_id_of s ≫= (fun k => tbl_get k cat.(dc_templates)) with
      | Some t => resolve_vm_template_strategy t.(vt_os_type)
      | None => ret "stub"
      end
  end.

Definition upd_vm (service_id : Z) (f : vm_ext -> vm_ext) : Meth unit :=
  upd_service service_id (fun s => match s.(sv_vm) with
                                   | Some v => s <|sv_vm := Some (f v)|>
                                   | None => s
                                   end).

(** The node of the placement, found when none is given. *)
Definition place_vm (cat : deploy_catalog) (service_id : Z) (v : vm_ext) (t : vm_template)
  : Meth (option Z) :=
  if str_empty (str_strip (str_or v.(vx_proxmox_node_name) "")) then
    place <- auto_place_vm cat.(dc_clusters) t.(vt_proxmox_template_name)
               v.(vx_proxmox_cluster_id) t.(vt_shared_storage) ;;
    upd_vm service_id (fun v => v <|vx_proxmox_cluster_id := Some place.1|>
      <|vx_proxmox_node_name := Some place.2|>) ;;;
    ret (Some place.1)
  else ret v.(vx_proxmox_cluster_id).
Definition prepare_vm_placement_for_provisioning (cat : deploy_catalog) (service_id : Z) : Meth unit :=
  s <- the_service service_id ;;
  template_id <- unwrap (template_id_of s) (ValueError "VM service has no vm_template_id") ;;
  v <- unwrap s.(sv_vm) (ValueError "VM service has no vm_template_id") ;;
  t <- unwrap (tbl_get template_id cat.(dc_templates))
         (ValueError "VM template catalog row not found") ;;
  placed <- place_vm cat service_id v t ;;
  cluster_id <- unwrap placed
    (ValueError "Auto-provisioning requires a Proxmox cluster; none could be resolved") ;;
  vmid <- reserve_vmid_for_service (map vmid_cluster cat.(dc_clusters)) cluster_id service_id
            v.(vx_proxmox_vmid) None false ;;
  upd_vm service_id (fun v => v <|vx_proxmox_vmid := Some vmid|>) ;;;
  commit.

Definition mark_vm_provision_queued (isoformat : Z -> string) (service_id : Z) : Meth unit :=
  now <- utcnow ;;
  s <- the_service service_id ;;
  prev <- dict_of (dict_get "vm_provision" s.(sv_config)) ;;
  upd_service service_id (fun s => set_guest GS_PROVISIONING None
    (s <|sv_config := dict_set "vm_provision" (JObj (dict_merge prev
         [("status", JStr "queued"); ("queued_at", JStr (isoformat now))])) s.(sv_config)|>)) ;;;
  commit.

Definition enqueue_vm_deployment_job (cat : deploy_catalog) (isoformat : Z -> string)
    (service_id : Z) : Meth Z :=
  s <- the_service service_id ;;
  throw_if (s.(sv_service_type) != ST_VM) (ValueError "Not a VM service") ;;;
  throw_if (s.(sv_status) == SS_TERMINATED) (ValueError "Cannot provision a terminated service") ;;;
  throw_if (match template_id_of s with None => true | Some _ => false end)
    (ValueError "VM service has no vm_template_id") ;;;
  strategy_name <- resolve_vm_strategy_name_for_service cat s ;;
  throw_if (strategy_name == "stub")
    (ValueError "Service has no provisioning strategy (stub). Ensure vm_plan exists or template os_type maps to a strategy.") ;;;
  y <- unwrap (resolve_strategy strategy_name)
         (ValueError ("No deployment strategy registered for '" +:+ strategy_name +:+ "'")) ;;
  existing <- get_active_for_service service_id ;;
  match existing with
  | Some j => ret j.(dj_id)
  | None =>
      k <- create_job service_id strategy_name (step_names y) y.(dy_max_attempts) ;;
      mark_vm_provision_queued isoformat service_id ;;;
      ret k
  end.

Definition provision_vm_service_async (cat : deploy_catalog) (isoformat : Z -> string)
    (service_id : Z) : Meth Z :=
  o <- read (fun d => tbl_get service_id d.(db_services)) ;;
  s <- unwrap o (ValueError "Service not found") ;;
  throw_if (s.(sv_service_type) != ST_VM) (ValueError "Not a VM service") ;;;
  throw_if (s.(sv_status) == SS_TERMINATED) (ValueError "Cannot provision a terminated service") ;;;
  prepare_vm_placement_for_provisioning cat service_id ;;;
  enqueue_vm_deployment_job cat isoformat service_id.

Definition schedule_vm_auto_provision (cat : deploy_catalog) (isoformat : Z -> string)
    (service_id : Z) : Meth Z :=
  prepare_vm_placement_for_provisioning cat service_id ;;;
  enqueue_vm_deployment_job cat isoformat service_id.

Definition enqueue_apply_guest_password_job (service_id : Z) : Meth (option Z) :=
  s <- the_service service_id ;;
  throw_if (s.(sv_service_type) != ST_VM) (ValueError "Not a VM service") ;;;
  existing <- get_active_for_service service_id ;;
  match existing with
  | Some j => ret (if j.(dj_strategy_name) == "apply_guest_password" then Some j.(dj_id) else None)
  | None =>
      let y := ApplyGuestPasswordStrategy in
      k <- create_job service_id y.(dy_name) (step_names y) y.(dy_max_attempts) ;;
      ret (Some k)
  end.

(** Grouping a sequence. *)
Lemma wp_assoc {A B C} (m : Meth A) (k : A -> Meth B) (h : B -> Meth C) Q R s :
  wp (bind (bind m k) h) Q R s -> wp (bind m (fun a => bind (k a) h)) Q R s.
Proof. unfold wp, bind. by destruct (m s) as [[a|e] s']. Qed.

(** * What jobs are, apart from everything else *)

Definition jobs_are (now : Z) (J : list deploy_job) (T : list job_step) (C : db -> Prop)
    (s : session) : Prop :=
  s.(s_now) = now /\ s.(s_db).(db_jobs) = J /\ s.(s_db).(db_job_steps) = T /\ C s.(s_committed).
Definition rows_are (J : list deploy_job) (T : list job_step) (d : db) : Prop :=
  d.(db_jobs) = J /\ d.(db_job_steps) = T.

(** An action of a step, or another method, that may commit but writes neither
    jobs nor their steps, and takes no time. *)
Definition leaves_jobs {A} (m : Meth A) : Prop :=
  forall now J T (C : db -> Prop), (forall d, rows_are J T d -> C d) ->
  keeps (jobs_are now J T C) m.

Lemma keeps_jobs_write now J T C f :
  (forall d, (f d).(db_jobs) = d.(db_jobs)) ->
  (forall d, (f d).(db_job_steps) = d.(db_job_steps)) ->
  keeps (jobs_are now J T C) (write f).
Proof.
  intros H1 H2 s (Hn & HJ & HT & HC). apply wp_write. unfold jobs_are. cbn.
  by rewrite H1, H2.
Qed.
#[export] Hint Extern 1 (keeps (jobs_are _ _ _ _) (write _)) =>
  apply keeps_jobs_write; reflexivity : dcim.
#[export] Hint Extern 1 (keeps (jobs_are _ _ _ _) (upd_service _ _)) =>
  apply keeps_jobs_write; reflexivity : dcim.
#[export] Hint Extern 1 (keeps (jobs_are _ _ _ _) (upd_vm _ _)) =>
  apply keeps_jobs_write; reflexivity : dcim.
#[export] Hint Extern 1 (keeps _ (the_job _)) => apply keeps_the : dcim.

Lemma leaves_jobs_commit : leaves_jobs commit.
Proof.
  intros now J T C HC s (Hn & HJ & HT & Hc). unfold commit. wp_step.
  apply wp_flush; [|done]. intros _ _. apply wp_modify. split; [done|]. split; [done|].
  split; [done|]. by apply HC.
Qed.
Lemma leaves_jobs_keeps {A} (m : Meth A) now J T (C : db -> Prop) :
  leaves_jobs m -> (forall d, rows_are J T d -> C d) -> keeps (jobs_are now J T C) m.
Proof. auto. Qed.

(** The summaries are written next to the job. *)
Lemma provision_summary_jobs env k st status e now J T C :
  keeps (jobs_are now J T C) (write_provision_summary env k st status e).
Proof. unfold write_provision_summary. keeps_tac. Qed.
Lemma dict_of_keeps o (I : session -> Prop) : keeps I (dict_of o).
Proof.
  unfold dict_of. destruct o as [[| | | |[]|]|]; keeps_tac.
Qed.
#[export] Hint Resolve provision_summary_jobs dict_of_keeps : dcim.
Lemma password_apply_jobs env k status st e now J T C :
  keeps (jobs_are now J T C) (write_guest_password_apply env k status st e).
Proof. unfold write_guest_password_apply. keeps_tac. Qed.
Lemma mark_guest_jobs k st e now J T C : keeps (jobs_are now J T C) (mark_guest k st e).
Proof. unfold mark_guest. keeps_tac. Qed.
#[export] Hint Resolve password_apply_jobs mark_guest_jobs : dcim.
Lemma mirror_jobs env k n status y now J T C :
  keeps (jobs_are now J T C) (mirror_in_flight env k n status y).
Proof. unfold mirror_in_flight. keeps_tac. Qed.
#[export] Hint Resolve mirror_jobs : dcim.

(** * One pass of the worker over a job *)

Section Rows.
Context (now : Z) (J : list deploy_job) (T : list job_step) (j : deploy_job) (r : job_step).
Hypothesis Hj : tbl_get j.(dj_id) J = Some j.

(** The job and its step have become [j1] and [r1]. *)
Definition at_ (C : db -> Prop) (j1 : deploy_job) (r1 : job_step) : session -> Prop :=
  jobs_are now (tbl_update j.(dj_id) (fun _ => j1) J) (tbl_update r.(jp_id) (fun _ => r1) T) C.

Lemma wp_upd_job C j1 r1 g (Q : unit -> session -> Prop) R s :
  at_ C j1 r1 s -> j1.(dj_id) = j.(dj_id) ->
  (forall s', at_ C (g j1) r1 s' -> Q tt s') -> wp (upd_job j.(dj_id) g) Q R s.
Proof.
  intros (H1 & H2 & H3 & H4) Hid HQ. apply wp_write, HQ. unfold at_, jobs_are. cbn.
  rewrite H2, H3, tbl_update_again by exact Hid. done.
Qed.
Lemma wp_upd_step C j1 r1 g (Q : unit -> session -> Prop) R s :
  at_ C j1 r1 s -> r1.(jp_id) = r.(jp_id) ->
  (forall s', at_ C j1 (g r1) s' -> Q tt s') -> wp (upd_step r.(jp_id) g) Q R s.
Proof.
  intros (H1 & H2 & H3 & H4) Hid HQ. apply wp_write, HQ. unfold at_, jobs_are. cbn.
  rewrite H2, H3, tbl_update_again by exact Hid. done.
Qed.
Lemma wp_the_job C j1 r1 (Q : deploy_job -> session -> Prop) R s :
  at_ C j1 r1 s -> j1.(dj_id) = j.(dj_id) -> Q j1 s -> wp (the_job j.(dj_id)) Q R s.
Proof.
  intros (_ & H2 & _) Hid HQ. unfold the_job. wp_step. apply wp_read. rewrite H2.
  rewrite (tbl_get_replaced J _ j) by done. exact HQ.
Qed.
Lemma wp_commit_at C j1 r1 (Q : unit -> session -> Prop) (R : exn -> session -> Prop) s :
  at_ C j1 r1 s ->
  (forall s', at_ (rows_are (tbl_update j.(dj_id) (fun _ => j1) J)
                     (tbl_update r.(jp_id) (fun _ => r1) T)) j1 r1 s' -> Q tt s') ->
  (forall e s', at_ C j1 r1 s' -> R e s') -> wp commit Q R s.
Proof.
  intros Hs HQ HR. unfold commit. wp_step. apply wp_flush; [|by intros e _; apply HR].
  intros _ _. apply wp_modify, HQ. destruct Hs as (H1 & H2 & H3 & H4).
  by unfold at_, jobs_are, rows_are.
Qed.
End Rows.

(** What a pass needs of the actions of the steps; [W] are the steps that may
    ask to wait. *)
Class WellBehaved (env : deploy_env) (W : deployment_step -> Prop) : Prop := {
  wb_precheck : forall p k, leaves_jobs (env.(de_precheck) p k);
  wb_execute : forall p k, leaves_jobs (env.(de_execute) p k);
  wb_power_state : forall k, leaves_jobs (env.(de_power_state) k);
  wb_waits : forall p k s, wp (env.(de_precheck) p k)
    (fun o _ => o.(so_result) = SR_WAIT -> W p) (fun _ _ => True) s
}.

Definition same_step (r r' : job_step) : Prop :=
  r'.(jp_id) = r.(jp_id) /\ r'.(jp_job_id) = r.(jp_job_id) /\
  r'.(jp_position) = r.(jp_position) /\ r'.(jp_name) = r.(jp_name).
Definition finished (r : job_step) : bool :=
  (r.(jp_status) == TS_SUCCEEDED) || (r.(jp_status) == TS_SKIPPED).

(** The one transition of a pass: of the job [j] at its step [p] with row [r]. *)
Inductive stepped (W : deployment_step -> Prop) (now : Z) (y : deployment_strategy)
    (p : deployment_step) (j : deploy_job) (r : job_step) (j' : deploy_job) (r' : job_step)
  : Prop :=
| stepped_wait t :
    W p -> 1 <= t -> step_timed_out p r now = false ->
    j' = waiting_job (now + seconds t) j -> r'.(jp_status) = TS_WAITING ->
    r'.(jp_started_at) = Some (default now r.(jp_started_at)) ->
    stepped W now y p j r j' r'
| stepped_next error :
    finished r' = true ->
    nth_error y.(dy_steps) (Z.to_nat (j.(dj_current_step_index) + 1)) <> None ->
    j' = released_job (j <|dj_current_step_index := j.(dj_current_step_index) + 1|>
                         <|dj_error_message := error|>) ->
    stepped W now y p j r j' r'
| stepped_done :
    finished r' = true ->
    nth_error y.(dy_steps) (Z.to_nat (j.(dj_current_step_index) + 1)) = None ->
    j' = succeeded_job now (j <|dj_current_step_index := j.(dj_current_step_index) + 1|>) ->
    stepped W now y p j r j' r'
| stepped_retry message b :
    now < job_retry_deadline j -> 30 <= b <= 300 ->
    j' = retried_job message (now + seconds b) j -> r'.(jp_status) = TS_WAITING ->
    r'.(jp_started_at) = None ->
    stepped W now y p j r j' r'
| stepped_fail message :
    job_retry_deadline j <= now -> j' = failed_job now message j ->
    r'.(jp_status) = TS_FAILED ->
    stepped W now y p j r j' r'
| stepped_poison message :
    or_int j.(dj_max_attempts) 3 < j.(dj_attempt) -> j' = failed_job now message j -> r' = r ->
    stepped W now y p j r j' r'.

(** What the database can hold of the jobs when a pass was cut short: nothing
    new, a step marked as begun, or the whole transition. *)
Inductive pass_effect (W : deployment_step -> Prop) (now : Z) (y : deployment_strategy)
    (p : deployment_step) (j : deploy_job) (r : job_step) (J : list deploy_job)
    (T : list job_step) (d : db) : Prop :=
| effect_none : rows_are J T d -> pass_effect W now y p j r J T d
| effect_begun r' :
    same_step r r' -> r'.(jp_status) = r.(jp_status) \/ r'.(jp_status) = TS_RUNNING ->
    r'.(jp_started_at) = Some (default now r.(jp_started_at)) ->
    step_timed_out p r now = false ->
    rows_are J (tbl_update r.(jp_id) (fun _ => r') T) d ->
    pass_effect W now y p j r J T d
| effect_whole j' r' :
    stepped W now y p j r j' r' -> same_step r r' ->
    rows_are (tbl_update j.(dj_id) (fun _ => j') J) (tbl_update r.(jp_id) (fun _ => r') T) d ->
    pass_effect W now y p j r J T d.

Lemma retry_backoff_bounds n : 30 <= retry_backoff_seconds n <= 300.
Proof.
  unfold retry_backoff_seconds, JOB_STEP_RETRY_BACKOFF_MAX_SECONDS,
    JOB_STEP_RETRY_BACKOFF_BASE_SECONDS.
  assert (1 <= 2 ^ Z.min (Z.max 0 (n - 1)) 4); [|lia].
  rewrite <- (Z.pow_0_r 2). apply Z.pow_le_mono_r; lia.
Qed.

Lemma job_same_error (j : deploy_job) : j <|dj_error_message := j.(dj_error_message)|> = j.
Proof. by destruct j. Qed.

Section Pass.
Context (W : deployment_step -> Prop) (env : deploy_env) `{!WellBehaved env W}.
Context (now : Z) (y : deployment_strategy) (p : deployment_step).
Context (J : list deploy_job) (T : list job_step) (j : deploy_job) (r : job_step).
Hypothesis HJ : tbl_get j.(dj_id) J = Some j.
Hypothesis HwfJ : tbl_wf J.
Hypothesis HwfT : tbl_wf T.
Hypothesis Hr : tbl_get r.(jp_id) T = Some r.
Hypothesis Hy : resolve_strategy j.(dj_strategy_name) = Some y.

Let E : db -> Prop := pass_effect W now y p j r J T.
Let at_E := at_ now J T j r E.
Let Qend (s' : session) : Prop := exists j' r', stepped W now y p j r j' r' /\ same_step r r' /\
  at_ now J T j r (rows_are (tbl_update j.(dj_id) (fun _ => j') J)
                     (tbl_update r.(jp_id) (fun _ => r') T)) j' r' s'.
Let Rend (e : exn) (s' : session) : Prop := s'.(s_now) = now /\ E s'.(s_committed).

Lemma at_raise j1 r1 e s : at_E j1 r1 s -> Rend e s.
Proof. by intros (H1 & _ & _ & H4). Qed.

(** Writing a mirror and committing ends the pass. *)
Lemma wp_finish (m : Meth unit) j1 r1 s :
  (forall J T C, keeps (jobs_are now J T C) m) ->
  stepped W now y p j r j1 r1 -> same_step r r1 -> at_E j1 r1 s ->
  wp (m ;;; commit) (fun _ => Qend) Rend s.
Proof.
  intros Hm Hst Hsame Hs. wp_step. eapply wp_keeps; [apply Hm|exact Hs| |by intros e s'; apply at_raise].
  intros [] s' Hs'. eapply wp_commit_at; [exact Hs'| |by intros e s2; apply at_raise].
  intros s2 Hs2. by exists j1, r1.
Qed.

Lemma wp_service_at k j1 r1 (Q : service -> session -> Prop) s :
  at_E j1 r1 s -> (forall sv, tbl_get k s.(s_db).(db_services) = Some sv -> Q sv s) ->
  wp (the_service k) Q Rend s.
Proof.
  intros Hs HQ. unfold the_service. apply wp_the; [by intros _; eapply at_raise|]. auto.
Qed.

Lemma wp_fail_job message j1 r1 s :
  j1.(dj_id) = j.(dj_id) -> stepped W now y p j r (failed_job now message j1) r1 ->
  same_step r r1 -> at_E j1 r1 s ->
  wp (fail_job env j.(dj_id) message (Some y)) (fun _ => Qend) Rend s.
Proof.
  intros Hid Hst Hsame Hs. unfold fail_job. wp_step. apply wp_gets. rewrite (proj1 Hs).
  wp_step. eapply wp_upd_job; [exact Hs|exact Hid|]. intros s1 Hs1.
  wp_step. eapply wp_the_job; [exact HJ|exact Hs1|exact Hid|]. wp_step.
  eapply wp_service_at; [exact Hs1|]. intros sv _.
  eapply wp_finish; [|exact Hst|exact Hsame|exact Hs1]. intros. keeps_tac.
Qed.

Lemma wp_retry rr message detail r1 s :
  rr.(jp_id) = r.(jp_id) -> same_step r r1 -> at_E j r1 s ->
  wp (retry_step_or_fail env j.(dj_id) rr message detail (Some y)) (fun _ => Qend) Rend s.
Proof.
  intros Hrr Hsame Hs. unfold retry_step_or_fail. wp_step. apply wp_gets. rewrite (proj1 Hs).
  wp_step. eapply wp_the_job; [exact HJ|exact Hs|done|]. rewrite Hrr.
  assert (forall g, (forall x, same_step x (g x)) -> same_step r (or_detail detail (g r1))) as Hg.
  { intros g Hg. destruct Hsame as (H1 & H2 & H3 & H4), (Hg r1) as (G1 & G2 & G3 & G4).
    by destruct detail; repeat split; cbn; congruence. }
  destruct (Z.leb_spec (job_retry_deadline j) now) as [Hlate|Hin].
  - unfold fail_step_and_job. wp_step. apply wp_gets. rewrite (proj1 Hs). wp_step.
    eapply wp_upd_step; [exact Hs|by destruct Hsame as [-> _]|]. intros s1 Hs1.
    eapply wp_fail_job; [done| | |exact Hs1].
    + eapply stepped_fail; [exact Hlate|reflexivity|]. by destruct detail.
    + by apply (Hg (fun r => r <|jp_status := _|> <|jp_finished_at := _|> <|jp_message := _|>)).
  - wp_step. eapply wp_upd_step; [exact Hs|by destruct Hsame as [-> _]|]. intros s1 Hs1.
    wp_step. eapply wp_upd_job; [exact Hs1|done|]. intros s2 Hs2. wp_step.
    eapply wp_service_at; [exact Hs2|]. intros sv _.
    eapply wp_finish; [| | |exact Hs2].
    + intros. keeps_tac.
    + eapply stepped_retry; [exact Hin|apply retry_backoff_bounds|reflexivity|by destruct detail..].
    + by apply (Hg (fun r => r <|jp_status := _|> <|jp_message := _|> <|jp_finished_at := _|>
        <|jp_started_at := _|>)).
Qed.

Lemma wp_complete error r1 s :
  let j1 := j <|dj_current_step_index := j.(dj_current_step_index) + 1|>
              <|dj_error_message := error|> in
  finished r1 = true -> nth_error y.(dy_steps) (Z.to_nat (j.(dj_current_step_index) + 1)) = None ->
  same_step r r1 -> at_E j1 r1 s ->
  wp (complete_job env j.(dj_id) (Some y)) (fun _ => Qend) Rend s.
Proof.
  intros j1 Hfin Hlast Hsame Hs. unfold complete_job. wp_step. apply wp_gets. rewrite (proj1 Hs).
  wp_step. eapply wp_upd_job; [exact Hs|done|]. intros s1 Hs1.
  assert (stepped W now y p j r (succeeded_job now j1) r1) as Hst by by eapply stepped_done.
  wp_step. eapply wp_the_job; [exact HJ|exact Hs1|done|]. wp_step.
  eapply wp_service_at; [exact Hs1|]. intros sv _. wp_step.
  assert (forall d, rows_are (tbl_update j.(dj_id) (fun _ => succeeded_job now j1) J)
            (tbl_update r.(jp_id) (fun _ => r1) T) d -> E d) as Hclosed.
  { intros d Hd. by eapply effect_whole. }
  pose proof (fun k => leaves_jobs_keeps _ now _ _ _ (wb_power_state k) Hclosed) as Hpow.
  eapply wp_keeps; [|exact Hs1| |by intros e s2; apply at_raise].
  - unfold at_. keeps_tac.
  - intros [] s2 Hs2. eapply wp_commit_at; [exact Hs2| |by intros e s3; apply at_raise].
    intros s3 Hs3. by exists (succeeded_job now j1), r1.
Qed.

Lemma wp_advance error r1 s :
  finished r1 = true -> same_step r r1 -> at_E (j <|dj_error_message := error|>) r1 s ->
  wp (advance env j.(dj_id) y) (fun _ => Qend) Rend s.
Proof.
  intros Hfin Hsame Hs. unfold advance. wp_step. eapply wp_upd_job; [exact Hs|done|].
  intros s1 Hs1. wp_step. eapply wp_the_job; [exact HJ|exact Hs1|done|].
  cbn [dj_current_step_index update]. destruct (nth_error _ _) as [next|] eqn:Hn.
  - wp_step. eapply wp_upd_job; [exact Hs1|done|]. intros s2 Hs2.
    eapply wp_finish; [| | |exact Hs2]; [intros; keeps_tac| |exact Hsame].
    eapply (stepped_next _ _ _ _ _ _ _ _ error); [done|by rewrite Hn|reflexivity].
  - eapply wp_complete; [exact Hfin|exact Hn|exact Hsame|exact Hs1].
Qed.

Lemma same_step_set r1 g : same_step r r1 -> (forall x, same_step x (g x)) -> same_step r (g r1).
Proof.
  intros (H1 & H2 & H3 & H4) Hg. destruct (Hg r1) as (G1 & G2 & G3 & G4).
  repeat split; congruence.
Qed.

(** A commit that marks the step as begun. *)
Lemma begun_effect r1 s :
  same_step r r1 -> r1.(jp_status) = r.(jp_status) \/ r1.(jp_status) = TS_RUNNING ->
  r1.(jp_started_at) = Some (default now r.(jp_started_at)) -> step_timed_out p r now = false ->
  at_ now J T j r (rows_are (tbl_update j.(dj_id) (fun _ => j) J)
                    (tbl_update r.(jp_id) (fun _ => r1) T)) j r1 s -> at_E j r1 s.
Proof.
  intros Hsame Hst Hstart Ht (H1 & H2 & H3 & H4). split; [done|]. split; [done|]. split; [done|].
  eapply effect_begun; [exact Hsame|exact Hst|exact Hstart|exact Ht|].
  by rewrite (tbl_update_same J) in H4.
Qed.


Lemma wp_execute rr r1 s :
  rr.(jp_id) = r.(jp_id) -> same_step r r1 ->
  r1.(jp_started_at) = Some (default now r.(jp_started_at)) -> step_timed_out p r now = false ->
  at_E j r1 s ->
  wp (execute_step_and_advance env j.(dj_id) rr p y) (fun _ => Qend) Rend s.
Proof.
  intros Hrr Hsame Hstart Ht Hs. unfold execute_step_and_advance. rewrite Hrr. wp_step.
  eapply wp_upd_step; [exact Hs|by destruct Hsame|]. intros s1 Hs1.
  set (r2 := r1 <|jp_status := TS_RUNNING|>) in *.
  assert (same_step r r2) as Hsame2 by by apply (same_step_set r1 (fun r => r <|jp_status := _|>)).
  wp_step. eapply wp_commit_at; [exact Hs1| |by intros e s2; apply at_raise].
  intros s2 Hs2. apply begun_effect in Hs2; [|done|by right|done|done].
  assert (forall d, rows_are (tbl_update j.(dj_id) (fun _ => j) J)
            (tbl_update r.(jp_id) (fun _ => r2) T) d -> E d) as Hclosed.
  { intros d Hd. rewrite (tbl_update_same J) in Hd by done.
    eapply effect_begun; [exact Hsame2|by right|done|done|exact Hd]. }
  wp_step. eapply wp_keeps; [|exact Hs2| |by intros e s3; apply at_raise].
  - unfold at_. pose proof (leaves_jobs_keeps _ now _ _ _ (wb_execute p j.(dj_id)) Hclosed).
    keeps_tac.
  - intros [m|] s3 Hs3; [by eapply wp_retry; [exact Hrr|exact Hsame2|exact Hs3]|].
    wp_step. apply wp_gets. wp_step. eapply wp_upd_step; [exact Hs3|by destruct Hsame2|].
    intros s4 Hs4. wp_step. eapply wp_upd_job; [exact Hs4|done|]. intros s5 Hs5.
    eapply wp_advance; [| |exact Hs5]; [by rewrite (proj1 Hs3)|].
    by apply (same_step_set r2 (fun r => r <|jp_status := _|> <|jp_finished_at := _|>
                <|jp_message := _|>)).
Qed.

(** A precheck that waits is one that may. *)
Lemma wp_precheck r1 s :
  at_E j r1 s -> same_step r r1 -> r1.(jp_status) = r.(jp_status) ->
  r1.(jp_started_at) = Some (default now r.(jp_started_at)) -> step_timed_out p r now = false ->
  wp (await_step_precheck env p j.(dj_id))
    (fun o s' => at_E j r1 s' /\ (o.(so_result) = SR_WAIT -> W p)) Rend s.
Proof.
  intros Hs Hsame Hst Hstart Ht. unfold await_step_precheck. apply wp_try_catch.
  assert (forall d, rows_are (tbl_update j.(dj_id) (fun _ => j) J)
            (tbl_update r.(jp_id) (fun _ => r1) T) d -> E d) as Hclosed.
  { intros d Hd. rewrite (tbl_update_same J) in Hd by done.
    eapply effect_begun; [exact Hsame|by left|done|done|exact Hd]. }
  pose proof (leaves_jobs_keeps _ now _ _ _ (wb_precheck p j.(dj_id)) Hclosed s Hs) as Hk.
  pose proof (wb_waits p j.(dj_id) s) as Hw. revert Hk Hw. unfold wp.
  destruct (de_precheck env p j.(dj_id) s) as [[o|e] s']; [done|]. intros Hk _.
  destruct (is_timeout e); [by split|].
  destruct e; try (by split); cbv beta iota;
    match goal with |- context [is_exception ?e] => destruct (is_exception e) end;
    try (by split); by eapply at_raise.
Qed.

Lemma wp_handle r1 rr o s :
  rr.(jp_id) = r.(jp_id) -> same_step r r1 ->
  r1.(jp_started_at) = Some (default now r.(jp_started_at)) -> step_timed_out p r now = false ->
  (o.(so_result) = SR_WAIT -> W p) -> at_E j r1 s ->
  wp (handle_precheck_outcome env j.(dj_id) rr p o now y)
    (fun b s' => if b : bool then Qend s' else at_E j r1 s') Rend s.
Proof.
  intros Hrr Hsame Hstart Ht Hwait Hs. unfold handle_precheck_outcome. rewrite Hrr.
  destruct o.(so_result) eqn:Ho; [done| | |].
  - wp_step. eapply wp_upd_step; [exact Hs|by destruct Hsame|]. intros s1 Hs1.
    wp_step. eapply wp_upd_job; [exact Hs1|done|]. intros s2 Hs2.
    apply wp_assoc. wp_step. eapply wp_conseq; [eapply wp_finish; [| | |exact Hs2]| |done].
    + intros. keeps_tac.
    + eapply stepped_wait; [by apply Hwait| |exact Ht|reflexivity|by destruct o.(so_detail)|].
      * unfold retry_after. lia.
      * by destruct o.(so_detail).
    + apply (same_step_set r1 (fun r => or_detail o.(so_detail)
        (r <|jp_status := TS_WAITING|> <|jp_message := o.(so_message)|>))); [done|].
      by intros x; destruct o.(so_detail).
    + by intros [] s3.
  - wp_step. eapply wp_upd_step; [exact Hs|by destruct Hsame|]. intros s1 Hs1.
    wp_step. eapply (wp_advance j.(dj_error_message)); [| |by rewrite job_same_error].
    + by destruct o.(so_detail).
    + apply (same_step_set r1 (fun r => or_detail o.(so_detail)
        (r <|jp_status := TS_SKIPPED|> <|jp_finished_at := Some now|>
           <|jp_message := o.(so_message)|>))); [done|].
      by intros x; destruct o.(so_detail).
  - wp_step. eapply wp_retry; [done|exact Hsame|exact Hs].
Qed.

Hypothesis Hidx : nth_error y.(dy_steps) (Z.to_nat j.(dj_current_step_index)) = Some p.
Hypothesis Hrow :
  hd_error (List.filter (fun r => r.(jp_position) =? j.(dj_current_step_index))
    (List.filter (fun r => r.(jp_job_id) =? j.(dj_id)) T)) = Some r.

Lemma at_start s :
  jobs_are now J T E s -> at_E j r s.
Proof.
  intros (H1 & H2 & H3 & H4). unfold at_E, at_, jobs_are.
  by rewrite !tbl_update_same.
Qed.

(** One transition: of the step at the index of the job. *)
Lemma wp_run_job_tick s :
  jobs_are now J T E s -> wp (run_job_tick env j.(dj_id)) (fun _ => Qend) Rend s.
Proof.
  intros Hs0. pose proof (at_start s Hs0) as Hs. unfold run_job_tick. wp_step.
  eapply wp_the_job; [exact HJ|exact Hs|done|]. rewrite Hy, Hidx.
  destruct (Z.ltb_spec (or_int j.(dj_max_attempts) 3) j.(dj_attempt)) as [Hpoison|_].
  { eapply wp_fail_job; [done|by eapply stepped_poison|done|exact Hs]. }
  wp_step. apply wp_read. unfold steps_of. rewrite (proj1 (proj2 (proj2 Hs0))), Hrow.
  wp_step. apply wp_gets. rewrite (proj1 Hs0).
  destruct (step_timed_out p r now) eqn:Ht; [by eapply wp_retry; [done| |exact Hs]|].
  wp_step. eapply wp_upd_step; [exact Hs|done|]. intros s1 Hs1. wp_step.
  eapply wp_conseq; [apply wp_precheck; [exact Hs1|done..]| |by auto].
  intros o s2 [Hs2 Hwait]. wp_step.
  eapply wp_conseq; [apply (wp_handle (touched now r)); [done..|exact Hwait|exact Hs2]| |by auto].
  intros [|] s3 Hs3; [done|]. wp_step.
  apply (wp_conseq _ (fun _ s4 => exists r4, same_step r r4 /\
    r4.(jp_started_at) = Some (default now r.(jp_started_at)) /\ at_E j r4 s4) _ (fun _ _ => False));
    [|intros _ s4 (r4 & Hsame & Hstart & Hs4); by eapply wp_execute|done].
  destruct (str_true _); [|by exists (touched now r)].
  eapply wp_upd_step; [exact Hs3|done|]. intros s4 Hs4. by exists (touched now r <|jp_message := o.(so_message)|>).
Qed.
End Pass.
