(* ===== verification/Backups.v ===== *)
(** Backups are restored by durable jobs too: the settings of a service's backup
    storages and the enqueueing of a restore (src/app/services/vm_backup_service.py),
    and with it the requests that make jobs and the workers that run them. *)
From Stdlib Require Import ZArith Lia Ascii.
From stdpp Require Import base numbers list strings pretty.
From S2P Require Import Prelude Calendar Models Session Lifecycle Vmid Placement Permissions Deploy Jobs.
#[local] Open Scope Z_scope.
#[local] Open Scope py_scope.

(** * Settings *)

Definition DEFAULT_MAX_CLIENT_BACKUPS : Z := 3.
Record backup_settings : Type := mk_backup_settings {
  bk_platform_storage : string;
  bk_client_storage : string;
  bk_max_client_backups : Z
}.
Definition BackupConfigError : exn := OtherError "BackupConfigError".
Definition BackupForbiddenError : exn := OtherError "BackupForbiddenError".

(** [products] are the products of the catalogue, with their configuration. *)
Definition specs_for_service (products : list product) (s : service) : dict :=
  match dict_get "effective_specs" s.(sv_product_snapshot) with
  | Some (JObj ((_ :: _) as specs)) => specs
  | _ =>
      let code := default "" s.(sv_product_code) in
      if str_empty code then []
      else match List.find (fun p => p.(pd_code) == code) products with
           | None => []
           | Some p => resolve_effective_config p
           end
  end.
(** [(x or "").strip()] *)
Definition spec_text (o : option json) : Meth string :=
  match default JNull o with
  | JStr t => ret (str_strip t)
  | v => if json_true v then raise AttributeError else ret ""
  end.
(** [int(x)] *)
Definition spec_int (v : json) : Meth Z :=
  match v with
  | JInt n => ret n
  | JBool b => ret (if b : bool then 1 else 0)
  | JStr t => unwrap (py_int t) BackupConfigError
  | _ => raise BackupConfigError
  end.
Definition resolve_backup_settings (products : list product) (s : service) : Meth backup_settings :=
  let specs := specs_for_service products s in
  platform <- spec_text (dict_get "platform_backup_storage" specs) ;;
  client <- spec_text (dict_get "client_backup_storage" specs) ;;
  throw_if (str_empty platform || str_empty client) BackupConfigError ;;;
  max_client <- spec_int (default (JInt DEFAULT_MAX_CLIENT_BACKUPS) (dict_get "max_client_backups" specs)) ;;
  throw_if (max_client <? 0) BackupConfigError ;;;
  ret (mk_backup_settings platform client max_client).

(** [":" in s] and [s.split(":", 1)[0]] *)
Fixpoint has_colon (s : string) : bool :=
  match s with
  | EmptyString => false
  | String c s' => Ascii.eqb c ":"%char || has_colon s'
  end.
Fixpoint before_colon (s : string) : string :=
  match s with
  | EmptyString => EmptyString
  | String c s' => if Ascii.eqb c ":"%char then EmptyString else String c (before_colon s')
  end.
Definition normalize_volid (storage volid : string) : Meth string :=
  let vol := str_strip volid in
  throw_if (str_empty vol) (ValueError "volid is required") ;;;
  ret (if has_colon vol then vol else storage +:+ ":" +:+ vol).
(** The kind of a backup, and its full name. *)
Definition resolve_backup_kind (st : backup_settings) (storage volid : string) : Meth (string * string) :=
  let store := str_strip storage in
  vol <- normalize_volid (if str_empty store then st.(bk_client_storage) else store) volid ;;
  let vol_store := if has_colon vol then before_colon vol else store in
  if (vol_store == st.(bk_client_storage)) || (store == st.(bk_client_storage)) then ret ("client", vol)
  else if (vol_store == st.(bk_platform_storage)) || (store == st.(bk_platform_storage))
  then ret ("platform", vol)
  else raise BackupForbiddenError.

(** * Enqueueing a restore *)

Definition RESTORE_BACKUP_STRATEGY : string := "restore_backup".
Definition is_text (o : option json) (t : string) : bool :=
  match o with Some (JStr x) => x == t | _ => false end.
(** The answer when a restore of the same backup is under way. *)
Definition existing_restore_job_response (existing : deploy_job) (s : service) (volid normalized kind : string)
    (start : bool) : Meth (option dict) :=
  if existing.(dj_strategy_name) != RESTORE_BACKUP_STRATEGY then ret None
  else
    prev <- dict_of (dict_get "vm_restore" s.(sv_config)) ;;
    let named := dict_get "volid" prev in
    if negb (is_text named volid || is_text named normalized)
       && negb (is_text (dict_get "normalized_volid" prev) normalized)
    then ret None
    else ret (Some
      [("status", JStr "queued"); ("job_id", JInt existing.(dj_id)); ("volid", JStr normalized);
       ("kind", JStr kind); ("start", JBool (json_true (default (JBool start) (dict_get "start" prev))));
       ("async", JBool true)]).
Definition build_vm_restore_config (st : backup_settings) (normalized : string) (storage : option string)
    (kind : string) (start : bool) (vm_template_id job_id : option Z) : dict :=
  let restore :=
    [("volid", JStr normalized);
     ("storage", JStr (str_or storage (if kind == "client" then st.(bk_client_storage)
                                       else st.(bk_platform_storage))));
     ("kind", JStr kind); ("start", JBool start);
     ("vm_template_id", match vm_template_id with Some n => JInt n | None => JNull end);
     ("status", JStr "queued"); ("metadata_stale", JBool false)] in
  match job_id with Some k => dict_set "job_id" (JInt k) restore | None => restore end.
(** [service.config = {**config, "vm_restore": ...}] *)
Definition set_restore (restore : dict) (s : service) : service :=
  s <|sv_config := dict_set "vm_restore" (JObj restore) s.(sv_config)|>.

Definition enqueue_restore_backup_job (products : list product) (service_id : Z) (volid : string)
    (storage : option string) (start : bool) (vm_template_id : option Z) : Meth dict :=
  s <- the_service service_id ;;
  throw_if (s.(sv_service_type) != ST_VM) BackupConfigError ;;;
  settings <- resolve_backup_settings products s ;;
  found <- resolve_backup_kind settings (default "" storage) volid ;;
  let '(kind, normalized) := found in
  existing <- get_active_for_service service_id ;;
  match existing with
  | Some j =>
      queued <- existing_restore_job_response j s volid normalized kind start ;;
      match queued with
      | Some answer => ret answer
      | None => raise BackupConfigError
      end
  | None =>
      let y := RestoreBackupStrategy in
      let config := build_vm_restore_config settings normalized storage kind start vm_template_id in
      upd_service service_id (fun s => set_guest GS_PROVISIONING None (set_restore (config None) s)) ;;;
      commit ;;;
      k <- create_job service_id y.(dy_name) (step_names y) y.(dy_max_attempts) ;;
      upd_service service_id (set_restore (config (Some k))) ;;;
      commit ;;;
      ret [("status", JStr "queued"); ("job_id", JInt k); ("volid", JStr normalized); ("kind", JStr kind);
           ("vmid", JNull); ("start", JBool start); ("async", JBool true); ("waited", JBool false)]
  end.

(** * The system *)

(** What happens to jobs: a deployment, a change of password or a restore is
    enqueued, or a worker runs until no job is due.  Each is served in a session
    of its own, at a time, and to its end before the next begins. *)
Inductive job_request : Type :=
| JqProvision (service_id : Z)
| JqPassword (service_id : Z)
| JqRestore (products : list product) (service_id : Z) (volid : string) (storage : option string)
    (start : bool) (vm_template_id : option Z)
| JqWorker (env : deploy_env) (worker_id : string) (lease_ttl_seconds : Z).
Definition run_job_request (cat : deploy_catalog) (isoformat : Z -> string) (r : job_request)
  : Meth unit :=
  match r with
  | JqProvision k => provision_vm_service_async cat isoformat k ;;; ret tt
  | JqPassword k => enqueue_apply_guest_password_job k ;;; ret tt
  | JqRestore products k volid storage start template =>
      enqueue_restore_backup_job products k volid storage start template ;;; ret tt
  | JqWorker env w ttl => drain_once env w ttl ;;; ret tt
  end.
Definition serve_jobs (cat : deploy_catalog) (isoformat : Z -> string)
    (rs : list (Z * job_request)) : Meth unit :=
  for_each rs (fun r =>
    modify (fun s => s <|s_now := r.1|>) ;;;
    try_catch (run_job_request cat isoformat r.2) (fun _ => ret tt) ;;;
    rollback).
