(* ===== verification/Pipeline.v ===== *)
(** What the durable jobs of Jobs.v promise: each is a pipeline of steps that
    finish one after the other.  The pipeline as an abstract machine, the
    invariant that lets a row of jobs and its rows of steps be read as one,
    and the theorems: while requests and the runs of workers are served one
    after the other, the machine is refined by what they do, and a service has
    one active job.  What overlapping requests and workers do instead is in
    [looking_is_not_holding] here and in the last section of Deadline.v. *)
From Stdlib Require Import ZArith Lia.
From stdpp Require Import base numbers list strings pretty relations.
From S2P Require Import Prelude Calendar Models Session Lifecycle Vmid Placement Deploy Jobs Backups.
#[local] Open Scope Z_scope.
#[local] Open Scope py_scope.

(** * The machine *)

(** The steps finished, the steps left, and how it ended. *)
Record pipeline : Type := mk_pipeline {
  pl_done : list string;
  pl_todo : list string;
  pl_end : option bool
}.
Definition pipe_start (names : list string) : pipeline := mk_pipeline [] names None.
Inductive pipe_step : pipeline -> pipeline -> Prop :=
| pipe_next done n m rest :
    pipe_step (mk_pipeline done (n :: m :: rest) None)
      (mk_pipeline (done ++ [n]) (m :: rest) None)
| pipe_last done n :
    pipe_step (mk_pipeline done [n] None) (mk_pipeline (done ++ [n]) [] (Some true))
| pipe_fail done todo :
    pipe_step (mk_pipeline done todo None) (mk_pipeline done todo (Some false)).

(** * Jobs as pipelines *)

Definition rows_of (T : list job_step) (j : deploy_job) : list job_step :=
  List.filter (fun r => r.(jp_job_id) =? j.(dj_id)) T.
Definition end_of (s : job_status) : option bool :=
  match s with
  | JS_SUCCEEDED => Some true
  | JS_FAILED | JS_CANCELLED => Some false
  | _ => None
  end.
Definition pipe_of (T : list job_step) (j : deploy_job) : pipeline :=
  mk_pipeline (map jp_name (List.filter finished (rows_of T j)))
    (map jp_name (List.filter (fun r => negb (finished r)) (rows_of T j)))
    (end_of j.(dj_status)).

Definition not_begun (r : job_step) : Prop :=
  r.(jp_status) = TS_PENDING /\ r.(jp_started_at) = None.

(** The rows of a job: those before its index are finished, the one at the
    index is in progress, the others have not begun. *)
Definition job_ok (T : list job_step) (j : deploy_job) : Prop :=
  exists y before after,
    resolve_strategy j.(dj_strategy_name) = Some y /\
    rows_of T j = before ++ after /\
    map jp_name (before ++ after) = step_names y /\
    map jp_position (before ++ after) = map Z.of_nat (seq 0 (length (before ++ after))) /\
    j.(dj_current_step_index) = Z.of_nat (length before) /\
    Forall (fun r => finished r = true) before /\
    Forall (fun r => finished r = false) after /\
    Forall not_begun (tail after) /\
    (j.(dj_status) = JS_SUCCEEDED <-> after = []).

Definition one_active (J : list deploy_job) : Prop :=
  forall j1 j2, In j1 J -> In j2 J -> j1.(dj_service_id) = j2.(dj_service_id) ->
    is_terminal j1.(dj_status) = false -> is_terminal j2.(dj_status) = false -> j1 = j2.
Definition jobs_ok (J : list deploy_job) (T : list job_step) : Prop :=
  tbl_wf J /\ tbl_wf T /\ (forall r, In r T -> exists j, In j J /\ j.(dj_id) = r.(jp_job_id)) /\
  (forall j, In j J -> job_ok T j) /\ one_active J.

(** Where a job of now was in rows of before: it had not begun when it was not
    there. *)
Definition job_names (j : deploy_job) : list string :=
  match resolve_strategy j.(dj_strategy_name) with Some y => step_names y | None => [] end.
Definition pipe_before (J : list deploy_job) (T : list job_step) (j : deploy_job) : pipeline :=
  match tbl_get j.(dj_id) J with Some j0 => pipe_of T j0 | None => pipe_start (job_names j) end.
Definition same_job (j j' : deploy_job) : Prop :=
  j'.(dj_id) = j.(dj_id) /\ j'.(dj_service_id) = j.(dj_service_id) /\
  j'.(dj_strategy_name) = j.(dj_strategy_name).

(** Rows that came out of others: every job went on as its pipeline. *)
Definition evolves (J : list deploy_job) (T : list job_step) (J' : list deploy_job)
    (T' : list job_step) : Prop :=
  jobs_ok J' T' /\
  (forall j', In j' J' -> rtc pipe_step (pipe_before J T j') (pipe_of T' j')) /\
  (forall j, In j J -> exists j', tbl_get j.(dj_id) J' = Some j' /\ same_job j j').

(** * Laws *)

Lemma get_job J j : tbl_wf J -> In j J -> tbl_get j.(dj_id) J = Some j.
Proof. apply (tbl_get_wf J j). Qed.
Lemma get_job_id J k j : tbl_get k J = Some j -> j.(dj_id) = k.
Proof. apply (tbl_get_key k J j). Qed.

Lemma evolves_refl J T : jobs_ok J T -> evolves J T J T.
Proof.
  intros Hok. split; [done|]. split.
  - intros j Hj. unfold pipe_before. by rewrite (get_job J j) by (done || apply Hok).
  - intros j Hj. exists j. by rewrite (get_job J j) by (done || apply Hok).
Qed.
Lemma evolves_trans J T J1 T1 J2 T2 :
  evolves J T J1 T1 -> evolves J1 T1 J2 T2 -> evolves J T J2 T2.
Proof.
  intros (Hok1 & Hp1 & Hs1) (Hok2 & Hp2 & Hs2). split; [done|]. split.
  - intros j2 Hj2. specialize (Hp2 j2 Hj2). unfold pipe_before in Hp2 at 1.
    destruct (tbl_get j2.(dj_id) J1) as [j1|] eqn:Hj1.
    + pose proof (get_job_id _ _ _ Hj1) as Hid.
      apply tbl_get_In in Hj1. destruct (Hs2 j1 Hj1) as (x & Hx & Hsame).
      rewrite Hid in Hx. rewrite (get_job J2 j2) in Hx by (done || apply Hok2).
      injection Hx as <-. etrans; [|exact Hp2]. specialize (Hp1 j1 Hj1).
      unfold pipe_before, job_names in *. destruct Hsame as (-> & _ & ->). exact Hp1.
    + unfold pipe_before. destruct (tbl_get j2.(dj_id) J) as [j|] eqn:Hj; [|exact Hp2].
      pose proof (get_job_id _ _ _ Hj) as Hid. apply tbl_get_In in Hj.
      destruct (Hs1 j Hj) as (x & Hx & _). congruence.
  - intros j Hj. destruct (Hs1 j Hj) as (j1 & Hj1 & E1).
    pose proof (tbl_get_In _ _ _ Hj1) as Hin. destruct (Hs2 j1 Hin) as (j2 & Hj2 & E2).
    pose proof (get_job_id _ _ _ Hj1) as Hid. exists j2.
    rewrite Hid in Hj2. split; [done|]. unfold same_job in *. intuition congruence.
Qed.

(** ** A row replaced *)

Lemma rows_of_replaced T j r r' before rest :
  tbl_wf T -> tbl_get r.(jp_id) T = Some r -> same_step r r' ->
  rows_of T j = before ++ r :: rest ->
  rows_of (tbl_update r.(jp_id) (fun _ => r') T) j = before ++ r' :: rest.
Proof.
  intros Hwf Hr (H1 & H2 & _) Hrows. unfold rows_of in *. rewrite filter_update_at.
  - rewrite Hrows. apply (tbl_update_mid before rest r). rewrite <- Hrows.
    by apply tbl_wf_filter.
  - intros x Hx Hid. assert (x = r) as ->; [|by rewrite H2].
    pose proof (tbl_get_wf T x Hwf Hx) as Hg. rewrite Hid in Hg. congruence.
Qed.
Lemma rows_of_other T j r r' :
  tbl_wf T -> tbl_get r.(jp_id) T = Some r -> same_step r r' -> r.(jp_job_id) <> j.(dj_id) ->
  rows_of (tbl_update r.(jp_id) (fun _ => r') T) j = rows_of T j.
Proof.
  intros Hwf Hr (H1 & H2 & _) Hne. unfold rows_of. rewrite filter_update_at.
  - apply tbl_update_absent. intros x [Hx Hxj]%filter_In Hid.
    pose proof (tbl_get_wf T x Hwf Hx) as Hg. rewrite Hid in Hg.
    assert (x = r) as -> by congruence. lia.
  - intros x Hx Hid. pose proof (tbl_get_wf T x Hwf Hx) as Hg. rewrite Hid in Hg.
    assert (x = r) as -> by congruence. by rewrite H2.
Qed.

(** ** The row at the index *)

Lemma position_unique before r rest n :
  map jp_position (before ++ r :: rest) = map Z.of_nat (seq n (length (before ++ r :: rest))) ->
  List.filter (fun x => x.(jp_position) =? Z.of_nat (n + length before)) (before ++ r :: rest)
  = [r].
Proof.
  revert n. induction before as [|b before IH]; intros n; cbn.
  - intros [= Hr Hrest]. rewrite Hr. replace (Z.of_nat (n + 0)) with (Z.of_nat n) by lia.
    rewrite Z.eqb_refl. f_equal. apply filter_nil_iff. intros x Hx.
    apply (in_map jp_position) in Hx. rewrite Hrest in Hx.
    apply in_map_iff in Hx as (m & <- & Hm%in_seq). lia.
  - intros [= Hb Hrest]. rewrite Hb. destruct (Z.eqb_spec (Z.of_nat n) (Z.of_nat (n + S (length before))));
      [lia|]. replace (n + S (length before))%nat with (S n + length before)%nat by lia.
    by apply IH.
Qed.

(** A job not done has a step to take, and its row. *)
Lemma job_ok_row T j :
  job_ok T j -> j.(dj_status) <> JS_SUCCEEDED ->
  exists y p before r rest,
    resolve_strategy j.(dj_strategy_name) = Some y /\
    rows_of T j = before ++ r :: rest /\
    j.(dj_current_step_index) = Z.of_nat (length before) /\
    length (dy_steps y) = length (before ++ r :: rest) /\
    nth_error y.(dy_steps) (Z.to_nat j.(dj_current_step_index)) = Some p /\
    hd_error (List.filter (fun r => r.(jp_position) =? j.(dj_current_step_index)) (rows_of T j))
      = Some r /\
    map jp_name (before ++ r :: rest) = step_names y /\
    map jp_position (before ++ r :: rest) = map Z.of_nat (seq 0 (length (before ++ r :: rest))) /\
    Forall (fun r => finished r = true) before /\
    Forall (fun r => finished r = false) (r :: rest) /\
    Forall not_begun rest.
Proof.
  intros (y & before & after & Hy & Hrows & Hnames & Hpos & Hidx & Hb & Ha & Hpend & Hend) Hns.
  destruct after as [|r rest]; [by destruct Hns; apply Hend|].
  assert (length (dy_steps y) = length (before ++ r :: rest)) as Hlen.
  { rewrite <- (length_map jp_name (before ++ r :: rest)), Hnames. unfold step_names.
    by rewrite length_map. }
  destruct (nth_error y.(dy_steps) (Z.to_nat j.(dj_current_step_index))) as [p|] eqn:Hp.
  - exists y, p, before, r, rest. split; [done|]. split; [done|]. split; [done|]. split; [done|].
    split; [done|]. split; [|done].
    pose proof (position_unique before r rest 0 Hpos) as Hu.
    change (0 + length before)%nat with (length before) in Hu. by rewrite Hrows, Hidx, Hu.
  - apply nth_error_None in Hp. rewrite Hidx, Nat2Z.id, Hlen, length_app in Hp. cbn in Hp. lia.
Qed.

(** ** A job replaced *)

Lemma pipe_of_rows T j before after :
  rows_of T j = before ++ after -> Forall (fun r => finished r = true) before ->
  Forall (fun r => finished r = false) after ->
  pipe_of T j = mk_pipeline (map jp_name before) (map jp_name after) (end_of j.(dj_status)).
Proof.
  intros Hrows Hb Ha. unfold pipe_of. rewrite Hrows, !List.filter_app. clear Hrows.
  assert (List.filter finished before = before /\
          List.filter (fun r => negb (finished r)) before = []) as [-> ->].
  { induction Hb as [|x l Hx _ [IH1 IH2]]; [done|]. cbn. by rewrite Hx, IH1, IH2. }
  assert (List.filter finished after = [] /\
          List.filter (fun r => negb (finished r)) after = after) as [-> ->].
  { induction Ha as [|x l Hx _ [IH1 IH2]]; [done|]. cbn. by rewrite Hx, IH1, IH2. }
  by rewrite app_nil_r.
Qed.

(** Replacing a job that runs and one of its rows. *)
Section Replaced.
Context (J : list deploy_job) (T : list job_step) (j j' : deploy_job) (r r' : job_step)
  (before rest : list job_step).
Hypothesis Hok : jobs_ok J T.
Hypothesis Hj : In j J.
Hypothesis Hrun : is_terminal j.(dj_status) = false.
Hypothesis Hsame : same_job j j'.
Hypothesis Hrows : rows_of T j = before ++ r :: rest.
Hypothesis Hstep : same_step r r'.
Let T' := tbl_update r.(jp_id) (fun _ => r') T.
Let J' := tbl_update j.(dj_id) (fun _ => j') J.

Lemma replaced_row : tbl_get r.(jp_id) T = Some r /\ r.(jp_job_id) = j.(dj_id).
Proof.
  assert (In r (rows_of T j)) as [Hin E]%filter_In by (rewrite Hrows, in_app_iff; right; by left).
  split; [|lia]. apply (tbl_get_wf T r); [apply Hok|done].
Qed.
Lemma replaced_other x : x.(dj_id) <> j.(dj_id) -> rows_of T' x = rows_of T x.
Proof.
  intros Hx. destruct replaced_row as [Hr Hrj]. apply rows_of_other; try done; [apply Hok|].
  congruence.
Qed.
Lemma replaced_in : In j' J'.
Proof. apply in_map_iff. exists j. split; [|done]. change (row_key j) with j.(dj_id). by rewrite Z.eqb_refl. Qed.

Lemma replaced_owner x : In x T' -> exists o, In o J' /\ o.(dj_id) = x.(jp_job_id).
Proof.
  destruct Hok as (_ & _ & Howner & _), replaced_row as [Hr Hrj].
  assert (forall x, In x T -> exists o, In o J' /\ o.(dj_id) = x.(jp_job_id)) as Hold.
  { intros z (o & Ho & <-)%Howner. destruct (decide (o.(dj_id) = j.(dj_id))) as [E|E].
    - exists j'. split; [apply replaced_in|]. rewrite E. apply Hsame.
    - exists o. split; [by apply tbl_In_replaced|done]. }
  intros [->|[Hx _]]%tbl_replaced_In; [|by apply Hold].
  rewrite (proj1 (proj2 Hstep)). apply Hold. by eapply tbl_get_In.
Qed.
Lemma replaced_one_active : one_active J'.
Proof.
  destruct Hok as (_ & _ & _ & _ & Hone), Hsame as (Hid & Hsv & _).
  intros j1 j2 [->|[Hin1 Hne1]]%tbl_replaced_In [->|[Hin2 Hne2]]%tbl_replaced_In; [done| | |by apply Hone].
  - intros E _ Hrun2. rewrite Hsv in E. by rewrite (Hone j j2) in Hne2.
  - intros E Hrun1 _. rewrite Hsv in E. by rewrite (Hone j1 j) in Hne1.
Qed.

Lemma evolves_replaced :
  job_ok T' j' -> rtc pipe_step (pipe_of T j) (pipe_of T' j') -> evolves J T J' T'.
Proof.
  intros Hok' Hpipe. pose proof Hok as (HwfJ & HwfT & _ & Hjobs & _).
  assert (tbl_wf J') as HwfJ' by (by apply tbl_wf_replaced; [apply Hsame|]).
  split; [split; [done|split; [|split; [|split]]]|split].
  - by apply tbl_wf_replaced; [apply Hstep|].
  - apply replaced_owner.
  - intros x [->|[Hin Hne]]%tbl_replaced_In; [done|].
    specialize (Hjobs x Hin). unfold job_ok in *. by rewrite replaced_other.
  - apply replaced_one_active.
  - intros x [->|[Hin Hne]]%tbl_replaced_In.
    + unfold pipe_before. destruct Hsame as (-> & _ & _). by rewrite get_job.
    + unfold pipe_before. rewrite get_job by done. unfold pipe_of. by rewrite replaced_other.
  - intros x Hx. destruct (decide (x.(dj_id) = j.(dj_id))) as [E|E].
    + exists j'. assert (x = j) as ->.
      { pose proof (get_job J x HwfJ Hx) as Hg. rewrite E, get_job in Hg by done. congruence. }
      split; [|done]. by apply (tbl_get_replaced J j.(dj_id) j); [apply get_job|apply Hsame].
    + exists x. split; [|done]. apply (get_job J'); [done|]. by apply tbl_In_replaced.
Qed.
End Replaced.

(** ** The transitions of a job *)

Lemma running_end j : is_terminal j.(dj_status) = false -> end_of j.(dj_status) = None.
Proof. by destruct j.(dj_status). Qed.
Lemma pending_unfinished l :
  Forall not_begun l -> Forall (fun r => finished r = false) l.
Proof. intros Hl. eapply Forall_impl; [exact Hl|]. intros r [Hr _]. unfold finished. by rewrite Hr. Qed.

Section Transition.
Context (J : list deploy_job) (T : list job_step) (j : deploy_job).
Hypothesis Hok : jobs_ok J T.
Hypothesis Hj : In j J.
Hypothesis Hrun : is_terminal j.(dj_status) = false.

Context (y : deployment_strategy) (r : job_step) (before rest : list job_step).
Hypothesis Hy : resolve_strategy j.(dj_strategy_name) = Some y.
Hypothesis Hrows : rows_of T j = before ++ r :: rest.
Hypothesis Hidx : j.(dj_current_step_index) = Z.of_nat (length before).
Hypothesis Hlen : length (dy_steps y) = length (before ++ r :: rest).
Hypothesis Hnames : map jp_name (before ++ r :: rest) = step_names y.
Hypothesis Hpos : map jp_position (before ++ r :: rest) =
  map Z.of_nat (seq 0 (length (before ++ r :: rest))).
Hypothesis Hb : Forall (fun r => finished r = true) before.
Hypothesis Hr : finished r = false.
Hypothesis Hpend : Forall not_begun rest.

Context (j' : deploy_job) (r' : job_step).
Hypothesis Hsame : same_job j j'.
Hypothesis Hstep : same_step r r'.

Let T' := tbl_update r.(jp_id) (fun _ => r') T.

Lemma transition_rows : rows_of T' j' = before ++ r' :: rest.
Proof.
  unfold rows_of. rewrite (proj1 Hsame). apply (rows_of_replaced T j); [apply Hok| |done|done].
  by apply (replaced_row J T j r before rest).
Qed.
Lemma transition_names : map jp_name (before ++ r' :: rest) = step_names y.
Proof. rewrite <- Hnames, !map_app. cbn. by rewrite (proj2 (proj2 (proj2 Hstep))). Qed.
Lemma transition_positions : map jp_position (before ++ r' :: rest) =
  map Z.of_nat (seq 0 (length (before ++ r' :: rest))).
Proof.
  replace (length (before ++ r' :: rest)) with (length (before ++ r :: rest))
    by by rewrite !length_app.
  rewrite <- Hpos, !map_app. cbn. by rewrite (proj1 (proj2 (proj2 Hstep))).
Qed.
Lemma transition_from :
  pipe_of T j = mk_pipeline (map jp_name before) (map jp_name (r :: rest)) None.
Proof.
  rewrite <- (running_end j Hrun). apply pipe_of_rows; [done|done|]. constructor; [done|].
  by apply pending_unfinished.
Qed.

(** The step goes on, or fails. *)
Lemma transition_stays :
  j'.(dj_current_step_index) = j.(dj_current_step_index) -> finished r' = false ->
  j'.(dj_status) <> JS_SUCCEEDED ->
  evolves J T (tbl_update j.(dj_id) (fun _ => j') J) T'.
Proof.
  intros Hi Hr' Hns.
  assert (Forall (fun r => finished r = false) (r' :: rest)) as Ha
    by (constructor; [done|by apply pending_unfinished]).
  eapply (evolves_replaced J T j j' r r'); try done.
  - exists y, before, (r' :: rest). destruct Hsame as (_ & _ & ->). rewrite Hi.
    split; [done|]. split; [apply transition_rows|]. split; [apply transition_names|].
    split; [apply transition_positions|]. split; [done|]. split; [done|]. split; [done|].
    split; [done|]. by split.
  - fold T'. rewrite transition_from, (pipe_of_rows T' j' before (r' :: rest)) by (done || apply transition_rows).
    cbn. rewrite (proj2 (proj2 (proj2 Hstep))). destruct (end_of j'.(dj_status)) as [[|]|] eqn:E.
    + by destruct j'.(dj_status).
    + apply rtc_once, pipe_fail.
    + done.
Qed.

(** The step finishes. *)
Lemma transition_advances :
  j'.(dj_current_step_index) = j.(dj_current_step_index) + 1 -> finished r' = true ->
  j'.(dj_status) = match nth_error y.(dy_steps) (Z.to_nat (j.(dj_current_step_index) + 1)) with
                   | Some _ => JS_RUNNING
                   | None => JS_SUCCEEDED
                   end ->
  evolves J T (tbl_update j.(dj_id) (fun _ => j') J) T'.
Proof.
  intros Hi Hr' Hst.
  assert (Forall (fun r => finished r = true) (before ++ [r'])) as Hb'
    by (apply Forall_app; split; [done|by constructor]).
  assert (rows_of T' j' = (before ++ [r']) ++ rest) as Hrows'
    by (by rewrite transition_rows, <- app_assoc).
  assert (j'.(dj_status) = match rest with [] => JS_SUCCEEDED | _ => JS_RUNNING end) as Hst'.
  { rewrite Hidx in Hst. replace (Z.to_nat (Z.of_nat (length before) + 1)) with
      (S (length before)) in Hst by lia.
    rewrite length_app in Hlen. cbn in Hlen. destruct (nth_error _ _) eqn:E.
    - assert (S (length before) < length (dy_steps y))%nat by (apply nth_error_Some; congruence).
      destruct rest; [cbn in Hlen; lia|done].
    - apply nth_error_None in E. destruct rest; [done|cbn in Hlen; lia]. }
  eapply (evolves_replaced J T j j' r r'); try done.
  - exists y, (before ++ [r']), rest. destruct Hsame as (_ & _ & ->).
    rewrite Hi, Hidx, <- !app_assoc. cbn [app].
    split; [done|]. split; [apply transition_rows|]. split; [apply transition_names|].
    split; [apply transition_positions|]. split; [rewrite length_app; cbn; lia|]. split; [done|].
    split; [by apply pending_unfinished|].
    split; [by destruct Hpend|]. destruct rest; [done|]. rewrite Hst'. by split.
  - fold T'. rewrite transition_from, (pipe_of_rows T' j' (before ++ [r']) rest)
      by (done || by apply pending_unfinished).
    rewrite map_app. cbn. rewrite (proj2 (proj2 (proj2 Hstep))).
    destruct rest; rewrite Hst'; apply rtc_once; constructor.
Qed.
End Transition.

(** A pass that was cut short left the jobs where their pipelines can go. *)
Lemma effect_evolves W now y p J T j r before rest d :
  jobs_ok J T -> In j J -> is_terminal j.(dj_status) = false ->
  resolve_strategy j.(dj_strategy_name) = Some y -> rows_of T j = before ++ r :: rest ->
  j.(dj_current_step_index) = Z.of_nat (length before) ->
  length (dy_steps y) = length (before ++ r :: rest) ->
  map jp_name (before ++ r :: rest) = step_names y ->
  map jp_position (before ++ r :: rest)
    = map Z.of_nat (seq 0 (length (before ++ r :: rest))) ->
  Forall (fun r => finished r = true) before -> finished r = false ->
  Forall not_begun rest ->
  pass_effect W now y p j r J T d -> evolves J T d.(db_jobs) d.(db_job_steps).
Proof.
  intros Hok Hj Hrun Hy Hrows Hidx Hlen Hnames Hpos Hb Hr Hpend.
  assert (forall j' r', same_job j j' -> same_step r r' ->
    j'.(dj_current_step_index) = j.(dj_current_step_index) -> finished r' = false ->
    j'.(dj_status) <> JS_SUCCEEDED ->
    evolves J T (tbl_update j.(dj_id) (fun _ => j') J) (tbl_update r.(jp_id) (fun _ => r') T))
    as Hstay by (intros; by eapply transition_stays).
  assert (forall j' r', same_job j j' -> same_step r r' ->
    j'.(dj_current_step_index) = j.(dj_current_step_index) + 1 -> finished r' = true ->
    j'.(dj_status) = match nth_error y.(dy_steps) (Z.to_nat (j.(dj_current_step_index) + 1)) with
                   | Some _ => JS_RUNNING
                   | None => JS_SUCCEEDED
                   end ->
    evolves J T (tbl_update j.(dj_id) (fun _ => j') J) (tbl_update r.(jp_id) (fun _ => r') T))
    as Hadv by (intros; by eapply transition_advances).
  intros [[-> ->]|r' Hs Hst _ _ [-> ->]|j' r' Hst Hs [-> ->]]; [by apply evolves_refl| |].
  - rewrite <- (tbl_update_same J (dj_id j) j) at 2; [|apply Hok|by apply get_job; [apply Hok|]].
    apply Hstay; try done; [|by destruct (dj_status j)].
    unfold finished in *. by destruct Hst as [->| ->].
  - destruct Hst as [t _ _ _ -> Hst _|error Hf Hn ->|Hf Hn ->|message b _ _ -> Hst _|message _ -> Hst|message _ -> ->].
    + apply Hstay; try done. unfold finished. by rewrite Hst.
    + apply Hadv; try done. by destruct (nth_error _ _).
    + apply Hadv; try done. by rewrite Hn.
    + apply Hstay; try done. unfold finished. by rewrite Hst.
    + apply Hstay; try done. unfold finished. by rewrite Hst.
    + by apply Hstay.
Qed.

(** * A pass of a worker *)

Definition begun (now : Z) (j : deploy_job) : deploy_job :=
  j <|dj_started_at := Some (default now j.(dj_started_at))|>.
Lemma begun_started now j t : j.(dj_started_at) = Some t -> begun now j = j.
Proof. intros Ht. unfold begun. rewrite Ht. cbn. rewrite <- Ht. by destruct j. Qed.
Definition is_reclaim (j : deploy_job) : bool :=
  (j.(dj_status) == JS_RUNNING) && match j.(dj_locked_at) with Some _ => true | None => false end.
Definition claimed_job (w : string) (now : Z) (j : deploy_job) : deploy_job :=
  begun now (claimed w now (is_reclaim j) j).

(** A job whose columns a claim sets. *)
Lemma evolves_touched J T j j' :
  jobs_ok J T -> In j J -> is_terminal j.(dj_status) = false -> same_job j j' ->
  j'.(dj_current_step_index) = j.(dj_current_step_index) -> is_terminal j'.(dj_status) = false ->
  evolves J T (tbl_update j.(dj_id) (fun _ => j') J) T.
Proof.
  intros Hok Hj Hrun Hsame Hi Hrun'.
  destruct (job_ok_row T j) as (y & p & before & r & rest & Hy & Hrows & Hidx & Hlen & _ & _ &
    Hnames & Hpos & Hb & Ha & Hpend); [by apply Hok|by destruct (dj_status j)|].
  pose proof (replaced_row J T j r before rest Hok Hrows) as [Hr _].
  rewrite <- (tbl_update_same T r.(jp_id) r) at 2; [|apply Hok|done].
  inversion_clear Ha. eapply transition_stays; try done. by destruct (dj_status j').
Qed.

Section Claim.
Context (J : list deploy_job) (T : list job_step) (now cutoff : Z) (w : string).
Hypothesis Hok : jobs_ok J T.

Let claim_result (o : option Z) (s : session) : Prop :=
  s.(s_now) = now /\ s.(s_committed) = s.(s_db) /\
  match o with
  | None => rows_are J T s.(s_db)
  | Some k => exists j, In j J /\ j.(dj_id) = k /\ claimable now cutoff j = true /\
      rows_are (tbl_update k (fun _ => claimed_job w now j) J) T s.(s_db)
  end.
Let claim_raise (e : exn) (s : session) : Prop :=
  s.(s_now) = now /\ evolves J T s.(s_committed).(db_jobs) s.(s_committed).(db_job_steps).

Lemma claimable_running j : claimable now cutoff j = true -> is_terminal j.(dj_status) = false.
Proof. unfold claimable. by destruct j.(dj_status). Qed.
Lemma claimable_free j : claimable now cutoff j = true -> still_free cutoff j = true.
Proof.
  intros Hc. unfold still_free. rewrite (claimable_running j Hc). unfold claimable in Hc.
  by apply andb_true_iff in Hc as [_ ->].
Qed.

(** The first candidate is claimed. *)
Lemma wp_claim_first cs s :
  (forall j, In j cs -> In j J /\ claimable now cutoff j = true) ->
  s.(s_now) = now -> s.(s_committed) = s.(s_db) -> rows_are J T s.(s_db) ->
  wp (claim_first w now cutoff cs) claim_result claim_raise s.
Proof.
  intros Hcs Hnow Hsync [HJ HT]. destruct cs as [|j rest]; [done|].
  destruct (Hcs j (or_introl eq_refl)) as [Hj Hc]. cbn [claim_first].
  pose proof (claimable_running j Hc) as Hrun.
  wp_step. apply wp_read. rewrite HJ, get_job by (done || apply Hok).
  rewrite (claimable_free j Hc). fold (is_reclaim j). wp_step. apply wp_write. cbn. rewrite HJ.
  set (j1 := claimed w now (is_reclaim j) j).
  assert (tbl_update j.(dj_id) (claimed w now (is_reclaim j)) J =
          tbl_update j.(dj_id) (fun _ => j1) J) as E1.
  { apply map_ext_in. intros x Hx. destruct (Z.eqb_spec (row_key x) (dj_id j)) as [E|]; [|done].
    pose proof (get_job J x (proj1 Hok) Hx) as Hg. change (row_key x) with x.(dj_id) in E.
    rewrite E, get_job in Hg by (done || apply Hok). by injection Hg as <-. }
  assert (evolves J T (tbl_update j.(dj_id) (fun _ => j1) J) T) as Hev
    by by apply evolves_touched.
  assert (forall s', s'.(s_now) = now -> s'.(s_committed) = s.(s_db) -> forall e, claim_raise e s')
    as Hraise0.
  { intros s' H1 H2 e. split; [done|]. rewrite H2, HJ, HT. by apply evolves_refl. }
  unfold commit. wp_step. wp_step. apply wp_flush; [intros _ _|intros e _; by apply Hraise0].
  apply wp_modify. wp_step. apply wp_read. cbn. rewrite E1.
  rewrite (tbl_get_replaced J _ j) by (done || by apply get_job; [apply Hok|]). cbn.
  assert (forall j2, tbl_update j.(dj_id) (fun _ => j2) (tbl_update j.(dj_id) (fun _ => j1) J) =
    tbl_update j.(dj_id) (fun _ => j2) J) as E2 by (intros; by rewrite tbl_update_again).
  wp_step. destruct j.(dj_started_at) as [t|] eqn:Et.
  - wp_step. wp_step. split; [done|]. split; [done|]. exists j. do 3 (split; [done|]).
    split; [|done]. cbn. unfold claimed_job. by rewrite (begun_started now _ t).
  - wp_step. apply wp_write. cbn. unfold commit. wp_step.
    apply wp_flush; [intros _ _|intros e _; split; [done|]; cbn; by rewrite HT].
    apply wp_modify. wp_step. split; [done|]. split; [done|]. exists j. do 3 (split; [done|]).
    split; [|done]. cbn. rewrite tbl_update_again by done. unfold claimed_job, begun. cbn.
    by rewrite Et.
Qed.
End Claim.

(** At rest: nothing is uncommitted, and the jobs came out of [J] and [T]. *)
Definition at_rest (now : Z) (J : list deploy_job) (T : list job_step) (s : session) : Prop :=
  s.(s_now) = now /\ s.(s_db) = s.(s_committed) /\
  evolves J T s.(s_committed).(db_jobs) s.(s_committed).(db_job_steps).
Definition came_out (now : Z) (J : list deploy_job) (T : list job_step) (s : session) : Prop :=
  s.(s_now) = now /\ evolves J T s.(s_committed).(db_jobs) s.(s_committed).(db_job_steps).

Lemma came_out_rollback now J T s :
  came_out now J T s -> at_rest now J T (s <|s_db := s.(s_committed)|>).
Proof. by intros [H1 H2]. Qed.

Section Worker.
Context (W : deployment_step -> Prop) (env : deploy_env) `{!WellBehaved env W}.

(** A transition of a job that runs. *)
Lemma wp_tick now J T j s :
  jobs_ok J T -> In j J -> is_terminal j.(dj_status) = false ->
  jobs_are now J T (rows_are J T) s ->
  wp (run_job_tick env j.(dj_id)) (fun _ => came_out now J T) (fun _ => came_out now J T) s.
Proof.
  intros Hok Hj Hrun (Hnow & HJ & HT & HC).
  destruct (job_ok_row T j) as (y & p & before & r & rest & Hy & Hrows & Hidx & Hlen & Hp & Hhd &
    Hnames & Hpos & Hb & Ha & Hpend); [by apply Hok|by destruct (dj_status j)|].
  pose proof (replaced_row J T j r before rest Hok Hrows) as [Hr _].
  assert (forall d, pass_effect W now y p j r J T d -> evolves J T d.(db_jobs) d.(db_job_steps))
    as Hev by (intros d; inversion_clear Ha; by eapply effect_evolves).
  eapply wp_conseq; [eapply (wp_run_job_tick W env now y p J T j r)| |]; try done.
  - by apply get_job; [apply Hok|].
  - apply Hok.
  - apply Hok.
  - split; [done|]. split; [done|]. split; [done|]. by apply effect_none.
  - intros _ s' (j' & r' & Hst & Hsame & (H1 & _ & _ & H4)). split; [done|].
    apply Hev. by eapply effect_whole.
  - intros _ s' [H1 H2]. split; [done|by apply Hev].
Qed.

Lemma wp_worker_pass now J T w ttl s :
  at_rest now J T s ->
  wp (worker_pass env w ttl) (fun _ => at_rest now J T) (fun _ => at_rest now J T) s.
Proof.
  intros (Hnow & Hsync & Hev). unfold worker_pass, with_session. wp_step. wp_step.
  apply (wp_conseq _ (fun _ => came_out now J T) _ (fun _ => came_out now J T)).
  2: intros a s' Hs'; wp_step; apply wp_modify; wp_step; by apply came_out_rollback.
  2: intros e s' Hs'; wp_step; apply wp_modify; wp_step; by apply came_out_rollback.
  unfold claim_next_runnable. wp_step. wp_step. apply wp_gets. wp_step. apply wp_read. rewrite Hnow.
  set (J0 := s.(s_committed).(db_jobs)) in *. set (T0 := s.(s_committed).(db_job_steps)) in *.
  pose proof (proj1 Hev) as Hok.
  eapply wp_conseq; [apply (wp_claim_first J0 T0 now (now - seconds ttl) w); try done| |].
  - intros j Hin. unfold claim_candidates in Hin. rewrite Hsync in Hin.
    by apply take_In, sort_by_In, filter_In in Hin.
  - by rewrite Hsync.
  - intros [k|] s1 (H1 & H2 & H3).
    + destruct H3 as (j & Hj & <- & Hc & [HJ1 HT1]). pose proof (claimable_running _ _ j Hc) as Hrun.
      set (j1 := claimed_job w now j) in *. set (J1 := tbl_update _ _ J0) in *.
      assert (evolves J0 T0 J1 T0) as Hev1 by by apply evolves_touched.
      assert (forall s', came_out now J1 T0 s' -> came_out now J T s') as Hup.
      { intros s' [G1 G2]. split; [done|]. do 2 (eapply evolves_trans; [eassumption|]). done. }
      wp_step. wp_step.
      eapply wp_conseq; [apply (wp_tick now J1 T0 j1)| |]; try done.
      * apply Hev1.
      * apply (replaced_in J0 j j1 Hj).
      * split; [done|]. rewrite HJ1, HT1. split; [done|]. split; [done|]. by rewrite H2, <- HJ1, <- HT1.
      * intros e s2 Hs2. apply Hup in Hs2. destruct (is_exception e); [|by wp_step].
        apply wp_modify. by wp_step.
    + wp_step. split; [done|]. by rewrite H2, (proj1 H3), (proj2 H3).
  - intros e s1 [H1 H2]. split; [done|]. by eapply evolves_trans.
Qed.

Lemma wp_drain now J T w ttl n s :
  at_rest now J T s ->
  wp (drain env w ttl n) (fun _ => at_rest now J T) (fun _ => at_rest now J T) s.
Proof.
  revert s. induction n as [|n IH]; intros s Hs; [done|]. cbn [drain]. wp_step.
  eapply wp_conseq; [by apply wp_worker_pass| |done].
  intros [|] s1 Hs1; [|done]. wp_step. eapply wp_conseq; [by apply IH| |done].
  intros c s2 Hs2. by wp_step.
Qed.
End Worker.

(** * Enqueueing *)

Lemma strategies_have_steps name y : resolve_strategy name = Some y -> dy_steps y <> [].
Proof.
  unfold resolve_strategy. destruct (str_empty name); [done|].
  intros [Hin _]%List.find_some. repeat (destruct Hin as [<-|Hin]; [done|]). done.
Qed.

(** ** The rows of a new job *)

Lemma job_step_rows_spec k first pos names :
  map jp_name (job_step_rows k first (Z.of_nat pos) names) = names /\
  map jp_position (job_step_rows k first (Z.of_nat pos) names)
    = map Z.of_nat (seq pos (length names)) /\
  length (job_step_rows k first (Z.of_nat pos) names) = length names /\
  (forall r, In r (job_step_rows k first (Z.of_nat pos) names) ->
     r.(jp_job_id) = k /\ not_begun r /\ first <= r.(jp_id)) /\
  tbl_wf (job_step_rows k first (Z.of_nat pos) names).
Proof.
  revert first pos. induction names as [|n names IH]; intros first pos; cbn.
  - split; [done|]. split; [done|]. split; [done|]. split; [done|]. constructor.
  - replace (Z.of_nat pos + 1) with (Z.of_nat (S pos)) by lia.
    destruct (IH (first + 1) (S pos)) as (-> & -> & -> & Hin & Hwf).
    split; [done|]. split; [done|]. split; [done|]. split.
    + intros r [<-|Hr]; [split; [done|split; [done|cbn; lia]]|].
      destruct (Hin r Hr) as (H1 & H2 & H3). split; [done|split; [done|lia]].
    + unfold tbl_wf in *. cbn. constructor; [|done]. intros (r & Hid & Hr)%in_map_iff.
      destruct (Hin r Hr) as (_ & _ & H3). change (row_key r) with r.(jp_id) in Hid. lia.
Qed.

Section Created.
Context (J : list deploy_job) (T : list job_step) (y : deployment_strategy) (j : deploy_job).
Hypothesis Hok : jobs_ok J T.
Hypothesis Hy : resolve_strategy j.(dj_strategy_name) = Some y.
Hypothesis Hid : j.(dj_id) = tbl_fresh J.
Hypothesis Hst : j.(dj_status) = JS_QUEUED.
Hypothesis Hidx : j.(dj_current_step_index) = 0.
Hypothesis Hactive : forall x, In x J -> x.(dj_service_id) = j.(dj_service_id) ->
  is_terminal x.(dj_status) = true.

Let rows := job_step_rows j.(dj_id) (tbl_fresh T) 0 (step_names y).
Let T' := T ++ rows.

Lemma created_spec :
  map jp_name rows = step_names y /\
  map jp_position rows = map Z.of_nat (seq 0 (length (step_names y))) /\
  length rows = length (step_names y) /\
  (forall r, In r rows -> r.(jp_job_id) = j.(dj_id) /\ not_begun r /\
     tbl_fresh T <= r.(jp_id)) /\ tbl_wf rows.
Proof. apply (job_step_rows_spec j.(dj_id) (tbl_fresh T) 0). Qed.

Lemma created_rows : rows_of T' j = rows.
Proof.
  destruct created_spec as (_ & _ & _ & Hin & _).
  unfold rows_of, T'. rewrite List.filter_app.
  assert (List.filter (fun r => r.(jp_job_id) =? j.(dj_id)) T = []) as ->.
  { apply filter_nil_iff. intros r (x & Hx & E)%(proj1 (proj2 (proj2 Hok))).
    apply tbl_fresh_gt in Hx. change (row_key x) with x.(dj_id) in Hx. lia. }
  apply forallb_filter_id, forallb_forall. intros r Hr.
  destruct (Hin r Hr) as (-> & _). apply Z.eqb_refl.
Qed.
Lemma created_other x : In x J -> rows_of T' x = rows_of T x.
Proof.
  destruct created_spec as (_ & _ & _ & Hin & _).
  intros Hx. apply tbl_fresh_gt in Hx. change (row_key x) with x.(dj_id) in Hx.
  unfold rows_of, T'. rewrite List.filter_app.
  rewrite (proj2 (filter_nil_iff _ rows)); [by rewrite app_nil_r|].
  intros r Hr. destruct (Hin r Hr) as (-> & _). lia.
Qed.
Lemma created_job_ok : job_ok T' j.
Proof.
  destruct created_spec as (Hn & Hp & Hl & Hin & _).
  assert (Forall not_begun rows) as Hpend
    by (apply List.Forall_forall; intros r Hr; apply (Hin r Hr)).
  exists y, [], rows. cbn [app length]. split; [done|]. split; [apply created_rows|].
  split; [done|]. split; [by rewrite Hl|]. split; [done|]. split; [done|].
  split; [by apply pending_unfinished|]. split; [by destruct Hpend|].
  rewrite Hst. split; [done|]. intros E. exfalso. apply (strategies_have_steps _ _ Hy).
  apply (map_eq_nil dp_name). fold (step_names y). by rewrite <- Hn, E.
Qed.
Lemma created_pipe : pipe_of T' j = pipe_start (step_names y).
Proof.
  destruct created_spec as (Hn & _ & _ & Hin & _).
  rewrite (pipe_of_rows T' j [] rows); [|apply created_rows|done|].
  - by rewrite Hn, Hst.
  - apply pending_unfinished, List.Forall_forall. intros r Hr. apply (Hin r Hr).
Qed.

Lemma evolves_created : evolves J T (J ++ [j]) T'.
Proof.
  destruct created_spec as (_ & _ & _ & Hin & Hwf).
  pose proof Hok as (HwfJ & HwfT & Howner & Hjobs & Hone).
  assert (tbl_wf (J ++ [j])) as HwfJ' by by apply tbl_wf_snoc.
  split; [split; [done|split; [|split; [|split]]]|split].
  - unfold tbl_wf, T'. rewrite map_app. apply List.NoDup_app; [done|done|].
    intros z (r & <- & Hr)%in_map_iff (r' & E & Hr')%in_map_iff. apply tbl_fresh_gt in Hr.
    destruct (Hin r' Hr') as (_ & _ & Hge). change (row_key r') with r'.(jp_id) in E. lia.
  - intros r [Hr|Hr]%in_app_iff.
    + destruct (Howner r Hr) as (o & Ho & E). exists o. split; [apply in_app_iff; by left|done].
    + exists j. split; [apply in_app_iff; right; by left|]. by destruct (Hin r Hr) as (-> & _).
  - intros x [Hx|[<-|[]]]%in_app_iff; [|apply created_job_ok].
    specialize (Hjobs x Hx). unfold job_ok in *. by rewrite created_other.
  - intros j1 j2 [H1|[<-|[]]]%in_app_iff [H2|[<-|[]]]%in_app_iff; [by apply Hone| | |done].
    + intros E Hrun. by rewrite (Hactive j1) in Hrun.
    + intros E _ Hrun. by rewrite (Hactive j2) in Hrun.
  - intros x [Hx|[<-|[]]]%in_app_iff; unfold pipe_before.
    + rewrite get_job by done. unfold pipe_of. by rewrite created_other.
    + rewrite Hid, tbl_get_fresh, created_pipe. unfold job_names. by rewrite Hy.
  - intros x Hx. exists x. split; [|done]. apply (get_job (J ++ [j])); [done|].
    apply in_app_iff. by left.
Qed.
End Created.

Lemma active_jobs_none k d j :
  active_jobs k d = [] -> In j d.(db_jobs) -> j.(dj_service_id) = k ->
  is_terminal j.(dj_status) = true.
Proof.
  intros Hnone Hj <-. destruct (is_terminal _) eqn:E; [done|].
  pose proof (proj1 (filter_nil_iff _ _) Hnone j Hj) as Hf. cbn in Hf.
  by rewrite Z.eqb_refl, E in Hf.
Qed.

Section Enqueue.
Context (now : Z) (J : list deploy_job) (T : list job_step).
Hypothesis Hok : jobs_ok J T.

Let C (d : db) : Prop := evolves J T d.(db_jobs) d.(db_job_steps).
(** Nothing was done to the jobs yet. *)
Definition jobs_untouched : session -> Prop := jobs_are now J T C.

Lemma untouched_closed d : rows_are J T d -> C d.
Proof. unfold C. intros [-> ->]. by apply evolves_refl. Qed.
Lemma untouched_came_out s : jobs_untouched s -> came_out now J T s.
Proof. by intros (H1 & _ & _ & H4). Qed.
Lemma untouched_commit : keeps jobs_untouched commit.
Proof. apply leaves_jobs_commit, untouched_closed. Qed.

Lemma wp_create_job k name y s (Q : Z -> session -> Prop) :
  resolve_strategy name = Some y -> active_jobs k s.(s_db) = [] -> jobs_untouched s ->
  (forall id s' J' T', evolves J T J' T' -> jobs_are now J' T' (rows_are J' T') s' -> Q id s') ->
  wp (create_job k name (step_names y) y.(dy_max_attempts)) Q (fun _ => came_out now J T) s.
Proof.
  intros Hy Hact Hs HQ. pose proof Hs as (Hnow & HJ & HT & HC). unfold create_job.
  wp_step. apply wp_gets. rewrite Hnow. wp_step. apply wp_read. rewrite HJ.
  wp_step. apply wp_write. unfold flush at 1. wp_step.
  apply wp_flush; [intros _ _|intros e _; by split].
  wp_step. apply wp_write. cbn. rewrite HJ, HT.
  set (j := mk_deploy_job _ _ _ _ _ _ _ _ _ _ _ _ _ _).
  assert (evolves J T (J ++ [j]) (T ++ job_step_rows (tbl_fresh J) (tbl_fresh T) 0 (step_names y)))
    as Hev.
  { apply (evolves_created J T y j); try done. intros x Hx Hk.
    apply (active_jobs_none k s.(s_db)); [done|by rewrite HJ|done]. }
  unfold commit. wp_step. wp_step. apply wp_flush; [intros _ _|intros e _; by split].
  apply wp_modify. wp_step. eapply HQ; [exact Hev|]. by repeat split.
Qed.
End Enqueue.

(** ** Placement and the identifier of the machine *)

Lemma commit_jobs now J T (C : db -> Prop) :
  (forall d, rows_are J T d -> C d) -> keeps (jobs_are now J T C) commit.
Proof. apply leaves_jobs_commit. Qed.
#[export] Hint Resolve commit_jobs : dcim.
Ltac leaves_tac := intros ? ? ? ? ?; keeps_tac.
Lemma reservation_leaves c k v : leaves_jobs (reservation_create c k v).
Proof. unfold reservation_create. leaves_tac. Qed.
Lemma reserve_first_leaves c k lo hi n v : leaves_jobs (reserve_first c k lo hi n v).
Proof.
  intros now J T C Hclosed. revert v.
  pose proof (fun v => reservation_leaves c k v now J T C Hclosed).
  induction n as [|n IH]; intros v; cbn [reserve_first]; unfold get_by_cluster_vmid; keeps_tac.
Qed.
Lemma reserve_leaves cs c k r sg o : leaves_jobs (reserve_vmid_for_service cs c k r sg o).
Proof.
  intros now J T C Hclosed.
  pose proof (fun n v lo hi => reserve_first_leaves c k lo hi n v now J T C Hclosed).
  pose proof (fun v => reservation_leaves c k v now J T C Hclosed).
  unfold reserve_vmid_for_service, get_by_service_id, existing_sticky_reservation,
    resolve_cluster_range, reserve_explicit_vmid, reserve_next_free_vmid, get_by_cluster_vmid.
  keeps_tac.
Qed.
Lemma prepare_leaves cat k : leaves_jobs (prepare_vm_placement_for_provisioning cat k).
Proof.
  intros now J T C Hclosed.
  pose proof (fun cs c r sg o => reserve_leaves cs c k r sg o now J T C Hclosed).
  unfold prepare_vm_placement_for_provisioning, place_vm, auto_place_vm, candidate_clusters.
  keeps_tac.
Qed.
Lemma mark_queued_leaves iso k : leaves_jobs (mark_vm_provision_queued iso k).
Proof. unfold mark_vm_provision_queued. leaves_tac. Qed.

Lemma strategy_name_keeps cat sv (I : session -> Prop) :
  keeps I (resolve_vm_strategy_name_for_service cat sv).
Proof.
  unfold resolve_vm_strategy_name_for_service, json_get, resolve_vm_template_strategy. keeps_tac.
Qed.

Section Requests.
Context (now : Z) (J : list deploy_job) (T : list job_step).
Hypothesis Hok : jobs_ok J T.
#[local] Abbreviation untouched := (jobs_untouched now J T).
#[local] Abbreviation came := (came_out now J T).

Lemma untouched_keeps {A} (m : Meth A) : leaves_jobs m -> keeps untouched m.
Proof. intros Hm. apply Hm, untouched_closed, Hok. Qed.

(** What is done once the job is made. *)
Lemma wp_created {A} (m : Meth A) J' T' s :
  evolves J T J' T' -> jobs_are now J' T' (rows_are J' T') s -> leaves_jobs m ->
  wp m (fun _ => came) (fun _ => came) s.
Proof.
  intros Hev (H1 & H2 & H3 & [H4 H5]) Hm.
  eapply wp_keeps; [apply (Hm now J' T' (fun d => evolves J T d.(db_jobs) d.(db_job_steps)))| | |].
  - by intros d [-> ->].
  - do 3 (split; [done|]). cbv beta. by rewrite H4, H5.
  - by intros a s2 (? & _ & _ & ?).
  - by intros a s2 (? & _ & _ & ?).
Qed.

(** The job is found, or made. *)
Lemma wp_find_or_create {A} k name y (found : deploy_job -> Meth A) (made : Z -> Meth A) s :
  resolve_strategy name = Some y -> untouched s ->
  (forall j s', untouched s' -> wp (found j) (fun _ => came) (fun _ => came) s') ->
  (forall id, leaves_jobs (made id)) ->
  wp (existing <- get_active_for_service k ;;
      match existing with
      | Some j => found j
      | None => id <- create_job k name (step_names y) y.(dy_max_attempts) ;; made id
      end) (fun _ => came) (fun _ => came) s.
Proof.
  intros Hy Hs Hfound Hmade. wp_step. apply wp_read.
  destruct (active_jobs k s.(s_db)) as [|j l] eqn:Hact; [|by apply Hfound]. wp_step.
  eapply wp_create_job; try done. intros id s' J' T' Hev Hs'. by eapply wp_created.
Qed.

Lemma wp_enqueue cat iso k s :
  untouched s -> wp (enqueue_vm_deployment_job cat iso k) (fun _ => came) (fun _ => came) s.
Proof.
  intros Hs. pose proof (untouched_came_out now J T) as Hcame. unfold enqueue_vm_deployment_job.
  wp_step. apply wp_the; [by auto|]. intros sv _.
  do 3 (wp_step; wp_step; [by auto|]).
  wp_step. eapply wp_keeps; [apply strategy_name_keeps|exact Hs| |by auto].
  intros name s1 Hs1. wp_step. wp_step; [by auto|]. wp_step. wp_step; [by auto|].
  eapply wp_find_or_create; [exact Hsome|exact Hs1| |].
  - intros j s2 Hs2. wp_step. by auto.
  - intros id. intros now' J' T' C' Hc. apply keeps_bind; [by apply mark_queued_leaves|].
    intros _. apply keeps_ret.
Qed.
Lemma wp_provision cat iso k s :
  untouched s -> wp (provision_vm_service_async cat iso k) (fun _ => came) (fun _ => came) s.
Proof.
  intros Hs. pose proof (untouched_came_out now J T) as Hcame. unfold provision_vm_service_async.
  wp_step. apply wp_read. wp_step. wp_step; [by auto|]. do 2 (wp_step; wp_step; [by auto|]).
  wp_step. eapply wp_keeps; [apply untouched_keeps, prepare_leaves|exact Hs| |by auto].
  intros [] s1 Hs1. by apply wp_enqueue.
Qed.
Lemma wp_password k s :
  untouched s -> wp (enqueue_apply_guest_password_job k) (fun _ => came) (fun _ => came) s.
Proof.
  intros Hs. pose proof (untouched_came_out now J T) as Hcame.
  unfold enqueue_apply_guest_password_job.
  wp_step. apply wp_the; [by auto|]. intros sv _. wp_step. wp_step; [by auto|].
  apply (wp_find_or_create k _ ApplyGuestPasswordStrategy); [done|exact Hs| |].
  - intros j s2 Hs2. wp_step. by auto.
  - intros id. leaves_tac.
Qed.

Lemma backup_settings_keeps products sv (I : session -> Prop) : keeps I (resolve_backup_settings products sv).
Proof. unfold resolve_backup_settings, spec_text, spec_int. keeps_tac. Qed.
Lemma backup_kind_keeps st storage volid (I : session -> Prop) : keeps I (resolve_backup_kind st storage volid).
Proof. unfold resolve_backup_kind, normalize_volid. keeps_tac. Qed.
Lemma existing_restore_keeps j sv volid vol kind start (I : session -> Prop) :
  keeps I (existing_restore_job_response j sv volid vol kind start).
Proof. unfold existing_restore_job_response. pose proof (fun o => dict_of_keeps o I). keeps_tac. Qed.
Lemma wp_restore products k volid storage start template s :
  untouched s -> wp (enqueue_restore_backup_job products k volid storage start template)
    (fun _ => came) (fun _ => came) s.
Proof.
  intros Hs. pose proof (untouched_came_out now J T) as Hcame. unfold enqueue_restore_backup_job.
  wp_step. apply wp_the; [by auto|]. intros sv _. wp_step. wp_step; [by auto|].
  wp_step. eapply wp_keeps; [apply backup_settings_keeps|exact Hs| |by auto]. intros settings s1 Hs1.
  wp_step. eapply wp_keeps; [apply backup_kind_keeps|exact Hs1| |by auto]. intros [kind vol] s2 Hs2.
  wp_step. apply wp_read. destruct (active_jobs k s2.(s_db)) as [|j l] eqn:Hact.
  - wp_step. eapply wp_keeps; [apply untouched_keeps; leaves_tac|exact Hs2| |by auto].
    intros [] s3 Hs3. wp_step. eapply wp_keeps; [apply untouched_commit, Hok|exact Hs3| |by auto].
    intros [] s4 Hs4. wp_step. apply (wp_create_job now J T Hok k _ RestoreBackupStrategy); [done| |done|].
    { unfold active_jobs in *. destruct Hs2 as (_ & E2 & _), Hs4 as (_ & E4 & _). by rewrite E4, <- E2. }
    intros id s5 J' T' Hev Hs5. eapply wp_created; [exact Hev|exact Hs5|]. leaves_tac.
  - wp_step. eapply wp_keeps; [apply existing_restore_keeps|exact Hs2| |by auto].
    intros [answer|] s3 Hs3; wp_step; by auto.
Qed.
End Requests.

Definition well_behaved (W : deployment_step -> Prop) (rs : list (Z * job_request)) : Prop :=
  forall t env w ttl, In (t, JqWorker env w ttl) rs -> WellBehaved env W.
Definition rested (J : list deploy_job) (T : list job_step) (s : session) : Prop :=
  at_rest s.(s_now) J T s.

(** A request leaves the jobs at rest whatever becomes of it. *)
Lemma wp_job_request W cat iso J T t r s :
  (forall env w ttl, r = JqWorker env w ttl -> WellBehaved env W) -> at_rest t J T s ->
  wp (run_job_request cat iso r) (fun _ => came_out t J T) (fun _ => came_out t J T) s.
Proof.
  intros Hwb (Hnow & Hsync & Hev).
  set (J0 := s.(s_committed).(db_jobs)) in *. set (T0 := s.(s_committed).(db_job_steps)) in *.
  assert (jobs_untouched t J0 T0 s) as Hs.
  { split; [done|]. rewrite Hsync. do 2 (split; [done|]). apply evolves_refl, Hev. }
  assert (forall s', came_out t J0 T0 s' -> came_out t J T s') as Hup.
  { intros s' [H1 H2]. split; [done|]. by eapply evolves_trans. }
  destruct r as [k|k|products k volid storage start template|env w ttl]; cbn [run_job_request]; wp_step.
  - eapply wp_conseq; [apply (wp_provision t J0 T0 (proj1 Hev)); exact Hs|..]; [|by auto].
    intros a s' Hs'. wp_step. by auto.
  - eapply wp_conseq; [apply (wp_password t J0 T0 (proj1 Hev)); exact Hs|..]; [|by auto].
    intros a s' Hs'. wp_step. by auto.
  - eapply wp_conseq; [apply (wp_restore t J0 T0 (proj1 Hev)); exact Hs|..]; [|by auto].
    intros a s' Hs'. wp_step. by auto.
  - pose proof (Hwb env w ttl eq_refl). eapply wp_conseq.
    + by apply (wp_drain W env t J T w ttl).
    + intros a s' (H1 & _ & H3). by wp_step.
    + by intros e s' (H1 & _ & H3).
Qed.

Lemma wp_serve_jobs W cat iso rs J T s :
  well_behaved W rs -> rested J T s ->
  wp (serve_jobs cat iso rs) (fun _ => rested J T) (fun _ _ => False) s.
Proof.
  intros Hwb Hs. unfold serve_jobs. apply wp_for_each; [done|]. intros [t r] s1 Hr (_ & Hsync & Hev).
  cbn [fst snd]. do 4 wp_step.
  apply (wp_conseq _ (fun _ => came_out t J T) _ (fun _ => came_out t J T)).
  - eapply wp_job_request; [|done]. intros env w ttl ->. apply (Hwb t env w ttl).
    by apply list_elem_of_In.
  - intros [] s2 Hs2. apply wp_modify. by destruct Hs2.
  - intros e s2 Hs2. wp_step. apply wp_modify. by destruct Hs2.
Qed.

(** * The theorems *)

(** What serving does, for the theorems and for reading a served state. *)
Lemma served W cat iso rs s s' o :
  well_behaved W rs -> s.(s_db) = s.(s_committed) ->
  jobs_ok s.(s_db).(db_jobs) s.(s_db).(db_job_steps) ->
  serve_jobs cat iso rs s = (o, s') ->
  o = Ok tt /\ s'.(s_committed) = s'.(s_db) /\
  evolves s.(s_db).(db_jobs) s.(s_db).(db_job_steps) s'.(s_db).(db_jobs) s'.(s_db).(db_job_steps).
Proof.
  intros Hwb Hsync Hok Hrun.
  assert (rested s.(s_db).(db_jobs) s.(s_db).(db_job_steps) s) as Hs.
  { split; [done|]. split; [done|]. rewrite <- Hsync. by apply evolves_refl. }
  pose proof (wp_serve_jobs W cat iso rs _ _ s Hwb Hs) as Hwp. unfold wp in Hwp.
  rewrite Hrun in Hwp. destruct o as [[]|e]; [|done]. destruct Hwp as (_ & Hdb & Hev).
  by rewrite Hdb.
Qed.

Lemma no_jobs_ok : jobs_ok [] [].
Proof.
  do 2 (split; [apply List.NoDup_nil|]). split; [by intros ? []|]. split; [by intros ? []|].
  by intros ? ? [].
Qed.
Lemma one_active_length d k : jobs_ok d.(db_jobs) d.(db_job_steps) -> (length (active_jobs k d) <= 1)%nat.
Proof.
  intros (Hwf & _ & _ & _ & Hone). pose proof (tbl_wf_filter
    (fun j => (j.(dj_service_id) =? k) && negb (is_terminal j.(dj_status))) _ Hwf) as Hnd.
  fold (active_jobs k d) in Hnd. destruct (active_jobs k d) as [|j1 [|j2 l]] eqn:E; cbn; try lia.
  assert (forall j, In j (j1 :: j2 :: l) -> In j d.(db_jobs) /\ j.(dj_service_id) = k /\
    is_terminal j.(dj_status) = false) as Hin.
  { intros j Hj. rewrite <- E in Hj. apply filter_In in Hj as [Hj [Hk Hr]%andb_true_iff].
    split; [done|]. split; [lia|]. by apply negb_true_iff. }
  destruct (Hin j1 ltac:(by left)) as (I1 & K1 & R1).
  destruct (Hin j2 ltac:(by right; left)) as (I2 & K2 & R2).
  inversion_clear Hnd as [|? ? Hni _]. destruct Hni. rewrite (Hone j1 j2) by congruence. by left.
Qed.

(** C8. Deployments run in order when workers do not overlap.  Requests to deploy
    machines, to change passwords and to restore backups, and the runs of any
    workers, are served in any order and at any times, one after the other: each
    runs to its end, at one reading of the clock, before the next begins, and
    the actions of the steps leave the tables of jobs alone ([well_behaved]).
    Then, with steps that wait, are skipped, fail, time out or crash the worker
    so that its lease expires and the job is reclaimed, each durable job refines
    a pipeline: the steps of its strategy finish one after the other, each at
    most once and none before those ahead of it, the job succeeds exactly when
    the last one has finished, and is not touched again when it has succeeded or
    failed.  No job is lost or changes its service or strategy, and the rows stay
    well-formed.  (Of workers that overlap this is false: the lease of a minute
    is not renewed while a step runs, so that another worker can execute the
    step again and a step can be skipped; [lease_shorter_than_step] and
    [overlapping_passes_skip_a_step] of Deadline.v.) *)
Theorem deployments_run_in_order W cat iso rs s s' o :
  well_behaved W rs -> s.(s_db) = s.(s_committed) ->
  jobs_ok s.(s_db).(db_jobs) s.(s_db).(db_job_steps) ->
  serve_jobs cat iso rs s = (o, s') ->
  let J := s.(s_db).(db_jobs) in let T := s.(s_db).(db_job_steps) in
  let J' := s'.(s_db).(db_jobs) in let T' := s'.(s_db).(db_job_steps) in
  o = Ok tt /\ s'.(s_committed) = s'.(s_db) /\ jobs_ok J' T' /\
  (forall j', In j' J' -> rtc pipe_step (pipe_before J T j') (pipe_of T' j')) /\
  (forall j, In j J -> exists j', tbl_get j.(dj_id) J' = Some j' /\ same_job j j').
Proof.
  intros Hwb Hsync Hok Hrun J T J' T'.
  by destruct (served W cat iso rs s s' o Hwb Hsync Hok Hrun) as (H1 & H2 & H3 & H4 & H5).
Qed.

(** C35. A machine has one job at a time when requests do not overlap.  From a
    database with no jobs, when deployments, password changes, restores of
    backups -- the three ways a job is made -- and the runs of workers are served
    in any order, each to its end before the next begins and with steps that
    leave the tables of jobs alone, no service ever has two jobs that have not
    ended, so that the query of [get_active_for_service] has at most one row to
    find, and each job's steps are in its rows, in the order of its strategy.
    (Of requests that overlap this is false: looking for a job and making one
    are not one step; [looking_is_not_holding].) *)
Theorem service_has_one_active_job W cat iso rs s s' o k :
  well_behaved W rs -> s.(s_db) = s.(s_committed) ->
  s.(s_db).(db_jobs) = [] -> s.(s_db).(db_job_steps) = [] ->
  serve_jobs cat iso rs s = (o, s') ->
  (length (active_jobs k s'.(s_db)) <= 1)%nat /\
  (forall j, In j s'.(s_db).(db_jobs) ->
     map jp_name (rows_of s'.(s_db).(db_job_steps) j) = job_names j).
Proof.
  intros Hwb Hsync HJ HT Hrun.
  destruct (served W cat iso rs s s' o Hwb Hsync) as (_ & _ & Hok & _ & _); [|done|].
  { rewrite HJ, HT. apply no_jobs_ok. }
  split; [by apply one_active_length|]. intros j Hj.
  destruct (proj1 (proj2 (proj2 (proj2 Hok))) j Hj) as (y & b & a & Hy & -> & Hn & _).
  unfold job_names. by rewrite Hy.
Qed.

(** ** A sample deployment *)

(** Steps with a timeout wait until a minute has passed. *)
Definition sample_precheck (p : deployment_step) (job_id : Z) : Meth step_outcome :=
  now <- utcnow ;;
  ret (if (0 <? default 0 p.(dp_timeout_seconds)) && (now <? seconds 60)
       then mk_step_outcome SR_WAIT (Some "waiting") None None
       else mk_step_outcome SR_READY None None None).
Definition sample_env : deploy_env :=
  mk_deploy_env sample_precheck (fun _ _ => ret tt) (fun _ => ret PW_ON) exn_name
    (fun t => pretty t).
Definition may_wait (p : deployment_step) : Prop := 0 < default 0 p.(dp_timeout_seconds).
#[export] Instance sample_well_behaved : WellBehaved sample_env may_wait.
Proof.
  split.
  - intros p k now J T C _. unfold sample_env, sample_precheck. cbn. keeps_tac.
  - intros p k now J T C _. cbn. keeps_tac.
  - intros k now J T C _. cbn. keeps_tac.
  - intros p k s. unfold wp, may_wait. cbn. by destruct (Z.ltb_spec 0 (default 0 p.(dp_timeout_seconds))).
Qed.

Definition sample_catalog : deploy_catalog :=
  mk_deploy_catalog [mk_vm_template 3 "Linux - Guest agent" "debian" false]
    [mk_proxmox_cluster 1 true (None, None)
       [mk_proxmox_node "pve1" true [Some "debian"] [mk_capacity_snapshot (Some 1) (Some 64) (Some 8)]]].
Definition sample_machine (k : Z) : service :=
  mk_service k "vm" (Some 1) ST_VM SS_PENDING
    (Some (mk_vm_ext None None None (Some 3) None GS_PROVISIONING None)) None None [] []
    None None None None None PV_BILLING.
(** A machine whose product says where its backups are. *)
Definition sample_backed_up : service :=
  (sample_machine 3) <|sv_product_snapshot := [("effective_specs",
    JObj [("platform_backup_storage", JStr "pbs"); ("client_backup_storage", JStr "pbs-client")])]|>.
Definition sample_session : session :=
  session_of (empty_db <|db_services := [sample_machine 1; sample_machine 2; sample_backed_up]|>) 0.
Definition sample_job_requests : list (Z * job_request) :=
  [(0, JqProvision 1); (seconds 1, JqWorker sample_env "a" 60); (seconds 2, JqProvision 1);
   (seconds 3, JqPassword 2); (seconds 4, JqRestore [] 3 "vm/103/1" None true None);
   (seconds 5, JqPassword 3); (seconds 6, JqRestore [] 3 "vm/103/2" None true None);
   (seconds 30, JqWorker sample_env "b" 60); (seconds 90, JqWorker sample_env "a" 60)].
Definition sample_after : session := (serve_jobs sample_catalog pretty sample_job_requests sample_session).2.
Lemma sample_requests_well_behaved : well_behaved may_wait sample_job_requests.
Proof.
  intros t env w ttl Hin. cbn in Hin.
  repeat destruct Hin as [Hin|Hin]; simplify_eq; done || apply sample_well_behaved.
Qed.

Lemma deployments_run_in_order_witness :
  let s' := sample_after in
  map (fun j => (dj_strategy_name j, dj_status j)) s'.(s_db).(db_jobs)
  = [("guest_agent", JS_SUCCEEDED); ("apply_guest_password", JS_SUCCEEDED); ("restore_backup", JS_SUCCEEDED)] /\
  (forall j', In j' s'.(s_db).(db_jobs) ->
     rtc pipe_step (pipe_before [] [] j') (pipe_of s'.(s_db).(db_job_steps) j')).
Proof.
  split; [by vm_compute|].
  apply (deployments_run_in_order may_wait sample_catalog pretty sample_job_requests sample_session
           sample_after (Ok tt)).
  - apply sample_requests_well_behaved.
  - reflexivity.
  - apply no_jobs_ok.
  - by vm_compute.
Defined.

Lemma service_has_one_active_job_witness :
  let s' := sample_after in
  (length (active_jobs 1 s'.(s_db)) <= 1)%nat /\
  (forall j, In j s'.(s_db).(db_jobs) ->
     map jp_name (rows_of s'.(s_db).(db_job_steps) j) = job_names j).
Proof.
  apply (service_has_one_active_job may_wait sample_catalog pretty sample_job_requests
           sample_session sample_after (Ok tt)).
  - apply sample_requests_well_behaved.
  - reflexivity.
  - reflexivity.
  - reflexivity.
  - by vm_compute.
Defined.

(** A request that looked before another made its job makes a second one: no
    lock and no unique index stands between the look and the job. *)
Example looking_is_not_holding :
  let s := sample_session in
  let looked := (get_active_for_service 3 s).1 in
  let s1 := (enqueue_restore_backup_job [] 3 "vm/103/1" None true None s).2 in
  let y := ApplyGuestPasswordStrategy in
  let s2 := (create_job 3 y.(dy_name) (step_names y) y.(dy_max_attempts) s1).2 in
  looked = Ok None /\ length (active_jobs 3 s1.(s_committed)) = 1%nat
  /\ length (active_jobs 3 s2.(s_committed)) = 2%nat.
Proof. by vm_compute. Qed.
