(* ===== verification/Deadline.v ===== *)
(** A job that keeps failing ends: what JOB_RETRY_BUDGET, the timeouts of the
    steps and the delay between passes of src/app/services/deployment/runner.py
    promise together.  Once the budget is spent, each pass either finishes a
    step, ends the job, or waits at least a second within the time its step is
    given; so the passes left can be counted.  The last section shows passes
    that overlap. *)
From Stdlib Require Import ZArith Lia.
From stdpp Require Import base numbers list strings pretty relations.
From S2P Require Import Prelude Calendar Models Session Lifecycle Vmid Placement Jobs Pipeline.
#[local] Open Scope Z_scope.
#[local] Open Scope py_scope.

(** * Passes over one job *)

(** The session of a pass, opened at a time. *)
Definition session_at (t : Z) (s : session) : session :=
  s <|s_now := t|> <|s_db := s.(s_committed)|>.

(** Passes that claim the job [k] and run to their end, at these times. *)
Inductive worked (env : deploy_env) (k : Z) : list Z -> session -> session -> Prop :=
| worked_nil s : worked env k [] s s
| worked_cons t ts w ttl s s1 s2 s3 :
    claim_next_runnable w ttl 10 (session_at t s) = (Ok (Some k), s1) ->
    run_job_tick env k s1 = (Ok tt, s2) ->
    worked env k ts s2 s3 ->
    worked env k (t :: ts) s s3.

(** The seconds a step is given. *)
Definition step_seconds (p : deployment_step) : Z := Z.max 0 (default 0 p.(dp_timeout_seconds)).
(** The passes a step can take from its start: it waits at most once a second
    within its time, is found timed out once, and may end. *)
Definition step_passes (p : deployment_step) : Z := step_seconds p + 2.
Definition total_passes (l : list deployment_step) : Z :=
  fold_right (fun p n => step_passes p + n) 0 l.

(** The passes left to the step a job is at, started at [st], due at [nx]. *)
Definition passes_left (p : deployment_step) (st nx : option Z) : Z :=
  match st, nx with
  | Some st, Some nx =>
      let used := Z.max 0 (nx - st) in
      if seconds (step_seconds p) <? used then 1
      else 2 + (seconds (step_seconds p) - used) / seconds 1
  | _, _ => step_passes p
  end.

Lemma passes_left_bounds p st nx : 1 <= passes_left p st nx <= step_passes p.
Proof.
  assert (0 <= step_seconds p) by (unfold step_seconds; lia).
  unfold passes_left, step_passes, seconds. destruct st as [st|], nx as [nx|]; try lia.
  destruct (Z.ltb_spec (step_seconds p * 1000000) (Z.max 0 (nx - st))) as [|Hle]; [lia|].
  Z.to_euclidean_division_equations; lia.
Qed.
(** A wait of [n] seconds, begun in the time of the step, uses a pass up. *)
Lemma passes_left_wait p st nx t n :
  1 <= n -> (forall a, nx = Some a -> a <= t) -> (forall a, st = Some a -> a <= t) ->
  t - default t st <= seconds (step_seconds p) ->
  passes_left p (Some (default t st)) (Some (t + seconds n)) + 1 <= passes_left p st nx.
Proof.
  intros Hn Hnx Hst Hin. assert (0 <= step_seconds p) by (unfold step_seconds; lia).
  unfold passes_left, step_passes, seconds in *.
  assert (forall a, a <= t -> t - a <= step_seconds p * 1000000 -> forall b, Z.max 0 b <= t - a ->
    (if step_seconds p * 1000000 <? Z.max 0 (t + n * 1000000 - a) then 1
     else 2 + (step_seconds p * 1000000 - Z.max 0 (t + n * 1000000 - a)) / (1 * 1000000)) + 1
    <= 2 + (step_seconds p * 1000000 - Z.max 0 b) / (1 * 1000000)) as Haux.
  { intros a Ha Hp b Hb. destruct (Z.ltb_spec (step_seconds p * 1000000) (Z.max 0 (t + n * 1000000 - a)));
      Z.to_euclidean_division_equations; lia. }
  destruct st as [st|]; cbn in *.
  - specialize (Hst st eq_refl). destruct nx as [nx|].
    + specialize (Hnx nx eq_refl). specialize (Haux st Hst Hin (nx - st)).
      destruct (Z.ltb_spec (step_seconds p * 1000000) (Z.max 0 (nx - st))); [lia|]. apply Haux. lia.
    + specialize (Haux st Hst Hin 0 ltac:(lia)). revert Haux.
      generalize (if step_seconds p * 1000000 <? Z.max 0 (t + n * 1000000 - st) then 1
        else 2 + (step_seconds p * 1000000 - Z.max 0 (t + n * 1000000 - st)) / (1 * 1000000)).
      intros z Hz. Z.to_euclidean_division_equations; lia.
  - specialize (Haux t ltac:(lia) ltac:(lia) 0 ltac:(lia)). revert Haux.
    generalize (if step_seconds p * 1000000 <? Z.max 0 (t + n * 1000000 - t) then 1
      else 2 + (step_seconds p * 1000000 - Z.max 0 (t + n * 1000000 - t)) / (1 * 1000000)).
    intros z Hz. Z.to_euclidean_division_equations; lia.
Qed.

(** * What a pass did *)

(** A job that runs, read as its rows. *)
Inductive running_at (T : list job_step) (j : deploy_job) (y : deployment_strategy)
    (p : deployment_step) (before : list job_step) (r : job_step) (rest : list job_step) : Prop :=
| running_at_intro :
    resolve_strategy j.(dj_strategy_name) = Some y ->
    rows_of T j = before ++ r :: rest ->
    j.(dj_current_step_index) = Z.of_nat (length before) ->
    length (dy_steps y) = length (before ++ r :: rest) ->
    nth_error y.(dy_steps) (length before) = Some p ->
    map jp_position (before ++ r :: rest)
      = map Z.of_nat (seq 0 (length (before ++ r :: rest))) ->
    Forall not_begun rest ->
    running_at T j y p before r rest.

Lemma runs_at T j :
  job_ok T j -> is_terminal j.(dj_status) = false ->
  exists y p before r rest, running_at T j y p before r rest.
Proof.
  intros Hok Hrun. destruct (job_ok_row T j) as (y & p & before & r & rest & Hy & Hrows & Hidx &
    Hlen & Hp & _ & _ & Hpos & _ & _ & Hpend); [done|by destruct (dj_status j)|].
  exists y, p, before, r, rest. rewrite Hidx, Nat2Z.id in Hp. by constructor.
Qed.
Lemma running_at_inj T j y p b r l y' p' b' r' l' :
  running_at T j y p b r l -> running_at T j y' p' b' r' l' ->
  y' = y /\ p' = p /\ b' = b /\ r' = r /\ l' = l.
Proof.
  intros [Hy Hrows Hidx _ Hp _ _] [Hy' Hrows' Hidx' _ Hp' _ _].
  rewrite Hrows in Hrows'. assert (length b' = length b) as Hl by lia.
  apply app_inj_1 in Hrows' as [<- [= <- <-]]; [|done].
  assert (y' = y) as -> by congruence. assert (p' = p) as -> by congruence. done.
Qed.

(** The passes left to a job. *)
Definition job_left (T : list job_step) (j : deploy_job) : Z :=
  match resolve_strategy j.(dj_strategy_name) with
  | None => 0
  | Some y =>
      let i := Z.to_nat j.(dj_current_step_index) in
      match nth_error y.(dy_steps) i,
        hd_error (List.filter (fun r => r.(jp_position) =? j.(dj_current_step_index)) (rows_of T j)) with
      | Some p, Some r =>
          passes_left p r.(jp_started_at) j.(dj_next_run_at) + total_passes (skipn (S i) y.(dy_steps))
      | _, _ => 0
      end
  end.
Definition job_passes (j : deploy_job) : Z :=
  match resolve_strategy j.(dj_strategy_name) with
  | None => 0
  | Some y => total_passes (skipn (Z.to_nat j.(dj_current_step_index)) y.(dy_steps))
  end.

Lemma job_left_at T j y p b r l :
  running_at T j y p b r l ->
  job_left T j = passes_left p r.(jp_started_at) j.(dj_next_run_at)
                 + total_passes (skipn (S (length b)) y.(dy_steps)).
Proof.
  intros [Hy Hrows Hidx _ Hp Hpos _]. unfold job_left. rewrite Hy, Hidx, Nat2Z.id, Hp, Hrows.
  pose proof (position_unique b r l 0 Hpos) as Hu.
  change (0 + length b)%nat with (length b) in Hu. by rewrite Hu.
Qed.
Lemma skipn_step {A} (l : list A) n x : nth_error l n = Some x -> skipn n l = x :: skipn (S n) l.
Proof.
  revert l. induction n as [|n IH]; intros [|a l]; cbn; try done; [by intros [= ->]|]. intros H.
  rewrite (IH l H). by destruct l.
Qed.
Lemma job_left_le T j y p b r l : running_at T j y p b r l -> 1 <= job_left T j <= job_passes j.
Proof.
  intros Hat. rewrite (job_left_at _ _ _ _ _ _ _ Hat). destruct Hat as [Hy _ Hidx _ Hp _ _].
  unfold job_passes. rewrite Hy, Hidx, Nat2Z.id, (skipn_step _ _ _ Hp). cbn [total_passes fold_right].
  fold (total_passes (skipn (S (length b)) (dy_steps y))).
  assert (forall l, 0 <= total_passes l) as Hpos.
  { induction l0 as [|q l0 IH]; cbn; [lia|]. fold (total_passes l0).
    unfold step_passes, step_seconds. lia. }
  specialize (Hpos (skipn (S (length b)) (dy_steps y))).
  pose proof (passes_left_bounds p r.(jp_started_at) j.(dj_next_run_at)). lia.
Qed.

(** A pass: the job was due, and its transition was kept. *)
Inductive passed (W : deployment_step -> Prop) (w : string) (t : Z) (k : Z)
    (J : list deploy_job) (T : list job_step) (J' : list deploy_job) (T' : list job_step) : Prop :=
| passed_intro cutoff j y p before r rest j' r' :
    tbl_get k J = Some j -> claimable t cutoff j = true ->
    running_at T j y p before r rest ->
    stepped W t y p (claimed_job w t j) r j' r' -> same_step r r' ->
    J' = tbl_update k (fun _ => j') J -> T' = tbl_update r.(jp_id) (fun _ => r') T ->
    evolves J T J' T' ->
    passed W w t k J T J' T'.

Lemma pass_spec W env w ttl k t s s1 s2 :
  WellBehaved env W -> jobs_ok s.(s_committed).(db_jobs) s.(s_committed).(db_job_steps) ->
  claim_next_runnable w ttl 10 (session_at t s) = (Ok (Some k), s1) ->
  run_job_tick env k s1 = (Ok tt, s2) ->
  passed W w t k s.(s_committed).(db_jobs) s.(s_committed).(db_job_steps)
    s2.(s_committed).(db_jobs) s2.(s_committed).(db_job_steps).
Proof.
  intros Hwb Hok Hclaim Htick.
  set (J := s.(s_committed).(db_jobs)) in *. set (T := s.(s_committed).(db_job_steps)) in *.
  assert (exists j, In j J /\ j.(dj_id) = k /\ claimable t (t - seconds ttl) j = true /\
    s1.(s_now) = t /\ s1.(s_committed) = s1.(s_db) /\
    rows_are (tbl_update k (fun _ => claimed_job w t j) J) T s1.(s_db)) as (j & Hj & Hk & Hc & Hs1).
  { unfold claim_next_runnable in Hclaim. cbn in Hclaim. unfold bind, utcnow, gets, read in Hclaim. 
    cbn in Hclaim. eapply wp_result in Hclaim; [|apply (wp_claim_first J T t (t - seconds ttl) w Hok); try done].
    - destruct Hclaim as (H1 & H2 & j & Hj & Hid & Hc & Hr). by exists j.
    - intros j Hin. by apply take_In, sort_by_In, filter_In in Hin. }
  subst k. pose proof (claimable_running _ _ j Hc) as Hrun.
  set (j1 := claimed_job w t j) in *. set (J1 := tbl_update j.(dj_id) _ J) in *.
  assert (evolves J T J1 T) as Hev1 by by apply evolves_touched.
  destruct (job_ok_row T j1) as (y & p & before & r & rest & Hy & Hrows & Hidx & Hlen & Hp & Hhd &
    Hnames & Hpos & Hb & Ha & Hpend); [by apply Hev1, (replaced_in J j j1 Hj)|done|].
  pose proof (replaced_row J1 T j1 r before rest (proj1 Hev1) Hrows) as [Hr _].
  destruct Hs1 as (Hnow & Hsync & HJ1 & HT1).
  eapply wp_result in Htick.
  2: { eapply (wp_run_job_tick W env t y p J1 T j1 r); try done.
       - apply get_job; [apply Hev1|apply (replaced_in J j j1 Hj)].
       - apply Hev1.
       - apply Hev1.
       - split; [done|]. split; [done|]. split; [done|]. apply effect_none. by rewrite Hsync. }
  destruct Htick as (j' & r' & Hst & Hsame & (_ & _ & _ & [HJ' HT'])).
  assert (forall j2, tbl_update j1.(dj_id) (fun _ => j2) J1 = tbl_update j.(dj_id) (fun _ => j2) J) as E2
    by (intros; by apply (tbl_update_again J)).
  assert (evolves J T (db_jobs s2.(s_committed)) (db_job_steps s2.(s_committed))) as Hev.
  { eapply evolves_trans; [exact Hev1|]. inversion_clear Ha.
    eapply (effect_evolves W t y p J1 T j1 r before rest); try done.
    - apply Hev1.
    - apply (replaced_in J j j1 Hj).
    - by eapply effect_whole. }
  rewrite HJ', HT', E2 in *. eapply passed_intro; try done.
  - by apply get_job; [apply Hok|].
  - rewrite Hidx, Nat2Z.id in Hp. by constructor.
Qed.

(** * Counting the passes *)

(** The step a job is at did not start after the passes to come. *)
Definition clock_ok (ts : list Z) (T : list job_step) (j : deploy_job) : Prop :=
  forall y p b r l st, running_at T j y p b r l -> r.(jp_started_at) = Some st ->
    (exists nx, j.(dj_next_run_at) = Some nx /\ st <= nx) \/ (forall t, In t ts -> st <= t).
Definition overdue (t : Z) (j : deploy_job) : Prop :=
  exists t0, j.(dj_started_at) = Some t0 /\ t0 + JOB_RETRY_BUDGET <= t.

Lemma claimable_due t cutoff j a :
  claimable t cutoff j = true -> j.(dj_next_run_at) = Some a -> a <= t.
Proof. unfold claimable. intros Hc E. rewrite E in Hc. destruct (Z.leb_spec a t); [done|]. by rewrite andb_false_r in Hc. Qed.

(** The job after a step that goes on. *)
Lemma running_waits T j y p b r l r' j' :
  tbl_wf T -> running_at T j y p b r l -> same_job j j' -> same_step r r' ->
  j'.(dj_current_step_index) = j.(dj_current_step_index) ->
  running_at (tbl_update r.(jp_id) (fun _ => r') T) j' y p b r' l.
Proof.
  intros Hwf [Hy Hrows Hidx Hlen Hp Hpos Hl] (Hid & _ & Hname) Hstep Hi.
  assert (length (b ++ r' :: l) = length (b ++ r :: l)) as El by by rewrite !length_app.
  constructor; [by rewrite Hname| |by rewrite Hi|by rewrite El|done| |done].
  - unfold rows_of. rewrite Hid. apply (rows_of_replaced T j); try done.
    apply (tbl_get_wf T r Hwf). assert (In r (rows_of T j)) as [Hin _]%filter_In; [|done].
    rewrite Hrows. apply in_app_iff. right. by left.
  - rewrite El, <- Hpos, !map_app. cbn. by rewrite (proj1 (proj2 (proj2 Hstep))).
Qed.
(** The job at its next step. *)
Lemma running_next T j y p b r r2 l r' j' p2 :
  tbl_wf T -> running_at T j y p b r (r2 :: l) -> same_job j j' -> same_step r r' ->
  j'.(dj_current_step_index) = j.(dj_current_step_index) + 1 ->
  nth_error y.(dy_steps) (S (length b)) = Some p2 ->
  running_at (tbl_update r.(jp_id) (fun _ => r') T) j' y p2 (b ++ [r']) r2 l.
Proof.
  intros Hwf Hat Hsame Hstep Hi Hp2.
  destruct (running_waits T j y p b r (r2 :: l) r'
    (j' <|dj_current_step_index := j.(dj_current_step_index)|>) Hwf Hat) as
    [Hy Hrows Hidx Hlen _ Hpos Hl]; [done..|].
  assert ((b ++ [r']) ++ r2 :: l = b ++ r' :: r2 :: l) as El by by rewrite <- app_assoc.
  constructor; rewrite ?El; try done.
  - rewrite Hi, length_app. cbn in *. lia.
  - rewrite length_app. cbn. by rewrite Nat.add_1_r.
  - by inversion_clear Hl.
Qed.

Section Counting.
Context (W : deployment_step -> Prop).
Hypothesis HW : forall p, W p -> 0 < default 0 p.(dp_timeout_seconds).

Lemma in_time p r t :
  W p -> step_timed_out p r t = false -> t - default t r.(jp_started_at) <= seconds (step_seconds p).
Proof.
  intros Hp%HW. unfold step_timed_out, step_seconds, seconds.
  destruct p.(dp_timeout_seconds) as [n|], r.(jp_started_at) as [st|]; cbn in *; lia.
Qed.

(** An overdue job ends, or has fewer passes left. *)
Lemma pass_counts w t k J T J' T' ts j :
  passed W w t k J T J' T' -> jobs_ok J T -> tbl_get k J = Some j ->
  overdue t j -> clock_ok (t :: ts) T j ->
  exists j', tbl_get k J' = Some j' /\ j'.(dj_started_at) = j.(dj_started_at) /\
    jobs_ok J' T' /\
    (is_terminal j'.(dj_status) = true \/
     (job_left T' j' + 1 <= job_left T j /\ clock_ok ts T' j')).
Proof.
  intros [cutoff j0 y p b r l j' r' Hj Hc Hat Hst Hstep -> -> Hev] Hok Hj0 (t0 & Ht0 & Hlate) Hclock.
  assert (j0 = j) as -> by congruence. pose proof (get_job_id _ _ _ Hj) as Hid.
  exists j'. assert (forall x, x.(dj_started_at) = j.(dj_started_at) -> x.(dj_id) = j.(dj_id) ->
    tbl_get k (tbl_update k (fun _ => x) J) = Some x) as Hget
    by (intros x _ Hx; apply (tbl_get_replaced J k j); [done|by rewrite <- Hid]).
  rewrite (job_left_at _ _ _ _ _ _ _ Hat). pose proof (proj1 Hev) as Hok'.
  destruct Hst as [n Hp Hn Hin -> _ Hr'|error Hf Hnext ->|Hf Hnext ->|message n Hearly _ -> _ _
    |message _ -> _|message _ -> ->].
  all: assert ((claimed_job w t j).(dj_started_at) = j.(dj_started_at)) as Hs by (cbn; by rewrite Ht0).
  all: split; [by apply Hget|split; [exact Hs|split; [exact Hok'|]]].
  3, 5, 6: by left.
  - right. assert (forall st, r.(jp_started_at) = Some st -> st <= t) as Hpast.
    { intros st Est. destruct (Hclock _ _ _ _ _ _ Hat Est) as [(nx & Hnx & Hle)|Hle].
      - pose proof (claimable_due _ _ _ _ Hc Hnx). lia.
      - apply Hle. by left. }
    pose proof (running_waits T j y p b r l r'
      (waiting_job (t + seconds n) (claimed_job w t j)) (proj1 (proj2 Hok)) Hat) as Hat2.
    specialize (Hat2 ltac:(done) Hstep ltac:(done)).
    rewrite (job_left_at _ _ _ _ _ _ _ Hat2), Hr'. split.
    + pose proof (passes_left_wait p r.(jp_started_at) j.(dj_next_run_at) t n Hn
        (fun a => claimable_due t cutoff j a Hc) Hpast (in_time p r t Hp Hin)) as Hlt.
      cbn [waiting_job dj_next_run_at update]. lia.
    + intros y2 p2 b2 r2 l2 st Hat3 Est.
      destruct (running_at_inj _ _ _ _ _ _ _ _ _ _ _ _ Hat2 Hat3) as (_ & _ & _ & -> & _).
      left. exists (t + seconds n). split; [done|]. rewrite Hr' in Est. injection Est as <-.
      destruct r.(jp_started_at) as [st|]; cbn; [specialize (Hpast st eq_refl)|]; unfold seconds; lia.
  - right. pose proof Hat as [Hy Hrows Hidx Hlen Hp Hpos Hl].
    cbn [claimed_job begun claimed dj_current_step_index update] in Hnext.
    rewrite Hidx in Hnext. replace (Z.to_nat (Z.of_nat (length b) + 1)) with (S (length b)) in Hnext by lia.
    destruct (nth_error y.(dy_steps) (S (length b))) as [p2|] eqn:Hp2; [|done].
    assert (S (length b) < length y.(dy_steps))%nat as Hlt by (apply nth_error_Some; congruence).
    rewrite length_app in Hlen. destruct l as [|r2 l]; [cbn in Hlen; lia|].
    pose proof (running_next T j y p b r r2 l r' (released_job ((claimed_job w t j)
      <|dj_current_step_index := (claimed_job w t j).(dj_current_step_index) + 1|>
      <|dj_error_message := error|>)) p2 (proj1 (proj2 Hok)) Hat) as Hat2.
    specialize (Hat2 ltac:(done) Hstep ltac:(done) Hp2).
    inversion_clear Hl as [|? ? [_ Hfresh] _]. split.
    + rewrite (job_left_at _ _ _ _ _ _ _ Hat2), Hfresh, length_app. cbn [passes_left length].
      rewrite Nat.add_1_r, (skipn_step y.(dy_steps) (S (length b)) p2 Hp2).
      pose proof (passes_left_bounds p r.(jp_started_at) j.(dj_next_run_at)).
      cbn [total_passes fold_right].
      fold (total_passes (skipn (S (S (length b))) y.(dy_steps))). lia.
    + intros y3 p3 b3 r3 l3 st Hat3 Est.
      destruct (running_at_inj _ _ _ _ _ _ _ _ _ _ _ _ Hat2 Hat3) as (_ & _ & _ & -> & _).
      congruence.
  - exfalso. unfold job_retry_deadline in Hearly. rewrite Hs, Ht0 in Hearly. cbn in Hearly. lia.
Qed.

(** The passes to come suffice for the job. *)
Definition in_budget (ts : list Z) (T : list job_step) (j : deploy_job) : Prop :=
  is_terminal j.(dj_status) = true \/
  (job_left T j <= Z.of_nat (length ts) /\ clock_ok ts T j).

Lemma budget_spent T j : job_ok T j -> in_budget [] T j -> is_terminal j.(dj_status) = true.
Proof.
  intros Hok [|[Hleft _]]; [done|]. destruct (is_terminal j.(dj_status)) eqn:Hrun; [done|].
  destruct (runs_at T j) as (y & p & b & r & l & Hat); [done..|].
  pose proof (job_left_le _ _ _ _ _ _ _ Hat). cbn in Hleft. lia.
Qed.
Lemma pass_in_budget w t k J T J' T' ts j :
  passed W w t k J T J' T' -> jobs_ok J T -> tbl_get k J = Some j ->
  overdue t j -> in_budget (t :: ts) T j ->
  exists j', tbl_get k J' = Some j' /\ j'.(dj_started_at) = j.(dj_started_at) /\
    jobs_ok J' T' /\ in_budget ts T' j'.
Proof.
  intros Hpass Hok Hj Hlate [Hend|[Hleft Hclock]].
  - destruct Hpass as [cutoff j0 y p b r l j' r' Hj0 Hc]. apply claimable_running in Hc. congruence.
  - destruct (pass_counts w t k J T J' T' ts j Hpass Hok Hj Hlate Hclock)
      as (j' & Hj' & Hst & Hok' & Hend).
    exists j'. do 3 (split; [done|]). destruct Hend as [Hend|[Hlt Hclock']]; [by left|right].
    split; [cbn [length] in Hleft; lia|done].
Qed.
End Counting.

(** C9. Every deployment ends.  Once the retry budget of a job is spent, let
    its passes come at any times at which it may be claimed, each run to its
    end, and the clock not before the start of the step it is at.  Then after
    as many of them as the timeouts of its remaining steps allow, in seconds,
    and two for each step, the job has succeeded or failed: it cannot wait or
    retry for ever.  The steps that ask to wait are those with a timeout, as
    the steps of the program are. *)
Theorem overdue_deployments_end W env k ts s s' j :
  WellBehaved env W -> (forall p, W p -> 0 < default 0 p.(dp_timeout_seconds)) ->
  jobs_ok s.(s_committed).(db_jobs) s.(s_committed).(db_job_steps) ->
  tbl_get k s.(s_committed).(db_jobs) = Some j ->
  Forall (fun t => overdue t j) ts ->
  (forall r st t, In r (rows_of s.(s_committed).(db_job_steps) j) ->
     r.(jp_started_at) = Some st -> In t ts -> st <= t) ->
  worked env k ts s s' -> job_passes j <= Z.of_nat (length ts) ->
  exists j', tbl_get k s'.(s_committed).(db_jobs) = Some j' /\ is_terminal j'.(dj_status) = true.
Proof.
  intros Hwb HW Hok Hj Hlate Hrows Hwork Hlen.
  assert (in_budget ts s.(s_committed).(db_job_steps) j) as Hleft.
  { destruct (is_terminal j.(dj_status)) eqn:Hrun; [by left|right].
    destruct (runs_at s.(s_committed).(db_job_steps) j) as (y & p & b & r & l & Hat); [|done|].
    { by apply Hok, (tbl_get_In k). }
    split; [pose proof (job_left_le _ _ _ _ _ _ _ Hat); lia|].
    intros y1 p1 b1 r1 l1 st [_ Hr1 _ _ _ _ _] Est. right. intros t Ht.
    apply (Hrows r1 st t); [rewrite Hr1; apply in_app_iff; right; by left|done|done]. }
  clear Hrows Hlen. revert j Hok Hj Hlate Hleft.
  induction Hwork as [s|t ts w ttl s s1 s2 s3 Hclaim Htick Hwork IH]; intros j Hok Hj Hlate Hleft.
  - exists j. split; [done|]. eapply budget_spent; [|exact Hleft]. by apply Hok, (tbl_get_In k).
  - pose proof (pass_spec W env w ttl k t s s1 s2 Hwb Hok Hclaim Htick) as Hpass.
    inversion_clear Hlate as [|? ? Ht Hts].
    destruct (pass_in_budget W HW w t k _ _ _ _ ts j Hpass Hok Hj Ht Hleft)
      as (j' & Hj' & Hst & Hok' & Hleft').
    apply (IH j' Hok' Hj'); [|done].
    eapply Forall_impl; [exact Hts|]. intros t2 (t0 & H1 & H2). exists t0. by rewrite Hst.
Qed.

(** ** A sample: the bound is met *)

(** A step with a timeout that is never ready, asked again every second. *)
Definition patient_env : deploy_env :=
  mk_deploy_env
    (fun p _ => ret (if 0 <? default 0 p.(dp_timeout_seconds)
                     then mk_step_outcome SR_WAIT None (Some 1) None
                     else mk_step_outcome SR_READY None None None))
    (fun _ _ => ret tt) (fun _ => ret PW_ON) exn_name (fun t => pretty t).
#[export] Instance patient_well_behaved : WellBehaved patient_env may_wait.
Proof.
  split.
  - intros p k now J T C _. cbn. keeps_tac.
  - intros p k now J T C _. cbn. keeps_tac.
  - intros k now J T C _. cbn. keeps_tac.
  - intros p k s. unfold wp, may_wait. cbn.
    by destruct (Z.ltb_spec 0 (default 0 p.(dp_timeout_seconds))).
Qed.

Definition stuck_row (k : Z) (p : deployment_step) (st : step_status) : job_step :=
  mk_job_step k 1 (k - 1) p.(dp_name) st 1 None None None None.
Definition stuck_job : deploy_job :=
  mk_deploy_job 1 1 "cloudinit_clone" JS_RUNNING 4 0 3 None None None None (Some 0) None 0.
Definition stuck_session : session :=
  session_of (empty_db <|db_services := [sample_machine 1]|> <|db_jobs := [stuck_job]|>
    <|db_job_steps := [stuck_row 1 CloneFromTemplateStep TS_SUCCEEDED;
                       stuck_row 2 ConfigureSizingStep TS_SUCCEEDED;
                       stuck_row 3 ConfigureCloudInitNetworkStep TS_SKIPPED;
                       stuck_row 4 PowerOnStep TS_SUCCEEDED;
                       stuck_row 5 StampVmIdentityStep TS_PENDING]|>) 0.
Lemma stuck_ok : jobs_ok stuck_session.(s_committed).(db_jobs) stuck_session.(s_committed).(db_job_steps).
Proof.
  split; [repeat constructor; cbn; tauto|]. split; [repeat constructor; cbn; lia|].
  split; [|split].
  - intros r Hr. exists stuck_job. split; [by left|]. cbn in Hr.
    by repeat destruct Hr as [<-|Hr].
  - intros j [<-|[]]. exists CloudinitCloneStrategy.
    exists (firstn 4 stuck_session.(s_committed).(db_job_steps)),
      (skipn 4 stuck_session.(s_committed).(db_job_steps)).
    do 5 (split; [reflexivity|]). split; [repeat constructor|]. split; [repeat constructor|].
    split; [constructor|]. by split.
  - intros j1 j2 [<-|[]] [<-|[]]. done.
Qed.

(** Passes at these times, when each claims the job and runs to its end. *)
Fixpoint work (env : deploy_env) (k : Z) (ts : list Z) (s : session) : option session :=
  match ts with
  | [] => Some s
  | t :: ts =>
      match claim_next_runnable "w" 60 10 (session_at t s) with
      | (Ok (Some k'), s1) =>
          if k' =? k then
            match run_job_tick env k s1 with
            | (Ok tt, s2) => work env k ts s2
            | _ => None
            end
          else None
      | _ => None
      end
  end.
Lemma work_worked env k ts s s' : work env k ts s = Some s' -> worked env k ts s s'.
Proof.
  revert s. induction ts as [|t ts IH]; intros s; cbn [work]; [intros [= ->]; constructor|].
  destruct (claim_next_runnable "w" 60 10 (session_at t s)) as [[[k'|]|e] s1] eqn:Hc; try done.
  destruct (Z.eqb_spec k' k) as [->|]; [|done].
  destruct (run_job_tick env k s1) as [[[]|e] s2] eqn:Ht; [|done].
  intros Hw. econstructor; [exact Hc|exact Ht|by apply IH].
Qed.

Definition late_passes : list Z :=
  map (fun i => JOB_RETRY_BUDGET + seconds (Z.of_nat i)) (seq 0 122).
Definition stuck_after (n : nat) : session :=
  default stuck_session (work patient_env 1 (firstn n late_passes) stuck_session).
Lemma late_passes_worked : worked patient_env 1 late_passes stuck_session (stuck_after 122).
Proof. apply work_worked. by vm_compute. Qed.
Lemma late_passes_overdue : Forall (fun t => overdue t stuck_job) late_passes.
Proof.
  apply List.Forall_forall. intros t (n & <- & _)%in_map_iff. exists 0.
  split; [done|]. unfold seconds. lia.
Qed.

Lemma overdue_deployments_end_witness :
  map dj_status (stuck_after 121).(s_db).(db_jobs) = [JS_WAITING] /\
  exists j', tbl_get 1 (stuck_after 122).(s_committed).(db_jobs) = Some j' /\
    is_terminal j'.(dj_status) = true.
Proof.
  split; [by vm_compute|].
  apply (overdue_deployments_end may_wait patient_env 1 late_passes stuck_session
           (stuck_after 122) stuck_job).
  - apply patient_well_behaved.
  - intros p Hp. exact Hp.
  - apply stuck_ok.
  - reflexivity.
  - apply late_passes_overdue.
  - intros r st t Hr. cbn in Hr. repeat (destruct Hr as [<-|Hr]; [discriminate|]). done.
  - apply late_passes_worked.
  - vm_compute. discriminate.
Defined.

(** ** A lease shorter than a step *)

(** An action that is written down, and takes a minute and a second the first
    time it powers the machine on; another worker looks for jobs meanwhile. *)
Definition note (name : string) : Meth unit :=
  modify (fun s => s <|s_calls := s.(s_calls) ++ [mk_rpc_call 0 name []]|>).
Definition noting_env (others : Meth unit) : deploy_env :=
  mk_deploy_env
    (fun _ _ => ret (mk_step_outcome SR_READY None None None))
    (fun p _ => note p.(dp_name) ;;;
                if p.(dp_name) == "power_on"
                then modify (fun s => s <|s_now := s.(s_now) + seconds 61|>) ;;; others
                else ret tt)
    (fun _ => ret PW_ON) exn_name (fun t => pretty t).
Definition other_worker : Meth unit :=
  worker_pass (noting_env (ret tt)) "b" 60 ;;; ret tt.
Definition contended_session : session :=
  session_of (empty_db <|db_services := [sample_machine 1]|>
    <|db_jobs := [stuck_job <|dj_current_step_index := 3|>]|>
    <|db_job_steps := [stuck_row 1 CloneFromTemplateStep TS_SUCCEEDED;
                       stuck_row 2 ConfigureSizingStep TS_SUCCEEDED;
                       stuck_row 3 ConfigureCloudInitNetworkStep TS_SKIPPED;
                       stuck_row 4 PowerOnStep TS_PENDING;
                       stuck_row 5 StampVmIdentityStep TS_PENDING]|>) 0.

(** The lease is not renewed while a step runs, so a worker that is alive loses
    its job to another, and the step is executed a second time. *)
Example lease_shorter_than_step :
  map rc_method (worker_pass (noting_env other_worker) "a" 60 contended_session).2.(s_calls)
  = ["power_on"; "power_on"].
Proof. by vm_compute. Qed.

(** The first worker then adds one to an index that the other has already moved,
    when its transaction reads the row after the other's commit: the job ends as
    succeeded, and its last step never began. *)
Example overlapping_passes_skip_a_step :
  let s' := (worker_pass (noting_env other_worker) "a" 60 contended_session).2 in
  map (fun j => (dj_status j, dj_current_step_index j)) s'.(s_committed).(db_jobs) = [(JS_SUCCEEDED, 5)]
  /\ map jp_status s'.(s_committed).(db_job_steps)
     = [TS_SUCCEEDED; TS_SUCCEEDED; TS_SKIPPED; TS_SUCCEEDED; TS_PENDING].
Proof. by vm_compute. Qed.
