(* ===== verification/Ipam.v ===== *)
(** IP address management: subnets, the addresses seeded in them, and the
    assignment of addresses to services, with reselling of one address to
    several owners.  src/app/dao/ipam_dao.py and
    src/app/services/ip_allocation.py. *)
From Stdlib Require Import ZArith Lia Permutation.
From stdpp Require Import base numbers list strings pretty.
From S2P Require Import Prelude Models Session.
#[local] Open Scope Z_scope.
#[local] Open Scope py_scope.

(** * Allocation strategies *)

(** [sorted(l, key=key)], where keys are pairs. *)
Definition key_leb (x y : Z * Z) : bool := (x.1 <? y.1) || ((x.1 =? y.1) && (x.2 <=? y.2)).
Definition sorted_by {A} (key : A -> Z * Z) (l : list A) : list A :=
  sort_by (fun x y => key_leb (key x) (key y)) l.

Inductive strategy : Type := FirstFree | LeastRecentlyUsed | SpreadSubnets.
Definition strategy_key (s : strategy) (i : ip_address) : Z * Z :=
  match s with
  | FirstFree => (i.(ip_id), i.(ip_id))
  | LeastRecentlyUsed => (i.(ip_updated_at), i.(ip_id))
  | SpreadSubnets => (i.(ip_id) mod 2, i.(ip_id))
  end.
Definition strategy_order (s : strategy) (ips : list ip_address) : list ip_address :=
  sorted_by (strategy_key s) ips.
Definition strategy_name (s : strategy) : string :=
  match s with
  | FirstFree => "first_free"
  | LeastRecentlyUsed => "least_recently_used"
  | SpreadSubnets => "spread_subnets"
  end.
(** [registry.resolve(name)]; the empty name is registered by none. *)
Definition resolve_strategy (name : string) : strategy :=
  match List.find (fun s => strategy_name s == name) [FirstFree; LeastRecentlyUsed; SpreadSubnets] with
  | Some s => s
  | None => FirstFree
  end.

(** * Rows *)

(** Assigning the value a column already has writes nothing, so [updated_at]
    stays. *)
Definition set_ip_state (state : string) (now : Z) (i : ip_address) : ip_address :=
  if i.(ip_state) == state then i else i <|ip_state := state|> <|ip_updated_at := now|>.
Definition upd_ip (k : Z) (f : ip_address -> ip_address) : Meth unit :=
  write (fun d => d <|db_ips := tbl_update k f d.(db_ips)|>).
Definition upd_assignment (k : Z) (f : ip_assignment -> ip_assignment) : Meth unit :=
  write (fun d => d <|db_assignments := tbl_update k f d.(db_assignments)|>).
Definition delete_assignment (k : Z) : Meth unit :=
  write (fun d => d <|db_assignments := tbl_delete k d.(db_assignments)|>).
Definition add_history (service_id : Z) (address : string) (cidr : option string)
    (action : string) (username assigned_by : option string) (details : dict) : Meth unit :=
  now <- utcnow ;;
  write (fun d => d <|db_ip_history := d.(db_ip_history) ++
    [mk_ip_history (tbl_fresh d.(db_ip_history)) (Some service_id) address cidr action
       username assigned_by details now]|>).

(** [ip_row.assignments], and the queries that count them, by primary key. *)
Definition assignments_of (ip : Z) (d : db) : list ip_assignment :=
  List.filter (fun a => a.(as_ip_id) =? ip) d.(db_assignments).
Definition ips_in (subnet : Z) (state : string) (d : db) : list ip_address :=
  List.filter (fun i => (i.(ip_subnet_id) =? subnet) && (i.(ip_state) == state)) d.(db_ips).

(** * Subnets *)

Definition MAX_SEED_HOSTS : Z := 4096.

Definition seed_ips (subnet_id : Z) (hosts : list string) : Meth unit :=
  for_each hosts (fun host =>
    existing <- read (fun d => List.find (fun i => i.(ip_ip_address) == host) d.(db_ips)) ;;
    match existing with
    | Some _ => ret tt
    | None =>
        now <- utcnow ;;
        write (fun d => d <|db_ips := d.(db_ips) ++
          [mk_ip_address (tbl_fresh d.(db_ips)) subnet_id host "free" now]|>)
    end) ;;;
  commit.

(** [hosts] is what [_hosts_in_range] lists with the [ipaddress] module. *)
Definition create_subnet (hosts : list string) (name cidr : string) (location_id : option Z)
    (range_start range_end : option string) (tags : list json) (allocation_strategy : string)
    (max_resale_count : Z) : Meth Z :=
  throw_if (MAX_SEED_HOSTS <? Z.of_nat (List.length hosts))
    (ValueError ("Subnet would seed " +:+ pretty (Z.of_nat (List.length hosts))
       +:+ " IPs, exceeding the 4096 limit; narrow the CIDR or set range_start/range_end")) ;;;
  throw_if (max_resale_count <? 1) (ValueError "max_resale_count must be at least 1") ;;;
  k <- read (fun d => tbl_fresh d.(db_subnets)) ;;
  write (fun d => d <|db_subnets := d.(db_subnets) ++
    [mk_ip_subnet k name cidr location_id range_start range_end tags allocation_strategy true
       max_resale_count]|>) ;;;
  commit ;;;
  seed_ips k hosts ;;;
  ret k.

Definition get_subnet (k : Z) : Meth (option ip_subnet) :=
  read (fun d => tbl_get k d.(db_subnets)).
Definition upd_subnet (k : Z) (f : ip_subnet -> ip_subnet) : Meth unit :=
  write (fun d => d <|db_subnets := tbl_update k f d.(db_subnets)|>).

Definition update_subnet (k : Z) (name : option string) (enabled : option bool)
    (allocation_strategy : option string) (location_id : option Z) (clear_location : bool)
    (max_resale_count : option Z) : Meth bool :=
  o <- get_subnet k ;;
  match o with
  | None => ret false
  | Some _ =>
      upd_subnet k (fun n => n
        <|sn_name := default n.(sn_name) name|>
        <|sn_enabled := default n.(sn_enabled) enabled|>
        <|sn_allocation_strategy := default n.(sn_allocation_strategy) allocation_strategy|>) ;;;
      match max_resale_count with
      | Some m =>
          throw_if (m <? 1) (ValueError "max_resale_count must be at least 1") ;;;
          upd_subnet k (fun n => n <|sn_max_resale_count := m|>)
      | None => ret tt
      end ;;;
      upd_subnet k (fun n => n <|sn_location_id :=
        if clear_location then None
        else match location_id with Some l => Some l | None => n.(sn_location_id) end|>) ;;;
      commit ;;;
      ret true
  end.

(** Deleting a subnet deletes its addresses. *)
Definition delete_subnet (k : Z) : Meth unit :=
  o <- get_subnet k ;;
  unwrap o (ValueError "Subnet not found") ;;;
  assigned <- read (fun d => List.length (ips_in k "assigned" d)) ;;
  throw_if (negb (Nat.eqb assigned 0))
    (ValueError ("Subnet has " +:+ pretty assigned +:+ " assigned IP(s); release them first")) ;;;
  write (fun d => d <|db_subnets := tbl_delete k d.(db_subnets)|>
    <|db_ips := List.filter (fun i => negb (i.(ip_subnet_id) =? k)) d.(db_ips)|>) ;;;
  commit.

(** * Assigning *)

Definition resolve_owner_user_id (service_id : Z) (d : db) : option Z :=
  tbl_get service_id d.(db_services) ≫= sv_owner_user_id.

(** [subnet.max_resale_count or 1] *)
Definition max_resale (n : ip_subnet) : Z :=
  if n.(sn_max_resale_count) =? 0 then 1 else n.(sn_max_resale_count).

Definition held_by_owner (owner_user_id : option Z) (rows : list ip_assignment) (d : db) : bool :=
  match owner_user_id with
  | None => false
  | Some owner =>
      existsb (fun a => match tbl_get a.(as_service_id) d.(db_services) with
                        | Some s => s.(sv_owner_user_id) == Some owner
                        | None => false
                        end) rows
  end.

Definition candidate_ips (n : ip_subnet) (owner_user_id : option Z) (d : db) : list ip_address :=
  match ips_in n.(sn_id) "free" d with
  | [] =>
      if max_resale n <=? 1 then []
      else List.filter (fun i =>
             let current := assignments_of i.(ip_id) d in
             negb (max_resale n <=? Z.of_nat (List.length current))
             && negb (held_by_owner owner_user_id current d))
             (ips_in n.(sn_id) "assigned" d)
  | free => free
  end.

Definition order_subnets_for_assignment (subnets : list ip_subnet) (subnet_id : option Z)
    (strategy : option string) (d : db) : list ip_subnet :=
  if match subnet_id with Some k => negb (k =? 0) | None => false end
     || (str_lower (str_or strategy "") != "spread_subnets")
  then subnets
  else sorted_by (fun n => (Z.of_nat (List.length (ips_in n.(sn_id) "assigned" d)), 0)) subnets.

Definition enforce_resale_cap (ip : Z) (cap : Z) (assignment : Z) : Meth unit :=
  current <- read (assignments_of ip) ;;
  if Z.of_nat (List.length current) <=? cap then ret tt
  else if existsb (fun a => a.(as_id) =? assignment) (firstn (Z.to_nat cap) current) then ret tt
  else
    delete_assignment assignment ;;;
    remaining <- read (fun d => List.filter (fun a => negb (a.(as_id) =? assignment))
                                  (assignments_of ip d)) ;;
    now <- utcnow ;;
    match remaining with
    | [] => upd_ip ip (set_ip_state "free" now)
    | _ => ret tt
    end ;;;
    commit ;;;
    raise (ValueError "Selected IP was concurrently assigned at capacity; retry allocation").

Record assign_args : Type := mk_assign_args {
  aa_service_id : Z;
  aa_subnet_id : option Z;
  aa_strategy : option string;
  aa_username : option string;
  aa_password : option string;
  aa_assigned_by : option string;
  aa_subnet_ids : list Z
}.

Definition effective_strategy (n : ip_subnet) (strategy : option string) : string :=
  str_or strategy n.(sn_allocation_strategy).

Definition try_assign_in_subnet (n : ip_subnet) (owner_user_id : option Z) (a : assign_args)
  : Meth (option Z) :=
  candidates <- read (candidate_ips n owner_user_id) ;;
  match strategy_order (resolve_strategy (effective_strategy n a.(aa_strategy))) candidates with
  | [] => ret None
  | selected :: _ =>
      now <- utcnow ;;
      upd_ip selected.(ip_id) (set_ip_state "assigned" now) ;;;
      k <- read (fun d => tbl_fresh d.(db_assignments)) ;;
      write (fun d => d <|db_assignments := d.(db_assignments) ++
        [mk_ip_assignment k a.(aa_service_id) selected.(ip_id) a.(aa_username) a.(aa_password)
           a.(aa_assigned_by)]|>) ;;;
      add_history a.(aa_service_id) selected.(ip_ip_address) (Some n.(sn_cidr)) "assigned"
        a.(aa_username) a.(aa_assigned_by)
        [("strategy", JStr (effective_strategy n a.(aa_strategy)))] ;;;
      try_catch commit
        (fun e => match e with
                  | IntegrityError =>
                      rollback ;;;
                      raise (ValueError "Selected IP was concurrently assigned to another service; retry allocation")
                  | _ => raise e
                  end) ;;;
      enforce_resale_cap selected.(ip_id) (max_resale n) k ;;;
      ret (Some k)
  end.

Fixpoint try_subnets (subnets : list ip_subnet) (owner_user_id : option Z) (a : assign_args)
  : Meth Z :=
  match subnets with
  | [] => raise (ValueError "No free IP available in selected subnets")
  | n :: rest =>
      o <- try_assign_in_subnet n owner_user_id a ;;
      match o with
      | Some k => ret k
      | None => try_subnets rest owner_user_id a
      end
  end.

(** The subnets in scope: one, a group, or all of them. *)
Definition subnets_in_scope (a : assign_args) (d : db) : list ip_subnet :=
  List.filter sn_enabled
    (match a.(aa_subnet_id), a.(aa_subnet_ids) with
     | Some k, _ => match tbl_get k d.(db_subnets) with Some n => [n] | None => [] end
     | None, [] => d.(db_subnets)
     | None, ids => List.filter (fun n => existsb (Z.eqb n.(sn_id)) ids) d.(db_subnets)
     end).

Definition assign_ip (a : assign_args) : Meth Z :=
  subnets <- read (subnets_in_scope a) ;;
  throw_if (match subnets with [] => true | _ => false end)
    (ValueError "No enabled subnets available") ;;;
  owner_user_id <- read (resolve_owner_user_id a.(aa_service_id)) ;;
  ordered <- read (order_subnets_for_assignment subnets a.(aa_subnet_id) a.(aa_strategy)) ;;
  try_subnets ordered owner_user_id a.

(** * Releasing and rotating *)

Definition ip_of (k : Z) (d : db) : option ip_address := tbl_get k d.(db_ips).
Definition cidr_of (i : option ip_address) (d : db) : option string :=
  match i with
  | Some x => option_map sn_cidr (tbl_get x.(ip_subnet_id) d.(db_subnets))
  | None => None
  end.

Definition release_ip (assignment_id : Z) (released_by : option string) : Meth bool :=
  o <- read (fun d => tbl_get assignment_id d.(db_assignments)) ;;
  match o with
  | None => ret false
  | Some a =>
      i <- read (ip_of a.(as_ip_id)) ;;
      cidr <- read (cidr_of i) ;;
      match i with
      | None => ret tt
      | Some x =>
          others <- read (fun d => List.filter (fun y => negb (y.(as_id) =? assignment_id))
                                     (assignments_of x.(ip_id) d)) ;;
          now <- utcnow ;;
          match others with
          | [] => upd_ip x.(ip_id) (set_ip_state "free" now)
          | _ => ret tt
          end
      end ;;;
      add_history a.(as_service_id) (match i with Some x => x.(ip_ip_address) | None => "" end)
        cidr "released" a.(as_username) released_by [] ;;;
      delete_assignment assignment_id ;;;
      commit ;;;
      ret true
  end.

Definition assignments_of_service (service_id : Z) (d : db) : list ip_assignment :=
  List.filter (fun a => a.(as_service_id) =? service_id) d.(db_assignments).

Definition release_all_for_service (service_id : Z) (released_by : option string) : Meth Z :=
  assignments <- read (assignments_of_service service_id) ;;
  fold_each assignments 0 (fun count a =>
    released <- release_ip a.(as_id) released_by ;;
    ret (if released : bool then count + 1 else count)).

Definition rotate_credentials (assignment_id : Z) (username password rotated_by : option string)
  : Meth bool :=
  o <- read (fun d => tbl_get assignment_id d.(db_assignments)) ;;
  match o with
  | None => ret false
  | Some a =>
      i <- read (ip_of a.(as_ip_id)) ;;
      cidr <- read (cidr_of i) ;;
      upd_assignment assignment_id (fun x => x <|as_username := username|> <|as_password := password|>) ;;;
      add_history a.(as_service_id) (match i with Some x => x.(ip_ip_address) | None => "" end)
        cidr "rotated" username rotated_by [] ;;;
      commit ;;;
      ret true
  end.

(** Slots occupied in a subnet. *)
Definition used_slots (subnet_id : Z) (d : db) : Z :=
  Z.of_nat (List.length (List.filter (fun a =>
    match tbl_get a.(as_ip_id) d.(db_ips) with
    | Some i => i.(ip_subnet_id) =? subnet_id
    | None => false
    end) d.(db_assignments))).

(** * Sorting *)

Lemma sorted_by_In {A} (key : A -> Z * Z) x l : In x (sorted_by key l) <-> In x l.
Proof. apply sort_by_In. Qed.

(** * The pool *)

Definition in_use (ip : Z) (d : db) : bool :=
  existsb (fun a => a.(as_ip_id) =? ip) d.(db_assignments).

(** An address is marked assigned exactly while someone holds it. *)
Record pool_ok (d : db) : Prop := {
  pool_ips : tbl_wf d.(db_ips);
  pool_assignments : tbl_wf d.(db_assignments);
  pool_states : forall i, In i d.(db_ips) ->
    i.(ip_state) = if in_use i.(ip_id) d then "assigned" else "free";
  pool_links : forall a, In a d.(db_assignments) -> exists i, tbl_get a.(as_ip_id) d.(db_ips) = Some i
}.

Lemma set_ip_state_id st now i : (set_ip_state st now i).(ip_id) = i.(ip_id).
Proof. unfold set_ip_state. by destruct (_ == _). Qed.
Lemma set_ip_state_state st now i : (set_ip_state st now i).(ip_state) = st.
Proof. unfold set_ip_state. by destruct (py_eq_spec i.(ip_state) st). Qed.
Lemma set_ip_state_subnet st now i : (set_ip_state st now i).(ip_subnet_id) = i.(ip_subnet_id).
Proof. unfold set_ip_state. by destruct (_ == _). Qed.

Lemma in_use_true ip d : in_use ip d = true <-> exists a, In a d.(db_assignments) /\ a.(as_ip_id) = ip.
Proof.
  unfold in_use. rewrite existsb_exists. split; intros (a & Ha & H); exists a; split; (done || lia).
Qed.

(** The tables the pool consists of. *)
Lemma pool_ok_ext d d' :
  d'.(db_ips) = d.(db_ips) -> d'.(db_assignments) = d.(db_assignments) -> pool_ok d -> pool_ok d'.
Proof.
  intros Hi Ha [H1 H2 H3 H4].
  constructor; unfold in_use in *; rewrite ?Hi, ?Ha; [exact H1|exact H2|exact H3|exact H4].
Qed.

(** Links survive updates that keep keys. *)
Lemma link_update k f (t : list ip_address) j i :
  (forall x, (f x).(ip_id) = x.(ip_id)) -> tbl_get j t = Some i ->
  exists i', tbl_get j (tbl_update k f t) = Some i'.
Proof.
  intros Hf Hi. destruct (Z.eq_dec k j) as [->|Hne].
  - eexists. exact (tbl_get_update_eq j f t i Hf Hi).
  - exists i. rewrite <- Hi. by apply (tbl_get_update_ne k j f t Hf).
Qed.

Definition with_assignment (x : ip_address) (now : Z) (a : ip_assignment) (d : db) : db :=
  d <|db_ips := tbl_update x.(ip_id) (set_ip_state "assigned" now) d.(db_ips)|>
    <|db_assignments := d.(db_assignments) ++ [a]|>.

Lemma pool_ok_assign d x now a :
  pool_ok d -> In x d.(db_ips) -> a.(as_id) = tbl_fresh d.(db_assignments) ->
  a.(as_ip_id) = x.(ip_id) -> pool_ok (with_assignment x now a d).
Proof.
  intros [H1 H2 H3 H4] Hx Hid Hip. unfold with_assignment.
  constructor; cbn [db_ips db_assignments update].
  - apply tbl_wf_update; [apply set_ip_state_id|done].
  - by apply tbl_wf_snoc.
  - intros i Hi. unfold in_use. cbn [db_assignments update]. rewrite existsb_app. cbn [existsb].
    rewrite Hip. apply tbl_update_In in Hi as (i0 & Hi0 & [[Hne ->]|[Heq ->]]).
    + change (row_key i0) with i0.(ip_id) in Hne.
      rewrite (proj2 (Z.eqb_neq x.(ip_id) i0.(ip_id))) by congruence. rewrite orb_false_r.
      by apply H3.
    + change (row_key i0) with i0.(ip_id) in Heq.
      by rewrite set_ip_state_state, set_ip_state_id, Heq, Z.eqb_refl, orb_true_r.
  - intros y [Hy|[<-|[]]]%in_app_iff.
    + destruct (H4 y Hy) as [i Hi]. eapply link_update; [apply set_ip_state_id|exact Hi].
    + rewrite Hip. eapply link_update; [apply set_ip_state_id|]. exact (tbl_get_wf _ _ H1 Hx).
Qed.

(** Another row of the same address keeps it in use. *)
Definition without_assignment (a : ip_assignment) (now : Z) (d : db) : db :=
  d <|db_ips :=
       match List.filter (fun y => negb (y.(as_id) =? a.(as_id))) (assignments_of a.(as_ip_id) d) with
       | [] => tbl_update a.(as_ip_id) (set_ip_state "free" now) d.(db_ips)
       | _ => d.(db_ips)
       end|>
    <|db_assignments := tbl_delete a.(as_id) d.(db_assignments)|>.

Lemma pool_ok_release d a now :
  pool_ok d -> In a d.(db_assignments) -> pool_ok (without_assignment a now d).
Proof.
  intros [H1 H2 H3 H4] Ha. unfold without_assignment.
  set (others := List.filter _ (assignments_of _ _)).
  assert (forall i, i <> a.(as_ip_id) ->
    existsb (fun y => y.(as_ip_id) =? i) (tbl_delete a.(as_id) d.(db_assignments)) = in_use i d) as Hother.
  { intros i Hi. unfold in_use. apply eq_true_iff_eq. rewrite !existsb_exists. split.
    - intros (y & [Hy _]%tbl_delete_In & Hk). by exists y.
    - intros (y & Hy & Hk). exists y. split; [|done]. apply tbl_delete_In. split; [done|].
      intros Heq. change (row_key y) with y.(as_id) in Heq.
      pose proof (tbl_get_wf _ _ H2 Hy) as G1. pose proof (tbl_get_wf _ _ H2 Ha) as G2.
      change (row_key y) with y.(as_id) in G1. change (row_key a) with a.(as_id) in G2.
      assert (y = a) as -> by congruence. lia. }
  assert (existsb (fun y => y.(as_ip_id) =? a.(as_ip_id)) (tbl_delete a.(as_id) d.(db_assignments))
          = match others with [] => false | _ => true end) as Hself.
  { destruct others as [|o l] eqn:Ho.
    - apply not_true_is_false. rewrite existsb_exists. intros (y & [Hy Hne]%tbl_delete_In & Hk).
      unfold others in Ho. rewrite filter_nil_iff in Ho.
      assert (In y (assignments_of a.(as_ip_id) d)) as Hin by (by apply List.filter_In).
      specialize (Ho y Hin). change (row_key y) with y.(as_id) in Hne. lia.
    - apply existsb_exists. assert (In o others) as Hin by (rewrite Ho; by left).
      apply List.filter_In in Hin as [[Hin Hk]%List.filter_In Hne]. exists o. split; [|done].
      apply tbl_delete_In. split; [done|]. change (row_key o) with o.(as_id). lia. }
  constructor; cbn [db_ips db_assignments update].
  - destruct others; [apply tbl_wf_update; [apply set_ip_state_id|done]|done].
  - by apply tbl_wf_delete.
  - intros i Hi. unfold in_use. cbn [db_assignments update].
    destruct (Z.eq_dec i.(ip_id) a.(as_ip_id)) as [Heq|Hne].
    + rewrite Heq, Hself. destruct others as [|o l] eqn:Ho.
      * apply tbl_update_In in Hi as (i0 & Hi0 & [[Hne ->]|[_ ->]]); [done|].
        by rewrite set_ip_state_state.
      * rewrite (H3 i Hi), Heq. by rewrite (proj2 (in_use_true _ _)) by (by exists a).
    + rewrite Hother by done. destruct others; [|by apply H3].
      apply tbl_update_In in Hi as (i0 & Hi0 & [[_ ->]|[Heq ->]]); [by apply H3|].
      exfalso. apply Hne. by rewrite set_ip_state_id.
  - intros y [Hy _]%tbl_delete_In. destruct (H4 y Hy) as [i Hi].
    destruct others; [|by exists i]. eapply link_update; [apply set_ip_state_id|exact Hi].
Qed.

(** ** Every operation keeps it *)

Definition pool_in (s : session) : Prop := pool_ok s.(s_db) /\ pool_ok s.(s_committed).
Definition pool_kept {E} (_ : E) (s : session) : Prop := pool_ok s.(s_committed).

Lemma wp_commit_pool (Q : unit -> session -> Prop) s :
  pool_in s -> (forall s', s'.(s_db) = s.(s_db) -> s'.(s_committed) = s.(s_db) -> Q tt s') ->
  wp commit Q pool_kept s.
Proof.
  intros [H1 H2] HQ. unfold commit. wp_step. apply wp_flush; [|by intros e _].
  intros _ _. apply wp_modify. by apply HQ.
Qed.

Lemma wp_history_pool k ad c ac u b dt (Q : unit -> session -> Prop) R s :
  (forall s', s'.(s_db).(db_ips) = s.(s_db).(db_ips) ->
     s'.(s_db).(db_assignments) = s.(s_db).(db_assignments) ->
     s'.(s_committed) = s.(s_committed) -> Q tt s') ->
  wp (add_history k ad c ac u b dt) Q R s.
Proof. intros HQ. unfold add_history. wp_step. apply wp_gets, wp_write. by apply HQ. Qed.

Lemma others_after_delete ip k d :
  List.filter (fun y => negb (y.(as_id) =? k))
    (assignments_of ip (d <|db_assignments := tbl_delete k d.(db_assignments)|>))
  = List.filter (fun y => negb (y.(as_id) =? k)) (assignments_of ip d).
Proof.
  unfold assignments_of, tbl_delete. cbn [db_assignments update].
  induction d.(db_assignments) as [|y l IH]; [done|]. cbn [List.filter].
  change (row_key y) with y.(as_id). destruct (y.(as_id) =? k) eqn:Hk; cbn [negb List.filter].
  - destruct (y.(as_ip_id) =? ip); cbn [List.filter]; rewrite ?Hk; exact IH.
  - destruct (y.(as_ip_id) =? ip); cbn [List.filter]; rewrite ?Hk; cbn [negb]; by rewrite IH.
Qed.

(** The guard against overselling: it answers only when the cap holds. *)
Lemma enforce_spec ip cap a s :
  pool_in s -> In a s.(s_db).(db_assignments) -> a.(as_ip_id) = ip ->
  wp (enforce_resale_cap ip cap a.(as_id))
    (fun _ s' => s' = s /\
       (Z.of_nat (List.length (assignments_of ip s.(s_db))) <= cap \/
        In a.(as_id) (map as_id (firstn (Z.to_nat cap) (assignments_of ip s.(s_db))))))
    pool_kept s.
Proof.
  intros [Hp Hc] Ha <-. unfold enforce_resale_cap. wp_step. apply wp_read.
  destruct (Z.leb_spec (Z.of_nat (List.length (assignments_of a.(as_ip_id) s.(s_db)))) cap).
  { apply wp_ret. split; [done|]. by left. }
  destruct (existsb _ _) eqn:Hex.
  { apply wp_ret. split; [done|]. right. apply existsb_exists in Hex as (x & Hx & Heq).
    apply in_map_iff. exists x. split; [lia|done]. }
  set (others := List.filter (fun y => negb (y.(as_id) =? a.(as_id)))
    (assignments_of a.(as_ip_id) s.(s_db))).
  wp_step. apply wp_write. wp_step. apply wp_read. wp_step. apply wp_gets.
  match goal with |- context [List.filter ?p (assignments_of ?ip ?d)] =>
    replace (List.filter p (assignments_of ip d)) with others
      by (symmetry; apply others_after_delete) end.
  wp_step.
  assert (forall s', s'.(s_db).(db_ips) = (without_assignment a s.(s_now) s.(s_db)).(db_ips) ->
    s'.(s_db).(db_assignments) = tbl_delete a.(as_id) s.(s_db).(db_assignments) ->
    s'.(s_committed) = s.(s_committed) ->
    wp (commit ;;; raise (ValueError "Selected IP was concurrently assigned at capacity; retry allocation") : Meth unit)
      (fun _ s' => s' = s /\
         (Z.of_nat (List.length (assignments_of a.(as_ip_id) s.(s_db))) <= cap \/
          In a.(as_id) (map as_id (firstn (Z.to_nat cap) (assignments_of a.(as_ip_id) s.(s_db))))))
      pool_kept s') as Hend.
  { intros s' Hi Hd Hcm. wp_step. apply wp_commit_pool.
    - split; [|by rewrite Hcm]. by apply (pool_ok_ext (without_assignment a s.(s_now) s.(s_db)));
        [..|apply pool_ok_release].
    - intros s2 _ Hc2. wp_step. unfold pool_kept. rewrite Hc2.
      by apply (pool_ok_ext (without_assignment a s.(s_now) s.(s_db))); [..|apply pool_ok_release]. }
  unfold without_assignment in Hend. fold others in Hend. cbn [db_ips update] in Hend.
  destruct others as [|o l]; [apply wp_write|apply wp_ret]; by apply Hend.
Qed.

(** What an assignment that succeeds adds. *)
Definition assigned_in (n : ip_subnet) (owner : option Z) (a : assign_args) (k : Z)
    (before after : session) : Prop :=
  exists x, In x (candidate_ips n owner before.(s_db)) /\
    k = tbl_fresh before.(s_db).(db_assignments) /\
    after.(s_committed) = after.(s_db) /\
    after.(s_db).(db_assignments) = before.(s_db).(db_assignments) ++
      [mk_ip_assignment k a.(aa_service_id) x.(ip_id) a.(aa_username) a.(aa_password)
         a.(aa_assigned_by)] /\
    Z.of_nat (List.length (assignments_of x.(ip_id) after.(s_db))) <= max_resale n.

Lemma candidate_In n owner d x :
  In x (candidate_ips n owner d) ->
  In x d.(db_ips) /\ x.(ip_subnet_id) = n.(sn_id) /\
  (x.(ip_state) = "free" \/
   (ips_in n.(sn_id) "free" d = [] /\ x.(ip_state) = "assigned" /\
    held_by_owner owner (assignments_of x.(ip_id) d) d = false)).
Proof.
  unfold candidate_ips.
  assert (forall st, In x (ips_in n.(sn_id) st d) -> In x d.(db_ips) /\
    x.(ip_subnet_id) = n.(sn_id) /\ x.(ip_state) = st) as Hin.
  { intros st [Hx [Hs Hst]%andb_true_iff]%List.filter_In. rewrite py_eq_true in Hst.
    split; [done|]. split; [lia|done]. }
  destruct (ips_in n.(sn_id) "free" d) as [|y l] eqn:Hf.
  - destruct (_ <=? 1); [done|]. intros [Hx [_ Hh]%andb_true_iff]%List.filter_In.
    apply Hin in Hx as (? & ? & ?). split; [done|]. split; [done|]. right.
    split; [done|]. split; [done|]. by apply negb_true_iff.
  - rewrite <- Hf. intros Hx. apply Hin in Hx as (? & ? & ?). auto.
Qed.

Lemma wp_guarded_commit (Q : unit -> session -> Prop) s :
  pool_in s -> (forall s', s'.(s_db) = s.(s_db) -> s'.(s_committed) = s.(s_db) -> Q tt s') ->
  wp (try_catch commit (fun e => match e with
        | IntegrityError => rollback ;;; raise (ValueError "Selected IP was concurrently assigned to another service; retry allocation")
        | _ => raise e
        end)) Q pool_kept s.
Proof.
  intros [H1 H2] HQ. wp_step. unfold commit. wp_step. apply wp_flush.
  - intros _ _. apply wp_modify. by apply HQ.
  - intros e _. destruct e; exact H2.
Qed.

Lemma last_survives (l : list ip_assignment) a cap :
  (forall y, In y l -> y.(as_id) < a.(as_id)) ->
  In a.(as_id) (map as_id (firstn cap (l ++ [a]))) -> (List.length (l ++ [a]) <= cap)%nat.
Proof.
  intros Hl Hin. rewrite List.length_app. cbn. rewrite firstn_app in Hin.
  destruct (Nat.leb_spec (List.length l + 1) cap) as [|Hlt]; [done|].
  replace (cap - List.length l)%nat with O in Hin by lia. cbn [firstn] in Hin.
  rewrite app_nil_r in Hin. apply in_map_iff in Hin as (y & Hy & Hin).
  assert (In y l) as Hyl.
  { rewrite <- (firstn_skipn cap l). apply in_app_iff. by left. }
  apply Hl in Hyl. lia.
Qed.

Lemma try_assign_spec n owner a s :
  pool_in s ->
  wp (try_assign_in_subnet n owner a)
    (fun o s' => pool_in s' /\
       match o with
       | None => s' = s /\ candidate_ips n owner s.(s_db) = []
       | Some k => assigned_in n owner a k s s'
       end) pool_kept s.
Proof.
  intros [Hp Hc]. unfold try_assign_in_subnet. wp_step. apply wp_read.
  set (cands := candidate_ips n owner s.(s_db)).
  set (st := resolve_strategy _).
  destruct (strategy_order st cands) as [|x rest] eqn:Hord.
  { apply wp_ret. split; [done|]. split; [done|].
    assert (forall y, ~ In y cands) as Hno.
    { intros y Hy. apply (sorted_by_In (strategy_key st)) in Hy. unfold strategy_order in Hord.
      by rewrite Hord in Hy. }
    destruct cands as [|y l]; [done|]. exfalso. apply (Hno y). by left. }
  assert (In x cands) as Hx.
  { apply (sorted_by_In (strategy_key st)). unfold strategy_order in Hord. rewrite Hord. by left. }
  destruct (candidate_In _ _ _ _ Hx) as (Hxin & _ & _).
  wp_step. apply wp_gets. wp_step. apply wp_write. wp_step. apply wp_read. wp_step. apply wp_write.
  cbn [s_db db_assignments update].
  set (k := tbl_fresh s.(s_db).(db_assignments)).
  set (row := mk_ip_assignment k _ _ _ _ _).
  wp_step. apply wp_history_pool. cbn [s_db s_committed db_ips db_assignments update].
  intros s1 Hi Ha Hcm. wp_step.
  assert (pool_ok s1.(s_db)) as Hp1.
  { apply (pool_ok_ext (with_assignment x s.(s_now) row s.(s_db))); [done|done|].
    by apply pool_ok_assign. }
  apply wp_guarded_commit; [split; [done|by rewrite Hcm]|].
  intros s2 Hd2 Hc2. wp_step.
  assert (In row s2.(s_db).(db_assignments)) as Hrow
    by (rewrite Hd2, Ha; apply in_app_iff; right; by left).
  eapply wp_conseq; [apply (enforce_spec x.(ip_id) (max_resale n) row s2)| |done].
  - split; [by rewrite Hd2|by rewrite Hc2].
  - exact Hrow.
  - done.
  - intros [] s3 [-> Hcap]. apply wp_ret. split; [split; [by rewrite Hd2|by rewrite Hc2]|].
    exists x. split; [exact Hx|]. split; [done|]. split; [by rewrite Hc2, Hd2|].
    split; [by rewrite Hd2, Ha|]. destruct Hcap as [Hcap|Hcap]; [done|].
    assert (assignments_of x.(ip_id) s2.(s_db)
            = assignments_of x.(ip_id) s.(s_db) ++ [row]) as Hsplit.
    { unfold assignments_of. rewrite Hd2, Ha, List.filter_app. cbn [List.filter].
      by rewrite Z.eqb_refl. }
    rewrite Hsplit in Hcap |- *. apply last_survives in Hcap;
      [rewrite List.length_app in *; cbn [List.length] in *; lia|].
    intros y [Hy _]%List.filter_In. by apply tbl_fresh_gt in Hy.
Qed.

Lemma try_subnets_spec subnets owner a s :
  pool_in s ->
  wp (try_subnets subnets owner a)
    (fun k s' => pool_in s' /\ exists n, In n subnets /\ assigned_in n owner a k s s') pool_kept s.
Proof.
  induction subnets as [|n rest IH]; intros Hs; cbn [try_subnets].
  - apply wp_raise. by destruct Hs.
  - wp_step. eapply wp_conseq; [by apply try_assign_spec| |done]. intros [k|] s' [Hp Ho].
    + apply wp_ret. split; [done|]. exists n. split; [by left|done].
    + destruct Ho as [-> _]. eapply wp_conseq; [by apply IH| |done].
      intros k s2 (Hp2 & m & Hm & Ha). split; [done|]. exists m. split; [by right|done].
Qed.

Lemma order_subnets_In subnets k st d n :
  In n (order_subnets_for_assignment subnets k st d) -> In n subnets.
Proof. unfold order_subnets_for_assignment. destruct (_ || _); [done|]. apply sorted_by_In. Qed.

Lemma assign_ip_spec a s :
  pool_in s ->
  wp (assign_ip a)
    (fun k s' => pool_in s' /\ exists n, In n (subnets_in_scope a s.(s_db)) /\
       assigned_in n (resolve_owner_user_id a.(aa_service_id) s.(s_db)) a k s s') pool_kept s.
Proof.
  intros Hs. unfold assign_ip. wp_step. apply wp_read. wp_step. wp_step; [by destruct Hs|].
  wp_step. apply wp_read. wp_step. apply wp_read.
  eapply wp_conseq; [by apply try_subnets_spec| |done]. intros k s' (Hp & n & Hn & Ha).
  split; [done|]. exists n. split; [by eapply order_subnets_In|done].
Qed.

Lemma pool_after s d' :
  pool_ok s.(s_committed) -> pool_ok d' -> pool_in (s <|s_db := d'|>).
Proof. by split. Qed.

Lemma release_ip_spec k by_ s :
  pool_in s ->
  wp (release_ip k by_)
    (fun r s' => pool_in s' /\
       s'.(s_db).(db_assignments) = tbl_delete k s.(s_db).(db_assignments) /\
       r = match tbl_get k s.(s_db).(db_assignments) with Some _ => true | None => false end)
    pool_kept s.
Proof.
  intros [Hp Hc]. unfold release_ip. wp_step. apply wp_read.
  destruct (tbl_get k s.(s_db).(db_assignments)) as [a|] eqn:Hget.
  2:{ apply wp_ret. split; [done|]. split; [|done]. symmetry. unfold tbl_delete.
      apply forallb_filter_id, forallb_forall. intros y Hy.
      pose proof (List.find_none _ _ Hget y Hy) as Hn. by rewrite Hn. }
  pose proof (tbl_get_In _ _ _ Hget) as Hin. pose proof (tbl_get_key _ _ _ Hget) as Hk.
  change (row_key a) with a.(as_id) in Hk.
  destruct (pool_links _ Hp a Hin) as [x Hx].
  assert (x.(ip_id) = a.(as_ip_id)) as Hxid by exact (tbl_get_key _ _ _ Hx).
  wp_step. apply wp_read. unfold ip_of. rewrite Hx. wp_step. apply wp_read. wp_step. wp_step.
  apply wp_read. wp_step. apply wp_gets. rewrite Hxid, <- Hk.
  set (d' := without_assignment a s.(s_now) s.(s_db)).
  assert (pool_ok d') as Hd' by (by apply pool_ok_release).
  assert (forall s', s'.(s_db).(db_ips) = d'.(db_ips) ->
    s'.(s_db).(db_assignments) = s.(s_db).(db_assignments) -> s'.(s_committed) = s.(s_committed) ->
    wp (add_history a.(as_service_id) x.(ip_ip_address) (cidr_of (Some x) s.(s_db)) "released"
          a.(as_username) by_ [] ;;; delete_assignment a.(as_id) ;;; commit ;;; ret true)
      (fun r s' => pool_in s' /\
         s'.(s_db).(db_assignments) = tbl_delete a.(as_id) s.(s_db).(db_assignments) /\ r = true)
      pool_kept s') as Hend.
  { intros s' Hi Ha Hcm. wp_step. apply wp_history_pool. intros s1 Hi1 Ha1 Hc1. wp_step.
    apply wp_write. wp_step. apply wp_commit_pool.
    - apply pool_after; [by rewrite Hc1, Hcm|].
      apply (pool_ok_ext d'); cbn [db_ips db_assignments update]; [by rewrite Hi1, Hi| |done].
      by rewrite Ha1, Ha.
    - intros s2 Hd2 Hc2. apply wp_ret.
      assert (pool_ok s2.(s_db)) as Hp2.
      { rewrite Hd2. apply (pool_ok_ext d'); cbn [s_db db_ips db_assignments update];
          [by rewrite Hi1, Hi|by rewrite Ha1, Ha|done]. }
      split; [split; [done|by rewrite Hc2, <- Hd2]|]. split; [|done].
      rewrite Hd2. cbn [s_db db_assignments update]. by rewrite Ha1, Ha. }
  unfold d', without_assignment in Hend. cbn [db_ips update] in Hend.
  wp_step; [apply wp_write|apply wp_ret]; by apply Hend.
Qed.

Definition delete_all (ks : list Z) (t : list ip_assignment) : list ip_assignment :=
  fold_left (fun t k => tbl_delete k t) ks t.
Lemma delete_all_filter ks t :
  delete_all ks t = List.filter (fun a => negb (existsb (Z.eqb a.(as_id)) ks)) t.
Proof.
  revert t. induction ks as [|k ks IH]; intros t; cbn [delete_all fold_left].
  - symmetry. by apply forallb_filter_id, forallb_forall.
  - fold (delete_all ks (tbl_delete k t)). rewrite IH. unfold tbl_delete. clear IH.
    induction t as [|x t IH]; [done|]. cbn [List.filter existsb]. change (row_key x) with x.(as_id).
    destruct (x.(as_id) =? k); cbn [negb orb List.filter]; [exact IH|].
    destruct (negb _); [by f_equal|exact IH].
Qed.

Lemma release_rows_spec by_ rows count s :
  pool_in s -> List.NoDup (map as_id rows) ->
  (forall a, In a rows -> In a s.(s_db).(db_assignments)) ->
  wp (fold_each rows count (fun count a =>
        released <- release_ip a.(as_id) by_ ;;
        ret (if released : bool then count + 1 else count)))
    (fun n s' => pool_in s' /\ n = count + Z.of_nat (List.length rows) /\
       s'.(s_db).(db_assignments) = delete_all (map as_id rows) s.(s_db).(db_assignments))
    pool_kept s.
Proof.
  revert count s. induction rows as [|a rows IH]; intros count s Hs Hnd Hin; cbn [fold_each map].
  - apply wp_ret. split; [done|]. split; [cbn; lia|done].
  - apply List.NoDup_cons_iff in Hnd as [Ha Hnd]. wp_step. wp_step.
    eapply wp_conseq; [by apply release_ip_spec| |done]. intros r s1 (Hs1 & Ht & ->). apply wp_ret.
    pose proof (Hin a (or_introl eq_refl)) as Hrow.
    pose proof (tbl_get_wf _ _ (pool_assignments _ (proj1 Hs)) Hrow) as Hg.
    change (row_key a) with a.(as_id) in Hg. rewrite Hg.
    eapply wp_conseq; [apply IH; [done|done|]| |done].
    + intros x Hx. rewrite Ht. apply tbl_delete_In. split; [apply Hin; by right|].
      intros Heq. apply Ha. change (row_key x) with x.(as_id) in Heq. rewrite <- Heq. by apply in_map.
    + intros n s2 (Hs2 & -> & Ht2). split; [done|]. split; [cbn [List.length]; lia|].
      by rewrite Ht2, Ht.
Qed.

Lemma release_all_spec k by_ s :
  pool_in s ->
  wp (release_all_for_service k by_)
    (fun n s' => pool_in s' /\
       n = Z.of_nat (List.length (assignments_of_service k s.(s_db))) /\
       s'.(s_db).(db_assignments)
       = List.filter (fun a => negb (a.(as_service_id) =? k)) s.(s_db).(db_assignments))
    pool_kept s.
Proof.
  intros Hs. unfold release_all_for_service. wp_step. apply wp_read.
  pose proof (pool_assignments _ (proj1 Hs)) as Hwf. unfold tbl_wf in Hwf.
  eapply wp_conseq; [apply release_rows_spec; [done| |]| |done].
  - unfold assignments_of_service. revert Hwf. clear.
    induction s.(s_db).(db_assignments) as [|x l IH]; [constructor|]. cbn.
    intros [Hx Hl]%List.NoDup_cons_iff. destruct (_ =? k); [|auto]. cbn.
    apply List.NoDup_cons_iff. split; [|auto].
    intros (y & Hy & [Hin _]%List.filter_In)%in_map_iff. apply Hx.
    change (row_key x) with x.(as_id). rewrite <- Hy. by apply (in_map row_key).
  - by intros a [Ha _]%List.filter_In.
  - intros n s' (Hs' & -> & Ht). split; [done|]. split; [lia|]. rewrite Ht, delete_all_filter.
    apply List.filter_ext_in. intros a Ha. f_equal. apply eq_true_iff_eq.
    rewrite existsb_exists. split.
    + intros (j & (y & <- & [Hy Hyk]%List.filter_In)%in_map_iff & Heq).
      pose proof (tbl_get_wf _ a Hwf Ha) as G1. pose proof (tbl_get_wf _ y Hwf Hy) as G2.
      change (row_key a) with a.(as_id) in G1. change (row_key y) with y.(as_id) in G2.
      assert (a = y) as -> by (assert (a.(as_id) = y.(as_id)) as E by lia; rewrite E in G1; congruence).
      done.
    + intros Hk. exists a.(as_id). split; [|lia]. apply in_map, List.filter_In. by split.
Qed.

Lemma rotate_spec k u p by_ s :
  pool_in s -> wp (rotate_credentials k u p by_) (fun _ => pool_in) pool_kept s.
Proof.
  intros [Hp Hc]. unfold rotate_credentials. wp_step. apply wp_read. wp_step; [|by apply wp_ret].
  wp_step. apply wp_read. wp_step. apply wp_read. wp_step. apply wp_write. wp_step.
  set (f := fun x : ip_assignment => x <|as_username := u|> <|as_password := p|>).
  assert (forall i (t : list ip_assignment), existsb (fun y => y.(as_ip_id) =? i) (tbl_update k f t)
    = existsb (fun y => y.(as_ip_id) =? i) t) as Hex.
  { intros i t. unfold tbl_update. induction t as [|y t IH]; [done|]. cbn [map existsb].
    rewrite IH. by destruct (row_key y =? k). }
  assert (pool_ok (s.(s_db) <|db_assignments := tbl_update k f s.(s_db).(db_assignments)|>)) as Hp'.
  { destruct Hp as [H1 H2 H3 H4]. constructor; cbn [db_ips db_assignments update]; [done| | |].
    - by apply tbl_wf_update.
    - intros i Hi. unfold in_use. cbn [db_assignments update]. rewrite Hex. by apply H3.
    - intros y Hy. apply tbl_update_In in Hy as (y0 & Hy0 & [[_ ->]|[_ ->]]); exact (H4 y0 Hy0). }
  apply wp_history_pool. intros s1 Hi1 Ha1 Hc1. wp_step.
  assert (pool_ok s1.(s_db)) as Hp1 by (by apply (pool_ok_ext _ _ Hi1 Ha1)).
  apply wp_commit_pool; [split; [done|by rewrite Hc1]|].
  intros s2 Hd2 Hc2. apply wp_ret. split; [by rewrite Hd2|by rewrite Hc2].
Qed.

Lemma seed_ips_spec k hosts s :
  pool_in s -> wp (seed_ips k hosts) (fun _ => pool_in) pool_kept s.
Proof.
  intros Hs. unfold seed_ips. wp_step.
  eapply wp_conseq; [apply (wp_for_each pool_in pool_kept); [exact Hs|]| |done].
  - intros host s1 _ [Hp Hc]. wp_step. apply wp_read. wp_step; [by apply wp_ret|].
    wp_step. apply wp_gets, wp_write. apply pool_after; [done|].
    destruct Hp as [H1 H2 H3 H4]. constructor; cbn [db_ips db_assignments update]; [|done| |].
    + by apply tbl_wf_snoc.
    + intros i [Hi|[<-|[]]]%in_app_iff; [by apply H3|]. cbn [ip_state ip_id].
      destruct (in_use _ _) eqn:Hu; [|done]. apply in_use_true in Hu as (a & Ha & Hid).
      destruct (H4 a Ha) as [i Hi]. exfalso. apply tbl_get_In in Hi as Hin.
      pose proof (tbl_get_key _ _ _ Hi). apply tbl_fresh_gt in Hin. lia.
    + intros a Ha. destruct (H4 a Ha) as [i Hi]. exists i.
      by rewrite (tbl_get_app (R := ip_address)), Hi.
  - intros [] s1 Hs1. apply wp_commit_pool; [exact Hs1|].
    intros s2 Hd2 Hc2. destruct Hs1 as [Hp1 _]. split; [by rewrite Hd2|by rewrite Hc2].
Qed.

(** Writes to other tables. *)
Lemma pool_frame f s :
  (forall d, (f d).(db_ips) = d.(db_ips)) -> (forall d, (f d).(db_assignments) = d.(db_assignments)) ->
  pool_in s -> pool_in (s <|s_db := f s.(s_db)|>).
Proof. intros Hi Ha [Hp Hc]. apply pool_after; [done|]. by apply (pool_ok_ext s.(s_db)). Qed.
Lemma wp_commit_keeps {A} (a : A) s : pool_in s -> wp (commit ;;; ret a) (fun _ => pool_in) pool_kept s.
Proof.
  intros Hs. wp_step. apply wp_commit_pool; [done|]. intros s2 Hd2 Hc2. apply wp_ret.
  destruct Hs as [Hp _]. split; [by rewrite Hd2|by rewrite Hc2].
Qed.

Lemma create_subnet_spec hosts name cidr loc rs re tags st m s :
  pool_in s -> wp (create_subnet hosts name cidr loc rs re tags st m) (fun _ => pool_in) pool_kept s.
Proof.
  intros Hs. pose proof Hs as [_ Hc]. unfold create_subnet. wp_step. wp_step; [done|].
  wp_step. wp_step; [done|]. wp_step. apply wp_read. wp_step. apply wp_write.
  assert (forall d, pool_in d -> wp (commit ;;; ret tt) (fun _ => pool_in) pool_kept d) as Hcm
    by (intros d Hd; by apply wp_commit_keeps).
  wp_step. apply wp_commit_pool; [by apply (pool_frame (fun d => d <|db_subnets := _|>))|].
  intros s2 Hd2 Hc2. wp_step. eapply wp_conseq; [apply seed_ips_spec| |done].
  - pose proof (pool_frame (fun d => d <|db_subnets := d.(db_subnets) ++
      [mk_ip_subnet (tbl_fresh s.(s_db).(db_subnets)) name cidr loc rs re tags st true m]|>) s
      ltac:(done) ltac:(done) Hs) as [Hp' _]. cbn [s_db update] in Hp', Hd2, Hc2.
    split; [by rewrite Hd2|by rewrite Hc2].
  - intros [] s3 Hs3. by apply wp_ret.
Qed.

Lemma update_subnet_spec k name en st loc clear m s :
  pool_in s -> wp (update_subnet k name en st loc clear m) (fun _ => pool_in) pool_kept s.
Proof.
  intros Hs. unfold update_subnet, get_subnet. wp_step. apply wp_read. wp_step; [|by apply wp_ret].
  wp_step. apply wp_write.
  assert (forall g s', pool_in s' -> pool_in (s' <|s_db := s'.(s_db) <|db_subnets :=
    tbl_update k g s'.(s_db).(db_subnets)|>|>)) as Hw.
  { intros g s' Hs'. by apply (pool_frame (fun d => d <|db_subnets := tbl_update k g d.(db_subnets)|>)). }
  wp_step. match goal with |- wp _ _ _ ?x => assert (pool_in x) as H1 by (by apply Hw) end.
  assert (forall s', pool_in s' -> wp (upd_subnet k (fun n => n <|sn_location_id :=
        if clear then None else match loc with Some l => Some l | None => n.(sn_location_id) end|>) ;;;
      commit ;;; ret true) (fun _ => pool_in) pool_kept s') as Hend.
  { intros s' Hs'. wp_step. apply wp_write. apply wp_commit_keeps. by apply Hw. }
  destruct m as [m|]; [|apply wp_ret, Hend, H1].
  wp_step. wp_step; [by destruct Hs|]. apply wp_write, Hend, Hw, H1.
Qed.

Lemma delete_subnet_spec k s :
  pool_in s -> wp (delete_subnet k) (fun _ => pool_in) pool_kept s.
Proof.
  intros Hs. pose proof Hs as [Hp Hc]. unfold delete_subnet, get_subnet. wp_step. apply wp_read.
  wp_step. wp_step; [done|]. wp_step. apply wp_read. wp_step. wp_step; [done|].
  wp_step. apply wp_write.
  assert (ips_in k "assigned" s.(s_db) = []) as Hnone.
  { apply negb_false_iff, Nat.eqb_eq in Hguard. by apply length_zero_iff_nil. }
  destruct Hp as [H1 H2 H3 H4].
  assert (pool_ok (s.(s_db) <|db_subnets := tbl_delete k s.(s_db).(db_subnets)|>
    <|db_ips := List.filter (fun i => negb (i.(ip_subnet_id) =? k)) s.(s_db).(db_ips)|>)) as Hp'.
  { constructor; cbn [db_ips db_assignments update].
    - revert H1. unfold tbl_wf. clear. induction s.(s_db).(db_ips) as [|x l IH]; [done|]. cbn.
      intros [Hx Hl]%List.NoDup_cons_iff. destruct (negb _); cbn; [|auto].
      apply List.NoDup_cons_iff. split; [|auto].
      intros (y & Hy & [Hin _]%List.filter_In)%in_map_iff. apply Hx. rewrite <- Hy. by apply in_map.
    - done.
    - intros i [Hi _]%List.filter_In. by apply H3.
    - intros r Hr. destruct (H4 r Hr) as [i Hi]. exists i.
      pose proof (tbl_get_In _ _ _ Hi) as Hin. pose proof (tbl_get_key _ _ _ Hi) as Hid.
      change (row_key i) with i.(ip_id) in Hid.
      assert ((i.(ip_subnet_id) =? k) = false) as Hne.
      { apply not_true_is_false. intros Hk. unfold ips_in in Hnone. rewrite filter_nil_iff in Hnone.
        specialize (Hnone i Hin). rewrite Hk, (H3 i Hin) in Hnone.
        rewrite (proj2 (in_use_true _ _)) in Hnone by (exists r; by split). done. }
      unfold tbl_get in *. revert Hi. clear - Hne Hid.
      induction s.(s_db).(db_ips) as [|x l IH]; [done|]. cbn.
      destruct (row_key x =? r.(as_ip_id)) eqn:Hx.
      + intros [= ->]. rewrite Hne. cbn. by rewrite Hx.
      + destruct (negb _); cbn; [rewrite Hx|]; exact IH. }
  unfold wp. change (commit _) with ((commit : Meth unit) (s <|s_db := s.(s_db)
    <|db_subnets := tbl_delete k s.(s_db).(db_subnets)|>
    <|db_ips := List.filter (fun i => negb (i.(ip_subnet_id) =? k)) s.(s_db).(db_ips)|>|>)).
  apply (wp_commit_pool (fun _ => pool_in)); [by apply pool_after|].
  intros s2 Hd2 Hc2. split; [by rewrite Hd2|by rewrite Hc2].
Qed.

(** * What the pool promises *)

Inductive ip_request : Type :=
| IpCreate (hosts : list string) (name cidr : string) (location_id : option Z)
    (range_start range_end : option string) (tags : list json) (strategy : string) (resale : Z)
| IpUpdate (k : Z) (name : option string) (enabled : option bool) (strategy : option string)
    (location_id : option Z) (clear_location : bool) (resale : option Z)
| IpDelete (k : Z)
| IpAssign (a : assign_args)
| IpRelease (k : Z) (released_by : option string)
| IpReleaseAll (service_id : Z) (released_by : option string)
| IpRotate (k : Z) (username password rotated_by : option string).
Definition run_ip (r : ip_request) : Meth unit :=
  match r with
  | IpCreate hosts name cidr l rs re tags st m => create_subnet hosts name cidr l rs re tags st m ;;; ret tt
  | IpUpdate k name en st l clear m => update_subnet k name en st l clear m ;;; ret tt
  | IpDelete k => delete_subnet k
  | IpAssign a => assign_ip a ;;; ret tt
  | IpRelease k by_ => release_ip k by_ ;;; ret tt
  | IpReleaseAll k by_ => release_all_for_service k by_ ;;; ret tt
  | IpRotate k u p by_ => rotate_credentials k u p by_ ;;; ret tt
  end.
(** A request is answered, and closing its session drops what it did not
    commit. *)
Definition serve_ips (rs : list ip_request) : Meth unit :=
  for_each rs (fun r => try_catch (run_ip r) (fun _ => ret tt) ;;; rollback).

Lemma run_ip_spec r s : pool_in s -> wp (run_ip r) (fun _ => pool_in) pool_kept s.
Proof.
  intros Hs.
  assert (forall {A} (m : Meth A), wp m (fun _ => pool_in) pool_kept s ->
    wp (m ;;; ret tt) (fun _ => pool_in) pool_kept s) as Hret.
  { intros A m Hm. wp_step. eapply wp_conseq; [exact Hm|by intros|done]. }
  destruct r; cbn [run_ip]; try apply Hret; [by apply create_subnet_spec|by apply update_subnet_spec
    |by apply delete_subnet_spec| | | |by apply rotate_spec].
  - eapply wp_conseq; [by apply assign_ip_spec| |done]. by intros k s' [? _].
  - eapply wp_conseq; [by apply release_ip_spec| |done]. by intros x s' [? _].
  - eapply wp_conseq; [by apply release_all_spec| |done]. by intros x s' [? _].
Qed.

(** The address pool stays consistent: through every sequence of requests
    that create, edit and delete subnets and assign, release and rotate addresses,
    failed ones included, an address is marked assigned exactly while an assignment
    holds it, and every assignment's address exists. *)
Theorem pool_stays_consistent rs s :
  pool_ok s.(s_db) -> s.(s_committed) = s.(s_db) ->
  exists s', serve_ips rs s = (Ok tt, s') /\ pool_ok s'.(s_committed).
Proof.
  intros Hp Hc.
  assert (wp (serve_ips rs) (fun _ => pool_in) (fun _ _ => False) s) as Hwp.
  { apply wp_for_each; [by split; rewrite ?Hc|]. intros r s1 _ Hs1. wp_step. wp_step.
    eapply wp_conseq; [by apply run_ip_spec| |].
    - intros [] s2 [_ H2]. by apply wp_modify.
    - intros e s2 H2. apply wp_ret, wp_modify. by split. }
  unfold wp in Hwp. destruct (serve_ips rs s) as [[[]|e] s']; [|done].
  exists s'. by destruct Hwp.
Qed.

(** C25. No address is oversold, or sold twice to one customer: an assignment
    that succeeds adds one row, commits it, and gives an address of an enabled
    subnet in the requested scope, within that subnet's resale limit; the address
    was free, or its subnet had no free one left and none of its holders belongs
    to the new service's owner. *)
Theorem no_address_is_oversold a s k s' :
  pool_ok s.(s_db) -> pool_ok s.(s_committed) -> assign_ip a s = (Ok k, s') ->
  exists n x, In n (subnets_in_scope a s.(s_db)) /\ n.(sn_enabled) = true /\
    In x s.(s_db).(db_ips) /\ x.(ip_subnet_id) = n.(sn_id) /\
    s'.(s_committed) = s'.(s_db) /\
    s'.(s_db).(db_assignments) = s.(s_db).(db_assignments) ++
      [mk_ip_assignment k a.(aa_service_id) x.(ip_id) a.(aa_username) a.(aa_password)
         a.(aa_assigned_by)] /\
    Z.of_nat (List.length (assignments_of x.(ip_id) s'.(s_db))) <= max_resale n /\
    (in_use x.(ip_id) s.(s_db) = false \/
     (ips_in n.(sn_id) "free" s.(s_db) = [] /\
      held_by_owner (resolve_owner_user_id a.(aa_service_id) s.(s_db))
        (assignments_of x.(ip_id) s.(s_db)) s.(s_db) = false)).
Proof.
  intros Hp Hc Hrun. pose proof (assign_ip_spec a s (conj Hp Hc)) as Hspec.
  apply (wp_result _ _ _ _ _ _ Hrun) in Hspec as (_ & n & Hn & x & Hx & Hk & Hcm & Hrow & Hcap).
  destruct (candidate_In _ _ _ _ Hx) as (Hin & Hsub & Hcase).
  assert (n.(sn_enabled) = true) as Hen by (by apply List.filter_In in Hn as [_ Hn]).
  exists n, x. repeat (split; [done|]). destruct Hcase as [Hf|(Hf & _ & Hh)].
  - left. pose proof (pool_states _ Hp x Hin) as Hst. rewrite Hf in Hst. by destruct (in_use _ _).
  - by right.
Qed.

(** Releasing a service's addresses releases all of them and nothing else:
    the answer counts them, no assignment of the service is left, every other
    assignment stays, and the addresses nobody else holds are free again. *)
Theorem release_all_releases_all service_id by_ s n s' :
  pool_ok s.(s_db) -> pool_ok s.(s_committed) ->
  release_all_for_service service_id by_ s = (Ok n, s') ->
  n = Z.of_nat (List.length (assignments_of_service service_id s.(s_db))) /\
  s'.(s_db).(db_assignments)
  = List.filter (fun a => negb (a.(as_service_id) =? service_id)) s.(s_db).(db_assignments) /\
  forall i, In i s'.(s_db).(db_ips) ->
    (i.(ip_state) = "free" <->
     forall a, In a s.(s_db).(db_assignments) -> a.(as_ip_id) = i.(ip_id) ->
               a.(as_service_id) = service_id).
Proof.
  intros Hp Hc Hrun. pose proof (release_all_spec service_id by_ s (conj Hp Hc)) as Hspec.
  apply (wp_result _ _ _ _ _ _ Hrun) in Hspec as ([Hp' _] & -> & Hrows).
  split; [done|]. split; [done|]. intros i Hi. rewrite (pool_states _ Hp' i Hi).
  destruct (in_use i.(ip_id) s'.(s_db)) eqn:Hu.
  - split; [done|]. intros Hall. apply in_use_true in Hu as (a & Ha & Hid). rewrite Hrows in Ha.
    apply List.filter_In in Ha as [Ha Hne]. specialize (Hall a Ha Hid). lia.
  - split; [|done]. intros _ a Ha Hid. destruct (Z.eq_dec a.(as_service_id) service_id) as [|Hne]; [done|].
    exfalso. rewrite (proj2 (in_use_true _ _)) in Hu; [done|]. exists a. split; [|done].
    rewrite Hrows. apply List.filter_In. split; [done|]. lia.
Qed.

(** The guard counts what it sees: when the row with the higher key commits
    first, both requests for the last slot keep it. *)
Lemma late_commit_oversells ip a b first second :
  a.(as_id) < b.(as_id) -> assignments_of ip first.(s_db) = [b] ->
  assignments_of ip second.(s_db) = [a; b] ->
  enforce_resale_cap ip 1 b.(as_id) first = (Ok tt, first) /\
  enforce_resale_cap ip 1 a.(as_id) second = (Ok tt, second) /\
  List.length (assignments_of ip second.(s_db)) = 2%nat.
Proof.
  intros Hlt H1 H2. unfold enforce_resale_cap, bind, read, gets. rewrite H1, H2.
  change (Z.to_nat 1) with 1%nat. cbn [firstn existsb].
  rewrite (Z.eqb_refl a.(as_id)). repeat split; reflexivity.
Qed.

(** * A resold address *)

Definition resale_session : session :=
  session_of (sample_db
    <|db_services := [mk_service 1 "a" (Some 101) ST_HTTP_PROXY SS_ACTIVE None None None [] [] None None None None None PV_BILLING;
                      mk_service 2 "b" (Some 101) ST_HTTP_PROXY SS_ACTIVE None None None [] [] None None None None None PV_BILLING;
                      mk_service 3 "c" (Some 102) ST_HTTP_PROXY SS_ACTIVE None None None [] [] None None None None None PV_BILLING]|>
    <|db_subnets := [mk_ip_subnet 1 "proxies" "192.0.2.0/30" None None None [] "first_free" true 2]|>
    <|db_ips := [mk_ip_address 1 1 "192.0.2.1" "assigned" 0;
                 mk_ip_address 2 1 "192.0.2.2" "assigned" 0]|>
    <|db_assignments := [mk_ip_assignment 1 1 1 None None None;
                         mk_ip_assignment 2 3 2 None None None]|>) 50.
Definition assign_to (service_id : Z) : assign_args :=
  mk_assign_args service_id None None None None None [].

Lemma resale_pool_ok : pool_ok resale_session.(s_db).
Proof.
  constructor; cbn.
  - repeat constructor; cbn; intuition lia.
  - repeat constructor; cbn; intuition lia.
  - by intros i [<-|[<-|[]]].
  - intros a [<-|[<-|[]]]; by eexists.
Qed.

Lemma pool_stays_consistent_witness :
  exists s', serve_ips [IpCreate ["192.0.2.1"; "192.0.2.5"] "more" "192.0.2.4/31" None None None []
                          "spread_subnets" 1;
                        IpAssign (assign_to 2); IpAssign (assign_to 2); IpAssign (assign_to 2);
                        IpReleaseAll 2 None; IpDelete 1; IpRelease 1 None; IpDelete 2]
               resale_session = (Ok tt, s') /\
    pool_ok s'.(s_committed) /\ map ip_state s'.(s_committed).(db_ips) = ["free"; "assigned"].
Proof.
  destruct (pool_stays_consistent
    [IpCreate ["192.0.2.1"; "192.0.2.5"] "more" "192.0.2.4/31" None None None []
       "spread_subnets" 1;
     IpAssign (assign_to 2); IpAssign (assign_to 2); IpAssign (assign_to 2);
     IpReleaseAll 2 None; IpDelete 1; IpRelease 1 None; IpDelete 2]
    resale_session resale_pool_ok eq_refl) as (s' & Hrun & Hok).
  exists s'. split; [exact Hrun|]. split; [exact Hok|].
  vm_compute in Hrun. injection Hrun as <-. reflexivity.
Defined.

Lemma no_address_is_oversold_witness :
  exists s' n x, assign_ip (assign_to 2) resale_session = (Ok 3, s') /\
    In n (subnets_in_scope (assign_to 2) resale_session.(s_db)) /\ x.(ip_subnet_id) = n.(sn_id) /\
    Z.of_nat (List.length (assignments_of x.(ip_id) s'.(s_db))) <= max_resale n /\
    map as_ip_id s'.(s_db).(db_assignments) = [1; 2; 2].
Proof.
  destruct (assign_ip (assign_to 2) resale_session) as [r s'] eqn:Hrun.
  assert (r = Ok 3) as -> by (vm_compute in Hrun; by injection Hrun as <- _).
  destruct (no_address_is_oversold (assign_to 2) resale_session 3 s' resale_pool_ok resale_pool_ok Hrun)
    as (n & x & Hn & _ & _ & Hx & _ & _ & Hcap & _).
  exists s', n, x. split; [reflexivity|]. split; [exact Hn|]. split; [exact Hx|]. split; [exact Hcap|].
  vm_compute in Hrun. injection Hrun as <-. reflexivity.
Defined.

Lemma release_all_releases_all_witness :
  exists s', release_all_for_service 1 None resale_session = (Ok 1, s') /\
    s'.(s_db).(db_assignments) = [mk_ip_assignment 2 3 2 None None None].
Proof.
  destruct (release_all_for_service 1 None resale_session) as [r s'] eqn:Hrun.
  assert (r = Ok 1) as -> by (vm_compute in Hrun; by injection Hrun as <- _).
  exists s'. split; [reflexivity|].
  exact (proj1 (proj2 (release_all_releases_all 1 None resale_session 1 s' resale_pool_ok
    resale_pool_ok Hrun))).
Defined.
