(* ===== verification/GuestIp.v ===== *)
(** The pool of guest addresses: src/app/dao/vm_ip_allocation_dao.py, the
    administrator's endpoints of src/app/api/vm_ip_allocations.py, the
    reassignment of src/app/services/vm_ip_reassign.py with its endpoint, and
    the change of a service's status of src/app/api/services_admin.py. *)
From Stdlib Require Import ZArith Lia Ascii Permutation Sorted.
From stdpp Require Import base numbers list strings pretty.
From S2P Require Import Prelude Models Session Lifecycle Jobs Ipam.
#[local] Open Scope Z_scope.
#[local] Open Scope py_scope.

(** * Addresses as text *)

(** [s.split(c)] *)
Fixpoint split_on (c : ascii) (s : string) : list string :=
  match s with
  | EmptyString => [EmptyString]
  | String d s' =>
      if Ascii.eqb d c then EmptyString :: split_on c s'
      else match split_on c s' with
           | h :: t => String d h :: t
           | [] => [String d EmptyString]
           end
  end.

(** [IPv4Address(s)]: four decimal numbers up to 255, without leading zeros. *)
Definition parse_octet (s : string) : option Z :=
  if str_empty s || negb (str_all is_digit s) || Nat.ltb 3 (String.length s) then None
  else if (s != "0") && (str_take 1 s == "0") then None
  else match unsigned_int s with
       | Some n => if 255 <? n then None else Some n
       | None => None
       end.
Definition parse_ipv4 (s : string) : option Z :=
  match split_on "." s with
  | [a; b; c; d] =>
      match parse_octet a, parse_octet b, parse_octet c, parse_octet d with
      | Some a, Some b, Some c, Some d => Some (((a * 256 + b) * 256 + c) * 256 + d)
      | _, _, _, _ => None
      end
  | _ => None
  end.
(** [str(IPv4Address(n))] *)
Definition octet (n : Z) (i : Z) : string := pretty (Z.land (Z.shiftr n i) 255).
Definition ipv4_str (n : Z) : string :=
  octet n 24 +:+ "." +:+ octet n 16 +:+ "." +:+ octet n 8 +:+ "." +:+ octet n 0.

(** Whether [IPv6Address(s)] accepts [s]: eight groups of up to four hex
    digits, of which one run can be left out, the last two possibly written as
    an IPv4 address, and a zone after a percent sign. *)
Definition is_hex (c : ascii) : bool :=
  is_digit c ||
  (let n := Ascii.nat_of_ascii c in (Nat.leb 65 n && Nat.leb n 70) || (Nat.leb 97 n && Nat.leb n 102)).
Definition is_hextet (s : string) : bool :=
  negb (str_empty s) && str_all is_hex s && Nat.leb (String.length s) 4.
Definition ipv6_groups (parts : list string) : option (list string) :=
  match rev parts with
  | last :: before =>
      if Nat.ltb 1 (length (split_on "." last)) then
        match parse_ipv4 last with Some _ => Some (rev before ++ ["0"; "0"]) | None => None end
      else Some parts
  | [] => None
  end.
Fixpoint first_empty (l : list string) : nat :=
  match l with
  | [] => O
  | g :: l' => if str_empty g then O else S (first_empty l')
  end.
Definition valid_groups (parts : list string) : bool :=
  let inner := removelast (tail parts) in
  let starts := str_empty (hd EmptyString parts) in
  let ends := str_empty (List.last parts EmptyString) in
  Nat.leb (length parts) 9 &&
  match List.filter str_empty inner with
  | [] => Nat.eqb (length parts) 8 && forallb is_hextet parts
  | [_] =>
      let skip := S (first_empty inner) in
      let hi := (skip - if starts then 1 else 0)%nat in
      let lo := (length parts - skip - 1 - if ends then 1 else 0)%nat in
      negb (starts && negb (Nat.eqb hi 0)) && negb (ends && negb (Nat.eqb lo 0))
      && Nat.leb (hi + lo) 7 && forallb (fun g => str_empty g || is_hextet g) parts
  | _ => false
  end.
Definition valid_ipv6 (s : string) : bool :=
  Nat.eqb (length (split_on "/" s)) 1 &&
  match split_on "%" s with
  | [a] | [a; String _ _] =>
      let parts := split_on ":" a in
      Nat.leb 3 (length parts) &&
      match ipv6_groups parts with Some parts => valid_groups parts | None => false end
  | _ => false
  end.

(** [ip_address(s)] of the [ipaddress] module. *)
Inductive ip_value : Type := IPv4Address (n : Z) | IPv6Address.
Definition ip_address_of (s : string) : option ip_value :=
  match parse_ipv4 s with
  | Some n => Some (IPv4Address n)
  | None => if valid_ipv6 s then Some IPv6Address else None
  end.

Definition ipv4_range (first last : Z) : list string :=
  map (fun i => ipv4_str (first + Z.of_nat i)) (seq 0 (Z.to_nat (last + 1 - first))).
Definition iter_ips_in_range (start_ip end_ip : string) : outcome exn (list string) :=
  match ip_address_of start_ip, ip_address_of end_ip with
  | None, _ | _, None => Raise (ValueError "does not appear to be an IPv4 or IPv6 address")
  | Some (IPv4Address first), Some (IPv4Address last) =>
      if last <? first
      then Raise (ValueError "end_ip must be greater than or equal to start_ip")
      else Ok (ipv4_range first last)
  | _, _ => Raise (ValueError "Only IPv4 addresses are supported for bulk add")
  end.

(** ** Printing and parsing *)

Lemma split_on_app c a b : str_all (fun d => negb (Ascii.eqb d c)) a = true ->
  split_on c (a +:+ String c b) = a :: split_on c b.
Proof.
  induction a as [|d a IH]; [intros _; change (EmptyString +:+ String c b) with (String c b); cbn [split_on]; by rewrite Ascii.eqb_refl|].
  change (String d a +:+ String c b) with (String d (a +:+ String c b)). cbn [split_on str_all].
  intros [Hd Ha]%andb_true_iff. apply negb_true_iff in Hd. by rewrite Hd, IH.
Qed.
Lemma split_on_none c a : str_all (fun d => negb (Ascii.eqb d c)) a = true -> split_on c a = [a].
Proof.
  induction a as [|d a IH]; cbn [split_on str_all]; [done|]. intros [Hd Ha]%andb_true_iff.
  apply negb_true_iff in Hd. by rewrite Hd, IH.
Qed.
(** Splitting loses nothing. *)
Lemma split_on_join c s : match split_on c s with
                          | [] => False
                          | h :: t => s = h +:+ fold_right (fun x y => String c (x +:+ y)) "" t
                          end.
Proof.
  induction s as [|d s IH]; [done|]. cbn [split_on]. destruct (Ascii.eqb_spec d c) as [->|].
  - destruct (split_on c s) as [|h t]; [done|]. by rewrite IH.
  - destruct (split_on c s) as [|h t]; [done|]. cbn. by rewrite IH.
Qed.

Lemma octet_bounds n i : 0 <= Z.land (Z.shiftr n i) 255 < 256.
Proof. change 255 with (Z.ones 8). rewrite Z.land_ones by lia. apply Z.mod_pos_bound. lia. Qed.
Definition octets : list Z := map Z.of_nat (seq 0 256).
Lemma in_octets n : 0 <= n < 256 -> In n octets.
Proof. intros Hn. apply in_map_iff. exists (Z.to_nat n). split; [lia|]. apply in_seq. lia. Qed.
Lemma parse_octet_pretty n : 0 <= n < 256 ->
  parse_octet (pretty n) = Some n /\ str_all (fun d => negb (Ascii.eqb d ".")) (pretty n) = true.
Proof.
  intros Hn%in_octets.
  assert (forallb (fun n => bool_decide (parse_octet (pretty n) = Some n)
    && str_all (fun d => negb (Ascii.eqb d ".")) (pretty n)) octets = true) as H by (vm_compute; reflexivity).
  rewrite forallb_forall in H. apply H in Hn as [Hn ?]%andb_true_iff. by apply bool_decide_eq_true in Hn.
Qed.

Lemma octet_value n i : 0 <= i -> Z.land (Z.shiftr n i) 255 = (n / 2 ^ i) mod 256.
Proof. intros Hi. change 255 with (Z.ones 8). by rewrite Z.land_ones, Z.shiftr_div_pow2. Qed.
Lemma octets_value n : 0 <= n < 2 ^ 32 ->
  ((Z.land (Z.shiftr n 24) 255 * 256 + Z.land (Z.shiftr n 16) 255) * 256 + Z.land (Z.shiftr n 8) 255) * 256
    + Z.land (Z.shiftr n 0) 255 = n.
Proof.
  intros Hn. rewrite !octet_value by lia. change (2 ^ 24) with 16777216. change (2 ^ 16) with 65536.
  change (2 ^ 8) with 256. change (2 ^ 0) with 1. Z.to_euclidean_division_equations. lia.
Qed.
Lemma parse_ipv4_str n : 0 <= n < 2 ^ 32 -> parse_ipv4 (ipv4_str n) = Some n.
Proof.
  intros Hn. unfold parse_ipv4, ipv4_str, octet.
  pose proof (fun i => parse_octet_pretty _ (octet_bounds n i)) as Ho.
  assert (forall a b, str_all (fun d => negb (Ascii.eqb d ".")) a = true ->
    split_on "." (a +:+ "." +:+ b) = a :: split_on "." b) as Hdot by (intros a b; apply split_on_app).
  rewrite !Hdot, split_on_none by apply Ho.
  rewrite !(proj1 (Ho _)), octets_value by done. done.
Qed.

(** Every digit string an octet can be. *)
Definition digit_chars : list ascii := map (fun n => Ascii.ascii_of_nat (48 + n)) (seq 0 10).
Lemma is_digit_In c : is_digit c = true -> In c digit_chars.
Proof.
  unfold is_digit. intros [H1%Nat.leb_le H2%Nat.leb_le]%andb_true_iff. apply in_map_iff.
  exists (Ascii.nat_of_ascii c - 48)%nat. split; [|apply in_seq; lia].
  replace (48 + (Ascii.nat_of_ascii c - 48))%nat with (Ascii.nat_of_ascii c) by lia. apply Ascii.ascii_nat_embedding.
Qed.
Definition short_numbers : list string :=
  map (fun a => String a "") digit_chars
  ++ flat_map (fun a => map (fun b => String a (String b "")) digit_chars) digit_chars
  ++ flat_map (fun a => flat_map (fun b => map (fun c => String a (String b (String c ""))) digit_chars)
       digit_chars) digit_chars.
Lemma parse_octet_inv s n : parse_octet s = Some n -> s = pretty n /\ 0 <= n < 256.
Proof.
  intros Hp. assert (In s short_numbers) as Hs.
  { unfold parse_octet in Hp. destruct (_ || _) eqn:E in Hp; [done|]. clear Hp.
    apply orb_false_iff in E as [[E Ed%negb_false_iff]%orb_false_iff El%Nat.ltb_ge].
    unfold short_numbers. rewrite !in_app_iff.
    destruct s as [|a [|b [|c [|d s]]]]; cbn in E, El; [done| | | |lia];
      cbn [str_all] in Ed; repeat (apply andb_true_iff in Ed as [?%is_digit_In Ed]).
    - left. by apply (in_map (fun a => String a "")).
    - right; left. apply in_flat_map. exists a. split; [done|]. by apply (in_map (fun b => String a (String b ""))).
    - right; right. apply in_flat_map. exists a. split; [done|]. apply in_flat_map. exists b. split; [done|].
      by apply (in_map (fun c => String a (String b (String c "")))). }
  assert (forallb (fun s => match parse_octet s with
                            | Some n => (s == pretty n) && (0 <=? n) && (n <? 256)
                            | None => true end) short_numbers = true) as H by (vm_compute; reflexivity).
  rewrite forallb_forall in H. apply H in Hs. rewrite Hp in Hs.
  apply andb_true_iff in Hs as [[Heq ?]%andb_true_iff ?].
  split; [by apply (proj1 (py_eq_true _ _))|lia].
Qed.
Lemma parse_ipv4_inv s n : parse_ipv4 s = Some n -> s = ipv4_str n /\ 0 <= n < 2 ^ 32.
Proof.
  unfold parse_ipv4. pose proof (split_on_join "." s) as Hs.
  destruct (split_on "." s) as [|a [|b [|c [|d [|]]]]]; try done.
  destruct (parse_octet a) as [na|] eqn:Ea; [|done]. destruct (parse_octet b) as [nb|] eqn:Eb; [|done].
  destruct (parse_octet c) as [nc|] eqn:Ec; [|done]. destruct (parse_octet d) as [nd|] eqn:Ed; [|done].
  intros [= <-]. apply parse_octet_inv in Ea as [-> Ha], Eb as [-> Hb], Ec as [-> Hc], Ed as [-> Hd].
  split; [|lia]. rewrite Hs. cbn [fold_right]. rewrite str_app_nil. unfold ipv4_str, octet.
  rewrite !octet_value by lia. change (2 ^ 24) with 16777216. change (2 ^ 16) with 65536.
  change (2 ^ 8) with 256. change (2 ^ 0) with 1. set (n := ((na * 256 + nb) * 256 + nc) * 256 + nd).
  assert ((n / 16777216) mod 256 = na /\ (n / 65536) mod 256 = nb /\ (n / 256) mod 256 = nc
    /\ (n / 1) mod 256 = nd) as (-> & -> & -> & ->); [|done].
  subst n. clear Hs. repeat split; Z.to_euclidean_division_equations; lia.
Qed.

(** A bulk range lists every address between its ends once. *)
Lemma range_lists_addresses_once a b l : iter_ips_in_range a b = Ok l ->
  exists first last, parse_ipv4 a = Some first /\ parse_ipv4 b = Some last /\ first <= last
  /\ List.NoDup l /\ forall s, In s l <-> exists n, parse_ipv4 s = Some n /\ first <= n <= last.
Proof.
  unfold iter_ips_in_range, ip_address_of. intros H.
  destruct (parse_ipv4 a) as [first|] eqn:Ea; [|by repeat case_match].
  destruct (parse_ipv4 b) as [last|] eqn:Eb; [|by repeat case_match].
  destruct (Z.ltb_spec last first) as [|Hle]; [done|]. injection H as <-.
  apply parse_ipv4_inv in Ea as [_ Ha], Eb as [_ Hb]. exists first, last.
  do 3 (split; [done|]). split.
  - apply List.NoDup_map_NoDup_ForallPairs; [|apply seq_NoDup]. intros i j [_ Hi]%in_seq [_ Hj]%in_seq Heq.
    apply (f_equal parse_ipv4) in Heq. rewrite !parse_ipv4_str in Heq by lia. injection Heq. lia.
  - intros s. unfold ipv4_range. rewrite in_map_iff. split.
    + intros (i & <- & [_ Hi]%in_seq). exists (first + Z.of_nat i). rewrite parse_ipv4_str by lia. split; [done|lia].
    + intros (n & Hn & Hrange). apply parse_ipv4_inv in Hn as [-> _]. exists (Z.to_nat (n - first)).
      split; [f_equal; lia|]. apply in_seq. lia.
Qed.

(** * The pool *)

Definition upd_vm_ip (k : Z) (f : vm_ip -> vm_ip) : Meth unit :=
  write (fun d => d <|db_vm_ips := tbl_update k f d.(db_vm_ips)|>).

(** [column.ilike(pattern)] *)
Fixpoint like (p : string) : string -> bool :=
  match p with
  | EmptyString => str_empty
  | String c p' =>
      if Ascii.eqb c "%" then
        fix any s := like p' s || match s with String _ s' => any s' | EmptyString => false end
      else fun s =>
        match s with
        | String d s' => (Ascii.eqb c "_" || Ascii.eqb c d) && like p' s'
        | EmptyString => false
        end
  end.
Definition ilike (p s : string) : bool := like (str_lower p) (str_lower s).

Record pool_filter : Type := mk_pool_filter {
  pf_q : option string;
  pf_batch_tag : option string;
  pf_enabled : option bool;
  pf_assigned : option bool;
  pf_cluster_id : option Z
}.
Definition by_address (a b : vm_ip) : bool := String.leb a.(va_ip_address) b.(va_ip_address).
Definition is_assigned (a : vm_ip) : bool := bool_decide (is_Some a.(va_assigned_service_id)).
Definition selects (f : pool_filter) (a : vm_ip) : bool :=
  match f.(pf_q) with
  | Some q => str_empty q ||
      (let p := "%" +:+ str_strip q +:+ "%" in
       ilike p a.(va_ip_address) || ilike p a.(va_gateway)
       || match a.(va_bridge_name) with Some b => ilike p b | None => false end)
  | None => true
  end
  && match f.(pf_batch_tag) with
     | Some t => str_empty t || (a.(va_batch_tag) == Some t)
     | None => true
     end
  && match f.(pf_enabled) with Some b => Bool.eqb a.(va_enabled) b | None => true end
  && match f.(pf_assigned) with Some b => Bool.eqb (is_assigned a) b | None => true end
  && match f.(pf_cluster_id) with
     | Some c => match a.(va_clusters) with [] => true | l => existsb (Z.eqb c) l end
     | None => true
     end.
Definition list_all (f : pool_filter) (d : db) : list vm_ip :=
  sort_by by_address (List.filter (selects f) d.(db_vm_ips)).
Definition list_distinct_tags (d : db) : list string :=
  List.filter (fun t => negb (str_empty t))
    (sort_by String.leb (nodup String.string_dec (omap va_batch_tag d.(db_vm_ips)))).

Definition get_by_id (k : Z) : Meth (option vm_ip) := read (fun d => tbl_get k d.(db_vm_ips)).
Definition get_by_ip (ip : string) : Meth (option vm_ip) :=
  read (fun d => List.find (fun a => a.(va_ip_address) == ip) d.(db_vm_ips)).

Record vm_ip_data : Type := mk_vm_ip_data {
  vd_subnet_mask : string;
  vd_gateway : string;
  vd_bridge_name : option string;
  vd_cluster_ids : list Z;
  vd_enabled : bool;
  vd_batch_tag : option string
}.
Record vm_ip_update : Type := mk_vm_ip_update {
  vu_subnet_mask : option string;
  vu_gateway : option string;
  vu_bridge_name : option string;
  vu_cluster_ids : option (list Z);
  vu_enabled : option bool;
  vu_batch_tag : option string
}.
(** [tag or None] *)
Definition some_text (o : option string) : option string :=
  match o with Some t => if str_empty t then None else Some t | None => None end.
Definition or_keep {A} (o : option A) (old : A) : A := default old o.

Section Pool.
(** The ids of [proxmox_clusters], which nothing here changes. *)
Variable proxmox_clusters : list Z.

Definition known_clusters (ids : list Z) : list Z :=
  List.filter (fun c => existsb (Z.eqb c) ids) proxmox_clusters.

Definition create (ip_address_value : string) (a : vm_ip_data) : Meth Z :=
  k <- read (fun d => tbl_fresh d.(db_vm_ips)) ;;
  write (fun d => d <|db_vm_ips := d.(db_vm_ips) ++
    [mk_vm_ip k ip_address_value a.(vd_subnet_mask) a.(vd_gateway) a.(vd_bridge_name)
       (some_text a.(vd_batch_tag)) (known_clusters a.(vd_cluster_ids)) a.(vd_enabled) None]|>) ;;;
  flush ;;;
  ret k.
Definition updated (u : vm_ip_update) (a : vm_ip) : vm_ip :=
  a <|va_subnet_mask := or_keep u.(vu_subnet_mask) a.(va_subnet_mask)|>
    <|va_gateway := or_keep u.(vu_gateway) a.(va_gateway)|>
    <|va_bridge_name := match u.(vu_bridge_name) with Some b => Some b | None => a.(va_bridge_name) end|>
    <|va_enabled := or_keep u.(vu_enabled) a.(va_enabled)|>
    <|va_batch_tag := match u.(vu_batch_tag) with Some t => some_text (Some t) | None => a.(va_batch_tag) end|>
    <|va_clusters := match u.(vu_cluster_ids) with Some l => known_clusters l | None => a.(va_clusters) end|>.
Definition update_row (k : Z) (u : vm_ip_update) : Meth unit := upd_vm_ip k (updated u) ;;; flush.
(** The foreign key of [service_vm] is set to NULL. *)
Definition set_pointer (o : option Z) (v : vm_ext) : vm_ext := v <|vx_vm_ip_allocation_id := o|>.
Definition forget (k : Z) (s : service) : service :=
  match s.(sv_vm) with
  | Some v => if v.(vx_vm_ip_allocation_id) == Some k then s <|sv_vm := Some (set_pointer None v)|> else s
  | None => s
  end.
Definition delete (k : Z) : Meth unit :=
  write (fun d => d <|db_vm_ips := tbl_delete k d.(db_vm_ips)|>
    <|db_services := map (forget k) d.(db_services)|>) ;;;
  flush.

Definition allocation_matches_cluster (a : vm_ip) (proxmox_cluster_id : option Z) : bool :=
  match a.(va_clusters) with
  | [] => true
  | linked => match proxmox_cluster_id with
              | None => false
              | Some c => existsb (fun x => x =? c) linked
              end
  end.

(** [UPDATE vm_ip_allocations SET assigned_service_id WHERE id AND
    assigned_service_id IS NULL]: how many rows it changed. *)
Definition claimable (only_enabled : bool) (a : vm_ip) : bool :=
  negb (is_assigned a) && (negb only_enabled || a.(va_enabled)).
Definition claim_row (only_enabled : bool) (k service_id : Z) : Meth nat :=
  n <- read (fun d => length (List.filter (fun a => (a.(va_id) =? k) && claimable only_enabled a)
                                d.(db_vm_ips))) ;;
  upd_vm_ip k (fun a => if claimable only_enabled a
                        then a <|va_assigned_service_id := Some service_id|> else a) ;;;
  ret n.
(** [UPDATE service_vm SET vm_ip_allocation_id WHERE service_id] *)
Definition link_vm (service_id : Z) (o : option Z) : Meth unit := upd_vm service_id (set_pointer o).

Definition free_candidates (d : db) : list vm_ip :=
  sort_by by_address (List.filter (fun a => a.(va_enabled) && negb (is_assigned a)) d.(db_vm_ips)).
Fixpoint assign_first (service_id : Z) (proxmox_cluster_id : option Z) (candidates : list vm_ip)
  : Meth (option Z) :=
  match candidates with
  | [] => ret None
  | alloc :: rest =>
      if negb (allocation_matches_cluster alloc proxmox_cluster_id)
      then assign_first service_id proxmox_cluster_id rest
      else
        rowcount <- claim_row false alloc.(va_id) service_id ;;
        if Nat.eqb rowcount 1 then
          flush ;;;
          link_vm service_id (Some alloc.(va_id)) ;;;
          flush ;;;
          ret (Some alloc.(va_id))
        else assign_first service_id proxmox_cluster_id rest
  end.
Definition assign_next_free_to_service (service_id : Z) (proxmox_cluster_id : option Z)
  : Meth (option Z) :=
  candidates <- read free_candidates ;;
  assign_first service_id proxmox_cluster_id candidates.

Definition release_for_service (service_id : Z) : Meth nat :=
  link_vm service_id None ;;;
  n <- read (fun d => length (List.filter (fun a => a.(va_assigned_service_id) == Some service_id)
                                d.(db_vm_ips))) ;;
  write (fun d => d <|db_vm_ips := map (fun a =>
    if a.(va_assigned_service_id) == Some service_id
    then a <|va_assigned_service_id := None|> else a) d.(db_vm_ips)|>) ;;;
  ret n.

Definition assign_specific_to_service (service_id allocation_id : Z) (proxmox_cluster_id : option Z)
  : Meth Z :=
  o <- get_by_id allocation_id ;;
  alloc <- unwrap o (ValueError ("VM IP allocation " +:+ pretty allocation_id +:+ " not found")) ;;
  throw_if (negb alloc.(va_enabled))
    (ValueError ("VM IP allocation " +:+ pretty allocation_id +:+ " is disabled")) ;;;
  match alloc.(va_assigned_service_id) with
  | Some owner =>
      if owner =? service_id then
        link_vm service_id (Some alloc.(va_id)) ;;;
        flush ;;;
        ret alloc.(va_id)
      else raise (ValueError ("VM IP " +:+ alloc.(va_ip_address) +:+ " is already assigned to another service"))
  | None =>
      throw_if (negb (allocation_matches_cluster alloc proxmox_cluster_id))
        (ValueError ("VM IP " +:+ alloc.(va_ip_address) +:+ " is not available for Proxmox cluster "
           +:+ match proxmox_cluster_id with Some c => pretty c | None => "None" end)) ;;;
      rowcount <- claim_row true alloc.(va_id) service_id ;;
      throw_if (negb (Nat.eqb rowcount 1))
        (ValueError ("VM IP " +:+ alloc.(va_ip_address) +:+ " was claimed by another request")) ;;;
      flush ;;;
      link_vm service_id (Some alloc.(va_id)) ;;;
      flush ;;;
      ret alloc.(va_id)
  end.

(** ** The administrator's endpoints *)

Definition validate_ip (value : string) : Meth unit :=
  unwrap (ip_address_of value) (HTTPException 400) ;;; ret tt.
Definition validate_clusters (cluster_ids : list Z) : Meth unit :=
  throw_if (negb (forallb (fun c => existsb (Z.eqb c) proxmox_clusters) cluster_ids))
    (HTTPException 400).
Definition when_given {A} (o : option A) (m : A -> Meth unit) : Meth unit :=
  match o with Some a => m a | None => ret tt end.

Definition create_vm_ip_allocation (ip : string) (data : vm_ip_data) : Meth Z :=
  validate_ip ip ;;;
  validate_ip data.(vd_gateway) ;;;
  validate_clusters data.(vd_cluster_ids) ;;;
  existing <- get_by_ip ip ;;
  throw_if (bool_decide (is_Some existing)) (HTTPException 409) ;;;
  k <- create ip data ;;
  commit ;;;
  ret k.
Definition create_vm_ip_allocations_bulk (start_ip end_ip : string) (data : vm_ip_data)
  : Meth (Z * Z) :=
  validate_ip start_ip ;;;
  validate_ip end_ip ;;;
  validate_ip data.(vd_gateway) ;;;
  validate_clusters data.(vd_cluster_ids) ;;;
  ips <- lift_outcome (iter_ips_in_range start_ip end_ip) ;;
  throw_if (65536 <? Z.of_nat (length ips)) (HTTPException 400) ;;;
  counts <- fold_each ips (0, 0) (fun counts ip_value =>
    existing <- get_by_ip ip_value ;;
    match existing with
    | Some _ => ret (counts.1, counts.2 + 1)
    | None => create ip_value data ;;; ret (counts.1 + 1, counts.2)
    end) ;;
  commit ;;;
  ret counts.
Definition bulk_update_vm_ip_allocations (ids : list Z) (data : vm_ip_update) : Meth Z :=
  throw_if (match ids with [] => true | _ => false end) (HTTPException 400) ;;;
  when_given data.(vu_gateway) validate_ip ;;;
  when_given data.(vu_cluster_ids) validate_clusters ;;;
  updated <- fold_each ids 0 (fun updated allocation_id =>
    row <- get_by_id allocation_id ;;
    match row with
    | None => ret updated
    | Some _ => update_row allocation_id data ;;; ret (updated + 1)
    end) ;;
  commit ;;;
  ret updated.
Definition update_vm_ip_allocation (allocation_id : Z) (data : vm_ip_update) : Meth unit :=
  row <- get_by_id allocation_id ;;
  unwrap row (HTTPException 404) ;;;
  when_given data.(vu_gateway) validate_ip ;;;
  when_given data.(vu_cluster_ids) validate_clusters ;;;
  update_row allocation_id data ;;;
  commit.
Definition delete_vm_ip_allocation (allocation_id : Z) : Meth unit :=
  row <- get_by_id allocation_id ;;
  unwrap row (HTTPException 404) ;;;
  delete allocation_id ;;;
  commit.

(** ** Reassignment *)

(** What the hypervisor is asked for, and [str(exc)]. *)
Variable run_action : Z -> Meth json.
Variable purge_client_backups : Z -> Meth unit.
Variable str_exc : exn -> string.

(** An activity row is committed on its own, and failures to write it are
    swallowed. *)
Definition log_server_activity : Meth unit :=
  try_catch commit (fun e => if is_exception e then ret tt else raise e).

Definition list_available_ips_for_service (service_id : Z)
  : Meth (option Z * option vm_ip * list vm_ip) :=
  s <- the_service service_id ;;
  match s.(sv_service_type), s.(sv_vm) with
  | ST_VM, Some v =>
      let '(cluster_id, _, _) := vm_placement s in
      current <- (match v.(vx_vm_ip_allocation_id) with
                  | Some k => if k =? 0 then ret None else get_by_id k
                  | None => ret None
                  end) ;;
      rows <- read (list_all (mk_pool_filter None None (Some true) (Some false) cluster_id)) ;;
      ret (cluster_id, current, rows)
  | _, _ => raise (VmIpReassignError "Available IPs are only listed for VM services" 400)
  end.

Definition restore_previous_ip_assignment (service_id old_id : Z) (cluster_id : option Z) : Meth unit :=
  try_catch (assign_specific_to_service service_id old_id cluster_id ;;; ret tt)
    (fun e => if is_value_error e then ret tt else raise e).
Definition reset_failed (e : exn) : string :=
  match e with
  | StrategyActionError m => m
  | _ => str_or (Some (str_exc e)) "Guest network reset failed"
  end.
Definition maybe_reset_network_after_reassign (service_id : Z) (reset_network : bool)
  : Meth (option json * option string) :=
  if negb reset_network then ret (None, None)
  else
    try_catch (result <- run_action service_id ;; commit ;;; ret (Some result, None))
      (fun e => if is_exception e then ret (None, Some (reset_failed e)) else raise e).

Definition load_reassign_targets (service_id allocation_id : Z)
  : Meth (option vm_ip * vm_ip * option Z) :=
  s <- the_service service_id ;;
  match s.(sv_service_type), s.(sv_vm) with
  | ST_VM, Some v =>
      let '(cluster_id, _, _) := vm_placement s in
      old_alloc <- (match v.(vx_vm_ip_allocation_id) with
                    | Some k => if k =? 0 then ret None else get_by_id k
                    | None => ret None
                    end) ;;
      throw_if (match old_alloc with Some a => a.(va_id) =? allocation_id | None => false end)
        (VmIpReassignError "Selected IP is already assigned to this service" 409) ;;;
      o <- get_by_id allocation_id ;;
      new_preview <- unwrap o
        (VmIpReassignError ("VM IP allocation " +:+ pretty allocation_id +:+ " not found") 404) ;;
      ret (old_alloc, new_preview, cluster_id)
  | _, _ => raise (VmIpReassignError "IP reassignment is only supported for VM services" 400)
  end.

Record reassigned : Type := mk_reassigned {
  ra_status : string;
  ra_old_ip_address : option string;
  ra_old_allocation_id : option Z;
  ra_vm_ip_allocation_id : Z;
  ra_vm_ip_address : string;
  ra_network : option json;
  ra_network_error : option string
}.
Definition with_address (k : Z) (ip : string) (cfg : dict) : dict :=
  dict_set "vm_ip_address" (JStr ip) (dict_set "vm_ip_allocation_id" (JInt k) cfg).
Definition reassign_vm_ip (service_id allocation_id : Z) (reset_network : bool) : Meth reassigned :=
  targets <- load_reassign_targets service_id allocation_id ;;
  let '(old_alloc, _, cluster_id) := targets in
  log_server_activity ;;;
  let old_id := option_map va_id old_alloc in
  release_for_service service_id ;;;
  k <- try_catch (assign_specific_to_service service_id allocation_id cluster_id)
    (fun e =>
       if is_value_error e then
         match old_id with
         | Some old => restore_previous_ip_assignment service_id old cluster_id
         | None => ret tt
         end ;;;
         raise (VmIpReassignError (str_exc e) 409)
       else raise e) ;;
  o <- get_by_id k ;;
  new_alloc <- unwrap o AttributeError ;;
  upd_service service_id (fun s =>
    s <|sv_config := with_address k new_alloc.(va_ip_address) s.(sv_config)|>) ;;;
  commit ;;;
  network <- maybe_reset_network_after_reassign service_id reset_network ;;
  log_server_activity ;;;
  ret (mk_reassigned (match network.2 with None => "ok" | Some e => if str_empty e then "ok" else "partial" end)
         (option_map va_ip_address old_alloc) old_id k new_alloc.(va_ip_address) network.1 network.2).

Definition admin_reassign_vm_ip (service_id allocation_id : Z) (reset_network : bool) : Meth reassigned :=
  o <- read (fun d => tbl_get service_id d.(db_services)) ;;
  unwrap o (HTTPException 404) ;;;
  try_catch (reassign_vm_ip service_id allocation_id reset_network)
    (fun e => match e with VmIpReassignError _ c => raise (HTTPException c) | _ => raise e end).

(** ** The status of a service *)

Definition service_status_of (s : string) : option service_status :=
  List.find (fun x => service_status_value x == s) [SS_ACTIVE; SS_SUSPENDED; SS_TERMINATED; SS_PENDING].
Definition set_terminated_at (o : option Z) (s : service) : service := s <|sv_terminated_at := o|>.
Definition update_service_status (service_id : Z) (status : string) : Meth unit :=
  o <- read (fun d => tbl_get service_id d.(db_services)) ;;
  unwrap o (HTTPException 404) ;;;
  new_status <- unwrap (service_status_of (str_lower (str_strip status))) (HTTPException 400) ;;
  log_server_activity ;;;
  upd_service service_id (fun s => s <|sv_status := new_status|>) ;;;
  (if new_status == SS_TERMINATED then
     now <- utcnow ;;
     upd_service service_id (set_terminated_at (Some now)) ;;;
     release_for_service service_id ;;;
     release_all_for_service service_id (Some "admin") ;;;
     s <- the_service service_id ;;
     if s.(sv_service_type) == ST_VM then
       try_catch (purge_client_backups service_id)
         (fun e => if is_exception e then ret tt else raise e)
     else ret tt
   else upd_service service_id (set_terminated_at None)) ;;;
  commit ;;;
  log_server_activity.

(** * Ownership *)

(** Who a row of the pool is assigned to, and the row a service points at. *)
Definition owner (d : db) (a : Z) : option Z := tbl_get a d.(db_vm_ips) ≫= va_assigned_service_id.
Definition pointer (x : service) : option Z := x.(sv_vm) ≫= vx_vm_ip_allocation_id.
Definition vm_of (d : db) (s : Z) : option vm_ext := tbl_get s d.(db_services) ≫= sv_vm.
Definition address_of (d : db) (s : Z) : option Z := tbl_get s d.(db_services) ≫= pointer.
(** The two columns are inverse to each other. *)
Definition agrees (d : db) : Prop :=
  tbl_wf d.(db_vm_ips) /\ tbl_wf d.(db_services) /\
  forall a s, owner d a = Some s <-> address_of d s = Some a.
Definition rows_of (d : db) : list vm_ip * list service := (d.(db_vm_ips), d.(db_services)).
Lemma agrees_rows d d' : rows_of d' = rows_of d -> agrees d -> agrees d'.
Proof. unfold rows_of, agrees, owner, address_of. by intros [= -> ->]. Qed.

Definition assign (o : option Z) (a : vm_ip) : vm_ip := a <|va_assigned_service_id := o|>.
Definition point (o : option Z) (x : service) : service :=
  match x.(sv_vm) with Some v => x <|sv_vm := Some (set_pointer o v)|> | None => x end.
Definition claimed_by (k s : Z) (d : db) : db :=
  d <|db_vm_ips := tbl_update k (assign (Some s)) d.(db_vm_ips)|>.
Definition pointed (s : Z) (o : option Z) (d : db) : db :=
  d <|db_services := tbl_update s (point o) d.(db_services)|>.
Definition unassign (s : Z) (a : vm_ip) : vm_ip :=
  if a.(va_assigned_service_id) == Some s then assign None a else a.
Definition released (s : Z) (d : db) : db :=
  pointed s None d <|db_vm_ips := map (unassign s) d.(db_vm_ips)|>.
Lemma released_rows s d : db_vm_ips (released s d) = map (unassign s) d.(db_vm_ips).
Proof. done. Qed.
Lemma unassign_key s a : row_key (unassign s a) = row_key a.
Proof. unfold unassign. by destruct (_ == _). Qed.

Lemma point_key o x : row_key (point o x) = row_key x.
Proof. unfold point. by destruct (sv_vm x). Qed.
Lemma pointer_point o x : pointer (point o x) = sv_vm x ≫= (fun _ => o).
Proof. unfold point, pointer. destruct (sv_vm x) eqn:E; [done|]. by rewrite E. Qed.

Lemma owner_claimed k s d a :
  owner (claimed_by k s d) a = if a =? k then tbl_get k d.(db_vm_ips) ≫= (fun _ => Some s) else owner d a.
Proof.
  unfold owner, claimed_by. cbn [db_vm_ips update]. rewrite tbl_get_update by done.
  destruct (Z.eqb_spec a k) as [->|]; [|done]. by destruct (tbl_get k _).
Qed.
Lemma address_pointed s o d t :
  address_of (pointed s o d) t
  = if t =? s then vm_of d s ≫= (fun _ => o) else address_of d t.
Proof.
  unfold address_of, vm_of, pointed. cbn [db_services update]. rewrite tbl_get_update by apply point_key.
  destruct (Z.eqb_spec t s) as [->|]; [|done]. destruct (tbl_get s _) as [x|]; [|done]. apply pointer_point.
Qed.

(** A row that was free is assigned to a VM that had none. *)
Lemma agrees_linked k s d :
  agrees d -> is_Some (tbl_get k d.(db_vm_ips)) -> owner d k = None ->
  is_Some (vm_of d s) -> address_of d s = None ->
  agrees (pointed s (Some k) (claimed_by k s d)).
Proof.
  intros (Hw & Hs & Ha) [r Hr] Hfree [v Hv] Hp.
  split; [by apply tbl_wf_update|]. split; [by apply tbl_wf_update; [apply point_key|]|]. intros a t.
  change (owner (pointed s (Some k) (claimed_by k s d))) with (owner (claimed_by k s d)).
  rewrite owner_claimed, address_pointed, Hr.
  change (vm_of (claimed_by k s d)) with (vm_of d).
  change (address_of (claimed_by k s d)) with (address_of d). rewrite Hv. specialize (Ha a t). cbn.
  destruct (Z.eqb_spec a k) as [->|], (Z.eqb_spec t s) as [->|]; [done| | |done].
  - rewrite <- Ha, Hfree. split; congruence.
  - rewrite Ha, Hp. split; congruence.
Qed.
Lemma agrees_pointed_same k s d : agrees d -> owner d k = Some s -> agrees (pointed s (Some k) d).
Proof.
  intros (Hw & Hs & Ha) Hk. split; [done|]. split; [by apply tbl_wf_update; [apply point_key|]|]. intros a t.
  change (owner (pointed s (Some k) d)) with (owner d). rewrite address_pointed, (Ha a t).
  destruct (Z.eqb_spec t s) as [->|]; [|done]. apply Ha in Hk. rewrite Hk. unfold vm_of. unfold address_of, pointer in Hk.
  destruct (tbl_get s _) as [x|]; [|done]. cbn in *. by destruct (sv_vm x).
Qed.
Lemma owner_released s d a :
  owner (released s d) a = if owner d a == Some s then None else owner d a.
Proof.
  unfold owner. rewrite released_rows, tbl_get_map by apply unassign_key.
  destruct (tbl_get a _) as [r|]; [|done]. cbn. unfold unassign. by destruct (_ == _).
Qed.
Lemma agrees_released s d : agrees d -> agrees (released s d).
Proof.
  intros (Hw & Hs & Ha). split.
  { unfold tbl_wf in *. rewrite released_rows, map_map. erewrite map_ext; [exact Hw|]. apply unassign_key. }
  split; [by apply tbl_wf_update; [apply point_key|]|]. intros a t. rewrite owner_released.
  change (address_of (released s d)) with (address_of (pointed s None d)). rewrite address_pointed.
  specialize (Ha a t). destruct (Z.eqb_spec t s) as [->|Hne].
  - assert ((vm_of d s ≫= fun _ => None) = @None Z) as -> by (by destruct (vm_of d s)).
    destruct (py_eq_spec (owner d a) (Some s)) as [E|E]; split; congruence.
  - destruct (py_eq_spec (owner d a) (Some s)) as [E|E]; [|done]. rewrite <- Ha, E. split; congruence.
Qed.
Lemma released_address s d : address_of (released s d) s = None.
Proof.
  change (address_of (released s d)) with (address_of (pointed s None d)). rewrite address_pointed, Z.eqb_refl.
  by destruct (vm_of d s).
Qed.
Lemma forget_key k x : row_key (forget k x) = row_key x.
Proof. unfold forget. by repeat case_match. Qed.
Lemma agrees_deleted k d : agrees d ->
  agrees (d <|db_vm_ips := tbl_delete k d.(db_vm_ips)|> <|db_services := map (forget k) d.(db_services)|>).
Proof.
  intros (Hw & Hs & Ha). split; [by apply tbl_wf_delete|]. split.
  { unfold tbl_wf. cbn [db_services update]. rewrite map_map. erewrite map_ext; [exact Hs|]. apply forget_key. }
  intros a t. unfold owner, address_of. cbn [db_vm_ips db_services update].
  rewrite tbl_get_map by apply forget_key. specialize (Ha a t). unfold owner, address_of in Ha.
  assert ((option_map (forget k) (tbl_get t d.(db_services)) ≫= pointer = Some a)
          <-> a <> k /\ tbl_get t d.(db_services) ≫= pointer = Some a) as ->.
  { destruct (tbl_get t _) as [x|]; cbn; [|split; [done|by intros [_ ?]]]. unfold forget, pointer.
    destruct (sv_vm x) as [v|] eqn:E; cbn; [|rewrite E; cbn; split; [done|by intros [_ ?]]].
    destruct (py_eq_spec (vx_vm_ip_allocation_id v) (Some k)) as [Ek|Ek]; cbn; [|rewrite E; cbn].
    - rewrite Ek. split; [done|]. by intros [? [= ->]].
    - split; [|by intros [_ ?]]. intros H. split; [congruence|done]. }
  destruct (decide (a = k)) as [->|Hne].
  - rewrite tbl_get_delete_eq. split; [done|by intros [? _]].
  - rewrite tbl_get_delete_ne by done. rewrite Ha. split; [done|by intros [_ ?]].
Qed.

(** * What the methods do *)

Lemma filter_key {R} `{Keyed R} (p : R -> bool) k (t : list R) : tbl_wf t ->
  List.filter (fun r => (row_key r =? k) && p r) t
  = match tbl_get k t with Some r => if p r then [r] else [] | None => [] end.
Proof.
  unfold tbl_wf, tbl_get. induction t as [|x t IH]; [done|]. cbn. intros [Hx Ht]%List.NoDup_cons_iff.
  destruct (Z.eqb_spec (row_key x) k) as [E|]; cbn; [|by apply IH].
  assert (List.filter (fun r => (row_key r =? k) && p r) t = []) as ->; [|done].
  apply filter_nil_iff. intros y Hy. destruct (Z.eqb_spec (row_key y) k) as [Ey|]; [|done].
  exfalso. apply Hx. rewrite E, <- Ey. by apply in_map.
Qed.
Lemma tbl_update_ext {R} `{Keyed R} k f g (t : list R) : tbl_wf t ->
  (forall r, tbl_get k t = Some r -> f r = g r) -> tbl_update k f t = tbl_update k g t.
Proof.
  intros Ht Hfg. unfold tbl_update. apply map_ext_in. intros r Hr.
  destruct (Z.eqb_spec (row_key r) k) as [E|]; [|done]. apply Hfg. rewrite <- E. by apply tbl_get_wf.
Qed.
Lemma tbl_update_id {R} `{Keyed R} k (t : list R) : tbl_update k (fun r => r) t = t.
Proof. unfold tbl_update. rewrite <- (map_id t) at 2. apply map_ext. intros r. by destruct (_ =? _). Qed.
Lemma claim_row_run b k s st : tbl_wf st.(s_db).(db_vm_ips) ->
  claim_row b k s st
  = if match tbl_get k st.(s_db).(db_vm_ips) with Some a => claimable b a | None => false end
    then (Ok 1%nat, st <|s_db := claimed_by k s st.(s_db)|>) else (Ok 0%nat, st).
Proof.
  intros Hw. unfold claim_row, bind, read, gets, upd_vm_ip, write, modify, ret.
  pose proof (filter_key (claimable b) k _ Hw) as Hf. cbn [fst snd]. change va_id with (row_key (R := vm_ip)).
  rewrite Hf. set (f := fun a => if claimable b a then _ else a).
  destruct (tbl_get k _) as [a|] eqn:Ha; [destruct (claimable b a) eqn:Hc|].
  - unfold claimed_by. erewrite (tbl_update_ext k f (assign (Some s))); [done|done|].
    intros r Hr. rewrite Ha in Hr. injection Hr as <-. unfold f. by rewrite Hc.
  - erewrite (tbl_update_ext k f (fun r => r)); [rewrite tbl_update_id; by destruct st as [[]]|done|].
    intros r Hr. rewrite Ha in Hr. injection Hr as <-. unfold f. by rewrite Hc.
  - erewrite (tbl_update_ext k f (fun r => r)); [rewrite tbl_update_id; by destruct st as [[]]|done|].
    intros r Hr. congruence.
Qed.
Lemma link_vm_run s o st : link_vm s o st = (Ok tt, st <|s_db := pointed s o st.(s_db)|>).
Proof. done. Qed.
Lemma release_run s st :
  exists n, release_for_service s st = (Ok n, st <|s_db := released s st.(s_db)|>).
Proof. by eexists. Qed.

(** The first row on the list that can be claimed is claimed, however old the
    list is. *)
Definition can_have (cluster_id : option Z) (d : db) (a : vm_ip) : bool :=
  allocation_matches_cluster a cluster_id
  && match tbl_get a.(va_id) d.(db_vm_ips) with Some r => negb (is_assigned r) | None => false end.
Lemma assign_first_spec s c l st : tbl_wf st.(s_db).(db_vm_ips) ->
  wp (assign_first s c l)
    (fun o st' => match o with
     | Some k => exists a, List.find (can_have c st.(s_db)) l = Some a /\ a.(va_id) = k
         /\ st' = st <|s_db := pointed s (Some k) (claimed_by k s st.(s_db))|>
     | None => st' = st /\ List.find (can_have c st.(s_db)) l = None
     end)
    (fun _ st' => st'.(s_committed) = st.(s_committed)) st.
Proof.
  intros Hw. induction l as [|a l IH]; [done|]. cbn [assign_first List.find]. unfold can_have at 1.
  destruct (allocation_matches_cluster a c) eqn:Hm; cbn [negb andb].
  - unfold can_have at 2. rewrite Hm. cbn [andb]. apply wp_bind. unfold wp at 1. rewrite claim_row_run by done.
    destruct (tbl_get (va_id a) _) as [r|] eqn:Hr; [|exact IH]. unfold claimable. cbn [orb negb]. rewrite andb_true_r.
    destruct (negb (is_assigned r)) eqn:Hf; cbn [Nat.eqb]; [|exact IH].
    apply wp_bind, wp_flush; [intros _ _|done]. apply wp_bind. unfold wp at 1. rewrite link_vm_run.
    apply wp_bind, wp_flush; [intros _ _|done]. by exists a.
  - unfold can_have at 2. rewrite Hm. exact IH.
Qed.

Lemma find_can_have c d l a : List.find (can_have c d) l = Some a ->
  In a l /\ allocation_matches_cluster a c = true /\ is_Some (tbl_get a.(va_id) d.(db_vm_ips)) /\ owner d a.(va_id) = None.
Proof.
  intros [Hin H]%List.find_some. apply andb_true_iff in H as [Hm H]. split; [done|]. split; [done|].
  unfold owner. destruct (tbl_get _ _) as [r|]; [|done]. split; [done|]. cbn.
  apply negb_true_iff in H. unfold is_assigned in H. apply bool_decide_eq_false in H.
  destruct (va_assigned_service_id r); [|done]. exfalso. apply H. done.
Qed.
Lemma assign_specific_spec s k c st : tbl_wf st.(s_db).(db_vm_ips) ->
  wp (assign_specific_to_service s k c)
    (fun r st' => r = k /\ is_Some (tbl_get k st.(s_db).(db_vm_ips)) /\
       ((owner st.(s_db) k = Some s /\ st' = st <|s_db := pointed s (Some k) st.(s_db)|>)
        \/ (owner st.(s_db) k = None
            /\ st' = st <|s_db := pointed s (Some k) (claimed_by k s st.(s_db))|>)))
    (fun _ st' => st'.(s_committed) = st.(s_committed)) st.
Proof.
  intros Hw. unfold assign_specific_to_service, get_by_id. do 2 sess_step. apply wp_bind, wp_unwrap; [done|].
  intros a Ha. apply tbl_get_key in Ha as Hk. change (va_id a = k) in Hk. apply wp_bind, wp_throw_if; [done|].
  intros Hen%negb_false_iff. unfold owner. rewrite Ha. cbn. destruct (va_assigned_service_id a) as [o|] eqn:Ho.
  - destruct (Z.eqb_spec o s) as [->|]; [|done]. apply wp_bind. unfold wp at 1. rewrite link_vm_run, Hk.
    apply wp_bind, wp_flush; [intros _ _|done]. split; [done|]. split; [done|]. by left.
  - apply wp_bind, wp_throw_if; [done|]. intros _. apply wp_bind. unfold wp at 1.
    rewrite claim_row_run, Hk, Ha by done. unfold claimable, is_assigned. rewrite Ho, Hen.
    change (negb (bool_decide (is_Some None)) && (negb true || true)) with true. cbv iota.
    apply wp_bind, wp_throw_if; [done|]. intros _.
    apply wp_bind, wp_flush; [intros _ _|done]. apply wp_bind. unfold wp at 1. rewrite link_vm_run.
    apply wp_bind, wp_flush; [intros _ _|done]. split; [done|]. split; [done|]. by right.
Qed.

(** ** What keeps the columns inverse *)

Definition safe (st : session) : Prop := agrees st.(s_db) /\ agrees st.(s_committed).
Lemma safe_write f : (forall d, agrees d -> agrees (f d)) -> keeps safe (write f).
Proof. intros Hf st [Hd Hc]. split; [by apply Hf|done]. Qed.
Lemma safe_commit : keeps safe commit.
Proof.
  intros st [Hd Hc]. unfold wp. destruct (commit st) as [r st'] eqn:E.
  apply commit_cases in E as [Hdb Hcm]. assert (safe st') as H; [|by destruct r].
  unfold safe. rewrite Hdb. by destruct Hcm as [-> | ->].
Qed.
Lemma safe_log : keeps safe log_server_activity.
Proof.
  apply keeps_try; [apply safe_commit|]. intros e. destruct (is_exception e); [apply keeps_ret|apply keeps_raise].
Qed.
Lemma agrees_upd_service k f d :
  (forall x, row_key (f x) = row_key x) -> (forall x, pointer (f x) = pointer x) ->
  agrees d -> agrees (d <|db_services := tbl_update k f d.(db_services)|>).
Proof.
  intros Hk Hf (Hw & Hs & Ha). split; [done|]. split; [by apply tbl_wf_update|]. intros a t.
  change (owner _ a) with (owner d a). rewrite (Ha a t). unfold address_of. cbn [db_services update].
  rewrite tbl_get_update by done. destruct (t =? k); [|done]. destruct (tbl_get t _) as [x|]; [|done]. cbn. by rewrite Hf.
Qed.
Lemma agrees_upd_vm_ip k f d :
  (forall x, row_key (f x) = row_key x) -> (forall x, va_assigned_service_id (f x) = va_assigned_service_id x) ->
  agrees d -> agrees (d <|db_vm_ips := tbl_update k f d.(db_vm_ips)|>).
Proof.
  intros Hk Hf (Hw & Hs & Ha). split; [by apply tbl_wf_update|]. split; [done|]. intros a t.
  change (address_of _ t) with (address_of d t). rewrite <- (Ha a t). unfold owner. cbn [db_vm_ips update].
  rewrite tbl_get_update by done. destruct (a =? k); [|done]. destruct (tbl_get a _) as [x|]; [|done]. cbn. by rewrite Hf.
Qed.
Lemma agrees_created d r :
  row_key r = tbl_fresh d.(db_vm_ips) -> va_assigned_service_id r = None ->
  agrees d -> agrees (d <|db_vm_ips := d.(db_vm_ips) ++ [r]|>).
Proof.
  intros Hr Hn (Hw & Hs & Ha). split; [by apply tbl_wf_snoc|]. split; [done|]. intros a t.
  change (address_of _ t) with (address_of d t). rewrite <- (Ha a t). unfold owner. cbn [db_vm_ips update].
  rewrite tbl_get_app. destruct (tbl_get a d.(db_vm_ips)) as [x|]; [done|]. unfold tbl_get. cbn.
  destruct (_ =? _); cbn; by rewrite ?Hn.
Qed.

#[local] Hint Resolve safe_commit safe_log : dcim.
#[local] Hint Extern 1 (keeps safe (write _)) => apply safe_write; intros ? Hframe; exact Hframe : dcim.

Lemma create_safe ip a : keeps safe (create ip a).
Proof.
  intros st [Hd Hc]. unfold create. sess_step. apply wp_read, wp_bind, wp_write.
  set (st' := st <|s_db := _|>). assert (safe st') as Hst' by (split; [by apply agrees_created|done]).
  by apply wp_bind, wp_flush.
Qed.
Lemma update_safe k u : keeps safe (update_row k u).
Proof. apply keeps_bind; [|intros _; apply keeps_flush]. apply safe_write. intros d. by apply agrees_upd_vm_ip. Qed.
Lemma delete_safe k : keeps safe (delete k).
Proof. apply keeps_bind; [|intros _; apply keeps_flush]. apply safe_write. intros d. apply agrees_deleted. Qed.
Lemma release_safe s : keeps safe (release_for_service s).
Proof.
  intros st [Hd Hc]. unfold wp. destruct (release_run s st) as [n ->]. split; [by apply agrees_released|done].
Qed.
Lemma validate_ip_safe v : keeps safe (validate_ip v).
Proof. apply keeps_bind; [apply keeps_unwrap|]. intros _. apply keeps_ret. Qed.
#[local] Hint Resolve create_safe update_safe delete_safe release_safe validate_ip_safe : dcim.
Lemma when_given_safe {A} (o : option A) m : (forall a, keeps safe (m a)) -> keeps safe (when_given o m).
Proof. intros Hm. destruct o; [apply Hm|apply keeps_ret]. Qed.
#[local] Hint Resolve when_given_safe : dcim.
#[local] Hint Extern 1 (keeps _ (validate_clusters _)) => apply keeps_throw_if : dcim.
#[local] Hint Extern 1 (keeps _ (get_by_id _)) => apply keeps_read : dcim.
#[local] Hint Extern 1 (keeps _ (get_by_ip _)) => apply keeps_read : dcim.
Lemma lift_outcome_keeps {A} (I : session -> Prop) (o : outcome exn A) : keeps I (lift_outcome o).
Proof. intros st Hst. unfold lift_outcome. by destruct o. Qed.
#[local] Hint Resolve lift_outcome_keeps : dcim.

Lemma create_endpoint_safe ip a : keeps safe (create_vm_ip_allocation ip a).
Proof. unfold create_vm_ip_allocation. keeps_tac. Qed.
Lemma bulk_create_safe a b x : keeps safe (create_vm_ip_allocations_bulk a b x).
Proof. unfold create_vm_ip_allocations_bulk. keeps_tac. Qed.
Lemma bulk_update_safe l u : keeps safe (bulk_update_vm_ip_allocations l u).
Proof. unfold bulk_update_vm_ip_allocations. keeps_tac. Qed.
Lemma update_endpoint_safe k u : keeps safe (update_vm_ip_allocation k u).
Proof. unfold update_vm_ip_allocation. keeps_tac. Qed.
Lemma delete_endpoint_safe k : keeps safe (delete_vm_ip_allocation k).
Proof. unfold delete_vm_ip_allocation. keeps_tac. Qed.

(** What the hypervisor does for a service writes neither the pool nor the
    pointers; it may commit. *)
Definition pool_is (O C : Z -> option Z) (st : session) : Prop :=
  safe st /\ (forall a, owner st.(s_db) a = O a)
  /\ ((forall a, owner st.(s_committed) a = C a) \/ (forall a, owner st.(s_committed) a = O a)).
Class LeavesPool {A} (m : Meth A) : Prop := leaves_pool : forall O C, keeps (pool_is O C) m.
Context `{Hrun : forall s, LeavesPool (run_action s)} `{Hpurge : forall s, LeavesPool (purge_client_backups s)}.
Lemma leaves_safe {A} (m : Meth A) : LeavesPool m -> keeps safe m.
Proof.
  intros Hm st Hst. eapply wp_conseq; [apply (Hm (owner st.(s_db)) (owner st.(s_committed)))|intros ? ? H; apply H..].
  split; [done|]. split; [done|]. by left.
Qed.
#[local] Hint Extern 2 (keeps safe (run_action _)) => apply leaves_safe, Hrun : dcim.
#[local] Hint Extern 2 (keeps safe (purge_client_backups _)) => apply leaves_safe, Hpurge : dcim.
Lemma pool_is_commit O C : keeps (pool_is O C) commit.
Proof.
  intros st (Hs & HO & HC). unfold wp. pose proof (safe_commit st Hs) as Hs'. unfold wp in Hs'.
  destruct (commit st) as [r st'] eqn:E. apply commit_cases in E as [Hdb Hcm].
  assert (pool_is O C st') as H; [|by destruct r]. split; [by destruct r|]. rewrite Hdb. split; [done|].
  destruct Hcm as [-> | ->]; [by right|done].
Qed.
Lemma maybe_reset_leaves s b : LeavesPool (maybe_reset_network_after_reassign s b).
Proof.
  intros O C. unfold maybe_reset_network_after_reassign. destruct (negb b); [apply keeps_ret|].
  apply keeps_try; [|intros e; destruct (is_exception e); [apply keeps_ret|apply keeps_raise]].
  apply keeps_bind; [apply Hrun|]. intros r. apply keeps_bind; [apply pool_is_commit|]. intros _. apply keeps_ret.
Qed.
Lemma maybe_reset_raises s b st :
  wp (maybe_reset_network_after_reassign s b) (fun _ _ => True) (fun e _ => is_exception e = false) st.
Proof.
  unfold maybe_reset_network_after_reassign. destruct (negb b); [done|]. apply wp_try_catch.
  unfold wp at 1. destruct (bind _ _ st) as [[r|e] st']; [done|]. by destruct (is_exception e) eqn:E.
Qed.
Lemma log_leaves : LeavesPool log_server_activity.
Proof.
  intros O C. apply keeps_try; [apply pool_is_commit|]. intros e. destruct (is_exception e); [apply keeps_ret|apply keeps_raise].
Qed.

Lemma release_ips_safe s o : keeps safe (release_all_for_service s o).
Proof. unfold release_all_for_service, release_ip, upd_ip, add_history, delete_assignment. keeps_tac. Qed.
#[local] Hint Resolve release_ips_safe : dcim.
Lemma status_safe s x : keeps safe (update_service_status s x).
Proof.
  assert (forall k f, (forall x, row_key (f x) = row_key x) -> (forall x, pointer (f x) = pointer x) ->
    keeps safe (upd_service k f)) as Hupd.
  { intros k f ? ?. apply safe_write. intros d. by apply agrees_upd_service. }
  unfold update_service_status. keeps_tac; by apply Hupd.
Qed.

Lemma log_run st : exists c, log_server_activity st = (Ok tt, st <|s_committed := c|>)
  /\ (c = st.(s_db) \/ c = st.(s_committed)).
Proof.
  unfold log_server_activity, try_catch. destruct (commit st) as [[[]|e] st'] eqn:E.
  - exists st.(s_db). split; [|by left]. unfold commit, bind in E. destruct (flush st) as [[[]|] st1] eqn:F; [|done].
    apply flush_inv in F as ->. unfold modify in E. by injection E as <-.
  - exists st.(s_committed). split; [|by right]. unfold commit, bind, flush in E. 
    destruct (negb _); [|destruct (constraints _); [done|]]; injection E as <- <-; by destruct st.
Qed.

Lemma wp_returns {S E A} (m : M S E A) (Q : A -> S -> Prop) (R : E -> S -> Prop) s a s' :
  m s = (Ok a, s') -> Q a s' -> wp m Q R s.
Proof. unfold wp. by intros ->. Qed.
Lemma load_spec s k st :
  wp (load_reassign_targets s k)
    (fun t st' => st' = st /\ exists v, vm_of st.(s_db) s = Some v
       /\ forall a, t.1.1 = Some a -> v.(vx_vm_ip_allocation_id) = Some a.(va_id))
    (fun _ st' => st' = st) st.
Proof.
  unfold load_reassign_targets, the_service, get_by_id. apply wp_bind, wp_the; [done|]. intros x Hx.
  destruct (sv_service_type x); [done| |done]. destruct (sv_vm x) as [v|] eqn:Hv; [|done].
  unfold vm_placement. destruct (_ : option Z * option string * option Z) as [[c n] i].
  apply wp_bind. assert (exists o, (match v.(vx_vm_ip_allocation_id) with
    | Some k => if k =? 0 then ret None else read (fun d => tbl_get k d.(db_vm_ips)) | None => ret None end : Meth _) st = (Ok o, st)
    /\ forall a, o = Some a -> v.(vx_vm_ip_allocation_id) = Some a.(va_id)) as (o & Ho & Hold).
  { destruct (vx_vm_ip_allocation_id v) as [p|]; [|by eexists]. destruct (p =? 0); [by eexists|].
    eexists. split; [done|]. intros a Ha%tbl_get_key. by change (va_id a = p) in Ha; rewrite Ha. }
  eapply wp_returns; [exact Ho|]. apply wp_bind, wp_throw_if; [done|]. intros _. apply wp_bind, wp_read, wp_bind, wp_unwrap; [done|].
  intros a Ha. split; [done|]. exists v. split; [|exact Hold]. unfold vm_of. by rewrite Hx.
Qed.

(** What a reassignment of row [k] to service [s] leaves in place of [d]. *)
Definition moved (s k : Z) (d d' : db) : Prop :=
  (forall a, owner d' a = if a =? k then Some s else if owner d a == Some s then None else owner d a).
Lemma reassign_spec s k b d now :
  agrees d ->
  wp (reassign_vm_ip s k b)
    (fun out st' => safe st' /\ moved s k d st'.(s_committed) /\ (forall t, owner d k = Some t -> t = s)
       /\ out.(ra_vm_ip_allocation_id) = k
       /\ option_map va_ip_address (tbl_get k d.(db_vm_ips)) = Some out.(ra_vm_ip_address)
       /\ forall a, out.(ra_old_allocation_id) = Some a -> owner d a = Some s)
    (fun e st' => st'.(s_committed) = d \/ (is_exception e = false /\ safe st')) (session_of d now).
Proof.
  intros Hd. set (st := session_of d now). unfold reassign_vm_ip. apply wp_bind.
  eapply wp_conseq; [apply load_spec|cbv beta|intros e st' ->; by left].
  intros [[old new] c] st0 [-> (v & Hv & Hold)]. cbn [fst] in Hold. apply wp_bind.
  destruct (log_run st) as (cm & Hlog & Hcm). eapply wp_returns; [exact Hlog|].
  assert (cm = d) as -> by (by destruct Hcm). clear Hcm. change (st <|s_committed := d|>) with st.
  cbv zeta. apply wp_bind. destruct (release_run s st) as [n Hrel]. eapply wp_returns; [exact Hrel|].
  set (st2 := st <|s_db := released s st.(s_db)|>). change (s_db st) with d in st2.
  assert (agrees st2.(s_db)) as Ha2 by apply agrees_released, Hd. apply wp_bind, wp_try_catch.
  eapply wp_conseq; [apply assign_specific_spec, Ha2| |].
  2:{ intros e st' Hc. change (s_committed st2) with d in Hc. destruct (is_value_error e); [|by apply wp_raise; left].
      assert (keeps (committed_is d) (match option_map va_id old with
        | Some o => restore_previous_ip_assignment s o c | None => ret tt end)) as Hk.
      { destruct old as [o|]; [|apply keeps_ret]. cbn [option_map].
        unfold restore_previous_ip_assignment. apply keeps_try; [|intros ?; keeps_tac].
        unfold assign_specific_to_service, get_by_id, claim_row, upd_vm_ip, link_vm, upd_vm, upd_service. keeps_tac. }
      apply wp_bind. by eapply wp_conseq; [by apply Hk|intros ? ? Hc'; left|intros ? ? Hc'; left]. }
  intros r st3 (-> & [row Hrow] & [[Hown _]|[Hfree ->]]).
  { exfalso. change (s_db st2) with (released s d) in Hown. rewrite owner_released in Hown.
    destruct (py_eq_spec (owner d k) (Some s)); congruence. }
  set (D := pointed s (Some k) (claimed_by k s (released s d))).
  change (st2 <|s_db := _|>) with (st2 <|s_db := D|>). change (s_db st2) with (released s d) in Hrow, Hfree.
  assert (vm_of (released s d) s = Some (set_pointer None v)) as Hvm.
  { unfold vm_of, released, pointed. cbn [db_services update]. rewrite tbl_get_update, Z.eqb_refl by apply point_key.
    unfold vm_of in Hv. change (s_db st) with d in Hv. destruct (tbl_get s _) as [x|]; [|done]. cbn in *.
    unfold point. by rewrite Hv. }
  assert (agrees D) as HD.
  { apply agrees_linked; [by apply agrees_released|by eexists|done|by rewrite Hvm|apply released_address]. }
  assert (forall a, owner D a = if a =? k then Some s else if owner d a == Some s then None else owner d a) as Hmoved.
  { intros a. change (owner D) with (owner (claimed_by k s (released s d))). rewrite owner_claimed, Hrow. cbn.
    by destruct (a =? k); [|rewrite owner_released]. }
  assert (exists old_row, tbl_get k d.(db_vm_ips) = Some old_row /\ va_ip_address row = va_ip_address old_row) as (r0 & Hr0 & Hip).
  { rewrite released_rows, tbl_get_map in Hrow by apply unassign_key. destruct (tbl_get k _) as [r0|]; [|done].
    injection Hrow as <-. exists r0. split; [done|]. unfold unassign. by destruct (_ == _). }
  unfold get_by_id. apply wp_bind, wp_read. apply wp_bind, wp_unwrap; [by left|]. intros a Ha.
  assert (va_ip_address a = va_ip_address r0) as Hia.
  { change (s_db (st2 <|s_db := D|>)) with D in Ha. unfold D in Ha. change (db_vm_ips (pointed s (Some k) ?x)) with (db_vm_ips x) in Ha.
    unfold claimed_by in Ha. cbn [db_vm_ips update] in Ha. rewrite tbl_get_update, Z.eqb_refl in Ha by done.
    rewrite Hrow in Ha. injection Ha as <-. done. }
  apply wp_bind, wp_write. set (f := fun x : service => x <|sv_config := _|>). set (D2 := _ <|db_services := _|>).
  assert (agrees D2) as HD2 by (by apply (agrees_upd_service s f D)).
  assert (forall a, owner D2 a = owner D a) as HO2 by done. clearbody D2.
  apply wp_bind. eapply (wp_conseq _ (fun _ => pool_is (owner D) (owner D)) _ (fun _ st' => st'.(s_committed) = d)).
  { unfold commit. apply wp_bind, wp_flush; [intros _ _|done]. apply wp_modify. split; [done|]. split; [done|]. by left. }
  2:{ intros e st' ->. by left. }
  intros _ st4 H4. apply wp_bind.
  eapply wp_conseq; [apply (wp_and _ _ _ _ _ _ (maybe_reset_leaves s b _ _ st4 H4) (maybe_reset_raises s b st4))| |].
  2:{ intros e st5 [He Hx]. right. split; [done|apply He]. }
  intros [net err] st5 [H5 _]. apply wp_bind. destruct (log_run st5) as (cm & Hl & _).
  pose proof (log_leaves _ _ st5 H5) as H6. unfold wp in H6. rewrite Hl in H6.
  eapply wp_returns; [exact Hl|]. split; [apply H6|]. split.
  { intros x. destruct H6 as (_ & _ & [-> | ->]); apply Hmoved. }
  split; [intros t Ht; destruct (decide (t = s)) as [|Hne]; [done|]|].
  - change (owner (released s d) k = None) in Hfree. rewrite owner_released, Ht in Hfree.
    destruct (py_eq_spec (Some t) (Some s)); congruence.
  - split; [done|]. split; [by rewrite Hr0, Hia|]. cbn [ra_old_allocation_id]. destruct old as [o|]; [|done].
    cbn. intros x [= <-]. destruct Hd as (_ & _ & Hd). apply Hd. unfold address_of, pointer. unfold vm_of in Hv.
    change (s_db st) with d in Hv. destruct (tbl_get s _) as [y|]; [|done]. cbn in *. rewrite Hv. by apply Hold.
Qed.

Lemma ascii_compare_trans a b c : Ascii.compare a b = Lt -> Ascii.compare b c = Lt -> Ascii.compare a c = Lt.
Proof. unfold Ascii.compare. rewrite !N.compare_lt_iff. lia. Qed.
Lemma string_leb_trans a b c : String.leb a b = true -> String.leb b c = true -> String.leb a c = true.
Proof.
  unfold String.leb. revert b c. induction a as [|x a IH]; intros [|y b] [|z c]; cbn; try done.
  destruct (Ascii.compare x y) eqn:E1, (Ascii.compare y z) eqn:E2; try done; intros H1 H2.
  - apply Ascii.compare_eq_iff in E1 as ->, E2 as ->.
    assert (Ascii.compare z z = Eq) as -> by (unfold Ascii.compare; apply N.compare_refl). eauto.
  - apply Ascii.compare_eq_iff in E1 as ->. by rewrite E2.
  - apply Ascii.compare_eq_iff in E2 as ->. by rewrite E1.
  - by rewrite (ascii_compare_trans x y z).
Qed.
Lemma free_row a d c : tbl_wf d.(db_vm_ips) -> In a d.(db_vm_ips) ->
  can_have c d a = allocation_matches_cluster a c && negb (is_assigned a).
Proof.
  intros Hw Ha. unfold can_have. apply (tbl_get_wf _ _ Hw) in Ha. change (row_key a) with (va_id a) in Ha. by rewrite Ha.
Qed.

(** A service is given the free, enabled address of its cluster that comes
    first in the order of the addresses' text, and nothing only when there is
    none. *)
Theorem next_free_address s c d now :
  agrees d ->
  let usable a := In a d.(db_vm_ips) /\ va_enabled a = true /\ va_assigned_service_id a = None
                  /\ allocation_matches_cluster a c = true in
  match fst (assign_next_free_to_service s c (session_of d now)) with
  | Ok (Some k) => exists a, va_id a = k /\ usable a
      /\ (forall b, usable b -> String.leb a.(va_ip_address) b.(va_ip_address) = true)
      /\ let d' := (snd (assign_next_free_to_service s c (session_of d now))).(s_db) in
         owner d' k = Some s /\ (is_Some (vm_of d s) -> address_of d' s = Some k)
         /\ forall j, j <> k -> owner d' j = owner d j
  | Ok None => forall a, ~ usable a
  | Raise _ => (snd (assign_next_free_to_service s c (session_of d now))).(s_committed) = d
  end.
Proof.
  intros Hd usable. pose proof (proj1 Hd) as Hw.
  assert (forall a, In a (free_candidates d) -> In a d.(db_vm_ips) /\ va_enabled a = true /\ is_assigned a = false) as Hcand.
  { intros a [Ha Hf]%sort_by_In%filter_In. apply andb_true_iff in Hf as [? ?%negb_true_iff]. done. }
  assert (forall a, usable a <-> In a (free_candidates d) /\ can_have c d a = true) as Hus.
  { intros a. unfold usable. split.
    - intros (Ha & He & Hn & Hm). split; [|by rewrite free_row, Hm by done; unfold is_assigned; rewrite Hn].
      apply sort_by_In, filter_In. split; [done|]. unfold is_assigned. by rewrite He, Hn.
    - intros [Ha Hc]. destruct (Hcand a Ha) as (Hin & He & Hn). rewrite free_row in Hc by done.
      apply andb_true_iff in Hc as [Hm _]. unfold is_assigned in Hn. apply bool_decide_eq_false in Hn.
      split; [done|]. split; [done|]. split; [|done]. destruct (va_assigned_service_id a); [|done]. by exfalso; apply Hn. }
  pose proof (assign_first_spec s c (free_candidates d) (session_of d now) Hw) as Hspec. unfold wp in Hspec.
  change (assign_next_free_to_service s c (session_of d now))
    with (assign_first s c (free_candidates d) (session_of d now)).
  destruct (assign_first s c _ _) as [[[k|]|e] st']; cbn [fst snd]; [| |done].
  - destruct Hspec as (a & Hfind & <- & ->). exists a. split; [done|].
    apply find_can_have in Hfind as Hprops. destruct Hprops as (Hin & _ & [r Hr] & _).
    apply find_least in Hfind as (Hin' & Hp & Hleast); [|by intros ? ?; apply String.leb_total|by intros ? ? ?; apply string_leb_trans].
    split; [by apply Hus|]. split; [intros b [Hb Hcb]%Hus; apply Hleast; [by apply sort_by_In in Hb|done]|].
    cbn [s_db update]. change (s_db (session_of d now)) with d in Hr |- *.
    change (owner (pointed ?s ?o ?x)) with (owner x). rewrite owner_claimed, Z.eqb_refl, Hr. split; [done|]. split.
    + intros [v Hv]. rewrite address_pointed, Z.eqb_refl. change (vm_of (claimed_by (va_id a) s d) s) with (vm_of d s).
      by rewrite Hv.
    + intros j Hj. rewrite owner_claimed. by destruct (Z.eqb_spec j (va_id a)).
  - destruct Hspec as [_ Hnone]. intros a [Ha Hc]%Hus. eapply List.find_none in Hnone; [|exact Ha].
    change (s_db (session_of d now)) with d in Hnone. congruence.
Qed.

(** C30. A reassignment that returns has committed that the service holds the new
    row, nobody else did, and its old rows are free; one that fails has
    changed nothing.  The hypervisor's part decides neither. *)
Theorem reassignment_moves_the_address s k b d now out st' :
  agrees d -> admin_reassign_vm_ip s k b (session_of d now) = (out, st') ->
  match out with
  | Ok r => moved s k d st'.(s_committed) /\ (forall t, owner d k = Some t -> t = s)
      /\ address_of st'.(s_committed) s = Some k
      /\ option_map va_ip_address (tbl_get k d.(db_vm_ips)) = Some r.(ra_vm_ip_address)
  | Raise e => is_exception e = true -> st'.(s_committed) = d
  end.
Proof.
  intros Hd Hrun'. unfold admin_reassign_vm_ip, bind at 1 in Hrun'. cbn [read gets] in Hrun'.
  destruct (tbl_get s (db_services (s_db (session_of d now)))) as [x|]; [|by injection Hrun' as <- <-].
  cbn [unwrap] in Hrun'. unfold bind, ret, try_catch in Hrun'. pose proof (reassign_spec s k b d now Hd) as H. unfold wp in H.
  destruct (reassign_vm_ip s k b _) as [[r|e] st1].
  - injection Hrun' as <- <-. destruct H as (Hs & Hm & Ho & _ & Hip & _). split; [done|]. split; [done|]. split; [|done].
    destruct Hs as [_ (_ & _ & Ha)]. apply Ha. rewrite Hm. by rewrite Z.eqb_refl.
  - assert (exists e', out = Raise e' /\ st' = st1 /\ (is_exception e' = true -> is_exception e = true)) as (e' & -> & -> & He).
    { destruct e; injection Hrun' as <- <-; by eexists. }
    intros He'%He. destruct H as [H|[H _]]; [done|congruence].
Qed.

(** ** Requests *)

Inductive pool_request : Type :=
| PoolCreate (ip : string) (data : vm_ip_data)
| PoolCreateBulk (start_ip end_ip : string) (data : vm_ip_data)
| PoolUpdate (allocation_id : Z) (data : vm_ip_update)
| PoolUpdateBulk (ids : list Z) (data : vm_ip_update)
| PoolDelete (allocation_id : Z)
| PoolReassign (service_id allocation_id : Z) (reset_network : bool)
| PoolStatus (service_id : Z) (status : string).
Definition run_pool (r : pool_request) : Meth unit :=
  match r with
  | PoolCreate ip data => create_vm_ip_allocation ip data ;;; ret tt
  | PoolCreateBulk a b data => create_vm_ip_allocations_bulk a b data ;;; ret tt
  | PoolUpdate k u => update_vm_ip_allocation k u
  | PoolUpdateBulk l u => bulk_update_vm_ip_allocations l u ;;; ret tt
  | PoolDelete k => delete_vm_ip_allocation k
  | PoolReassign s k b => admin_reassign_vm_ip s k b ;;; ret tt
  | PoolStatus s x => update_service_status s x
  end.
Lemma run_pool_agrees r d now : agrees d -> agrees (snd (run_pool r (session_of d now))).(s_committed).
Proof.
  intros Hd. assert (forall m : Meth unit, keeps safe m -> agrees (snd (m (session_of d now))).(s_committed)) as Hk.
  { intros m Hm. specialize (Hm (session_of d now)). unfold wp in Hm. destruct (m _) as [[]]; by apply Hm. }
  destruct r; cbn [run_pool].
  - apply Hk, keeps_bind; [apply create_endpoint_safe|intros _; apply keeps_ret].
  - apply Hk, keeps_bind; [apply bulk_create_safe|intros _; apply keeps_ret].
  - apply Hk, update_endpoint_safe.
  - apply Hk, keeps_bind; [apply bulk_update_safe|intros _; apply keeps_ret].
  - apply Hk, delete_endpoint_safe.
  - unfold admin_reassign_vm_ip, bind at 1 2. cbn [read gets].
    destruct (tbl_get _ (db_services (s_db (session_of d now)))) as [x|]; [|done]. cbn [unwrap]. unfold bind, ret, try_catch.
    pose proof (reassign_spec service_id allocation_id reset_network d now Hd) as H. unfold wp in H.
    destruct (reassign_vm_ip _ _ _ _) as [[y|e] st1]; [apply H|].
    assert (agrees st1.(s_committed)) as Hc by (destruct H as [-> |[_ H]]; [done|apply H]). by destruct e.
  - apply Hk, status_safe.
Qed.

(** Requests are served one after the other on what the ones before them
    committed, whether they succeed or not. *)
Definition served (r : pool_request) (now : Z) (d : db) : db :=
  (snd (run_pool r (session_of d now))).(s_committed).

(** C24. Whatever requests the administrators make of the pool, and however
    they end, an address is assigned to a service exactly when that service
    points at it; so no two services point at one address. *)
Theorem guest_addresses_agree requests d :
  agrees d ->
  let d' := fold_left (fun d r => served r.1 r.2 d) requests d in
  (forall a s, owner d' a = Some s <-> address_of d' s = Some a)
  /\ (forall s t a, address_of d' s = Some a -> address_of d' t = Some a -> s = t).
Proof.
  intros Hd d'. assert (agrees d') as (_ & _ & Ha).
  { subst d'. revert d Hd. induction requests as [|r l IH]; intros d Hd; [done|]. by apply IH, run_pool_agrees. }
  split; [done|]. intros s t a Hs%Ha Ht%Ha. congruence.
Qed.
End Pool.

(** * At a concrete pool *)

Definition sample_vm (id : Z) (cluster : option Z) (pointer : option Z) : service :=
  mk_service id ("vm-" +:+ pretty id) (Some 1) ST_VM SS_ACTIVE
    (Some (mk_vm_ext cluster None None None pointer GS_RUNNING None)) None None [] [] None None None None
    None PV_INTERNAL.
Definition sample_vm_ip (id : Z) (ip : string) (clusters : list Z) (owner : option Z) : vm_ip :=
  mk_vm_ip id ip "255.255.255.0" "10.0.0.1" None None clusters true owner.
(** Addresses compare as text, so 10.0.0.10 comes before 10.0.0.9. *)
Definition sample_pool : db :=
  empty_db
    <|db_services := [sample_vm 1 (Some 4) (Some 1); sample_vm 2 (Some 4) None; sample_vm 3 None None]|>
    <|db_vm_ips := [sample_vm_ip 1 "10.0.0.8" [] (Some 1); sample_vm_ip 2 "10.0.0.9" [] None;
                    sample_vm_ip 3 "10.0.0.10" [4] None]|>.
Lemma sample_pool_agrees : agrees sample_pool.
Proof.
  split; [by repeat constructor; cbn; lia|]. split; [by repeat constructor; cbn; lia|]. intros a s.
  unfold owner, address_of, tbl_get. cbn -[Z.eqb].
  destruct (Z.eqb_spec 1 a) as [<-|]; cbn -[Z.eqb]; [|destruct (Z.eqb_spec 2 a) as [<-|]; cbn -[Z.eqb];
    [|destruct (Z.eqb_spec 3 a) as [<-|]; cbn -[Z.eqb]]];
  (destruct (Z.eqb_spec 1 s) as [<-|]; cbn -[Z.eqb]; [|destruct (Z.eqb_spec 2 s) as [<-|]; cbn -[Z.eqb];
    [|destruct (Z.eqb_spec 3 s) as [<-|]; cbn]]); split; congruence.
Qed.
Lemma next_free_address_witness :
  fst (assign_next_free_to_service 2 (Some 4) (session_of sample_pool 0)) = Ok (Some 3)
  /\ exists a, va_id a = 3 /\ forall b, In b sample_pool.(db_vm_ips) -> va_enabled b = true ->
       va_assigned_service_id b = None -> allocation_matches_cluster b (Some 4) = true ->
       String.leb a.(va_ip_address) b.(va_ip_address) = true.
Proof.
  split; [vm_compute; reflexivity|]. pose proof (next_free_address 2 (Some 4) sample_pool 0 sample_pool_agrees) as H.
  change (fst (assign_next_free_to_service 2 (Some 4) (session_of sample_pool 0)))
    with (@Ok exn (option Z) (Some 3)) in H. destruct H as (a & Ha & _ & Hleast & _).
  exists a. split; [exact Ha|]. intros b H1 H2 H3 H4. apply Hleast. repeat split; assumption.
Defined.
(** The request that fails at the hypervisor, one that takes an address that
    is in use, and the deletion of a row in use. *)
Lemma guest_addresses_agree_witness :
  let no_agent := fun _ : Z => raise (StrategyActionError "no agent") in
  let requests := [(PoolReassign 1 3 true, 0); (PoolReassign 2 3 false, 0); (PoolReassign 2 2 false, 0);
                   (PoolDelete 2, 0); (PoolStatus 1 "Suspended", 0); (PoolReassign 2 1 false, 0)] in
  let d' := fold_left (fun d r => served [4] no_agent (fun _ => ret tt) exn_name r.1 r.2 d)
              requests sample_pool in
  map (fun s => (s.(sv_id), pointer s)) d'.(db_services) = [(1, Some 3); (2, Some 1); (3, None)]
  /\ (forall s t a, address_of d' s = Some a -> address_of d' t = Some a -> s = t).
Proof.
  intros no_agent requests d'. split; [vm_compute; reflexivity|].
  apply (guest_addresses_agree [4] no_agent (fun _ => ret tt) exn_name
    (Hrun := fun s O C => keeps_raise _ _) (Hpurge := fun s O C => keeps_ret _ _)
    requests sample_pool sample_pool_agrees).
Defined.
Lemma reassignment_moves_the_address_witness :
  let '(r, st') := admin_reassign_vm_ip (fun _ => raise (StrategyActionError "no agent")) exn_name 1 3 true
                     (session_of sample_pool 0) in
  (exists x, r = Ok x /\ ra_status x = "partial") /\ moved 1 3 sample_pool st'.(s_committed).
Proof.
  assert (forall s : Z, LeavesPool ((fun _ => raise (StrategyActionError "no agent")) s : Meth json)) as Hl.
  { intros s O C. apply keeps_raise. }
  destruct (admin_reassign_vm_ip _ _ 1 3 true _) as [r st'] eqn:E. pose proof E as E'.
  vm_compute in E'. injection E' as Hr _. split; [rewrite <- Hr; eexists; split; reflexivity|].
  pose proof (reassignment_moves_the_address (fun _ => raise (StrategyActionError "no agent")) exn_name 1 3 true
    sample_pool 0 r st' sample_pool_agrees E) as H. rewrite <- Hr in H. apply H.
Defined.

(** Deleting an assigned row takes it from the pool, not from the guest: the
    address can be added again and given to another service. *)
Lemma deleted_address_is_given_twice :
  let data := mk_vm_ip_data "255.255.255.0" "10.0.0.1" None [] true None in
  let run {A} (m : Meth A) d := (snd (m (session_of d 0))).(s_committed) in
  let reassign s k := admin_reassign_vm_ip (fun _ => ret JNull) exn_name s k false in
  let d := run (reassign 1 2) sample_pool in
  let d := run (delete_vm_ip_allocation 2) d in
  let d := run (create_vm_ip_allocation [] "10.0.0.9" data) d in
  let d := run (reassign 2 4) d in
  map (fun s => dict_get "vm_ip_address" s.(sv_config)) d.(db_services)
  = [Some (JStr "10.0.0.9"); Some (JStr "10.0.0.9"); None].
Proof. vm_compute. reflexivity. Qed.
(** A service that is terminated and made active again runs without an address
    of the pool, which goes to the next service. *)
Lemma reactivated_service_shares_its_address :
  let run {A} (m : Meth A) d := (snd (m (session_of d 0))).(s_committed) in
  let reassign s k := admin_reassign_vm_ip (fun _ => ret JNull) exn_name s k false in
  let status s x := update_service_status (fun _ => ret tt) s x in
  let d := run (reassign 1 2) sample_pool in
  let d := run (status 1 "terminated") d in
  let d := run (status 1 "active") d in
  let d := run (reassign 2 2) d in
  map (fun s => (s.(sv_status), dict_get "vm_ip_address" s.(sv_config))) d.(db_services)
  = [(SS_ACTIVE, Some (JStr "10.0.0.9")); (SS_ACTIVE, Some (JStr "10.0.0.9")); (SS_ACTIVE, None)].
Proof. vm_compute. reflexivity. Qed.
(** A reversed or IPv6 range is answered with an unhandled error. *)
Lemma bad_range_is_a_server_error :
  let data := mk_vm_ip_data "64" "2001:db8::1" None [] true None in
  let bulk a b := fst (create_vm_ip_allocations_bulk [] a b data (session_of sample_pool 0)) in
  bulk "2001:db8::1" "2001:db8::9" = Raise (ValueError "Only IPv4 addresses are supported for bulk add")
  /\ bulk "10.0.0.9" "10.0.0.1" = Raise (ValueError "end_ip must be greater than or equal to start_ip")
  /\ bulk "10.0.0.9" "nowhere" = Raise (HTTPException 400).
Proof. vm_compute. repeat split. Qed.
