(* ===== verification/Scripts.v ===== *)
(** Installation scripts: the escaping of src/app/utils/shell_escape.py, the
    parameters of a template and the substitution of variables in its script
    (src/app/api/billing.py), and what a shell reads of a double-quoted text of
    the result. *)
From Stdlib Require Import ZArith Lia Ascii.
From stdpp Require Import base numbers list strings pretty.
From S2P Require Import Prelude Models Session.
#[local] Open Scope Z_scope.
#[local] Open Scope py_scope.

(** * Text *)

Definition DQUOTE : ascii := "034".
Definition BACKSLASH : ascii := "092".
Definition NEWLINE : ascii := "010".

(** The parts of [s] that [m] recognises are replaced, from left to right;
    [m] answers what replaces the part at the start of a text, and one less
    than its length.  [skip] characters are already replaced. *)
Fixpoint sub_with (m : string -> option (string * nat)) (skip : nat) (s : string) : string :=
  match s with
  | EmptyString => EmptyString
  | String c s' =>
      match skip with
      | S n => sub_with m n s'
      | O => match m s with
             | Some (new, n) => new +:+ sub_with m n s'
             | None => String c (sub_with m O s')
             end
      end
  end.
(** [s.replace(old, new)] *)
Definition str_replace (old new s : string) : string :=
  sub_with (fun t => if str_startswith old t then Some (new, pred (String.length old)) else None) O s.
(** [s.replace(c, new)] for one character. *)
Fixpoint replace_char (c : ascii) (new s : string) : string :=
  match s with
  | EmptyString => EmptyString
  | String d s' => (if Ascii.eqb d c then new else String d EmptyString) +:+ replace_char c new s'
  end.

(** * Escaping *)

(** [_CONTROL_CHARS], with the carriage returns and newlines. *)
Definition is_control (c : ascii) : bool :=
  let n := Ascii.nat_of_ascii c in Nat.ltb n 32 && negb (Nat.eqb n 9).
(** [str(value)]; [str_json] prints lists and objects. *)
Definition str_value (str_json : json -> string) (v : json) : string :=
  match v with
  | JNull => "None"
  | JBool b => if b then "True" else "False"
  | JInt n => pretty n
  | JStr s => s
  | JList _ | JObj _ => str_json v
  end.
Definition shell_escape_text (text : string) : string :=
  let text := str_remove is_control text in
  let text := replace_char BACKSLASH (String BACKSLASH (String BACKSLASH "")) text in
  let text := replace_char "`" (String BACKSLASH "`") text in
  let text := replace_char "$" (String BACKSLASH "$") text in
  replace_char DQUOTE (String BACKSLASH (String DQUOTE "")) text.
Definition shell_escape_double_quoted (str_json : json -> string) (value : json) : string :=
  match value with
  | JNull => EmptyString
  | _ => shell_escape_text (str_value str_json value)
  end.

(** * The parameters of a template *)

(** [PasswordGenerateConfig], [TemplateParameter] and [OSTemplate], with what
    the template's directory holds. *)
Record password_config : Type := mk_password_config {
  pg_enabled : bool;
  pg_length : Z;
  pg_charset : string;
  pg_exclude_ambiguous : bool
}.
Record template_parameter : Type := mk_template_parameter {
  tp_name : string;
  tp_type : string;
  tp_required : bool;
  tp_default : option json;
  tp_generate : option password_config
}.
Record os_template : Type := mk_os_template {
  ot_id : string;
  ot_name : string;
  ot_os_type : string;
  ot_script : option string;
  ot_disk_image : option string;
  ot_deploy_images : list string;
  ot_parameters : list template_parameter;
  ot_post_install_fix_boot_order : bool;
  ot_efi_boot_loader : option string
}.

Definition LETTERS : string := "abcdefghijklmnopqrstuvwxyzABCDEFGHIJKLMNOPQRSTUVWXYZ".
Definition DIGITS : string := "0123456789".
Definition charset_of (name : string) : string :=
  if name == "alphanumeric_symbols" then LETTERS +:+ DIGITS +:+ "!@#$%^&*()_+-=[]{}|;:,.<>?"
  else if name == "numeric" then DIGITS
  else if name == "alphabetic" then LETTERS
  else LETTERS +:+ DIGITS.
Fixpoint str_mem (c : ascii) (s : string) : bool :=
  match s with
  | EmptyString => false
  | String d s' => Ascii.eqb c d || str_mem c s'
  end.
Fixpoint string_of_chars (l : list ascii) : string :=
  match l with [] => EmptyString | c :: l' => String c (string_of_chars l') end.

Section Parameters.
(** [secrets.choice], by the text it chooses from and how often it was asked,
    and [str] of lists and objects. *)
Variable choice : string -> nat -> ascii.
Variable str_json : json -> string.

Definition password_chars (cfg : password_config) : string :=
  let chars := charset_of cfg.(pg_charset) in
  let chars := if cfg.(pg_exclude_ambiguous)
               then str_remove (fun c => str_mem c "0O1Il5S2Z") chars else chars in
  if str_empty chars then LETTERS +:+ DIGITS else chars.
Definition generate_parameter_password (cfg : password_config) : string :=
  let length := Z.max 4 (if cfg.(pg_length) =? 0 then 16 else cfg.(pg_length)) in
  string_of_chars (map (choice (password_chars cfg)) (seq 0 (Z.to_nat length))).

Fixpoint join_lines (l : list string) : string :=
  match l with
  | [] => EmptyString
  | [s] => s
  | s :: l' => s +:+ String NEWLINE (join_lines l')
  end.
Definition coerce_template_param_value (value : json) : string :=
  match value with
  | JNull => EmptyString
  | JList l =>
      join_lines (List.filter (fun s => negb (str_empty s))
        (map (str_value str_json) (List.filter (fun v => match v with JNull => false | _ => true end) l)))
  | JBool b => if b then "true" else "false"
  | v => str_value str_json v
  end.
(** [d.get(key)], [None] and null alike. *)
Definition dict_value (key : string) (d : dict) : json := default JNull (dict_get key d).

Definition apply_ssh_public_key_alias (supplied : dict) : dict :=
  if dict_has "ssh_public_key" supplied then supplied
  else match dict_value "ssh_public_keys" supplied with
       | JNull => supplied
       | keys => dict_set "ssh_public_key" (JStr (coerce_template_param_value keys)) supplied
       end.
Definition password_alias_from_supplied (supplied : dict) : string :=
  let password := coerce_template_param_value (dict_value "password" supplied) in
  if str_empty password then coerce_template_param_value (dict_value "admin_password" supplied)
  else password.
Definition resolve_template_param_value (p : template_parameter) (supplied : dict) (password_alias : string)
  : string * bool :=
  let param_type := if str_empty p.(tp_type) then "text" else p.(tp_type) in
  let value := coerce_template_param_value (dict_value p.(tp_name) supplied) in
  let value := if str_empty value && (param_type == "password") && negb (str_empty password_alias)
               then password_alias else value in
  let value := if str_empty value then coerce_template_param_value (default JNull p.(tp_default)) else value in
  let value := if str_empty value && (param_type == "password")
               then match p.(tp_generate) with
                    | Some cfg => if cfg.(pg_enabled) then generate_parameter_password cfg else value
                    | None => value
                    end
               else value in
  (value, str_empty value && p.(tp_required)).
Definition merge_extra_template_params (resolved supplied : dict) : dict :=
  fold_left (fun acc kv =>
    if dict_has kv.1 acc then acc
    else dict_set kv.1 (match kv.2 with
                        | JList _ => JStr (coerce_template_param_value kv.2)
                        | v => v
                        end) acc) supplied resolved.
Definition resolve_template_parameters (params : list template_parameter) (supplied : dict)
  : outcome exn dict :=
  match params with
  | [] => Ok supplied
  | _ =>
      let supplied := apply_ssh_public_key_alias supplied in
      let alias := password_alias_from_supplied supplied in
      let values := map (fun p => (p, resolve_template_param_value p supplied alias)) params in
      if existsb (fun x => x.2.2) values then Raise (HTTPException 400)
      else Ok (merge_extra_template_params
                 (fold_left (fun d x => dict_set x.1.(tp_name) (JStr x.2.1) d) values []) supplied)
  end.
End Parameters.

(** * Substitution *)

(** What [re.sub] makes of the text that is to replace a match: a backslash
    escape stands for a character, for the whole match, or is an error. *)
Inductive repl_piece : Type := Literal (c : ascii) | WholeMatch.
Definition is_octal (c : ascii) : bool :=
  let n := Ascii.nat_of_ascii c in Nat.leb 48 n && Nat.leb n 55.
Definition octal_char (l : list ascii) : option ascii :=
  let n := fold_left (fun acc c => acc * 8 + digit_value c) l 0 in
  if 255 <? n then None else Some (Ascii.ascii_of_nat (Z.to_nat n)).
Definition control_escape (c : ascii) : option ascii :=
  match List.find (fun x => Ascii.eqb x.1 c)
          [("a", "007"); ("b", "008"); ("f", "012"); ("n", "010"); ("r", "013"); ("t", "009");
           ("v", "011"); ("092", "092")]%char with
  | Some x => Some x.2
  | None => None
  end.
Fixpoint parse_repl (fuel : nat) (s : string) : option (list repl_piece) :=
  match fuel, s with
  | _, EmptyString => Some []
  | O, _ => None
  | S fuel, String c s' =>
      if negb (Ascii.eqb c BACKSLASH) then cons (Literal c) <$> parse_repl fuel s'
      else match s' with
           | EmptyString => None
           | String d s2 =>
               if Ascii.eqb d "g" then
                 if str_startswith "<0>" s2 then cons WholeMatch <$> parse_repl fuel (str_drop 3 s2) else None
               else if Ascii.eqb d "0" then
                 match s2 with
                 | String e (String f s3) =>
                     if is_octal e then
                       if is_octal f
                       then x ← octal_char [e; f]; cons (Literal x) <$> parse_repl fuel s3
                       else x ← octal_char [e]; cons (Literal x) <$> parse_repl fuel (String f s3)
                     else cons (Literal "000") <$> parse_repl fuel s2
                 | String e EmptyString =>
                     if is_octal e then x ← octal_char [e]; Some [Literal x]
                     else Some [Literal "000"; Literal e]
                 | EmptyString => Some [Literal "000"]
                 end
               else if is_digit d then
                 match s2 with
                 | String e (String f s3) =>
                     if is_octal d && is_octal e && is_octal f
                     then x ← octal_char [d; e; f]; cons (Literal x) <$> parse_repl fuel s3
                     else None
                 | _ => None
                 end
               else match control_escape d with
                    | Some x => cons (Literal x) <$> parse_repl fuel s2
                    | None =>
                        if is_alpha d then None
                        else (fun l => Literal BACKSLASH :: Literal d :: l) <$> parse_repl fuel s2
                    end
           end
  end.
Definition expand_repl (pieces : list repl_piece) (matched : string) : string :=
  fold_right (fun p acc => match p with Literal c => String c acc | WholeMatch => matched +:+ acc end)
    EmptyString pieces.

(** The length of [${NAME:-...}] at the start of a text. *)
Fixpoint up_to_brace (s : string) : option nat :=
  match s with
  | EmptyString => None
  | String c s' => if Ascii.eqb c "}" then Some 1%nat else S <$> up_to_brace s'
  end.
Definition default_form (name t : string) : option nat :=
  let opening := "${" +:+ name +:+ ":-" in
  if str_startswith opening t
  then (fun n => (String.length opening + n)%nat) <$> up_to_brace (str_drop (String.length opening) t)
  else None.
(** [re.sub(r"\$\{NAME:-[^}]*\}", value, s)] *)
Definition sub_default (name value s : string) : outcome exn string :=
  match parse_repl (S (String.length value)) value with
  | None => Raise (OtherError "error")
  | Some pieces =>
      Ok (sub_with (fun t => (fun n => (expand_repl pieces (str_take n t), pred n)) <$> default_form name t) O s)
  end.

Definition render_one (script : outcome exn string) (var : string * string) : outcome exn string :=
  match script with
  | Raise e => Raise e
  | Ok s =>
      match sub_default var.1 var.2 (str_replace ("${" +:+ var.1 +:+ "}") var.2 s) with
      | Ok s => Ok (str_replace ("$" +:+ var.1) var.2 s)
      | Raise e => Raise e
      end
  end.
(** A pass over the variables, in the order they were set. *)
Definition render (replacements : list (string * string)) (script : string) : outcome exn string :=
  fold_left render_one replacements (Ok script).

(** Variables are set in a dict. *)
Fixpoint set_var (k v : string) (l : list (string * string)) : list (string * string) :=
  match l with
  | [] => [(k, v)]
  | (k', v') :: l' => if k == k' then (k, v) :: l' else (k', v') :: set_var k v l'
  end.
Definition set_vars (new l : list (string * string)) : list (string * string) :=
  fold_left (fun l kv => set_var kv.1 kv.2 l) new l.

(** * What the shell reads *)

(** A double-quoted word, up to its closing quote, with what comes after it;
    nothing when the shell would expand something in it. *)
Definition is_special (c : ascii) : bool :=
  Ascii.eqb c DQUOTE || Ascii.eqb c BACKSLASH || Ascii.eqb c "$" || Ascii.eqb c "`".
Definition prepend (c : ascii) (o : option (string * string)) : option (string * string) :=
  match o with Some (word, rest) => Some (String c word, rest) | None => None end.
Fixpoint read_quoted (s : string) : option (string * string) :=
  match s with
  | EmptyString => None
  | String c s' =>
      if Ascii.eqb c DQUOTE then Some (EmptyString, s')
      else if Ascii.eqb c BACKSLASH then
        match s' with
        | EmptyString => None
        | String d s2 =>
            if is_special d then prepend d (read_quoted s2)
            else if Ascii.eqb d NEWLINE then read_quoted s2
            else prepend BACKSLASH (read_quoted s')
        end
      else if is_special c then None
      else prepend c (read_quoted s')
  end.

(** Escaping, a character at a time. *)
Definition escape_char (c : ascii) : string :=
  if is_control c then EmptyString
  else if is_special c then String BACKSLASH (String c EmptyString) else String c EmptyString.
Lemma replace_char_app c new a b : replace_char c new (a +:+ b) = replace_char c new a +:+ replace_char c new b.
Proof.
  induction a as [|d a IH]; [done|]. rewrite str_cons_app. cbn [replace_char]. by rewrite IH, str_app_assoc.
Qed.
Lemma shell_escape_cons c v : shell_escape_text (String c v) = escape_char c +:+ shell_escape_text v.
Proof.
  unfold shell_escape_text. cbn [str_remove]. unfold escape_char. destruct (is_control c); [by rewrite str_nil_app|].
  cbn [replace_char]. rewrite !replace_char_app. f_equal.
  destruct c as [[] [] [] [] [] [] [] []]; vm_compute; reflexivity.
Qed.

Lemma read_quoted_char c t : is_control c = false ->
  read_quoted (escape_char c +:+ t) = prepend c (read_quoted t).
Proof.
  unfold escape_char. intros ->. destruct (is_special c) eqn:Hc.
  - rewrite !str_cons_app, str_nil_app. cbn [read_quoted]. by rewrite Hc.
  - rewrite str_cons_app, str_nil_app. cbn [read_quoted]. rewrite Hc.
    unfold is_special in Hc. rewrite !orb_false_iff in Hc. destruct Hc as [[[-> ->] _] _]. done.
Qed.
Lemma escaped_reads_back v rest :
  read_quoted (shell_escape_text v +:+ String DQUOTE rest) = Some (str_remove is_control v, rest).
Proof.
  induction v as [|c v IH]; [done|]. rewrite shell_escape_cons, str_app_assoc. cbn [str_remove].
  destruct (is_control c) eqn:Hc; [unfold escape_char; rewrite Hc, str_nil_app; exact IH|].
  by rewrite read_quoted_char, IH.
Qed.

(** * Substitution and what it leaves alone *)

(** A recogniser of the forms of variables recognises texts that start with a
    dollar sign. *)
Definition at_dollar (m : string -> option (string * nat)) : Prop :=
  forall c t, Ascii.eqb c "$" = false -> m (String c t) = None.
Definition no_dollar (s : string) : bool := str_all (fun c => negb (Ascii.eqb c "$")) s.

(** Some suffix of [s], itself included, has the property [f]. *)
Fixpoint some_suffix (f : string -> bool) (s : string) : bool :=
  match s with
  | EmptyString => false
  | String _ s' => f s || some_suffix f s'
  end.

(** The forms a variable is written in, and the texts in which one of them
    occurs. *)
Definition slot (name : string) : string := "${" +:+ name +:+ "}".
Definition default_opening (name : string) : string := "${" +:+ name +:+ ":-".
Definition mentions (name s : string) : bool :=
  some_suffix (fun t => str_startswith (slot name) t || str_startswith (default_opening name) t
                        || str_startswith ("$" +:+ name) t) s.
(** A form with a default that the text does not close. *)
Definition leaves_open (name s : string) : bool :=
  some_suffix (fun t => str_startswith (default_opening name) t
     && match up_to_brace (str_drop (String.length (default_opening name)) t) with None => true | Some _ => false end) s.
(** Rendered alone, a text never has such a form open when its variable is
    substituted. *)
Fixpoint self_contained (vars : list (string * string)) (s : string) : bool :=
  match vars with
  | [] => true
  | var :: vars =>
      negb (leaves_open var.1 (str_replace (slot var.1) var.2 s))
      && match render_one (Ok s) var with
         | Ok s => self_contained vars s
         | Raise _ => false
         end
  end.

(** The three recognisers of [render_one]. *)
Definition at_slot (name value t : string) : option (string * nat) :=
  if str_startswith (slot name) t then Some (value, pred (String.length (slot name))) else None.
Definition at_default (name : string) (pieces : list repl_piece) (t : string) : option (string * nat) :=
  (fun n => (expand_repl pieces (str_take n t), pred n)) <$> default_form name t.
Definition at_bare (name value t : string) : option (string * nat) :=
  if str_startswith ("$" +:+ name) t then Some (value, pred (String.length ("$" +:+ name))) else None.
Definition substituted (name value : string) (pieces : list repl_piece) (s : string) : string :=
  sub_with (at_bare name value) O (sub_with (at_default name pieces) O (sub_with (at_slot name value) O s)).
Lemma render_one_parsed s name value pieces : parse_repl (S (String.length value)) value = Some pieces ->
  render_one (Ok s) (name, value) = Ok (substituted name value pieces s).
Proof. intros H. cbn [render_one fst snd]. unfold sub_default. by rewrite H. Qed.
Lemma render_one_ok s s' var : render_one (Ok s) var = Ok s' ->
  exists pieces, parse_repl (S (String.length var.2)) var.2 = Some pieces.
Proof. cbn [render_one]. unfold sub_default. destruct parse_repl; [by eexists|done]. Qed.

Lemma slot_dollar name : slot name = String "$" ("{" +:+ name +:+ "}").
Proof. done. Qed.
Lemma default_dollar name : default_opening name = String "$" ("{" +:+ name +:+ ":-").
Proof. done. Qed.
Lemma bare_dollar name : "$" +:+ name = String "$" name.
Proof. done. Qed.
Lemma form_dollar p c t : Ascii.eqb c "$" = false -> str_startswith (String "$" p) (String c t) = false.
Proof. intros Hc. cbn [str_startswith]. by rewrite Ascii.eqb_sym, Hc. Qed.
Lemma at_slot_dollar name value : at_dollar (at_slot name value).
Proof. intros c t Hc. unfold at_slot. by rewrite slot_dollar, (form_dollar _ _ _ Hc). Qed.
Lemma at_default_dollar name pieces : at_dollar (at_default name pieces).
Proof. intros c t Hc. unfold at_default, default_form.
  fold (default_opening name). by rewrite default_dollar, (form_dollar _ _ _ Hc). Qed.
Lemma at_bare_dollar name value : at_dollar (at_bare name value).
Proof. intros c t Hc. unfold at_bare. by rewrite bare_dollar, (form_dollar _ _ _ Hc). Qed.
#[local] Hint Resolve at_slot_dollar at_default_dollar at_bare_dollar : core.

Lemma sub_with_plain_app m a b : at_dollar m -> no_dollar a = true ->
  sub_with m O (a +:+ b) = a +:+ sub_with m O b.
Proof.
  intros Hm. induction a as [|c a IH]; [done|]. unfold no_dollar. cbn [str_all]. intros [Hc%negb_true_iff Ha]%andb_true_iff.
  rewrite !str_cons_app. cbn [sub_with]. by rewrite Hm, IH.
Qed.
Lemma sub_with_skip m a b : sub_with m (String.length a) (a +:+ b) = sub_with m O b.
Proof. induction a as [|c a IH]; [done|]. rewrite str_cons_app. exact IH. Qed.

(** ** Names and quotes *)

Definition is_word (c : ascii) : bool := is_alpha c || is_digit c || Ascii.eqb c "_".
Definition is_name (s : string) : bool := negb (str_empty s) && str_all is_word s.
Definition is_plain (c : ascii) : bool := negb (is_special c) && negb (is_control c).
Lemma word_plain c : is_word c = true -> is_plain c = true.
Proof. destruct c as [[] [] [] [] [] [] [] []]; vm_compute; congruence. Qed.
Lemma name_plain name : is_name name = true -> str_all is_plain name = true.
Proof. intros [_ H]%andb_true_iff. apply (str_all_impl _ _ _ word_plain H). Qed.
Lemma name_no_dollar name : is_name name = true -> no_dollar name = true.
Proof.
  intros H%name_plain. revert H. apply str_all_impl. intros c. unfold is_plain, is_special. rewrite !andb_true_iff, !negb_true_iff, !orb_false_iff. tauto.
Qed.
(** What can follow the dollar sign of a form: no quote is in it. *)
Lemma forms_plain name : is_name name = true ->
  str_all is_plain ("{" +:+ name +:+ "}") = true /\ str_all is_plain ("{" +:+ name +:+ ":-") = true
  /\ str_all is_plain name = true.
Proof. intros H%name_plain. by rewrite !str_all_app, H. Qed.

(** A form is not cut by a quote. *)
Lemma startswith_quote p a b : str_all is_plain p = true ->
  str_startswith p (a +:+ String DQUOTE b) = str_startswith p a.
Proof.
  revert p. induction a as [|c a IH]; intros [|d p]; [done| |done|]; cbn [str_all]; intros [Hd Hp]%andb_true_iff.
  - rewrite str_nil_app. cbn [str_startswith]. destruct (Ascii.eqb_spec d DQUOTE) as [->|]; [by vm_compute in Hd|done].
  - rewrite str_cons_app. cbn [str_startswith]. by rewrite IH.
Qed.
Lemma form_quote p a b : str_all is_plain p = true ->
  str_startswith (String "$" p) (a +:+ String DQUOTE b) = str_startswith (String "$" p) a.
Proof.
  intros Hp. destruct a as [|c a]; [done|]. rewrite str_cons_app. cbn [str_startswith]. by rewrite startswith_quote.
Qed.
Lemma names_apart a b c d x y : str_all is_word a = true -> str_all is_word b = true ->
  is_word c = false -> is_word d = false ->
  str_startswith (a +:+ String c x) (b +:+ String d y) = true -> a = b /\ c = d.
Proof.
  intros Ha Hb Hc Hd. revert b Hb. induction a as [|e a IH]; intros [|f b]; cbn [str_all] in *.
  - rewrite !str_nil_app. cbn [str_startswith]. by intros _ [?%Ascii.eqb_eq _]%andb_true_iff.
  - rewrite str_nil_app, str_cons_app. cbn [str_startswith]. intros [Hf _]%andb_true_iff [->%Ascii.eqb_eq _]%andb_true_iff.
    congruence.
  - rewrite str_nil_app, str_cons_app. cbn [str_startswith]. apply andb_true_iff in Ha as [He _].
    intros _ [->%Ascii.eqb_eq _]%andb_true_iff. congruence.
  - rewrite !str_cons_app. cbn [str_startswith]. apply andb_true_iff in Ha as [_ Ha].
    intros [_ Hb]%andb_true_iff [->%Ascii.eqb_eq H]%andb_true_iff. destruct (IH Ha b Hb H) as [-> ->]. done.
Qed.

(** ** Before a quote *)

(** What a recogniser says of a text, it says of the text followed by [b], and
    it takes no more than the text. *)
Definition settled (m : string -> option (string * nat)) (b a : string) : Prop :=
  m (a +:+ b) = m a /\ forall new n, m a = Some (new, n) -> (n < String.length a)%nat.
Fixpoint every_suffix (P : string -> Prop) (s : string) : Prop :=
  match s with
  | EmptyString => True
  | String _ s' => P s /\ every_suffix P s'
  end.
Lemma sub_with_app m a b : every_suffix (settled m b) a ->
  sub_with m O (a +:+ b) = sub_with m O a +:+ sub_with m O b.
Proof.
  intros Ha. enough (forall skip, (skip <= String.length a)%nat ->
    sub_with m skip (a +:+ b) = sub_with m skip a +:+ sub_with m O b) as H by (apply H; lia).
  induction a as [|c a IH]; intros skip Hs; cbn [String.length] in Hs.
  { by replace skip with O by lia. }
  destruct Ha as [[Hc Hlen] Ha]. rewrite str_cons_app in *. destruct skip as [|skip]; cbn [sub_with]; [|apply IH; [done|lia]].
  rewrite Hc. destruct (m (String c a)) as [[new n]|].
  - specialize (Hlen _ _ eq_refl). cbn [String.length] in Hlen. rewrite IH, str_app_assoc by (done || lia). done.
  - by rewrite IH, str_cons_app by (done || lia).
Qed.
Lemma every_suffix_all (P : string -> Prop) s : (forall t, P t) -> every_suffix P s.
Proof. intros H. induction s as [|c s IH]; [done|]. by split. Qed.
Lemma startswith_length p s : str_startswith p s = true -> (String.length p <= String.length s)%nat.
Proof.
  revert s. induction p as [|c p IH]; intros [|d s]; cbn; [lia|lia|done|]. intros [_ H%IH]%andb_true_iff. lia.
Qed.
Lemma at_slot_settled name value b s : is_name name = true ->
  every_suffix (settled (at_slot name value) (String DQUOTE b)) s.
Proof.
  intros (Hp & _ & _)%forms_plain. apply every_suffix_all. intros t. unfold settled, at_slot.
  rewrite slot_dollar, form_quote by done. split; [done|]. destruct str_startswith eqn:H; [|done].
  intros _ n [= _ <-]. apply startswith_length in H. exact H.
Qed.
Lemma at_bare_settled name value b s : is_name name = true ->
  every_suffix (settled (at_bare name value) (String DQUOTE b)) s.
Proof.
  intros (_ & _ & Hp)%forms_plain. apply every_suffix_all. intros t. unfold settled, at_bare.
  rewrite bare_dollar, form_quote by done. split; [done|]. destruct str_startswith eqn:H; [|done].
  intros _ n [= _ <-]. apply startswith_length in H. exact H.
Qed.

Lemma up_to_brace_app s b n : up_to_brace s = Some n -> up_to_brace (s +:+ b) = Some n.
Proof.
  revert n. induction s as [|c s IH]; intros n; [done|]. rewrite str_cons_app. cbn [up_to_brace]. destruct Ascii.eqb; [done|].
  destruct (up_to_brace s) as [k|]; [|done]. by rewrite (IH k).
Qed.
Lemma up_to_brace_length s n : up_to_brace s = Some n -> (0 < n <= String.length s)%nat.
Proof.
  revert n. induction s as [|c s IH]; intros n; [done|]. cbn [up_to_brace String.length]. destruct Ascii.eqb; [intros [= <-]; lia|].
  destruct (up_to_brace s) as [k|]; [|done]. intros [= <-]. specialize (IH k eq_refl). lia.
Qed.
Lemma str_drop_prefix n a b : (n <= String.length a)%nat -> str_drop n (a +:+ b) = str_drop n a +:+ b.
Proof.
  revert a. induction n as [|n IH]; intros [|c a]; cbn [String.length]; intros H; try done; [lia|].
  rewrite str_cons_app. apply IH. lia.
Qed.
Lemma str_take_prefix n a b : (n <= String.length a)%nat -> str_take n (a +:+ b) = str_take n a.
Proof.
  revert a. induction n as [|n IH]; intros [|c a]; cbn [String.length]; intros H; try done; [lia|].
  rewrite str_cons_app. unfold str_take. fold str_take. by rewrite IH by lia.
Qed.
Lemma length_str_drop n a : String.length (str_drop n a) = (String.length a - n)%nat.
Proof. revert a. induction n as [|n IH]; intros [|c a]; cbn; [done..|apply IH]. Qed.
Lemma at_default_settled name pieces b s : is_name name = true -> leaves_open name s = false ->
  every_suffix (settled (at_default name pieces) (String DQUOTE b)) s.
Proof.
  intros (_ & Hp & _)%forms_plain. induction s as [|c s IH]; [done|]. unfold leaves_open. cbn [some_suffix].
  intros [Hopen Hs]%orb_false_iff. split; [|by apply IH]. set (t := String c s) in *. clearbody t. clear IH Hs.
  unfold settled, at_default, default_form. fold (default_opening name). rewrite default_dollar in *.
  rewrite form_quote by done. destruct str_startswith eqn:H; [|done]. apply startswith_length in H.
  cbn [andb] in Hopen. rewrite str_drop_prefix by done. destruct up_to_brace as [n|] eqn:Hn; [|done].
  rewrite (up_to_brace_app _ _ _ Hn). apply up_to_brace_length in Hn. rewrite length_str_drop in Hn.
  set (k := String.length _) in *. clearbody k. assert (k + n <= String.length t)%nat as Hk by lia.
  cbn [fmap option_fmap option_map].
  split; [by rewrite str_take_prefix|]. intros _ ? [= _ <-]. lia.
Qed.

(** A text before a quote is rendered as it is alone. *)
Lemma substituted_app name value pieces pre rest : is_name name = true ->
  leaves_open name (str_replace (slot name) value pre) = false ->
  substituted name value pieces (pre +:+ String DQUOTE rest)
  = substituted name value pieces pre +:+ substituted name value pieces (String DQUOTE rest).
Proof.
  intros Hn Hopen. unfold substituted. rewrite sub_with_app by by apply at_slot_settled.
  change (String DQUOTE rest) with (String DQUOTE "" +:+ rest). rewrite !(sub_with_plain_app _ (String DQUOTE "")) by auto.
  rewrite sub_with_app by by apply at_default_settled. rewrite (sub_with_plain_app _ (String DQUOTE "")) by auto.
  rewrite sub_with_app by by apply at_bare_settled. by rewrite (sub_with_plain_app _ (String DQUOTE "")) by auto.
Qed.

(** ** In the quotes *)

(** A text is left alone up to the quote that follows it. *)
Definition quiet (m : string -> option (string * nat)) (a : string) : Prop :=
  forall b, sub_with m O (a +:+ String DQUOTE b) = a +:+ String DQUOTE (sub_with m O b).
Lemma quote_plain m b : at_dollar m -> sub_with m O (String DQUOTE b) = String DQUOTE (sub_with m O b).
Proof. intros Hm. cbn [sub_with]. by rewrite Hm. Qed.
Lemma substituted_quote name value pieces b :
  substituted name value pieces (String DQUOTE b) = String DQUOTE (substituted name value pieces b).
Proof. unfold substituted. by rewrite !quote_plain by auto. Qed.
Lemma substituted_quiet name value pieces a b :
  quiet (at_slot name value) a -> quiet (at_default name pieces) a -> quiet (at_bare name value) a ->
  substituted name value pieces (a +:+ String DQUOTE b) = a +:+ String DQUOTE (substituted name value pieces b).
Proof. intros H1 H2 H3. unfold substituted. by rewrite H1, H2, H3. Qed.

(** The slot of another variable. *)
Lemma slot_quiet m name : at_dollar m -> is_name name = true ->
  (forall b, m (slot name +:+ b) = None) -> quiet m (slot name).
Proof.
  intros Hm Hn%name_no_dollar Hs b. specialize (Hs (String DQUOTE b)). rewrite slot_dollar, str_cons_app in *.
  cbn [sub_with]. rewrite Hs. f_equal. rewrite sub_with_plain_app; [by rewrite quote_plain|done|].
  unfold no_dollar in *. by rewrite !str_all_app, Hn.
Qed.
Lemma other_form_apart var name c rest b : is_name var = true -> is_name name = true -> var <> name -> is_word c = false ->
  str_startswith (String "$" (String "{" (var +:+ String c rest))) (slot name +:+ b) = false.
Proof.
  intros [_ Hv]%andb_true_iff [_ Hn]%andb_true_iff Hne Hc. apply not_true_iff_false. intros H. apply Hne.
  unfold slot in H. rewrite !str_app_assoc in H. rewrite !str_cons_app, !str_nil_app in H. cbn [str_startswith] in H.
  apply andb_true_iff in H as [_ H]. apply andb_true_iff in H as [_ H].
  apply names_apart in H as [? _]; [done|done|done|done|by vm_compute].
Qed.
Lemma slot_of_another var value pieces name b : is_name var = true -> is_name name = true -> var <> name ->
  substituted var value pieces (slot name +:+ String DQUOTE b)
  = slot name +:+ String DQUOTE (substituted var value pieces b).
Proof.
  intros Hv Hn Hne. apply substituted_quiet; apply slot_quiet; auto; intros r.
  - unfold at_slot. change (slot var) with (String "$" (String "{" (var +:+ "}"))). by rewrite other_form_apart.
  - unfold at_default, default_form. change ("${" +:+ var +:+ ":-") with (String "$" (String "{" (var +:+ ":-"))).
    by rewrite other_form_apart.
  - unfold at_bare. destruct var as [|c var]; [by apply andb_true_iff in Hv as [? _]|].
    rewrite bare_dollar, slot_dollar, !str_cons_app. cbn [str_startswith].
    apply andb_true_iff in Hv as [_ Hw]. cbn [str_all] in Hw. apply andb_true_iff in Hw as [Hc _].
    destruct (Ascii.eqb_spec c "{") as [->|]; [by vm_compute in Hc|done].
Qed.

(** An escaped value. *)
Lemma escape_idle v : shell_escape_text v = shell_escape_text (str_remove is_control v).
Proof.
  induction v as [|c v IH]; [done|]. rewrite shell_escape_cons. cbn [str_remove]. destruct (is_control c) eqn:Hc.
  - unfold escape_char. by rewrite Hc, str_nil_app.
  - by rewrite shell_escape_cons, IH.
Qed.
Lemma startswith_escaped p w b : str_all is_plain p = true -> str_all (fun c => negb (is_control c)) w = true ->
  str_startswith p (shell_escape_text w +:+ String DQUOTE b) = str_startswith p w.
Proof.
  intros Hp. rewrite startswith_quote by done. revert p Hp. induction w as [|c w IH]; intros [|d p]; [done..|].
  cbn [str_all]. intros [Hd Hp]%andb_true_iff [Hc%negb_true_iff Hw]%andb_true_iff. rewrite shell_escape_cons.
  unfold escape_char. rewrite Hc. unfold is_plain in Hd. apply andb_true_iff in Hd as [Hd%negb_true_iff _].
  destruct (is_special c) eqn:Hs; rewrite !str_cons_app, str_nil_app; cbn [str_startswith]; [|by rewrite IH].
  assert (Ascii.eqb d BACKSLASH = false) as ->.
  { unfold is_special in Hd. rewrite !orb_false_iff in Hd. tauto. }
  destruct (Ascii.eqb_spec d c) as [->|]; [congruence|done].
Qed.
Lemma escaped_quiet m p w : (forall t, str_startswith (String "$" p) t = false -> m t = None) ->
  str_all is_plain p = true -> str_all (fun c => negb (is_control c)) w = true ->
  some_suffix (str_startswith (String "$" p)) w = false -> quiet m (shell_escape_text w).
Proof.
  intros Hm Hp Hw Hs b. assert (at_dollar m) as Hd by (intros c t Hc; by apply Hm, form_dollar).
  induction w as [|c w IH]; [rewrite str_nil_app; by apply quote_plain|].
  cbn [some_suffix] in Hs. apply orb_false_iff in Hs as [Hc Hs].
  cbn [str_all] in Hw. apply andb_true_iff in Hw as [Hctl%negb_true_iff Hw].
  specialize (IH Hw Hs). rewrite shell_escape_cons, str_app_assoc. set (E := shell_escape_text w +:+ _) in *.
  assert (sub_with m O (String c E) = String c (sub_with m O E)) as Hone.
  { cbn [sub_with]. rewrite Hm; [done|]. cbn [str_startswith] in *. unfold E. by rewrite startswith_escaped. }
  unfold escape_char. rewrite Hctl. destruct (is_special c); rewrite !str_cons_app, !str_nil_app;
    [|by rewrite Hone, IH].
  change (sub_with m O (String BACKSLASH ?t)) with (match m (String BACKSLASH t) with
    | Some (new, n) => new +:+ sub_with m n t | None => String BACKSLASH (sub_with m O t) end).
  by rewrite (Hd BACKSLASH), Hone, IH.
Qed.
Lemma some_suffix_impl (f g : string -> bool) s : (forall t, f t = true -> g t = true) ->
  some_suffix g s = false -> some_suffix f s = false.
Proof.
  intros H. induction s as [|c s IH]; [done|]. cbn [some_suffix]. intros [Hc Hs]%orb_false_iff.
  rewrite IH by done. destruct (f (String c s)) eqn:Hf; [|done]. apply H in Hf. congruence.
Qed.
Lemma substituted_in_value name value pieces w b : is_name name = true ->
  str_all (fun c => negb (is_control c)) w = true -> mentions name w = false ->
  substituted name value pieces (shell_escape_text w +:+ String DQUOTE b)
  = shell_escape_text w +:+ String DQUOTE (substituted name value pieces b).
Proof.
  intros (H1 & H2 & H3)%forms_plain Hw Hm. unfold mentions in Hm. apply substituted_quiet.
  - apply (escaped_quiet _ ("{" +:+ name +:+ "}")); [|done|done|].
    + intros t Ht. unfold at_slot. by rewrite slot_dollar, Ht.
    + revert Hm. apply some_suffix_impl. intros t. rewrite slot_dollar. by intros ->.
  - apply (escaped_quiet _ ("{" +:+ name +:+ ":-")); [|done|done|].
    + intros t Ht. unfold at_default, default_form. fold (default_opening name). by rewrite default_dollar, Ht.
    + revert Hm. apply some_suffix_impl. intros t. rewrite default_dollar. intros ->. by rewrite orb_true_r.
  - apply (escaped_quiet _ name); [|done|done|].
    + intros t Ht. unfold at_bare. by rewrite bare_dollar, Ht.
    + revert Hm. apply some_suffix_impl. intros t. rewrite bare_dollar. intros ->. by rewrite orb_true_r.
Qed.

(** The slot's own variable fills it. *)
Lemma slot_filled name pieces w b : is_name name = true ->
  str_all (fun c => negb (is_control c)) w = true -> mentions name w = false ->
  substituted name (shell_escape_text w) pieces (slot name +:+ String DQUOTE b)
  = shell_escape_text w +:+ String DQUOTE (substituted name (shell_escape_text w) pieces b).
Proof.
  intros Hn Hw Hm. rewrite <- (substituted_in_value name (shell_escape_text w) pieces w) by done. unfold substituted.
  do 2 f_equal. assert (quiet (at_slot name (shell_escape_text w)) (shell_escape_text w)) as ->.
  { apply forms_plain in Hn as (H1 & _). apply (escaped_quiet _ ("{" +:+ name +:+ "}")); [|done|done|].
    - intros t Ht. unfold at_slot. by rewrite slot_dollar, Ht.
    - revert Hm. apply some_suffix_impl. intros t. rewrite slot_dollar. by intros ->. }
  set (v := shell_escape_text w). set (m := at_slot name v). rewrite <- (quote_plain m) by (unfold m; auto).
  rewrite slot_dollar at 1. rewrite str_cons_app.
  assert (m (String "$" (("{" +:+ name +:+ "}") +:+ String DQUOTE b)) = Some (v, String.length ("{" +:+ name +:+ "}"))) as Hat.
  { unfold m, at_slot. rewrite <- str_cons_app, <- slot_dollar, startswith_refl. done. }
  cbn [sub_with]. by rewrite Hat, sub_with_skip.
Qed.

(** ** Passes *)

(** An escaped value is text that [re.sub] takes. *)
Lemma escape_parses v : forall n, (String.length (shell_escape_text v) < n)%nat ->
  is_Some (parse_repl n (shell_escape_text v)).
Proof.
  induction v as [|c v IH]; intros n; [by destruct n|]. rewrite shell_escape_cons. unfold escape_char.
  destruct (is_control c); [apply IH|]. destruct n as [|n]; [lia|].
  destruct (is_special c) eqn:Hc; rewrite !str_cons_app, str_nil_app; cbn [String.length parse_repl]; intros Hn.
  - assert (control_escape c = None /\ is_alpha c = false /\ is_digit c = false \/ c = BACKSLASH) as Hcase.
    { unfold is_special in Hc. rewrite !orb_true_iff, !Ascii.eqb_eq in Hc.
      destruct Hc as [[[-> | ->] | ->] | ->]; [left; by vm_compute|by right|left; by vm_compute..]. }
    assert (Ascii.eqb c "g" = false /\ Ascii.eqb c "0" = false /\ is_digit c = false) as (-> & -> & ->).
    { unfold is_special in Hc. rewrite !orb_true_iff, !Ascii.eqb_eq in Hc.
      destruct Hc as [[[-> | ->] | ->] | ->]; by vm_compute. }
    cbn [negb]. rewrite Ascii.eqb_refl. cbn [negb]. destruct (IH n) as [l ->]; [lia|].
    destruct Hcase as [(-> & -> & _) | ->]; [by eexists|]. by eexists.
  - destruct (negb (Ascii.eqb c BACKSLASH)) eqn:Hb; [destruct (IH n) as [l ->]; [lia|by eexists]|].
    apply negb_false_iff, Ascii.eqb_eq in Hb as ->. by vm_compute in Hc.
Qed.
(** Whether a pass raises depends on the values alone. *)
Lemma render_one_total s s' t var : render_one (Ok s) var = Ok s' -> exists t', render_one (Ok t) var = Ok t'.
Proof. intros [pieces H]%render_one_ok. destruct var as [name value]. eexists. by apply render_one_parsed. Qed.

(** Text between quotes that every variable leaves alone. *)
Lemma render_around vars pre mid post :
  Forall (fun var => is_name var.1 = true) vars -> self_contained vars pre = true ->
  (forall var pieces b, In var vars -> substituted var.1 var.2 pieces (mid +:+ String DQUOTE b)
     = mid +:+ String DQUOTE (substituted var.1 var.2 pieces b)) ->
  exists pre' post', render vars pre = Ok pre' /\ render vars post = Ok post'
    /\ render vars (pre +:+ String DQUOTE (mid +:+ String DQUOTE post))
       = Ok (pre' +:+ String DQUOTE (mid +:+ String DQUOTE post')).
Proof.
  intros Hv. revert pre post. unfold render. induction Hv as [|[name value] vars Hname _ IH]; intros pre post Hpre Hmid.
  { by exists pre, post. }
  cbn [self_contained fst snd] in Hpre. apply andb_true_iff in Hpre as [Hopen%negb_true_iff Hpre].
  destruct (render_one (Ok pre) (name, value)) as [pre1|e] eqn:Hone; [|done].
  destruct (render_one_ok _ _ _ Hone) as [pieces Hp]. rewrite (render_one_parsed _ _ _ _ Hp) in Hone.
  injection Hone as <-. cbn [fold_left]. rewrite !(render_one_parsed _ _ _ _ Hp).
  rewrite substituted_app, substituted_quote by done.
  rewrite (Hmid (name, value)) by by left. apply IH; [done|]. intros var ps b Hin. apply Hmid. by right.
Qed.
Lemma self_contained_app l1 l2 s : self_contained (l1 ++ l2) s = true ->
  self_contained l1 s = true /\ exists s', render l1 s = Ok s' /\ self_contained l2 s' = true.
Proof.
  revert s. induction l1 as [|var l1 IH]; intros s H; [split; [done|by exists s]|]. cbn [self_contained app] in *.
  apply andb_true_iff in H as [Ho H]. destruct (render_one (Ok s) var) as [s1|] eqn:H1; [|done].
  destruct (IH _ H) as (Hc & s' & Hs' & Hl). split; [by rewrite Ho|]. exists s'. split; [|done].
  unfold render in *. cbn [fold_left]. by rewrite H1.
Qed.
Lemma render_app l1 l2 s s' : render l1 s = Ok s' -> render (l1 ++ l2) s = render l2 s'.
Proof. unfold render. intros H. by rewrite fold_left_app, H. Qed.
Lemma uncontrolled v : str_all (fun c => negb (is_control c)) (str_remove is_control v) = true.
Proof.
  induction v as [|c v IH]; [done|]. cbn [str_remove]. destruct (is_control c) eqn:Hc; [done|].
  cbn [str_all]. by rewrite Hc.
Qed.
Lemma remove_uncontrolled w : str_all (fun c => negb (is_control c)) w = true -> str_remove is_control w = w.
Proof.
  induction w as [|c w IH]; [done|]. cbn [str_all str_remove]. intros [Hc%negb_true_iff Hw]%andb_true_iff.
  by rewrite Hc, IH.
Qed.

(** C17. A customer's value goes where the script has [${NAME}] between double
    quotes (not [$NAME], and not the form [${NAME:-default}], for which this is
    false: see [default_form_breaks_the_quotes]), after and before any other
    text of the script, other variables included.  What the shell reads between
    those quotes is then the value itself, less its control characters, with
    whatever quotes, backslashes, backticks and dollar signs it holds, and the
    text before and after the quotes is what it would be without the value.
    This needs of the names that they are words and that the value's is set
    once before it is substituted; of the value, that it spells neither its
    own variable nor one substituted after it; and of the text before, that it
    closes each form with a default, and that no other value is an error to
    [re.sub], when it is rendered alone.  Whether the text before leaves the
    shell outside of quotes is the template's affair. *)
Theorem quoted_value_reads_back before after pre post name v :
  let vars := before ++ (name, shell_escape_text v) :: after in
  let value := str_remove is_control v in
  Forall (fun var => is_name var.1 = true) vars ->
  Forall (fun var => var.1 <> name) before ->
  Forall (fun var => mentions var.1 value = false) ((name, shell_escape_text v) :: after) ->
  self_contained vars pre = true ->
  exists pre' post' word,
    render vars pre = Ok pre' /\ render vars post = Ok post'
    /\ render vars (pre +:+ String DQUOTE (slot name +:+ String DQUOTE post)) = Ok (pre' +:+ String DQUOTE word)
    /\ read_quoted word = Some (value, post').
Proof.
  intros vars value [Hb [Hname Ha]%Forall_cons]%Forall_app Hne [Hown Hafter]%Forall_cons Hpre. unfold vars in *. clear vars.
  change (before ++ ?x :: after) with (before ++ [x] ++ after) in *.
  apply self_contained_app in Hpre as (Hpb & p1 & Hp1 & Hpre). rewrite !(render_app before _ pre _ Hp1).
  destruct (render_around before pre (slot name) post) as (p1' & q1 & Hp1' & Hq1 & Hr1); [done|done| |].
  { intros var pieces b Hin. rewrite Forall_forall in Hb, Hne. apply slot_of_another; [|done|];
      [apply Hb|apply Hne]; by apply list_elem_of_In. }
  assert (p1' = p1) as -> by congruence.
  rewrite !(render_app before _ _ _ Hr1), !(render_app before _ _ _ Hq1). cbn [fst] in *.
  assert (shell_escape_text v = shell_escape_text value) as He by apply escape_idle.
  pose proof (uncontrolled v : str_all _ value = true) as Hw. clearbody value. rewrite He in *. clear He Hr1 Hq1 Hp1.
  cbn [app self_contained fst snd] in Hpre. apply andb_true_iff in Hpre as [Hopen%negb_true_iff Hpre].
  destruct (escape_parses value (S (String.length (shell_escape_text value)))) as [pieces Hps]; [lia|].
  unfold render. cbn [app fold_left]. rewrite !(render_one_parsed _ _ _ _ Hps) in *.
  rewrite substituted_app, substituted_quote, slot_filled by done.
  destruct (render_around after (substituted name (shell_escape_text value) pieces p1) (shell_escape_text value) (substituted name (shell_escape_text value) pieces q1))
    as (p' & q' & Hp & Hq & Hr); [done|exact Hpre| |].
  { intros var ps b Hin. apply list_elem_of_In in Hin. rewrite Forall_forall in Ha, Hafter.
    apply substituted_in_value; auto. }
  exists p', q', (shell_escape_text value +:+ String DQUOTE q'). split_and!; [done..|].
  by rewrite escaped_reads_back, remove_uncontrolled.
Qed.

(** A password of a quote, a backslash, a backtick and dollar signs, in lines of
    the Windows template (src/os_templates/windows-server-2022/install.sh). *)
Definition sample_password : string :=
  "a$b" +:+ String DQUOTE ("; $(reboot); " +:+ String BACKSLASH (String DQUOTE "`id`$")).
Definition quoted (s : string) : string := String DQUOTE (s +:+ String DQUOTE "").
Definition windows_head : string := join_lines
  ["[ -n " +:+ quoted "${SERVER_ID:-}" +:+ " ] || return 0";
   "echo " +:+ quoted "Server IP: ${SERVER_IP}";
   "echo " +:+ quoted "Installation Task ID: ${INSTALLATION_TASK_ID:-<not set>}";
   "echo " +:+ quoted "Boot Mode: ${OS_BOOT_MODE:-uefi}";
   "ADMIN_PASSWORD="].
Definition windows_tail : string := String NEWLINE (join_lines
  ["if [ -z " +:+ quoted "$ADMIN_PASSWORD" +:+ " ]; then exit 1; fi";
   "BOOT_MODE=" +:+ quoted "${OS_BOOT_MODE:-uefi}";
   "API_BASE=" +:+ quoted "${API_BASE_URL:-http://192.168.12.74:8000}"]).
Definition windows_before : list (string * string) :=
  [("SERVER_IP", "10.0.0.7"); ("SERVER_ID", "7"); ("OS_BOOT_MODE", "uefi")].
Definition windows_after : list (string * string) :=
  [("TEMPLATE_ID", "windows-server-2022"); ("API_BASE_URL", "http://10.0.0.1:8000"); ("INSTALLATION_TASK_ID", "3")].
Lemma quoted_value_reads_back_witness :
  exists pre' post' word,
    render (windows_before ++ ("PARAM_ADMIN_PASSWORD",
      shell_escape_double_quoted (fun _ => "") (JStr sample_password)) :: windows_after) windows_head = Ok pre'
    /\ render (windows_before ++ ("PARAM_ADMIN_PASSWORD",
      shell_escape_double_quoted (fun _ => "") (JStr sample_password)) :: windows_after) windows_tail = Ok post'
    /\ render (windows_before ++ ("PARAM_ADMIN_PASSWORD",
      shell_escape_double_quoted (fun _ => "") (JStr sample_password)) :: windows_after)
      (windows_head +:+ String DQUOTE (slot "PARAM_ADMIN_PASSWORD" +:+ String DQUOTE windows_tail))
      = Ok (pre' +:+ String DQUOTE word)
    /\ read_quoted word = Some (sample_password, post').
Proof.
  apply (quoted_value_reads_back windows_before windows_after windows_head windows_tail
    "PARAM_ADMIN_PASSWORD" sample_password); [repeat constructor|repeat constructor; discriminate|repeat constructor|].
  vm_compute. reflexivity.
Defined.

(** In the form with a default, which the Ubuntu template uses, [re.sub] takes
    the backslashes of the escaped value for its own: the value closes the
    quotes and the rest of it is a command of the script. *)
Lemma default_form_breaks_the_quotes :
  let password := String BACKSLASH (String DQUOTE "; reboot; ") in
  let word := String BACKSLASH (String BACKSLASH (String DQUOTE ("; reboot; " +:+ String DQUOTE ""))) in
  render [("PARAM_PASSWORD", shell_escape_double_quoted (fun _ => "") (JStr password))]
    ("DEFAULT_PASS=" +:+ String DQUOTE ("${PARAM_PASSWORD:-}" +:+ String DQUOTE ""))
  = Ok ("DEFAULT_PASS=" +:+ String DQUOTE word)
  /\ read_quoted word = Some (String BACKSLASH "", "; reboot; " +:+ String DQUOTE "").
Proof. vm_compute. split; reflexivity. Qed.
(** A value that spells a variable is substituted in its turn. *)
Lemma dollar_in_a_value_is_substituted :
  render [("PARAM_PASSWORD", shell_escape_double_quoted (fun _ => "") (JStr "a$API_BASE_URLb"));
          ("API_BASE_URL", "http://10.0.0.1")] "P=${PARAM_PASSWORD}"
  = Ok ("P=a" +:+ String BACKSLASH "http://10.0.0.1b").
Proof. vm_compute. reflexivity. Qed.
