(* ===== verification/Installs.v ===== *)
(** Booting servers and installing operating systems on them:
    src/app/dao/boot_task_dao.py and installation_task_dao.py, the queueing of a
    template's installation (src/app/api/billing.py), the reports of installers
    and the administrator's changes (src/app/api/installation_tasks.py), and the
    network boot endpoint (src/app/api/server_interaction.py). *)
From Stdlib Require Import ZArith Lia Ascii.
From stdpp Require Import base numbers list strings pretty.
From S2P Require Import Prelude Models Session Lifecycle Jobs GuestIp Scripts.
#[local] Open Scope Z_scope.
#[local] Open Scope py_scope.

Definition upd_boot (k : Z) (f : boot_task -> boot_task) : Meth unit :=
  write (fun d => d <|db_boot_tasks := tbl_update k f d.(db_boot_tasks)|>).
Definition upd_install (k : Z) (f : install_task -> install_task) : Meth unit :=
  write (fun d => d <|db_install_tasks := tbl_update k f d.(db_install_tasks)|>).
Definition upd_server (k : Z) (f : server -> server) : Meth unit :=
  write (fun d => d <|db_servers := tbl_update k f d.(db_servers)|>).

(** * Boot tasks *)

Definition boot_open (t : boot_task) : bool :=
  match t.(bt_status) with BK_PENDING | BK_IN_PROGRESS => true | _ => false end.
(** Newest first; rows of one moment keep their order. *)
Definition newer_boot (a b : boot_task) : bool := b.(bt_created_at) <=? a.(bt_created_at).
Definition active_boot (server_id : Z) (d : db) : option boot_task :=
  head (sort_by newer_boot
    (List.filter (fun t => (t.(bt_server_id) =? server_id) && boot_open t) d.(db_boot_tasks))).
Definition set_boot_status (x : boot_status) (t : boot_task) : boot_task := t <|bt_status := x|>.
(** The rows a statement updates, and how many they are. *)
Definition update_boots (p : boot_task -> bool) (f : boot_task -> boot_task) : Meth Z :=
  n <- read (fun d => Z.of_nat (length (List.filter p d.(db_boot_tasks)))) ;;
  write (fun d => d <|db_boot_tasks := map (fun t => if p t then f t else t) d.(db_boot_tasks)|>) ;;;
  commit ;;;
  ret n.
Definition boot_pending (t : boot_task) : bool :=
  match t.(bt_status) with BK_PENDING => true | _ => false end.
Definition cancel_pending_tasks (server_id : Z) : Meth Z :=
  update_boots (fun t => (t.(bt_server_id) =? server_id) && boot_pending t) (set_boot_status BK_CANCELLED).
Definition cancel_open_tasks (server_id : Z) : Meth Z :=
  update_boots (fun t => (t.(bt_server_id) =? server_id) && boot_open t) (set_boot_status BK_CANCELLED).
(** [secrets.token_urlsafe], by the task it is drawn for. *)
Definition create_boot_task (token_urlsafe : Z -> string) (server_id : Z) (kind : boot_type)
    (script_content temp_os_id description : option string) : Meth Z :=
  cancel_pending_tasks server_id ;;;
  k <- read (fun d => tbl_fresh d.(db_boot_tasks)) ;;
  now <- utcnow ;;
  write (fun d => d <|db_boot_tasks := d.(db_boot_tasks) ++
    [mk_boot_task k server_id kind script_content None temp_os_id "pxe" description BK_PENDING None
       (Some (token_urlsafe k)) None now None None]|>) ;;;
  commit ;;;
  ret k.
(** [UPDATE boot_tasks SET pxe_nonce_used_at WHERE id AND pxe_nonce IS NOT NULL
    AND pxe_nonce_used_at IS NULL] *)
Definition nonce_unused (t : boot_task) : bool :=
  match t.(bt_pxe_nonce), t.(bt_pxe_nonce_used_at) with Some _, None => true | _, _ => false end.
Definition consume_pxe_nonce (task_id : Z) : Meth bool :=
  now <- utcnow ;;
  n <- update_boots (fun t => (t.(bt_id) =? task_id) && nonce_unused t)
         (fun t => t <|bt_pxe_nonce_used_at := Some now|>) ;;
  ret (n =? 1).
Definition mark_boot (task_id : Z) (f : Z -> boot_task -> boot_task) : Meth unit :=
  task <- read (fun d => tbl_get task_id d.(db_boot_tasks)) ;;
  match task with
  | Some _ => now <- utcnow ;; upd_boot task_id (f now) ;;; commit
  | None => ret tt
  end.
Definition boot_started (now : Z) (t : boot_task) : boot_task :=
  t <|bt_status := BK_IN_PROGRESS|> <|bt_started_at := Some now|>.
Definition boot_completed (now : Z) (t : boot_task) : boot_task :=
  t <|bt_status := BK_COMPLETED|> <|bt_completed_at := Some now|>.
Definition mark_boot_in_progress (task_id : Z) : Meth unit := mark_boot task_id boot_started.
Definition mark_boot_completed (task_id : Z) : Meth unit := mark_boot task_id boot_completed.

(** * Installation tasks *)

Definition install_open (t : install_task) : bool :=
  match t.(it_status) with IN_PENDING | IN_IN_PROGRESS => true | _ => false end.
Definition newer_install (a b : install_task) : bool := b.(it_created_at) <=? a.(it_created_at).
Definition open_installs (server_id : Z) (d : db) : list install_task :=
  List.filter (fun t => (t.(it_server_id) =? server_id) && install_open t) d.(db_install_tasks).
Definition active_install (server_id : Z) (d : db) : option install_task :=
  head (sort_by newer_install (open_installs server_id d)).
Definition create_install_task (server_id boot_task_id : Z) (template_id : string) (params : dict) : Meth Z :=
  k <- read (fun d => tbl_fresh d.(db_install_tasks)) ;;
  now <- utcnow ;;
  write (fun d => d <|db_install_tasks := d.(db_install_tasks) ++
    [mk_install_task k server_id boot_task_id (Some template_id) (Some params) IN_PENDING None now None None]|>) ;;;
  commit ;;;
  ret k.
Definition mark_install (task_id : Z) (f : Z -> install_task -> install_task) : Meth (option install_task) :=
  task <- read (fun d => tbl_get task_id d.(db_install_tasks)) ;;
  match task with
  | Some _ =>
      now <- utcnow ;;
      upd_install task_id (f now) ;;;
      commit ;;;
      read (fun d => tbl_get task_id d.(db_install_tasks))
  | None => ret None
  end.
Definition install_started (now : Z) (t : install_task) : install_task :=
  t <|it_status := IN_IN_PROGRESS|> <|it_started_at := Some now|>.
Definition install_completed (now : Z) (t : install_task) : install_task :=
  t <|it_status := IN_COMPLETED|> <|it_completed_at := Some now|>.
Definition install_failed (message : option string) (now : Z) (t : install_task) : install_task :=
  (if str_true message then t <|it_error_message := message|> else t)
    <|it_status := IN_FAILED|> <|it_completed_at := Some now|>.
Definition install_cancelled (now : Z) (t : install_task) : install_task :=
  t <|it_status := IN_CANCELLED|> <|it_completed_at := Some now|>.
Definition mark_install_in_progress (task_id : Z) := mark_install task_id install_started.
Definition mark_install_failed (task_id : Z) (message : option string) :=
  mark_install task_id (install_failed message).
Definition cancel_install (task_id : Z) : Meth (option install_task) :=
  task <- read (fun d => tbl_get task_id d.(db_install_tasks)) ;;
  match task with
  | Some t => if install_open t then mark_install task_id install_cancelled else ret task
  | None => ret None
  end.
Definition on_server (server_id : Z) (s : service) : bool := s.(sv_bare_metal_server) == Some server_id.
Definition activated (s : service) : service :=
  if s.(sv_status) == SS_PENDING then s <|sv_status := SS_ACTIVE|> else s.
(** The services of the server are ready when its installation is. *)
Definition mark_install_completed (task_id : Z) : Meth (option install_task) :=
  task <- mark_install task_id install_completed ;;
  match task with
  | Some t =>
      services <- read (fun d => List.filter (on_server t.(it_server_id)) d.(db_services)) ;;
      write (fun d => d <|db_services := map (fun s => if on_server t.(it_server_id) s then activated s else s)
                                           d.(db_services)|>) ;;;
      (match services with [] => ret tt | _ => commit end) ;;;
      ret task
  | None => ret None
  end.
Definition delete_pending_by_server (server_id : Z) : Meth Z :=
  let p := fun t => (t.(it_server_id) =? server_id) && (t.(it_status) == IN_PENDING) in
  n <- read (fun d => Z.of_nat (length (List.filter p d.(db_install_tasks)))) ;;
  write (fun d => d <|db_install_tasks := List.filter (fun t => negb (p t)) d.(db_install_tasks)|>) ;;;
  commit ;;;
  ret n.

(** [while task is not None]: a server's open installations are cancelled, the
    newest first. *)
Fixpoint cancel_installs (fuel : nat) (server_id : Z) : Meth Z :=
  match fuel with
  | O => raise (OtherError "out of fuel")
  | S fuel =>
      task <- read (active_install server_id) ;;
      match task with
      | None => ret 0
      | Some t => cancel_install t.(it_id) ;;; n <- cancel_installs fuel server_id ;; ret (n + 1)
      end
  end.
Definition cancel_all_installs (server_id : Z) : Meth Z :=
  fuel <- read (fun d => S (length (open_installs server_id d))) ;;
  cancel_installs fuel server_id.
Definition cancel_open_server_tasks (server_id : Z) : Meth (Z * Z) :=
  installs <- cancel_all_installs server_id ;;
  boots <- cancel_open_tasks server_id ;;
  ret (installs, boots).

(** * Queueing a template *)

(** What provisioning reads of the racks, the templates and the libraries, and
    does not change. *)
Record network_port : Type := mk_network_port {
  np_server_id : Z;
  np_mac_address : option string;
  np_pxe_boot : bool;
  np_pxe_ip : option string
}.
Record os_disk : Type := mk_os_disk {
  dk_serial_number : option string;
  dk_capacity_gb : Z;
  dk_type : string
}.
Record server_group : Type := mk_server_group {
  sg_id : Z;
  sg_name : string;
  sg_servers : list Z;
  sg_enable_os_templates : bool;
  sg_permitted_os_templates : list string
}.
#[export] Instance keyed_server_group : Keyed server_group := sg_id.
Record rack : Type := mk_rack {
  rk_groups : list server_group;
  rk_ports : list network_port;
  rk_os_disk : Z -> option os_disk;
  rk_vmedia_capable : Z -> bool;
  rk_templates : list os_template;
  rk_finalize_script : option string;
  rk_base_url : option string -> string;
  rk_isoformat : Z -> string;
  rk_str_json : json -> string;
  rk_choice : string -> nat -> ascii;
  rk_token_urlsafe : Z -> string;
  rk_download_token : Z -> string;
  rk_detail : exn -> string
}.

Definition get_pxe_boot_port (rk : rack) (server_id : Z) : option network_port :=
  List.find (fun p => (p.(np_server_id) =? server_id) && p.(np_pxe_boot)) rk.(rk_ports).
Definition get_template (rk : rack) (id : json) : Meth (option os_template) :=
  match id with
  | JStr s => ret (List.find (fun t => t.(ot_id) == s) rk.(rk_templates))
  | JList _ | JObj _ => raise (OtherError "TypeError")
  | _ => ret None
  end.
(** [server], of [service_linked_server]. *)
Definition linked_server (s : service) (d : db) : option server :=
  match s.(sv_service_type), s.(sv_bare_metal_server) with
  | ST_VM, _ | _, None => None
  | _, Some k => tbl_get k d.(db_servers)
  end.

Definition WINDOWS_IMAGES : list string := ["windows.img"; "efi.img"].
Definition str_endswith (suffix s : string) : bool :=
  Nat.leb (String.length suffix) (String.length s)
  && (str_last (String.length suffix) s == suffix).
(** [s.split(c)[-1]] *)
Definition last_piece (c : ascii) (s : string) : string := List.last (split_on c s) EmptyString.
Definition files_url (base_url kind : string) (path token : string) : string :=
  base_url +:+ "/api/servers/interaction/" +:+ kind +:+ "/" +:+ path +:+ "?token=" +:+ token.

Section Queue.
Variable rk : rack.

Definition hardware_vars (v : server) (port : option network_port) (disk : option os_disk)
  : list (string * string) :=
  [("SERVER_IP", default "" v.(sr_server_ip));
   ("SERVER_MAC", default "" (port ≫= np_mac_address));
   ("SERVER_ID", pretty v.(sr_id));
   ("OS_BOOT_MODE", str_or v.(sr_os_boot_mode) "uefi");
   ("OS_DISK_SERIAL", default "" (disk ≫= dk_serial_number));
   ("OS_DISK_SIZE_GB", match disk with Some x => pretty x.(dk_capacity_gb) | None => "" end);
   ("OS_DISK_TYPE", match disk with Some x => str_lower x.(dk_type) | None => "" end)].
Definition param_vars (params : dict) : list (string * string) :=
  map (fun kv => ("PARAM_" +:+ str_upper kv.1, shell_escape_double_quoted rk.(rk_str_json) kv.2)) params.
Definition token_vars (t : os_template) (base_url token : string) : list (string * string) :=
  if str_empty token then []
  else
    let images := List.filter (fun f => existsb (fun x => x == f) t.(ot_deploy_images)) WINDOWS_IMAGES in
    [("DOWNLOAD_TOKEN", token); ("API_BASE_URL", base_url); ("TEMPLATE_ID", t.(ot_id))]
    ++ match images with
       | [] => match t.(ot_disk_image) with
               | Some image => if str_empty image then [] else
                   [("DISK_IMAGE_URL", files_url base_url "disk-images" (last_piece "/" image) token)]
               | None => []
               end
       | _ => map (fun f => (if str_endswith "windows.img" f then "WINDOWS_IMG_URL" else "EFI_IMG_URL",
                             files_url base_url "template-files" (t.(ot_id) +:+ "/deploy/" +:+ f) token)) images
       end.
(** The parameters the template ended up with are kept on the service. *)
Definition persist_resolved_template_params (service_id : Z) (template_id : string) (params : dict) : Meth unit :=
  upd_service service_id (fun s => s <|sv_config :=
    dict_set "template_parameters" (JObj params) (dict_set "template_id" (JStr template_id) s.(sv_config))|>).
Definition set_script (content : string) (t : boot_task) : boot_task := t <|bt_script_content := Some content|>.
(** The credentials a server has are updated in place: the column compares
    equal to itself and is not written. *)
Definition store_credentials (server_id : Z) (t : os_template) (boot_task_id : Z) (params : dict) : Meth unit :=
  match params with
  | [] => ret tt
  | _ =>
      task <- read (fun d => tbl_get boot_task_id d.(db_boot_tasks)) ;;
      upd_server server_id (fun v =>
        match v.(sr_credentials) with
        | Some (_ :: _) => v
        | _ => v <|sr_credentials := Some (dict_merge
                 [("os_type", JStr t.(ot_os_type)); ("template_id", JStr t.(ot_id));
                  ("last_updated", jopt_str (option_map (fun x => rk.(rk_isoformat) x.(bt_created_at)) task))]
                 params)|>
        end) ;;;
      commit
  end.

Definition queue_template_install_for_service (service_id : Z) (template_id : json) (supplied : dict)
  : Meth (Z * Z) :=
  s <- the_service service_id ;;
  linked <- read (linked_server s) ;;
  v <- unwrap linked (HTTPException 500) ;;
  active_task <- read (active_install v.(sr_id)) ;;
  throw_if (bool_decide (is_Some active_task)) (HTTPException 409) ;;;
  let pxe_port := get_pxe_boot_port rk v.(sr_id) in
  let base_url := rk.(rk_base_url) (pxe_port ≫= np_pxe_ip) in
  found <- get_template rk template_id ;;
  t <- unwrap found (HTTPException 404) ;;
  params <- lift_outcome (resolve_template_parameters rk.(rk_choice) rk.(rk_str_json) t.(ot_parameters) supplied) ;;
  persist_resolved_template_params service_id t.(ot_id) params ;;;
  script <- unwrap t.(ot_script) (HTTPException 500) ;;
  let vars := set_vars (param_vars params) (hardware_vars v pxe_port (rk.(rk_os_disk) v.(sr_id))) in
  boot <- create_boot_task rk.(rk_token_urlsafe) v.(sr_id) BT_TEMP_OS (Some script) (Some "debian-live")
            (Some ("Install OS template '" +:+ t.(ot_name) +:+ "' via billing API")) ;;
  let vars := set_vars (token_vars t base_url (rk.(rk_download_token) boot)) vars in
  first <- lift_outcome (render vars script) ;;
  upd_boot boot (set_script first) ;;;
  commit ;;;
  install <- create_install_task v.(sr_id) boot t.(ot_id) params ;;
  second <- lift_outcome (render (set_var "INSTALLATION_TASK_ID" (pretty install) vars) first) ;;
  upd_boot boot (set_script second) ;;;
  commit ;;;
  store_credentials v.(sr_id) t boot params ;;;
  ret (boot, install).
End Queue.

(** * Reports and changes *)

Section Reports.
Variable rk : rack.

Definition schedule_post_install_boot_order_fix (t : install_task) : Meth unit :=
  match t.(it_template_id) with
  | None | Some EmptyString => ret tt
  | Some template_id =>
      install_boot <- (if t.(it_boot_task_id) =? 0 then ret None
                       else read (fun d => tbl_get t.(it_boot_task_id) d.(db_boot_tasks))) ;;
      if match install_boot with Some b => b.(bt_boot_method) == "vmedia" | None => false end then ret tt
      else
        template <- get_template rk (JStr template_id) ;;
        match template, rk.(rk_finalize_script) with
        | Some x, Some script =>
            if x.(ot_post_install_fix_boot_order) then
              let script := "export AUTO_REBOOT=0" +:+ String NEWLINE script in
              let script := match x.(ot_efi_boot_loader) with
                            | Some loader =>
                                if str_empty loader then script
                                else "export EFI_BOOT_LOADER=" +:+ String DQUOTE (loader +:+ String DQUOTE (String NEWLINE script))
                            | None => script
                            end in
              create_boot_task rk.(rk_token_urlsafe) t.(it_server_id) BT_TEMP_OS (Some script)
                (Some "debian-live") (Some "Post-install boot order fix") ;;;
              ret tt
            else ret tt
        | _, _ => ret tt
        end
  end.
(** An installation task of a server. *)
Definition task_of_server (server_id task_id : Z) : Meth install_task :=
  v <- read (fun d => tbl_get server_id d.(db_servers)) ;;
  unwrap v (HTTPException 404) ;;;
  o <- read (fun d => tbl_get task_id d.(db_install_tasks)) ;;
  t <- unwrap o (HTTPException 404) ;;
  throw_if (negb (t.(it_server_id) =? server_id)) (HTTPException 403) ;;;
  ret t.
Definition purge_pending_installation_tasks (server_id : Z) : Meth Z :=
  v <- read (fun d => tbl_get server_id d.(db_servers)) ;;
  unwrap v (HTTPException 404) ;;;
  delete_pending_by_server server_id.

(** What the installer sends; [token_boot_task] is the boot task its download
    token is valid for. *)
Definition update_installation_logs (server_id task_id : Z) (token : option string)
    (token_boot_task : string -> option Z) (status error_message : option string) : Meth unit :=
  t <- task_of_server server_id task_id ;;
  throw_if (negb (str_true token)) (HTTPException 401) ;;;
  throw_if (negb (token_boot_task (default "" token) == Some t.(it_boot_task_id))) (HTTPException 401) ;;;
  commit ;;;
  match status with
  | Some "completed" =>
      task <- mark_install_completed task_id ;;
      log_server_activity ;;;
      match task with Some t => schedule_post_install_boot_order_fix t | None => ret tt end
  | Some "failed" => mark_install_failed task_id error_message ;;; log_server_activity
  | Some "in_progress" => mark_install_in_progress task_id ;;; log_server_activity
  | _ => ret tt
  end.
Definition update_installation_task_status (server_id task_id : Z) (status : string)
    (error_message : option string) : Meth unit :=
  task_of_server server_id task_id ;;;
  let status_val := str_lower (str_strip status) in
  throw_if (negb (existsb (fun x => x == status_val) ["in_progress"; "completed"; "failed"; "cancelled"]))
    (HTTPException 400) ;;;
  task <- (if status_val == "in_progress" then mark_install_in_progress task_id
           else if status_val == "completed" then
             task <- mark_install_completed task_id ;;
             match task with Some t => schedule_post_install_boot_order_fix t | None => ret tt end ;;;
             ret task
           else if status_val == "failed" then mark_install_failed task_id error_message
           else cancel_install task_id) ;;
  unwrap task (HTTPException 404) ;;;
  log_server_activity.

(** * Booting from the network *)

(** [task], [port] and [source_ip] are what the request read before. *)
Definition authorize_pxe_boot (source_ip : option string) (port : network_port) (task : boot_task)
    (nonce : option string) : Meth unit :=
  let refused :=
    negb (boot_pending task)
    || match task.(bt_pxe_nonce), task.(bt_pxe_nonce_used_at) with
       | Some n, None => str_empty n || negb (str_true nonce && (default "" nonce == n))
       | _, _ => true
       end
    || match port.(np_pxe_ip) with
       | Some ip => str_empty ip || negb (source_ip == Some (str_strip ip))
       | None => true
       end in
  throw_if refused (HTTPException 403) ;;;
  consumed <- consume_pxe_nonce task.(bt_id) ;;
  throw_if (negb consumed) (HTTPException 403).

(** What the server is given to boot: a script of the task, the contents of its
    installer's script, or its own disk. *)
Inductive pxe_answer : Type := PxeBoot (task_id : Z) | PxeScript (content : string) | PxeLocal.

Variable temp_os_known : string -> bool.
Variable iso_filename : string -> string.

Definition pxe_script (task : option boot_task) (token : option string)
    (token_boot_task : string -> option Z) : Meth pxe_answer :=
  t <- unwrap task (HTTPException 404) ;;
  throw_if (negb (str_true token)) (HTTPException 401) ;;;
  throw_if (negb (token_boot_task (default "" token) == Some t.(bt_id))) (HTTPException 401) ;;;
  throw_if (match t.(bt_boot_type) with BT_LINUX_SCRIPT | BT_TEMP_OS => false | _ => true end)
    (HTTPException 404) ;;;
  throw_if (negb (str_true t.(bt_script_content))) (HTTPException 404) ;;;
  (if boot_pending t then mark_boot_in_progress t.(bt_id) else ret tt) ;;;
  ret (PxeScript (default "" t.(bt_script_content))).
Definition serve_boot (task_id : Z) : Meth pxe_answer :=
  o <- read (fun d => tbl_get task_id d.(db_boot_tasks)) ;;
  t <- unwrap o AttributeError ;;
  match t.(bt_boot_type) with
  | BT_LINUX_SCRIPT =>
      (if boot_pending t then mark_boot_in_progress task_id else ret tt) ;;;
      ret (PxeBoot task_id)
  | BT_ISO =>
      throw_if (negb (str_true t.(bt_iso_url))) (HTTPException 400) ;;;
      throw_if (str_empty (iso_filename (default "" t.(bt_iso_url)))) (HTTPException 400) ;;;
      (if boot_pending t then mark_boot_completed task_id ;;; ret (PxeBoot task_id) else ret PxeLocal)
  | BT_TEMP_OS =>
      if negb (temp_os_known (str_or t.(bt_temp_os_id) "alpine")) then ret PxeLocal
      else if boot_pending t then mark_boot_completed task_id ;;; ret (PxeBoot task_id) else ret PxeLocal
  | BT_LOCAL | BT_ALPINE => ret PxeLocal
  end.
(** [port] is the port of the address the request names; a failure that is not
    an answer is a server error. *)
Definition get_pxe_boot_file (port : option network_port) (source_ip : option string) (script : bool)
    (token : option string) (token_boot_task : string -> option Z) (nonce : option string)
  : Meth pxe_answer :=
  try_catch
    (p <- unwrap port (HTTPException 404) ;;
     throw_if (negb p.(np_pxe_boot)) (HTTPException 400) ;;;
     v <- read (fun d => tbl_get p.(np_server_id) d.(db_servers)) ;;
     unwrap v (HTTPException 500) ;;;
     task <- read (active_boot p.(np_server_id)) ;;
     if script then pxe_script task token token_boot_task
     else match task with
          | Some t => authorize_pxe_boot source_ip p t nonce ;;; serve_boot t.(bt_id)
          | None => ret PxeLocal
          end)
    (fun e => match e with
              | HTTPException _ => raise e
              | _ => if is_exception e then raise (HTTPException 500) else raise e
              end).
End Reports.

(** * Cancelling what is open *)

Definition close_installs (server_id now : Z) (d : db) : db :=
  d <|db_install_tasks := map (fun t => if (t.(it_server_id) =? server_id) && install_open t
                                        then install_cancelled now t else t) d.(db_install_tasks)|>.
Definition close_boots (server_id : Z) (d : db) : db :=
  d <|db_boot_tasks := map (fun t => if (t.(bt_server_id) =? server_id) && boot_open t
                                     then set_boot_status BK_CANCELLED t else t) d.(db_boot_tasks)|>.
Definition open_boots (server_id : Z) (d : db) : list boot_task :=
  List.filter (fun t => (t.(bt_server_id) =? server_id) && boot_open t) d.(db_boot_tasks).
Lemma close_installs_none server_id now d : open_installs server_id d = [] -> close_installs server_id now d = d.
Proof.
  intros H. unfold close_installs. replace (map _ d.(db_install_tasks)) with d.(db_install_tasks); [by destruct d|].
  rewrite <- (map_id d.(db_install_tasks)) at 1. apply map_ext_in. intros t Ht.
  destruct ((it_server_id t =? server_id) && install_open t) eqn:E; [|done].
  exfalso. assert (In t (open_installs server_id d)) as Hin by (by apply filter_In). by rewrite H in Hin.
Qed.
Lemma close_installs_open server_id now d : open_installs server_id (close_installs server_id now d) = [].
Proof.
  apply filter_nil_iff. cbn [db_install_tasks update]. intros t (u & <- & _)%in_map_iff.
  destruct ((it_server_id u =? server_id) && install_open u) eqn:E; [by rewrite andb_false_r|done].
Qed.
Lemma close_boots_open server_id d t : In t (close_boots server_id d).(db_boot_tasks) ->
  t.(bt_server_id) = server_id -> boot_open t = false.
Proof.
  cbn [db_boot_tasks update]. intros (u & <- & _)%in_map_iff.
  destruct (Z.eqb_spec u.(bt_server_id) server_id) as [|]; cbn [andb]; [|done]. by destruct (boot_open u) eqn:E.
Qed.
(** Cancelling one of them leaves the same to close. *)
Lemma close_after_cancel server_id now d t : tbl_wf d.(db_install_tasks) ->
  In t (open_installs server_id d) ->
  let d' := d <|db_install_tasks := tbl_update t.(it_id) (install_cancelled now) d.(db_install_tasks)|> in
  close_installs server_id now d' = close_installs server_id now d
  /\ S (length (open_installs server_id d')) = length (open_installs server_id d).
Proof.
  intros Hw [Hin Ho]%filter_In d'. assert (forall u, In u d.(db_install_tasks) -> it_id u = it_id t -> u = t) as Huniq.
  { intros u Hu Hk. apply (tbl_get_wf _ _ Hw) in Hu, Hin. change (row_key u) with (it_id u) in Hu.
    change (row_key t) with (it_id t) in Hin. rewrite Hk in Hu. congruence. }
  split.
  - unfold close_installs, d', tbl_update. cbn [db_install_tasks update]. rewrite map_map.
    destruct d; cbn in *. f_equal. apply map_ext_in. intros u Hu. change (row_key u) with (it_id u).
    destruct (Z.eqb_spec (it_id u) (it_id t)) as [Hk|]; [|done].
    rewrite (Huniq u Hu Hk), Ho. cbn. by destruct (_ =? _).
  - assert (forall l, tbl_wf l -> In t l -> (forall u, In u l -> it_id u = it_id t -> u = t) ->
      S (length (List.filter (fun t => (it_server_id t =? server_id) && install_open t)
                   (tbl_update (it_id t) (install_cancelled now) l)))
      = length (List.filter (fun t => (it_server_id t =? server_id) && install_open t) l)) as H; [|by apply H].
    clear - Ho. induction l as [|u l IH]; [done|]. intros Hw Hin Hu. unfold tbl_wf in Hw. cbn in Hw.
    apply List.NoDup_cons_iff in Hw as [Hnin Hw].
    change (tbl_update (it_id t) (install_cancelled now) (u :: l))
      with ((if it_id u =? it_id t then install_cancelled now u else u)
            :: tbl_update (it_id t) (install_cancelled now) l). cbn [List.filter].
    destruct (Z.eqb_spec (it_id u) (it_id t)) as [Hk|Hne].
    + rewrite (Hu u (or_introl eq_refl) Hk), Ho.
      change (install_open (install_cancelled now t)) with false. rewrite andb_false_r. cbn [length]. unfold tbl_update.
      rewrite tbl_update_absent; [done|]. intros v Hv Hkv. apply Hnin. change (row_key u) with (it_id u). rewrite Hk, <- Hkv.
      by apply in_map.
    + destruct Hin as [->|Hin]; [done|].
      assert (forall u, In u l -> it_id u = it_id t -> u = t) as Hu' by (intros; apply Hu; [by right|done]).
      destruct ((it_server_id u =? server_id) && install_open u); cbn [length]; by rewrite <- (IH Hw Hin Hu').
Qed.

Definition flush_error (e : exn) : Prop := e = DataError \/ e = IntegrityError.
Lemma wp_mark_install k f t (Q : option install_task -> session -> Prop) (R : exn -> session -> Prop) st :
  tbl_get k st.(s_db).(db_install_tasks) = Some t ->
  let d' := st.(s_db) <|db_install_tasks := tbl_update k (f st.(s_now)) st.(s_db).(db_install_tasks)|> in
  Q (tbl_get k d'.(db_install_tasks)) (st <|s_db := d'|> <|s_committed := d'|>) ->
  (forall e, flush_error e -> R e (st <|s_db := d'|>)) ->
  wp (mark_install k f) Q R st.
Proof.
  intros Ht d' HQ HR. unfold mark_install. apply wp_bind, wp_read. rewrite Ht. apply wp_bind, wp_gets, wp_bind, wp_write.
  apply wp_bind, wp_commit; [exact HR|]. by apply wp_read.
Qed.
Lemma active_install_In server_id d t : active_install server_id d = Some t -> In t (open_installs server_id d).
Proof.
  unfold active_install. intros Ht. destruct (sort_by _ _) as [|u l] eqn:E; [done|]. injection Ht as ->.
  eapply sort_by_In. rewrite E. by left.
Qed.
Lemma active_install_None server_id d : active_install server_id d = None -> open_installs server_id d = [].
Proof.
  unfold active_install. destruct (open_installs server_id d) as [|t l]; [done|]. intros H.
  destruct (sort_by newer_install (t :: l)) as [|u m] eqn:E; [|done].
  assert (In t (sort_by newer_install (t :: l))) as Hin by (apply sort_by_In; by left). by rewrite E in Hin.
Qed.
(** The loop ends with nothing open, whatever is open when it starts. *)
Lemma cancel_installs_spec server_id fuel st :
  tbl_wf st.(s_db).(db_install_tasks) -> (length (open_installs server_id st.(s_db)) < fuel)%nat ->
  wp (cancel_installs fuel server_id)
    (fun n st' => n = Z.of_nat (length (open_installs server_id st.(s_db)))
       /\ st'.(s_db) = close_installs server_id st.(s_now) st.(s_db) /\ st'.(s_now) = st.(s_now)
       /\ (st'.(s_committed) = st'.(s_db) \/ n = 0 /\ st' = st))
    (fun e _ => flush_error e) st.
Proof.
  revert st. induction fuel as [|fuel IH]; intros st Hw Hfuel; [lia|]. cbn [cancel_installs].
  apply wp_bind, wp_read. destruct (active_install server_id st.(s_db)) as [t|] eqn:Ht.
  - apply active_install_In in Ht. destruct (close_after_cancel server_id st.(s_now) st.(s_db) t Hw Ht) as [Hc Hl].
    pose proof Ht as [Hin Ho]%filter_In. apply (tbl_get_wf _ _ Hw) in Hin. change (row_key t) with (it_id t) in Hin.
    apply wp_bind. unfold cancel_install. apply wp_bind, wp_read. rewrite Hin.
    apply andb_true_iff in Ho as [_ ->]. eapply wp_mark_install; [exact Hin| |done].
    set (d' := st.(s_db) <|db_install_tasks := _|>) in *. apply wp_bind.
    eapply wp_conseq; [apply IH| |done]; cbn [s_db s_now s_committed update].
    + by apply tbl_wf_update.
    + change (s_db (st <|s_db := d'|> <|s_committed := d'|>)) with d'. lia.
    + intros n st' (-> & Hdb & Hnow & Hcm). apply wp_ret. rewrite Hc in Hdb. split; [lia|]. split; [done|]. split; [done|].
      left. destruct Hcm as [?|[_ ->]]; done.
  - apply active_install_None in Ht. apply wp_ret. rewrite Ht, close_installs_none by done.
    split; [done|]. split; [done|]. split; [done|]. by right.
Qed.

(** C31. Cancelling what is open on a server ends, with nothing open there: every
    installation and boot of it that was open is cancelled, nothing else
    changes, and the two numbers answered are those of the installations and of
    the boots that were open.  Only the database can make it fail. *)
Theorem open_tasks_are_cancelled server_id d now :
  tbl_wf d.(db_install_tasks) ->
  match cancel_open_server_tasks server_id (session_of d now) with
  | (Ok (installs, boots), st') =>
      st'.(s_committed) = close_boots server_id (close_installs server_id now d)
      /\ open_installs server_id st'.(s_committed) = []
      /\ open_boots server_id st'.(s_committed) = []
      /\ installs = Z.of_nat (length (open_installs server_id d))
      /\ boots = Z.of_nat (length (open_boots server_id d))
  | (Raise e, _) => flush_error e
  end.
Proof.
  intros Hw. unfold cancel_open_server_tasks, cancel_all_installs.
  assert (wp (cancel_open_server_tasks server_id)
    (fun r st' => st'.(s_committed) = close_boots server_id (close_installs server_id now d)
       /\ r = (Z.of_nat (length (open_installs server_id d)), Z.of_nat (length (open_boots server_id d))))
    (fun e _ => flush_error e) (session_of d now)) as H.
  { unfold cancel_open_server_tasks, cancel_all_installs. apply wp_bind, wp_bind, wp_read.
    eapply wp_conseq; [apply cancel_installs_spec; [done|cbn; lia]| |done].
    intros n st' (-> & Hdb & _ & _). apply wp_bind. unfold cancel_open_tasks, update_boots.
    apply wp_bind, wp_read, wp_bind, wp_write, wp_bind, wp_commit; [done|]. apply wp_ret, wp_ret.
    cbn [s_committed s_db update fst]. rewrite Hdb. by split. }
  unfold wp, cancel_open_server_tasks, cancel_all_installs in H.
  destruct (bind _ _ _) as [[[i b]|e] st']; [|done]. destruct H as [Hc [= -> ->]]. rewrite Hc. split; [done|].
  split; [apply close_installs_open|]. split; [|done]. apply filter_nil_iff. intros t Ht.
  destruct (Z.eqb_spec t.(bt_server_id) server_id) as [E|]; [|done]. by apply (close_boots_open server_id _ t Ht).
Qed.

(** * A nonce boots once *)

(** Requests to boot look a task up, and are authorised on what they saw when
    other requests have changed it. *)
Record boot_world : Type := mk_boot_world {
  bw_db : db;
  bw_seen : list (nat * boot_task);
  bw_served : list (Z * string)
}.
#[export] Instance eta_boot_world : Eta boot_world := fun w =>
  mk_boot_world w.(bw_db) w.(bw_seen) w.(bw_served).
Inductive boot_event : Type :=
| BeLook (request : nat) (server_id : Z)
| BeAuthorize (request : nat) (source_ip : option string) (port : network_port) (nonce : option string)
| BeServe (task_id : Z)
| BeScript (task_id : Z)
| BeQueue (server_id : Z) (kind : boot_type) (script_content temp_os_id description : option string)
| BeCancelPending (server_id : Z)
| BeCancelOpen (server_id : Z).

Section Boots.
Variables (token_urlsafe : Z -> string) (temp_os_known : string -> bool) (iso_filename : string -> string).

Definition done_by {A} (m : Meth A) (now : Z) (w : boot_world) : boot_world :=
  w <|bw_db := (snd (m (session_of w.(bw_db) now))).(s_committed)|>.
Definition boot_step (w : boot_world) (e : Z * boot_event) : boot_world :=
  match e.2 with
  | BeLook r k =>
      match active_boot k w.(bw_db) with
      | Some t => w <|bw_seen := (r, t) :: w.(bw_seen)|>
      | None => w
      end
  | BeAuthorize r source_ip port nonce =>
      match List.find (fun x => Nat.eqb x.1 r) w.(bw_seen) with
      | Some (_, t) =>
          let m := authorize_pxe_boot source_ip port t nonce in
          let w' := done_by m e.1 w in
          match fst (m (session_of w.(bw_db) e.1)) with
          | Ok _ => w' <|bw_served := (t.(bt_id), default "" nonce) :: w.(bw_served)|>
          | Raise _ => w'
          end
      | None => w
      end
  | BeServe k => done_by (serve_boot temp_os_known iso_filename k) e.1 w
  | BeScript k => done_by (mark_boot_in_progress k) e.1 w
  | BeQueue k b script os description =>
      done_by (create_boot_task token_urlsafe k b script os description) e.1 w
  | BeCancelPending k => done_by (cancel_pending_tasks k) e.1 w
  | BeCancelOpen k => done_by (cancel_open_tasks k) e.1 w
  end.

(** What no step undoes: a task keeps its nonce, and a nonce that is spent
    stays so. *)
Definition grown (d d' : db) : Prop :=
  tbl_wf d'.(db_boot_tasks) /\
  forall k t, tbl_get k d.(db_boot_tasks) = Some t ->
    exists t', tbl_get k d'.(db_boot_tasks) = Some t' /\ t'.(bt_pxe_nonce) = t.(bt_pxe_nonce)
    /\ (nonce_unused t = false -> nonce_unused t' = false).
Definition grows (d : db) (st : session) : Prop := grown d st.(s_db) /\ grown d st.(s_committed).
Lemma grown_refl d : tbl_wf d.(db_boot_tasks) -> grown d d.
Proof. intros Hw. split; [done|]. eauto. Qed.
Lemma grows_commit d : keeps (grows d) commit.
Proof. intros st [H1 H2]. apply wp_commit; by split. Qed.
(** A statement that changes neither keys nor nonces. *)
Lemma grown_map d d' f : (forall t, row_key (f t) = row_key t) ->
  (forall t, bt_pxe_nonce (f t) = bt_pxe_nonce t /\ (nonce_unused t = false -> nonce_unused (f t) = false)) ->
  grown d d' -> grown d (d' <|db_boot_tasks := map f d'.(db_boot_tasks)|>).
Proof.
  intros Hk Hf [Hw Hg]. split.
  - unfold tbl_wf. cbn [db_boot_tasks update]. rewrite map_map. by erewrite map_ext; [exact Hw|].
  - intros k t (t' & Ht & Hn & Hu)%Hg. exists (f t'). cbn [db_boot_tasks update]. rewrite tbl_get_map, Ht by done.
    split; [done|]. rewrite (proj1 (Hf t')). split; [done|]. intros H. by apply Hf, Hu.
Qed.
Lemma grows_update d p f : (forall t, row_key (f t) = row_key t) ->
  (forall t, p t = true -> bt_pxe_nonce (f t) = bt_pxe_nonce t /\ (nonce_unused t = false -> nonce_unused (f t) = false)) ->
  keeps (grows d) (update_boots p f).
Proof.
  intros Hk Hf st [H1 H2]. unfold update_boots. apply wp_bind, wp_read, wp_bind, wp_write.
  assert (grown d (st.(s_db) <|db_boot_tasks := map (fun t => if p t then f t else t) st.(s_db).(db_boot_tasks)|>)) as H.
  { apply grown_map; [intros t; by destruct (p t)|intros t; destruct (p t) eqn:E; [by apply Hf|done]|done]. }
  apply wp_bind, wp_commit; [|apply wp_ret]; by split.
Qed.
Lemma grows_mark d k f : (forall now t, row_key (f now t) = row_key t) ->
  (forall now t, bt_pxe_nonce (f now t) = bt_pxe_nonce t /\ (nonce_unused t = false -> nonce_unused (f now t) = false)) ->
  keeps (grows d) (mark_boot k f).
Proof.
  intros Hk Hf st [H1 H2]. unfold mark_boot. apply wp_bind, wp_read. destruct (tbl_get k _); [|by apply wp_ret].
  apply wp_bind, wp_gets, wp_bind, wp_write.
  assert (grown d (st.(s_db) <|db_boot_tasks := tbl_update k (f (s_now st)) st.(s_db).(db_boot_tasks)|>)) as H.
  { apply grown_map; [intros t; by destruct (_ =? k)|intros t; by destruct (_ =? k)|done]. }
  apply wp_commit; by split.
Qed.
Lemma grows_cancel_pending d k : keeps (grows d) (cancel_pending_tasks k).
Proof. by apply grows_update. Qed.
Lemma grows_cancel_open d k : keeps (grows d) (cancel_open_tasks k).
Proof. by apply grows_update. Qed.
Lemma grows_mark_in_progress d k : keeps (grows d) (mark_boot_in_progress k).
Proof. by apply grows_mark. Qed.
Lemma grows_mark_completed d k : keeps (grows d) (mark_boot_completed k).
Proof. by apply grows_mark. Qed.
Lemma grows_create d k b s o e : keeps (grows d) (create_boot_task token_urlsafe k b s o e).
Proof.
  apply keeps_bind; [apply grows_cancel_pending|]. intros _ st [H1 H2]. apply wp_bind, wp_read, wp_bind, wp_gets, wp_bind, wp_write.
  set (t := mk_boot_task _ _ _ _ _ _ _ _ _ _ _ _ _ _ _).
  assert (grown d (st.(s_db) <|db_boot_tasks := st.(s_db).(db_boot_tasks) ++ [t]|>)) as H.
  { destruct H1 as [Hw Hg]. split; [by apply tbl_wf_snoc|]. intros j u (u' & Hu & Hrest)%Hg. exists u'. split; [|done].
    cbn [db_boot_tasks update]. by rewrite tbl_get_app, Hu. }
  apply wp_bind, wp_commit; [|apply wp_ret]; by split.
Qed.
#[local] Hint Resolve grows_cancel_pending grows_cancel_open grows_mark_in_progress grows_mark_completed grows_create : dcim.
Lemma grows_serve d k : keeps (grows d) (serve_boot temp_os_known iso_filename k).
Proof. unfold serve_boot. keeps_tac. Qed.
Lemma grows_consume d k : keeps (grows d) (consume_pxe_nonce k).
Proof.
  apply keeps_bind; [apply keeps_utcnow|]. intros now. apply keeps_bind; [|intros n; apply keeps_ret].
  apply grows_update; [done|]. intros t [_ H]%andb_true_iff. split; [done|]. intros Hu. congruence.
Qed.
Lemma grows_authorize d ip p t n : keeps (grows d) (authorize_pxe_boot ip p t n).
Proof.
  unfold authorize_pxe_boot. apply keeps_bind; [apply keeps_throw_if|]. intros _.
  apply keeps_bind; [apply grows_consume|]. intros b. apply keeps_throw_if.
Qed.
Lemma grown_done {A} (m : Meth A) now d : tbl_wf d.(db_boot_tasks) -> keeps (grows d) m ->
  grown d (snd (m (session_of d now))).(s_committed).
Proof.
  intros Hw Hm. assert (grows d (session_of d now)) as Hst by (split; by apply grown_refl).
  specialize (Hm _ Hst). unfold wp in Hm. destruct (m _) as [[a|e] st]; apply Hm.
Qed.

(** Who consumes a nonce finds it unspent and leaves it spent. *)
Lemma consume_spec k st : tbl_wf st.(s_db).(db_boot_tasks) ->
  wp (consume_pxe_nonce k)
    (fun b st' => b = true -> exists t, tbl_get k st.(s_db).(db_boot_tasks) = Some t /\ nonce_unused t = true
       /\ exists t', tbl_get k st'.(s_committed).(db_boot_tasks) = Some t'
          /\ t'.(bt_pxe_nonce) = t.(bt_pxe_nonce) /\ nonce_unused t' = false)
    (fun _ _ => True) st.
Proof.
  intros Hw. unfold consume_pxe_nonce, update_boots. apply wp_bind, wp_gets, wp_bind, wp_bind, wp_read, wp_bind, wp_write.
  apply wp_bind, wp_commit; [done|]. apply wp_ret, wp_ret. intros Hn%Z.eqb_eq.
  change (fun t => (bt_id t =? k) && nonce_unused t) with (fun t => (row_key t =? k) && nonce_unused t) in *.
  rewrite filter_key in Hn by done. destruct (tbl_get k _) as [t|] eqn:Ht; [|done]. destruct (nonce_unused t) eqn:Hu; [|done].
  exists t. split; [done|]. split; [done|]. cbn [s_committed s_db db_boot_tasks update].
  pose proof (tbl_get_key _ _ _ Ht) as Hk. eexists. split; [rewrite tbl_get_map, Ht; [done|]|].
  - intros u. by destruct (_ && _).
  - change (bt_id t) with (row_key t). rewrite Hk, Z.eqb_refl, Hu. cbn [andb]. split; [done|]. unfold nonce_unused. cbn. by destruct (bt_pxe_nonce t).
Qed.
Lemma authorize_spec ip p t n st : tbl_wf st.(s_db).(db_boot_tasks) ->
  wp (authorize_pxe_boot ip p t n)
    (fun _ st' => t.(bt_pxe_nonce) = Some (default "" n)
       /\ (exists r, p.(np_pxe_ip) = Some r /\ ip = Some (str_strip r))
       /\ exists u, tbl_get t.(bt_id) st.(s_db).(db_boot_tasks) = Some u /\ nonce_unused u = true
       /\ exists u', tbl_get t.(bt_id) st'.(s_committed).(db_boot_tasks) = Some u'
          /\ u'.(bt_pxe_nonce) = u.(bt_pxe_nonce) /\ nonce_unused u' = false)
    (fun _ _ => True) st.
Proof.
  intros Hw. unfold authorize_pxe_boot. apply wp_bind, wp_throw_if; [done|].
  intros [[_ Hn]%orb_false_iff Hip]%orb_false_iff. apply wp_bind.
  eapply wp_conseq; [by apply consume_spec| |done]. intros b st' Hb.
  apply wp_throw_if; [done|]. intros ->%negb_false_iff. split; [|split; [|by apply Hb]].
  - destruct (bt_pxe_nonce t) as [m|]; [|done]. destruct (bt_pxe_nonce_used_at t); [done|].
    apply orb_false_iff in Hn as [_ Hn]. apply negb_false_iff, andb_true_iff in Hn as [_ Hn].
    by rewrite (proj1 (py_eq_true _ _) Hn).
  - destruct (np_pxe_ip p) as [r|]; [|done]. apply orb_false_iff in Hip as [_ Hip]. apply negb_false_iff in Hip.
    exists r. split; [done|]. by apply (proj1 (py_eq_true _ _)).
Qed.

Definition boots_ok (w : boot_world) : Prop :=
  tbl_wf w.(bw_db).(db_boot_tasks)
  /\ (forall r t, In (r, t) w.(bw_seen) -> exists u, tbl_get t.(bt_id) w.(bw_db).(db_boot_tasks) = Some u
        /\ u.(bt_pxe_nonce) = t.(bt_pxe_nonce))
  /\ List.NoDup (map fst w.(bw_served))
  /\ (forall k n, In (k, n) w.(bw_served) -> exists u, tbl_get k w.(bw_db).(db_boot_tasks) = Some u
        /\ u.(bt_pxe_nonce) = Some n /\ nonce_unused u = false).
Lemma boots_ok_grown w d' : boots_ok w -> grown w.(bw_db) d' -> boots_ok (w <|bw_db := d'|>).
Proof.
  intros (Hw & Hseen & Hnd & Hserved) [Hw' Hg]. split; [done|]. split; [|split; [done|]].
  - intros r t (u & Hu & Hn)%Hseen. apply Hg in Hu as (u' & Hu' & Hn' & _). exists u'. by rewrite Hn'.
  - intros k n (u & Hu & Hn & Hs)%Hserved. apply Hg in Hu as (u' & Hu' & Hn' & Hs'). exists u'. rewrite Hn'. auto.
Qed.
Lemma active_boot_In k d t : active_boot k d = Some t -> In t d.(db_boot_tasks).
Proof.
  unfold active_boot. intros Ht. destruct (sort_by _ _) as [|u l] eqn:E; [done|]. injection Ht as ->.
  assert (In t (sort_by newer_boot (List.filter (fun t => (t.(bt_server_id) =? k) && boot_open t) d.(db_boot_tasks)))) as H
    by (rewrite E; by left). by apply sort_by_In, filter_In in H as [H _].
Qed.
Lemma boot_step_ok w e : boots_ok w -> boots_ok (boot_step w e).
Proof.
  intros Hok. pose proof Hok as (Hw & Hseen & Hnd & Hserved). unfold boot_step, done_by.
  destruct (snd e) as [r k|r ip p n|k|k|k b s o x|k|k].
  2:{ destruct (List.find _ _) as [[r' t]|] eqn:Hf; [|done]. apply List.find_some in Hf as [Hin _].
      destruct (Hseen _ _ Hin) as (u0 & Hu0 & Hn0).
      pose proof (boots_ok_grown w _ Hok (grown_done (authorize_pxe_boot ip p t n) e.1 _ Hw (grows_authorize _ _ _ _ _))) as Hok'.
      pose proof (authorize_spec ip p t n (session_of w.(bw_db) e.1) Hw) as Hspec. unfold wp in Hspec.
      destruct (authorize_pxe_boot ip p t n _) as [[[]|x] st]; cbn [fst snd] in *; [|done].
      destruct Hspec as (Hnonce & _ & u & Hu & Hunused & u' & Hu' & Hn' & Hspent).
      destruct Hok' as (Hw' & Hseen' & Hnd' & Hserved'). split; [done|]. split; [done|]. cbn [bw_served bw_db update map fst] in *.
      change (s_db (session_of (bw_db w) e.1)) with (bw_db w) in Hu. split.
      - constructor; [|done]. intros ([k m] & Hk & Hkin)%in_map_iff. cbn in Hk. subst k.
        destruct (Hserved _ _ Hkin) as (v & Hv & _ & Hvs). congruence.
      - intros k m [[= <- <-]|Hkin]; [|by apply Hserved']. exists u'. split; [done|]. split; [|done]. congruence. }
  1:{ destruct (active_boot k w.(bw_db)) as [t|] eqn:Ht; [|done]. split; [done|]. split; [|done].
      intros r' t' [[= <- <-]|Hin]; [|by eapply Hseen]. apply active_boot_In in Ht. exists t.
      split; [|done]. by apply (tbl_get_wf _ _ Hw) in Ht. }
  all: apply boots_ok_grown; [done|]; apply grown_done; [done|].
  - apply grows_serve.
  - apply grows_mark_in_progress.
  - apply grows_create.
  - apply grows_cancel_pending.
  - apply grows_cancel_open.
Qed.

(** C23. However requests to boot overlap with each other and with everything
    else that is done to boot tasks, a task's boot script goes to one request
    at most, and that request presented the nonce the task was queued with. *)
Theorem boots_are_authorized_once d events :
  tbl_wf d.(db_boot_tasks) ->
  let w := fold_left boot_step events (mk_boot_world d [] []) in
  List.NoDup (map fst w.(bw_served))
  /\ forall k n, In (k, n) w.(bw_served) ->
       exists t, tbl_get k w.(bw_db).(db_boot_tasks) = Some t /\ t.(bt_pxe_nonce) = Some n
       /\ is_Some t.(bt_pxe_nonce_used_at).
Proof.
  intros Hw w. assert (boots_ok w) as (_ & _ & Hnd & Hserved).
  { subst w. assert (boots_ok (mk_boot_world d [] [])) as H0 by (split; [done|]; split; [done|]; split; [constructor|done]).
    revert H0. generalize (mk_boot_world d [] []). induction events as [|e l IH]; intros w Hok; [done|].
    by apply IH, boot_step_ok. }
  split; [done|]. intros k n (t & Ht & Hn & Hs)%Hserved. exists t. split; [done|]. split; [done|].
  unfold nonce_unused in Hs. rewrite Hn in Hs. by destruct (bt_pxe_nonce_used_at t).
Qed.
End Boots.

(** * Findings and concrete inputs *)

Definition sample_rack_db : db :=
  empty_db
    <|db_servers := [mk_server 5 "r1u5" (Some "10.0.0.5") None true (Some [("root_password", JStr "old")])]|>
    <|db_services := [
        mk_service 1 "web" (Some 7) ST_BARE_METAL SS_PENDING None (Some 5) None [] [] None None None None None PV_BILLING;
        mk_service 2 "mail" (Some 8) ST_BARE_METAL SS_PENDING None (Some 5) None [] [] None None None None None PV_BILLING]|>
    <|db_boot_tasks := [
        mk_boot_task 1 5 BT_TEMP_OS (Some "echo") None (Some "debian-live") "pxe" None BK_PENDING None (Some "n1") None 10 None None;
        mk_boot_task 2 5 BT_ISO None None None "pxe" None BK_COMPLETED None (Some "n0") (Some 4) 3 None (Some 4)]|>
    <|db_install_tasks := [
        mk_install_task 1 5 1 (Some "debian") (Some []) IN_PENDING None 10 None None;
        mk_install_task 2 5 1 (Some "debian") (Some []) IN_IN_PROGRESS None 11 None None;
        mk_install_task 3 5 2 (Some "debian") (Some []) IN_CANCELLED None 3 None (Some 4)]|>.

Lemma open_tasks_are_cancelled_witness :
  exists st', cancel_open_server_tasks 5 (session_of sample_rack_db 20) = (Ok (2, 1), st')
    /\ open_installs 5 st'.(s_committed) = []
    /\ st'.(s_committed) = close_boots 5 (close_installs 5 20 sample_rack_db).
Proof.
  assert (tbl_wf sample_rack_db.(db_install_tasks)) as Hw by (vm_compute; repeat constructor; cbn; lia).
  pose proof (open_tasks_are_cancelled 5 sample_rack_db 20 Hw) as H.
  destruct (cancel_open_server_tasks 5 (session_of sample_rack_db 20)) as [r st'] eqn:E.
  assert (r = Ok (2, 1)) as -> by (change r with (fst (r, st')); rewrite <- E; vm_compute; reflexivity).
  exists st'. destruct H as (Hc & Ho & _). split; [done|]. split; [exact Ho|exact Hc].
Defined.

Definition sample_port : network_port := mk_network_port 5 (Some "aa:bb:cc:dd:ee:ff") true (Some "10.0.0.5").
(** Two requests see the same task before either is answered. *)
Definition racing_boots : list (Z * boot_event) :=
  [(20, BeLook 1 5); (20, BeLook 2 5);
   (21, BeAuthorize 1 (Some "10.0.0.5") sample_port (Some "n1"));
   (22, BeAuthorize 2 (Some "10.0.0.5") sample_port (Some "n1"));
   (23, BeServe 1)].
Lemma boots_are_authorized_once_witness :
  let w := fold_left (boot_step (fun _ => "n9") (fun _ => true) (fun u => u)) racing_boots
             (mk_boot_world sample_rack_db [] []) in
  w.(bw_served) = [(1, "n1")] /\ List.NoDup (map fst w.(bw_served)).
Proof.
  split; [vm_compute; reflexivity|].
  apply (boots_are_authorized_once (fun _ => "n9") (fun _ => true) (fun u => u) sample_rack_db racing_boots).
  vm_compute. repeat constructor; cbn; lia.
Defined.

(** A report on an installation that was cancelled, of an order that is gone,
    still completes it, and activates every pending service of the server. *)
Lemma late_report_activates_the_next_order :
  let st' := snd (mark_install_completed 3 (session_of sample_rack_db 20)) in
  option_map it_status (tbl_get 3 sample_rack_db.(db_install_tasks)) = Some IN_CANCELLED
  /\ option_map it_status (tbl_get 3 st'.(s_committed).(db_install_tasks)) = Some IN_COMPLETED
  /\ map sv_status sample_rack_db.(db_services) = [SS_PENDING; SS_PENDING]
  /\ map sv_status st'.(s_committed).(db_services) = [SS_ACTIVE; SS_ACTIVE].
Proof. vm_compute. repeat split. Qed.

(** A server that has credentials keeps them when another installation has
    been given others. *)
Definition sample_template : os_template :=
  mk_os_template "debian" "Debian" "linux" (Some "echo ${PARAM_ROOT_PASSWORD}") None [] [] false None.
Definition sample_rack : rack :=
  mk_rack [] [sample_port] (fun _ => None) (fun _ => false) [sample_template] None (fun _ => "http://b")
    (fun _ => "t") (fun _ => "") (fun _ _ => "x"%char) (fun _ => "n9") (fun _ => "") (fun _ => "").
Lemma second_install_keeps_old_credentials :
  let st' := snd (store_credentials sample_rack 5 sample_template 1 [("root_password", JStr "new")]
                    (session_of sample_rack_db 20)) in
  st'.(s_committed).(db_servers) = sample_rack_db.(db_servers)
  /\ (snd (store_credentials sample_rack 5 sample_template 1 [("root_password", JStr "new")]
             (session_of (sample_rack_db <|db_servers :=
                 [mk_server 5 "r1u5" (Some "10.0.0.5") None true None]|>) 20))).(s_committed).(db_servers)
     <> [mk_server 5 "r1u5" (Some "10.0.0.5") None true None].
Proof. split; [vm_compute; reflexivity|]. vm_compute. discriminate. Qed.

(** A boot that is refused once its nonce is spent is refused ever after: the
    task stays open and cannot be booted. *)
Definition iso_without_url : db :=
  sample_rack_db <|db_boot_tasks :=
    [mk_boot_task 1 5 BT_ISO None None None "pxe" None BK_PENDING None (Some "n1") None 10 None None]|>.
Lemma spent_nonce_strands_the_task :
  let boot st := get_pxe_boot_file (fun _ => true) (fun u => u) (Some sample_port) (Some "10.0.0.5") false None
                   (fun _ => None) (Some "n1") st in
  let st' := snd (boot (session_of iso_without_url 20)) in
  fst (boot (session_of iso_without_url 20)) = Raise (HTTPException 400)
  /\ fst (boot (session_of st'.(s_committed) 21)) = Raise (HTTPException 403)
  /\ option_map boot_open (tbl_get 1 st'.(s_committed).(db_boot_tasks)) = Some true.
Proof. vm_compute. repeat split. Qed.
