(* ===== verification/Plans.v ===== *)
(** What a service is ordered as: the snapshot of its product
    (src/app/services/service_product_snapshot.py), the strategies of template
    types (vm_install_type_strategy.py), and the plan of a virtual machine
    (vm_provisioning_service.py and vm_os_strategy.py). *)
From Stdlib Require Import ZArith Lia.
From stdpp Require Import base numbers list strings pretty.
From S2P Require Import Prelude Models Session Lifecycle Permissions Checkout Deploy Jobs GuestIp.
#[local] Open Scope Z_scope.
#[local] Open Scope py_scope.

(** * The catalogue *)

(** [VMTemplate], beyond what deployments read of it. *)
Record template_row : Type := mk_template_row {
  tr_template : vm_template;
  tr_name : string;
  tr_enabled : bool;
  tr_strategy_options : dict
}.
#[export] Instance keyed_template_row : Keyed template_row := fun t => t.(tr_template).(vt_id).
(** [Product] and its [ProductFamily], with the templates mapped to it; the
    columns of the family mean nothing when the product has none. *)
Record sold_product : Type := mk_sold_product {
  so_product : product;
  so_name : string;
  so_family_id : Z;
  so_family_code : string;
  so_family_name : string;
  so_backend : option string;
  so_vm_templates : list Z
}.
Record service_catalog : Type := mk_service_catalog {
  sc_products : list sold_product;
  sc_templates : list template_row
}.
Definition product_by_code (cat : service_catalog) (code : string) : option sold_product :=
  List.find (fun p => p.(so_product).(pd_code) == code) cat.(sc_products).
Definition product_has_vm_template (p : sold_product) (vm_template_id : Z) : bool :=
  existsb (Z.eqb vm_template_id) p.(so_vm_templates).

(** * Strategies of template types *)

Record install_type : Type := mk_install_type {
  ty_os_type : string;
  ty_billing_os_code : string;
  ty_strategy_name : string;
  ty_strategy_config : dict
}.
Definition type_config (use_cloudinit : bool) (mode notes : string) : dict :=
  [("use_cloudinit", JBool use_cloudinit); ("provision_mode", JStr mode); ("notes", JStr notes)].
Definition install_types : list install_type :=
  [mk_install_type "Linux - Cloudinit" "install-linux-cloudinit" "cloudinit_clone"
     (type_config true "clone_then_cloudinit"
        "Clone from catalog proxmox_template_name; configure cloud-init (drive/ISO per node policy).");
   mk_install_type "Linux - Guest agent" "install-linux-guest-agent" "guest_agent"
     (type_config false "clone_then_guest_agent"
        "Clone from catalog proxmox_template_name; post-config via QEMU guest agent (no cloud-init ISO).");
   mk_install_type "macOS - Guest agent" "install-macos-guest-agent" "macos_guest_agent"
     (type_config false "clone_then_macos_guest_agent"
        "Clone macOS template; SMBIOS/network/password via AppleQEMUGuestAgent + OpenCore.");
   mk_install_type "Windows - Guest agent" "install-windows-guest-agent" "windows_guest_agent"
     (type_config false "clone_then_windows_guest_agent"
        "Clone Windows template; network/password via QEMU guest agent (PowerShell).")].
Definition install_type_of (os_type : string) : Meth install_type :=
  unwrap (List.find (fun y => y.(ty_os_type) == os_type) install_types)
    (ValueError ("Unsupported VM provisioning strategy (os_type) '" +:+ os_type
       +:+ "'. Allowed: Linux - Cloudinit, Linux - Guest agent, Windows - Guest agent, macOS - Guest agent.")).

Definition guest_options (username : string) : dict :=
  [("guest_username", JStr username); ("network_mode", JStr "static");
   ("client_actions", JList [JStr "change_password"])].
(** [strategy.default_options()] *)
Definition default_options (strategy_name : string) : dict :=
  if strategy_name == "cloudinit_clone" then guest_options "root"
  else if strategy_name == "windows_guest_agent" then guest_options "Administrator"
  else if strategy_name == "macos_guest_agent" then
    [("guest_username", JStr "client"); ("template_password", JStr "client");
     ("network_mode", JStr "static"); ("randomize_smbios", JBool true);
     ("smbios_model", JStr "iMacPro1,1"); ("opencore_disk", JStr "disk1s1");
     ("opencore_config", JStr "/Volumes/OPENCORE/EFI/OC/config.plist");
     ("client_actions", JList [JStr "change_password"])]
  else guest_options "client".
(** [merged.setdefault(key, value)] *)
Definition setdefault (k : string) (v : json) (d : dict) : dict :=
  if dict_has k d then d else dict_set k v d.
Definition merge_strategy_options (os_type : string) (template_options : dict) : Meth dict :=
  y <- install_type_of os_type ;;
  let defaults := match resolve_strategy y.(ty_strategy_name) with
                  | Some _ => default_options y.(ty_strategy_name)
                  | None => []
                  end in
  ret (fold_left (fun acc kv => setdefault kv.1 kv.2 acc) y.(ty_strategy_config)
         (dict_merge defaults template_options)).

(** * The snapshot of a product *)

Definition family_snapshot (p : sold_product) (f : product_family) : json :=
  JObj [("id", JInt p.(so_family_id)); ("code", JStr p.(so_family_code));
        ("name", JStr p.(so_family_name)); ("service_type", JStr f.(fm_service_type));
        ("provisioning_backend", jopt_str p.(so_backend))].
Definition product_row_snapshot (p : sold_product) : json :=
  JObj [("id", JInt p.(so_product).(pd_id)); ("code", JStr p.(so_product).(pd_code));
        ("name", JStr p.(so_name))].
Definition template_snapshot (t : template_row) : json :=
  JObj [("id", JInt t.(tr_template).(vt_id)); ("name", JStr t.(tr_name));
        ("os_type", JStr t.(tr_template).(vt_os_type));
        ("proxmox_template_name", JStr t.(tr_template).(vt_proxmox_template_name));
        ("strategy_options", JObj t.(tr_strategy_options))].
Definition profile_snapshot (t : template_row) (y : install_type) (config : dict) : json :=
  JObj [("id", JNull); ("code", JStr y.(ty_billing_os_code)); ("name", JStr t.(tr_template).(vt_os_type));
        ("family", JStr "vm_template_strategy"); ("strategy_name", JStr y.(ty_strategy_name));
        ("strategy_config", JObj config); ("source", JStr "vm_template_os_type")].

Definition build_product_snapshot (cat : service_catalog) (product_code : string) (os_code : option string)
    (kind : service_type) (vm_template_id : option Z) : Meth (dict * option string) :=
  p <- unwrap (product_by_code cat product_code)
         (ValueError ("Unknown product_code '" +:+ product_code +:+ "'")) ;;
  f <- unwrap p.(so_product).(pd_family) AttributeError ;;
  throw_if (negb (f.(fm_service_type) == service_type_value kind))
    (ValueError ("Product '" +:+ p.(so_product).(pd_code) +:+ "' belongs to service_type '"
       +:+ f.(fm_service_type) +:+ "', not '" +:+ service_type_value kind +:+ "'")) ;;;
  let snapshot := [("family", family_snapshot p f); ("product", product_row_snapshot p);
                   ("effective_specs", JObj (effective_specs p.(so_product)))] in
  match kind, vm_template_id with
  | ST_VM, Some k =>
      t <- unwrap (tbl_get k cat.(sc_templates))
             (ValueError ("Unknown vm_template_id " +:+ pretty k)) ;;
      throw_if (negb (product_has_vm_template p k))
        (ValueError ("vm_template_id " +:+ pretty k +:+ " is not linked to product '"
           +:+ p.(so_product).(pd_code)
           +:+ "' (assign VM templates on the product in the catalog)")) ;;;
      y <- install_type_of t.(tr_template).(vt_os_type) ;;
      throw_if (str_true os_code && negb (os_code == Some y.(ty_billing_os_code)))
        (ValueError ("os_code '" +:+ default "" os_code +:+ "' does not match strategy billing code '"
           +:+ y.(ty_billing_os_code) +:+ "' for vm_template_id " +:+ pretty k)) ;;;
      config <- merge_strategy_options t.(tr_template).(vt_os_type) t.(tr_strategy_options) ;;
      ret (snapshot ++ [("vm_template", template_snapshot t);
                        ("os_profile", profile_snapshot t y config)],
           Some y.(ty_billing_os_code))
  | _, _ =>
      throw_if (str_true os_code)
        (ValueError "os_code is no longer supported; provision VMs with vm_template_id (template os_type defines the strategy)") ;;;
      ret (snapshot, None)
  end.

(** * Sizes *)

(** The first of some keys that holds something. *)
Fixpoint first_given (keys : list string) (d : dict) : option json :=
  match keys with
  | [] => None
  | k :: rest => if not_given (dict_get k d) then first_given rest d else dict_get k d
  end.
Definition fill (key : string) (aliases : list string) (d : dict) : dict :=
  if not_given (dict_get key d) then
    match first_given aliases d with Some v => dict_set key v d | None => d end
  else d.
Definition normalize_vm_disk_and_clone (d : dict) : dict :=
  let d := fill "disk_gb" ["storage_gb"; "disk_size_gb"] d in
  dict_set "full_clone"
    (JBool (match dict_get "full_clone" d with
            | Some v => negb (not_given (Some v)) && json_true v
            | None => false
            end)) d.
Definition normalize_vm_specs (specs : dict) : dict :=
  normalize_vm_disk_and_clone (fill "memory_mb" ["ram_mb"] (fill "cores" ["cpu_cores"; "cpu_count"] specs)).
Definition resolve_effective_specs (p : product) (context : dict) : Meth dict :=
  let specs := normalize_vm_specs (effective_specs p) in
  match dict_get "vm_ip_allocation_id" context with
  | Some j =>
      if json_true j then
        k <- lift_outcome (json_int j) ;;
        a <- get_by_id k ;;
        ret (match a ≫= va_bridge_name with
             | Some b => if str_empty b then specs else dict_set "network_bridge" (JStr b) specs
             | None => specs
             end)
      else ret specs
  | None => ret specs
  end.

(** * Plans *)

Record vm_provision_request : Type := mk_vm_provision_request {
  vq_service_id : Z;
  vq_product_code : string;
  vq_os_code : string;
  vq_specs : dict;
  vq_context : dict
}.
Definition request_payload (r : vm_provision_request) : dict :=
  [("service_id", JInt r.(vq_service_id)); ("product_code", JStr r.(vq_product_code));
   ("os_code", JStr r.(vq_os_code)); ("specs", JObj r.(vq_specs))].
Definition network_note (source : list (string * json)) : dict := [("network", JObj source)].
(** The strategies that plan, and what they say about the guest's network. *)
Definition plan_strategies : list (string * dict) :=
  [("cloudinit_clone", network_note
      [("proxmox", JStr "ipconfig0"); ("source", JStr "vm_ip_allocation");
       ("description", JStr "Static IP/gateway applied via Proxmox QEMU cloud-init (ipconfig0).")]);
   ("guest_agent", []);
   ("macos_guest_agent", network_note
      [("source", JStr "vm_ip_allocation");
       ("description", JStr "Static IP via guest-agent networksetup (or DHCP if configured).")]);
   ("windows_guest_agent", network_note
      [("source", JStr "vm_ip_allocation");
       ("description", JStr "Static IP via guest-agent PowerShell (or DHCP if configured).")])].
Definition build_plan (strategy_name : option json) (r : vm_provision_request) (config : dict)
  : string * dict :=
  match strategy_name with
  | Some (JStr name) =>
      match List.find (fun x => x.1 == name) plan_strategies with
      | Some (name, network) =>
          (name, ("mode", JStr name) :: request_payload r
                 ++ [("context", JObj r.(vq_context)); ("strategy_config", JObj config)] ++ network)
      | None => ("stub", request_payload r ++ [("strategy_config", JObj config)])
      end
  | _ => ("stub", request_payload r ++ [("strategy_config", JObj config)])
  end.
Definition plan_provisioning (cat : service_catalog) (service_id : Z) (product_code : string)
    (os_code : option string) (vm_template_id : option Z) (context : dict) : Meth dict :=
  made <- build_product_snapshot cat product_code os_code ST_VM vm_template_id ;;
  os <- unwrap made.2
    (ValueError "Either os_code or vm_template_id (template os_type defines strategy) is required") ;;
  op <- dict_of (dict_get "os_profile" made.1) ;;
  config <- dict_of (dict_get "strategy_config" op) ;;
  throw_if (match op with [] => true | _ => false end)
    (ValueError "Product snapshot is missing os_profile for provisioning") ;;;
  p <- unwrap (product_by_code cat product_code)
         (ValueError ("Unknown product_code '" +:+ product_code +:+ "'")) ;;
  specs <- resolve_effective_specs p.(so_product) context ;;
  let '(name, payload) := build_plan (dict_get "strategy_name" op)
        (mk_vm_provision_request service_id product_code os specs context) config in
  ret [("service_id", JInt service_id); ("product_code", JStr product_code); ("os_code", JStr os);
       ("vm_template", match dict_get "vm_template" made.1 with Some x => x | None => JNull end);
       ("family_code", JStr p.(so_family_code)); ("backend", jopt_str p.(so_backend));
       ("effective_specs", JObj specs); ("strategy_plan", JObj payload);
       ("strategy_name", JStr name)].

(** * What plans have in common with deployments *)

(** The template types are those that deployments know. *)
Lemma install_types_agree :
  map (fun y => (y.(ty_os_type), y.(ty_strategy_name))) install_types = INSTALL_TYPE_STRATEGIES.
Proof. reflexivity. Qed.
(** A template type has one strategy, which plans, is registered, and has its
    options filled in. *)
Lemma install_type_spec os_type y : List.find (fun y => y.(ty_os_type) == os_type) install_types = Some y ->
  y.(ty_os_type) = os_type
  /\ resolve_vm_template_strategy os_type = ret y.(ty_strategy_name)
  /\ is_Some (resolve_strategy y.(ty_strategy_name))
  /\ exists network, List.find (fun x => x.1 == y.(ty_strategy_name)) plan_strategies
                     = Some (y.(ty_strategy_name), network).
Proof.
  intros Hf. pose proof Hf as [Hin Hk]%List.find_some. apply (proj1 (py_eq_true _ _)) in Hk. split; [done|]. subst os_type. clear Hf.
  repeat (destruct Hin as [<-|Hin]; [cbn [ty_os_type ty_strategy_name];
    split; [reflexivity|]; split; [eexists; reflexivity|]; eexists; reflexivity|]). destruct Hin.
Qed.

(** ** Sizes *)

Lemma dict_get_set_same k v d : dict_get k (dict_set k v d) = Some v.
Proof. rewrite dict_get_set. by destruct (py_eq_spec k k). Qed.
Lemma dict_get_set_other k k' v d : k' <> k -> dict_get k' (dict_set k v d) = dict_get k' d.
Proof. intros H. rewrite dict_get_set. by destruct (py_eq_spec k' k). Qed.
Lemma fill_other key aliases d k : k <> key -> dict_get k (fill key aliases d) = dict_get k d.
Proof.
  intros H. unfold fill. destruct (not_given _); [|done]. destruct (first_given _ _); [|done]. by apply dict_get_set_other.
Qed.
Lemma first_given_spec keys d :
  match first_given keys d with
  | Some v => not_given (Some v) = false /\ exists k, In k keys /\ dict_get k d = Some v
  | None => forall k, In k keys -> not_given (dict_get k d) = true
  end.
Proof.
  induction keys as [|k keys IH]; cbn [first_given]; [done|].
  destruct (not_given (dict_get k d)) eqn:E.
  - destruct (first_given keys d) as [v|].
    + destruct IH as (Hv & k' & Hk & Hd). split; [done|]. exists k'. by split; [right|].
    + by intros k' [<-|H]; [|apply IH].
  - destruct (dict_get k d) as [v|] eqn:Hd; [|done]. split; [done|]. exists k. by split; [left|].
Qed.
(** The canonical key holds what it held, or else the first alias that holds
    something. *)
Lemma fill_key key aliases d :
  dict_get key (fill key aliases d)
  = match first_given (key :: aliases) d with Some v => Some v | None => dict_get key d end.
Proof.
  unfold fill. cbn [first_given]. destruct (not_given (dict_get key d)) eqn:E.
  - destruct (first_given aliases d); [apply dict_get_set_same|done].
  - by destruct (dict_get key d).
Qed.
Definition size_of (key : string) (aliases : list string) (specs : dict) : option json :=
  match first_given (key :: aliases) specs with Some v => Some v | None => dict_get key specs end.
Definition sized (specs specs' : dict) : Prop :=
  dict_get "cores" specs' = size_of "cores" ["cpu_cores"; "cpu_count"] specs
  /\ dict_get "memory_mb" specs' = size_of "memory_mb" ["ram_mb"] specs
  /\ dict_get "disk_gb" specs' = size_of "disk_gb" ["storage_gb"; "disk_size_gb"] specs
  /\ (exists b, dict_get "full_clone" specs' = Some (JBool b))
  /\ forall k, ~ In k ["cores"; "memory_mb"; "disk_gb"; "full_clone"] -> dict_get k specs' = dict_get k specs.
Lemma first_given_ext keys d d' : (forall k, In k keys -> dict_get k d' = dict_get k d) ->
  first_given keys d' = first_given keys d.
Proof.
  induction keys as [|k keys IH]; [done|]. intros H. cbn [first_given]. rewrite (H k) by by left.
  rewrite IH; [done|]. intros k' Hk. apply H. by right.
Qed.
Lemma normalize_vm_specs_sized specs : sized specs (normalize_vm_specs specs).
Proof.
  unfold sized, normalize_vm_specs, normalize_vm_disk_and_clone, size_of.
  assert (forall k a b, k <> "cores" -> k <> "memory_mb" ->
    dict_get k (fill "memory_mb" a (fill "cores" b specs)) = dict_get k specs) as Hother
    by (intros; by rewrite !fill_other).
  repeat split.
  - rewrite dict_get_set_other by done. rewrite !fill_other by done. by rewrite fill_key.
  - rewrite dict_get_set_other by done. rewrite fill_other by done. rewrite fill_key.
    rewrite (first_given_ext _ specs); [by rewrite fill_other|].
    intros k [<-|[<-|[]]]; by rewrite fill_other.
  - rewrite dict_get_set_other by done. rewrite fill_key.
    rewrite (first_given_ext _ specs); [by rewrite Hother|].
    intros k [<-|[<-|[<-|[]]]]; by rewrite Hother.
  - rewrite dict_get_set_same. eauto.
  - intros k Hk. cbn [In] in Hk. rewrite dict_get_set_other by intuition congruence.
    rewrite fill_other by intuition congruence. apply Hother; intuition congruence.
Qed.

(** ** Plans *)

(** A product is sold with a template of a known type. *)
Definition sold_as (cat : service_catalog) (code : string) (k : Z) (p : sold_product) (t : template_row)
    (y : install_type) : Prop :=
  product_by_code cat code = Some p
  /\ (exists f, p.(so_product).(pd_family) = Some f /\ f.(fm_service_type) = "vm")
  /\ tbl_get k cat.(sc_templates) = Some t /\ product_has_vm_template p k = true
  /\ List.find (fun y => y.(ty_os_type) == t.(tr_template).(vt_os_type)) install_types = Some y.
Ltac not_sold := split; [done|]; intros ? ? ? (? & (? & ? & ?) & ? & ? & ?); congruence.
Lemma build_snapshot_spec cat code k st :
  wp (build_product_snapshot cat code None ST_VM (Some k))
    (fun made st' => st' = st
       /\ exists p t y config, sold_as cat code k p t y
          /\ made.2 = Some y.(ty_billing_os_code)
          /\ dict_get "os_profile" made.1 = Some (profile_snapshot t y config)
          /\ dict_get "vm_template" made.1 = Some (template_snapshot t))
    (fun e st' => st' = st /\ forall p t y, ~ sold_as cat code k p t y) st.
Proof.
  unfold build_product_snapshot, sold_as. apply wp_bind, wp_unwrap; [intros; not_sold|]. intros p Hp.
  apply wp_bind, wp_unwrap; [intros; not_sold|]. intros f Hf.
  apply wp_bind, wp_throw_if; intros Htype.
  { split; [done|]. intros p' t y (Hp' & (f' & Hf' & Hv) & _). assert (p' = p) as -> by congruence.
    assert (f' = f) as -> by congruence. by rewrite Hv in Htype. }
  apply negb_false_iff, (proj1 (py_eq_true _ _)) in Htype.
  apply wp_bind, wp_unwrap; [intros; not_sold|]. intros t Ht. apply wp_bind, wp_throw_if; intros Hm.
  { split; [done|]. intros p' t' y (Hp' & _ & _ & Hh & _). assert (p' = p) as -> by congruence. by rewrite Hh in Hm. }
  apply negb_false_iff in Hm. apply wp_bind. unfold install_type_of. apply wp_unwrap.
  { intros Hy. split; [done|]. intros p' t' y (_ & _ & Ht' & _ & Hy'). assert (t' = t) as -> by congruence. by rewrite Hy in Hy'. }
  intros y Hy. apply wp_bind, wp_throw_if; [done|]. intros _. apply wp_bind. unfold merge_strategy_options, install_type_of.
  apply wp_bind, wp_unwrap; [by rewrite Hy|]. intros y' _. apply wp_ret, wp_ret. split; [done|].
  exists p, t, y. eexists. split; [|done]. split; [done|]. split; [by exists f|]. done.
Qed.
Lemma effective_specs_spec p s k (Q : dict -> session -> Prop) R st :
  let specs := normalize_vm_specs (effective_specs p) in
  (forall specs', (forall key, key <> "network_bridge" -> dict_get key specs' = dict_get key specs) ->
     dict_get "network_bridge" specs'
     = match tbl_get k st.(s_db).(db_vm_ips) ≫= va_bridge_name with
       | Some b => if str_empty b then dict_get "network_bridge" specs else Some (JStr b)
       | None => dict_get "network_bridge" specs
       end -> Q specs' st) -> k <> 0 ->
  wp (resolve_effective_specs p [("service_id", JInt s); ("vm_ip_allocation_id", JInt k)]) Q R st.
Proof.
  intros specs HQ Hk. unfold resolve_effective_specs. cbn [dict_get].
  change (py_eq "vm_ip_allocation_id" "service_id") with false.
  change (py_eq "vm_ip_allocation_id" "vm_ip_allocation_id") with true. cbn match. cbn [json_true json_int lift_outcome].
  rewrite (proj2 (Z.eqb_neq k 0)) by done. cbn [negb]. apply wp_bind, wp_ret, wp_bind, wp_read, wp_ret. fold specs.
  destruct (tbl_get k _ ≫= va_bridge_name) as [b|]; apply HQ; try done.
  - intros key Hne. destruct (str_empty b); [done|]. by rewrite dict_get_set_other.
  - destruct (str_empty b); [done|]. apply dict_get_set_same.
Qed.

(** What a plan says of the machine to be deployed. *)
Definition plans (cat : service_catalog) (d : db) (p : sold_product) (t : template_row) (y : install_type)
    (a : Z) (plan : dict) : Prop :=
  dict_get "strategy_name" plan = Some (JStr y.(ty_strategy_name))
  /\ dict_get "vm_template" plan = Some (template_snapshot t)
  /\ exists specs, dict_get "effective_specs" plan = Some (JObj specs)
     /\ (forall key aliases, In (key, aliases) [("cores", ["cpu_cores"; "cpu_count"]); ("memory_mb", ["ram_mb"]);
                                                ("disk_gb", ["storage_gb"; "disk_size_gb"])] ->
           dict_get key specs = size_of key aliases (effective_specs p.(so_product)))
     /\ dict_get "network_bridge" specs
        = match tbl_get a d.(db_vm_ips) ≫= va_bridge_name with
          | Some (String c b) => Some (JStr (String c b))
          | _ => dict_get "network_bridge" (effective_specs p.(so_product))
          end.

(** C21. A virtual machine is planned exactly when its product, of virtual
    machines, is sold with its template and the template's type is known.  The
    plan then names the strategy of that type, which is registered, and which
    the deployment of every service that holds the plan resolves; the sizes it
    gives are those of the product under their first name that is given, and
    the bridge is that of the machine's address where it has one. *)
Theorem plans_are_deployable cat clusters s code k a st :
  a <> 0 ->
  match plan_provisioning cat s code None (Some k) [("service_id", JInt s); ("vm_ip_allocation_id", JInt a)] st with
  | (Ok plan, st') => st' = st /\ exists p t y strategy,
      sold_as cat code k p t y /\ plans cat st.(s_db) p t y a plan
      /\ resolve_strategy y.(ty_strategy_name) = Some strategy
      /\ forall x, dict_get "vm_plan" x.(sv_config) = Some (JObj plan) -> forall st2,
           resolve_vm_strategy_name_for_service
             (mk_deploy_catalog (map tr_template cat.(sc_templates)) clusters) x st2
           = (Ok y.(ty_strategy_name), st2)
  | (Raise _, st') => st' = st /\ forall p t y, ~ sold_as cat code k p t y
  end.
Proof.
  intros Ha. refine ((fun H : wp (plan_provisioning cat s code None (Some k) _) _ _ st => H) _).
  unfold plan_provisioning. apply wp_bind. eapply wp_conseq; [apply build_snapshot_spec| |done].
  intros [snapshot os] st' (-> & p & t & y & config & Hs & -> & Hop & Htemplate). cbn [fst snd] in *.
  rewrite Hop, Htemplate. apply wp_bind, wp_ret, wp_bind, wp_ret, wp_bind, wp_ret.
  pose proof Hs as (Hp & _ & _ & _ & Hy). pose proof (install_type_spec _ _ Hy) as (_ & Hstrategy & [strategy Hreg] & network & Hplan).
  apply wp_bind, wp_throw_if; [done|]. intros _. apply wp_bind, wp_unwrap; [congruence|]. intros p' Hp'.
  assert (p' = p) as -> by congruence. apply wp_bind, effective_specs_spec; [|done]. intros specs Hother Hbridge.
  change (dict_get "strategy_name" _) with (Some (JStr y.(ty_strategy_name))). unfold build_plan. rewrite Hplan.
  apply wp_ret. split; [done|]. exists p, t, y, strategy. split; [done|].
  pose proof (normalize_vm_specs_sized (effective_specs p.(so_product))) as (Hc & Hm & Hd & _ & Hrest).
  split; [split; [done|]; split; [done|]; exists specs; split; [done|]; split|split; [done|]].
  - intros key aliases Hin. cbn [In] in Hin. destruct Hin as [[= <- <-]|[[= <- <-]|[[= <- <-]|[]]]]; by rewrite Hother.
  - rewrite Hbridge, Hrest by (cbn [In]; intuition congruence). by destruct (_ ≫= va_bridge_name) as [[|c b]|].
  - intros x Hx st2. unfold resolve_vm_strategy_name_for_service. rewrite Hx. cbn [or_empty json_get].
    change (dict_get "strategy_name" _) with (Some (JStr y.(ty_strategy_name))).
    unfold bind, ret. cbn [strategy_str]. assert (str_empty y.(ty_strategy_name) = false) as -> by (clear - Hreg; by destruct y as [? ? [|]]).
    done.
Qed.

(** * A concrete catalogue *)

Definition sample_catalog : service_catalog :=
  mk_service_catalog
    [mk_sold_product
       (mk_product 1 "vps-s" true
          (Some (mk_product_family true "vm" [("cpu_cores", JInt 2); ("ram_mb", JInt 2048)] None))
          [("storage_gb", JInt 40); ("network_bridge", JStr "vmbr0")] None)
       "VPS S" 1 "vps" "VPS" (Some "proxmox") [3]]
    [mk_template_row (mk_vm_template 3 "Linux - Cloudinit" "debian-13" false) "Debian 13" true []].
Definition sample_addresses : db :=
  empty_db <|db_vm_ips := [mk_vm_ip 8 "10.0.0.8" "255.255.255.0" "10.0.0.1" (Some "vmbr7") None [] true (Some 1)]|>.
Lemma plans_are_deployable_witness :
  exists plan st', plan_provisioning sample_catalog 1 "vps-s" None (Some 3)
      [("service_id", JInt 1); ("vm_ip_allocation_id", JInt 8)] (session_of sample_addresses 0) = (Ok plan, st')
    /\ dict_get "strategy_name" plan = Some (JStr "cloudinit_clone")
    /\ exists p t y, sold_as sample_catalog "vps-s" 3 p t y /\ plans sample_catalog sample_addresses p t y 8 plan.
Proof.
  assert (8 <> 0) as Ha by lia.
  pose proof (plans_are_deployable sample_catalog [] 1 "vps-s" 3 8 (session_of sample_addresses 0) Ha) as H.
  destruct (plan_provisioning _ _ _ _ _ _ _) as [[plan|e] st'] eqn:E.
  - exists plan, st'. split; [done|]. destruct H as (_ & p & t & y & strategy & Hs & Hp & _).
    split; [|by exists p, t, y]. apply (f_equal fst) in E. vm_compute in E. injection E as <-. reflexivity.
  - exfalso. apply (f_equal fst) in E. vm_compute in E. discriminate.
Defined.
