(* ===== verification/Provision.v ===== *)
(** Creating services: src/app/services/provisioning/request.py, errors.py and
    vm.py, http_proxy.py with src/app/services/proxy_provisioning.py, and the
    rows of services (src/app/dao/service_dao.py). *)
From Stdlib Require Import ZArith Lia.
From stdpp Require Import base numbers list strings pretty.
From S2P Require Import Prelude Models Session Lifecycle Vmid Placement Ipam Jobs GuestIp Scripts Installs Plans.
#[local] Open Scope Z_scope.
#[local] Open Scope py_scope.

(** * Requests *)

Record provision_request : Type := mk_provision_request {
  pq_name : string;
  pq_service_type : service_type;
  pq_owner_user_id : option Z;
  pq_product_code : option string;
  pq_external_service_id : option string;
  pq_description : option string;
  pq_provisioning_source : provisioning_source;
  pq_auto_provision : bool;
  pq_service_config : dict;
  pq_extra_snapshot : option dict;
  pq_permission_set_id : option Z;
  pq_server_group_id : option Z;
  pq_server_id : option Z;
  pq_template_id : option json;
  pq_template_parameters : option json;
  pq_vm_template_id : option Z;
  pq_proxmox_cluster_id : option Z;
  pq_proxmox_node_name : option string;
  pq_proxmox_vmid : option Z;
  pq_ip_count : option Z;
  pq_subnet_id : option Z;
  pq_subnet_group_id : option Z;
  pq_allocation_strategy : option string
}.
#[export] Instance eta_provision_request : Eta provision_request := fun r =>
  mk_provision_request r.(pq_name) r.(pq_service_type) r.(pq_owner_user_id) r.(pq_product_code)
    r.(pq_external_service_id) r.(pq_description) r.(pq_provisioning_source) r.(pq_auto_provision)
    r.(pq_service_config) r.(pq_extra_snapshot) r.(pq_permission_set_id) r.(pq_server_group_id)
    r.(pq_server_id) r.(pq_template_id) r.(pq_template_parameters) r.(pq_vm_template_id)
    r.(pq_proxmox_cluster_id) r.(pq_proxmox_node_name) r.(pq_proxmox_vmid) r.(pq_ip_count)
    r.(pq_subnet_id) r.(pq_subnet_group_id) r.(pq_allocation_strategy).
Record actor : Type := mk_actor { ac_kind : string; ac_name : string }.
Definition assigned_by (a : actor) : string := a.(ac_kind) +:+ ":" +:+ a.(ac_name).

Definition code_status (code : string) : Z :=
  if code == "not_found" then 404
  else if (code == "no_free_server") || (code == "no_free_ip") || (code == "conflict") then 409
  else if code == "internal" then 500
  else 400.
Definition provisioning_error (code message : string) : exn :=
  ProvisioningError code message (code_status code).

(** [ProxySubnetGroup], with its members. *)
Record subnet_group : Type := mk_subnet_group {
  sg_group_id : Z;
  sg_code : string;
  sg_group_enabled : bool;
  sg_members : list Z
}.
#[export] Instance keyed_subnet_group : Keyed subnet_group := sg_group_id.

(** What provisioning reads and does not change; proxy credentials are drawn for
    a service and the number of those it has. *)
Record provision_env : Type := mk_provision_env {
  pe_rack : rack;
  pe_catalog : service_catalog;
  pe_clusters : list proxmox_cluster;
  pe_subnet_groups : list subnet_group;
  pe_isoformat : Z -> string;
  pe_str_exc : exn -> string;
  pe_username : Z -> nat -> string;
  pe_password : Z -> nat -> string
}.
Definition deployments_of (env : provision_env) : deploy_catalog :=
  mk_deploy_catalog (map tr_template env.(pe_catalog).(sc_templates)) env.(pe_clusters).

(** * The rows of services *)

(** [x or {}] is written, and a row has no extension but the one given. *)
Definition insert_service (s : Z -> service) : Meth Z :=
  k <- read (fun d => tbl_fresh d.(db_services)) ;;
  write (fun d => d <|db_services := d.(db_services) ++ [s k]|>) ;;;
  commit ;;;
  ret k.
Definition billed_without_owner (r : provision_request) : bool :=
  match r.(pq_provisioning_source), r.(pq_owner_user_id) with PV_BILLING, None => true | _, _ => false end.
Definition requested_service (r : provision_request) (kind : service_type) (vm : option vm_ext)
    (server_id : option Z) (config snapshot : dict) (os_code : option string) (k : Z) : service :=
  mk_service k r.(pq_name) r.(pq_owner_user_id) kind SS_PENDING vm server_id None config snapshot
    r.(pq_external_service_id) r.(pq_description) r.(pq_product_code) os_code None
    r.(pq_provisioning_source).
Definition create_bare_metal (r : provision_request) (kind : service_type) (server_id : option Z)
    (config snapshot : dict) : Meth Z :=
  throw_if (kind == ST_VM) (ValueError "Use create_vm for VM services") ;;;
  throw_if (match server_id with None => kind != ST_HTTP_PROXY | Some _ => false end)
    (ValueError "server_id is required for bare_metal services") ;;;
  throw_if (billed_without_owner r)
    (ValueError "owner_user_id is required when provisioning_source is billing") ;;;
  insert_service (requested_service r kind None server_id config snapshot None).
Definition create_vm (r : provision_request) (node : option string) (snapshot : dict)
    (os_code : option string) : Meth Z :=
  throw_if (billed_without_owner r)
    (ValueError "owner_user_id is required when provisioning_source is billing") ;;;
  insert_service (requested_service r ST_VM
    (Some (mk_vm_ext r.(pq_proxmox_cluster_id) node r.(pq_proxmox_vmid) r.(pq_vm_template_id) None
             GS_UNPROVISIONED None)) None r.(pq_service_config) snapshot os_code).
Definition service_by_name (name : string) (d : db) : option service :=
  List.find (fun s => s.(sv_name) == name) d.(db_services).

(** The rows that keep a service from being deleted: what the ORM would have to
    set to NULL although it may not be, and billings. *)
Definition holds_service (k : Z) (d : db) : bool :=
  existsb (fun r => r.(vr_service_id) =? k) d.(db_reservations)
  || existsb (fun j => j.(dj_service_id) =? k) d.(db_jobs)
  || existsb (fun b => b.(sb_service_id) =? k) d.(db_billings).
Definition not_of (k : Z) (o : option Z) : option Z := if o == Some k then None else o.
(** What happens to the rows that refer to it: their reference becomes NULL, and
    its assignments are deleted with it. *)
Definition without_service (k : Z) (d : db) : db :=
  d <|db_services := List.filter (fun s => negb (s.(sv_id) =? k)) d.(db_services)|>
    <|db_vm_ips := map (fun a => a <|va_assigned_service_id := not_of k a.(va_assigned_service_id)|>) d.(db_vm_ips)|>
    <|db_invoices := map (fun i => i <|in_service_id := not_of k i.(in_service_id)|>) d.(db_invoices)|>
    <|db_ledger := map (fun e => e <|le_service_id := not_of k e.(le_service_id)|>) d.(db_ledger)|>
    <|db_requests := map (fun q => q <|rq_service_id := not_of k q.(rq_service_id)|>) d.(db_requests)|>
    <|db_order_items := map (fun i => i <|oi_service_id := not_of k i.(oi_service_id)|>) d.(db_order_items)|>
    <|db_ip_history := map (fun h => h <|ih_service_id := not_of k h.(ih_service_id)|>) d.(db_ip_history)|>
    <|db_assignments := List.filter (fun a => negb (a.(as_service_id) =? k)) d.(db_assignments)|>.
Definition delete_row (k : Z) : Meth unit :=
  held <- read (holds_service k) ;;
  throw_if held IntegrityError ;;;
  write (without_service k) ;;;
  commit.
Definition delete (k : Z) : Meth bool :=
  o <- read (fun d => tbl_get k d.(db_services)) ;;
  match o with
  | Some _ => delete_row k ;;; ret true
  | None => ret false
  end.
Definition set_permission_set (k : Z) (r : provision_request) : Meth unit :=
  match r.(pq_permission_set_id) with
  | Some p => upd_service k (fun s => s <|sv_permission_set_id := Some p|>) ;;; commit
  | None => ret tt
  end.

(** * Virtual machines *)

Definition given_text (o : option string) : bool := str_true o.
Definition given_id (o : option Z) : bool :=
  match o with Some k => negb (k =? 0) | None => false end.
Definition validate_vm_provision_request (env : provision_env) (r : provision_request) : Meth unit :=
  throw_if (match dict_get "server_group_id" r.(pq_service_config) with
            | Some j => Permissions.json_true j | None => false end)
    (provisioning_error "invalid_request"
       "VM services cannot use server_group_id; use bare-metal provisioning for pooled servers") ;;;
  throw_if (match r.(pq_vm_template_id) with Some _ => negb (given_text r.(pq_product_code)) | None => false end)
    (provisioning_error "invalid_request"
       "vm_template_id requires product_code (template must be linked to that product in the catalog)") ;;;
  throw_if (match r.(pq_proxmox_vmid), r.(pq_proxmox_cluster_id) with Some _, None => true | _, _ => false end)
    (provisioning_error "invalid_request" "proxmox_vmid requires proxmox_cluster_id") ;;;
  match r.(pq_proxmox_cluster_id) with
  | Some c =>
      throw_if (match tbl_get c env.(pe_clusters) with None => true | Some _ => false end)
        (provisioning_error "not_found" ("Unknown proxmox_cluster_id " +:+ pretty c))
  | None => ret tt
  end.
Definition reserve_requested_vmid (env : provision_env) (k : Z) (r : provision_request) : Meth unit :=
  s <- the_service k ;;
  match s.(sv_vm), r.(pq_proxmox_vmid), r.(pq_proxmox_cluster_id) with
  | Some _, Some vmid, Some c =>
      reserved <- try_catch
        (reserve_vmid_for_service (map vmid_cluster env.(pe_clusters)) c k (Some vmid) None false)
        (fun e => if is_value_error e
                  then delete k ;;; raise (provisioning_error "conflict" (env.(pe_str_exc) e))
                  else raise e) ;;
      upd_vm k (fun v => v <|vx_proxmox_vmid := Some reserved|>) ;;;
      commit
  | _, _, _ => ret tt
  end.
Definition assign_vm_ip_or_fail (k : Z) (cluster_id : option Z) : Meth vm_ip :=
  o <- assign_next_free_to_service k cluster_id ;;
  match o with
  | Some a => row <- get_by_id a ;; unwrap row AttributeError
  | None =>
      delete k ;;;
      raise (provisioning_error "no_free_ip"
        "No free VM IP address available to allocate. Add enabled addresses under VM IP allocations. For services without Proxmox cluster placement, only pool rows with no cluster restriction apply; when a cluster is set, rows restricted to that cluster (or unrestricted rows) may be used.")
  end.
Definition attach_vm_plan (env : provision_env) (k : Z) (r : provision_request) (os_code : option string)
    (a : vm_ip) : Meth bool :=
  s <- the_service k ;;
  let cfg := with_address a.(va_id) a.(va_ip_address) s.(sv_config) in
  planned <- (if given_text r.(pq_product_code) && (given_id r.(pq_vm_template_id) || given_text os_code) then
                plan <- plan_provisioning env.(pe_catalog) k (default "" r.(pq_product_code)) None
                          r.(pq_vm_template_id)
                          [("service_id", JInt k); ("vm_ip_allocation_id", JInt a.(va_id))] ;;
                ret (Some plan)
              else ret None) ;;
  upd_service k (fun s => s <|sv_config :=
    match planned with Some plan => dict_set "vm_plan" (JObj plan) cfg | None => cfg end|>) ;;;
  commit ;;;
  ret (bool_decide (is_Some planned)).
Definition set_guest_error (k : Z) (message : string) : Meth unit :=
  upd_vm k (fun v => v <|vx_guest_state := GS_ERROR|> <|vx_guest_last_error := Some message|>) ;;;
  commit.
Definition queue_auto_provision_if_requested (env : provision_env) (k : Z) (r : provision_request)
    (has_plan : bool) : Meth unit :=
  if r.(pq_auto_provision) && has_plan then
    try_catch (schedule_vm_auto_provision (deployments_of env) env.(pe_isoformat) k ;;; ret tt)
      (fun e => if is_value_error e
                then set_guest_error k (env.(pe_str_exc) e) ;;;
                     raise (provisioning_error "conflict" (env.(pe_str_exc) e))
                else raise e)
  else ret tt.
Definition stripped_or_none (o : option string) : option string :=
  let t := str_strip (default "" o) in if str_empty t then None else Some t.
Definition create_vm_service (env : provision_env) (r : provision_request) (snapshot : dict)
    (os_code : option string) : Meth Z :=
  validate_vm_provision_request env r ;;;
  k <- create_vm r (stripped_or_none r.(pq_proxmox_node_name)) snapshot os_code ;;
  set_permission_set k r ;;;
  reserve_requested_vmid env k r ;;;
  a <- assign_vm_ip_or_fail k r.(pq_proxmox_cluster_id) ;;
  log_server_activity ;;;
  has_plan <- attach_vm_plan env k r os_code a ;;
  log_server_activity ;;;
  queue_auto_provision_if_requested env k r has_plan ;;;
  ret k.

(** * HTTP proxies *)

Definition DEFAULT_IP_COUNT : Z := 1.
Definition MAX_AUTO_ASSIGN_IPS : Z := 32.
Record proxy_ip_request : Type := mk_proxy_ip_request {
  px_ip_count : Z;
  px_subnet_id : option Z;
  px_strategy : option json;
  px_subnet_group_id : option Z
}.
(** [int(x)] of what is set. *)
Definition int_or_none (o : option json) : Meth (option Z) :=
  match o with
  | None | Some JNull => ret None
  | Some j => n <- lift_outcome (json_int j) ;; ret (Some n)
  end.
Definition override_or (o : option Z) (spec : option json) : option json :=
  match o with Some n => Some (JInt n) | None => spec end.
Definition spec_count (spec : option json) : Z :=
  match spec with
  | Some j => if Permissions.json_true j then
                match json_int j with Ok n => n | Raise _ => DEFAULT_IP_COUNT end
              else DEFAULT_IP_COUNT
  | None => DEFAULT_IP_COUNT
  end.
Definition resolve_proxy_ip_request (effective_specs : option json) (r : provision_request)
  : Meth proxy_ip_request :=
  specs <- dict_of effective_specs ;;
  let count := match r.(pq_ip_count) with Some n => n | None => spec_count (dict_get "ip_count" specs) end in
  subnet_id <- int_or_none (override_or r.(pq_subnet_id) (dict_get "subnet_id" specs)) ;;
  group_id <- int_or_none (override_or r.(pq_subnet_group_id) (dict_get "subnet_group_id" specs)) ;;
  ret (mk_proxy_ip_request (Z.max 0 (Z.min count MAX_AUTO_ASSIGN_IPS)) subnet_id
         (match r.(pq_allocation_strategy) with
          | Some (String c s) => Some (JStr (String c s))
          | _ => dict_get "allocation_strategy" specs
          end)
         (match subnet_id with Some _ => None | None => group_id end)).
(** A strategy is a string or nothing; others have no [lower]. *)
Definition strategy_text (o : option json) : Meth (option string) :=
  match o with
  | Some (JStr s) => ret (Some s)
  | Some j => if Permissions.json_true j then raise AttributeError else ret None
  | None => ret None
  end.
Definition enabled_members (g : subnet_group) (d : db) : list Z :=
  List.filter (fun k => match tbl_get k d.(db_subnets) with Some n => n.(sn_enabled) | None => false end)
    g.(sg_members).
Definition group_subnets (env : provision_env) (p : proxy_ip_request) : Meth (list Z) :=
  match p.(px_subnet_id), p.(px_subnet_group_id) with
  | None, Some g =>
      group <- unwrap (tbl_get g env.(pe_subnet_groups))
        (ValueError ("Proxy subnet group " +:+ pretty g +:+ " not found or disabled")) ;;
      throw_if (negb group.(sg_group_enabled))
        (ValueError ("Proxy subnet group " +:+ pretty g +:+ " not found or disabled")) ;;;
      members <- read (enabled_members group) ;;
      throw_if (match members with [] => true | _ => false end)
        (ValueError ("Proxy subnet group " +:+ group.(sg_code) +:+ " has no enabled member subnets")) ;;;
      ret members
  | _, _ => ret []
  end.
(** One address after the other, until there are none. *)
Fixpoint assign_ips (env : provision_env) (k : Z) (p : proxy_ip_request) (subnets : list Z)
    (by_whom : string) (n : nat) (done : list Z) : Meth (list Z) :=
  match n with
  | O => ret done
  | S n =>
      got <- try_catch
        (strategy <- strategy_text p.(px_strategy) ;;
         i <- assign_ip (mk_assign_args k p.(px_subnet_id) strategy
                (Some (env.(pe_username) k (length done))) (Some (env.(pe_password) k (length done)))
                (Some by_whom) subnets) ;;
         ret (Some i))
        (fun e => if is_value_error e then ret None else raise e) ;;
      match got with
      | Some i => assign_ips env k p subnets by_whom n (done ++ [i])
      | None => ret done
      end
  end.
Definition auto_assign_proxy_ips (env : provision_env) (k : Z) (p : proxy_ip_request) (by_whom : string)
  : Meth (list Z) :=
  subnets <- group_subnets env p ;;
  assignments <- assign_ips env k p subnets by_whom (Z.to_nat p.(px_ip_count)) [] ;;
  match assignments with
  | [] => ret tt
  | _ => upd_service k (fun s => s <|sv_status := SS_ACTIVE|>)
  end ;;;
  ret assignments.
Definition create_http_proxy_service (env : provision_env) (r : provision_request) (who : actor)
    (snapshot : dict) : Meth Z :=
  k <- create_bare_metal r ST_HTTP_PROXY None r.(pq_service_config) snapshot ;;
  set_permission_set k r ;;;
  log_server_activity ;;;
  p <- resolve_proxy_ip_request (dict_get "effective_specs" snapshot) r ;;
  try_catch (auto_assign_proxy_ips env k p (assigned_by who) ;;; ret tt)
    (fun e => if is_value_error e
              then delete k ;;; raise (provisioning_error "invalid_request" (env.(pe_str_exc) e))
              else if is_exception e
              then delete k ;;; raise (ProvisioningError "internal" (env.(pe_str_exc) e) 500)
              else raise e) ;;;
  commit ;;;
  log_server_activity ;;;
  ret k.

(** * What an order leaves *)

(** No row of another table refers to a service that is not there. *)
Definition no_dangling (d : db) : Prop :=
  forall k, tbl_get k d.(db_services) = None -> holds_service k d = false.
(** A service has been added that holds an address which was free, and nobody
    else's address or row has changed. *)
Definition holds_address (r : provision_request) (k : Z) (a : vm_ip) (d d' : db) : Prop :=
  tbl_get k d.(db_services) = None
  /\ (exists s, tbl_get k d'.(db_services) = Some s /\ s.(sv_name) = r.(pq_name)
        /\ s.(sv_owner_user_id) = r.(pq_owner_user_id) /\ pointer s = Some a.(va_id))
  /\ owner d' a.(va_id) = Some k
  /\ (forall j, j <> k -> tbl_get j d'.(db_services) = tbl_get j d.(db_services))
  /\ (forall b, b <> a.(va_id) -> owner d' b = owner d b).
(** The service's configuration names its address. *)
Definition names_address (k : Z) (a : vm_ip) (d' : db) : Prop :=
  exists s, tbl_get k d'.(db_services) = Some s
    /\ dict_get "vm_ip_allocation_id" s.(sv_config) = Some (JInt a.(va_id))
    /\ dict_get "vm_ip_address" s.(sv_config) = Some (JStr a.(va_ip_address)).

Section VmOrder.
Variables (env : provision_env) (r : provision_request) (d : db) (k : Z) (a : vm_ip).

(** From the moment the service has its address. *)
Definition held (named : bool) (d' : db) : Prop :=
  d'.(db_vm_ips) = tbl_update a.(va_id) (assign (Some k)) d.(db_vm_ips)
  /\ tbl_wf d'.(db_services)
  /\ (forall j, j <> k -> tbl_get j d'.(db_services) = tbl_get j d.(db_services))
  /\ exists s, tbl_get k d'.(db_services) = Some s /\ s.(sv_name) = r.(pq_name)
       /\ s.(sv_owner_user_id) = r.(pq_owner_user_id) /\ pointer s = Some a.(va_id)
       /\ (named = true -> dict_get "vm_ip_allocation_id" s.(sv_config) = Some (JInt a.(va_id))
                           /\ dict_get "vm_ip_address" s.(sv_config) = Some (JStr a.(va_ip_address))).
Definition holding (named : bool) (st : session) : Prop := held named st.(s_db) /\ held named st.(s_committed).
Lemma holding_commit b : keeps (holding b) commit.
Proof. intros st [H1 H2]. apply wp_commit; by split. Qed.
Lemma holding_write b f : (forall d', rows_of (f d') = rows_of d') -> keeps (holding b) (write f).
Proof.
  intros Hf st [H1 H2]. apply wp_write. split; [|done]. specialize (Hf st.(s_db)). unfold rows_of in Hf.
  injection Hf as H3 H4. unfold held in *. cbn. by rewrite H3, H4.
Qed.
(** A change of the service that keeps whose it is and what it holds. *)
Definition same_holder (f : service -> service) : Prop := forall s,
  row_key (f s) = row_key s /\ (f s).(sv_name) = s.(sv_name) /\ (f s).(sv_owner_user_id) = s.(sv_owner_user_id)
  /\ pointer (f s) = pointer s
  /\ dict_get "vm_ip_allocation_id" (f s).(sv_config) = dict_get "vm_ip_allocation_id" s.(sv_config)
  /\ dict_get "vm_ip_address" (f s).(sv_config) = dict_get "vm_ip_address" s.(sv_config).
Lemma held_upd b f d' : same_holder f -> held b d' -> held b (d' <|db_services := tbl_update k f d'.(db_services)|>).
Proof.
  intros Hf (Hi & Hw & Ho & s & Hs & Hn & Hu & Hp & Hc). split; [done|].
  assert (forall s, row_key (f s) = row_key s) as Hk by (intros x; apply Hf).
  split; [by apply tbl_wf_update|]. cbn [db_services update]. split.
  - intros j Hj. rewrite tbl_get_update by done. rewrite <- Ho by done. by destruct (Z.eqb_spec j k).
  - exists (f s). rewrite tbl_get_update, Z.eqb_refl, Hs by done. specialize (Hf s) as (_ & H1 & H2 & H3 & H4 & H5).
    rewrite H1, H2, H3, H4, H5. repeat split; try done; by apply Hc.
Qed.
Lemma holding_upd b f : same_holder f -> keeps (holding b) (upd_service k f).
Proof. intros Hf st [H1 H2]. apply wp_write. split; [by apply held_upd|done]. Qed.
#[local] Hint Resolve holding_commit : dcim.
#[local] Hint Extern 1 (keeps (holding _) (write _)) => apply holding_write; reflexivity : dcim.
Lemma holding_log b : keeps (holding b) log_server_activity.
Proof. apply keeps_try; [apply holding_commit|]. intros e. destruct (is_exception e); [apply keeps_ret|apply keeps_raise]. Qed.
(** A change of the machine's placement or state. *)
Lemma holding_upd_vm b f : (forall v, vx_vm_ip_allocation_id (f v) = vx_vm_ip_allocation_id v) ->
  keeps (holding b) (upd_vm k f).
Proof.
  intros Hf. apply holding_upd. intros s. unfold pointer. destruct (sv_vm s) as [v|] eqn:E; cbn; rewrite ?E; cbn; rewrite ?Hf; done.
Qed.
#[local] Hint Extern 1 (keeps (holding _) (upd_vm _ _)) => apply holding_upd_vm; intros [? ? ? ? ? ? ?]; reflexivity : dcim.
#[local] Hint Resolve holding_log : dcim.
Lemma holding_reserve b cs c v g o : keeps (holding b) (reserve_vmid_for_service cs c k v g o).
Proof.
  assert (forall v, keeps (holding b) (reservation_create c k v)) as Hr by (intros; unfold reservation_create; keeps_tac).
  assert (forall lo hi n v, keeps (holding b) (reserve_first c k lo hi n v)) as Hf.
  { intros lo hi n. induction n as [|n IH]; intros w; cbn [reserve_first]; unfold get_by_cluster_vmid; keeps_tac. }
  unfold reserve_vmid_for_service, get_by_service_id, existing_sticky_reservation, resolve_cluster_range,
    reserve_explicit_vmid, reserve_next_free_vmid, get_by_cluster_vmid. keeps_tac.
Qed.
#[local] Hint Resolve holding_reserve : dcim.
Lemma holding_queued b iso : keeps (holding b) (mark_vm_provision_queued iso k).
Proof.
  unfold mark_vm_provision_queued, dict_of. keeps_tac.
  all: apply holding_upd; intros s; unfold set_guest, pointer; cbn [sv_vm sv_config update];
    destruct (sv_vm s) as [v|] eqn:E; cbn; rewrite ?E; cbn; rewrite ?dict_get_set_other by done; done.
Qed.
#[local] Hint Resolve holding_queued : dcim.
Lemma holding_schedule b cat iso : keeps (holding b) (schedule_vm_auto_provision cat iso k).
Proof.
  unfold schedule_vm_auto_provision, prepare_vm_placement_for_provisioning, place_vm, auto_place_vm, candidate_clusters,
    enqueue_vm_deployment_job, resolve_vm_strategy_name_for_service, json_get, resolve_vm_template_strategy,
    get_active_for_service, create_job. keeps_tac.
Qed.
#[local] Hint Resolve holding_schedule : dcim.
Lemma planning_reads (I : session -> Prop) cat s code os t ctx : keeps I (plan_provisioning cat s code os t ctx).
Proof.
  unfold plan_provisioning, build_product_snapshot, install_type_of, merge_strategy_options, install_type_of, dict_of,
    resolve_effective_specs, get_by_id. keeps_tac; apply lift_outcome_keeps.
Qed.
Lemma attach_spec os_code row st : row.(va_id) = a.(va_id) -> row.(va_ip_address) = a.(va_ip_address) ->
  holding false st ->
  wp (attach_vm_plan env k r os_code row) (fun _ => holding true) (fun _ => holding false) st.
Proof.
  intros Hid Hip Hst. unfold attach_vm_plan. apply wp_bind, wp_the; [done|]. intros s Hs. apply wp_bind.
  eapply wp_conseq with (Q := fun _ st' => st' = st) (R := fun _ st' => st' = st).
  - assert (keeps (fun st' => st' = st) (if given_text r.(pq_product_code) && (given_id r.(pq_vm_template_id) || given_text os_code)
      then plan <- plan_provisioning env.(pe_catalog) k (default "" r.(pq_product_code)) None r.(pq_vm_template_id)
             [("service_id", JInt k); ("vm_ip_allocation_id", JInt row.(va_id))] ;; ret (Some plan)
      else ret None)) as H; [|by apply H].
    pose proof planning_reads. keeps_tac.
  - intros planned st' ->. destruct Hst as [Hd Hc]. apply wp_bind, wp_write.
    set (cfg := with_address _ _ _). set (f := fun s : service => _).
    assert (held true (st.(s_db) <|db_services := tbl_update k f st.(s_db).(db_services)|>)) as Hf.
    { destruct Hd as (Hi & Hw & Ho & s' & Hs' & Hn & Hu & Hp & _). split; [done|]. split; [by apply tbl_wf_update|].
      cbn [db_services update]. split; [intros j Hj; rewrite tbl_get_update by done; rewrite <- Ho by done; by destruct (Z.eqb_spec j k)|].
      exists (f s'). rewrite tbl_get_update, Z.eqb_refl, Hs' by done. do 4 (split; [done|]). intros _.
      subst f cfg. cbn [sv_config update]. rewrite Hid, Hip. unfold with_address.
      destruct planned; split; repeat first [rewrite dict_get_set_same|rewrite dict_get_set_other by done]; done. }
    apply wp_bind, wp_commit; [intros e _; split; [|done]; cbn [s_db update]|by apply wp_ret].
    destruct Hf as (H1 & H2 & H3 & s' & H4 & H5 & H6 & H7 & _). do 3 (split; [done|]). exists s'. repeat split; done.
  - by intros e st' ->.
Qed.
Lemma holding_queue b has_plan : keeps (holding b) (queue_auto_provision_if_requested env k r has_plan).
Proof. unfold queue_auto_provision_if_requested, set_guest_error. keeps_tac. Qed.
End VmOrder.

(** ** The whole of an order *)

Lemma agrees_by_address d d' : agrees d -> tbl_wf d'.(db_vm_ips) -> tbl_wf d'.(db_services) ->
  (forall b, owner d' b = owner d b) -> (forall j, address_of d' j = address_of d j) -> agrees d'.
Proof. intros (_ & _ & Ha) Hw Hs Ho Hp. split; [done|]. split; [done|]. intros b j. by rewrite Ho, Hp. Qed.
(** The service as it is added. *)
Definition added (r : provision_request) (d d1 : db) : Prop :=
  exists s, d1 = d <|db_services := d.(db_services) ++ [s]|> /\ row_key s = tbl_fresh d.(db_services)
    /\ s.(sv_name) = r.(pq_name) /\ s.(sv_owner_user_id) = r.(pq_owner_user_id)
    /\ pointer s = None /\ is_Some s.(sv_vm).
Lemma added_get r d d1 : added r d d1 ->
  exists s, tbl_get (tbl_fresh d.(db_services)) d1.(db_services) = Some s
    /\ s.(sv_name) = r.(pq_name) /\ s.(sv_owner_user_id) = r.(pq_owner_user_id) /\ pointer s = None /\ is_Some s.(sv_vm).
Proof.
  intros (s & -> & Hk & H). exists s. split; [|done]. cbn [db_services update]. rewrite tbl_get_app, tbl_get_fresh.
  unfold tbl_get. cbn [List.find]. by rewrite Hk, Z.eqb_refl.
Qed.
Lemma added_other r d d1 j : added r d d1 -> j <> tbl_fresh d.(db_services) ->
  tbl_get j d1.(db_services) = tbl_get j d.(db_services).
Proof.
  intros (s & -> & Hk & _) Hj. cbn [db_services update]. rewrite tbl_get_app. destruct (tbl_get j _); [done|].
  unfold tbl_get. cbn [List.find]. rewrite Hk. by destruct (Z.eqb_spec (tbl_fresh d.(db_services)) j).
Qed.
Lemma added_agrees r d d1 : added r d d1 -> agrees d -> agrees d1.
Proof.
  intros Hadd Hd. pose proof Hd as (Hw & Hs & Ha). pose proof Hadd as (s & Heq & Hk & _).
  eapply agrees_by_address; [exact Hd|by rewrite Heq|rewrite Heq; by apply tbl_wf_snoc|by rewrite Heq|].
  intros j. unfold address_of. destruct (Z.eq_dec j (tbl_fresh d.(db_services))) as [->|Hj]; [|by rewrite (added_other _ _ _ _ Hadd)].
  destruct (added_get _ _ _ Hadd) as (x & -> & _ & _ & Hp & _). cbn. by rewrite Hp, tbl_get_fresh.
Qed.
(** Taking the service back leaves the rows as they were. *)
Lemma removed_rows r d d1 : agrees d -> added r d d1 ->
  rows_of (without_service (tbl_fresh d.(db_services)) d1) = rows_of d.
Proof.
  intros (Hw & Hs & Ha) Hadd. pose proof Hadd as (s & Heq & Hk & _). unfold rows_of, without_service.
  cbn [db_vm_ips db_services update]. rewrite Heq. cbn [db_vm_ips db_services update]. f_equal.
  - rewrite <- map_id. apply map_ext_in. intros a Hin.
    assert (not_of (tbl_fresh d.(db_services)) (va_assigned_service_id a) = va_assigned_service_id a) as Hn; [|rewrite Hn; by destruct a].
    unfold not_of. destruct (py_eq_spec (va_assigned_service_id a) (Some (tbl_fresh d.(db_services)))) as [E|]; [|done]. exfalso.
    assert (owner d (va_id a) = Some (tbl_fresh d.(db_services))) as Ho.
    { unfold owner. apply (tbl_get_wf _ _ Hw) in Hin. change (row_key a) with (va_id a) in Hin. by rewrite Hin. }
    apply Ha in Ho. unfold address_of in Ho. by rewrite tbl_get_fresh in Ho.
  - rewrite List.filter_app. cbn [List.filter]. change (sv_id s) with (row_key s). rewrite Hk, Z.eqb_refl. cbn. rewrite app_nil_r.
    apply forallb_filter_id. apply forallb_forall. intros x Hx. apply tbl_fresh_gt in Hx. change (sv_id x) with (row_key x).
    by destruct (Z.eqb_spec (row_key x) (tbl_fresh d.(db_services))); [lia|].
Qed.
Lemma assign_first_flushed s c l st :
  wp (assign_first s c l) (fun o st' => is_Some o -> flush st' = (Ok tt, st')) (fun e _ => flush_error e) st.
Proof.
  revert st. induction l as [|x l IH]; intros st; cbn [assign_first]; [apply wp_ret; by intros [? ?]|].
  destruct (negb _); [apply IH|]. apply wp_bind. unfold claim_row. apply wp_bind, wp_read, wp_bind, wp_write, wp_ret.
  destruct (Nat.eqb _ 1); [|apply IH]. apply wp_bind, wp_flush; [intros _ _|done]. apply wp_bind. unfold wp at 1.
  rewrite link_vm_run. apply wp_bind, wp_flush; [|done]. intros Hc Hw. apply wp_ret. intros _. by apply flush_ok.
Qed.
Section Outcome.
Context (r : provision_request) (d : db).
Hypothesis Hd : agrees d.
#[local] Abbreviation new := (tbl_fresh d.(db_services)).

Lemma given_held d1 a : added r d d1 ->
  held r d new a false (pointed new (Some a.(va_id)) (claimed_by a.(va_id) new d1)).
Proof.
  intros Hadd. pose proof Hadd as (s0 & Heq & Hk & _). destruct Hd as (Hw & Hs & _).
  split; [by rewrite Heq|]. split; [apply tbl_wf_update; [apply point_key|rewrite Heq; by apply tbl_wf_snoc]|].
  unfold pointed, claimed_by. cbn [db_services update]. split.
  - intros j Hj. rewrite tbl_get_update by apply point_key. rewrite <- (added_other r d d1 j Hadd Hj).
    by destruct (Z.eqb_spec j new).
  - destruct (added_get _ _ _ Hadd) as (s & Hg & Hn & Hu & Hp & [v Hv]). exists (point (Some a.(va_id)) s).
    rewrite tbl_get_update, Z.eqb_refl, Hg by apply point_key. split; [done|].
    split; [unfold point; by rewrite Hv|]. split; [unfold point; by rewrite Hv|]. split; [by rewrite pointer_point, Hv|done].
Qed.
Lemma held_spec b a d' : is_Some (tbl_get a.(va_id) d.(db_vm_ips)) -> owner d a.(va_id) = None ->
  held r d new a b d' ->
  agrees d' /\ holds_address r new a d d' /\ (b = true -> names_address new a d').
Proof.
  intros [row Hrow] Hfree (Hi & Hws & Ho & s & Hs & Hn & Hu & Hp & Hc). pose proof Hd as (Hw & Hsv & Ha).
  assert (forall x, owner d' x = if x =? a.(va_id) then Some new else owner d x) as Hown.
  { intros x. unfold owner. rewrite Hi, tbl_get_update by done. destruct (Z.eqb_spec x a.(va_id)) as [->|]; [|done]. by rewrite Hrow. }
  assert (address_of d new = None) as Hnone by (unfold address_of; by rewrite tbl_get_fresh).
  assert (forall j, address_of d' j = if j =? new then Some a.(va_id) else address_of d j) as Haddr.
  { intros j. unfold address_of. destruct (Z.eqb_spec j new) as [->|Hj]; [by rewrite Hs|by rewrite Ho]. }
  split; [|split].
  - split; [by rewrite Hi; apply tbl_wf_update|]. split; [done|]. intros x j. rewrite Hown, Haddr. specialize (Ha x j).
    destruct (Z.eqb_spec x a.(va_id)) as [->|], (Z.eqb_spec j new) as [->|]; [done| | |done].
    + rewrite <- Ha, Hfree. split; congruence.
    + rewrite Ha, Hnone. split; congruence.
  - split; [apply tbl_get_fresh|]. split; [by exists s|]. split; [by rewrite Hown, Z.eqb_refl|]. split; [done|].
    intros x Hx. rewrite Hown. by destruct (Z.eqb_spec x a.(va_id)).
  - intros Hb. exists s. split; [done|]. by apply Hc.
Qed.
Lemma validation_reads (I : session -> Prop) env : keeps I (validate_vm_provision_request env r).
Proof. unfold validate_vm_provision_request. keeps_tac. Qed.
Lemma create_vm_spec node snapshot os_code now :
  wp (create_vm r node snapshot os_code)
    (fun k st' => k = new /\ exists d1, added r d d1 /\ st' = (session_of d now) <|s_db := d1|> <|s_committed := d1|>)
    (fun e st' => st'.(s_committed) = d) (session_of d now).
Proof.
  unfold create_vm, insert_service. apply wp_bind, wp_throw_if; [done|]. intros _.
  apply wp_bind, wp_read, wp_bind, wp_write. set (s := requested_service _ _ _ _ _ _ _).
  apply wp_bind, wp_commit; [done|]. apply wp_ret. split; [done|]. eexists. split; [by exists (s new)|done].
Qed.
Lemma set_permission_spec d1 now : added r d d1 ->
  wp (set_permission_set new r)
    (fun _ st' => exists d2, added r d d2 /\ st' = (session_of d now) <|s_db := d2|> <|s_committed := d2|>)
    (fun e st' => flush_error e /\ added r d st'.(s_committed)) ((session_of d now) <|s_db := d1|> <|s_committed := d1|>).
Proof.
  intros Hadd. unfold set_permission_set. destruct (pq_permission_set_id r) as [p|]; [|apply wp_ret; by exists d1].
  apply wp_bind, wp_write, wp_commit; [done|]. eexists. split; [|done].
  destruct Hadd as (s & -> & Hk & Hn & Hu & Hp & Hv). exists (s <|sv_permission_set_id := Some p|>).
  split; [|by repeat split]. cbn. f_equal. unfold tbl_update. rewrite map_app. cbn [map]. rewrite Hk, Z.eqb_refl. f_equal.
  rewrite <- map_id. apply map_ext_in. intros x Hx%tbl_fresh_gt. by destruct (Z.eqb_spec (row_key x) new); [lia|].
Qed.

(** What is committed when an order ends. *)
Definition ended (out : outcome exn Z) (d' : db) : Prop :=
  agrees d' /\
  match out with
  | Ok k => exists a, List.find (can_have r.(pq_proxmox_cluster_id) d) (free_candidates d) = Some a
              /\ holds_address r k a d d' /\ names_address k a d'
  | Raise e =>
      rows_of d' = rows_of d \/ (flush_error e /\ added r d d')
      \/ exists k a, List.find (can_have r.(pq_proxmox_cluster_id) d) (free_candidates d) = Some a
           /\ holds_address r k a d d'
  end.
Lemma ended_same e d' : rows_of d' = rows_of d -> ended (Raise e) d'.
Proof. intros H. split; [by eapply agrees_rows|by left]. Qed.
Lemma ended_added e d' : flush_error e -> added r d d' -> ended (Raise e) d'.
Proof. intros He H. split; [by eapply added_agrees|by right; left]. Qed.

Section Given.
Context (a : vm_ip).
Hypothesis Ha : List.find (can_have r.(pq_proxmox_cluster_id) d) (free_candidates d) = Some a.
Lemma ended_held_raise e b d' : held r d new a b d' -> ended (Raise e) d'.
Proof.
  intros Hh. apply find_can_have in Ha as Hp. destruct Hp as (_ & _ & Hr & Hf).
  destruct (held_spec b a d' Hr Hf Hh) as (H1 & H2 & _). split; [done|]. right. right. by exists new, a.
Qed.
Lemma ended_held_ok d' : held r d new a true d' -> ended (Ok new) d'.
Proof.
  intros Hh. apply find_can_have in Ha as Hp. destruct Hp as (_ & _ & Hr & Hf).
  destruct (held_spec true a d' Hr Hf Hh) as (H1 & H2 & H3). split; [done|]. exists a. split; [done|]. split; [done|]. by apply H3.
Qed.
(** Once it has its address. *)
Lemma rest_of_order env os_code row st :
  row.(va_id) = a.(va_id) -> row.(va_ip_address) = a.(va_ip_address) ->
  flush st = (Ok tt, st) -> held r d new a false st.(s_db) ->
  wp (log_server_activity ;;;
      has_plan <- attach_vm_plan env new r os_code row ;;
      log_server_activity ;;;
      queue_auto_provision_if_requested env new r has_plan ;;;
      ret new)
    (fun k st' => ended (Ok k) st'.(s_committed)) (fun e st' => ended (Raise e) st'.(s_committed)) st.
Proof.
  intros Hid Hip Hf Hh. apply wp_bind. unfold log_server_activity at 1. apply wp_try_catch.
  unfold wp at 1, commit. unfold bind at 1. rewrite Hf. cbn.
  set (st1 := st <|s_committed := st.(s_db)|>). assert (holding r d new a false st1) as H1 by done.
  apply wp_bind. eapply wp_conseq; [by apply attach_spec| |intros e st' [_ H]; by eapply ended_held_raise].
  intros has_plan st2 H2. apply wp_bind.
  eapply wp_keeps; [apply holding_log|exact H2| |intros e st' [_ H]; by eapply ended_held_raise].
  intros _ st3 H3. apply wp_bind.
  eapply wp_keeps; [apply holding_queue|exact H3| |intros e st' [_ H]; by eapply ended_held_raise].
  intros _ st4 [_ H4]. apply wp_ret. by apply ended_held_ok.
Qed.
End Given.
End Outcome.

(** C19. An order for a virtual machine that asks for no identifier of its own
    ends in one of three ways, and the pool and the services agree in each: the
    service is there, holds the free address of its cluster that comes first,
    and its configuration names it; or nothing of it is left; or, when what
    follows fails, the service keeps its address.  Only a failing write can
    leave it without one.  Nobody else's address or row changes. *)
Theorem vm_orders_are_all_or_nothing env r snapshot os_code d now :
  agrees d -> no_dangling d -> r.(pq_proxmox_vmid) = None ->
  let out := create_vm_service env r snapshot os_code (session_of d now) in
  ended r d (fst out) (snd out).(s_committed).
Proof.
  intros Hd Hdang Hvmid. set (new := tbl_fresh d.(db_services)).
  assert (wp (create_vm_service env r snapshot os_code)
    (fun k st' => ended r d (Ok k) st'.(s_committed)) (fun e st' => ended r d (Raise e) st'.(s_committed))
    (session_of d now)) as H; [|by unfold wp in H; cbv zeta; destruct (create_vm_service _ _ _ _ _) as [[k|e] st']].
  unfold create_vm_service. apply wp_bind.
  eapply wp_keeps; [apply (validation_reads r (fun st' => st' = session_of d now))|done| |intros e st' ->; by apply ended_same].
  intros _ st' ->. apply wp_bind.
  eapply wp_conseq; [by apply create_vm_spec| |intros e st' ->; by apply ended_same].
  intros k st' (-> & d1 & Hadd1 & ->). apply wp_bind.
  eapply wp_conseq; [by apply set_permission_spec| |intros e st' [He H]; by apply ended_added].
  intros _ st' (d2 & Hadd & ->). set (st2 := (session_of d now) <|s_db := d2|> <|s_committed := d2|>).
  apply wp_bind. destruct (added_get _ _ _ Hadd) as (s & Hs & _ & _ & _ & [v Hv]).
  fold new in Hs. unfold reserve_requested_vmid.
  apply wp_bind, wp_the; [intros Hn; change (tbl_get new d2.(db_services) = None) in Hn; by rewrite Hs in Hn|].
  intros s' _. rewrite Hvmid. replace (match sv_vm s' with Some _ => _ | None => _ end) with (ret tt : Meth unit) by (by destruct (sv_vm s')).
  apply wp_ret, wp_bind. unfold assign_vm_ip_or_fail. apply wp_bind. unfold assign_next_free_to_service.
  apply wp_bind, wp_read.
  assert (free_candidates d2 = free_candidates d /\ d2.(db_vm_ips) = d.(db_vm_ips)) as [Hcand Hips].
  { destruct Hadd as (x & -> & _). by split. }
  assert (can_have r.(pq_proxmox_cluster_id) d2 = can_have r.(pq_proxmox_cluster_id) d) as Hcan by (unfold can_have; by rewrite Hips).
  change (free_candidates (s_db st2)) with (free_candidates d2). rewrite Hcand. fold new.
  eapply wp_conseq; [apply wp_and; [apply assign_first_spec; change (tbl_wf d2.(db_vm_ips)); rewrite Hips; apply Hd|apply assign_first_flushed]| |].
  2:{ intros e st' [Hc He]. rewrite Hc. by apply ended_added. }
  intros [k|] st' [Hspec Hflush].
  - destruct Hspec as (a & Hfind & <- & ->). change (s_db st2) with d2 in *. rewrite Hcan in Hfind.
    apply find_can_have in Hfind as Hp. destruct Hp as (Hin & _ & _ & _). pose proof (proj1 (sort_by_In _ _ _) Hin) as Hin'.
    apply filter_In in Hin' as [Hin' _]. apply (tbl_get_wf _ _ (proj1 Hd)) in Hin'. change (row_key a) with (va_id a) in Hin'.
    apply wp_bind, wp_read, wp_unwrap; [intros Hn; exfalso; revert Hn|].
    all: change (db_vm_ips _) with (tbl_update (va_id a) (assign (Some new)) d2.(db_vm_ips)); rewrite Hips, tbl_get_update, Z.eqb_refl, Hin' by done.
    { done. }
    intros row [= <-]. eapply rest_of_order; [done|exact Hfind|done|done|by apply Hflush|by apply given_held].
  - destruct Hspec as [-> _]. apply wp_bind. unfold delete. apply wp_bind, wp_read. change (s_db st2) with d2. rewrite Hs.
    apply wp_bind. unfold delete_row. apply wp_bind, wp_read. change (s_db st2) with d2.
    assert (holds_service new d2 = false) as ->.
    { destruct Hadd as (x & -> & _). apply (Hdang new), tbl_get_fresh. }
    apply wp_bind, wp_throw_if; [done|]. intros _. apply wp_bind, wp_write, wp_commit; [intros e He; by apply ended_added|].
    apply wp_ret, wp_raise, (ended_same _ _ Hd). cbn [s_committed s_db update]. change (s_db st2) with d2. by eapply removed_rows.
Qed.

(** * Concrete orders *)

Definition sample_env (clusters : list proxmox_cluster) : provision_env :=
  mk_provision_env sample_rack sample_catalog clusters [] (fun _ => "t") (fun _ => "") (fun _ _ => "u") (fun _ _ => "p").
Definition sample_vm_order (cluster vmid : option Z) (auto_provision : bool) : provision_request :=
  mk_provision_request "web" ST_VM (Some 7) (Some "vps-s") None None PV_BILLING auto_provision [] None None
    None None None None (Some 3) cluster None vmid None None None None.
Definition one_address : db :=
  empty_db <|db_vm_ips := [mk_vm_ip 8 "10.0.0.8" "255.255.255.0" "10.0.0.1" (Some "vmbr7") None [] true None]|>.
Lemma one_address_agrees : agrees one_address.
Proof.
  split; [repeat constructor; cbn; tauto|]. split; [constructor|]. intros a s. unfold owner, address_of, tbl_get. cbn.
  by case_match.
Qed.
Lemma vm_orders_are_all_or_nothing_witness :
  let order d := create_vm_service (sample_env []) (sample_vm_order None None false) [] None (session_of d 0) in
  fst (order one_address) = Ok 1 /\ ended (sample_vm_order None None false) one_address (Ok 1) (snd (order one_address)).(s_committed)
  /\ rows_of (snd (order empty_db)).(s_committed) = rows_of empty_db.
Proof.
  intros order. assert (fst (order one_address) = Ok 1) as Hok by (vm_compute; reflexivity). split; [exact Hok|].
  pose proof (vm_orders_are_all_or_nothing (sample_env []) (sample_vm_order None None false) [] None one_address 0
    one_address_agrees (fun k _ => eq_refl) eq_refl) as H. cbv zeta in H.
  change (create_vm_service _ _ _ _ _) with (order one_address) in H. rewrite Hok in H. split; [exact H|].
  vm_compute. reflexivity.
Defined.

(** An order that asks for an identifier and gets no address cannot be taken
    back: its reservation holds the service, which stays without an address
    under a name that is then taken. *)
Lemma requested_vmid_strands_the_service :
  let out := create_vm_service (sample_env [mk_proxmox_cluster 1 true (Some 100, Some 199) []])
               (sample_vm_order (Some 1) (Some 120) true) [] None (session_of empty_db 0) in
  fst out = Raise IntegrityError
  /\ map sv_name (snd out).(s_committed).(db_services) = ["web"]
  /\ map vr_service_id (snd out).(s_committed).(db_reservations) = [1]
  /\ address_of (snd out).(s_committed) 1 = None.
Proof. vm_compute. repeat split. Qed.
(** An order whose machine cannot be placed is refused, and its service stays
    pending with its address. *)
Lemma failed_placement_keeps_the_service :
  let out := create_vm_service (sample_env []) (sample_vm_order None None true) [] None (session_of one_address 0) in
  fst out = Raise (ProvisioningError "conflict" "" 409)
  /\ map sv_status (snd out).(s_committed).(db_services) = [SS_PENDING]
  /\ address_of (snd out).(s_committed) 1 = Some 8.
Proof. vm_compute. repeat split. Qed.
