(* ===== verification/Racks.v ===== *)
(** Creating services on rack servers
    (src/app/services/provisioning/bare_metal.py): which server an order gets,
    under which lock, and the installation that is queued for it. *)
From Stdlib Require Import ZArith Lia Ascii.
From stdpp Require Import base numbers list strings pretty relations.
From S2P Require Import Prelude Models Session Lifecycle Checkout Vmid Placement Ipam Jobs GuestIp Scripts Installs Plans Provision.
#[local] Open Scope Z_scope.
#[local] Open Scope py_scope.

(** * Choosing a server *)

Definition live_on (server_id : Z) (s : service) : bool :=
  on_server server_id s && (s.(sv_status) != SS_TERMINATED).
Definition taken (server_id : Z) (d : db) : bool := existsb (live_on server_id) d.(db_services).
Definition server_not_ready_reason (rk : rack) (v : server) (d : db) : option string :=
  if negb v.(sr_enabled) then Some "disabled"
  else if taken v.(sr_id) d then Some "assigned to a service"
  else match active_install v.(sr_id) d, active_boot v.(sr_id) d with
       | Some _, _ => Some "has an open install task"
       | None, Some _ => Some "has an open boot task"
       | None, None =>
           match get_pxe_boot_port rk v.(sr_id) ≫= np_pxe_ip with
           | Some (String _ _) => None
           | _ => Some "no PXE boot port with a reserved IP"
           end
       end.
(** Committing first, the transaction that takes the lock sees what was
    committed before it. *)
Definition lock_for_allocation : Meth unit := commit.
Definition vmedia_first (rk : rack) (a b : server) : bool :=
  match rk.(rk_vmedia_capable) a.(sr_id), rk.(rk_vmedia_capable) b.(sr_id) with
  | true, false => true
  | false, true => false
  | _, _ => a.(sr_id) <=? b.(sr_id)
  end.
Definition group_servers (g : server_group) (d : db) : list server :=
  List.filter (fun v => existsb (Z.eqb v.(sr_id)) g.(sg_servers)) d.(db_servers).
Definition ready_servers (rk : rack) (g : server_group) (d : db) : list server :=
  List.filter (fun v => match server_not_ready_reason rk v d with None => true | Some _ => false end)
    (group_servers g d).
Definition select_free_server_in_group (rk : rack) (group_id : Z) : Meth server :=
  lock_for_allocation ;;;
  g <- unwrap (tbl_get group_id rk.(rk_groups)) (provisioning_error "not_found" "Server group not found") ;;
  servers <- read (group_servers g) ;;
  throw_if (match servers with [] => true | _ => false end)
    (provisioning_error "not_found" "No servers in this server group") ;;;
  candidates <- read (ready_servers rk g) ;;
  match sort_by (vmedia_first rk) candidates with
  | v :: _ => ret v
  | [] =>
      rollback ;;;
      raise (provisioning_error "no_free_server" "No free servers available in this group")
  end.
Definition pin_existing_server (server_id : Z) : Meth server :=
  lock_for_allocation ;;;
  o <- read (fun d => tbl_get server_id d.(db_servers)) ;;
  v <- unwrap o (provisioning_error "not_found" "Server not found") ;;
  busy <- read (taken server_id) ;;
  throw_if busy (provisioning_error "conflict" "Server is already assigned to a service") ;;;
  ret v.
(** What an order asks for, which is also the row it locks. *)
Inductive target : Type := Pool (group_id : Z) | Pinned (server_id : Z).
#[export] Instance target_eq_dec : EqDecision target.
Proof. solve_decision. Defined.
Definition target_of (r : provision_request) : option target :=
  match r.(pq_server_id), r.(pq_server_group_id) with
  | Some k, _ => Some (Pinned k)
  | None, Some g => Some (Pool g)
  | None, None => None
  end.
Definition choose_server (rk : rack) (t : target) : Meth server :=
  match t with
  | Pinned k => pin_existing_server k
  | Pool g => select_free_server_in_group rk g
  end.

(** * Installing *)

Definition json_given (o : option json) : option json :=
  match o with Some j => if Permissions.json_true j then Some j else None | None => None end.
Definition json_text (rk : rack) (j : json) : string := str_value rk.(rk_str_json) j.
(** [{group.name or id}], and the templates a customer may choose. *)
Definition group_name (g : server_group) : string := str_or (Some g.(sg_name)) (pretty g.(sg_id)).
Definition permitted_list (g : server_group) : string :=
  match g.(sg_permitted_os_templates) with [] => "(none)" | l => str_join ", " l end.
Definition is_permitted (g : server_group) (j : json) : bool :=
  match g.(sg_permitted_os_templates), j with
  | [], _ => true
  | l, JStr s => existsb (fun x => x == s) l
  | _, _ => false
  end.
Definition determine_template_for_group (rk : rack) (group_id : Z) (explicit_template_id : option json)
  : Meth json :=
  g <- unwrap (tbl_get group_id rk.(rk_groups)) (provisioning_error "not_found" "Server group not found") ;;
  throw_if (negb g.(sg_enable_os_templates))
    (provisioning_error "invalid_request"
       ("OS templates are not enabled for server group '" +:+ group_name g +:+ "'")) ;;;
  match json_given explicit_template_id, g.(sg_permitted_os_templates) with
  | Some j, _ =>
      throw_if (negb (is_permitted g j))
        (provisioning_error "invalid_request"
           ("Template '" +:+ json_text rk j +:+ "' is not permitted for server group '" +:+ group_name g +:+ "'")) ;;;
      ret j
  | None, [x] => ret (JStr x)
  | None, _ =>
      raise (provisioning_error "invalid_request"
        ("OS template must be specified for server group '" +:+ group_name g +:+ "'. Permitted templates: "
           +:+ permitted_list g))
  end.
Definition queue_template_install (rk : rack) (service_id : Z) (template_id : json) (params : dict)
  : Meth (Z * Z) :=
  try_catch (queue_template_install_for_service rk service_id template_id params)
    (fun e => match e with
              | HTTPException status =>
                  raise (ProvisioningError
                    (if status =? 409 then "conflict" else if status =? 404 then "not_found"
                     else if status =? 400 then "invalid_request" else "internal")
                    (rk.(rk_detail) e) status)
              | _ => raise e
              end).
Definition queue_group_template_install (rk : rack) (service_id group_id : Z) (service_config : dict)
  : Meth unit :=
  params <- dict_of (dict_get "template_parameters" service_config) ;;
  template_id <- determine_template_for_group rk group_id (dict_get "template_id" service_config) ;;
  log_server_activity ;;;
  try_catch (queue_template_install rk service_id template_id params ;;; ret tt)
    (fun e => if is_exception e
              then log_server_activity ;;; log_server_activity ;;; raise e
              else raise e) ;;;
  log_server_activity.
Definition cancel_open_tasks_of_pool (server_id : Z) : Meth unit :=
  cancel_all_installs server_id ;;;
  cancel_pending_tasks server_id ;;;
  ret tt.

(** * Orders *)

Definition set_given (k : string) (o : option json) (d : dict) : dict :=
  match json_given o with Some j => dict_set k j d | None => d end.
Definition order_config (r : provision_request) : dict :=
  set_given "template_parameters" r.(pq_template_parameters)
    (set_given "template_id" r.(pq_template_id)
       (match r.(pq_server_group_id) with
        | Some g => setdefault "server_group_id" (JInt g) r.(pq_service_config)
        | None => r.(pq_service_config)
        end)).
(** The service takes the server, and the lock is released. *)
Definition place_order (r : provision_request) (server_id : Z) (snapshot : dict) : Meth Z :=
  create_bare_metal r ST_BARE_METAL (Some server_id) (order_config r) snapshot.
(** What is left to do when the server is taken; an order that fails gives it
    back. *)
Definition finish_order (rk : rack) (r : provision_request) (service_id server_id : Z) : Meth unit :=
  set_permission_set service_id r ;;;
  log_server_activity ;;;
  match r.(pq_server_group_id) with
  | Some g =>
      try_catch (queue_group_template_install rk service_id g (order_config r))
        (fun e => if is_exception e then
                    rollback ;;;
                    match r.(pq_server_id) with None => cancel_open_tasks_of_pool server_id | Some _ => ret tt end ;;;
                    delete_row service_id ;;;
                    raise e
                  else raise e)
  | None => ret tt
  end ;;;
  log_server_activity.
Definition create_bare_metal_service (rk : rack) (r : provision_request) (snapshot : dict) : Meth Z :=
  match target_of r with
  | None => raise (provisioning_error "invalid_request"
                     "bare_metal requires service_config.server_group_id or server_id")
  | Some t =>
      v <- choose_server rk t ;;
      k <- place_order r v.(sr_id) snapshot ;;
      finish_order rk r k v.(sr_id) ;;;
      ret k
  end.
(** [==] of JSON values; [True == 1], and the order of keys does not matter. *)
Fixpoint json_eqb (a b : json) : bool :=
  match a, b with
  | JNull, JNull => true
  | JBool x, JBool y => Bool.eqb x y
  | JInt x, JInt y => x =? y
  | JBool x, JInt y | JInt y, JBool x => (if x then 1 else 0) =? y
  | JStr x, JStr y => x == y
  | JList l, JList l' =>
      (fix same l l' := match l, l' with
                        | [], [] => true
                        | x :: l, y :: l' => json_eqb x y && same l l'
                        | _, _ => false
                        end) l l'
  | JObj d, JObj d' =>
      Nat.eqb (length d) (length d')
      && (fix within d := match d with
                          | [] => true
                          | (k, x) :: d => match dict_get k d' with Some y => json_eqb x y | None => false end
                                           && within d
                          end) d
  | _, _ => false
  end.
Definition dict_eqb (d d' : dict) : bool := json_eqb (JObj d) (JObj d').
(** An order that is sent again for a pending service queues its installation
    when none is open. *)
Definition resume_bare_metal_order (rk : rack) (r : provision_request) (service_id : Z) : Meth Z :=
  s <- the_service service_id ;;
  match s.(sv_status), s.(sv_bare_metal_server), dict_get "server_group_id" s.(sv_config) with
  | SS_PENDING, Some server_id, Some g =>
      match g with
      | JNull => ret service_id
      | _ =>
          open <- read (active_install server_id) ;;
          v <- read (fun d => tbl_get server_id d.(db_servers)) ;;
          match open, v with
          | None, Some _ =>
              let config := set_given "template_parameters" r.(pq_template_parameters)
                              (set_given "template_id" r.(pq_template_id) s.(sv_config)) in
              (if dict_eqb config s.(sv_config) then ret tt
               else upd_service service_id (fun s => s <|sv_config := config|>) ;;; commit) ;;;
              group_id <- lift_outcome (json_int g) ;;
              queue_group_template_install rk service_id group_id config ;;;
              ret service_id
          | _, _ => ret service_id
          end
      end
  | _, _, _ => ret service_id
  end.

(** * Nobody shares a server

    Orders run next to each other: an order holds the row it locked from the
    moment it chooses a server until its service is committed, and whatever else
    is committed in the meantime gives no server to a service. *)

Definition occupants (server_id : Z) (d : db) : list service := List.filter (live_on server_id) d.(db_services).
Definition exclusive (d : db) : Prop := forall k, (length (occupants k d) <= 1)%nat.
Definition frees (d d' : db) : Prop := forall k, (length (occupants k d') <= length (occupants k d))%nat.

(** The servers an order for it may get. *)
Definition offers (rk : rack) (t : target) (server_id : Z) : Prop :=
  match t with
  | Pinned k => server_id = k
  | Pool g => exists x, tbl_get g rk.(rk_groups) = Some x /\ In server_id x.(sg_servers)
  end.
Record order_world : Type := mk_order_world {
  ow_db : db;
  ow_held : list (nat * (target * Z))
}.
Definition locked (t : target) (w : order_world) : bool :=
  existsb (fun x => bool_decide (x.2.1 = t)) w.(ow_held).
Definition release (i : nat) (l : list (nat * (target * Z))) : list (nat * (target * Z)) :=
  List.filter (fun x => negb (Nat.eqb x.1 i)) l.
Inductive order_step (rk : rack) (ts : list target) : order_world -> order_world -> Prop :=
| step_choose w i t now v st' :
    In t ts -> locked t w = false ->
    choose_server rk t (session_of w.(ow_db) now) = (Ok v, st') ->
    order_step rk ts w (mk_order_world st'.(s_committed) ((i, (t, v.(sr_id))) :: w.(ow_held)))
| step_refused w t now e st' :
    locked t w = false ->
    choose_server rk t (session_of w.(ow_db) now) = (Raise e, st') ->
    order_step rk ts w (mk_order_world st'.(s_committed) w.(ow_held))
| step_place w i t k r snapshot now out st' :
    In (i, (t, k)) w.(ow_held) ->
    place_order r k snapshot (session_of w.(ow_db) now) = (out, st') ->
    order_step rk ts w (mk_order_world st'.(s_committed) (release i w.(ow_held)))
| step_give_up w i :
    order_step rk ts w (mk_order_world w.(ow_db) (release i w.(ow_held)))
| step_other w d' :
    frees w.(ow_db) d' ->
    order_step rk ts w (mk_order_world d' w.(ow_held)).
(** Orders that may get the same server lock the same row. *)
Definition one_lock_per_server (rk : rack) (ts : list target) : Prop :=
  forall t t' k, In t ts -> In t' ts -> offers rk t k -> offers rk t' k -> t = t'.

Lemma taken_spec k d : taken k d = false <-> occupants k d = [].
Proof.
  unfold taken, occupants. induction d.(db_services) as [|s l IH]; [done|]. cbn.
  destruct (live_on k s); cbn; [done|exact IH].
Qed.
(** A chosen server is offered, and free in what is committed. *)
Lemma choose_server_spec rk t d now :
  wp (choose_server rk t)
    (fun v st' => st'.(s_committed) = d /\ offers rk t v.(sr_id) /\ taken v.(sr_id) d = false)
    (fun _ st' => st'.(s_committed) = d) (session_of d now).
Proof.
  destruct t as [g|k]; unfold choose_server, select_free_server_in_group, pin_existing_server, lock_for_allocation.
  - apply wp_bind, wp_commit; [done|]. apply wp_bind, wp_unwrap; [done|]. intros x Hx.
    apply wp_bind, wp_read, wp_bind, wp_throw_if; [done|]. intros _. apply wp_bind, wp_read.
    change (ready_servers rk x _) with (ready_servers rk x d). destruct (sort_by _ _) as [|v l] eqn:E; [done|]. apply wp_ret. split; [done|].
    assert (In v (ready_servers rk x d)) as Hv by (eapply sort_by_In; rewrite E; by left).
    apply filter_In in Hv as [Hin Hr]. apply filter_In in Hin as [_ Hin].
    apply existsb_exists in Hin as (k & Hk & Heq%Z.eqb_eq). subst k. split; [by exists x|].
    unfold server_not_ready_reason in Hr. destruct (negb _); [done|]. by destruct (taken (sr_id v) d).
  - apply wp_bind, wp_commit; [done|]. apply wp_bind, wp_read, wp_bind, wp_unwrap; [done|]. intros v Hv.
    apply wp_bind, wp_read, wp_bind, wp_throw_if; [done|]. intros Hb. apply wp_ret. split; [done|].
    apply tbl_get_key in Hv. change (sr_id v = k) in Hv. by rewrite Hv.
Qed.

(** Placing an order adds its server's occupant, and no other. *)
Lemma occupants_snoc k d s : occupants k (d <|db_services := d.(db_services) ++ [s]|>)
  = occupants k d ++ (if live_on k s then [s] else []).
Proof. unfold occupants. cbn [db_services update]. rewrite List.filter_app. cbn. by destruct (live_on k s). Qed.
Lemma place_order_spec r k snapshot d now :
  let out := place_order r k snapshot (session_of d now) in
  (snd out).(s_committed) = d
  \/ exists s, (snd out).(s_committed) = d <|db_services := d.(db_services) ++ [s]|> /\ on_server k s = true.
Proof.
  intros out. assert (wp (place_order r k snapshot)
    (fun _ st' => exists s, st'.(s_committed) = d <|db_services := d.(db_services) ++ [s]|> /\ on_server k s = true)
    (fun _ st' => st'.(s_committed) = d) (session_of d now)) as H.
  { unfold place_order, create_bare_metal. do 3 (apply wp_bind, wp_throw_if; [done|]; intros _).
    unfold insert_service. apply wp_bind, wp_read, wp_bind, wp_write, wp_bind, wp_commit; [done|]. apply wp_ret.
    eexists. split; [done|]. unfold on_server. cbn. by apply (proj2 (py_eq_true _ _)). }
  subst out. unfold wp in H. destruct (place_order _ _ _ _) as [[j|e] st']; cbn [snd]; [by right|by left].
Qed.

Definition orders_ok (rk : rack) (ts : list target) (w : order_world) : Prop :=
  exclusive w.(ow_db)
  /\ (forall i t k, In (i, (t, k)) w.(ow_held) -> In t ts /\ offers rk t k /\ occupants k w.(ow_db) = [])
  /\ List.NoDup (map (fun x => x.2.1) w.(ow_held)).
Lemma locked_spec t w : locked t w = false -> ~ In t (map (fun x => x.2.1) w.(ow_held)).
Proof.
  intros Hl (x & Hx & Hin)%in_map_iff. unfold locked in Hl.
  assert (existsb (fun x => bool_decide (x.2.1 = t)) w.(ow_held) = true) as H; [|congruence].
  apply existsb_exists. exists x. split; [done|]. by apply bool_decide_eq_true.
Qed.
Lemma NoDup_filter_map {A B} (f : A -> B) p l : List.NoDup (map f l) -> List.NoDup (map f (List.filter p l)).
Proof.
  induction l as [|a l IH]; [done|]. cbn. intros [Ha Hl]%List.NoDup_cons_iff. destruct (p a); cbn; [|by apply IH].
  constructor; [|by apply IH]. intros (b & Hb & [Hin _]%filter_In)%in_map_iff. apply Ha. rewrite <- Hb. by apply in_map.
Qed.
Lemma orders_ok_release rk ts i w d' : frees w.(ow_db) d' -> orders_ok rk ts w ->
  orders_ok rk ts (mk_order_world d' (release i w.(ow_held))).
Proof.
  intros Hf (Hx & Hh & Hn). split; [intros k; specialize (Hx k); specialize (Hf k); cbn [ow_db]; lia|].
  split; [|by apply NoDup_filter_map]. intros j t k [Hin _]%filter_In. destruct (Hh j t k Hin) as (Ht & Ho & Hocc).
  split; [done|]. split; [done|]. specialize (Hf k). rewrite Hocc in Hf. cbn [ow_db]. destruct (occupants k d'); [done|cbn in Hf; lia].
Qed.
Lemma frees_refl d : frees d d.
Proof. intros k. lia. Qed.
Lemma same_entry {A B} (f : A -> B) l x y : List.NoDup (map f l) -> In x l -> In y l -> f x = f y -> x = y.
Proof.
  induction l as [|a l IH]; [done|]. cbn. intros [Ha Hl]%List.NoDup_cons_iff [->|Hx] [->|Hy] Hf; [done| | |by apply IH];
    exfalso; apply Ha; [rewrite Hf|rewrite <- Hf]; by apply in_map.
Qed.
Lemma order_step_ok rk ts w w' : one_lock_per_server rk ts -> order_step rk ts w w' ->
  orders_ok rk ts w -> orders_ok rk ts w'.
Proof.
  intros Hone Hstep Hok. pose proof Hok as (Hx & Hh & Hn).
  destruct Hstep as [w i t now v st' Ht Hl Hrun|w t now e st' Hl Hrun|w i t k r snapshot now out st' Hin Hrun|w i|w d' Hf].
  - pose proof (choose_server_spec rk t w.(ow_db) now) as H. unfold wp in H. rewrite Hrun in H.
    destruct H as (-> & Ho & Hfree%taken_spec). split; [done|]. split; [|constructor; [by apply locked_spec|done]].
    intros j t' k [[= <- <- <-]|Hin]; [done|by eapply Hh].
  - pose proof (choose_server_spec rk t w.(ow_db) now) as H. unfold wp in H. rewrite Hrun in H. by rewrite H.
  - pose proof (place_order_spec r k snapshot w.(ow_db) now) as H. rewrite Hrun in H.
    destruct (Hh _ _ _ Hin) as (Ht & Ho & Hocc). cbn [snd] in H.
    destruct H as [->|(s & -> & Hs)]; [by apply orders_ok_release; [apply frees_refl|]|].
    assert (forall j, j <> k -> live_on j s = false) as Hother.
    { intros j Hj. unfold live_on, on_server in *. apply (proj1 (py_eq_true _ _)) in Hs. rewrite Hs.
      destruct (py_eq_spec (Some k) (Some j)) as [[= ->]|]; done. }
    split; [|split; [|by apply NoDup_filter_map]]; cbn [ow_db ow_held].
    + intros j. rewrite occupants_snoc, length_app. destruct (decide (j = k)) as [->|Hj].
      * rewrite Hocc. destruct (live_on k s); cbn; lia.
      * rewrite Hother by done. cbn. specialize (Hx j). lia.
    + intros j t' k' [Hin' Hji]%filter_In. destruct (Hh _ _ _ Hin') as (Ht' & Ho' & Hocc').
      split; [done|]. split; [done|]. rewrite occupants_snoc, Hocc', Hother; [done|]. intros ->.
      assert (t' = t) as -> by (by eapply Hone). pose proof (same_entry (fun x => x.2.1) _ _ _ Hn Hin Hin' eq_refl) as [= <-].
      by rewrite Nat.eqb_refl in Hji.
  - apply orders_ok_release; [apply frees_refl|done].
  - split; [intros k; specialize (Hx k); specialize (Hf k); cbn [ow_db]; lia|]. split; [|done].
    intros j t k Hin. destruct (Hh _ _ _ Hin) as (Ht & Ho & Hocc). split; [done|]. split; [done|].
    specialize (Hf k). rewrite Hocc in Hf. cbn [ow_db]. destruct (occupants k d'); [done|cbn in Hf; lia].
Qed.

(** C18. No two services that are not terminated share a server, however many
    orders run next to each other, as long as those that may get the same
    server lock the same row: an order sees what the one before it committed,
    and the server it chose is its own until its service is committed. *)
Theorem servers_are_not_shared rk ts d w :
  one_lock_per_server rk ts -> exclusive d ->
  rtc (order_step rk ts) (mk_order_world d []) w -> exclusive w.(ow_db).
Proof.
  intros Hone Hx Hsteps. assert (orders_ok rk ts (mk_order_world d [])) as H0.
  { split; [done|]. split; [done|constructor]. }
  assert (orders_ok rk ts w) as H; [|by apply H].
  induction Hsteps as [|w1 w2 w3 Hstep _ IH]; [done|]. apply IH. by eapply order_step_ok.
Qed.

(** ** Finishing an order takes nothing *)

Definition no_more (d0 : db) (st : session) : Prop := frees d0 st.(s_db) /\ frees d0 st.(s_committed).
Lemma no_more_commit d0 : keeps (no_more d0) commit.
Proof. intros st [H1 H2]. apply wp_commit; by split. Qed.
Lemma no_more_rollback d0 : keeps (no_more d0) rollback.
Proof. intros st [H1 H2]. by apply wp_modify. Qed.
(** A write that gives no service a server it had not, or a life it had not. *)
Definition same_place (f : service -> service) : Prop :=
  forall k s, live_on k (f s) = true -> live_on k s = true.
Lemma frees_map d f : same_place f -> frees d (d <|db_services := map f d.(db_services)|>).
Proof.
  intros Hf k. unfold occupants. cbn [db_services update]. induction d.(db_services) as [|s l IH]; [done|]. cbn.
  destruct (live_on k (f s)) eqn:E; [rewrite (Hf _ _ E); cbn; lia|]. destruct (live_on k s); cbn; lia.
Qed.
Lemma no_more_write d0 g : (forall d, frees d (g d)) -> keeps (no_more d0) (write g).
Proof. intros Hg st [H1 H2]. apply wp_write. split; [|done]. intros k. specialize (H1 k). specialize (Hg st.(s_db) k). cbn in *. lia. Qed.
Lemma no_more_upd d0 k f : same_place f -> keeps (no_more d0) (upd_service k f).
Proof.
  intros Hf. apply no_more_write. intros d. unfold tbl_update. apply frees_map. intros j s. destruct (row_key s =? k); [apply Hf|done].
Qed.
#[local] Hint Resolve no_more_commit no_more_rollback lift_outcome_keeps : dcim.
#[local] Hint Extern 1 (keeps (no_more _) (write _)) => apply no_more_write; intros ? ?; apply Nat.le_refl : dcim.
#[local] Hint Extern 1 (keeps (no_more _) (upd_service _ _)) => apply no_more_upd; intros ? ?; exact id : dcim.
Lemma no_more_log d0 : keeps (no_more d0) log_server_activity.
Proof. apply keeps_try; [apply no_more_commit|]. intros e. destruct (is_exception e); [apply keeps_ret|apply keeps_raise]. Qed.
Lemma no_more_boots d0 p f : keeps (no_more d0) (update_boots p f).
Proof. unfold update_boots. keeps_tac. Qed.
#[local] Hint Resolve no_more_log no_more_boots : dcim.
Lemma no_more_create_boot d0 tok k b s o e : keeps (no_more d0) (create_boot_task tok k b s o e).
Proof. unfold create_boot_task, cancel_pending_tasks. keeps_tac. Qed.
#[local] Hint Resolve no_more_create_boot : dcim.
Lemma no_more_queue d0 rk k j params : keeps (no_more d0) (queue_template_install_for_service rk k j params).
Proof.
  unfold queue_template_install_for_service, get_template, persist_resolved_template_params, create_install_task,
    store_credentials, upd_boot, upd_server. keeps_tac.
Qed.
#[local] Hint Resolve no_more_queue : dcim.
Lemma no_more_queue_group d0 rk k g cfg : keeps (no_more d0) (queue_group_template_install rk k g cfg).
Proof.
  unfold queue_group_template_install, determine_template_for_group, queue_template_install, dict_of. keeps_tac.
Qed.
Lemma no_more_cancel d0 k : keeps (no_more d0) (cancel_open_tasks_of_pool k).
Proof.
  assert (forall fuel, keeps (no_more d0) (cancel_installs fuel k)) as Hc.
  { induction fuel as [|fuel IH]; cbn [cancel_installs]; [apply keeps_raise|].
    unfold cancel_install, mark_install, upd_install. keeps_tac. }
  unfold cancel_open_tasks_of_pool, cancel_all_installs, cancel_pending_tasks. keeps_tac.
Qed.
Lemma without_service_frees k d : frees d (without_service k d).
Proof.
  intros j. unfold occupants, without_service. cbn [db_services update]. induction d.(db_services) as [|s l IH]; [done|]. cbn.
  destruct (negb _); cbn; destruct (live_on j s); cbn; lia.
Qed.
Lemma no_more_delete d0 k : keeps (no_more d0) (delete_row k).
Proof.
  unfold delete_row. apply keeps_bind; [apply keeps_read|]. intros b. apply keeps_bind; [apply keeps_throw_if|]. intros _.
  apply keeps_bind; [|intros _; apply no_more_commit]. apply no_more_write, without_service_frees.
Qed.
#[local] Hint Resolve no_more_queue_group no_more_cancel no_more_delete : dcim.
Lemma no_more_finish d0 rk r k j : keeps (no_more d0) (finish_order rk r k j).
Proof. unfold finish_order, set_permission_set. keeps_tac. Qed.
(** Finishing an order, whether it succeeds, fails or is given back, is one of
    the other things that are committed. *)
Lemma finishing_is_a_step rk ts r k j now w :
  order_step rk ts w
    (mk_order_world (snd (finish_order rk r k j (session_of w.(ow_db) now))).(s_committed) w.(ow_held)).
Proof.
  apply step_other. assert (no_more w.(ow_db) (session_of w.(ow_db) now)) as H by (split; apply frees_refl).
  apply (no_more_finish _ rk r k j) in H. unfold wp in H. destruct (finish_order _ _ _ _ _) as [[u|e] st']; apply H.
Qed.

(** * Concrete racks *)

Definition sample_group (id : Z) (servers : list Z) : server_group :=
  mk_server_group id ("pool " +:+ pretty id) servers true [].
Definition sample_racks (groups : list server_group) : rack :=
  mk_rack groups
    [mk_network_port 5 (Some "aa:bb:cc:dd:ee:05") true (Some "10.0.0.5");
     mk_network_port 6 (Some "aa:bb:cc:dd:ee:06") true (Some "10.0.0.6")]
    (fun _ => None) (fun k => k =? 6) [sample_template] None (fun _ => "http://b") (fun _ => "t") (fun _ => "")
    (fun _ _ => "x"%char) (fun _ => "n9") (fun _ => "") (fun _ => "").
Definition two_servers : db :=
  empty_db <|db_servers := [mk_server 5 "r1u5" (Some "10.0.0.5") None true None;
                            mk_server 6 "r1u6" (Some "10.0.0.6") None true None]|>.
Definition sample_order (name : string) (t : target) : provision_request :=
  mk_provision_request name ST_BARE_METAL (Some 7) None None None PV_BILLING true [] None None
    (match t with Pool g => Some g | Pinned _ => None end) (match t with Pinned k => Some k | Pool _ => None end)
    None None None None None None None None None None.
Definition after {A} (m : Meth A) (now : Z) (d : db) : db := (snd (m (session_of d now))).(s_committed).
(** Two orders that choose one after the other, then are placed. *)
Definition two_orders (rk : rack) (t1 t2 : target) (k1 k2 : Z) (d : db) : db :=
  after (place_order (sample_order "b" t2) k2 []) 4
    (after (place_order (sample_order "a" t1) k1 []) 3 d).
Lemma two_orders_run rk ts t1 t2 v1 v2 d :
  In t1 ts -> In t2 ts -> t1 <> t2 ->
  choose_server rk t1 (session_of d 1) = (Ok v1, session_of d 1) ->
  choose_server rk t2 (session_of d 2) = (Ok v2, session_of d 2) ->
  exists held, rtc (order_step rk ts) (mk_order_world d [])
    (mk_order_world (two_orders rk t1 t2 v1.(sr_id) v2.(sr_id) d) held).
Proof.
  intros H1 H2 Hne Hc1 Hc2. eexists.
  eapply rtc_l; [apply (step_choose rk ts (mk_order_world d []) 1 t1 1 v1 (session_of d 1)); done|].
  eapply rtc_l; [apply (step_choose rk ts (mk_order_world d _) 2 t2 2 v2 (session_of d 2)); [done| |done]|].
  { unfold locked. cbn. by rewrite bool_decide_eq_false_2. }
  eapply rtc_l; [eapply (step_place rk ts (mk_order_world d _) 1 t1 v1.(sr_id) (sample_order "a" t1) [] 3); [by right; left|]|].
  { apply surjective_pairing. }
  apply rtc_once. eapply (step_place rk ts (mk_order_world _ _) 2 t2 v2.(sr_id) (sample_order "b" t2) [] 4); [by left|].
  apply surjective_pairing.
Qed.
Lemma servers_are_not_shared_witness :
  let rk := sample_racks [sample_group 1 [5]; sample_group 2 [6]] in
  let d := two_orders rk (Pool 1) (Pool 2) 5 6 two_servers in
  exclusive d /\ (length (occupants 5 d), length (occupants 6 d)) = (1%nat, 1%nat).
Proof.
  intros rk d. split; [|vm_compute; reflexivity].
  assert (one_lock_per_server rk [Pool 1; Pool 2]) as Hone.
  { intros t t' k. cbn. intros [<-|[<-|[]]] [<-|[<-|[]]]; try done;
      intros (x & [= <-] & [<-|[]]) (y & [= <-] & [Hy|[]]); discriminate Hy. }
  destruct (two_orders_run rk [Pool 1; Pool 2] (Pool 1) (Pool 2)
    (mk_server 5 "r1u5" (Some "10.0.0.5") None true None) (mk_server 6 "r1u6" (Some "10.0.0.6") None true None) two_servers)
    as [held Hrun]; [by left|by right; left|done|vm_compute; reflexivity|vm_compute; reflexivity|].
  exact (servers_are_not_shared rk [Pool 1; Pool 2] two_servers _ Hone (fun k => le_S _ _ (le_n 0)) Hrun).
Defined.
(** A server that is in two groups is sold twice, and so is one that is pinned
    while its group is ordered from: the orders lock different rows. *)
Lemma overlapping_targets_share_a_server :
  let rk := sample_racks [sample_group 1 [5]; sample_group 2 [5]] in
  forall t, t = Pool 2 \/ t = Pinned 5 ->
  exists w, rtc (order_step rk [Pool 1; t]) (mk_order_world two_servers []) w /\ ~ exclusive w.(ow_db).
Proof.
  intros rk t Ht. destruct (two_orders_run rk [Pool 1; t] (Pool 1) t
    (mk_server 5 "r1u5" (Some "10.0.0.5") None true None) (mk_server 5 "r1u5" (Some "10.0.0.5") None true None) two_servers)
    as [held Hrun]; [by left|by right; left|by destruct Ht as [-> | ->]|vm_compute; reflexivity| |].
  { destruct Ht as [-> | ->]; vm_compute; reflexivity. }
  eexists. split; [exact Hrun|]. intros Hx. specialize (Hx 5). destruct Ht as [-> | ->]; vm_compute in Hx; lia.
Qed.
