(* ===== verification/Orders.v ===== *)
(** The single entry point for creating services
    (src/app/services/provisioning/service.py), the requests that reach it from
    billing, from resellers and from checkout (adapters.py, src/app/api/billing.py,
    src/app/api/reseller.py, src/app/services/checkout_service.py), and what a
    failed deploy takes back. *)
From Stdlib Require Import ZArith Lia.
From stdpp Require Import base numbers list strings pretty.
From S2P Require Import Prelude Models Session Lifecycle Outbox Retail Checkout Deploy Vmid Placement Ipam Jobs GuestIp Scripts Installs Plans Provision Racks.
#[local] Open Scope Z_scope.
#[local] Open Scope py_scope.

(** * What the catalogue fills in *)

Definition infer_provisioning_source (owner_user_id : option Z) : Meth provisioning_source :=
  match owner_user_id with
  | None => ret PV_INTERNAL
  | Some k =>
      o <- read (fun d => tbl_get k d.(db_users)) ;;
      u <- unwrap o (provisioning_error "not_found" "Owner user not found") ;;
      ret (if given_id u.(us_billing_integration_id) then PV_BILLING else PV_INTERNAL)
  end.

Definition by_name (a b : template_row) : bool :=
  String.leb (str_lower a.(tr_name)) (str_lower b.(tr_name)).
Definition default_vm_template_id (cat : service_catalog) (p : sold_product) : option Z :=
  option_map (fun t => t.(tr_template).(vt_id))
    (head (sort_by by_name
       (List.filter tr_enabled (omap (fun k => tbl_get k cat.(sc_templates)) p.(so_vm_templates))))).
Definition filled_id (given : option Z) (spec : option json) : Meth (option Z) :=
  match given with
  | Some _ => ret given
  | None => if not_given spec then ret None else int_or_none spec
  end.
Definition apply_catalog_defaults (cat : service_catalog) (r : provision_request) : Meth provision_request :=
  if negb (given_text r.(pq_product_code)) then ret r
  else match product_by_code cat (default "" r.(pq_product_code)) with
  | None => ret r
  | Some p =>
      let specs := dict_merge (match p.(so_product).(pd_family) with Some f => f.(fm_defaults) | None => [] end)
                     p.(so_product).(pd_overrides) in
      match r.(pq_service_type) with
      | ST_BARE_METAL =>
          match r.(pq_server_group_id), r.(pq_server_id) with
          | None, None =>
              g <- filled_id None (dict_get "server_group_id" specs) ;;
              ret (r <|pq_server_group_id := g|>)
          | _, _ => ret r
          end
      | ST_VM =>
          c <- filled_id r.(pq_proxmox_cluster_id) (dict_get "proxmox_cluster_id" specs) ;;
          ret (r <|pq_vm_template_id := match r.(pq_vm_template_id) with
                                        | Some k => Some k
                                        | None => default_vm_template_id cat p
                                        end|>
                 <|pq_proxmox_cluster_id := c|>)
      | ST_HTTP_PROXY => ret r
      end
  end.
Definition build_snapshot (env : provision_env) (r : provision_request) : Meth (dict * option string) :=
  if negb (given_text r.(pq_product_code)) then ret (default [] r.(pq_extra_snapshot), None)
  else
    made <- try_catch
      (build_product_snapshot env.(pe_catalog) (default "" r.(pq_product_code)) None r.(pq_service_type)
         r.(pq_vm_template_id))
      (fun e => if is_value_error e then raise (provisioning_error "invalid_request" (env.(pe_str_exc) e))
                else raise e) ;;
    ret (match r.(pq_extra_snapshot) with
         | Some (kv :: extra) => dict_merge made.1 (kv :: extra)
         | _ => made.1
         end, made.2).

(** * Creating *)

Definition is_retry_of (s : service) (r : provision_request) : bool :=
  (r.(pq_service_type) == ST_BARE_METAL) && (s.(sv_service_type) == ST_BARE_METAL)
  && (s.(sv_status) != SS_TERMINATED) && given_text r.(pq_external_service_id)
  && (s.(sv_external_service_id) == r.(pq_external_service_id))
  && (s.(sv_owner_user_id) == r.(pq_owner_user_id)).
Definition create (env : provision_env) (r : provision_request) (who : actor) : Meth Z :=
  existing <- read (service_by_name r.(pq_name)) ;;
  match existing with
  | Some s =>
      if is_retry_of s r then resume_bare_metal_order env.(pe_rack) r s.(sv_id)
      else raise (provisioning_error "name_taken" "Service with this name already exists")
  | None =>
      r <- apply_catalog_defaults env.(pe_catalog) r ;;
      made <- build_snapshot env r ;;
      match r.(pq_service_type) with
      | ST_VM => create_vm_service env r made.1 made.2
      | ST_HTTP_PROXY => create_http_proxy_service env r who made.1
      | ST_BARE_METAL => create_bare_metal_service env.(pe_rack) r made.1
      end
  end.

(** * Requests *)

(** The bodies of the billing and reseller requests. *)
Record billing_order : Type := mk_billing_order {
  bo_name : string;
  bo_service_type : option string;
  bo_product_code : option string;
  bo_external_service_id : option string;
  bo_description : option string;
  bo_service_config : dict;
  bo_auto_provision : bool;
  bo_vm_template_id : option Z;
  bo_proxmox_cluster_id : option Z;
  bo_proxmox_node_name : option string;
  bo_proxmox_vmid : option Z
}.
Definition as_int (o : option json) : Meth (option Z) :=
  if not_given o then ret None else int_or_none o.
Definition text_of (o : option json) : option string :=
  match o with Some (JStr s) => Some s | _ => None end.
Definition from_billing_bare_metal (o : billing_order) (owner_user_id : Z) : Meth provision_request :=
  let t := str_lower (str_or o.(bo_service_type) "bare_metal") in
  kind <- unwrap (List.find (fun k => service_type_value k == t) [ST_BARE_METAL; ST_VM; ST_HTTP_PROXY])
            (provisioning_error "invalid_request"
               "Invalid service_type. Must be bare_metal, vm, or http_proxy") ;;
  throw_if (kind == ST_VM)
    (provisioning_error "invalid_request" "VM services must be created via POST /billing/vm/services") ;;;
  let cfg := o.(bo_service_config) in
  group_id <- as_int (dict_get "server_group_id" cfg) ;;
  ip_count <- as_int (dict_get "ip_count" cfg) ;;
  subnet_id <- as_int (dict_get "subnet_id" cfg) ;;
  subnet_group_id <- as_int (dict_get "subnet_group_id" cfg) ;;
  ret (mk_provision_request o.(bo_name) kind (Some owner_user_id) o.(bo_product_code)
         o.(bo_external_service_id) o.(bo_description) PV_BILLING true cfg None None group_id None
         (json_given (dict_get "template_id" cfg)) (json_given (dict_get "template_parameters" cfg))
         None None None None ip_count subnet_id subnet_group_id (text_of (dict_get "allocation_strategy" cfg))).
Definition from_billing_vm (o : billing_order) (owner_user_id : Z) : provision_request :=
  mk_provision_request o.(bo_name) ST_VM (Some owner_user_id) o.(bo_product_code)
    o.(bo_external_service_id) o.(bo_description) PV_BILLING o.(bo_auto_provision) o.(bo_service_config) None None
    None None None None o.(bo_vm_template_id) o.(bo_proxmox_cluster_id) o.(bo_proxmox_node_name)
    o.(bo_proxmox_vmid) None None None None.
(** What checkout asks for an item; the values of options are strings. *)
Definition from_checkout (p : provision_args) : provision_request :=
  mk_provision_request p.(pr_name) p.(pr_service_type) (Some p.(pr_owner_user_id)) p.(pr_product_code)
    None (Some p.(pr_description)) PV_BILLING true p.(pr_service_config)
    (Some [("frontend_product_id", JInt p.(pr_frontend_product_id)); ("price_plan_id", JInt p.(pr_price_plan_id));
           ("cycle_interval", jopt_str p.(pr_cycle_interval))])
    p.(pr_permission_set_id) p.(pr_server_group_id) p.(pr_server_id) p.(pr_template_id) None p.(pr_vm_template_id)
    p.(pr_proxmox_cluster_id) (text_of p.(pr_proxmox_node_name)) p.(pr_proxmox_vmid) p.(pr_ip_count)
    p.(pr_subnet_id) p.(pr_subnet_group_id) (text_of p.(pr_allocation_strategy)).
Definition checkout_actor : actor := mk_actor "commerce" "checkout".
Definition checkout_provision (env : provision_env) (p : provision_args) : Meth Z :=
  create env (from_checkout p) checkout_actor.
(** The endpoints of billing platforms. *)
Definition raise_provisioning {A} (m : Meth A) : Meth A :=
  try_catch m (fun e => match e with
                        | ProvisioningError _ _ status => raise (HTTPException status)
                        | _ => raise e
                        end).
Definition provision_bare_metal_service (env : provision_env) (o : billing_order) (owner_user_id : Z) (who : actor)
  : Meth Z :=
  raise_provisioning (r <- from_billing_bare_metal o owner_user_id ;; create env r who).
Definition provision_vm_service (env : provision_env) (o : billing_order) (owner_user_id : Z) (who : actor) : Meth Z :=
  raise_provisioning (create env (from_billing_vm o owner_user_id) who).

(** * A reseller's deploy *)

Definition reseller_actor (reseller_id : Z) : actor := mk_actor "reseller" (pretty reseller_id).
Definition provision_for_reseller (env : provision_env) (reseller_id owner_user_id : Z) (vm : bool)
    (o : billing_order) : Meth Z :=
  r <- (if vm then ret (from_billing_vm o owner_user_id) else from_billing_bare_metal o owner_user_id) ;;
  create env r (reseller_actor reseller_id).
(** The service a failed deploy is taken to have left: the one it returned, or
    the owner's service of that external id, or of that name. *)
Definition failed_service (owner_user_id : Z) (o : billing_order) (service_id : option Z) (d : db) : option Z :=
  match service_id with
  | Some k => Some k
  | None =>
      let by_external :=
        if given_text o.(bo_external_service_id) then
          List.find (fun s => (s.(sv_external_service_id) == o.(bo_external_service_id))
                              && (s.(sv_owner_user_id) == Some owner_user_id)) d.(db_services)
        else None in
      match by_external with
      | Some s => Some s.(sv_id)
      | None =>
          match service_by_name o.(bo_name) d with
          | Some s => if s.(sv_owner_user_id) == Some owner_user_id then Some s.(sv_id) else None
          | None => None
          end
      end
  end.
Definition cleanup_failed_service (reseller_id owner_user_id : Z) (o : billing_order) (service_id : option Z)
  : Meth unit :=
  found <- read (failed_service owner_user_id o service_id) ;;
  match found with
  | Some k =>
      release_for_service k ;;;
      release_all_for_service k (Some ("reseller:" +:+ pretty reseller_id)) ;;;
      Provision.delete k ;;;
      ret tt
  | None => ret tt
  end.

(** * Names *)

Definition names (d : db) : list string := map sv_name d.(db_services).
Definition named_once (d : db) : Prop := List.NoDup (names d).
Definition unnamed (n : string) (d : db) : Prop := named_once d /\ ~ In n (names d).
(** What a request may do to the names once its service is there. *)
Definition fewer (d d' : db) : Prop := exists p, names d' = map sv_name (List.filter p d.(db_services)).
Lemma fewer_named d d' : fewer d d' -> named_once d -> named_once d'.
Proof. unfold named_once. intros [p ->] H. by apply NoDup_filter_map. Qed.
Lemma fewer_same d d' : names d' = names d -> fewer d d'.
Proof. intros H. exists (fun _ => true). rewrite H. unfold names. f_equal. induction d.(db_services) as [|s l IH]; [done|]. cbn. by rewrite <- IH. Qed.
Lemma names_log P : keeps (both P) log_server_activity.
Proof. apply keeps_try; [apply both_commit|]. intros e. destruct (is_exception e); [apply keeps_ret|apply keeps_raise]. Qed.
#[local] Hint Resolve both_commit both_rollback names_log lift_outcome_keeps : dcim.
Lemma named_write f : (forall d, fewer d (f d)) -> keeps (both named_once) (write f).
Proof. intros Hf st [H1 H2]. apply wp_write. split; [eapply fewer_named; [apply Hf|exact H1]|exact H2]. Qed.
Lemma named_upd k f : (forall s, sv_name (f s) = sv_name s) -> keeps (both named_once) (upd_service k f).
Proof.
  intros Hf. apply named_write. intros d. apply fewer_same. unfold names. cbn [db_services update]. unfold tbl_update.
  rewrite map_map. apply map_ext. intros s. destruct (_ =? _); [apply Hf|done].
Qed.
Lemma named_upd_vm k f : keeps (both named_once) (upd_vm k f).
Proof. apply named_upd. intros s. by destruct (sv_vm s). Qed.
Lemma named_delete_row k : keeps (both named_once) (delete_row k).
Proof.
  unfold delete_row. apply keeps_bind; [apply keeps_read|]. intros b. apply keeps_bind; [apply keeps_throw_if|]. intros _.
  apply keeps_bind; [|intros _; apply both_commit]. apply named_write. intros d.
  by exists (fun s => negb (s.(sv_id) =? k)).
Qed.
#[local] Hint Resolve named_delete_row named_upd_vm : dcim.
#[local] Hint Extern 1 (keeps (both named_once) (write _)) => apply named_write; intros ?; apply fewer_same; reflexivity : dcim.
#[local] Hint Extern 1 (keeps (both named_once) (upd_service _ _)) => apply named_upd; reflexivity : dcim.
Lemma named_insert s n st : (forall k, sv_name (s k) = n) -> both (unnamed n) st ->
  wp (insert_service s) (fun _ => both named_once) (fun _ => both named_once) st.
Proof.
  intros Hs [[H1 Hn1] [H2 _]]. unfold insert_service. apply wp_bind, wp_read, wp_bind, wp_write.
  set (k := tbl_fresh _). assert (named_once (st.(s_db) <|db_services := st.(s_db).(db_services) ++ [s k]|>)) as H.
  { unfold named_once, names. cbn [db_services update]. rewrite map_app. cbn [map]. rewrite Hs.
    apply List.NoDup_app; [done|repeat constructor; cbn; tauto|]. intros x Hx [<-|[]]. done. }
  apply wp_bind, wp_commit; [|apply wp_ret]; by split.
Qed.
Lemma named_reserve cs c k v g o : keeps (both named_once) (reserve_vmid_for_service cs c k v g o).
Proof.
  assert (forall v, keeps (both named_once) (reservation_create c k v)) as Hr by (intros; unfold reservation_create; keeps_tac).
  assert (forall lo hi n v, keeps (both named_once) (reserve_first c k lo hi n v)) as Hf.
  { intros lo hi n. induction n as [|n IH]; intros w; cbn [reserve_first]; unfold get_by_cluster_vmid; keeps_tac. }
  unfold reserve_vmid_for_service, get_by_service_id, existing_sticky_reservation, resolve_cluster_range,
    reserve_explicit_vmid, reserve_next_free_vmid, get_by_cluster_vmid. keeps_tac.
Qed.
#[local] Hint Resolve named_reserve : dcim.
Lemma named_delete k : keeps (both named_once) (Provision.delete k).
Proof. unfold Provision.delete. keeps_tac. Qed.
Lemma named_permission k r : keeps (both named_once) (set_permission_set k r).
Proof. unfold set_permission_set. keeps_tac. Qed.
Lemma named_assign_first s c l : keeps (both named_once) (assign_first s c l).
Proof.
  induction l as [|a l IH]; cbn [assign_first]; unfold claim_row, upd_vm_ip, link_vm; [apply keeps_ret|]. keeps_tac.
Qed.
#[local] Hint Resolve named_delete named_permission named_assign_first : dcim.
Lemma named_set_guest iso k : keeps (both named_once) (mark_vm_provision_queued iso k).
Proof.
  unfold mark_vm_provision_queued, dict_of. keeps_tac.
  all: apply named_upd; intros s; unfold set_guest; cbn [sv_vm update]; by destruct (sv_vm s).
Qed.
#[local] Hint Resolve named_set_guest : dcim.
Lemma named_schedule cat iso k : keeps (both named_once) (schedule_vm_auto_provision cat iso k).
Proof.
  unfold schedule_vm_auto_provision, prepare_vm_placement_for_provisioning, place_vm, auto_place_vm, candidate_clusters,
    enqueue_vm_deployment_job, resolve_vm_strategy_name_for_service, json_get, resolve_vm_template_strategy,
    get_active_for_service, create_job. keeps_tac.
Qed.
#[local] Hint Resolve named_schedule planning_reads : dcim.

(** Up to where the service is added, and from there. *)
Lemma unnamed_choose n rk t : keeps (both (unnamed n)) (choose_server rk t).
Proof. unfold choose_server, select_free_server_in_group, pin_existing_server, lock_for_allocation. keeps_tac. Qed.
Lemma named_vm env r snapshot os st : both (unnamed r.(pq_name)) st ->
  wp (create_vm_service env r snapshot os) (fun _ => both named_once) (fun _ => both named_once) st.
Proof.
  intros Hst. unfold create_vm_service. apply wp_bind.
  eapply wp_keeps; [apply validation_reads|exact Hst| |by intros e st' [[? ?] [? ?]]].
  intros _ st1 H1. apply wp_bind. unfold create_vm. apply wp_bind, wp_throw_if; [by destruct H1 as [[? ?] [? ?]]|]. intros _.
  eapply wp_conseq; [apply (named_insert _ r.(pq_name)); [done|exact H1]| |done]. intros k st2 H2.
  revert st2 H2. change (keeps (both named_once) (set_permission_set k r ;;; reserve_requested_vmid env k r ;;;
    a <- assign_vm_ip_or_fail k r.(pq_proxmox_cluster_id) ;; log_server_activity ;;;
    has_plan <- attach_vm_plan env k r os a ;; log_server_activity ;;;
    queue_auto_provision_if_requested env k r has_plan ;;; ret k)).
  unfold reserve_requested_vmid, assign_vm_ip_or_fail, assign_next_free_to_service, get_by_id, attach_vm_plan,
    queue_auto_provision_if_requested, set_guest_error. keeps_tac.
Qed.
Lemma named_create_bare_metal r kind server cfg snapshot st : both (unnamed r.(pq_name)) st ->
  wp (create_bare_metal r kind server cfg snapshot) (fun _ => both named_once) (fun _ => both named_once) st.
Proof.
  intros Hst. assert (both named_once st) as Hb by (by destruct Hst as [[? ?] [? ?]]). unfold create_bare_metal.
  do 3 (apply wp_bind, wp_throw_if; [done|]; intros _). by apply (named_insert _ r.(pq_name)).
Qed.
Lemma named_assign_ip a : keeps (both named_once) (assign_ip a).
Proof.
  assert (forall n o a, keeps (both named_once) (try_assign_in_subnet n o a)) as Hsub.
  { intros n o x. unfold try_assign_in_subnet, enforce_resale_cap, upd_ip, add_history, delete_assignment. keeps_tac. }
  assert (forall l o a, keeps (both named_once) (try_subnets l o a)) as Hall.
  { intros l o x. induction l as [|n l IH]; cbn [try_subnets]; keeps_tac. }
  unfold assign_ip. keeps_tac.
Qed.
#[local] Hint Resolve named_assign_ip : dcim.
Lemma named_assign_ips env k p l w n done : keeps (both named_once) (assign_ips env k p l w n done).
Proof.
  revert done. induction n as [|n IH]; intros done; cbn [assign_ips]; unfold strategy_text; keeps_tac.
Qed.
#[local] Hint Resolve named_assign_ips : dcim.
Lemma named_proxy env r who snapshot st : both (unnamed r.(pq_name)) st ->
  wp (create_http_proxy_service env r who snapshot) (fun _ => both named_once) (fun _ => both named_once) st.
Proof.
  intros Hst. unfold create_http_proxy_service. apply wp_bind.
  eapply wp_conseq; [by apply named_create_bare_metal| |done]. intros k st2 H2. revert st2 H2.
  match goal with |- forall st, _ -> wp ?m _ _ st => change (keeps (both named_once) m) end.
  unfold resolve_proxy_ip_request, int_or_none, auto_assign_proxy_ips, group_subnets, dict_of. keeps_tac.
Qed.

(** The tasks of servers. *)
Lemma named_boots p f : keeps (both named_once) (update_boots p f).
Proof. unfold update_boots. keeps_tac. Qed.
#[local] Hint Resolve named_boots : dcim.
Lemma named_create_boot tok k b s o e : keeps (both named_once) (create_boot_task tok k b s o e).
Proof. unfold create_boot_task, cancel_pending_tasks. keeps_tac. Qed.
#[local] Hint Resolve named_create_boot : dcim.
Lemma named_queue_group rk k g cfg : keeps (both named_once) (queue_group_template_install rk k g cfg).
Proof.
  unfold queue_group_template_install, determine_template_for_group, queue_template_install, dict_of,
    queue_template_install_for_service, get_template, persist_resolved_template_params, create_install_task,
    store_credentials, upd_boot, upd_server. keeps_tac.
Qed.
Lemma named_cancel k : keeps (both named_once) (cancel_open_tasks_of_pool k).
Proof.
  assert (forall fuel, keeps (both named_once) (cancel_installs fuel k)) as Hc.
  { induction fuel as [|fuel IH]; cbn [cancel_installs]; [apply keeps_raise|].
    unfold cancel_install, mark_install, upd_install. keeps_tac. }
  unfold cancel_open_tasks_of_pool, cancel_all_installs, cancel_pending_tasks. keeps_tac.
Qed.
#[local] Hint Resolve named_queue_group named_cancel : dcim.
Lemma named_rack rk r snapshot st : both (unnamed r.(pq_name)) st ->
  wp (create_bare_metal_service rk r snapshot) (fun _ => both named_once) (fun _ => both named_once) st.
Proof.
  intros Hst. unfold create_bare_metal_service. destruct (target_of r) as [t|]; [|by destruct Hst as [[? ?] [? ?]]].
  apply wp_bind. eapply wp_keeps; [apply unnamed_choose|exact Hst| |by intros e st' [[? ?] [? ?]]].
  intros v st1 H1. apply wp_bind. eapply wp_conseq; [by apply named_create_bare_metal| |done]. intros k st2 H2. revert st2 H2.
  match goal with |- forall st, _ -> wp ?m _ _ st => change (keeps (both named_once) m) end. unfold finish_order. keeps_tac.
Qed.
Lemma named_resume rk r k : keeps (both named_once) (resume_bare_metal_order rk r k).
Proof. unfold resume_bare_metal_order. keeps_tac. Qed.
Lemma defaults_spec cat r st :
  wp (apply_catalog_defaults cat r) (fun r' st' => st' = st /\ r'.(pq_name) = r.(pq_name)) (fun _ st' => st' = st) st.
Proof.
  assert (forall g j (Q : option Z -> session -> Prop), (forall o, Q o st) -> wp (filled_id g j) Q (fun _ st' => st' = st) st) as Hid.
  { intros g j Q HQ. unfold filled_id, int_or_none. destruct g; [by apply wp_ret|]. destruct (not_given j); [by apply wp_ret|].
    destruct j as [[]|]; try (by apply wp_ret); apply wp_bind; unfold lift_outcome; destruct (json_int _); try done;
      apply wp_ret, wp_ret, HQ. }
  unfold apply_catalog_defaults. destruct (negb _); [by apply wp_ret|]. destruct (product_by_code _ _); [|by apply wp_ret].
  destruct (pq_service_type r); [|apply wp_bind, Hid; intros o; by apply wp_ret|by apply wp_ret].
  destruct (pq_server_group_id r), (pq_server_id r); try (by apply wp_ret). apply wp_bind, Hid. intros o. by apply wp_ret.
Qed.
Lemma snapshot_reads (I : session -> Prop) env r : keeps I (build_snapshot env r).
Proof.
  unfold build_snapshot, build_product_snapshot, install_type_of, merge_strategy_options, install_type_of. keeps_tac.
Qed.
Lemma service_by_name_None n d : service_by_name n d = None -> ~ In n (names d).
Proof.
  unfold service_by_name, names. intros Hf (s & Hs & Hin)%in_map_iff. eapply List.find_none in Hf; [|exact Hin]. cbn in Hf.
  rewrite Hs in Hf. by destruct (py_eq_spec n n).
Qed.
Lemma create_named env r who d now : named_once d ->
  wp (create env r who) (fun _ => both named_once) (fun _ => both named_once) (session_of d now).
Proof.
  intros Hd. assert (both named_once (session_of d now)) as Hboth by done.
  unfold create. apply wp_bind, wp_read. change (s_db (session_of d now)) with d.
  destruct (service_by_name r.(pq_name) d) as [s|] eqn:Hn; [destruct (is_retry_of s r); [by apply named_resume|done]|].
  apply service_by_name_None in Hn. assert (both (unnamed r.(pq_name)) (session_of d now)) as Hst by done.
  apply wp_bind. eapply wp_conseq; [apply defaults_spec| |by intros e st' ->]. intros r' st' [-> Hr]. rewrite <- Hr in Hst.
  apply wp_bind. eapply wp_keeps; [apply snapshot_reads|exact Hst| |by intros e st' [[? ?] [? ?]]].
  intros made st' Hst'. destruct (pq_service_type r'); [by apply named_rack|by apply named_vm|by apply named_proxy].
Qed.
(** What orders leave, one after the other. *)
Definition served_orders (env : provision_env) (requests : list (Z * provision_request * actor)) (d : db) : db :=
  fold_left (fun d x => (snd (create env x.1.2 x.2 (session_of d x.1.1))).(s_committed)) requests d.

(** C20. However many orders for machines, servers and proxies are served one
    after the other, whether they succeed, fail, or are sent again, no two
    services have the same name. *)
Theorem service_names_stay_unique env requests d :
  named_once d -> named_once (served_orders env requests d).
Proof.
  unfold served_orders. revert d. induction requests as [|[[now r] who] l IH]; intros d Hd; [done|]. cbn [fold_left fst snd].
  apply IH. pose proof (create_named env r who d now Hd) as H. unfold wp in H.
  destruct (create env r who (session_of d now)) as [[k|e] st']; apply H.
Qed.

(** * What checkout asks for *)

(** As long as a service has a product's name, whoever's it is and whatever
    became of it, no further order item for the product is provisioned:
    checkout names services after products. *)
Theorem retail_product_is_delivered_once ce env order_id item_id item s st :
  ce.(ce_provision) = checkout_provision env ->
  tbl_get item_id st.(s_db).(db_order_items) = Some item -> item.(oi_name_snapshot) <> "" ->
  service_by_name item.(oi_name_snapshot) st.(s_db) = Some s ->
  match provision_order_item ce order_id item_id st with
  | (Ok _, _) => False
  | (Raise _, st') => st' = st
  end.
Proof.
  intros Hce Hitem Hname Hs.
  refine ((fun H : wp (provision_order_item ce order_id item_id) (fun _ _ => False) (fun _ st' => st' = st) st => H) _).
  assert (forall keys name (Q : option Z -> session -> Prop), (forall o, Q o st) -> wp (provision_int keys name) Q (fun _ st' => st' = st) st) as Hint.
  { intros keys name Q HQ. unfold provision_int. destruct (not_given _); [by apply wp_ret|]. destruct (json_int _); [by apply wp_ret|done]. }
  unfold provision_order_item. apply wp_bind, wp_the; [done|]. intros item' Hitem'.
  assert (item' = item) as -> by congruence. apply wp_bind, wp_the; [done|]. intros o _.
  apply wp_bind. unfold load_product_bundle. destruct (List.find _ _) as [p|]; [|done]. destruct (fp_enabled p); [|done].
  apply wp_ret, wp_bind.
  eapply wp_keeps with (I := fun st' => st' = st); [unfold provision_keys_from_item_config; keeps_tac|done| |done].
  intros keys st' ->. do 8 (apply wp_bind, Hint; intros ?). apply wp_try_catch.
  rewrite Hce. unfold checkout_provision, create. apply wp_bind, wp_read. cbn [pq_name from_checkout pr_name str_or].
  assert (str_empty item.(oi_name_snapshot) = false) as -> by (by destruct item.(oi_name_snapshot)). rewrite Hs.
  unfold is_retry_of. cbn [pq_external_service_id from_checkout given_text str_true]. rewrite andb_false_r. by apply wp_raise.
Qed.

(** * Concrete orders *)

Definition shop_env : provision_env := sample_env [].
Definition pinned_order (server : Z) : provision_request := sample_order "metal" (Pinned server).
Lemma service_names_stay_unique_witness :
  let orders := [(1, sample_vm_order None None false, checkout_actor); (2, sample_vm_order None None false, checkout_actor)] in
  named_once one_address /\ names (served_orders shop_env orders one_address) = ["web"]
  /\ named_once (served_orders shop_env orders one_address).
Proof.
  intros orders. assert (named_once one_address) as H by constructor. split; [exact H|]. split; [vm_compute; reflexivity|].
  exact (service_names_stay_unique shop_env orders one_address H).
Defined.
(** Two requests that ask for the name at the same time both find it free. *)
Lemma concurrent_orders_share_a_name :
  let order := create_vm_service shop_env (sample_vm_order None None false) [] None in
  let d := one_address <|db_vm_ips := one_address.(db_vm_ips) ++
             [mk_vm_ip 9 "10.0.0.9" "255.255.255.0" "10.0.0.1" (Some "vmbr7") None [] true None]|> in
  service_by_name "web" d = None /\ ~ named_once (after order 2 (after order 1 d)).
Proof.
  intros order d. split; [reflexivity|]. unfold named_once. intros H.
  assert (names (after order 2 (after order 1 d)) = ["web"; "web"]) as E by (vm_compute; reflexivity).
  rewrite E in H. apply List.NoDup_cons_iff in H as [H _]. apply H. by left.
Qed.

(** A shop that sells proxies; two customers have ordered one. *)
Definition proxy_shop : checkout_env :=
  mk_checkout_env [mk_frontend_product 1 "Proxy" None None "http_proxy" true None [sample_plan] []]
    [] "1" (fun _ => "error") (fun _ => "") (checkout_provision shop_env).
Definition two_proxy_orders : db :=
  empty_db
    <|db_users := [sample_user 101 "ada" "ada@x"; sample_user 102 "bob" "bob@x"]|>
    <|db_orders := map (fun k => mk_order k k 1 (100 + k) OD_FULFILLING "USD" 0 900 0 0 900 None None None None None None None None None)
                     [1; 2]|>
    <|db_order_items := map (fun k => mk_order_item k k None 1 1 (Some "monthly") 1 0 900 "USD" [] "Proxy" FS_PENDING None)
                          [1; 2]|>.
Lemma retail_product_is_delivered_once_witness :
  exists st1, provision_order_item proxy_shop 1 1 (session_of two_proxy_orders 0) = (Ok 1, st1)
    /\ match provision_order_item proxy_shop 2 2 st1 with (Ok _, _) => False | (Raise _, st') => st' = st1 end
    /\ fst (provision_order_item proxy_shop 2 2 st1) = Raise (CheckoutError "Service with this name already exists").
Proof.
  destruct (provision_order_item proxy_shop 1 1 (session_of two_proxy_orders 0)) as [o st1] eqn:E.
  assert (o = Ok 1) as -> by (apply (f_equal fst) in E; vm_compute in E; by symmetry). exists st1. split; [done|].
  apply (f_equal snd) in E. vm_compute in E. rewrite <- E.
  split; [|vm_compute; reflexivity].
  eapply (retail_product_is_delivered_once proxy_shop shop_env 2 2); [reflexivity|reflexivity|discriminate|reflexivity].
Defined.

(** A reseller's order under a name that one of the client's services already
    has is refused, and cleaning up after it takes the addresses of that service,
    which stays. *)
Definition client_proxy : db :=
  empty_db
    <|db_services := [mk_service 4 "gate" (Some 101) ST_HTTP_PROXY SS_ACTIVE None None None [] [] None None None None None PV_BILLING]|>
    <|db_subnets := [mk_ip_subnet 1 "a" "10.0.0.0/24" None None None [] "sequential" true 1]|>
    <|db_ips := [mk_ip_address 6 1 "10.0.0.6" "assigned" 0]|>
    <|db_assignments := [mk_ip_assignment 3 4 6 None None None]|>
    <|db_billings := [mk_service_billing 1 4 (Some 9) None None 0 500 "USD" None None BS_ACTIVE 0 None None None None None]|>.
Lemma cleanup_takes_the_owners_addresses :
  let o := mk_billing_order "gate" (Some "http_proxy") None None None [] true None None None None in
  let ordered := provision_for_reseller shop_env 9 101 false o (session_of client_proxy 0) in
  let cleaned := cleanup_failed_service 9 101 o None (snd ordered) in
  fst ordered = Raise (ProvisioningError "name_taken" "Service with this name already exists" 400)
  /\ fst cleaned = Raise IntegrityError
  /\ map sv_name (snd cleaned).(s_committed).(db_services) = ["gate"]
  /\ (snd cleaned).(s_committed).(db_assignments) = [].
Proof. vm_compute. repeat split. Qed.
