(* ===== verification/Ethereum.v ===== *)
(** What the USDT services know of Ethereum: token amounts, addresses, block
    ranges, the encoding of ERC-20 transfers and the JSON-RPC client.
    src/app/services/payments/usdt_rpc.py and the pure part of
    src/app/services/payments/usdt_crypto.py.

    [eth_utils], [eth_account] and [cryptography] are the class [EthLib]; what
    the code relies on of addresses is the class [AddressLaws].  The Ethereum
    node is a function from the calls made before to the answer it gives. *)
From Stdlib Require Import ZArith Lia Ascii.
From stdpp Require Import base numbers list strings pretty.
From Equations Require Import Equations.
From S2P Require Import Prelude Models Session.
#[local] Open Scope Z_scope.
#[local] Open Scope py_scope.

(** * Numbers as text *)

(** [int(s, 16)]: surrounding space, a sign, the prefix and single underscores
    are accepted. *)
Definition is_hex (c : ascii) : bool :=
  let n := nat_of_ascii c in
  is_digit c || (Nat.leb 97 n && Nat.leb n 102) || (Nat.leb 65 n && Nat.leb n 70).
Definition hex_value (c : ascii) : Z :=
  let n := Z.of_nat (nat_of_ascii c) in
  if is_digit c then n - 48 else if 97 <=? n then n - 87 else n - 55.
Fixpoint hex_digits (acc : Z) (s : string) : option Z :=
  match s with
  | EmptyString => Some acc
  | String c s' =>
      if is_hex c then hex_digits (16 * acc + hex_value c) s'
      else if Ascii.eqb c "_"%char then
        match s' with
        | String d s2 =>
            if is_hex d then hex_digits (16 * acc + hex_value d) s2 else None
        | EmptyString => None
        end
      else None
  end.
Definition unsigned_hex (s : string) : option Z :=
  match s with
  | String c _ => if is_hex c then hex_digits 0 s else None
  | EmptyString => None
  end.
Definition prefixed_hex (s : string) : option Z :=
  if String.prefix "0x" s || String.prefix "0X" s then
    match str_drop 2 s with
    | String c t => unsigned_hex (if Ascii.eqb c "_"%char then t else String c t)
    | EmptyString => None
    end
  else unsigned_hex s.
Definition py_int16 (s : string) : option Z :=
  match str_strip s with
  | EmptyString => None
  | String c t =>
      if Ascii.eqb c "-"%char then option_map Z.opp (prefixed_hex t)
      else if Ascii.eqb c "+"%char then prefixed_hex t
      else prefixed_hex (String c t)
  end.

(** The [k] low hexadecimal digits of [n], before [tail]. *)
Definition hex_char (n : Z) : ascii :=
  ascii_of_nat (Z.to_nat (if n <? 10 then 48 + n else 87 + n)).
Fixpoint hexn (k : nat) (n : Z) (tail : string) : string :=
  match k with
  | O => tail
  | S k' => hexn k' (n / 16) (String (hex_char (n mod 16)) tail)
  end.
Definition hex_length (n : Z) : nat := Z.to_nat (Z.log2 n / 4 + 1).
(** [hex(n)] and [f"{n:064x}"] of a number that is not negative. *)
Definition hex (n : Z) : string := "0x" +:+ hexn (hex_length n) n "".
Definition hex64 (n : Z) : string := hexn (Nat.max 64 (hex_length n)) n "".

(** [f"{n:0{width}d}"] *)
Fixpoint zeros (k : nat) (s : string) : string :=
  match k with O => s | S k' => String "0" (zeros k' s) end.
Definition dec_padded (width : nat) (n : Z) : string :=
  zeros (width - String.length (pretty n)) (pretty n).

(** * Libraries *)

(** An account of [eth_account]: its address, and [sign_transaction], which
    may raise, or return no raw transaction. *)
Record local_account : Type := mk_local_account {
  la_address : string;
  la_sign : dict -> outcome exn (option string)
}.

Class EthLib := {
  is_address : string -> bool;
  to_checksum_address : string -> string;
  (** [keccak(text=text).hex()] *)
  keccak : string -> string;
  (** [Account.from_mnemonic] and [Account.from_key] *)
  from_mnemonic : string -> string -> outcome exn local_account;
  from_key : string -> outcome exn local_account;
  (** [Fernet(key.encode()).decrypt(ciphertext.encode()).decode("utf-8")];
      [None] when the key, the token or the text is invalid. *)
  fernet_decrypt : string -> string -> option string
}.

(** EIP-55: a checksummed address is a valid one of 40 hexadecimal digits
    after the prefix [0x], and only the case of its letters is its checksum. *)
Class AddressLaws (L : EthLib) := {
  checksum_shape a : is_address a = true ->
    exists h, to_checksum_address a = "0x" +:+ h /\ String.length h = 40%nat
              /\ str_all is_hex h = true;
  checksum_valid a : is_address a = true -> is_address (to_checksum_address a) = true;
  checksum_idem a : is_address a = true ->
    to_checksum_address (to_checksum_address a) = to_checksum_address a;
  lower_valid a : is_address a = true -> is_address (str_lower a) = true;
  checksum_lower a : is_address a = true ->
    to_checksum_address (str_lower a) = to_checksum_address a
}.

Section Ethereum.
Context {L : EthLib}.

(** * Token amounts *)

(** Addresses come from rows, from settings and from JSON. *)
Definition normalize_eth_address (value : json) : Meth string :=
  match value with
  | JStr s =>
      if is_address (str_strip s) then ret (to_checksum_address (str_strip s))
      else raise (UsdtDepositError "Invalid Ethereum address")
  | _ => raise (UsdtDepositError "Invalid Ethereum address")
  end.

Definition invoice_cents_to_token_units (cents decimals : Z) : Meth Z :=
  throw_if (cents <=? 0) (UsdtDepositError "Invoice cents must be a positive integer") ;;;
  throw_if (decimals <? 2)
    (UsdtDepositError "Token decimals must be an integer of at least 2") ;;;
  ret (cents * 10 ^ (decimals - 2)).

Definition format_token_units (token_units decimals : Z) : Meth string :=
  throw_if (token_units <? 0)
    (UsdtDepositError "Token units must be a non-negative integer") ;;;
  throw_if (decimals <? 0) (UsdtDepositError "Token decimals must be non-negative") ;;;
  let scale := 10 ^ decimals in
  let whole := token_units / scale in
  let fraction := token_units mod scale in
  if decimals =? 0 then ret (pretty whole)
  else ret (pretty whole +:+ "." +:+ dec_padded (Z.to_nat decimals) fraction).

Definition eip681_usdt_uri (contract_address : string) (chain_id : Z)
    (destination_address : string) (token_units : Z) : Meth string :=
  contract <- normalize_eth_address (JStr contract_address) ;;
  destination <- normalize_eth_address (JStr destination_address) ;;
  throw_if (chain_id <=? 0) (UsdtDepositError "Invalid Ethereum chain ID") ;;;
  throw_if (token_units <=? 0) (UsdtDepositError "Token amount must be positive") ;;;
  ret ("ethereum:" +:+ contract +:+ "@" +:+ pretty chain_id +:+ "/transfer?address="
       +:+ destination +:+ "&uint256=" +:+ pretty token_units).

(** * Fields of JSON-RPC answers *)

Definition TRANSFER_TOPIC : string := "0x" +:+ keccak "Transfer(address,address,uint256)".
Definition ERC20_TRANSFER_SELECTOR : string := "a9059cbb".
Definition BLOCK_NUMBER_FIELD : string := "block number".

Definition invalid (field : string) : exn :=
  EthereumRpcError ("Ethereum RPC returned an invalid " +:+ field).
Definition quantity (value : option json) (field : string) : Meth Z :=
  match value with
  | Some (JStr s) =>
      throw_if (negb (String.prefix "0x" s)) (invalid field) ;;;
      parsed <- unwrap (py_int16 s) (invalid field) ;;
      throw_if (parsed <? 0)
        (EthereumRpcError ("Ethereum RPC returned a negative " +:+ field)) ;;;
      ret parsed
  | _ => raise (invalid field)
  end.

Definition hash (value : option json) (field : string) : Meth string :=
  match value with
  | Some (JStr s) =>
      throw_if (negb (Nat.eqb (String.length s) 66) || negb (String.prefix "0x" s))
        (invalid field) ;;;
      unwrap (py_int16 (str_drop 2 s)) (invalid field) ;;;
      ret (str_lower s)
  | _ => raise (invalid field)
  end.

Definition address_topic (address : string) : Meth string :=
  normalized <- normalize_eth_address (JStr address) ;;
  ret ("0x" +:+ zeros 24 (str_lower (str_drop 2 normalized))).

Definition topic_address (topic : json) : Meth string :=
  let bad := EthereumRpcError "ERC-20 Transfer contains an invalid address topic" in
  match topic with
  | JStr s =>
      throw_if (negb (Nat.eqb (String.length s) 66) || negb (String.prefix "0x" s)
                || (str_take 24 (str_drop 2 s) != zeros 24 "")) bad ;;;
      try_catch (normalize_eth_address (JStr ("0x" +:+ str_last 40 s)))
        (fun e => match e with
                  | UsdtDepositError _ =>
                      raise (EthereumRpcError "ERC-20 Transfer contains an invalid address")
                  | _ => raise e
                  end)
  | _ => raise bad
  end.

Definition encode_erc20_transfer (destination : string) (token_units : Z) : Meth string :=
  throw_if (token_units <=? 0) (ValueError "ERC-20 transfer units must be positive") ;;;
  address <- normalize_eth_address (JStr destination) ;;
  ret ("0x" +:+ ERC20_TRANSFER_SELECTOR
       +:+ zeros 24 (str_lower (str_drop 2 address) +:+ hex64 token_units)).

(** ** Transfer logs *)

(** [DecodedTransfer] *)
Record decoded_transfer : Type := mk_decoded_transfer {
  dt_tx_hash : string;
  dt_log_index : Z;
  dt_block_number : Z;
  dt_block_hash : string;
  dt_contract_address : string;
  dt_from_address : string;
  dt_to_address : string;
  dt_token_units : Z;
  dt_removed : bool
}.
#[export] Instance decoded_transfer_eq_dec : EqDecision decoded_transfer.
Proof. solve_decision. Defined.

Definition log_contract (log : dict) : Meth string :=
  let bad := EthereumRpcError "Ethereum log has an invalid contract" in
  address <- unwrap (dict_get "address" log) bad ;;
  try_catch (normalize_eth_address address)
    (fun e => match e with UsdtDepositError _ => raise bad | _ => raise e end).

(** The two address topics of a log of a Transfer event. *)
Definition transfer_topics (log : dict) : Meth (json * json) :=
  let bad := EthereumRpcError "Ethereum log is not an ERC-20 Transfer" in
  match dict_get "topics" log with
  | Some (JList [JStr t0; t1; t2]) =>
      if str_lower t0 == str_lower TRANSFER_TOPIC then ret (t1, t2) else raise bad
  | _ => raise bad
  end.

Definition log_units (log : dict) : Meth Z :=
  let bad := EthereumRpcError "ERC-20 Transfer contains invalid data" in
  match dict_get "data" log with
  | Some (JStr data) =>
      throw_if (negb (Nat.eqb (String.length data) 66) || negb (String.prefix "0x" data))
        bad ;;;
      units <- unwrap (py_int16 (str_drop 2 data))
        (EthereumRpcError "ERC-20 Transfer contains invalid units") ;;
      throw_if (units <=? 0) (EthereumRpcError "ERC-20 Transfer units must be positive") ;;;
      ret units
  | _ => raise bad
  end.

Definition log_removed (log : dict) : Meth bool :=
  match dict_get "removed" log with
  | None => ret false
  | Some (JBool b) => ret b
  | Some _ => raise (EthereumRpcError "Ethereum log removed flag is invalid")
  end.

Definition decode_transfer_log (log : json) (expected_contract : string)
  : Meth decoded_transfer :=
  match log with
  | JObj log =>
      contract <- log_contract log ;;
      expected <- normalize_eth_address (JStr expected_contract) ;;
      throw_if (contract != expected)
        (EthereumRpcError "Ethereum log contract does not match configured USDT") ;;;
      topics <- transfer_topics log ;;
      units <- log_units log ;;
      removed <- log_removed log ;;
      tx_hash <- hash (dict_get "transactionHash" log) "transaction hash" ;;
      log_index <- quantity (dict_get "logIndex" log) "log index" ;;
      block_number <- quantity (dict_get "blockNumber" log) BLOCK_NUMBER_FIELD ;;
      block_hash <- hash (dict_get "blockHash" log) "block hash" ;;
      from_address <- topic_address topics.1 ;;
      to_address <- topic_address topics.2 ;;
      ret (mk_decoded_transfer tx_hash log_index block_number block_hash contract
             from_address to_address units removed)
  | _ => raise (EthereumRpcError "Ethereum RPC returned a malformed log")
  end.

(** * The JSON-RPC client *)

(** What [client.post] and [raise_for_status] end with: one of the errors the
    client retries (a timeout, a network error, an HTTP status), another
    exception, or a response, whose JSON is [None] when it does not parse. *)
Inductive http_answer : Type :=
| HttpUnavailable
| HttpFails (e : exn)
| HttpResponse (body : option json).

(** [EthereumRpcClient]; the node answers by the calls made before. *)
Record rpc_client : Type := mk_rpc_client {
  rpc_retries : nat;
  rpc_node : list rpc_call -> rpc_call -> http_answer
}.

(** [value == n], where [True == 1]. *)
Definition json_is_int (value : option json) (n : Z) : bool :=
  match value with
  | Some (JInt m) => m =? n
  | Some (JBool b) => (if b then 1 else 0) =? n
  | _ => false
  end.

(** The suffix names the error's code, an integer. *)
Definition error_suffix (error : json) : string :=
  match error with
  | JObj fields =>
      match dict_get "code" fields with
      | Some (JInt code) => " (code " +:+ pretty code +:+ ")"
      | _ => ""
      end
  | _ => ""
  end.

Definition validated_rpc_result (body : option json) (request_id : Z) (method : string)
    (allow_none : bool) : Meth json :=
  body <- unwrap body (EthereumRpcError "Ethereum RPC returned invalid JSON") ;;
  match body with
  | JObj body =>
      throw_if (negb (match dict_get "jsonrpc" body with
                      | Some (JStr v) => v == "2.0" | _ => false end)
                || negb (json_is_int (dict_get "id" body) request_id))
        (EthereumRpcError "Ethereum RPC response envelope is invalid") ;;;
      match dict_get "error" body with
      | Some error =>
          raise (EthereumRpcError ("Ethereum RPC " +:+ method +:+ " failed"
                                   +:+ error_suffix error))
      | None =>
          result <- unwrap (dict_get "result" body)
            (EthereumRpcError "Ethereum RPC response has no result") ;;
          match result with
          | JNull =>
              if allow_none then ret JNull
              else raise (EthereumRpcError ("Ethereum RPC " +:+ method
                                            +:+ " returned no result"))
          | _ => ret result
          end
      end
  | _ => raise (EthereumRpcError "Ethereum RPC returned a non-object response")
  end.

(** [next(self._ids)], counted from the first call logged. *)
Definition next_request_id (calls : list rpc_call) : Z :=
  match List.rev calls with
  | c :: _ => c.(rc_id) + 1
  | [] => 1
  end.

(** [client.post]: the request is sent whatever is answered. *)
Definition post (rpc : rpc_client) (c : rpc_call) : Meth http_answer :=
  before <- gets s_calls ;;
  modify (fun s => s <|s_calls := s.(s_calls) ++ [c]|>) ;;;
  ret (rpc.(rpc_node) before c).

(** The loop of [_call], with [retries] attempts left after this one. *)
Fixpoint attempt_call (rpc : rpc_client) (c : rpc_call) (allow_none : bool)
    (retries : nat) : Meth json :=
  answer <- post rpc c ;;
  match answer with
  | HttpResponse body => validated_rpc_result body c.(rc_id) c.(rc_method) allow_none
  | HttpFails e => raise e
  | HttpUnavailable =>
      match retries with
      | O => raise (EthereumRpcError ("Ethereum RPC " +:+ c.(rc_method) +:+ " request failed"))
      | S retries' => attempt_call rpc c allow_none retries'
      end
  end.
Definition call (rpc : rpc_client) (method : string) (params : list json)
    (allow_none : bool) : Meth json :=
  request_id <- gets (fun s => next_request_id s.(s_calls)) ;;
  attempt_call rpc (mk_rpc_call request_id method params) allow_none rpc.(rpc_retries).

Definition chain_id (rpc : rpc_client) : Meth Z :=
  r <- call rpc "eth_chainId" [] false ;; quantity (Some r) "chain ID".
Definition assert_chain_id (rpc : rpc_client) (expected_chain_id : Z) : Meth unit :=
  n <- chain_id rpc ;;
  throw_if (n != expected_chain_id)
    (EthereumRpcError "Ethereum RPC chain ID does not match configuration").
Definition block_number (rpc : rpc_client) : Meth Z :=
  r <- call rpc "eth_blockNumber" [] false ;; quantity (Some r) BLOCK_NUMBER_FIELD.

(** [sorted({...})] of strings *)
Definition sorted_set (l : list string) : list string :=
  sort_by String.leb (remove_dups l).
(** [[f(x) for x in l]] *)
Definition map_each {A B} (l : list A) (f : A -> Meth B) : Meth (list B) :=
  fold_each l [] (fun acc x => y <- f x ;; ret (acc ++ [y])).

Definition log_filter (from_block to_block : Z) (contract : string)
    (destinations : list string) : json :=
  JObj [("fromBlock", JStr (hex from_block)); ("toBlock", JStr (hex to_block));
        ("address", JStr contract);
        ("topics", JList [JStr TRANSFER_TOPIC; JNull; JList (map JStr destinations)])].
Definition is_object (j : json) : bool := match j with JObj _ => true | _ => false end.
Definition get_logs (rpc : rpc_client) (from_block to_block : Z) (contract_address : string)
    (destination_addresses : list string) : Meth (list json) :=
  throw_if ((from_block <? 0) || (to_block <? from_block))
    (EthereumRpcError "Ethereum log block range is invalid") ;;;
  topics <- map_each destination_addresses address_topic ;;
  match sorted_set topics with
  | [] => ret []
  | destinations =>
      contract <- normalize_eth_address (JStr contract_address) ;;
      result <- call rpc "eth_getLogs"
        [log_filter from_block to_block contract destinations] false ;;
      match result with
      | JList items =>
          if forallb is_object items then ret items
          else raise (EthereumRpcError "Ethereum RPC returned malformed logs")
      | _ => raise (EthereumRpcError "Ethereum RPC returned malformed logs")
      end
  end.

Definition get_block_by_number (rpc : rpc_client) (number : Z) : Meth dict :=
  result <- call rpc "eth_getBlockByNumber" [JStr (hex number); JBool false] false ;;
  match result with
  | JObj block =>
      hash (dict_get "hash" block) "block hash" ;;;
      quantity (dict_get "number" block) BLOCK_NUMBER_FIELD ;;;
      quantity (dict_get "timestamp" block) "block timestamp" ;;;
      ret block
  | _ => raise (EthereumRpcError "Ethereum RPC returned a malformed block")
  end.

Definition get_transaction_receipt (rpc : rpc_client) (tx_hash : string)
  : Meth (option dict) :=
  h <- hash (Some (JStr tx_hash)) "transaction hash" ;;
  result <- call rpc "eth_getTransactionReceipt" [JStr h] true ;;
  match result with
  | JNull => ret None
  | JObj receipt =>
      hash (dict_get "transactionHash" receipt) "receipt transaction hash" ;;;
      hash (dict_get "blockHash" receipt) "receipt block hash" ;;;
      quantity (dict_get "blockNumber" receipt) "receipt block number" ;;;
      quantity (dict_get "status" receipt) "receipt status" ;;;
      ret (Some receipt)
  | _ => raise (EthereumRpcError "Ethereum RPC returned a malformed receipt")
  end.

Definition get_balance (rpc : rpc_client) (address : string) : Meth Z :=
  a <- normalize_eth_address (JStr address) ;;
  r <- call rpc "eth_getBalance" [JStr a; JStr "latest"] false ;;
  quantity (Some r) "balance".
Definition get_transaction_count (rpc : rpc_client) (address : string) : Meth Z :=
  a <- normalize_eth_address (JStr address) ;;
  r <- call rpc "eth_getTransactionCount" [JStr a; JStr "pending"] false ;;
  quantity (Some r) "transaction count".
Definition gas_price (rpc : rpc_client) : Meth Z :=
  r <- call rpc "eth_gasPrice" [] false ;; quantity (Some r) "gas price".

(** Keys in a fixed set are re-encoded, the others kept. *)
Definition rpc_field (key : string) (value : json) : Meth json :=
  let bad what := EthereumRpcError ("Ethereum transaction " +:+ what +:+ " is invalid") in
  if existsb (String.eqb key) ["from"; "to"] then
    a <- normalize_eth_address value ;; ret (JStr a)
  else if existsb (String.eqb key) ["value"; "gas"; "gasPrice"; "nonce"] then
    match value with
    | JInt n => throw_if (n <? 0) (bad key) ;;; ret (JStr (hex n))
    | _ => raise (bad key)
    end
  else if key == "data" then
    match value with
    | JStr s => throw_if (negb (String.prefix "0x" s)) (bad "data") ;;; ret value
    | _ => raise (bad "data")
    end
  else ret value.
Definition rpc_transaction (transaction : dict) : Meth dict :=
  fold_each transaction [] (fun result kv =>
    v <- rpc_field kv.1 kv.2 ;; ret (dict_set kv.1 v result)).
Definition estimate_gas (rpc : rpc_client) (transaction : dict) : Meth Z :=
  t <- rpc_transaction transaction ;;
  r <- call rpc "eth_estimateGas" [JObj t] false ;;
  quantity (Some r) "gas estimate".

(** [raw.hex()], of the bytes of [raw] *)
Fixpoint hex_of_bytes (raw : string) : string :=
  match raw with
  | EmptyString => EmptyString
  | String c raw' => hexn 2 (Z.of_nat (nat_of_ascii c)) (hex_of_bytes raw')
  end.
Definition send_raw_transaction (rpc : rpc_client) (raw_transaction : string)
  : Meth string :=
  throw_if (str_empty raw_transaction)
    (EthereumRpcError "Signed Ethereum transaction is invalid") ;;;
  result <- call rpc "eth_sendRawTransaction"
    [JStr ("0x" +:+ hex_of_bytes raw_transaction)] false ;;
  hash (Some result) "submitted transaction hash".
End Ethereum.

(** * Block ranges *)

(** The loop of [iter_block_chunks] *)
Equations? chunks_from (current end_block : Z) (chunk_size : positive) : list (Z * Z)
  by wf (Z.to_nat (end_block + 1 - current)) lt :=
  chunks_from current end_block chunk_size with Z_le_gt_dec current end_block => {
    | left _ :=
        let chunk_end := Z.min end_block (current + Zpos chunk_size - 1) in
        (current, chunk_end) :: chunks_from (chunk_end + 1) end_block chunk_size;
    | right _ := [] }.
Proof. lia. Defined.

Definition iter_block_chunks (start_block end_block chunk_size : Z)
  : Meth (list (Z * Z)) :=
  throw_if ((start_block <? 0) || (end_block <? start_block) || (chunk_size <=? 0))
    (ValueError "Invalid Ethereum block chunk range") ;;;
  ret (chunks_from start_block end_block (Z.to_pos chunk_size)).

(** * Digits *)

Lemma str_strip_none s : str_all (fun c => negb (is_space c)) s = true -> str_strip s = s.
Proof.
  assert (forall t, str_all (fun c => negb (is_space c)) t = true -> str_rstrip t = t) as Hr.
  { induction t as [|c t IH]; [done|]. cbn. intros [Hc Ht]%andb_true_iff.
    rewrite (IH Ht). destruct t; [|done]. by destruct (is_space c). }
  intros Hs. pose proof (Hr s Hs) as Hrs. unfold str_strip.
  destruct s as [|c s]; [done|]. cbn [str_all str_lstrip] in *.
  apply andb_true_iff in Hs as [Hc _]. by destruct (is_space c).
Qed.

Lemma str_drop_length k s t : String.length s = k -> str_drop k (s +:+ t) = t.
Proof. intros <-. induction s as [|c s IH]; [by destruct t|]. exact IH. Qed.
Lemma string_app_assoc r s t : r +:+ (s +:+ t) = (r +:+ s) +:+ t.
Proof. induction r as [|c r IH]; [done|]. exact (f_equal (String c) IH). Qed.
Lemma zeros_length k s : String.length (zeros k s) = (k + String.length s)%nat.
Proof. induction k as [|k IH]; [done|]. cbn. by rewrite IH. Qed.
Lemma zeros_app k s : zeros k s = zeros k "" +:+ s.
Proof. induction k as [|k IH]; [done|]. cbn. by rewrite IH. Qed.
Lemma str_take_app s t : str_take (String.length s) (s +:+ t) = s.
Proof. induction s as [|c s IH]; [by destruct t|]. exact (f_equal (String c) IH). Qed.

Lemma hex_char_ok n : 0 <= n < 16 ->
  is_hex (hex_char n) = true /\ hex_value (hex_char n) = n
  /\ lower_ascii (hex_char n) = hex_char n.
Proof. intros Hn. each_digit n 16. Qed.

Lemma hexn_length k : forall n t, String.length (hexn k n t) = (k + String.length t)%nat.
Proof. induction k as [|k IH]; intros n t; [done|]. cbn. rewrite IH. cbn. lia. Qed.

Lemma hexn_hex k : forall n t, str_all is_hex t = true -> str_all is_hex (hexn k n t) = true.
Proof.
  induction k as [|k IH]; intros n t Ht; [done|]. cbn. apply IH. cbn.
  rewrite Ht, andb_true_r. by apply hex_char_ok, Z.mod_pos_bound.
Qed.

Lemma hexn_lower k : forall n t, str_lower t = t -> str_lower (hexn k n t) = hexn k n t.
Proof.
  induction k as [|k IH]; intros n t Ht; [done|]. cbn. apply IH. cbn.
  f_equal; [|done]. by apply hex_char_ok, Z.mod_pos_bound.
Qed.

Lemma hexn_value k : forall n acc t,
  hex_digits acc (hexn k n t) = hex_digits (acc * 16 ^ Z.of_nat k + n mod 16 ^ Z.of_nat k) t.
Proof.
  induction k as [|k IH]; intros n acc t.
  - cbn [hexn]. rewrite Z.pow_0_r, Z.mod_1_r. f_equal. lia.
  - cbn [hexn]. rewrite IH. cbn [hex_digits].
    destruct (hex_char_ok (n mod 16)) as (Hh & Hv & _); [by apply Z.mod_pos_bound|]. rewrite Hh, Hv. f_equal.
    rewrite Nat2Z.inj_succ, Z.pow_succ_r by lia. rewrite Z.rem_mul_r by lia. nia.
Qed.

Lemma hex_not_space c : is_hex c = true -> negb (is_space c) = true.
Proof. by destruct c as [[] [] [] [] [] [] [] []]. Qed.
Lemma hex_not_sign c : is_hex c = true ->
  Ascii.eqb c "-"%char = false /\ Ascii.eqb c "+"%char = false
  /\ Ascii.eqb c "_"%char = false /\ Ascii.eqb c "x"%char = false
  /\ Ascii.eqb c "X"%char = false.
Proof. by destruct c as [[] [] [] [] [] [] [] []]. Qed.

Lemma prefix_head2 a b c d s :
  String.prefix (String a (String b "")) (String c (String d s))
  = Ascii.eqb c a && Ascii.eqb d b.
Proof.
  cbn. destruct (Ascii.ascii_dec a c) as [->|Hn].
  - rewrite Ascii.eqb_refl. cbn. destruct (Ascii.ascii_dec b d) as [->|Hn].
    + rewrite Ascii.eqb_refl. by destruct s.
    + symmetry. apply Ascii.eqb_neq. congruence.
  - symmetry. apply andb_false_iff. left. apply Ascii.eqb_neq. congruence.
Qed.

Lemma prefixed_plain s : str_all is_hex s = true -> prefixed_hex s = unsigned_hex s.
Proof.
  intros Hs. unfold prefixed_hex. destruct s as [|c [|d s]]; [done| |].
  - assert (forall a b, String.prefix (String a (String b "")) (String c "") = false) as Hp.
    { intros a b. cbn. by destruct (Ascii.ascii_dec a c). }
    by rewrite !Hp.
  - rewrite !prefix_head2. cbn in Hs. repeat apply andb_true_iff in Hs as [? Hs].
    destruct (hex_not_sign d) as (_ & _ & _ & -> & ->); [done|]. by rewrite !andb_false_r.
Qed.

(** [int(s, 16)] of plain digits is their value. *)
Lemma py_int16_plain c s :
  str_all is_hex (String c s) = true -> py_int16 (String c s) = hex_digits 0 (String c s).
Proof.
  intros Hs. unfold py_int16.
  rewrite str_strip_none by (eapply str_all_impl; [apply hex_not_space|done]).
  assert (is_hex c = true) as Hc by (cbn in Hs; by apply andb_true_iff in Hs as [? _]).
  destruct (hex_not_sign c Hc) as (-> & -> & _).
  rewrite (prefixed_plain _ Hs). unfold unsigned_hex. by rewrite Hc.
Qed.

Lemma py_int16_hexn k n : 0 <= n < 16 ^ Z.of_nat (S k) -> py_int16 (hexn (S k) n "") = Some n.
Proof.
  intros Hn. pose proof (hexn_hex (S k) n "" eq_refl) as Hh.
  pose proof (hexn_length (S k) n "") as Hl. pose proof (hexn_value (S k) n 0 "") as Hv.
  destruct (hexn (S k) n "") as [|c s]; [done|]. rewrite (py_int16_plain c s Hh), Hv. cbn.
  by rewrite Z.mod_small by lia.
Qed.

Lemma hex_length_enough n : 0 <= n -> n < 16 ^ Z.of_nat (hex_length n).
Proof.
  intros Hn. unfold hex_length. pose proof (Z.log2_nonneg n) as Hl.
  pose proof (Z.div_pos (Z.log2 n) 4 Hl ltac:(lia)) as Hd.
  pose proof (Z.mul_succ_div_gt (Z.log2 n) 4 ltac:(lia)) as Hgt.
  rewrite Z2Nat.id by lia. change 16 with (2 ^ 4). rewrite <- Z.pow_mul_r by lia.
  destruct (Z.eq_dec n 0) as [->|]; [done|].
  pose proof (Z.log2_spec n ltac:(lia)) as [_ Hlt].
  eapply Z.lt_le_trans; [exact Hlt|]. apply Z.pow_le_mono_r; lia.
Qed.
Lemma hex_length_pos n : exists k, hex_length n = S k.
Proof.
  unfold hex_length. exists (Z.to_nat (Z.log2 n / 4)).
  pose proof (Z.div_pos (Z.log2 n) 4 (Z.log2_nonneg n) ltac:(lia)). lia.
Qed.

(** [int(hex(n), 16) = n] *)
Lemma hex_roundtrip n : 0 <= n -> py_int16 (hex n) = Some n.
Proof.
  intros Hn. unfold py_int16, hex. destruct (hex_length_pos n) as [k Hk].
  pose proof (hexn_hex (hex_length n) n "" eq_refl) as Hh.
  pose proof (hexn_length (hex_length n) n "") as Hl.
  pose proof (hexn_value (hex_length n) n 0 "") as Hv.
  rewrite Z.mod_small in Hv by (split; [done|by apply hex_length_enough]).
  rewrite Hk in *. destruct (hexn (S k) n "") as [|c s]; [done|].
  rewrite str_strip_none.
  2: { change (str_all (fun c => negb (is_space c)) (String c s) = true).
       by eapply str_all_impl; [apply hex_not_space|]. }
  change (prefixed_hex (String "0" (String "x" (String c s))) = Some n).
  unfold prefixed_hex.
  change (String.prefix "0x" (String "0" (String "x" (String c s)))) with true.
  cbn [orb str_drop].
  assert (is_hex c = true) as Hc by (cbn in Hh; by apply andb_true_iff in Hh as [? _]).
  destruct (hex_not_sign c Hc) as (_ & _ & -> & _). unfold unsigned_hex. rewrite Hc, Hv.
  done.
Qed.

(** ** Decimal digits *)

Lemma digits_value_app p s : forall acc v,
  str_all is_digit p = true -> digits_value acc p = Some v ->
  digits_value acc (p +:+ s) = digits_value v s.
Proof.
  induction p as [|c p IH]; intros acc v Hp Hv; [by injection Hv as ->|].
  cbn [str_all] in Hp. apply andb_true_iff in Hp as [Hc Hp].
  change (String c p +:+ s) with (String c (p +:+ s)). cbn [digits_value] in *.
  rewrite Hc in *. by apply IH.
Qed.

Lemma pretty_N_go_digits x : forall s,
  str_all is_digit s = true ->
  str_all is_digit (pretty_N_go x s) = true
  /\ digits_value 0 (pretty_N_go x s) = digits_value (Z.of_N x) s.
Proof.
  induction (N.lt_wf_0 x) as [x _ IH]. intros s Hs.
  destruct (decide (0 < x)%N) as [Hx|Hx].
  - rewrite pretty_N_go_step by done.
    destruct (pretty_digit (x mod 10)%N) as [Hd Hv]; [by apply N.mod_lt|].
    destruct (IH (x / 10)%N (N.div_lt x 10 Hx eq_refl)
                (String (pretty_N_char (x mod 10)) s)) as [Ha Hval].
    { cbn. by rewrite Hd. }
    split; [done|]. rewrite Hval. cbn [digits_value]. rewrite Hd, Hv. f_equal.
    rewrite N2Z.inj_div, N2Z.inj_mod. pose proof (Z.div_mod (Z.of_N x) 10). lia.
  - assert (x = 0%N) as -> by lia. by rewrite pretty_N_go_0.
Qed.

Lemma pretty_N_digits x :
  str_all is_digit (pretty x) = true /\ digits_value 0 (pretty x) = Some (Z.of_N x)
  /\ exists c s, pretty x = String c s.
Proof.
  unfold pretty, pretty_N. destruct (decide (x = 0)%N) as [->|Hx]; [by eauto|].
  destruct (pretty_N_go_digits x "" eq_refl) as [Ha Hv]. repeat split; [done..|].
  destruct (pretty_N_go x "") as [|c s] eqn:E; [|eauto].
  cbn in Hv. injection Hv as Hv. lia.
Qed.

(** [int(str(n)) = n], with all characters digits. *)
Lemma pretty_digits n : 0 <= n ->
  str_all is_digit (pretty n) = true /\ digits_value 0 (pretty n) = Some n
  /\ exists c s, pretty n = String c s.
Proof.
  intros Hn. destruct n as [|p|p]; [by eauto| |lia].
  destruct (pretty_N_digits (Npos p)) as (Ha & Hv & c & s & E).
  unfold pretty, pretty_Z, pretty, pretty_positive. rewrite E in *. eauto.
Qed.

Lemma unsigned_int_pretty n : 0 <= n -> unsigned_int (pretty n) = Some n.
Proof.
  intros Hn. destruct (pretty_digits n Hn) as (Ha & Hv & c & s & E). rewrite E in *.
  unfold unsigned_int. cbn in Ha. apply andb_true_iff in Ha as [-> _]. exact Hv.
Qed.

Lemma digits_zeros k s : digits_value 0 (zeros k s) = digits_value 0 s.
Proof. induction k as [|k IH]; [done|]. exact IH. Qed.

Lemma unsigned_int_padded w n : 0 <= n -> unsigned_int (dec_padded w n) = Some n.
Proof.
  intros Hn. unfold dec_padded. destruct (w - _)%nat as [|k] eqn:E;
    [by apply unsigned_int_pretty|].
  destruct (pretty_digits n Hn) as (_ & Hv & _).
  change (digits_value 0 (zeros (S k) (pretty n)) = Some n). by rewrite digits_zeros.
Qed.

(** A numeral's length bounds its value, and the other way round. *)
Lemma pretty_N_go_length x : forall s k,
  (x < 10 ^ N.of_nat k)%N -> (String.length (pretty_N_go x s) <= k + String.length s)%nat.
Proof.
  induction (N.lt_wf_0 x) as [x _ IH]. intros s k Hk.
  destruct (decide (0 < x)%N) as [Hx|Hx].
  - rewrite pretty_N_go_step by done. destruct k as [|k]; [cbn in Hk; lia|].
    rewrite Nat2N.inj_succ, N.pow_succ_r' in Hk.
    specialize (IH (x / 10)%N (N.div_lt x 10 Hx eq_refl)
                  (String (pretty_N_char (x mod 10)) s) k).
    cbn [String.length] in IH. apply (Nat.le_trans _ _ _ (IH ltac:(apply N.Div0.div_lt_upper_bound; lia))). lia.
  - assert (x = 0%N) as -> by lia. rewrite pretty_N_go_0. lia.
Qed.

Lemma dec_padded_length w n :
  (0 < w)%nat -> 0 <= n < 10 ^ Z.of_nat w -> String.length (dec_padded w n) = w.
Proof.
  intros Hw Hn. unfold dec_padded. rewrite zeros_length.
  enough (String.length (pretty n) <= w)%nat by lia.
  destruct n as [|p|p]; [cbn; lia| |lia].
  change (String.length (pretty (Npos p)) <= w)%nat. unfold pretty, pretty_N.
  rewrite decide_False by done.
  pose proof (pretty_N_go_length (Npos p) "" w) as Hl. cbn [String.length] in Hl.
  rewrite Nat.add_0_r in Hl. apply Hl. apply N2Z.inj_lt. rewrite N2Z.inj_pow. lia.
Qed.

(** ** Amounts *)

(** The text before and after the first point. *)
Fixpoint split_point (s : string) : string * string :=
  match s with
  | EmptyString => (EmptyString, EmptyString)
  | String c s' =>
      if Ascii.eqb c "."%char then (EmptyString, s')
      else let (w, f) := split_point s' in (String c w, f)
  end.

(** How a wallet reads an amount of a token with so many decimals. *)
Definition read_amount (decimals : Z) (s : string) : option Z :=
  if decimals =? 0 then unsigned_int s
  else
    let (whole, fraction) := split_point s in
    if Nat.eqb (String.length fraction) (Z.to_nat decimals) then
      match unsigned_int whole, unsigned_int fraction with
      | Some w, Some f => Some (w * 10 ^ decimals + f)
      | _, _ => None
      end
    else None.

Lemma split_point_digits p f :
  str_all is_digit p = true -> split_point (p +:+ String "." f) = (p, f).
Proof.
  induction p as [|c p IH]; [done|]. cbn [str_all]. intros [Hc Hp]%andb_true_iff.
  change (String c p +:+ String "." f) with (String c (p +:+ String "." f)).
  cbn [split_point]. rewrite (IH Hp).
  assert (Ascii.eqb c "."%char = false) as ->; [|done].
  by destruct c as [[] [] [] [] [] [] [] []].
Qed.

(** The amounts shown to payers are exact.  The amount of a deposit, printed
    with the token's decimals, reads back as the same number of token units; an
    invoice of [cents] asks for exactly [cents] hundredths of a token, so its
    printed amount reads back as that; and amounts that cannot be printed are
    refused. *)
Theorem token_amounts_roundtrip units cents decimals s :
  (0 <= units -> 0 <= decimals ->
     exists text, format_token_units units decimals s = (Ok text, s)
                  /\ read_amount decimals text = Some units)
  /\ (0 < cents -> 2 <= decimals ->
     exists n, invoice_cents_to_token_units cents decimals s = (Ok n, s)
               /\ 100 * n = cents * 10 ^ decimals)
  /\ (units < 0 \/ decimals < 0 ->
     exists msg, format_token_units units decimals s = (Raise (UsdtDepositError msg), s))
  /\ (cents <= 0 \/ decimals < 2 ->
     exists msg, invoice_cents_to_token_units cents decimals s
                 = (Raise (UsdtDepositError msg), s)).
Proof.
  unfold format_token_units, invoice_cents_to_token_units, bind, throw_if, ret, raise.
  repeat split.
  - intros Hu Hd. assert ((units <? 0) = false) as -> by lia.
    assert ((decimals <? 0) = false) as -> by lia. unfold read_amount.
    destruct (Z.eqb_spec decimals 0) as [->|Hne].
    + eexists. split; [done|]. rewrite Z.pow_0_r, Z.div_1_r. by apply unsigned_int_pretty.
    + eexists. split; [done|].
      pose proof (Z.pow_pos_nonneg 10 decimals ltac:(lia) Hd) as Hpos.
      pose proof (Z.mod_pos_bound units (10 ^ decimals) Hpos) as Hm.
      pose proof (Z.div_pos units (10 ^ decimals) Hu Hpos) as Hq.
      change (?a +:+ "." +:+ ?b) with (a +:+ String "." b).
      rewrite split_point_digits by apply (pretty_digits _ Hq).
      rewrite dec_padded_length by (rewrite ?Z2Nat.id by lia; lia).
      rewrite Nat.eqb_refl, unsigned_int_pretty, unsigned_int_padded by lia.
      f_equal. pose proof (Z.div_mod units (10 ^ decimals)). lia.
  - intros Hc Hd. assert ((cents <=? 0) = false) as -> by lia.
    assert ((decimals <? 2) = false) as -> by lia. eexists. split; [done|].
    replace decimals with (2 + (decimals - 2)) at 2 by lia.
    rewrite Z.pow_add_r by lia. change (10 ^ 2) with 100. ring.
  - intros Hbad. destruct (Z.ltb_spec units 0); [by eexists|].
    assert ((decimals <? 0) = true) as -> by lia. by eexists.
  - intros Hbad. destruct (Z.leb_spec cents 0); [by eexists|].
    assert ((decimals <? 2) = true) as -> by lia. by eexists.
Qed.

Lemma token_amounts_roundtrip_witness :
  exists text, format_token_units 1050000 6 (session_of sample_db 0)
               = (Ok text, session_of sample_db 0)
  /\ read_amount 6 text = Some 1050000.
Proof. apply (token_amounts_roundtrip 1050000 105 6); lia. Defined.

(** * Transfers *)

Section Transfers.
Context {L : EthLib} `{!AddressLaws L}.

(** A checksummed address. *)
Definition checksummed (a : string) : Prop :=
  is_address a = true /\ to_checksum_address a = a.
(** A 32-byte value in lower-case hexadecimal. *)
Definition is_hash (h : string) : Prop :=
  exists x, h = "0x" +:+ x /\ String.length x = 64%nat /\ str_all is_hex x = true
            /\ str_lower x = x.

Lemma lower_hex c : is_hex c = true -> is_hex (lower_ascii c) = true.
Proof. by destruct c as [[] [] [] [] [] [] [] []]. Qed.
Lemma str_lower_all s : str_all is_hex s = true -> str_all is_hex (str_lower s) = true.
Proof.
  induction s as [|c s IH]; [done|]. cbn. rewrite !andb_true_iff. intros [Hc Hs].
  split; [by apply lower_hex|auto].
Qed.
Lemma str_lower_length s : String.length (str_lower s) = String.length s.
Proof. induction s as [|c s IH]; [done|]. exact (f_equal S IH). Qed.

Lemma checksummed_shape a : checksummed a ->
  exists h, a = "0x" +:+ h /\ String.length h = 40%nat /\ str_all is_hex h = true.
Proof.
  intros [Ha Hc]. destruct (checksum_shape a Ha) as (h & Hh & Hl & Hx).
  rewrite Hc in Hh. eauto.
Qed.

Lemma prefix_0x t : String.prefix "0x" ("0x" +:+ t) = true.
Proof. by destruct t. Qed.

Lemma strip_0x h : str_all is_hex h = true -> str_strip ("0x" +:+ h) = "0x" +:+ h.
Proof.
  intros Hh. apply str_strip_none.
  change (str_all (fun c => negb (is_space c)) h = true).
  by eapply str_all_impl; [apply hex_not_space|].
Qed.

Lemma normalize_checksummed a s :
  checksummed a -> normalize_eth_address (JStr a) s = (Ok a, s).
Proof.
  intros Ha. destruct (checksummed_shape a Ha) as (h & -> & _ & Hx). destruct Ha as [Hv Hc].
  unfold normalize_eth_address. rewrite strip_0x by done. rewrite Hv. unfold ret.
  by rewrite Hc.
Qed.

(** A node writes addresses in lower case. *)
Lemma normalize_lower h s :
  checksummed ("0x" +:+ h) -> str_all is_hex h = true ->
  normalize_eth_address (JStr ("0x" +:+ str_lower h)) s = (Ok ("0x" +:+ h), s).
Proof.
  intros [Hv Hc] Hx. unfold normalize_eth_address. rewrite strip_0x by by apply str_lower_all.
  change ("0x" +:+ str_lower h) with (str_lower ("0x" +:+ h)).
  rewrite lower_valid by done. unfold ret. by rewrite checksum_lower, Hc.
Qed.

Definition topic_of (a : string) : string := "0x" +:+ zeros 24 (str_lower (str_drop 2 a)).

Lemma address_topic_ok a s : checksummed a -> address_topic a s = (Ok (topic_of a), s).
Proof. intros Ha. unfold address_topic, bind. by rewrite normalize_checksummed. Qed.

Lemma topic_address_ok a s :
  checksummed a -> topic_address (JStr (topic_of a)) s = (Ok a, s).
Proof.
  intros Ha. destruct (checksummed_shape a Ha) as (h & -> & Hl & Hx).
  unfold topic_of. change (str_drop 2 ("0x" +:+ h)) with h.
  assert (String.length (str_lower h) = 40%nat) as Hl' by by rewrite str_lower_length.
  unfold topic_address, bind, throw_if, try_catch, str_last.
  assert (String.length ("0x" +:+ zeros 24 (str_lower h)) = 66%nat) as Hlen.
  { change (S (S (String.length (zeros 24 (str_lower h)))) = 66%nat).
    by rewrite zeros_length, Hl'. }
  rewrite Hlen. cbn [Nat.eqb negb orb].
  rewrite prefix_0x. cbn [negb orb].
  change (str_drop 2 ("0x" +:+ zeros 24 (str_lower h))) with (zeros 24 (str_lower h)).
  change (str_take 24 (zeros 24 (str_lower h))) with (zeros 24 ""). rewrite py_eq_refl.
  cbn [negb Nat.sub]. unfold ret at 1.
  change (str_drop 26 ("0x" +:+ zeros 24 (str_lower h))) with (str_lower h).
  by rewrite normalize_lower.
Qed.

Lemma quantity_hex n field s : 0 <= n -> quantity (Some (JStr (hex n))) field s = (Ok n, s).
Proof.
  intros Hn. unfold quantity, bind, throw_if. unfold hex at 1. rewrite prefix_0x.
  cbn [negb]. unfold ret at 1. rewrite hex_roundtrip by done. cbn [unwrap]. unfold ret at 1.
  by assert ((n <? 0) = false) as -> by lia.
Qed.

Lemma hex_digits_total x : forall acc,
  str_all is_hex x = true -> exists v, hex_digits acc x = Some v.
Proof.
  induction x as [|c x IH]; intros acc; [by eauto|]. cbn.
  intros [-> Hx]%andb_true_iff. by apply IH.
Qed.

Lemma hash_ok h field s : is_hash h -> hash (Some (JStr h)) field s = (Ok h, s).
Proof.
  intros (x & -> & Hl & Hx & Hlow). unfold hash, bind, throw_if.
  change (String.length ("0x" +:+ x)) with (S (S (String.length x))). rewrite Hl.
  rewrite prefix_0x. cbn [Nat.eqb negb orb].
  unfold ret at 1. change (str_drop 2 ("0x" +:+ x)) with x.
  destruct x as [|c x]; [done|]. rewrite py_int16_plain by done.
  destruct (hex_digits_total (String c x) 0 Hx) as [v ->]. cbn [unwrap].
  unfold ret. by change (str_lower ("0x" +:+ String c x)) with ("0x" +:+ str_lower (String c x)); rewrite Hlow.
Qed.

(** The log a node reports for a transfer of the token. *)
Definition transfer_log (x : decoded_transfer) : json :=
  JObj [("address", JStr x.(dt_contract_address));
        ("topics", JList [JStr TRANSFER_TOPIC; JStr (topic_of x.(dt_from_address));
                          JStr (topic_of x.(dt_to_address))]);
        ("data", JStr ("0x" +:+ hex64 x.(dt_token_units)));
        ("removed", JBool x.(dt_removed));
        ("transactionHash", JStr x.(dt_tx_hash)); ("logIndex", JStr (hex x.(dt_log_index)));
        ("blockNumber", JStr (hex x.(dt_block_number)));
        ("blockHash", JStr x.(dt_block_hash))].

(** The values an ERC-20 transfer can have. *)
Definition wf_transfer (x : decoded_transfer) : Prop :=
  is_hash x.(dt_tx_hash) /\ 0 <= x.(dt_log_index) /\ 0 <= x.(dt_block_number)
  /\ is_hash x.(dt_block_hash) /\ checksummed x.(dt_contract_address)
  /\ checksummed x.(dt_from_address) /\ checksummed x.(dt_to_address)
  /\ 0 < x.(dt_token_units) < 2 ^ 256.

Lemma hex_length_64 n : 0 < n < 2 ^ 256 -> Nat.max 64 (hex_length n) = 64%nat.
Proof.
  intros Hn. apply Nat.max_l. unfold hex_length.
  assert (Z.log2 n < 256) as Hl by (apply Z.log2_lt_pow2; lia).
  assert (Z.log2 n / 4 < 64) by (apply Z.div_lt_upper_bound; lia). lia.
Qed.

Lemma log_units_ok log n s :
  dict_get "data" log = Some (JStr ("0x" +:+ hex64 n)) -> 0 < n < 2 ^ 256 ->
  log_units log s = (Ok n, s).
Proof.
  intros Hd Hn. unfold log_units. rewrite Hd. unfold bind, throw_if, hex64.
  rewrite hex_length_64 by done.
  change (String.length ("0x" +:+ ?x)) with (S (S (String.length x))).
  rewrite hexn_length. cbn [String.length Nat.eqb negb orb Nat.add].
  rewrite prefix_0x. cbn [negb]. unfold ret at 1.
  change (str_drop 2 ("0x" +:+ hexn 64 n "")) with (hexn 64 n "").
  rewrite py_int16_hexn by (change (16 ^ Z.of_nat 64) with (2 ^ 256); lia). cbn [unwrap].
  unfold ret at 1. by assert ((n <=? 0) = false) as -> by lia.
Qed.

Lemma log_contract_ok a kv s :
  checksummed a -> log_contract (("address", JStr a) :: kv) s = (Ok a, s).
Proof.
  intros Ha. unfold log_contract. change (dict_get "address" _) with (Some (JStr a)).
  unfold bind, unwrap, ret, try_catch. by rewrite normalize_checksummed.
Qed.

Lemma transfer_topics_ok a t1 t2 kv s :
  transfer_topics (("address", a) :: ("topics", JList [JStr TRANSFER_TOPIC; t1; t2]) :: kv) s
  = (Ok (t1, t2), s).
Proof.
  unfold transfer_topics.
  change (dict_get "topics" _) with (Some (JList [JStr TRANSFER_TOPIC; t1; t2])).
  cbv zeta iota beta. by rewrite py_eq_refl.
Qed.

(** C34. The watcher reads what a node reports: decoding the log of a transfer gives
    back exactly that transfer, for all addresses, amounts and positions.  And
    the call the sweeper submits carries the treasury and the amount: its
    first word reads back as the destination, its second as the number of
    token units. *)
Theorem transfers_roundtrip x s :
  wf_transfer x ->
  decode_transfer_log (transfer_log x) x.(dt_contract_address) s = (Ok x, s)
  /\ exists data,
       encode_erc20_transfer x.(dt_to_address) x.(dt_token_units) s = (Ok data, s)
       /\ String.length data = 138%nat
       /\ str_take 10 data = "0x" +:+ ERC20_TRANSFER_SELECTOR
       /\ topic_address (JStr ("0x" +:+ str_take 64 (str_drop 10 data))) s
          = (Ok x.(dt_to_address), s)
       /\ py_int16 (str_drop 74 data) = Some x.(dt_token_units).
Proof.
  intros (Ht & Hli & Hbn & Hbh & Hc & Hf & Hto & Hu). split.
  - unfold decode_transfer_log, transfer_log.
    erewrite bind_run by by apply log_contract_ok.
    erewrite bind_run by by apply normalize_checksummed.
    rewrite py_eq_refl. cbn [negb throw_if]. erewrite bind_run by reflexivity.
    erewrite bind_run by by apply transfer_topics_ok.
    erewrite bind_run by by apply log_units_ok.
    erewrite bind_run by reflexivity.
    do 2 (erewrite bind_run; [|first [by apply hash_ok|by apply quantity_hex]]).
    do 2 (erewrite bind_run; [|first [by apply hash_ok|by apply quantity_hex]]).
    do 2 (erewrite bind_run by by apply topic_address_ok). by destruct x.
  - destruct (checksummed_shape _ Hto) as (h & Hh & Hl & Hx).
    pose proof (topic_address_ok _ s Hto) as Htop. unfold topic_of in Htop.
    unfold encode_erc20_transfer. assert ((dt_token_units x <=? 0) = false) as -> by lia.
    cbn [throw_if]. erewrite bind_run by reflexivity.
    erewrite bind_run by by apply normalize_checksummed.
    rewrite Hh in *. change (str_drop 2 ("0x" +:+ h)) with h in *.
    unfold hex64. rewrite hex_length_64 by done.
    set (low := str_lower h) in *. set (w := hexn 64 _ "").
    assert (String.length low = 40%nat) as Hlow by (by subst low; rewrite str_lower_length).
    assert (String.length w = 64%nat) as Hw by (by subst w; rewrite hexn_length).
    eexists. split; [reflexivity|]. repeat split.
    + change (10 + String.length (zeros 24 (low +:+ w)) = 138)%nat.
      by rewrite zeros_length, string_length_app, Hlow, Hw.
    + change (str_take 64 (str_drop 10 _)) with (str_take 64 (zeros 24 (low +:+ w))).
      rewrite (zeros_app 24 low) in Htop. rewrite (zeros_app 24 (low +:+ w)), string_app_assoc.
      replace 64%nat with (String.length (zeros 24 "" +:+ low))
        by (by rewrite string_length_app, zeros_length, Hlow).
      by rewrite str_take_app.
    + change (str_drop 74 _) with (str_drop 64 (zeros 24 (low +:+ w))).
      rewrite (zeros_app 24 (low +:+ w)), string_app_assoc.
      rewrite str_drop_length by by rewrite string_length_app, zeros_length, Hlow.
      apply py_int16_hexn. change (16 ^ Z.of_nat 64) with (2 ^ 256). lia.
Qed.
End Transfers.

(** * A concrete library, for evaluation *)

(** The lower-case spelling stands for the checksummed one, and a node's
    accounts sign nothing. *)
Definition plain_address (a : string) : bool :=
  Nat.eqb (String.length a) 42 && String.prefix "0x" a && str_all is_hex (str_drop 2 a).
Definition plain_account (a : string) : local_account :=
  mk_local_account a (fun _ => Ok (Some a)).
#[export] Instance plain_lib : EthLib := {
  is_address := plain_address;
  to_checksum_address := str_lower;
  keccak := fun text => text;
  from_mnemonic := fun mnemonic path => Ok (plain_account (mnemonic +:+ str_last 1 path));
  from_key := fun key => Ok (plain_account key);
  fernet_decrypt := fun key ciphertext => Some ciphertext
}.

Lemma str_lower_idem s : str_lower (str_lower s) = str_lower s.
Proof.
  unfold str_lower. induction s as [|c s IH]; [done|]. cbn. f_equal; [|done].
  by destruct c as [[] [] [] [] [] [] [] []].
Qed.
Lemma plain_address_shape a :
  plain_address a = true <->
  exists h, a = "0x" +:+ h /\ String.length h = 40%nat /\ str_all is_hex h = true.
Proof.
  unfold plain_address. split.
  - intros [[Hl Hp]%andb_true_iff Hx]%andb_true_iff. destruct a as [|c [|d h]]; [done..|].
    rewrite prefix_head2 in Hp. apply andb_true_iff in Hp as [->%Ascii.eqb_eq ->%Ascii.eqb_eq].
    exists h. repeat split; [|exact Hx]. apply Nat.eqb_eq in Hl. cbn in Hl. congruence.
  - intros (h & -> & Hl & Hx).
    change (Nat.eqb (S (S (String.length h))) 42 && String.prefix "0x" ("0x" +:+ h)
            && str_all is_hex h = true).
    by rewrite Hl, prefix_0x, Hx.
Qed.
Lemma plain_lower a : plain_address a = true -> plain_address (str_lower a) = true.
Proof.
  intros (h & -> & Hl & Hx)%plain_address_shape. apply plain_address_shape.
  exists (str_lower h). split; [done|]. by rewrite str_lower_length, str_lower_all.
Qed.
#[export] Instance plain_laws : AddressLaws plain_lib.
Proof.
  split; cbn [is_address to_checksum_address plain_lib].
  - intros a (h & -> & Hl & Hx)%plain_address_shape. exists (str_lower h).
    split; [done|]. by rewrite str_lower_length, str_lower_all.
  - apply plain_lower.
  - intros a _. apply str_lower_idem.
  - apply plain_lower.
  - intros a _. apply str_lower_idem.
Qed.

Definition sample_address (last : string) : string :=
  "0x000000000000000000000000000000000000000" +:+ last.
Definition sample_hash (last : string) : string :=
  "0x000000000000000000000000000000000000000000000000000000000000000" +:+ last.
Definition sample_transfer : decoded_transfer :=
  mk_decoded_transfer (sample_hash "a") 3 100 (sample_hash "b") (sample_address "c")
    (sample_address "d") (sample_address "e") 1050000 false.

Lemma transfers_roundtrip_witness :
  decode_transfer_log (transfer_log sample_transfer) (sample_address "c")
    (session_of sample_db 0)
  = (Ok sample_transfer, session_of sample_db 0).
Proof.
  refine (proj1 (transfers_roundtrip sample_transfer (session_of sample_db 0) _)).
  assert (forall c, In c ["a"; "b"] -> is_hash (sample_hash c)) as Hh.
  { intros c [<-|[<-|[]]]; eexists; (split; [reflexivity|]); by vm_compute. }
  assert (forall c, In c ["c"; "d"; "e"] -> checksummed (sample_address c)) as Hc.
  { intros c [<-|[<-|[<-|[]]]]; by vm_compute. }
  repeat split; first [lia | apply Hh | apply Hc | by vm_compute]; cbn; auto.
Defined.

(** * Block ranges *)

Lemma chunks_from_eq current end_block size :
  chunks_from current end_block size =
  if current <=? end_block then
    let chunk_end := Z.min end_block (current + Zpos size - 1) in
    (current, chunk_end) :: chunks_from (chunk_end + 1) end_block size
  else [].
Proof.
  rewrite (chunks_from_equation_1 current end_block size).
  unfold chunks_from_unfold_clause_1. destruct (Z_le_gt_dec _ _) as [H|H].
  - by assert ((current <=? end_block) = true) as -> by lia.
  - by assert ((current <=? end_block) = false) as -> by lia.
Qed.

Definition blocks_of (c : Z * Z) : list Z := seqZ c.1 (c.2 - c.1 + 1).

Lemma chunks_from_spec size n : forall current end_block,
  Z.to_nat (end_block + 1 - current) = n -> current <= end_block + 1 ->
  let chunks := chunks_from current end_block size in
  concat (map blocks_of chunks) = seqZ current (end_block + 1 - current)
  /\ Forall (fun c => current <= c.1 <= c.2 /\ c.2 <= end_block /\ c.2 - c.1 + 1 <= Zpos size) chunks
  /\ (Z.of_nat (length chunks) - 1) * Zpos size <= end_block - current
  /\ end_block + 1 - current <= Z.of_nat (length chunks) * Zpos size.
Proof.
  induction (lt_wf n) as [n _ IH]. intros current end_block Hn Hle. rewrite chunks_from_eq.
  destruct (Z.leb_spec current end_block) as [Hc|Hc]; cbv zeta.
  - set (e := Z.min end_block (current + Zpos size - 1)).
    assert (current <= e <= end_block) as He by lia.
    assert (e = end_block \/ e = current + Zpos size - 1) as Hcase by lia.
    destruct (IH (Z.to_nat (end_block + 1 - (e + 1))) ltac:(lia) (e + 1) end_block eq_refl
                ltac:(lia)) as (Hcat & Hall & Hlo & Hhi).
    set (rest := chunks_from (e + 1) end_block size) in *. cbn [map concat length].
    repeat split.
    + rewrite Hcat. unfold blocks_of. cbn [fst snd].
      replace (end_block + 1 - current) with ((e - current + 1) + (end_block - e)) by lia.
      rewrite (seqZ_app current (e - current + 1)) by lia. f_equal. f_equal; lia.
    + constructor; [cbn; lia|]. eapply Forall_impl; [exact Hall|]. cbn. intros; lia.
    + rewrite Nat2Z.inj_succ. destruct Hcase as [Hend|Hfull]; [|lia].
      assert (rest = []) as ->; [|cbn; lia].
      subst rest. rewrite chunks_from_eq.
      by assert ((e + 1 <=? end_block) = false) as -> by lia.
    + rewrite Nat2Z.inj_succ. lia.
  - cbn. repeat split; [by rewrite seqZ_nil by lia|constructor|lia|lia].
Qed.

(** The watcher's block ranges terminate and tile what is scanned: from a start
    and an end block, the loop yields finitely many chunks whose blocks, in
    order, are exactly the blocks from start to end, each once; no chunk is
    longer than the chunk size, and there are no more chunks than needed.
    Invalid ranges are refused. *)
Theorem chunks_tile_the_range start_block end_block chunk_size s :
  (0 <= start_block <= end_block -> 0 < chunk_size ->
   exists chunks, iter_block_chunks start_block end_block chunk_size s = (Ok chunks, s)
   /\ concat (map blocks_of chunks) = seqZ start_block (end_block - start_block + 1)
   /\ Forall (fun c => c.1 <= c.2 /\ c.2 - c.1 + 1 <= chunk_size) chunks
   /\ (Z.of_nat (length chunks) - 1) * chunk_size < end_block - start_block + 1)
  /\ (start_block < 0 \/ end_block < start_block \/ chunk_size <= 0 ->
      iter_block_chunks start_block end_block chunk_size s
      = (Raise (ValueError "Invalid Ethereum block chunk range"), s)).
Proof.
  unfold iter_block_chunks, bind, throw_if. split.
  - intros Hr Hs. destruct chunk_size as [|p|p]; [lia| |lia].
    assert (((start_block <? 0) || (end_block <? start_block) || (Zpos p <=? 0)) = false)
      as -> by lia.
    destruct (chunks_from_spec p _ start_block end_block eq_refl ltac:(lia))
      as (Hcat & Hall & Hlo & _).
    eexists. split; [reflexivity|]. change (Z.to_pos (Zpos p)) with p. repeat split.
    + rewrite Hcat. f_equal. lia.
    + eapply Forall_impl; [exact Hall|]. cbn. intros; lia.
    + lia.
  - intros Hbad.
    by assert (((start_block <? 0) || (end_block <? start_block) || (chunk_size <=? 0)) = true)
      as -> by lia.
Qed.

Lemma chunks_tile_the_range_witness :
  exists chunks, iter_block_chunks 10 34 10 (session_of sample_db 0)
                 = (Ok chunks, session_of sample_db 0)
  /\ concat (map blocks_of chunks) = seqZ 10 25.
Proof.
  destruct (chunks_tile_the_range 10 34 10 (session_of sample_db 0)) as [H _].
  destruct H as (chunks & Hrun & Hcat & _); [lia..|]. by exists chunks.
Defined.

(** * Invariants across calls *)

Definition SEND : string := "eth_sendRawTransaction".
(** Calling the node changes nothing but the log of calls; an invariant may
    count the transactions sent. *)
Class ReadsFree (I : session -> Prop) : Prop :=
  reads_free s c : c.(rc_method) <> SEND -> I s -> I (s <|s_calls := s.(s_calls) ++ [c]|>).
Class CallsFree (I : session -> Prop) : Prop :=
  calls_free s c : I s -> I (s <|s_calls := c|>).
#[export] Instance calls_reads_free I : CallsFree I -> ReadsFree I.
Proof. intros HI s c _. apply calls_free. Qed.
#[export] Instance calls_free_db (P : db -> Prop) : CallsFree (fun s => P s.(s_db)).
Proof. by intros s c. Qed.
#[export] Instance calls_free_committed d : CallsFree (committed_is d).
Proof. by intros s c. Qed.
#[export] Instance calls_free_charges c : CallsFree (charges_are c).
Proof. by intros s c'. Qed.

Section Frames.
Context {L : EthLib} (I : session -> Prop).

Lemma keeps_normalize_address v : keeps I (normalize_eth_address v).
Proof. unfold normalize_eth_address. keeps_tac. Qed.
Lemma keeps_quantity v f : keeps I (quantity v f).
Proof. unfold quantity. keeps_tac. Qed.
Lemma keeps_hash v f : keeps I (hash v f).
Proof. unfold hash. keeps_tac. Qed.
#[local] Hint Resolve keeps_normalize_address keeps_quantity keeps_hash : dcim.
Lemma keeps_address_topic a : keeps I (address_topic a).
Proof. unfold address_topic. keeps_tac. Qed.
Lemma keeps_topic_address t : keeps I (topic_address t).
Proof. unfold topic_address. keeps_tac. Qed.
Lemma keeps_cents c d : keeps I (invoice_cents_to_token_units c d).
Proof. unfold invoice_cents_to_token_units. keeps_tac. Qed.
Lemma keeps_encode a n : keeps I (encode_erc20_transfer a n).
Proof. unfold encode_erc20_transfer. keeps_tac. Qed.
#[local] Hint Resolve keeps_address_topic keeps_topic_address : dcim.
Lemma keeps_decode log c : keeps I (decode_transfer_log log c).
Proof.
  unfold decode_transfer_log, log_contract, transfer_topics, log_units, log_removed. keeps_tac.
Qed.
Lemma keeps_chunks a b n : keeps I (iter_block_chunks a b n).
Proof. unfold iter_block_chunks. keeps_tac. Qed.

Lemma keeps_validated b i m a : keeps I (validated_rpc_result b i m a).
Proof. unfold validated_rpc_result. keeps_tac. Qed.
#[local] Hint Resolve keeps_validated : dcim.
Lemma keeps_map_each {A B} (l : list A) (f : A -> Meth B) :
  (forall x, keeps I (f x)) -> keeps I (map_each l f).
Proof. intros Hf. unfold map_each. keeps_tac. Qed.

Section Reads.
Context `{!ReadsFree I}.
Lemma keeps_post rpc c : c.(rc_method) <> SEND -> keeps I (post rpc c).
Proof.
  intros Hm. unfold post. keeps_step; [keeps_tac|]. keeps_step; [|keeps_tac].
  apply keeps_modify. intros s. by apply reads_free.
Qed.
Lemma keeps_attempt rpc c a n : c.(rc_method) <> SEND -> keeps I (attempt_call rpc c a n).
Proof.
  intros Hm. induction n as [|n IH]; cbn [attempt_call];
    (keeps_step; [by apply keeps_post|keeps_tac]).
Qed.
Lemma keeps_call rpc m p a : m <> SEND -> keeps I (call rpc m p a).
Proof. intros Hm. unfold call. keeps_step; [keeps_tac|]. by apply keeps_attempt. Qed.
#[local] Hint Extern 1 (keeps I (call _ _ _ _)) => apply keeps_call; discriminate : dcim.
Lemma keeps_assert_chain rpc n : keeps I (assert_chain_id rpc n).
Proof. unfold assert_chain_id, chain_id. keeps_tac. Qed.
Lemma keeps_block_number rpc : keeps I (block_number rpc).
Proof. unfold block_number. keeps_tac. Qed.
Lemma keeps_get_logs rpc a b c l : keeps I (get_logs rpc a b c l).
Proof.
  unfold get_logs. keeps_step; [keeps_tac|]. keeps_step; [|keeps_tac].
  apply keeps_map_each. intros. apply keeps_address_topic.
Qed.
Lemma keeps_get_block rpc n : keeps I (get_block_by_number rpc n).
Proof. unfold get_block_by_number. keeps_tac. Qed.
Lemma keeps_get_receipt rpc h : keeps I (get_transaction_receipt rpc h).
Proof. unfold get_transaction_receipt. keeps_tac. Qed.
Lemma keeps_get_balance rpc a : keeps I (get_balance rpc a).
Proof. unfold get_balance. keeps_tac. Qed.
Lemma keeps_get_count rpc a : keeps I (get_transaction_count rpc a).
Proof. unfold get_transaction_count. keeps_tac. Qed.
Lemma keeps_gas_price rpc : keeps I (gas_price rpc).
Proof. unfold gas_price. keeps_tac. Qed.
Lemma keeps_estimate rpc t : keeps I (estimate_gas rpc t).
Proof. unfold estimate_gas, rpc_transaction, rpc_field. keeps_tac. Qed.
End Reads.

End Frames.

(** Sending posts at most once per attempt; [J k] allows [k] more posts. *)
Lemma wp_attempt_send (J : nat -> session -> Prop) rpc c a n s :
  (forall k s', J (S k) s' -> J k (s' <|s_calls := s'.(s_calls) ++ [c]|>)) ->
  (forall k s', J (S k) s' -> J k s') ->
  J (S n) s -> wp (attempt_call rpc c a n) (fun _ => J O) (fun _ => J O) s.
Proof.
  intros Hpost Hle. assert (forall k s', J k s' -> J O s') as H0.
  { induction k as [|k IH]; [done|]. intros s' Hk. by apply IH, Hle. }
  assert (forall b i m s', J 0%nat s' ->
    wp (validated_rpc_result b i m a) (fun _ => J O) (fun _ => J O) s') as Hv.
  { intros b i m. exact (keeps_validated (J 0%nat) b i m a). }
  revert s. induction n as [|n IH]; intros s Hs; cbn [attempt_call]; apply wp_bind;
    unfold post; (apply wp_bind, wp_gets, wp_bind, wp_modify, wp_ret);
    apply Hpost in Hs; destruct (rpc_node _ _ _) as [|e|b]; try by apply IH.
  all: try (eapply wp_raise, H0; exact Hs).
  all: eapply Hv, H0; exact Hs.
Qed.

Lemma keeps_send_raw (I : session -> Prop) `{!CallsFree I} rpc r :
  keeps I (send_raw_transaction rpc r).
Proof.
  unfold send_raw_transaction, call. keeps_step; [keeps_tac|]. keeps_step.
  - keeps_step; [keeps_tac|]. intros s Hs. apply (wp_attempt_send (fun _ => I)); [|done|done].
    intros _ s'. apply calls_free.
  - apply keeps_hash.
Qed.

(** [auto] finds these when the invariant is free of calls. *)
#[export] Hint Extern 1 (CallsFree _) => apply _ : dcim.
#[export] Hint Extern 1 (ReadsFree _) => apply _ : dcim.
#[export] Hint Resolve keeps_normalize_address keeps_quantity keeps_hash keeps_cents keeps_encode
  keeps_decode keeps_chunks keeps_assert_chain keeps_block_number keeps_get_logs
  keeps_get_block keeps_get_receipt keeps_get_balance keeps_get_count keeps_gas_price
  keeps_estimate keeps_send_raw : dcim.
