(* ===== verification/Usdt.v ===== *)
(** USDT deposits: addresses allocated to top-up invoices, the watcher that
    credits confirmed transfers and takes credit back when the chain is
    reorganised, and the sweeper that moves tokens to the treasury.
    src/app/services/payments/usdt_crypto.py, usdt_watcher.py, usdt_sweeper.py,
    src/app/workers/usdt_watcher.py, and the endpoints of
    src/app/api/reseller_panel.py and src/app/api/reseller_admin.py.

    Sessions do not flush by themselves, and one query of the watcher runs
    while deposits carry assignments that have not been sent: [expire] of
    [run_once].  [reconcile] therefore returns the deposits as the database
    last received them, which is what that query filters. *)
From Stdlib Require Import ZArith Lia Ascii.
From stdpp Require Import base numbers list strings pretty.
From S2P Require Import Prelude Calendar Models Session Ledger Invoices Outbox Orchestrator Funding Mail Webhooks Ethereum.
#[local] Open Scope Z_scope.
#[local] Open Scope py_scope.

(** * Settings *)

(** Unset strings are empty and an unset chain is 0. *)
Record usdt_config : Type := mk_usdt_config {
  usdt_watcher_enabled : bool;
  usdt_rpc_url : string;
  usdt_chain_id : Z;
  usdt_contract_address : string;
  usdt_decimals : Z;
  usdt_confirmations : Z;
  usdt_scan_chunk_size : Z;
  usdt_invoice_expiry_seconds : Z;
  usdt_hd_mnemonic_ciphertext : option string;
  usdt_fernet_key : option string;
  usdt_treasury_address : string;
  usdt_gas_wallet_private_key_ciphertext : option string;
  usdt_gas_reserve_wei : Z;
  usdt_tolerance_token_units : Z;
  usdt_reorg_recheck_blocks : Z;
  usdt_sweep_max_attempts : Z;
  usdt_watcher_lease_seconds : Z
}.
Definition usdt_enabled (c : usdt_config) : bool :=
  c.(usdt_watcher_enabled) && negb (str_empty c.(usdt_rpc_url))
  && negb (c.(usdt_chain_id) =? 0) && negb (str_empty c.(usdt_contract_address))
  && str_true c.(usdt_hd_mnemonic_ciphertext) && str_true c.(usdt_fernet_key).
Definition usdt_sweeper_enabled (c : usdt_config) : bool :=
  usdt_enabled c && negb (str_empty c.(usdt_treasury_address))
  && str_true c.(usdt_gas_wallet_private_key_ciphertext).

(** [_validate_usdt_limits] *)
Definition usdt_limits_valid (c : usdt_config) : bool :=
  (2 <=? c.(usdt_decimals)) && (c.(usdt_decimals) <=? 18)
  && (0 <? c.(usdt_confirmations)) && (0 <? c.(usdt_scan_chunk_size))
  && (0 <? c.(usdt_invoice_expiry_seconds)) && (0 <? c.(usdt_reorg_recheck_blocks))
  && (0 <? c.(usdt_sweep_max_attempts)) && (0 <? c.(usdt_watcher_lease_seconds))
  && (c.(usdt_scan_chunk_size) <=? 10000) && (0 <=? c.(usdt_gas_reserve_wei))
  && (0 <=? c.(usdt_tolerance_token_units)).

(** * Rows *)

Definition upd_deposit (k : Z) (f : usdt_deposit -> usdt_deposit) : Meth unit :=
  write (fun d => d <|db_deposits := tbl_update k f d.(db_deposits)|>).
Definition upd_transfer (k : Z) (f : usdt_event -> usdt_event) : Meth unit :=
  write (fun d => d <|db_transfers := tbl_update k f d.(db_transfers)|>).
Definition upd_cursor (k : Z) (f : usdt_cursor -> usdt_cursor) : Meth unit :=
  write (fun d => d <|db_cursors := tbl_update k f d.(db_cursors)|>).
Definition the_deposit (k : Z) : Meth usdt_deposit :=
  o <- read (fun d => tbl_get k d.(db_deposits)) ;; unwrap o AttributeError.
Definition the_cursor (k : Z) : Meth usdt_cursor :=
  o <- read (fun d => tbl_get k d.(db_cursors)) ;; unwrap o AttributeError.

Definition deposit_of_invoice (invoice_id : Z) : Meth (option usdt_deposit) :=
  rows <- read (fun d =>
    List.filter (fun u => u.(ud_invoice_id) =? invoice_id) d.(db_deposits)) ;;
  scalar_one_or_none MultipleResultsFound rows.
Definition cursor_of (chain : Z) (contract : string) : Meth (option usdt_cursor) :=
  rows <- read (fun d => List.filter (fun c => (c.(uc_chain_id) =? chain)
    && (c.(uc_contract_address) == contract)) d.(db_cursors)) ;;
  scalar_one_or_none MultipleResultsFound rows.
Definition deposit_ref (deposit_id : Z) : string := "usdt-deposit:" +:+ pretty deposit_id.
Definition deposit_payment (deposit_id : Z) : Meth (option payment) :=
  rows <- read (fun d => List.filter (fun p => (p.(pm_gateway) == "usdt")
    && (p.(pm_external_ref) == Some (deposit_ref deposit_id))) d.(db_payments)) ;;
  scalar_one_or_none MultipleResultsFound rows.

Section Usdt.
Context {L : EthLib}.

(** * Secrets and addresses *)

Definition decrypt_secret (ciphertext fernet_key : string) : Meth string :=
  value <- unwrap (fernet_decrypt fernet_key ciphertext)
    (UsdtConfigurationError "Could not decrypt configured USDT secret") ;;
  throw_if (str_empty value) (UsdtConfigurationError "Configured USDT secret is empty") ;;;
  ret value.
Definition secret_value (value : option string) : Meth string :=
  unwrap value (UsdtConfigurationError "USDT secret configuration is incomplete").
Definition mnemonic (config : usdt_config) : Meth string :=
  ciphertext <- secret_value config.(usdt_hd_mnemonic_ciphertext) ;;
  key <- secret_value config.(usdt_fernet_key) ;;
  decrypt_secret ciphertext key.

Definition MAX_BIP44_INDEX : Z := 2 ^ 31 - 1.
Definition path (index : Z) : Meth string :=
  throw_if ((index <? 0) || (MAX_BIP44_INDEX <? index))
    (UsdtDepositError "Derivation index is outside the BIP-44 range") ;;;
  ret ("m/44'/60'/0'/0/" +:+ pretty index).

Definition derive_deposit_account (index : Z) (config : usdt_config) : Meth local_account :=
  words <- mnemonic config ;;
  p <- path index ;;
  answer (from_mnemonic words p).
Definition derive_deposit_address (index : Z) (config : usdt_config) : Meth string :=
  account <- derive_deposit_account index config ;;
  normalize_eth_address (JStr account.(la_address)).
Definition decrypt_gas_wallet_account (config : usdt_config) : Meth local_account :=
  ciphertext <- secret_value config.(usdt_gas_wallet_private_key_ciphertext) ;;
  key <- secret_value config.(usdt_fernet_key) ;;
  private_key <- decrypt_secret ciphertext key ;;
  try_catch (answer (from_key private_key))
    (fun e => if is_value_error e || (exn_name e == "TypeError")
              then raise (UsdtConfigurationError "Configured USDT gas wallet key is invalid")
              else raise e).

(** * Deposits *)

(** The next index, and what the sequence holds afterwards: SQLite inserts the
    row when it is missing and increments it in one statement, the others read
    it under a lock. *)
Definition next_derivation_index (sqlite : bool) (sequence : option Z) : Z * Z :=
  if sqlite then
    let next_index := default 0 sequence in
    let next_index' := next_index + 1 in
    (next_index' - 1, next_index')
  else
    match sequence with
    | None => (0, 0 + 1)
    | Some next_index => (next_index, next_index + 1)
    end.

(** The allocator's own session commits what it reserves; the caller, which has
    just rolled back, reads it from then on. *)
Definition reserve_derivation_index : Meth Z :=
  sqlite <- gets s_sqlite ;;
  sequence <- gets (fun s => s.(s_committed).(db_usdt_sequence)) ;;
  let '(allocated, next_index) := next_derivation_index sqlite sequence in
  throw_if (MAX_BIP44_INDEX <? allocated)
    (UsdtDepositError "USDT derivation index space is exhausted") ;;;
  modify (fun s =>
    s <|s_committed := s.(s_committed) <|db_usdt_sequence := Some next_index|>|>
      <|s_db := s.(s_db) <|db_usdt_sequence := Some next_index|>|>) ;;;
  ret allocated.

Definition validate_invoice (o : option invoice) (reseller_id : Z) : Meth invoice :=
  i <- unwrap o (UsdtDepositError "Invoice not found") ;;
  throw_if (i.(in_reseller_id) != Some reseller_id) (UsdtDepositError "Invoice not found") ;;;
  throw_if (i.(in_status) != IS_OPEN) (UsdtDepositError "Invoice must be open") ;;;
  throw_if (i.(in_purpose) != IP_CREDIT_TOPUP)
    (UsdtDepositError "Only credit top-up invoices accept USDT") ;;;
  throw_if (str_upper i.(in_currency) != "USD")
    (UsdtDepositError "USDT deposits require a USD invoice") ;;;
  ret i.

Definition insert_cursor (chain : Z) (contract : string) (initial_block : Z) (d : db) : db :=
  d <|db_cursors := d.(db_cursors) ++
    [mk_usdt_cursor (tbl_fresh d.(db_cursors)) chain contract initial_block None None None None]|>.
Definition ensure_chain_cursor (chain : Z) (contract : string) (initial_block : Z)
  : Meth unit :=
  cursor <- cursor_of chain contract ;;
  match cursor with
  | Some _ => ret tt
  | None =>
      try_catch (begin_nested (write (insert_cursor chain contract initial_block) ;;; flush))
        (fun e => match e with
                  | IntegrityError =>
                      cursor <- cursor_of chain contract ;;
                      match cursor with Some _ => ret tt | None => raise e end
                  | _ => raise e
                  end)
  end.

Definition new_deposit (id : Z) (i : invoice) (reseller_id index chain : Z)
    (contract address : string) (expected expires_at : Z) : usdt_deposit :=
  mk_usdt_deposit id i.(in_id) reseller_id index chain contract address expected 0 UD_AWAITING
    None None None None expires_at None None None None 0.
Definition deposit_payment_row (i : invoice) (u : usdt_deposit) (id : Z) : payment :=
  mk_payment id i.(in_id) "usdt" PS_PENDING i.(in_amount_cents) i.(in_currency)
    (Some (deposit_ref u.(ud_id))) None None
    [("usdt_deposit_id", JInt u.(ud_id)); ("chain_id", JInt u.(ud_chain_id));
     ("contract_address", JStr u.(ud_contract_address))] None None.
Definition insert_deposit (u : usdt_deposit) (d : db) : db :=
  d <|db_deposits := d.(db_deposits) ++ [u]|>.
Definition insert_deposit_payment (i : invoice) (u : usdt_deposit) (d : db) : db :=
  d <|db_payments := d.(db_payments) ++ [deposit_payment_row i u (tbl_fresh d.(db_payments))]|>.

(** The deposit's row and its payment, or the deposit another request made. *)
Definition store_deposit (i : invoice) (u : usdt_deposit) : Meth Z :=
  try_catch
    (begin_nested
       (write (insert_deposit u) ;;; flush ;;; write (insert_deposit_payment i u) ;;; flush) ;;;
     ret u.(ud_id))
    (fun e => match e with
              | IntegrityError =>
                  existing <- deposit_of_invoice i.(in_id) ;;
                  match existing with Some u' => ret u'.(ud_id) | None => raise e end
              | _ => raise e
              end).

Definition create_or_get_deposit (rpc : rpc_client) (config : usdt_config)
    (reseller_id invoice_id : Z) : Meth Z :=
  throw_if (negb (usdt_enabled config))
    (UsdtConfigurationError "USDT deposits are not configured") ;;;
  o <- read (fun d => tbl_get invoice_id d.(db_invoices)) ;;
  i <- validate_invoice o reseller_id ;;
  existing <- deposit_of_invoice i.(in_id) ;;
  match existing with
  | Some u => ret u.(ud_id)
  | None =>
      assert_chain_id rpc config.(usdt_chain_id) ;;;
      current_block <- block_number rpc ;;
      rollback ;;;
      index <- reserve_derivation_index ;;
      address <- derive_deposit_address index config ;;
      o <- read (fun d => tbl_get invoice_id d.(db_invoices)) ;;
      i <- validate_invoice o reseller_id ;;
      existing <- deposit_of_invoice i.(in_id) ;;
      match existing with
      | Some u => ret u.(ud_id)
      | None =>
          created_at <- utcnow ;;
          contract <- normalize_eth_address (JStr config.(usdt_contract_address)) ;;
          expected <- invoice_cents_to_token_units i.(in_amount_cents) config.(usdt_decimals) ;;
          ensure_chain_cursor config.(usdt_chain_id) contract current_block ;;;
          id <- read (fun d => tbl_fresh d.(db_deposits)) ;;
          store_deposit i (new_deposit id i reseller_id index config.(usdt_chain_id) contract
            address expected (created_at + seconds config.(usdt_invoice_expiry_seconds)))
      end
  end.

(** [POST /invoices/{invoice_id}/usdt-deposit]; the client built by [_usdt_rpc]
    is an argument. *)
Definition create_usdt_deposit (rpc : rpc_client) (config : usdt_config)
    (reseller_id invoice_id : Z) : Meth Z :=
  o <- read (fun d => tbl_get invoice_id d.(db_invoices)) ;;
  i <- unwrap o (HTTPException 404) ;;
  throw_if (i.(in_reseller_id) != Some reseller_id) (HTTPException 404) ;;;
  throw_if ((i.(in_status) != IS_OPEN) || (i.(in_purpose) != IP_CREDIT_TOPUP))
    (HTTPException 409) ;;;
  try_catch
    (k <- create_or_get_deposit rpc config reseller_id i.(in_id) ;; commit ;;; ret k)
    (fun e => match e with
              | UsdtConfigurationError _ => rollback ;;; raise (HTTPException 503)
              | UsdtDepositError _ | EthereumRpcError _ => rollback ;;; raise (HTTPException 409)
              | _ => raise e
              end).

(** * The watcher *)

(** [UsdtWatcher] *)
Record watcher : Type := mk_watcher {
  w_rpc : rpc_client;
  w_config : usdt_config;
  w_contract : string
}.
Definition w_chain (w : watcher) : Z := w.(w_config).(usdt_chain_id).
Definition new_watcher (rpc : rpc_client) (config : usdt_config) : Meth watcher :=
  throw_if (negb (usdt_enabled config)) (EthereumRpcError "USDT watcher is not configured") ;;;
  contract <- normalize_eth_address (JStr config.(usdt_contract_address)) ;;
  ret (mk_watcher rpc config contract).

Definition watcher_cursor (w : watcher) : Meth (option usdt_cursor) :=
  cursor_of (w_chain w) w.(w_contract).

Definition cursor_free (owner : string) (now : Z) (c : usdt_cursor) : bool :=
  match c.(uc_lease_owner), c.(uc_lease_expires_at) with
  | None, _ | _, None => true
  | Some o, Some t => (t <=? now) || (o == owner)
  end.
Definition acquire_cursor_lease (w : watcher) (owner : string) : Meth bool :=
  now <- utcnow ;;
  cursor <- watcher_cursor w ;;
  match cursor with
  | None => ret false
  | Some c =>
      if cursor_free owner now c then
        upd_cursor c.(uc_id) (fun c =>
          c <|uc_lease_owner := Some owner|>
            <|uc_lease_expires_at :=
                Some (now + seconds w.(w_config).(usdt_watcher_lease_seconds))|>) ;;;
        ret true
      else ret false
  end.
Definition release_cursor_lease (w : watcher) (owner : string) : Meth unit :=
  write (fun d => d <|db_cursors := map (fun c =>
    if (c.(uc_chain_id) =? w_chain w) && (c.(uc_contract_address) == w.(w_contract))
       && (c.(uc_lease_owner) == Some owner)
    then c <|uc_lease_owner := None|> <|uc_lease_expires_at := None|> else c)
    d.(db_cursors)|>).

(** ** Canonical transfers *)

Definition hex_quantity (value : option json) (field : string) : Meth Z :=
  let bad := EthereumRpcError ("Invalid " +:+ field +:+ " in Ethereum response") in
  match value with
  | Some (JStr s) =>
      throw_if (negb (String.prefix "0x" s)) bad ;;;
      unwrap (py_int16 s) bad
  | _ => raise bad
  end.
(** [str(d[key]).lower()] of a hash the client has validated. *)
Definition hash_field (key : string) (d : dict) : string :=
  match dict_get key d with Some (JStr h) => str_lower h | _ => "" end.

Definition receipt_matches_transfer (receipt : option dict) (t : decoded_transfer)
  : Meth bool :=
  match receipt with
  | None => ret false
  | Some r =>
      status <- hex_quantity (dict_get "status" r) "receipt status" ;;
      if negb (status =? 1) then ret false
      else if hash_field "transactionHash" r != t.(dt_tx_hash) then ret false
      else
        n <- hex_quantity (dict_get "blockNumber" r) "receipt block" ;;
        ret ((n =? t.(dt_block_number)) && (hash_field "blockHash" r == t.(dt_block_hash)))
  end.

Definition event_is_canonical (w : watcher) (e : usdt_event) : Meth bool :=
  receipt <- get_transaction_receipt w.(w_rpc) e.(ue_tx_hash) ;;
  match receipt with
  | None => ret false
  | Some r =>
      status <- hex_quantity (dict_get "status" r) "receipt status" ;;
      if negb (status =? 1) then ret false
      else
        n <- hex_quantity (dict_get "blockNumber" r) "receipt block" ;;
        if negb (n =? e.(ue_block_number)) || (hash_field "blockHash" r != str_lower e.(ue_block_hash))
        then ret false
        else
          block <- get_block_by_number w.(w_rpc) e.(ue_block_number) ;;
          ret (hash_field "hash" block == str_lower e.(ue_block_hash))
  end.

(** [all(self._event_is_canonical(event) for event in events)] *)
Fixpoint all_canonical (w : watcher) (events : list usdt_event) : Meth bool :=
  match events with
  | [] => ret true
  | e :: rest =>
      ok <- event_is_canonical w e ;;
      if ok then all_canonical w rest else ret false
  end.

Definition event_leb (x y : usdt_event) : bool :=
  (x.(ue_block_number) <? y.(ue_block_number))
  || ((x.(ue_block_number) =? y.(ue_block_number)) && (x.(ue_log_index) <=? y.(ue_log_index))).
Definition is_active (deposit_id : Z) (e : usdt_event) : bool :=
  (e.(ue_deposit_id) =? deposit_id) && negb (bool_decide (is_Some e.(ue_reversed_at))).
Definition active_events (deposit_id : Z) (d : db) : list usdt_event :=
  sort_by event_leb (List.filter (is_active deposit_id) d.(db_transfers)).

(** ** Reorganisations *)

Definition handle_reorg (deposit_id : Z) : Meth unit :=
  upd_deposit deposit_id (fun u => u <|ud_status := UD_REORGED|>) ;;;
  flush ;;;
  received <- read (fun d => tbl_sum (is_active deposit_id) ue_token_units d.(db_transfers)) ;;
  upd_deposit deposit_id (fun u => u <|ud_received_token_units := received|>) ;;;
  payment <- deposit_payment deposit_id ;;
  match payment with
  | Some p =>
      if p.(pm_status) == PS_SUCCEEDED then
        reverse_payment "usdt" (str_or p.(pm_external_ref) "")
          ("reorg:" +:+ pretty deposit_id) "reorg"
      else ret tt
  | None => ret tt
  end ;;;
  flush.
Definition handle_reorg_if_present (deposit_id : Z) : Meth unit :=
  o <- read (fun d => tbl_get deposit_id d.(db_deposits)) ;;
  match o with Some _ => handle_reorg deposit_id | None => ret tt end.

Definition reverse_event (now event_id : Z) : Meth unit :=
  upd_transfer event_id (fun e => e <|ue_reversed_at := Some now|>).

(** Sets of deposits are iterated in the order of their first insertion. *)
Definition validate_cursor_and_rewind (w : watcher) (cursor_id now : Z) : Meth unit :=
  c <- the_cursor cursor_id ;;
  match c.(uc_last_safe_block) with
  | None => ret tt
  | Some last =>
      if negb (str_true c.(uc_last_safe_block_hash)) then ret tt
      else
        block <- get_block_by_number w.(w_rpc) last ;;
        if hash_field "hash" block == str_lower (str_or c.(uc_last_safe_block_hash) "") then ret tt
        else
          let rewind := Z.max 0 (last - w.(w_config).(usdt_reorg_recheck_blocks) + 1) in
          upd_cursor cursor_id (fun c =>
            c <|uc_next_block := Z.min c.(uc_next_block) rewind|>
              <|uc_last_safe_block := None|> <|uc_last_safe_block_hash := None|>) ;;;
          events <- read (fun d => List.filter (fun e =>
            (e.(ue_chain_id) =? w_chain w) && (rewind <=? e.(ue_block_number))
            && negb (bool_decide (is_Some e.(ue_reversed_at)))) d.(db_transfers)) ;;
          affected <- fold_each events [] (fun affected e =>
            ok <- event_is_canonical w e ;;
            if ok then ret affected
            else reverse_event now e.(ue_id) ;;; ret (affected ++ [e.(ue_deposit_id)])) ;;
          for_each (dedup [] affected) handle_reorg_if_present
  end.

Definition recheck_recent_confirmations (w : watcher) (latest_block now : Z) : Meth unit :=
  let floor := Z.max 0 (latest_block - w.(w_config).(usdt_reorg_recheck_blocks)) in
  events <- read (fun d => List.filter (fun e =>
    (e.(ue_chain_id) =? w_chain w) && (floor <=? e.(ue_block_number))
    && bool_decide (is_Some e.(ue_confirmed_at))
    && negb (bool_decide (is_Some e.(ue_reversed_at)))
    && match tbl_get e.(ue_deposit_id) d.(db_deposits) with
       | Some u => bool_decide (is_Some u.(ud_credited_at))
       | None => false
       end) d.(db_transfers)) ;;
  for_each events (fun e =>
    ok <- event_is_canonical w e ;;
    if ok then ret tt
    else reverse_event now e.(ue_id) ;;; handle_reorg_if_present e.(ue_deposit_id)).

(** ** Reconciliation *)

(** [max(events, key=...)] and [min(...)], of a list that is not empty. *)
Fixpoint final_event (e : usdt_event) (rest : list usdt_event) : usdt_event :=
  match rest with
  | [] => e
  | x :: rest' => final_event (if event_leb x e then e else x) rest'
  end.
Definition first_block (e : usdt_event) (rest : list usdt_event) : Z :=
  fold_left (fun m x => Z.min m x.(ue_block_number)) rest e.(ue_block_number).
Definition units_of (events : list usdt_event) : Z :=
  fold_right (fun e acc => e.(ue_token_units) + acc) 0 events.

Definition summarize_events (deposit_id : Z) (events : list usdt_event) (now : Z) : Meth bool :=
  upd_deposit deposit_id (fun u => u <|ud_received_token_units := units_of events|>) ;;;
  match events with
  | [] =>
      upd_deposit deposit_id (fun u =>
        let u := u <|ud_first_block := None|> <|ud_confirmed_block := None|>
                   <|ud_block_hash := None|> in
        match u.(ud_credited_at) with
        | Some _ => u
        | None => u <|ud_status := if u.(ud_expires_at) <=? now then UD_EXPIRED else UD_AWAITING|>
        end) ;;;
      ret false
  | e :: rest =>
      let final := final_event e rest in
      upd_deposit deposit_id (fun u =>
        u <|ud_first_block := Some (first_block e rest)|>
          <|ud_confirmed_block := Some final.(ue_block_number)|>
          <|ud_block_hash := Some final.(ue_block_hash)|>) ;;;
      ret true
  end.

(** Whether enqueueing sends the session's assignments to the database. *)
Definition enqueue_flushes (reseller_id : Z) (key : string) (d : db) : bool :=
  let email := recipient_email None reseller_id d in
  negb (str_empty email) && str_contains "@"%char email
  && match rows_with_key key d with [] => true | _ => false end.
Definition notify_usdt_detection (deposit_id : Z) (sql : list usdt_deposit)
  : Meth (list usdt_deposit) :=
  u <- the_deposit deposit_id ;;
  i <- the_invoice u.(ud_invoice_id) ;;
  let key := deposit_ref deposit_id +:+ ":detected" in
  flushes <- read (enqueue_flushes u.(ud_reseller_id) key) ;;
  deposits <- read db_deposits ;;
  notify_quietly (Some u.(ud_reseller_id)) "usdt_detected" key
    [("invoice_id", JInt u.(ud_invoice_id)); ("amount_cents", JInt i.(in_amount_cents));
     ("currency", JStr i.(in_currency))] ;;;
  ret (if (flushes : bool) then deposits else sql).

Definition set_deposit_status (deposit_id : Z) (status : usdt_status) : Meth unit :=
  upd_deposit deposit_id (fun u => u <|ud_status := status|>).
Definition credit_status (received expected : Z) (status : usdt_status) : usdt_status :=
  if expected <? received then UD_OVERPAID
  else if (status == UD_SWEEPING) || (status == UD_SWEPT) then status
  else UD_SWEEP_PENDING.
Definition settle_eligible_deposit (w : watcher) (deposit_id : Z) (events : list usdt_event)
    (now : Z) (sql : list usdt_deposit) : Meth (list usdt_deposit) :=
  u <- the_deposit deposit_id ;;
  let expected := u.(ud_expected_token_units) in
  let received := u.(ud_received_token_units) in
  let finish := upd_deposit deposit_id (fun u =>
    u <|ud_status := credit_status received expected u.(ud_status)|>) in
  payment <- deposit_payment deposit_id ;;
  match payment with
  | None => set_deposit_status deposit_id UD_MANUAL_REVIEW ;;; ret sql
  | Some p =>
      if p.(pm_status) == PS_REFUNDED then
        set_deposit_status deposit_id UD_REORGED ;;; ret sql
      else if p.(pm_status) == PS_SUCCEEDED then finish ;;; ret sql
      else
        canonical <- all_canonical w events ;;
        if negb canonical then set_deposit_status deposit_id UD_REORGED ;;; ret sql
        else
          finalize_success p.(pm_id) ;;;
          sql <- read db_deposits ;;
          still_canonical <- all_canonical w events ;;
          throw_if (negb still_canonical)
            (EthereumRpcError "USDT canonical chain changed during finalization") ;;;
          upd_deposit deposit_id (fun u => u <|ud_credited_at := Some now|>) ;;;
          finish ;;; ret sql
  end.

Definition is_late (expires_at : Z) (e : usdt_event) : bool :=
  match e.(ue_block_timestamp) with Some t => expires_at <? t | None => true end.
Definition threshold (w : watcher) (expected : Z) : Z :=
  Z.max 1 (expected - w.(w_config).(usdt_tolerance_token_units)).

Definition reconcile (w : watcher) (deposit_id now : Z) (sql : list usdt_deposit)
  : Meth (list usdt_deposit) :=
  u <- the_deposit deposit_id ;;
  events <- read (active_events deposit_id) ;;
  some <- summarize_events deposit_id events now ;;
  if negb some then ret sql
  else
    sql <- (if u.(ud_received_token_units) =? 0 then notify_usdt_detection deposit_id sql
            else ret sql) ;;
    if existsb (is_late u.(ud_expires_at)) events then
      set_deposit_status deposit_id UD_MANUAL_REVIEW ;;; ret sql
    else if units_of events <? threshold w u.(ud_expected_token_units) then
      set_deposit_status deposit_id
        (if u.(ud_expires_at) <=? now then UD_MANUAL_REVIEW else UD_UNDERPAID) ;;;
      ret sql
    else settle_eligible_deposit w deposit_id events now sql.

Definition reconcile_deposit (w : watcher) (deposit_id : Z) : Meth unit :=
  o <- read (fun d => tbl_get deposit_id d.(db_deposits)) ;;
  unwrap o NoResultFound ;;;
  now <- utcnow ;;
  reconcile w deposit_id now [] ;;;
  flush.

(** ** Scanning *)

Definition ADDRESS_BATCH_SIZE : nat := 250.
(** [d[k] = v] of a dict with string keys *)
Fixpoint assoc_set {V} (k : string) (v : V) (l : list (string * V)) : list (string * V) :=
  match l with
  | [] => [(k, v)]
  | (k', v') :: l' => if k == k' then (k', v) :: l' else (k', v') :: assoc_set k v l'
  end.
Definition assoc_get {V} (k : string) (l : list (string * V)) : option V :=
  option_map snd (List.find (fun kv => k == kv.1) l).

(** [range(0, len(l), n)] and the slices it takes of [l] *)
Fixpoint batches_from {A} (fuel n : nat) (l : list A) : list (list A) :=
  match fuel, l with
  | O, _ | _, [] => []
  | S fuel', _ => take n l :: batches_from fuel' n (drop n l)
  end.
Definition batches {A} (n : nat) (l : list A) : list (list A) := batches_from (length l) n l.

Definition scanned_deposits (w : watcher) (d : db) : list usdt_deposit :=
  List.filter (fun u => (u.(ud_chain_id) =? w_chain w)
    && (u.(ud_contract_address) == w.(w_contract))
    && negb ((u.(ud_status) == UD_REORGED) || (u.(ud_status) == UD_MANUAL_REVIEW)))
    d.(db_deposits).

Definition transfer_key (t : decoded_transfer) : string * Z := (t.(dt_tx_hash), t.(dt_log_index)).
Definition transfer_leb (x y : decoded_transfer) : bool :=
  (x.(dt_block_number) <? y.(dt_block_number))
  || ((x.(dt_block_number) =? y.(dt_block_number))
      && ((x.(dt_log_index) <? y.(dt_log_index))
          || ((x.(dt_log_index) =? y.(dt_log_index))
              && String.leb x.(dt_tx_hash) y.(dt_tx_hash)))).

(** The transfers of the logs, each identity once. *)
Definition unique_transfers (w : watcher) (logs : list json) : Meth (list decoded_transfer) :=
  fold_each logs [] (fun seen item =>
    t <- decode_transfer_log item w.(w_contract) ;;
    match List.find (fun x => transfer_key x == transfer_key t) seen with
    | Some previous =>
        throw_if (previous != t)
          (EthereumRpcError "Duplicate USDT log identity has conflicting data") ;;;
        ret seen
    | None => ret (seen ++ [t])
    end).

(** [datetime.fromtimestamp(n, tz=utc)]: years after 9999 are out of range. *)
Definition from_timestamp (n : Z) : Meth Z :=
  throw_if (253402300799 <? n) (ValueError "year is out of range") ;;;
  ret (seconds (62135596800 + n)).

Definition new_event (deposit_id chain : Z) (t : decoded_transfer) (timestamp now id : Z)
  : usdt_event :=
  mk_usdt_event id deposit_id chain t.(dt_tx_hash) t.(dt_log_index) t.(dt_block_number)
    t.(dt_block_hash) (Some timestamp) t.(dt_from_address) t.(dt_to_address)
    t.(dt_token_units) now (Some now) None.
Definition refreshed_event (t : decoded_transfer) (timestamp now : Z) (e : usdt_event)
  : usdt_event :=
  e <|ue_block_number := t.(dt_block_number)|> <|ue_block_hash := t.(dt_block_hash)|>
    <|ue_block_timestamp := Some timestamp|> <|ue_from_address := t.(dt_from_address)|>
    <|ue_to_address := t.(dt_to_address)|> <|ue_token_units := t.(dt_token_units)|>
    <|ue_confirmed_at := match e.(ue_confirmed_at) with Some c => Some c | None => Some now end|>
    <|ue_reversed_at := None|>.

Definition event_changed (e : usdt_event) (t : decoded_transfer) : bool :=
  negb (bool_decide (is_Some e.(ue_reversed_at)))
  && (negb (e.(ue_block_number) =? t.(dt_block_number))
      || (str_lower e.(ue_block_hash) != t.(dt_block_hash))
      || negb (e.(ue_token_units) =? t.(dt_token_units))).

(** Returns the blocks read so far; a block is asked for again even when it is
    cached, and the cached answer is used. *)
Definition record_transfer (w : watcher) (deposit_id : Z) (t : decoded_transfer) (now : Z)
    (block_cache : list (Z * dict)) : Meth (list (Z * dict)) :=
  rows <- read (fun d => List.filter (fun e => (e.(ue_chain_id) =? w_chain w)
    && (e.(ue_tx_hash) == t.(dt_tx_hash)) && (e.(ue_log_index) =? t.(dt_log_index)))
    d.(db_transfers)) ;;
  existing <- scalar_one_or_none MultipleResultsFound rows ;;
  if t.(dt_removed) then
    match existing with
    | Some e =>
        match e.(ue_reversed_at) with
        | None => reverse_event now e.(ue_id)
        | Some _ => ret tt
        end
    | None => ret tt
    end ;;;
    ret block_cache
  else
    receipt <- get_transaction_receipt w.(w_rpc) t.(dt_tx_hash) ;;
    ok <- receipt_matches_transfer receipt t ;;
    throw_if (negb ok) (EthereumRpcError "USDT transfer receipt is not canonical") ;;;
    fetched <- get_block_by_number w.(w_rpc) t.(dt_block_number) ;;
    let '(block, block_cache) :=
      match List.find (fun kb => kb.1 =? t.(dt_block_number)) block_cache with
      | Some (_, cached) => (cached, block_cache)
      | None => (fetched, block_cache ++ [(t.(dt_block_number), fetched)])
      end in
    throw_if (hash_field "hash" block != t.(dt_block_hash))
      (EthereumRpcError "USDT transfer block is not canonical") ;;;
    n <- hex_quantity (dict_get "timestamp" block) "block timestamp" ;;
    timestamp <- from_timestamp n ;;
    match existing with
    | None =>
        write (fun d => d <|db_transfers := d.(db_transfers) ++
          [new_event deposit_id (w_chain w) t timestamp now (tbl_fresh d.(db_transfers))]|>)
    | Some e =>
        throw_if (negb (e.(ue_deposit_id) =? deposit_id))
          (EthereumRpcError "USDT transfer destination ownership changed") ;;;
        throw_if (event_changed e t)
          (EthereumRpcError "USDT transfer identity changed unexpectedly") ;;;
        upd_transfer e.(ue_id) (refreshed_event t timestamp now)
    end ;;;
    ret block_cache.

(** The number of transfers seen, and the deposits as last sent. *)
Definition scan_chunk (w : watcher) (start_block end_block now : Z)
  : Meth (Z * list usdt_deposit) :=
  deposits <- read (scanned_deposits w) ;;
  by_address <- fold_each deposits [] (fun acc u =>
    a <- normalize_eth_address (JStr u.(ud_deposit_address)) ;;
    ret (assoc_set a u.(ud_id) acc)) ;;
  let addresses := sort_by String.leb (map fst by_address) in
  logs <- fold_each (batches ADDRESS_BATCH_SIZE addresses) [] (fun logs batch =>
    found <- get_logs w.(w_rpc) start_block end_block w.(w_contract) batch ;;
    ret (logs ++ found)) ;;
  unique <- unique_transfers w logs ;;
  let decoded := sort_by transfer_leb unique in
  recorded <- fold_each decoded ([], []) (fun acc t =>
    match assoc_get t.(dt_to_address) by_address with
    | None => ret acc
    | Some deposit_id =>
        cache <- record_transfer w deposit_id t now acc.2 ;;
        ret (acc.1 ++ [deposit_id], cache)
    end) ;;
  flush ;;;
  sql <- read db_deposits ;;
  sql <- fold_each (dedup [] recorded.1) sql (fun sql deposit_id =>
    o <- read (fun d => tbl_get deposit_id d.(db_deposits)) ;;
    unwrap o NoResultFound ;;;
    reconcile w deposit_id now sql) ;;
  ret (Z.of_nat (length decoded), sql).

(** ** Expiry *)

Definition expirable (w : watcher) (now : Z) (u : usdt_deposit) : bool :=
  (u.(ud_chain_id) =? w_chain w) && (u.(ud_contract_address) == w.(w_contract))
  && negb (bool_decide (is_Some u.(ud_credited_at))) && (u.(ud_expires_at) <=? now)
  && existsb (fun st => u.(ud_status) == st)
       [UD_AWAITING; UD_PENDING_CONFIRMATIONS; UD_UNDERPAID].
(** The query filters the rows the database has, [sql]; what it selects is
    then read and assigned in the session. *)
Definition expire_unpaid_deposits (w : watcher) (now : Z) (sql : list usdt_deposit)
  : Meth unit :=
  for_each (List.filter (expirable w now) sql) (fun row =>
    upd_deposit row.(ud_id) (fun u =>
      u <|ud_status := if 0 <? u.(ud_received_token_units) then UD_MANUAL_REVIEW
                       else UD_EXPIRED|>)).

(** ** One pass *)

Definition advance_cursor (chunk_end : Z) (block_hash : string) (c : usdt_cursor)
  : usdt_cursor :=
  c <|uc_next_block := chunk_end + 1|> <|uc_last_safe_block := Some chunk_end|>
    <|uc_last_safe_block_hash := Some block_hash|>.
Definition scan_next_chunk (w : watcher) (cursor_id latest now : Z)
  : Meth (Z * list usdt_deposit) :=
  c <- the_cursor cursor_id ;;
  let safe_block := latest - w.(w_config).(usdt_confirmations) in
  if (0 <=? safe_block) && (c.(uc_next_block) <=? safe_block) then
    chunks <- iter_block_chunks c.(uc_next_block) safe_block w.(w_config).(usdt_scan_chunk_size) ;;
    chunk <- unwrap (head chunks) (OtherError "StopIteration") ;;
    r <- scan_chunk w chunk.1 chunk.2 now ;;
    end_block <- get_block_by_number w.(w_rpc) chunk.2 ;;
    upd_cursor cursor_id (advance_cursor chunk.2 (hash_field "hash" end_block)) ;;;
    ret r
  else
    sql <- read db_deposits ;;
    ret (0, sql).

Definition run_once (w : watcher) (lease_owner : option string) : Meth Z :=
  now <- utcnow ;;
  assert_chain_id w.(w_rpc) (w_chain w) ;;;
  cursor <- watcher_cursor w ;;
  match cursor with
  | None => ret 0
  | Some c =>
      if match lease_owner with Some _ => c.(uc_lease_owner) != lease_owner | None => false end
      then ret 0
      else
        latest <- block_number w.(w_rpc) ;;
        validate_cursor_and_rewind w c.(uc_id) now ;;;
        recheck_recent_confirmations w latest now ;;;
        r <- scan_next_chunk w c.(uc_id) latest now ;;
        expire_unpaid_deposits w now r.2 ;;;
        flush ;;;
        ret r.1
  end.

(** * The sweeper *)

(** [UsdtSweeper] *)
Record sweeper : Type := mk_sweeper { sw_rpc : rpc_client; sw_config : usdt_config }.

Definition sweepable (status : usdt_status) : bool :=
  (status == UD_SWEEP_PENDING) || (status == UD_SWEEPING).
Definition review (message : string) (u : usdt_deposit) : usdt_deposit :=
  u <|ud_status := UD_MANUAL_REVIEW|> <|ud_sweep_error := Some message|>.
(** The attempt counts, and the last one leaves the deposit to an operator. *)
Definition failed_attempt (max_attempts : Z) (message : string) (u : usdt_deposit)
  : usdt_deposit :=
  u <|ud_sweep_attempts := u.(ud_sweep_attempts) + 1|> <|ud_sweep_error := Some message|>
    <|ud_status := if max_attempts <=? u.(ud_sweep_attempts) + 1 then UD_MANUAL_REVIEW
                   else UD_SWEEP_PENDING|>.
Definition submitted (u : usdt_deposit) : usdt_deposit :=
  u <|ud_sweep_attempts := u.(ud_sweep_attempts) + 1|> <|ud_sweep_error := None|>
    <|ud_status := UD_SWEEPING|>.

Definition receipt_status (rpc : rpc_client) (tx_hash : option string) (field : string)
  : Meth (option Z) :=
  receipt <- get_transaction_receipt rpc (str_or tx_hash "") ;;
  match receipt with
  | None => ret None
  | Some r => n <- hex_quantity (dict_get "status" r) field ;; ret (Some n)
  end.

Definition check_sweep_receipt (sw : sweeper) (deposit_id : Z) : Meth bool :=
  u <- the_deposit deposit_id ;;
  status <- receipt_status sw.(sw_rpc) u.(ud_sweep_tx_hash) "sweep receipt status" ;;
  match status with
  | None => set_deposit_status deposit_id UD_SWEEPING ;;; ret false
  | Some n =>
      if negb (n =? 1) then
        upd_deposit deposit_id (fun u =>
          failed_attempt sw.(sw_config).(usdt_sweep_max_attempts)
            "USDT sweep transaction failed on chain" (u <|ud_sweep_tx_hash := None|>)) ;;;
        ret false
      else
        upd_deposit deposit_id (fun u =>
          u <|ud_status := UD_SWEPT|> <|ud_sweep_error := None|>) ;;;
        ret true
  end.

Definition check_funding_receipt (sw : sweeper) (deposit_id : Z) : Meth bool :=
  u <- the_deposit deposit_id ;;
  status <- receipt_status sw.(sw_rpc) u.(ud_gas_funding_tx_hash) "funding receipt status" ;;
  match status with
  | None => set_deposit_status deposit_id UD_SWEEPING ;;; ret false
  | Some n =>
      if negb (n =? 1) then
        upd_deposit deposit_id (fun u =>
          failed_attempt sw.(sw_config).(usdt_sweep_max_attempts)
            "USDT gas funding transaction failed on chain"
            (u <|ud_gas_funding_tx_hash := None|>)) ;;;
        ret false
      else
        now <- utcnow ;;
        upd_deposit deposit_id (fun u => u <|ud_gas_funded_at := Some now|>) ;;;
        ret true
  end.

(** [_signed_bytes(account.sign_transaction(tx))] *)
Definition sign (account : local_account) (tx : dict) : Meth string :=
  signed <- answer (account.(la_sign) tx) ;;
  unwrap signed (EthereumRpcError "Ethereum signer did not return a raw transaction").

Definition submit_gas_funding (sw : sweeper) (deposit_id needed_wei gas_price : Z) : Meth bool :=
  u <- the_deposit deposit_id ;;
  gas_wallet <- decrypt_gas_wallet_account sw.(sw_config) ;;
  wallet <- normalize_eth_address (JStr gas_wallet.(la_address)) ;;
  to <- normalize_eth_address (JStr u.(ud_deposit_address)) ;;
  throw_if (wallet == to) (EthereumRpcError "Gas wallet cannot be the deposit wallet") ;;;
  let funding_gas := 21000 in
  available <- get_balance sw.(sw_rpc) gas_wallet.(la_address) ;;
  if available <? needed_wei + funding_gas * gas_price then
    upd_deposit deposit_id (fun u =>
      u <|ud_sweep_error := Some "USDT gas wallet has insufficient ETH"|>
        <|ud_status := UD_SWEEP_PENDING|>) ;;;
    ret false
  else
    nonce <- get_transaction_count sw.(sw_rpc) gas_wallet.(la_address) ;;
    raw <- sign gas_wallet
      [("chainId", JInt u.(ud_chain_id)); ("nonce", JInt nonce); ("to", JStr to);
       ("value", JInt needed_wei); ("gas", JInt funding_gas); ("gasPrice", JInt gas_price)] ;;
    h <- send_raw_transaction sw.(sw_rpc) raw ;;
    upd_deposit deposit_id (fun u => submitted (u <|ud_gas_funding_tx_hash := Some h|>)) ;;;
    ret true.

Definition submit_token_transfer (sw : sweeper) (deposit_id : Z) (contract data : string)
    (gas_limit gas_price : Z) : Meth bool :=
  u <- the_deposit deposit_id ;;
  account <- derive_deposit_account u.(ud_derivation_index) sw.(sw_config) ;;
  derived <- normalize_eth_address (JStr account.(la_address)) ;;
  expected <- normalize_eth_address (JStr u.(ud_deposit_address)) ;;
  if derived != expected then
    upd_deposit deposit_id (review "Derived address does not match deposit") ;;;
    ret false
  else
    nonce <- get_transaction_count sw.(sw_rpc) account.(la_address) ;;
    raw <- sign account
      [("chainId", JInt u.(ud_chain_id)); ("nonce", JInt nonce); ("to", JStr contract);
       ("value", JInt 0); ("data", JStr data); ("gas", JInt gas_limit);
       ("gasPrice", JInt gas_price)] ;;
    h <- send_raw_transaction sw.(sw_rpc) raw ;;
    upd_deposit deposit_id (fun u => submitted (u <|ud_sweep_tx_hash := Some h|>)) ;;;
    ret true.

(** [max(estimate, (estimate * 120 + 99) // 100)] *)
Definition gas_limit_of (estimate : Z) : Z := Z.max estimate ((estimate * 120 + 99) / 100).
Definition fund_or_submit (sw : sweeper) (deposit_id : Z) : Meth bool :=
  u <- the_deposit deposit_id ;;
  treasury <- normalize_eth_address (JStr sw.(sw_config).(usdt_treasury_address)) ;;
  contract <- normalize_eth_address (JStr u.(ud_contract_address)) ;;
  data <- encode_erc20_transfer treasury u.(ud_received_token_units) ;;
  price <- gas_price sw.(sw_rpc) ;;
  estimate <- estimate_gas sw.(sw_rpc)
    [("from", JStr u.(ud_deposit_address)); ("to", JStr contract); ("value", JInt 0);
     ("data", JStr data)] ;;
  let gas_limit := gas_limit_of estimate in
  let required_wei := gas_limit * price + sw.(sw_config).(usdt_gas_reserve_wei) in
  balance <- get_balance sw.(sw_rpc) u.(ud_deposit_address) ;;
  if balance <? required_wei then
    submit_gas_funding sw deposit_id (required_wei - balance) price
  else submit_token_transfer sw deposit_id contract data gas_limit price.

(** Inside the [try]. *)
Definition sweep_step (sw : sweeper) (u : usdt_deposit) : Meth bool :=
  assert_chain_id sw.(sw_rpc) sw.(sw_config).(usdt_chain_id) ;;;
  if str_true u.(ud_sweep_tx_hash) then check_sweep_receipt sw u.(ud_id)
  else
    funded <- (if str_true u.(ud_gas_funding_tx_hash)
                  && negb (bool_decide (is_Some u.(ud_gas_funded_at)))
               then check_funding_receipt sw u.(ud_id) else ret true) ;;
    if negb funded then ret false else fund_or_submit sw u.(ud_id).

(** [chain_id], the contracts, [credited_at] and the amount, in this order. *)
Definition out_of_scope (sw : sweeper) (u : usdt_deposit) : Meth bool :=
  if negb (u.(ud_chain_id) =? sw.(sw_config).(usdt_chain_id)) then ret true
  else
    a <- normalize_eth_address (JStr u.(ud_contract_address)) ;;
    b <- normalize_eth_address (JStr sw.(sw_config).(usdt_contract_address)) ;;
    ret ((a != b) || negb (bool_decide (is_Some u.(ud_credited_at)))
         || (u.(ud_received_token_units) <=? 0)).

Definition sweep_deposit (sw : sweeper) (deposit_id : Z) : Meth bool :=
  o <- read (fun d => tbl_get deposit_id d.(db_deposits)) ;;
  match o with
  | None => ret false
  | Some u =>
      if negb (sweepable u.(ud_status)) then ret false
      else if negb (usdt_sweeper_enabled sw.(sw_config)) then
        set_deposit_status deposit_id UD_SWEEP_PENDING ;;; ret false
      else
        foreign <- out_of_scope sw u ;;
        if (foreign : bool) then
          upd_deposit deposit_id (review "Deposit does not match configured USDT sweep scope") ;;;
          ret false
        else if sw.(sw_config).(usdt_sweep_max_attempts) <=? u.(ud_sweep_attempts) then
          upd_deposit deposit_id (review "USDT sweep retry limit reached") ;;;
          ret false
        else
          r <- try_catch (sweep_step sw u)
            (fun _ =>
               upd_deposit deposit_id
                 (failed_attempt sw.(sw_config).(usdt_sweep_max_attempts)
                    "USDT sweep operation failed; retry is safe") ;;;
               ret false) ;;
          flush ;;;
          ret r
  end.

Definition sweep_ids (limit : nat) (d : db) : list Z :=
  map ud_id (take limit (List.filter (fun u => sweepable u.(ud_status)) d.(db_deposits))).
Definition sweep_run_once (sw : sweeper) (limit : nat) : Meth Z :=
  if negb (usdt_sweeper_enabled sw.(sw_config)) then ret 0
  else
    ids <- read (sweep_ids limit) ;;
    fold_each ids 0 (fun processed k =>
      done <- sweep_deposit sw k ;;
      ret (if (done : bool) then processed + 1 else processed)).

(** * The worker and the administrator *)

(** [run_usdt_iteration]; closing the session undoes what was not committed. *)
Definition run_usdt_iteration (config : usdt_config) (rpc : rpc_client) (owner : string)
  : Meth Z :=
  if negb (usdt_enabled config) then ret 0
  else
    w <- new_watcher rpc config ;;
    let release : Meth unit :=
      try_catch (release_cursor_lease w owner ;;; commit) (fun _ => rollback) in
    acquired <- try_catch (acquire_cursor_lease w owner) (fun e => rollback ;;; raise e) ;;
    let finish : Meth unit := (if (acquired : bool) then release else ret tt) ;;; rollback in
    r <- try_catch
      (commit ;;;
       if negb acquired then ret 0
       else
         processed <- run_once w (Some owner) ;;
         swept <- sweep_run_once (mk_sweeper rpc config) 20 ;;
         commit ;;;
         ret (processed + swept))
      (fun e => rollback ;;; finish ;;; raise e) ;;
    finish ;;;
    ret r.

(** [POST /resellers/usdt-deposits/{deposit_id}/rescan] *)
Definition rescan_admin_usdt_deposit (config : usdt_config) (deposit_id : Z)
    (from_block : option Z) : Meth Z :=
  o <- read (fun d => tbl_get deposit_id d.(db_deposits)) ;;
  u <- unwrap o (HTTPException 404) ;;
  cursor <- cursor_of u.(ud_chain_id) u.(ud_contract_address) ;;
  c <- unwrap cursor (HTTPException 409) ;;
  let start := match from_block, u.(ud_first_block) with
               | Some n, _ | None, Some n => n
               | None, None =>
                   Z.max 0 (c.(uc_next_block) - config.(usdt_reorg_recheck_blocks))
               end in
  upd_cursor c.(uc_id) (fun c =>
    let c := c <|uc_next_block := Z.min c.(uc_next_block) start|> in
    match c.(uc_last_safe_block) with
    | Some last =>
        if start <=? last then c <|uc_last_safe_block := None|> <|uc_last_safe_block_hash := None|>
        else c
    | None => c
    end) ;;;
  commit ;;;
  ret (Z.min c.(uc_next_block) start).

(** [POST .../reconcile] *)
Definition reconcile_admin_usdt_deposit (rpc : rpc_client) (config : usdt_config)
    (deposit_id : Z) : Meth unit :=
  o <- read (fun d => tbl_get deposit_id d.(db_deposits)) ;;
  unwrap o (HTTPException 404) ;;;
  throw_if (negb (usdt_enabled config)) (HTTPException 503) ;;;
  try_catch
    (assert_chain_id rpc config.(usdt_chain_id) ;;;
     w <- new_watcher rpc config ;;
     reconcile_deposit w deposit_id ;;;
     commit)
    (fun e => match e with
              | EthereumRpcError _ => rollback ;;; raise (HTTPException 409)
              | _ => raise e
              end).

(** [POST .../sweep-retry] *)
Definition retry_admin_usdt_sweep (deposit_id : Z) : Meth unit :=
  o <- read (fun d => tbl_get deposit_id d.(db_deposits)) ;;
  u <- unwrap o (HTTPException 404) ;;
  throw_if (negb (bool_decide (is_Some u.(ud_credited_at)))) (HTTPException 409) ;;;
  upd_deposit deposit_id (fun u =>
    u <|ud_status := UD_SWEEP_PENDING|> <|ud_sweep_attempts := 0|> <|ud_sweep_error := None|>) ;;;
  commit.

(** [POST .../manual-review] *)
Definition mark_admin_usdt_manual_review (deposit_id : Z) (reason : option string) : Meth unit :=
  o <- read (fun d => tbl_get deposit_id d.(db_deposits)) ;;
  unwrap o (HTTPException 404) ;;;
  set_deposit_status deposit_id UD_MANUAL_REVIEW ;;;
  (match reason with
   | Some r =>
       if str_empty (str_strip r) then ret tt
       else upd_deposit deposit_id (fun u =>
              u <|ud_sweep_error := Some ("Manual review: " +:+ str_strip r)|>)
   | None => ret tt
   end) ;;;
  commit.
End Usdt.

(** * What the watcher and the sweeper leave alone *)

(** The columns of a deposit that are written once. *)
Definition deposit_identity (u : usdt_deposit) :=
  (u.(ud_id), u.(ud_invoice_id), u.(ud_reseller_id), u.(ud_derivation_index),
   (u.(ud_chain_id), u.(ud_contract_address), u.(ud_deposit_address)),
   (u.(ud_expected_token_units), u.(ud_expires_at))).

(** An invariant that assignments to the other columns, the settlement of a
    payment and its reversal keep is kept by every pass of the watcher; the
    sweeper counts its attempts and sends transactions besides. *)
Class WatcherStable (I : session -> Prop) : Prop := {
  stable_reads :: ReadsFree I;
  stable_watched k f :
    (forall u, deposit_identity (f u) = deposit_identity u) ->
    (forall u, (f u).(ud_sweep_attempts) = u.(ud_sweep_attempts)) -> keeps I (upd_deposit k f);
  stable_transfer k f : keeps I (upd_transfer k f);
  stable_new_transfer (f : db -> list usdt_event) :
    keeps I (write (fun d => d <|db_transfers := f d|>));
  stable_cursor k f : keeps I (upd_cursor k f);
  stable_notify r e k data : keeps I (notify_quietly r e k data);
  stable_finalize pid : keeps I (finalize_success pid);
  stable_reverse g r e y : keeps I (reverse_payment g r e y)
}.
Class SweeperStable (I : session -> Prop) : Prop := {
  sweeper_watcher :: WatcherStable I;
  stable_calls :: CallsFree I;
  stable_deposit k f :
    (forall u, deposit_identity (f u) = deposit_identity u) -> keeps I (upd_deposit k f)
}.

(** Asking the node leaves an invariant alone that is free of calls. *)
Section Asking.
Context {L : EthLib} (I : session -> Prop) `{!ReadsFree I}.

Lemma stable_hex_quantity v f : keeps I (hex_quantity v f).
Proof. unfold hex_quantity. keeps_tac. Qed.
#[local] Hint Resolve stable_hex_quantity : dcim.
Lemma stable_canonical w e : keeps I (event_is_canonical w e).
Proof. unfold event_is_canonical. keeps_tac. Qed.
#[local] Hint Resolve stable_canonical : dcim.
Lemma stable_all_canonical w l : keeps I (all_canonical w l).
Proof. induction l as [|e l IH]; cbn [all_canonical]; keeps_tac. Qed.
End Asking.
#[export] Hint Resolve stable_hex_quantity stable_canonical stable_all_canonical : dcim.

Section Stable.
Context {L : EthLib} (I : session -> Prop) `{!WatcherStable I}.
#[local] Hint Resolve stable_transfer stable_new_transfer stable_cursor
  stable_notify stable_finalize stable_reverse : dcim.
#[local] Hint Extern 1 (keeps I (upd_deposit _ _)) =>
  apply stable_watched; intros; cbn; repeat case_match; reflexivity : dcim.

Lemma stable_the_deposit k : keeps I (the_deposit k).
Proof. apply keeps_the. Qed.
Lemma stable_the_cursor k : keeps I (the_cursor k).
Proof. apply keeps_the. Qed.
Lemma stable_payment k : keeps I (deposit_payment k).
Proof. unfold deposit_payment. keeps_tac. Qed.
#[local] Hint Resolve stable_the_deposit stable_the_cursor stable_payment : dcim.
Lemma stable_handle_reorg k : keeps I (handle_reorg k).
Proof. unfold handle_reorg. keeps_tac. Qed.
#[local] Hint Resolve stable_handle_reorg : dcim.
Lemma stable_reorg_if k : keeps I (handle_reorg_if_present k).
Proof. unfold handle_reorg_if_present. keeps_tac. Qed.
Lemma stable_reverse_event n k : keeps I (reverse_event n k).
Proof. unfold reverse_event. keeps_tac. Qed.
Lemma stable_set_status k st : keeps I (set_deposit_status k st).
Proof. unfold set_deposit_status. keeps_tac. Qed.
#[local] Hint Resolve stable_reorg_if stable_reverse_event stable_set_status : dcim.
Lemma stable_rewind w k n : keeps I (validate_cursor_and_rewind w k n).
Proof. unfold validate_cursor_and_rewind. keeps_tac. Qed.
Lemma stable_recheck w b n : keeps I (recheck_recent_confirmations w b n).
Proof. unfold recheck_recent_confirmations. keeps_tac. Qed.
Lemma stable_settle w k l n sql : keeps I (settle_eligible_deposit w k l n sql).
Proof. unfold settle_eligible_deposit. keeps_tac. Qed.
#[local] Hint Resolve stable_rewind stable_recheck stable_settle : dcim.
Lemma stable_reconcile w k n sql : keeps I (reconcile w k n sql).
Proof.
  unfold reconcile, summarize_events, notify_usdt_detection. keeps_tac.
Qed.
#[local] Hint Resolve stable_reconcile : dcim.
Lemma stable_record w k t n c : keeps I (record_transfer w k t n c).
Proof. unfold record_transfer, receipt_matches_transfer, from_timestamp. keeps_tac. Qed.
#[local] Hint Resolve stable_record : dcim.
Lemma stable_scan_chunk w a b n : keeps I (scan_chunk w a b n).
Proof. unfold scan_chunk, unique_transfers. keeps_tac. Qed.
#[local] Hint Resolve stable_scan_chunk : dcim.
Lemma stable_run_once w o : keeps I (run_once w o).
Proof.
  unfold run_once, watcher_cursor, cursor_of, scan_next_chunk, expire_unpaid_deposits. keeps_tac.
Qed.
Lemma stable_reconcile_deposit w k : keeps I (reconcile_deposit w k).
Proof. unfold reconcile_deposit. keeps_tac. Qed.

End Stable.
#[export] Hint Resolve stable_run_once : dcim.

Section Swept.
Context {L : EthLib} (I : session -> Prop) `{!SweeperStable I}.
#[local] Hint Resolve stable_the_deposit stable_set_status : dcim.
#[local] Hint Extern 1 (WatcherStable I) => apply _ : dcim.
#[local] Hint Extern 1 (keeps I (upd_deposit _ _)) =>
  apply stable_deposit; intros; cbn; repeat case_match; reflexivity : dcim.

Lemma stable_answer {A} (o : outcome exn A) : keeps I (answer o).
Proof. unfold answer. keeps_tac. Qed.
#[local] Hint Resolve @stable_answer : dcim.
Lemma stable_account n c : keeps I (derive_deposit_account n c).
Proof.
  unfold derive_deposit_account, mnemonic, secret_value, decrypt_secret, path. keeps_tac.
Qed.
Lemma stable_gas_wallet c : keeps I (decrypt_gas_wallet_account c).
Proof. unfold decrypt_gas_wallet_account, secret_value, decrypt_secret. keeps_tac. Qed.
#[local] Hint Resolve stable_account stable_gas_wallet : dcim.
Lemma stable_fund sw k : keeps I (fund_or_submit sw k).
Proof. unfold fund_or_submit, submit_gas_funding, submit_token_transfer, sign. keeps_tac. Qed.
#[local] Hint Resolve stable_fund : dcim.
Lemma stable_sweep_deposit sw k : keeps I (sweep_deposit sw k).
Proof.
  unfold sweep_deposit, out_of_scope, sweep_step, check_sweep_receipt, check_funding_receipt,
    receipt_status. keeps_tac.
Qed.
#[local] Hint Resolve stable_sweep_deposit : dcim.
Lemma stable_sweep_run sw n : keeps I (sweep_run_once sw n).
Proof. unfold sweep_run_once. keeps_tac. Qed.
End Swept.

(** Settlements and reversals, opened down to their writes. *)
Ltac open_settlement :=
  unfold finalize_success, mark_paid_if_fully_allocated, invoice_get_for_update,
    allocated_cents, credit_invoice_owner, reverse_payment, payment_for_update, invoice_owner,
    reverse, credit, debit, require_integer_cents, lock_reseller, append_locked,
    notify_quietly, enqueue, scalar_one.

#[export] Instance stable_ledger : SweeperStable (fun s => ledger_inv s.(s_db)).
Proof.
  split; [split; [apply _|..]|apply _|]; intros; unfold upd_deposit, upd_transfer, upd_cursor, notify_quietly,
    enqueue, scalar_one; try keeps_tac.
Qed.

(** None of them commits. *)
#[export] Instance stable_committed d : SweeperStable (committed_is d).
Proof.
  split; [split; [apply _|..]|apply _|]; intros; unfold upd_deposit, upd_transfer, upd_cursor;
    open_settlement; try keeps_tac.
Qed.

(** * Requests *)

Section Requests.
Context {L : EthLib}.

Inductive usdt_request : Type :=
| CreateDeposit (rpc : rpc_client) (reseller_id invoice_id : Z)
| WatcherTick (rpc : rpc_client) (owner : string)
| Rescan (deposit_id : Z) (from_block : option Z)
| Reconcile (rpc : rpc_client) (deposit_id : Z)
| RetrySweep (deposit_id : Z)
| MarkReview (deposit_id : Z) (reason : option string).
Definition run_request (config : usdt_config) (r : usdt_request) : Meth unit :=
  match r with
  | CreateDeposit rpc k i => create_usdt_deposit rpc config k i ;;; ret tt
  | WatcherTick rpc owner => run_usdt_iteration config rpc owner ;;; ret tt
  | Rescan k n => rescan_admin_usdt_deposit config k n ;;; ret tt
  | Reconcile rpc k => reconcile_admin_usdt_deposit rpc config k
  | RetrySweep k => retry_admin_usdt_sweep k
  | MarkReview k reason => mark_admin_usdt_manual_review k reason
  end.
(** Each request has its session, which is closed when it ends. *)
Definition serve_usdt (config : usdt_config) (rs : list usdt_request) : Meth unit :=
  for_each rs (fun r => try_catch (run_request config r) (fun _ => ret tt) ;;; rollback).

(** Requests answer; they do not stop the ones after them. *)
Lemma serve_usdt_ok config rs : forall s, exists s', serve_usdt config rs s = (Ok tt, s').
Proof.
  unfold serve_usdt. induction rs as [|r rs IH]; intros s; [by exists s|].
  cbn [for_each]. unfold bind at 1, try_catch, bind at 1.
  destruct (run_request config r s) as [[[]|e] s1]; cbn; apply IH.
Qed.

(** ** Invariants of requests *)

Class RequestStable (I : session -> Prop) : Prop := {
  request_sweeper :: SweeperStable I;
  request_write_cursors (f : db -> list usdt_cursor) :
    keeps I (write (fun d => d <|db_cursors := f d|>));
  request_commit : keeps I commit;
  request_rollback : keeps I rollback;
  request_nested {A} (m : Meth A) : keeps I m -> keeps I (begin_nested m)
}.

Section Served.
Context (I : session -> Prop) `{!RequestStable I}.
#[local] Hint Resolve stable_cursor stable_run_once stable_sweep_run stable_reconcile_deposit
  stable_set_status request_commit request_rollback request_write_cursors : dcim.
#[local] Hint Extern 1 (keeps I (upd_deposit _ _)) =>
  apply stable_deposit; intros; cbn; repeat case_match; reflexivity : dcim.
#[local] Hint Extern 1 (keeps I (begin_nested _)) => apply request_nested : dcim.
#[local] Hint Extern 1 (WatcherStable I) => apply _ : dcim.
#[local] Hint Extern 1 (SweeperStable I) => apply _ : dcim.

Lemma keeps_cursor_of c k : keeps I (cursor_of c k).
Proof. unfold cursor_of. keeps_tac. Qed.
Lemma keeps_ensure_cursor c k b : keeps I (ensure_chain_cursor c k b).
Proof.
  unfold ensure_chain_cursor, cursor_of, insert_cursor.
  keeps_step; [keeps_tac|]. keeps_step; [keeps_tac|]. keeps_step; [|keeps_tac].
  apply request_nested. keeps_tac.
Qed.
Lemma keeps_new_watcher rpc c : keeps I (new_watcher rpc c).
Proof. unfold new_watcher. keeps_tac. Qed.
#[local] Hint Resolve keeps_cursor_of keeps_new_watcher : dcim.
Lemma keeps_acquire w o : keeps I (acquire_cursor_lease w o).
Proof. unfold acquire_cursor_lease, watcher_cursor. keeps_tac. Qed.
Lemma keeps_release w o : keeps I (release_cursor_lease w o).
Proof. unfold release_cursor_lease. keeps_tac. Qed.
#[local] Hint Resolve keeps_acquire keeps_release : dcim.
Lemma keeps_iteration c rpc o : keeps I (run_usdt_iteration c rpc o).
Proof. unfold run_usdt_iteration. keeps_tac. Qed.
Lemma keeps_rescan c k n : keeps I (rescan_admin_usdt_deposit c k n).
Proof. unfold rescan_admin_usdt_deposit. keeps_tac. Qed.
Lemma keeps_admin_reconcile rpc c k : keeps I (reconcile_admin_usdt_deposit rpc c k).
Proof. unfold reconcile_admin_usdt_deposit. keeps_tac. Qed.
Lemma keeps_retry k : keeps I (retry_admin_usdt_sweep k).
Proof. unfold retry_admin_usdt_sweep. keeps_tac. Qed.
Lemma keeps_review k r : keeps I (mark_admin_usdt_manual_review k r).
Proof. unfold mark_admin_usdt_manual_review. keeps_tac. Qed.
#[local] Hint Resolve keeps_iteration keeps_rescan keeps_admin_reconcile keeps_retry
  keeps_review : dcim.

(** Creating a deposit is what is left to prove of an invariant. *)
Lemma keeps_serve config rs :
  (forall rpc k i, keeps I (create_or_get_deposit rpc config k i)) ->
  keeps I (serve_usdt config rs).
Proof.
  intros Hcreate. unfold serve_usdt. keeps_step. keeps_step; [|keeps_tac].
  keeps_step; [|keeps_tac]. unfold run_request, create_usdt_deposit. keeps_tac.
Qed.
End Served.

Lemma keeps_both {A} (I : db -> Prop) (m : Meth A) :
  keeps_db I m -> (forall d, keeps (committed_is d) m) -> keeps (both I) m.
Proof.
  intros Hm Hc s [Hs Hsc]. specialize (Hm s Hs). specialize (Hc (s_committed s) s eq_refl).
  unfold wp, both, committed_is in *. destruct (m s) as [[a|e] s']; by rewrite Hc.
Qed.
Lemma both_nested {A} (I : db -> Prop) (m : Meth A) :
  keeps (both I) m -> keeps (both I) (begin_nested m).
Proof. apply keeps_nested. by intros s s' [Hs _] [_ Hc]. Qed.

#[export] Instance both_request (I : db -> Prop) :
  SweeperStable (fun s => I s.(s_db)) ->
  (forall (f : db -> list usdt_cursor) d, I d -> I (d <|db_cursors := f d|>)) ->
  RequestStable (both I).
Proof.
  intros HI Hcur. split.
  - split; [split; [by intros s c|..]|by intros s c|]; intros; apply keeps_both; intros;
      first [by apply stable_deposit | apply stable_transfer | apply stable_new_transfer
            | apply stable_cursor | apply stable_notify | apply stable_finalize
            | apply stable_reverse].
  - intros f. apply both_write. auto.
  - apply both_commit.
  - apply both_rollback.
  - intros. by apply both_nested.
Qed.
#[export] Instance ledger_request : RequestStable (both ledger_inv).
Proof. apply both_request; [apply _|]. by intros f d Hd. Qed.

Lemma keeps_deposit_of (I : session -> Prop) k : keeps I (deposit_of_invoice k).
Proof. unfold deposit_of_invoice. keeps_tac. Qed.
Lemma keeps_validate (I : session -> Prop) o k : keeps I (validate_invoice o k).
Proof. unfold validate_invoice. keeps_tac. Qed.
Lemma keeps_derive (I : session -> Prop) n c : keeps I (derive_deposit_address n c).
Proof.
  unfold derive_deposit_address, derive_deposit_account, mnemonic, secret_value, decrypt_secret,
    path, answer, normalize_eth_address. keeps_tac.
Qed.
#[local] Hint Resolve keeps_deposit_of keeps_validate keeps_derive : dcim.

Lemma ledger_create rpc config k i :
  keeps (both ledger_inv) (create_or_get_deposit rpc config k i).
Proof.
  unfold create_or_get_deposit, reserve_derivation_index, store_deposit.
  repeat first [ apply both_rollback | apply both_nested | (apply both_write; by intros d Hd)
               | apply keeps_ensure_cursor; apply _
               | (apply keeps_modify; by intros s [Hs Hc]) | keeps_step ].
Qed.
#[local] Hint Resolve ledger_create : dcim.

(** No request on USDT deposits, in any order and whatever the Ethereum node
    answers, makes a cached balance differ from its ledger: deposits created,
    passes of the watcher that credit transfers and undo credits after a
    reorganisation, sweeps, and the administrator's rescans, reconciliations,
    retries and reviews, with every commit and rollback between them. *)
Theorem usdt_requests_keep_the_ledger config rs s :
  both ledger_inv s -> exists s', serve_usdt config rs s = (Ok tt, s') /\ both ledger_inv s'.
Proof.
  intros Hs. pose proof (keeps_serve (both ledger_inv) config rs
    (fun rpc k i => ledger_create rpc config k i) s Hs) as Hwp.
  unfold wp in Hwp. destruct (serve_usdt_ok config rs s) as [s' Hr]. rewrite Hr in Hwp. eauto.
Qed.

(** ** Derivation indexes *)

Definition next_index (d : db) : Z := default 0 d.(db_usdt_sequence).
Definition same_deposit (u0 u : usdt_deposit) : Prop :=
  u0.(ud_id) = u.(ud_id) /\ u0.(ud_derivation_index) = u.(ud_derivation_index).
(** Every deposit has an index of its own, below [bound]; since [d0], the
    sequence, now [n], has not gone back and only new indexes were given out. *)
Definition indexed_below (n bound : Z) (d0 d : db) : Prop :=
  next_index d = n /\ 0 <= n /\ next_index d0 <= n
  /\ List.NoDup (map ud_derivation_index d.(db_deposits))
  /\ (forall u, In u d.(db_deposits) -> 0 <= u.(ud_derivation_index) < bound)
  /\ (forall u, In u d.(db_deposits) -> next_index d0 <= u.(ud_derivation_index)
      \/ exists u0, In u0 d0.(db_deposits) /\ same_deposit u0 u).
Definition indexed (d0 d : db) : Prop := indexed_below (next_index d) (next_index d) d0 d.

Lemma indexed_update n b d0 k f d :
  (forall u, deposit_identity (f u) = deposit_identity u) ->
  indexed_below n b d0 d ->
  indexed_below n b d0 (d <|db_deposits := tbl_update k f d.(db_deposits)|>).
Proof.
  intros Hf (Hn & H0 & Hle & Hd & Hb & Hp).
  assert (forall u, (f u).(ud_id) = u.(ud_id)
                    /\ (f u).(ud_derivation_index) = u.(ud_derivation_index)) as Hid.
  { intros u. specialize (Hf u). unfold deposit_identity in Hf. by injection Hf. }
  assert (forall u, In u (tbl_update k f d.(db_deposits)) ->
            exists v, In v d.(db_deposits) /\ same_deposit v u) as Hsame.
  { intros u (v & Hv & [[_ ->]|[_ ->]])%tbl_update_In; exists v; (split; [done|]);
      unfold same_deposit; [done|]. destruct (Hid v) as [-> ->]. done. }
  split; [done|]. split; [done|]. split; [done|]. cbn [db_deposits update]. repeat split.
  - unfold tbl_update. rewrite map_map. erewrite map_ext; [exact Hd|].
    intros u. cbn. destruct (row_key u =? k); [apply Hid|done].
  - destruct (Hsame _ H) as (v & Hv & _ & <-). by apply Hb.
  - destruct (Hsame _ H) as (v & Hv & _ & <-). by apply Hb.
  - intros u Hu. destruct (Hsame u Hu) as (v & Hv & Hi & Hx). rewrite <- Hx.
    destruct (Hp v Hv) as [|(u0 & Hu0 & Hi0 & Hx0)]; [by left|]. right. exists u0.
    split; [done|]. unfold same_deposit. by rewrite <- Hi, <- Hx.
Qed.

#[export] Instance below_sweeper n b d0 :
  SweeperStable (fun s => indexed_below n b d0 s.(s_db)).
Proof.
  split; [split; [apply _|..]|apply _|]; intros; unfold upd_transfer, upd_cursor;
    open_settlement; try keeps_tac;
    (apply keeps_db_write; intros d Hd; by apply indexed_update).
Qed.
#[export] Instance below_request n b d0 : RequestStable (both (indexed_below n b d0)).
Proof. apply both_request; [apply _|]. by intros f d Hd. Qed.

Lemma keeps_indexed {A} d0 (m : Meth A) :
  (forall n, keeps_db (indexed_below n n d0) m) -> keeps_db (indexed d0) m.
Proof.
  intros Hm s Hs. eapply wp_conseq; [exact (Hm _ s Hs)|..]; intros x s' Hs'; unfold indexed;
    destruct Hs' as [Hn Hs']; rewrite Hn; by split.
Qed.
#[export] Instance indexed_sweeper d0 : SweeperStable (fun s => indexed d0 s.(s_db)).
Proof.
  split; [split; [apply _|..]|apply _|]; intros; apply keeps_indexed; intros n;
    first [by apply stable_deposit | apply stable_transfer | apply stable_new_transfer
          | apply stable_cursor | apply stable_notify | apply stable_finalize
          | apply stable_reverse].
Qed.
#[export] Instance indexed_request d0 : RequestStable (both (indexed d0)).
Proof. apply both_request; [apply _|]. by intros f d Hd. Qed.

(** Storing a deposit whose index was just reserved. *)
Lemma below_indexed d0 k d : indexed_below (k + 1) k d0 d -> indexed d0 d.
Proof.
  intros (Hn & H0 & Hd0 & Hd & Hb & Hp). unfold indexed. rewrite Hn. repeat split; try done;
    [by apply Hb|]. destruct (Hb _ H). lia.
Qed.
Lemma both_below_indexed d0 k s :
  both (indexed_below (k + 1) k d0) s -> both (indexed d0) s.
Proof. intros [Hs Hc]. split; by eapply below_indexed. Qed.

Lemma insert_indexed d0 k u d :
  u.(ud_derivation_index) = k -> next_index d0 <= k -> 0 <= k ->
  indexed_below (k + 1) k d0 d -> indexed d0 (insert_deposit u d).
Proof.
  intros Hu Hle Hk (Hn & H0 & Hd0 & Hd & Hb & Hp). unfold indexed.
  change (next_index (insert_deposit u d)) with (next_index d). rewrite Hn.
  split; [done|]. split; [done|]. split; [done|]. unfold insert_deposit. cbn [db_deposits update].
  repeat split.
  - rewrite map_app. apply List.NoDup_app; [done|repeat constructor; by intros []|].
    intros x (v & <- & Hv)%in_map_iff [Heq|[]]. destruct (Hb v Hv). lia.
  - apply in_app_iff in H as [H|[<-|[]]]; [by apply Hb|lia].
  - apply in_app_iff in H as [H|[<-|[]]]; [destruct (Hb _ H); lia|lia].
  - intros v [Hv|[<-|[]]]%in_app_iff; [by apply Hp|left; lia].
Qed.

Lemma store_deposit_indexed d0 k i u s :
  u.(ud_derivation_index) = k -> next_index d0 <= k -> 0 <= k ->
  both (indexed_below (k + 1) k d0) s ->
  wp (store_deposit i u) (fun _ => both (indexed d0)) (fun _ => both (indexed d0)) s.
Proof.
  intros Hu Hle Hk Hs. unfold store_deposit. apply wp_try_catch, wp_bind.
  assert (forall e s', both (indexed_below (k + 1) k d0) s' ->
    wp (match e with
        | IntegrityError =>
            existing <- deposit_of_invoice i.(in_id) ;;
            match existing with Some u' => ret u'.(ud_id) | None => raise e end
        | _ => raise e
        end) (fun _ => both (indexed d0)) (fun _ => both (indexed d0)) s') as Hh.
  { intros e s' Hs'. apply (wp_keeps (both (indexed_below (k + 1) k d0)));
      [keeps_tac|done|..]; intros; by eapply both_below_indexed. }
  apply wp_nested; [intros e; by apply Hh|]. destruct Hs as [Hs Hc].
  pose proof (insert_indexed d0 k u _ Hu Hle Hk Hs) as Hins.
  do 2 apply wp_bind. apply wp_write.
  apply (wp_keeps (fun s' => indexed d0 s'.(s_db) /\
    indexed_below (k + 1) k d0 s'.(s_committed))); [|by split| |].
  - keeps_step; [auto with dcim|]. keeps_step; [|auto with dcim].
    by intros s' [Hs' Hc'].
  - intros [] s' [Hs' Hc']. apply wp_bind, wp_flush.
    + intros _ _. apply wp_ret, wp_ret. split; [done|]. by eapply below_indexed.
    + intros e _. apply Hh. by split.
  - intros e s' [Hs' Hc']. apply Hh. by split.
Qed.

Lemma reserve_indexed d0 s :
  s.(s_db) = s.(s_committed) -> indexed d0 s.(s_committed) ->
  wp reserve_derivation_index
     (fun k s' => next_index d0 <= k /\ 0 <= k /\ both (indexed_below (k + 1) k d0) s')
     (fun _ => both (indexed d0)) s.
Proof.
  intros Heq Hi. unfold reserve_derivation_index. wp_step. apply wp_gets. wp_step. apply wp_gets.
  destruct (next_derivation_index _ _) as [k n'] eqn:Hn.
  assert (k = next_index (s_committed s) /\ n' = k + 1) as [Hk ->].
  { unfold next_derivation_index, next_index in *.
    destruct (s_sqlite s), (db_usdt_sequence (s_committed s)); cbn in *;
      injection Hn as <- <-; lia. }
  wp_step. wp_step; [by split; rewrite ?Heq|]. wp_step. apply wp_modify, wp_ret.
  destruct Hi as (_ & H0 & Hle & Hd & Hb & Hp). rewrite <- Hk in *.
  split; [done|]. split; [done|]. unfold both. cbn [s_db s_committed update]. rewrite Heq.
  by split; (split; [done|]; split; [lia|]; split; [lia|]).
Qed.

Lemma create_indexed d0 rpc config k i :
  keeps (both (indexed d0)) (create_or_get_deposit rpc config k i).
Proof.
  unfold create_or_get_deposit. do 4 (keeps_step; [keeps_tac|]).
  keeps_step; [keeps_tac|]. keeps_step; [auto with dcim|]. keeps_step; [auto with dcim|].
  intros s [_ Hc]. apply wp_bind. unfold rollback. apply wp_modify.
  set (s1 := s <|s_db := _|>). apply wp_bind.
  eapply wp_conseq; [by apply (reserve_indexed d0)| |done].
  intros n s2 (Hle & H0 & Hs2).
  assert (forall {A} (m : Meth A) (f : A -> Meth Z),
    keeps (both (indexed_below (n + 1) n d0)) m ->
    (forall a s', both (indexed_below (n + 1) n d0) s' ->
       wp (f a) (fun _ => both (indexed d0)) (fun _ => both (indexed d0)) s') ->
    forall s', both (indexed_below (n + 1) n d0) s' ->
      wp (x <- m ;; f x) (fun _ => both (indexed d0)) (fun _ => both (indexed d0)) s')
    as Hstep.
  { intros A m f Hm Hf s' Hs'. apply wp_bind. apply (wp_keeps _ m _ _ _ Hm Hs').
    - intros x s3. apply Hf.
    - intros x s3. by apply both_below_indexed. }
  revert s2 Hs2. do 4 (apply Hstep; [keeps_tac|intros ?]).
  intros s2 Hs2. case_match; [by eapply wp_ret, both_below_indexed|]. revert s2 Hs2.
  do 3 (apply Hstep; [keeps_tac|intros ?]).
  apply Hstep; [apply keeps_ensure_cursor; apply _|intros ?].
  apply Hstep; [keeps_tac|intros id]. intros s2 Hs2. by apply store_deposit_indexed with n.
Qed.

(** A deposit address belongs to one deposit for ever.  Whatever requests are
    served, in whatever order, and wherever they fail: deposits have distinct
    derivation indexes, the sequence of indexes never goes back, and a deposit
    that did not exist before has an index that had not been given out before,
    not even to a creation that failed. *)
Theorem addresses_are_never_reused config rs s :
  s.(s_db) = s.(s_committed) -> indexed s.(s_db) s.(s_db) ->
  exists s', serve_usdt config rs s = (Ok tt, s')
  /\ List.NoDup (map ud_derivation_index s'.(s_committed).(db_deposits))
  /\ next_index s.(s_db) <= next_index s'.(s_committed)
  /\ forall u, In u s'.(s_committed).(db_deposits) ->
       u.(ud_derivation_index) < next_index s'.(s_committed)
       /\ (next_index s.(s_db) <= u.(ud_derivation_index)
           \/ exists u0, In u0 s.(s_db).(db_deposits) /\ same_deposit u0 u).
Proof.
  intros Heq Hs. assert (both (indexed (s_db s)) s) as Hb by (by split; rewrite <- ?Heq).
  pose proof (keeps_serve _ config rs
    (fun rpc k i => create_indexed (s_db s) rpc config k i) s Hb) as Hwp.
  destruct (serve_usdt_ok config rs s) as [s' Hr]. unfold wp in Hwp. rewrite Hr in Hwp.
  destruct Hwp as [_ (_ & _ & Hle & Hd & Hi & Hp)]. exists s'. repeat split; try done.
  - by apply Hi.
  - by apply Hp.
Qed.
End Requests.

(** * Crediting a deposit *)

(** The rows that say what was paid. *)
Definition money_rows (d : db) :=
  (d.(db_payments), d.(db_invoices), d.(db_ledger), d.(db_resellers)).
Definition deposit_and_money (t : list usdt_deposit) m (d : db) : Prop :=
  d.(db_deposits) = t /\ money_rows d = m.

Lemma notify_keeps_money t m r e k data :
  keeps_db (deposit_and_money t m) (notify_quietly r e k data).
Proof. unfold notify_quietly, enqueue, scalar_one. keeps_tac. Qed.
Definition deposits_are (t : list usdt_deposit) (d : db) : Prop := d.(db_deposits) = t.
Lemma finalize_keeps_deposits t pid : keeps_db (deposits_are t) (finalize_success pid).
Proof. open_settlement. keeps_tac. Qed.

Section Credit.
Context {L : EthLib}.

(** What the watcher had seen when it settled the payment of deposit [u]. *)
Definition proven (w : watcher) (u : usdt_deposit) (now : Z) (s s' : session) : Prop :=
  let events := active_events u.(ud_id) s.(s_db) in
  threshold w u.(ud_expected_token_units) <= units_of events
  /\ Forall (fun e => exists t, e.(ue_block_timestamp) = Some t /\ t <= u.(ud_expires_at)) events
  /\ (exists p s1 s2 s3 s4,
        all_canonical w events s1 = (Ok true, s2) /\ money_rows s1.(s_db) = money_rows s.(s_db)
        /\ deposit_payment u.(ud_id) s1 = (Ok (Some p), s1)
        /\ p.(pm_status) <> PS_SUCCEEDED /\ p.(pm_status) <> PS_REFUNDED
        /\ finalize_success p.(pm_id) s2 = (Ok tt, s3)
        /\ all_canonical w events s3 = (Ok true, s4)
        /\ money_rows s4.(s_db) = money_rows s'.(s_db))
  /\ exists u', tbl_get u.(ud_id) s'.(s_db).(db_deposits) = Some u'
       /\ u'.(ud_credited_at) = Some now
       /\ u'.(ud_status)
          = credit_status (units_of events) u.(ud_expected_token_units) u.(ud_status).

Lemma the_deposit_run k s u s' :
  the_deposit k s = (Ok u, s') -> s' = s /\ tbl_get k s.(s_db).(db_deposits) = Some u.
Proof.
  unfold the_deposit, bind, read, gets, unwrap. destruct (tbl_get k _); [|done].
  by intros [= <- <-].
Qed.
Lemma deposit_payment_run k s o s' : deposit_payment k s = (Ok o, s') -> s' = s.
Proof.
  unfold deposit_payment, bind, read, gets, scalar_one_or_none.
  destruct (List.filter _ _) as [|p [|p' l]]; by intros [= <- <-].
Qed.

(** The rows with key [k], with the amounts of its events summarised. *)
Definition summarized (events : list usdt_event) (u : usdt_deposit) : usdt_deposit :=
  match events with
  | [] => u
  | e :: rest =>
      let final := final_event e rest in
      u <|ud_received_token_units := units_of events|>
        <|ud_first_block := Some (first_block e rest)|>
        <|ud_confirmed_block := Some final.(ue_block_number)|>
        <|ud_block_hash := Some final.(ue_block_hash)|>
  end.

Lemma summarize_run k events now s b s' :
  summarize_events k events now s = (Ok b, s') -> b = true ->
  events <> [] /\ money_rows s'.(s_db) = money_rows s.(s_db)
  /\ forall u, tbl_get k s.(s_db).(db_deposits) = Some u ->
       tbl_get k s'.(s_db).(db_deposits) = Some (summarized events u).
Proof.
  intros Hrun Hb. unfold summarize_events in Hrun. destruct events as [|e rest].
  - by injection Hrun as <- <-.
  - apply ok_inv in Hrun as [<- <-]. split; [done|]. split; [done|]. intros u Hu.
    change (summarized (e :: rest) u) with
      ((fun u => u <|ud_first_block := Some (first_block e rest)|>
          <|ud_confirmed_block := Some (final_event e rest).(ue_block_number)|>
          <|ud_block_hash := Some (final_event e rest).(ue_block_hash)|>)
       (u <|ud_received_token_units := units_of (e :: rest)|>)).
    apply tbl_get_update_eq; [done|]. by apply tbl_get_update_eq.
Qed.

Lemma existsb_late x l :
  existsb (is_late x) l = false ->
  Forall (fun e => exists t, e.(ue_block_timestamp) = Some t /\ t <= x) l.
Proof.
  induction l as [|e l IH]; [constructor|]. cbn. intros [He Hl]%orb_false_iff.
  constructor; [|auto]. unfold is_late in He.
  destruct (ue_block_timestamp e) as [t|]; [|done]. exists t. split; [done|lia].
Qed.

(** A settlement that changes what was paid. *)
Lemma settle_run w k events now sql s r s' u :
  settle_eligible_deposit w k events now sql s = (Ok r, s') ->
  tbl_get k s.(s_db).(db_deposits) = Some u ->
  money_rows s'.(s_db) = money_rows s.(s_db) \/
  exists p s2 s3 s4,
    all_canonical w events s = (Ok true, s2) /\ deposit_payment k s = (Ok (Some p), s)
    /\ p.(pm_status) <> PS_SUCCEEDED /\ p.(pm_status) <> PS_REFUNDED
    /\ finalize_success p.(pm_id) s2 = (Ok tt, s3)
    /\ all_canonical w events s3 = (Ok true, s4)
    /\ money_rows s4.(s_db) = money_rows s'.(s_db)
    /\ tbl_get k r = Some u
    /\ exists u', tbl_get k s'.(s_db).(db_deposits) = Some u'
         /\ u'.(ud_received_token_units) = u.(ud_received_token_units)
         /\ u'.(ud_credited_at) = Some now
         /\ u'.(ud_status) = credit_status u.(ud_received_token_units)
                               u.(ud_expected_token_units) u.(ud_status).
Proof.
  unfold settle_eligible_deposit. intros Hrun Hu.
  apply bind_Ok in Hrun as (u0 & s1 & H1 & Hrun). apply the_deposit_run in H1 as [-> H1].
  rewrite Hu in H1. injection H1 as <-.
  apply bind_Ok in Hrun as (o & s1 & Hp & Hrun).
  pose proof (deposit_payment_run _ _ _ _ Hp) as ->. destruct o as [p|].
  2: { left. by injection Hrun as <- <-. }
  destruct (py_eq_spec (pm_status p) PS_REFUNDED) as [Hr|Hr]; [left; by injection Hrun as <- <-|].
  destruct (py_eq_spec (pm_status p) PS_SUCCEEDED) as [Hs|Hs]; [left; by injection Hrun as <- <-|].
  apply bind_Ok in Hrun as (c & s2 & Hc & Hrun).
  assert (deposit_and_money s.(s_db).(db_deposits) (money_rows s.(s_db)) s2.(s_db)) as [Hd2 Hm2].
  { exact (keeps_run _ _ s _ s2 (stable_all_canonical
      (fun x => deposit_and_money _ _ x.(s_db)) w events) Hc (conj eq_refl eq_refl)). }
  destruct c; [|left; by injection Hrun as <- <-]. right.
  apply bind_Ok in Hrun as ([] & s3 & Hf & Hrun).
  pose proof (keeps_run _ _ s2 _ s3 (finalize_keeps_deposits _ _) Hf Hd2) as Hd3.
  apply bind_Ok in Hrun as (sql' & s3' & Hsql & Hrun). injection Hsql as <- <-.
  apply bind_Ok in Hrun as (c & s4 & Hc' & Hrun).
  assert (deposit_and_money s3.(s_db).(db_deposits) (money_rows s3.(s_db)) s4.(s_db)) as [Hd4 Hm4].
  { exact (keeps_run _ _ s3 _ s4 (stable_all_canonical
      (fun x => deposit_and_money _ _ x.(s_db)) w events) Hc' (conj eq_refl eq_refl)). }
  destruct c; [|done]. apply ok_inv in Hrun as [<- <-]. exists p, s2, s3, s4.
  unfold deposits_are in Hd3. rewrite <- Hd3 in Hu. do 6 (split; [done|]).
  split; [by rewrite Hm4|]. split; [done|]. rewrite <- Hd4 in Hu.
  eexists. split; [|split; [|split]].
  - apply tbl_get_update_eq; [done|]. by apply tbl_get_update_eq.
  - done.
  - done.
  - done.
Qed.

(** What a reconciliation that changes the money ends with. *)
Lemma reconcile_credits w k now sql r s s' u :
  tbl_get k s.(s_db).(db_deposits) = Some u ->
  reconcile w k now sql s = (Ok r, s') ->
  money_rows s'.(s_db) <> money_rows s.(s_db) ->
  proven w u now s s' /\ exists u1 u',
    tbl_get k r = Some u1
    /\ u1 = summarized (active_events k s.(s_db)) u
    /\ tbl_get k s'.(s_db).(db_deposits) = Some u'
    /\ u'.(ud_credited_at) = Some now
    /\ u'.(ud_received_token_units) = units_of (active_events k s.(s_db)).
Proof.
  intros Hu Hrun Hne. assert (u.(ud_id) = k) as Hk by exact (tbl_get_key k _ u Hu).
  unfold proven. rewrite Hk. unfold reconcile in Hrun.
  apply bind_Ok in Hrun as (u0 & s1 & H1 & Hrun). apply the_deposit_run in H1 as [-> H1].
  rewrite Hu in H1. injection H1 as <-.
  apply bind_Ok in Hrun as (events & s1 & He & Hrun). injection He as <- <-.
  set (events := active_events k (s_db s)) in *.
  apply bind_Ok in Hrun as (some & s1 & Hsum & Hrun).
  destruct some; cbn [negb] in Hrun.
  2: { exfalso. apply ok_inv in Hrun as [_ <-]. apply Hne.
       unfold summarize_events in Hsum. destruct events; by apply ok_inv in Hsum as [? <-]. }
  destruct (summarize_run _ _ _ _ _ _ Hsum eq_refl) as (Hnil & Hm1 & Hu1).
  specialize (Hu1 u Hu).
  apply bind_Ok in Hrun as (sql2 & s2 & Hn & Hrun).
  assert (deposit_and_money s1.(s_db).(db_deposits) (money_rows s1.(s_db)) s2.(s_db))
    as [Hd2 Hm2].
  { eapply (keeps_run (fun x => deposit_and_money _ _ x.(s_db))); [|exact Hn|by split].
    destruct (ud_received_token_units u =? 0); [|keeps_tac].
    unfold notify_usdt_detection, the_deposit. keeps_step; [keeps_tac|]. keeps_step; [keeps_tac|].
    do 2 (keeps_step; [keeps_tac|]). keeps_step; [apply notify_keeps_money|keeps_tac]. }
  rewrite <- Hd2 in Hu1.
  destruct (existsb _ events) eqn:Hlate;
    [exfalso; apply ok_inv in Hrun as [_ <-]; apply Hne; by rewrite <- Hm1, <- Hm2|].
  destruct (Z.ltb_spec (units_of events) (threshold w u.(ud_expected_token_units)));
    [exfalso; apply ok_inv in Hrun as [_ <-]; apply Hne; by rewrite <- Hm1, <- Hm2|].
  destruct (settle_run _ _ _ _ _ _ _ _ _ Hrun Hu1)
    as [Hsame|(p & t2 & t3 & t4 & H2 & H3 & H4 & H5 & H6 & H7 & H8 & Hr & u' & H9 & H10 & H11
                & H12)].
  { exfalso. apply Hne. by rewrite Hsame, Hm2, Hm1. }
  assert ((summarized events u).(ud_received_token_units) = units_of events
    /\ (summarized events u).(ud_expected_token_units) = u.(ud_expected_token_units)
    /\ (summarized events u).(ud_status) = u.(ud_status)) as (Hx1 & Hx2 & Hx3)
    by (unfold summarized; by destruct events).
  split; [|exists (summarized events u), u'; repeat split; [done..|by rewrite H10]].
  split; [done|]. split; [by apply existsb_late|]. split.
  - exists p, s2, t2, t3, t4. rewrite Hm2, Hm1. repeat split; done.
  - exists u'. split; [done|]. split; [done|]. by rewrite H12, Hx1, Hx2, Hx3.
Qed.

(** C2. A top-up is credited only on proof.  Whenever reconciling a deposit changes a
    payment, an invoice, the ledger or a balance, then: the transfers recorded
    for the deposit and not reversed reach the amount the invoice asks for, up
    to the tolerance; each was mined before the deposit expired; all of them
    were found canonical on the chain before the payment was settled and again
    after it; the payment was neither succeeded nor refunded before; and the
    deposit is marked credited. *)
Theorem credits_need_proof w k now sql r s s' u :
  tbl_get k s.(s_db).(db_deposits) = Some u ->
  reconcile w k now sql s = (Ok r, s') ->
  money_rows s'.(s_db) <> money_rows s.(s_db) ->
  proven w u now s s'.
Proof. intros Hu Hrun Hne. by eapply reconcile_credits. Qed.

(** ** Expiry of what was just credited *)

Lemma expire_rows rows k : forall s u,
  tbl_get k s.(s_db).(db_deposits) = Some u -> 0 < u.(ud_received_token_units) ->
  exists s2,
    for_each rows (fun row => upd_deposit row.(ud_id) (fun u =>
      u <|ud_status := if 0 <? u.(ud_received_token_units) then UD_MANUAL_REVIEW
                       else UD_EXPIRED|>)) s = (Ok tt, s2)
    /\ tbl_get k s2.(s_db).(db_deposits)
       = Some (if existsb (fun row => row.(ud_id) =? k) rows
               then u <|ud_status := UD_MANUAL_REVIEW|> else u).
Proof.
  induction rows as [|row rows IH]; intros s u Hu Hpos; [by exists s|].
  cbn [for_each existsb]. unfold bind at 1, upd_deposit at 1, write, modify.
  set (f := fun u : usdt_deposit => u <|ud_status := _|>).
  set (s1 := s <|s_db := _|>).
  destruct (Z.eqb_spec row.(ud_id) k) as [Hk|Hk]; cbn [orb].
  - assert (tbl_get k s1.(s_db).(db_deposits) = Some (u <|ud_status := UD_MANUAL_REVIEW|>)) as H1.
    { subst s1. rewrite Hk. cbn [s_db db_deposits update].
      rewrite (tbl_get_update_eq k f _ u) by done. subst f. cbn.
      by assert ((0 <? ud_received_token_units u) = true) as -> by lia. }
    destruct (IH s1 _ H1 Hpos) as (s2 & Hr & H2). exists s2. split; [exact Hr|].
    rewrite H2. by destruct (existsb _ rows).
  - apply (IH s1 u); [|done]. subst s1. cbn [s_db db_deposits update].
    by rewrite tbl_get_update_ne.
Qed.

(** A deposit that was paid in time but is first seen after it expired is credited
    and then taken away from the sweeper in the same pass: the expiry query
    runs before the assignments of the settlement are flushed, finds the
    deposit unpaid, and marks it for manual review, so its tokens stay where
    they are until an operator asks for a sweep. *)
Theorem settled_deposit_is_parked w k now sql r s s' u :
  tbl_get k s.(s_db).(db_deposits) = Some u ->
  u.(ud_chain_id) = w_chain w -> u.(ud_contract_address) = w.(w_contract) ->
  u.(ud_status) = UD_AWAITING -> u.(ud_credited_at) = None -> u.(ud_expires_at) <= now ->
  reconcile w k now sql s = (Ok r, s') ->
  money_rows s'.(s_db) <> money_rows s.(s_db) ->
  exists s2 u2, expire_unpaid_deposits w now r s' = (Ok tt, s2)
  /\ tbl_get k s2.(s_db).(db_deposits) = Some u2
  /\ u2.(ud_credited_at) = Some now /\ u2.(ud_status) = UD_MANUAL_REVIEW
  /\ sweepable u2.(ud_status) = false.
Proof.
  intros Hu Hch Hco Hst Hcr Hexp Hrun Hne.
  destruct (reconcile_credits _ _ _ _ _ _ _ _ Hu Hrun Hne)
    as [(Hthr & _) (u1 & u' & Hr & -> & Hu' & Hcr' & Hrec)].
  assert (ud_id u = k) as Hk by exact (tbl_get_key k _ u Hu). rewrite Hk in Hthr.
  set (events := active_events k (s_db s)) in *.
  assert (0 < u'.(ud_received_token_units)) as Hpos by (unfold threshold in Hthr; lia).
  unfold expire_unpaid_deposits.
  destruct (expire_rows (List.filter (expirable w now) r) k s' u' Hu' Hpos) as (s2 & Hrun2 & H2).
  exists s2. eexists. split; [exact Hrun2|]. split; [exact H2|].
  assert (existsb (fun row => row.(ud_id) =? k) (List.filter (expirable w now) r) = true) as ->.
  { apply existsb_exists. exists (summarized events u). split.
    - apply List.filter_In. split; [by apply tbl_get_In in Hr|]. unfold expirable.
      assert (forall v, v = u \/ v = summarized events u ->
        v.(ud_chain_id) = u.(ud_chain_id) /\ v.(ud_contract_address) = u.(ud_contract_address)
        /\ v.(ud_credited_at) = u.(ud_credited_at) /\ v.(ud_expires_at) = u.(ud_expires_at)
        /\ v.(ud_status) = u.(ud_status)) as Hsame.
      { intros v [->| ->]; [done|]. unfold summarized. by destruct events. }
      destruct (Hsame _ (or_intror eq_refl)) as (-> & -> & -> & -> & ->).
      rewrite Hch, Hco, Hst, Hcr, Z.eqb_refl, py_eq_refl.
      by assert ((ud_expires_at u <=? now) = true) as -> by lia.
    - apply Z.eqb_eq. exact (tbl_get_key k _ _ Hr). }
  by rewrite <- Hcr'.
Qed.
End Credit.

(** * Sweeping *)

Section Sweep.
Context {L : EthLib}.

(** How often a transaction was sent to the node. *)
Definition sends (calls : list rpc_call) : Z :=
  Z.of_nat (length (List.filter (fun c => c.(rc_method) == SEND) calls)).

(** ** Attempts *)

(** The attempts of every deposit, and their number. *)
Definition attempts (d : db) : list (Z * Z) :=
  map (fun u => (u.(ud_id), u.(ud_sweep_attempts))) d.(db_deposits).
Definition total (a : list (Z * Z)) : Z := fold_right (fun x n => x.2 + n) 0 a.
(** One more attempt of deposit [k]. *)
Definition bump (k : Z) (a : list (Z * Z)) : list (Z * Z) :=
  map (fun x => if x.1 =? k then (x.1, x.2 + 1) else x) a.
(** The deposits are the same, none lost an attempt, and none went over [top]. *)
Definition grown (top : Z) (a b : list (Z * Z)) : Prop :=
  Forall2 (fun x y => y.1 = x.1 /\ x.2 <= y.2 <= Z.max x.2 top) a b.

Lemma grown_same top a : grown top a a.
Proof. induction a as [|x a IH]; constructor; [lia|done]. Qed.
Lemma grown_trans top a b c : grown top a b -> grown top b c -> grown top a c.
Proof.
  intros H. revert c. induction H as [|x y a b Hxy _ IH]; intros c Hc; [done|].
  inversion Hc as [|? z ? ? Hyz Hc' E1 E2]; subst. constructor; [lia|by apply IH].
Qed.
Lemma grown_keys top a b : grown top a b -> map fst b = map fst a.
Proof. induction 1 as [|x y a b [E _] _ IH]; [done|]. cbn. by rewrite E, IH. Qed.
Lemma grown_total top a b : grown top a b -> total a <= total b.
Proof. unfold total. induction 1 as [|x y a b Hxy _ IH]; cbn; lia. Qed.
Lemma bump_absent k a : ~ In k (map fst a) -> bump k a = a.
Proof.
  intros Hk. rewrite <- (map_id a) at 2. apply map_ext_in. intros x Hx.
  destruct (Z.eqb_spec x.1 k) as [<-|]; [|done]. destruct Hk. by apply in_map.
Qed.
Lemma bump_step top k a x :
  List.NoDup (map fst a) -> In (k, x) a -> x < top ->
  grown top a (bump k a) /\ total (bump k a) = total a + 1.
Proof.
  intros Hnd Hin Hx. induction a as [|[j y] a IH]; [done|]. cbn in Hnd. inversion Hnd as [|? ? Hj Hnd' E]; subst.
  destruct (Z.eqb_spec j k) as [->|Hne].
  - destruct Hin as [[= ->]|Hin]; [|destruct Hj; by apply (in_map fst) in Hin].
    change (bump k ((k, x) :: a)) with ((if k =? k then (k, x + 1) else (k, x)) :: bump k a).
    rewrite Z.eqb_refl, bump_absent by done. split; [|cbn; lia].
    constructor; [cbn; lia|apply grown_same].
  - destruct Hin as [[= -> _]|Hin]; [done|]. destruct (IH Hnd' Hin) as [H1 H2].
    change (bump k ((j, y) :: a)) with ((if j =? k then (j, y + 1) else (j, y)) :: bump k a).
    rewrite (proj2 (Z.eqb_neq j k) Hne). split; [constructor; [cbn; lia|done]|].
    unfold total in *. cbn. lia.
Qed.

(** The deposits have these attempts, and at most [n] transactions were sent. *)
Definition spent (n : Z) (a : list (Z * Z)) (s : session) : Prop :=
  sends s.(s_calls) <= n /\ attempts s.(s_db) = a.

#[local] Instance spent_reads n a : ReadsFree (spent n a).
Proof.
  intros s c Hc [Hn Hu]. split; [|done]. unfold sends in *. cbn [s_calls update].
  rewrite List.filter_app, length_app. cbn [List.filter].
  by rewrite (proj2 (py_eq_false _ _) Hc), Nat.add_0_r.
Qed.
Lemma spent_le n n' a s : n <= n' -> spent n a s -> spent n' a s.
Proof. intros Hn [Hs Hu]. split; [lia|done]. Qed.
Lemma attempts_update k f (c : Z) d :
  (forall u, (f u).(ud_id) = u.(ud_id)) ->
  (forall u, (f u).(ud_sweep_attempts) = u.(ud_sweep_attempts) + c) ->
  attempts (d <|db_deposits := tbl_update k f d.(db_deposits)|>)
  = map (fun x => if x.1 =? k then (x.1, x.2 + c) else x) (attempts d).
Proof.
  intros Hid Ha. unfold attempts, tbl_update. cbn [db_deposits update]. rewrite !map_map.
  apply map_ext. intros u. change (row_key u) with u.(ud_id). cbn [fst snd].
  destruct (ud_id u =? k); [by rewrite Hid, Ha|done].
Qed.
Lemma spent_bump k n a f (R : exn -> session -> Prop) s :
  (forall u, (f u).(ud_id) = u.(ud_id)) ->
  (forall u, (f u).(ud_sweep_attempts) = u.(ud_sweep_attempts) + 1) ->
  spent n a s -> wp (upd_deposit k f) (fun _ => spent n (bump k a)) R s.
Proof.
  intros Hid Ha [Hs <-]. apply wp_write. split; [done|]. by apply attempts_update.
Qed.
Lemma spent_keeps k n a f :
  (forall u, (f u).(ud_id) = u.(ud_id)) ->
  (forall u, (f u).(ud_sweep_attempts) = u.(ud_sweep_attempts)) ->
  keeps (spent n a) (upd_deposit k f).
Proof.
  intros Hid Ha s [Hs <-]. apply wp_write. split; [done|].
  etrans; [apply (attempts_update k f 0); [done|intros u; rewrite Ha; lia]|].
  etrans; [|apply map_id]. apply map_ext. intros [x y]. cbn.
  rewrite Z.add_0_r. by destruct (x =? k).
Qed.
#[local] Hint Extern 1 (keeps (spent _ _) (upd_deposit _ _)) =>
  apply spent_keeps; reflexivity : dcim.
Lemma keeps_spent_status k n a st : keeps (spent n a) (set_deposit_status k st).
Proof. unfold set_deposit_status. keeps_tac. Qed.
Lemma keeps_spent_deposit k n a : keeps (spent n a) (the_deposit k).
Proof. apply keeps_the. Qed.
Lemma keeps_spent_answer {A} n a (o : outcome exn A) : keeps (spent n a) (answer o).
Proof. unfold answer. keeps_tac. Qed.
Lemma keeps_spent_account n a i c : keeps (spent n a) (derive_deposit_account i c).
Proof.
  unfold derive_deposit_account, mnemonic, secret_value, decrypt_secret, path, answer. keeps_tac.
Qed.
Lemma keeps_spent_wallet n a c : keeps (spent n a) (decrypt_gas_wallet_account c).
Proof.
  unfold decrypt_gas_wallet_account, secret_value, decrypt_secret, answer. keeps_tac.
Qed.
Lemma keeps_spent_sign n a x tx : keeps (spent n a) (sign x tx).
Proof. unfold sign, answer. keeps_tac. Qed.
Lemma keeps_spent_receipt n a rpc h f : keeps (spent n a) (receipt_status rpc h f).
Proof. unfold receipt_status. keeps_tac. Qed.
#[local] Hint Resolve keeps_spent_status keeps_spent_deposit keeps_spent_account
  keeps_spent_wallet keeps_spent_sign keeps_spent_receipt : dcim.

(** ** One deposit *)

(** Sending: one post per attempt of the client. *)
Lemma send_spent n a rpc r s :
  let posts := Z.of_nat (rpc_retries rpc) + 1 in
  spent n a s ->
  wp (send_raw_transaction rpc r) (fun _ => spent (n + posts) a)
     (fun _ => spent (n + posts) a) s.
Proof.
  intros posts Hs. unfold send_raw_transaction, call. apply wp_bind.
  apply (wp_keeps (spent n a)); [keeps_tac|done| |].
  2: { intros e s'. apply spent_le. lia. }
  intros _ s1 Hs1. apply wp_bind. apply wp_bind, wp_gets.
  set (c := mk_rpc_call _ _ _).
  eapply wp_conseq.
  - apply (wp_attempt_send (fun j => spent (n + posts - Z.of_nat j) a)).
    + intros j s' [Hn Hu]. split; [|done]. unfold sends in *. cbn [s_calls update].
      rewrite List.filter_app, length_app. cbn [List.filter].
      change (py_eq (rc_method c) SEND) with (py_eq SEND SEND). rewrite py_eq_refl.
      cbn [length]. lia.
    + intros j s'. apply spent_le. lia.
    + eapply spent_le; [|exact Hs1]. lia.
  - intros x s2 Hs2. eapply wp_keeps; [apply keeps_hash|exact Hs2|..];
      intros ? ? H; (eapply spent_le; [|exact H]; lia).
  - intros e s2 H. eapply spent_le; [|exact H]; lia.
Qed.

(** Every step inside the [try] sends nothing, or sends and counts an attempt,
    or counts none, or raises after having sent. *)
Definition stepped (k n : Z) (a : list (Z * Z)) (posts : Z) (s : session) : Prop :=
  spent n a s \/ spent (n + posts) (bump k a) s.
Lemma send_step k n a rpc r (f : string -> usdt_deposit -> usdt_deposit) s :
  (forall h u, (f h u).(ud_id) = u.(ud_id)
               /\ (f h u).(ud_sweep_attempts) = u.(ud_sweep_attempts)) ->
  let posts := Z.of_nat (rpc_retries rpc) + 1 in
  spent n a s ->
  wp (h <- send_raw_transaction rpc r ;; upd_deposit k (fun u => submitted (f h u)) ;;; ret true)
     (fun _ => stepped k n a posts) (fun _ => spent (n + posts) a) s.
Proof.
  intros Hf posts Hs. apply wp_bind. eapply wp_conseq; [by apply send_spent| |done].
  intros h s1 Hs1. apply wp_bind.
  apply (wp_conseq _ (fun _ => spent (n + posts) (bump k a)) _ (fun _ _ => False)).
  - apply spent_bump; [| |exact Hs1].
    + intros u. by destruct (Hf h u).
    + intros u. cbn. by destruct (Hf h u) as [_ ->].
  - intros [] s2 Hs2. by right.
  - done.
Qed.

Lemma step_keeps {A} (m : Meth A) k n a posts s :
  0 <= posts -> keeps (spent n a) m -> spent n a s ->
  wp m (fun _ => stepped k n a posts) (fun _ => spent (n + posts) a) s.
Proof.
  intros Hp Hm Hs. eapply wp_conseq; [exact (Hm s Hs)|by left|].
  intros e s'. apply spent_le. lia.
Qed.
Lemma step_bind {A B} (m : Meth A) (f : A -> Meth B) k n a posts s :
  0 <= posts -> keeps (spent n a) m -> spent n a s ->
  (forall x s', spent n a s' ->
     wp (f x) (fun _ => stepped k n a posts) (fun _ => spent (n + posts) a) s') ->
  wp (bind m f) (fun _ => stepped k n a posts) (fun _ => spent (n + posts) a) s.
Proof.
  intros Hp Hm Hs Hf. apply wp_bind. eapply wp_conseq; [exact (Hm s Hs)|exact Hf|].
  intros e s'. apply spent_le. lia.
Qed.
Ltac next_step Hs :=
  apply step_bind; [lia|keeps_tac|exact Hs|]; clear Hs; intros ? ? Hs.

Lemma gas_funding_steps sw k need price n a s :
  let posts := Z.of_nat (rpc_retries sw.(sw_rpc)) + 1 in
  spent n a s ->
  wp (submit_gas_funding sw k need price) (fun _ => stepped k n a posts)
     (fun _ => spent (n + posts) a) s.
Proof.
  intros posts Hs. unfold submit_gas_funding. do 6 next_step Hs.
  destruct (_ <? _); [apply step_keeps; [lia|keeps_tac|done]|]. do 2 next_step Hs.
  by apply send_step.
Qed.
Lemma token_transfer_steps sw k contract data limit price n a s :
  let posts := Z.of_nat (rpc_retries sw.(sw_rpc)) + 1 in
  spent n a s ->
  wp (submit_token_transfer sw k contract data limit price) (fun _ => stepped k n a posts)
     (fun _ => spent (n + posts) a) s.
Proof.
  intros posts Hs. unfold submit_token_transfer. do 4 next_step Hs.
  destruct (negb _); [apply step_keeps; [lia|keeps_tac|done]|]. do 2 next_step Hs.
  by apply send_step.
Qed.
Lemma fund_or_submit_steps sw k n a s :
  let posts := Z.of_nat (rpc_retries sw.(sw_rpc)) + 1 in
  spent n a s ->
  wp (fund_or_submit sw k) (fun _ => stepped k n a posts) (fun _ => spent (n + posts) a) s.
Proof.
  intros posts Hs. unfold fund_or_submit. do 7 next_step Hs.
  destruct (_ <? _); [by apply gas_funding_steps|by apply token_transfer_steps].
Qed.

(** A failure on chain counts an attempt. *)
Lemma failed_steps k n a posts max msg (g : usdt_deposit -> usdt_deposit) s :
  0 <= posts ->
  (forall u, (g u).(ud_id) = u.(ud_id) /\ (g u).(ud_sweep_attempts) = u.(ud_sweep_attempts)) ->
  spent n a s ->
  wp (upd_deposit k (fun u => failed_attempt max msg (g u)) ;;; ret false)
     (fun b s' => b = false /\ stepped k n a posts s') (fun _ => spent (n + posts) a) s.
Proof.
  intros Hp Hg Hs. apply wp_bind. eapply wp_conseq.
  - apply (spent_bump k n a _ (fun _ _ => False)); [| |exact Hs].
    + intros u. by destruct (Hg u).
    + intros u. cbn. by destruct (Hg u) as [_ ->].
  - intros [] s1 Hs1. split; [done|]. right. eapply spent_le; [|exact Hs1]. lia.
  - done.
Qed.

Lemma funding_steps sw k n a (b : bool) s :
  let posts := Z.of_nat (rpc_retries sw.(sw_rpc)) + 1 in
  spent n a s ->
  wp (if b then check_funding_receipt sw k else ret true)
     (fun funded s' => if (funded : bool) then spent n a s' else stepped k n a posts s')
     (fun _ => spent (n + posts) a) s.
Proof.
  intros posts Hs. destruct b; [|by apply wp_ret]. unfold check_funding_receipt.
  apply wp_bind. apply (wp_keeps (spent n a)); [keeps_tac|done| |];
    [|intros ? ?; apply spent_le; lia].
  intros u s1 Hs1. apply wp_bind. apply (wp_keeps (spent n a)); [keeps_tac|done| |];
    [|intros ? ?; apply spent_le; lia].
  intros st s2 Hs2. destruct st as [x|].
  - destruct (negb _).
    + eapply wp_conseq; [apply (failed_steps k n a posts _ _
        (fun u => u <|ud_gas_funding_tx_hash := None|>)); [lia|done|exact Hs2]| |done].
      by intros b s3 [-> H3].
    + apply wp_bind, wp_gets, wp_bind. apply (wp_keeps (spent n a)); [keeps_tac|exact Hs2| |].
      * intros [] s3 H3. exact H3.
      * intros ? ?; apply spent_le; lia.
  - apply wp_bind. apply (wp_keeps (spent n a)); [keeps_tac|exact Hs2| |].
    + intros [] s3 H3. by left.
    + intros ? ?; apply spent_le; lia.
Qed.

Lemma sweep_step_steps sw u n a s :
  let posts := Z.of_nat (rpc_retries sw.(sw_rpc)) + 1 in
  spent n a s ->
  wp (sweep_step sw u) (fun _ => stepped u.(ud_id) n a posts)
     (fun _ => spent (n + posts) a) s.
Proof.
  intros posts Hs. set (k := ud_id u) in *. unfold sweep_step. fold k. next_step Hs.
  destruct (str_true _).
  - unfold check_sweep_receipt. do 2 next_step Hs. case_match.
    + destruct (negb _); [|apply step_keeps; [lia|keeps_tac|done]].
      eapply wp_conseq; [apply (failed_steps k n a posts _ _
        (fun u => u <|ud_sweep_tx_hash := None|>)); [lia|done|exact Hs]| |done].
      by intros b s1 [-> H1].
    + apply step_keeps; [lia|keeps_tac|done].
  - apply wp_bind. eapply wp_conseq; [apply (funding_steps sw u.(ud_id) n a); exact Hs| |done].
    intros [] s1 H1; [by apply fund_or_submit_steps|exact H1].
Qed.
(** One pass over the deposit, which had attempts left if it made one. *)
Lemma sweep_deposit_spent sw k n a s :
  let posts := Z.of_nat (rpc_retries sw.(sw_rpc)) + 1 in
  let after := fun s' => spent n a s'
    \/ ((exists x, In (k, x) a /\ x < sw.(sw_config).(usdt_sweep_max_attempts))
        /\ spent (n + posts) (bump k a) s') in
  spent n a s -> wp (sweep_deposit sw k) (fun _ => after) (fun _ => after) s.
Proof.
  intros posts after Hs.
  assert (forall {A} (m : Meth A), keeps (spent n a) m -> forall s', spent n a s' ->
            wp m (fun _ => after) (fun _ => after) s') as Hquiet.
  { intros A m Hm s' Hs'. eapply wp_conseq; [exact (Hm s' Hs')|by left|by left]. }
  unfold sweep_deposit. apply wp_bind, wp_read.
  destruct (tbl_get k (db_deposits (s_db s))) as [u|] eqn:Hu; [|by left].
  assert (ud_id u = k) as Hk by exact (tbl_get_key k _ u Hu).
  assert (In (k, u.(ud_sweep_attempts)) a) as Hin.
  { destruct Hs as [_ <-]. rewrite <- Hk. apply (in_map (fun u => (u.(ud_id), u.(ud_sweep_attempts)))).
    by eapply tbl_get_In. }
  destruct (negb _); [by apply Hquiet; [keeps_tac|]|].
  destruct (negb _); [by apply Hquiet; [keeps_tac|]|]. apply wp_bind.
  apply (wp_keeps (spent n a)); [unfold out_of_scope; keeps_tac|done| |by left].
  intros foreign s1 Hs1. destruct foreign; [by apply Hquiet; [keeps_tac|]|].
  destruct (Z.leb_spec (usdt_sweep_max_attempts (sw_config sw)) (ud_sweep_attempts u)) as [|Hlt];
    [by apply Hquiet; [keeps_tac|]|]. apply wp_bind, wp_try_catch.
  eapply wp_conseq; [exact (sweep_step_steps sw u n a s1 Hs1)| |]; subst k.
  - intros b s2 [H2|H2]; apply wp_bind, wp_flush; intros; try apply wp_ret; subst after;
      cbn; eauto 6.
  - intros e s2 H2. apply wp_bind.
    apply (wp_conseq _ (fun _ => spent (n + posts) (bump u.(ud_id) a)) _ (fun _ _ => False)); [| |done].
    + by apply spent_bump.
    + intros [] s3 H3. apply wp_ret, wp_bind, wp_flush; intros; try apply wp_ret; subst after;
        cbn; eauto 6.
Qed.

(** ** The worker *)

Lemma grown_bump top k a b :
  List.NoDup (map fst a) -> grown top a b -> (exists x, In (k, x) b /\ x < top) ->
  grown top a (bump k b) /\ total (bump k b) = total b + 1.
Proof.
  intros Hnd Hg (x & Hin & Hx). rewrite <- (grown_keys top a b Hg) in Hnd.
  destruct (bump_step top k b x Hnd Hin Hx) as [H1 H2]. split; [by eapply grown_trans|done].
Qed.

Section Batch.
Context (sw : sweeper) (a : list (Z * Z)) (n retries : Z).
Hypothesis Hkeys : List.NoDup (map fst a).
Hypothesis Hretries : Z.of_nat (rpc_retries sw.(sw_rpc)) <= retries.
#[local] Abbreviation top := sw.(sw_config).(usdt_sweep_max_attempts).

(** At most [m] submissions so far, each counted. *)
Definition swept_so_far (m : Z) (s : session) : Prop :=
  exists b, grown top a b /\ total b - total a <= m
    /\ spent (n + (total b - total a) * (retries + 1)) b s.

Lemma sweep_each ids : forall m acc s,
  0 <= retries -> swept_so_far m s ->
  wp (fold_each ids acc (fun processed k =>
        done <- sweep_deposit sw k ;; ret (if (done : bool) then processed + 1 else processed)))
     (fun _ => swept_so_far (m + Z.of_nat (length ids)))
     (fun _ => swept_so_far (m + Z.of_nat (length ids))) s.
Proof.
  induction ids as [|k ids IH]; intros m acc s H0 Hs; [by rewrite Z.add_0_r|].
  cbn [fold_each length].
  assert (forall s', swept_so_far m s' \/ swept_so_far (m + 1) s' -> swept_so_far (m + 1) s') as Hup.
  { intros s' [(b & H1 & H2 & H3)|H]; [|done]. exists b. split; [done|]. split; [lia|done]. }
  destruct Hs as (b & Hg & Hm & Hb).
  apply wp_bind, wp_bind. eapply wp_conseq; [exact (sweep_deposit_spent sw k _ b s Hb)|..].
  all: intros x s1 H1.
  all: assert (swept_so_far (m + 1) s1) as Hs1.
  1, 3: apply Hup; destruct H1 as [H1|[Hleft H1]]; [left; by exists b|right];
    destruct (grown_bump top k a b Hkeys Hg Hleft) as [Hg' Ht]; exists (bump k b);
    (split; [done|]); (split; [lia|]); rewrite Ht; (eapply spent_le; [|exact H1]); lia.
  - apply wp_ret. eapply wp_conseq; [apply IH; [done|exact Hs1]|..]; intros y s2 (c & H2 & H3 & H4);
      exists c; (split; [done|]); (split; [lia|done]).
  - destruct Hs1 as (c & H2 & H3 & H4). exists c. split; [done|]. split; [lia|done].
Qed.
End Batch.

(** Nothing counted is uncommitted. *)
Definition held (n : Z) (a : list (Z * Z)) (s : session) : Prop :=
  spent n a s /\ attempts s.(s_committed) = a.
(** A session that has just begun. *)
Definition at_start (n : Z) (a : list (Z * Z)) (s : session) : Prop :=
  s.(s_db) = s.(s_committed) /\ spent n a s.

#[local] Hint Extern 2 (keeps (held _ _) _) => (let s := fresh in intros s; exact id) : dcim.
#[local] Hint Extern 1 (keeps (held _ _) (begin_nested _)) =>
  apply keeps_nested; [by intros ? ? [[_ ?] _] [[? _] ?]|] : dcim.
#[local] Instance held_reads n a : ReadsFree (held n a).
Proof. intros s c Hc [Hs Ha]. split; [|done]. by apply spent_reads. Qed.
#[local] Instance held_watcher n a : WatcherStable (held n a).
Proof.
  split; [apply _|..]; intros; unfold upd_transfer, upd_cursor; open_settlement; try keeps_tac.
  intros s [Hs Hc]. split; [|done]. refine (spent_keeps k n a f _ _ s Hs); [|done].
  intros u. by injection (H u).
Qed.
Lemma held_commit n a : keeps (held n a) commit.
Proof.
  intros s [[Hn Hs] Hc]. unfold wp. destruct (commit s) as [r s'] eqn:Hr.
  assert (s'.(s_calls) = s.(s_calls)) as Hcalls.
  { revert Hr. unfold commit, bind, flush. destruct (negb _); [by intros [= <- <-]|].
    destruct (constraints _); by intros [= <- <-]. }
  destruct (commit_cases _ _ _ Hr) as [Hd Hcm]. unfold held, spent.
  destruct r; rewrite Hd, Hcalls; destruct Hcm as [->| ->]; done.
Qed.
Lemma held_rollback n a s : held n a s -> wp rollback (fun _ => at_start n a) (fun _ _ => False) s.
Proof. by intros [[Hn _] Hc]. Qed.
Lemma at_start_held n a s : at_start n a s -> held n a s.
Proof. intros [Hs H]. split; [done|]. rewrite <- Hs. apply H. Qed.
#[local] Hint Resolve held_commit : dcim.
Lemma held_rollback_keeps n a : keeps (held n a) rollback.
Proof. by intros s [[Hn _] Hc]. Qed.
#[local] Hint Resolve held_rollback_keeps : dcim.
Lemma held_acquire n a w o : keeps (held n a) (acquire_cursor_lease w o).
Proof. unfold acquire_cursor_lease, watcher_cursor, cursor_of, upd_cursor. keeps_tac. Qed.
Lemma held_release n a w o : keeps (held n a) (release_cursor_lease w o).
Proof. unfold release_cursor_lease, watcher_cursor, cursor_of, upd_cursor. keeps_tac. Qed.
#[local] Hint Resolve held_acquire held_release : dcim.



Section Iteration.
Context (config : usdt_config) (retries : Z).
Hypothesis Hretries : 0 <= retries.
#[local] Abbreviation top := config.(usdt_sweep_max_attempts).

(** Sweeping, up to the commit of the batch. *)
Lemma sweeps_spent rpc n a s :
  Z.of_nat (rpc_retries rpc) <= retries -> List.NoDup (map fst a) -> held n a s ->
  wp (sweep_run_once (mk_sweeper rpc config) 20)
     (fun _ s' => swept_so_far (mk_sweeper rpc config) a n retries 20 s'
                  /\ attempts s'.(s_committed) = a)
     (fun _ s' => swept_so_far (mk_sweeper rpc config) a n retries 20 s'
                  /\ attempts s'.(s_committed) = a) s.
Proof.
  intros Hr Hkeys [Hs Hc].
  assert (swept_so_far (mk_sweeper rpc config) a n retries 0 s) as H0.
  { exists a. split; [apply grown_same|]. split; [lia|]. rewrite Z.sub_diag, Z.add_0_r. exact Hs. }
  eapply wp_conseq; [apply wp_and;
    [|exact (stable_sweep_run (committed_is s.(s_committed)) (mk_sweeper rpc config) 20 s eq_refl)]|..].
  - instantiate (1 := fun _ => swept_so_far (mk_sweeper rpc config) a n retries 20).
    instantiate (1 := fun _ => swept_so_far (mk_sweeper rpc config) a n retries 20).
    assert (forall m s', m <= 20 -> swept_so_far (mk_sweeper rpc config) a n retries m s' ->
              swept_so_far (mk_sweeper rpc config) a n retries 20 s') as Hup.
    { intros m s' Hm (b & H1 & H2 & H3). exists b. split; [done|]. split; [lia|done]. }
    unfold sweep_run_once. destruct (negb _); [apply wp_ret; by apply (Hup 0)|].
    apply wp_bind, wp_read. set (ids := sweep_ids 20 s.(s_db)).
    assert (Z.of_nat (length ids) <= 20) as Hlen.
    { subst ids. unfold sweep_ids. rewrite length_map, length_take. lia. }
    eapply wp_conseq; [exact (sweep_each (mk_sweeper rpc config) a n retries Hkeys Hr ids 0 0 s Hretries H0)|..];
      intros x s'; by apply Hup.
  - intros x s' [H1 H2]. split; [done|]. by rewrite H2.
  - intros e s' [H1 H2]. split; [done|]. by rewrite H2.
Qed.

(** A batch that is committed counts every submission it made; a batch that is
    not leaves the attempts as they were. *)
Lemma iteration_spent rpc owner n a s :
  Z.of_nat (rpc_retries rpc) <= retries -> List.NoDup (map fst a) -> at_start n a s ->
  wp (run_usdt_iteration config rpc owner)
     (fun _ s' => exists b, grown top a b /\ at_start (n + (total b - total a) * (retries + 1)) b s')
     (fun _ => at_start (n + 20 * (retries + 1)) a) s.
Proof.
  intros Hr Hkeys Hs. unfold run_usdt_iteration.
  assert (forall s', at_start n a s' -> at_start (n + 20 * (retries + 1)) a s') as Hless.
  { intros s' [H1 H2]. split; [done|]. eapply spent_le; [|exact H2]. nia. }
  assert (forall n' s', n' = n -> held n a s' ->
            exists b, grown top a b /\ held (n' + (total b - total a) * (retries + 1)) b s') as Hnone.
  { intros n' s' -> H. exists a. split; [apply grown_same|].
    by rewrite Z.sub_diag, Z.add_0_r. }
  destruct (negb _).
  { wp_step. exists a. split; [apply grown_same|]. by rewrite Z.sub_diag, Z.add_0_r. }
  wp_step. apply (wp_keeps (fun x => x = s)); [by apply keeps_new_watcher|done| |by intros e s' ->; auto].
  intros w s1 ->. cbv zeta.
  set (release := try_catch (release_cursor_lease w owner ;;; commit) (fun _ => rollback)).
  assert (forall (acquired : bool) n' a' s', held n' a' s' ->
    wp ((if acquired then release else ret tt) ;;; rollback) (fun _ => at_start n' a')
       (fun _ _ => False) s') as Hfinish.
  { intros acquired n' a' s' H. apply wp_bind.
    apply (wp_conseq _ (fun _ => held n' a') _ (fun _ _ => False)); [|by intros; apply held_rollback|done].
    destruct acquired; [|by apply wp_ret]. subst release. apply wp_try_catch.
    eapply wp_keeps; [apply keeps_bind; [apply held_release|intros; apply held_commit]|exact H|done|].
    intros e s2 H2. by apply held_rollback_keeps. }
  wp_step. wp_step. eapply wp_keeps; [apply held_acquire|by apply at_start_held| |].
  2:{ intros e s2 H2. wp_step. eapply wp_conseq; [by apply held_rollback| |done].
      intros [] s3 H3. apply wp_raise. by apply Hless. }
  intros acquired s2 H2. wp_step. wp_step.
  apply (wp_conseq _
    (fun _ s' => exists b, grown top a b /\ held (n + (total b - total a) * (retries + 1)) b s') _
    (fun _ s' => sends s'.(s_calls) <= n + 20 * (retries + 1) /\ attempts s'.(s_committed) = a)).
  - wp_step. eapply wp_keeps; [apply held_commit|exact H2| |].
    2:{ intros e s3 [[H3 _] H4]. split; [nia|done]. }
    intros [] s3 H3. destruct (negb acquired); [apply wp_ret; by apply Hnone|].
    wp_step. eapply wp_keeps; [by apply stable_run_once, held_watcher|exact H3| |].
    2:{ intros e s4 [[H4 _] H5]. split; [nia|done]. }
    intros processed s4 H4. wp_step. eapply wp_conseq; [by apply sweeps_spent|..].
    + intros swept s5 [(b & Hg & Hle & Hsp) Hcm]. wp_step.
      unfold commit. wp_step. apply wp_flush.
      * intros _ _. apply wp_modify, wp_ret. exists b. split; [done|].
        split; [exact Hsp|apply Hsp].
      * intros e _. split; [|done]. destruct Hsp as [Hsp _]. nia.
    + intros e s5 [(b & Hg & Hle & Hsp & _) Hcm]. split; [nia|done].
  - intros r s3 (b & Hg & H3). wp_step. eapply wp_conseq; [by apply Hfinish| |done].
    intros [] s4 H4. wp_step. by exists b.
  - intros e s3 [H3 H4]. wp_step. apply wp_modify. wp_step.
    eapply wp_conseq; [apply (Hfinish acquired (n + 20 * (retries + 1)) a)|by intros; wp_step|done].
    split; [split; [exact H3|exact H4]|exact H4].
Qed.
End Iteration.

(** The loop of [run_usdt_watcher]: cycles, each with its client and the time it
    starts; answers how many of them were logged as failed. *)
Definition watcher_cycle (config : usdt_config) (owner : string) (failed : Z)
    (c : rpc_client * Z) : Meth Z :=
  modify (fun s => s <|s_now := c.2|>) ;;;
  if negb (usdt_enabled config) then ret failed
  else try_catch (run_usdt_iteration config c.1 owner ;;; ret failed)
         (fun _ => ret (failed + 1)).
Definition run_usdt_watcher (config : usdt_config) (owner : string)
    (cycles : list (rpc_client * Z)) : Meth Z :=
  fold_each cycles 0 (watcher_cycle config owner).

(** The cycles up to now: the failed ones, and what the others recorded. *)
Definition cycled (top retries n : Z) (a : list (Z * Z)) (done failed : Z) (s : session) : Prop :=
  0 <= failed <= done /\ exists b, grown top a b
    /\ at_start (n + (total b - total a + 20 * failed) * (retries + 1)) b s.
Lemma cycles_spent config owner retries n a cycles : forall done failed s,
  List.NoDup (map fst a) -> Forall (fun c => (rpc_retries c.1 <= retries)%nat) cycles ->
  cycled config.(usdt_sweep_max_attempts) (Z.of_nat retries) n a done failed s ->
  wp (fold_each cycles failed (watcher_cycle config owner))
    (cycled config.(usdt_sweep_max_attempts) (Z.of_nat retries) n a (done + Z.of_nat (length cycles)))
    (fun _ _ => False) s.
Proof.
  induction cycles as [|c cycles IH]; intros k failed s Hkeys Hr HJ; [by rewrite Z.add_0_r|].
  inversion Hr as [|? ? Hc Hr' E]; subst. cbn [fold_each length].
  rewrite Nat2Z.inj_succ, <- Z.add_1_l, Z.add_assoc. wp_step. unfold watcher_cycle at 1.
  wp_step. wp_step. destruct HJ as (Hf & b & Hg & Hb).
  set (s2 := s <|s_now := c.2|>). assert (at_start _ b s2) as Hb2 by exact Hb.
  destruct (negb _); [apply wp_ret, (IH (k + 1)); [done..|]; split; [lia|by exists b]|].
  wp_step. wp_step. eapply wp_conseq; [apply (iteration_spent config (Z.of_nat retries));
    [lia|lia| |exact Hb2]|..].
  - by rewrite (grown_keys _ _ _ Hg).
  - intros _ s3 (b' & Hg' & H3 & H4). wp_step. apply IH; [done..|]. split; [lia|]. exists b'.
    split; [by eapply grown_trans|]. split; [done|]. eapply spent_le; [|exact H4]. lia.
  - intros e s3 [H3 H4]. wp_step. apply IH; [done..|]. split; [lia|]. exists b.
    split; [done|]. split; [done|]. eapply spent_le; [|exact H4]. lia.
Qed.

(** C27. Sweeping spends a bounded amount of gas, as long as batches are
    committed.  Over any cycles of the watcher's loop, whatever the nodes
    answer and whatever fails: the deposits stay the same ones; no deposit
    gets more than [usdt_sweep_max_attempts] attempts; and the transactions
    posted are at most, each counted once per attempt of the HTTP client, the
    attempts that were recorded, and 20 for every cycle that failed, whose
    batch was rolled back together with the attempts it had counted. *)
Theorem sweeps_are_bounded config owner cycles retries s :
  s.(s_db) = s.(s_committed) -> tbl_wf s.(s_db).(db_deposits) ->
  Forall (fun c => (rpc_retries c.1 <= retries)%nat) cycles ->
  exists failed s', run_usdt_watcher config owner cycles s = (Ok failed, s')
  /\ 0 <= failed <= Z.of_nat (length cycles)
  /\ grown config.(usdt_sweep_max_attempts) (attempts s.(s_committed)) (attempts s'.(s_committed))
  /\ let made := total (attempts s'.(s_committed)) - total (attempts s.(s_committed)) in
     sends s'.(s_calls) - sends s.(s_calls) <= (made + 20 * failed) * (Z.of_nat retries + 1).
Proof.
  intros Hsync Hwf Hr.
  set (a := attempts s.(s_committed)). set (n := sends s.(s_calls)).
  assert (List.NoDup (map fst a)) as Hkeys.
  { subst a. rewrite <- Hsync. unfold attempts. rewrite map_map. exact Hwf. }
  assert (cycled config.(usdt_sweep_max_attempts) (Z.of_nat retries) n a 0 0 s) as H0.
  { split; [lia|]. exists a. split; [apply grown_same|]. split; [done|].
    split; [lia|by rewrite Hsync]. }
  pose proof (cycles_spent config owner retries n a cycles 0 0 s Hkeys Hr H0) as Hwp.
  unfold wp in Hwp. unfold run_usdt_watcher.
  destruct (fold_each cycles 0 _ s) as [[failed|e] s']; [|done].
  destruct Hwp as (Hf & b & Hg & Hs' & Hn & Hb). exists failed, s'. split; [done|].
  split; [lia|]. rewrite <- Hs', Hb. split; [done|]. cbv zeta. lia.
Qed.
End Sweep.

(** * A deposit, from its creation to the treasury *)

(** A node that knows one transfer and answers every other question the same
    way; block hashes are the hash of the transfer's block. *)
Definition node_answer (c : rpc_call) (result : json) : http_answer :=
  HttpResponse (Some (JObj [("jsonrpc", JStr "2.0"); ("id", JInt c.(rc_id));
                            ("result", result)])).
Definition receipt_of (t : decoded_transfer) : json :=
  JObj [("transactionHash", JStr t.(dt_tx_hash)); ("blockHash", JStr t.(dt_block_hash));
        ("blockNumber", JStr (hex t.(dt_block_number))); ("status", JStr "0x1")].
Definition block_of (t : decoded_transfer) (timestamp : Z) : json :=
  JObj [("hash", JStr t.(dt_block_hash)); ("number", JStr (hex t.(dt_block_number)));
        ("timestamp", JStr (hex timestamp))].
Definition sample_node (t : decoded_transfer) (timestamp latest : Z) : rpc_client :=
  mk_rpc_client 0 (fun _ c =>
    let m := c.(rc_method) in
    node_answer c
      (if m == "eth_chainId" then JStr "0x1"
       else if m == "eth_blockNumber" then JStr (hex latest)
       else if m == "eth_getLogs" then JList [transfer_log t]
       else if m == "eth_getTransactionReceipt" then receipt_of t
       else if m == "eth_getBlockByNumber" then block_of t timestamp
       else if m == "eth_sendRawTransaction" then JStr (sample_hash "f")
       else if m == "eth_getBalance" then JStr "0xffffffffffffffff"
       else JStr "0x10")).

Definition usdt_sample_config : usdt_config :=
  mk_usdt_config true "https://node" 1 (sample_address "c") 6 12 2000 86400
    (Some (sample_address "")) (Some "key") (sample_address "d") (Some (sample_address "9"))
    0 0 128 2 120.
Definition unix (n : Z) : Z := seconds (62135596800 + n).
(** Reseller 1 has an open top-up of 105 cents. *)
Definition topup_session : session :=
  session_of (sample_db <|db_invoices := [mk_invoice 1 1 (Some 1) None None None
    IP_CREDIT_TOPUP IS_OPEN 105 "USD" None None None]|>) (unix 1000).
Definition paid_transfer : decoded_transfer :=
  mk_decoded_transfer (sample_hash "a") 3 100 (sample_hash "b") (sample_address "c")
    (sample_address "d") (sample_address "0") 1050000 false.

(** The deposit is created at block 90, paid in block 100 and seen [now]. *)
Definition created : session :=
  (serve_usdt usdt_sample_config [CreateDeposit (sample_node paid_transfer 1100 90) 1 1]
     topup_session).2.
Definition tick (timestamp now : Z) (s : session) : session :=
  (serve_usdt usdt_sample_config
     [WatcherTick (sample_node paid_transfer timestamp 150) "w"] (s <|s_now := unix now|>)).2.
Definition deposit_view (s : session) : list (usdt_status * Z * Z * bool) :=
  map (fun u => (u.(ud_status), u.(ud_received_token_units), u.(ud_sweep_attempts),
                 bool_decide (is_Some u.(ud_credited_at)))) s.(s_committed).(db_deposits).
Definition balances (s : session) : list Z :=
  map rs_cached_balance_cents s.(s_committed).(db_resellers).

Lemma usdt_requests_keep_the_ledger_witness :
  both ledger_inv topup_session /\
  exists s', serve_usdt usdt_sample_config
    [CreateDeposit (sample_node paid_transfer 1100 90) 1 1;
     WatcherTick (sample_node paid_transfer 1100 150) "w"; RetrySweep 1] topup_session
    = (Ok tt, s')
  /\ both ledger_inv s' /\ balances s' = [105; 0].
Proof.
  assert (both ledger_inv topup_session) as Hs by (split; apply sample_db_inv).
  split; [exact Hs|].
  destruct (usdt_requests_keep_the_ledger usdt_sample_config
    [CreateDeposit (sample_node paid_transfer 1100 90) 1 1;
     WatcherTick (sample_node paid_transfer 1100 150) "w"; RetrySweep 1]
    topup_session Hs) as (s' & Hr & Hk).
  exists s'. split; [exact Hr|]. split; [exact Hk|].
  apply (f_equal (fun x => balances x.2)) in Hr. cbn [snd] in Hr. rewrite <- Hr.
  vm_compute. reflexivity.
Defined.

Lemma addresses_are_never_reused_witness :
  exists s', serve_usdt usdt_sample_config
    [CreateDeposit (sample_node paid_transfer 1100 90) 1 1] topup_session = (Ok tt, s')
  /\ List.NoDup (map ud_derivation_index s'.(s_committed).(db_deposits))
  /\ next_index topup_session.(s_db) <= next_index s'.(s_committed).
Proof.
  destruct (addresses_are_never_reused usdt_sample_config
    [CreateDeposit (sample_node paid_transfer 1100 90) 1 1] topup_session)
    as (s' & Hr & Hd & Hn & _).
  - reflexivity.
  - repeat split; vm_compute; try done. constructor.
  - by exists s'.
Defined.

(** The deposit with its transfer recorded, in time and late. *)
Definition recorded (timestamp now : Z) : session :=
  let s := created <|s_now := unix now|> in
  s <|s_db := s.(s_db) <|db_transfers :=
        [new_event 1 1 paid_transfer (unix timestamp) s.(s_now) 1]|>|>.
Definition sample_watcher (timestamp : Z) : watcher :=
  mk_watcher (sample_node paid_transfer timestamp 150) usdt_sample_config (sample_address "c").
Definition sample_deposit : usdt_deposit :=
  mk_usdt_deposit 1 1 1 0 1 (sample_address "c") (sample_address "0") 1050000 0 UD_AWAITING
    None None None None (unix 87400) None None None None 0.

Lemma credits_need_proof_witness :
  exists r s', reconcile (sample_watcher 1100) 1 (unix 1300) [] (recorded 1100 1300) = (Ok r, s')
  /\ proven (sample_watcher 1100) sample_deposit (unix 1300) (recorded 1100 1300) s'.
Proof.
  destruct (reconcile (sample_watcher 1100) 1 (unix 1300) [] (recorded 1100 1300))
    as [[r|e] s'] eqn:Hrun.
  - exists r, s'. split; [reflexivity|].
    apply (credits_need_proof (sample_watcher 1100) 1 (unix 1300) [] r (recorded 1100 1300) s').
    + by vm_compute.
    + exact Hrun.
    + apply (f_equal (fun x => map pm_status x.2.(s_db).(db_payments))) in Hrun.
      intros Heq. apply (f_equal (fun m => map pm_status m.1.1.1)) in Heq.
      change (map pm_status (db_payments (s_db s'))
              = map pm_status (db_payments (s_db (recorded 1100 1300)))) in Heq.
      cbn [snd] in Hrun. rewrite <- Hrun in Heq. vm_compute in Heq. discriminate Heq.
  - apply (f_equal (fun x => match x.1 with Ok _ => true | Raise _ => false end)) in Hrun.
    vm_compute in Hrun. discriminate Hrun.
Defined.

Lemma settled_deposit_is_parked_witness :
  exists r s', reconcile (sample_watcher 87000) 1 (unix 87500) [] (recorded 87000 87500)
               = (Ok r, s')
  /\ exists s2 u2, expire_unpaid_deposits (sample_watcher 87000) (unix 87500) r s' = (Ok tt, s2)
     /\ tbl_get 1 s2.(s_db).(db_deposits) = Some u2 /\ u2.(ud_credited_at) = Some (unix 87500)
     /\ u2.(ud_status) = UD_MANUAL_REVIEW /\ sweepable u2.(ud_status) = false.
Proof.
  destruct (reconcile (sample_watcher 87000) 1 (unix 87500) [] (recorded 87000 87500))
    as [[r|e] s'] eqn:Hrun.
  - exists r, s'. split; [reflexivity|].
    apply (settled_deposit_is_parked (sample_watcher 87000) 1 (unix 87500) [] r
             (recorded 87000 87500) s' sample_deposit);
      [by vm_compute|reflexivity..|vm_compute; discriminate|exact Hrun|].
    apply (f_equal (fun x => map pm_status x.2.(s_db).(db_payments))) in Hrun.
    intros Heq. apply (f_equal (fun m => map pm_status m.1.1.1)) in Heq.
    change (map pm_status (db_payments (s_db s'))
            = map pm_status (db_payments (s_db (recorded 87000 87500)))) in Heq.
    cbn [snd] in Hrun. rewrite <- Hrun in Heq. vm_compute in Heq. discriminate Heq.
  - apply (f_equal (fun x => match x.1 with Ok _ => true | Raise _ => false end)) in Hrun.
    vm_compute in Hrun. discriminate Hrun.
Defined.

(** ** The last attempt *)

(** The attempt that reaches the limit is never confirmed.  When a deposit has
    made all its attempts, the next pass gives it up without asking the node
    about the transaction it has submitted, even when that transaction moved
    the tokens: it ends in manual review, not swept. *)
Theorem last_sweep_is_never_confirmed {L : EthLib} sw k s u :
  tbl_get k s.(s_db).(db_deposits) = Some u ->
  sweepable u.(ud_status) = true -> usdt_sweeper_enabled sw.(sw_config) = true ->
  out_of_scope sw u s = (Ok false, s) ->
  sw.(sw_config).(usdt_sweep_max_attempts) <= u.(ud_sweep_attempts) ->
  exists s' u', sweep_deposit sw k s = (Ok false, s')
  /\ tbl_get k s'.(s_db).(db_deposits) = Some u'
  /\ u'.(ud_status) = UD_MANUAL_REVIEW
  /\ u'.(ud_sweep_error) = Some "USDT sweep retry limit reached"
  /\ u'.(ud_sweep_tx_hash) = u.(ud_sweep_tx_hash)
  /\ s'.(s_calls) = s.(s_calls).
Proof.
  intros Hu Hst Hen Hsc Hmax. unfold sweep_deposit, bind at 1, read, gets. rewrite Hu, Hst, Hen.
  cbn [negb]. erewrite bind_run by exact Hsc.
  assert ((usdt_sweep_max_attempts (sw_config sw) <=? ud_sweep_attempts u) = true) as -> by lia.
  eexists. exists (review "USDT sweep retry limit reached" u). split; [reflexivity|].
  split; [by apply tbl_get_update_eq|]. done.
Qed.

(** Two attempts are allowed; the second submission is accepted by the node. *)
Definition last_attempt : session :=
  let s := created in
  s <|s_db := s.(s_db) <|db_deposits :=
    [sample_deposit <|ud_received_token_units := 1050000|> <|ud_status := UD_SWEEPING|>
       <|ud_credited_at := Some 0|> <|ud_sweep_tx_hash := Some (sample_hash "f")|>
       <|ud_sweep_attempts := 2|>]|>|>.
Lemma last_sweep_is_never_confirmed_witness :
  exists s', sweep_deposit (mk_sweeper (sample_node paid_transfer 1100 150) usdt_sample_config) 1
               last_attempt = (Ok false, s')
  /\ map ud_status s'.(s_db).(db_deposits) = [UD_MANUAL_REVIEW].
Proof.
  destruct (last_sweep_is_never_confirmed
    (mk_sweeper (sample_node paid_transfer 1100 150) usdt_sample_config) 1 last_attempt
    (sample_deposit <|ud_received_token_units := 1050000|> <|ud_status := UD_SWEEPING|>
       <|ud_credited_at := Some 0|> <|ud_sweep_tx_hash := Some (sample_hash "f")|>
       <|ud_sweep_attempts := 2|>)) as (s' & u' & Hr & _);
    [by vm_compute|by vm_compute|by vm_compute|by vm_compute|by vm_compute|].
  exists s'. split; [exact Hr|].
  apply (f_equal (fun x => map ud_status x.2.(s_db).(db_deposits))) in Hr. cbn [snd] in Hr.
  rewrite <- Hr. by vm_compute.
Defined.

(** A credited deposit that has not been swept. *)
Definition to_sweep : usdt_deposit :=
  sample_deposit <|ud_received_token_units := 1050000|> <|ud_status := UD_SWEEP_PENDING|>
    <|ud_credited_at := Some 0|>.
Definition credited (rows : list usdt_deposit) : session :=
  let d := created.(s_db) <|db_deposits := rows|> in session_of d created.(s_now).
(** Cycles 100 seconds apart. *)
Definition sample_cycles (n : nat) : list (rpc_client * Z) :=
  map (fun i => (sample_node paid_transfer 1100 150, unix (1300 + 100 * Z.of_nat i))) (seq 0 n).
Lemma sweeps_are_bounded_witness :
  exists failed s', run_usdt_watcher usdt_sample_config "w" (sample_cycles 2) (credited [to_sweep])
    = (Ok failed, s')
  /\ sends s'.(s_calls) - 0
     <= (total (attempts s'.(s_committed)) - 0 + 20 * failed) * 1
  /\ failed = 0 /\ attempts s'.(s_committed) = [(1, 1)]
  /\ map ud_status s'.(s_committed).(db_deposits) = [UD_SWEPT].
Proof.
  destruct (sweeps_are_bounded usdt_sample_config "w" (sample_cycles 2) 0 (credited [to_sweep]))
    as (failed & s' & Hr & _ & _ & Hn).
  - reflexivity.
  - vm_compute. apply List.NoDup_cons; [by intros []|apply List.NoDup_nil].
  - by repeat constructor.
  - exists failed, s'. split; [exact Hr|]. split; [exact Hn|].
    assert (let x := run_usdt_watcher usdt_sample_config "w" (sample_cycles 2) (credited [to_sweep]) in
            (x.1, attempts x.2.(s_committed), map ud_status x.2.(s_committed).(db_deposits))
            = (Ok 0, [(1, 1)], [UD_SWEPT])) as Hv by (vm_compute; reflexivity).
    cbv zeta in Hv. rewrite Hr in Hv. cbn [fst snd] in Hv.
    injection Hv as H1 H2 H3. exact (conj H1 (conj H2 H3)).
Defined.

(** ** A batch that is rolled back *)

(** The node answers a submission with the hash that another deposit has
    stored: the unique column refuses it, and the flush ends the batch. *)
Definition other_sweep : usdt_deposit :=
  to_sweep <|ud_id := 2|> <|ud_invoice_id := 2|> <|ud_derivation_index := 1|>
    <|ud_deposit_address := sample_address "7"|> <|ud_status := UD_SWEPT|>
    <|ud_sweep_tx_hash := Some (sample_hash "f")|>.
(** What was sent is then forgotten: with two attempts allowed, three cycles
    send three transactions, and none of them is counted. *)
Lemma rolled_back_submissions_are_forgotten :
  let r := run_usdt_watcher usdt_sample_config "w" (sample_cycles 3)
             (credited [to_sweep; other_sweep]) in
  usdt_sample_config.(usdt_sweep_max_attempts) = 2 /\ r.1 = Ok 3 /\
  sends r.2.(s_calls) = 3 /\ attempts r.2.(s_committed) = [(1, 0); (2, 0)].
Proof. by vm_compute. Qed.
