(* ===== verification/Redis.v ===== *)
(** The Redis server the application shares (src/app/core/redis.py), and the
    state a web request works on.

    A key holds a string, a hash or a sorted set, and may expire; an expired
    key reads as absent and is written anew.  A command on a key of another
    type answers an error, and every command fails while the server cannot be
    reached.  Only the commands the application sends are modelled, at the
    request's one reading of the clock. *)
From Stdlib Require Import ZArith Lia.
From stdpp Require Import base numbers list strings pretty gmap.
From S2P Require Import Prelude Calendar Models Session.
#[local] Open Scope Z_scope.
#[local] Open Scope py_scope.

(** * The store *)

Inductive redis_value : Type :=
| RedisString (s : string)
| RedisHash (h : gmap string string)
| RedisZset (z : gmap string Z).

Record redis_entry : Type := mk_redis_entry {
  re_value : redis_value;
  re_expires_at : option Z
}.
Abbreviation redis := (gmap string redis_entry).

Definition entry_alive (now : Z) (e : redis_entry) : bool :=
  match e.(re_expires_at) with Some t => now <=? t | None => true end.
(** The entry under a key, unless it has expired. *)
Definition redis_entry_at (now : Z) (r : redis) (k : string) : option redis_entry :=
  match r !! k with
  | Some e => if entry_alive now e then Some e else None
  | None => None
  end.
(** A write keeps the expiry of a key that exists. *)
Definition redis_put (now : Z) (k : string) (v : redis_value) (r : redis) : redis :=
  <[k := mk_redis_entry v
           (match redis_entry_at now r k with Some e => e.(re_expires_at) | None => None end)]> r.

(** Members by falling score, ties by falling member. *)
Definition zset_leb (a b : string * Z) : bool :=
  (b.2 <? a.2) || ((a.2 =? b.2) && String.leb b.1 a.1).
Definition zset_reverse (z : gmap string Z) : list string :=
  map fst (sort_by zset_leb (map_to_list z)).

(** * The state of a web request *)

(** [w_drawn] counts the values drawn from [secrets], [pyotp.random_base32]
    and [bcrypt.gensalt]. *)
Record web : Type := mk_web {
  w_sess : session;
  w_redis : redis;
  w_redis_up : bool;
  w_drawn : nat
}.
#[export] Instance eta_web : Eta web := fun w =>
  mk_web w.(w_sess) w.(w_redis) w.(w_redis_up) w.(w_drawn).

Abbreviation Web A := (M web exn A).

(** A service method run on the request's database session. *)
Definition in_db {A} (m : Meth A) : Web A := fun w =>
  (fst (m w.(w_sess)), w <|w_sess := snd (m w.(w_sess))|>).
Definition web_now : Web Z := gets (fun w => w.(w_sess).(s_now)).
Definition query {A} (f : db -> A) : Web A := gets (fun w => f w.(w_sess).(s_db)).
Definition draw : Web nat := fun w => (Ok w.(w_drawn), w <|w_drawn := S w.(w_drawn)|>).
Definition http_error {A} (status_code : Z) : Web A := raise (HTTPException status_code).

(** One request: a database session of its own, which is closed at the end
    and rolls back what was not committed. *)
Definition begin_request (now : Z) (up : bool) (w : web) : web :=
  w <|w_sess := (w.(w_sess) <|s_db := w.(w_sess).(s_committed)|> <|s_now := now|>)|>
    <|w_redis_up := up|>.
Definition end_request (w : web) : web :=
  w <|w_sess := (w.(w_sess) <|s_db := w.(w_sess).(s_committed)|>)|>.
Definition request {A} (now : Z) (up : bool) (m : Web A) (w : web) : outcome exn A * web :=
  let '(res, w') := m (begin_request now up w) in (res, end_request w').

(** * Commands *)

Definition connection_error : exn := OtherError "ConnectionError".
Definition response_error : exn := OtherError "ResponseError".

(** A command computes its reply and the next store from the entry of its
    key; [None] deletes the key. *)
Definition redis_cmd {A} (f : Z -> redis -> outcome exn (A * redis)) : Web A := fun w =>
  if negb w.(w_redis_up) then (Raise connection_error, w)
  else match f w.(w_sess).(s_now) w.(w_redis) with
       | Ok (a, r) => (Ok a, w <|w_redis := r|>)
       | Raise e => (Raise e, w)
       end.

Definition redis_get (k : string) : Web (option string) := redis_cmd (fun now r =>
  match redis_entry_at now r k with
  | None => Ok (None, r)
  | Some e => match e.(re_value) with
              | RedisString s => Ok (Some s, r)
              | _ => Raise response_error
              end
  end).
Definition redis_setex (k : string) (ttl : Z) (v : string) : Web unit := redis_cmd (fun now r =>
  if ttl <=? 0 then Raise response_error
  else Ok (tt, <[k := mk_redis_entry (RedisString v) (Some (now + seconds ttl))]> r)).
Definition redis_delete (k : string) : Web unit := redis_cmd (fun now r => Ok (tt, delete k r)).
(** [delete(k) > 0] *)
Definition redis_deleted (k : string) : Web bool := redis_cmd (fun now r =>
  Ok (match redis_entry_at now r k with Some _ => true | None => false end, delete k r)).
(** Seconds left, rounded to the nearest; [-1] for a key that does not expire. *)
Definition redis_ttl (k : string) : Web Z := redis_cmd (fun now r =>
  Ok (match redis_entry_at now r k with
      | Some e => match e.(re_expires_at) with Some t => ((t - now) / 1000 + 500) / 1000 | None => -1 end
      | None => -2
      end, r)).
(** [scan_iter(match=prefix + '*')] *)
Definition redis_scan (prefix : string) : Web (list string) := redis_cmd (fun now r =>
  Ok (List.filter (fun k => match redis_entry_at now r k with Some _ => str_startswith prefix k | None => false end)
        (map fst (map_to_list r)), r)).
Definition redis_expire (k : string) (ttl : Z) : Web unit := redis_cmd (fun now r =>
  match redis_entry_at now r k with
  | None => Ok (tt, r)
  | Some e => if ttl <=? 0 then Ok (tt, delete k r)
              else Ok (tt, <[k := mk_redis_entry e.(re_value) (Some (now + seconds ttl))]> r)
  end).
Definition redis_exists (k : string) : Web bool := redis_cmd (fun now r =>
  Ok (match redis_entry_at now r k with Some _ => true | None => false end, r)).
Definition redis_incr (k : string) : Web Z := redis_cmd (fun now r =>
  match redis_entry_at now r k with
  | None => Ok (1, redis_put now k (RedisString "1") r)
  | Some e => match e.(re_value) with
              | RedisString s =>
                  match py_int s with
                  | Some n => Ok (n + 1, redis_put now k (RedisString (pretty (n + 1))) r)
                  | None => Raise response_error
                  end
              | _ => Raise response_error
              end
  end).

(** The hash or the sorted set under a key; an absent key is an empty one. *)
Definition hash_at (now : Z) (r : redis) (k : string) : option (gmap string string) :=
  match redis_entry_at now r k with
  | None => Some empty
  | Some e => match e.(re_value) with RedisHash h => Some h | _ => None end
  end.
Definition zset_at (now : Z) (r : redis) (k : string) : option (gmap string Z) :=
  match redis_entry_at now r k with
  | None => Some empty
  | Some e => match e.(re_value) with RedisZset z => Some z | _ => None end
  end.
Definition with_hash {A} (k : string) (f : Z -> redis -> gmap string string -> A * redis) : Web A :=
  redis_cmd (fun now r => match hash_at now r k with
                          | Some h => Ok (f now r h)
                          | None => Raise response_error
                          end).
Definition with_zset {A} (k : string) (f : Z -> redis -> gmap string Z -> A * redis) : Web A :=
  redis_cmd (fun now r => match zset_at now r k with
                          | Some z => Ok (f now r z)
                          | None => Raise response_error
                          end).

Definition hash_update (h : gmap string string) (mapping : list (string * string))
  : gmap string string := fold_left (fun acc kv => <[kv.1 := kv.2]> acc) mapping h.
Definition redis_hset (k : string) (mapping : list (string * string)) : Web unit :=
  with_hash k (fun now r h => (tt, redis_put now k (RedisHash (hash_update h mapping)) r)).
Definition redis_hget (k field : string) : Web (option string) :=
  with_hash k (fun now r h => (h !! field, r)).
Definition redis_hgetall (k : string) : Web (gmap string string) :=
  with_hash k (fun now r h => (h, r)).
Definition redis_hsetnx (k field v : string) : Web bool :=
  with_hash k (fun now r h =>
    match h !! field with
    | Some _ => (false, r)
    | None => (true, redis_put now k (RedisHash (<[field := v]> h)) r)
    end).
Definition redis_zadd (k member : string) (score : Z) : Web unit :=
  with_zset k (fun now r z => (tt, redis_put now k (RedisZset (<[member := score]> z)) r)).
(** The key goes with its last member. *)
Definition redis_zrem (k member : string) : Web unit :=
  with_zset k (fun now r z =>
    if decide (delete member z = empty) then (tt, delete k r)
    else (tt, redis_put now k (RedisZset (delete member z)) r)).
(** [zrevrange(k, 0, -1)] *)
Definition redis_zrevrange (k : string) : Web (list string) :=
  with_zset k (fun now r z => (zset_reverse z, r)).

(** * Laws *)

Lemma zset_reverse_In z m : In m (zset_reverse z) <-> is_Some (z !! m).
Proof.
  unfold zset_reverse. rewrite in_map_iff. split.
  - intros ((m', n) & <- & Hin%sort_by_In). exists n.
    by apply elem_of_map_to_list, list_elem_of_In.
  - intros [n Hn]. exists (m, n). split; [done|].
    by apply sort_by_In, list_elem_of_In, elem_of_map_to_list.
Qed.

Lemma entry_at_Some now r k e :
  redis_entry_at now r k = Some e <-> r !! k = Some e /\ entry_alive now e = true.
Proof.
  unfold redis_entry_at. destruct (r !! k) as [e'|]; [|by split; [|intros [? _]]].
  destruct (entry_alive now e') eqn:E; split.
  - by intros [= <-].
  - by intros [[= ->] _].
  - done.
  - intros [[= ->] ?]. congruence.
Qed.
Lemma entry_at_earlier now now' r k e :
  now <= now' -> redis_entry_at now' r k = Some e -> redis_entry_at now r k = Some e.
Proof.
  rewrite !entry_at_Some. unfold entry_alive. destruct (re_expires_at e) as [t|]; [|done].
  intros ? [? ?]. split; [done|lia].
Qed.
Lemma entry_at_insert now r k e :
  redis_entry_at now (<[k := e]> r) k = if entry_alive now e then Some e else None.
Proof. unfold redis_entry_at. by rewrite lookup_insert_eq. Qed.
Lemma entry_at_insert_ne now r k k' e :
  k <> k' -> redis_entry_at now (<[k := e]> r) k' = redis_entry_at now r k'.
Proof. intros Hne. unfold redis_entry_at. by rewrite lookup_insert_ne. Qed.
Lemma entry_at_delete_ne now r k k' :
  k <> k' -> redis_entry_at now (delete k r) k' = redis_entry_at now r k'.
Proof. intros Hne. unfold redis_entry_at. by rewrite lookup_delete_ne. Qed.
Lemma entry_at_delete now r k : redis_entry_at now (delete k r) k = None.
Proof. unfold redis_entry_at. by rewrite lookup_delete_eq. Qed.

(** A command fails without effect, or answers. *)
Lemma wp_redis_cmd {A} (f : Z -> redis -> outcome exn (A * redis)) (Q : A -> web -> Prop)
    (R : exn -> web -> Prop) w :
  R connection_error w ->
  (forall e, f w.(w_sess).(s_now) w.(w_redis) = Raise e -> R e w) ->
  (forall a r, w.(w_redis_up) = true -> f w.(w_sess).(s_now) w.(w_redis) = Ok (a, r) ->
     Q a (w <|w_redis := r|>)) ->
  wp (redis_cmd f) Q R w.
Proof.
  intros Hdown Hfail Hok. unfold wp, redis_cmd. destruct (w_redis_up w) eqn:E; [|done]. cbn.
  destruct (f _ (w_redis w)) as [[a r]|e] eqn:Ef; [by apply Hok|by apply Hfail].
Qed.

Lemma wp_in_db {A} (m : Meth A) (Q : A -> web -> Prop) (R : exn -> web -> Prop) w :
  wp m (fun a s => Q a (w <|w_sess := s|>)) (fun e s => R e (w <|w_sess := s|>)) w.(w_sess) ->
  wp (in_db m) Q R w.
Proof. unfold wp, in_db. by destruct (m _) as [[a|e] s]. Qed.
