(* ===== verification/Auth.v ===== *)
(** Accounts, rate limits, sessions and who a request comes from:
    src/app/models/user.py, src/app/dao/user_dao.py, src/app/core/rate_limit.py,
    src/app/services/user_session_service.py, src/app/core/auth.py,
    src/app/core/billing_auth.py, src/app/core/reseller_auth.py and
    src/app/core/commerce_auth.py.

    An [HTTPException] carries its status code only; the time a client should
    wait (the Retry-After header) and cookie attributes are left out. *)
From Stdlib Require Import ZArith Lia Ascii.
From stdpp Require Import base numbers list strings pretty gmap.
From S2P Require Import Prelude Calendar Models Session Redis.
#[local] Open Scope Z_scope.
#[local] Open Scope py_scope.

(** * Libraries and settings *)

(** [secrets], [hashlib], [bcrypt], [pyotp], [Fernet] and FastAPI's
    [HTTPBearer].  A value drawn at random is a function of the number of
    values drawn before; [None] is an exception, for [http_bearer] a header
    without bearer credentials. *)
Class AuthLib := mk_auth_lib {
  token_urlsafe : nat -> string;
  token_hex : nat -> string;
  random_base32 : nat -> string;
  sha256_hex : string -> string;
  bcrypt_hashpw : nat -> string -> string;
  bcrypt_checkpw : string -> string -> option bool;
  totp_at : string -> Z -> option string;
  fernet_encrypt : string -> nat -> string -> option string;
  fernet_decrypt : string -> string -> option string;
  http_bearer : option string -> option string
}.

(** What the development relies on: random values do not repeat, digests do
    not collide, and bcrypt tells passwords apart. *)
Class AuthLaws (L : AuthLib) : Prop := {
  token_urlsafe_inj : forall m n, token_urlsafe m = token_urlsafe n -> m = n;
  sha256_inj : forall s t, sha256_hex s = sha256_hex t -> s = t;
  token_urlsafe_unpadded : forall n, str_strip (token_urlsafe n) = token_urlsafe n;
  bcrypt_hash_nonempty : forall n p, str_empty (bcrypt_hashpw n p) = false;
  bcrypt_check_hash : forall n p q, (String.length p <= 72)%nat -> (String.length q <= 72)%nat ->
    bcrypt_checkpw q (bcrypt_hashpw n p) = Some (bool_decide (p = q))
}.

(** Settings of src/app/core/config.py. *)
Record auth_settings : Type := mk_auth_settings {
  st_trust_x_forwarded_for : bool;
  st_auth_token_expire_seconds : Z;
  st_login_rate_limit_per_ip : Z;
  st_login_rate_limit_per_ip_window_seconds : Z;
  st_login_rate_limit_per_username : Z;
  st_login_rate_limit_per_username_window_seconds : Z;
  st_impersonation_session_ttl_seconds : Z;
  st_client_sso_ticket_ttl_seconds : Z;
  st_commerce_public_app_url : option string;
  st_public_app_url : option string;
  st_service_instance_encryption_key : option string;
  st_commerce_retail_enabled : bool;
  st_commerce_registration_mode : string;
  st_commerce_default_currency : string
}.

(** [Settings.auth_link_base_url] *)
Definition auth_link_base_url (cfg : auth_settings) : option string :=
  let base := str_rstrip_char "/"%char (str_strip
    (str_or cfg.(st_commerce_public_app_url) (str_or cfg.(st_public_app_url) ""))) in
  if str_empty base then None else Some base.

(** The parts of a request the handlers look at. *)
Record http_request : Type := mk_http_request {
  hr_client_host : option string;
  hr_x_forwarded_for : option string;
  hr_authorization : option string;
  hr_auth_token : option string;
  hr_path : string
}.

(** [request.client.host], or the first hop the proxy names. *)
Definition client_ip (cfg : auth_settings) (rq : http_request) : option string :=
  match rq.(hr_x_forwarded_for) with
  | Some xff => if cfg.(st_trust_x_forwarded_for)
                then Some (str_strip (str_first_piece ","%char xff)) else rq.(hr_client_host)
  | None => rq.(hr_client_host)
  end.
Definition or_unknown (ip : option string) : string := str_or ip "unknown".
Definition opt_empty (o : option string) : bool := negb (str_true o).

(** * Accounts *)

Definition MIN_PASSWORD_LENGTH : nat := 8.

(** [User.has_password] *)
Definition has_password (u : user) : bool := str_true u.(us_password).

Definition upd_user (k : Z) (f : user -> user) : Meth unit :=
  write (fun d => d <|db_users := tbl_update k f d.(db_users)|>).

Section Auth.
Context {L : AuthLib} (cfg : auth_settings).

(** The hash [User.set_password] stores. *)
Definition hash_password (password : option string) : Web (option string) :=
  match password with
  | None => ret None
  | Some p =>
      if str_empty p then ret None
      else
        throw_if (String.length p <? MIN_PASSWORD_LENGTH)%nat
          (ValueError "Password must be at least 8 characters long") ;;;
        throw_if (72 <? String.length p)%nat
          (ValueError "Password cannot be longer than 72 bytes") ;;;
        n <- draw ;;
        ret (Some (bcrypt_hashpw n p))
  end.
Definition set_password (user_id : Z) (password : option string) : Web unit :=
  h <- hash_password password ;;
  in_db (upd_user user_id (fun u => u <|us_password := h|>)).

(** [User.verify_password] *)
Definition verify_password (u : user) (password : string) : bool :=
  match u.(us_password) with
  | None => false
  | Some h =>
      if str_empty h || str_empty password then false
      else if (72 <? String.length password)%nat then false
      else match bcrypt_checkpw password h with Some b => b | None => false end
  end.

(** ** [UserDAO] *)

Definition user_by_id (k : Z) (d : db) : option user := tbl_get k d.(db_users).
Definition user_by_username (name : string) (d : db) : option user :=
  List.find (fun u => u.(us_username) == name) d.(db_users).
Definition user_by_email (email : string) (d : db) : option user :=
  List.find (fun u => u.(us_email) == email) d.(db_users).
Definition user_by_billing_identity (integration_id : Z) (external_user_id : string) (d : db)
  : option user :=
  List.find (fun u => (u.(us_billing_integration_id) == Some integration_id)
                      && (u.(us_external_user_id) == Some external_user_id)) d.(db_users).

Record new_user_args : Type := mk_new_user_args {
  nu_username : string;
  nu_email : string;
  nu_password : option string;
  nu_is_admin : bool;
  nu_billing_integration_id : option Z;
  nu_external_user_id : option string;
  nu_external_username : option string;
  nu_external_email : option string
}.
Definition new_user (id : Z) (a : new_user_args) (hash : option string) : user :=
  mk_user id a.(nu_username) a.(nu_email) hash a.(nu_is_admin) false false None None
    a.(nu_billing_integration_id) a.(nu_external_user_id) a.(nu_external_username)
    a.(nu_external_email).
(** [UserDAO.create] *)
Definition create_user (a : new_user_args) : Web Z :=
  h <- hash_password a.(nu_password) ;;
  id <- query (fun d => tbl_fresh d.(db_users)) ;;
  in_db (write (fun d => d <|db_users := d.(db_users) ++ [new_user id a h]|>) ;;; commit) ;;;
  ret id.
(** [UserDAO.delete]: the database deletes the account's second factor and
    tokens with it. *)
Definition delete_user (user_id : Z) : Web bool :=
  u <- query (user_by_id user_id) ;;
  match u with
  | None => ret false
  | Some _ =>
      in_db (write (fun d => d
        <|db_users := tbl_delete user_id d.(db_users)|>
        <|db_totp := tbl_delete user_id d.(db_totp)|>
        <|db_reset_tokens := List.filter (fun t => negb (t.(rt_user_id) =? user_id)) d.(db_reset_tokens)|>
        <|db_verify_tokens := List.filter (fun t => negb (t.(vt_user_id) =? user_id)) d.(db_verify_tokens)|>) ;;;
        commit) ;;;
      ret true
  end.

(** * Rate limits *)

Definition RATE_LIMIT_KEY_PREFIX : string := "ratelimit:".

(** The counter and its limit; Redis errors let the request through. *)
Definition enforce_rate_limit (key : string) (max_attempts window_seconds : Z) : Web unit :=
  let redis_key := RATE_LIMIT_KEY_PREFIX +:+ key in
  current <- try_catch
    (n <- redis_incr redis_key ;;
     (if n =? 1 then redis_expire redis_key window_seconds else ret tt) ;;;
     ret (Some n))
    (fun _ => ret None) ;;
  match current with
  | None => ret tt
  | Some n => throw_if (max_attempts <? n) (HTTPException 429)
  end.
Definition reset_rate_limit (key : string) : Web unit :=
  try_catch (redis_delete (RATE_LIMIT_KEY_PREFIX +:+ key)) (fun _ => ret tt).

(** * Sessions *)

(** [_derive_token_id] *)
Definition derive_token_id (token : string) : string := sha256_hex token.
Definition tok_key (token_id : string) : string := "tok:" +:+ token_id.
Definition user_toks_key (user_id : Z) : string := "user_toks:" +:+ pretty user_id.

Definition RESTRICTION_2FA_ENROLLMENT : string := "2fa_enrollment".
Definition bool_str (b : bool) : string := if b then "true" else "false".

Definition session_mapping (u : user) (ip : option string) (now : Z) : list (string * string) :=
  [("user_id", pretty u.(us_id)); ("username", u.(us_username)); ("email", u.(us_email));
   ("is_admin", bool_str u.(us_is_admin)); ("is_reseller", bool_str u.(us_is_reseller));
   ("created_at", isoformat now); ("last_seen_at", isoformat now);
   ("last_seen_ip", or_unknown ip)].

Definition mint_user_session (u : user) (ip : option string) (ttl_seconds : option Z)
    (extra_fields : list (string * string)) : Web string :=
  n <- draw ;;
  now <- web_now ;;
  let token := token_urlsafe n in
  let token_key := tok_key (derive_token_id token) in
  let ttl := Z.max 1 (match ttl_seconds with
                      | Some t => t | None => cfg.(st_auth_token_expire_seconds) end) in
  redis_hset token_key (session_mapping u ip now ++ extra_fields) ;;;
  redis_expire token_key ttl ;;;
  redis_zadd (user_toks_key u.(us_id)) (derive_token_id token) now ;;;
  redis_expire (user_toks_key u.(us_id)) ttl ;;;
  ret token.

Definition revoke_all_sessions (user_id : Z) (except_token_id : option string) : Web Z :=
  token_ids <- redis_zrevrange (user_toks_key user_id) ;;
  fold_each token_ids 0 (fun revoked token_id =>
    if str_true except_token_id && (Some token_id == except_token_id) then ret revoked
    else
      redis_delete (tok_key token_id) ;;;
      redis_zrem (user_toks_key user_id) token_id ;;;
      ret (revoked + 1)).

Definition restrict_sessions_for_2fa_enrollment (user_id : Z) : Web Z :=
  token_ids <- redis_zrevrange (user_toks_key user_id) ;;
  fold_each token_ids 0 (fun marked token_id =>
    there <- redis_exists (tok_key token_id) ;;
    if there : bool then
      redis_hset (tok_key token_id) [("restricted", RESTRICTION_2FA_ENROLLMENT)] ;;;
      ret (marked + 1)
    else ret marked).

Definition lift_session_restrictions (user_id : Z) : Web Z :=
  token_ids <- redis_zrevrange (user_toks_key user_id) ;;
  fold_each token_ids 0 (fun lifted token_id =>
    there <- redis_exists (tok_key token_id) ;;
    if there : bool then
      r <- redis_hget (tok_key token_id) "restricted" ;;
      if str_true r then
        redis_hset (tok_key token_id) [("restricted", "")] ;;;
        ret (lifted + 1)
      else ret lifted
    else ret lifted).

(** * Who a request comes from *)

Record session_auth : Type := mk_session_auth {
  sa_user_id : Z;
  sa_username : string;
  sa_email : string;
  sa_is_admin : bool;
  sa_is_reseller : bool;
  sa_created_at : string;
  sa_last_seen_at : string;
  sa_last_seen_ip : string;
  sa_restricted : string;
  sa_impersonated_by : option Z
}.
#[export] Instance eta_session_auth : Eta session_auth := fun a =>
  mk_session_auth a.(sa_user_id) a.(sa_username) a.(sa_email) a.(sa_is_admin)
    a.(sa_is_reseller) a.(sa_created_at) a.(sa_last_seen_at) a.(sa_last_seen_ip)
    a.(sa_restricted) a.(sa_impersonated_by).
Inductive auth : Type :=
| UserAuth (a : session_auth)
| ApiKeyAuth (integration_id : Z) (integration_name integration_type : string).

(** [auth.get("user_id")], where zero counts as absent. *)
Definition auth_user_id (a : auth) : option Z :=
  match a with
  | UserAuth s => if s.(sa_user_id) =? 0 then None else Some s.(sa_user_id)
  | ApiKeyAuth _ _ _ => None
  end.
Definition auth_is_admin (a : auth) : bool :=
  match a with UserAuth s => s.(sa_is_admin) | ApiKeyAuth _ _ _ => false end.

Definition field (h : gmap string string) (name : string) (default : string) : string :=
  match h !! name with Some v => v | None => default end.
Definition field_true (h : gmap string string) (name : string) : bool :=
  str_lower (field h name "false") == "true".
Definition session_auth_of (user_id : Z) (h : gmap string string) : session_auth :=
  mk_session_auth user_id (field h "username" "") (field h "email" "")
    (field_true h "is_admin") (field_true h "is_reseller") (field h "created_at" "")
    (field h "last_seen_at" "") (field h "last_seen_ip" "") (field h "restricted" "") None.

(** [_get_user_from_token] *)
Definition get_user_from_token (token : string) (ip : option string) : Web (option session_auth) :=
  let token_key := tok_key (derive_token_id token) in
  h <- redis_hgetall token_key ;;
  if decide (h = empty) then ret None
  else
    user_id <- unwrap (py_int (field h "user_id" "0")) (ValueError "invalid literal for int()") ;;
    let info := session_auth_of user_id h in
    if str_true ip then
      now <- web_now ;;
      redis_hset token_key [("last_seen_ip", or_unknown ip); ("last_seen_at", isoformat now)] ;;;
      ret (Some (info <|sa_last_seen_ip := or_unknown ip|> <|sa_last_seen_at := isoformat now|>))
    else ret (Some info).

Definition allowed_while_enrolling (path : string) : bool :=
  existsb (fun p => path == p)
    ["/api/users/me"; "/api/users/logout"; "/api/client/me"; "/api/client/logout"]
  || str_startswith "/api/users/2fa/" path.

(** [hash_api_key], [hash_reseller_api_key] *)
Definition hash_api_key (api_key : string) : string := sha256_hex (str_strip api_key).
Definition is_reseller_api_key (api_key : string) : bool :=
  str_startswith "rsk_" (str_strip api_key).
Definition is_mcp_api_key (api_key : string) : bool :=
  str_startswith "rfmcp_" (str_strip api_key).

Definition integration_by_key (api_key : string) (d : db) : option integration :=
  List.find (fun b => (b.(bi_api_key) == hash_api_key api_key) && b.(bi_enabled))
    d.(db_integrations).
Definition touch_integration (id : Z) (ip : option string) : Meth unit :=
  now <- utcnow ;;
  write (fun d => d <|db_integrations := tbl_update id (fun b =>
    b <|bi_last_used_at := Some now|> <|bi_last_used_ip := ip|>) d.(db_integrations)|>) ;;;
  commit.

(** The bearer credentials, or else the cookie. *)
Definition request_token (rq : http_request) : option string :=
  let bearer := http_bearer rq.(hr_authorization) in
  if str_true bearer then bearer else rq.(hr_auth_token).

Definition get_current_user (rq : http_request) : Web auth :=
  let token := str_or (request_token rq) "" in
  throw_if (str_empty token) (HTTPException 401) ;;;
  info <- get_user_from_token token (client_ip cfg rq) ;;
  match info with
  | Some s =>
      throw_if ((s.(sa_restricted) == RESTRICTION_2FA_ENROLLMENT)
                && negb (allowed_while_enrolling rq.(hr_path))) (HTTPException 403) ;;;
      ret (UserAuth s)
  | None =>
      throw_if (is_reseller_api_key token) (HTTPException 401) ;;;
      throw_if (is_mcp_api_key token) (HTTPException 401) ;;;
      o <- query (integration_by_key token) ;;
      b <- unwrap o (HTTPException 401) ;;
      in_db (touch_integration b.(bi_id) (client_ip cfg rq)) ;;;
      ret (ApiKeyAuth b.(bi_id) b.(bi_name) b.(bi_integration_type))
  end.

Definition require_admin (rq : http_request) : Web auth :=
  a <- get_current_user rq ;;
  throw_if (negb (auth_is_admin a)) (HTTPException 403) ;;;
  ret a.
Definition require_reseller (rq : http_request) : Web auth :=
  a <- get_current_user rq ;;
  match a with
  | UserAuth s =>
      throw_if ((s.(sa_user_id) =? 0) || negb s.(sa_is_reseller)) (HTTPException 403) ;;; ret a
  | ApiKeyAuth _ _ _ => http_error 403
  end.

(** [get_billing_integration] *)
Definition get_billing_integration (rq : http_request) : Web integration :=
  let api_key := str_or (http_bearer rq.(hr_authorization)) "" in
  throw_if (str_empty (str_strip api_key)) (HTTPException 401) ;;;
  o <- query (integration_by_key api_key) ;;
  b <- unwrap o (HTTPException 401) ;;
  in_db (touch_integration b.(bi_id) (client_ip cfg rq)) ;;;
  ret b.

(** [issue_reseller_api_key] *)
Definition generate_reseller_api_key : Web string :=
  n <- draw ;; ret ("rsk_" +:+ token_urlsafe n).
Definition issue_reseller_api_key (reseller_id : Z) : Web string :=
  plaintext <- generate_reseller_api_key ;;
  in_db (upd_reseller reseller_id (fun r => r
    <|rs_api_key_hash := Some (hash_api_key plaintext)|>
    <|rs_api_key_prefix := Some (str_take 16 plaintext)|>) ;;; flush) ;;;
  ret plaintext.

(** [request_client_ip] of src/app/core/reseller_auth.py: an empty first hop
    does not count. *)
Definition request_client_ip (rq : http_request) : option string :=
  if cfg.(st_trust_x_forwarded_for) && str_true rq.(hr_x_forwarded_for) then
    let hop := str_strip (str_first_piece ","%char (str_or rq.(hr_x_forwarded_for) "")) in
    if str_empty hop then rq.(hr_client_host) else Some hop
  else rq.(hr_client_host).
(** [get_reseller_by_api_key]; the columns [last_used_at] and [last_used_ip]
    that it sets are not columns of the model's resellers. *)
Definition get_reseller_by_api_key (rq : http_request) : Web reseller :=
  let api_key := str_strip (str_or (http_bearer rq.(hr_authorization)) "") in
  throw_if (str_empty api_key) (HTTPException 401) ;;;
  rows <- query (fun d => List.filter (fun r =>
    r.(rs_api_key_hash) == Some (hash_api_key api_key)) d.(db_resellers)) ;;
  o <- scalar_one_or_none MultipleResultsFound rows ;;
  r <- unwrap o (HTTPException 401) ;;
  throw_if (r.(rs_status) != RS_ACTIVE) (HTTPException 401) ;;;
  in_db commit ;;;
  ret r.

(** ** Client sessions *)

(** [_impersonated_by_from_token]; zero does not count. *)
Definition impersonated_by_from_token (token : option string) : Web (option Z) :=
  if opt_empty token then ret None
  else
    raw <- redis_hget (tok_key (derive_token_id (str_or token ""))) "impersonated_by" ;;
    if opt_empty raw then ret None
    else match py_int (str_or raw "") with
         | Some n => ret (if n =? 0 then None else Some n)
         | None => ret None
         end.
(** [_token_from_request] *)
Definition token_from_request (rq : http_request) : option string :=
  match http_bearer rq.(hr_authorization) with
  | Some c => Some c
  | None => rq.(hr_auth_token)
  end.

Definition require_commerce_enabled : Web unit :=
  throw_if (negb cfg.(st_commerce_retail_enabled)) (HTTPException 503).
Definition require_client_session (rq : http_request) : Web session_auth :=
  a <- get_current_user rq ;;
  require_commerce_enabled ;;;
  match a with
  | ApiKeyAuth _ _ _ => http_error 403
  | UserAuth s =>
      throw_if (s.(sa_user_id) =? 0) (HTTPException 401) ;;;
      by_ <- impersonated_by_from_token (token_from_request rq) ;;
      throw_if (s.(sa_is_admin) && match by_ with Some _ => false | None => true end)
        (HTTPException 403) ;;;
      ret (s <|sa_impersonated_by := by_|>)
  end.
End Auth.
