(* ===== verification/TwoFactor.v ===== *)
(** Time-based codes and recovery codes: src/app/services/totp_service.py and
    the encryption of seeds in src/app/core/service_instance_crypto.py. *)
From Stdlib Require Import ZArith Lia Ascii.
From stdpp Require Import base numbers list strings pretty gmap.
From S2P Require Import Prelude Calendar Models Session Redis Auth.
#[local] Open Scope Z_scope.
#[local] Open Scope py_scope.

Definition RECOVERY_CODE_COUNT : nat := 10.
Definition FACTOR_TOTP : string := "totp".
Definition FACTOR_RECOVERY : string := "recovery_code".

(** [time.time()] counts from 1970. *)
Definition unix_epoch : Z := (ymd2ord 1970 1 1 - 1) * day_us.
Definition totp_interval : Z := 30.

Definition normalise_code (code : string) : string := str_lower (str_remove is_space code).
(** Groups of four characters, joined by dashes. *)
Fixpoint format_recovery_code (raw : string) : string :=
  match raw with
  | String a (String b (String c (String d (String _ _ as rest)))) =>
      String a (String b (String c (String d (String "-" (format_recovery_code rest)))))
  | _ => raw
  end.

Definition totp_row (user_id : Z) (d : db) : option totp_secret := tbl_get user_id d.(db_totp).
(** [is_enabled] *)
Definition is_enabled (user_id : Z) (d : db) : bool :=
  match totp_row user_id d with Some t => t.(ts_enabled) | None => false end.
Definition upd_totp (user_id : Z) (f : totp_secret -> totp_secret) : Meth unit :=
  write (fun d => d <|db_totp := tbl_update user_id f d.(db_totp)|>).

Section TwoFactor.
Context {L : AuthLib} (cfg : auth_settings).

Definition hash_recovery_code (code : string) : string :=
  sha256_hex (str_remove (fun c => Ascii.eqb c "-"%char) (normalise_code code)).
(** The codes to show and the digests to store. *)
Fixpoint draw_codes (n : nat) : Web (list string) :=
  match n with
  | O => ret []
  | S n' => k <- draw ;;
            rest <- draw_codes n' ;;
            ret (format_recovery_code (token_hex k) :: rest)
  end.
Definition generate_recovery_codes : Web (list string * list string) :=
  display <- draw_codes RECOVERY_CODE_COUNT ;;
  ret (display, map hash_recovery_code display).

(** ** Seeds *)

Definition cipher_key : option string :=
  let key := str_strip (str_or cfg.(st_service_instance_encryption_key) "") in
  if str_empty key then None else Some key.
(** [encrypt_api_key] and [decrypt_api_key] *)
Definition encrypt_api_key (plain : string) : Web (option string) :=
  match cipher_key with
  | None => ret None
  | Some key => n <- draw ;; ret (fernet_encrypt key n plain)
  end.
Definition decrypt_api_key (encrypted : string) : option string :=
  match cipher_key with Some key => fernet_decrypt key encrypted | None => None end.

Definition require_encryption : Web unit :=
  throw_if (opt_empty cfg.(st_service_instance_encryption_key)) (HTTPException 503).
(** [_decrypt_secret]: rows from before encryption hold the seed itself. *)
Definition decrypt_secret (row : totp_secret) : Web string :=
  match decrypt_api_key row.(ts_secret_encrypted) with
  | Some s => ret s
  | None => if str_startswith "gAAAA" row.(ts_secret_encrypted) then http_error 503
            else ret row.(ts_secret_encrypted)
  end.

(** ** Verification *)

Definition current_step (now : Z) : Z := (now - unix_epoch) / seconds totp_interval.
Fixpoint match_step (secret code : string) (last_used_step : option Z) (steps : list Z)
  : Web (option Z) :=
  match steps with
  | [] => ret None
  | step :: rest =>
      if match last_used_step with Some l => step <=? l | None => false end
      then match_step secret code last_used_step rest
      else
        expected <- unwrap (totp_at secret (step * totp_interval)) (OtherError "binascii.Error") ;;
        if expected == normalise_code code then ret (Some step)
        else match_step secret code last_used_step rest
  end.
(** [_match_totp_step] *)
Definition match_totp_step (secret code : string) (last_used_step : option Z) : Web (option Z) :=
  now <- web_now ;;
  let current := current_step now in
  match_step secret code last_used_step [current; current - 1; current + 1].

Definition verify_second_factor (user_id : Z) (code : string) : Web (option string) :=
  o <- query (totp_row user_id) ;;
  match o with
  | None => ret None
  | Some row =>
      if negb row.(ts_enabled) then ret None
      else
        secret <- decrypt_secret row ;;
        step <- match_totp_step secret code row.(ts_last_used_step) ;;
        match step with
        | Some n =>
            in_db (upd_totp user_id (fun t => t <|ts_last_used_step := Some n|>) ;;; commit) ;;;
            ret (Some FACTOR_TOTP)
        | None =>
            let digest := hash_recovery_code code in
            if existsb (fun h => h == digest) row.(ts_recovery_codes_hash) then
              in_db (upd_totp user_id (fun t => t <|ts_recovery_codes_hash :=
                       List.filter (fun h => h != digest) row.(ts_recovery_codes_hash)|>) ;;;
                     commit) ;;;
              ret (Some FACTOR_RECOVERY)
            else ret None
        end
  end.

(** A code the account's second factor accepts. *)
Definition seed_of (row : totp_secret) (secret : string) : Prop :=
  decrypt_api_key row.(ts_secret_encrypted) = Some secret
  \/ (decrypt_api_key row.(ts_secret_encrypted) = None /\ secret = row.(ts_secret_encrypted)
      /\ str_startswith "gAAAA" secret = false).
Definition fresh_step (row : totp_secret) (step : Z) : Prop :=
  forall last, row.(ts_last_used_step) = Some last -> last < step.
Definition valid_code (now user_id : Z) (code : string) (d : db) : Prop :=
  exists row, totp_row user_id d = Some row /\ row.(ts_enabled) = true /\
    ((exists secret step, seed_of row secret /\ fresh_step row step
        /\ Z.abs (step - current_step now) <= 1
        /\ totp_at secret (step * totp_interval) = Some (normalise_code code))
     \/ In (hash_recovery_code code) row.(ts_recovery_codes_hash)).

(** ** Enrolment *)

Definition begin_enrollment (user_id : Z) : Web string :=
  require_encryption ;;;
  n <- draw ;;
  let secret := random_base32 n in
  e <- encrypt_api_key secret ;;
  encrypted <- unwrap e (HTTPException 503) ;;
  o <- query (totp_row user_id) ;;
  match o with
  | None =>
      in_db (write (fun d => d <|db_totp := d.(db_totp) ++
               [mk_totp_secret user_id encrypted false [] None None]|>))
  | Some row =>
      if row.(ts_enabled) then http_error 409
      else in_db (upd_totp user_id (fun t => t <|ts_secret_encrypted := encrypted|>
                    <|ts_confirmed_at := None|> <|ts_last_used_step := None|>))
  end ;;;
  in_db commit ;;;
  ret secret.

Definition confirm_enrollment (user_id : Z) (code : string) : Web (list string) :=
  o <- query (totp_row user_id) ;;
  row <- unwrap o (HTTPException 400) ;;
  throw_if row.(ts_enabled) (HTTPException 409) ;;;
  secret <- decrypt_secret row ;;
  s <- match_totp_step secret code row.(ts_last_used_step) ;;
  step <- unwrap s (HTTPException 400) ;;
  codes <- generate_recovery_codes ;;
  now <- web_now ;;
  in_db (upd_totp user_id (fun t => t <|ts_enabled := true|> <|ts_confirmed_at := Some now|>
           <|ts_last_used_step := Some step|> <|ts_recovery_codes_hash := snd codes|>) ;;;
         commit) ;;;
  ret (fst codes).

(** The row of an account whose second factor is enabled. *)
Definition enabled_row (user_id : Z) : Web totp_secret :=
  o <- query (totp_row user_id) ;;
  match o with
  | Some row => throw_if (negb row.(ts_enabled)) (HTTPException 400) ;;; ret row
  | None => http_error 400
  end.
Definition regenerate_recovery_codes (user_id : Z) : Web (list string) :=
  enabled_row user_id ;;;
  codes <- generate_recovery_codes ;;
  in_db (upd_totp user_id (fun t => t <|ts_recovery_codes_hash := snd codes|>) ;;; commit) ;;;
  ret (fst codes).
Definition disable (user_id : Z) (code : string) : Web unit :=
  enabled_row user_id ;;;
  factor <- verify_second_factor user_id code ;;
  throw_if (opt_empty factor) (HTTPException 400) ;;;
  in_db (write (fun d => d <|db_totp := tbl_delete user_id d.(db_totp)|>) ;;; commit).

(** * What verification accepts *)

Lemma wp_decrypt_secret row w (Q : string -> web -> Prop) (R : exn -> web -> Prop) :
  (forall e, R e w) -> (forall secret, seed_of row secret -> Q secret w) ->
  wp (decrypt_secret row) Q R w.
Proof.
  intros HR HQ. unfold decrypt_secret. destruct (decrypt_api_key _) as [s|] eqn:E.
  - apply wp_ret, HQ. by left.
  - case_match; [apply HR|]. apply wp_ret, HQ. by right.
Qed.
Lemma wp_match_step secret code last steps w (Q : option Z -> web -> Prop) (R : exn -> web -> Prop) :
  (forall e, R e w) -> Q None w ->
  (forall n, In n steps -> (forall l, last = Some l -> l < n) ->
     totp_at secret (n * totp_interval) = Some (normalise_code code) -> Q (Some n) w) ->
  wp (match_step secret code last steps) Q R w.
Proof.
  intros HR HN HS. induction steps as [|n steps IH]; cbn [match_step]; [done|].
  assert (wp (match_step secret code last steps) Q R w) as Hrest.
  { apply IH. intros m Hm. apply HS. by right. }
  destruct last as [l|]; [destruct (Z.leb_spec n l); [done|]|];
    (apply wp_bind, wp_unwrap; [intros _; apply HR|]; intros x Hx;
     destruct (py_eq_spec x (normalise_code code)) as [->|]; [|done]; apply wp_ret, HS;
     [by left| |done]; intros ? [=]; subst; lia).
Qed.
(** What is accepted was valid; the session is touched only to record it. *)
Lemma wp_verify_second_factor user_id code w (Q : option string -> web -> Prop)
    (R : exn -> web -> Prop) :
  (forall e s, R e (w <|w_sess := s|>)) -> (forall s, Q None (w <|w_sess := s|>)) ->
  (forall f s, valid_code w.(w_sess).(s_now) user_id code w.(w_sess).(s_db) ->
     Q (Some f) (w <|w_sess := s|>)) ->
  wp (verify_second_factor user_id code) Q R w.
Proof.
  intros HR HN HS. assert (w <|w_sess := w.(w_sess)|> = w) as Hw by by destruct w.
  pose proof (fun e => eq_ind _ (R e) (HR e w.(w_sess)) _ Hw) as HRw.
  pose proof (eq_ind _ (Q None) (HN w.(w_sess)) _ Hw) as HNw.
  unfold verify_second_factor. apply wp_bind, wp_gets.
  destruct (totp_row user_id _) as [row|] eqn:Hrow; [|done].
  destruct (ts_enabled row) eqn:Hen; [|done]. cbn [negb].
  apply wp_bind, wp_decrypt_secret; [done|]. intros secret Hseed.
  apply wp_bind. unfold match_totp_step. apply wp_bind, wp_gets.
  assert (forall f, valid_code w.(w_sess).(s_now) user_id code w.(w_sess).(s_db) ->
    forall m : Meth unit, wp (in_db m ;;; ret (Some f)) Q R w) as Hok.
  { intros f Hv m. apply wp_bind, wp_in_db. unfold wp. destruct (m _) as [[a|e] s]; [|apply HR].
    by apply HS. }
  apply wp_match_step; [done| |].
  - case_match eqn:Hin; [|done]. apply Hok. exists row. split; [done|]. split; [done|]. right.
    apply existsb_exists in Hin as (h & Hh & <-%py_eq_true). done.
  - intros n Hn Hl Hat. apply Hok. exists row. split; [done|]. split; [done|]. left.
    exists secret, n. split; [done|]. split; [done|]. split; [|done].
    destruct Hn as [<-|[<-|[<-|[]]]]; lia.
Qed.

(** * A factor is spent once *)

(** What an accepted code spent: a time step, or a recovery code. *)
Inductive factor : Type := TotpStep (n : Z) | RecoveryCode (digest : string).
Definition spent (user_id : Z) (code : string) (r : outcome exn (option string)) (d : db)
  : option factor :=
  match r with
  | Ok (Some f) =>
      if f == FACTOR_TOTP then
        match totp_row user_id d with
        | Some row => option_map TotpStep row.(ts_last_used_step)
        | None => None
        end
      else Some (RecoveryCode (hash_recovery_code code))
  | _ => None
  end.
(** Codes checked one after the other, each with the time it is checked at,
    and what they spent. *)
Fixpoint spending (user_id : Z) (codes : list (Z * bool * string)) (w : web) : list factor :=
  match codes with
  | [] => []
  | (now, up, code) :: rest =>
      let '(r, w') := request now up (verify_second_factor user_id code) w in
      match spent user_id code r w'.(w_sess).(s_committed) with
      | Some f => f :: spending user_id rest w'
      | None => spending user_id rest w'
      end
  end.

Definition rows_of (w : web) : list totp_secret := w.(w_sess).(s_committed).(db_totp).
(** The three ends of a verification. *)
Inductive verified (user_id : Z) (code : string) (w : web)
  : outcome exn (option string) -> web -> Prop :=
| verified_step w' row n :
    tbl_get user_id (rows_of w) = Some row -> fresh_step row n ->
    rows_of w' = tbl_update user_id (fun t => t <|ts_last_used_step := Some n|>) (rows_of w) ->
    verified user_id code w (Ok (Some FACTOR_TOTP)) w'
| verified_code w' row :
    tbl_get user_id (rows_of w) = Some row ->
    In (hash_recovery_code code) row.(ts_recovery_codes_hash) ->
    rows_of w' = tbl_update user_id (fun t => t <|ts_recovery_codes_hash :=
      List.filter (fun h => h != hash_recovery_code code) row.(ts_recovery_codes_hash)|>) (rows_of w) ->
    verified user_id code w (Ok (Some FACTOR_RECOVERY)) w'
| verified_not r w' :
    (forall f, r <> Ok (Some f)) -> rows_of w' = rows_of w -> verified user_id code w r w'.

Lemma commit_rows (f : db -> db) w (f_ : string) (Q : option string -> web -> Prop)
    (R : exn -> web -> Prop) :
  (forall w', rows_of w' = (f w.(w_sess).(s_db)).(db_totp) -> Q (Some f_) w') ->
  (forall e w', rows_of w' = rows_of w -> R e w') ->
  wp (in_db (write f ;;; commit) ;;; ret (Some f_)) Q R w.
Proof.
  intros HQ HR. apply wp_bind, wp_in_db, wp_bind, wp_write, wp_bind, wp_flush; [|by intros; apply HR].
  intros _ _. by apply wp_modify, wp_ret, HQ.
Qed.
Lemma verify_verified user_id code w :
  w.(w_sess).(s_db) = w.(w_sess).(s_committed) ->
  wp (verify_second_factor user_id code) (fun o => verified user_id code w (Ok o))
    (fun e => verified user_id code w (Raise e)) w.
Proof.
  intros Hdb. assert (forall e w', rows_of w' = rows_of w -> verified user_id code w (Raise e) w') as HR
    by by intros; apply verified_not.
  assert (verified user_id code w (Ok None) w) as HN by by apply verified_not.
  unfold verify_second_factor. apply wp_bind, wp_gets. unfold totp_row. rewrite Hdb.
  fold (rows_of w). destruct (tbl_get user_id _) as [row|] eqn:Hrow; [|done].
  destruct (ts_enabled row); [|done]. cbn [negb].
  apply wp_bind, wp_decrypt_secret; [by intros; apply HR|]. intros secret _.
  apply wp_bind. unfold match_totp_step. apply wp_bind, wp_gets.
  apply wp_match_step; [by intros; apply HR| |].
  - case_match eqn:Hin; [|done]. apply existsb_exists in Hin as (h & Hh & ->%py_eq_true).
    apply commit_rows; [|by intros; apply HR]. intros w' Hw'. rewrite Hdb in Hw'.
    by eapply verified_code.
  - intros n _ Hl _. apply commit_rows; [|by intros; apply HR]. intros w' Hw'. rewrite Hdb in Hw'.
    by eapply verified_step.
Qed.

(** What was spent cannot be accepted again. *)
Definition unspendable (row : totp_secret) (f : factor) : Prop :=
  match f with
  | TotpStep n => exists last, row.(ts_last_used_step) = Some last /\ n <= last
  | RecoveryCode digest => ~ In digest row.(ts_recovery_codes_hash)
  end.
Definition all_unspendable (user_id : Z) (seen : list factor) (w : web) : Prop :=
  forall row f, tbl_get user_id (rows_of w) = Some row -> In f seen -> unspendable row f.

Lemma verified_spent user_id code w r w' seen :
  verified user_id code w r w' -> all_unspendable user_id seen w ->
  match spent user_id code r w'.(w_sess).(s_committed) with
  | Some f => ~ In f seen /\ all_unspendable user_id (f :: seen) w'
              /\ forall d, f = RecoveryCode d -> exists row,
                   tbl_get user_id (rows_of w) = Some row /\ In d row.(ts_recovery_codes_hash)
  | None => all_unspendable user_id seen w'
  end.
Proof.
  intros Hv Hseen. destruct Hv as [w' row n Hrow Hfresh Hw'|w' row Hrow Hin Hw'|r w' Hr Hw'].
  - cbn. unfold totp_row. fold (rows_of w'). rewrite Hw'.
    rewrite (tbl_get_update_eq _ _ _ row) by done. cbn. split; [|split].
    + intros Hs. destruct (Hseen row _ Hrow Hs) as (last & Hl & Hle). specialize (Hfresh last Hl). lia.
    + intros row' f. rewrite Hw', (tbl_get_update_eq _ _ _ row) by done. intros [= <-] [<-|Hf].
      * exists n. split; [done|lia].
      * specialize (Hseen row f Hrow Hf). destruct f as [m|d]; [|done]. cbn.
        destruct Hseen as (last & Hl & Hle). specialize (Hfresh last Hl). exists n. split; [done|lia].
    + done.
  - cbn. split; [|split].
    + intros Hs. by apply (Hseen row _ Hrow Hs).
    + intros row' f. rewrite Hw', (tbl_get_update_eq _ _ _ row) by done. intros [= <-] [<-|Hf].
      * cbn. intros [_ Hne]%filter_In. by rewrite py_eq_refl in Hne.
      * specialize (Hseen row f Hrow Hf). destruct f as [m|d]; [done|]. cbn.
        intros [Hd _]%filter_In. done.
    + intros d [= <-]. by exists row.
  - assert (spent user_id code r w'.(w_sess).(s_committed) = None) as ->.
    { destruct r as [[f|]|e]; [by destruct (Hr f)|done..]. }
    intros row f. rewrite Hw'. apply Hseen.
Qed.

Lemma verified_codes user_id code w r w' row' :
  verified user_id code w r w' -> tbl_get user_id (rows_of w') = Some row' ->
  exists row, tbl_get user_id (rows_of w) = Some row
    /\ forall d, In d row'.(ts_recovery_codes_hash) -> In d row.(ts_recovery_codes_hash).
Proof.
  intros [w1 row n Hrow _ ->|w1 row Hrow _ ->|r1 w1 _ ->]; [..|by eauto];
    rewrite (tbl_get_update_eq _ _ _ row) by done; intros [= <-]; exists row; (split; [done|]); cbn.
  - done.
  - by intros d [? _]%filter_In.
Qed.
Lemma request_verified user_id code now up w :
  let '(r, w') := request now up (verify_second_factor user_id code) w in
  verified user_id code w r w'.
Proof.
  pose proof (verify_verified user_id code (begin_request now up w) eq_refl) as H.
  assert (forall r w1, verified user_id code (begin_request now up w) r w1 ->
    verified user_id code w r (end_request w1)) as Hends.
  { intros r w1 [w2 row n Hrow Hf Hw|w2 row Hrow Hin Hw|r2 w2 Hr Hw].
    - exact (verified_step user_id code w (end_request w2) row n Hrow Hf Hw).
    - exact (verified_code user_id code w (end_request w2) row Hrow Hin Hw).
    - exact (verified_not user_id code w r2 (end_request w2) Hr Hw). }
  unfold request, wp in *. destruct (verify_second_factor _ _ _) as [[o|e] w1]; exact (Hends _ _ H).
Qed.
Lemma spending_fresh user_id codes w seen :
  all_unspendable user_id seen w ->
  List.NoDup (spending user_id codes w)
  /\ (forall f, In f (spending user_id codes w) -> ~ In f seen)
  /\ forall d, In (RecoveryCode d) (spending user_id codes w) ->
       exists row, tbl_get user_id (rows_of w) = Some row /\ In d row.(ts_recovery_codes_hash).
Proof.
  revert w seen. induction codes as [|[[now up] code] codes IH]; intros w seen Hseen; cbn [spending].
  { split; [constructor|]. by split. }
  pose proof (request_verified user_id code now up w) as Hv.
  destruct (request now up _ w) as [r w'].
  pose proof (verified_spent user_id code w r w' seen Hv Hseen) as Hs.
  assert (forall d, (exists row, tbl_get user_id (rows_of w') = Some row
      /\ In d row.(ts_recovery_codes_hash)) ->
    exists row, tbl_get user_id (rows_of w) = Some row /\ In d row.(ts_recovery_codes_hash)) as Hback.
  { intros d (row' & Hrow' & Hd). destruct (verified_codes _ _ _ _ _ _ Hv Hrow') as (row & ? & Hsub). eauto. }
  destruct (spent user_id code r _) as [f|].
  - destruct Hs as (Hnew & Hseen' & Hcode). destruct (IH w' _ Hseen') as (Hnd & Hdis & Hcodes).
    split; [|split].
    + constructor; [|done]. intros Hf. apply (Hdis f Hf). by left.
    + intros g [<-|Hg]; [done|]. intros Hin. apply (Hdis g Hg). by right.
    + intros d [->|Hd]; [|by apply Hback, Hcodes].
      by apply Hcode.
  - destruct (IH w' _ Hs) as (Hnd & Hdis & Hcodes). split; [done|]. split; [done|]. auto.
Qed.

(** C13. A second factor is spent once.  However often codes are checked for an
    account, at whatever times: no time step and no recovery code is accepted
    twice, and the accepted recovery codes are among those the account had. *)
Theorem factors_are_spent_once user_id codes w :
  List.NoDup (spending user_id codes w)
  /\ forall d, In (RecoveryCode d) (spending user_id codes w) ->
       exists row, totp_row user_id w.(w_sess).(s_committed) = Some row
         /\ In d row.(ts_recovery_codes_hash).
Proof.
  destruct (spending_fresh user_id codes w []) as (Hnd & _ & Hcodes); [by intros ? ? _ []|]. by split.
Qed.
End TwoFactor.
