(* ===== verification/Accounts.v ===== *)
(** Password reset and the endpoints of the signed-in account:
    src/app/services/password_reset_service.py and src/app/api/user.py.

    A request that reaches a handler has passed the schemas of
    src/app/schemas/user.py. *)
From Stdlib Require Import ZArith Lia Ascii.
From stdpp Require Import base numbers list strings pretty gmap.
From S2P Require Import Prelude Calendar Models Session Outbox Mail Redis Auth TwoFactor.
#[local] Open Scope Z_scope.
#[local] Open Scope py_scope.

(** * Replies *)

(** [UserLoginResponse], with the cookie that is set. *)
Record login_response : Type := mk_login_response {
  lr_token : option string;
  lr_user_id : option Z;
  lr_username : option string;
  lr_is_admin : bool;
  lr_is_reseller : bool;
  lr_requires_2fa : bool;
  lr_pending_token : option string;
  lr_requires_2fa_enrollment : bool;
  lr_cookie : option string
}.
#[export] Instance eta_login_response : Eta login_response := fun r =>
  mk_login_response r.(lr_token) r.(lr_user_id) r.(lr_username) r.(lr_is_admin)
    r.(lr_is_reseller) r.(lr_requires_2fa) r.(lr_pending_token) r.(lr_requires_2fa_enrollment)
    r.(lr_cookie).
(** [SessionResponse], without the masked token. *)
Record session_response : Type := mk_session_response {
  sr_token_id : string;
  sr_created_at : string;
  sr_last_seen_at : string;
  sr_last_seen_ip : string;
  sr_is_current : bool
}.
Record two_factor_status_response : Type := mk_two_factor_status_response {
  tf_enabled : bool;
  tf_recovery_codes_remaining : Z;
  tf_enrollment_required : bool
}.

(** [raise HTTPException(400, detail=str(exc))] for a [ValueError]. *)
Definition value_error_is_400 {A} (m : Web A) : Web A :=
  try_catch m (fun e => if is_value_error e then http_error 400 else raise e).

(** Some recorded rows of a request that fails are committed on their own. *)
Definition audit_commit : Web unit := in_db commit.

Section Accounts.
Context {L : AuthLib} (cfg : auth_settings).

(** * Password reset *)

Definition RESET_TOKEN_TTL : Z := seconds 7200.

Definition outstanding_resets (user_id : Z) (t : reset_token) : bool :=
  (t.(rt_user_id) =? user_id) && match t.(rt_consumed_at) with None => true | Some _ => false end.
(** Retire the outstanding links of the user, and add a new one. *)
Definition issue_reset_token (user_id now : Z) (hash : string) (d : db) : db :=
  d <|db_reset_tokens :=
        map (fun t => if outstanding_resets user_id t then t <|rt_consumed_at := Some now|> else t)
          d.(db_reset_tokens)
        ++ [mk_reset_token (tbl_fresh d.(db_reset_tokens)) user_id hash (now + RESET_TOKEN_TTL) None]|>.
Definition reset_mail (u : user) (base_url raw_token : string) : mail_args :=
  mk_mail_args u.(us_email) "password_reset"
    ("pwdreset:" +:+ pretty u.(us_id) +:+ ":" +:+ str_take 16 raw_token)
    [("reset_url", JStr (base_url +:+ "/reset-password?token=" +:+ raw_token))]
    None (Some u.(us_id)) None None.

Definition request_password_reset (email ip : string) : Web unit :=
  enforce_rate_limit ("pwdreset:ip:" +:+ ip) 10 3600 ;;;
  enforce_rate_limit ("pwdreset:email:" +:+ email) 5 3600 ;;;
  o <- query (user_by_email email) ;;
  match o with
  | None => ret tt
  | Some u =>
      if negb (has_password u) then ret tt
      else match auth_link_base_url cfg with
           | None => ret tt
           | Some base_url =>
               now <- web_now ;;
               n <- draw ;;
               let raw_token := token_urlsafe n in
               in_db (write (issue_reset_token u.(us_id) now (sha256_hex raw_token))) ;;;
               in_db (try_catch (enqueue_mail (reset_mail u base_url raw_token) ;;; ret tt)
                        (fun e => if is_value_error e then ret tt else raise e)) ;;;
               in_db commit
           end
  end.

Definition reset_by_hash (hash : string) (d : db) : list reset_token :=
  List.filter (fun t => (t.(rt_token_hash) == hash)
                        && match t.(rt_consumed_at) with None => true | Some _ => false end)
    d.(db_reset_tokens).
Definition confirm_password_reset (token password : string) : Web Z :=
  rows <- query (reset_by_hash (sha256_hex (str_strip token))) ;;
  o <- scalar_one_or_none MultipleResultsFound rows ;;
  row <- unwrap o (HTTPException 400) ;;
  now <- web_now ;;
  throw_if (row.(rt_expires_at) <? now) (HTTPException 400) ;;;
  u <- query (user_by_id row.(rt_user_id)) ;;
  user <- unwrap u (HTTPException 400) ;;
  value_error_is_400 (set_password user.(us_id) (Some password)) ;;;
  in_db (write (fun d => d <|db_reset_tokens := tbl_update row.(rt_id)
                  (fun t => t <|rt_consumed_at := Some now|>) d.(db_reset_tokens)|>) ;;;
         commit) ;;;
  revoke_all_sessions user.(us_id) None ;;;
  ret user.(us_id).

(** * src/app/api/user.py *)

Definition PENDING_2FA_TTL_SECONDS : Z := 300.
Definition PENDING_2FA_MAX_ATTEMPTS : Z := 5.
Definition pending_2fa_digest (pending_token : string) : string := sha256_hex pending_token.
Definition pending_key (digest : string) : string := "login2fa:" +:+ digest.
Definition challenge_limit (digest : string) : string := "login2fa:challenge:" +:+ digest.

Definition session_reply (u : user) (token : string) : login_response :=
  mk_login_response (Some token) (Some u.(us_id)) (Some u.(us_username)) u.(us_is_admin)
    u.(us_is_reseller) false None false (Some token).

Definition login_limits (identifier : string) (ip : option string) : Web unit :=
  enforce_rate_limit ("login:ip:" +:+ or_unknown ip) cfg.(st_login_rate_limit_per_ip)
    cfg.(st_login_rate_limit_per_ip_window_seconds) ;;;
  if str_empty identifier then ret tt
  else enforce_rate_limit ("login:user:" +:+ identifier) cfg.(st_login_rate_limit_per_username)
         cfg.(st_login_rate_limit_per_username_window_seconds).
Definition reset_login_limits (identifier : string) (ip : option string) : Web unit :=
  (if str_empty identifier then ret tt else reset_rate_limit ("login:user:" +:+ identifier)) ;;;
  reset_rate_limit ("login:ip:" +:+ or_unknown ip).
(** The account a login names. *)
Definition login_account (username email : option string) (d : db) : option user :=
  if str_true username then user_by_username (str_or username "") d
  else if str_true email then user_by_email (str_or email "") d
  else None.

Definition login (username email : option string) (password : string) (rq : http_request)
  : Web login_response :=
  let ip := client_ip cfg rq in
  let identifier := str_lower (str_strip (str_or username (str_or email ""))) in
  login_limits identifier ip ;;;
  o <- query (login_account username email) ;;
  match o with
  | None => audit_commit ;;; http_error 401
  | Some u =>
      if negb (verify_password u password) then audit_commit ;;; http_error 401
      else
        reset_login_limits identifier ip ;;;
        enabled <- query (is_enabled u.(us_id)) ;;
        if enabled : bool then
          n <- draw ;;
          let pending_token := token_urlsafe n in
          redis_setex (pending_key (pending_2fa_digest pending_token)) PENDING_2FA_TTL_SECONDS
            (pretty u.(us_id)) ;;;
          ret (mk_login_response None None None false false true (Some pending_token) false None)
        else if u.(us_require_2fa) then
          token <- mint_user_session cfg u ip None [("restricted", RESTRICTION_2FA_ENROLLMENT)] ;;
          audit_commit ;;;
          ret ((session_reply u token) <|lr_requires_2fa_enrollment := true|>)
        else
          token <- mint_user_session cfg u ip None [] ;;
          audit_commit ;;;
          ret (session_reply u token)
  end.

Definition login_2fa (pending_token code : string) (rq : http_request) : Web login_response :=
  let ip := client_ip cfg rq in
  enforce_rate_limit ("login2fa:ip:" +:+ or_unknown ip) cfg.(st_login_rate_limit_per_ip)
    cfg.(st_login_rate_limit_per_ip_window_seconds) ;;;
  let digest := pending_2fa_digest pending_token in
  raw <- redis_get (pending_key digest) ;;
  raw_user_id <- unwrap raw (HTTPException 401) ;;
  enforce_rate_limit (challenge_limit digest) PENDING_2FA_MAX_ATTEMPTS PENDING_2FA_TTL_SECONDS ;;;
  user_id <- unwrap (py_int raw_user_id) (ValueError "invalid literal for int()") ;;
  o <- query (user_by_id user_id) ;;
  factor <- match o with
            | Some u => verify_second_factor cfg u.(us_id) code
            | None => ret None
            end ;;
  match o, factor with
  | Some u, Some _ =>
      redis_delete (pending_key digest) ;;;
      reset_rate_limit (challenge_limit digest) ;;;
      token <- mint_user_session cfg u ip None [] ;;
      in_db commit ;;;
      ret (session_reply u token)
  | _, _ => audit_commit ;;; http_error 401
  end.

(** The token a handler reads off the request itself: a header of another
    scheme hides the cookie, except when a password is changed. *)
Definition raw_bearer (rq : http_request) : option string :=
  match rq.(hr_authorization) with
  | Some h => if str_startswith "Bearer " h then Some (str_drop 7 h) else None
  | None => None
  end.
Definition own_token (rq : http_request) : option string :=
  match rq.(hr_authorization) with
  | Some _ => raw_bearer rq
  | None => rq.(hr_auth_token)
  end.
Definition own_token_or_cookie (rq : http_request) : option string :=
  match raw_bearer rq with Some t => Some t | None => rq.(hr_auth_token) end.

Definition logout (rq : http_request) : Web unit :=
  a <- get_current_user cfg rq ;;
  match own_token rq with
  | Some token =>
      if str_empty token then ret tt
      else
        let token_id := derive_token_id token in
        redis_delete (tok_key token_id) ;;;
        match auth_user_id a with
        | Some user_id => redis_zrem (user_toks_key user_id) token_id
        | None => ret tt
        end
  | None => ret tt
  end.

Definition change_password (current_password new_password : string) (rq : http_request)
  : Web unit :=
  a <- get_current_user cfg rq ;;
  user_id <- unwrap (auth_user_id a) (HTTPException 401) ;;
  o <- query (user_by_id user_id) ;;
  u <- unwrap o (HTTPException 404) ;;
  throw_if (negb (verify_password u current_password)) (HTTPException 400) ;;;
  value_error_is_400 (set_password u.(us_id) (Some new_password)) ;;;
  in_db commit ;;;
  let current_token := own_token_or_cookie rq in
  let current_token_id := if str_true current_token
    then Some (derive_token_id (str_or current_token "")) else None in
  revoke_all_sessions u.(us_id) current_token_id ;;;
  audit_commit.

(** [get_current_user_details]: the account of the caller. *)
Definition get_current_user_details (rq : http_request) : Web user :=
  a <- get_current_user cfg rq ;;
  user_id <- unwrap (auth_user_id a) (HTTPException 401) ;;
  o <- query (user_by_id user_id) ;;
  unwrap o (HTTPException 404).

Definition get_user_sessions (rq : http_request) : Web (list session_response) :=
  a <- get_current_user cfg rq ;;
  user_id <- unwrap (auth_user_id a) (HTTPException 401) ;;
  let current_token_id := option_map derive_token_id (own_token rq) in
  token_ids <- redis_zrevrange (user_toks_key user_id) ;;
  token_data <- fold_each token_ids [] (fun acc token_id =>
    h <- redis_hgetall (tok_key token_id) ;; ret (acc ++ [(token_id, h)])) ;;
  fold_each token_data [] (fun acc data =>
    let '(token_id, h) := data in
    if decide (h = empty) then
      redis_zrem (user_toks_key user_id) token_id ;;; ret acc
    else
      ret (acc ++ [mk_session_response token_id (field h "created_at" "unknown")
        (field h "last_seen_at" "unknown") (field h "last_seen_ip" "unknown")
        (Some token_id == current_token_id)])).

Definition delete_session (token_id : string) (rq : http_request) : Web unit :=
  a <- get_current_user cfg rq ;;
  user_id <- unwrap (auth_user_id a) (HTTPException 401) ;;
  throw_if (Some token_id == option_map derive_token_id (own_token rq)) (HTTPException 400) ;;;
  h <- redis_hgetall (tok_key token_id) ;;
  throw_if (bool_decide (h = empty)) (HTTPException 404) ;;;
  token_user_id <- unwrap (py_int (field h "user_id" "0"))
                     (ValueError "invalid literal for int()") ;;
  throw_if (token_user_id != user_id) (HTTPException 403) ;;;
  redis_delete (tok_key token_id) ;;;
  redis_zrem (user_toks_key user_id) token_id.

(** ** The caller's second factor *)

Definition require_own_password_session (rq : http_request) (a : auth) : Web user :=
  match a with
  | ApiKeyAuth _ _ _ => http_error 403
  | UserAuth s =>
      by_ <- impersonated_by_from_token (token_from_request rq) ;;
      throw_if (match by_ with Some _ => true | None => false end) (HTTPException 403) ;;;
      o <- query (user_by_id s.(sa_user_id)) ;;
      unwrap o (HTTPException 401)
  end.
(** The caller of a second-factor endpoint. *)
Definition own_account (rq : http_request) : Web user :=
  a <- get_current_user cfg rq ;;
  require_own_password_session rq a.

Definition two_factor_status (rq : http_request) : Web two_factor_status_response :=
  a <- get_current_user cfg rq ;;
  u <- require_own_password_session rq a ;;
  o <- query (totp_row u.(us_id)) ;;
  let enabled := match o with Some t => t.(ts_enabled) | None => false end in
  let restricted := match a with
                    | UserAuth s => negb (str_empty s.(sa_restricted))
                    | ApiKeyAuth _ _ _ => false
                    end in
  ret (mk_two_factor_status_response enabled
         (match o with
          | Some t => if t.(ts_enabled) then Z.of_nat (length t.(ts_recovery_codes_hash)) else 0
          | None => 0
          end) (restricted && negb enabled)).
Definition two_factor_setup (password : string) (rq : http_request) : Web string :=
  u <- own_account rq ;;
  throw_if (negb (verify_password u password)) (HTTPException 401) ;;;
  begin_enrollment cfg u.(us_id).
Definition two_factor_confirm (code : string) (rq : http_request) : Web (list string) :=
  u <- own_account rq ;;
  codes <- confirm_enrollment cfg u.(us_id) code ;;
  audit_commit ;;;
  lift_session_restrictions u.(us_id) ;;;
  ret codes.
Definition two_factor_regenerate_recovery_codes (code : string) (rq : http_request)
  : Web (list string) :=
  u <- own_account rq ;;
  factor <- verify_second_factor cfg u.(us_id) code ;;
  unwrap factor (HTTPException 400) ;;;
  codes <- regenerate_recovery_codes u.(us_id) ;;
  audit_commit ;;;
  ret codes.
Definition two_factor_disable (code : string) (rq : http_request) : Web unit :=
  u <- own_account rq ;;
  disable cfg u.(us_id) code ;;;
  audit_commit.

Definition password_reset_request (email : string) (rq : http_request) : Web unit :=
  request_password_reset (str_lower (str_strip email)) (or_unknown (client_ip cfg rq)).
Definition password_reset_confirm (token password : string) (rq : http_request) : Web unit :=
  enforce_rate_limit ("pwdreset:confirm:ip:" +:+ or_unknown (client_ip cfg rq)) 30 3600 ;;;
  confirm_password_reset token password ;;;
  ret tt.
End Accounts.
