(* ===== verification/Portal.v ===== *)
(** Staff and client administration, sign-in from billing platforms and public
    registration: src/app/api/admin_users.py,
    src/app/services/client_portal_service.py, the redemption of
    src/app/api/client.py, src/app/api/commerce_auth_public.py and the client
    accounts of src/app/dao/commerce_dao.py; and the requests of all the
    modelled account endpoints, served one after the other. *)
From Stdlib Require Import ZArith Lia Ascii FinFun.
From stdpp Require Import base numbers list strings pretty gmap.
From S2P Require Import Prelude Calendar Models Session Outbox Mail Redis Auth TwoFactor Accounts.
#[local] Open Scope Z_scope.
#[local] Open Scope py_scope.

(** * Free names *)

(** Characters stripped from both ends. *)
Fixpoint str_lstrip_by (p : ascii -> bool) (s : string) : string :=
  match s with
  | String c s' => if p c then str_lstrip_by p s' else s
  | EmptyString => s
  end.
Fixpoint str_rstrip_by (p : ascii -> bool) (s : string) : string :=
  match s with
  | EmptyString => EmptyString
  | String c s' =>
      match str_rstrip_by p s' with
      | EmptyString => if p c then EmptyString else String c EmptyString
      | t => String c t
      end
  end.

(** The first candidate that is not taken, counting [suffix] up; [fuel] bounds
    the number of candidates looked at. *)
Fixpoint first_free (fuel : nat) (taken : string -> bool) (candidate : Z -> string) (suffix : Z)
  : string :=
  match fuel with
  | O => candidate suffix
  | S fuel' => if taken (candidate suffix) then first_free fuel' taken candidate (suffix + 1)
               else candidate suffix
  end.
Definition numbered (base tail : string) (suffix : Z) : string :=
  if suffix =? 0 then base +:+ tail else base +:+ pretty suffix +:+ tail.

Definition username_safe (c : ascii) : bool :=
  is_alpha c || is_digit c || existsb (Ascii.eqb c) ["_"; "."; "-"]%char.
Definition username_edge (c : ascii) : bool := existsb (Ascii.eqb c) ["."; "-"; "_"]%char.
Definition username_base (base : string) : string :=
  let s := str_remove (fun c => negb (username_safe c)) base in
  let s := str_rstrip_by username_edge (str_lstrip_by username_edge s) in
  if str_empty s then "client" else s.
Definition is_some {A} (o : option A) : bool := match o with Some _ => true | None => false end.

(** [_unique_username] and [_unique_email] *)
Definition unique_username (base : string) (d : db) : string :=
  first_free (S (length d.(db_users))) (fun s => is_some (user_by_username s d))
    (numbered (username_base base) "") 0.
Definition unique_email (base_email : option string) (fallback_username : string) (d : db) : string :=
  if str_true base_email && negb (is_some (user_by_email (str_or base_email "") d))
  then str_or base_email ""
  else first_free (S (length d.(db_users))) (fun s => is_some (user_by_email s d))
         (numbered fallback_username "@clients.rackflow.local") 0.

Section Portal.
Context {L : AuthLib} (cfg : auth_settings).

(** * src/app/services/client_portal_service.py *)

Record billing_identity : Type := mk_billing_identity {
  bid_integration_id : Z;
  bid_external_user_id : string;
  bid_username_hint : option string;
  bid_email_hint : option string;
  bid_external_username : option string;
  bid_external_email : option string;
  bid_password : option string
}.
Definition first_true (a b : option string) : option string := if str_true a then a else b.

Definition ensure_user_for_billing_identity (i : billing_identity) : Web Z :=
  o <- query (user_by_billing_identity i.(bid_integration_id) i.(bid_external_user_id)) ;;
  match o with
  | Some u =>
      let new_name := str_true i.(bid_external_username)
                      && (u.(us_external_username) != i.(bid_external_username)) in
      let new_email := str_true i.(bid_external_email)
                       && (u.(us_external_email) != i.(bid_external_email)) in
      (if new_name then in_db (upd_user u.(us_id) (fun x => x
         <|us_external_username := i.(bid_external_username)|>)) else ret tt) ;;;
      (if new_email then in_db (upd_user u.(us_id) (fun x => x
         <|us_external_email := i.(bid_external_email)|>)) else ret tt) ;;;
      (if new_name || new_email then in_db commit else ret tt) ;;;
      ret u.(us_id)
  | None =>
      let base := str_or (first_true i.(bid_username_hint) i.(bid_external_username))
                    ("ext" +:+ i.(bid_external_user_id)) in
      username <- query (unique_username base) ;;
      email <- query (unique_email (first_true i.(bid_email_hint) i.(bid_external_email)) username) ;;
      create_user (mk_new_user_args username email i.(bid_password) false
        (Some i.(bid_integration_id)) (Some i.(bid_external_user_id))
        i.(bid_external_username) i.(bid_external_email))
  end.

Definition SSO_TICKET_KEY_PREFIX : string := "client_sso:".
(** [_derive_sso_ticket_id] *)
Definition ticket_key (token : string) : string := SSO_TICKET_KEY_PREFIX +:+ sha256_hex token.

Definition mint_sso_ticket (user_id : Z) (ttl_seconds : option Z) : Web string :=
  let ttl := Z.max 1 (match ttl_seconds with
                      | Some t => t | None => cfg.(st_client_sso_ticket_ttl_seconds) end) in
  n <- draw ;;
  let token := token_urlsafe n in
  now <- web_now ;;
  redis_hset (ticket_key token)
    [("user_id", pretty user_id); ("created_at", isoformat now);
     ("expires_at", isoformat (now + seconds ttl))] ;;;
  redis_expire (ticket_key token) ttl ;;;
  ret token.

(** [redeem_sso_ticket], by its two uses of the ticket: what it holds, and the
    claim. *)
Definition read_ticket (token : string) : Web (gmap string string) :=
  if str_empty token then ret empty else redis_hgetall (ticket_key token).
Definition claim_ticket (token : string) (data : gmap string string) : Web (option Z) :=
  if decide (data = empty) then ret None
  else
    claimed <- redis_hsetnx (ticket_key token) "consumed" "1" ;;
    if negb claimed then ret None
    else
      redis_delete (ticket_key token) ;;;
      match data !! "user_id" with
      | None => ret None
      | Some raw =>
          n <- unwrap (py_int raw) (ValueError "invalid literal for int()") ;; ret (Some n)
      end.
Definition redeem_sso_ticket (token : string) : Web (option Z) :=
  data <- read_ticket token ;; claim_ticket token data.

(** [client_sso_redeem]: the session of the redirect's cookie. *)
Definition client_sso_redeem (token : string) (rq : http_request) : Web string :=
  o <- redeem_sso_ticket token ;;
  user_id <- unwrap o (HTTPException 400) ;;
  u <- query (user_by_id user_id) ;;
  user <- unwrap u (HTTPException 404) ;;
  throw_if user.(us_is_admin) (HTTPException 404) ;;;
  mint_user_session cfg user (client_ip cfg rq) None [].

(** * src/app/api/admin_users.py *)

(** A client (or staff) account by id, for the staff member who asks. *)
Definition client_account (user_id : Z) : Web user :=
  o <- query (user_by_id user_id) ;;
  match o with
  | Some u => throw_if u.(us_is_admin) (HTTPException 404) ;;; ret u
  | None => http_error 404
  end.
Definition admin_account (admin_id : Z) : Web user :=
  o <- query (user_by_id admin_id) ;;
  match o with
  | Some u => throw_if (negb u.(us_is_admin)) (HTTPException 404) ;;; ret u
  | None => http_error 404
  end.
Definition require_free_names (username email : string) : Web unit :=
  a <- query (user_by_username username) ;;
  throw_if (is_some a) (HTTPException 409) ;;;
  b <- query (user_by_email email) ;;
  throw_if (is_some b) (HTTPException 409).

Definition create_client (username email : string) (password : option string) (rq : http_request)
  : Web Z :=
  require_admin cfg rq ;;;
  require_free_names username email ;;;
  value_error_is_400 (create_user
    (mk_new_user_args username email password false None None None None)).
Definition create_admin (username email password : string) (rq : http_request) : Web Z :=
  require_admin cfg rq ;;;
  require_free_names username email ;;;
  value_error_is_400 (create_user
    (mk_new_user_args username email (Some password) true None None None None)).

Definition set_client_password (user_id : Z) (password : option string) (rq : http_request)
  : Web unit :=
  require_admin cfg rq ;;;
  u <- client_account user_id ;;
  value_error_is_400 (set_password u.(us_id) password) ;;;
  in_db commit ;;;
  revoke_all_sessions u.(us_id) None ;;;
  audit_commit.

Definition set_require_2fa (target : Z) (require_2fa : bool) : Web unit :=
  in_db (upd_user target (fun u => u <|us_require_2fa := require_2fa|>) ;;; commit) ;;;
  (if require_2fa then
     enabled <- query (is_enabled target) ;;
     if enabled : bool then ret 0 else restrict_sessions_for_2fa_enrollment target
   else lift_session_restrictions target) ;;;
  audit_commit.
Definition set_client_require_2fa (user_id : Z) (require_2fa : bool) (rq : http_request) : Web unit :=
  require_admin cfg rq ;;;
  u <- client_account user_id ;;
  set_require_2fa u.(us_id) require_2fa.
Definition set_admin_require_2fa (admin_id : Z) (require_2fa : bool) (rq : http_request) : Web unit :=
  require_admin cfg rq ;;;
  u <- admin_account admin_id ;;
  set_require_2fa u.(us_id) require_2fa.

(** [str(auth.get("user_id", ""))] *)
Definition auth_user_str (a : auth) : string :=
  match a with UserAuth s => pretty s.(sa_user_id) | ApiKeyAuth _ _ _ => "" end.
Definition impersonate_client (user_id : Z) (rq : http_request) : Web string :=
  a <- require_admin cfg rq ;;
  o <- query (user_by_id user_id) ;;
  u <- unwrap o (HTTPException 404) ;;
  throw_if u.(us_is_admin) (HTTPException 400) ;;;
  throw_if u.(us_is_reseller) (HTTPException 400) ;;;
  token <- mint_user_session cfg u (client_ip cfg rq)
             (Some cfg.(st_impersonation_session_ttl_seconds))
             [("impersonated_by", auth_user_str a)] ;;
  audit_commit ;;;
  ret token.

(** The actor's own password, which a change of an admin's password needs. *)
Definition confirm_actor (a : auth) (current_password : option string) : Web unit :=
  actor <- match a with
           | UserAuth s => query (user_by_id s.(sa_user_id))
           | ApiKeyAuth _ _ _ => ret None
           end ;;
  match actor with
  | Some u => throw_if (opt_empty current_password
                        || negb (verify_password u (str_or current_password "")))
                (HTTPException 403)
  | None => http_error 403
  end.
Definition update_admin (admin_id : Z) (email password current_password : option string)
    (rq : http_request) : Web unit :=
  a <- require_admin cfg rq ;;
  admin <- admin_account admin_id ;;
  (if str_true email && (Some admin.(us_email) != email) then
     taken <- query (user_by_email (str_or email "")) ;;
     throw_if (is_some taken) (HTTPException 409) ;;;
     in_db (upd_user admin_id (fun u => u <|us_email := str_or email ""|>))
   else ret tt) ;;;
  (if str_true password then
     confirm_actor a current_password ;;;
     value_error_is_400 (set_password admin_id password)
   else ret tt) ;;;
  in_db commit ;;;
  (if str_true password then
     revoke_all_sessions admin_id None ;;; audit_commit
   else ret tt).

Definition admins (d : db) : list user := List.filter us_is_admin d.(db_users).
Definition delete_admin (admin_id : Z) (rq : http_request) : Web unit :=
  a <- require_admin cfg rq ;;
  admin <- admin_account admin_id ;;
  throw_if (match a with
            | UserAuth s => admin.(us_id) =? s.(sa_user_id)
            | ApiKeyAuth _ _ _ => false
            end) (HTTPException 400) ;;;
  staff <- query admins ;;
  throw_if (length staff <=? 1)%nat (HTTPException 400) ;;;
  delete_user admin_id ;;;
  ret tt.

(** * src/app/api/commerce_auth_public.py *)

Definition client_accounts (user_id : Z) (d : db) : list billing_account :=
  List.filter (fun a => (a.(ba_account_type) == AC_CLIENT) && (a.(ba_user_id) == Some user_id))
    d.(db_accounts).
(** [BillingAccountDAO.ensure_client_account] *)
Definition ensure_client_account (user_id : Z) (currency : string) : Meth Z :=
  rows <- read (client_accounts user_id) ;;
  existing <- scalar_one_or_none MultipleResultsFound rows ;;
  match existing with
  | Some a => ret a.(ba_id)
  | None =>
      id <- read (fun d => tbl_fresh d.(db_accounts)) ;;
      write (fun d => d <|db_accounts := d.(db_accounts) ++
        [mk_billing_account id (Some user_id) None AC_CLIENT
           (str_take 3 (str_upper (str_strip currency))) false]|>) ;;;
      flush ;;;
      ret id
  end.
(** [get_client_billing_account]; the flush is not committed. *)
Definition get_client_billing_account (rq : http_request) : Web Z :=
  s <- require_client_session cfg rq ;;
  in_db (id <- ensure_client_account s.(sa_user_id) "USD" ;; flush ;;; ret id).

Definition VERIFY_TOKEN_TTL : Z := seconds (48 * 3600).
Definition verify_mail (user_id : Z) (username email raw_token : string) : mail_args :=
  let base_url := str_or (auth_link_base_url cfg) "" in
  mk_mail_args email "verify_email"
    ("verify:" +:+ pretty user_id +:+ ":" +:+ str_take 16 raw_token)
    [("username", JStr username);
     ("verify_url", if str_empty base_url then JNull
                    else JStr (base_url +:+ "/verify-email?token=" +:+ raw_token))]
    None (Some user_id) None None.
Definition register (username email password : string) (invite_token : option string) : Web Z :=
  require_commerce_enabled cfg ;;;
  throw_if (cfg.(st_commerce_registration_mode) == "disabled") (HTTPException 403) ;;;
  throw_if ((cfg.(st_commerce_registration_mode) == "invite_only") && opt_empty invite_token)
    (HTTPException 403) ;;;
  require_free_names username email ;;;
  let name := str_strip username in
  let address := str_lower (str_strip email) in
  id <- create_user (mk_new_user_args name address (Some password) false None None None None) ;;
  in_db (ensure_client_account id cfg.(st_commerce_default_currency)) ;;;
  n <- draw ;;
  let raw_token := token_urlsafe n in
  now <- web_now ;;
  in_db (write (fun d => d <|db_verify_tokens := d.(db_verify_tokens) ++
    [mk_verify_token (tbl_fresh d.(db_verify_tokens)) id (sha256_hex raw_token)
       (now + VERIFY_TOKEN_TTL) None]|>)) ;;;
  in_db (try_catch (enqueue_mail (verify_mail id name address raw_token) ;;; ret tt)
           (fun e => if is_value_error e then ret tt else raise e)) ;;;
  in_db commit ;;;
  ret id.

Definition verify_by_hash (hash : string) (d : db) : list verify_token :=
  List.filter (fun t => (t.(vt_token_hash) == hash)
                        && match t.(vt_consumed_at) with None => true | Some _ => false end)
    d.(db_verify_tokens).
Definition verify_email (token : string) : Web Z :=
  require_commerce_enabled cfg ;;;
  rows <- query (verify_by_hash (sha256_hex (str_strip token))) ;;
  o <- scalar_one_or_none MultipleResultsFound rows ;;
  row <- unwrap o (HTTPException 400) ;;
  now <- web_now ;;
  throw_if (row.(vt_expires_at) <? now) (HTTPException 400) ;;;
  in_db (write (fun d => d <|db_verify_tokens := tbl_update row.(vt_id)
                  (fun t => t <|vt_consumed_at := Some now|>) d.(db_verify_tokens)|>) ;;;
         commit) ;;;
  ret row.(vt_user_id).

(** The address a storefront request comes from: an empty first hop counts. *)
Definition storefront_ip (rq : http_request) : string :=
  match client_ip cfg rq with Some ip => ip | None => "unknown" end.
Definition commerce_password_reset_request (email : string) (rq : http_request) : Web unit :=
  require_commerce_enabled cfg ;;;
  request_password_reset cfg (str_lower (str_strip email)) (storefront_ip rq).
Definition commerce_password_reset_confirm (token password : string) : Web unit :=
  require_commerce_enabled cfg ;;;
  confirm_password_reset token password ;;;
  ret tt.

(** * Requests *)

Inductive web_request : Type :=
| Login (username email : option string) (password : string) (rq : http_request)
| Login2fa (pending_token code : string) (rq : http_request)
| Logout (rq : http_request)
| ChangePassword (current_password new_password : string) (rq : http_request)
| GetCurrentUser (rq : http_request)
| GetSessions (rq : http_request)
| DeleteSession (token_id : string) (rq : http_request)
| TwoFactorStatus (rq : http_request)
| TwoFactorSetup (password : string) (rq : http_request)
| TwoFactorConfirm (code : string) (rq : http_request)
| TwoFactorRegenerate (code : string) (rq : http_request)
| TwoFactorDisable (code : string) (rq : http_request)
| ResetRequest (email : string) (rq : http_request)
| ResetConfirm (token password : string) (rq : http_request)
| CreateClient (username email : string) (password : option string) (rq : http_request)
| CreateAdmin (username email password : string) (rq : http_request)
| SetClientPassword (user_id : Z) (password : option string) (rq : http_request)
| SetClientRequire2fa (user_id : Z) (require_2fa : bool) (rq : http_request)
| SetAdminRequire2fa (admin_id : Z) (require_2fa : bool) (rq : http_request)
| Impersonate (user_id : Z) (rq : http_request)
| UpdateAdmin (admin_id : Z) (email password current_password : option string) (rq : http_request)
| DeleteAdmin (admin_id : Z) (rq : http_request)
| EnsureBillingUser (i : billing_identity) (rq : http_request)
| MintTicket (user_id : Z)
| RedeemTicket (token : string) (rq : http_request)
| Register (username email password : string) (invite_token : option string)
| VerifyEmail (token : string)
| CommerceResetRequest (email : string) (rq : http_request)
| CommerceResetConfirm (token password : string)
| BillingAccount (rq : http_request)
| ResellerLogin (rq : http_request).

(** What a request answers: a sign-in, a token, or something that carries no
    credential. *)
Inductive reply : Type :=
| ReplyLogin (r : login_response)
| ReplyToken (token : string)
| ReplyDone.
Definition done {A} (m : Web A) : Web reply := m ;;; ret ReplyDone.

Definition handle (r : web_request) : Web reply :=
  match r with
  | Login u e p rq => x <- login cfg u e p rq ;; ret (ReplyLogin x)
  | Login2fa t c rq => x <- login_2fa cfg t c rq ;; ret (ReplyLogin x)
  | Logout rq => done (logout cfg rq)
  | ChangePassword p q rq => done (change_password cfg p q rq)
  | GetCurrentUser rq => done (get_current_user_details cfg rq)
  | GetSessions rq => done (get_user_sessions cfg rq)
  | DeleteSession t rq => done (delete_session cfg t rq)
  | TwoFactorStatus rq => done (two_factor_status cfg rq)
  | TwoFactorSetup p rq => done (two_factor_setup cfg p rq)
  | TwoFactorConfirm c rq => done (two_factor_confirm cfg c rq)
  | TwoFactorRegenerate c rq => done (two_factor_regenerate_recovery_codes cfg c rq)
  | TwoFactorDisable c rq => done (two_factor_disable cfg c rq)
  | ResetRequest e rq => done (password_reset_request cfg e rq)
  | ResetConfirm t p rq => done (password_reset_confirm cfg t p rq)
  | CreateClient u e p rq => done (create_client u e p rq)
  | CreateAdmin u e p rq => done (create_admin u e p rq)
  | SetClientPassword u p rq => done (set_client_password u p rq)
  | SetClientRequire2fa u b rq => done (set_client_require_2fa u b rq)
  | SetAdminRequire2fa u b rq => done (set_admin_require_2fa u b rq)
  | Impersonate u rq => t <- impersonate_client u rq ;; ret (ReplyToken t)
  | UpdateAdmin u e p q rq => done (update_admin u e p q rq)
  | DeleteAdmin u rq => done (delete_admin u rq)
  | EnsureBillingUser i rq =>
      done (get_billing_integration cfg rq ;;; ensure_user_for_billing_identity i)
  | MintTicket u => t <- mint_sso_ticket u None ;; ret (ReplyToken t)
  | RedeemTicket t rq => s <- client_sso_redeem t rq ;; ret (ReplyToken s)
  | Register u e p i => done (register u e p i)
  | VerifyEmail t => done (verify_email t)
  | CommerceResetRequest e rq => done (commerce_password_reset_request e rq)
  | CommerceResetConfirm t p => done (commerce_password_reset_confirm t p)
  | BillingAccount rq => done (get_client_billing_account rq)
  | ResellerLogin rq => done (get_reseller_by_api_key rq)
  end.

(** A served request, with the time it is served at and whether Redis can be
    reached. *)
Record served : Type := mk_served { sd_now : Z; sd_redis_up : bool; sd_request : web_request }.
Definition serve (x : served) (w : web) : outcome exn reply * web :=
  request x.(sd_now) x.(sd_redis_up) (handle x.(sd_request)) w.

(** Requests served one after the other, at times that do not go back. *)
Inductive served_all : list served -> web -> web -> Prop :=
| served_none w : served_all [] w w
| served_next x l w w' :
    w.(w_sess).(s_now) <= x.(sd_now) -> served_all l (snd (serve x w)) w' ->
    served_all (x :: l) w w'.

(** Running requests, and checking that their times do not go back. *)
Fixpoint run_all (l : list served) (w : web) : web :=
  match l with [] => w | x :: l' => run_all l' (snd (serve x w)) end.
Fixpoint in_order (now : Z) (l : list served) : bool :=
  match l with [] => true | x :: l' => (now <=? x.(sd_now)) && in_order x.(sd_now) l' end.
End Portal.

(** * Names that are free are found *)

Lemma first_free_spec fuel taken candidate n :
  (exists k, n <= k < n + Z.of_nat (S fuel) /\ taken (candidate k) = false) ->
  taken (first_free fuel taken candidate n) = false.
Proof.
  revert n. induction fuel as [|fuel IH]; intros n (k & Hk & Hfree); cbn [first_free].
  - by replace k with n in Hfree by lia.
  - destruct (taken (candidate n)) eqn:E; [|done]. apply IH. exists k. split; [|done].
    assert (k <> n) by (intros ->; congruence). lia.
Qed.
(** Among more candidates than there are rows, one is free. *)
Lemma candidate_free {A} (name : A -> string) (rows : list A) (candidate : Z -> string) :
  (forall i j, 0 <= i -> 0 <= j -> candidate i = candidate j -> i = j) ->
  exists k, 0 <= k < 0 + Z.of_nat (S (S (length rows)))
    /\ ~ In (candidate k) (map name rows).
Proof.
  intros Hinj. set (names := map name rows).
  assert (exists k, (k <= length rows)%nat /\ ~ In (candidate (Z.of_nat k)) names) as (k & Hk & Hfree).
  { destruct (List.Exists_dec (fun k => ~ In (candidate (Z.of_nat k)) names) (seq 0 (S (length rows))))
      as [Hex|Hno].
    - intros k. destruct (in_dec String.string_dec (candidate (Z.of_nat k)) names); [by right; intros []|by left].
    - apply List.Exists_exists in Hex as (k & Hk & Hfree). apply in_seq in Hk. exists k. split; [lia|done].
    - exfalso. assert (incl (map (fun k => candidate (Z.of_nat k)) (seq 0 (S (length rows)))) names) as Hincl.
      { intros c (k & <- & Hk)%in_map_iff.
        destruct (in_dec String.string_dec (candidate (Z.of_nat k)) names) as [|Hn]; [done|].
        exfalso. apply Hno, List.Exists_exists. by exists k. }
      apply NoDup_incl_length in Hincl.
      + rewrite !length_map, length_seq in Hincl. unfold names in Hincl. rewrite length_map in Hincl. lia.
      + apply Injective_map_NoDup; [|apply seq_NoDup].
        intros i j Hij. apply Hinj in Hij; lia. }
  exists (Z.of_nat k). split; [lia|done].
Qed.

Lemma str_app_length (s t : string) : String.length (s +:+ t) = (String.length s + String.length t)%nat.
Proof. induction s as [|c s IH]; [done|]. change (S (String.length (s +:+ t)) = S (String.length s + String.length t)). by rewrite IH. Qed.
Lemma str_app_inv_tail (s s' t : string) : s +:+ t = s' +:+ t -> s = s'.
Proof.
  revert s'. induction s as [|c s IH]; intros [|c' s'] H; [done|..].
  - apply (f_equal String.length) in H. rewrite !str_app_length in H. cbn in H. lia.
  - apply (f_equal String.length) in H. rewrite !str_app_length in H. cbn in H. lia.
  - injection H as -> H. f_equal. by apply IH.
Qed.
Lemma pretty_nonempty (n : Z) : (0 < String.length (pretty n))%nat.
Proof.
  destruct (pretty n) as [|c s] eqn:E; [|cbn; lia]. pose proof (py_int_pretty n) as H. by rewrite E in H.
Qed.
Lemma numbered_inj base tail i j : numbered base tail i = numbered base tail j -> i = j.
Proof.
  unfold numbered. destruct (Z.eqb_spec i 0) as [->|Hi], (Z.eqb_spec j 0) as [->|Hj]; intros H.
  - done.
  - apply (f_equal String.length) in H. rewrite !str_app_length in H. pose proof (pretty_nonempty j). lia.
  - apply (f_equal String.length) in H. rewrite !str_app_length in H. pose proof (pretty_nonempty i). lia.
  - apply (inj (String.append base)), str_app_inv_tail in H. by apply (inj pretty).
Qed.
(** The names an account of a billing identity is given are free: the searches
    end. *)
Lemma unique_username_free base d : user_by_username (unique_username base d) d = None.
Proof.
  unfold unique_username. set (taken := fun s => is_some (user_by_username s d)).
  assert (taken (first_free (S (length (db_users d))) taken (numbered (username_base base) "") 0) = false) as H.
  { apply first_free_spec. destruct (candidate_free us_username (db_users d)
      (numbered (username_base base) "")) as (k & Hk & Hfree); [by intros i j _ _ ?%numbered_inj|].
    exists k. split; [done|]. unfold taken, user_by_username. destruct (List.find _ _) as [u|] eqn:E; [|done].
    apply List.find_some in E as [Hu Heq]. exfalso. apply Hfree.
    apply (proj1 (py_eq_true _ _)) in Heq. rewrite <- Heq. by apply in_map. }
  unfold taken in H. by destruct (user_by_username _ d).
Qed.
Lemma unique_email_free base fallback d : user_by_email (unique_email base fallback d) d = None.
Proof.
  unfold unique_email. set (taken := fun s => is_some (user_by_email s d)).
  destruct (str_true base && _) eqn:Hb.
  { apply andb_true_iff in Hb as [_ Hb]. by destruct (user_by_email (str_or base "") d). }
  assert (taken (first_free (S (length (db_users d))) taken
    (numbered fallback "@clients.rackflow.local") 0) = false) as H.
  { apply first_free_spec. destruct (candidate_free us_email (db_users d)
      (numbered fallback "@clients.rackflow.local")) as (k & Hk & Hfree); [by intros i j _ _ ?%numbered_inj|].
    exists k. split; [done|]. unfold taken, user_by_email. destruct (List.find _ _) as [u|] eqn:E; [|done].
    apply List.find_some in E as [Hu Heq]. exfalso. apply Hfree.
    apply (proj1 (py_eq_true _ _)) in Heq. rewrite <- Heq. by apply in_map. }
  clear Hb. unfold taken in H. by destruct (user_by_email (first_free _ _ _ _) d).
Qed.

(** * A concrete server *)

Definition sample_auth_lib : AuthLib := {|
  token_urlsafe n := "t" +:+ pretty (N.of_nat n);
  token_hex n := pretty (N.of_nat n);
  random_base32 n := "SEED" +:+ pretty (N.of_nat n);
  sha256_hex s := "#" +:+ s;
  bcrypt_hashpw _ p := "$" +:+ p;
  bcrypt_checkpw p h := Some (bool_decide (h = "$" +:+ p));
  totp_at _ t := Some (pretty t);
  fernet_encrypt _ _ s := Some ("gAAAA" +:+ s);
  fernet_decrypt _ s := if str_startswith "gAAAA" s then Some (str_drop 5 s) else None;
  http_bearer h := match h with
                   | Some s => if str_startswith "Bearer " s then Some (str_drop 7 s) else None
                   | None => None
                   end
|}.
#[export] Instance sample_auth_laws : AuthLaws sample_auth_lib.
Proof.
  split; cbn.
  - intros m n Heq. apply (inj (String.append "t")), (inj pretty) in Heq. lia.
  - intros s t Heq. by apply (inj (String.append "#")) in Heq.
  - intros n. apply strip_nospace. cbn. apply pretty_N_nospace.
  - done.
  - intros n p q _ _. f_equal. apply bool_decide_ext. split; [intros Heq; by injection Heq|by intros ->].
Qed.
Definition sample_settings : auth_settings :=
  mk_auth_settings false 864000 20 300 8 300 900 90 (Some "https://shop.example.com") None
    (Some "key") true "open" "USD".
(** The staff account [root], the client [alice], and the client [bob] with a
    second factor. *)
Definition sample_accounts : db :=
  empty_db
    <|db_users := [(sample_user 1 "root" "root@example.com") <|us_is_admin := true|>
                     <|us_is_reseller := false|> <|us_password := Some "$correct horse"|>;
                   (sample_user 2 "alice" "alice@example.com") <|us_is_reseller := false|>
                     <|us_password := Some "$battery staple"|>;
                   (sample_user 3 "bob" "bob@example.com") <|us_is_reseller := false|>
                     <|us_password := Some "$open sesame"|>]|>
    <|db_totp := [mk_totp_secret 3 "SEED" true ["#1234abcd"] None (Some 0)]|>.
Definition sample_web : web := mk_web (session_of sample_accounts unix_epoch) empty true 0.
(** A request that shows a session cookie. *)
Definition from_browser (cookie : option string) : http_request :=
  mk_http_request (Some "10.0.0.7") None None cookie "/api/users/me".
Definition at_minute (n : Z) (r : web_request) : served :=
  mk_served (unix_epoch + seconds (60 * n)) true r.
