(* ===== verification/Footprints.v ===== *)
(** What account requests do to the Redis server: every request is a sequence
    of a few kinds of steps ([redis_step]), so that a property of the server's
    state is proved once per kind of step. *)
From Stdlib Require Import ZArith Lia Ascii.
From stdpp Require Import base numbers list strings pretty gmap relations.
From S2P Require Import Prelude Calendar Models Session Outbox Mail Redis Auth TwoFactor Accounts Portal.
#[local] Open Scope Z_scope.
#[local] Open Scope py_scope.

(** * Steps *)

(** What a request may do: the rate-limit counters it may touch, the second
    steps of a login it may open or close, and the sessions it may open. *)
Record allowance : Type := mk_allowance {
  al_counter : string -> Prop;
  al_pending : string -> Prop;
  al_challenge : nat -> user -> Prop;
  al_mint : nat -> user -> Z -> list (string * string) -> Prop
}.
Definition same_but (k : string) (r r' : redis) : Prop := forall k', k' <> k -> r' !! k' = r !! k'.

(** Fields of a session that say nothing about whose it is. *)
Definition benign (kv : string * string) : Prop :=
  kv.1 = "last_seen_ip" \/ kv.1 = "last_seen_at" \/ kv.1 = "restricted".
Definition session_extra (kv : string * string) : Prop :=
  kv.1 = "restricted" \/ kv.1 = "impersonated_by".

(** The store after a session was opened; it is listed with its owner's others. *)
Definition opened (now : Z) (token_id : string) (ttl : Z) (h : gmap string string) (r : redis)
  : redis :=
  <[tok_key token_id := mk_redis_entry (RedisHash h) (Some (now + seconds ttl))]> r.
Definition minted (now : Z) (token_id : string) (u : user) (ttl : Z)
    (h : gmap string string) (z : gmap string Z) (r : redis) : redis :=
  <[user_toks_key u.(us_id) := mk_redis_entry (RedisZset (<[token_id := now]> z))
                                 (Some (now + seconds ttl))]> (opened now token_id ttl h r).

(** The store after the second step of a login was opened. *)
Definition challenged (now : Z) (digest : string) (u : user) (r : redis) : redis :=
  <[pending_key digest := mk_redis_entry (RedisString (pretty u.(us_id)))
                            (Some (now + seconds PENDING_2FA_TTL_SECONDS))]> r.

Section Footprints.
Context {L : AuthLib} (A : allowance) (now : Z).

(** [k1] random values have been drawn. *)
Inductive redis_step (k1 : nat) : redis -> redis -> Prop :=
| step_counter k r r' :
    al_counter A k -> same_but (RATE_LIMIT_KEY_PREFIX +:+ k) r r' -> redis_step k1 r r'
| step_pending d r : al_pending A d -> redis_step k1 r (delete (pending_key d) r)
| step_challenge n u r :
    al_challenge A n u -> (n < k1)%nat ->
    redis_step k1 r (challenged now (pending_2fa_digest (token_urlsafe n)) u r)
| step_ticket t r r' : same_but (ticket_key t) r r' -> redis_step k1 r r'
| step_forget token_id r : redis_step k1 r (delete (tok_key token_id) r)
| step_unlist u token_id r r' z e :
    hash_at now r (tok_key token_id) = Some empty ->
    redis_entry_at now r (user_toks_key u) = Some e -> e.(re_value) = RedisZset z ->
    r' = (if decide (delete token_id z = empty) then delete (user_toks_key u) r
          else <[user_toks_key u :=
                 mk_redis_entry (RedisZset (delete token_id z)) e.(re_expires_at)]> r) ->
    redis_step k1 r r'
| step_no_list u r : redis_entry_at now r (user_toks_key u) = None ->
    redis_step k1 r (delete (user_toks_key u) r)
| step_touch token_id h e mapping r :
    redis_entry_at now r (tok_key token_id) = Some e -> e.(re_value) = RedisHash h ->
    Forall benign mapping ->
    redis_step k1 r (<[tok_key token_id :=
      mk_redis_entry (RedisHash (hash_update h mapping)) e.(re_expires_at)]> r)
| step_mint n u ttl ip extra h z r :
    al_mint A n u ttl extra -> (n < k1)%nat -> Forall session_extra extra -> 1 <= ttl ->
    hash_at now r (tok_key (derive_token_id (token_urlsafe n))) = Some h ->
    zset_at now r (user_toks_key u.(us_id)) = Some z ->
    redis_step k1 r (minted now (derive_token_id (token_urlsafe n)) u ttl
      (hash_update h (session_mapping u ip now ++ extra)) z r)
| step_open n u ttl ip extra h r :
    al_mint A n u ttl extra -> (n < k1)%nat -> Forall session_extra extra -> 1 <= ttl ->
    hash_at now r (tok_key (derive_token_id (token_urlsafe n))) = Some h ->
    zset_at now r (user_toks_key u.(us_id)) = None ->
    redis_step k1 r (opened now (derive_token_id (token_urlsafe n)) ttl
      (hash_update h (session_mapping u ip now ++ extra)) r).

(** The request is at its start, or a number of steps further. *)
Definition reach (r0 : redis) (k0 : nat) (w : web) : Prop :=
  w.(w_sess).(s_now) = now /\ rtc (redis_step w.(w_drawn)) r0 w.(w_redis) /\ (k0 <= w.(w_drawn))%nat.

(** ** What leaves the store alone *)

Lemma redis_step_drawn k k' r r' : (k <= k')%nat -> redis_step k r r' -> redis_step k' r r'.
Proof.
  intros Hk Hs. destruct Hs.
  - by eapply step_counter.
  - by eapply step_pending.
  - eapply step_challenge; [done|lia].
  - by eapply step_ticket.
  - by eapply step_forget.
  - by eapply step_unlist.
  - by eapply step_no_list.
  - by eapply step_touch.
  - eapply step_mint; [done|lia|done..].
  - eapply step_open; [done|lia|done..].
Qed.
Lemma steps_drawn k k' r r' :
  (k <= k')%nat -> rtc (redis_step k) r r' -> rtc (redis_step k') r r'.
Proof. intros Hk Hr. induction Hr; [done|]. eapply rtc_l; [|done]. by eapply redis_step_drawn. Qed.
Lemma keeps_reach_cmd {B} (f : Z -> redis -> outcome exn (B * redis)) r0 k0 :
  (forall k1 r a r', f now r = Ok (a, r') -> r' = r \/ redis_step k1 r r') ->
  keeps (reach r0 k0) (redis_cmd f).
Proof.
  intros Hf w (Hn & Hr & Hk). apply wp_redis_cmd; [done|done|].
  intros a r _ Hok. rewrite Hn in Hok. split; [done|]. split; [|done].
  destruct (Hf w.(w_drawn) _ _ _ Hok) as [->|Hs]; [done|]. by eapply rtc_r.
Qed.
Lemma keeps_reach_draw r0 k0 : keeps (reach r0 k0) draw.
Proof.
  intros w (Hn & Hr & Hk). split; [done|]. cbn. split; [|lia]. by eapply steps_drawn; [|exact Hr]; lia.
Qed.
End Footprints.

(** The clock stands still in a database session. *)
Definition now_is (n : Z) (s : session) : Prop := s.(s_now) = n.
Lemma keeps_now_write n f : keeps (now_is n) (write f).
Proof. by intros s Hs. Qed.
Lemma keeps_now_nested {B} n (m : Meth B) : keeps (now_is n) m -> keeps (now_is n) (begin_nested m).
Proof. by apply keeps_nested. Qed.
Lemma keeps_now_commit n : keeps (now_is n) commit.
Proof. unfold commit. apply keeps_bind; [apply keeps_flush|]. intros _. by apply keeps_modify. Qed.
#[export] Hint Resolve keeps_now_write keeps_now_nested keeps_now_commit : dcim.
#[export] Hint Extern 1 (keeps (now_is _) (upd_user _ _)) => apply keeps_now_write : dcim.
#[export] Hint Extern 1 (keeps (now_is _) (upd_totp _ _)) => apply keeps_now_write : dcim.
#[export] Hint Extern 1 (keeps (now_is _) (upd_reseller _ _)) => apply keeps_now_write : dcim.

Lemma keeps_now_touch_integration n id ip : keeps (now_is n) (touch_integration id ip).
Proof. unfold touch_integration. keeps_tac. Qed.
Lemma keeps_scalar_one {R} (I : session -> Prop) (rows : list R) : keeps I (scalar_one rows).
Proof. unfold scalar_one. keeps_tac. Qed.
#[export] Hint Resolve keeps_scalar_one : dcim.
Lemma keeps_now_enqueue_mail n a : keeps (now_is n) (enqueue_mail a).
Proof. unfold enqueue_mail. keeps_tac. Qed.
Lemma keeps_now_ensure_client n u c : keeps (now_is n) (ensure_client_account u c).
Proof. unfold ensure_client_account. keeps_tac. Qed.
#[export] Hint Resolve keeps_now_touch_integration keeps_now_enqueue_mail keeps_now_ensure_client : dcim.

(** * Footprints of the commands *)

Section Commands.
Context {L : AuthLib} (A : allowance) (now : Z) (r0 : redis) (k0 : nat).
Abbreviation footprint m := (keeps (reach A now r0 k0) m).

Lemma keeps_reach_db {B} (m : Meth B) :
  (forall n, keeps (now_is n) m) -> footprint (in_db m).
Proof.
  intros Hm w (Hn & Hr & Hk). apply wp_in_db.
  eapply wp_conseq; [apply (Hm now); exact Hn|..]; intros ? s' Hs'; by split.
Qed.

Lemma same_but_insert k e r : same_but k r (<[k := e]> r).
Proof. intros k' Hne. by rewrite lookup_insert_ne. Qed.
Lemma same_but_delete k r : same_but k r (delete k r).
Proof. intros k' Hne. by rewrite lookup_delete_ne. Qed.

(** Commands on a key of its own. *)
Lemma counter_incr k : al_counter A k -> footprint (redis_incr (RATE_LIMIT_KEY_PREFIX +:+ k)).
Proof.
  intros Hk. apply keeps_reach_cmd. intros k1 r a r' Hok. right. eapply step_counter; [done|].
  repeat case_match; simplify_eq; apply same_but_insert.
Qed.
Lemma counter_expire k t : al_counter A k -> footprint (redis_expire (RATE_LIMIT_KEY_PREFIX +:+ k) t).
Proof.
  intros Hk. apply keeps_reach_cmd. intros k1 r a r' Hok. repeat case_match; simplify_eq; [right..|by left];
    (eapply step_counter; [done|]); [apply same_but_delete|apply same_but_insert].
Qed.
Lemma counter_delete k : al_counter A k -> footprint (redis_delete (RATE_LIMIT_KEY_PREFIX +:+ k)).
Proof.
  intros Hk. apply keeps_reach_cmd. intros k1 r a r' [= <- <-]. right.
  eapply step_counter; [done|apply same_but_delete].
Qed.
Lemma pending_delete d : al_pending A d -> footprint (redis_delete (pending_key d)).
Proof.
  intros Hd. apply keeps_reach_cmd. intros k1 r a r' [= <- <-]. right.
  by apply step_pending.
Qed.
Lemma ticket_hset t m : footprint (redis_hset (ticket_key t) m).
Proof.
  apply keeps_reach_cmd. intros k1 r a r' Hok. case_match; simplify_eq. right.
  eapply step_ticket, same_but_insert.
Qed.
Lemma ticket_hsetnx t f v : footprint (redis_hsetnx (ticket_key t) f v).
Proof.
  apply keeps_reach_cmd. intros k1 r a r' Hok. repeat case_match; simplify_eq; [by left|right].
  eapply step_ticket, same_but_insert.
Qed.
Lemma ticket_expire t n : footprint (redis_expire (ticket_key t) n).
Proof.
  apply keeps_reach_cmd. intros k1 r a r' Hok. repeat case_match; simplify_eq; [right..|by left];
    (eapply step_ticket); [apply same_but_delete|apply same_but_insert].
Qed.
Lemma ticket_delete t : footprint (redis_delete (ticket_key t)).
Proof.
  apply keeps_reach_cmd. intros k1 r a r' [= <- <-]. right. eapply step_ticket, same_but_delete.
Qed.
Lemma session_delete id : footprint (redis_delete (tok_key id)).
Proof. apply keeps_reach_cmd. intros k1 r a r' [= <- <-]. right. apply step_forget. Qed.

(** Commands that only read. *)
Lemma reads_get k : footprint (redis_get k).
Proof. apply keeps_reach_cmd. intros k1 r a r' Hok. left. repeat case_match; by simplify_eq. Qed.
Lemma reads_exists k : footprint (redis_exists k).
Proof. apply keeps_reach_cmd. intros k1 r a r' [= <- <-]. by left. Qed.
Lemma reads_hget k f : footprint (redis_hget k f).
Proof. apply keeps_reach_cmd. intros k1 r a r' Hok. left. case_match; by simplify_eq. Qed.
Lemma reads_hgetall k : footprint (redis_hgetall k).
Proof. apply keeps_reach_cmd. intros k1 r a r' Hok. left. case_match; by simplify_eq. Qed.
Lemma reads_zrevrange k : footprint (redis_zrevrange k).
Proof. apply keeps_reach_cmd. intros k1 r a r' Hok. left. case_match; by simplify_eq. Qed.
Lemma footprint_query {B} (f : db -> B) : footprint (query f).
Proof. apply keeps_gets. Qed.
Lemma footprint_now : footprint web_now.
Proof. apply keeps_gets. Qed.
Lemma footprint_draw : footprint draw.
Proof. apply keeps_reach_draw. Qed.
Lemma footprint_http_error {B} n : footprint (http_error n : Web B).
Proof. apply keeps_raise. Qed.
Lemma footprint_commit : footprint audit_commit.
Proof. apply keeps_reach_db. intros n. auto with dcim. Qed.

Lemma enforce_footprint k m s : al_counter A k -> footprint (enforce_rate_limit k m s).
Proof.
  intros Hk. unfold enforce_rate_limit. apply keeps_bind.
  - apply keeps_try; [|intros; apply keeps_ret]. apply keeps_bind; [by apply counter_incr|].
    intros n. apply keeps_bind; [|intros; apply keeps_ret].
    case_match; [by apply counter_expire|apply keeps_ret].
  - intros [n|]; auto with dcim.
Qed.
Lemma reset_footprint k : al_counter A k -> footprint (reset_rate_limit k).
Proof.
  intros Hk. apply keeps_try; [by apply counter_delete|]. intros; apply keeps_ret.
Qed.

(** A session that is there is touched; one that is gone is unlisted. *)
Lemma touch_session id m (h : gmap string string) w (Q : unit -> web -> Prop) (R : exn -> web -> Prop) e :
  Forall benign m -> reach A now r0 k0 w ->
  redis_entry_at now w.(w_redis) (tok_key id) = Some e -> e.(re_value) = RedisHash h ->
  (forall w', reach A now r0 k0 w' -> Q tt w') -> (forall e' w', reach A now r0 k0 w' -> R e' w') ->
  wp (redis_hset (tok_key id) m) Q R w.
Proof.
  intros Hm Hw He Hh HQ HR. unfold redis_hset, with_hash. apply wp_redis_cmd; [by apply HR|by intros; apply HR|].
  destruct Hw as (Hn & Hr & Hk). rewrite Hn. unfold hash_at, redis_put. rewrite He, Hh.
  intros a r _ [= <- <-]. apply HQ. split; [done|]. split; [|done].
  eapply rtc_r; [done|]. by eapply step_touch.
Qed.
Lemma unlist_session u id w (Q : unit -> web -> Prop) (R : exn -> web -> Prop) :
  reach A now r0 k0 w -> hash_at now w.(w_redis) (tok_key id) = Some empty ->
  (forall w', reach A now r0 k0 w' ->
     (forall id', hash_at now w'.(w_redis) (tok_key id') = hash_at now w.(w_redis) (tok_key id')) ->
     Q tt w') ->
  (forall e' w', reach A now r0 k0 w' -> R e' w') ->
  wp (redis_zrem (user_toks_key u) id) Q R w.
Proof.
  intros Hw Hid HQ HR. unfold redis_zrem, with_zset. apply wp_redis_cmd; [by apply HR|by intros; apply HR|].
  destruct Hw as (Hn & Hr & Hk). rewrite Hn. unfold zset_at, redis_put.
  destruct (redis_entry_at now (w_redis w) (user_toks_key u)) as [[v x]|] eqn:E.
  - cbn. destruct v as [| |z]; [done|done|].
    intros a r _ Hok.
    assert (r = if decide (delete id z = empty) then delete (user_toks_key u) (w_redis w)
                else <[user_toks_key u := mk_redis_entry (RedisZset (delete id z)) x]> (w_redis w)) as Hr'.
    { cbn in Hok. destruct (decide (delete id z = empty)); congruence. }
    destruct a. apply HQ; cbn.
    + split; [done|]. split; [|done]. eapply rtc_r; [done|]. by eapply step_unlist.
    + intros id'. rewrite Hr'. unfold hash_at.
      by case_decide; [rewrite entry_at_delete_ne|rewrite entry_at_insert_ne].
  - intros a r _ Hok. rewrite delete_empty in Hok. destruct (decide _) as [_|[]]; [|done].
    simplify_eq. apply HQ; cbn.
    + split; [done|]. split; [|done]. eapply rtc_r; [done|]. by apply step_no_list.
    + intros id'. unfold hash_at. by rewrite entry_at_delete_ne.
Qed.
End Commands.

(** * Footprints of the methods *)

Section Methods.
Context {L : AuthLib} (cfg : auth_settings) (A : allowance) (now : Z) (r0 : redis) (k0 : nat).
Abbreviation footprint m := (keeps (reach A now r0 k0) m).
(** Every counter may be touched but those of second steps. *)
Context (Hcounter : forall k, (forall d, k <> challenge_limit d) -> al_counter A k).

Lemma forget_session id w (Q : unit -> web -> Prop) (R : exn -> web -> Prop) :
  reach A now r0 k0 w ->
  (forall w', reach A now r0 k0 w' -> hash_at now w'.(w_redis) (tok_key id) = Some empty -> Q tt w') ->
  (forall e w', reach A now r0 k0 w' -> R e w') ->
  wp (redis_delete (tok_key id)) Q R w.
Proof.
  intros Hw HQ HR. apply wp_redis_cmd; [by apply HR|by intros; apply HR|].
  intros a r _ [= <- <-]. destruct Hw as (Hn & Hr & Hk). apply HQ.
  - split; [done|]. split; [|done]. eapply rtc_r; [done|]. apply step_forget.
  - unfold hash_at. cbn. by rewrite entry_at_delete.
Qed.
Lemma forget_and_unlist {B} id u (k : unit -> Web B) :
  (forall a, footprint (k a)) ->
  footprint (redis_delete (tok_key id) ;;; bind (redis_zrem (user_toks_key u) id) k).
Proof.
  intros Hk w Hw. apply wp_bind, forget_session; [done| |done]. intros w' Hw' Hid.
  apply wp_bind, unlist_session with A now r0 k0; [done|done| |done].
  intros w2 Hw2 _. by apply Hk.
Qed.
Lemma forget_and_unlist_last id u :
  footprint (redis_delete (tok_key id) ;;; redis_zrem (user_toks_key u) id).
Proof.
  intros w Hw. apply wp_bind, forget_session; [done| |done]. intros w' Hw' Hid.
  by apply unlist_session with A now r0 k0.
Qed.

Lemma revoke_footprint u x : footprint (revoke_all_sessions u x).
Proof.
  unfold revoke_all_sessions. apply keeps_bind; [apply reads_zrevrange|]. intros ids.
  apply keeps_fold_each. intros id n. case_match; [apply keeps_ret|].
  apply forget_and_unlist. intros; apply keeps_ret.
Qed.

(** Reading whether a session is there, and then touching it. *)
Lemma wp_exists k w (Q : bool -> web -> Prop) (R : exn -> web -> Prop) :
  reach A now r0 k0 w -> (forall e, R e w) ->
  (forall e, redis_entry_at now w.(w_redis) k = Some e -> Q true w) ->
  (redis_entry_at now w.(w_redis) k = None -> Q false w) ->
  wp (redis_exists k) Q R w.
Proof.
  intros (Hn & _) HR Ht Hf. apply wp_redis_cmd; [done|done|]. intros a r _ [= <- <-].
  rewrite Hn. destruct w. cbn in *. destruct (redis_entry_at now _ k) eqn:E; eauto.
Qed.
Lemma wp_hash {B} k (f : Z -> redis -> gmap string string -> B * redis) w
    (Q : B -> web -> Prop) (R : exn -> web -> Prop) :
  reach A now r0 k0 w -> (forall e, R e w) ->
  (forall n r h, snd (f n r h) = r) ->
  (forall h, hash_at now w.(w_redis) k = Some h -> Q (fst (f now w.(w_redis) h)) w) ->
  wp (with_hash k f) Q R w.
Proof.
  intros (Hn & _) HR Hf HQ. apply wp_redis_cmd; [done|done|]. intros a r _.
  rewrite Hn. destruct (hash_at _ _ k) as [h|] eqn:E; [|done]. intros [= Hok].
  specialize (HQ h eq_refl). specialize (Hf now (w_redis w) h). rewrite Hok in HQ, Hf.
  cbn in *. subst r. by destruct w.
Qed.
Lemma hset_footprint id m w (Q : unit -> web -> Prop) (R : exn -> web -> Prop) e :
  Forall benign m -> reach A now r0 k0 w ->
  redis_entry_at now w.(w_redis) (tok_key id) = Some e ->
  (forall w', reach A now r0 k0 w' -> Q tt w') -> (forall e' w', reach A now r0 k0 w' -> R e' w') ->
  wp (redis_hset (tok_key id) m) Q R w.
Proof.
  intros Hm Hw He HQ HR. destruct (re_value e) as [|h|] eqn:Ev; [|by eapply touch_session|];
    (apply wp_redis_cmd; [by apply HR|by intros; apply HR|]);
    destruct Hw as [Hn _]; rewrite Hn; unfold hash_at; by rewrite He, Ev.
Qed.

Lemma benign_restricted v : Forall benign [("restricted", v)].
Proof. apply Forall_singleton. by right; right. Qed.
Lemma restrict_footprint u : footprint (restrict_sessions_for_2fa_enrollment u).
Proof.
  unfold restrict_sessions_for_2fa_enrollment. apply keeps_bind; [apply reads_zrevrange|].
  intros ids. apply keeps_fold_each. intros id n w Hw. apply wp_bind, wp_exists; [done|done| |done].
  intros e He. apply wp_bind. eapply hset_footprint; [apply benign_restricted|done|done|done|done].
Qed.
Lemma lift_footprint u : footprint (lift_session_restrictions u).
Proof.
  unfold lift_session_restrictions. apply keeps_bind; [apply reads_zrevrange|].
  intros ids. apply keeps_fold_each. intros id n w Hw. apply wp_bind, wp_exists; [done|done| |done].
  intros e He. apply wp_bind, wp_hash; [done|done|done|]. intros h Hh.
  case_match; [|done]. apply wp_bind.
  eapply hset_footprint; [apply benign_restricted|done|done|done|done].
Qed.

Lemma user_from_token_footprint t ip : footprint (get_user_from_token t ip).
Proof.
  intros w Hw. apply wp_bind, wp_hash; [done|done|done|]. intros h Hh. cbn [fst].
  case_decide as Hempty; [done|]. apply wp_bind, wp_unwrap; [done|]. intros n _.
  case_match; [|done]. apply wp_bind, wp_gets, wp_bind.
  unfold hash_at in Hh. destruct (redis_entry_at now _ _) as [e|] eqn:He; [|congruence].
  eapply hset_footprint; [|done|done|done|done].
  apply Forall_cons. split; [by left|]. apply Forall_singleton. by right; left.
Qed.
End Methods.

Create HintDb footprints.
#[export] Hint Resolve keeps_ret keeps_raise keeps_throw_if keeps_unwrap
  keeps_scalar_one_or_none footprint_query footprint_now footprint_draw footprint_http_error
  footprint_commit ticket_hset ticket_hsetnx ticket_expire ticket_delete reads_get reads_exists
  reads_hget reads_hgetall reads_zrevrange revoke_footprint restrict_footprint lift_footprint
  user_from_token_footprint forget_and_unlist_last session_delete : footprints.
#[export] Hint Extern 2 (keeps (reach _ _ _ _) (in_db _)) =>
  apply keeps_reach_db; intros ?; solve [keeps_tac] : footprints.
(** Counters of other names. *)
#[export] Hint Extern 1 (keeps (reach _ _ _ _) (enforce_rate_limit _ _ _)) =>
  apply enforce_footprint; match goal with H : _ |- _ => apply H; intros ?; discriminate end : footprints.
#[export] Hint Extern 1 (keeps (reach _ _ _ _) (reset_rate_limit _)) =>
  apply reset_footprint; match goal with H : _ |- _ => apply H; intros ?; discriminate end : footprints.
Ltac foot_step :=
  lazymatch goal with
  | |- keeps _ (bind (redis_delete (tok_key _)) (fun _ => bind (redis_zrem _ _) _)) =>
      apply forget_and_unlist; intros ?
  | |- keeps _ (bind (redis_delete (tok_key _)) (fun _ => redis_zrem _ _)) =>
      apply forget_and_unlist_last
  | |- keeps _ (bind _ _) => apply keeps_bind; [|intros ?]
  | |- keeps _ (try_catch _ _) => apply keeps_try; [|intros ?]
  | |- keeps _ (fold_each _ _ _) => apply keeps_fold_each; intros ? ?
  | |- keeps _ (match _ with _ => _ end) => case_match
  | |- keeps _ _ => solve [eauto with footprints]
  end; cbv beta zeta.
Ltac foot_tac := repeat foot_step.

Section Handlers.
Context {L : AuthLib} (cfg : auth_settings) (A : allowance) (now : Z) (r0 : redis) (k0 : nat).
Abbreviation footprint m := (keeps (reach A now r0 k0) m).
Context (Hcounter : forall k, (forall d, k <> challenge_limit d) -> al_counter A k).

Lemma current_user_footprint rq : footprint (get_current_user cfg rq).
Proof. unfold get_current_user. foot_tac. Qed.
#[local] Hint Resolve current_user_footprint : footprints.
Lemma require_admin_footprint rq : footprint (require_admin cfg rq).
Proof. unfold require_admin. foot_tac. Qed.
Lemma hash_password_footprint p : footprint (hash_password p).
Proof. unfold hash_password. foot_tac. Qed.
#[local] Hint Resolve require_admin_footprint hash_password_footprint : footprints.
Lemma set_password_footprint u p : footprint (set_password u p).
Proof. unfold set_password. foot_tac. Qed.
#[local] Hint Resolve set_password_footprint : footprints.
Lemma create_user_footprint a : footprint (create_user a).
Proof. unfold create_user. foot_tac. Qed.
Lemma delete_user_footprint u : footprint (delete_user u).
Proof. unfold delete_user. foot_tac. Qed.
Lemma impersonated_by_footprint t : footprint (impersonated_by_from_token t).
Proof. unfold impersonated_by_from_token. foot_tac. Qed.
#[local] Hint Resolve create_user_footprint delete_user_footprint impersonated_by_footprint : footprints.

(** ** Second factors *)

Lemma draw_codes_footprint n : footprint (draw_codes n).
Proof. induction n as [|n IH]; cbn [draw_codes]; foot_tac. Qed.
#[local] Hint Resolve draw_codes_footprint : footprints.
Lemma match_step_footprint secret code last l : footprint (match_step secret code last l).
Proof. induction l as [|s l IH]; cbn [match_step]; foot_tac. Qed.
#[local] Hint Resolve match_step_footprint : footprints.
Lemma decrypt_footprint row : footprint (decrypt_secret cfg row).
Proof. unfold decrypt_secret. foot_tac. Qed.
#[local] Hint Resolve decrypt_footprint : footprints.
Lemma verify_footprint u code : footprint (verify_second_factor cfg u code).
Proof. unfold verify_second_factor, match_totp_step. foot_tac. Qed.
Lemma encrypt_footprint p : footprint (encrypt_api_key cfg p).
Proof. unfold encrypt_api_key. foot_tac. Qed.
Lemma enabled_row_footprint u : footprint (enabled_row u).
Proof. unfold enabled_row. foot_tac. Qed.
#[local] Hint Resolve verify_footprint encrypt_footprint enabled_row_footprint : footprints.
Lemma begin_enrollment_footprint u : footprint (begin_enrollment cfg u).
Proof. unfold begin_enrollment, require_encryption. foot_tac. Qed.
Lemma confirm_enrollment_footprint u c : footprint (confirm_enrollment cfg u c).
Proof. unfold confirm_enrollment, match_totp_step, generate_recovery_codes. foot_tac. Qed.
Lemma own_account_footprint rq : footprint (own_account cfg rq).
Proof. unfold own_account, require_own_password_session. foot_tac. Qed.
#[local] Hint Resolve begin_enrollment_footprint confirm_enrollment_footprint
  own_account_footprint : footprints.

(** ** Endpoints that open no session *)

Lemma logout_footprint rq : footprint (logout cfg rq).
Proof.
  unfold logout. apply keeps_bind; [by apply current_user_footprint|]. intros a.
  case_match; [|apply keeps_ret]. case_match; [apply keeps_ret|].
  destruct (auth_user_id a); cbv beta iota zeta; foot_tac.
Qed.
Lemma change_password_footprint p q rq : footprint (change_password cfg p q rq).
Proof. unfold change_password, value_error_is_400. foot_tac. Qed.

(** Listing the sessions forgets those that are gone. *)
Lemma sessions_footprint rq : footprint (get_user_sessions cfg rq).
Proof.
  unfold get_user_sessions. apply keeps_bind; [by apply current_user_footprint|]. intros a.
  apply keeps_bind; [apply keeps_unwrap|]. intros u. cbv zeta.
  apply keeps_bind; [apply reads_zrevrange|]. intros ids w Hw. apply wp_bind.
  set (seen := fun (acc : list (string * gmap string string)) (w : web) =>
    reach A now r0 k0 w /\ forall id h, In (id, h) acc -> hash_at now w.(w_redis) (tok_key id) = Some h).
  apply wp_conseq with (Q := seen) (R := fun _ => reach A now r0 k0); [| |done].
  - apply wp_fold_each; [done|]. intros id acc w1 _ [Hw1 Hacc]. apply wp_bind; eapply wp_hash; [done|done|done|].
    intros h Hh. split; [done|]. intros id' h' [Hin|[[= <- <-]|[]]]%in_app_or; [by apply Hacc|done].
  - intros data w1 [Hw1 Hdata].
    apply wp_conseq with (Q := fun _ => seen data) (R := fun _ => reach A now r0 k0);
      [|by intros ? ? [? _]|done].
    apply wp_fold_each; [done|]. intros [id h] acc w2 Hin%list_elem_of_In [Hw2 Hd2].
    case_decide as Hh; [subst h|done]. apply wp_bind, unlist_session with A now r0 k0;
      [done|by apply Hd2| |done].
    intros w3 Hw3 Hsame. split; [done|]. intros id' h' Hin'. rewrite Hsame. by apply Hd2.
Qed.
Lemma delete_session_footprint id rq : footprint (delete_session cfg id rq).
Proof. unfold delete_session. foot_tac. Qed.
Lemma reset_request_footprint e ip : footprint (request_password_reset cfg e ip).
Proof. unfold request_password_reset. foot_tac. Qed.
Lemma reset_confirm_footprint t p : footprint (confirm_password_reset t p).
Proof. unfold confirm_password_reset, value_error_is_400. foot_tac. Qed.
Lemma ensure_user_footprint i : footprint (ensure_user_for_billing_identity i).
Proof. unfold ensure_user_for_billing_identity. foot_tac. Qed.
Lemma client_account_footprint u : footprint (client_account u).
Proof. unfold client_account. foot_tac. Qed.
Lemma admin_account_footprint u : footprint (admin_account u).
Proof. unfold admin_account. foot_tac. Qed.
Lemma free_names_footprint u e : footprint (require_free_names u e).
Proof. unfold require_free_names. foot_tac. Qed.
Lemma confirm_actor_footprint a p : footprint (confirm_actor a p).
Proof. unfold confirm_actor. foot_tac. Qed.
Lemma set_require_2fa_footprint u b : footprint (set_require_2fa u b).
Proof. unfold set_require_2fa. foot_tac. Qed.
#[local] Hint Resolve reset_request_footprint reset_confirm_footprint ensure_user_footprint
  client_account_footprint admin_account_footprint free_names_footprint confirm_actor_footprint
  set_require_2fa_footprint logout_footprint change_password_footprint sessions_footprint
  delete_session_footprint : footprints.

Lemma client_session_footprint rq : footprint (require_client_session cfg rq).
Proof. unfold require_client_session, require_commerce_enabled. foot_tac. Qed.
#[local] Hint Resolve client_session_footprint : footprints.

(** The requests that neither sign in nor continue to. *)
Definition opens_no_session (r : web_request) : bool :=
  match r with
  | Login _ _ _ _ | Login2fa _ _ _ | Impersonate _ _ | RedeemTicket _ _ => false
  | _ => true
  end.
Lemma plain_footprint r : opens_no_session r = true -> footprint (handle cfg r).
Proof.
  destruct r; intros Hr; try done; unfold handle, done; (apply keeps_bind; [|intros; apply keeps_ret]).
  all: unfold get_current_user_details, two_factor_status, two_factor_setup, two_factor_confirm,
    two_factor_regenerate_recovery_codes, two_factor_disable, disable, regenerate_recovery_codes,
    generate_recovery_codes, password_reset_request, password_reset_confirm, create_client,
    create_admin, set_client_password, set_client_require_2fa, set_admin_require_2fa, update_admin,
    delete_admin, get_billing_integration, mint_sso_ticket, register, verify_email,
    commerce_password_reset_request, commerce_password_reset_confirm, require_commerce_enabled,
    get_client_billing_account, get_reseller_by_api_key, value_error_is_400,
    require_own_password_session; foot_tac.
Qed.
End Handlers.

(** * Requests that open sessions *)

Lemma keeps_and {S E B} (I J : S -> Prop) (m : M S E B) :
  keeps I m -> keeps J m -> keeps (fun s => I s /\ J s) m.
Proof.
  intros HI HJ s [Hi Hj]. eapply wp_conseq; [apply wp_and; [by apply HI|by apply HJ]|..]; done.
Qed.
(** Redis commands leave the database session alone. *)
Definition sess_is (s : session) (w : web) : Prop := w.(w_sess) = s.
Lemma keeps_sess_cmd {B} s (f : Z -> redis -> outcome exn (B * redis)) :
  keeps (sess_is s) (redis_cmd f).
Proof. intros w Hw. by apply wp_redis_cmd. Qed.
Lemma enforce_sess s k m t : keeps (sess_is s) (enforce_rate_limit k m t).
Proof.
  unfold enforce_rate_limit. keeps_tac; try apply keeps_sess_cmd.
Qed.
Lemma reset_sess s k : keeps (sess_is s) (reset_rate_limit k).
Proof. unfold reset_rate_limit. apply keeps_try; [apply keeps_sess_cmd|]. intros; apply keeps_ret. Qed.

Lemma entry_at_put now k v r e :
  redis_entry_at now (redis_put now k v r) k = Some e ->
  e.(re_value) = v.
Proof. intros [He _]%entry_at_Some. unfold redis_put in He. by simplify_map_eq. Qed.
Lemma entry_at_put_alive now k v r :
  redis_entry_at now (redis_put now k v r) k
  = Some (mk_redis_entry v (match redis_entry_at now r k with
                            | Some e => e.(re_expires_at) | None => None end)).
Proof.
  apply entry_at_Some. unfold redis_put. rewrite lookup_insert_eq. split; [done|].
  destruct (redis_entry_at now r k) as [e|] eqn:E; [|done]. by apply entry_at_Some in E as [_ E].
Qed.
Lemma insert_put now k v r e : <[k := e]> (redis_put now k v r) = <[k := e]> r.
Proof. apply insert_insert_eq. Qed.

Section Opening.
Context {L : AuthLib} (cfg : auth_settings) (A : allowance) (now : Z) (r0 : redis) (k0 : nat).
Abbreviation footprint m := (keeps (reach A now r0 k0) m).
Context (Hcounter : forall k, (forall d, k <> challenge_limit d) -> al_counter A k).

(** A command on a web state whose clock is known. *)
Lemma wp_cmd_at {B} (f : Z -> redis -> outcome exn (B * redis)) (Q : B -> web -> Prop)
    (R : exn -> web -> Prop) w n :
  w.(w_sess).(s_now) = n -> (forall e, R e w) ->
  (w.(w_redis_up) = true -> forall a r, f n w.(w_redis) = Ok (a, r) -> Q a (w <|w_redis := r|>)) ->
  wp (redis_cmd f) Q R w.
Proof. intros <- HR HQ. apply wp_redis_cmd; auto. Qed.

Definition ttl_of (ttl_seconds : option Z) : Z :=
  Z.max 1 (match ttl_seconds with Some t => t | None => cfg.(st_auth_token_expire_seconds) end).

#[local] Arguments hash_update : simpl never.
#[local] Arguments session_mapping : simpl never.

(** Opening a session, run to its end. *)
Definition after_mint (u : user) (ip : option string) (ttl : Z) (extra : list (string * string))
    (w : web) : outcome exn string * web :=
  let now := w.(w_sess).(s_now) in
  let token := token_urlsafe w.(w_drawn) in
  let id := derive_token_id token in
  let w1 := w <|w_drawn := S w.(w_drawn)|> in
  if negb w.(w_redis_up) then (Raise connection_error, w1)
  else match hash_at now w.(w_redis) (tok_key id) with
       | None => (Raise response_error, w1)
       | Some h =>
           let h' := hash_update h (session_mapping u ip now ++ extra) in
           match zset_at now w.(w_redis) (user_toks_key u.(us_id)) with
           | None => (Raise response_error, w1 <|w_redis := opened now id ttl h' w.(w_redis)|>)
           | Some z => (Ok token, w1 <|w_redis := minted now id u ttl h' z w.(w_redis)|>)
           end
       end.
Lemma mint_run u ip ttl extra w :
  mint_user_session cfg u ip ttl extra w = after_mint u ip (ttl_of ttl) extra w.
Proof.
  destruct w as [s r up n]. unfold mint_user_session, after_mint, bind, draw, web_now, gets. cbn.
  assert ((ttl_of ttl <=? 0) = false) as Httl by (unfold ttl_of; lia).
  fold (ttl_of ttl). revert Httl. generalize (ttl_of ttl) as T. intros T Httl.
  unfold redis_hset, redis_zadd, redis_expire, with_hash, with_zset, redis_cmd. cbn.
  destruct up; cbn; [|done].
  set (id := derive_token_id (token_urlsafe n)). set (t := s_now s).
  destruct (hash_at t r (tok_key id)) as [h|]; [|done]. cbn.
  fold t. rewrite entry_at_put_alive, Httl. cbn. fold t. rewrite insert_put.
  set (h' := hash_update h _). fold (opened t id T h' r).
  assert (zset_at t (opened t id T h' r) (user_toks_key (us_id u))
    = zset_at t r (user_toks_key (us_id u))) as Hz.
  { unfold zset_at, opened. by rewrite entry_at_insert_ne. }
  rewrite Hz. destruct (zset_at t r _) as [z|]; [|done]. cbn. fold t.
  rewrite entry_at_put_alive. cbn. by rewrite insert_put.
Qed.

Lemma mint_footprint u ip ttl extra w (Q : string -> web -> Prop) (R : exn -> web -> Prop) :
  reach A now r0 k0 w -> Forall session_extra extra ->
  (forall n, (k0 <= n)%nat -> al_mint A n u (ttl_of ttl) extra) ->
  (forall t w', reach A now r0 k0 w' -> w'.(w_sess) = w.(w_sess) -> Q t w') ->
  (forall e w', reach A now r0 k0 w' -> R e w') ->
  wp (mint_user_session cfg u ip ttl extra) Q R w.
Proof.
  intros (Hn & Hr & Hk) Hextra Hmint HQ HR. specialize (Hmint _ Hk).
  assert (1 <= ttl_of ttl) as Httl by (unfold ttl_of; lia).
  unfold wp. rewrite mint_run. unfold after_mint. rewrite Hn.
  eapply (steps_drawn A now _ (S (w_drawn w))) in Hr; [|lia].
  assert (reach A now r0 k0 (w <|w_drawn := S (w_drawn w)|>)) as Hw1
    by (split; [done|]; split; [done|cbn; lia]).
  destruct (negb _); [by apply HR|]. destruct (hash_at now _ _) as [h|] eqn:Hh; [|by apply HR].
  destruct (zset_at now _ _) as [z|] eqn:Hz; [apply HQ; [|done]|apply HR];
    (split; [done|]; split; [|cbn; lia]); (eapply rtc_r; [done|]);
    [eapply step_mint|eapply step_open]; first [done|cbn; lia].
Qed.

(** Sequencing with a part that reads and counts but leaves the database
    session alone. *)
Lemma wp_part {B} (m : Web B) w (Q : B -> web -> Prop) (R : exn -> web -> Prop) :
  footprint m -> keeps (sess_is w.(w_sess)) m -> reach A now r0 k0 w ->
  (forall a w', reach A now r0 k0 w' -> w'.(w_sess) = w.(w_sess) -> Q a w') ->
  (forall e w', reach A now r0 k0 w' -> R e w') ->
  wp m Q R w.
Proof.
  intros Hf Hs Hw HQ HR. eapply wp_conseq; [apply wp_and; [by apply Hf|by apply Hs]|..].
  - intros a w' [? ?]. by apply HQ.
  - intros e w' [? _]. by apply HR.
Qed.

Lemma login_limits_sess s x ip : keeps (sess_is s) (login_limits cfg x ip).
Proof. unfold login_limits. apply keeps_bind; [apply enforce_sess|]. intros _.
  case_match; [apply keeps_ret|apply enforce_sess]. Qed.
Lemma login_limits_footprint x ip : footprint (login_limits cfg x ip).
Proof. unfold login_limits. foot_tac. Qed.
Lemma reset_limits_sess s x ip : keeps (sess_is s) (reset_login_limits x ip).
Proof. unfold reset_login_limits. apply keeps_bind; [|intros _; apply reset_sess].
  case_match; [apply keeps_ret|apply reset_sess]. Qed.
Lemma reset_limits_footprint x ip : footprint (reset_login_limits x ip).
Proof. unfold reset_login_limits. foot_tac. Qed.

Abbreviation foot := (fun _ => reach A now r0 k0).

(** What lets a login open a session, or ask for a code. *)
Definition password_given (username email : option string) (password : string) (d : db) (u : user)
  : Prop := login_account username email d = Some u /\ verify_password u password = true.
Definition password_proved (username email : option string) (password : string) (d : db) (u : user)
  : Prop :=
  password_given username email password d u /\ is_enabled u.(us_id) d = false.
Lemma fail_footprint {B} : footprint (audit_commit ;;; http_error 401 : Web B).
Proof. foot_tac. Qed.
Lemma audited {B} (b : B) : footprint (audit_commit ;;; ret b).
Proof. foot_tac. Qed.
Lemma login_footprint un em pw rq w :
  reach A now r0 k0 w ->
  (forall n u, (k0 <= n)%nat -> password_given un em pw w.(w_sess).(s_db) u -> al_challenge A n u) ->
  (forall n u extra, (k0 <= n)%nat -> password_proved un em pw w.(w_sess).(s_db) u ->
     al_mint A n u (ttl_of None) extra) ->
  wp (login cfg un em pw rq) foot foot w.
Proof.
  intros Hw Hpend Hmint. unfold login. cbv zeta.
  apply wp_bind, wp_part; [apply login_limits_footprint|apply login_limits_sess|done| |done].
  intros _ w1 Hw1 Hs1. apply wp_bind, wp_gets. rewrite Hs1.
  destruct (login_account un em _) as [u|] eqn:Hu; [|by apply fail_footprint].
  destruct (verify_password u pw) eqn:Hv; cbn [negb]; [|by apply fail_footprint].
  apply wp_bind, wp_part; [apply reset_limits_footprint|apply reset_limits_sess|done| |done].
  intros _ w2 Hw2 Hs2. apply wp_bind, wp_gets. rewrite Hs2, Hs1.
  destruct (is_enabled (us_id u) _) eqn:Hen.
  - apply wp_bind. destruct Hw2 as (Hn & Hr & Hk). unfold draw, wp at 1. apply wp_bind.
    apply wp_cmd_at with now; [done|intros e|intros _ [] r Hok; cbn in Hok; simplify_eq];
      (split; [done|]; split; [|cbn; lia]); cbn; (eapply steps_drawn in Hr; [|apply Nat.le_succ_diag_r]); [done|].
    eapply rtc_r; [done|]. eapply step_challenge; [by apply Hpend|lia].
  - assert (forall n extra, (k0 <= n)%nat -> al_mint A n u (ttl_of None) extra) as Hm.
    { intros n extra Hn. by apply Hmint. }
    case_match; apply wp_bind; (apply mint_footprint; [done| |by intros; apply Hm| |done]);
      [apply Forall_singleton; by left| |constructor|]; intros t w' Hw' _; by apply audited.
Qed.

(** What lets a second step open a session. *)
Definition challenge_passed (pending_token code : string) (r : redis) (d : db) (u : user) : Prop :=
  exists e raw n, redis_entry_at now r (pending_key (pending_2fa_digest pending_token)) = Some e
    /\ e.(re_value) = RedisString raw /\ py_int raw = Some n /\ user_by_id n d = Some u
    /\ valid_code cfg now u.(us_id) code d.
(** The counters are kept under names of their own. *)
Lemma keeps_entry_cmd {B} k e (f : Z -> redis -> outcome exn (B * redis)) :
  (forall r a r', f now r = Ok (a, r') -> r' !! k = r !! k) ->
  keeps (fun w => w.(w_sess).(s_now) = now /\ redis_entry_at now w.(w_redis) k = e) (redis_cmd f).
Proof.
  intros Hf w [Hn He]. apply wp_redis_cmd; [done|done|]. intros a r _ Hok. split; [done|].
  rewrite Hn in Hok. cbn. unfold redis_entry_at in *. by rewrite (Hf _ _ _ Hok).
Qed.
Lemma enforce_keeps_entry k e c m s :
  (forall k', k <> RATE_LIMIT_KEY_PREFIX +:+ k') ->
  keeps (fun w => w.(w_sess).(s_now) = now /\ redis_entry_at now w.(w_redis) k = e)
    (enforce_rate_limit c m s).
Proof.
  intros Hk. specialize (Hk c). unfold enforce_rate_limit. keeps_tac; apply keeps_entry_cmd;
    intros ? ? ? Hok; unfold redis_put in *; repeat case_match; simplify_eq;
    rewrite ?lookup_insert_ne, ?lookup_delete_ne; done.
Qed.
Lemma login_2fa_footprint t c rq w :
  reach A now r0 k0 w ->
  (forall e, redis_entry_at now w.(w_redis) (pending_key (pending_2fa_digest t)) = Some e ->
     al_counter A (challenge_limit (pending_2fa_digest t)) /\ al_pending A (pending_2fa_digest t)) ->
  (forall n u, (k0 <= n)%nat -> challenge_passed t c w.(w_redis) w.(w_sess).(s_db) u ->
     al_mint A n u (ttl_of None) []) ->
  wp (login_2fa cfg t c rq) foot foot w.
Proof.
  intros Hw Hopen Hmint. unfold login_2fa. cbv zeta. set (d := pending_2fa_digest t) in *.
  assert (forall k', pending_key d <> RATE_LIMIT_KEY_PREFIX +:+ k') as Hne by done.
  set (I := fun w' => w'.(w_sess).(s_now) = now /\
    redis_entry_at now w'.(w_redis) (pending_key d) = redis_entry_at now w.(w_redis) (pending_key d)).
  assert (forall k m s, al_counter A k -> forall w1 (Q : unit -> web -> Prop), reach A now r0 k0 w1 ->
    I w1 -> w1.(w_sess) = w.(w_sess) ->
    (forall w2, reach A now r0 k0 w2 -> I w2 -> w2.(w_sess) = w.(w_sess) -> Q tt w2) ->
    wp (enforce_rate_limit k m s) Q foot w1) as Henf.
  { intros k m s Hk w1 Q Hw1 Hi1 Hs1 HQ. rewrite <- Hs1 in HQ. eapply wp_conseq;
      [apply wp_and; [by apply (enforce_footprint A now r0 k0 k m s Hk)|
       apply wp_and; [by apply enforce_keeps_entry|by apply (enforce_sess (w_sess w1))]]|..].
    - intros [] w2 (? & ? & ?). by apply HQ.
    - by intros e w2 (? & _). }
  apply wp_bind, Henf; [apply Hcounter; by intros|done|by destruct Hw|done|].
  intros w1 Hw1 Hi1 Hs1. apply wp_bind, wp_cmd_at with now; [by destruct Hw1|done|].
  intros _ found r Hok. destruct Hi1 as [Hn1 He1]. rewrite He1 in Hok.
  assert (w1 <|w_redis := r|> = w1 /\ forall raw, found = Some raw ->
    exists e, redis_entry_at now w.(w_redis) (pending_key d) = Some e /\ e.(re_value) = RedisString raw)
    as [-> Hfound].
  { repeat case_match; simplify_eq; (split; [by destruct w1|]); intros raw' Hraw; simplify_eq; eauto. }
  apply wp_bind, wp_unwrap; [done|]. intros raw ->. destruct (Hfound raw eq_refl) as (e & He & Hraw).
  destruct (Hopen e He) as [Hc Hp].
  apply wp_bind, Henf; [done..|]. intros w2 Hw2 Hi2 Hs2.
  apply wp_bind, wp_unwrap; [done|]. intros n Hn. apply wp_bind, wp_gets. rewrite Hs2.
  destruct (user_by_id n _) as [u|] eqn:Hu.
  - apply wp_bind. eapply wp_conseq; [apply wp_and;
      [by apply verify_footprint|apply wp_verify_second_factor with
        (Q := fun f w' => forall f', f = Some f' -> valid_code cfg now (us_id u) c (s_db (w_sess w)))
        (R := fun _ _ => True)]|..]; [done|done| | |by intros ? ? [? _]].
    + intros f s Hv. destruct Hi2 as [Hn2 _]. by rewrite Hn2, Hs2 in Hv.
    + intros [f|] w3 [Hw3 Hv]; [|by apply fail_footprint]. specialize (Hv f eq_refl).
      apply wp_bind, (wp_keeps (reach A now r0 k0)); [by apply pending_delete|done| |done].
      intros _ w4 Hw4. apply wp_bind, (wp_keeps (reach A now r0 k0));
        [by apply reset_footprint|done| |done].
      intros _ w5 Hw5. apply wp_bind, mint_footprint; [done|constructor| | |done].
      * intros m Hm. apply Hmint; [done|]. by exists e, raw, n.
      * intros token w6 Hw6 _. by apply audited.
  - apply wp_bind, wp_ret. by apply fail_footprint.
Qed.

(** Whose session a token stands for. *)
Definition session_read (t : string) (r : redis) (s : session_auth) : Prop :=
  exists h, hash_at now r (tok_key (derive_token_id t)) = Some h /\ h <> empty
    /\ py_int (field h "user_id" "0") = Some s.(sa_user_id)
    /\ s.(sa_is_admin) = field_true h "is_admin".
Lemma wp_user_from_token t ip w (Q : option session_auth -> web -> Prop) (R : exn -> web -> Prop) :
  reach A now r0 k0 w ->
  (forall w', reach A now r0 k0 w' -> w'.(w_sess) = w.(w_sess) -> Q None w') ->
  (forall s w', reach A now r0 k0 w' -> w'.(w_sess) = w.(w_sess) ->
     session_read t w.(w_redis) s -> Q (Some s) w') ->
  (forall e w', reach A now r0 k0 w' -> R e w') ->
  wp (get_user_from_token t ip) Q R w.
Proof.
  intros Hw HN HQ HR. unfold get_user_from_token. apply wp_bind. eapply wp_hash; [done|by intros; apply HR|done|].
  intros h Hh. cbn [fst]. case_decide as Hempty; [by apply HN|].
  apply wp_bind, wp_unwrap; [by intros; apply HR|]. intros n Hn.
  case_match; [|apply wp_ret, HQ; [done..|by exists h]].
  apply wp_bind, wp_gets, wp_bind. destruct (redis_entry_at now (w_redis w) (tok_key (derive_token_id t)))
    as [e|] eqn:He; [|unfold hash_at in Hh; rewrite He in Hh; congruence].
  eapply wp_conseq; [apply wp_and;
    [apply (hset_footprint A now r0 k0 (derive_token_id t) _ w (fun _ => reach A now r0 k0)
              (fun _ => reach A now r0 k0) e); [|done..]|
     by apply (keeps_sess_cmd (w_sess w))]|..].
  - apply Forall_cons. split; [by left|]. apply Forall_singleton. by right; left.
  - intros [] w' [Hw' Hs']. apply wp_ret, HQ; [done..|]. by exists h.
  - intros e' w' [Hw' _]. by apply HR.
Qed.

(** Authentication of the caller: by a session, or by an integration's key. *)
Lemma wp_current_user rq w (Q : auth -> web -> Prop) (R : exn -> web -> Prop) :
  reach A now r0 k0 w ->
  (forall t s w', reach A now r0 k0 w' -> w'.(w_sess) = w.(w_sess) ->
     request_token rq = Some t -> session_read t w.(w_redis) s -> Q (UserAuth s) w') ->
  (forall i n t w', reach A now r0 k0 w' -> Q (ApiKeyAuth i n t) w') ->
  (forall e w', reach A now r0 k0 w' -> R e w') ->
  wp (get_current_user cfg rq) Q R w.
Proof.
  intros Hw HQ HK HR. unfold get_current_user. cbv zeta. apply wp_bind, wp_throw_if; [by intros; apply HR|].
  intros Ht. destruct (request_token rq) as [t|] eqn:Hrq; [|done]. cbn [str_or] in *.
  destruct (str_empty t) eqn:Hte; [done|]. apply wp_bind, wp_user_from_token; [done| | |done].
  - intros w' Hw' _. apply wp_bind, wp_throw_if; [by intros; apply HR|]. intros _.
    apply wp_bind, wp_throw_if; [by intros; apply HR|]. intros _. apply wp_bind, wp_gets.
    apply wp_bind, wp_unwrap; [by intros; apply HR|]. intros b _.
    apply wp_bind, (wp_keeps (reach A now r0 k0)); [|done| |done].
    { apply keeps_reach_db. intros. auto with dcim. }
    intros _ w2 Hw2. by apply wp_ret, HK.
  - intros s w' Hw' Hs' Hr'. apply wp_bind, wp_throw_if; [by intros; apply HR|]. intros _.
    apply wp_ret. by eapply HQ.
Qed.

(** What lets an administrator open a session for a client. *)
Definition admin_session (rq : http_request) (r : redis) : Prop :=
  exists t s, request_token rq = Some t /\ session_read t r s /\ s.(sa_is_admin) = true.
Definition impersonation_allowed (user_id : Z) (rq : http_request) (r : redis) (d : db) (u : user)
  : Prop :=
  admin_session rq r /\ user_by_id user_id d = Some u /\ u.(us_is_admin) = false
  /\ u.(us_is_reseller) = false.
Lemma impersonate_footprint user_id rq w :
  reach A now r0 k0 w ->
  (forall n u extra, (k0 <= n)%nat ->
     impersonation_allowed user_id rq w.(w_redis) w.(w_sess).(s_db) u ->
     al_mint A n u (ttl_of (Some cfg.(st_impersonation_session_ttl_seconds))) extra) ->
  wp (impersonate_client cfg user_id rq) foot foot w.
Proof.
  intros Hw Hmint. unfold impersonate_client, require_admin.
  apply wp_bind, wp_bind, wp_current_user; [done| | |done].
  - intros t s w1 Hw1 Hs1 Ht Hread. apply wp_bind, wp_throw_if; [done|].
    intros Ha%negb_false_iff. cbn in Ha. apply wp_ret.
    apply wp_bind, wp_gets. rewrite Hs1. apply wp_bind, wp_unwrap; [done|]. intros u Hu.
    apply wp_bind, wp_throw_if; [done|]. intros Hna. apply wp_bind, wp_throw_if; [done|]. intros Hnr.
    apply wp_bind, mint_footprint; [done|apply Forall_singleton; by right| | |done].
    + intros n Hn. apply Hmint; [done|]. split; [by exists t, s|done].
    + intros token w2 Hw2 _. by apply audited.
  - intros i n t w1 Hw1. apply wp_bind, wp_throw_if; [done|done].
Qed.

(** What lets a ticket open a session. *)
Definition ticket_held (token : string) (r : redis) (d : db) (u : user) : Prop :=
  exists h raw n, hash_at now r (ticket_key token) = Some h /\ h !! "user_id" = Some raw
    /\ py_int raw = Some n /\ user_by_id n d = Some u /\ u.(us_is_admin) = false.
Lemma redeem_footprint token rq w :
  reach A now r0 k0 w ->
  (forall n u, (k0 <= n)%nat -> ticket_held token w.(w_redis) w.(w_sess).(s_db) u ->
     al_mint A n u (ttl_of None) []) ->
  wp (client_sso_redeem cfg token rq) foot foot w.
Proof.
  intros Hw Hmint. unfold client_sso_redeem, redeem_sso_ticket. apply wp_bind, wp_bind.
  assert (forall data, data = empty \/ hash_at now w.(w_redis) (ticket_key token) = Some data ->
    wp (claim_ticket token data) (fun o => wp (user_id <- unwrap o (HTTPException 400) ;;
      u <- query (user_by_id user_id) ;; user <- unwrap u (HTTPException 404) ;;
      throw_if user.(us_is_admin) (HTTPException 404) ;;;
      mint_user_session cfg user (client_ip cfg rq) None []) foot foot) foot w) as Hclaim.
  { intros data Hdata. unfold claim_ticket. case_decide as Hne; [by apply wp_ret, wp_bind|].
    destruct Hdata as [|Hdata]; [done|].
    apply wp_bind, wp_part; [apply ticket_hsetnx|apply keeps_sess_cmd|done| |done].
    intros claimed w1 Hw1 Hs1. case_match; [by apply wp_ret, wp_bind|].
    apply wp_bind, wp_part; [apply ticket_delete|apply keeps_sess_cmd|done| |done].
    intros _ w2 Hw2 Hs2. destruct (data !! "user_id") as [raw|] eqn:Hraw; [|by apply wp_ret, wp_bind].
    apply wp_bind, wp_unwrap; [done|]. intros n Hn. apply wp_ret, wp_bind, wp_ret.
    apply wp_bind, wp_gets. rewrite Hs2, Hs1. apply wp_bind, wp_unwrap; [done|]. intros u Hu.
    apply wp_bind, wp_throw_if; [done|]. intros Hna. apply mint_footprint; [done|constructor| |done|done].
    intros m Hm. apply Hmint; [done|]. by exists data, raw, n. }
  unfold read_ticket. case_match; [apply wp_ret; auto|]. eapply wp_hash; [done..|]. auto.
Qed.
End Opening.

(** * Footprints of requests *)

Section Serving.
Context {L : AuthLib} (cfg : auth_settings).

(** A request opens a session for an account only if it proved that it may:
    with the password where no second factor is enabled, with a code for an
    open second step, with an administrator's session, or with a ticket. *)
Definition earned (now : Z) (r : web_request) (rd : redis) (d : db) (u : user) : Prop :=
  match r with
  | Login un em pw _ => password_proved un em pw d u
  | Login2fa t c _ => challenge_passed cfg now t c rd d u
  | Impersonate user_id rq => impersonation_allowed now user_id rq rd d u
  | RedeemTicket t _ => ticket_held now t rd d u
  | _ => False
  end.
Definition mint_ttl (r : web_request) : Z :=
  match r with
  | Impersonate _ _ => ttl_of cfg (Some cfg.(st_impersonation_session_ttl_seconds))
  | _ => ttl_of cfg None
  end.
Definition allowed (now : Z) (r : web_request) (w : web) : allowance := {|
  al_counter k := (forall d, k <> challenge_limit d)
    \/ match r with
       | Login2fa t _ _ => k = challenge_limit (pending_2fa_digest t)
                           /\ is_Some (redis_entry_at now w.(w_redis) (pending_key (pending_2fa_digest t)))
       | _ => False
       end;
  al_pending d :=
    match r with
    | Login2fa t _ _ => d = pending_2fa_digest t
                        /\ is_Some (redis_entry_at now w.(w_redis) (pending_key d))
    | _ => False
    end;
  al_challenge n u := (w.(w_drawn) <= n)%nat
    /\ match r with
       | Login un em pw _ => password_given un em pw w.(w_sess).(s_db) u
       | _ => False
       end;
  al_mint n u ttl extra := (w.(w_drawn) <= n)%nat /\ ttl = mint_ttl r
    /\ earned now r w.(w_redis) w.(w_sess).(s_db) u
|}.

Lemma request_footprint now r w :
  w.(w_sess).(s_now) = now ->
  wp (handle cfg r) (fun _ => reach (allowed now r w) now w.(w_redis) w.(w_drawn))
    (fun _ => reach (allowed now r w) now w.(w_redis) w.(w_drawn)) w.
Proof.
  intros Hn. set (A := allowed now r w).
  assert (forall k, (forall d, k <> challenge_limit d) -> al_counter A k) as Hc by (by left).
  assert (reach A now w.(w_redis) w.(w_drawn) w) as Hw by done.
  destruct (opens_no_session r) eqn:Ho; [by apply plain_footprint|].
  destruct r; try done; unfold handle; apply wp_bind.
  - eapply wp_conseq; [apply login_footprint with (r0 := w_redis w) (k0 := w_drawn w)|..]; done.
  - eapply wp_conseq; [apply login_2fa_footprint with (A := A) (now := now) (r0 := w_redis w)
      (k0 := w_drawn w)|..]; try done.
    intros e He. split; [right|]; (split; [done|by exists e]).
  - eapply wp_conseq; [apply impersonate_footprint with (r0 := w_redis w) (k0 := w_drawn w)|..]; done.
  - eapply wp_conseq; [apply redeem_footprint with (r0 := w_redis w) (k0 := w_drawn w)|..]; done.
Qed.

(** A served request takes steps at its time, from the committed rows. *)
Lemma serve_footprint x w res w' :
  serve cfg x w = (res, w') ->
  let w0 := begin_request x.(sd_now) x.(sd_redis_up) w in
  rtc (redis_step (allowed x.(sd_now) x.(sd_request) w0) x.(sd_now) w'.(w_drawn))
    w.(w_redis) w'.(w_redis)
  /\ w'.(w_sess).(s_now) = x.(sd_now) /\ (w.(w_drawn) <= w'.(w_drawn))%nat.
Proof.
  intros Hs w0. unfold serve, request in Hs. pose proof (request_footprint x.(sd_now) x.(sd_request) w0 eq_refl) as H.
  unfold wp in H. fold w0 in Hs. destruct (handle cfg _ w0) as [o w1].
  injection Hs as <- <-. destruct o; by destruct H as (? & ? & ?).
Qed.
Lemma in_order_served l w :
  in_order w.(w_sess).(s_now) l = true -> served_all cfg l w (run_all cfg l w).
Proof.
  revert w. induction l as [|x l IH]; intros w Ho; [constructor|].
  cbn in Ho. apply andb_true_iff in Ho as [Hx Ho]. cbn [run_all].
  constructor; [lia|]. apply IH. destruct (serve cfg x w) as [res w'] eqn:Hs.
  cbn [snd]. by destruct (serve_footprint x w res w' Hs) as (_ & -> & _).
Qed.
End Serving.
