(* ===== verification/Sessions.v ===== *)
(** Sessions: every session was earned by the request that opened it, sessions
    stay listed with their owner's, and a change of password ends them. *)
From Stdlib Require Import ZArith Lia Ascii.
From stdpp Require Import base numbers list strings pretty gmap relations.
From S2P Require Import Prelude Calendar Models Session Redis Auth TwoFactor Accounts Portal Footprints.
#[local] Open Scope Z_scope.
#[local] Open Scope py_scope.

(** * Hashes and keys *)

Lemma hash_update_app h m m' : hash_update h (m ++ m') = hash_update (hash_update h m) m'.
Proof. unfold hash_update. by rewrite fold_left_app. Qed.
(** Fields that are not written keep their values. *)
Lemma hash_update_other (P : string * string -> Prop) m h k :
  Forall P m -> (forall v, ~ P (k, v)) -> hash_update h m !! k = h !! k.
Proof.
  intros Hm Hk. revert h. induction Hm as [|[k' v] m Hkv Hm IH]; intros h; [done|].
  change (hash_update (<[k' := v]> h) m !! k = h !! k). rewrite IH. apply lookup_insert_ne.
  intros ->. by apply (Hk v).
Qed.

(** The fields of a session that say whose it is. *)
Definition speaks_for (h : gmap string string) (u : user) : Prop :=
  h !! "user_id" = Some (pretty u.(us_id)) /\ h !! "is_admin" = Some (bool_str u.(us_is_admin))
  /\ h !! "is_reseller" = Some (bool_str u.(us_is_reseller)).
Lemma speaks_for_touched h u m : Forall benign m -> speaks_for h u -> speaks_for (hash_update h m) u.
Proof.
  intros Hm (? & ? & ?). unfold speaks_for.
  rewrite !(hash_update_other benign m); first [done|by intros v [[=]|[[=]|[=]]]].
Qed.
Lemma speaks_for_minted h u ip now extra :
  Forall session_extra extra -> speaks_for (hash_update h (session_mapping u ip now ++ extra)) u.
Proof.
  intros He. rewrite hash_update_app. unfold speaks_for.
  rewrite !(hash_update_other session_extra extra); try first [done|by intros v [[=]|[=]]].
  unfold hash_update, session_mapping. cbn. by simplify_map_eq.
Qed.

Lemma tok_key_inj i j : tok_key i = tok_key j -> i = j.
Proof. by intros [=]. Qed.
Lemma user_toks_inj u v : user_toks_key u = user_toks_key v -> u = v.
Proof. intros [= H]. by apply (inj pretty). Qed.
Lemma same_but_entry now k r r' k' :
  same_but k r r' -> k' <> k -> redis_entry_at now r' k' = redis_entry_at now r k'.
Proof. intros Hs Hne. unfold redis_entry_at. by rewrite Hs. Qed.
Lemma alive_later now t : 0 <= t -> entry_alive now (mk_redis_entry (RedisHash empty) (Some (now + seconds t))) = true.
Proof. unfold entry_alive, seconds. cbn. lia. Qed.

(** The session under a token id. *)
Definition live_session (now : Z) (r : redis) (id : string) (h : gmap string string) : Prop :=
  exists x, redis_entry_at now r (tok_key id) = Some (mk_redis_entry (RedisHash h) x).
Lemma live_session_hash now r id h :
  hash_at now r (tok_key id) = Some h -> h <> empty -> live_session now r id h.
Proof.
  unfold hash_at, live_session. destruct (redis_entry_at now r (tok_key id)) as [[v x]|]; [|congruence].
  cbn. destruct v; try done. intros [= ->] _. by exists x.
Qed.

Section Sessions.
Context {L : AuthLib} (cfg : auth_settings).

(** * Every session was earned *)

(** A step leaves sessions that are as they were, touched, or minted. *)
Lemma step_sessions A now k (P : string -> gmap string string -> Prop) r r' :
  redis_step A now k r r' ->
  (forall id h m, P id h -> Forall benign m -> P id (hash_update h m)) ->
  (forall n u ttl ip extra h, al_mint A n u ttl extra -> (n < k)%nat -> Forall session_extra extra ->
     P (derive_token_id (token_urlsafe n)) (hash_update h (session_mapping u ip now ++ extra))) ->
  (forall id h, live_session now r id h -> P id h) ->
  forall id h, live_session now r' id h -> P id h.
Proof.
  intros Hstep Htouch Hmint HP id h [x Hx].
  destruct Hstep as [c r r' _ Hs|d r _|n u r _ _|t r r' Hs|i r|u i r r' z e Hi He Hz ->|u r Hu
    |i h0 e m r He Hh Hm|n u ttl ip extra h0 z r Hal Hk Hext Httl Hh Hz|n u ttl ip extra h0 r Hal Hk Hext Httl Hh Hz].
  - rewrite (same_but_entry _ _ _ _ _ Hs) in Hx by done. eapply HP; by exists x.
  - rewrite entry_at_delete_ne in Hx by done. eapply HP; by exists x.
  - unfold challenged in Hx. rewrite entry_at_insert_ne in Hx by done. eapply HP; by exists x.
  - rewrite (same_but_entry _ _ _ _ _ Hs) in Hx by done. eapply HP; by exists x.
  - apply entry_at_Some in Hx as [Hx Ha]. apply lookup_delete_Some in Hx as [_ Hx].
    apply (HP id). exists x. by apply entry_at_Some.
  - apply (HP id). exists x. case_decide; [by rewrite entry_at_delete_ne in Hx|by rewrite entry_at_insert_ne in Hx].
  - apply (HP id). exists x. by rewrite entry_at_delete_ne in Hx.
  - destruct (decide (i = id)) as [->|Hne].
    + rewrite entry_at_insert in Hx. case_match; [|done]. injection Hx as <- _.
      apply Htouch; [|done]. apply (HP id). exists (re_expires_at e). rewrite He. by destruct e; cbn in Hh; subst.
    + apply (HP id). exists x. rewrite entry_at_insert_ne in Hx; [done|]. by intros ?%tok_key_inj.
  - unfold minted, opened in Hx. rewrite entry_at_insert_ne in Hx by done.
    destruct (decide (derive_token_id (token_urlsafe n) = id)) as [<-|Hne].
    + rewrite entry_at_insert in Hx. case_match; [|done]. injection Hx as <- _. by eapply Hmint.
    + apply (HP id). exists x. rewrite entry_at_insert_ne in Hx; [done|]. by intros ?%tok_key_inj.
  - unfold opened in Hx. destruct (decide (derive_token_id (token_urlsafe n) = id)) as [<-|Hne].
    + rewrite entry_at_insert in Hx. case_match; [|done]. injection Hx as <- _. by eapply Hmint.
    + apply (HP id). exists x. rewrite entry_at_insert_ne in Hx; [done|]. by intros ?%tok_key_inj.
Qed.
Lemma steps_sessions A now k (P : string -> gmap string string -> Prop) r r' :
  rtc (redis_step A now k) r r' ->
  (forall id h m, P id h -> Forall benign m -> P id (hash_update h m)) ->
  (forall n u ttl ip extra h, al_mint A n u ttl extra -> (n < k)%nat -> Forall session_extra extra ->
     P (derive_token_id (token_urlsafe n)) (hash_update h (session_mapping u ip now ++ extra))) ->
  (forall id h, live_session now r id h -> P id h) ->
  forall id h, live_session now r' id h -> P id h.
Proof.
  intros Hr Ht Hm. induction Hr as [|r r1 r2 Hs _ IH]; [done|]. intros HP. apply IH.
  by eapply step_sessions.
Qed.

(** What one request proved, in the state it was served in, and the token it
    drew. *)
Definition earned_by (x : served) (w : web) (id : string) (u : user) : Prop :=
  (exists n, id = derive_token_id (token_urlsafe n)
     /\ (w.(w_drawn) <= n < (snd (serve cfg x w)).(w_drawn))%nat) /\
  w.(w_sess).(s_now) <= x.(sd_now) /\
  earned cfg x.(sd_now) x.(sd_request) w.(w_redis) w.(w_sess).(s_committed) u.
Lemma served_sessions l w w' (P : string -> gmap string string -> Prop) :
  served_all cfg l w w' ->
  (forall id h m, P id h -> Forall benign m -> P id (hash_update h m)) ->
  (forall id h, live_session w.(w_sess).(s_now) w.(w_redis) id h -> P id h) ->
  forall id h, live_session w'.(w_sess).(s_now) w'.(w_redis) id h ->
  P id h \/ exists l1 x l2 w1 u, l = l1 ++ x :: l2 /\ served_all cfg l1 w w1
             /\ earned_by x w1 id u /\ speaks_for h u.
Proof.
  intros Hl. revert P. induction Hl as [w|x l w w' Hle Hl IH]; intros P Htouch HP id h Hh.
  - left. by eapply HP.
  - destruct (serve cfg x w) as [res w1] eqn:Hs. cbn in *.
    destruct (serve_footprint cfg x w res w1 Hs) as (Hr & Hn & _).
    set (P1 := fun id h => P id h \/ exists u, earned_by x w id u /\ speaks_for h u).
    assert (forall id h, live_session w1.(w_sess).(s_now) w1.(w_redis) id h -> P1 id h) as H1.
    { rewrite Hn. apply (steps_sessions _ _ _ P1 _ _ Hr).
      - intros id0 h0 m [H0|(u & He & H0)] Hm; [left; by apply Htouch|right].
        exists u. split; [done|by apply speaks_for_touched].
      - intros n u ttl ip extra h0 (Hn0 & _ & He) Hn1 Hx. right. exists u.
        split; [|by apply speaks_for_minted]. split; [|done]. exists n. rewrite Hs. by split.
      - intros id0 h0 [y Hy]. left. apply (HP id0). exists y. by eapply entry_at_earlier. }
    destruct (IH P1) with (id := id) (h := h) as [[H0|(u & He & Hu)]|(l1 & y & l2 & w2 & u & -> & Hl1 & He & Hu)];
      [|done|done|by left|right..].
    + intros id0 h0 m [H0|(u & He & Hu)] Hm; [left; by apply Htouch|right].
      exists u. split; [done|by apply speaks_for_touched].
    + exists [], x, l, w, u. split; [done|]. split; [constructor|done].
    + exists (x :: l1), y, l2, w2, u. split; [done|]. split; [|done].
      constructor; [done|]. by rewrite Hs.
Qed.

(** ** Second steps were opened by logins *)

(** Entries under the names of second steps. *)
Lemma step_pendings A now k (P : string -> redis_entry -> Prop) r r' :
  redis_step A now k r r' ->
  (forall n u, al_challenge A n u -> (n < k)%nat ->
     P (pending_2fa_digest (token_urlsafe n)) (mk_redis_entry (RedisString (pretty u.(us_id)))
       (Some (now + seconds PENDING_2FA_TTL_SECONDS)))) ->
  (forall d e, redis_entry_at now r (pending_key d) = Some e -> P d e) ->
  forall d e, redis_entry_at now r' (pending_key d) = Some e -> P d e.
Proof.
  intros Hstep Hnew HP d e Hd.
  destruct Hstep as [c r r' _ Hs|d' r _|n u r Hal Hk|t r r' Hs|i r|u i r r' z e' _ _ _ ->|u r _
    |i h0 e' m r _ _ _|n u ttl ip extra h0 z r _ _ _ _ _ _|n u ttl ip extra h0 r _ _ _ _ _ _];
    unfold minted, opened, challenged in *.
  - apply HP. by rewrite (same_but_entry _ _ _ _ _ Hs) in Hd.
  - destruct (decide (d = d')) as [->|Hne]; [by rewrite entry_at_delete in Hd|].
    apply HP. rewrite entry_at_delete_ne in Hd; [done|]. by intros [= ?].
  - destruct (decide (d = pending_2fa_digest (token_urlsafe n))) as [->|Hne].
    + rewrite entry_at_insert in Hd. case_match; [|done]. injection Hd as <-. by apply Hnew.
    + apply HP. rewrite entry_at_insert_ne in Hd; [done|]. by intros [= ?].
  - apply HP. by rewrite (same_but_entry _ _ _ _ _ Hs) in Hd.
  - apply HP. by rewrite entry_at_delete_ne in Hd.
  - apply HP. case_decide; [by rewrite entry_at_delete_ne in Hd|by rewrite entry_at_insert_ne in Hd].
  - apply HP. by rewrite entry_at_delete_ne in Hd.
  - apply HP. by rewrite entry_at_insert_ne in Hd.
  - apply HP. by rewrite !entry_at_insert_ne in Hd.
  - apply HP. by rewrite entry_at_insert_ne in Hd.
Qed.
Lemma steps_pendings A now k (P : string -> redis_entry -> Prop) r r' :
  rtc (redis_step A now k) r r' ->
  (forall n u, al_challenge A n u -> (n < k)%nat ->
     P (pending_2fa_digest (token_urlsafe n)) (mk_redis_entry (RedisString (pretty u.(us_id)))
       (Some (now + seconds PENDING_2FA_TTL_SECONDS)))) ->
  (forall d e, redis_entry_at now r (pending_key d) = Some e -> P d e) ->
  forall d e, redis_entry_at now r' (pending_key d) = Some e -> P d e.
Proof.
  intros Hr Hnew. induction Hr as [|r r1 r2 Hs _ IH]; [done|]. intros HP. apply IH.
  by eapply step_pendings.
Qed.

(** A login that gave a password and opened the second step [d]. *)
Definition opened_by (x : served) (w : web) (d : string) (e : redis_entry) : Prop :=
  exists un em pw rq u n,
    x.(sd_request) = Login un em pw rq /\ password_given un em pw w.(w_sess).(s_committed) u
    /\ d = pending_2fa_digest (token_urlsafe n)
    /\ (w.(w_drawn) <= n < (snd (serve cfg x w)).(w_drawn))%nat
    /\ e = mk_redis_entry (RedisString (pretty u.(us_id)))
             (Some (x.(sd_now) + seconds PENDING_2FA_TTL_SECONDS)).
Lemma serve_pendings x w (P : string -> redis_entry -> Prop) :
  w.(w_sess).(s_now) <= x.(sd_now) ->
  (forall d e, redis_entry_at w.(w_sess).(s_now) w.(w_redis) (pending_key d) = Some e -> P d e) ->
  (forall d e, opened_by x w d e -> P d e) ->
  let w' := snd (serve cfg x w) in
  forall d e, redis_entry_at w'.(w_sess).(s_now) w'.(w_redis) (pending_key d) = Some e -> P d e.
Proof.
  intros Hle HP Hnew w'. destruct (serve cfg x w) as [res w1] eqn:Hs. cbn in w'. subst w'.
  destruct (serve_footprint cfg x w res w1 Hs) as (Hr & -> & _).
  apply (steps_pendings _ _ _ P _ _ Hr).
  - intros n u [Hn Hu] Hk. apply Hnew. destruct (sd_request x) eqn:Hx; try done.
    do 4 eexists. exists u, n. rewrite Hs. by split.
  - intros d e Hd. apply HP. by eapply entry_at_earlier.
Qed.
Lemma served_pendings l w w' (P : string -> redis_entry -> Prop) :
  served_all cfg l w w' ->
  (forall d e, redis_entry_at w.(w_sess).(s_now) w.(w_redis) (pending_key d) = Some e -> P d e) ->
  forall d e, redis_entry_at w'.(w_sess).(s_now) w'.(w_redis) (pending_key d) = Some e ->
  P d e \/ exists l1 x l2 w1, l = l1 ++ x :: l2 /\ served_all cfg l1 w w1 /\ opened_by x w1 d e.
Proof.
  intros Hl. revert P. induction Hl as [w|x l w w' Hle Hl IH]; intros P HP d e Hd; [left; by apply HP|].
  destruct (IH (fun d e => P d e \/ opened_by x w d e)) with (d := d) (e := e)
    as [[H|H]|(l1 & y & l2 & w1 & -> & Hl1 & H)]; [|done|by left|right..].
  - apply serve_pendings; [done|auto..].
  - exists [], x, l, w. split; [done|]. by split; [constructor|].
  - exists (x :: l1), y, l2, w1. split; [done|]. split; [by constructor|done].
Qed.

(** C10. Sessions are earned.  Let any requests be served, in any order, to a
    server whose Redis starts empty.  Whoever a later request is then taken
    for, staff or not, some earlier request proved it in the state it was
    served in: it gave the password of an account without second factor; or a
    code that the account's second factor accepts, after an earlier login had
    given that account's password; or it came from an administrator's session,
    for an account that is neither staff nor reseller; or it held a ticket for
    an account that is not staff. *)
Theorem callers_are_earned l w0 w now up rq s w' :
  w0.(w_redis) = empty -> served_all cfg l w0 w -> w.(w_sess).(s_now) <= now ->
  get_current_user cfg rq (begin_request now up w) = (Ok (UserAuth s), w') ->
  exists l1 x l2 w1 u,
    l = l1 ++ x :: l2 /\ served_all cfg l1 w0 w1
    /\ (exists t, request_token rq = Some t /\ earned_by x w1 (derive_token_id t) u)
    /\ s.(sa_user_id) = u.(us_id) /\ s.(sa_is_admin) = u.(us_is_admin)
    /\ forall t c rq', x.(sd_request) = Login2fa t c rq' ->
       exists l3 y l4 w2 un em pw rq2 u2,
         l1 = l3 ++ y :: l4 /\ served_all cfg l3 w0 w2 /\ y.(sd_request) = Login un em pw rq2
         /\ password_given un em pw w2.(w_sess).(s_committed) u2 /\ u2.(us_id) = u.(us_id).
Proof.
  intros Hempty Hl Hle Hauth.
  pose (any := mk_allowance (fun _ => True) (fun _ => True) (fun _ _ => True) (fun _ _ _ _ => True)).
  assert (exists t, request_token rq = Some t /\ session_read now t w.(w_redis) s)
    as (t & Ht & h & Hh & Hne & Hid & Had).
  { refine (wp_result (get_current_user cfg rq)
      (fun a _ => match a with
                  | UserAuth s => exists t, request_token rq = Some t /\ session_read now t w.(w_redis) s
                  | _ => True
                  end)
      (fun _ _ => True) (begin_request now up w) (UserAuth s) w' Hauth _).
    apply (wp_current_user cfg any now w.(w_redis) w.(w_drawn)); [by repeat constructor| |done|done].
    intros t s0 w1 _ _ Ht Hr. by exists t. }
  apply live_session_hash in Hh as [y Hy]; [|done].
  destruct (served_sessions l w0 w (fun _ _ => False) Hl) with (id := derive_token_id t) (h := h)
    as [[]|(l1 & x & l2 & w1 & u & -> & Hl1 & He & Hu & Ha & _)]; [done| |by exists y; eapply entry_at_earlier|].
  - intros id h0 [z Hz]. rewrite Hempty in Hz. done.
  - exists l1, x, l2, w1, u. do 2 (split; [done|]). split; [by exists t|]. unfold field_true, field in *.
    rewrite Hu in Hid. rewrite Ha in Had. rewrite py_int_pretty in Hid. split; [congruence|].
    split; [rewrite Had; by destruct (us_is_admin u)|].
    intros t' c rq' Hx. destruct He as (_ & Hle1 & He). rewrite Hx in He.
    destruct He as (e & raw & n & Hp & Hraw & Hn & Hu' & _). apply tbl_get_key in Hu'.
    change (us_id u = n) in Hu'.
    destruct (served_pendings l1 w0 w1 (fun _ _ => False) Hl1) with (d := pending_2fa_digest t') (e := e)
      as [[]|(l3 & x2 & l4 & w2 & -> & Hl3 & un & em & pw & rq2 & u2 & m & Hx2 & Hgiven & _ & _ & ->)].
    + intros d e0. by rewrite Hempty.
    + by eapply entry_at_earlier.
    + exists l3, x2, l4, w2, un, em, pw, rq2, u2. do 4 (split; [done|]). cbn in Hraw. simplify_eq.
      rewrite py_int_pretty in Hn. congruence.
Qed.

(** * Sessions stay listed *)

(** Every session is listed with its owner's, in a list that lives as long. *)
Definition listed (ttl now : Z) (r : redis) (id : string) (e : redis_entry) : Prop :=
  exists h u exp z exp',
    e = mk_redis_entry (RedisHash h) (Some exp) /\ h !! "user_id" = Some (pretty u)
    /\ exp <= now + seconds ttl /\ exp <= exp'
    /\ redis_entry_at now r (user_toks_key u) = Some (mk_redis_entry (RedisZset z) (Some exp'))
    /\ is_Some (z !! id).
Definition all_listed (ttl now : Z) (r : redis) : Prop :=
  (forall id e, redis_entry_at now r (tok_key id) = Some e -> listed ttl now r id e)
  /\ (forall u e, redis_entry_at now r (user_toks_key u) = Some e ->
        exists z exp, e = mk_redis_entry (RedisZset z) (Some exp)).

Lemma all_listed_later ttl now now' r :
  now <= now' -> all_listed ttl now r -> all_listed ttl now' r.
Proof.
  intros Hle [Ht Hz]. split.
  - intros id e He. pose proof (entry_at_earlier _ _ _ _ _ Hle He) as He0.
    destruct (Ht id e He0) as (h & u & exp & z & exp' & -> & Hu & Hb & Hexp & Hlist & Hin).
    exists h, u, exp, z, exp'. repeat (split; [done || lia|]). split; [|done].
    apply entry_at_Some in He as [_ Ha]. apply entry_at_Some in Hlist as [Hl _].
    apply entry_at_Some. split; [done|]. unfold entry_alive in *. cbn in *. lia.
  - intros u e He. by apply (Hz u), (entry_at_earlier now now').
Qed.
(** Keys of neither kind do not matter. *)
Lemma all_listed_same ttl now k r r' :
  same_but k r r' -> (forall id, tok_key id <> k) -> (forall u, user_toks_key u <> k) ->
  all_listed ttl now r -> all_listed ttl now r'.
Proof.
  intros Hs Hk Hu [Ht Hz]. split.
  - intros id e. rewrite (same_but_entry _ _ _ _ _ Hs) by done. intros He.
    destruct (Ht id e He) as (h & u & exp & z & exp' & -> & ? & ? & ? & Hl & ?).
    exists h, u, exp, z, exp'. by rewrite (same_but_entry _ _ _ _ _ Hs) by done.
  - intros u e. rewrite (same_but_entry _ _ _ _ _ Hs) by done. apply Hz.
Qed.
Lemma listed_hash ttl now r id h :
  all_listed ttl now r -> hash_at now r (tok_key id) = Some h -> h = empty ->
  redis_entry_at now r (tok_key id) = None.
Proof.
  intros [Ht _] Hh ->. destruct (redis_entry_at now r (tok_key id)) as [e|] eqn:He; [|done].
  destruct (Ht id e He) as (h & u & exp & z & exp' & -> & Hu & _).
  unfold hash_at in Hh. rewrite He in Hh. cbn in Hh. by simplify_eq.
Qed.
(** A list loses a session that is gone. *)
Lemma all_listed_unlist ttl now r r' u id z e :
  all_listed ttl now r -> redis_entry_at now r (tok_key id) = None ->
  redis_entry_at now r (user_toks_key u) = Some e -> e.(re_value) = RedisZset z ->
  r' = (if decide (delete id z = empty) then delete (user_toks_key u) r
        else <[user_toks_key u := mk_redis_entry (RedisZset (delete id z)) e.(re_expires_at)]> r) ->
  all_listed ttl now r'.
Proof.
  intros [Ht Hz] Hid He Hv ->.
  assert (forall k, k <> user_toks_key u -> redis_entry_at now
    (if decide (delete id z = empty) then delete (user_toks_key u) r
     else <[user_toks_key u := mk_redis_entry (RedisZset (delete id z)) e.(re_expires_at)]> r) k
    = redis_entry_at now r k) as Hother.
  { intros k Hk. case_decide; [by apply entry_at_delete_ne|by apply entry_at_insert_ne]. }
  destruct (Hz u e He) as (z' & x & ->). cbn in Hv. injection Hv as ->. split.
  - intros i ei Hi. rewrite Hother in Hi by done.
    destruct (Ht i ei Hi) as (h & u' & exp & z2 & exp' & -> & Hu & Hb & Hexp & Hl & Hin).
    destruct (decide (u' = u)) as [->|Hne].
    + rewrite He in Hl. injection Hl as -> ->.
      assert (i <> id) as Hii by (intros ->; congruence).
      destruct (decide (delete id z2 = empty)) as [Hemp|Hnemp].
      { exfalso. destruct Hin as [v Hin]. assert (delete id z2 !! i = Some v) as Hd
          by by rewrite lookup_delete_ne. by rewrite Hemp in Hd. }
      exists h, u, exp, (delete id z2), exp'. repeat (split; [done|]). cbn.
      split; [|by rewrite lookup_delete_ne].
      rewrite entry_at_insert. apply entry_at_Some in He as [_ Ha].
      unfold entry_alive in *. cbn in *. by rewrite Ha.
    + exists h, u', exp, z2, exp'. repeat (split; [done|]). split; [|done].
      rewrite Hother; [done|]. by intros ?%user_toks_inj.
  - intros v ev. destruct (decide (v = u)) as [->|Hne].
    + case_decide; [by rewrite entry_at_delete|]. rewrite entry_at_insert. cbn.
      case_match; [|done]. intros [= <-]. by exists (delete id z), x.
    + rewrite Hother by by intros ?%user_toks_inj. apply Hz.
Qed.
Lemma all_listed_mint ttl now r id u ip extra h z :
  all_listed ttl now r -> 1 <= ttl -> Forall session_extra extra ->
  zset_at now r (user_toks_key u.(us_id)) = Some z ->
  all_listed ttl now (minted now id u ttl (hash_update h (session_mapping u ip now ++ extra)) z r).
Proof.
  intros [Ht Hz] Httl Hext Hzset. set (h' := hash_update h _).
  assert (h' !! "user_id" = Some (pretty (us_id u))) as Hid by by apply speaks_for_minted.
  assert (forall v, entry_alive now (mk_redis_entry v (Some (now + seconds ttl))) = true) as Halive.
  { intros v. unfold entry_alive, seconds. cbn. lia. }
  unfold minted, opened. split.
  - intros i e Hi. rewrite entry_at_insert_ne in Hi by done.
    destruct (decide (i = id)) as [->|Hne].
    + rewrite entry_at_insert, Halive in Hi. injection Hi as <-.
      exists h', (us_id u), (now + seconds ttl), (<[id := now]> z), (now + seconds ttl).
      repeat (split; [done || lia|]). rewrite entry_at_insert, Halive. split; [done|].
      rewrite lookup_insert_eq. by eexists.
    + rewrite entry_at_insert_ne in Hi by by intros ?%tok_key_inj.
      destruct (Ht i e Hi) as (h0 & u' & exp & z2 & exp' & -> & Hu & Hb & Hexp & Hl & Hin).
      destruct (decide (u' = us_id u)) as [->|Hnu].
      * exists h0, (us_id u), exp, (<[id := now]> z), (now + seconds ttl). repeat (split; [done || lia|]).
        rewrite entry_at_insert, Halive. split; [done|]. unfold zset_at in Hzset. rewrite Hl in Hzset.
        injection Hzset as <-. by rewrite lookup_insert_ne.
      * exists h0, u', exp, z2, exp'. repeat (split; [done|]). split; [|done].
        by rewrite !entry_at_insert_ne by (done || by intros ?%user_toks_inj).
  - intros v e. destruct (decide (v = us_id u)) as [->|Hne].
    + rewrite entry_at_insert, Halive. intros [= <-]. by eexists _, _.
    + rewrite entry_at_insert_ne by by intros ?%user_toks_inj.
      rewrite entry_at_insert_ne by done. apply Hz.
Qed.

Lemma all_listed_forget ttl now r id : all_listed ttl now r -> all_listed ttl now (delete (tok_key id) r).
Proof.
  intros [Ht Hz]. split.
  - intros i e Hi. destruct (decide (i = id)) as [->|Hne]; [by rewrite entry_at_delete in Hi|].
    rewrite entry_at_delete_ne in Hi by by intros ?%tok_key_inj.
    destruct (Ht i e Hi) as (h & u & exp & z & exp' & Hrest). exists h, u, exp, z, exp'.
    by rewrite entry_at_delete_ne.
  - intros u e. rewrite entry_at_delete_ne by done. apply Hz.
Qed.
Lemma all_listed_touch ttl now r id h e m :
  all_listed ttl now r -> redis_entry_at now r (tok_key id) = Some e -> e.(re_value) = RedisHash h ->
  Forall benign m ->
  all_listed ttl now (<[tok_key id := mk_redis_entry (RedisHash (hash_update h m)) e.(re_expires_at)]> r).
Proof.
  intros [Ht Hz] He Hh Hm. split.
  - intros i ei Hi. destruct (decide (i = id)) as [->|Hne].
    + rewrite entry_at_insert in Hi. case_match; [|done]. injection Hi as <-.
      destruct (Ht id e He) as (h0 & u & exp & z & exp' & -> & Hu & Hrest). cbn in *. simplify_eq.
      exists (hash_update h m), u, exp, z, exp'. split; [done|].
      split; [|by rewrite entry_at_insert_ne].
      rewrite (hash_update_other benign m); [done..|]. by intros v [[=]|[[=]|[=]]].
    + rewrite entry_at_insert_ne in Hi by by intros ?%tok_key_inj.
      destruct (Ht i ei Hi) as (h0 & u & exp & z & exp' & Hrest). exists h0, u, exp, z, exp'.
      by rewrite entry_at_insert_ne.
  - intros u ev. rewrite entry_at_insert_ne by done. apply Hz.
Qed.
Lemma step_listed A now k ttl r r' :
  redis_step A now k r r' -> (forall n u t extra, al_mint A n u t extra -> t = ttl) ->
  all_listed ttl now r -> all_listed ttl now r'.
Proof.
  intros Hstep Hal Hr.
  destruct Hstep as [c r r' _ Hs|d r _|n u r _ _|t r r' Hs|i r|u i r r' z e Hi He Hz Hr'|u r Hu
    |i h0 e m r He Hh Hm|n u t ip extra h0 z r Hm _ Hext Httl Hh Hz|n u t ip extra h0 r Hm _ Hext Httl Hh Hz].
  - by apply (all_listed_same _ _ _ _ _ Hs).
  - by apply (all_listed_same _ _ _ _ _ (same_but_delete (pending_key d) r)).
  - by eapply all_listed_same; [apply same_but_insert|..].
  - by apply (all_listed_same _ _ _ _ _ Hs).
  - by apply all_listed_forget.
  - eapply all_listed_unlist; [done| |done..]. by eapply listed_hash.
  - destruct Hr as [Ht Hz]. split.
    + intros i e. rewrite entry_at_delete_ne by done. intros Hi.
      destruct (Ht i e Hi) as (h & v & exp & z & exp' & -> & ? & ? & ? & Hl & ?).
      exists h, v, exp, z, exp'. rewrite entry_at_delete_ne; [done|]. congruence.
    + intros v e. destruct (decide (u = v)) as [->|Hne]; [by rewrite entry_at_delete|].
      rewrite entry_at_delete_ne by by intros ?%user_toks_inj. apply Hz.
  - by apply all_listed_touch.
  - rewrite (Hal _ _ _ _ Hm). apply all_listed_mint; try done. by rewrite <- (Hal _ _ _ _ Hm).
  - exfalso. destruct Hr as [_ Hl]. unfold zset_at in Hz.
    destruct (redis_entry_at now r _) as [e|] eqn:He; [|done].
    by destruct (Hl _ _ He) as (z & x & ->).
Qed.
Lemma steps_listed A now k ttl r r' :
  rtc (redis_step A now k) r r' -> (forall n u t extra, al_mint A n u t extra -> t = ttl) ->
  all_listed ttl now r -> all_listed ttl now r'.
Proof. intros Hr Hal. induction Hr; [done|]. intros. by eapply IHHr, step_listed. Qed.

Definition impersonates (r : web_request) : bool :=
  match r with Impersonate _ _ => true | _ => false end.
Abbreviation default_ttl := (ttl_of cfg None).
Lemma allowed_ttl now r w n u t extra :
  impersonates r = false -> al_mint (allowed cfg now r w) n u t extra -> t = default_ttl.
Proof. intros Hr (_ & -> & He). by destruct r. Qed.
Lemma serve_listed x w res w' :
  serve cfg x w = (res, w') -> impersonates x.(sd_request) = false ->
  w.(w_sess).(s_now) <= x.(sd_now) ->
  all_listed default_ttl w.(w_sess).(s_now) w.(w_redis) ->
  all_listed default_ttl w'.(w_sess).(s_now) w'.(w_redis).
Proof.
  intros Hs Himp Hle Hl. destruct (serve_footprint cfg x w res w' Hs) as (Hr & -> & _).
  eapply steps_listed; [exact Hr| |by eapply all_listed_later].
  intros n u t extra. by apply allowed_ttl.
Qed.
Lemma served_listed l w w' :
  served_all cfg l w w' -> Forall (fun x => impersonates x.(sd_request) = false) l ->
  all_listed default_ttl w.(w_sess).(s_now) w.(w_redis) ->
  all_listed default_ttl w'.(w_sess).(s_now) w'.(w_redis).
Proof.
  intros Hl. induction Hl as [|x l w w' Hle Hl IH]; [done|]. intros [Hx Hrest]%Forall_cons Hw.
  apply IH; [done|]. destruct (serve cfg x w) as [res w1] eqn:Hs. by eapply serve_listed.
Qed.
Lemma all_listed_empty ttl now : all_listed ttl now empty.
Proof. by split. Qed.

(** * A change of password ends the sessions *)

(** No session of the account is left, but perhaps one. *)
Definition sessions_ended (user_id : Z) (except : option string) (now : Z) (r : redis) : Prop :=
  forall id h, hash_at now r (tok_key id) = Some h -> h !! "user_id" = Some (pretty user_id) ->
    except = Some id.
Lemma revoke_ends ttl user_id except w (Q : Z -> web -> Prop) (R : exn -> web -> Prop) :
  all_listed ttl w.(w_sess).(s_now) w.(w_redis) ->
  (forall n w', w'.(w_sess) = w.(w_sess) ->
     sessions_ended user_id except w.(w_sess).(s_now) w'.(w_redis) -> Q n w') ->
  (forall e w', R e w') ->
  wp (revoke_all_sessions user_id except) Q R w.
Proof.
  intros Hl HQ HR. unfold revoke_all_sessions. set (now := s_now (w_sess w)) in *.
  apply wp_bind, wp_cmd_at with now; [done|by intros|]. intros _ ids r Hok.
  destruct (zset_at now _ _) as [z|] eqn:Hz; [|done]. injection Hok as <- <-.
  set (gone := fun done_ids (w' : web) => w'.(w_sess) = w.(w_sess) /\
    (forall id e, redis_entry_at now w'.(w_redis) (tok_key id) = Some e ->
       redis_entry_at now w.(w_redis) (tok_key id) = Some e) /\
    (forall id, In id done_ids -> except <> Some id -> redis_entry_at now w'.(w_redis) (tok_key id) = None)).
  assert (forall ids seen n w', gone seen w' ->
    wp (fold_each ids n (fun revoked token_id =>
      if str_true except && (Some token_id == except) then ret revoked
      else redis_delete (tok_key token_id) ;;;
           redis_zrem (user_toks_key user_id) token_id ;;; ret (revoked + 1)))
    (fun _ w' => gone (seen ++ ids) w') (fun _ _ => True) w') as Hloop.
  { clear HQ HR. induction ids as [|id ids IH]; intros seen n w' Hw'; cbn [fold_each].
    - by rewrite app_nil_r.
    - rewrite cons_middle, app_assoc. apply wp_bind.
      destruct Hw' as (Hs & Hsub & Hgone). destruct (str_true except && (Some id == except)) eqn:Hex.
      + apply wp_ret, IH. split; [done|]. split; [done|]. intros i Hi Hne.
        apply in_app_or in Hi as [Hi|[<-|[]]]; [by apply Hgone|].
        apply andb_true_iff in Hex as [_ Hex]. apply (proj1 (py_eq_true _ _)) in Hex. congruence.
      + apply wp_bind, wp_cmd_at with now; [by rewrite Hs|done|]. intros _ [] r' [= <-].
        apply wp_bind. apply wp_cmd_at with now; [cbn; by rewrite Hs|done|]. intros _ [] r2 Hok.
        apply wp_ret, IH. cbn in Hok.
        assert (forall i, redis_entry_at now r2 (tok_key i)
          = redis_entry_at now (delete (tok_key id) (w_redis w')) (tok_key i)) as Hsame.
        { intros i. unfold redis_put in Hok. repeat case_match; simplify_eq;
            first [by apply entry_at_delete_ne|by apply entry_at_insert_ne]. }
        split; [done|]. cbn. setoid_rewrite Hsame. split.
        * intros i e Hi. apply Hsub. destruct (decide (i = id)) as [->|Hne];
            [by rewrite entry_at_delete in Hi|].
          by rewrite entry_at_delete_ne in Hi by by intros ?%tok_key_inj.
        * intros i Hi Hne. destruct (decide (i = id)) as [->|Hni]; [apply entry_at_delete|].
          rewrite entry_at_delete_ne by by intros ?%tok_key_inj.
          apply in_app_or in Hi as [Hi|[<-|[]]]; [by apply Hgone|done]. }
  eapply wp_conseq; [apply (Hloop (zset_reverse z) [] 0)|..].
  - by destruct w.
  - intros n w' (Hs & Hsub & Hgone). apply HQ; [done|]. intros id h Hh Hu.
    destruct (decide (except = Some id)) as [|Hne]; [done|exfalso].
    unfold hash_at in Hh. destruct (redis_entry_at now (w_redis w') (tok_key id)) as [e|] eqn:He;
      [|by simplify_eq].
    destruct Hl as [Ht _]. destruct (Ht id e (Hsub id e He)) as (h0 & u & exp & z0 & exp' & -> & Hu0 & _ & _ & Hlist & Hin).
    cbn in Hh. simplify_eq.
    unfold zset_at in Hz. rewrite Hlist in Hz. cbn in Hz. simplify_eq.
    rewrite (Hgone id) in He; [done| |done]. cbn. by apply zset_reverse_In.
  - done.
Qed.

(** A handler's part before the sessions are ended. *)
Definition no_session : allowance :=
  mk_allowance (fun _ => True) (fun _ => True) (fun _ _ => True) (fun _ _ _ _ => False).
Abbreviation before now r0 k0 := (reach no_session now r0 k0).
Lemma before_listed now r0 k0 w :
  before now r0 k0 w -> all_listed default_ttl now r0 ->
  all_listed default_ttl w.(w_sess).(s_now) w.(w_redis).
Proof. intros (-> & Hr & _) Hl. by eapply steps_listed. Qed.
Lemma wp_prefix {B C} now r0 k0 (m : Web B) (k : B -> Web C) Q w :
  keeps (before now r0 k0) m -> before now r0 k0 w ->
  (forall a w', before now r0 k0 w' -> wp (k a) Q (fun _ _ => True) w') ->
  wp (bind m k) Q (fun _ _ => True) w.
Proof. intros Hm Hw Hk. by apply wp_bind, (wp_keeps (before now r0 k0)). Qed.
Lemma wp_revoke now r0 k0 {C} user_id except (k : Z -> Web C) Q w :
  before now r0 k0 w -> all_listed default_ttl now r0 ->
  (forall n w', w'.(w_sess).(s_now) = now -> sessions_ended user_id except now w'.(w_redis) ->
     wp (k n) Q (fun _ _ => True) w') ->
  wp (n <- revoke_all_sessions user_id except ;; k n) Q (fun _ _ => True) w.
Proof.
  intros Hw Hl Hk. pose proof (before_listed _ _ _ _ Hw Hl) as Hlw. destruct Hw as (Hn & _).
  apply wp_bind, revoke_ends with default_ttl; [done| |done].
  intros n w' Hs Hend. apply Hk; [by rewrite Hs|by rewrite <- Hn].
Qed.
Lemma wp_db_any {B} (m : Meth B) (Q : B -> web -> Prop) (R : exn -> web -> Prop) w :
  (forall a s, Q a (w <|w_sess := s|>)) -> (forall e s, R e (w <|w_sess := s|>)) ->
  wp (in_db m) Q R w.
Proof. intros HQ HR. apply wp_in_db. unfold wp. by destruct (m _) as [[a|e] s]. Qed.

Abbreviation ends uid except now := (fun _ w' => sessions_ended uid except now w'.(w_redis)).
Lemma confirm_reset_ends t p w row now r0 k0 :
  before now r0 k0 w -> all_listed default_ttl now r0 ->
  reset_by_hash (sha256_hex (str_strip t)) w.(w_sess).(s_db) = [row] ->
  wp (confirm_password_reset t p) (ends row.(rt_user_id) None now) (fun _ _ => True) w.
Proof.
  intros Hw Hl Hrow. unfold confirm_password_reset. apply wp_bind, wp_gets. rewrite Hrow.
  apply wp_bind, wp_ret, wp_bind, wp_ret. apply wp_bind, wp_gets.
  apply wp_bind, wp_throw_if; [done|]. intros _. apply wp_bind, wp_gets.
  apply wp_bind, wp_unwrap; [done|]. intros u Hu%tbl_get_key. change (us_id u = rt_user_id row) in Hu.
  rewrite <- Hu. unfold value_error_is_400.
  eapply wp_prefix; [|done|]; [apply keeps_try; [apply set_password_footprint|intros; foot_tac]|].
  intros _ w1 Hw1. eapply wp_prefix; [|done|]; [foot_tac|]. intros _ w2 Hw2.
  eapply wp_revoke; [done..|]. done.
Qed.

(** The account whose password a request changes, and the session that may
    stay: the one a user changes the own password from. *)
Inductive changes_password (x : served) (w : web) : Z -> option string -> Prop :=
| by_reset t p rq row :
    x.(sd_request) = ResetConfirm t p rq \/ x.(sd_request) = CommerceResetConfirm t p ->
    reset_by_hash (sha256_hex (str_strip t)) w.(w_sess).(s_committed) = [row] ->
    changes_password x w row.(rt_user_id) None
| by_staff user_id p rq :
    x.(sd_request) = SetClientPassword user_id p rq -> changes_password x w user_id None
| by_admin admin_id e p q rq :
    x.(sd_request) = UpdateAdmin admin_id e p q rq -> str_true p = true ->
    changes_password x w admin_id None
| by_owner p q rq t h user_id :
    x.(sd_request) = ChangePassword p q rq -> request_token rq = Some t ->
    hash_at x.(sd_now) w.(w_redis) (tok_key (derive_token_id t)) = Some h ->
    py_int (field h "user_id" "0") = Some user_id ->
    changes_password x w user_id
      (if str_true (own_token_or_cookie rq)
       then Some (derive_token_id (str_or (own_token_or_cookie rq) "")) else None).

Lemma request_ends x w uid except :
  changes_password x w uid except -> all_listed default_ttl x.(sd_now) w.(w_redis) ->
  wp (handle cfg x.(sd_request)) (ends uid except x.(sd_now)) (fun _ _ => True)
    (begin_request x.(sd_now) x.(sd_redis_up) w).
Proof.
  intros Hch Hl. set (now := sd_now x) in *. set (w0 := begin_request _ _ w).
  assert (before now w.(w_redis) w.(w_drawn) w0) as Hw0 by done.
  assert (forall k, (forall d, k <> challenge_limit d) -> al_counter no_session k) as Hc by done.
  destruct Hch as [t p rq row [Hx|Hx] Hrow|u p rq Hx|a e p q rq Hx Hp|p q rq t h uid Hx Ht Hh Huid];
    rewrite Hx; unfold handle, done; apply wp_bind.
  - unfold password_reset_confirm. apply wp_bind, wp_part with no_session now w.(w_redis) w.(w_drawn);
      [by apply enforce_footprint|apply enforce_sess|done| |done].
    intros _ w1 Hw1 Hs1. apply wp_bind. eapply wp_conseq; [eapply confirm_reset_ends|..];
      [done|done|by rewrite Hs1|done|done].
  - unfold commerce_password_reset_confirm, require_commerce_enabled. apply wp_bind, wp_throw_if; [done|].
    intros _. apply wp_bind. eapply wp_conseq; [by eapply confirm_reset_ends|done|done].
  - unfold set_client_password. eapply wp_prefix; [by apply require_admin_footprint|done|].
    intros _ w1 Hw1. unfold client_account. apply wp_bind, wp_bind, wp_gets.
    destruct (user_by_id u _) as [v|] eqn:Hv; [|done]. apply tbl_get_key in Hv. change (us_id v = u) in Hv.
    apply wp_bind, wp_throw_if; [done|]. intros _. apply wp_ret. rewrite Hv.
    eapply wp_prefix; [|done|]; [apply keeps_try; [apply set_password_footprint|intros; foot_tac]|].
    intros _ w2 Hw2. eapply wp_prefix; [|done|]; [foot_tac|]. intros _ w3 Hw3.
    eapply wp_revoke; [done..|]. intros _ w4 _ Hend. by apply wp_db_any.
  - unfold update_admin. eapply wp_prefix; [by apply require_admin_footprint|done|].
    intros auth w1 Hw1. eapply wp_prefix; [by apply admin_account_footprint|done|]. intros v w2 Hw2.
    eapply wp_prefix; [foot_tac|done|]. intros _ w3 Hw3. rewrite Hp.
    eapply wp_prefix; [|done|].
    { apply keeps_bind; [by apply confirm_actor_footprint|]. intros _.
      apply keeps_try; [apply set_password_footprint|intros; foot_tac]. }
    intros _ w4 Hw4. eapply wp_prefix; [foot_tac|done|]. intros _ w5 Hw5.
    eapply wp_revoke; [done..|]. intros _ w6 _ Hend. by apply wp_db_any.
  - unfold change_password. apply wp_bind, wp_current_user with no_session now w.(w_redis) w.(w_drawn);
      [done| |by intros; apply wp_bind|done].
    intros t' s w1 Hw1 Hs1 Ht' (h' & Hh' & _ & Hu & _). rewrite Ht in Ht'. injection Ht' as <-.
    change (w_redis w0) with (w_redis w) in Hh'. fold now in Hh.
    assert (h' = h) as -> by congruence. assert (sa_user_id s = uid) as Hsu by congruence.
    apply wp_bind, wp_unwrap; [done|]. intros n Hn. cbn in Hn. case_match; [done|].
    injection Hn as <-. rewrite Hsu. apply wp_bind, wp_gets, wp_bind, wp_unwrap; [done|].
    intros v Hv%tbl_get_key. change (us_id v = uid) in Hv.
    apply wp_bind, wp_throw_if; [done|]. intros _. rewrite Hv.
    eapply wp_prefix; [|done|]; [apply keeps_try; [apply set_password_footprint|intros; foot_tac]|].
    intros _ w2 Hw2. eapply wp_prefix; [|done|]; [foot_tac|]. intros _ w3 Hw3.
    eapply wp_revoke; [done..|]. intros _ w4 _ Hend. by apply wp_db_any.
Qed.

(** C11. A change of password ends the sessions.  Let any requests be served,
    in any order, to a server whose Redis starts empty, none of them an
    impersonation.  When a password is then reset by a link, set by staff or
    changed by its owner, and the request succeeds, no session of that account
    is left, except the one the owner changed it from. *)
Theorem password_change_ends_sessions l w0 w x res w' uid except :
  w0.(w_redis) = empty -> served_all cfg l w0 w ->
  Forall (fun y => impersonates y.(sd_request) = false) l ->
  w.(w_sess).(s_now) <= x.(sd_now) -> changes_password x w uid except ->
  serve cfg x w = (Ok res, w') ->
  sessions_ended uid except w'.(w_sess).(s_now) w'.(w_redis).
Proof.
  intros Hempty Hl Himp Hle Hch Hs.
  assert (all_listed default_ttl x.(sd_now) w.(w_redis)) as Hlist.
  { eapply all_listed_later; [done|]. eapply served_listed; [done..|].
    rewrite Hempty. apply all_listed_empty. }
  pose proof (request_ends x w uid except Hch Hlist) as H. unfold serve, request in Hs.
  unfold wp in H. destruct (handle cfg _ _) as [[r|e] w1] eqn:E; [|done].
  injection Hs as _ <-. cbn.
  destruct (serve_footprint cfg x w (Ok r) (end_request w1)) as (_ & Hn & _);
    [unfold serve, request; by rewrite E|]. cbn in Hn. by rewrite Hn.
Qed.
End Sessions.

(** * At a concrete server *)

#[local] Existing Instance sample_auth_lib.

(** [bob] signs in with the password and a code. *)
Definition bob_signs_in : list served :=
  [at_minute 0 (Login (Some "bob") None "open sesame" (from_browser None));
   at_minute 1 (Login2fa "t0" "60" (from_browser None))].
Definition after_bob : web := run_all sample_settings bob_signs_in sample_web.

Lemma callers_are_earned_witness :
  let '(r, w') := get_current_user sample_settings (from_browser (Some "t1"))
      (begin_request (unix_epoch + seconds 120) true after_bob) in
  exists s l1 x l2 w1 u, r = Ok (UserAuth s) /\ bob_signs_in = l1 ++ x :: l2
    /\ earned_by sample_settings x w1 "#t1" u /\ s.(sa_user_id) = u.(us_id).
Proof.
  destruct (get_current_user sample_settings _ _) as [r w'] eqn:E.
  assert (exists s, r = Ok (UserAuth s)) as [s Hr].
  { apply (f_equal fst) in E. vm_compute in E. eexists. symmetry. exact E. }
  rewrite Hr in E.
  destruct (callers_are_earned sample_settings bob_signs_in sample_web after_bob
    (unix_epoch + seconds 120) true (from_browser (Some "t1")) s w')
    as (l1 & x & l2 & w1 & u & Hl & _ & (t & Ht & He) & Hu & _).
  - done.
  - by apply in_order_served.
  - by apply Z.leb_le.
  - exact E.
  - exists s, l1, x, l2, w1, u. injection Ht as <-. exact (conj Hr (conj Hl (conj He Hu))).
Defined.

(** [alice] signs in twice and changes the password from the second session. *)
Definition alice_signs_in : served :=
  at_minute 0 (Login (Some "alice") None "battery staple" (from_browser None)).
Definition alice_changes : served :=
  at_minute 5 (ChangePassword "battery staple" "tr0ub4dor&3" (from_browser (Some "t1"))).
Definition after_alice : web := run_all sample_settings [alice_signs_in; alice_signs_in] sample_web.

Lemma password_change_ends_sessions_witness :
  let '(r, w') := serve sample_settings alice_changes after_alice in
  r = Ok ReplyDone /\ sessions_ended 2 (Some "#t1") w'.(w_sess).(s_now) w'.(w_redis).
Proof.
  destruct (serve sample_settings alice_changes after_alice) as [r w'] eqn:E.
  assert (r = Ok ReplyDone) as Hr by (apply (f_equal fst) in E; vm_compute in E; by symmetry).
  split; [done|]. rewrite Hr in E.
  apply (password_change_ends_sessions sample_settings [alice_signs_in; alice_signs_in] sample_web
    after_alice alice_changes ReplyDone w' 2 (Some "#t1")).
  - done.
  - by apply in_order_served.
  - by repeat constructor.
  - by apply Z.leb_le.
  - destruct (hash_at (sd_now alice_changes) (w_redis after_alice) (tok_key (derive_token_id "t1")))
      as [h|] eqn:Hh; [|vm_compute in Hh; discriminate].
    assert (h !! "user_id" = Some "2") as Hu.
    { apply (f_equal (fun o => o ≫= (.!! "user_id"))) in Hh. vm_compute in Hh. exact (eq_sym Hh). }
    assert (py_int (field h "user_id" "0") = Some 2) as Hid by (unfold field; rewrite Hu; reflexivity).
    exact (by_owner alice_changes after_alice "battery staple" "tr0ub4dor&3" (from_browser (Some "t1"))
      "t1" h 2 eq_refl eq_refl Hh Hid).
  - exact E.
Defined.

(** ** What the sessions allow *)

Definition root_signs_in : served :=
  at_minute 0 (Login (Some "root") None "correct horse" (from_browser None)).
Definition as_root (r : http_request -> web_request) : web_request := r (from_browser (Some "t0")).
Definition answers {A} (o : outcome exn A * web) : bool :=
  match fst o with Ok _ => true | Raise _ => false end.
Definition seen_at (n : Z) (cookie : string) (w : web) :=
  get_current_user sample_settings (from_browser (Some cookie))
    (begin_request (unix_epoch + seconds (60 * n)) true w).

(** An impersonation cuts the list of the client's sessions short: when the
    list has expired, a new password leaves the client's session signed in. *)
Lemma impersonation_shields_sessions :
  answers (seen_at 21 "t1" (run_all sample_settings
    [root_signs_in; alice_signs_in; at_minute 1 (as_root (Impersonate 2));
     at_minute 20 (as_root (SetClientPassword 2 (Some "new password")))] sample_web)) = true
  /\ answers (seen_at 21 "t1" (run_all sample_settings
    [root_signs_in; alice_signs_in;
     at_minute 20 (as_root (SetClientPassword 2 (Some "new password")))] sample_web)) = false.
Proof. split; vm_compute; reflexivity. Qed.

(** The session of a staff account outlives the account. *)
Lemma deleted_admin_stays_signed_in :
  answers (require_admin sample_settings (from_browser (Some "t2"))
    (begin_request (unix_epoch + seconds 300) true (run_all sample_settings
      [root_signs_in; at_minute 1 (as_root (CreateAdmin "eve" "eve@example.com" "evil genius"));
       at_minute 2 (Login (Some "eve") None "evil genius" (from_browser None));
       at_minute 3 (as_root (DeleteAdmin 4))] sample_web))) = true.
Proof. vm_compute. reflexivity. Qed.

(** A sign-out that shows credentials of another scheme leaves the session of
    its cookie signed in. *)
Lemma basic_header_hides_the_cookie :
  answers (seen_at 2 "t0" (run_all sample_settings
    [alice_signs_in;
     at_minute 1 (Logout (mk_http_request (Some "10.0.0.7") None (Some "Basic YWxpY2U=")
                            (Some "t0") "/api/users/logout"))] sample_web)) = true.
Proof. vm_compute. reflexivity. Qed.

(** Two redemptions of a ticket that both look before either claims it both
    succeed: the delete of the first undoes its claim. *)
Lemma ticket_redeemed_twice :
  let both : Web (option Z * option Z) :=
    token <- mint_sso_ticket sample_settings 2 None ;;
    seen <- read_ticket token ;;
    seen' <- read_ticket token ;;
    first <- claim_ticket token seen ;;
    second <- claim_ticket token seen' ;;
    ret (first, second) in
  fst (both sample_web) = Ok (Some 2, Some 2).
Proof. vm_compute. reflexivity. Qed.
