(* ===== verification/Guesses.v ===== *)
(** Second steps of a login: at most five codes are ever tried for one. *)
From Stdlib Require Import ZArith Lia Ascii.
From stdpp Require Import base numbers list strings pretty gmap relations.
From S2P Require Import Prelude Calendar Models Session Redis Auth TwoFactor Accounts Portal Footprints Sessions.
#[local] Open Scope Z_scope.
#[local] Open Scope py_scope.

(** The counter of a second step. *)
Definition counter_key (d : string) : string := RATE_LIMIT_KEY_PREFIX +:+ challenge_limit d.
Lemma counter_key_inj k d : RATE_LIMIT_KEY_PREFIX +:+ k = counter_key d -> k = challenge_limit d.
Proof. by intros [=]. Qed.
Lemma pending_key_inj d d' : pending_key d = pending_key d' -> d = d'.
Proof. by intros [=]. Qed.

Section Guesses.
Context {L : AuthLib} {LL : AuthLaws L} (cfg : auth_settings).

(** * What is known of one second step *)

Section Step.
Context (d : string).

(** It was never tried; it is gone; it was tried [k] times or less, and its
    counter lives as long as it does. *)
Definition untried (now : Z) (r : redis) : Prop :=
  r !! counter_key d = None /\
  forall e, redis_entry_at now r (pending_key d) = Some e ->
    exists t, e.(re_expires_at) = Some t /\ t <= now + seconds PENDING_2FA_TTL_SECONDS.
Definition gone (now : Z) (r : redis) : Prop := redis_entry_at now r (pending_key d) = None.
Definition tried (k : nat) (now : Z) (r : redis) : Prop :=
  exists e t m x, redis_entry_at now r (pending_key d) = Some e /\ e.(re_expires_at) = Some t
    /\ redis_entry_at now r (counter_key d) = Some (mk_redis_entry (RedisString (pretty (m : Z))) (Some x))
    /\ t <= x /\ Z.of_nat k <= m /\ 1 <= m.
Definition drawn_before (n : nat) : Prop :=
  exists m, (m < n)%nat /\ d = pending_2fa_digest (token_urlsafe m).
Definition guesses_are (k : nat) (now : Z) (r : redis) (drawn : nat) : Prop :=
  (k <= 5)%nat
  /\ ((k = O /\ untried now r) \/ (drawn_before drawn /\ (gone now r \/ tried k now r)))
  /\ (forall e, redis_entry_at now r (pending_key d) = Some e ->
        drawn_before drawn /\ exists s, e.(re_value) = RedisString s).

Lemma digest_inj m n :
  pending_2fa_digest (token_urlsafe m) = pending_2fa_digest (token_urlsafe n) -> m = n.
Proof. intros H%sha256_inj. by apply token_urlsafe_inj. Qed.
Lemma drawn_before_mono m n : (m <= n)%nat -> drawn_before m -> drawn_before n.
Proof. intros Hle (k & Hk & ->). exists k. split; [lia|done]. Qed.

(** Steps that leave the second step's own keys alone. *)
Definition elsewhere (now : Z) (r r' : redis) : Prop :=
  r' !! counter_key d = r !! counter_key d
  /\ redis_entry_at now r' (pending_key d) = redis_entry_at now r (pending_key d).
Lemma step_elsewhere A now k r r' :
  redis_step A now k r r' -> ~ al_counter A (challenge_limit d) -> ~ al_pending A d ->
  elsewhere now r r' \/
  exists n u, al_challenge A n u /\ (n < k)%nat /\ d = pending_2fa_digest (token_urlsafe n)
    /\ r' = challenged now d u r.
Proof.
  intros Hstep Hc Hp.
  destruct Hstep as [c r r' Hal Hs|d' r Hal|n u r Hal Hk|t r r' Hs|i r|u i r r' z e' _ _ _ ->|u r _
    |i h0 e' m r _ _ _|n u ttl ip extra h0 z r _ _ _ _ _ _|n u ttl ip extra h0 r _ _ _ _ _ _];
    unfold minted, opened, challenged, elsewhere in *.
  3: destruct (decide (d = pending_2fa_digest (token_urlsafe n))) as [->|Hne];
    [right; by exists n, u|].
  all: left.
  - assert (counter_key d <> RATE_LIMIT_KEY_PREFIX +:+ c) as Hne.
    { intros H%eq_sym%counter_key_inj. congruence. }
    split; [by apply Hs|by apply (same_but_entry _ _ _ _ _ Hs)].
  - split; [by rewrite lookup_delete_ne|]. apply entry_at_delete_ne. intros H%pending_key_inj. congruence.
  - split; [by rewrite lookup_insert_ne|]. apply entry_at_insert_ne. intros H%pending_key_inj. congruence.
  - split; [by apply Hs|by apply (same_but_entry _ _ _ _ _ Hs)].
  - split; [by rewrite lookup_delete_ne|by rewrite entry_at_delete_ne].
  - case_decide; (split; [by rewrite ?lookup_delete_ne, ?lookup_insert_ne|]);
      [by apply entry_at_delete_ne|by apply entry_at_insert_ne].
  - split; [by rewrite lookup_delete_ne|by rewrite entry_at_delete_ne].
  - split; [by rewrite lookup_insert_ne|by rewrite entry_at_insert_ne].
  - split; [by rewrite !lookup_insert_ne|by rewrite !entry_at_insert_ne].
  - split; [by rewrite lookup_insert_ne|by rewrite entry_at_insert_ne].
Qed.
Lemma elsewhere_same now r r' : elsewhere now r r' ->
  (untried now r -> untried now r') /\ (gone now r -> gone now r')
  /\ (forall k, tried k now r -> tried k now r').
Proof.
  intros [Hc Hp]. split; [|split].
  - intros [Hu Ht]. split; [by rewrite Hc|]. intros e. rewrite Hp. apply Ht.
  - unfold gone. by rewrite Hp.
  - intros k (e & t & m & x & H1 & H2 & H3 & Hrest). exists e, t, m, x.
    rewrite Hp. unfold redis_entry_at at 2. by rewrite Hc.
Qed.

(** Steps that touch neither the counter nor the second step, and can only
    open it anew. *)
Lemma steps_guesses A now k0 k1 n r r' :
  rtc (redis_step A now k1) r r' -> (k0 <= k1)%nat ->
  ~ al_counter A (challenge_limit d) -> ~ al_pending A d ->
  (forall n u, al_challenge A n u -> (k0 <= n)%nat) ->
  guesses_are n now r k0 -> guesses_are n now r' k1.
Proof.
  intros Hr Hk Hc Hp Hch (Hn & Hcase & Hdrawn).
  assert (((n = O /\ untried now r') \/ (drawn_before k0 /\ (gone now r' \/ tried n now r')))
    /\ (forall e, redis_entry_at now r' (pending_key d) = Some e ->
          drawn_before k1 /\ exists s, e.(re_value) = RedisString s)) as [H1 H2].
  { assert (forall e, redis_entry_at now r (pending_key d) = Some e ->
      drawn_before k1 /\ exists s, e.(re_value) = RedisString s) as Hd1.
    { intros e He. destruct (Hdrawn e He) as [? ?]. split; [by eapply drawn_before_mono|done]. }
    clear Hdrawn. induction Hr as [|r r1 r2 Hs _ IH]; [done|].
    destruct (step_elsewhere _ _ _ _ _ Hs Hc Hp) as [He|(m & u & Hm & Hlt & Hd & ->)].
    - destruct (elsewhere_same _ _ _ He) as (Eu & Eg & Et). apply IH.
      + destruct Hcase as [[? ?]|[? [?|?]]]; [left|right..]; auto.
      + intros e. destruct He as [_ ->]. apply Hd1.
    - apply IH.
      + destruct Hcase as [[-> [Hu Ht]]|[(j & Hj & Hdj) _]].
        * left. split; [done|]. split; [by unfold challenged; rewrite lookup_insert_ne|].
          intros e. unfold challenged. rewrite entry_at_insert. case_match; [|done].
          intros [= <-]. cbn. eexists. by split; [done|].
        * exfalso. rewrite Hd in Hdj. apply digest_inj in Hdj. specialize (Hch _ _ Hm). lia.
      + intros e. unfold challenged. rewrite entry_at_insert. case_match; [|done].
        intros [= <-]. split; [by exists m|by eexists]. }
  split; [done|]. split; [|done]. destruct H1 as [?|[? ?]]; [by left|right].
  split; [by eapply drawn_before_mono|done].
Qed.
Lemma guesses_later n now now' r k :
  now <= now' -> guesses_are n now r k -> guesses_are n now' r k.
Proof.
  intros Hle (Hn & Hcase & Hd). split; [done|]. split.
  - destruct Hcase as [[-> [Hu Ht]]|[Hk [Hg|Htr]]].
    + left. split; [done|]. split; [done|]. intros e He.
      destruct (Ht e) as (t & ? & ?); [by eapply entry_at_earlier|]. exists t. split; [done|lia].
    + right. split; [done|]. left. unfold gone in *.
      destruct (redis_entry_at now' r _) as [e|] eqn:He; [|done].
      by rewrite (entry_at_earlier _ _ _ _ _ Hle He) in Hg.
    + right. split; [done|]. destruct (redis_entry_at now' r (pending_key d)) as [e|] eqn:He; [right|by left].
      destruct Htr as (e' & t & m & x & H1 & H2 & H3 & Hx & Hm).
      rewrite (entry_at_earlier _ _ _ _ _ Hle He) in H1. simplify_eq.
      exists e', t, m, x. split; [done|]. split; [done|]. split; [|done].
      apply entry_at_Some in He as [_ Ha]. apply entry_at_Some in H3 as [H3 _].
      apply entry_at_Some. split; [done|]. unfold entry_alive in *. rewrite H2 in Ha. cbn in *. lia.
  - intros e He. by eapply Hd, entry_at_earlier.
Qed.

Lemma guesses_elsewhere now r r' k n :
  elsewhere now r r' -> guesses_are k now r n -> guesses_are k now r' n.
Proof.
  intros He (Hk & Hcase & Hd). destruct (elsewhere_same _ _ _ He) as (Eu & Eg & Et).
  split; [done|]. split; [|by destruct He as [_ ->]].
  destruct Hcase as [[? ?]|[? [?|?]]]; [left|right..]; auto.
Qed.
Lemma guesses_weaken now r k n : guesses_are (S k) now r n -> guesses_are k now r n.
Proof.
  intros (Hk & Hcase & Hd). split; [lia|]. split; [|done].
  destruct Hcase as [[? _]|[Hn [Hg|(e & t & m & x & H1 & H2 & H3 & Hx & Hm & H4)]]]; [done|right; auto|].
  right. split; [done|]. right. exists e, t, m, x. repeat (split; [done || lia|]). lia.
Qed.
Lemma guesses_gone now r k n : (k <= 5)%nat -> drawn_before n -> gone now r -> guesses_are k now r n.
Proof.
  intros Hk Hn Hg. split; [done|]. split; [right; auto|]. intros e He. unfold gone in Hg. congruence.
Qed.

(** ** One guess *)

(** A counter of another name. *)
Definition aside (w w' : web) : Prop :=
  elsewhere w.(w_sess).(s_now) w.(w_redis) w'.(w_redis)
  /\ w'.(w_sess) = w.(w_sess) /\ w'.(w_drawn) = w.(w_drawn).
Lemma enforce_aside key m t w :
  key <> challenge_limit d ->
  wp (enforce_rate_limit key m t) (fun _ => aside w)
    (fun e w' => e = HTTPException 429 /\ aside w w') w.
Proof.
  intros Hkey. assert (RATE_LIMIT_KEY_PREFIX +:+ key <> counter_key d) as Hne.
  { intros H%counter_key_inj. congruence. }
  assert (forall B (f : Z -> redis -> outcome exn (B * redis)),
    (forall now r a r', f now r = Ok (a, r') ->
       forall k, k <> RATE_LIMIT_KEY_PREFIX +:+ key -> r' !! k = r !! k) ->
    keeps (aside w) (redis_cmd f)) as Hcmd.
  { intros B f Hf w1 ([Hc Hp] & Hs & Hd). apply wp_redis_cmd; [done|done|]. intros a r _ Hok.
    split; [|done]. split; cbn.
    - rewrite (Hf _ _ _ _ Hok); [done|]. congruence.
    - rewrite <- Hp. unfold redis_entry_at. by rewrite (Hf _ _ _ _ Hok). }
  unfold enforce_rate_limit. apply wp_bind, wp_try_catch.
  assert (aside w w) as Hw by done.
  eapply wp_conseq; [apply (keeps_bind (aside w)); [|intros n; apply keeps_bind; [|intros; apply keeps_ret]|exact Hw]|..].
  - apply Hcmd. intros now r a r' Hok k Hk. unfold redis_put in *. repeat case_match; simplify_eq;
      by rewrite lookup_insert_ne.
  - case_match; [|apply keeps_ret]. apply Hcmd. intros now r a r' Hok k Hk.
    repeat case_match; simplify_eq; by rewrite ?lookup_insert_ne, ?lookup_delete_ne.
  - intros [n|] w1 Hw1; [|done]. by apply wp_throw_if.
  - intros e w1 Hw1. by apply wp_ret, wp_ret.
Qed.
(** The counter of the second step itself. *)
Lemma enforce_challenge k w e :
  w.(w_redis_up) = true ->
  redis_entry_at w.(w_sess).(s_now) w.(w_redis) (pending_key d) = Some e ->
  guesses_are k w.(w_sess).(s_now) w.(w_redis) w.(w_drawn) ->
  wp (enforce_rate_limit (challenge_limit d) PENDING_2FA_MAX_ATTEMPTS PENDING_2FA_TTL_SECONDS)
    (fun _ w' => w'.(w_sess) = w.(w_sess) /\ w'.(w_drawn) = w.(w_drawn)
       /\ guesses_are (S k) w.(w_sess).(s_now) w'.(w_redis) w.(w_drawn))
    (fun x w' => x = HTTPException 429 /\ w'.(w_sess) = w.(w_sess) /\ w'.(w_drawn) = w.(w_drawn)
       /\ guesses_are k w.(w_sess).(s_now) w'.(w_redis) w.(w_drawn)) w.
Proof.
  intros Hup He (Hk & Hcase & Hd). set (now := s_now (w_sess w)) in *.
  assert (forall c, redis_entry_at now (<[counter_key d := c]> (w_redis w)) (pending_key d) = Some e) as Hp.
  { intros c. by rewrite entry_at_insert_ne. }
  destruct (Hd e He) as [Hdrawn Hs].
  assert (forall c j, (j <= 5)%nat ->
    tried j now (<[counter_key d := c]> (w_redis w)) ->
    guesses_are j now (<[counter_key d := c]> (w_redis w)) (w_drawn w)) as Hmk.
  { intros c j Hj Ht. split; [done|]. split; [by right; split; [|right]|].
    intros e'. rewrite Hp. intros [= <-]. by split. }
  unfold wp, enforce_rate_limit, bind, try_catch, redis_incr, redis_expire, redis_cmd. rewrite Hup. cbn.
  fold now. change (RATE_LIMIT_KEY_PREFIX +:+ challenge_limit d) with (counter_key d).
  destruct Hcase as [[-> [Hc Ht]]|[_ [Hg|(e' & t & m & x & H1 & H2 & H3 & Hx & Hm & Hm1)]]].
  - assert (redis_entry_at now (w_redis w) (counter_key d) = None) as Hnone.
    { unfold redis_entry_at. by rewrite Hc. }
    rewrite Hnone. cbn. rewrite Hup. cbn. fold now. rewrite entry_at_put_alive. cbn.
    rewrite insert_put. split; [done|]. split; [done|]. apply Hmk; [lia|].
    destruct (Ht e He) as (t & Hte & Hle). exists e, t, 1, (now + seconds PENDING_2FA_TTL_SECONDS).
    split; [apply Hp|]. split; [done|]. rewrite entry_at_insert. split; [|lia].
    unfold entry_alive, seconds, PENDING_2FA_TTL_SECONDS. cbn.
    by assert ((now <=? now + 300 * 1000000) = true) as -> by lia.
  - unfold gone in Hg. congruence.
  - rewrite He in H1. injection H1 as <-. rewrite H3. cbn. rewrite py_int_pretty.
    unfold redis_put. rewrite H3. cbn. assert ((m + 1 =? 1) = false) as -> by lia. cbn.
    assert (redis_entry_at now (<[counter_key d := mk_redis_entry (RedisString (pretty (m + 1))) (Some x)]>
      (w_redis w)) (counter_key d) = Some (mk_redis_entry (RedisString (pretty (m + 1))) (Some x))) as H4.
    { rewrite entry_at_insert. apply entry_at_Some in H3 as [_ Ha]. unfold entry_alive in *.
      cbn in *. by rewrite Ha. }
    destruct (Z.ltb_spec PENDING_2FA_MAX_ATTEMPTS (m + 1)) as [Hlt|Hge]; cbn.
    + split; [done|]. split; [done|]. split; [done|]. apply Hmk; [done|].
      exists e, t, (m + 1), x. repeat (split; [done || lia|]). lia.
    + split; [done|]. split; [done|]. unfold PENDING_2FA_MAX_ATTEMPTS in Hge. apply Hmk; [lia|].
      exists e, t, (m + 1), x. repeat (split; [done || lia|]). lia.
Qed.

(** What a second-step request that is refused before its code is looked at
    answers: too many requests, or that Redis cannot be reached. *)
Definition not_tried (e : exn) : bool :=
  bool_decide (e = HTTPException 429) || bool_decide (e = connection_error).

(** After the counter: the code is checked, and the second step perhaps
    closed. *)
Definition checking : allowance :=
  mk_allowance (fun c => forall d, c <> challenge_limit d) (fun _ => False) (fun _ _ => False)
    (fun _ _ _ _ => True).
Definition closing : allowance :=
  mk_allowance (fun _ => True) (fun _ => False) (fun _ _ => False) (fun _ _ _ _ => True).
Lemma checking_guesses k now w w' :
  w.(w_sess).(s_now) = now -> guesses_are k now w.(w_redis) w.(w_drawn) ->
  reach checking now w.(w_redis) w.(w_drawn) w' -> guesses_are k now w'.(w_redis) w'.(w_drawn).
Proof.
  intros Hn Hg (_ & Hr & Hk). eapply (steps_guesses checking); [exact Hr|done|..];
    [intros H; by apply (H d)|by intros []|by intros ? ? []|done].
Qed.
Lemma closing_guesses k now w w' :
  (k <= 5)%nat -> drawn_before w.(w_drawn) -> gone now w.(w_redis) ->
  reach closing now w.(w_redis) w.(w_drawn) w' -> guesses_are k now w'.(w_redis) w'.(w_drawn).
Proof.
  intros Hk5 Hd Hg (_ & Hr & Hk). apply guesses_gone; [done|by eapply drawn_before_mono|].
  unfold gone. destruct (redis_entry_at now (w_redis w') (pending_key d)) as [e|] eqn:He; [|done].
  exfalso. refine (steps_pendings closing now _ (fun d' _ => d' <> d) _ _ Hr _ _ d e He eq_refl);
    [by intros ? ? []|].
  intros d' e' He' ->. unfold gone in Hg. congruence.
Qed.
Lemma drawn_before_of k now r n :
  guesses_are k now r n -> is_Some (redis_entry_at now r (pending_key d)) -> drawn_before n.
Proof. intros (_ & _ & H) [e He]. by destruct (H e He). Qed.

Lemma login_2fa_guess k t c rq w e now :
  d = pending_2fa_digest t -> w.(w_sess).(s_now) = now ->
  redis_entry_at now w.(w_redis) (pending_key d) = Some e ->
  guesses_are k now w.(w_redis) w.(w_drawn) ->
  wp (login_2fa cfg t c rq)
    (fun _ w' => guesses_are (S k) now w'.(w_redis) w'.(w_drawn))
    (fun x w' => guesses_are (if not_tried x then k else S k) now w'.(w_redis) w'.(w_drawn)) w.
Proof.
  intros Hd Hn He Hg. unfold login_2fa. cbv zeta. rewrite <- Hd.
  apply wp_bind. eapply wp_conseq; [by apply enforce_aside|..].
  2: { intros x w1 (-> & Ha & Hs & Hdr). rewrite Hn in Ha. cbn. rewrite Hdr. by eapply guesses_elsewhere. }
  intros _ w1 (Ha & Hs1 & Hd1). rewrite Hn in Ha.
  assert (guesses_are k now w1.(w_redis) w1.(w_drawn)) as Hg1 by (rewrite Hd1; by eapply guesses_elsewhere).
  assert (redis_entry_at now w1.(w_redis) (pending_key d) = Some e) as He1 by by destruct Ha as [_ ->].
  assert (w1.(w_sess).(s_now) = now) as Hn1 by by rewrite Hs1.
  apply wp_bind, wp_redis_cmd; [done| |].
  { intros x Hx. rewrite Hn1, He1 in Hx. destruct Hg1 as (_ & _ & H).
    destruct (H e He1) as (_ & s & Hv). by rewrite Hv in Hx. }
  intros found r Hup Hok. rewrite Hn1, He1 in Hok.
  assert (exists raw, found = Some raw /\ w1 <|w_redis := r|> = w1) as (raw & -> & ->).
  { repeat case_match; simplify_eq. eexists. split; [done|by destruct w1]. }
  apply wp_bind, wp_ret, wp_bind.
  eapply wp_conseq; [apply (enforce_challenge k w1 e); [done|by rewrite Hn1|by rewrite Hn1]|..].
  2: { intros x w2 (-> & Hs2 & Hd2 & Hg2). rewrite Hd2. rewrite Hn1 in Hg2. exact Hg2. }
  intros _ w2 (Hs2 & Hd2 & Hg2). rewrite Hn1, <- Hd2 in Hg2.
  assert (w2.(w_sess).(s_now) = now) as Hn2 by by rewrite Hs2.
  set (Q := fun (_ : login_response) w' => guesses_are (S k) now w'.(w_redis) w'.(w_drawn)).
  set (R := fun x w' => guesses_are (if not_tried x then k else S k) now w'.(w_redis) w'.(w_drawn)).
  assert (forall x w', guesses_are (S k) now w'.(w_redis) w'.(w_drawn) -> R x w') as HR.
  { intros x w' H. unfold R. destruct (not_tried x); [by apply guesses_weaken|done]. }
  assert (forall w', reach checking now w2.(w_redis) w2.(w_drawn) w' ->
    guesses_are (S k) now w'.(w_redis) w'.(w_drawn)) as Hcheck by by intros w'; apply checking_guesses.
  assert (reach checking now w2.(w_redis) w2.(w_drawn) w2) as Hw2 by done.
  assert (forall w', reach checking now w2.(w_redis) w2.(w_drawn) w' ->
    wp (audit_commit ;;; http_error 401) Q R w') as Hfail.
  { intros w' Hw'. eapply wp_conseq; [by apply (fail_footprint checking now (w_redis w2) (w_drawn w2))|..].
    - intros a w3 Hw3. by apply Hcheck.
    - intros x w3 Hw3. by apply HR, Hcheck. }
  apply wp_bind, wp_unwrap; [intros _; by apply HR, Hcheck|]. intros n _.
  apply wp_bind, wp_gets. destruct (user_by_id n _) as [u|]; [|by apply wp_bind, wp_ret, Hfail].
  apply wp_bind, (wp_keeps (reach checking now w2.(w_redis) w2.(w_drawn))); [by apply verify_footprint|done| |].
  2: { intros x w3 Hw3. by apply HR, Hcheck. }
  intros [f|] w3 Hw3; [|by apply Hfail]. destruct (Hcheck w3 Hw3) as (Hk & _ & _).
  apply wp_bind, wp_redis_cmd; [by apply HR, Hcheck|by intros|]. intros [] r' _ [= <-].
  set (w4 := w3 <|w_redis := delete (pending_key d) (w_redis w3)|>).
  assert (drawn_before w4.(w_drawn)) as Hdr.
  { destruct Hw3 as (_ & _ & Hle). eapply drawn_before_mono; [exact Hle|]. rewrite Hd2, Hd1.
    eapply drawn_before_of; [done|by eexists]. }
  assert (gone now w4.(w_redis)) as Hgone by apply entry_at_delete.
  assert (reach closing now w4.(w_redis) w4.(w_drawn) w4) as Hw4 by by destruct Hw3.
  assert (forall w', reach closing now w4.(w_redis) w4.(w_drawn) w' ->
    guesses_are (S k) now w'.(w_redis) w'.(w_drawn)) as Hclose by by intros w'; apply closing_guesses.
  assert (keeps (reach closing now w4.(w_redis) w4.(w_drawn))
    (reset_rate_limit (challenge_limit d) ;;; (token <- mint_user_session cfg u (client_ip cfg rq) None [] ;;
     in_db commit ;;; ret (session_reply u token)))) as Hrest.
  { apply keeps_bind; [by apply reset_footprint|]. intros _ w5 Hw5.
    apply wp_bind. eapply mint_footprint; [done|constructor|done| |done].
    intros token w6 Hw6 _. by apply audited. }
  eapply wp_conseq; [by apply Hrest|..].
  - intros a w5 Hw5. by apply Hclose.
  - intros x w5 Hw5. by apply HR, Hclose.
Qed.
End Step.

(** * All requests *)

(** The request has a code checked for the second step of [t]: the step is
    open, and the answer is neither "too many requests" nor that Redis cannot
    be reached. *)
Definition tries (t : string) (x : served) (w : web) (r : outcome exn reply) : bool :=
  match x.(sd_request) with
  | Login2fa t' _ _ =>
      (t' == t)
      && is_some (redis_entry_at x.(sd_now) w.(w_redis) (pending_key (pending_2fa_digest t)))
      && match r with Ok _ => true | Raise e => negb (not_tried e) end
  | _ => false
  end.
Fixpoint guesses (t : string) (l : list served) (w : web) : nat :=
  match l with
  | [] => O
  | x :: l' =>
      let '(r, w') := serve cfg x w in
      ((if tries t x w r then 1 else 0) + guesses t l' w')%nat
  end.

Lemma serve_guesses t x w k :
  let d := pending_2fa_digest t in
  w.(w_sess).(s_now) <= x.(sd_now) ->
  guesses_are d k w.(w_sess).(s_now) w.(w_redis) w.(w_drawn) ->
  let '(r, w') := serve cfg x w in
  guesses_are d (k + if tries t x w r then 1 else 0)%nat w'.(w_sess).(s_now) w'.(w_redis) w'.(w_drawn).
Proof.
  intros d Hle Hg. destruct (serve cfg x w) as [r w'] eqn:Hs.
  destruct (serve_footprint cfg x w r w' Hs) as (Hr & Hn & Hdr). rewrite Hn.
  apply (guesses_later _ _ _ (sd_now x)) in Hg; [|done].
  destruct (match sd_request x with
            | Login2fa t' _ _ => bool_decide (t' = t)
                && is_some (redis_entry_at (sd_now x) (w_redis w) (pending_key d))
            | _ => false
            end) eqn:Hmine.
  - destruct (sd_request x) eqn:Hx; try done. rename pending_token into t', code into c. apply andb_true_iff in Hmine as [->%bool_decide_eq_true Hlive].
    unfold tries. rewrite Hx, py_eq_refl. fold d. rewrite Hlive. cbn [andb].
    destruct (redis_entry_at (sd_now x) (w_redis w) (pending_key d)) as [e|] eqn:He; [|done].
    pose proof (login_2fa_guess d k t c rq (begin_request (sd_now x) (sd_redis_up x) w) e (sd_now x)
      eq_refl eq_refl He Hg) as H.
    unfold serve, request in Hs. rewrite Hx in Hs. unfold handle, bind in Hs. unfold wp in H.
    destruct (login_2fa cfg t c rq _) as [[a|exc] w1]; injection Hs as <- <-; cbn.
    + by rewrite Nat.add_1_r.
    + destruct (not_tried exc); [by rewrite Nat.add_0_r|by rewrite Nat.add_1_r].
  - assert (tries t x w r = false) as ->.
    { unfold tries. destruct (sd_request x); try done. unfold py_eq. fold d. by rewrite Hmine. }
    rewrite Nat.add_0_r. eapply (steps_guesses d); [exact Hr|done|..]; [| | |exact Hg].
    + intros [H|H]; [by apply (H d)|]. destruct (sd_request x); try done. rename pending_token into t'. destruct H as [[= Heq%sha256_inj] [e He]]. subst t'.
      rewrite bool_decide_true in Hmine by done. fold d in He. change (w_redis (begin_request _ _ w)) with (w_redis w) in He.
      by rewrite He in Hmine.
    + intros H. cbn in H. destruct (sd_request x); try done. rename pending_token into t'. destruct H as [Heq%sha256_inj [e He]]. subst t'.
      rewrite bool_decide_true in Hmine by done. change (w_redis (begin_request _ _ w)) with (w_redis w) in He.
      by rewrite He in Hmine.
    + intros n u [Hle' _]. exact Hle'.
Qed.
Lemma guesses_bound t l w w' k :
  served_all cfg l w w' ->
  guesses_are (pending_2fa_digest t) k w.(w_sess).(s_now) w.(w_redis) w.(w_drawn) ->
  (k + guesses t l w <= 5)%nat.
Proof.
  intros Hl. revert k. induction Hl as [w|x l w w' Hle Hl IH]; intros k Hg; cbn [guesses].
  - destruct Hg as [Hk _]. lia.
  - pose proof (serve_guesses t x w k Hle Hg) as H. destruct (serve cfg x w) as [r w1].
    cbn in IH. specialize (IH _ H). lia.
Qed.

(** C12. A second step allows five guesses.  Whatever requests are served, in
    any order and from wherever they come, to a server whose Redis starts
    empty, and whether or not Redis can be reached at each: for one pending
    token at most five codes are ever checked, in all. *)
Theorem second_factor_guesses_are_bounded t l w w' :
  w.(w_redis) = empty -> served_all cfg l w w' -> (guesses t l w <= 5)%nat.
Proof.
  intros Hempty Hl. apply (guesses_bound t l w w' 0 Hl). rewrite Hempty.
  split; [lia|]. split; [|by intros e]. left. split; [done|]. by split.
Qed.
End Guesses.

#[local] Existing Instance sample_auth_lib.
(** Seven wrong codes after a login: five are checked. *)
Definition seven_guesses : list served :=
  at_minute 0 (Login (Some "bob") None "open sesame" (from_browser None))
  :: map (fun c => at_minute 1 (Login2fa "t0" c (from_browser None)))
       ["000001"; "000002"; "000003"; "000004"; "000005"; "000006"; "000007"].
Lemma second_factor_guesses_are_bounded_witness :
  guesses sample_settings "t0" seven_guesses sample_web = 5%nat
  /\ (guesses sample_settings "t0" seven_guesses sample_web <= 5)%nat.
Proof.
  split; [vm_compute; reflexivity|].
  apply (second_factor_guesses_are_bounded sample_settings "t0" seven_guesses sample_web
    (run_all sample_settings seven_guesses sample_web)); [reflexivity|].
  by apply in_order_served.
Defined.
