(* ===== verification/Downloads.v ===== *)
(** Download tokens (src/app/services/download_token_service.py), with which a
    machine that is being installed fetches images, scripts and template files
    (src/app/api/server_interaction.py).

    Tokens live in Redis; the development proves that they behave like a table
    of grants. *)
From Stdlib Require Import ZArith Lia Ascii.
From stdpp Require Import base numbers list strings pretty gmap relations.
From S2P Require Import Prelude Calendar Texts Models Session Redis Auth TwoFactor Accounts Portal.
#[local] Open Scope Z_scope.
#[local] Open Scope py_scope.

Definition TOKEN_EXPIRATION_SECONDS : Z := 900.
Definition TOKEN_KEY_PREFIX : string := "download_token:".
Definition DEFERRED_TOKEN_MAX_WAIT_SECONDS : Z := 7 * 24 * 3600.
Definition TASK_DEFERRED_KEY_PREFIX : string := "download_token_deferred:".
Definition token_key (token_id : string) : string := TOKEN_KEY_PREFIX +:+ token_id.
Definition task_key (boot_task_id : Z) : string := TASK_DEFERRED_KEY_PREFIX +:+ pretty boot_task_id.
Definition template_file_scope (template_id relative_path : string) : string :=
  "template:" +:+ template_id +:+ ":" +:+ relative_path.

(** The arguments of [generate_token]. *)
Record token_request : Type := mk_token_request {
  tq_boot_task_id : Z;
  tq_allowed_files : list string;
  tq_allowed_patterns : list string;
  tq_expires_in : Z;
  tq_single_use : bool;
  tq_deferred : bool
}.
(** What a valid token tells. *)
Record token_data : Type := mk_token_data {
  td_boot_task_id : Z;
  td_created_at : option string;
  td_expires_at : option string;
  td_single_use : bool
}.

Definition lifetime (q : token_request) : Z :=
  if q.(tq_deferred) then DEFERRED_TOKEN_MAX_WAIT_SECONDS else q.(tq_expires_in).
Definition token_mapping (q : token_request) (now : Z) : list (string * string) :=
  [("boot_task_id", pretty q.(tq_boot_task_id)); ("created_at", isoformat now);
   ("expires_at", isoformat (now + seconds (lifetime q))); ("used", "false");
   ("single_use", bool_str q.(tq_single_use));
   ("allowed_files", json_dumps q.(tq_allowed_files));
   ("allowed_patterns", json_dumps q.(tq_allowed_patterns))]
  ++ (if q.(tq_deferred) then [("active", "false"); ("active_ttl", pretty q.(tq_expires_in))] else []).
(** [int(token_data.get(active_ttl) or TOKEN_EXPIRATION_SECONDS)], where a
    ValueError stands for the same. *)
Definition active_ttl (h : gmap string string) : Z :=
  match h !! "active_ttl" with
  | Some s => if str_empty s then TOKEN_EXPIRATION_SECONDS
              else match py_int s with Some n => n | None => TOKEN_EXPIRATION_SECONDS end
  | None => TOKEN_EXPIRATION_SECONDS
  end.
(** The file is named, or fits a pattern, or nothing is restricted. *)
Definition permits (files patterns : list string) (filename : string) : bool :=
  match files, patterns with
  | [], [] => true
  | _, _ => existsb (fun f => f == filename) files || existsb (fnmatch filename) patterns
  end.

Section Downloads.
Context {L : AuthLib}.

Definition generate_token (q : token_request) : Web string :=
  n <- draw ;;
  let token := token_urlsafe n in
  let token_id := derive_token_id token in
  now <- web_now ;;
  redis_hset (token_key token_id) (token_mapping q now) ;;;
  redis_expire (token_key token_id) (lifetime q) ;;;
  (if q.(tq_deferred) then
     redis_hset (task_key q.(tq_boot_task_id)) [(token_id, "1")] ;;;
     redis_expire (task_key q.(tq_boot_task_id)) (lifetime q)
   else ret tt) ;;;
  ret token.

Definition activate_token (activated : Z) (token_id : string) : Web Z :=
  h <- redis_hgetall (token_key token_id) ;;
  if bool_decide (h = empty) || (h !! "active" != Some "false") then ret activated
  else
    now <- web_now ;;
    redis_hset (token_key token_id)
      [("active", "true"); ("expires_at", isoformat (now + seconds (active_ttl h)))] ;;;
    redis_expire (token_key token_id) (active_ttl h) ;;;
    ret (activated + 1).
Definition activate_tokens_for_boot_task (boot_task_id : Z) : Web Z :=
  h <- redis_hgetall (task_key boot_task_id) ;;
  fold_each (map fst (map_to_list h)) 0 activate_token.

(** What is left of [validate_token] once the token is known to be in use:
    the restrictions. *)
Definition check_file (h : gmap string string) (filename : string) : Web (option token_data) :=
  match json_loads (field h "allowed_files" "[]"), json_loads (field h "allowed_patterns" "[]") with
  | Some files, Some patterns =>
      task <- unwrap (py_int (field h "boot_task_id" "0")) (ValueError "invalid literal for int()") ;;
      ret (if permits files patterns filename
           then Some (mk_token_data task (h !! "created_at") (h !! "expires_at")
                        (str_lower (field h "single_use" "true") == "true"))
           else None)
  | _, _ => ret None
  end.
Definition validate_token (token filename : string) : Web (option token_data) :=
  let key := token_key (derive_token_id token) in
  h <- redis_hgetall key ;;
  if bool_decide (h = empty) then ret None
  else if str_lower (field h "used" "false") == "true" then ret None
  else if h !! "active" == Some "false" then ret None
  else
    expired <- (match h !! "expires_at" with
                | Some s =>
                    if str_empty s then ret false
                    else
                      t <- unwrap (fromisoformat s) (ValueError "Invalid isoformat string") ;;
                      now <- web_now ;;
                      ret (t <? now)
                | None => ret false
                end) ;;
    if expired : bool then redis_delete key ;;; ret None
    else check_file h filename.
Definition consume_token (token filename : string) : Web (option token_data) :=
  let key := token_key (derive_token_id token) in
  found <- validate_token token filename ;;
  match found with
  | None => ret None
  | Some d =>
      if d.(td_single_use) then
        claimed <- redis_hsetnx key "consumed" "1" ;;
        if claimed : bool then redis_hset key [("used", "true")] ;;; ret (Some d)
        else ret None
      else ret (Some d)
  end.
Definition mark_token_used (token : string) : Web bool :=
  let key := token_key (derive_token_id token) in
  there <- redis_exists key ;;
  if there : bool then redis_hset key [("used", "true")] ;;; ret true else ret false.
Definition revoke_token (token : string) : Web bool :=
  redis_deleted (token_key (derive_token_id token)).
Definition revoke_one (b revoked : Z) (key : string) : Web Z :=
  h <- redis_hgetall key ;;
  if h !! "boot_task_id" == Some (pretty b) then redis_delete key ;;; ret (revoked + 1) else ret revoked.
Definition revoke_tokens_for_boot_task (boot_task_id : Z) : Web Z :=
  keys <- redis_scan TOKEN_KEY_PREFIX ;;
  fold_each keys 0 (revoke_one boot_task_id).

(** ** Endpoints *)

(** Answers are the path that is served, and whether its content is. *)
Definition unsafe_name (filename : string) : bool :=
  str_in ".." filename || str_in "/" filename.
Definition require_token (token : option string) (filename : string) : Web (string * token_data) :=
  match token with
  | None => http_error 401
  | Some t =>
      if str_empty t then http_error 401
      else
        d <- validate_token t filename ;;
        match d with Some d => ret (t, d) | None => http_error 401 end
  end.
Definition get_iso (exists_file : string -> bool) (filename : string) (token : option string) (head : bool)
  : Web (string * bool) :=
  x <- require_token token filename ;;
  throw_if (unsafe_name filename) (HTTPException 400) ;;;
  throw_if (negb (exists_file ("isos/" +:+ filename))) (HTTPException 404) ;;;
  if head then ret ("isos/" +:+ filename, false)
  else
    (if x.2.(td_single_use) then
       d <- consume_token x.1 filename ;;
       throw_if (match d with None => true | Some _ => false end) (HTTPException 401)
     else ret tt) ;;;
    ret ("isos/" +:+ filename, true).
Definition get_disk_image (exists_file : string -> bool) (filename : string) (token : option string) (head : bool)
  : Web (string * bool) :=
  x <- require_token token filename ;;
  throw_if (unsafe_name filename) (HTTPException 400) ;;;
  throw_if (negb (exists_file ("disk_images/" +:+ filename))) (HTTPException 404) ;;;
  if head then ret ("disk_images/" +:+ filename, false)
  else
    d <- consume_token x.1 filename ;;
    throw_if (match d with None => true | Some _ => false end) (HTTPException 401) ;;;
    ret ("disk_images/" +:+ filename, true).
(** [template_dir] finds a template's directory, [is_file] whether a path names
    a file, and [within] whether it resolves to one under a directory. *)
Definition get_template_file (template_dir : string -> option string) (is_file : string -> bool)
    (within : string -> string -> bool) (template_id file_path : string) (token : option string) (head : bool)
  : Web (string * bool) :=
  require_token token (template_file_scope template_id file_path) ;;;
  dir <- unwrap (template_dir template_id) (HTTPException 404) ;;
  throw_if (str_in ".." file_path) (HTTPException 400) ;;;
  let full_path := dir +:+ "/" +:+ file_path in
  throw_if (negb (is_file full_path)) (HTTPException 404) ;;;
  throw_if (negb (within dir full_path)) (HTTPException 400) ;;;
  ret (full_path, negb head).
Definition terminate_download_token (token : string) : Web unit :=
  there <- revoke_token token ;;
  throw_if (negb there) (HTTPException 404).
End Downloads.

(** * Grants *)

(** What a token stands for. *)
Record grant : Type := mk_grant {
  gr_boot_task_id : Z;
  gr_files : list string;
  gr_patterns : list string;
  gr_single_use : bool;
  gr_created : Z;
  gr_until : Z;
  gr_lease : option Z;
  gr_waiting : bool;
  gr_used : bool;
  gr_consumed : bool
}.
#[export] Instance eta_grant : Eta grant := fun g =>
  mk_grant g.(gr_boot_task_id) g.(gr_files) g.(gr_patterns) g.(gr_single_use) g.(gr_created) g.(gr_until)
    g.(gr_lease) g.(gr_waiting) g.(gr_used) g.(gr_consumed).
Abbreviation grants := (gmap string grant).
Definition valid_at (now : Z) (g : grant) : bool := now <=? g.(gr_until).
Definition grant_at (now : Z) (T : grants) (token_id : string) : option grant :=
  match T !! token_id with Some g => if valid_at now g then Some g else None | None => None end.

(** The requests on tokens; [OpElse] is whatever else happens to the store. *)
Inductive token_op : Type :=
| OpGenerate (q : token_request)
| OpActivate (boot_task_id : Z)
| OpValidate (token filename : string)
| OpConsume (token filename : string)
| OpMark (token : string)
| OpRevoke (token : string)
| OpRevokeTask (boot_task_id : Z)
| OpElse (f : redis -> redis).
Inductive token_answer : Type :=
| ANothing
| AToken (token : string)
| ACount (n : Z)
| ABool (b : bool)
| AData (d : option token_data).

Section Spec.
Context {L : AuthLib}.

Definition run_op (op : token_op) : Web token_answer :=
  match op with
  | OpGenerate q => t <- generate_token q ;; ret (AToken t)
  | OpActivate b => n <- activate_tokens_for_boot_task b ;; ret (ACount n)
  | OpValidate t f => d <- validate_token t f ;; ret (AData d)
  | OpConsume t f => d <- consume_token t f ;; ret (AData d)
  | OpMark t => b <- mark_token_used t ;; ret (ABool b)
  | OpRevoke t => b <- revoke_token t ;; ret (ABool b)
  | OpRevokeTask b => n <- revoke_tokens_for_boot_task b ;; ret (ACount n)
  | OpElse f => modify (fun w => w <|w_redis := f w.(w_redis)|>) ;;; ret ANothing
  end.

Definition new_grant (q : token_request) (now : Z) : grant :=
  mk_grant q.(tq_boot_task_id) q.(tq_allowed_files) q.(tq_allowed_patterns) q.(tq_single_use) now
    (now + seconds (lifetime q)) (if q.(tq_deferred) then Some q.(tq_expires_in) else None) q.(tq_deferred)
    false false.
Definition told (g : grant) : token_data :=
  mk_token_data g.(gr_boot_task_id) (Some (isoformat g.(gr_created))) (Some (isoformat g.(gr_until))) g.(gr_single_use).
(** A valid grant that is neither used nor waiting opens the files it permits. *)
Definition opens (g : grant) (filename : string) : bool :=
  negb g.(gr_used) && negb g.(gr_waiting) && permits g.(gr_files) g.(gr_patterns) filename.
Definition validated (now : Z) (T : grants) (token filename : string) : option token_data :=
  match grant_at now T (derive_token_id token) with
  | Some g => if opens g filename then Some (told g) else None
  | None => None
  end.
Definition awaits (now boot_task_id : Z) (g : grant) : bool :=
  valid_at now g && g.(gr_waiting) && (g.(gr_boot_task_id) =? boot_task_id).
Definition started (now : Z) (g : grant) : grant :=
  g <|gr_waiting := false|> <|gr_until := now + seconds (default 0 g.(gr_lease))|>.
Definition count (p : grant -> bool) (T : grants) : Z :=
  Z.of_nat (size (filter (fun x => p x.2 = true) T)).
Definition belongs (now boot_task_id : Z) (g : grant) : bool :=
  valid_at now g && (g.(gr_boot_task_id) =? boot_task_id).

(** How a table of grants answers the requests. *)
Definition spec_op (now : Z) (drawn : nat) (op : token_op) (T : grants) : token_answer * grants :=
  match op with
  | OpGenerate q =>
      let token := token_urlsafe drawn in
      (AToken token, <[derive_token_id token := new_grant q now]> T)
  | OpActivate b =>
      (ACount (count (awaits now b) T), (fun g => if awaits now b g then started now g else g) <$> T)
  | OpValidate t f => (AData (validated now T t f), T)
  | OpConsume t f =>
      (AData (validated now T t f),
       match validated now T t f with
       | Some d => if d.(td_single_use)
                   then alter (fun g => g <|gr_used := true|> <|gr_consumed := true|>) (derive_token_id t) T
                   else T
       | None => T
       end)
  | OpMark t =>
      (ABool (bool_decide (is_Some (grant_at now T (derive_token_id t)))),
       alter (fun g => if valid_at now g then g <|gr_used := true|> else g) (derive_token_id t) T)
  | OpRevoke t =>
      (ABool (bool_decide (is_Some (grant_at now T (derive_token_id t)))), delete (derive_token_id t) T)
  | OpRevokeTask b =>
      (ACount (count (belongs now b) T), filter (fun x => belongs now b x.2 = false) T)
  | OpElse _ => (ANothing, T)
  end.
End Spec.

(** * Tokens are grants *)

(** ** Commands on a store that answers *)

Lemma same_store w : w <|w_redis := w.(w_redis)|> = w.
Proof. by destruct w. Qed.
Section Commands.
Context (now : Z) (w : web) (Hup : w.(w_redis_up) = true) (Hnow : w.(w_sess).(s_now) = now).
Lemma wp_cmd {A} (f : Z -> redis -> outcome exn (A * redis)) a r (Q : A -> web -> Prop) R :
  f now w.(w_redis) = Ok (a, r) -> Q a (w <|w_redis := r|>) -> wp (redis_cmd f) Q R w.
Proof. intros Hf HQ. unfold wp, redis_cmd. by rewrite Hup, Hnow, Hf. Qed.
Lemma wp_hgetall k h (Q : gmap string string -> web -> Prop) R :
  hash_at now w.(w_redis) k = Some h -> Q h w -> wp (redis_hgetall k) Q R w.
Proof. intros Hh HQ. eapply wp_cmd; [by rewrite Hh|]. by rewrite same_store. Qed.
Lemma wp_hset k h mapping (Q : unit -> web -> Prop) R : hash_at now w.(w_redis) k = Some h ->
  Q tt (w <|w_redis := redis_put now k (RedisHash (hash_update h mapping)) w.(w_redis)|>) -> wp (redis_hset k mapping) Q R w.
Proof. intros Hh HQ. eapply wp_cmd; [by rewrite Hh|]. done. Qed.
Lemma wp_expire k e ttl (Q : unit -> web -> Prop) R :
  redis_entry_at now w.(w_redis) k = Some e -> 0 < ttl ->
  Q tt (w <|w_redis := <[k := mk_redis_entry e.(re_value) (Some (now + seconds ttl))]> w.(w_redis)|>) ->
  wp (redis_expire k ttl) Q R w.
Proof. intros He Ht HQ. eapply wp_cmd; [|exact HQ]. cbv beta. rewrite He. by rewrite (proj2 (Z.leb_gt _ _)). Qed.
Lemma wp_now (Q : Z -> web -> Prop) R : Q now w -> wp web_now Q R w.
Proof. intros HQ. unfold wp, web_now, gets. by rewrite Hnow. Qed.
End Commands.

Lemma hash_at_entry now r k h x :
  redis_entry_at now r k = Some (mk_redis_entry (RedisHash h) x) -> hash_at now r k = Some h.
Proof. intros H. unfold hash_at. by rewrite H. Qed.
Lemma hash_at_none now r k : redis_entry_at now r k = None -> hash_at now r k = Some empty.
Proof. intros H. unfold hash_at. by rewrite H. Qed.
Lemma entry_at_put_live now r k v x :
  redis_entry_at now r k = Some x -> redis_entry_at now (redis_put now k v r) k = Some (mk_redis_entry v x.(re_expires_at)).
Proof.
  intros H. unfold redis_put. rewrite entry_at_insert, H. apply entry_at_Some in H as [_ H]. unfold entry_alive in *. cbn.
  by rewrite H.
Qed.
Lemma entry_at_put_new now r k v :
  redis_entry_at now r k = None -> redis_entry_at now (redis_put now k v r) k = Some (mk_redis_entry v None).
Proof. intros H. unfold redis_put. by rewrite entry_at_insert, H. Qed.
Lemma entry_at_put_ne now r k k' v : k <> k' ->
  redis_entry_at now (redis_put now k v r) k' = redis_entry_at now r k'.
Proof. intros H. unfold redis_put. by rewrite entry_at_insert_ne. Qed.
Lemma entry_after_put now r k h v : hash_at now r k = Some h ->
  exists x, redis_entry_at now (redis_put now k v r) k = Some (mk_redis_entry v x)
            /\ redis_put now k v r = <[k := mk_redis_entry v x]> r.
Proof.
  intros Hh. unfold hash_at in Hh. destruct (redis_entry_at now r k) as [e|] eqn:E.
  - exists e.(re_expires_at). split; [by apply entry_at_put_live|]. unfold redis_put. by rewrite E.
  - exists None. split; [by apply entry_at_put_new|]. unfold redis_put. by rewrite E.
Qed.
(** A hash is written and given its time to live. *)
Lemma hset_expire now w k h mapping ttl :
  w.(w_redis_up) = true -> w.(w_sess).(s_now) = now -> hash_at now w.(w_redis) k = Some h -> 0 < ttl ->
  (redis_hset k mapping ;;; redis_expire k ttl) w
  = (Ok tt, w <|w_redis := <[k := mk_redis_entry (RedisHash (hash_update h mapping)) (Some (now + seconds ttl))]> w.(w_redis)|>).
Proof.
  intros Hup Hnow Hh Httl. set (w' := w <|w_redis := <[k := _]> _|>).
  assert (wp (redis_hset k mapping ;;; redis_expire k ttl) (fun a s => (a, s) = (tt, w')) (fun _ _ => False) w) as H.
  { apply wp_bind, (wp_hset now w Hup Hnow _ h); [done|].
    destruct (entry_after_put now w.(w_redis) k h (RedisHash (hash_update h mapping)) Hh) as (x & Hx & Hput).
    set (w1 := w <|w_redis := _|>). eapply (wp_expire now w1 Hup Hnow); [exact Hx|done|].
    unfold w1, w'. cbn [w_redis update re_value]. by rewrite Hput, insert_insert_eq. }
  unfold wp in H. destruct ((redis_hset k mapping ;;; redis_expire k ttl) w) as [[a|e] s]; [by injection H as -> ->|done].
Qed.
Lemma wp_hset_expire {A} now w k h mapping ttl (m : Web A) (Q : A -> web -> Prop) R :
  w.(w_redis_up) = true -> w.(w_sess).(s_now) = now -> hash_at now w.(w_redis) k = Some h -> 0 < ttl ->
  wp m Q R (w <|w_redis := <[k := mk_redis_entry (RedisHash (hash_update h mapping)) (Some (now + seconds ttl))]> w.(w_redis)|>) ->
  wp (redis_hset k mapping ;;; redis_expire k ttl ;;; m) Q R w.
Proof.
  intros Hup Hnow Hh Httl HQ. pose proof (hset_expire now w k h mapping ttl Hup Hnow Hh Httl) as Hr.
  unfold wp, bind in *. destruct (redis_hset k mapping w) as [[a|e] s]; [|done]. by rewrite Hr.
Qed.

(** ** Keys *)

Lemma str_app_inj p a b : p +:+ a = p +:+ b -> a = b.
Proof. induction p as [|c p IH]; [done|]. rewrite !str_cons_app. intros [= H]. by apply IH. Qed.
#[export] Instance token_key_inj : Inj (=) (=) token_key.
Proof. intros a b. apply str_app_inj. Qed.
#[export] Instance task_key_inj : Inj (=) (=) task_key.
Proof. intros a b H%str_app_inj. by apply (inj pretty). Qed.
Lemma token_task_key token_id b : token_key token_id <> task_key b.
Proof. discriminate. Qed.
Lemma task_token_key token_id b : task_key b <> token_key token_id.
Proof. discriminate. Qed.
Definition of_tokens (k : string) : bool :=
  str_startswith TOKEN_KEY_PREFIX k || str_startswith TASK_DEFERRED_KEY_PREFIX k.
Lemma startswith_split p s : str_startswith p s = true -> exists t, s = p +:+ t.
Proof.
  revert s. induction p as [|c p IH]; intros s Hs; [by exists s|]. destruct s as [|a s]; [done|].
  cbn in Hs. apply andb_true_iff in Hs as [->%Ascii.eqb_eq Hs]. apply IH in Hs as [t ->]. by exists t.
Qed.

(** ** The table a store stands for *)

Definition lease_ok (e : Z) : Prop := 1 <= e <= DEFERRED_TOKEN_MAX_WAIT_SECONDS.
Record sound_grant (g : grant) : Prop := {
  sg_until : representable g.(gr_until);
  sg_consumed : g.(gr_consumed) = true -> g.(gr_used) = true;
  sg_waiting : g.(gr_waiting) = true -> exists e, g.(gr_lease) = Some e /\ lease_ok e
}.
(** What the hash of a token says about its grant. *)
Record tells (g : grant) (h : gmap string string) : Prop := {
  tl_task : h !! "boot_task_id" = Some (pretty g.(gr_boot_task_id));
  tl_created : h !! "created_at" = Some (isoformat g.(gr_created));
  tl_until : h !! "expires_at" = Some (isoformat g.(gr_until));
  tl_used : h !! "used" = Some (bool_str g.(gr_used));
  tl_single : h !! "single_use" = Some (bool_str g.(gr_single_use));
  tl_files : h !! "allowed_files" = Some (json_dumps g.(gr_files));
  tl_patterns : h !! "allowed_patterns" = Some (json_dumps g.(gr_patterns));
  tl_active : h !! "active" = option_map (fun _ => bool_str (negb g.(gr_waiting))) g.(gr_lease);
  tl_ttl : h !! "active_ttl" = option_map pretty g.(gr_lease);
  tl_consumed : h !! "consumed" = if g.(gr_consumed) then Some "1" else None
}.

Section Refinement.
Context {L : AuthLib}.
Definition token_of (token_id : string) (n : nat) : Prop := token_id = derive_token_id (token_urlsafe n).
Record agrees (now : Z) (T : grants) (w : web) : Prop := {
  ag_entry : forall token_id, match grant_at now T token_id with
    | Some g => exists h, redis_entry_at now w.(w_redis) (token_key token_id)
                          = Some (mk_redis_entry (RedisHash h) (Some g.(gr_until))) /\ tells g h
    | None => redis_entry_at now w.(w_redis) (token_key token_id) = None
    end;
  ag_sound : forall token_id g, T !! token_id = Some g ->
    sound_grant g /\ exists n, (n < w.(w_drawn))%nat /\ token_of token_id n;
  ag_listed : forall token_id g, grant_at now T token_id = Some g -> g.(gr_waiting) = true ->
    exists h x, redis_entry_at now w.(w_redis) (task_key g.(gr_boot_task_id)) = Some (mk_redis_entry (RedisHash h) (Some x))
                /\ is_Some (h !! token_id) /\ g.(gr_until) <= x;
  ag_list : forall b e, redis_entry_at now w.(w_redis) (task_key b) = Some e ->
    exists h x, e = mk_redis_entry (RedisHash h) (Some x) /\ x <= now + seconds DEFERRED_TOKEN_MAX_WAIT_SECONDS
      /\ forall token_id, is_Some (h !! token_id) ->
           (exists n, (n < w.(w_drawn))%nat /\ token_of token_id n)
           /\ forall g, T !! token_id = Some g -> g.(gr_boot_task_id) = b
}.

Lemma grant_at_Some now T token_id g :
  grant_at now T token_id = Some g <-> T !! token_id = Some g /\ now <= g.(gr_until).
Proof.
  unfold grant_at, valid_at. destruct (T !! token_id) as [g'|]; [|by split; [|intros [? _]]].
  destruct (Z.leb_spec now (gr_until g')); split; [by intros [= <-]|by intros [[= <-] _]|done|intros [[= <-] ?]; lia].
Qed.
(** Time passes: what has expired is gone on both sides. *)
Lemma agrees_later now now' T w : now <= now' -> agrees now T w -> agrees now' T w.
Proof.
  intros Hle [He Hs Hl Hk].
  assert (forall k, redis_entry_at now (w_redis w) k = None -> redis_entry_at now' (w_redis w) k = None) as Hgone.
  { intros k Hn. destruct (redis_entry_at now' _ k) as [e|] eqn:E; [|done]. apply (entry_at_earlier now) in E; [congruence|done]. }
  assert (forall k v x, redis_entry_at now (w_redis w) k = Some (mk_redis_entry v (Some x)) ->
    redis_entry_at now' (w_redis w) k = if now' <=? x then Some (mk_redis_entry v (Some x)) else None) as Hstill.
  { intros k v x [Hr _]%entry_at_Some. unfold redis_entry_at. by rewrite Hr. }
  split.
  - intros token_id. specialize (He token_id). unfold grant_at, valid_at in *. destruct (T !! token_id) as [g|]; [|by apply Hgone].
    destruct (Z.leb_spec now (gr_until g)).
    + destruct He as (h & He & Ht). rewrite (Hstill _ _ _ He). destruct (now' <=? gr_until g); [by exists h|done].
    + destruct (Z.leb_spec now' (gr_until g)); [lia|by apply Hgone].
  - done.
  - intros token_id g Hg Hw. apply grant_at_Some in Hg as [Hg Hu].
    destruct (Hl token_id g) as (h & x & Hx & Hi & Hux); [apply grant_at_Some; split; [done|lia]|done|].
    exists h, x. rewrite (Hstill _ _ _ Hx). split; [|done]. destruct (Z.leb_spec now' x); [done|lia].
  - intros b e Hb. destruct (Hk b e) as (h & x & -> & Hx & Hlist); [by eapply entry_at_earlier|]. exists h, x. split; [done|]. split; [lia|done].
Qed.
(** A change of the rest of the store. *)
Lemma agrees_else now T w r :
  (forall k, of_tokens k = true -> r !! k = w.(w_redis) !! k) -> agrees now T w -> agrees now T (w <|w_redis := r|>).
Proof.
  intros Hf [He Hs Hl Hk].
  assert (forall i, redis_entry_at now r (token_key i) = redis_entry_at now (w_redis w) (token_key i)) as H1.
  { intros i. unfold redis_entry_at. by rewrite Hf. }
  assert (forall b, redis_entry_at now r (task_key b) = redis_entry_at now (w_redis w) (task_key b)) as H2.
  { intros b. unfold redis_entry_at. by rewrite Hf. }
  split; cbn [w_redis w_drawn update]; [|done| |].
  - intros i. rewrite H1. apply He.
  - intros i g Hg Hw. rewrite H2. by eapply Hl.
  - intros b e. rewrite H2. apply Hk.
Qed.

(** ** Changes of one token *)

Lemma redis_put_alive now k v r e : redis_entry_at now r k = Some e ->
  redis_put now k v r = <[k := mk_redis_entry v e.(re_expires_at)]> r.
Proof. intros H. unfold redis_put. by rewrite H. Qed.
Lemma grant_at_insert now T i j g : grant_at now (<[i := g]> T) j = if decide (i = j) then if valid_at now g then Some g else None else grant_at now T j.
Proof. unfold grant_at. destruct (decide (i = j)) as [->|H]; [by rewrite lookup_insert_eq|by rewrite lookup_insert_ne]. Qed.
Lemma agrees_set now T w i g h :
  agrees now T w -> now <= g.(gr_until) -> tells g h -> sound_grant g ->
  (exists n, (n < w.(w_drawn))%nat /\ token_of i n) ->
  (g.(gr_waiting) = true -> exists h x, redis_entry_at now w.(w_redis) (task_key g.(gr_boot_task_id)) = Some (mk_redis_entry (RedisHash h) (Some x))
                /\ is_Some (h !! i) /\ g.(gr_until) <= x) ->
  (forall b h x, redis_entry_at now w.(w_redis) (task_key b) = Some (mk_redis_entry (RedisHash h) x) -> is_Some (h !! i) ->
     g.(gr_boot_task_id) = b) ->
  agrees now (<[i := g]> T) (w <|w_redis := <[token_key i := mk_redis_entry (RedisHash h) (Some g.(gr_until))]> w.(w_redis)|>).
Proof.
  intros [He Hs Hl Hk] Hu Ht Hg Hn Hw Hb. assert (valid_at now g = true) as Hv by (by apply Z.leb_le).
  split; cbn [w_redis w_drawn update].
  - intros j. rewrite grant_at_insert, Hv. destruct (decide (i = j)) as [->|Hij].
    + exists h. split; [|done]. rewrite entry_at_insert. unfold entry_alive. cbn [re_expires_at]. unfold valid_at in Hv. by rewrite Hv.
    + rewrite entry_at_insert_ne; [apply He|]. intros ?%(inj token_key). done.
  - intros j g'. destruct (decide (i = j)) as [->|Hij]; [rewrite lookup_insert_eq|rewrite lookup_insert_ne by done]; [by intros [= <-]|apply Hs].
  - intros j g'. rewrite grant_at_insert, Hv, entry_at_insert_ne by apply token_task_key.
    destruct (decide (i = j)) as [->|Hij]; [intros [= <-]; apply Hw|apply Hl].
  - intros b e. rewrite entry_at_insert_ne by apply token_task_key. intros Hbe. destruct (Hk b e Hbe) as (h' & x & -> & Hmax & Hx).
    exists h', x. split; [done|]. split; [done|]. intros j Hj. destruct (Hx j Hj) as [Hn' Hj']. split; [done|]. intros g'.
    destruct (decide (i = j)) as [->|Hij]; [rewrite lookup_insert_eq; intros [= <-]; by eapply Hb|rewrite lookup_insert_ne by done; apply Hj'].
Qed.
(** A change of a valid grant that is still for its task, and waits no more than before. *)
Lemma agrees_change now T w i g g' h :
  agrees now T w -> grant_at now T i = Some g -> now <= g'.(gr_until) -> tells g' h -> sound_grant g' ->
  g'.(gr_boot_task_id) = g.(gr_boot_task_id) -> (g'.(gr_waiting) = true -> g.(gr_waiting) = true /\ g'.(gr_until) = g.(gr_until)) ->
  agrees now (<[i := g']> T) (w <|w_redis := <[token_key i := mk_redis_entry (RedisHash h) (Some g'.(gr_until))]> w.(w_redis)|>).
Proof.
  intros Ha Hg Hu Ht Hs Hb Hw. pose proof Hg as [HT _]%grant_at_Some. apply agrees_set; try done.
  - by apply (ag_sound _ _ _ Ha _ _ HT).
  - intros Hwait. destruct (Hw Hwait) as [Hwg ->]. rewrite Hb. by apply (ag_listed _ _ _ Ha).
  - intros b h' x He Hi. destruct (ag_list _ _ _ Ha _ _ He) as (h2 & x2 & [= <- ->] & _ & Hlist). rewrite Hb. by apply (Hlist i Hi).
Qed.
Lemma agrees_delete now T w i :
  agrees now T w -> agrees now (delete i T) (w <|w_redis := delete (token_key i) w.(w_redis)|>).
Proof.
  intros [He Hs Hl Hk].
  assert (forall j, grant_at now (delete i T) j = if decide (i = j) then None else grant_at now T j) as Hd.
  { intros j. unfold grant_at. destruct (decide (i = j)) as [->|H]; [by rewrite lookup_delete_eq|by rewrite lookup_delete_ne]. }
  split; cbn [w_redis w_drawn update].
  - intros j. rewrite Hd. destruct (decide (i = j)) as [->|Hij]; [apply entry_at_delete|].
    rewrite entry_at_delete_ne; [apply He|]. intros ?%(inj token_key). done.
  - intros j g [_ Hj]%lookup_delete_Some. by apply (Hs j).
  - intros j g. rewrite Hd, entry_at_delete_ne by apply token_task_key. destruct (decide (i = j)); [done|apply Hl].
  - intros b e. rewrite entry_at_delete_ne by apply token_task_key. intros Hb. destruct (Hk b e Hb) as (h & x & -> & Hmax & Hx).
    exists h, x. split; [done|]. split; [done|]. intros j Hj. destruct (Hx j Hj) as [Hn Hj']. split; [done|]. intros g [_ Hg]%lookup_delete_Some. by apply Hj'.
Qed.

(** ** Reading a token *)

Lemma tells_nonempty g h : tells g h -> bool_decide (h = empty) = false.
Proof. intros Ht. apply bool_decide_eq_false. intros ->. pose proof (tl_task _ _ Ht) as H. by rewrite lookup_empty in H. Qed.
Lemma lower_bool b : str_lower (bool_str b) = bool_str b.
Proof. by destruct b. Qed.
Lemma bool_str_true b : (bool_str b == "true") = b.
Proof. by destruct b. Qed.
Lemma isoformat_nonempty t : str_empty (isoformat t) = false.
Proof.
  unfold isoformat. destruct (date_of t) as [[y m] d]. unfold pad. destruct (String.concat "" _) as [|c s]; [|done].
  rewrite str_nil_app. assert (forall z : Z, str_empty (pretty z) = false) as Hp.
  { intros [|p|p]; [done| |done]. pose proof (py_int_pretty (Zpos p)) as H. by destruct (pretty (Z.pos p)). }
  specialize (Hp y). by destruct (pretty y).
Qed.
Lemma token_hash now T w i : agrees now T w ->
  match grant_at now T i with
  | Some g => exists h, hash_at now w.(w_redis) (token_key i) = Some h /\ tells g h
  | None => hash_at now w.(w_redis) (token_key i) = Some empty
  end.
Proof.
  intros Ha. pose proof (ag_entry _ _ _ Ha i) as He. destruct (grant_at now T i) as [g|]; [|by apply hash_at_none].
  destruct He as (h & He & Ht). exists h. split; [by eapply hash_at_entry|done].
Qed.
Lemma check_file_tells g h filename (Q : option token_data -> web -> Prop) R w : tells g h ->
  Q (if permits g.(gr_files) g.(gr_patterns) filename then Some (told g) else None) w -> wp (check_file h filename) Q R w.
Proof.
  intros Ht HQ. unfold check_file, field. rewrite (tl_files _ _ Ht), (tl_patterns _ _ Ht), !json_loads_dumps.
  rewrite (tl_task _ _ Ht), py_int_pretty, (tl_single _ _ Ht), lower_bool, bool_str_true, (tl_created _ _ Ht), (tl_until _ _ Ht).
  done.
Qed.
Lemma validate_spec now T w token filename (Q : option token_data -> web -> Prop) R :
  agrees now T w -> w.(w_redis_up) = true -> w.(w_sess).(s_now) = now ->
  Q (validated now T token filename) w -> wp (validate_token token filename) Q R w.
Proof.
  intros Ha Hup Hnow HQ. pose proof (token_hash _ _ _ (derive_token_id token) Ha) as Hh. unfold validated in HQ.
  unfold validate_token. apply wp_bind. destruct (grant_at now T _) as [g|] eqn:Hg.
  - destruct Hh as (h & Hh & Ht). apply (wp_hgetall now w Hup Hnow _ h); [done|].
    rewrite (tells_nonempty _ _ Ht). unfold field at 1. rewrite (tl_used _ _ Ht), lower_bool, bool_str_true. unfold opens in HQ.
    destruct (gr_used g); [done|]. apply grant_at_Some in Hg as [HT Hu]. destruct (ag_sound _ _ _ Ha _ _ HT) as [Hs _].
    assert ((h !! "active" == Some "false") = g.(gr_waiting)) as ->.
    { rewrite (tl_active _ _ Ht). destruct (gr_waiting g) eqn:Hw; [destruct (sg_waiting _ Hs Hw) as (e & -> & _); done|by destruct (gr_lease g)]. }
    destruct (gr_waiting g); [done|]. rewrite (tl_until _ _ Ht), isoformat_nonempty, (fromisoformat_isoformat _ (sg_until _ Hs)).
    apply wp_bind, wp_bind, wp_ret, wp_bind, wp_now with (now := now); [done|]. apply wp_ret.
    rewrite (proj2 (Z.ltb_ge _ _)) by done. apply (check_file_tells _ _ _ _ _ _ Ht). exact HQ.
  - by apply (wp_hgetall now w Hup Hnow _ empty).
Qed.
(** ** Writing a token *)

Ltac tells_tac := intros []; split; cbn; repeat first [rewrite lookup_insert_eq | rewrite lookup_insert_ne by discriminate]; try done.
Lemma tells_used g h : tells g h -> tells (g <|gr_used := true|>) (<["used" := "true"]> h).
Proof. tells_tac. Qed.
Lemma tells_spent g h : tells g h ->
  tells (g <|gr_used := true|> <|gr_consumed := true|>) (<["used" := "true"]> (<["consumed" := "1"]> h)).
Proof. tells_tac. Qed.
Lemma tells_started now g h e : g.(gr_lease) = Some e -> tells g h ->
  tells (started now g) (<["expires_at" := isoformat (now + seconds e)]> (<["active" := "true"]> h)).
Proof. intros He. unfold started. tells_tac; by rewrite He in *. Qed.
Lemma alter_grant now T i g f : grant_at now T i = Some g -> alter f i T = <[i := f g]> T.
Proof.
  intros [Hg _]%grant_at_Some. apply map_eq. intros j. destruct (decide (i = j)) as [->|H].
  - by rewrite lookup_alter_eq, Hg, lookup_insert_eq.
  - by rewrite lookup_alter_ne, lookup_insert_ne.
Qed.
Lemma alter_none now T i f : grant_at now T i = None -> alter (fun g => if valid_at now g then f g else g) i T = T.
Proof.
  intros Hg. apply map_eq. intros j. destruct (decide (i = j)) as [->|H]; [|by rewrite lookup_alter_ne].
  rewrite lookup_alter_eq. unfold grant_at in Hg. destruct (T !! j) as [g|]; [|done]. cbn. by destruct (valid_at now g).
Qed.
Lemma put_token now T w i g h g' : agrees now T w -> grant_at now T i = Some g -> g'.(gr_until) = g.(gr_until) ->
  redis_put now (token_key i) (RedisHash h) w.(w_redis)
  = <[token_key i := mk_redis_entry (RedisHash h) (Some g'.(gr_until))]> w.(w_redis).
Proof.
  intros Ha Hg ->. pose proof (ag_entry _ _ _ Ha i) as He. rewrite Hg in He. destruct He as (h' & He & _).
  by rewrite (redis_put_alive _ _ _ _ _ He).
Qed.
Lemma mark_spec now T w token (Q : bool -> web -> Prop) R :
  agrees now T w -> w.(w_redis_up) = true -> w.(w_sess).(s_now) = now ->
  let i := derive_token_id token in
  (forall r, agrees now (alter (fun g => if valid_at now g then g <|gr_used := true|> else g) i T) (w <|w_redis := r|>) ->
     Q (bool_decide (is_Some (grant_at now T i))) (w <|w_redis := r|>)) ->
  wp (mark_token_used token) Q R w.
Proof.
  intros Ha Hup Hnow i HQ. unfold mark_token_used. pose proof (ag_entry _ _ _ Ha i) as He. subst i.
  apply wp_bind. eapply (wp_cmd now w Hup Hnow); [done|]. rewrite same_store.
  destruct (grant_at now T _) as [g|] eqn:Hg.
  - destruct He as (h & He & Ht). rewrite He. pose proof Hg as [HT Hu]%grant_at_Some. destruct (ag_sound _ _ _ Ha _ _ HT) as [Hs _].
    apply wp_bind, (wp_hset now w Hup Hnow _ h); [by eapply hash_at_entry|]. apply wp_ret, HQ.
    rewrite (put_token _ _ _ _ _ _ (g <|gr_used := true|>) Ha Hg) by done. rewrite (alter_grant _ _ _ _ _ Hg).
    rewrite (proj2 (Z.leb_le _ _) Hu : valid_at now g = true).
    apply (agrees_change _ _ _ _ _ _ _ Ha Hg); [done|by apply tells_used| |done|done].
    by destruct Hs as [H1 H2 H3].
  - rewrite He. apply wp_ret. rewrite <- (same_store w). apply HQ. rewrite same_store. by rewrite (alter_none _ _ _ _ Hg).
Qed.
Lemma revoke_spec now T w token (Q : bool -> web -> Prop) R :
  agrees now T w -> w.(w_redis_up) = true -> w.(w_sess).(s_now) = now ->
  let i := derive_token_id token in
  (forall r, agrees now (delete i T) (w <|w_redis := r|>) -> Q (bool_decide (is_Some (grant_at now T i))) (w <|w_redis := r|>)) ->
  wp (revoke_token token) Q R w.
Proof.
  intros Ha Hup Hnow i HQ. unfold revoke_token, redis_deleted. fold i. pose proof (ag_entry _ _ _ Ha i) as He.
  eapply (wp_cmd now w Hup Hnow); [done|]. replace (match redis_entry_at _ _ _ with Some _ => true | None => false end)
    with (bool_decide (is_Some (grant_at now T i))) by (destruct (grant_at now T i); [by destruct He as (h & -> & _)|by rewrite He]).
  by apply HQ, agrees_delete.
Qed.
Lemma consume_token_spec now T w token filename (Q : option token_data -> web -> Prop) R :
  agrees now T w -> w.(w_redis_up) = true -> w.(w_sess).(s_now) = now ->
  let d := validated now T token filename in
  let T' := match d with
            | Some d => if d.(td_single_use)
                        then alter (fun g => g <|gr_used := true|> <|gr_consumed := true|>) (derive_token_id token) T else T
            | None => T
            end in
  (forall r, agrees now T' (w <|w_redis := r|>) -> Q d (w <|w_redis := r|>)) -> wp (consume_token token filename) Q R w.
Proof.
  intros Ha Hup Hnow d T' HQ. assert (agrees now T' w -> Q d w) as Hsame.
  { intros HT. specialize (HQ (w_redis w)). rewrite same_store in HQ. by apply HQ. }
  unfold consume_token. apply wp_bind, (validate_spec now T); [done..|]. subst d T'. unfold validated in *.
  destruct (grant_at now T _) as [g|] eqn:Hg; [|by apply wp_ret, Hsame]. destruct (opens g filename) eqn:Ho; [|by apply wp_ret, Hsame].
  cbn [td_single_use told] in *. destruct (gr_single_use g); [|by apply wp_ret, Hsame].
  pose proof (ag_entry _ _ _ Ha (derive_token_id token)) as He. rewrite Hg in He. destruct He as (h & He & Ht).
  pose proof Hg as [HT Hu]%grant_at_Some. destruct (ag_sound _ _ _ Ha _ _ HT) as [Hs _].
  assert (gr_used g = false /\ gr_waiting g = false) as [Hused Hw].
  { unfold opens in Ho. by destruct (gr_used g), (gr_waiting g). }
  assert (gr_consumed g = false) as Hc by (destruct (gr_consumed g) eqn:E; [by rewrite (sg_consumed _ Hs E) in Hused|done]).
  apply wp_bind. eapply (wp_cmd now w Hup Hnow).
  { rewrite (hash_at_entry _ _ _ _ _ He). by rewrite (tl_consumed _ _ Ht), Hc. }
  set (k := token_key (derive_token_id token)). set (w1 := w <|w_redis := _|>). apply wp_bind.
  apply (wp_hset now w1 Hup Hnow k (<["consumed" := "1"]> h)).
  { unfold w1. cbn [w_redis update]. eapply hash_at_entry. by rewrite (entry_at_put_live _ _ _ _ _ He). }
  apply wp_ret. unfold w1. cbn [w_redis update]. apply HQ. rewrite (alter_grant _ _ _ _ _ Hg).
  rewrite (put_token _ _ _ _ _ _ g Ha Hg) by done. fold k.
  erewrite redis_put_alive by (rewrite entry_at_insert; unfold entry_alive; cbn [re_expires_at]; by rewrite (proj2 (Z.leb_le _ _) Hu)).
  cbn [re_expires_at]. rewrite insert_insert_eq. unfold hash_update. cbn [fold_left fst snd].
  set (g' := g <|gr_used := true|> <|gr_consumed := true|>). change (gr_until g) with (gr_until g'). unfold k.
  apply (agrees_change _ _ _ _ _ g' (<["used" := "true"]> (<["consumed" := "1"]> h)) Ha Hg); [done|by apply tells_spent| |done|].
  - destruct Hs as [H1 H2 H3]. by split.
  - cbn. by rewrite Hw.
Qed.
(** ** Loops over tokens *)

Section Loop.
Context (hit : grant -> bool) (act : grant -> option grant).
Definition stepped (o : option grant) : option grant :=
  match o with Some g => if hit g then act g else Some g | None => None end.
Definition hits (T : grants) (i : string) : bool := match T !! i with Some g => hit g | None => false end.
Definition step_all (ids : list string) (T : grants) : grants :=
  fold_left (fun T i => partial_alter stepped i T) ids T.
Lemma step_all_lookup ids T j : NoDup ids ->
  step_all ids T !! j = if decide (j ∈ ids) then stepped (T !! j) else T !! j.
Proof.
  revert T. induction ids as [|i ids IH]; intros T Hn; [by rewrite decide_False by set_solver|].
  apply NoDup_cons in Hn as [Hi Hn]. cbn [step_all fold_left]. change (fold_left _ ids ?T) with (step_all ids T). rewrite IH by done.
  destruct (decide (i = j)) as [->|Hij].
  - rewrite decide_False by done. rewrite decide_True by set_solver. by rewrite lookup_partial_alter_eq.
  - rewrite lookup_partial_alter_ne by done. destruct (decide (j ∈ ids)); [by rewrite decide_True by (apply elem_of_cons; by right)|by rewrite decide_False by (intros [->|?]%elem_of_cons; done)].
Qed.
(** As many tokens are hit as there are in the table, if all of those are listed. *)
Lemma hits_count ids T : NoDup ids -> (forall i g, T !! i = Some g -> hit g = true -> i ∈ ids) ->
  Z.of_nat (length (List.filter (hits T) ids)) = count hit T.
Proof.
  intros Hn Hall. unfold count. f_equal. rewrite <- size_dom, <- (size_list_to_set (C := gset string)).
  - f_equal. apply set_eq. intros i. rewrite elem_of_list_to_set, list_elem_of_In, filter_In, <- list_elem_of_In, elem_of_dom.
    unfold hits. split.
    + intros [_ Hi]. destruct (T !! i) as [g|] eqn:E; [|done]. exists g. by apply map_lookup_filter_Some.
    + intros [g [Hg Hh]%map_lookup_filter_Some]. rewrite Hg. split; [by eapply Hall|done].
  - apply NoDup_ListNoDup, List.NoDup_filter, NoDup_ListNoDup, Hn.
Qed.
Lemma each_token {X} (P : X -> Prop) (idof : X -> string) (step : Z -> X -> Web Z) now :
  (forall n x w T (Q : Z -> web -> Prop) R, P x -> agrees now T w -> w.(w_redis_up) = true -> w.(w_sess).(s_now) = now ->
     (forall r, agrees now (partial_alter stepped (idof x) T) (w <|w_redis := r|>) ->
        Q (n + if hits T (idof x) then 1 else 0) (w <|w_redis := r|>)) -> wp (step n x) Q R w) ->
  forall xs n w T (Q : Z -> web -> Prop) R, Forall P xs -> NoDup (map idof xs) ->
    agrees now T w -> w.(w_redis_up) = true -> w.(w_sess).(s_now) = now ->
    (forall r, agrees now (step_all (map idof xs) T) (w <|w_redis := r|>) ->
       Q (n + Z.of_nat (length (List.filter (hits T) (map idof xs)))) (w <|w_redis := r|>)) ->
    wp (fold_each xs n step) Q R w.
Proof.
  intros Hstep xs. induction xs as [|x xs IH]; intros n w T Q R HP Hn Ha Hup Hnow HQ.
  - apply wp_ret. rewrite <- (same_store w). cbn [map List.filter length Z.of_nat step_all fold_left] in HQ. rewrite Z.add_0_r in HQ. apply HQ. by rewrite same_store.
  - apply Forall_cons in HP as [HPx HP]. cbn [map] in Hn. apply NoDup_cons in Hn as [Hi Hn]. cbn [fold_each]. apply wp_bind. apply (Hstep n x w T); [done..|].
    intros r Hr. eapply IH; [done|done|exact Hr|done|done|]. intros r' Hr'. cbn [map List.filter step_all fold_left] in HQ.
    replace (n + (if hits T (idof x) then 1 else 0) + Z.of_nat (length (List.filter (hits (partial_alter stepped (idof x) T)) (map idof xs))))
      with (n + Z.of_nat (length (if hits T (idof x) then idof x :: List.filter (hits T) (map idof xs) else List.filter (hits T) (map idof xs)))).
    { by apply HQ. }
    rewrite (List.filter_ext_in (hits (partial_alter stepped (idof x) T)) (hits T)).
    + destruct (hits T (idof x)); cbn [length]; lia.
    + intros i Hin. unfold hits. rewrite lookup_partial_alter_ne; [done|]. intros <-. by apply Hi, list_elem_of_In.
Qed.
End Loop.

Definition waits_at (now : Z) (g : grant) : bool := valid_at now g && g.(gr_waiting).
Lemma pretty_not_empty (z : Z) : str_empty (pretty z) = false.
Proof. destruct (pretty z) eqn:E; [|done]. pose proof (py_int_pretty z) as H. by rewrite E in H. Qed.
Lemma partial_alter_none {A} (f : option A -> option A) i (T : gmap string A) :
  f (T !! i) = T !! i -> partial_alter f i T = T.
Proof.
  intros H. apply map_eq. intros j. destruct (decide (i = j)) as [->|Hij]; [by rewrite lookup_partial_alter_eq|by rewrite lookup_partial_alter_ne].
Qed.
Lemma started_ok now g : waits_at now g = true -> sound_grant g -> 0 <= now -> representable (now + seconds DEFERRED_TOKEN_MAX_WAIT_SECONDS) ->
  exists e, g.(gr_lease) = Some e /\ 0 < e /\ now <= now + seconds e /\ sound_grant (started now g).
Proof.
  unfold waits_at. rewrite andb_true_iff. intros [_ Hw] Hs Hnow Hr. destruct (sg_waiting _ Hs Hw) as (e & He & [Hl1 Hl2]).
  exists e. unfold representable, seconds in *. split; [done|]. split; [lia|]. split; [lia|].
  split; [unfold started; rewrite He; cbn; unfold representable, seconds; lia|by destruct Hs|done].
Qed.
Lemma activate_token_spec now n i w T (Q : Z -> web -> Prop) R :
  0 <= now -> representable (now + seconds DEFERRED_TOKEN_MAX_WAIT_SECONDS) ->
  agrees now T w -> w.(w_redis_up) = true -> w.(w_sess).(s_now) = now ->
  (forall r, agrees now (partial_alter (stepped (waits_at now) (fun g => Some (started now g))) i T) (w <|w_redis := r|>) ->
     Q (n + if hits (waits_at now) T i then 1 else 0) (w <|w_redis := r|>)) ->
  wp (activate_token n i) Q R w.
Proof.
  intros Hpos Hrep Ha Hup Hnow HQ. pose proof (token_hash _ _ _ i Ha) as Hh. unfold activate_token. apply wp_bind.
  assert (hits (waits_at now) T i = false -> Q n w) as Hmiss.
  { intros Hm. rewrite Hm, Z.add_0_r in HQ. specialize (HQ (w_redis w)). rewrite same_store in HQ. apply HQ. rewrite partial_alter_none; [done|].
    unfold hits, stepped in *. destruct (T !! i) as [g|]; [by rewrite Hm|done]. }
  destruct (grant_at now T i) as [g|] eqn:Hg.
  - destruct Hh as (h & Hh & Ht). apply (wp_hgetall now w Hup Hnow _ h); [done|]. rewrite (tells_nonempty _ _ Ht).
    pose proof Hg as [HT Hu]%grant_at_Some. destruct (ag_sound _ _ _ Ha _ _ HT) as [Hs _].
    assert (waits_at now g = g.(gr_waiting)) as Hwg by (unfold waits_at, valid_at; by rewrite (proj2 (Z.leb_le _ _) Hu)).
    unfold hits in Hmiss, HQ. rewrite HT in Hmiss, HQ. rewrite (tl_active _ _ Ht).
    destruct (gr_waiting g) eqn:Hw; [|destruct (gr_lease g); cbn; by apply wp_ret, Hmiss].
    destruct (started_ok now g Hwg Hs Hpos Hrep) as (e & He & Hpe & Hle & Hs'). rewrite He. cbn [option_map negb orb py_eq].
    replace (negb (Some (bool_str false) == Some "false")) with false by done. cbn [orb].
    assert (active_ttl h = e) as Httl.
    { unfold active_ttl. rewrite (tl_ttl _ _ Ht), He. cbn [option_map]. by rewrite pretty_not_empty, py_int_pretty. }
    rewrite Httl. apply wp_bind, wp_now with (now := now); [done|]. apply wp_bind, (wp_hset now w Hup Hnow _ h); [done|].
    pose proof (ag_entry _ _ _ Ha i) as Hent. rewrite Hg in Hent. destruct Hent as (h' & Hent & _).
    set (w1 := w <|w_redis := _|>). apply wp_bind. eapply (wp_expire now w1 Hup Hnow); [by apply (entry_at_put_live _ _ _ _ _ Hent)|done|].
    apply wp_ret. unfold w1. cbn [w_redis update re_value]. rewrite Hwg in HQ. apply HQ.
    rewrite (redis_put_alive _ _ _ _ _ Hent), insert_insert_eq. unfold hash_update. cbn [fold_left fst snd].
    replace (partial_alter _ i T) with (<[i := started now g]> T).
    2:{ apply map_eq. intros j. destruct (decide (i = j)) as [->|Hij]; [|by rewrite lookup_partial_alter_ne, lookup_insert_ne].
        rewrite lookup_partial_alter_eq, lookup_insert_eq. unfold stepped. by rewrite HT, Hwg. }
    assert (gr_until (started now g) = now + seconds e) as Hu' by (unfold started; by rewrite He).
    rewrite <- Hu' in Hle. pose proof (agrees_change _ _ _ _ _ _ _ Ha Hg Hle (tells_started now g h e He Ht) Hs') as Hnew.
    rewrite Hu' in Hnew. by apply Hnew.
  - apply (wp_hgetall now w Hup Hnow _ empty); [done|]. rewrite bool_decide_eq_true_2 by done. apply wp_ret, Hmiss.
    unfold hits. destruct (T !! i) as [g|] eqn:HT; [|done]. unfold waits_at. unfold grant_at in Hg. rewrite HT in Hg.
    by destruct (valid_at now g).
Qed.
Lemma keys_of_hash (h : gmap string string) i : i ∈ map fst (map_to_list h) <-> is_Some (h !! i).
Proof.
  rewrite list_elem_of_In, in_map_iff. split.
  - intros ([j v] & <- & Hin). exists v. by apply elem_of_map_to_list, list_elem_of_In.
  - intros [v Hv]. exists (i, v). split; [done|]. by apply list_elem_of_In, elem_of_map_to_list.
Qed.
Lemma step_all_hits hit act T ids : NoDup ids -> (forall i g, T !! i = Some g -> hit g = true -> i ∈ ids) ->
  step_all hit act ids T = map_imap (fun _ g => if hit g then act g else Some g) T.
Proof.
  intros Hn Hall. apply map_eq. intros i. rewrite step_all_lookup, map_lookup_imap by done. unfold stepped.
  destruct (T !! i) as [g|] eqn:E; cbn; [|by destruct (decide _)]. destruct (decide (i ∈ ids)) as [|Hi]; [done|].
  destruct (hit g) eqn:Hh; [|done]. exfalso. by apply Hi, (Hall i g).
Qed.
Lemma activate_spec now b w T (Q : Z -> web -> Prop) R :
  0 <= now -> representable (now + seconds DEFERRED_TOKEN_MAX_WAIT_SECONDS) ->
  agrees now T w -> w.(w_redis_up) = true -> w.(w_sess).(s_now) = now ->
  (forall r, agrees now ((fun g => if awaits now b g then started now g else g) <$> T) (w <|w_redis := r|>) ->
     Q (count (awaits now b) T) (w <|w_redis := r|>)) ->
  wp (activate_tokens_for_boot_task b) Q R w.
Proof.
  intros Hpos Hrep Ha Hup Hnow HQ. unfold activate_tokens_for_boot_task. apply wp_bind.
  assert (exists h, hash_at now w.(w_redis) (task_key b) = Some h
    /\ (forall i, is_Some (h !! i) -> forall g, T !! i = Some g -> g.(gr_boot_task_id) = b)
    /\ forall i g, T !! i = Some g -> awaits now b g = true -> is_Some (h !! i)) as (h & Hh & Htask & Hall).
  { assert (forall i g, T !! i = Some g -> awaits now b g = true ->
      exists h x, redis_entry_at now w.(w_redis) (task_key b) = Some (mk_redis_entry (RedisHash h) (Some x)) /\ is_Some (h !! i)) as Hl.
    { intros i g HT Haw. unfold awaits, valid_at in Haw. rewrite !andb_true_iff, Z.leb_le, Z.eqb_eq in Haw. destruct Haw as [[Hu Hw] <-].
      destruct (ag_listed _ _ _ Ha i g) as (h & x & Hx & Hi & _); [by apply grant_at_Some|done|by exists h, x]. }
    destruct (redis_entry_at now (w_redis w) (task_key b)) as [e|] eqn:E.
    - destruct (ag_list _ _ _ Ha _ _ E) as (h & x & -> & _ & Hx). exists h. split; [by eapply hash_at_entry|]. split; [intros i Hi; apply Hx, Hi|].
      intros i g HT Haw. by destruct (Hl i g HT Haw) as (h' & x' & [= <- <-] & Hi).
    - exists empty. split; [by apply hash_at_none|]. split; [intros i [v Hv]; by rewrite lookup_empty in Hv|].
      intros i g HT Haw. by destruct (Hl i g HT Haw) as (h' & x' & ? & _). }
  apply (wp_hgetall now w Hup Hnow _ h); [done|]. set (ids := map fst (map_to_list h)).
  assert (NoDup ids) as Hnd by apply NoDup_fst_map_to_list.
  assert (forall i, i ∈ ids -> hits (waits_at now) T i = hits (awaits now b) T i) as Hsame.
  { intros i Hi%keys_of_hash. unfold hits. destruct (T !! i) as [g|] eqn:HT; [|done]. unfold awaits, waits_at.
    rewrite (Htask i Hi g HT), Z.eqb_refl. by rewrite andb_true_r. }
  assert (forall i g, T !! i = Some g -> awaits now b g = true -> i ∈ ids) as Hlisted by (intros; by eapply keys_of_hash, Hall).
  eapply (each_token (waits_at now) (fun g => Some (started now g)) (fun _ => True) id); [|by apply Forall_true|by rewrite list_fmap_id|exact Ha|done|done|].
  { intros. by eapply activate_token_spec. }
  replace (map id ids) with ids by (symmetry; apply map_id). intros r Hr.
  replace (0 + _) with (count (awaits now b) T).
  2:{ rewrite <- (hits_count (awaits now b) ids T) by done. rewrite Z.add_0_l. do 2 f_equal. apply List.filter_ext_in.
      intros i Hi%list_elem_of_In. by rewrite Hsame. }
  apply HQ. replace (_ <$> T) with (step_all (waits_at now) (fun g => Some (started now g)) ids T); [done|].
  apply map_eq. intros i. rewrite step_all_lookup, lookup_fmap by done. specialize (Hsame i). specialize (Hlisted i). unfold hits, stepped in *.
  destruct (T !! i) as [g|] eqn:HT; cbn; [|by destruct (decide _)]. destruct (decide (i ∈ ids)) as [Hi|Hi].
  - rewrite (Hsame Hi). by destruct (awaits now b g).
  - destruct (awaits now b g) eqn:E; [exfalso; by eapply Hi, Hlisted|done].
Qed.

(** ** Revoking the tokens of a task *)

Definition id_of_key (k : string) : string := str_drop (String.length TOKEN_KEY_PREFIX) k.
Lemma id_of_token_key i : id_of_key (token_key i) = i.
Proof. done. Qed.
Definition has_token_key (k : string) : Prop := exists i, k = token_key i.
Lemma revoke_one_spec now b n k w T (Q : Z -> web -> Prop) R :
  has_token_key k -> agrees now T w -> w.(w_redis_up) = true -> w.(w_sess).(s_now) = now ->
  (forall r, agrees now (partial_alter (stepped (belongs now b) (fun _ => None)) (id_of_key k) T) (w <|w_redis := r|>) ->
     Q (n + if hits (belongs now b) T (id_of_key k) then 1 else 0) (w <|w_redis := r|>)) ->
  wp (revoke_one b n k) Q R w.
Proof.
  intros [i ->] Ha Hup Hnow. rewrite id_of_token_key. intros HQ. pose proof (token_hash _ _ _ i Ha) as Hh.
  unfold revoke_one. apply wp_bind.
  assert (hits (belongs now b) T i = false -> Q n w) as Hmiss.
  { intros Hm. rewrite Hm, Z.add_0_r in HQ. specialize (HQ (w_redis w)). rewrite same_store in HQ. apply HQ. rewrite partial_alter_none; [done|].
    unfold hits, stepped in *. destruct (T !! i) as [g|]; [by rewrite Hm|done]. }
  destruct (grant_at now T i) as [g|] eqn:Hg.
  - destruct Hh as (h & Hh & Ht). apply (wp_hgetall now w Hup Hnow _ h); [done|]. pose proof Hg as [HT Hu]%grant_at_Some.
    assert (belongs now b g = (gr_boot_task_id g =? b)) as Hb.
    { unfold belongs, valid_at. by rewrite (proj2 (Z.leb_le _ _) Hu). }
    unfold hits in *. rewrite HT in *. rewrite (tl_task _ _ Ht).
    assert ((Some (pretty (gr_boot_task_id g)) == Some (pretty b)) = belongs now b g) as ->.
    { rewrite Hb. destruct (Z.eqb_spec (gr_boot_task_id g) b) as [->|Hne]; [apply py_eq_refl|].
      apply py_eq_false. intros [= H%(inj pretty)]. done. }
    destruct (belongs now b g) eqn:Hbel; [|by apply wp_ret, Hmiss].
    apply wp_bind. eapply (wp_cmd now w Hup Hnow); [done|]. apply wp_ret, HQ.
    replace (partial_alter _ i T) with (delete i T); [by apply agrees_delete|].
    apply map_eq. intros j. destruct (decide (i = j)) as [->|Hij]; [|by rewrite lookup_partial_alter_ne, lookup_delete_ne].
    rewrite lookup_partial_alter_eq, lookup_delete_eq. unfold stepped. by rewrite HT, Hbel.
  - apply (wp_hgetall now w Hup Hnow _ empty); [done|]. rewrite lookup_empty. apply wp_ret, Hmiss.
    unfold hits. destruct (T !! i) as [g|] eqn:HT; [|done]. unfold belongs. unfold grant_at in Hg. rewrite HT in Hg.
    by destruct (valid_at now g).
Qed.
Lemma token_keys now r k :
  In k (List.filter (fun k => match redis_entry_at now r k with Some _ => str_startswith TOKEN_KEY_PREFIX k | None => false end)
          (map fst (map_to_list r))) <-> has_token_key k /\ is_Some (redis_entry_at now r k).
Proof.
  rewrite filter_In, in_map_iff. split.
  - intros [_ Hk]. destruct (redis_entry_at now r k) as [e|]; [|done]. split; [|done]. by apply startswith_split.
  - intros [[i ->] [e He]]. rewrite He. split; [|apply startswith_refl]. apply entry_at_Some in He as [Hr _].
    exists (token_key i, e). split; [done|]. by apply list_elem_of_In, elem_of_map_to_list.
Qed.
Lemma map_inj_NoDup {A B} (f : A -> B) l : (forall x y, x ∈ l -> y ∈ l -> f x = f y -> x = y) -> NoDup l -> NoDup (map f l).
Proof. intros Hf Hn. apply NoDup_fmap_2_strong; [|done]. intros x y Hx Hy He. by apply Hf. Qed.
Lemma revoke_task_spec now b w T (Q : Z -> web -> Prop) R :
  agrees now T w -> w.(w_redis_up) = true -> w.(w_sess).(s_now) = now ->
  (forall r, agrees now (filter (fun x => belongs now b x.2 = false) T) (w <|w_redis := r|>) ->
     Q (count (belongs now b) T) (w <|w_redis := r|>)) ->
  wp (revoke_tokens_for_boot_task b) Q R w.
Proof.
  intros Ha Hup Hnow HQ. unfold revoke_tokens_for_boot_task. apply wp_bind. eapply (wp_cmd now w Hup Hnow); [done|]. rewrite same_store.
  set (keys := List.filter _ _).
  assert (forall k, k ∈ keys <-> has_token_key k /\ is_Some (redis_entry_at now w.(w_redis) k)) as Hkeys.
  { intros k. rewrite list_elem_of_In. apply token_keys. }
  assert (NoDup (map id_of_key keys)) as Hnd.
  { apply map_inj_NoDup; [|apply NoDup_ListNoDup, List.NoDup_filter, NoDup_ListNoDup, NoDup_fst_map_to_list].
    intros x y [[i ->] _]%Hkeys [[j ->] _]%Hkeys. rewrite !id_of_token_key. by intros ->. }
  assert (forall i g, T !! i = Some g -> belongs now b g = true -> i ∈ map id_of_key keys) as Hlisted.
  { intros i g HT Hb. unfold belongs, valid_at in Hb. rewrite andb_true_iff, Z.leb_le in Hb. destruct Hb as [Hu _].
    apply list_elem_of_fmap. exists (token_key i). split; [done|]. apply Hkeys. split; [by exists i|].
    pose proof (ag_entry _ _ _ Ha i) as He. rewrite (proj2 (grant_at_Some now T i g)) in He by done. by destruct He as (h & -> & _). }
  eapply (each_token (belongs now b) (fun _ => None) has_token_key id_of_key); [|apply Forall_forall; intros k Hk; by apply Hkeys|exact Hnd|exact Ha|done|done|].
  { intros. by eapply revoke_one_spec. }
  intros r Hr. rewrite Z.add_0_l, hits_count by done. apply HQ. rewrite step_all_hits in Hr by done.
  replace (filter _ T) with (map_imap (fun _ g => if belongs now b g then None else Some g) T); [done|].
  apply map_eq. intros i. rewrite map_lookup_imap, map_lookup_filter. destruct (T !! i) as [g|]; [|done]. cbn.
  destruct (belongs now b g); cbn; [by rewrite option_guard_False|by rewrite option_guard_True].
Qed.

(** ** Generating a token *)

Lemma agrees_drawn now T w n : (w.(w_drawn) <= n)%nat -> agrees now T w -> agrees now T (w <|w_drawn := n|>).
Proof.
  intros Hn [He Hs Hl Hk]. split; [done| |done|].
  - intros i g Hg. destruct (Hs i g Hg) as [H1 (m & Hm & Ht)]. split; [done|]. exists m. split; [cbn; lia|done].
  - intros b e Hb. destruct (Hk b e Hb) as (h & x & -> & Hmax & Hx). exists h, x. split; [done|]. split; [done|].
    intros i Hi. destruct (Hx i Hi) as [(m & Hm & Ht) Hg]. split; [|done]. exists m. split; [cbn; lia|done].
Qed.
(** A fresh token is listed for its task. *)
Lemma agrees_list now T w b i h x :
  agrees now T w -> T !! i = None -> (exists n, (n < w.(w_drawn))%nat /\ token_of i n) ->
  hash_at now w.(w_redis) (task_key b) = Some h -> x = now + seconds DEFERRED_TOKEN_MAX_WAIT_SECONDS ->
  agrees now T (w <|w_redis := <[task_key b := mk_redis_entry (RedisHash (<[i := "1"]> h)) (Some x)]> w.(w_redis)|>).
Proof.
  intros [He Hs Hl Hk] HT Hn Hh Hx.
  assert (forall e, redis_entry_at now w.(w_redis) (task_key b) = Some e -> exists y, e = mk_redis_entry (RedisHash h) (Some y) /\ y <= x
    /\ forall j, is_Some (h !! j) -> (exists n, (n < w.(w_drawn))%nat /\ token_of j n) /\ forall g, T !! j = Some g -> g.(gr_boot_task_id) = b) as Hold.
  { intros e E. destruct (Hk b e E) as (h' & y & -> & Hy & Hlist). rewrite (hash_at_entry _ _ _ _ _ E) in Hh. injection Hh as ->.
    exists y. split; [done|]. split; [lia|done]. }
  assert (forall j, is_Some (h !! j) -> (exists n, (n < w.(w_drawn))%nat /\ token_of j n) /\ forall g, T !! j = Some g -> g.(gr_boot_task_id) = b) as Hin.
  { intros j Hj. destruct (redis_entry_at now (w_redis w) (task_key b)) as [e|] eqn:E; [by destruct (Hold e eq_refl) as (y & _ & _ & H); apply H|].
    rewrite (hash_at_none _ _ _ E) in Hh. injection Hh as <-. by rewrite lookup_empty in Hj; destruct Hj. }
  assert (entry_alive now (mk_redis_entry (RedisHash (<[i := "1"]> h)) (Some x)) = true) as Halive.
  { unfold entry_alive. cbn [re_expires_at]. apply Z.leb_le. unfold seconds, DEFERRED_TOKEN_MAX_WAIT_SECONDS in Hx. lia. }
  split; cbn [w_redis w_drawn update]; [| done | |].
  - intros j. rewrite entry_at_insert_ne by apply task_token_key. apply He.
  - intros j g Hg Hw. destruct (Hl j g Hg Hw) as (h' & y & Hy & Hj & Hu). destruct (decide (g.(gr_boot_task_id) = b)) as [Hgb|Hb].
    + rewrite Hgb in *. rewrite entry_at_insert, Halive. destruct (Hold _ Hy) as (y' & [= -> ->] & Hyx & _).
      exists (<[i := "1"]> h), x. split; [done|]. split; [by apply lookup_insert_is_Some'; right|lia].
    + rewrite entry_at_insert_ne by (intros ?%(inj task_key); done). by exists h', y.
  - intros b' e. destruct (decide (b = b')) as [<-|Hb]; [|rewrite entry_at_insert_ne by (intros ?%(inj task_key); done); apply Hk].
    rewrite entry_at_insert, Halive. intros [= <-]. exists (<[i := "1"]> h), x. split; [done|]. split; [lia|].
    intros j [<-|Hj]%lookup_insert_is_Some'; [split; [done|by rewrite HT]|by apply Hin].
Qed.
Lemma tells_new q now : tells (new_grant q now) (hash_update empty (token_mapping q now)).
Proof.
  unfold token_mapping, hash_update. rewrite fold_left_app. destruct q as [b fs ps e s d]. destruct d; cbn [fold_left fst snd tq_deferred];
    split; cbn; repeat first [rewrite lookup_insert_eq | rewrite lookup_insert_ne by discriminate]; rewrite ?lookup_empty; done.
Qed.
Context {Laws : AuthLaws L}.
Lemma fresh_token now T w i : agrees now T w -> token_of i w.(w_drawn) -> T !! i = None.
Proof.
  intros Ha Hi. destruct (T !! i) as [g|] eqn:HT; [|done]. destruct (ag_sound _ _ _ Ha _ _ HT) as [_ (n & Hn & Ht)].
  unfold token_of, derive_token_id in *. rewrite Hi in Ht. apply sha256_inj, token_urlsafe_inj in Ht. lia.
Qed.
Definition request_ok (q : token_request) : Prop := lease_ok q.(tq_expires_in).
Lemma lifetime_ok q : request_ok q -> lease_ok (lifetime q).
Proof. unfold request_ok, lifetime, lease_ok, DEFERRED_TOKEN_MAX_WAIT_SECONDS. destruct (tq_deferred q); lia. Qed.
Lemma new_grant_sound q now : 0 <= now -> representable (now + seconds DEFERRED_TOKEN_MAX_WAIT_SECONDS) -> request_ok q ->
  sound_grant (new_grant q now).
Proof.
  intros Hnow Hr Hq. pose proof (lifetime_ok q Hq) as [Hl1 Hl2]. split; cbn; [unfold representable, seconds in *; lia|done|].
  intros ->. by exists q.(tq_expires_in).
Qed.
Lemma generate_spec now q w T (Q : string -> web -> Prop) R :
  0 <= now -> representable (now + seconds DEFERRED_TOKEN_MAX_WAIT_SECONDS) -> request_ok q ->
  agrees now T w -> w.(w_redis_up) = true -> w.(w_sess).(s_now) = now ->
  let token := token_urlsafe w.(w_drawn) in
  (forall r, agrees now (<[derive_token_id token := new_grant q now]> T) (w <|w_drawn := S w.(w_drawn)|> <|w_redis := r|>) ->
     Q token (w <|w_drawn := S w.(w_drawn)|> <|w_redis := r|>)) ->
  wp (generate_token q) Q R w.
Proof.
  intros Hpos Hrep Hq Ha Hup Hnow token HQ. set (i := derive_token_id token) in *. set (w1 := w <|w_drawn := S w.(w_drawn)|>) in *.
  assert (T !! i = None) as HT by (by eapply fresh_token).
  assert (agrees now T w1) as Ha1 by (apply agrees_drawn; [lia|done]).
  assert (exists n, (n < w1.(w_drawn))%nat /\ token_of i n) as Hn by (exists w.(w_drawn); cbn; split; [lia|done]).
  assert (grant_at now T i = None) as Hgn by (unfold grant_at; by rewrite HT).
  pose proof (token_hash _ _ _ i Ha1) as Hh. rewrite Hgn in Hh. pose proof (lifetime_ok q Hq) as [Hl _].
  pose proof (tells_new q now) as Ht. pose proof (new_grant_sound q now Hpos Hrep Hq) as Hs.
  assert (now <= gr_until (new_grant q now)) as Hu by (cbn; unfold seconds; lia).
  assert (forall h b x, redis_entry_at now w1.(w_redis) (task_key b) = Some (mk_redis_entry (RedisHash h) x) -> ~ is_Some (h !! i)) as Hunlisted.
  { intros h b x E Hi. destruct (ag_list _ _ _ Ha _ _ E) as (h' & y & [= <- _] & _ & Hlist). destruct (Hlist i Hi) as [(m & Hm & Hmi) _].
    unfold token_of, i, derive_token_id in Hmi. apply sha256_inj, token_urlsafe_inj in Hmi. lia. }
  unfold generate_token. apply wp_bind. unfold wp at 1, draw. fold token i w1. apply wp_bind, wp_now with (now := now); [done|].
  apply (wp_hset_expire now w1 _ empty); [done|done|exact Hh|lia|].
  set (e := mk_redis_entry _ _). set (w2 := w1 <|w_redis := _|>). apply wp_bind. destruct (tq_deferred q) eqn:Hd.
  - assert (exists h, hash_at now w1.(w_redis) (task_key q.(tq_boot_task_id)) = Some h) as (h & Hth).
    { destruct (redis_entry_at now w1.(w_redis) (task_key q.(tq_boot_task_id))) as [x|] eqn:E; [|exists empty; by apply hash_at_none].
      destruct (ag_list _ _ _ Ha1 _ _ E) as (h & y & -> & _ & _). exists h. by eapply hash_at_entry. }
    assert (lifetime q = DEFERRED_TOKEN_MAX_WAIT_SECONDS) as Hlt by (unfold lifetime; by rewrite Hd).
    set (list_entry := mk_redis_entry (RedisHash (<[i := "1"]> h)) (Some (now + seconds (lifetime q)))).
    assert (agrees now T (w1 <|w_redis := <[task_key q.(tq_boot_task_id) := list_entry]> w1.(w_redis)|>)) as Ha2
      by (apply agrees_list; [done..|by rewrite Hlt]).
    assert (entry_alive now list_entry = true) as Hal by (unfold entry_alive; cbn [re_expires_at list_entry]; apply Z.leb_le; unfold seconds; lia).
    unfold wp at 1. rewrite (hset_expire now w2 (task_key q.(tq_boot_task_id)) h); [|done|done| |lia].
    2:{ unfold hash_at, w2. cbn [w_redis update]. rewrite entry_at_insert_ne by apply token_task_key. exact Hth. }
    apply wp_ret. unfold w2. cbn [w_redis update]. rewrite insert_insert_ne by (apply token_task_key || apply task_token_key). apply HQ.
    pose proof (agrees_set _ _ _ _ _ _ Ha2 Hu Ht Hs Hn) as Hset. cbn [w_redis update] in Hset. apply Hset.
    + intros _. exists (<[i := "1"]> h), (now + seconds (lifetime q)). rewrite entry_at_insert, Hal.
      split; [done|]. split; [by rewrite lookup_insert_eq|done].
    + intros b h' x. destruct (decide (q.(tq_boot_task_id) = b)) as [Hb|Hb]; [done|].
      rewrite entry_at_insert_ne by (intros ?%(inj task_key); done). intros E Hi. by destruct (Hunlisted _ _ _ E).
  - apply wp_ret, wp_ret. unfold w2. apply HQ.
    apply (agrees_set _ _ _ _ _ _ Ha1 Hu Ht Hs Hn); [cbn; by rewrite Hd|]. intros b h' x E Hi. by destruct (Hunlisted _ _ _ E).
Qed.

(** ** Any requests *)

Definition op_ok (op : token_op) : Prop :=
  match op with
  | OpGenerate q => request_ok q
  | OpElse f => forall r k, of_tokens k = true -> f r !! k = r !! k
  | _ => True
  end.
Definition draws (op : token_op) : nat := match op with OpGenerate _ => 1 | _ => 0 end.
Definition after_op (op : token_op) (w : web) : web := w <|w_drawn := (w.(w_drawn) + draws op)%nat|>.
Lemma run_op_spec now op w T :
  0 <= now -> representable (now + seconds DEFERRED_TOKEN_MAX_WAIT_SECONDS) -> op_ok op ->
  agrees now T w -> w.(w_redis_up) = true -> w.(w_sess).(s_now) = now ->
  wp (run_op op) (fun a w' => a = fst (spec_op now w.(w_drawn) op T) /\ agrees now (snd (spec_op now w.(w_drawn) op T)) w'
                    /\ w'.(w_drawn) = (w.(w_drawn) + draws op)%nat) (fun _ _ => False) w.
Proof.
  intros Hpos Hrep Hop Ha Hup Hnow. destruct op as [q|b|t f|t f|t|t|b|f]; cbn [run_op spec_op fst snd draws]; rewrite ?Nat.add_0_r.
  - apply wp_bind. eapply (generate_spec now q w T); [done..|]. intros r Hr. apply wp_ret. split; [done|]. split; [exact Hr|cbn; lia].
  - apply wp_bind. eapply (activate_spec now b w T); [done..|]. intros r Hr. by apply wp_ret.
  - apply wp_bind. by eapply (validate_spec now T).
  - apply wp_bind. eapply (consume_token_spec now T); [done..|]. intros r Hr. by apply wp_ret.
  - apply wp_bind. eapply (mark_spec now T); [done..|]. intros r Hr. by apply wp_ret.
  - apply wp_bind. eapply (revoke_spec now T); [done..|]. intros r Hr. by apply wp_ret.
  - apply wp_bind. eapply (revoke_task_spec now b w T); [done..|]. intros r Hr. by apply wp_ret.
  - apply wp_bind, wp_modify, wp_ret. split; [done|]. split; [|done]. apply agrees_else; [|done]. intros k Hk. by apply Hop.
Qed.
(** When Redis cannot be reached, a request fails and changes nothing. *)
Lemma run_op_down op w : w.(w_redis_up) = false -> (forall f, op <> OpElse f) ->
  run_op op w = (Raise connection_error, after_op op w).
Proof.
  intros Hup Hf.
  assert (forall {A} (f : Z -> redis -> outcome exn (A * redis)) (Q : A -> web -> Prop) (R : exn -> web -> Prop) w,
    w.(w_redis_up) = false -> R connection_error w -> wp (redis_cmd f) Q R w) as Hcmd by (intros A f Q R w' Hw HR; unfold wp, redis_cmd; by rewrite Hw).
  assert (after_op op w = w \/ exists q, op = OpGenerate q) as Hcase.
  { destruct op; [by right; eexists|left; unfold after_op; cbn [draws]; rewrite Nat.add_0_r; by destruct w..]. }
  assert (wp (run_op op) (fun _ _ => False) (fun e w' => (e, w') = (connection_error, after_op op w)) w) as H.
  { destruct op as [q|b|t f|t f|t|t|b|f]; [clear Hcase|(destruct Hcase as [->|[? [=]]])..]; cbn [run_op]; [| | | | | | |by destruct (Hf f)].
    - apply wp_bind. unfold generate_token. apply wp_bind. unfold wp at 1, draw. apply wp_bind. unfold wp at 1, web_now, gets.
      apply wp_bind, Hcmd; [done|]. unfold after_op. cbn [draws]. by rewrite Nat.add_1_r.
    - by apply wp_bind, wp_bind, Hcmd.
    - by apply wp_bind, wp_bind, Hcmd.
    - by apply wp_bind, wp_bind, wp_bind, Hcmd.
    - by apply wp_bind, wp_bind, Hcmd.
    - by apply wp_bind, Hcmd.
    - by apply wp_bind, wp_bind, Hcmd. }
  unfold wp in H. destruct (run_op op w) as [[a|e] w']; [done|]. by injection H as -> ->.
Qed.

(** Requests at their times, with whether Redis can be reached. *)
Record token_call : Type := mk_token_call {
  tc_time : Z;
  tc_up : bool;
  tc_op : token_op
}.
Fixpoint serve_tokens (calls : list token_call) (w : web) : list (outcome exn token_answer) :=
  match calls with
  | [] => []
  | c :: calls =>
      let '(answer, w) := request c.(tc_time) c.(tc_up) (run_op c.(tc_op)) w in
      answer :: serve_tokens calls w
  end.
(** The table does not change when Redis cannot be reached. *)
Definition answered (c : token_call) (drawn : nat) (T : grants) : outcome exn token_answer * grants :=
  match c.(tc_up), c.(tc_op) with
  | false, OpElse _ => (Ok ANothing, T)
  | false, _ => (Raise connection_error, T)
  | true, op => let '(answer, T) := spec_op c.(tc_time) drawn op T in (Ok answer, T)
  end.
Fixpoint answers (calls : list token_call) (drawn : nat) (T : grants) : list (outcome exn token_answer) :=
  match calls with
  | [] => []
  | c :: calls =>
      (answered c drawn T).1 :: answers calls (drawn + draws c.(tc_op)) (answered c drawn T).2
  end.
(** The clock does not run backwards, and stays within what a datetime holds. *)
Fixpoint calls_ok (from : Z) (calls : list token_call) : Prop :=
  match calls with
  | [] => True
  | c :: calls =>
      from <= c.(tc_time) /\ representable (c.(tc_time) + seconds DEFERRED_TOKEN_MAX_WAIT_SECONDS) /\ op_ok c.(tc_op)
      /\ calls_ok c.(tc_time) calls
  end.
Lemma agrees_session now T w w' : w'.(w_redis) = w.(w_redis) -> w'.(w_drawn) = w.(w_drawn) -> agrees now T w -> agrees now T w'.
Proof. intros Hr Hd [He Hs Hl Hk]. split; rewrite ?Hr, ?Hd; done. Qed.
Lemma answered_spec now c T w : 0 <= now -> calls_ok now [c] -> agrees now T w ->
  let '(answer, w') := request c.(tc_time) c.(tc_up) (run_op c.(tc_op)) w in
  answer = (answered c w.(w_drawn) T).1 /\ agrees c.(tc_time) (answered c w.(w_drawn) T).2 w'
  /\ w'.(w_drawn) = (w.(w_drawn) + draws c.(tc_op))%nat.
Proof.
  intros Hpos (Hle & Hrep & Hop & _) Ha. apply (agrees_later _ c.(tc_time)) in Ha; [|done].
  set (w1 := begin_request c.(tc_time) c.(tc_up) w). assert (agrees c.(tc_time) T w1) as Ha1 by (by apply (agrees_session _ _ w)).
  unfold request. fold w1. unfold answered. destruct (tc_up c) eqn:Hup.
  - assert (0 <= c.(tc_time)) as Hpos' by lia. pose proof (run_op_spec c.(tc_time) c.(tc_op) w1 T Hpos' Hrep Hop Ha1 eq_refl eq_refl) as H.
    unfold wp in H. destruct (run_op (tc_op c) w1) as [[a|e] w2]; [|done]. destruct H as (-> & H & Hd).
    change (w_drawn w1) with (w_drawn w) in *. destruct (spec_op _ _ _ _) as [answer T']. split; [done|]. split; [by apply (agrees_session _ _ w2)|done].
  - destruct (tc_op c) as [q|b|t f|t f|t|t|b|f] eqn:Ho; try (rewrite run_op_down by done; split; [done|]; split; [|done];
      apply (agrees_session _ _ (after_op c.(tc_op) w1)); [by rewrite Ho..|]; apply agrees_drawn; [lia|exact Ha1]).
    cbn [run_op]. rewrite Nat.add_0_r. split; [done|]. split; [|done].
    apply (agrees_session _ _ (w1 <|w_redis := f w1.(w_redis)|>)); [done..|]. apply agrees_else; [|done]. intros k Hk. by apply Hop.
Qed.
(** A store that holds no token. *)
Definition no_tokens (r : redis) : Prop := forall k, of_tokens k = true -> r !! k = None.
Lemma agrees_start now w : no_tokens w.(w_redis) -> agrees now empty w.
Proof.
  intros Hw. split.
  - intros i. unfold grant_at, redis_entry_at. by rewrite lookup_empty, Hw.
  - intros i g Hg. by rewrite lookup_empty in Hg.
  - intros i g Hg. unfold grant_at in Hg. by rewrite lookup_empty in Hg.
  - intros b e. unfold redis_entry_at. by rewrite Hw.
Qed.
Lemma serve_tokens_spec calls now T w : 0 <= now -> calls_ok now calls -> agrees now T w ->
  serve_tokens calls w = answers calls w.(w_drawn) T.
Proof.
  revert now T w. induction calls as [|c calls IH]; intros now T w Hpos Hok Ha; [done|]. destruct Hok as (H1 & H2 & H3 & Hok).
  cbn [serve_tokens answers]. pose proof (answered_spec now c T w Hpos ltac:(done) Ha) as H.
  destruct (request _ _ _ _) as [answer w']. destruct H as (-> & Ha' & Hd). f_equal. rewrite <- Hd. eapply IH; [|exact Hok|done]. lia.
Qed.

(** C22. Whatever is asked of the download tokens, whenever, and whatever else
    happens to the store in between, the answers are those of a table of grants:
    a token opens the files it was made for, from the moment its script is
    fetched if it is deferred, for its time, and once if it is for single use;
    it is gone when it or its task is revoked.  The list of a task's deferred
    tokens, the times to live and the texts that Redis holds cannot be told from
    the table. *)
Theorem download_tokens_are_grants calls w :
  calls_ok 0 calls -> no_tokens w.(w_redis) -> serve_tokens calls w = answers calls w.(w_drawn) empty.
Proof. intros Hok Hw. eapply serve_tokens_spec; [|exact Hok|by apply agrees_start]. lia. Qed.
End Refinement.

(** * A machine that is installed *)

(** A token baked into a script when the installation is queued; it opens
    nothing until the script is fetched, then opens its image once. *)
Definition image_token : token_request := mk_token_request 7 ["disk.img"] ["logs-*"] 3600 true true.
#[local] Existing Instance sample_auth_lib.
Definition installation : list token_call :=
  let token := token_urlsafe (w_drawn sample_web) in
  let at_hour h op := mk_token_call (seconds (3600 * h)) true op in
  [at_hour 1 (OpGenerate image_token); at_hour 2 (OpConsume token "disk.img"); at_hour 100 (OpActivate 7);
   at_hour 100 (OpValidate token "logs-7"); at_hour 101 (OpConsume token "disk.img");
   at_hour 101 (OpConsume token "disk.img"); at_hour 101 (OpActivate 7); at_hour 102 (OpRevoke token)].
Lemma download_tokens_are_grants_witness :
  calls_ok 0 installation /\ no_tokens (w_redis sample_web)
  /\ serve_tokens installation sample_web = answers installation (w_drawn sample_web) empty
  /\ map (fun a => match a with Ok (AData (Some _)) | Ok (ABool true) | Ok (ACount 1) => true | _ => false end)
       (serve_tokens installation sample_web) = [false; false; true; true; true; false; false; false].
Proof.
  assert (calls_ok 0 installation) as Hok by (vm_compute; repeat split; discriminate).
  assert (no_tokens (w_redis sample_web)) as Hw by (intros k _; apply lookup_empty).
  split; [exact Hok|]. split; [exact Hw|]. split; [exact (download_tokens_are_grants installation sample_web Hok Hw)|].
  vm_compute. reflexivity.
Defined.
